(* ===== verification/_CoqProject ===== *)
-Q . S2P
Prelude.v
GF256.v
AES.v
AESSpec.v
AESKey.v
TOE.v
TOELib.v
RingBuffer.v
Machine.v
Endpoint.v
Controller.v
EndpointPoll.v
EndpointStream.v
Cdc.v
Descriptors.v
ConfigDesc.v
StdReq.v
Packed.v
Printer.v
UsbSerial.v
Adc.v
Capture.v
Usart.v
Logic.v
Regs.v
SerialPort.v
HorrorScope.v
SerialSpec.v
SerialLink.v
HorrorSpec.v
EndpointSpec.v
EndpointData.v
StdReqSpec.v
ControlSpec.v
DescriptorSpec.v
FeatureSpec.v
Enumeration.v
LineSpec.v
CaptureSpec.v
Host.v
Typing.v
TypingUsb.v
TypingScope.v
TypingProps.v
ScopeProps.v
SerialProps.v
UsbProps.v
DataProps.v
PeriphProps.v
AESProps.v
HIDParser.v
HIDSpec.v
HIDBits.v
HIDProps.v
Rndis.v
RndisSpec.v
BulkSpec.v
RndisData.v
RndisProps.v
MassStorage.v
MassSpec.v
MassProps.v
VirtualFAT.v
DiskSpec.v
DiskProps.v
Scsi.v
ScsiSpec.v
ScsiProps.v
Midi.v
HidDevice.v
Audio.v
DriverSpec.v
DriverProps.v
Net.v
Tcp.v
Webserver.v
NetSpec.v
TcpSpec.v
StackSpec.v
NetProps.v
