(* ===== verification/Prelude.v ===== *)
(** * HorrorScope: a verification library

    HorrorScope is an oscilloscope and glitcher for side-channel experiments:
    firmware for an ATxmega32A4U that samples a target's power consumption on
    a trigger, disturbs it with short pulses and talks to a PC over USB, and
    an Arduino target that encrypts with AES. This library models the program
    in Rocq and proves what makes it correct. Paths are below src/; the
    firmware is scope/lufa-LUFA-170418/Projects/HorrorScope/, built on the
    XMEGA back end of LUFA in scope/lufa-LUFA-170418/LUFA/.

    ** The program and its model

    The firmware is one loop (HorrorScope.c, [main]) that reads a command byte
    from the USB serial port, works on the trigger, the ADC, the DMA
    controller and the timers, and answers. The serial port (usb_serial.c)
    puts a ring buffer between the loop and LUFA's CDC class driver, which
    uses LUFA's endpoint functions; LUFA's device task answers the host's
    control requests in between, and the USB bus interrupt changes the device
    state behind the program's back.

    - [Machine]: the state and the monad. [hw] holds the memory-mapped
      registers, the endpoint table, the packet buffers and the sample buffer,
      [fw] the variables of LUFA and usb_serial.c. A program is a function
      [mach -> res A]; it ends in [Ok], in [Blocked] (a busy-wait whose
      condition never comes), in [Fault] (undefined behaviour: a null or
      out-of-range access) or in [Spin] (a loop without polling exceeds its
      bound). The environment is a list of events, one consumed at each
      volatile read the program polls; an event is an arbitrary change of
      [hw], with or without the bus interrupt, which runs the real handler.
      Stores to registers and packets handed to the controller are recorded
      in a trace.
    - [RingBuffer] (Misc/RingBuffer.h), [Endpoint], [EndpointPoll]
      (XMEGA/Endpoint_XMEGA.c and .h), [EndpointStream]
      (EndpointStream_XMEGA.c and its three templates), [Controller]
      (USBController_XMEGA.c, USBInterrupt_XMEGA.c, Device_XMEGA.c, Events.c),
      [Cdc] (CDCClassDevice.c), [Descriptors] (Descriptors.c), [ConfigDesc]
      (ConfigDescriptors.c), [StdReq] (DeviceStandardReq.c, USBTask.c),
      [UsbSerial] (usb_serial.c), [Adc] (adc.c), [Capture] (dmaadc.c,
      trigger.c, hires_glitch.c), [Usart] (usartx.c), [HorrorScope]
      (HorrorScope.c), [HIDParser] (Class/Common/HIDParser.c): one definition
      per C function, under its name; the loop bodies and switch cases of
      longer functions are definitions of their own. C integers are [Z] with
      the truncation of each assignment written out ([u8], [u16], [u32]);
      [char] is unsigned in the firmware, which is built with
      -funsigned-char.
    - [Rndis], [MassStorage], [Printer], [Midi], [HidDevice] and [Audio]: the
      other class drivers of Class/Device/ that the build compiles, on the same
      endpoint functions. The class interface of an application is a record
      that the functions take and give back, the callbacks of the application
      are parameters, and packed structures are byte lists ([Packed]). [Printer]
      also holds the functions of the CDC and printer drivers that set up a
      [FILE].
    - [GF256], [AES] (toe-arduino/sketch_slowAes/aes.c) and [TOE]
      (sketch_slowAes.ino): functions on arrays in the option monad, [None]
      for an access out of range. The Arduino core's [Serial] is a parameter.
      [TOELib] is the variant of the target on AESLib (sketch_oct23a.ino), with
      the library's cipher as a parameter.
    - [VirtualFAT] (Bootloaders/MassStorage/Lib/VirtualFAT.c, with the page
      functions of BootloaderAPI.c) and [Scsi] (Lib/SCSI.c, with the callback
      and the loop of BootloaderMassStorage.c): the application that LUFA has
      for the mass storage driver, a disk whose files are the memories of the
      chip. The chip is the class [Chip], with laws [ChipLaws] taken from the
      documentation of avr-libc and of the memories.

    - [Net], [Tcp] and [Webserver]
      (Demos/Device/ClassDriver/RNDISEthernet/): the application that LUFA has
      for the RNDIS driver, a TCP/IP stack and a web server. Ethernet.c, ARP.c,
      ICMP.c, UDP.c and DHCP.c are in [Net], TCP.c and IP.c and the dispatch of
      frames in [Tcp], Webserver.c and the loop of RNDISEthernet.c in
      [Webserver]. The state [net] holds the two frame buffers, the tables of
      ports and connections and the server's static variable; the protocols are
      computations in the state and option monad [NetM], [None] for an access
      outside an array or through a null pointer. Headers are offsets into the
      buffers, written member by member in the order of the code.

    The command loop is written against the class [SerialPort]
    ([SerialPort.v]), whose laws say what the port promises; [HorrorSpec]
    proves the loop against the laws, [SerialSpec] and [SerialLink] prove
    that usb_serial.c keeps them. [Platform] (in [Controller]) is the class of
    what the chip fixes: the calibration row and the addresses of objects. In
    the same way the disk is written against the class [DiskPort] and proved
    against [PortLaws] ([ScsiSpec]): the boot loader is built for the AVR8 only,
    whose back end is not modelled, so its endpoints appear by these laws, and
    an instance in [ScsiProps] shows that they can be kept.

    ** What is proved

    - [ScopeProps]: any number of iterations of the command loop refines the
      protocol given as the relation [reply], while the DMA controller may
      write samples at any time; a host that is never late gets each reply
      within a bounded number of events; a fetch sends, for each packet, the
      samples that are in the buffer when the packet is filled, which is the
      buffer itself once the controller is idle. The loop has no fuel:
      [main_loop n] runs [n] commands, for every [n].
    - [TypingProps]: the type of the firmware. [Typing] says when all registers,
      variables and arrays are within their widths and sizes, and gives rules
      that follow the syntax of programs; [TypingUsb] and [TypingScope] type
      every function, so that [main] keeps the machine well typed in every
      environment that does, however the run ends.
    - [SerialProps]: bytes, buffers and numbers arrive complete and in order,
      also through a standard stream.
    - [UsbProps]: control requests - refusal, SET_ADDRESS, SET_CONFIGURATION and
      GET_CONFIGURATION, SET_CONTROL_LINE_STATE, GET_DESCRIPTOR, the halt
      feature and the status of an endpoint, the line encoding set and read
      back ([LineSpec]) - and the whole way from power-up
      over a bus reset to the open port, at whose end the invariant holds that
      [SerialProps] and [ScopeProps] start from ([Enumeration]); the endpoints
      a host finds in the descriptors are those SET_CONFIGURATION configures;
      the bus interrupt, the time-out counted in frames, the endpoint table and
      the byte order of the word accessors.
    - [DataProps]: the ring buffer refines a bounded queue; the descriptor
      search.
    - [PeriphProps]: trigger, capture, glitch, ADC and USART, on every branch;
      among them the places where the code does not do what it means to.
    - [AESProps]: key expansion and cipher equal FIPS 197 for the three key
      lengths, decryption inverts encryption, the tables and the field
      multiplication are right, the target serves its line, and its variant on
      AESLib cannot be told apart from it.
    - [HIDProps]: the HID report parser keeps its tables in order and is total
      on whole items; values written into reports are read back.
    - [RndisProps]: every control message is answered as the specification of
      the responder says, the answers fit the buffer, what the driver takes
      from the host without a check, and frames cross the bulk pipes.
    - [MassProps]: a command block is read, served and answered with a status
      wrapper that carries its tag, or refused with both endpoints halted.
    - [DiskProps]: whatever a host writes to the virtual disk, the boot loader
      stays intact; blocks are stored; the allocation tables describe the
      files, as long as the files lie in order and below cluster 171.
    - [ScsiProps]: the SCSI commands are answered as the relation [scsi_reply]
      says; an ejected volume ends the boot loader's loop.
    - [DriverProps]: MIDI events cross the bulk pipes, HID reports are sent
      when they are due, audio samples keep their value up to 16 bits, and the
      printer's port status is not sent.
    - [NetProps]: the checksum routines compute the checksum of RFC 1071; ARP
      requests, pings and DHCP messages in whole frames are answered by the
      frames the standards ask for; the table of connections refines a bounded
      map; TCP segments move their connection as the state machine [react] does
      and get its answers; a request for the page is answered by the page; and a
      ping goes through the device from the packets of the OUT endpoint to those
      of the IN endpoint. Frames are built by [frame], [ip_packet],
      [tcp_segment] and the like ([NetSpec], [TcpSpec]), which follow the
      standards and not the code. Examples at its end run the stack where it
      takes something for granted: a segment to a closed port, data that do not
      fit, a repeated segment, a frame of the page that is overwritten.

    The files between the models and these (…Spec, [Logic], [Regs], [Host],
    [EndpointData], [RndisData], [HIDBits]) hold the lemmas: a weakest
    precondition for the monad, register-level automation, the invariants, a
    concrete host on which the theorems are instantiated. [BulkSpec] states
    once what the stream functions do on a pair of bulk endpoints of any
    number, also for streams that take many packets; the class drivers are
    proved against it. The class [Silent] of [DriverSpec] holds of the
    computations that send no packet, decided by instance search. [NetSpec] and
    [TcpSpec] prove the protocols on their headers wherever these lie in a
    frame, [StackSpec] puts them together to whole frames and to USB.

    ** Bounds and fuel

    [iter] runs a polling loop as long as the environment has events, so a
    bound on the number of events is part of the statements about progress,
    never of those about safety. Loops without polling are structural
    recursions on a count that the code fixes ([for_], [repeat_], packet
    sizes); [epsize_loop], [divider_loop] and the descriptor walks take fuel,
    and the theorems about them say how much suffices or that none does. Two
    rounds ([CARRY_FUEL]) fold the carries of every 32-bit sum
    ([fold_carries_eq]). The search through the DHCP options tells the end of
    its fuel ([Unfinished]) from an access behind the frame ([Overrun]), and
    the length of the frame is enough fuel: the first never happens
    ([dhcp_search]).

    ** Assumptions on the environment

    Statements about safety hold for every list of events, or for every list
    that keeps types ([TypingProps]). Statements about progress name what the
    events may do: [prompt_event] and [scope_event] for the serial port,
    [ctl_event] for control requests, [pipe_event] for the bulk endpoints of the
    other class drivers. The last excludes bus resets and every change of the
    two endpoints' control registers while the driver is at work. The four
    packet buffers have the sizes of usb_serial.c ([fifo_size]): 64 bytes for
    the data, 8 for the control and notification endpoints.

    ** Not modelled

    The host scripts (acq, fi, julia), the board, LUFA's other architectures,
    host mode, the other demos, bootloaders and projects; of the mass storage
    boot loader, the start-up code that reads fuses, the LEDs and the
    descriptors; of the RNDIS application, the LEDs, the set-up of the board and
    ProtocolDecoders.c, which prints and is switched off by its configuration.
    The EEPROM and the [FILE] functions of
    avr-libc are parameters or appear as far as the code sets them up.
    Interrupts are taken, and the DMA controller and the host act, where the
    program polls, not between any two instructions.

    ** Next

    The control requests of the class drivers as end-to-end theorems; the
    non-overlap of the items the HID parser lays out; two connections of the
    web server at a time, which share its position in the page. *)
From stdpp Require Export base list option numbers decidable sets.
From Stdlib Require Export ZArith Lia.

#[export] Set Default Goal Selector "!".

Declare Scope c_scope.
Delimit Scope c_scope with c.
Open Scope Z_scope.

(** ** Machine integers

    A [w]-bit unsigned C object is a [Z]; assignments truncate with
    [u8], [u16], [u32]. *)
Definition u8 (x : Z) : Z := x mod 256.
Definition u16 (x : Z) : Z := x mod 65536.
Definition u32 (x : Z) : Z := x mod 4294967296.

Infix ".&" := Z.land (at level 40, left associativity) : c_scope.
Infix ".|" := Z.lor (at level 50, left associativity) : c_scope.
Infix ".^" := Z.lxor (at level 50, left associativity) : c_scope.
Infix "<<" := Z.shiftl (at level 34, left associativity) : c_scope.
Infix ">>" := Z.shiftr (at level 34, left associativity) : c_scope.
Open Scope c_scope.

(** [tst x m]: the C condition [x & m]. *)
Definition tst (x m : Z) : bool := negb (x .& m =? 0).

(** [clr x m]: the 8-bit [x & ~m]. *)
Definition clr8 (x m : Z) : Z := x .& (255 .^ m).

Definition byte (x : Z) : Prop := 0 ≤ x < 256.
Definition word16 (x : Z) : Prop := 0 ≤ x < 65536.
Definition bytes (l : list Z) : Prop := Forall byte l.

#[export] Instance byte_dec x : Decision (byte x).
Proof. unfold byte. apply _. Defined.

Create HintDb cint.

Lemma u8_byte x : byte (u8 x).
Proof. apply Z.mod_pos_bound. lia. Qed.

Lemma u16_word x : word16 (u16 x).
Proof. apply Z.mod_pos_bound. lia. Qed.

Lemma u8_small x : byte x → u8 x = x.
Proof. apply Z.mod_small. Qed.

Lemma u16_small x : word16 x → u16 x = x.
Proof. apply Z.mod_small. Qed.

(** Bitwise operations stay within a width. *)
Lemma bits_bound n x : 0 ≤ n → 0 ≤ x → (∀ i, n ≤ i → Z.testbit x i = false) → x < 2 ^ n.
Proof.
  intros Hn Hx Hb. destruct (decide (x = 0)) as [->|]; [apply Z.pow_pos_nonneg; lia|].
  apply Z.log2_lt_pow2; [lia|]. destruct (decide (Z.log2 x < n)); [done|].
  assert (Z.testbit x (Z.log2 x) = true) by (apply Z.bit_log2; lia).
  rewrite Hb in *; [done|lia].
Qed.

Lemma high_bits n x i : 0 ≤ x < 2 ^ n → n ≤ i → Z.testbit x i = false.
Proof.
  intros Hx Hi. destruct (decide (x = 0)) as [->|]; [apply Z.bits_0|].
  apply Z.bits_above_log2; [lia|]. apply Z.log2_lt_pow2; [lia|].
  eapply Z.lt_le_trans; [apply Hx|]. apply Z.pow_le_mono_r; lia.
Qed.

Lemma lxor_bound n x y : 0 ≤ n → 0 ≤ x < 2 ^ n → 0 ≤ y < 2 ^ n → 0 ≤ x .^ y < 2 ^ n.
Proof.
  intros Hn Hx Hy. split; [apply Z.lxor_nonneg; lia|].
  apply bits_bound; [done|apply Z.lxor_nonneg; lia|].
  intros i Hi. rewrite Z.lxor_spec, (high_bits n x), (high_bits n y); done.
Qed.

Lemma lor_bound n x y : 0 ≤ n → 0 ≤ x < 2 ^ n → 0 ≤ y < 2 ^ n → 0 ≤ x .| y < 2 ^ n.
Proof.
  intros Hn Hx Hy. split; [apply Z.lor_nonneg; lia|].
  apply bits_bound; [done|apply Z.lor_nonneg; lia|].
  intros i Hi. rewrite Z.lor_spec, (high_bits n x), (high_bits n y); done.
Qed.

Lemma land_bound n x y : 0 ≤ n → 0 ≤ x < 2 ^ n → 0 ≤ y → 0 ≤ x .& y < 2 ^ n.
Proof.
  intros Hn Hx Hy. split; [apply Z.land_nonneg; lia|].
  apply bits_bound; [done|apply Z.land_nonneg; lia|].
  intros i Hi. rewrite Z.land_spec, (high_bits n x); done.
Qed.

Lemma byte_lxor x y : byte x → byte y → byte (x .^ y).
Proof. apply (lxor_bound 8). lia. Qed.
(** A word put together from a high and a low part. *)
Lemma shift_or n x y : 0 ≤ n → 0 ≤ y < 2 ^ n → (x << n) .| y = x * 2 ^ n + y.
Proof.
  intros Hn Hy. assert (Z.land (x << n) y = 0) as Hz.
  { apply Z.bits_inj'. intros i Hi. rewrite Z.land_spec, Z.bits_0. destruct (Z.lt_ge_cases i n).
    - by rewrite Z.shiftl_spec_low.
    - destruct (decide (y = 0)) as [->|Hy0]; [by rewrite Z.bits_0, andb_false_r|].
      rewrite (Z.bits_above_log2 y), andb_false_r; [done|lia|].
      apply Z.log2_lt_pow2; [lia|]. pose proof (Z.pow_le_mono_r 2 n i). lia. }
  rewrite <-Z.lxor_lor, <-Z.add_nocarry_lxor by done. by rewrite Z.shiftl_mul_pow2.
Qed.

Lemma byte_lor x y : byte x → byte y → byte (x .| y).
Proof. apply (lor_bound 8). lia. Qed.
Lemma byte_land x y : byte x → 0 ≤ y → byte (x .& y).
Proof. apply (land_bound 8). lia. Qed.

#[export] Hint Resolve u8_byte u16_word byte_lxor byte_lor byte_land : cint.
#[export] Hint Extern 1 (byte (Zpos _)) => (split; [discriminate|reflexivity]) : cint.
#[export] Hint Extern 1 (byte 0) => (split; [discriminate|reflexivity]) : cint.

(** Exhaustive checks over bytes. *)
Definition all_bytes : list Z := seqZ 0 256.

Lemma byte_forall (P : Z → bool) :
  forallb P all_bytes = true → ∀ x, byte x → P x = true.
Proof.
  intros H x Hx. apply (proj1 (forallb_forall _ _) H).
  apply list_elem_of_In, elem_of_seqZ. unfold byte in Hx. lia.
Qed.

(** Bytes as sums of bits: an additive function on bytes is determined by
    its values on the eight powers of two. *)
Definition bitv (x : Z) (i : Z) : Z := if Z.testbit x i then 2 ^ i else 0.
Definition bitsum (x : Z) : Z :=
  bitv x 0 .^ (bitv x 1 .^ (bitv x 2 .^ (bitv x 3 .^
  (bitv x 4 .^ (bitv x 5 .^ (bitv x 6 .^ bitv x 7)))))).

Lemma byte_bitsum x : byte x → bitsum x = x.
Proof.
  intros Hx. apply Z.eqb_eq.
  apply (byte_forall (λ y, bitsum y =? y)); [vm_compute; reflexivity|done].
Qed.

Definition additive (f : Z → Z) : Prop :=
  ∀ x y, byte x → byte y → f (x .^ y) = f x .^ f y.

Lemma additive_0 f : additive f → f 0 = 0.
Proof.
  intros H. assert (byte 0) as B by (split; lia).
  pose proof (H 0 0 B B) as E. rewrite Z.lxor_nilpotent in E. rewrite E.
  by rewrite Z.lxor_nilpotent.
Qed.

Lemma byte_bitv x i : 0 ≤ i < 8 → byte (bitv x i).
Proof.
  intros Hi. unfold bitv, byte. destruct (Z.testbit x i); [|lia].
  split; [apply Z.pow_nonneg; lia|]. change 256 with (2 ^ 8). apply Z.pow_lt_mono_r; lia.
Qed.

Lemma additive_bitsum f x : additive f →
  f (bitsum x) = f (bitv x 0) .^ (f (bitv x 1) .^ (f (bitv x 2) .^ (f (bitv x 3) .^
    (f (bitv x 4) .^ (f (bitv x 5) .^ (f (bitv x 6) .^ f (bitv x 7))))))).
Proof.
  intros H. unfold bitsum.
  rewrite !H; try done; repeat first [apply byte_bitv; lia|apply byte_lxor].
Qed.

Lemma additive_ext f g :
  additive f → additive g → (∀ i, 0 ≤ i < 8 → f (2 ^ i) = g (2 ^ i)) →
  ∀ x, byte x → f x = g x.
Proof.
  intros Hf Hg Hb x Hx. rewrite <-(byte_bitsum x Hx), !additive_bitsum by done.
  assert (∀ i, 0 ≤ i < 8 → f (bitv x i) = g (bitv x i)) as E.
  { intros i Hi. unfold bitv. destruct (Z.testbit x i); [by apply Hb|].
    by rewrite !additive_0. }
  rewrite !E by lia. done.
Qed.

(** The eight basis bytes, and statements about them by evaluation. *)
Definition basis : list Z := map (λ i, 2 ^ i) (seqZ 0 8).

Lemma basis_forall (P : Z → bool) :
  forallb P basis = true → ∀ i, 0 ≤ i < 8 → P (2 ^ i) = true.
Proof.
  intros H i Hi. apply (proj1 (forallb_forall _ _) H).
  apply (in_map (λ i, 2 ^ i)), list_elem_of_In, elem_of_seqZ. lia.
Qed.

Lemma additive_ext_basis f g :
  additive f → additive g → forallb (λ a, f a =? g a) basis = true →
  ∀ x, byte x → f x = g x.
Proof.
  intros Hf Hg Hb. apply additive_ext; [done..|]. intros i Hi.
  apply Z.eqb_eq. by apply (basis_forall (λ a, f a =? g a)).
Qed.

Lemma bilinear_ext_basis (f g : Z → Z → Z) :
  (∀ b, byte b → additive (λ a, f a b)) → (∀ b, byte b → additive (λ a, g a b)) →
  (∀ a, byte a → additive (f a)) → (∀ a, byte a → additive (g a)) →
  forallb (λ b, forallb (λ a, f a b =? g a b) basis) basis = true →
  ∀ x y, byte x → byte y → f x y = g x y.
Proof.
  intros Hf1 Hg1 Hf2 Hg2 Hb x y Hx Hy. revert y Hy.
  apply additive_ext; [auto..|]. intros j Hj.
  assert (byte (2 ^ j)).
  { split; [apply Z.pow_nonneg; lia|apply (Z.pow_lt_mono_r 2 j 8); lia]. }
  revert x Hx. apply (additive_ext_basis (λ a, f a (2 ^ j)) (λ a, g a (2 ^ j))); [auto..|].
  by apply (basis_forall (λ b, forallb (λ a, f a b =? g a b) basis)).
Qed.

(** Additive functions compose. *)
Lemma additive_comp f g : additive f → additive g → (∀ x, byte x → byte (g x)) →
  additive (λ x, f (g x)).
Proof. intros Hf Hg Hb x y Hx Hy. rewrite Hg, Hf; auto. Qed.

(** ** Arrays and counted loops in the error monad

    Out-of-range accesses are undefined behaviour: they give [None]. *)
Definition rd {A} (a : list A) (i : Z) : option A :=
  if 0 <=? i then a !! Z.to_nat i else None.
Definition wr {A} (a : list A) (i : Z) (v : A) : option (list A) :=
  if (0 <=? i) && (i <? Z.of_nat (length a)) then Some (<[Z.to_nat i := v]> a) else None.

(** [for_ n i f]: [n] iterations of [f], the counter starting at [i]. *)
Fixpoint for_ {S} (n : nat) (i : Z) (f : Z → S → option S) (s : S) : option S :=
  match n with
  | O => Some s
  | Datatypes.S n' => s' ← f i s; for_ n' (i + 1) f s'
  end.

(** [for (i = lo; i < hi; i++)] *)
Definition for_up {S} (lo hi : Z) := @for_ S (Z.to_nat (hi - lo)) lo.

(** [for (i = hi; i >= lo; i--)] *)
Definition for_down {S} (hi lo : Z) (f : Z → S → option S) : S → option S :=
  @for_ S (Z.to_nat (hi - lo + 1)) (- hi) (λ i, f (- i)).

Lemma for_snoc {S} n i (f : Z → S → option S) s :
  for_ (Datatypes.S n) i f s = s' ← for_ n i f s; f (i + Z.of_nat n) s'.
Proof.
  revert i s. induction n as [|n IH]; intros i s.
  { simpl. change (i + Z.of_nat 0) with (i + 0). rewrite Z.add_0_r. by destruct (f i s). }
  change (for_ (Datatypes.S (Datatypes.S n)) i f s) with (f i s ≫= for_ (Datatypes.S n) (i + 1) f).
  change (for_ (Datatypes.S n) i f s) with (f i s ≫= for_ n (i + 1) f).
  destruct (f i s) as [s1|]; cbn [mbind option_bind]; [|done].
  rewrite IH. by replace (i + 1 + Z.of_nat n) with (i + Z.of_nat (Datatypes.S n)) by lia.
Qed.

(** Loop invariants. *)
Lemma for_inv {S} (I : Z → S → Prop) n i (f : Z → S → option S) s :
  I i s →
  (∀ k s, i ≤ k < i + Z.of_nat n → I k s → ∃ s', f k s = Some s' ∧ I (k + 1) s') →
  ∃ s', for_ n i f s = Some s' ∧ I (i + Z.of_nat n) s'.
Proof.
  revert i s. induction n as [|n IH]; intros i s Hi Hf.
  { exists s. split; [done|]. by rewrite Z.add_0_r. }
  destruct (Hf i s) as (s1 & E1 & H1); [lia|done|].
  destruct (IH (i + 1) s1 H1) as (s' & E & H').
  { intros k s0 Hk. apply Hf. lia. }
  exists s'. cbn [for_]. rewrite E1. split; [done|].
  by replace (i + Z.of_nat (Datatypes.S n)) with (i + 1 + Z.of_nat n) by lia.
Qed.

Lemma seqZ_snoc i n : seqZ i (Z.of_nat (S n)) = seqZ i (Z.of_nat n) ++ [i + Z.of_nat n].
Proof.
  replace (Z.of_nat (S n)) with (Z.of_nat n + 1) by lia. rewrite seqZ_app by lia. done.
Qed.

(** A loop that tracks a fold through a representation function [h]. *)
Lemma for_foldl {S T} (P : T → Prop) (h : T → S) (g : T → Z → T) f n i t :
  P t →
  (∀ k t, i ≤ k < i + Z.of_nat n → P t → f k (h t) = Some (h (g t k)) ∧ P (g t k)) →
  for_ n i f (h t) = Some (h (foldl g t (seqZ i (Z.of_nat n)))) ∧ P (foldl g t (seqZ i (Z.of_nat n))).
Proof.
  intros Ht Hf. induction n as [|n IH]; [done|].
  destruct IH as [E Hp]; [intros k u Hk; apply Hf; lia|].
  rewrite for_snoc, seqZ_snoc, foldl_app, E. cbn. apply Hf; [lia|done].
Qed.

Lemma for_down_foldr {S T} (P : T → Prop) (h : T → S) (g : Z → T → T) f lo n t :
  P t →
  (∀ k t, lo ≤ k < lo + Z.of_nat n → P t → f k (h t) = Some (h (g k t)) ∧ P (g k t)) →
  for_down (lo + Z.of_nat n - 1) lo f (h t) = Some (h (foldr g t (seqZ lo (Z.of_nat n)))) ∧
  P (foldr g t (seqZ lo (Z.of_nat n))).
Proof.
  unfold for_down. replace (Z.to_nat (lo + Z.of_nat n - 1 - lo + 1)) with n by lia.
  revert t. induction n as [|n IH]; intros t Ht Hf; [done|].
  destruct (Hf (lo + Z.of_nat n) t) as [E Hp]; [lia|done|].
  cbn [for_]. replace (- - (lo + Z.of_nat (Datatypes.S n) - 1)) with (lo + Z.of_nat n) by lia.
  rewrite E. cbn [mbind option_bind].
  replace (- (lo + Z.of_nat (Datatypes.S n) - 1) + 1) with (- (lo + Z.of_nat n - 1)) by lia.
  rewrite seqZ_snoc, foldr_app. apply IH; [done|]. intros k u Hk. apply Hf. lia.
Qed.

Lemma rd_Some {A} (a : list A) i v : rd a i = Some v ↔ 0 ≤ i ∧ a !! Z.to_nat i = Some v.
Proof.
  unfold rd. destruct (Z.leb_spec 0 i); split; [tauto|tauto|done|].
  intros [? _]. lia.
Qed.

Lemma wr_Some {A} (a : list A) i v : 0 ≤ i < Z.of_nat (length a) → wr a i v = Some (<[Z.to_nat i := v]> a).
Proof.
  intros Hi. unfold wr.
  destruct (Z.leb_spec 0 i), (Z.ltb_spec i (Z.of_nat (length a))); try lia. done.
Qed.

(** Reads and writes in a concatenation. *)
Lemma rd_app_l {A} (a b : list A) i : i < Z.of_nat (length a) → rd (a ++ b) i = rd a i.
Proof.
  intros Hi. unfold rd. destruct (Z.leb_spec 0 i); [|done]. apply lookup_app_l. lia.
Qed.

Lemma wr_app_r {A} (a b : list A) i v : 0 ≤ i →
  wr (a ++ b) (Z.of_nat (length a) + i) v = b' ← wr b i v; Some (a ++ b').
Proof.
  intros Hi. unfold wr. rewrite length_app.
  destruct (Z.leb_spec 0 (Z.of_nat (length a) + i)); [|lia]. destruct (Z.leb_spec 0 i); [|lia].
  destruct (Z.ltb_spec (Z.of_nat (length a) + i) (Z.of_nat (length a + length b))),
    (Z.ltb_spec i (Z.of_nat (length b))); try lia; [|done]. cbn. f_equal.
  replace (Z.to_nat (Z.of_nat (length a) + i)) with (length a + Z.to_nat i)%nat by lia.
  apply insert_app_r.
Qed.
