(* ===== verification/GF256.v ===== *)
(** * Finite-field arithmetic of the target

    The byte and word arithmetic at the top of
    src/toe-arduino/sketch_slowAes/aes.c: [gadd], [gsub], [gmult] on single
    bytes and [coef_add], [coef_mult] on four-byte words, with a reference
    definition of GF(2^8) as polynomials over GF(2) modulo
    x^8 + x^4 + x^3 + x + 1, the field laws of [gmult] obtained from it, and
    the ring of four-term polynomials modulo x^4 + 1. *)
From Stdlib Require Import Btauto.
From S2P Require Import Prelude.

(** ** The code *)
Definition gadd (a b : Z) : Z := a .^ b.
Definition gsub (a b : Z) : Z := a .^ b.

(** The loop of [gmult]: [n] iterations left, with the variables [a], [b]
    and [p]. *)
Fixpoint gmult_loop (n : nat) (a b p : Z) : Z :=
  match n with
  | O => p
  | S n' =>
      let p := if tst b 1 then p .^ a else p in
      let hbs := a .& 0x80 in
      let a := u8 (a << 1) in
      let a := if hbs =? 0 then a else a .^ 0x1b in
      let b := b >> 1 in
      gmult_loop n' a b p
  end.

Definition gmult (a b : Z) : Z := gmult_loop 8 a b 0.

Definition coef_add (a b d : list Z) : option (list Z) :=
  a0 ← rd a 0; b0 ← rd b 0; d ← wr d 0 (a0 .^ b0);
  a1 ← rd a 1; b1 ← rd b 1; d ← wr d 1 (a1 .^ b1);
  a2 ← rd a 2; b2 ← rd b 2; d ← wr d 2 (a2 .^ b2);
  a3 ← rd a 3; b3 ← rd b 3; wr d 3 (a3 .^ b3).

Definition coef_mult (a b d : list Z) : option (list Z) :=
  a0 ← rd a 0; a1 ← rd a 1; a2 ← rd a 2; a3 ← rd a 3;
  b0 ← rd b 0; b1 ← rd b 1; b2 ← rd b 2; b3 ← rd b 3;
  d ← wr d 0 (gmult a0 b0 .^ gmult a3 b1 .^ gmult a2 b2 .^ gmult a1 b3);
  d ← wr d 1 (gmult a1 b0 .^ gmult a0 b1 .^ gmult a3 b2 .^ gmult a2 b3);
  d ← wr d 2 (gmult a2 b0 .^ gmult a1 b1 .^ gmult a0 b2 .^ gmult a3 b3);
  wr d 3 (gmult a3 b0 .^ gmult a2 b1 .^ gmult a1 b2 .^ gmult a0 b3).

(** ** Reference: polynomials over GF(2)

    Bit [i] of an integer is the coefficient of x^i. [clmul] is the product
    of polynomials, [pmod] the remainder modulo the polynomial 0x11b of a
    polynomial of degree below 16. *)
Definition clmul (a b : Z) : Z :=
  foldr (λ i acc, (if Z.testbit b i then a << i else 0) .^ acc) 0 (seqZ 0 8).

Fixpoint pmod_loop (n : nat) (p : Z) : Z :=
  match n with
  | O => p
  | S n' => pmod_loop n' (if Z.testbit p (8 + Z.of_nat n') then p .^ (0x11b << Z.of_nat n') else p)
  end.
Definition pmod (p : Z) : Z := pmod_loop 8 p.

Definition gf_mul (a b : Z) : Z := pmod (clmul a b).

(** ** [gmult] as a sum of [xtime] powers *)
Definition xtime (a : Z) : Z :=
  let hbs := a .& 0x80 in
  let a := u8 (a << 1) in
  if hbs =? 0 then a else a .^ 0x1b.

Lemma xtime_shift a : byte a →
  xtime a = (a << 1) .^ (if Z.testbit a 7 then 0x11b else 0).
Proof.
  intros H. apply Z.eqb_eq.
  by apply (byte_forall (λ a, xtime a =? (a << 1) .^ (if Z.testbit a 7 then 0x11b else 0))).
Qed.

Lemma byte_xtime a : byte (xtime a).
Proof. unfold xtime. destruct (_ =? _); auto with cint. Qed.
#[export] Hint Resolve byte_xtime : cint.

(** Equalities of sums in GF(2)[x], bit by bit. *)
Ltac lxor_ac :=
  apply Z.bits_inj'; intros ? ?; rewrite ?Z.lxor_spec, ?Z.bits_0; btauto.

Lemma xtime_additive : additive xtime.
Proof.
  intros x y Hx Hy. rewrite !xtime_shift by auto with cint.
  rewrite Z.shiftl_lxor, Z.lxor_spec.
  destruct (Z.testbit x 7), (Z.testbit y 7); cbn [xorb];
    rewrite ?Z.lxor_0_r; lxor_ac.
Qed.

Lemma gmult_loop_xtime n a b p :
  gmult_loop (S n) a b p = gmult_loop n (xtime a) (b >> 1) (if Z.testbit b 0 then p .^ a else p).
Proof.
  cbn [gmult_loop]. unfold xtime, tst. f_equal.
  change 1 with (Z.ones 1). rewrite Z.land_ones by lia. change (2 ^ 1) with 2.
  rewrite <-Z.bit0_mod. by destruct (Z.testbit b 0).
Qed.

Lemma gmult_loop_acc n a b p : gmult_loop n a b p = p .^ gmult_loop n a b 0.
Proof.
  revert a b p. induction n as [|n IH]; intros a b p.
  { cbn. by rewrite Z.lxor_0_r. }
  rewrite !gmult_loop_xtime, IH. symmetry. rewrite IH.
  destruct (Z.testbit b 0); [|by rewrite Z.lxor_0_l].
  by rewrite Z.lxor_0_l, Z.lxor_assoc.
Qed.

Lemma gmult_loop_byte n a b p : byte a → byte p → byte (gmult_loop n a b p).
Proof.
  revert a b p. induction n as [|n IH]; intros a b p Ha Hp; [done|].
  rewrite gmult_loop_xtime. apply IH; [auto with cint|].
  destruct (Z.testbit b 0); auto with cint.
Qed.

Lemma byte_gmult a b : byte a → byte (gmult a b).
Proof. intros. apply gmult_loop_byte; [done|]. split; lia. Qed.
#[export] Hint Resolve byte_gmult : cint.

Lemma gmult_loop_additive_l n b : additive (λ a, gmult_loop n a b 0).
Proof.
  revert b. induction n as [|n IH]; intros b x y Hx Hy; [done|].
  rewrite !gmult_loop_xtime, xtime_additive by done.
  rewrite gmult_loop_acc, (gmult_loop_acc n (xtime x)), (gmult_loop_acc n (xtime y)).
  rewrite (IH (b >> 1)) by auto with cint.
  destruct (Z.testbit b 0); rewrite ?Z.lxor_0_l; [|done]. lxor_ac.
Qed.

Lemma gmult_loop_additive_r n a b c : 
  gmult_loop n a (b .^ c) 0 = gmult_loop n a b 0 .^ gmult_loop n a c 0.
Proof.
  revert a b c. induction n as [|n IH]; intros a b c; [done|].
  rewrite !gmult_loop_xtime, Z.shiftr_lxor, Z.lxor_spec.
  rewrite gmult_loop_acc, (gmult_loop_acc n _ (b >> 1)), (gmult_loop_acc n _ (c >> 1)), IH.
  destruct (Z.testbit b 0), (Z.testbit c 0); cbn [xorb]; rewrite ?Z.lxor_0_l; lxor_ac.
Qed.

Lemma gmult_additive_l b : additive (λ a, gmult a b).
Proof. apply gmult_loop_additive_l. Qed.
Lemma gmult_additive_r a : additive (gmult a).
Proof. intros x y _ _. apply gmult_loop_additive_r. Qed.

Lemma gmult_lxor_l x y b : byte x → byte y → gmult (x .^ y) b = gmult x b .^ gmult y b.
Proof. apply gmult_additive_l. Qed.
Lemma gmult_lxor_r a x y : gmult a (x .^ y) = gmult a x .^ gmult a y.
Proof. apply gmult_loop_additive_r. Qed.

(** *** The reference is bilinear too *)
Lemma clmul_foldr_additive_l b l : additive (λ a, foldr (λ i acc, (if Z.testbit b i then a << i else 0) .^ acc) 0 l).
Proof.
  intros x y Hx Hy. induction l as [|i l IH]; [done|]. cbn [foldr]. rewrite IH, Z.shiftl_lxor.
  destruct (Z.testbit b i); rewrite ?Z.lxor_0_l; [|done]. lxor_ac.
Qed.

Lemma clmul_foldr_additive_r a l : additive (λ b, foldr (λ i acc, (if Z.testbit b i then a << i else 0) .^ acc) 0 l).
Proof.
  intros x y Hx Hy. induction l as [|i l IH]; [done|]. cbn [foldr]. rewrite IH, Z.lxor_spec.
  destruct (Z.testbit x i), (Z.testbit y i); cbn [xorb]; lxor_ac.
Qed.

Lemma pmod_loop_lxor n p q : pmod_loop n (p .^ q) = pmod_loop n p .^ pmod_loop n q.
Proof.
  revert p q. induction n as [|n IH]; intros p q; [done|]. cbn [pmod_loop].
  rewrite <-IH. f_equal. rewrite Z.lxor_spec.
  destruct (Z.testbit p _), (Z.testbit q _); cbn [xorb]; lxor_ac.
Qed.

Lemma gf_mul_additive_l b : additive (λ a, gf_mul a b).
Proof.
  intros x y Hx Hy. unfold gf_mul, pmod, clmul.
  rewrite (clmul_foldr_additive_l b _ x y Hx Hy). apply pmod_loop_lxor.
Qed.

Lemma gf_mul_additive_r a : additive (gf_mul a).
Proof.
  intros x y Hx Hy. unfold gf_mul, pmod, clmul.
  rewrite (clmul_foldr_additive_r a _ x y Hx Hy). apply pmod_loop_lxor.
Qed.

Lemma gmult_gf_mul a b : byte a → byte b → gmult a b = gf_mul a b.
Proof.
  apply bilinear_ext_basis;
    auto using gmult_additive_l, gmult_additive_r, gf_mul_additive_l, gf_mul_additive_r.
Qed.

Lemma byte_gf_mul a b : byte a → byte b → byte (gf_mul a b).
Proof. intros. rewrite <-gmult_gf_mul by done. by apply byte_gmult. Qed.
#[export] Hint Resolve byte_gf_mul : cint.

(** ** Field laws *)
Lemma gmult_comm a b : byte a → byte b → gmult a b = gmult b a.
Proof.
  apply (bilinear_ext_basis gmult (λ a b, gmult b a));
    auto using gmult_additive_l, gmult_additive_r.
Qed.

Lemma gmult_assoc a b c : byte a → byte b → byte c →
  gmult (gmult a b) c = gmult a (gmult b c).
Proof.
  intros Ha Hb. revert c. apply additive_ext; [apply gmult_additive_r| |].
  { apply additive_comp; auto using gmult_additive_r with cint. }
  intros k Hk. revert a b Ha Hb.
  apply (bilinear_ext_basis (λ a b, gmult (gmult a b) (2 ^ k)) (λ a b, gmult a (gmult b (2 ^ k)))).
  - intros b Hb. apply (additive_comp (λ x, gmult x (2 ^ k)) (λ x, gmult x b));
      auto using gmult_additive_l with cint.
  - intros b Hb. apply gmult_additive_l.
  - intros a Ha. apply (additive_comp (λ x, gmult x (2 ^ k)) (gmult a));
      auto using gmult_additive_l, gmult_additive_r with cint.
  - intros a Ha. apply (additive_comp (gmult a) (λ x, gmult x (2 ^ k)));
      auto using gmult_additive_l, gmult_additive_r with cint.
  - revert k Hk. apply (basis_forall (λ c, forallb (λ b, forallb (λ a,
      gmult (gmult a b) c =? gmult a (gmult b c)) basis) basis)).
    vm_compute. reflexivity.
Qed.

Lemma gmult_1_r a : byte a → gmult a 1 = a.
Proof. apply (additive_ext_basis (λ a, gmult a 1) (λ a, a)); [apply gmult_additive_l|done|done]. Qed.

Lemma gmult_0_l b : gmult 0 b = 0.
Proof. apply (additive_0 (λ a, gmult a b)), gmult_additive_l. Qed.

Lemma gmult_0_r a : gmult a 0 = 0.
Proof. apply (additive_0 (gmult a)), gmult_additive_r. Qed.

Arguments gmult : simpl never.
Arguments gf_mul : simpl never.
