(* ===== verification/AES.v ===== *)
(** * The AES implementation of the target

    src/toe-arduino/sketch_slowAes/aes.c from the S-boxes to [inv_cipher],
    statement by statement. Arrays are lists, the functions that write
    through a pointer return the new contents, and an access outside an
    array gives [None]. [Nb] is the global that is initialised to 4 and
    never assigned; [Nk] and [Nr], which the sketch sets, are arguments;
    the global [R] of [Rcon] is threaded. *)
From S2P Require Import Prelude GF256.

Definition Nb : Z := 4.

Definition s_box : list Z :=
  [0x63; 0x7c; 0x77; 0x7b; 0xf2; 0x6b; 0x6f; 0xc5; 0x30; 0x01; 0x67; 0x2b; 0xfe; 0xd7; 0xab; 0x76;
   0xca; 0x82; 0xc9; 0x7d; 0xfa; 0x59; 0x47; 0xf0; 0xad; 0xd4; 0xa2; 0xaf; 0x9c; 0xa4; 0x72; 0xc0;
   0xb7; 0xfd; 0x93; 0x26; 0x36; 0x3f; 0xf7; 0xcc; 0x34; 0xa5; 0xe5; 0xf1; 0x71; 0xd8; 0x31; 0x15;
   0x04; 0xc7; 0x23; 0xc3; 0x18; 0x96; 0x05; 0x9a; 0x07; 0x12; 0x80; 0xe2; 0xeb; 0x27; 0xb2; 0x75;
   0x09; 0x83; 0x2c; 0x1a; 0x1b; 0x6e; 0x5a; 0xa0; 0x52; 0x3b; 0xd6; 0xb3; 0x29; 0xe3; 0x2f; 0x84;
   0x53; 0xd1; 0x00; 0xed; 0x20; 0xfc; 0xb1; 0x5b; 0x6a; 0xcb; 0xbe; 0x39; 0x4a; 0x4c; 0x58; 0xcf;
   0xd0; 0xef; 0xaa; 0xfb; 0x43; 0x4d; 0x33; 0x85; 0x45; 0xf9; 0x02; 0x7f; 0x50; 0x3c; 0x9f; 0xa8;
   0x51; 0xa3; 0x40; 0x8f; 0x92; 0x9d; 0x38; 0xf5; 0xbc; 0xb6; 0xda; 0x21; 0x10; 0xff; 0xf3; 0xd2;
   0xcd; 0x0c; 0x13; 0xec; 0x5f; 0x97; 0x44; 0x17; 0xc4; 0xa7; 0x7e; 0x3d; 0x64; 0x5d; 0x19; 0x73;
   0x60; 0x81; 0x4f; 0xdc; 0x22; 0x2a; 0x90; 0x88; 0x46; 0xee; 0xb8; 0x14; 0xde; 0x5e; 0x0b; 0xdb;
   0xe0; 0x32; 0x3a; 0x0a; 0x49; 0x06; 0x24; 0x5c; 0xc2; 0xd3; 0xac; 0x62; 0x91; 0x95; 0xe4; 0x79;
   0xe7; 0xc8; 0x37; 0x6d; 0x8d; 0xd5; 0x4e; 0xa9; 0x6c; 0x56; 0xf4; 0xea; 0x65; 0x7a; 0xae; 0x08;
   0xba; 0x78; 0x25; 0x2e; 0x1c; 0xa6; 0xb4; 0xc6; 0xe8; 0xdd; 0x74; 0x1f; 0x4b; 0xbd; 0x8b; 0x8a;
   0x70; 0x3e; 0xb5; 0x66; 0x48; 0x03; 0xf6; 0x0e; 0x61; 0x35; 0x57; 0xb9; 0x86; 0xc1; 0x1d; 0x9e;
   0xe1; 0xf8; 0x98; 0x11; 0x69; 0xd9; 0x8e; 0x94; 0x9b; 0x1e; 0x87; 0xe9; 0xce; 0x55; 0x28; 0xdf;
   0x8c; 0xa1; 0x89; 0x0d; 0xbf; 0xe6; 0x42; 0x68; 0x41; 0x99; 0x2d; 0x0f; 0xb0; 0x54; 0xbb; 0x16].

Definition inv_s_box : list Z :=
  [0x52; 0x09; 0x6a; 0xd5; 0x30; 0x36; 0xa5; 0x38; 0xbf; 0x40; 0xa3; 0x9e; 0x81; 0xf3; 0xd7; 0xfb;
   0x7c; 0xe3; 0x39; 0x82; 0x9b; 0x2f; 0xff; 0x87; 0x34; 0x8e; 0x43; 0x44; 0xc4; 0xde; 0xe9; 0xcb;
   0x54; 0x7b; 0x94; 0x32; 0xa6; 0xc2; 0x23; 0x3d; 0xee; 0x4c; 0x95; 0x0b; 0x42; 0xfa; 0xc3; 0x4e;
   0x08; 0x2e; 0xa1; 0x66; 0x28; 0xd9; 0x24; 0xb2; 0x76; 0x5b; 0xa2; 0x49; 0x6d; 0x8b; 0xd1; 0x25;
   0x72; 0xf8; 0xf6; 0x64; 0x86; 0x68; 0x98; 0x16; 0xd4; 0xa4; 0x5c; 0xcc; 0x5d; 0x65; 0xb6; 0x92;
   0x6c; 0x70; 0x48; 0x50; 0xfd; 0xed; 0xb9; 0xda; 0x5e; 0x15; 0x46; 0x57; 0xa7; 0x8d; 0x9d; 0x84;
   0x90; 0xd8; 0xab; 0x00; 0x8c; 0xbc; 0xd3; 0x0a; 0xf7; 0xe4; 0x58; 0x05; 0xb8; 0xb3; 0x45; 0x06;
   0xd0; 0x2c; 0x1e; 0x8f; 0xca; 0x3f; 0x0f; 0x02; 0xc1; 0xaf; 0xbd; 0x03; 0x01; 0x13; 0x8a; 0x6b;
   0x3a; 0x91; 0x11; 0x41; 0x4f; 0x67; 0xdc; 0xea; 0x97; 0xf2; 0xcf; 0xce; 0xf0; 0xb4; 0xe6; 0x73;
   0x96; 0xac; 0x74; 0x22; 0xe7; 0xad; 0x35; 0x85; 0xe2; 0xf9; 0x37; 0xe8; 0x1c; 0x75; 0xdf; 0x6e;
   0x47; 0xf1; 0x1a; 0x71; 0x1d; 0x29; 0xc5; 0x89; 0x6f; 0xb7; 0x62; 0x0e; 0xaa; 0x18; 0xbe; 0x1b;
   0xfc; 0x56; 0x3e; 0x4b; 0xc6; 0xd2; 0x79; 0x20; 0x9a; 0xdb; 0xc0; 0xfe; 0x78; 0xcd; 0x5a; 0xf4;
   0x1f; 0xdd; 0xa8; 0x33; 0x88; 0x07; 0xc7; 0x31; 0xb1; 0x12; 0x10; 0x59; 0x27; 0x80; 0xec; 0x5f;
   0x60; 0x51; 0x7f; 0xa9; 0x19; 0xb5; 0x4a; 0x0d; 0x2d; 0xe5; 0x7a; 0x9f; 0x93; 0xc9; 0x9c; 0xef;
   0xa0; 0xe0; 0x3b; 0x4d; 0xae; 0x2a; 0xf5; 0xb0; 0xc8; 0xeb; 0xbb; 0x3c; 0x83; 0x53; 0x99; 0x61;
   0x17; 0x2b; 0x04; 0x7e; 0xba; 0x77; 0xd6; 0x26; 0xe1; 0x69; 0x14; 0x63; 0x55; 0x21; 0x0c; 0x7d].

(** The initial value of the global [R]. *)
Definition R_init : list Z := [0x02; 0x00; 0x00; 0x00].

(** The [while (i-1 > 0)] of [Rcon]; [n] bounds its iterations. *)
Fixpoint Rcon_loop (n : nat) (i : Z) (R : list Z) : option (list Z) :=
  if i - 1 >? 0 then
    match n with
    | O => None
    | S n' => r0 ← rd R 0; R ← wr R 0 (gmult r0 0x02); Rcon_loop n' (i - 1) R
    end
  else Some R.

Definition Rcon (i : Z) (R : list Z) : option (list Z) :=
  if i =? 1 then wr R 0 0x01
  else if i >? 1 then
    R ← wr R 0 0x02;
    let i := i - 1 in
    Rcon_loop (Z.to_nat i) i R
  else Some R.

Definition add_round_key (state w : list Z) (r : Z) : option (list Z) :=
  for_up 0 Nb (λ c state,
    s0 ← rd state (Nb*0+c); k0 ← rd w (4*Nb*r+4*c+0); state ← wr state (Nb*0+c) (s0 .^ k0);
    s1 ← rd state (Nb*1+c); k1 ← rd w (4*Nb*r+4*c+1); state ← wr state (Nb*1+c) (s1 .^ k1);
    s2 ← rd state (Nb*2+c); k2 ← rd w (4*Nb*r+4*c+2); state ← wr state (Nb*2+c) (s2 .^ k2);
    s3 ← rd state (Nb*3+c); k3 ← rd w (4*Nb*r+4*c+3); wr state (Nb*3+c) (s3 .^ k3)) state.

(** The common body of [mix_columns] and [inv_mix_columns], which differ in
    the constant [a] only. *)
Definition mix_with (a state : list Z) : option (list Z) :=
  for_up 0 Nb (λ j state,
    col ← for_up 0 4 (λ i col, x ← rd state (Nb*i+j); wr col i x) [0; 0; 0; 0];
    res ← coef_mult a col [0; 0; 0; 0];
    for_up 0 4 (λ i state, x ← rd res i; wr state (Nb*i+j) x) state) state.

Definition mix_columns (state : list Z) : option (list Z) :=
  mix_with [0x02; 0x01; 0x01; 0x03] state.

Definition inv_mix_columns (state : list Z) : option (list Z) :=
  mix_with [0x0e; 0x09; 0x0d; 0x0b] state.

Definition shift_rows (state : list Z) : option (list Z) :=
  for_up 1 4 (λ i state,
    for_up 0 i (λ _ state,
      tmp ← rd state (Nb*i+0);
      state ← for_up 1 Nb (λ k state, x ← rd state (Nb*i+k); wr state (Nb*i+k-1) x) state;
      wr state (Nb*i+Nb-1) tmp) state) state.

Definition inv_shift_rows (state : list Z) : option (list Z) :=
  for_up 1 4 (λ i state,
    for_up 0 i (λ _ state,
      tmp ← rd state (Nb*i+Nb-1);
      state ← for_down (Nb-1) 1 (λ k state, x ← rd state (Nb*i+k-1); wr state (Nb*i+k) x) state;
      wr state (Nb*i+0) tmp) state) state.

(** The body shared by [sub_bytes] and [inv_sub_bytes]. *)
Definition sub_with (box state : list Z) : option (list Z) :=
  for_up 0 4 (λ i state,
    for_up 0 Nb (λ j state,
      x ← rd state (Nb*i+j);
      let row := (x .& 0xf0) >> 4 in
      let col := x .& 0x0f in
      y ← rd box (16*row+col);
      wr state (Nb*i+j) y) state) state.

Definition sub_bytes (state : list Z) : option (list Z) := sub_with s_box state.
Definition inv_sub_bytes (state : list Z) : option (list Z) := sub_with inv_s_box state.

Definition sub_word (w : list Z) : option (list Z) :=
  for_up 0 4 (λ i w,
    x ← rd w i;
    y ← rd s_box (16*((x .& 0xf0) >> 4) + (x .& 0x0f));
    wr w i y) w.

Definition rot_word (w : list Z) : option (list Z) :=
  tmp ← rd w 0;
  w ← for_up 0 3 (λ i w, x ← rd w (i+1); wr w i x) w;
  wr w 3 tmp.

(** One iteration of the second loop of [key_expansion]. *)
Definition key_expansion_step (Nk i : Z) (wR : list Z * list Z) : option (list Z * list Z) :=
  let (w, R) := wR in
  t0 ← rd w (4*(i-1)+0); t1 ← rd w (4*(i-1)+1);
  t2 ← rd w (4*(i-1)+2); t3 ← rd w (4*(i-1)+3);
  let tmp := [t0; t1; t2; t3] in
  '(tmp, R) ←
    (if i mod Nk =? 0 then
       tmp ← rot_word tmp;
       tmp ← sub_word tmp;
       R ← Rcon (u8 (i / Nk)) R;
       tmp ← coef_add tmp R tmp;
       Some (tmp, R)
     else if (Nk >? 6) && (i mod Nk =? 4) then
       tmp ← sub_word tmp; Some (tmp, R)
     else Some (tmp, R));
  k0 ← rd w (4*(i-Nk)+0); t0 ← rd tmp 0; w ← wr w (4*i+0) (k0 .^ t0);
  k1 ← rd w (4*(i-Nk)+1); t1 ← rd tmp 1; w ← wr w (4*i+1) (k1 .^ t1);
  k2 ← rd w (4*(i-Nk)+2); t2 ← rd tmp 2; w ← wr w (4*i+2) (k2 .^ t2);
  k3 ← rd w (4*(i-Nk)+3); t3 ← rd tmp 3; w ← wr w (4*i+3) (k3 .^ t3);
  Some (w, R).

Definition key_expansion (Nk Nr : Z) (key w R : list Z) : option (list Z * list Z) :=
  let len := u8 (Nb*(Nr+1)) in
  w ← for_up 0 Nk (λ i w,
    k0 ← rd key (4*i+0); w ← wr w (4*i+0) k0;
    k1 ← rd key (4*i+1); w ← wr w (4*i+1) k1;
    k2 ← rd key (4*i+2); w ← wr w (4*i+2) k2;
    k3 ← rd key (4*i+3); wr w (4*i+3) k3) w;
  for_up Nk len (key_expansion_step Nk) (w, R).

(** The loops that copy [in] to the state and the state to [out]; the local
    [state] array is written in full before it is read. *)
Definition load_state (inp : list Z) : option (list Z) :=
  for_up 0 4 (λ i state,
    for_up 0 Nb (λ j state, x ← rd inp (i+4*j); wr state (Nb*i+j) x) state)
    (replicate 16 0).

Definition store_state (state out : list Z) : option (list Z) :=
  for_up 0 4 (λ i out,
    for_up 0 Nb (λ j out, x ← rd state (Nb*i+j); wr out (i+4*j) x) out) out.

Definition cipher (Nr : Z) (inp out w : list Z) : option (list Z) :=
  state ← load_state inp;
  state ← add_round_key state w 0;
  state ← for_up 1 Nr (λ r state,
    state ← sub_bytes state;
    state ← shift_rows state;
    state ← mix_columns state;
    add_round_key state w r) state;
  state ← sub_bytes state;
  state ← shift_rows state;
  state ← add_round_key state w Nr;
  store_state state out.

Definition inv_cipher (Nr : Z) (inp out w : list Z) : option (list Z) :=
  state ← load_state inp;
  state ← add_round_key state w Nr;
  state ← for_down (Nr-1) 1 (λ r state,
    state ← inv_shift_rows state;
    state ← inv_sub_bytes state;
    state ← add_round_key state w r;
    inv_mix_columns state) state;
  state ← inv_shift_rows state;
  state ← inv_sub_bytes state;
  state ← add_round_key state w 0;
  store_state state out.
