(* ===== verification/AESSpec.v ===== *)
(** * The cipher of FIPS 197 and the refinement of the AES code

    An abstract AES on 16-byte blocks in the byte order of FIPS 197 (column
    after column), with the S-box defined as inversion in GF(2^8) followed by
    the affine map, and the proofs that the functions of [AES], which work in
    place on a row-major array, compute it without leaving their arrays. *)
From S2P Require Import Prelude GF256 AES.

(** ** Abstract operations *)
Definition gf_sq (x : Z) : Z := gf_mul x x.

(** [x^254], the inverse of a non-zero [x]. *)
Definition gf_inv (x : Z) : Z :=
  let x2 := gf_sq x in let x4 := gf_sq x2 in let x8 := gf_sq x4 in
  let x16 := gf_sq x8 in let x32 := gf_sq x16 in let x64 := gf_sq x32 in
  let x128 := gf_sq x64 in
  gf_mul (gf_mul (gf_mul x2 x4) (gf_mul x8 x16)) (gf_mul (gf_mul x32 x64) x128).

(** Bit [i] of the affine map: b_i + b_(i+4) + b_(i+5) + b_(i+6) + b_(i+7) + c_i. *)
Definition affine_bit (b i : Z) : bool :=
  let t k := Z.testbit b ((i + k) mod 8) in
  xorb (t 0) (xorb (t 4) (xorb (t 5) (xorb (t 6) (xorb (t 7) (Z.testbit 0x63 i))))).
Definition affine (b : Z) : Z :=
  foldr (λ i acc, (if affine_bit b i then 2 ^ i else 0) .^ acc) 0 (seqZ 0 8).

Definition SBox (x : Z) : Z := affine (gf_inv x).

Arguments SBox : simpl never.

(** The table [inv_s_box] as a function. *)
Definition InvSBox (x : Z) : Z := default 0 (rd inv_s_box x).

Definition permute (p : nat → nat) (s : list Z) : list Z := map (λ k, s !!! p k) (seq 0 16).

Definition SubBytes (s : list Z) : list Z := map SBox s.
Definition InvSubBytes (s : list Z) : list Z := map InvSBox s.

(** Row [r] of column [c] is byte [r + 4 c]; row [r] moves by [r] columns. *)
Definition ShiftRows : list Z → list Z :=
  permute (λ k, (k mod 4 + 4 * ((k / 4 + k mod 4) mod 4))%nat).
Definition InvShiftRows : list Z → list Z :=
  permute (λ k, (k mod 4 + 4 * ((k / 4 + (4 - k mod 4)) mod 4))%nat).

(** The product of a column with the circulant matrix of the polynomial
    [a0 + a1 x + a2 x^2 + a3 x^3] modulo x^4 + 1, with the field product
    [gf_mul] and not the code's [gmult]. *)
Definition MixColumn (a : Z * Z * Z * Z) (c0 c1 c2 c3 : Z) : list Z :=
  let '(a0, a1, a2, a3) := a in
  [gf_mul a0 c0 .^ gf_mul a3 c1 .^ gf_mul a2 c2 .^ gf_mul a1 c3;
   gf_mul a1 c0 .^ gf_mul a0 c1 .^ gf_mul a3 c2 .^ gf_mul a2 c3;
   gf_mul a2 c0 .^ gf_mul a1 c1 .^ gf_mul a0 c2 .^ gf_mul a3 c3;
   gf_mul a3 c0 .^ gf_mul a2 c1 .^ gf_mul a1 c2 .^ gf_mul a0 c3].

Definition mixpoly : Z * Z * Z * Z := (0x02, 0x01, 0x01, 0x03).
Definition invmixpoly : Z * Z * Z * Z := (0x0e, 0x09, 0x0d, 0x0b).

Fixpoint MixWith (a : Z * Z * Z * Z) (s : list Z) : list Z :=
  match s with
  | c0 :: c1 :: c2 :: c3 :: s' => MixColumn a c0 c1 c2 c3 ++ MixWith a s'
  | _ => []
  end.
Definition MixColumns := MixWith mixpoly.
Definition InvMixColumns := MixWith invmixpoly.

Definition RoundKey (w : list Z) (r : Z) : list Z := take 16 (drop (16 * Z.to_nat r) w).
Definition AddRoundKey (k s : list Z) : list Z := zip_with Z.lxor s k.

Definition Round (w : list Z) (s : list Z) (r : Z) : list Z :=
  AddRoundKey (RoundKey w r) (MixColumns (ShiftRows (SubBytes s))).

Definition Cipher (Nr : Z) (inp w : list Z) : list Z :=
  let s := foldl (Round w) (AddRoundKey (RoundKey w 0) inp) (seqZ 1 (Nr - 1)) in
  AddRoundKey (RoundKey w Nr) (ShiftRows (SubBytes s)).

Definition InvRound (w : list Z) (r : Z) (s : list Z) : list Z :=
  InvMixColumns (AddRoundKey (RoundKey w r) (InvSubBytes (InvShiftRows s))).

Definition InvCipher (Nr : Z) (inp w : list Z) : list Z :=
  let s := foldr (InvRound w) (AddRoundKey (RoundKey w Nr) inp) (seqZ 1 (Nr - 1)) in
  AddRoundKey (RoundKey w 0) (InvSubBytes (InvShiftRows s)).

(** ** Blocks *)
Definition block (s : list Z) : Prop := length s = 16%nat ∧ bytes s.

(** Name the sixteen bytes of a list of length 16. *)
Ltac dest16 s :=
  do 16 (destruct s as [|? s]; [discriminate|]); destruct s; [|discriminate].

(** The row-major state array that the code keeps for a block. *)
Definition rows : list Z → list Z := permute (λ k, (k / 4 + 4 * (k mod 4))%nat).

Lemma block_nth s k : block s → (k < 16)%nat → byte (s !!! k).
Proof.
  intros [Hl Hb] Hk. destruct (lookup_lt_is_Some_2 s k) as [x Hx]; [lia|].
  rewrite (list_lookup_total_correct _ _ _ Hx). by eapply Forall_lookup_1 in Hb.
Qed.

Lemma permute_block p s : (∀ k, (k < 16)%nat → (p k < 16)%nat) → block s → block (permute p s).
Proof.
  intros Hp Hs. split; [done|]. apply Forall_forall. intros x Hx.
  unfold permute in Hx. rewrite ?list_elem_of_In, in_map_iff in Hx.
  destruct Hx as (k & <- & Hk%in_seq). apply block_nth; [done|]. apply Hp. lia.
Qed.

(** ** S-boxes *)
Definition box_index (x : Z) : Z := 16*((x .& 0xf0) >> 4) + (x .& 0x0f).

Lemma box_index_id x : byte x → box_index x = x.
Proof.
  intros H. apply Z.eqb_eq. revert x H.
  apply (byte_forall (λ x, box_index x =? x)). vm_compute. reflexivity.
Qed.

Lemma s_box_SBox x : byte x → rd s_box (box_index x) = Some (SBox x).
Proof.
  intros H. rewrite box_index_id by done. apply (bool_decide_eq_true_1 _). revert x H.
  apply (byte_forall (λ x, bool_decide (rd s_box x = Some (SBox x)))). vm_compute. reflexivity.
Qed.

Lemma inv_s_box_InvSBox x : byte x → rd inv_s_box (box_index x) = Some (InvSBox x).
Proof.
  intros H. rewrite box_index_id by done. apply (bool_decide_eq_true_1 _). revert x H.
  apply (byte_forall (λ x, bool_decide (rd inv_s_box x = Some (InvSBox x)))). vm_compute. reflexivity.
Qed.

Lemma SBox_byte x : byte x → byte (SBox x).
Proof.
  intros H. apply (bool_decide_eq_true_1 _). revert x H.
  apply (byte_forall (λ x, bool_decide (byte (SBox x)))). vm_compute. reflexivity.
Qed.

Lemma InvSBox_byte x : byte x → byte (InvSBox x).
Proof.
  intros H. apply (bool_decide_eq_true_1 _). revert x H.
  apply (byte_forall (λ x, bool_decide (byte (InvSBox x)))). vm_compute. reflexivity.
Qed.

Lemma InvSBox_SBox x : byte x → InvSBox (SBox x) = x.
Proof.
  intros H. apply Z.eqb_eq. revert x H.
  apply (byte_forall (λ x, InvSBox (SBox x) =? x)). vm_compute. reflexivity.
Qed.

(** Run the loops and array accesses of the code on lists of known length. *)
Ltac ev := lazy beta iota zeta delta
  [for_up for_down for_ mbind option_bind rd wr lookup list_lookup insert list_insert length
   Nb Z.sub Z.opp Z.add Z.mul Z.to_nat Z.of_nat Z.leb Z.ltb Z.compare Z.pos_sub
   Pos.add Pos.add_carry Pos.mul Pos.succ Pos.pred_double Pos.to_nat Pos.iter_op Pos.compare
   Pos.compare_cont Pos.of_succ_nat Nat.add andb Z.double Z.succ_double Z.pred_double CompOpp
   Init.Nat.add].

(** The loop nest of [sub_with] for an arbitrary table function. *)
Definition sub_loop (f : Z → option Z) (state : list Z) : option (list Z) :=
  for_up 0 4 (λ i state,
    for_up 0 Nb (λ j state, x ← rd state (Nb*i+j); y ← f x; wr state (Nb*i+j) y) state) state.

Lemma sub_loop_eq f g s : length s = 16%nat → (∀ x, x ∈ s → f x = Some (g x)) →
  sub_loop f s = Some (map g s).
Proof.
  intros Hl Hf. dest16 s.
  unfold sub_loop. repeat (ev; rewrite Hf by set_solver). ev. reflexivity.
Qed.

Lemma rows_map g s : length s = 16%nat → map g (rows s) = rows (map g s).
Proof. intros Hl. dest16 s. reflexivity. Qed.

Lemma rows_block s : block s → block (rows s).
Proof.
  apply permute_block. intros k Hk. do 16 (destruct k as [|k]; [cbn; lia|]). lia.
Qed.

Lemma sub_with_map box g s : block s → (∀ x, byte x → rd box (box_index x) = Some (g x)) →
  sub_with box (rows s) = Some (rows (map g s)).
Proof.
  intros Hs Hg. change (sub_with box (rows s)) with (sub_loop (λ x, rd box (box_index x)) (rows s)).
  rewrite (sub_loop_eq _ g), rows_map; [done|apply Hs|done|].
  intros x Hx. apply Hg. destruct (rows_block s Hs) as [_ Hb].
  by eapply Forall_forall in Hb.
Qed.

Lemma sub_bytes_SubBytes s : block s → sub_bytes (rows s) = Some (rows (SubBytes s)).
Proof. intros Hs. apply sub_with_map; [done|]. apply s_box_SBox. Qed.

Lemma inv_sub_bytes_InvSubBytes s : block s → inv_sub_bytes (rows s) = Some (rows (InvSubBytes s)).
Proof. intros Hs. apply sub_with_map; [done|]. apply inv_s_box_InvSBox. Qed.

Lemma map_block g s : (∀ x, byte x → byte (g x)) → block s → block (map g s).
Proof.
  intros Hg [Hl Hb]. split; [by rewrite length_map|]. clear Hl.
  induction Hb; constructor; auto.
Qed.

(** ** Rows *)
Lemma shift_rows_ShiftRows s : length s = 16%nat → shift_rows (rows s) = Some (rows (ShiftRows s)).
Proof. intros Hl. dest16 s. reflexivity. Qed.

Lemma inv_shift_rows_InvShiftRows s : length s = 16%nat →
  inv_shift_rows (rows s) = Some (rows (InvShiftRows s)).
Proof. intros Hl. dest16 s. reflexivity. Qed.

Lemma InvShiftRows_ShiftRows s : length s = 16%nat → InvShiftRows (ShiftRows s) = s.
Proof. intros Hl. dest16 s. reflexivity. Qed.

(** ** Columns *)
Definition polybytes (a : Z * Z * Z * Z) : Prop :=
  let '(a0, a1, a2, a3) := a in byte a0 ∧ byte a1 ∧ byte a2 ∧ byte a3.

(** Name the bytes of a block. *)
Ltac destblock s :=
  let Hl := fresh in let Hb := fresh in
  intros [Hl Hb]; dest16 s; unfold bytes in Hb; rewrite !Forall_cons in Hb; destruct_and! Hb; clear Hl.

Lemma mix_with_MixWith a0 a1 a2 a3 s : polybytes (a0, a1, a2, a3) → block s →
  mix_with [a0; a1; a2; a3] (rows s) = Some (rows (MixWith (a0, a1, a2, a3) s)).
Proof.
  intros (?&?&?&?). destblock s. cbn [MixWith MixColumn].
  rewrite <-!gmult_gf_mul by done.
  unfold mix_with, coef_mult. generalize gmult as g. intros g. reflexivity.
Qed.

Lemma MixColumn_bytes a c0 c1 c2 c3 : polybytes a → byte c0 → byte c1 → byte c2 → byte c3 →
  bytes (MixColumn a c0 c1 c2 c3).
Proof.
  destruct a as [[[a0 a1] a2] a3]. intros (?&?&?&?) ????. unfold MixColumn, bytes.
  repeat (apply Forall_cons_2; [auto 10 with cint|]). apply Forall_nil_2.
Qed.

Lemma MixWith_block a s : polybytes a → block s → block (MixWith a s).
Proof.
  intros Ha. destblock s. split; [by destruct a as [[[??]?]?]|].
  cbn [MixWith]. repeat apply Forall_app_2; try (apply MixColumn_bytes; done). apply Forall_nil_2.
Qed.

Definition poly4 (l : list Z) : Z * Z * Z * Z :=
  match l with [d0; d1; d2; d3] => (d0, d1, d2, d3) | _ => (0, 0, 0, 0) end.
Definition MixPoly (a b : Z * Z * Z * Z) : Z * Z * Z * Z :=
  let '(b0, b1, b2, b3) := b in poly4 (MixColumn a b0 b1 b2 b3).

(** Multiplication of four-term polynomials modulo x^4 + 1 is associative. *)
Lemma MixPoly_assoc a b c : polybytes a → polybytes b → polybytes c →
  MixPoly a (MixPoly b c) = MixPoly (MixPoly a b) c.
Proof.
  destruct a as [[[a0 a1] a2] a3], b as [[[b0 b1] b2] b3], c as [[[c0 c1] c2] c3].
  intros (?&?&?&?) (?&?&?&?) (?&?&?&?). cbn [MixPoly MixColumn poly4].
  rewrite <-!gmult_gf_mul by auto 10 with cint.
  rewrite !gmult_lxor_r, !gmult_lxor_l, <-!gmult_assoc by auto 10 with cint.
  repeat apply (f_equal2 pair); lxor_ac.
Qed.

(** The two constants are inverse modulo x^4 + 1, hence so are the maps. *)
Lemma MixPoly_inverse c : polybytes c → MixPoly invmixpoly (MixPoly mixpoly c) = c.
Proof.
  intros Hc. rewrite MixPoly_assoc; [|repeat split; lia..|done].
  replace (MixPoly invmixpoly mixpoly) with (0x01, 0x00, 0x00, 0x00) by (vm_compute; reflexivity).
  destruct c as [[[c0 c1] c2] c3], Hc as (?&?&?&?). cbn [MixPoly MixColumn poly4].
  rewrite <-!gmult_gf_mul by auto with cint.
  rewrite !gmult_0_l, !(gmult_comm 1), !gmult_1_r by auto with cint.
  by rewrite !Z.lxor_0_r, !Z.lxor_0_l.
Qed.

Lemma MixColumn_poly4 a c0 c1 c2 c3 :
  MixColumn a c0 c1 c2 c3 = let '(d0, d1, d2, d3) := MixPoly a (c0, c1, c2, c3) in [d0; d1; d2; d3].
Proof. by destruct a as [[[??]?]?]. Qed.

Lemma InvMixColumns_MixColumns s : block s → InvMixColumns (MixColumns s) = s.
Proof.
  destblock s. unfold InvMixColumns, MixColumns. cbn [MixWith]. rewrite !MixColumn_poly4.
  repeat match goal with |- context [MixPoly mixpoly ?c] =>
    let E := fresh in pose proof (MixPoly_inverse c) as E;
    destruct (MixPoly mixpoly c) as [[[? ?] ?] ?] end.
  cbn [app MixWith]. rewrite !MixColumn_poly4.
  repeat match goal with H : polybytes _ → _ |- _ => rewrite H by done; clear H end.
  reflexivity.
Qed.

(** ** Round keys *)
Lemma RoundKey_nth w r k : 0 ≤ r → 0 ≤ k < 16 → 16 * (r + 1) ≤ Z.of_nat (length w) →
  rd w (16 * r + k) = Some (RoundKey w r !!! Z.to_nat k).
Proof.
  intros Hr Hk Hw. apply rd_Some. split; [lia|]. unfold RoundKey.
  destruct (lookup_lt_is_Some_2 w (Z.to_nat (16 * r + k))) as [x Hx]; [lia|]. rewrite Hx. f_equal.
  symmetry. apply list_lookup_total_correct. rewrite lookup_take_lt by lia.
  rewrite lookup_drop, <-Hx. f_equal. lia.
Qed.

Lemma RoundKey_block w r : 0 ≤ r → 16 * (r + 1) ≤ Z.of_nat (length w) → bytes w → block (RoundKey w r).
Proof.
  intros Hr Hw Hb. split; [unfold RoundKey; rewrite length_take, length_drop; lia|].
  by apply Forall_take, Forall_drop.
Qed.

Lemma AddRoundKey_block k s : block k → block s → block (AddRoundKey k s).
Proof.
  intros [Hk Bk] [Hs Bs]. split; [unfold AddRoundKey; rewrite length_zip_with; lia|].
  unfold AddRoundKey. clear Hk Hs. revert k Bk.
  induction Bs as [|x s Hx _ IH]; intros [|y k] Bk; try apply Forall_nil_2.
  apply Forall_cons in Bk as [??]. apply Forall_cons_2; [auto with cint|by apply IH].
Qed.

Lemma AddRoundKey_involutive k s : length k = 16%nat → length s = 16%nat →
  AddRoundKey k (AddRoundKey k s) = s.
Proof.
  intros Hk Hs. unfold AddRoundKey. rewrite <-Hs in Hk. clear Hs. revert k Hk.
  induction s as [|x s IH]; intros [|y k] Hk; cbn in *; try done.
  by rewrite Z.lxor_assoc, Z.lxor_nilpotent, Z.lxor_0_r, IH by lia.
Qed.

(** The loop of [add_round_key] for an arbitrary key-byte function. *)
Definition ark_loop (kf : Z → Z → option Z) (state : list Z) : option (list Z) :=
  for_up 0 Nb (λ c state,
    s0 ← rd state (Nb*0+c); k0 ← kf c 0; state ← wr state (Nb*0+c) (s0 .^ k0);
    s1 ← rd state (Nb*1+c); k1 ← kf c 1; state ← wr state (Nb*1+c) (s1 .^ k1);
    s2 ← rd state (Nb*2+c); k2 ← kf c 2; state ← wr state (Nb*2+c) (s2 .^ k2);
    s3 ← rd state (Nb*3+c); k3 ← kf c 3; wr state (Nb*3+c) (s3 .^ k3)) state.

Lemma ark_loop_eq kf rk s : length s = 16%nat → length rk = 16%nat →
  (∀ c k, 0 ≤ c < 4 → 0 ≤ k < 4 → kf c k = Some (rk !!! Z.to_nat (4*c+k))) →
  ark_loop kf (rows s) = Some (rows (AddRoundKey rk s)).
Proof.
  intros Hs Hl Hk. unfold AddRoundKey. revert Hk. unfold ark_loop.
  generalize Z.lxor as f. intros f Hk. dest16 s.
  unfold rows, permute. cbn [map seq]. repeat (ev; rewrite Hk by lia). ev.
  dest16 rk. reflexivity.
Qed.

Lemma add_round_key_AddRoundKey w r s : length s = 16%nat → 0 ≤ r →
  16 * (r + 1) ≤ Z.of_nat (length w) →
  add_round_key (rows s) w r = Some (rows (AddRoundKey (RoundKey w r) s)).
Proof.
  intros Hs Hr Hw. apply (ark_loop_eq (λ c k, rd w (4*Nb*r+4*c+k))); [done| |].
  - unfold RoundKey. rewrite length_take, length_drop. lia.
  - intros c k ??. rewrite <-RoundKey_nth by lia. f_equal. unfold Nb. lia.
Qed.

(** ** Loading and storing *)
Lemma load_state_rows s : length s = 16%nat → load_state s = Some (rows s).
Proof. intros Hl. dest16 s. reflexivity. Qed.

Lemma store_state_rows s out : length s = 16%nat → length out = 16%nat →
  store_state (rows s) out = Some s.
Proof. intros Hl Ho. dest16 s. dest16 out. reflexivity. Qed.

(** ** Well-formedness of every step *)
Lemma SubBytes_block s : block s → block (SubBytes s).
Proof. apply map_block, SBox_byte. Qed.
Lemma InvSubBytes_block s : block s → block (InvSubBytes s).
Proof. apply map_block, InvSBox_byte. Qed.
Lemma ShiftRows_block s : block s → block (ShiftRows s).
Proof. apply permute_block. intros k Hk. do 16 (destruct k as [|k]; [cbn; lia|]). lia. Qed.
Lemma InvShiftRows_block s : block s → block (InvShiftRows s).
Proof. apply permute_block. intros k Hk. do 16 (destruct k as [|k]; [cbn; lia|]). lia. Qed.
Lemma MixColumns_block s : block s → block (MixColumns s).
Proof. apply MixWith_block. repeat split; lia. Qed.
Lemma InvMixColumns_block s : block s → block (InvMixColumns s).
Proof. apply MixWith_block. repeat split; lia. Qed.
Lemma block_length s : block s → length s = 16%nat.
Proof. by intros []. Qed.

Create HintDb aes.
#[export] Hint Resolve SubBytes_block InvSubBytes_block ShiftRows_block InvShiftRows_block
  MixColumns_block InvMixColumns_block AddRoundKey_block RoundKey_block block_length : aes.
#[export] Hint Extern 1 (polybytes _) => (repeat split; lia) : aes.

Section Rounds.
Context (Nr : Z) (w : list Z).
Hypothesis (HNr : 1 ≤ Nr) (Hw : 16 * (Nr + 1) ≤ Z.of_nat (length w)) (Hb : bytes w).

Lemma key_block r : 0 ≤ r ≤ Nr → block (RoundKey w r).
Proof using Hw Hb. intros. apply RoundKey_block; [lia|lia|done]. Qed.

Hint Resolve key_block : aes.

Lemma Round_block s r : 0 ≤ r ≤ Nr → block s → block (Round w s r).
Proof using Hw Hb. unfold Round. auto 8 with aes. Qed.

Lemma InvRound_block s r : 0 ≤ r ≤ Nr → block s → block (InvRound w r s).
Proof using Hw Hb. unfold InvRound. auto 8 with aes. Qed.

Hint Extern 1 (_ <= _ <= _) => lia : aes.
Hint Extern 1 (_ <= _) => lia : aes.

(** Run one step of the code: rewrite with its refinement lemma. *)
Ltac step lem := rewrite lem by auto 8 with aes; cbn [mbind option_bind].

Lemma cipher_Cipher inp out : block inp → length out = 16%nat →
  cipher Nr inp out w = Some (Cipher Nr inp w).
Proof using HNr Hw Hb.
  intros Hi Ho. unfold cipher, Cipher, for_up, mix_columns.
  step load_state_rows. step add_round_key_AddRoundKey.
  destruct (Z_of_nat_complete (Nr - 1)) as [n Hn]; [lia|]. rewrite Hn, Nat2Z.id.
  edestruct (for_foldl block rows (Round w)) as [-> Hs].
  { auto with aes. }
  { intros k t Hk Ht. split; [|apply Round_block; auto with aes].
    step sub_bytes_SubBytes. step shift_rows_ShiftRows. step mix_with_MixWith.
    fold mixpoly. change (MixWith mixpoly) with MixColumns. by step add_round_key_AddRoundKey. }
  cbn [mbind option_bind]. step sub_bytes_SubBytes. step shift_rows_ShiftRows.
  step add_round_key_AddRoundKey. apply store_state_rows; auto 8 with aes.
Qed.

Lemma inv_cipher_InvCipher inp out : block inp → length out = 16%nat →
  inv_cipher Nr inp out w = Some (InvCipher Nr inp w).
Proof using HNr Hw Hb.
  intros Hi Ho. unfold inv_cipher, InvCipher, inv_mix_columns.
  step load_state_rows. step add_round_key_AddRoundKey.
  destruct (Z_of_nat_complete (Nr - 1)) as [n Hn]; [lia|]. rewrite Hn.
  replace (for_down (Z.of_nat n)) with (@for_down (list Z) (1 + Z.of_nat n - 1)) by (f_equal; lia).
  edestruct (for_down_foldr block rows (InvRound w)) as [-> Hs].
  { auto with aes. }
  { intros k t Hk Ht. split; [|apply InvRound_block; auto with aes].
    step inv_shift_rows_InvShiftRows. step inv_sub_bytes_InvSubBytes.
    step add_round_key_AddRoundKey. by step mix_with_MixWith. }
  cbn [mbind option_bind]. step inv_shift_rows_InvShiftRows. step inv_sub_bytes_InvSubBytes.
  step add_round_key_AddRoundKey. apply store_state_rows; auto 8 with aes.
Qed.

Lemma Cipher_block inp : block inp → block (Cipher Nr inp w).
Proof using HNr Hw Hb.
  intros Hi. unfold Cipher.
  destruct (Z_of_nat_complete (Nr - 1)) as [n Hn]; [lia|]. rewrite Hn.
  edestruct (for_foldl block (λ s, s) (Round w) (λ r s, Some (Round w s r)) n 1
    (AddRoundKey (RoundKey w 0) inp)) as [_ Hs]; auto 8 with aes.
  intros k t Hk Ht. split; [done|]. apply Round_block; auto with aes.
Qed.

(** The byte substitution followed by the row shift, and their inverses. *)
Lemma sub_shift_inverse s : block s → InvSubBytes (InvShiftRows (ShiftRows (SubBytes s))) = s.
Proof.
  intros Hs. rewrite InvShiftRows_ShiftRows by auto with aes. destruct Hs as [_ H].
  unfold InvSubBytes, SubBytes. rewrite map_map. clear -H.
  induction H as [|x s Hx _ IH]; [done|]. cbn. by rewrite IH, InvSBox_SBox.
Qed.

Lemma InvRound_Round s r : block s → 0 ≤ r ≤ Nr →
  InvRound w r (ShiftRows (SubBytes (Round w s r))) = ShiftRows (SubBytes s).
Proof using Hw Hb.
  intros Hs Hr. unfold InvRound. rewrite sub_shift_inverse by (by apply Round_block).
  unfold Round. rewrite AddRoundKey_involutive by auto 8 with aes.
  by rewrite InvMixColumns_MixColumns by auto with aes.
Qed.

Lemma rounds_inverse n s : block s → Z.of_nat n ≤ Nr - 1 →
  block (foldl (Round w) s (seqZ 1 (Z.of_nat n))) ∧
  foldr (InvRound w) (ShiftRows (SubBytes (foldl (Round w) s (seqZ 1 (Z.of_nat n))))) (seqZ 1 (Z.of_nat n))
  = ShiftRows (SubBytes s).
Proof using HNr Hw Hb.
  intros Hs. induction n as [|n IH]; intros Hn; [done|]. destruct IH as [IHb IH]; [lia|].
  rewrite seqZ_snoc, foldl_app, foldr_app. cbn [foldl foldr].
  split; [apply Round_block; auto with aes|]. by rewrite InvRound_Round by auto with aes.
Qed.

Lemma InvCipher_Cipher inp : block inp → InvCipher Nr (Cipher Nr inp w) w = inp.
Proof using HNr Hw Hb.
  intros Hi. unfold InvCipher, Cipher.
  destruct (Z_of_nat_complete (Nr - 1)) as [n Hn]; [lia|]. rewrite Hn.
  destruct (rounds_inverse n (AddRoundKey (RoundKey w 0) inp)) as [Hbk E]; [auto 8 with aes|lia|].
  rewrite AddRoundKey_involutive, E, sub_shift_inverse by auto 8 with aes.
  apply AddRoundKey_involutive; auto with aes.
Qed.
End Rounds.
