(* ===== verification/AESKey.v ===== *)
(** * The key schedule

    [key_expansion] of src/toe-arduino/sketch_slowAes/aes.c against the
    recurrence of FIPS 197 section 5.2, for every key length. *)
From S2P Require Import Prelude GF256 AES AESSpec.

(** ** Abstract schedule *)
Definition Word (w : list Z) (i : Z) : list Z := take 4 (drop (Z.to_nat (4 * i)) w).
Definition XorWord (a b : list Z) : list Z := zip_with Z.lxor a b.
Definition SubWord (a : list Z) : list Z := map SBox a.
Definition RotWord (a : list Z) : list Z := drop 1 a ++ take 1 a.

(** x^(i-1) in GF(2^8). *)
Definition RConst (i : Z) : Z := Nat.iter (Z.to_nat (i - 1)) (λ x, gf_mul x 0x02) 0x01.

Arguments RConst : simpl never.

Definition NextWord (Nk : Z) (w : list Z) (i : Z) : list Z :=
  let t := Word w (i - 1) in
  let t := if i mod Nk =? 0 then XorWord (SubWord (RotWord t)) [RConst (i / Nk); 0; 0; 0]
           else if (Nk >? 6) && (i mod Nk =? 4) then SubWord t
           else t in
  XorWord (Word w (i - Nk)) t.

(** The schedule of [n] words of which the key gives the first [Nk]. *)
Definition KeySchedule (Nk : Z) (key : list Z) (n : Z) : list Z :=
  foldl (λ w i, w ++ NextWord Nk w i) key (seqZ Nk (n - Nk)).

(** ** Words of an array *)
Lemma Word_reads E j : 0 ≤ j → 4 * (j + 1) ≤ Z.of_nat (length E) → bytes E →
  ∃ a b c d, Word E j = [a; b; c; d] ∧ bytes [a; b; c; d] ∧
    (∀ J, rd (E ++ J) (4*j+0) = Some a ∧ rd (E ++ J) (4*j+1) = Some b ∧
          rd (E ++ J) (4*j+2) = Some c ∧ rd (E ++ J) (4*j+3) = Some d).
Proof.
  intros Hj Hl Hb.
  assert (∀ k, 0 ≤ k < 4 → rd E (4*j+k) = Word E j !! Z.to_nat k) as Hr.
  { intros k Hk. unfold rd, Word. destruct (Z.leb_spec 0 (4 * j + k)); [|lia].
    rewrite lookup_take_lt, lookup_drop by lia. f_equal. lia. }
  assert (length (Word E j) = 4%nat) as H4.
  { unfold Word. rewrite length_take, length_drop. lia. }
  assert (bytes (Word E j)) as HB by (apply Forall_take, Forall_drop, Hb).
  destruct (Word E j) as [|a [|b [|c [|d [|]]]]]; try discriminate.
  exists a, b, c, d. split; [done|]. split; [done|]. intros J.
  repeat split; rewrite rd_app_l by lia; by rewrite Hr by lia.
Qed.

(** ** Round constants *)
Lemma RConst_byte i : byte (RConst i).
Proof.
  unfold RConst. induction (Z.to_nat (i - 1)) as [|n IH]; [split; cbn; lia|].
  cbn. rewrite <-gmult_gf_mul by auto with cint. auto with cint.
Qed.

Lemma RConst_succ i : 1 ≤ i → RConst (i + 1) = gmult (RConst i) 0x02.
Proof.
  intros Hi. rewrite gmult_gf_mul by (auto using RConst_byte with cint).
  unfold RConst. by replace (Z.to_nat (i + 1 - 1)) with (S (Z.to_nat (i - 1))) by lia.
Qed.

Lemma Rcon_loop_RConst n k i : 1 ≤ i → 1 ≤ k → (Z.to_nat (i - 1) ≤ n)%nat →
  Rcon_loop n i [RConst k; 0; 0; 0] = Some [RConst (k + i - 1); 0; 0; 0].
Proof.
  revert k i. induction n as [|n IH]; intros k i Hi Hk Hn; cbn [Rcon_loop];
    destruct (Z.gtb_spec (i - 1) 0); try lia;
    try (by replace (k + i - 1) with k by lia).
  change (Rcon_loop n (i - 1) [gmult (RConst k) 0x02; 0; 0; 0] = Some [RConst (k + i - 1); 0; 0; 0]).
  rewrite <-RConst_succ by done.
  rewrite (IH (k + 1) (i - 1)) by lia. by replace (k + 1 + (i - 1) - 1) with (k + i - 1) by lia.
Qed.

Lemma Rcon_RConst i r : 1 ≤ i → Rcon i [r; 0; 0; 0] = Some [RConst i; 0; 0; 0].
Proof.
  intros Hi. unfold Rcon. destruct (Z.eqb_spec i 1) as [->|]; [reflexivity|].
  destruct (Z.gtb_spec i 1); [|lia]. cbn [wr mbind option_bind].
  change (Rcon_loop (Z.to_nat (i - 1)) (i - 1) [RConst 2; 0; 0; 0] = Some [RConst i; 0; 0; 0]).
  rewrite Rcon_loop_RConst by lia. by replace (2 + (i - 1) - 1) with i by lia.
Qed.

(** ** Words in registers *)
Lemma rot_word_RotWord a b c d : rot_word [a; b; c; d] = Some (RotWord [a; b; c; d]).
Proof. reflexivity. Qed.

Lemma sub_word_loop_eq (f : Z → option Z) g a b c d :
  (∀ x, x ∈ [a; b; c; d] → f x = Some (g x)) →
  for_up 0 4 (λ i w, x ← rd w i; y ← f x; wr w i y) [a; b; c; d] = Some (map g [a; b; c; d]).
Proof. intros Hf. repeat (ev; rewrite Hf by set_solver). reflexivity. Qed.

Lemma sub_word_SubWord a b c d : bytes [a; b; c; d] → sub_word [a; b; c; d] = Some (SubWord [a; b; c; d]).
Proof.
  intros Hb. apply (sub_word_loop_eq (λ x, rd s_box (box_index x)) SBox).
  intros x Hx. apply s_box_SBox. by eapply Forall_forall in Hb.
Qed.

Lemma coef_add_XorWord a b c d a' b' c' d' :
  coef_add [a; b; c; d] [a'; b'; c'; d'] [a; b; c; d] = Some (XorWord [a; b; c; d] [a'; b'; c'; d']).
Proof. reflexivity. Qed.

(** ** One word of the schedule *)
Definition is_R (R : list Z) : Prop := ∃ r, R = [r; 0; 0; 0].

(** The word [tmp] that the branch of [key_expansion_step] computes. *)
Definition tmp_word (Nk i : Z) (t : list Z) : list Z :=
  if i mod Nk =? 0 then XorWord (SubWord (RotWord t)) [RConst (i / Nk); 0; 0; 0]
  else if (Nk >? 6) && (i mod Nk =? 4) then SubWord t else t.

Lemma word_write (E J : list Z) i a b c d : Z.of_nat (length E) = 4 * i → 0 ≤ i → (4 ≤ length J)%nat →
  ∃ J0 J1 J2, 
    wr (E ++ J) (4*i+0) a = Some (E ++ J0) ∧ wr (E ++ J0) (4*i+1) b = Some (E ++ J1) ∧
    wr (E ++ J1) (4*i+2) c = Some (E ++ J2) ∧
    wr (E ++ J2) (4*i+3) d = Some ((E ++ [a; b; c; d]) ++ drop 4 J).
Proof.
  intros HE Hi HJ. destruct J as [|x0 [|x1 [|x2 [|x3 J]]]]; cbn in HJ; try lia.
  exists (a :: x1 :: x2 :: x3 :: J), (a :: b :: x2 :: x3 :: J), (a :: b :: c :: x3 :: J).
  rewrite <-HE, <-app_assoc, !wr_app_r by lia. unfold wr. cbn [length drop app].
  repeat split; (rewrite (proj2 (andb_true_iff _ _)) by (split; [done|apply Z.ltb_lt; lia])); done.
Qed.

Lemma tmp_word_code Nk i t R : 1 ≤ Nk → Nk ≤ i < 256 → length t = 4%nat → bytes t → is_R R →
  ∃ R', is_R R' ∧
    (if i mod Nk =? 0 then
       tmp ← rot_word t; tmp ← sub_word tmp; R ← Rcon (u8 (i / Nk)) R;
       tmp ← coef_add tmp R tmp; Some (tmp, R)
     else if (Nk >? 6) && (i mod Nk =? 4) then
       tmp ← sub_word t; Some (tmp, R)
     else Some (t, R)) = Some (tmp_word Nk i t, R').
Proof.
  intros HNk Hi Hl Hb [r ->]. destruct t as [|a [|b [|c [|d [|]]]]]; try discriminate.
  unfold tmp_word. destruct (i mod Nk =? 0).
  - exists [RConst (i / Nk); 0; 0; 0]. split; [by eexists|].
    rewrite rot_word_RotWord. cbn [mbind option_bind RotWord drop take app].
    rewrite sub_word_SubWord by (unfold bytes in *; rewrite !Forall_cons in *; tauto).
    assert (1 ≤ i / Nk < 256).
    { split; [apply Z.div_le_lower_bound; lia|]. apply Z.div_lt_upper_bound; nia. }
    rewrite u8_small by (unfold byte; lia).
    cbn [mbind option_bind]. rewrite Rcon_RConst by lia. reflexivity.
  - exists [r; 0; 0; 0]. split; [by eexists|]. destruct (_ && _); [|done].
    by rewrite sub_word_SubWord.
Qed.

Lemma tmp_word_bytes Nk i t : bytes t → length t = 4%nat →
  ∃ a b c d, tmp_word Nk i t = [a; b; c; d] ∧ bytes [a; b; c; d].
Proof.
  intros Hb Hl. destruct t as [|a [|b [|c [|d [|]]]]]; try discriminate.
  unfold bytes in Hb. rewrite !Forall_cons in Hb. destruct_and! Hb.
  assert (∀ x, byte x → byte (SBox x)) as HS by apply SBox_byte.
  unfold tmp_word. destruct (_ =? 0); [|destruct (_ && _)]; eexists _, _, _, _; (split; [reflexivity|]);
    repeat (apply Forall_cons_2; [auto using RConst_byte with cint|]); apply Forall_nil_2.
Qed.

Lemma key_expansion_step_eq Nk i E J R : 1 ≤ Nk → Nk ≤ i < 256 →
  Z.of_nat (length E) = 4 * i → (4 ≤ length J)%nat → bytes E → is_R R →
  ∃ R', is_R R' ∧ bytes (NextWord Nk E i) ∧ length (NextWord Nk E i) = 4%nat ∧
    key_expansion_step Nk i (E ++ J, R) = Some ((E ++ NextWord Nk E i) ++ drop 4 J, R').
Proof.
  intros HNk Hi HE HJ Hb HR.
  destruct (Word_reads E (i - 1)) as (t0 & t1 & t2 & t3 & Et & Bt & Ht); [lia..|done|].
  destruct (Word_reads E (i - Nk)) as (k0 & k1 & k2 & k3 & Ek & Bk & Hk); [lia..|done|].
  destruct (tmp_word_code Nk i [t0; t1; t2; t3] R) as (R' & HR' & Etmp); [done..|].
  destruct (tmp_word_bytes Nk i [t0; t1; t2; t3]) as (m0 & m1 & m2 & m3 & Em & Bm); [done..|].
  exists R'. split; [done|].
  assert (NextWord Nk E i = XorWord [k0; k1; k2; k3] [m0; m1; m2; m3]) as ->.
  { unfold NextWord. rewrite Et, Ek, <-Em. done. }
  unfold bytes in Bk, Bm. rewrite !Forall_cons in Bk, Bm. destruct_and! Bk. destruct_and! Bm.
  split; [cbn; repeat (apply Forall_cons_2; [auto with cint|]); apply Forall_nil_2|].
  split; [done|]. unfold key_expansion_step.
  destruct (Ht J) as (-> & -> & -> & ->). cbn [mbind option_bind].
  rewrite Etmp, Em. cbn [mbind option_bind].
  destruct (word_write E J i (k0 .^ m0) (k1 .^ m1) (k2 .^ m2) (k3 .^ m3)) as (J0 & J1 & J2 & W0 & W1 & W2 & W3); [lia..|].
  destruct (Hk J) as (R0 & _ & _ & _), (Hk J0) as (_ & R1 & _ & _),
    (Hk J1) as (_ & _ & R2 & _), (Hk J2) as (_ & _ & _ & R3).
  change (rd [m0; m1; m2; m3] 0) with (Some m0). change (rd [m0; m1; m2; m3] 1) with (Some m1).
  change (rd [m0; m1; m2; m3] 2) with (Some m2). change (rd [m0; m1; m2; m3] 3) with (Some m3).
  cbn [mbind option_bind]. rewrite R0. cbn [mbind option_bind]. rewrite W0.
  cbn [mbind option_bind]. rewrite R1. cbn [mbind option_bind]. rewrite W1.
  cbn [mbind option_bind]. rewrite R2. cbn [mbind option_bind]. rewrite W2.
  cbn [mbind option_bind]. rewrite R3. cbn [mbind option_bind]. by rewrite W3.
Qed.

(** ** The whole schedule *)
Lemma copy_key Nk key w : 0 ≤ Nk → Z.of_nat (length key) = 4 * Nk → 4 * Nk ≤ Z.of_nat (length w) → bytes key →
  for_up 0 Nk (λ i w,
    k0 ← rd key (4*i+0); w ← wr w (4*i+0) k0;
    k1 ← rd key (4*i+1); w ← wr w (4*i+1) k1;
    k2 ← rd key (4*i+2); w ← wr w (4*i+2) k2;
    k3 ← rd key (4*i+3); wr w (4*i+3) k3) w = Some (key ++ drop (length key) w).
Proof.
  intros HNk Hk Hw Hb. unfold for_up. rewrite Z.sub_0_r.
  edestruct (for_inv (λ i x, x = take (Z.to_nat (4 * i)) key ++ drop (Z.to_nat (4 * i)) w)
    (Z.to_nat Nk) 0) as (x & -> & ->); [done| |].
  - intros i x Hi ->.
    destruct (Word_reads key i) as (a & b & c & d & Ew & _ & Hr); [lia..|done|].
    destruct (Hr []) as (R0 & R1 & R2 & R3). rewrite app_nil_r in *.
    destruct (word_write (take (Z.to_nat (4*i)) key) (drop (Z.to_nat (4*i)) w) i a b c d)
      as (J0 & J1 & J2 & W0 & W1 & W2 & W3).
    { rewrite length_take. lia. }
    { lia. }
    { rewrite length_drop. lia. }
    eexists. rewrite R0. cbn [mbind option_bind]. rewrite W0. cbn [mbind option_bind].
    rewrite R1. cbn [mbind option_bind]. rewrite W1. cbn [mbind option_bind].
    rewrite R2. cbn [mbind option_bind]. rewrite W2. cbn [mbind option_bind].
    rewrite R3. cbn [mbind option_bind]. split; [exact W3|].
    rewrite drop_drop. f_equal; [|f_equal; lia]. rewrite <-Ew. unfold Word.
    rewrite take_take_drop. f_equal. lia.
  - rewrite take_ge by lia. f_equal. f_equal. f_equal. lia.
Qed.

Lemma key_expansion_KeySchedule Nk Nr key w R :
  1 ≤ Nk ≤ Nb * (Nr + 1) → Nb * (Nr + 1) < 256 →
  Z.of_nat (length key) = 4 * Nk → Z.of_nat (length w) = 4 * (Nb * (Nr + 1)) →
  bytes key → is_R R →
  ∃ R', is_R R' ∧ bytes (KeySchedule Nk key (Nb * (Nr + 1))) ∧
    Z.of_nat (length (KeySchedule Nk key (Nb * (Nr + 1)))) = 4 * (Nb * (Nr + 1)) ∧
    key_expansion Nk Nr key w R = Some (KeySchedule Nk key (Nb * (Nr + 1)), R').
Proof.
  intros HNk Hlen Hk Hw Hb HR. unfold key_expansion, KeySchedule. rewrite u8_small by (unfold byte; lia).
  set (n := Nb * (Nr + 1)) in *. rewrite copy_key by (done || lia). cbn [mbind option_bind].
  unfold for_up.
  edestruct (for_inv (λ i x, is_R x.2 ∧
    let E := foldl (λ w i, w ++ NextWord Nk w i) key (seqZ Nk (i - Nk)) in
    bytes E ∧ Z.of_nat (length E) = 4 * i ∧ x.1 = E ++ drop (length E) w) (Z.to_nat (n - Nk)) Nk
    (key_expansion_step Nk) (key ++ drop (length key) w, R)) as ([w' R'] & E & HR' & HB & HL & Ew).
  - rewrite Z.sub_diag. cbn. done.
  - intros i [x R1] Hi (HR1 & HB & HL & Ex). cbn [fst snd] in *. subst x.
    set (E := foldl _ _ _) in *.
    destruct (key_expansion_step_eq Nk i E (drop (length E) w) R1) as (R2 & HR2 & HB2 & HL2 & ES);
      [lia..| |done|done|].
    { rewrite length_drop. lia. }
    eexists. split; [exact ES|]. cbn [fst snd]. split; [done|].
    replace (i + 1 - Nk) with (Z.of_nat (S (Z.to_nat (i - Nk)))) by lia.
    rewrite seqZ_snoc, foldl_app. replace (Z.of_nat (Z.to_nat (i - Nk))) with (i - Nk) by lia.
    fold E. cbn [foldl]. replace (Nk + (i - Nk)) with i by lia.
    split; [by apply Forall_app_2|]. rewrite length_app, HL2, drop_drop. split; [lia|done].
  - replace (Nk + Z.of_nat (Z.to_nat (n - Nk))) with n in * by lia. cbn [fst snd] in *.
    exists R'. split; [done|]. split; [done|]. split; [done|].
    rewrite E, Ew. rewrite drop_ge by lia. by rewrite app_nil_r.
Qed.
