(* ===== verification/TOE.v ===== *)
(** * The AES target

    src/toe-arduino/sketch_slowAes/sketch_slowAes.ino: [setup] and [loop],
    which read a command byte from the serial line and encrypt 16 bytes under
    the fixed key. [Serial] belongs to the Arduino core: the two operations of
    it the sketch relies on, waiting for a byte and writing bytes, are
    parameters. [data] is an array of [char], signed on this target. *)
From S2P Require Import Prelude GF256 AES AESSpec AESKey.

Definition key : list Z :=
  [0xB0; 0xB0; 0xCE; 0xE5; 0xCA; 0xFE; 0xBE; 0xEF; 0x30; 0x31; 0x32; 0x33; 0x34; 0x35; 0x36; 0x37].

(** [(char) x] for a byte, and back to [uint8_t]. *)
Definition to_char (x : Z) : Z := if x <? 128 then x else x - 256.

(** The globals of the sketch and of aes.c. *)
Record toe := TOE { Nk : Z; Nr : Z; R_ : list Z; out : list Z; data : list Z }.

(** How a call ends: it returns, it waits for a byte that never comes, or it
    accesses memory outside an array. *)
Inductive ending (A : Type) :=
  | Returns (a : A)
  | Waits
  | Undefined.
Arguments Returns {A} _.
Arguments Waits {A}.
Arguments Undefined {A}.

#[export] Instance ending_ret : MRet ending := @Returns.
#[export] Instance ending_bind : MBind ending := λ A B k m,
  match m with Returns a => k a | Waits => Waits | Undefined => Undefined end.
Definition defined {A} (o : option A) : ending A := match o with Some a => Returns a | None => Undefined end.

Definition str_banner : list Z :=
  [116; 104; 105; 115; 32; 105; 115; 32; 116; 104; 101; 32; 97; 114; 100; 117; 105; 110; 111; 32; 84; 79; 69].
Definition str_T : list Z := [84; 13; 10].
Definition str_Incorrect : list Z :=
  [73; 110; 99; 111; 114; 114; 101; 99; 116; 32; 67; 111; 109; 109; 97; 110; 100; 33; 13; 10].

Section sketch.
Context {S : Type} (serial_read : S → option (Z * S)) (serial_write : list Z → S → S).

(** [setup]: [sizeof(key)] is 16. *)
Definition setup (g : toe) (s : S) : toe * S :=
  let '(nk, nr) :=
    match length key with 24%nat => (6, 12) | 32%nat => (8, 14) | _ => (4, 10) end in
  (TOE nk nr (R_ g) (out g) (data g), serial_write str_banner s).

(** [while(Serial.available() == 0); return Serial.read();] *)
Definition blocking_read (s : S) : ending (Z * S) :=
  match serial_read s with Some (b, s') => Returns (u8 b, s') | None => Waits end.

(** [for(i=..;i<16;i++) data[i] = blocking_read();], [n] bytes to go. *)
Fixpoint read_block (n : nat) (i : Z) (d : list Z) (s : S) : ending (list Z * S) :=
  match n with
  | O => Returns (d, s)
  | Datatypes.S n' =>
      '(b, s) ← blocking_read s;
      d ← defined (wr d i (to_char b));
      read_block n' (i + 1) d s
  end.

(** [w0] is what the automatic array [w] holds on entry. *)
Definition loop (w0 : list Z) (g : toe) (s : S) : ending (toe * S) :=
  '(w, R) ← defined (key_expansion (Nk g) (Nr g) key w0 (R_ g));
  let g := TOE (Nk g) (Nr g) R (out g) (data g) in
  '(command, s) ← blocking_read s;
  if command =? 97 then
    '(d, s) ← read_block 16 0 (data g) s;
    '(_, s) ← blocking_read s;
    cipherInput ← defined (for_up 0 16 (λ i c, x ← rd d i; wr c i (u8 x)) (replicate 16 0));
    o ← defined (cipher (Nr g) cipherInput (out g) w);
    Returns (TOE (Nk g) (Nr g) R o d, serial_write o s)
  else if command =? 116 then Returns (g, serial_write str_T s)
  else Returns (g, serial_write str_Incorrect s).

(** ** What the target promises *)

(** The bytes [l] arrive between [s] and [s']. *)
Fixpoint arrives (l : list Z) (s s' : S) : Prop :=
  match l with
  | [] => s = s'
  | b :: l' => ∃ s1, serial_read s = Some (b, s1) ∧ arrives l' s1 s'
  end.

Lemma arrives_app l l' s s' : arrives (l ++ l') s s' → ∃ s1, arrives l s s1 ∧ arrives l' s1 s'.
Proof.
  revert s. induction l as [|b l IH]; intros s; cbn; [by eauto|].
  intros (s1 & H1 & (s2 & H2 & H3)%IH). by eauto.
Qed.

Lemma blocking_read_eq b s s' : byte b → serial_read s = Some (b, s') → blocking_read s = Returns (b, s').
Proof. intros Hb E. unfold blocking_read. by rewrite E, u8_small. Qed.

Record toe_wf (g : toe) : Prop := {
  tw_size : Nk g = 4 ∧ Nr g = 10;
  tw_R : is_R (R_ g);
  tw_out : length (out g) = 16%nat;
  tw_data : length (data g) = 16%nat }.

Lemma read_block_spec d n l s s' : length d = 16%nat → bytes l → length l = n → (n ≤ 16)%nat → arrives l s s' →
  read_block n (Z.of_nat (16 - n)) d s = Returns (take (16 - n) d ++ map to_char l, s').
Proof.
  revert d l s. induction n as [|n IH]; intros d l s Hd Hb Hl Hn Ha.
  { destruct l; [|done]. cbn in Ha. subst s'. cbn -[take]. by rewrite app_nil_r, take_ge by lia. }
  destruct l as [|b l]; [done|]. destruct Ha as (s1 & Hr & Ha). apply Forall_cons in Hb as [Hb1 Hb2].
  injection Hl as Hl. cbn [read_block]. rewrite (blocking_read_eq b s s1) by done. cbn [mbind ending_bind].
  rewrite wr_Some by lia. cbn [defined mbind ending_bind].
  replace (Z.of_nat (16 - Datatypes.S n) + 1) with (Z.of_nat (16 - n)) by lia.
  rewrite (IH _ l s1); [|by rewrite length_insert|done|done|lia|done].
  f_equal. f_equal. rewrite Nat2Z.id. cbn [map]. replace (16 - n)%nat with (Datatypes.S (16 - Datatypes.S n)) by lia.
  rewrite (take_S_r _ _ (to_char b)) by (apply list_lookup_insert_eq; lia).
  rewrite take_insert_ge by lia. by rewrite <-app_assoc.
Qed.

Lemma to_char_u8 b : byte b → u8 (to_char b) = b.
Proof.
  intros Hb. unfold to_char, u8, byte in *. destruct (Z.ltb_spec b 128).
  - by apply Z.mod_small.
  - symmetry. apply (Z.mod_unique _ _ (-1)); lia.
Qed.

Lemma copy_block d : length d = 16%nat →
  for_up 0 16 (λ i c, x ← rd d i; wr c i (u8 x)) (replicate 16 0) = Some (map u8 d).
Proof. intros H. do 16 (destruct d as [|? d]; [done|]). by destruct d. Qed.

(** The reply to a complete request. *)
Definition round_keys : list Z := KeySchedule 4 key 44.
Definition toe_reply (req : list Z) : option (list Z) :=
  match req with
  | c :: l =>
      if c =? 97 then if decide (length l = 17%nat) then Some (Cipher 10 (take 16 l) round_keys) else None
      else if decide (l = []) then Some (if c =? 116 then str_T else str_Incorrect) else None
  | [] => None
  end.

Lemma expand_key w0 R : length w0 = 176%nat → is_R R → ∃ R', is_R R' ∧
  key_expansion 4 10 key w0 R = Some (round_keys, R') ∧ length round_keys = 176%nat ∧ bytes round_keys.
Proof.
  intros Hw HR. destruct (key_expansion_KeySchedule 4 10 key w0 R) as (R' & HR' & Hb & Hl & E);
    [unfold Nb; lia..|done|unfold Nb; lia| |done|].
  { apply (bool_decide_unpack _). by vm_compute. }
  exists R'. change (Nb * (10 + 1)) with 44 in Hb, Hl, E. unfold round_keys.
  split_and!; [exact HR'|exact E|lia|exact Hb].
Qed.

Lemma encrypt l o : block l → length o = 16%nat →
  cipher 10 l o round_keys = Some (Cipher 10 l round_keys) ∧ length (Cipher 10 l round_keys) = 16%nat.
Proof.
  intros Hl Ho. destruct (expand_key (replicate 176 0) R_init) as (_ & _ & _ & HL & HB); [done|by exists 2|].
  split; [apply cipher_Cipher; [lia|lia|exact HB|exact Hl|exact Ho]|].
  apply (Cipher_block 10 round_keys); [lia|lia|exact HB|exact Hl].
Qed.

#[local] Opaque round_keys Cipher.

Lemma read_data l nl d s s' : block l → length d = 16%nat → arrives (l ++ [nl]) s s' → byte nl →
  ∃ s1, read_block 16 0 d s = Returns (map to_char l, s1) ∧ blocking_read s1 = Returns (nl, s').
Proof.
  intros [Hl Hb] Hd Ha Hn. apply arrives_app in Ha as (s1 & H1 & s2 & H2 & H3). cbn in H3. subst s2.
  exists s1. split; [|by apply blocking_read_eq].
  by apply (read_block_spec d 16 l s s1).
Qed.

Lemma loop_serves w0 g req r s s' : toe_wf g → length w0 = 176%nat → bytes req → arrives req s s' →
  toe_reply req = Some r → ∃ g', loop w0 g s = Returns (g', serial_write r s') ∧ toe_wf g'.
Proof.
  intros [[HNk HNr] HR Ho Hd] Hw Hb Ha Hr. destruct (expand_key w0 (R_ g) Hw HR) as (R' & HR' & E & _).
  unfold loop. rewrite HNk, HNr, E. clear E. cbn [defined mbind ending_bind].
  destruct req as [|c l]; [discriminate Hr|]. apply Forall_cons in Hb as [Hc Hb]. destruct Ha as (s1 & H1 & Ha).
  rewrite (blocking_read_eq c s s1 Hc H1). cbn [mbind ending_bind].
  unfold toe_reply in Hr. destruct (c =? 97).
  - case_decide as Hl; [|discriminate Hr]. apply (inj Some) in Hr; subst r.
    assert (∃ nl, l = take 16 l ++ [nl]) as [nl El].
    { destruct (lookup_lt_is_Some_2 l 16) as [nl Hnl]; [lia|]. exists nl.
      by rewrite <-(take_S_r l 16 nl) , take_ge by (done || lia). }
    assert (block (take 16 l)) as Hblk.
    { split; [rewrite length_take; lia|]. by apply Forall_take. }
    rewrite El in Ha, Hb. apply Forall_app in Hb as [_ Hnl]. apply Forall_cons in Hnl as [Hnl _].
    destruct (read_data (take 16 l) nl (data g) s1 s') as (s2 & E1 & E2); [exact Hblk|exact Hd|exact Ha|exact Hnl|].
    cbn [data]. rewrite E1. cbn [mbind ending_bind]. rewrite E2. cbn [mbind ending_bind].
    rewrite copy_block by (rewrite length_map; apply Hblk). cbn [defined mbind ending_bind out Nr].
    assert (map u8 (map to_char (take 16 l)) = take 16 l) as ->.
    { rewrite map_map. destruct Hblk as [_ Hx]. clear -Hx. induction Hx as [|x m Hx _ IH]; [done|].
      cbn. by rewrite IH, to_char_u8. }
    destruct (encrypt (take 16 l) (out g) Hblk Ho) as [Ec Hc']. rewrite Ec. clear Ec.
    cbn [defined mbind ending_bind]. eexists. split; [reflexivity|].
    split; [by split|exact HR'|exact Hc'|cbn; rewrite length_map; apply Hblk].
  - case_decide as Hl; [|discriminate Hr]. subst l. cbn in Ha. subst s1. apply (inj Some) in Hr; subst r.
    eexists. destruct (c =? 116); split; done.
Qed.

#[local] Transparent round_keys Cipher.
End sketch.
