(* ===== verification/TOELib.v ===== *)
(** * The AES target on AESLib

    src/toe-arduino/sketch_oct23a/sketch_oct23a.ino, the variant of the target
    that calls the library AESLib instead of aes.c. The library's
    [aes128_enc_single] is a parameter, a function of the bytes of the key and
    of the block it encrypts in place; [Serial] is as in TOE.v, and so is the
    code of [blocking_read] and of the loop that reads a block. *)
From S2P Require Import Prelude GF256 AES AESSpec AESKey TOE.

Section sketch.
Context {S : Type} (serial_read : S → option (Z * S)) (serial_write : list Z → S → S).
Context (aes128_enc_single : list Z → list Z → list Z).

Definition lib_setup (s : S) : S := serial_write str_banner s.

(** The state is the array [data]. *)
Definition lib_loop (data : list Z) (s : S) : ending (list Z * S) :=
  '(command, s) ← blocking_read serial_read s;
  if command =? 97 then
    '(data, s) ← read_block serial_read 16 0 data s;
    '(_, s) ← blocking_read serial_read s;
    let data := map to_char (aes128_enc_single key (map u8 data)) in
    Returns (data, serial_write (map u8 data) s)
  else if command =? 116 then Returns (data, serial_write str_T s)
  else Returns (data, serial_write str_Incorrect s).

Fixpoint lib_passes (n : nat) (data : list Z) (s : S) : ending (list Z * S) :=
  match n with
  | O => Returns (data, s)
  | Datatypes.S n' => '(data, s) ← lib_loop data s; lib_passes n' data s
  end.

(** ** The block that arrives *)
Fixpoint receive (n : nat) (s : S) : ending (list Z * S) :=
  match n with
  | O => Returns ([], s)
  | Datatypes.S n' => '(b, s) ← blocking_read serial_read s; '(l, s) ← receive n' s; Returns (b :: l, s)
  end.

Lemma blocking_read_defined s : blocking_read serial_read s ≠ Undefined.
Proof. unfold blocking_read. by destruct (serial_read s) as [[]|]. Qed.
Lemma receive_defined n s : receive n s ≠ Undefined.
Proof.
  revert s. induction n as [|n IH]; intros s; cbn [receive]; [done|].
  destruct (blocking_read serial_read s) as [[b s1]| |] eqn:E; cbn [mbind ending_bind]; [|done|by destruct (blocking_read_defined s)].
  specialize (IH s1). by destruct (receive n s1) as [[]| |].
Qed.

Lemma receive_bytes n s l s' : receive n s = Returns (l, s') → length l = n ∧ bytes l.
Proof.
  revert s l. induction n as [|n IH]; intros s l; cbn [receive].
  - intros [= <- <-]. by split; [|constructor].
  - unfold blocking_read. destruct (serial_read s) as [[b s1]|]; cbn [mbind ending_bind]; [|discriminate].
    destruct (receive n s1) as [[m s2]| |] eqn:E; cbn [mbind ending_bind]; try discriminate.
    intros [= <- <-]. destruct (IH _ _ E) as [Hl Hb]. split; [by cbn; rewrite Hl|]. constructor; [apply u8_byte|done].
Qed.

Lemma read_block_receive n d s : length d = 16%nat → (n ≤ 16)%nat →
  read_block serial_read n (Z.of_nat (16 - n)) d s =
  '(l, s') ← receive n s; Returns (take (16 - n) d ++ map to_char l, s').
Proof.
  revert d s. induction n as [|n IH]; intros d s Hd Hn; cbn [read_block receive].
  { cbn [mbind ending_bind map]. by rewrite app_nil_r, take_ge by lia. }
  destruct (blocking_read serial_read s) as [[b s1]| |]; cbn [mbind ending_bind]; [|done..].
  rewrite wr_Some by lia. cbn [defined mbind ending_bind].
  replace (Z.of_nat (16 - Datatypes.S n) + 1) with (Z.of_nat (16 - n)) by lia.
  rewrite IH by (rewrite ?length_insert; lia).
  destruct (receive n s1) as [[l s2]| |]; cbn [mbind ending_bind]; [|done..].
  rewrite Nat2Z.id. cbn [map]. replace (16 - n)%nat with (Datatypes.S (16 - Datatypes.S n)) by lia.
  rewrite (take_S_r _ _ (to_char b)) by (apply list_lookup_insert_eq; lia).
  rewrite take_insert_ge by lia. by rewrite <-app_assoc.
Qed.

Lemma u8_chars l : bytes l → map u8 (map to_char l) = l.
Proof. induction 1 as [|x l Hx _ IH]; cbn; [done|]. by rewrite IH, to_char_u8. Qed.

(** ** Both targets behave alike *)

(** The two ends of a pass, or of several: both wait for a byte or both
    return, having read and written the same on the line. *)
Definition alike {A B} (x : ending (A * S)) (y : ending (B * S)) : Prop :=
  match x, y with
  | Returns (_, s), Returns (_, s') => s = s'
  | Waits, Waits => True
  | _, _ => False
  end.

(** What AESLib documents: AES-128 of one block. *)
Context (Henc : ∀ k b, length k = 16%nat → bytes k → block b → aes128_enc_single k b = Cipher 10 b (KeySchedule 4 k 44)).

Lemma enc_key b : block b → aes128_enc_single key b = Cipher 10 b round_keys.
Proof using Henc. intros Hb. apply Henc; [done| |done]. apply (bool_decide_unpack _). by vm_compute. Qed.

Lemma encrypt_block l o : block l → length o = 16%nat → cipher 10 l o round_keys = Some (Cipher 10 l round_keys) ∧
  block (Cipher 10 l round_keys).
Proof.
  intros Hl Ho. split; [by apply encrypt|].
  destruct (expand_key (replicate 176 0) R_init) as (_ & _ & _ & HL & HB); [done|by exists 2|].
  apply (Cipher_block 10 round_keys); [lia|lia|exact HB|exact Hl].
Qed.

#[local] Opaque round_keys Cipher.
Lemma loops_alike w0 g d s : toe_wf g → length w0 = 176%nat → length d = 16%nat →
  alike (loop serial_read serial_write w0 g s) (lib_loop d s) ∧
  (∀ g' s', loop serial_read serial_write w0 g s = Returns (g', s') → toe_wf g') ∧
  (∀ d' s', lib_loop d s = Returns (d', s') → length d' = 16%nat).
Proof using Henc.
  intros [[HNk HNr] HR Ho Hd] Hw Hl. destruct (expand_key w0 (R_ g) Hw HR) as (R' & HR' & E & _).
  unfold loop, lib_loop. rewrite HNk, HNr, E. clear E. cbn [defined mbind ending_bind].
  destruct (blocking_read serial_read s) as [[c s1]| |] eqn:Er; cbn [mbind ending_bind];
    [|by split_and!|by destruct (blocking_read_defined s)].
  destruct (c =? 97).
  - cbn [data]. rewrite !(read_block_receive 16 _ s1) by (done || lia).
    destruct (receive 16 s1) as [[l s2]| |] eqn:El; cbn [mbind ending_bind].
    + destruct (receive_bytes _ _ _ _ El) as [Hn Hb].
      destruct (blocking_read serial_read s2) as [[nl s3]| |] eqn:En; cbn [mbind ending_bind].
      * change (take (16 - 16) (data g) ++ map to_char l) with (map to_char l).
        change (take (16 - 16) d ++ map to_char l) with (map to_char l).
        rewrite copy_block by by rewrite length_map. cbn [defined mbind ending_bind out Nr]. rewrite u8_chars by done.
        destruct (encrypt_block l (out g)) as (Ec & Hc' & Hcb); [by split|done|]. rewrite Ec. cbn [defined mbind ending_bind].
        rewrite enc_key by by split. clear Ec. revert Hc' Hcb. generalize (Cipher 10 l round_keys) as ct. intros ct Hc' Hcb.
        rewrite u8_chars by exact Hcb.
        split_and!; [done|intros ? ? [= <- <-]|intros ? ? [= <- <-]; by rewrite length_map].
        split; [done|exact HR'|exact Hc'|cbn; by rewrite length_map].
      * by split_and!.
      * by destruct (blocking_read_defined s2).
    + by split_and!.
    + by destruct (receive_defined 16 s1).
  - destruct (c =? 116); split_and!; try done; intros ? ? [= <- <-]; (exact Hl || by split).
Qed.
#[local] Transparent round_keys Cipher.
End sketch.
