(* ===== verification/RingBuffer.v ===== *)
(** * The byte ring buffer

    The inline functions of LUFA/Drivers/Misc/RingBuffer.h, through which
    received bytes reach the command loop. The four pointers of
    [RingBuffer_t] are offsets into the one underlying array; an access
    outside the array gives [None]. The interrupt lock around [Count] has no
    effect on the sequential result. *)
From S2P Require Import Prelude.

Record RingBuffer_t := RingBuffer {
  Data : list Z;
  In : Z;
  Out : Z;
  Start : Z;
  End_ : Z;
  Size : Z;
  Count : Z }.

Definition RingBuffer_InitBuffer (DataPtr : list Z) (Size : Z) : RingBuffer_t :=
  RingBuffer DataPtr 0 0 0 Size Size 0.

Definition RingBuffer_GetCount (b : RingBuffer_t) : Z := Count b.

Definition RingBuffer_GetFreeCount (b : RingBuffer_t) : Z := u16 (Size b - RingBuffer_GetCount b).

Definition RingBuffer_IsEmpty (b : RingBuffer_t) : bool := RingBuffer_GetCount b =? 0.

Definition RingBuffer_IsFull (b : RingBuffer_t) : bool := RingBuffer_GetCount b =? Size b.

Definition RingBuffer_Insert (b : RingBuffer_t) (x : Z) : option RingBuffer_t :=
  d ← wr (Data b) (In b) x;
  let i := In b + 1 in
  let i := if i =? End_ b then Start b else i in
  Some (RingBuffer d i (Out b) (Start b) (End_ b) (Size b) (u16 (Count b + 1))).

Definition RingBuffer_Remove (b : RingBuffer_t) : option (Z * RingBuffer_t) :=
  x ← rd (Data b) (Out b);
  let o := Out b + 1 in
  let o := if o =? End_ b then Start b else o in
  Some (x, RingBuffer (Data b) (In b) o (Start b) (End_ b) (Size b) (u16 (Count b - 1))).

Definition RingBuffer_Peek (b : RingBuffer_t) : option Z := rd (Data b) (Out b).

(** ** Well-formed buffers and their contents *)
Record wf (b : RingBuffer_t) : Prop := {
  wf_start : Start b = 0;
  wf_end : End_ b = Size b;
  wf_len : Z.of_nat (length (Data b)) = Size b;
  wf_size : 0 < Size b < 65536;
  wf_out : 0 ≤ Out b < Size b;
  wf_count : 0 ≤ Count b ≤ Size b;
  wf_in : In b = (Out b + Count b) mod Size b }.

(** The stored bytes, oldest first. *)
Definition contents (b : RingBuffer_t) : list Z :=
  map (λ k, Data b !!! Z.to_nat ((Out b + k) mod Size b)) (seqZ 0 (Count b)).

Lemma length_contents b : wf b → Z.of_nat (length (contents b)) = Count b.
Proof. intros []. unfold contents. rewrite length_map, length_seqZ. lia. Qed.

(** A pointer step is an increment modulo the size. *)
Lemma advance i n : 0 ≤ i < n → (if i + 1 =? n then 0 else i + 1) = (i + 1) mod n.
Proof.
  intros Hi. destruct (Z.eqb_spec (i + 1) n) as [->|].
  - by rewrite Z.mod_same by lia.
  - by rewrite Z.mod_small by lia.
Qed.

Lemma in_bounds b : wf b → 0 ≤ In b < Size b.
Proof. intros []. rewrite wf_in0. apply Z.mod_pos_bound. lia. Qed.

Lemma InitBuffer_wf d n : Z.of_nat (length d) = n → 0 < n < 65536 →
  wf (RingBuffer_InitBuffer d n) ∧ contents (RingBuffer_InitBuffer d n) = [].
Proof.
  intros Hd Hn. split; [|done]. split; cbn; try lia. by rewrite Z.mod_0_l by lia.
Qed.

(** The slots of distinct elements are distinct. *)
Lemma slot_ne n o i j : 0 < n → 0 ≤ i < j → j < n → (o + i) mod n ≠ (o + j) mod n.
Proof.
  intros Hn Hi Hj E.
  assert ((j - i) mod n = 0) as H.
  { replace (j - i) with ((o + j) - (o + i)) by lia. rewrite Zminus_mod, E, Z.sub_diag. by apply Z.mod_0_l; lia. }
  rewrite Z.mod_small in H by lia. lia.
Qed.

Lemma Insert_spec b x : wf b → Count b < Size b →
  ∃ b', RingBuffer_Insert b x = Some b' ∧ wf b' ∧ contents b' = contents b ++ [x] ∧ Size b' = Size b.
Proof.
  intros Hb Hc. pose proof (in_bounds b Hb) as Hin. destruct Hb.
  unfold RingBuffer_Insert. rewrite wr_Some by lia. cbn [mbind option_bind].
  eexists. split; [reflexivity|]. rewrite wf_start0, wf_end0, advance by lia.
  rewrite u16_small by (unfold word16; lia). split; [split; cbn; try lia|].
  - by rewrite length_insert.
  - rewrite wf_in0, Z.add_mod_idemp_l by lia. f_equal. lia.
  - unfold contents. cbn [Out Count Data Size]. split; [|done].
    replace (Count b + 1) with (Z.of_nat (S (Z.to_nat (Count b)))) by lia.
    rewrite seqZ_snoc, map_app, Z2Nat.id by lia. cbn [map]. f_equal.
    + apply map_ext_in. intros k Hk%list_elem_of_In%elem_of_seqZ.
      rewrite list_lookup_total_insert_ne; [done|]. rewrite wf_in0.
      pose proof (slot_ne (Size b) (Out b) k (Count b)).
      pose proof (Z.mod_pos_bound (Out b + Count b) (Size b)).
      pose proof (Z.mod_pos_bound (Out b + k) (Size b)). lia.
    + f_equal. rewrite Z.add_0_l, <-wf_in0. apply list_lookup_total_insert_eq. lia.
Qed.

Lemma contents_cons b : wf b → 0 < Count b →
  contents b = Data b !!! Z.to_nat (Out b) ::
    map (λ k, Data b !!! Z.to_nat ((Out b + 1 + k) mod Size b)) (seqZ 0 (Count b - 1)).
Proof.
  intros [] Hc. unfold contents. rewrite seqZ_cons by lia. cbn [map].
  rewrite Z.add_0_r, Z.mod_small by lia. f_equal.
  change (Z.succ 0) with (1 + 0). rewrite <-fmap_add_seqZ, <-(Z.sub_1_r (Count b)).
  change (Z.add 1 <$> ?l) with (map (Z.add 1) l). rewrite map_map.
  apply map_ext. intros k. by rewrite Z.add_assoc.
Qed.

Lemma Peek_spec b : wf b → RingBuffer_Peek b = Some (Data b !!! Z.to_nat (Out b)).
Proof.
  intros []. apply rd_Some. split; [lia|]. apply list_lookup_lookup_total_lt. lia.
Qed.

Lemma Remove_spec b x l : wf b → contents b = x :: l →
  ∃ b', RingBuffer_Remove b = Some (x, b') ∧ RingBuffer_Peek b = Some x ∧ wf b' ∧ contents b' = l ∧ Size b' = Size b.
Proof.
  intros Hb E. pose proof (length_contents b Hb) as Hl. rewrite E in Hl. cbn in Hl.
  rewrite contents_cons in E by (done || lia). injection E as Ex El.
  pose proof (Peek_spec b Hb) as Hp. unfold RingBuffer_Remove. unfold RingBuffer_Peek in *.
  rewrite Hp. cbn [mbind option_bind]. destruct Hb.
  eexists. split; [by rewrite Ex|]. split; [by rewrite Ex|].
  rewrite wf_start0, wf_end0, advance by lia. rewrite u16_small by (unfold word16; lia).
  assert (0 ≤ (Out b + 1) mod Size b < Size b) by (apply Z.mod_pos_bound; lia).
  split; [split; cbn; try lia|].
  - rewrite Z.add_mod_idemp_l, wf_in0 by lia. f_equal. lia.
  - split; [|done]. rewrite <-El. unfold contents. cbn [Out Count Data Size].
    apply map_ext. intros k. by rewrite Z.add_mod_idemp_l by lia.
Qed.

Lemma IsEmpty_spec b : wf b → RingBuffer_IsEmpty b = bool_decide (contents b = []).
Proof.
  intros Hb. pose proof (length_contents b Hb) as Hl. unfold RingBuffer_IsEmpty, RingBuffer_GetCount.
  destruct (contents b); cbn in Hl; rewrite <-Hl; [by rewrite bool_decide_eq_true_2|].
  by rewrite bool_decide_eq_false_2.
Qed.

Lemma IsFull_spec b : wf b → RingBuffer_IsFull b = (Z.of_nat (length (contents b)) =? Size b).
Proof. intros Hb. by rewrite length_contents. Qed.
