(* ===== verification/Machine.v ===== *)
(** * The machine the firmware runs on

    The state of the ATxmega32A4U as the HorrorScope firmware sees it and the
    state-and-error monad in which every function of the firmware is written.

    - [hw] is what the hardware can change behind the program's back: the
      memory-mapped registers [rf], the endpoint table [eps] with the frame
      counter, the packet buffers [bufs] the USB controller reads and writes,
      and [scopeBuf], which the DMA controller fills. [host] is a component
      the firmware never touches; it lets an environment keep a state.
    - [fw] holds the variables of LUFA and of usb_serial.c.
    - [script] is the environment: one [event] is consumed each time the
      program reads a volatile status it polls. An event is an arbitrary
      transformation of [hw], with or without the USB bus interrupt; no
      behaviour of the hardware is assumed here.
    - [trace] records what the program does to the outside: stores to
      registers and packets handed to the controller.

    A computation ends in [Ok], in [Blocked] when the environment stops
    before the awaited condition holds (a busy-wait that never ends), in
    [Fault] for undefined behaviour (a null or out-of-range access), or in
    [Spin] when a loop exceeds its iteration bound without polling.

    The values of register bit masks are those of avr/iox32a4u.h of avr-libc;
    the constants of LUFA are those of its headers. *)
From S2P Require Import Prelude RingBuffer.

(** ** Registers *)
Inductive periph :=
  | ADCA | ADCA_CH0 | DMA | DMA_CH0 | DMA_CH1 | DMA_CH2 | TCC2 | TCD0 | PORTA | PORTC | PORTD
  | USARTC0 | USARTD1 | EVSYS | OSC | CLK | DFLLRC2M | DFLLRC32M | PMIC | PR | USB | NVM.

Inductive field :=
  | CTRL | CTRLA | CTRLB | CTRLC | CTRLE | STATUS | INTFLAGS | REFCTRL | EVCTRL | PRESCALER | CAL
  | MUXCTRL | INTCTRL | INTCTRLA | INTCTRLB | RES
  | REPCNT | TRFCNT | ADDRCTRL | TRIGSRC | SRCADDR0 | SRCADDR1 | SRCADDR2
  | DESTADDR0 | DESTADDR1 | DESTADDR2
  | LCNT | HCNT | LPER | HPER | LCMPA | LCMPB | LCMPC | LCMPD | HCMPA | HCMPB | HCMPC | HCMPD
  | CNT | PER | DIRSET | DIRCLR | OUT | OUTSET | OUTCLR | PIN2CTRL | PIN3CTRL | PIN5CTRL | INT0MASK
  | BAUDCTRLA | DATA | CH0MUX | DFLLCTRL | PLLCTRL | PSCTRL | USBCTRL
  | PRGEN | PRPA | PRPB | PRPC | PRPD | PRPE | PRPF
  | ADDR | EPPTR | INTFLAGSACLR | INTFLAGSBCLR | CAL0 | CAL1 | CMD.

#[export] Instance periph_eq_dec : EqDecision periph.
Proof. solve_decision. Defined.
#[export] Instance field_eq_dec : EqDecision field.
Proof. solve_decision. Defined.

Definition reg : Type := periph * field.

(** ** LUFA data *)

(** The statically allocated packet buffers of usb_serial.c. *)
Inductive buffer := out_fifo | in_fifo | notification_fifo | notification_fifo2.
#[export] Instance buffer_eq_dec : EqDecision buffer.
Proof. solve_decision. Defined.

(** [USB_EP_t]: an entry of the endpoint table. *)
Record USB_EP_t := USB_EP {
  EP_STATUS : Z;
  EP_CTRL : Z;
  EP_CNT : Z;
  EP_DATAPTR : option buffer }.

(** [Endpoint_FIFO_t]; [Data] is a pointer in the patched LUFA, [None] is the
    null pointer. *)
Record Endpoint_FIFO_t := Endpoint_FIFO {
  FIFO_Data : option buffer;
  FIFO_Length : Z;
  FIFO_Position : Z }.

Record USB_Request_Header_t := USB_Request_Header {
  bmRequestType : Z;
  bRequest : Z;
  wValue : Z;
  wIndex : Z;
  wLength : Z }.

Record CDC_LineEncoding_t := CDC_LineEncoding {
  BaudRateBPS : Z;
  CharFormat : Z;
  ParityType : Z;
  DataBits : Z }.

(** The [State] part of [USB_ClassInfo_CDC_Device_t]. *)
Record CDC_State_t := CDC_State {
  HostToDevice : Z;
  DeviceToHost : Z;
  LineEncoding : CDC_LineEncoding_t }.

(** ** State *)
Record hw := HW {
  rf : reg → Z;
  eps : Z → bool → USB_EP_t;
  FrameNum : Z;
  bufs : buffer → list Z;
  scopeBuf : list Z;
  host : list Z }.

Record fw := FW {
  SelectedEndpoint : Z;
  SelectedHandle : Z * bool;
  SelectedFIFO : Z * bool;
  FIFOs : Z → bool → Endpoint_FIFO_t;
  DeviceState : Z;
  ConfigurationNumber : Z;
  ControlRequest : USB_Request_Header_t;
  IsInitialized : bool;
  CDC : CDC_State_t;
  ok_to_send : Z;
  USBtoUSART_Buffer : RingBuffer_t;
  IFlag : bool }.

(** What a polling read lets happen: a change of the hardware state, after
    which, for [EvIRQ], the USB bus interrupt is requested. *)
Inductive event :=
  | EvHw (f : hw → hw)
  | EvIRQ (f : hw → hw).

Inductive obs :=
  | OStore (r : reg) (v : Z)
  | OPacket (ep : Z) (data : list Z).

Record mach := Mach {
  hwst : hw;
  fwst : fw;
  script : list event;
  trace : list obs }.

Definition set_rf (v : reg → Z) (s : hw) : hw :=
  HW v (eps s) (FrameNum s) (bufs s) (scopeBuf s) (host s).
Definition set_eps (v : Z → bool → USB_EP_t) (s : hw) : hw :=
  HW (rf s) v (FrameNum s) (bufs s) (scopeBuf s) (host s).
Definition set_FrameNum (v : Z) (s : hw) : hw :=
  HW (rf s) (eps s) v (bufs s) (scopeBuf s) (host s).
Definition set_bufs (v : buffer → list Z) (s : hw) : hw :=
  HW (rf s) (eps s) (FrameNum s) v (scopeBuf s) (host s).
Definition set_scopeBuf (v : list Z) (s : hw) : hw :=
  HW (rf s) (eps s) (FrameNum s) (bufs s) v (host s).
Definition set_host (v : list Z) (s : hw) : hw :=
  HW (rf s) (eps s) (FrameNum s) (bufs s) (scopeBuf s) v.

Definition set_SelectedEndpoint (v : Z) (s : fw) : fw :=
  FW v (SelectedHandle s) (SelectedFIFO s) (FIFOs s) (DeviceState s) (ConfigurationNumber s) (ControlRequest s) (IsInitialized s) (CDC s) (ok_to_send s) (USBtoUSART_Buffer s) (IFlag s).
Definition set_SelectedHandle (v : Z * bool) (s : fw) : fw :=
  FW (SelectedEndpoint s) v (SelectedFIFO s) (FIFOs s) (DeviceState s) (ConfigurationNumber s) (ControlRequest s) (IsInitialized s) (CDC s) (ok_to_send s) (USBtoUSART_Buffer s) (IFlag s).
Definition set_SelectedFIFO (v : Z * bool) (s : fw) : fw :=
  FW (SelectedEndpoint s) (SelectedHandle s) v (FIFOs s) (DeviceState s) (ConfigurationNumber s) (ControlRequest s) (IsInitialized s) (CDC s) (ok_to_send s) (USBtoUSART_Buffer s) (IFlag s).
Definition set_FIFOs (v : Z → bool → Endpoint_FIFO_t) (s : fw) : fw :=
  FW (SelectedEndpoint s) (SelectedHandle s) (SelectedFIFO s) v (DeviceState s) (ConfigurationNumber s) (ControlRequest s) (IsInitialized s) (CDC s) (ok_to_send s) (USBtoUSART_Buffer s) (IFlag s).
Definition set_DeviceState (v : Z) (s : fw) : fw :=
  FW (SelectedEndpoint s) (SelectedHandle s) (SelectedFIFO s) (FIFOs s) v (ConfigurationNumber s) (ControlRequest s) (IsInitialized s) (CDC s) (ok_to_send s) (USBtoUSART_Buffer s) (IFlag s).
Definition set_ConfigurationNumber (v : Z) (s : fw) : fw :=
  FW (SelectedEndpoint s) (SelectedHandle s) (SelectedFIFO s) (FIFOs s) (DeviceState s) v (ControlRequest s) (IsInitialized s) (CDC s) (ok_to_send s) (USBtoUSART_Buffer s) (IFlag s).
Definition set_ControlRequest (v : USB_Request_Header_t) (s : fw) : fw :=
  FW (SelectedEndpoint s) (SelectedHandle s) (SelectedFIFO s) (FIFOs s) (DeviceState s) (ConfigurationNumber s) v (IsInitialized s) (CDC s) (ok_to_send s) (USBtoUSART_Buffer s) (IFlag s).
Definition set_IsInitialized (v : bool) (s : fw) : fw :=
  FW (SelectedEndpoint s) (SelectedHandle s) (SelectedFIFO s) (FIFOs s) (DeviceState s) (ConfigurationNumber s) (ControlRequest s) v (CDC s) (ok_to_send s) (USBtoUSART_Buffer s) (IFlag s).
Definition set_CDC (v : CDC_State_t) (s : fw) : fw :=
  FW (SelectedEndpoint s) (SelectedHandle s) (SelectedFIFO s) (FIFOs s) (DeviceState s) (ConfigurationNumber s) (ControlRequest s) (IsInitialized s) v (ok_to_send s) (USBtoUSART_Buffer s) (IFlag s).
Definition set_ok_to_send (v : Z) (s : fw) : fw :=
  FW (SelectedEndpoint s) (SelectedHandle s) (SelectedFIFO s) (FIFOs s) (DeviceState s) (ConfigurationNumber s) (ControlRequest s) (IsInitialized s) (CDC s) v (USBtoUSART_Buffer s) (IFlag s).
Definition set_USBtoUSART_Buffer (v : RingBuffer_t) (s : fw) : fw :=
  FW (SelectedEndpoint s) (SelectedHandle s) (SelectedFIFO s) (FIFOs s) (DeviceState s) (ConfigurationNumber s) (ControlRequest s) (IsInitialized s) (CDC s) (ok_to_send s) v (IFlag s).
Definition set_IFlag (v : bool) (s : fw) : fw :=
  FW (SelectedEndpoint s) (SelectedHandle s) (SelectedFIFO s) (FIFOs s) (DeviceState s) (ConfigurationNumber s) (ControlRequest s) (IsInitialized s) (CDC s) (ok_to_send s) (USBtoUSART_Buffer s) v.

Definition set_hwst (v : hw) (s : mach) : mach :=
  Mach v (fwst s) (script s) (trace s).
Definition set_fwst (v : fw) (s : mach) : mach :=
  Mach (hwst s) v (script s) (trace s).
Definition set_script (v : list event) (s : mach) : mach :=
  Mach (hwst s) (fwst s) v (trace s).
Definition set_trace (v : list obs) (s : mach) : mach :=
  Mach (hwst s) (fwst s) (script s) v.

(** ** The monad *)
Inductive res (A : Type) :=
  | Ok (a : A) (s : mach)
  | Blocked (s : mach)
  | Fault (s : mach)
  | Spin (s : mach).
Arguments Ok {A} _ _.
Arguments Blocked {A} _.
Arguments Fault {A} _.
Arguments Spin {A} _.

Definition M (A : Type) : Type := mach → res A.

#[export] Instance M_ret : MRet M := λ A a s, Ok a s.
#[export] Instance M_bind : MBind M := λ A B k m s,
  match m s with
  | Ok a s' => k a s'
  | Blocked s' => Blocked s'
  | Fault s' => Fault s'
  | Spin s' => Spin s'
  end.

Definition fault {A} : M A := λ s, Fault s.
Definition spin {A} : M A := λ s, Spin s.
Definition gets {A} (f : mach → A) : M A := λ s, Ok (f s) s.
Definition modify (f : mach → mach) : M unit := λ s, Ok tt (f s).
Definition get_fw {A} (f : fw → A) : M A := gets (λ s, f (fwst s)).
Definition mod_fw (f : fw → fw) : M unit := modify (λ s, set_fwst (f (fwst s)) s).
Definition get_hw {A} (f : hw → A) : M A := gets (λ s, f (hwst s)).
Definition mod_hw (f : hw → hw) : M unit := modify (λ s, set_hwst (f (hwst s)) s).
Definition emit (o : obs) : M unit := modify (λ s, set_trace (trace s ++ [o]) s).
Definition lift {A} (o : option A) : M A := match o with Some a => mret a | None => fault end.
(** The result of a pure loop; [None] when it does not end. *)
Definition ended {A} (o : option A) : M A := match o with Some a => mret a | None => spin end.
Definition when (b : bool) (m : M unit) : M unit := if b then m else mret tt.

(** ** Loops

    [iter body x] runs [body] from the loop variables [x] until it answers
    [inr]. A loop of the firmware polls in every iteration except in [slack]
    of them, so [slack] more iterations than there are events and one suffice;
    [Spin] is the answer when that is not so. *)
Fixpoint itern {A X} (n : nat) (body : X → M (X + A)) (x : X) : M A :=
  match n with
  | O => spin
  | S n' => r ← body x; match r with inl x' => itern n' body x' | inr a => mret a end
  end.

Definition iter {A X} (slack : nat) (body : X → M (X + A)) (x : X) : M A :=
  λ s, itern (slack + S (length (script s))) body x s.

(** [while (c) body] *)
Definition while_ (c : M bool) (body : M unit) : M unit :=
  iter 0 (λ _ : unit, b ← c; if (b : bool) then body;; mret (inl tt) else mret (inr tt)) tt.

(** [for (i = 0; i < n; i++) body] for a counter the loop owns. *)
Fixpoint repeat_ (n : nat) (body : M unit) : M unit :=
  match n with
  | O => mret tt
  | S n' => body;; repeat_ n' body
  end.

(** ** Register access *)
Definition upd {A B} `{EqDecision A} (f : A → B) (a : A) (b : B) : A → B :=
  λ a', if decide (a' = a) then b else f a'.

Definition ld (r : reg) : M Z := get_hw (λ h, rf h r).
Definition st8 (r : reg) (v : Z) : M unit :=
  mod_hw (λ h, set_rf (upd (rf h) r (u8 v)) h);; emit (OStore r (u8 v)).
Definition st16 (r : reg) (v : Z) : M unit :=
  mod_hw (λ h, set_rf (upd (rf h) r (u16 v)) h);; emit (OStore r (u16 v)).

(** A store to a register of interrupt flags: documented for the XMEGA
    peripherals, writing a one clears the flag. *)
Definition st_w1c (r : reg) (v : Z) : M unit :=
  mod_hw (λ h, set_rf (upd (rf h) r (clr8 (rf h r) (u8 v))) h);; emit (OStore r (u8 v)).

Notation "r ::= v" := (st8 r v) (at level 70, no associativity).

(** [r |= m] and [r &= ~m]. *)
Definition setbits (r : reg) (m : Z) : M unit := v ← ld r; r ::= v .| m.
Definition clrbits (r : reg) (m : Z) : M unit := v ← ld r; r ::= clr8 v m.

Definition cli : M unit := mod_fw (set_IFlag false).
Definition sei : M unit := mod_fw (set_IFlag true).
