(* ===== verification/Endpoint.v ===== *)
(** * Endpoints: selection, configuration and FIFO access

    The part of LUFA/Drivers/USB/Core/XMEGA/Endpoint_XMEGA.c and
    Endpoint_XMEGA.h that does not wait for the controller. The two pointers
    [USB_Endpoint_SelectedHandle] and [USB_Endpoint_SelectedFIFO] are pairs of
    an endpoint number and a direction ([true] for IN); using one that lies
    outside the tables is a fault, as is using a FIFO whose [Data] is null. *)
From S2P Require Import Prelude RingBuffer Machine.

(** MAX_ENDPOINT_INDEX + 1 (Config/LUFAConfig.h). *)
Definition ENDPOINT_TOTAL_ENDPOINTS : Z := 5.
Definition ENDPOINT_EPNUM_MASK : Z := 0x0F.
Definition ENDPOINT_DIR_IN : Z := 0x80.
Definition ENDPOINT_DIR_OUT : Z := 0x00.
Definition ENDPOINT_CONTROLEP : Z := 0.
Definition USB_Device_ControlEndpointSize : Z := 8.

Definition EP_TYPE_CONTROL : Z := 0x00.
Definition EP_TYPE_ISOCHRONOUS : Z := 0x01.
Definition EP_TYPE_BULK : Z := 0x02.
Definition EP_TYPE_INTERRUPT : Z := 0x03.

(** Bit masks of the endpoint table entries (avr/iox32a4u.h). *)
Definition USB_EP_OVF_bm : Z := 0x40.
Definition USB_EP_TRNCOMPL0_bm : Z := 0x20.
Definition USB_EP_SETUP_bm : Z := 0x10.
Definition USB_EP_BUSNACK0_bm : Z := 0x02.
Definition USB_EP_TOGGLE_bm : Z := 0x01.
Definition USB_EP_TYPE_gm : Z := 0xC0.
Definition USB_EP_TYPE_CONTROL_gc : Z := 0x40.
Definition USB_EP_TYPE_BULK_gc : Z := 0x80.
Definition USB_EP_TYPE_ISOCHRONOUS_gc : Z := 0xC0.
Definition USB_EP_PINGPONG_bm : Z := 0x10.
Definition USB_EP_INTDSBL_bm : Z := 0x08.
Definition USB_EP_STALL_bm : Z := 0x04.
Definition USB_EP_BUFSIZE_gp : Z := 0.

(** ** Access through the selected pointers *)
Definition in_table (p : Z * bool) : bool := (0 <=? p.1) && (p.1 <? ENDPOINT_TOTAL_ENDPOINTS).

Definition upd2 {B} (f : Z → bool → B) (p : Z * bool) (b : B) : Z → bool → B :=
  λ n d, if decide ((n, d) = p) then b else f n d.

Definition get_handle {A} (f : USB_EP_t → A) : M A :=
  p ← get_fw SelectedHandle;
  if in_table p then get_hw (λ h, f (eps h p.1 p.2)) else fault.

Definition mod_handle (f : USB_EP_t → USB_EP_t) : M unit :=
  p ← get_fw SelectedHandle;
  if in_table p then mod_hw (λ h, set_eps (upd2 (eps h) p (f (eps h p.1 p.2))) h) else fault.

Definition get_fifo {A} (f : Endpoint_FIFO_t → A) : M A :=
  p ← get_fw SelectedFIFO;
  if in_table p then get_fw (λ w, f (FIFOs w p.1 p.2)) else fault.

Definition mod_fifo (f : Endpoint_FIFO_t → Endpoint_FIFO_t) : M unit :=
  p ← get_fw SelectedFIFO;
  if in_table p then mod_fw (λ w, set_FIFOs (upd2 (FIFOs w) p (f (FIFOs w p.1 p.2))) w) else fault.

Definition ep_set_status v e := USB_EP v (EP_CTRL e) (EP_CNT e) (EP_DATAPTR e).
Definition ep_set_ctrl v e := USB_EP (EP_STATUS e) v (EP_CNT e) (EP_DATAPTR e).
Definition ep_set_cnt v e := USB_EP (EP_STATUS e) (EP_CTRL e) v (EP_DATAPTR e).
Definition ep_set_dataptr v e := USB_EP (EP_STATUS e) (EP_CTRL e) (EP_CNT e) v.
Definition fifo_set_length v q := Endpoint_FIFO (FIFO_Data q) v (FIFO_Position q).
Definition fifo_set_position v q := Endpoint_FIFO (FIFO_Data q) (FIFO_Length q) v.
Definition fifo_set_data v q := Endpoint_FIFO v (FIFO_Length q) (FIFO_Position q).

(** ** Selection *)
Definition Endpoint_SelectEndpoint (Address : Z) : M unit :=
  let EndpointNumber := Address .& ENDPOINT_EPNUM_MASK in
  mod_fw (set_SelectedEndpoint Address);;
  if tst Address ENDPOINT_DIR_IN then
    mod_fw (set_SelectedFIFO (EndpointNumber, true));;
    mod_fw (set_SelectedHandle (EndpointNumber, true))
  else
    mod_fw (set_SelectedFIFO (EndpointNumber, false));;
    mod_fw (set_SelectedHandle (EndpointNumber, false)).

Definition Endpoint_GetCurrentEndpoint : M Z := get_fw SelectedEndpoint.

Definition Endpoint_GetEndpointDirection : M Z :=
  a ← get_fw SelectedEndpoint; mret (a .& ENDPOINT_DIR_IN).

(** ** Configuration *)

(** The loop of [Endpoint_BytesToEPSizeMask]. [CheckBytes] is 0 after 13
    doublings, from where the loop does not end: [None]. *)
Fixpoint epsize_loop (n : nat) (Bytes MaskVal CheckBytes : Z) : option Z :=
  if CheckBytes <? Bytes then
    match n with
    | O => None
    | S n' => epsize_loop n' Bytes (u8 (MaskVal + 1)) (u16 (CheckBytes << 1))
    end
  else Some MaskVal.
Definition Endpoint_BytesToEPSizeMask (Bytes : Z) : option Z :=
  MaskVal ← epsize_loop 13 Bytes 0 8; Some (u8 (MaskVal << USB_EP_BUFSIZE_gp)).

Definition Endpoint_ConfigureEndpoint_PRV (Address Config Size : Z) : M bool :=
  Endpoint_SelectEndpoint Address;;
  mod_handle (ep_set_ctrl 0);;
  mod_handle (ep_set_status (if tst Address ENDPOINT_DIR_IN then USB_EP_BUSNACK0_bm else 0));;
  mod_handle (ep_set_ctrl Config);;
  mod_handle (ep_set_cnt 0);;
  d ← get_fifo FIFO_Data;
  mod_handle (ep_set_dataptr d);;
  mod_fifo (fifo_set_length (if tst Address ENDPOINT_DIR_IN then Size else 0));;
  mod_fifo (fifo_set_position 0);;
  mret true.

Definition Endpoint_ConfigureEndpoint (Address Type_ Size Banks : Z) : M bool :=
  SizeMask ← ended (Endpoint_BytesToEPSizeMask Size);
  let EPConfigMask :=
    USB_EP_INTDSBL_bm .| (if Banks >? 1 then USB_EP_PINGPONG_bm else 0) .| SizeMask in
  if Address .& ENDPOINT_EPNUM_MASK >=? ENDPOINT_TOTAL_ENDPOINTS then mret false
  else
    let EPConfigMask := clr8 EPConfigMask USB_EP_PINGPONG_bm in
    if Size >? 64 then mret false
    else
      let EPConfigMask :=
        if Type_ =? EP_TYPE_CONTROL then EPConfigMask .| USB_EP_TYPE_CONTROL_gc
        else if Type_ =? EP_TYPE_ISOCHRONOUS then EPConfigMask .| USB_EP_TYPE_ISOCHRONOUS_gc
        else EPConfigMask .| USB_EP_TYPE_BULK_gc in
      when (Type_ =? EP_TYPE_CONTROL)
        (_ ← Endpoint_ConfigureEndpoint_PRV (Address .^ ENDPOINT_DIR_IN) EPConfigMask (u8 Size);
         mret tt);;
      Endpoint_ConfigureEndpoint_PRV Address EPConfigMask (u8 Size).

(** [USB_Endpoint_Table_t] *)
Record USB_Endpoint_Table_t := USB_Endpoint_Table {
  T_Address : Z; T_Size : Z; T_Type : Z; T_Banks : Z }.

Fixpoint Endpoint_ConfigureEndpointTable (Table : list USB_Endpoint_Table_t) : M bool :=
  match Table with
  | [] => mret true
  | t :: Table' =>
      if T_Address t =? 0 then Endpoint_ConfigureEndpointTable Table'
      else
        ok ← Endpoint_ConfigureEndpoint (T_Address t) (T_Type t) (T_Size t) (T_Banks t);
        if (ok : bool) then Endpoint_ConfigureEndpointTable Table' else mret false
  end.

(** [Endpoint_ClearEndpoints]: the [CTRL] of every entry, IN then OUT. *)
Definition Endpoint_ClearEndpoints : M unit :=
  mod_hw (λ h, set_eps (λ n d,
    if (0 <=? n) && (n <? ENDPOINT_TOTAL_ENDPOINTS) then ep_set_ctrl 0 (eps h n d) else eps h n d) h).

(** ** Handshake *)
Definition CLEAR_MASK : Z := USB_EP_TRNCOMPL0_bm .| USB_EP_BUSNACK0_bm .| USB_EP_OVF_bm.

Definition Endpoint_ClearSETUP : M unit :=
  a ← get_fw SelectedEndpoint;
  Endpoint_SelectEndpoint (clr8 a ENDPOINT_DIR_IN);;
  mod_handle (λ e, ep_set_status (clr8 (EP_STATUS e) (USB_EP_SETUP_bm .| CLEAR_MASK)) e);;
  mod_handle (λ e, ep_set_status (EP_STATUS e .| USB_EP_TOGGLE_bm) e);;
  mod_fifo (fifo_set_position 0);;
  a ← get_fw SelectedEndpoint;
  Endpoint_SelectEndpoint (a .| ENDPOINT_DIR_IN);;
  mod_handle (λ e, ep_set_status (EP_STATUS e .| USB_EP_TOGGLE_bm) e);;
  mod_fifo (fifo_set_position 0).

(** The bytes of the packet that the selected FIFO holds. *)
Definition pending_packet (s : mach) : list Z :=
  let p := SelectedFIFO (fwst s) in
  let q := FIFOs (fwst s) p.1 p.2 in
  match FIFO_Data q with
  | Some b => take (Z.to_nat (FIFO_Position q)) (bufs (hwst s) b)
  | None => []
  end.

(** [Endpoint_ClearIN] hands the packet in the FIFO to the controller; the
    packet is recorded in the trace. *)
Definition Endpoint_ClearIN : M unit :=
  pkt ← gets pending_packet;
  p ← get_fw SelectedHandle;
  n ← get_fifo FIFO_Position;
  mod_handle (ep_set_cnt n);;
  mod_handle (λ e, ep_set_status (clr8 (EP_STATUS e) CLEAR_MASK) e);;
  mod_fifo (fifo_set_position 0);;
  when p.2 (emit (OPacket p.1 pkt)).

Definition Endpoint_ClearOUT : M unit :=
  mod_handle (λ e, ep_set_status (clr8 (EP_STATUS e) CLEAR_MASK) e);;
  mod_fifo (fifo_set_position 0).

Definition Endpoint_StallTransaction : M unit :=
  mod_handle (λ e, ep_set_ctrl (EP_CTRL e .| USB_EP_STALL_bm) e);;
  c ← get_handle EP_CTRL;
  when (c .& USB_EP_TYPE_gm =? USB_EP_TYPE_CONTROL_gc)
    (a ← get_fw SelectedEndpoint;
     Endpoint_SelectEndpoint (a .^ ENDPOINT_DIR_IN);;
     mod_handle (λ e, ep_set_ctrl (EP_CTRL e .| USB_EP_STALL_bm) e)).

Definition Endpoint_ClearStall : M unit :=
  mod_handle (λ e, ep_set_ctrl (clr8 (EP_CTRL e) USB_EP_STALL_bm) e).

Definition Endpoint_IsStalled : M bool := c ← get_handle EP_CTRL; mret (tst c USB_EP_STALL_bm).

Definition Endpoint_IsEnabled : M bool := mret true.

Definition Endpoint_IsConfigured : M bool := c ← get_handle EP_CTRL; mret (tst c USB_EP_TYPE_gm).

Definition Endpoint_AbortPendingIN : M unit :=
  mod_handle (λ e, ep_set_status (EP_STATUS e .| USB_EP_BUSNACK0_bm) e).

Definition Endpoint_ResetDataToggle : M unit :=
  mod_handle (λ e, ep_set_status (clr8 (EP_STATUS e) USB_EP_TOGGLE_bm) e).

Definition Endpoint_ResetEndpoint (Address : Z) : M unit :=
  let p := (Address .& ENDPOINT_EPNUM_MASK, tst Address ENDPOINT_DIR_IN) in
  if in_table p then
    mod_fw (λ w, set_FIFOs (upd2 (FIFOs w) p (fifo_set_position 0 (FIFOs w p.1 p.2))) w)
  else fault.

(** ** Data *)
Definition Endpoint_BytesInEndpoint : M Z :=
  a ← get_fw SelectedEndpoint;
  if tst a ENDPOINT_DIR_IN then get_fifo FIFO_Position
  else get_fifo (λ q, u16 (FIFO_Length q - FIFO_Position q)).

Definition Endpoint_IsReadWriteAllowed : M bool :=
  get_fifo (λ q, FIFO_Position q <? FIFO_Length q).

(** [Data[Position++]] as a value and as a target. *)
Definition Endpoint_Read_8 : M Z :=
  q ← get_fifo (λ q, q);
  b ← lift (FIFO_Data q);
  l ← get_hw (λ h, bufs h b);
  x ← lift (rd l (FIFO_Position q));
  mod_fifo (fifo_set_position (u8 (FIFO_Position q + 1)));;
  mret x.

Definition Endpoint_Write_8 (x : Z) : M unit :=
  q ← get_fifo (λ q, q);
  b ← lift (FIFO_Data q);
  l ← get_hw (λ h, bufs h b);
  l ← lift (wr l (FIFO_Position q) (u8 x));
  mod_hw (λ h, set_bufs (upd (bufs h) b l) h);;
  mod_fifo (fifo_set_position (u8 (FIFO_Position q + 1))).

Definition Endpoint_Discard_8 : M unit :=
  mod_fifo (λ q, fifo_set_position (u8 (FIFO_Position q + 1)) q).

Definition Endpoint_Read_16_LE : M Z :=
  Byte0 ← Endpoint_Read_8; Byte1 ← Endpoint_Read_8; mret (u16 ((Byte1 << 8) .| Byte0)).
Definition Endpoint_Read_16_BE : M Z :=
  Byte0 ← Endpoint_Read_8; Byte1 ← Endpoint_Read_8; mret (u16 ((Byte0 << 8) .| Byte1)).
Definition Endpoint_Write_16_LE (x : Z) : M unit :=
  Endpoint_Write_8 (x .& 0xFF);; Endpoint_Write_8 (x >> 8).
Definition Endpoint_Write_16_BE (x : Z) : M unit :=
  Endpoint_Write_8 (x >> 8);; Endpoint_Write_8 (x .& 0xFF).
Definition Endpoint_Discard_16 : M unit := Endpoint_Discard_8;; Endpoint_Discard_8.

Definition Endpoint_Read_32_LE : M Z :=
  Byte0 ← Endpoint_Read_8; Byte1 ← Endpoint_Read_8; Byte2 ← Endpoint_Read_8; Byte3 ← Endpoint_Read_8;
  mret (u32 ((Byte3 << 24) .| (Byte2 << 16) .| (Byte1 << 8) .| Byte0)).
Definition Endpoint_Read_32_BE : M Z :=
  Byte0 ← Endpoint_Read_8; Byte1 ← Endpoint_Read_8; Byte2 ← Endpoint_Read_8; Byte3 ← Endpoint_Read_8;
  mret (u32 ((Byte0 << 24) .| (Byte1 << 16) .| (Byte2 << 8) .| Byte3)).
Definition Endpoint_Write_32_LE (x : Z) : M unit :=
  Endpoint_Write_8 (x .& 0xFF);; Endpoint_Write_8 (x >> 8);;
  Endpoint_Write_8 (x >> 16);; Endpoint_Write_8 (x >> 24).
Definition Endpoint_Write_32_BE (x : Z) : M unit :=
  Endpoint_Write_8 (x >> 24);; Endpoint_Write_8 (x >> 16);;
  Endpoint_Write_8 (x >> 8);; Endpoint_Write_8 (x .& 0xFF).
Definition Endpoint_Discard_32 : M unit :=
  Endpoint_Discard_8;; Endpoint_Discard_8;; Endpoint_Discard_8;; Endpoint_Discard_8.
