(* ===== verification/Controller.v ===== *)
(** * The USB controller and its interrupt

    LUFA/Drivers/USB/Core/XMEGA/USBController_XMEGA.c and .h,
    USBInterrupt_XMEGA.c and .h, Device_XMEGA.c and .h, in the configuration
    of Projects/HorrorScope (device only, static options, fixed control
    endpoint size, no remote wakeup, no self power), and the polling step in
    which the environment acts and the bus interrupt may run. *)
From S2P Require Import Prelude RingBuffer Machine Endpoint.

(** Addresses and factory data that the linker and the device fix. *)
Class Platform := {
  addr_EndpointTable : Z;      (** [&USB_EndpointTable[0]] *)
  addr_scopeBuf : Z;           (** [scopeBuf] *)
  addr_clkSel : Z;             (** [&clkSel] of trigger.c *)
  addr_TCD0_CTRLA : Z;         (** [&TCD0_CTRLA] *)
  addr_ADCA_CH0_RES : Z;       (** [&ADCA.CH0.RES], also [&ADCA.CH0.RESL] *)
  sig_row : Z → Z              (** the production signature row, by offset *)
}.

(** Offsets in [NVM_PROD_SIGNATURES_t] (avr/iox32a4u.h). *)
Definition offset_LOTNUM0 : Z := 0x08.
Definition offset_COORDY1 : Z := 0x15.
Definition offset_USBCAL0 : Z := 0x1A.
Definition offset_USBCAL1 : Z := 0x1B.

Definition DEVICE_STATE_Unattached : Z := 0.
Definition DEVICE_STATE_Powered : Z := 1.
Definition DEVICE_STATE_Default : Z := 2.
Definition DEVICE_STATE_Addressed : Z := 3.
Definition DEVICE_STATE_Configured : Z := 4.
Definition DEVICE_STATE_Suspended : Z := 5.

Definition USB_OPT_BUSEVENT_PRIMED : Z := 2.
Definition USB_OPT_BUSEVENT_PRIHIGH : Z := 4.
Definition USB_OPT_PLLCLKSRC : Z := 8.
Definition USB_DEVICE_OPT_LOWSPEED : Z := 1.

(** USE_STATIC_OPTIONS (Config/LUFAConfig.h) and F_USB (makefile). *)
Definition USB_Options : Z := USB_OPT_BUSEVENT_PRIMED .| USB_OPT_PLLCLKSRC.
Definition F_USB : Z := 6000000.

(** Register masks (avr/iox32a4u.h). *)
Definition USB_ENABLE_bm : Z := 0x80.
Definition USB_SPEED_bm : Z := 0x40.
Definition USB_STFRNUM_bm : Z := 0x10.
Definition USB_MAXEP_gp : Z := 0.
Definition USB_ATTACH_bm : Z := 0x01.
Definition USB_RWAKEUP_bm : Z := 0x04.
Definition USB_SOFIE_bm : Z := 0x80.
Definition USB_BUSEVIE_bm : Z := 0x40.
Definition USB_INTLVL_gm : Z := 0x03.
Definition USB_INTLVL_gp : Z := 0.
Definition USB_SOFIF_bm : Z := 0x80.
Definition USB_SUSPENDIF_bm : Z := 0x40.
Definition USB_RESUMEIF_bm : Z := 0x20.
Definition USB_RSTIF_bm : Z := 0x10.
Definition CLK_USBPSDIV_gp : Z := 3.
Definition CLK_USBSRC_PLL_gc : Z := 0x00.
Definition CLK_USBSRC_RC32M_gc : Z := 0x02.
Definition CLK_USBSEN_bm : Z := 0x01.
Definition NVM_CMD_NO_OPERATION_gc : Z := 0x00.
Definition NVM_CMD_READ_CALIB_ROW_gc : Z := 0x02.

(** ** Device_XMEGA *)
Definition USB_Device_SendRemoteWakeup : M unit := setbits (USB, CTRLB) USB_RWAKEUP_bm.
Definition USB_Device_GetFrameNumber : M Z := get_hw FrameNum.
Definition USB_Device_EnableSOFEvents : M unit := setbits (USB, INTCTRLA) USB_SOFIE_bm.
Definition USB_Device_DisableSOFEvents : M unit := clrbits (USB, INTCTRLA) USB_SOFIE_bm.
Definition USB_Device_SetLowSpeed : M unit := clrbits (USB, CTRLA) USB_SPEED_bm.
Definition USB_Device_SetFullSpeed : M unit := setbits (USB, CTRLA) USB_SPEED_bm.
Definition USB_Device_SetDeviceAddress (Address : Z) : M unit := mret tt.
Definition USB_Device_EnableDeviceAddress (Address : Z) : M unit := (USB, ADDR) ::= Address.
Definition USB_Device_IsAddressSet : M bool := a ← ld (USB, ADDR); mret (negb (a =? 0)).

(** ** Interrupt masks *)
Inductive USB_Interrupts_t :=
  | USB_INT_BUSEVENTI | USB_INT_BUSEVENTI_Suspend | USB_INT_BUSEVENTI_Resume
  | USB_INT_BUSEVENTI_Reset | USB_INT_SOFI.

Definition USB_INT_Enable (i : USB_Interrupts_t) : M unit :=
  match i with
  | USB_INT_BUSEVENTI => setbits (USB, INTCTRLA) USB_BUSEVIE_bm
  | USB_INT_SOFI => setbits (USB, INTCTRLA) USB_SOFIE_bm
  | _ => mret tt
  end.

Definition USB_INT_Disable (i : USB_Interrupts_t) : M unit :=
  match i with
  | USB_INT_BUSEVENTI => clrbits (USB, INTCTRLA) USB_BUSEVIE_bm
  | USB_INT_SOFI => clrbits (USB, INTCTRLA) USB_SOFIE_bm
  | _ => mret tt
  end.

Definition USB_INT_Clear (i : USB_Interrupts_t) : M unit :=
  match i with
  | USB_INT_BUSEVENTI_Suspend => st_w1c (USB, INTFLAGSACLR) USB_SUSPENDIF_bm
  | USB_INT_BUSEVENTI_Resume => st_w1c (USB, INTFLAGSACLR) USB_RESUMEIF_bm
  | USB_INT_BUSEVENTI_Reset => st_w1c (USB, INTFLAGSACLR) USB_RSTIF_bm
  | USB_INT_SOFI => st_w1c (USB, INTFLAGSACLR) USB_SOFIF_bm
  | USB_INT_BUSEVENTI => mret tt
  end.

Definition USB_INT_IsEnabled (i : USB_Interrupts_t) : M bool :=
  match i with
  | USB_INT_BUSEVENTI => v ← ld (USB, INTCTRLA); mret (tst v USB_BUSEVIE_bm)
  | USB_INT_SOFI => v ← ld (USB, INTCTRLA); mret (tst v USB_SOFIE_bm)
  | _ => mret false
  end.

Definition USB_INT_HasOccurred (i : USB_Interrupts_t) : M bool :=
  match i with
  | USB_INT_BUSEVENTI_Suspend => v ← ld (USB, INTFLAGSACLR); mret (tst v USB_SUSPENDIF_bm)
  | USB_INT_BUSEVENTI_Resume => v ← ld (USB, INTFLAGSACLR); mret (tst v USB_RESUMEIF_bm)
  | USB_INT_BUSEVENTI_Reset => v ← ld (USB, INTFLAGSACLR); mret (tst v USB_RSTIF_bm)
  | USB_INT_SOFI => v ← ld (USB, INTFLAGSACLR); mret (tst v USB_SOFIF_bm)
  | USB_INT_BUSEVENTI => mret false
  end.

Definition USB_INT_DisableAllInterrupts : M unit :=
  v ← ld (USB, INTCTRLA);
  (USB, INTCTRLA) ::= v .& USB_INTLVL_gm;;
  (USB, INTCTRLB) ::= 0.

Definition USB_INT_ClearAllInterrupts : M unit :=
  st_w1c (USB, INTFLAGSACLR) 0xFF;;
  st_w1c (USB, INTFLAGSBCLR) 0xFF.

(** ** Events

    Those usb_serial.c does not define are aliases of [USB_Event_Stub]. *)
Definition USB_Event_Stub : M unit := mret tt.
Definition EVENT_USB_Device_Connect : M unit := mret tt.
Definition EVENT_USB_Device_Disconnect : M unit := mret tt.

(** ** The controller *)
Definition USB_Attach : M unit := setbits (USB, CTRLB) USB_ATTACH_bm.
Definition USB_Detach : M unit := clrbits (USB, CTRLB) USB_ATTACH_bm.
Definition USB_Controller_Enable : M unit := setbits (USB, CTRLA) USB_ENABLE_bm.
Definition USB_Controller_Disable : M unit := clrbits (USB, CTRLA) USB_ENABLE_bm.
Definition USB_Controller_Reset : M unit :=
  clrbits (USB, CTRLA) USB_ENABLE_bm;; setbits (USB, CTRLA) USB_ENABLE_bm.

Definition USB_Init_Device : M unit :=
  mod_fw (set_DeviceState DEVICE_STATE_Unattached);;
  mod_fw (set_ConfigurationNumber 0);;
  (if tst USB_Options USB_DEVICE_OPT_LOWSPEED then USB_Device_SetLowSpeed
   else USB_Device_SetFullSpeed);;
  _ ← Endpoint_ConfigureEndpoint ENDPOINT_CONTROLEP EP_TYPE_CONTROL USB_Device_ControlEndpointSize 1;
  USB_INT_Enable USB_INT_BUSEVENTI;;
  USB_Attach.

(** The loop [while (PrescalerNeeded > 0)]; the 8-bit value is 0 after at most
    eight halvings. *)
Fixpoint divider_loop (n : nat) (PrescalerNeeded DividerIndex : Z) : option Z :=
  if PrescalerNeeded >? 0 then
    match n with
    | O => None
    | S n' => divider_loop n' (PrescalerNeeded >> 1) (u8 (DividerIndex + 1))
    end
  else Some DividerIndex.

Definition USB_ResetInterface : M unit :=
  let PrescalerNeeded := u8 (F_USB `div` 6000000) in
  DividerIndex ← ended (divider_loop 8 PrescalerNeeded 0);
  (CLK, USBCTRL) ::= (DividerIndex - 1) << CLK_USBPSDIV_gp;;
  (if tst USB_Options USB_OPT_PLLCLKSRC
   then setbits (CLK, USBCTRL) (CLK_USBSRC_PLL_gc .| CLK_USBSEN_bm)
   else setbits (CLK, USBCTRL) (CLK_USBSRC_RC32M_gc .| CLK_USBSEN_bm));;
  USB_Device_SetDeviceAddress 0;;
  USB_INT_DisableAllInterrupts;;
  USB_INT_ClearAllInterrupts;;
  USB_Controller_Reset;;
  USB_Init_Device.

Section WithPlatform.
Context `{Platform}.

(** [pgm_read_byte] while NVM.CMD selects the calibration row. *)
Definition read_sig (a : Z) : M Z := mret (sig_row a).

Definition USB_Init : M unit :=
  CurrentGlobalInt ← get_fw IFlag;
  cli;;
  (NVM, CMD) ::= NVM_CMD_READ_CALIB_ROW_gc;;
  c0 ← read_sig offset_USBCAL0;
  (USB, CAL0) ::= c0;;
  c1 ← read_sig offset_USBCAL1;
  (USB, CAL1) ::= c1;;
  (NVM, CMD) ::= NVM_CMD_NO_OPERATION_gc;;
  st16 (USB, EPPTR) ((addr_EndpointTable + 1) .& (0xFFFF .^ 1));;
  (USB, CTRLA) ::= USB_STFRNUM_bm .| ((ENDPOINT_TOTAL_ENDPOINTS - 1) << USB_MAXEP_gp);;
  (if USB_Options .& USB_OPT_BUSEVENT_PRIHIGH =? USB_OPT_BUSEVENT_PRIHIGH
   then (USB, INTCTRLA) ::= 3 << USB_INTLVL_gp
   else if USB_Options .& USB_OPT_BUSEVENT_PRIMED =? USB_OPT_BUSEVENT_PRIMED
   then (USB, INTCTRLA) ::= 2 << USB_INTLVL_gp
   else (USB, INTCTRLA) ::= 1 << USB_INTLVL_gp);;
  mod_fw (set_IFlag CurrentGlobalInt);;
  mod_fw (set_IsInitialized true);;
  USB_ResetInterface.

(** The internal serial number as UTF-16 characters, a nibble each. *)
Definition INTERNAL_SERIAL_LENGTH_BITS : Z := 8 * (1 + (offset_COORDY1 - offset_LOTNUM0)).

Fixpoint serial_loop (n : nat) (SerialCharNum SigReadAddress : Z) : M (list Z) :=
  match n with
  | O => mret []
  | S n' =>
      (NVM, CMD) ::= NVM_CMD_READ_CALIB_ROW_gc;;
      SerialByte ← read_sig SigReadAddress;
      (NVM, CMD) ::= 0;;
      let odd := tst SerialCharNum 0x01 in
      let SerialByte := if odd then SerialByte >> 4 else SerialByte in
      let SigReadAddress := if odd then u8 (SigReadAddress + 1) else SigReadAddress in
      let SerialByte := SerialByte .& 0x0F in
      let c := if SerialByte >=? 10 then 65 - 10 + SerialByte else 48 + SerialByte in
      l ← serial_loop n' (u8 (SerialCharNum + 1)) SigReadAddress;
      mret (c :: l)
  end.

Definition USB_Device_GetSerialString : M (list Z) :=
  CurrentGlobalInt ← get_fw IFlag;
  cli;;
  l ← serial_loop (Z.to_nat (INTERNAL_SERIAL_LENGTH_BITS `div` 4)) 0 offset_LOTNUM0;
  mod_fw (set_IFlag CurrentGlobalInt);;
  mret l.

End WithPlatform.

Definition USB_Disable : M unit :=
  USB_INT_DisableAllInterrupts;;
  USB_INT_ClearAllInterrupts;;
  USB_Detach;;
  USB_Controller_Disable;;
  mod_fw (set_IsInitialized false).

(** ** The bus event interrupt *)
Definition ISR_SOF : M unit :=
  o ← USB_INT_HasOccurred USB_INT_SOFI;
  e ← USB_INT_IsEnabled USB_INT_SOFI;
  when (o && e) (USB_INT_Clear USB_INT_SOFI;; USB_Event_Stub).

Definition ISR_Suspend : M unit :=
  o ← USB_INT_HasOccurred USB_INT_BUSEVENTI_Suspend;
  when o
    (USB_INT_Clear USB_INT_BUSEVENTI_Suspend;;
     mod_fw (set_DeviceState DEVICE_STATE_Unattached);;
     EVENT_USB_Device_Disconnect).

Definition ISR_Resume : M unit :=
  o ← USB_INT_HasOccurred USB_INT_BUSEVENTI_Resume;
  when o
    (USB_INT_Clear USB_INT_BUSEVENTI_Resume;;
     n ← get_fw ConfigurationNumber;
     (if negb (n =? 0) then mod_fw (set_DeviceState DEVICE_STATE_Configured)
      else
        a ← USB_Device_IsAddressSet;
        mod_fw (set_DeviceState (if (a : bool) then DEVICE_STATE_Addressed else DEVICE_STATE_Powered)));;
     EVENT_USB_Device_Connect).

Definition ISR_Reset : M unit :=
  o ← USB_INT_HasOccurred USB_INT_BUSEVENTI_Reset;
  when o
    (USB_INT_Clear USB_INT_BUSEVENTI_Reset;;
     mod_fw (set_DeviceState DEVICE_STATE_Default);;
     mod_fw (set_ConfigurationNumber 0);;
     USB_Device_EnableDeviceAddress 0;;
     Endpoint_ClearEndpoints;;
     _ ← Endpoint_ConfigureEndpoint ENDPOINT_CONTROLEP EP_TYPE_CONTROL USB_Device_ControlEndpointSize 1;
     USB_Event_Stub).

Definition USB_BUSEVENT_vect : M unit :=
  ISR_SOF;; ISR_Suspend;; ISR_Resume;; ISR_Reset.

(** ** Polling

    The next event of the environment happens; an interrupt is taken when
    interrupts are enabled. Without a further event the program waits for
    ever. *)
Definition poll : M unit := λ s,
  match script s with
  | [] => Blocked s
  | EvHw f :: es => Ok tt (set_hwst (f (hwst s)) (set_script es s))
  | EvIRQ f :: es =>
      let s' := set_hwst (f (hwst s)) (set_script es s) in
      if IFlag (fwst s') then USB_BUSEVENT_vect s' else Ok tt s'
  end.

(** A read of a volatile register or variable that the environment changes. *)
Definition ldv (r : reg) : M Z := poll;; ld r.
Definition USB_DeviceState_volatile : M Z := poll;; get_fw DeviceState.
