(* ===== verification/EndpointPoll.v ===== *)
(** * Endpoints: waiting for the controller

    The functions of LUFA/Drivers/USB/Core/XMEGA/Endpoint_XMEGA.c that read a
    status the USB controller changes. Each such read is a polling point. *)
From S2P Require Import Prelude RingBuffer Machine Endpoint Controller.

Definition REQDIR_DEVICETOHOST : Z := 0x80.
Definition USB_STREAM_TIMEOUT_MS : Z := 100.

Definition ENDPOINT_READYWAIT_NoError : Z := 0.
Definition ENDPOINT_READYWAIT_EndpointStalled : Z := 1.
Definition ENDPOINT_READYWAIT_DeviceDisconnected : Z := 2.
Definition ENDPOINT_READYWAIT_BusSuspended : Z := 3.
Definition ENDPOINT_READYWAIT_Timeout : Z := 4.

Definition Endpoint_IsINReady : M bool :=
  a ← get_fw SelectedEndpoint;
  Endpoint_SelectEndpoint (a .| ENDPOINT_DIR_IN);;
  poll;;
  st ← get_handle EP_STATUS;
  mret (tst st USB_EP_BUSNACK0_bm).

(** The common shape of [Endpoint_IsOUTReceived] and
    [Endpoint_IsSETUPReceived]. *)
Definition received (flag : Z) : M bool :=
  a ← get_fw SelectedEndpoint;
  Endpoint_SelectEndpoint (clr8 a ENDPOINT_DIR_IN);;
  poll;;
  st ← get_handle EP_STATUS;
  if tst st flag then
    n ← get_handle EP_CNT;
    mod_fifo (fifo_set_length (u8 n));;
    mret true
  else mret false.

Definition Endpoint_IsOUTReceived : M bool := received USB_EP_TRNCOMPL0_bm.
Definition Endpoint_IsSETUPReceived : M bool := received USB_EP_SETUP_bm.

(** [while (!cond()) { if (Unattached) return; }], answering whether [cond]
    was met. *)
Definition wait_attached (cond : M bool) : M bool :=
  iter 0 (λ _ : unit,
    b ← cond;
    if (b : bool) then mret (inr true)
    else
      d ← get_fw DeviceState;
      mret (if d =? DEVICE_STATE_Unattached then inr false else inl tt)) tt.

Definition Endpoint_ClearStatusStage : M unit :=
  r ← get_fw ControlRequest;
  if tst (bmRequestType r) REQDIR_DEVICETOHOST then
    ok ← wait_attached Endpoint_IsOUTReceived;
    when ok Endpoint_ClearOUT
  else
    ok ← wait_attached Endpoint_IsINReady;
    when ok Endpoint_ClearIN.

(** The loop variables are [TimeoutMSRem] and [PreviousFrameNumber]. *)
Definition wait_ready_body (x : Z * Z) : M (Z * Z + Z) :=
  let '(TimeoutMSRem, PreviousFrameNumber) := x in
  dir ← Endpoint_GetEndpointDirection;
  ready ← (if dir =? ENDPOINT_DIR_IN then Endpoint_IsINReady else Endpoint_IsOUTReceived);
  if (ready : bool) then mret (inr ENDPOINT_READYWAIT_NoError)
  else
    USB_DeviceState_LCL ← get_fw DeviceState;
    if USB_DeviceState_LCL =? DEVICE_STATE_Unattached then mret (inr ENDPOINT_READYWAIT_DeviceDisconnected)
    else if USB_DeviceState_LCL =? DEVICE_STATE_Suspended then mret (inr ENDPOINT_READYWAIT_BusSuspended)
    else
      stalled ← Endpoint_IsStalled;
      if (stalled : bool) then mret (inr ENDPOINT_READYWAIT_EndpointStalled)
      else
        CurrentFrameNumber ← USB_Device_GetFrameNumber;
        if CurrentFrameNumber =? PreviousFrameNumber then mret (inl (TimeoutMSRem, PreviousFrameNumber))
        else if TimeoutMSRem =? 0 then mret (inr ENDPOINT_READYWAIT_Timeout)
        else mret (inl (u8 (TimeoutMSRem - 1), CurrentFrameNumber)).

Definition Endpoint_WaitUntilReady : M Z :=
  PreviousFrameNumber ← USB_Device_GetFrameNumber;
  iter 0 wait_ready_body (USB_STREAM_TIMEOUT_MS, PreviousFrameNumber).
