(* ===== verification/EndpointStream.v ===== *)
(** * Endpoint streams

    LUFA/Drivers/USB/Core/XMEGA/EndpointStream_XMEGA.c with the three bodies
    of Template/. INTERRUPT_CONTROL_ENDPOINT is defined in this project, so
    the streams do not run [USB_USBTask].

    A buffer is addressed by the offset of [DataStream] from the start of the
    caller's buffer. For the streams that write to the endpoint, [Buffer] is
    the read of one byte of memory (RAM, flash or EEPROM); for those that read
    from the endpoint it is the list of the bytes of the caller's buffer,
    which the loop carries. *)
From S2P Require Import Prelude RingBuffer Machine Endpoint Controller EndpointPoll.

Definition ENDPOINT_RWSTREAM_NoError : Z := 0.
Definition ENDPOINT_RWSTREAM_EndpointStalled : Z := 1.
Definition ENDPOINT_RWSTREAM_DeviceDisconnected : Z := 2.
Definition ENDPOINT_RWSTREAM_BusSuspended : Z := 3.
Definition ENDPOINT_RWSTREAM_Timeout : Z := 4.
Definition ENDPOINT_RWSTREAM_IncompleteTransfer : Z := 5.
Definition ENDPOINT_RWCSTREAM_NoError : Z := 0.
Definition ENDPOINT_RWCSTREAM_HostAborted : Z := 1.
Definition ENDPOINT_RWCSTREAM_DeviceDisconnected : Z := 2.
Definition ENDPOINT_RWCSTREAM_BusSuspended : Z := 3.

(** ** Template_Endpoint_RW.c

    The parameters are the macros of the template: [clear] is
    TEMPLATE_CLEAR_ENDPOINT, [offset] and [move] are TEMPLATE_BUFFER_OFFSET and
    TEMPLATE_BUFFER_MOVE, [transfer] is TEMPLATE_TRANSFER_BYTE. The result is
    the error code, the buffer and [*BytesProcessed]. *)
Section RW.
Context {B : Type} (clear : M unit) (offset : Z → Z) (move : Z → Z → Z) (transfer : B → Z → M B).

Record rw_vars := RWVars {
  rw_Buffer : B; rw_DataStream : Z; rw_Length : Z; rw_BytesInTransfer : Z }.

Definition rw_body (BytesProcessed : option Z) (v : rw_vars) :
    M (rw_vars + (Z * B * option Z)) :=
  if rw_Length v =? 0 then mret (inr (ENDPOINT_RWSTREAM_NoError, rw_Buffer v, BytesProcessed))
  else
    ok ← Endpoint_IsReadWriteAllowed;
    if negb ok then
      clear;;
      match BytesProcessed with
      | Some p => mret (inr (ENDPOINT_RWSTREAM_IncompleteTransfer, rw_Buffer v,
                             Some (u16 (p + rw_BytesInTransfer v))))
      | None =>
          ErrorCode ← Endpoint_WaitUntilReady;
          if negb (ErrorCode =? 0) then mret (inr (ErrorCode, rw_Buffer v, None))
          else mret (inl v)
      end
    else
      b ← transfer (rw_Buffer v) (rw_DataStream v);
      mret (inl (RWVars b (move (rw_DataStream v) 1) (u16 (rw_Length v - 1))
                        (u16 (rw_BytesInTransfer v + 1)))).

Definition Template_Endpoint_RW (Buffer : B) (Length : Z) (BytesProcessed : option Z) :
    M (Z * B * option Z) :=
  let DataStream := offset Length in
  ErrorCode ← Endpoint_WaitUntilReady;
  if negb (ErrorCode =? 0) then mret (ErrorCode, Buffer, BytesProcessed)
  else
    let '(Length, DataStream) :=
      match BytesProcessed with
      | Some p => (u16 (Length - p), move DataStream p)
      | None => (Length, DataStream)
      end in
    iter (Z.to_nat Length) (rw_body BytesProcessed) (RWVars Buffer DataStream Length 0).

End RW.
Arguments RWVars {B} _ _ _ _.
Arguments rw_Buffer {B} _.
Arguments rw_DataStream {B} _.
Arguments rw_Length {B} _.
Arguments rw_BytesInTransfer {B} _.

(** The macro arguments of the instances. *)
Definition offset_LE (Length : Z) : Z := 0.
Definition offset_BE (Length : Z) : Z := Length - 1.
Definition move_LE (p n : Z) : Z := p + n.
Definition move_BE (p n : Z) : Z := p - n.
(** [Endpoint_Write_8( *BufferPtr )], also through [pgm_read_byte] and
    [eeprom_read_byte]. *)
Definition transfer_write (Buffer : Z → M Z) (_ : unit) (p : Z) : M unit :=
  x ← Buffer p; Endpoint_Write_8 x.
(** [*BufferPtr = Endpoint_Read_8()], also through [eeprom_update_byte]. *)
Definition transfer_read (Buffer : list Z) (p : Z) : M (list Z) :=
  x ← Endpoint_Read_8; lift (wr Buffer p x).

(** [Endpoint_Discard_Stream] and [Endpoint_Null_Stream] have the body of the
    template with a transfer that uses no buffer. *)
Definition Endpoint_Discard_Stream (Length : Z) (BytesProcessed : option Z) : M (Z * unit * option Z) :=
  Template_Endpoint_RW Endpoint_ClearOUT offset_LE move_LE (λ _ _, Endpoint_Discard_8)
    tt Length BytesProcessed.
Definition Endpoint_Null_Stream (Length : Z) (BytesProcessed : option Z) : M (Z * unit * option Z) :=
  Template_Endpoint_RW Endpoint_ClearIN offset_LE move_LE (λ _ _, Endpoint_Write_8 0)
    tt Length BytesProcessed.

Definition Endpoint_Write_Stream_LE (Buffer : Z → M Z) Length BytesProcessed :=
  Template_Endpoint_RW Endpoint_ClearIN offset_LE move_LE (transfer_write Buffer) tt Length BytesProcessed.
Definition Endpoint_Write_Stream_BE (Buffer : Z → M Z) Length BytesProcessed :=
  Template_Endpoint_RW Endpoint_ClearIN offset_BE move_BE (transfer_write Buffer) tt Length BytesProcessed.
Definition Endpoint_Read_Stream_LE (Buffer : list Z) Length BytesProcessed :=
  Template_Endpoint_RW Endpoint_ClearOUT offset_LE move_LE transfer_read Buffer Length BytesProcessed.
Definition Endpoint_Read_Stream_BE (Buffer : list Z) Length BytesProcessed :=
  Template_Endpoint_RW Endpoint_ClearOUT offset_BE move_BE transfer_read Buffer Length BytesProcessed.

(** [pgm_read_byte] of an object in flash. *)
Definition pgm_read_byte (l : list Z) (p : Z) : M Z := lift (rd l p).

Definition Endpoint_Write_PStream_LE (Buffer : list Z) Length BytesProcessed :=
  Template_Endpoint_RW Endpoint_ClearIN offset_LE move_LE (transfer_write (pgm_read_byte Buffer))
    tt Length BytesProcessed.
Definition Endpoint_Write_PStream_BE (Buffer : list Z) Length BytesProcessed :=
  Template_Endpoint_RW Endpoint_ClearIN offset_BE move_BE (transfer_write (pgm_read_byte Buffer))
    tt Length BytesProcessed.

(** ** Template_Endpoint_Control_W.c *)
Section ControlW.
Context (offset : Z → Z) (move : Z → Z → Z) (Buffer : Z → M Z).

(** The inner [while (Length && (BytesInEndpoint < USB_Device_ControlEndpointSize))]
    with the loop variables [DataStream], [Length] and [BytesInEndpoint]; it
    runs at most [USB_Device_ControlEndpointSize] times. *)
Fixpoint fill_packet (n : nat) (DataStream Length BytesInEndpoint : Z) : M (Z * Z * Z) :=
  if negb (Length =? 0) && (BytesInEndpoint <? USB_Device_ControlEndpointSize) then
    match n with
    | O => spin
    | S n' =>
        x ← Buffer DataStream;
        Endpoint_Write_8 x;;
        fill_packet n' (move DataStream 1) (u16 (Length - 1)) (u16 (BytesInEndpoint + 1))
    end
  else mret (DataStream, Length, BytesInEndpoint).

(** One iteration of the data stage; [inr None] leaves the loop, [inr (Some e)]
    returns [e]. The loop variables are [DataStream], [Length] and
    [LastPacketFull]. *)
Definition control_w_body (v : Z * Z * bool) : M (Z * Z * bool + option Z) :=
  let '(DataStream, Length, LastPacketFull) := v in
  if (Length =? 0) && negb LastPacketFull then mret (inr None)
  else
    USB_DeviceState_LCL ← get_fw DeviceState;
    if USB_DeviceState_LCL =? DEVICE_STATE_Unattached
    then mret (inr (Some ENDPOINT_RWCSTREAM_DeviceDisconnected))
    else if USB_DeviceState_LCL =? DEVICE_STATE_Suspended
    then mret (inr (Some ENDPOINT_RWCSTREAM_BusSuspended))
    else
      setup ← Endpoint_IsSETUPReceived;
      if (setup : bool) then mret (inr (Some ENDPOINT_RWCSTREAM_HostAborted))
      else
        out ← Endpoint_IsOUTReceived;
        if (out : bool) then mret (inr None)
        else
          ready ← Endpoint_IsINReady;
          if (ready : bool) then
            BytesInEndpoint ← Endpoint_BytesInEndpoint;
            v' ← fill_packet (Z.to_nat USB_Device_ControlEndpointSize) DataStream Length BytesInEndpoint;
            let '(DataStream, Length, BytesInEndpoint) := v' in
            Endpoint_ClearIN;;
            mret (inl (DataStream, Length, BytesInEndpoint =? USB_Device_ControlEndpointSize))
          else mret (inl v).

(** The status stage. *)
Definition control_w_status (_ : unit) : M (unit + Z) :=
  out ← Endpoint_IsOUTReceived;
  if (out : bool) then mret (inr ENDPOINT_RWCSTREAM_NoError)
  else
    USB_DeviceState_LCL ← get_fw DeviceState;
    if USB_DeviceState_LCL =? DEVICE_STATE_Unattached
    then mret (inr ENDPOINT_RWCSTREAM_DeviceDisconnected)
    else if USB_DeviceState_LCL =? DEVICE_STATE_Suspended
    then mret (inr ENDPOINT_RWCSTREAM_BusSuspended)
    else
      setup ← Endpoint_IsSETUPReceived;
      if (setup : bool) then mret (inr ENDPOINT_RWCSTREAM_HostAborted) else mret (inl tt).

Definition Template_Endpoint_Control_W (Length : Z) : M Z :=
  let DataStream := offset Length in
  a ← get_fw SelectedEndpoint;
  Endpoint_SelectEndpoint (a .| ENDPOINT_DIR_IN);;
  r ← get_fw ControlRequest;
  Length ← (if Length >? wLength r then mret (wLength r)
            else if Length =? 0 then Endpoint_ClearIN;; mret Length
            else mret Length);
  o ← iter 0 control_w_body (DataStream, Length, false);
  match o with
  | Some e => mret e
  | None => iter 0 control_w_status tt
  end.

End ControlW.

Definition Endpoint_Write_Control_Stream_LE (Buffer : list Z) (Length : Z) : M Z :=
  Template_Endpoint_Control_W offset_LE move_LE (λ p, lift (rd Buffer p)) Length.
Definition Endpoint_Write_Control_Stream_BE (Buffer : list Z) (Length : Z) : M Z :=
  Template_Endpoint_Control_W offset_BE move_BE (λ p, lift (rd Buffer p)) Length.
Definition Endpoint_Write_Control_PStream_LE (Buffer : list Z) (Length : Z) : M Z :=
  Template_Endpoint_Control_W offset_LE move_LE (pgm_read_byte Buffer) Length.
Definition Endpoint_Write_Control_PStream_BE (Buffer : list Z) (Length : Z) : M Z :=
  Template_Endpoint_Control_W offset_BE move_BE (pgm_read_byte Buffer) Length.

(** ** Template_Endpoint_Control_R.c *)
Section ControlR.
Context {B : Type} (offset : Z → Z) (move : Z → Z → Z) (transfer : B → Z → M B).

(** The inner [while (Length && Endpoint_BytesInEndpoint())]; the position of
    the FIFO, an 8-bit value, advances in each iteration. *)
Fixpoint drain_packet (n : nat) (Buffer : B) (DataStream Length : Z) : M (B * Z * Z) :=
  BytesInEndpoint ← Endpoint_BytesInEndpoint;
  if negb (Length =? 0) && negb (BytesInEndpoint =? 0) then
    match n with
    | O => spin
    | S n' =>
        Buffer ← transfer Buffer DataStream;
        drain_packet n' Buffer (move DataStream 1) (u16 (Length - 1))
    end
  else mret (Buffer, DataStream, Length).

Definition control_r_body (v : B * Z * Z) : M (B * Z * Z + B * option Z) :=
  let '(Buffer, DataStream, Length) := v in
  if Length =? 0 then mret (inr (Buffer, None))
  else
    USB_DeviceState_LCL ← get_fw DeviceState;
    if USB_DeviceState_LCL =? DEVICE_STATE_Unattached
    then mret (inr (Buffer, Some ENDPOINT_RWCSTREAM_DeviceDisconnected))
    else if USB_DeviceState_LCL =? DEVICE_STATE_Suspended
    then mret (inr (Buffer, Some ENDPOINT_RWCSTREAM_BusSuspended))
    else
      setup ← Endpoint_IsSETUPReceived;
      if (setup : bool) then mret (inr (Buffer, Some ENDPOINT_RWCSTREAM_HostAborted))
      else
        out ← Endpoint_IsOUTReceived;
        if (out : bool) then
          v' ← drain_packet (Z.to_nat Length) Buffer DataStream Length;
          Endpoint_ClearOUT;;
          mret (inl v')
        else mret (inl v).

Definition control_r_status (_ : unit) : M (unit + Z) :=
  ready ← Endpoint_IsINReady;
  if (ready : bool) then mret (inr ENDPOINT_RWCSTREAM_NoError)
  else
    USB_DeviceState_LCL ← get_fw DeviceState;
    if USB_DeviceState_LCL =? DEVICE_STATE_Unattached
    then mret (inr ENDPOINT_RWCSTREAM_DeviceDisconnected)
    else if USB_DeviceState_LCL =? DEVICE_STATE_Suspended
    then mret (inr ENDPOINT_RWCSTREAM_BusSuspended)
    else mret (inl tt).

Definition Template_Endpoint_Control_R (Buffer : B) (Length : Z) : M (Z * B) :=
  let DataStream := offset Length in
  a ← get_fw SelectedEndpoint;
  Endpoint_SelectEndpoint (clr8 a ENDPOINT_DIR_IN);;
  when (Length =? 0) Endpoint_ClearOUT;;
  o ← iter 0 control_r_body (Buffer, DataStream, Length);
  match o with
  | (Buffer, Some e) => mret (e, Buffer)
  | (Buffer, None) => e ← iter 0 control_r_status tt; mret (e, Buffer)
  end.

End ControlR.

Definition Endpoint_Read_Control_Stream_LE := Template_Endpoint_Control_R offset_LE move_LE transfer_read.
Definition Endpoint_Read_Control_Stream_BE := Template_Endpoint_Control_R offset_BE move_BE transfer_read.

(** ** The EEPROM instances

    [eeprom_read_byte] and [eeprom_update_byte] are functions of avr-libc,
    parameters here, on the contents of the EEPROM; [Buffer] is an address in
    it. *)
Section EEPROM.
Context {E : Type} (eeprom_read_byte : E → Z → Z) (eeprom_update_byte : E → Z → Z → E).

(** [Endpoint_Write_8(eeprom_read_byte(BufferPtr))] and
    [eeprom_update_byte(BufferPtr, Endpoint_Read_8())]. *)
Definition read_eeprom (e : E) (Buffer p : Z) : M Z := mret (eeprom_read_byte e (Buffer + p)).
Definition transfer_eeprom (Buffer : Z) (e : E) (p : Z) : M E :=
  x ← Endpoint_Read_8; mret (eeprom_update_byte e (Buffer + p) x).

Definition Endpoint_Write_EStream_LE (e : E) (Buffer Length : Z) BytesProcessed :=
  Template_Endpoint_RW Endpoint_ClearIN offset_LE move_LE (transfer_write (read_eeprom e Buffer)) tt Length BytesProcessed.
Definition Endpoint_Write_EStream_BE (e : E) (Buffer Length : Z) BytesProcessed :=
  Template_Endpoint_RW Endpoint_ClearIN offset_BE move_BE (transfer_write (read_eeprom e Buffer)) tt Length BytesProcessed.
Definition Endpoint_Read_EStream_LE (e : E) (Buffer Length : Z) BytesProcessed :=
  Template_Endpoint_RW Endpoint_ClearOUT offset_LE move_LE (transfer_eeprom Buffer) e Length BytesProcessed.
Definition Endpoint_Read_EStream_BE (e : E) (Buffer Length : Z) BytesProcessed :=
  Template_Endpoint_RW Endpoint_ClearOUT offset_BE move_BE (transfer_eeprom Buffer) e Length BytesProcessed.
Definition Endpoint_Write_Control_EStream_LE (e : E) (Buffer Length : Z) :=
  Template_Endpoint_Control_W offset_LE move_LE (read_eeprom e Buffer) Length.
Definition Endpoint_Write_Control_EStream_BE (e : E) (Buffer Length : Z) :=
  Template_Endpoint_Control_W offset_BE move_BE (read_eeprom e Buffer) Length.
Definition Endpoint_Read_Control_EStream_LE (e : E) (Buffer Length : Z) :=
  Template_Endpoint_Control_R offset_LE move_LE (transfer_eeprom Buffer) e Length.
Definition Endpoint_Read_Control_EStream_BE (e : E) (Buffer Length : Z) :=
  Template_Endpoint_Control_R offset_BE move_BE (transfer_eeprom Buffer) e Length.
End EEPROM.
