(* ===== verification/Cdc.v ===== *)
(** * The CDC class driver

    LUFA/Drivers/USB/Class/Device/CDCClassDevice.c for the one interface of
    the program, [VirtualSerial_CDC_Interface] of usb_serial.c, and the CDC
    event handlers of usb_serial.c. *)
From S2P Require Import Prelude RingBuffer Machine Endpoint Controller EndpointPoll EndpointStream.

(** Descriptors.h *)
Definition CDC_NOTIFICATION_EPADDR : Z := ENDPOINT_DIR_IN .| 2.
Definition CDC_TX_EPADDR : Z := ENDPOINT_DIR_IN .| 3.
Definition CDC_RX_EPADDR : Z := ENDPOINT_DIR_OUT .| 4.
Definition CDC_NOTIFICATION_EPSIZE : Z := 8.
Definition CDC_RX_EPSIZE : Z := 64.
Definition CDC_TX_EPSIZE : Z := 64.
Definition INTERFACE_ID_CDC_CCI : Z := 0.
Definition INTERFACE_ID_CDC_DCI : Z := 1.

Definition REQTYPE_CLASS : Z := 0x20.
Definition REQREC_INTERFACE : Z := 1.
Definition CDC_REQ_SetLineEncoding : Z := 0x20.
Definition CDC_REQ_GetLineEncoding : Z := 0x21.
Definition CDC_REQ_SetControlLineState : Z := 0x22.
Definition CDC_REQ_SendBreak : Z := 0x23.
Definition CDC_NOTIF_SerialState : Z := 0x20.
Definition CDC_CONTROL_LINE_OUT_DTR : Z := 1.

(** [VirtualSerial_CDC_Interface.Config]; the [Type] fields are those
    [CDC_Device_ConfigureEndpoints] assigns. *)
Definition ControlInterfaceNumber : Z := INTERFACE_ID_CDC_CCI.
Definition DataINEndpoint := USB_Endpoint_Table CDC_TX_EPADDR CDC_TX_EPSIZE EP_TYPE_BULK 1.
Definition DataOUTEndpoint := USB_Endpoint_Table CDC_RX_EPADDR CDC_RX_EPSIZE EP_TYPE_BULK 1.
Definition NotificationEndpoint :=
  USB_Endpoint_Table CDC_NOTIFICATION_EPADDR CDC_NOTIFICATION_EPSIZE EP_TYPE_INTERRUPT 1.

Definition set_HostToDevice v c := CDC_State v (DeviceToHost c) (LineEncoding c).
Definition set_LineEncoding v c := CDC_State (HostToDevice c) (DeviceToHost c) v.
Definition CDC_zero : CDC_State_t := CDC_State 0 0 (CDC_LineEncoding 0 0 0 0).

(** ** Event handlers *)
Definition CDC_Device_Event_Stub : M unit := mret tt.
Definition EVENT_CDC_Device_LineEncodingChanged : M unit := mret tt.
Definition EVENT_CDC_Device_ControLineStateChanged : M unit :=
  c ← get_fw CDC;
  if tst (HostToDevice c) CDC_CONTROL_LINE_OUT_DTR then mod_fw (set_ok_to_send 1)
  else mod_fw (set_ok_to_send 0).

(** ** Control requests *)
Definition class_out : Z := REQTYPE_CLASS .| REQREC_INTERFACE.
Definition class_in : Z := REQDIR_DEVICETOHOST .| REQTYPE_CLASS .| REQREC_INTERFACE.

Definition CDC_GetLineEncoding : M unit :=
  Endpoint_ClearSETUP;;
  while_ (b ← Endpoint_IsINReady; mret (negb b)) (mret tt);;
  e ← get_fw (λ w, LineEncoding (CDC w));
  Endpoint_Write_32_LE (BaudRateBPS e);;
  Endpoint_Write_8 (CharFormat e);;
  Endpoint_Write_8 (ParityType e);;
  Endpoint_Write_8 (DataBits e);;
  Endpoint_ClearIN;;
  Endpoint_ClearStatusStage.

Definition CDC_SetLineEncoding : M unit :=
  Endpoint_ClearSETUP;;
  ok ← wait_attached Endpoint_IsOUTReceived;
  when ok
    (b ← Endpoint_Read_32_LE;
     c ← Endpoint_Read_8;
     p ← Endpoint_Read_8;
     d ← Endpoint_Read_8;
     mod_fw (λ w, set_CDC (set_LineEncoding (CDC_LineEncoding b c p d) (CDC w)) w);;
     Endpoint_ClearOUT;;
     Endpoint_ClearStatusStage;;
     EVENT_CDC_Device_LineEncodingChanged).

Definition CDC_SetControlLineState : M unit :=
  Endpoint_ClearSETUP;;
  Endpoint_ClearStatusStage;;
  mod_fw (λ w, set_CDC (set_HostToDevice (wValue (ControlRequest w)) (CDC w)) w);;
  EVENT_CDC_Device_ControLineStateChanged.

Definition CDC_SendBreak : M unit :=
  Endpoint_ClearSETUP;;
  Endpoint_ClearStatusStage;;
  CDC_Device_Event_Stub.

Definition CDC_Device_ProcessControlRequest : M unit :=
  setup ← Endpoint_IsSETUPReceived;
  if negb setup then mret tt
  else
    r ← get_fw ControlRequest;
    if negb (wIndex r =? ControlInterfaceNumber) then mret tt
    else if bRequest r =? CDC_REQ_GetLineEncoding then
      when (bmRequestType r =? class_in) CDC_GetLineEncoding
    else if bRequest r =? CDC_REQ_SetLineEncoding then
      when (bmRequestType r =? class_out) CDC_SetLineEncoding
    else if bRequest r =? CDC_REQ_SetControlLineState then
      when (bmRequestType r =? class_out) CDC_SetControlLineState
    else if bRequest r =? CDC_REQ_SendBreak then
      when (bmRequestType r =? class_out) CDC_SendBreak
    else mret tt.

(** ** Endpoint configuration *)
Definition CDC_Device_ConfigureEndpoints : M bool :=
  mod_fw (set_CDC CDC_zero);;
  ok ← Endpoint_ConfigureEndpointTable [DataINEndpoint];
  if negb ok then mret false
  else
    ok ← Endpoint_ConfigureEndpointTable [DataOUTEndpoint];
    if negb ok then mret false
    else
      ok ← Endpoint_ConfigureEndpointTable [NotificationEndpoint];
      if negb ok then mret false else mret true.

(** ** Data *)

(** [(USB_DeviceState != DEVICE_STATE_Configured) || !(BaudRateBPS)] *)
Definition CDC_inactive : M bool :=
  d ← get_fw DeviceState;
  b ← get_fw (λ w, BaudRateBPS (LineEncoding (CDC w)));
  mret (negb (d =? DEVICE_STATE_Configured) || (b =? 0)).

Definition CDC_Device_Flush : M Z :=
  i ← CDC_inactive;
  if (i : bool) then mret ENDPOINT_RWSTREAM_DeviceDisconnected
  else
    Endpoint_SelectEndpoint (T_Address DataINEndpoint);;
    n ← Endpoint_BytesInEndpoint;
    if n =? 0 then mret ENDPOINT_READYWAIT_NoError
    else
      rw ← Endpoint_IsReadWriteAllowed;
      let BankFull := negb rw in
      Endpoint_ClearIN;;
      if BankFull then
        ErrorCode ← Endpoint_WaitUntilReady;
        if negb (ErrorCode =? ENDPOINT_READYWAIT_NoError) then mret ErrorCode
        else Endpoint_ClearIN;; mret ENDPOINT_READYWAIT_NoError
      else mret ENDPOINT_READYWAIT_NoError.

Definition CDC_Device_USBTask : M unit :=
  i ← CDC_inactive;
  if (i : bool) then mret tt
  else
    Endpoint_SelectEndpoint (T_Address DataINEndpoint);;
    ready ← Endpoint_IsINReady;
    when ready (_ ← CDC_Device_Flush; mret tt).

(** [strlen]: [None] when no terminator is found in the object. *)
Fixpoint strlen (String : list Z) : option Z :=
  match String with
  | [] => None
  | c :: l => if c =? 0 then Some 0 else n ← strlen l; Some (n + 1)
  end.

Definition CDC_Device_SendData (Buffer : Z → M Z) (Length : Z) : M Z :=
  i ← CDC_inactive;
  if (i : bool) then mret ENDPOINT_RWSTREAM_DeviceDisconnected
  else
    Endpoint_SelectEndpoint (T_Address DataINEndpoint);;
    r ← Endpoint_Write_Stream_LE Buffer Length None;
    mret r.1.1.

Definition CDC_Device_SendData_P (Buffer : list Z) (Length : Z) : M Z :=
  i ← CDC_inactive;
  if (i : bool) then mret ENDPOINT_RWSTREAM_DeviceDisconnected
  else
    Endpoint_SelectEndpoint (T_Address DataINEndpoint);;
    r ← Endpoint_Write_PStream_LE Buffer Length None;
    mret r.1.1.

Definition CDC_Device_SendString (String : list Z) : M Z :=
  i ← CDC_inactive;
  if (i : bool) then mret ENDPOINT_RWSTREAM_DeviceDisconnected
  else
    Endpoint_SelectEndpoint (T_Address DataINEndpoint);;
    n ← lift (strlen String);
    r ← Endpoint_Write_Stream_LE (λ p, lift (rd String p)) (u16 n) None;
    mret r.1.1.

Definition CDC_Device_SendString_P (String : list Z) : M Z :=
  i ← CDC_inactive;
  if (i : bool) then mret ENDPOINT_RWSTREAM_DeviceDisconnected
  else
    Endpoint_SelectEndpoint (T_Address DataINEndpoint);;
    n ← lift (strlen String);
    r ← Endpoint_Write_PStream_LE String (u16 n) None;
    mret r.1.1.

Definition CDC_Device_SendByte (Data : Z) : M Z :=
  i ← CDC_inactive;
  if (i : bool) then mret ENDPOINT_RWSTREAM_DeviceDisconnected
  else
    Endpoint_SelectEndpoint (T_Address DataINEndpoint);;
    rw ← Endpoint_IsReadWriteAllowed;
    ErrorCode ← (if negb rw then Endpoint_ClearIN;; Endpoint_WaitUntilReady
                 else mret ENDPOINT_READYWAIT_NoError);
    if negb (ErrorCode =? ENDPOINT_READYWAIT_NoError) then mret ErrorCode
    else Endpoint_Write_8 Data;; mret ENDPOINT_READYWAIT_NoError.

Definition CDC_Device_BytesReceived : M Z :=
  i ← CDC_inactive;
  if (i : bool) then mret 0
  else
    Endpoint_SelectEndpoint (T_Address DataOUTEndpoint);;
    out ← Endpoint_IsOUTReceived;
    if (out : bool) then
      n ← Endpoint_BytesInEndpoint;
      if n =? 0 then Endpoint_ClearOUT;; mret 0 else Endpoint_BytesInEndpoint
    else mret 0.

Definition CDC_Device_ReceiveByte : M Z :=
  i ← CDC_inactive;
  if (i : bool) then mret (-1)
  else
    Endpoint_SelectEndpoint (T_Address DataOUTEndpoint);;
    out ← Endpoint_IsOUTReceived;
    if (out : bool) then
      n ← Endpoint_BytesInEndpoint;
      ReceivedByte ← (if negb (n =? 0) then Endpoint_Read_8 else mret (-1));
      n ← Endpoint_BytesInEndpoint;
      when (n =? 0) Endpoint_ClearOUT;;
      mret ReceivedByte
    else mret (-1).

(** The bytes of the notification header and of [DeviceToHost]. *)
Definition header_bytes (r : USB_Request_Header_t) : list Z :=
  [bmRequestType r; bRequest r; wValue r .& 0xFF; wValue r >> 8;
   wIndex r .& 0xFF; wIndex r >> 8; wLength r .& 0xFF; wLength r >> 8].

Definition CDC_Device_SendControlLineStateChange : M unit :=
  i ← CDC_inactive;
  if (i : bool) then mret tt
  else
    Endpoint_SelectEndpoint (T_Address NotificationEndpoint);;
    let Notification := USB_Request_Header class_in CDC_NOTIF_SerialState 0 0 2 in
    _ ← Endpoint_Write_Stream_LE (λ p, lift (rd (header_bytes Notification) p)) 8 None;
    _ ← Endpoint_Write_Stream_LE
          (λ p, d ← get_fw (λ w, DeviceToHost (CDC w)); lift (rd [d .& 0xFF; d >> 8] p)) 2 None;
    Endpoint_ClearIN.

(** ** Standard streams, on the interface [fdev_get_udata] yields *)
Definition FDEV_ERR : Z := -1.
Definition FDEV_EOF : Z := -2.

Definition CDC_Device_putchar (c : Z) : M Z :=
  e ← CDC_Device_SendByte c; mret (if negb (e =? 0) then FDEV_ERR else 0).

Definition CDC_Device_getchar : M Z :=
  b ← CDC_Device_ReceiveByte; mret (if b <? 0 then FDEV_EOF else b).
