(* ===== verification/Descriptors.v ===== *)
(** * USB descriptors

    Projects/HorrorScope/Descriptors.c: the descriptors as the bytes that lie
    in flash (packed structures, little endian) and the callback that finds
    them. *)
From S2P Require Import Prelude RingBuffer Machine Endpoint Controller EndpointPoll EndpointStream Cdc.

Definition DTYPE_Device : Z := 0x01.
Definition DTYPE_Configuration : Z := 0x02.
Definition DTYPE_String : Z := 0x03.
Definition DTYPE_Interface : Z := 0x04.
Definition DTYPE_Endpoint : Z := 0x05.
Definition DTYPE_CSInterface : Z := 0x24.
Definition NO_DESCRIPTOR : Z := 0.
Definition STRING_ID_Language : Z := 0.
Definition STRING_ID_Manufacturer : Z := 1.
Definition STRING_ID_Product : Z := 2.
Definition USE_INTERNAL_SERIAL : Z := 0xDC.
Definition FIXED_NUM_CONFIGURATIONS : Z := 1.
Definition USB_CONFIG_ATTR_RESERVED : Z := 0x80.
Definition USB_CONFIG_ATTR_SELFPOWERED : Z := 0x40.
Definition LANGUAGE_ID_ENG : Z := 0x0409.
Definition CDC_CSCP_CDCClass : Z := 0x02.
Definition CDC_CSCP_ACMSubclass : Z := 0x02.
Definition CDC_CSCP_ATCommandProtocol : Z := 0x01.
Definition CDC_CSCP_CDCDataClass : Z := 0x0A.

Definition le16 (x : Z) : list Z := [x .& 0xFF; (x >> 8) .& 0xFF].
Definition VERSION_BCD (major minor rev : Z) : Z :=
  ((major .& 0xFF) << 8) .| ((minor .& 0x0F) << 4) .| (rev .& 0x0F).
Definition USB_CONFIG_POWER_MA (mA : Z) : Z := mA >> 1.
Definition USB_STRING_LEN (n : Z) : Z := 2 + (n << 1).

Definition DeviceDescriptor : list Z :=
  [18; DTYPE_Device] ++ le16 (VERSION_BCD 1 1 0) ++
  [CDC_CSCP_CDCClass; 0; 0; USB_Device_ControlEndpointSize] ++
  le16 0x03EB ++ le16 0x204B ++ le16 (VERSION_BCD 0 0 1) ++
  [STRING_ID_Manufacturer; STRING_ID_Product; USE_INTERNAL_SERIAL; FIXED_NUM_CONFIGURATIONS].

(** The sizes of the packed structures of StdDescriptors.h and
    CDCClassCommon.h, and of the structure of Descriptors.h that holds one
    after the other. *)
Definition sizeof_Configuration_Header : Z := 9.
Definition sizeof_Interface : Z := 9.
Definition sizeof_Endpoint : Z := 7.
Definition sizeof_FunctionalHeader : Z := 5.
Definition sizeof_FunctionalACM : Z := 4.
Definition sizeof_FunctionalUnion : Z := 5.
Definition sizeof_USB_Descriptor_Configuration : Z :=
  sizeof_Configuration_Header +
  (sizeof_Interface + sizeof_FunctionalHeader + sizeof_FunctionalACM + sizeof_FunctionalUnion + sizeof_Endpoint) +
  (sizeof_Interface + sizeof_Endpoint + sizeof_Endpoint).

(** [USB_Descriptor_Interface_t] and [USB_Descriptor_Endpoint_t] *)
Definition interface_descriptor (number alternate endpoints class subclass protocol str : Z) : list Z :=
  [sizeof_Interface; DTYPE_Interface; number; alternate; endpoints; class; subclass; protocol; str].
Definition endpoint_descriptor (address attributes size interval : Z) : list Z :=
  [sizeof_Endpoint; DTYPE_Endpoint; address; attributes] ++ le16 size ++ [interval].

Definition ConfigurationDescriptor : list Z :=
  [sizeof_Configuration_Header; DTYPE_Configuration] ++ le16 sizeof_USB_Descriptor_Configuration ++
  [2; 1; NO_DESCRIPTOR; USB_CONFIG_ATTR_RESERVED .| USB_CONFIG_ATTR_SELFPOWERED; USB_CONFIG_POWER_MA 100] ++
  interface_descriptor INTERFACE_ID_CDC_CCI 0 1
    CDC_CSCP_CDCClass CDC_CSCP_ACMSubclass CDC_CSCP_ATCommandProtocol NO_DESCRIPTOR ++
  [sizeof_FunctionalHeader; DTYPE_CSInterface; 0x00] ++ le16 (VERSION_BCD 1 1 0) ++
  [sizeof_FunctionalACM; DTYPE_CSInterface; 0x02; 0x06] ++
  [sizeof_FunctionalUnion; DTYPE_CSInterface; 0x06; INTERFACE_ID_CDC_CCI; INTERFACE_ID_CDC_DCI] ++
  endpoint_descriptor CDC_NOTIFICATION_EPADDR EP_TYPE_INTERRUPT CDC_NOTIFICATION_EPSIZE 0xFF ++
  interface_descriptor INTERFACE_ID_CDC_DCI 0 2 CDC_CSCP_CDCDataClass 0 0 NO_DESCRIPTOR ++
  endpoint_descriptor CDC_RX_EPADDR EP_TYPE_BULK CDC_RX_EPSIZE 0x05 ++
  endpoint_descriptor CDC_TX_EPADDR EP_TYPE_BULK CDC_TX_EPSIZE 0x05.

(** [USB_STRING_DESCRIPTOR]: 16-bit characters behind a header. *)
Definition string_descriptor (chars : list Z) : list Z :=
  [USB_STRING_LEN (Z.of_nat (length chars)); DTYPE_String] ++ concat (map le16 chars).

Definition LanguageString : list Z := string_descriptor [LANGUAGE_ID_ENG].
(** L"Dean Camera" *)
Definition ManufacturerString : list Z :=
  string_descriptor [68; 101; 97; 110; 32; 67; 97; 109; 101; 114; 97].
(** L"LUFA USB-RS232 Adapter" *)
Definition ProductString : list Z :=
  string_descriptor [76; 85; 70; 65; 32; 85; 83; 66; 45; 82; 83; 50; 51; 50; 32; 65; 100; 97; 112; 116; 101; 114].

(** The size and the object in flash that [*DescriptorAddress] points to, the
    empty list for the null pointer. The size of a string descriptor is read
    from its header. *)
Definition CALLBACK_USB_GetDescriptor (wValue wIndex : Z) : Z * list Z :=
  let DescriptorType := u8 (wValue >> 8) in
  let DescriptorNumber := wValue .& 0xFF in
  if DescriptorType =? DTYPE_Device then (18, DeviceDescriptor)
  else if DescriptorType =? DTYPE_Configuration then (sizeof_USB_Descriptor_Configuration, ConfigurationDescriptor)
  else if DescriptorType =? DTYPE_String then
    if DescriptorNumber =? STRING_ID_Language then (hd 0 LanguageString, LanguageString)
    else if DescriptorNumber =? STRING_ID_Manufacturer then (hd 0 ManufacturerString, ManufacturerString)
    else if DescriptorNumber =? STRING_ID_Product then (hd 0 ProductString, ProductString)
    else (NO_DESCRIPTOR, [])
  else (NO_DESCRIPTOR, []).
