(* ===== verification/ConfigDesc.v ===== *)
(** * Walking configuration descriptors

    LUFA/Drivers/USB/Core/ConfigDescriptors.c and the inline
    [USB_GetNextDescriptor] of ConfigDescriptors.h, on a memory [mem] of bytes
    in which [CurrConfigLoc] is an offset. Reading outside [mem] is
    [WFault]. *)
From S2P Require Import Prelude RingBuffer Machine Endpoint Controller EndpointPoll EndpointStream Cdc Descriptors.

Definition DESCRIPTOR_SEARCH_Found : Z := 0.
Definition DESCRIPTOR_SEARCH_Fail : Z := 1.
Definition DESCRIPTOR_SEARCH_NotFound : Z := 2.
Definition DESCRIPTOR_SEARCH_COMP_EndOfDescriptor : Z := 2.

(** [WSpin] is a walk that does not end. *)
Inductive walk (A : Type) :=
  | WDone (a : A)
  | WFault
  | WSpin.
Arguments WDone {A} _.
Arguments WFault {A}.
Arguments WSpin {A}.

#[export] Instance walk_ret : MRet walk := @WDone.
#[export] Instance walk_bind : MBind walk := λ A B k m,
  match m with WDone a => k a | WFault => WFault | WSpin => WSpin end.

(** [*BytesRem] and [*CurrConfigLoc]. *)
Definition cursor : Type := Z * Z.

Definition byte_at (mem : list Z) (loc : Z) : walk Z :=
  match rd mem loc with Some x => WDone x | None => WFault end.
Definition DESCRIPTOR_SIZE (mem : list Z) (loc : Z) : walk Z := byte_at mem loc.
Definition DESCRIPTOR_TYPE (mem : list Z) (loc : Z) : walk Z := byte_at mem (loc + 1).

Definition USB_GetNextDescriptor (mem : list Z) (c : cursor) : walk cursor :=
  let (BytesRem, CurrConfigLoc) := c in
  size ← DESCRIPTOR_SIZE mem CurrConfigLoc;
  let CurrDescriptorSize := if BytesRem <? size then BytesRem else size in
  mret (u16 (BytesRem - CurrDescriptorSize), CurrConfigLoc + CurrDescriptorSize).

(** The loops. A step over a descriptor of size 0 changes nothing, so
    [BytesRem] + 1 iterations decide whether the loop ends. *)
Fixpoint of_type_loop (mem : list Z) (Type_ : Z) (n : nat) (c : cursor) : walk cursor :=
  if c.1 =? 0 then mret c
  else match n with
       | O => WSpin
       | S n' =>
           c ← USB_GetNextDescriptor mem c;
           t ← DESCRIPTOR_TYPE mem c.2;
           if t =? Type_ then mret c else of_type_loop mem Type_ n' c
       end.
Definition USB_GetNextDescriptorOfType (mem : list Z) (Type_ : Z) (c : cursor) : walk cursor :=
  of_type_loop mem Type_ (S (Z.to_nat c.1)) c.

Fixpoint before_loop (mem : list Z) (Type_ BeforeType : Z) (n : nat) (c : cursor) : walk cursor :=
  if c.1 =? 0 then mret c
  else match n with
       | O => WSpin
       | S n' =>
           c ← USB_GetNextDescriptor mem c;
           t ← DESCRIPTOR_TYPE mem c.2;
           if t =? Type_ then mret c
           else if t =? BeforeType then mret (0, c.2)
           else before_loop mem Type_ BeforeType n' c
       end.
Definition USB_GetNextDescriptorOfTypeBefore (mem : list Z) (Type_ BeforeType : Z) (c : cursor) : walk cursor :=
  before_loop mem Type_ BeforeType (S (Z.to_nat c.1)) c.

Definition USB_GetNextDescriptorOfTypeAfter (mem : list Z) (Type_ AfterType : Z) (c : cursor) : walk cursor :=
  c ← USB_GetNextDescriptorOfType mem AfterType c;
  if c.1 =? 0 then mret c else USB_GetNextDescriptorOfType mem Type_ c.

(** [ComparatorRoutine] is a function of the location. *)
Fixpoint comp_loop (mem : list Z) (ComparatorRoutine : Z → Z) (n : nat) (c : cursor) : walk (Z * cursor) :=
  if c.1 =? 0 then mret (DESCRIPTOR_SEARCH_COMP_EndOfDescriptor, c)
  else match n with
       | O => WSpin
       | S n' =>
           c' ← USB_GetNextDescriptor mem c;
           let ErrorCode := ComparatorRoutine c'.2 in
           if negb (ErrorCode =? DESCRIPTOR_SEARCH_NotFound) then
             mret (ErrorCode, if ErrorCode =? DESCRIPTOR_SEARCH_Fail then c else c')
           else comp_loop mem ComparatorRoutine n' c'
       end.
Definition USB_GetNextDescriptorComp (mem : list Z) (ComparatorRoutine : Z → Z) (c : cursor) : walk (Z * cursor) :=
  comp_loop mem ComparatorRoutine (S (Z.to_nat c.1)) c.

(** ** Lists of descriptors *)

(** A descriptor starts with its size and its type. *)
Definition descriptor (d : list Z) : Prop :=
  ∃ t body, d = Z.of_nat (length d) :: t :: body ∧ Z.of_nat (length d) < 256.
Definition dtype (d : list Z) : Z := d !!! 1%nat.

Lemma rd_at (pre : list Z) x l : rd (pre ++ x :: l) (Z.of_nat (length pre)) = Some x.
Proof. apply rd_Some. split; [lia|]. rewrite Nat2Z.id. by apply list_lookup_middle. Qed.

(** A step moves to the next descriptor. *)
Lemma next_descriptor pre d rest tail : descriptor d → Z.of_nat (length (d ++ rest)) < 65536 →
  USB_GetNextDescriptor (pre ++ (d ++ rest) ++ tail) (Z.of_nat (length (d ++ rest)), Z.of_nat (length pre)) =
  WDone (Z.of_nat (length rest), Z.of_nat (length (pre ++ d))).
Proof.
  intros (t & body & E & Hd) Hl. unfold USB_GetNextDescriptor, DESCRIPTOR_SIZE, byte_at.
  assert (pre ++ (d ++ rest) ++ tail = pre ++ Z.of_nat (length d) :: (t :: body) ++ rest ++ tail) as ->.
  { rewrite E at 1. by rewrite <-app_assoc. }
  rewrite rd_at. cbn [mbind walk_bind]. rewrite length_app in *.
  destruct (Z.ltb_spec (Z.of_nat (length d + length rest)) (Z.of_nat (length d))); [lia|].
  rewrite u16_small by (unfold word16; lia). unfold mret, walk_ret. rewrite length_app. do 2 f_equal; lia.
Qed.

Lemma type_at pre d rest : descriptor d → DESCRIPTOR_TYPE (pre ++ d ++ rest) (Z.of_nat (length pre)) = WDone (dtype d).
Proof.
  intros (t & body & E & _). unfold DESCRIPTOR_TYPE, byte_at, dtype. rewrite E at 2. cbn.
  assert (pre ++ d ++ rest = (pre ++ [Z.of_nat (length d)]) ++ t :: body ++ rest) as ->.
  { rewrite E at 1. by rewrite <-!app_assoc. }
  replace (Z.of_nat (length pre) + 1) with (Z.of_nat (length (pre ++ [Z.of_nat (length d)])))
    by (rewrite length_app; cbn; lia).
  by rewrite rd_at.
Qed.

Lemma descriptor_length d : descriptor d → (2 ≤ length d)%nat.
Proof. intros (t & body & E & _). rewrite E. cbn. lia. Qed.

Definition size (ds : list (list Z)) : Z := Z.of_nat (length (concat ds)).

Lemma size_pos d ds : descriptor d → size (d :: ds) ≠ 0.
Proof. intros Hd%descriptor_length. unfold size. cbn [concat]. rewrite length_app. lia. Qed.

Lemma size_bound ds : Forall descriptor ds → 2 * Z.of_nat (length ds) ≤ size ds.
Proof.
  unfold size. induction 1 as [|d ds Hd%descriptor_length _ IH]; [done|]. cbn [length concat]. rewrite length_app. lia.
Qed.

(** The search stops at the first later descriptor of the type. *)
Lemma of_type_finds T n pre d0 a d b tail : Forall descriptor (d0 :: a ++ d :: b) →
  Forall (λ x, dtype x ≠ T) a → dtype d = T → size (d0 :: a ++ d :: b) < 65536 → (length a < n)%nat →
  of_type_loop (pre ++ concat (d0 :: a ++ d :: b) ++ tail) T n (size (d0 :: a ++ d :: b), Z.of_nat (length pre)) =
  WDone (size (d :: b), Z.of_nat (length pre) + size (d0 :: a)).
Proof.
  revert n pre d0. induction a as [|d1 a IH]; intros n pre d0 Hds Ha Hd Hlen Hn; (destruct n as [|n]; [lia|]);
    apply Forall_cons in Hds as [H0 Hds]; pose proof Hds as [H1 _]%Forall_cons;
    cbn [of_type_loop fst]; rewrite (proj2 (Z.eqb_neq _ 0)) by (by apply size_pos);
    unfold size in *; cbn [concat app] in *; rewrite next_descriptor by done; cbn [mbind walk_bind snd].
  - replace (pre ++ (d0 ++ d ++ concat b) ++ tail) with ((pre ++ d0) ++ d ++ concat b ++ tail) by by rewrite <-!app_assoc.
    rewrite type_at by done. cbn [mbind walk_bind]. rewrite Hd, Z.eqb_refl. unfold mret, walk_ret.
    rewrite app_nil_r, !length_app. do 2 f_equal. lia.
  - replace (pre ++ (d0 ++ d1 ++ concat (a ++ d :: b)) ++ tail)
      with ((pre ++ d0) ++ d1 ++ concat (a ++ d :: b) ++ tail) by by rewrite <-!app_assoc.
    rewrite type_at by done. cbn [mbind walk_bind]. apply Forall_cons in Ha as [Hn1 Ha].
    rewrite (proj2 (Z.eqb_neq _ _) Hn1).
    specialize (IH n (pre ++ d0) d1). cbn [concat app] in IH. rewrite <-app_assoc in IH.
    rewrite <-!app_assoc. rewrite <-!app_assoc in IH. rewrite IH.
    + rewrite !length_app. do 2 f_equal. lia.
    + done.
    + done.
    + done.
    + rewrite length_app in Hlen. lia.
    + cbn in Hn. lia.
Qed.

(** Without one, the last step reads the two bytes behind the descriptors. *)
Lemma of_type_overruns T n pre d0 a : Forall descriptor (d0 :: a) → Forall (λ x, dtype x ≠ T) a →
  size (d0 :: a) < 65536 → (length a < n)%nat →
  of_type_loop (pre ++ concat (d0 :: a)) T n (size (d0 :: a), Z.of_nat (length pre)) = WFault.
Proof.
  revert n pre d0. induction a as [|d1 a IH]; intros n pre d0 Hds Ha Hlen Hn; (destruct n as [|n]; [lia|]);
    apply Forall_cons in Hds as [H0 Hds];
    cbn [of_type_loop fst]; rewrite (proj2 (Z.eqb_neq _ 0)) by (by apply size_pos);
    unfold size in *; cbn [concat] in *.
  - pose proof (next_descriptor pre d0 [] [] H0 Hlen) as E. rewrite app_nil_r in E. rewrite E.
    cbn [mbind walk_bind snd]. unfold DESCRIPTOR_TYPE, byte_at.
    replace (rd _ _) with (@None Z); [done|]. symmetry. unfold rd. case_match; [|done].
    apply lookup_ge_None. rewrite !length_app. cbn. lia.
  - pose proof Hds as [H1 _]%Forall_cons. apply Forall_cons in Ha as [Hn1 Ha].
    pose proof (next_descriptor pre d0 (d1 ++ concat a) [] H0 Hlen) as E. rewrite app_nil_r in E. rewrite E.
    cbn [mbind walk_bind snd].
    replace (pre ++ d0 ++ d1 ++ concat a) with ((pre ++ d0) ++ d1 ++ concat a) by by rewrite <-!app_assoc.
    rewrite type_at by done. cbn [mbind walk_bind]. rewrite (proj2 (Z.eqb_neq _ _) Hn1).
    apply (IH n (pre ++ d0) d1); [done|done| |cbn in Hn; lia]. rewrite length_app in Hlen. cbn. lia.
Qed.

Lemma GetNextDescriptorOfType_spec T pre d0 a d b tail : Forall descriptor (d0 :: a ++ d :: b) →
  Forall (λ x, dtype x ≠ T) a → dtype d = T → size (d0 :: a ++ d :: b) < 65536 →
  USB_GetNextDescriptorOfType (pre ++ concat (d0 :: a ++ d :: b) ++ tail) T
    (size (d0 :: a ++ d :: b), Z.of_nat (length pre)) =
  WDone (size (d :: b), Z.of_nat (length pre) + size (d0 :: a)).
Proof.
  intros Hds Ha Hd Hl. apply of_type_finds; [done..|]. cbn [fst]. pose proof (size_bound _ Hds) as Hs.
  cbn [length] in Hs. rewrite length_app in Hs. cbn [length] in Hs. lia.
Qed.

Lemma GetNextDescriptorOfType_overruns T pre d0 a : Forall descriptor (d0 :: a) → Forall (λ x, dtype x ≠ T) a →
  size (d0 :: a) < 65536 →
  USB_GetNextDescriptorOfType (pre ++ concat (d0 :: a)) T (size (d0 :: a), Z.of_nat (length pre)) = WFault.
Proof.
  intros Hds Ha Hl. apply of_type_overruns; [done..|]. cbn [fst]. pose proof (size_bound _ Hds) as Hs.
  cbn [length] in Hs. lia.
Qed.

(** A descriptor of size 0 is never left. *)
Lemma of_type_stuck mem T n rem loc t : rem ≠ 0 → word16 rem → rd mem loc = Some 0 → rd mem (loc + 1) = Some t → t ≠ T →
  of_type_loop mem T n (rem, loc) = WSpin.
Proof.
  intros Hr Hw H0 H1 Ht. induction n as [|n IH]; cbn [of_type_loop fst]; rewrite (proj2 (Z.eqb_neq _ _) Hr); [done|].
  assert (USB_GetNextDescriptor mem (rem, loc) = WDone (rem, loc)) as ->.
  { unfold USB_GetNextDescriptor, DESCRIPTOR_SIZE, byte_at. rewrite H0. cbn [mbind walk_bind].
    unfold word16 in Hw. destruct (Z.ltb_spec rem 0); [lia|]. unfold mret, walk_ret.
    by rewrite Z.sub_0_r, Z.add_0_r, u16_small. }
  cbn [mbind walk_bind snd]. unfold DESCRIPTOR_TYPE, byte_at. rewrite H1. cbn [mbind walk_bind].
  by rewrite (proj2 (Z.eqb_neq _ _) Ht).
Qed.
