(* ===== verification/StdReq.v ===== *)
(** * Standard control requests and the USB task

    LUFA/Drivers/USB/Core/DeviceStandardReq.c and USBTask.c in the
    configuration of this project, with the two library events that
    usb_serial.c handles. *)
From S2P Require Import Prelude RingBuffer Machine Endpoint Controller EndpointPoll EndpointStream Cdc Descriptors.

Definition REQ_GetStatus : Z := 0.
Definition REQ_ClearFeature : Z := 1.
Definition REQ_SetFeature : Z := 3.
Definition REQ_SetAddress : Z := 5.
Definition REQ_GetDescriptor : Z := 6.
Definition REQ_GetConfiguration : Z := 8.
Definition REQ_SetConfiguration : Z := 9.
Definition REQREC_DEVICE : Z := 0.
Definition REQREC_ENDPOINT : Z := 2.
Definition CONTROL_REQTYPE_RECIPIENT : Z := 0x1F.
Definition FEATURE_SEL_EndpointHalt : Z := 0x00.

(** ** Events (usb_serial.c) *)
Definition EVENT_USB_Device_ConfigurationChanged : M unit :=
  _ ← CDC_Device_ConfigureEndpoints; mret tt.
Definition EVENT_USB_Device_ControlRequest : M unit := CDC_Device_ProcessControlRequest.

(** ** Request handlers *)
Definition USB_Device_SetAddress : M unit :=
  r ← get_fw ControlRequest;
  let DeviceAddress := wValue r .& 0x7F in
  USB_Device_SetDeviceAddress DeviceAddress;;
  Endpoint_ClearSETUP;;
  Endpoint_ClearStatusStage;;
  while_ (b ← Endpoint_IsINReady; mret (negb b)) (mret tt);;
  USB_Device_EnableDeviceAddress DeviceAddress;;
  mod_fw (set_DeviceState (if negb (DeviceAddress =? 0) then DEVICE_STATE_Addressed else DEVICE_STATE_Default)).

Definition USB_Device_SetConfiguration : M unit :=
  r ← get_fw ControlRequest;
  if u8 (wValue r) >? FIXED_NUM_CONFIGURATIONS then mret tt
  else
    Endpoint_ClearSETUP;;
    r ← get_fw ControlRequest;
    mod_fw (set_ConfigurationNumber (u8 (wValue r)));;
    Endpoint_ClearStatusStage;;
    n ← get_fw ConfigurationNumber;
    (if negb (n =? 0) then mod_fw (set_DeviceState DEVICE_STATE_Configured)
     else
       a ← USB_Device_IsAddressSet;
       mod_fw (set_DeviceState (if (a : bool) then DEVICE_STATE_Configured else DEVICE_STATE_Powered)));;
    EVENT_USB_Device_ConfigurationChanged.

Definition USB_Device_GetConfiguration : M unit :=
  Endpoint_ClearSETUP;;
  n ← get_fw ConfigurationNumber;
  Endpoint_Write_8 n;;
  Endpoint_ClearIN;;
  Endpoint_ClearStatusStage.

Section WithPlatform.
Context `{Platform}.

Definition USB_Device_GetInternalSerialDescriptor : M unit :=
  UnicodeString ← USB_Device_GetSerialString;
  let SignatureDescriptor :=
    [u8 (USB_STRING_LEN (INTERNAL_SERIAL_LENGTH_BITS `div` 4)); DTYPE_String] ++
    concat (map le16 UnicodeString) in
  Endpoint_ClearSETUP;;
  _ ← Endpoint_Write_Control_Stream_LE SignatureDescriptor (Z.of_nat (length SignatureDescriptor));
  Endpoint_ClearOUT.

Definition USB_Device_GetDescriptor : M unit :=
  r ← get_fw ControlRequest;
  if wValue r =? ((DTYPE_String << 8) .| USE_INTERNAL_SERIAL) then USB_Device_GetInternalSerialDescriptor
  else
    let '(DescriptorSize, DescriptorPointer) := CALLBACK_USB_GetDescriptor (wValue r) (wIndex r) in
    if DescriptorSize =? NO_DESCRIPTOR then mret tt
    else
      Endpoint_ClearSETUP;;
      _ ← Endpoint_Write_Control_PStream_LE DescriptorPointer DescriptorSize;
      Endpoint_ClearOUT.

Definition std_in (rec : Z) : Z := REQDIR_DEVICETOHOST .| rec.
Definition std_out (rec : Z) : Z := rec.

(** The answer to a GetStatus request after [CurrentStatus] is known. *)
Definition send_status (CurrentStatus : Z) : M unit :=
  Endpoint_ClearSETUP;;
  Endpoint_Write_16_LE CurrentStatus;;
  Endpoint_ClearIN;;
  Endpoint_ClearStatusStage.

Definition USB_Device_GetStatus : M unit :=
  r ← get_fw ControlRequest;
  if bmRequestType r =? std_in REQREC_DEVICE then send_status 0
  else if bmRequestType r =? std_in REQREC_ENDPOINT then
    let EndpointIndex := u8 (wIndex r) .& ENDPOINT_EPNUM_MASK in
    if EndpointIndex >=? ENDPOINT_TOTAL_ENDPOINTS then mret tt
    else
      Endpoint_SelectEndpoint EndpointIndex;;
      st ← Endpoint_IsStalled;
      Endpoint_SelectEndpoint ENDPOINT_CONTROLEP;;
      send_status (if (st : bool) then 1 else 0)
  else mret tt.

Definition feature_done : M unit :=
  Endpoint_SelectEndpoint ENDPOINT_CONTROLEP;;
  Endpoint_ClearSETUP;;
  Endpoint_ClearStatusStage.

Definition USB_Device_ClearSetFeature : M unit :=
  r ← get_fw ControlRequest;
  if bmRequestType r .& CONTROL_REQTYPE_RECIPIENT =? REQREC_ENDPOINT then
    if u8 (wValue r) =? FEATURE_SEL_EndpointHalt then
      let EndpointIndex := u8 (wIndex r) .& ENDPOINT_EPNUM_MASK in
      if (EndpointIndex =? ENDPOINT_CONTROLEP) || (EndpointIndex >=? ENDPOINT_TOTAL_ENDPOINTS) then mret tt
      else
        Endpoint_SelectEndpoint EndpointIndex;;
        e ← Endpoint_IsEnabled;
        when e
          (if bRequest r =? REQ_SetFeature then Endpoint_StallTransaction
           else
             Endpoint_ClearStall;;
             Endpoint_ResetEndpoint EndpointIndex;;
             Endpoint_ResetDataToggle);;
        feature_done
    else feature_done
  else mret tt.

(** ** Dispatch *)

(** The bytes of [USB_ControlRequest], read into the structure in place. *)
Definition read_header : M unit :=
  b0 ← Endpoint_Read_8; b1 ← Endpoint_Read_8; b2 ← Endpoint_Read_8; b3 ← Endpoint_Read_8;
  b4 ← Endpoint_Read_8; b5 ← Endpoint_Read_8; b6 ← Endpoint_Read_8; b7 ← Endpoint_Read_8;
  mod_fw (set_ControlRequest
    (USB_Request_Header b0 b1 (b2 .| (b3 << 8)) (b4 .| (b5 << 8)) (b6 .| (b7 << 8)))).

Definition standard_request : M unit :=
  r ← get_fw ControlRequest;
  let t := bmRequestType r in
  let q := bRequest r in
  if q =? REQ_GetStatus then
    when ((t =? std_in REQREC_DEVICE) || (t =? std_in REQREC_ENDPOINT)) USB_Device_GetStatus
  else if (q =? REQ_ClearFeature) || (q =? REQ_SetFeature) then
    when ((t =? std_out REQREC_DEVICE) || (t =? std_out REQREC_ENDPOINT)) USB_Device_ClearSetFeature
  else if q =? REQ_SetAddress then
    when (t =? std_out REQREC_DEVICE) USB_Device_SetAddress
  else if q =? REQ_GetDescriptor then
    when ((t =? std_in REQREC_DEVICE) || (t =? std_in REQREC_INTERFACE)) USB_Device_GetDescriptor
  else if q =? REQ_GetConfiguration then
    when (t =? std_in REQREC_DEVICE) USB_Device_GetConfiguration
  else if q =? REQ_SetConfiguration then
    when (t =? std_out REQREC_DEVICE) USB_Device_SetConfiguration
  else mret tt.

Definition USB_Device_ProcessControlRequest : M unit :=
  read_header;;
  EVENT_USB_Device_ControlRequest;;
  setup ← Endpoint_IsSETUPReceived;
  when setup standard_request;;
  setup ← Endpoint_IsSETUPReceived;
  when setup (Endpoint_ClearSETUP;; Endpoint_StallTransaction).

(** ** USBTask.c *)
Definition USB_DeviceTask : M unit :=
  d ← get_fw DeviceState;
  if d =? DEVICE_STATE_Unattached then mret tt
  else
    PrevEndpoint ← Endpoint_GetCurrentEndpoint;
    Endpoint_SelectEndpoint ENDPOINT_CONTROLEP;;
    setup ← Endpoint_IsSETUPReceived;
    when setup USB_Device_ProcessControlRequest;;
    Endpoint_SelectEndpoint PrevEndpoint.

Definition USB_USBTask : M unit := USB_DeviceTask.

(** [CDC_Device_getchar_Blocking] of CDCClassDevice.c, which runs the tasks. *)
Definition CDC_Device_getchar_Blocking : M Z :=
  iter 0 (λ _ : unit,
    ReceivedByte ← CDC_Device_ReceiveByte;
    if ReceivedByte <? 0 then
      d ← get_fw DeviceState;
      if d =? DEVICE_STATE_Unattached then mret (inr FDEV_EOF)
      else CDC_Device_USBTask;; USB_USBTask;; mret (inl tt)
    else mret (inr ReceivedByte)) tt.

End WithPlatform.
