(* ===== verification/Packed.v ===== *)
(** * Packed structures

    A packed structure of the USB class definitions is the list of its bytes;
    its 32-bit members are stored little endian at fixed offsets. An access
    outside the list is [None]. *)
From stdpp Require Import strings.
From S2P Require Import Prelude RingBuffer Machine Endpoint.

(** The bytes of a literal. *)
Definition char (s : string) : Z :=
  match s with String a _ => Z.of_N (Ascii.N_of_ascii a) | EmptyString => 0 end.
Fixpoint chars (s : string) : list Z :=
  match s with EmptyString => [] | String a s' => Z.of_N (Ascii.N_of_ascii a) :: chars s' end.

Definition le32 (v : Z) : list Z := map u8 [v; v >> 8; v >> 16; v >> 24].

Fixpoint wr_bytes (l : list Z) (o : Z) (bs : list Z) : option (list Z) :=
  match bs with
  | [] => Some l
  | b :: bs => l' ← wr l o b; wr_bytes l' (o + 1) bs
  end.
Definition wr32 (l : list Z) (o v : Z) : option (list Z) := wr_bytes l o (le32 v).
Definition rd32 (l : list Z) (o : Z) : option Z :=
  b0 ← rd l o; b1 ← rd l (o + 1); b2 ← rd l (o + 2); b3 ← rd l (o + 3);
  Some (b0 + b1 * 2 ^ 8 + b2 * 2 ^ 16 + b3 * 2 ^ 24).
(** Assignments to several members, in order. *)
Fixpoint wr_members (l : list Z) (ms : list (Z * Z)) : option (list Z) :=
  match ms with
  | [] => Some l
  | (o, v) :: ms => l' ← wr32 l o v; wr_members l' ms
  end.

(** A byte of such an object, as the endpoint streams read it. *)
Definition in_memory (l : list Z) (p : Z) : M Z := lift (rd l p).

(** An endpoint table with its [Type] assigned. *)
Definition with_type (t : Z) (e : USB_Endpoint_Table_t) : USB_Endpoint_Table_t :=
  USB_Endpoint_Table (T_Address e) (T_Size e) t (T_Banks e).

(** ** Members of a buffer *)
Lemma wr_inv (l : list Z) o x l' : wr l o x = Some l' →
  0 ≤ o ∧ o < Z.of_nat (length l) ∧ l' = <[Z.to_nat o := x]> l.
Proof.
  unfold wr. destruct (Z.leb_spec 0 o), (Z.ltb_spec o (Z.of_nat (length l))); cbn; intros E; simplify_eq; done.
Qed.

Lemma wr_bytes_lookup l o bs l' : wr_bytes l o bs = Some l' →
  length l' = length l ∧ ∀ k, l' !! k =
    if decide (o ≤ Z.of_nat k < o + Z.of_nat (length bs)) then bs !! (k - Z.to_nat o)%nat else l !! k.
Proof.
  revert l o. induction bs as [|x bs IH]; intros l o; cbn [wr_bytes length].
  { intros [= ->]. split; [done|]. intros k. rewrite decide_False by lia. done. }
  intros H. apply bind_Some in H as (l1 & H1 & H2). apply wr_inv in H1 as (Ho & Hlt & ->).
  apply IH in H2 as [Hl Hk]. rewrite length_insert in Hl. split; [done|]. intros k. rewrite Hk.
  case_decide as D1; case_decide as D2; try lia.
  - replace (k - Z.to_nat o)%nat with (S (k - Z.to_nat (o + 1))) by lia. done.
  - replace k with (Z.to_nat o) by lia. rewrite list_lookup_insert_eq by lia. rewrite Nat.sub_diag. done.
  - rewrite list_lookup_insert_ne by lia. done.
Qed.

Lemma wr_bytes_ok l o bs : 0 ≤ o → o + Z.of_nat (length bs) ≤ Z.of_nat (length l) → is_Some (wr_bytes l o bs).
Proof.
  revert l o. induction bs as [|x bs IH]; intros l o Ho Hl; cbn [wr_bytes length] in *; [done|].
  rewrite wr_Some by lia. cbn. apply IH; rewrite ?length_insert; lia.
Qed.

Lemma wr_bytes_bytes l o bs l' : wr_bytes l o bs = Some l' → bytes l → bytes bs → bytes l'.
Proof.
  revert l o. induction bs as [|x bs IH]; intros l o; cbn [wr_bytes]; [by intros [= ->]|].
  intros H Hl Hb. apply bind_Some in H as (l1 & H1 & H2). apply wr_inv in H1 as (_ & _ & ->).
  apply Forall_cons in Hb as [Hx Hb]. eapply IH; [done| |done]. by apply Forall_insert.
Qed.

(** The bytes just written are read back. *)
Lemma wr_bytes_block l o bs l' : wr_bytes l o bs = Some l' → 0 ≤ o →
  take (length bs) (drop (Z.to_nat o) l') = bs.
Proof.
  intros H Ho. destruct (wr_bytes_lookup _ _ _ _ H) as [_ Hk]. apply list_eq. intros k.
  destruct (decide (k < length bs)%nat).
  - rewrite lookup_take_lt, lookup_drop, Hk by done. rewrite decide_True by lia. f_equal. lia.
  - rewrite lookup_take_ge, lookup_ge_None_2 by lia. done.
Qed.

(** A block that is not written stays. *)
Lemma wr_bytes_other l o bs l' p n : wr_bytes l o bs = Some l' → 0 ≤ p →
  p + Z.of_nat n ≤ o ∨ o + Z.of_nat (length bs) ≤ p →
  take n (drop (Z.to_nat p) l') = take n (drop (Z.to_nat p) l).
Proof.
  intros H Hp Hd. destruct (wr_bytes_lookup _ _ _ _ H) as [_ Hk]. apply list_eq. intros k.
  destruct (decide (k < n)%nat).
  - rewrite !lookup_take_lt, !lookup_drop, Hk by done. by rewrite decide_False by lia.
  - by rewrite !lookup_take_ge by lia.
Qed.

(** A member is its four bytes. *)
Definition of_le (l : list Z) : option Z :=
  match l with [b0; b1; b2; b3] => Some (b0 + b1 * 2 ^ 8 + b2 * 2 ^ 16 + b3 * 2 ^ 24) | _ => None end.

Lemma rd32_block l p : 0 ≤ p → rd32 l p = of_le (take 4 (drop (Z.to_nat p) l)).
Proof.
  intros Hp. unfold rd32, rd.
  replace (0 <=? p) with true by lia. replace (0 <=? p + 1) with true by lia. replace (0 <=? p + 2) with true by lia.
  replace (0 <=? p + 3) with true by lia. rewrite !Z2Nat.inj_add by lia.
  rewrite <-(Nat.add_0_r (Z.to_nat p)) at 1. rewrite <-!lookup_drop.
  destruct (drop (Z.to_nat p) l) as [|a0 [|a1 [|a2 [|a3 rest]]]]; done.
Qed.

Lemma rd32_le32 v : of_le (le32 v) = Some (u32 v).
Proof.
  unfold le32, of_le, u8, u32. cbn [map]. f_equal. rewrite !Z.shiftr_div_pow2 by lia.
  change (2 ^ 8) with 256. change (2 ^ 16) with 65536. change (2 ^ 24) with 16777216.
  Z.to_euclidean_division_equations; lia.
Qed.

Lemma le32_bytes v : bytes (le32 v).
Proof. unfold le32. cbn [map]. repeat constructor; apply u8_byte. Qed.

Lemma rd32_range l p v : rd32 l p = Some v → bytes l → 0 ≤ v < 2 ^ 32.
Proof.
  unfold rd32. intros H Hl. apply bind_Some in H as (b0 & H0 & H). apply bind_Some in H as (b1 & H1 & H).
  apply bind_Some in H as (b2 & H2 & H). apply bind_Some in H as (b3 & H3 & [= <-]).
  assert (∀ q x, rd l q = Some x → byte x) as Hb.
  { intros q x Hx. apply rd_Some in Hx as [_ Hx]. unfold bytes in Hl. by eapply Forall_lookup_1 in Hx. }
  apply Hb in H0, H1, H2, H3. unfold byte in *. lia.
Qed.

(** ** Assignments to members *)
Definition apart (p n : Z) (ms : list (Z * Z)) : bool :=
  forallb (λ m : Z * Z, (p + n <=? m.1) || (m.1 + 4 <=? p)) ms.
(** The members do not overlap. *)
Fixpoint spread (ms : list (Z * Z)) : bool :=
  match ms with
  | [] => true
  | m :: ms => (0 <=? m.1) && apart m.1 4 ms && spread ms
  end.
Definition within (n : Z) (ms : list (Z * Z)) : bool := forallb (λ m : Z * Z, m.1 + 4 <=? n) ms.

(** The members [ms] have the values given there. *)
Definition members (l : list Z) (ms : list (Z * Z)) : Prop := Forall (λ m : Z * Z, rd32 l m.1 = Some m.2) ms.
Definition block (p n : Z) (l : list Z) : list Z := take (Z.to_nat n) (drop (Z.to_nat p) l).

Record assigned (ms : list (Z * Z)) (l l' : list Z) : Prop := {
  as_len : length l' = length l;
  as_bytes : bytes l → bytes l';
  as_members : members l' (map (λ m, (m.1, u32 m.2)) ms);
  as_other p n : 0 ≤ p → 0 ≤ n → apart p n ms = true → block p n l' = block p n l }.

Lemma wr_members_ok ms l : spread ms = true → within (Z.of_nat (length l)) ms = true →
  ∃ l', wr_members l ms = Some l' ∧ assigned ms l l'.
Proof.
  revert l. induction ms as [|[o v] ms IH]; intros l Hs Hw.
  { exists l. split; [done|]. split; try done. constructor. }
  cbn in Hs, Hw. apply andb_prop in Hs as [Hs Hs2]. apply andb_prop in Hs as [Ho Ha]. apply andb_prop in Hw as [Hw Hws].
  apply Z.leb_le in Ho, Hw. destruct (wr_bytes_ok l o (le32 v)) as [l1 H1]; [done|cbn; lia|].
  destruct (wr_bytes_lookup _ _ _ _ H1) as [L1 _]. rewrite <-L1 in Hws.
  destruct (IH l1 Hs2 Hws) as (l2 & H2 & []). exists l2. cbn [wr_members]. unfold wr32. rewrite H1. split; [done|]. split.
  - congruence.
  - intros Hb. apply as_bytes0. by eapply wr_bytes_bytes, le32_bytes.
  - apply Forall_cons. split; [|done]. cbn. rewrite rd32_block by done.
    change 4%nat with (Z.to_nat 4). fold (block o 4 l2). rewrite as_other0 by done. unfold block.
    change (Z.to_nat 4) with (length (le32 v)). rewrite (wr_bytes_block _ _ _ _ H1) by done. apply rd32_le32.
  - intros p n Hp Hn Hap. cbn in Hap. apply andb_prop in Hap as [Hd Hap]. rewrite as_other0 by done. unfold block.
    eapply wr_bytes_other; [done|done|]. apply orb_prop in Hd. rewrite !Z.leb_le in Hd. cbn. lia.
Qed.

Lemma assigned_rd ms l l' o : assigned ms l l' → 0 ≤ o → apart o 4 ms = true → rd32 l' o = rd32 l o.
Proof. intros [] Ho Ha. rewrite !rd32_block by done. apply as_other0 in Ha; [|done|done]. exact (f_equal of_le Ha). Qed.

Lemma rd32_ok l o : 0 ≤ o → o + 4 ≤ Z.of_nat (length l) → ∃ v, rd32 l o = Some v.
Proof.
  intros Ho Hl. rewrite rd32_block by done.
  assert (length (drop (Z.to_nat o) l) ≥ 4)%nat as H by (rewrite length_drop; lia).
  destruct (drop (Z.to_nat o) l) as [|a0 [|a1 [|a2 [|a3 rest]]]]; cbn in H; try lia. by eexists.
Qed.

Lemma le32_of_le l v : bytes l → of_le l = Some v → le32 v = l.
Proof.
  unfold of_le. destruct l as [|b0 [|b1 [|b2 [|b3 []]]]]; try done. intros Hb [= <-].
  unfold bytes in Hb. rewrite !Forall_cons in Hb. destruct Hb as (H0 & H1 & H2 & H3 & _). unfold byte in *.
  unfold le32, u8. cbn [map]. rewrite !Z.shiftr_div_pow2 by lia.
  repeat f_equal; Z.to_euclidean_division_equations; lia.
Qed.

(** Writing back the value that is there. *)
Lemma wr32_same l o v : 0 ≤ o → bytes l → rd32 l o = Some v → wr32 l o v = Some l.
Proof.
  intros Ho Hb Hr. rewrite rd32_block in Hr by done.
  assert (le32 v = take 4 (drop (Z.to_nat o) l)) as El by by apply le32_of_le; [apply Forall_take, Forall_drop|].
  assert (length (take 4 (drop (Z.to_nat o) l)) = 4)%nat as L4 by by rewrite <-El.
  rewrite length_take, length_drop in L4.
  destruct (wr_bytes_ok l o (le32 v)) as [l' E]; [done|cbn; lia|]. unfold wr32. rewrite E. f_equal.
  destruct (wr_bytes_lookup _ _ _ _ E) as [Hl Hk]. apply list_eq. intros k. rewrite Hk. case_decide as D; [|done].
  rewrite El, lookup_take_lt, lookup_drop by (rewrite El, length_take, length_drop in D; lia). f_equal. lia.
Qed.
