(* ===== verification/Printer.v ===== *)
(** * The Printer class driver

    LUFA/Drivers/USB/Class/Device/PrinterClassDevice.c. The interface structure
    is a record threaded through the functions; [IEEE1284String] is the
    character array it points to. [EVENT_PRNT_Device_SoftReset] is the weak
    alias of the stub, which nothing in the program overrides. *)
From S2P Require Import Prelude RingBuffer Machine Endpoint Controller EndpointPoll EndpointStream Cdc Descriptors StdReq Packed.

Definition PRNT_REQ_GetDeviceID : Z := 0x00.
Definition PRNT_REQ_GetPortStatus : Z := 0x01.
Definition PRNT_REQ_SoftReset : Z := 0x02.
Definition PRNT_PORTSTATUS_NOTERROR : Z := 1 << 3.
Definition PRNT_PORTSTATUS_SELECT : Z := 1 << 4.

Record PRNT_Config_t := PRNT_Config {
  PRNT_InterfaceNumber : Z;
  PRNT_DataINEndpoint : USB_Endpoint_Table_t;
  PRNT_DataOUTEndpoint : USB_Endpoint_Table_t;
  IEEE1284String : list Z }.
Record PRNT_State_t := PRNT_State {
  PortStatus : Z;
  IsPrinterReset : bool }.
Record USB_ClassInfo_PRNT_Device_t := PRNT_Device {
  PRNT_Cfg : PRNT_Config_t;
  PRNT_St : PRNT_State_t }.

Definition set_IsPrinterReset (v : bool) (i : USB_ClassInfo_PRNT_Device_t) : USB_ClassInfo_PRNT_Device_t :=
  PRNT_Device (PRNT_Cfg i) (PRNT_State (PortStatus (PRNT_St i)) v).

Definition PRNT_Device_Event_Stub : M unit := mret tt.

(** ** Control requests *)
Definition PRNT_GetDeviceID (i : USB_ClassInfo_PRNT_Device_t) : M unit :=
  Endpoint_ClearSETUP;;
  ok ← wait_attached Endpoint_IsINReady;
  when ok
    (n ← lift (strlen (IEEE1284String (PRNT_Cfg i)));
     let IEEEStringLen := u16 n in
     Endpoint_Write_16_BE IEEEStringLen;;
     _ ← Endpoint_Write_Control_Stream_LE (IEEE1284String (PRNT_Cfg i)) IEEEStringLen;
     Endpoint_ClearStatusStage).

Definition PRNT_GetPortStatus (i : USB_ClassInfo_PRNT_Device_t) : M unit :=
  Endpoint_ClearSETUP;;
  ok ← wait_attached Endpoint_IsINReady;
  when ok
    (Endpoint_Write_8 (PortStatus (PRNT_St i));;
     Endpoint_ClearStatusStage).

Definition PRNT_SoftReset (i : USB_ClassInfo_PRNT_Device_t) : M USB_ClassInfo_PRNT_Device_t :=
  Endpoint_ClearSETUP;;
  Endpoint_ClearStatusStage;;
  let i := set_IsPrinterReset true i in
  PRNT_Device_Event_Stub;;
  mret i.

Definition PRNT_Device_ProcessControlRequest (i : USB_ClassInfo_PRNT_Device_t) : M USB_ClassInfo_PRNT_Device_t :=
  setup ← Endpoint_IsSETUPReceived;
  if negb setup then mret i
  else
    r ← get_fw ControlRequest;
    if negb (wIndex r =? PRNT_InterfaceNumber (PRNT_Cfg i)) then mret i
    else if bRequest r =? PRNT_REQ_GetDeviceID then
      if bmRequestType r =? class_in then PRNT_GetDeviceID i;; mret i else mret i
    else if bRequest r =? PRNT_REQ_GetPortStatus then
      if bmRequestType r =? class_in then PRNT_GetPortStatus i;; mret i else mret i
    else if bRequest r =? PRNT_REQ_SoftReset then
      if bmRequestType r =? class_out then PRNT_SoftReset i else mret i
    else mret i.

Definition PRNT_Device_ConfigureEndpoints (i : USB_ClassInfo_PRNT_Device_t) : M (bool * USB_ClassInfo_PRNT_Device_t) :=
  let c := PRNT_Cfg i in
  let c := PRNT_Config (PRNT_InterfaceNumber c) (with_type EP_TYPE_BULK (PRNT_DataINEndpoint c))
    (with_type EP_TYPE_BULK (PRNT_DataOUTEndpoint c)) (IEEE1284String c) in
  let i := PRNT_Device c (PRNT_State (PRNT_PORTSTATUS_NOTERROR .| PRNT_PORTSTATUS_SELECT) false) in
  ok ← Endpoint_ConfigureEndpointTable [PRNT_DataINEndpoint c];
  if negb ok then mret (false, i)
  else
    ok ← Endpoint_ConfigureEndpointTable [PRNT_DataOUTEndpoint c];
    if negb ok then mret (false, i) else mret (true, i).

(** ** Data *)
Definition PRNT_Device_Flush (i : USB_ClassInfo_PRNT_Device_t) : M Z :=
  d ← get_fw DeviceState;
  if negb (d =? DEVICE_STATE_Configured) then mret ENDPOINT_RWSTREAM_DeviceDisconnected
  else
    Endpoint_SelectEndpoint (T_Address (PRNT_DataINEndpoint (PRNT_Cfg i)));;
    n ← Endpoint_BytesInEndpoint;
    if n =? 0 then mret ENDPOINT_READYWAIT_NoError
    else
      rw ← Endpoint_IsReadWriteAllowed;
      let BankFull := negb rw in
      Endpoint_ClearIN;;
      if BankFull then
        ErrorCode ← Endpoint_WaitUntilReady;
        if negb (ErrorCode =? ENDPOINT_READYWAIT_NoError) then mret ErrorCode
        else Endpoint_ClearIN;; mret ENDPOINT_READYWAIT_NoError
      else mret ENDPOINT_READYWAIT_NoError.

Definition PRNT_Device_USBTask (i : USB_ClassInfo_PRNT_Device_t) : M USB_ClassInfo_PRNT_Device_t :=
  d ← get_fw DeviceState;
  if negb (d =? DEVICE_STATE_Configured) then mret i
  else
    let inn := T_Address (PRNT_DataINEndpoint (PRNT_Cfg i)) in
    let out := T_Address (PRNT_DataOUTEndpoint (PRNT_Cfg i)) in
    Endpoint_SelectEndpoint inn;;
    ready ← Endpoint_IsINReady;
    when ready (_ ← PRNT_Device_Flush i; mret tt);;
    if IsPrinterReset (PRNT_St i) then
      Endpoint_ResetEndpoint out;;
      Endpoint_ResetEndpoint inn;;
      Endpoint_SelectEndpoint out;;
      Endpoint_ClearStall;;
      Endpoint_ResetDataToggle;;
      Endpoint_SelectEndpoint inn;;
      Endpoint_ClearStall;;
      Endpoint_ResetDataToggle;;
      mret (set_IsPrinterReset false i)
    else mret i.

Definition PRNT_Device_SendData (i : USB_ClassInfo_PRNT_Device_t) (Buffer : list Z) (Length : Z) : M Z :=
  d ← get_fw DeviceState;
  if negb (d =? DEVICE_STATE_Configured) then mret ENDPOINT_RWSTREAM_DeviceDisconnected
  else
    Endpoint_SelectEndpoint (T_Address (PRNT_DataINEndpoint (PRNT_Cfg i)));;
    r ← Endpoint_Write_Stream_LE (in_memory Buffer) Length None;
    mret r.1.1.

Definition PRNT_Device_SendString (i : USB_ClassInfo_PRNT_Device_t) (String : list Z) : M Z :=
  d ← get_fw DeviceState;
  if negb (d =? DEVICE_STATE_Configured) then mret ENDPOINT_RWSTREAM_DeviceDisconnected
  else
    Endpoint_SelectEndpoint (T_Address (PRNT_DataINEndpoint (PRNT_Cfg i)));;
    n ← lift (strlen String);
    r ← Endpoint_Write_Stream_LE (in_memory String) (u16 n) None;
    mret r.1.1.

Definition PRNT_Device_SendByte (i : USB_ClassInfo_PRNT_Device_t) (Data : Z) : M Z :=
  d ← get_fw DeviceState;
  if negb (d =? DEVICE_STATE_Configured) then mret ENDPOINT_RWSTREAM_DeviceDisconnected
  else
    Endpoint_SelectEndpoint (T_Address (PRNT_DataINEndpoint (PRNT_Cfg i)));;
    rw ← Endpoint_IsReadWriteAllowed;
    ErrorCode ← (if negb rw then Endpoint_ClearIN;; Endpoint_WaitUntilReady
                 else mret ENDPOINT_READYWAIT_NoError);
    if negb (ErrorCode =? ENDPOINT_READYWAIT_NoError) then mret ErrorCode
    else Endpoint_Write_8 Data;; mret ENDPOINT_READYWAIT_NoError.

Definition PRNT_Device_BytesReceived (i : USB_ClassInfo_PRNT_Device_t) : M Z :=
  d ← get_fw DeviceState;
  if negb (d =? DEVICE_STATE_Configured) then mret 0
  else
    Endpoint_SelectEndpoint (T_Address (PRNT_DataOUTEndpoint (PRNT_Cfg i)));;
    out ← Endpoint_IsOUTReceived;
    if (out : bool) then
      n ← Endpoint_BytesInEndpoint;
      if n =? 0 then Endpoint_ClearOUT;; mret 0 else Endpoint_BytesInEndpoint
    else mret 0.

Definition PRNT_Device_ReceiveByte (i : USB_ClassInfo_PRNT_Device_t) : M Z :=
  d ← get_fw DeviceState;
  if negb (d =? DEVICE_STATE_Configured) then mret (-1)
  else
    Endpoint_SelectEndpoint (T_Address (PRNT_DataOUTEndpoint (PRNT_Cfg i)));;
    out ← Endpoint_IsOUTReceived;
    if (out : bool) then
      n ← Endpoint_BytesInEndpoint;
      ReceivedByte ← (if negb (n =? 0) then Endpoint_Read_8 else mret (-1));
      n ← Endpoint_BytesInEndpoint;
      when (n =? 0) Endpoint_ClearOUT;;
      mret ReceivedByte
    else mret (-1).

(** ** Standard streams, on the interface [fdev_get_udata] yields *)
Definition PRNT_Device_putchar (i : USB_ClassInfo_PRNT_Device_t) (c : Z) : M Z :=
  e ← PRNT_Device_SendByte i c; mret (if negb (e =? 0) then FDEV_ERR else 0).

Definition PRNT_Device_getchar (i : USB_ClassInfo_PRNT_Device_t) : M Z :=
  b ← PRNT_Device_ReceiveByte i; mret (if b <? 0 then FDEV_EOF else b).

Definition PRNT_Device_getchar_Blocking `{Platform} (i : USB_ClassInfo_PRNT_Device_t) : M (Z * USB_ClassInfo_PRNT_Device_t) :=
  iter 0 (λ i : USB_ClassInfo_PRNT_Device_t,
    ReceivedByte ← PRNT_Device_ReceiveByte i;
    if ReceivedByte <? 0 then
      d ← get_fw DeviceState;
      if d =? DEVICE_STATE_Unattached then mret (inr (FDEV_EOF, i))
      else i ← PRNT_Device_USBTask i; USB_USBTask;; mret (inl i)
    else mret (inr (ReceivedByte, i))) i.

(** * Standard streams

    The functions of CDCClassDevice.c and PrinterClassDevice.c that make a
    class driver a [FILE] of avr-libc. Of a [FILE] they set the members
    [put], [get], [flags] and [udata]; the interface that [udata] points to is
    the argument of the two callbacks and, where it has state of its own,
    their result. *)

Record FILE (U : Type) := File {
  file_put : U → Z → M Z;
  file_get : U → M (Z * U);
  file_flags : Z;
  file_udata : option U }.
Arguments File {U} _ _ _ _.
Arguments file_put {U} _.
Arguments file_get {U} _.
Arguments file_flags {U} _.
Arguments file_udata {U} _.

(** Macros of avr-libc's stdio.h. *)
Definition FDEV_SETUP_READ : Z := 1.
Definition FDEV_SETUP_WRITE : Z := 2.
Definition FDEV_SETUP_RW : Z := FDEV_SETUP_READ .| FDEV_SETUP_WRITE.
Definition FDEV_SETUP_STREAM {U} put get flags : FILE U := File put get flags None.
Definition fdev_set_udata {U} (f : FILE U) (u : U) : FILE U := File (file_put f) (file_get f) (file_flags f) (Some u).

(** A callback, called as the library calls it: [stream->get(stream)]. *)
Definition stream_get {U} (f : FILE U) : M Z := u ← lift (file_udata f); r ← file_get f u; mret r.1.
Definition stream_put {U} (f : FILE U) (c : Z) : M Z := u ← lift (file_udata f); file_put f u c.

(** ** CDCClassDevice.c: there is one interface, part of the machine's state. *)
Definition CDC_Device_CreateStream : FILE unit :=
  fdev_set_udata (FDEV_SETUP_STREAM (λ _, CDC_Device_putchar) (λ u, c ← CDC_Device_getchar; mret (c, u)) FDEV_SETUP_RW) tt.
Definition CDC_Device_CreateBlockingStream `{Platform} : FILE unit :=
  fdev_set_udata (FDEV_SETUP_STREAM (λ _, CDC_Device_putchar) (λ u, c ← CDC_Device_getchar_Blocking; mret (c, u)) FDEV_SETUP_RW) tt.

(** ** PrinterClassDevice.c *)
Definition PRNT_Device_CreateStream (i : USB_ClassInfo_PRNT_Device_t) : FILE USB_ClassInfo_PRNT_Device_t :=
  fdev_set_udata (FDEV_SETUP_STREAM PRNT_Device_putchar (λ i, c ← PRNT_Device_getchar i; mret (c, i)) FDEV_SETUP_RW) i.
Definition PRNT_Device_CreateBlockingStream `{Platform} (i : USB_ClassInfo_PRNT_Device_t) : FILE USB_ClassInfo_PRNT_Device_t :=
  fdev_set_udata (FDEV_SETUP_STREAM PRNT_Device_putchar PRNT_Device_getchar_Blocking FDEV_SETUP_RW) i.

Lemma blocking_stream_get `{Platform} b s s' :
  CDC_Device_getchar_Blocking s = Ok b s' → stream_get CDC_Device_CreateBlockingStream s = Ok b s'.
Proof.
  intros E. change (stream_get _) with (r ← (c ← CDC_Device_getchar_Blocking; mret (c, tt)); mret r.1).
  unfold mbind, M_bind. by rewrite E.
Qed.
