(* ===== verification/UsbSerial.v ===== *)
(** * The serial port over USB

    Projects/HorrorScope/usb_serial.c: initialisation, and the byte, buffer
    and string transfers in both directions. *)
From S2P Require Import Prelude RingBuffer Machine Endpoint Controller EndpointPoll EndpointStream Cdc Descriptors StdReq.

Section WithPlatform.
Context `{Platform}.

(** The sizes of the packet buffers: [out_fifo[CDC_TX_EPSIZE]] and so on. *)
Definition fifo_size (b : buffer) : Z :=
  match b with
  | out_fifo => CDC_TX_EPSIZE
  | in_fifo => CDC_RX_EPSIZE
  | notification_fifo | notification_fifo2 => CDC_NOTIFICATION_EPSIZE
  end.

(** [USB_Endpoint_FIFOs[i].IN.Data] and [.OUT.Data] after the assignments. *)
Definition fifo_memory (n : Z) (d : bool) : option buffer :=
  match n, d with
  | 0, true => Some notification_fifo
  | 0, false => Some notification_fifo2
  | 3, true => Some in_fifo
  | 4, false => Some out_fifo
  | _, _ => None
  end.

Definition USB_serial_init : M unit :=
  mod_fw (λ w, set_FIFOs (λ n d,
    if (0 <=? n) && (n <? ENDPOINT_TOTAL_ENDPOINTS)
    then fifo_set_data (fifo_memory n d) (FIFOs w n d) else FIFOs w n d) w);;
  USB_Init;;
  (** [USBtoUSART_Buffer_Data] has five bytes *)
  mod_fw (λ w, set_USBtoUSART_Buffer (RingBuffer_InitBuffer (Data (USBtoUSART_Buffer w)) 5) w).

(** [USB_DeviceState == DEVICE_STATE_Configured && ok_to_send] *)
Definition may_send : M bool :=
  d ← get_fw DeviceState;
  o ← get_fw ok_to_send;
  mret ((d =? DEVICE_STATE_Configured) && negb (o =? 0)).

(** The loop variable is [needToSend]. *)
Definition USB_serial_put_char (val : Z) : M unit :=
  iter 0 (λ needToSend : bool,
    c ← may_send;
    if c && needToSend then
      Endpoint_SelectEndpoint (T_Address DataINEndpoint);;
      ready ← Endpoint_IsINReady;
      needToSend ← (if (ready : bool) then _ ← CDC_Device_SendByte val; mret false
                    else mret needToSend);
      CDC_Device_USBTask;;
      USB_USBTask;;
      mret (inl needToSend)
    else mret (inr tt)) true.

(** The loop variables are [buff], as an offset, and [length]. *)
Definition put_buf_body (buff : Z → M Z) (x : Z * Z) : M (Z * Z + unit) :=
  let '(off, length) := x in
  c ← may_send;
  if c && (length >? 0) then
    Endpoint_SelectEndpoint (T_Address DataINEndpoint);;
    ready ← Endpoint_IsINReady;
    x' ← (if (ready : bool) then
            let toSend := length `min` (CDC_RX_EPSIZE - 1) in
            _ ← CDC_Device_SendData (λ p, buff (off + p)) toSend;
            mret (off + toSend, u16 (length - toSend))
          else mret x);
    CDC_Device_USBTask;;
    USB_USBTask;;
    mret (inl x')
  else mret (inr tt).

Definition USB_serial_put_buf (buff : Z → M Z) (length : Z) : M unit :=
  iter 0 (put_buf_body buff) (0, length).

Definition USB_serial_put_string (string : list Z) : M unit :=
  n ← lift (strlen string);
  USB_serial_put_buf (λ p, lift (rd string p)) (u16 n).

(** The string in flash ends with a zero byte; reading on behind the object is
    a fault. *)
Fixpoint USB_serial_put_string_P_internal (string : list Z) : M unit :=
  match string with
  | [] => fault
  | buf :: string' =>
      if buf =? 0 then mret tt
      else USB_serial_put_char buf;; USB_serial_put_string_P_internal string'
  end.

(** One iteration of the loop of [USB_serial_get_char]. *)
Definition get_char_body (_ : unit) : M (unit + unit) :=
  rb ← get_fw USBtoUSART_Buffer;
  if negb (RingBuffer_IsEmpty rb) then mret (inr tt)
  else
    when (negb (RingBuffer_IsFull rb))
      (d ← USB_DeviceState_volatile;
       when (d =? DEVICE_STATE_Configured)
         (ReceivedByte ← CDC_Device_ReceiveByte;
          when (negb (ReceivedByte <? 0))
            (rb ← get_fw USBtoUSART_Buffer;
             rb ← lift (RingBuffer_Insert rb (u8 ReceivedByte));
             mod_fw (set_USBtoUSART_Buffer rb))));;
    CDC_Device_USBTask;;
    USB_USBTask;;
    mret (inl tt).

Definition USB_serial_get_char : M Z :=
  iter 0 get_char_body tt;;
  rb ← get_fw USBtoUSART_Buffer;
  ret ← lift (RingBuffer_Peek rb);
  r ← lift (RingBuffer_Remove rb);
  mod_fw (set_USBtoUSART_Buffer r.2);;
  mret ret.

Definition USB_serial_get_short : M Z :=
  hi ← USB_serial_get_char;
  let ret := u16 (hi << 8) in
  lo ← USB_serial_get_char;
  mret (ret .| lo).

Definition USB_serial_get_long : M Z :=
  hi ← USB_serial_get_short;
  let ret := u32 (hi << 16) in
  lo ← USB_serial_get_short;
  mret (ret .| lo).

End WithPlatform.
