(* ===== verification/Adc.v ===== *)
(** * The analog to digital converter

    Projects/HorrorScope/adc.c. The channel pointer [ch] is always
    [&ADCA.CH0]. XMEGA_ADC_LITE is not defined. *)
From S2P Require Import Prelude RingBuffer Machine.

(** Register masks and groups (avr/iox32a4u.h). *)
Definition ADC_ENABLE_bm : Z := 0x01.
Definition ADC_CH0START_bm : Z := 0x04.
Definition ADC_CONMODE_bm : Z := 0x10.
Definition ADC_FREERUN_bm : Z := 0x08.
Definition ADC_RESOLUTION_12BIT_gc : Z := 0x00.
Definition ADC_RESOLUTION_8BIT_gc : Z := 0x04.
Definition ADC_REFSEL_gm : Z := 0x70.
Definition ADC_REFSEL_INT1V_gc : Z := 0x00.
Definition ADC_BANDGAP_bm : Z := 0x02.
Definition ADC_SWEEP_gm : Z := 0xC0.
Definition ADC_SWEEP_0_gc : Z := 0x00.
Definition ADC_EVSEL_gm : Z := 0x38.
Definition ADC_EVSEL_0123_gc : Z := 0x00.
Definition ADC_EVACT_gm : Z := 0x07.
Definition ADC_EVACT_NONE_gc : Z := 0x00.
Definition ADC_PRESCALER_gm : Z := 0x07.
Definition ADC_PRESCALER_DIV4_gc : Z := 0x00.
Definition ADC_CH_START_bm : Z := 0x80.
Definition ADC_CH_GAIN_gm : Z := 0x1C.
Definition ADC_CH_GAIN_1X_gc : Z := 0x00.
Definition ADC_CH_INPUTMODE_gm : Z := 0x03.
Definition ADC_CH_INPUTMODE_DIFFWGAIN_gc : Z := 0x03.
Definition ADC_CH_MUXPOS_gm : Z := 0x78.
Definition ADC_CH_MUXPOS_PIN3_gc : Z := 0x18.
Definition ADC_CH_MUXINT_gm : Z := 0x78.
Definition ADC_CH_MUXNEG_gm : Z := 0x07.
Definition ADC_CH_MUXNEG_PIN5_gc : Z := 0x01.
Definition ADC_CH_INTMODE_gm : Z := 0x0C.
Definition ADC_CH_INTLVL_gm : Z := 0x03.
Definition ADC_CH_INTLVL_OFF_gc : Z := 0x00.
Definition ADC_CH_INTLVL_LO_gc : Z := 0x01.
(** ADC_CH0IF_bm | ... | ADC_CH3IF_bm *)
Definition ADC_CHIF_all : Z := 0x0F.
Definition PORT_ISC_INPUT_DISABLE_gc : Z := 0x07.

Definition adc_calibrate (adc_cal : Z) : M unit := st16 (ADCA, CAL) adc_cal.

Definition adc_enable (en : bool) : M unit :=
  if en then setbits (ADCA, CTRLA) ADC_ENABLE_bm else clrbits (ADCA, CTRLA) ADC_ENABLE_bm.

Definition adc_refsel (refsel : Z) : M unit :=
  clrbits (ADCA, REFCTRL) ADC_REFSEL_gm;; setbits (ADCA, REFCTRL) refsel.

Definition adc_bandgap (bandgap : bool) : M unit :=
  if bandgap then setbits (ADCA, REFCTRL) ADC_BANDGAP_bm else clrbits (ADCA, REFCTRL) ADC_BANDGAP_bm.

Definition adc_sweep (sweep : Z) : M unit :=
  clrbits (ADCA, EVCTRL) ADC_SWEEP_gm;; setbits (ADCA, EVCTRL) sweep.

Definition adc_evsel (evsel : Z) : M unit :=
  clrbits (ADCA, EVCTRL) ADC_EVSEL_gm;; setbits (ADCA, EVCTRL) evsel.

Definition adc_evact (evact : Z) : M unit :=
  clrbits (ADCA, EVCTRL) ADC_EVACT_gm;; setbits (ADCA, EVCTRL) evact.

Definition adc_prescaler (prescaler : Z) : M unit :=
  clrbits (ADCA, PRESCALER) ADC_PRESCALER_gm;; setbits (ADCA, PRESCALER) prescaler.

(** [ADCA.INTFLAGS |= intflags] on flags that a one clears. *)
Definition adc_intflags (intflags : Z) : M unit :=
  v ← ld (ADCA, INTFLAGS); st_w1c (ADCA, INTFLAGS) (v .| intflags).

Definition adc_ch_start : M unit := setbits (ADCA_CH0, CTRL) ADC_CH_START_bm.

(** The line that clears the old gain is commented out. *)
Definition adc_ch_gain (gain : Z) : M unit := setbits (ADCA_CH0, CTRL) gain.

Definition adc_ch_inputmode (inputmode : Z) : M unit :=
  clrbits (ADCA_CH0, CTRL) ADC_CH_INPUTMODE_gm;; setbits (ADCA_CH0, CTRL) inputmode.

Definition adc_ch_muxpos (muxpos : Z) : M unit :=
  clrbits (ADCA_CH0, MUXCTRL) ADC_CH_MUXPOS_gm;; setbits (ADCA_CH0, MUXCTRL) muxpos.

Definition adc_ch_muxint (muxint : Z) : M unit :=
  clrbits (ADCA_CH0, MUXCTRL) ADC_CH_MUXINT_gm;; setbits (ADCA_CH0, MUXCTRL) muxint.

Definition adc_ch_muxneg (muxneg : Z) : M unit :=
  clrbits (ADCA_CH0, MUXCTRL) ADC_CH_MUXNEG_gm;; setbits (ADCA_CH0, MUXCTRL) muxneg.

Definition adc_ch_intmode (intmode : Z) : M unit :=
  clrbits (ADCA_CH0, INTCTRL) ADC_CH_INTMODE_gm;; setbits (ADCA_CH0, INTCTRL) intmode.

Definition adc_ch_intlvl (intlvl : Z) : M unit :=
  clrbits (ADCA_CH0, INTCTRL) ADC_CH_INTLVL_gm;; setbits (ADCA_CH0, INTCTRL) intlvl.

Definition adc_init (bits12 : Z) : M unit :=
  adc_enable false;;
  adc_intflags ADC_CHIF_all;;
  (ADCA, CTRLB) ::= ADC_CONMODE_bm .| ADC_FREERUN_bm;;
  (if negb (bits12 =? 0) then setbits (ADCA, CTRLB) ADC_RESOLUTION_12BIT_gc
   else setbits (ADCA, CTRLB) ADC_RESOLUTION_8BIT_gc);;
  adc_refsel ADC_REFSEL_INT1V_gc;;
  adc_bandgap true;;
  adc_sweep ADC_SWEEP_0_gc;;
  adc_evsel ADC_EVSEL_0123_gc;;
  adc_evact ADC_EVACT_NONE_gc;;
  adc_prescaler ADC_PRESCALER_DIV4_gc;;
  adc_ch_gain ADC_CH_GAIN_1X_gc;;
  adc_ch_inputmode ADC_CH_INPUTMODE_DIFFWGAIN_gc;;
  adc_ch_muxpos ADC_CH_MUXPOS_PIN3_gc;;
  adc_ch_muxneg ADC_CH_MUXNEG_PIN5_gc;;
  setbits (PORTA, PIN3CTRL) PORT_ISC_INPUT_DISABLE_gc;;
  setbits (PORTA, PIN5CTRL) PORT_ISC_INPUT_DISABLE_gc;;
  adc_ch_intlvl ADC_CH_INTLVL_OFF_gc;;
  adc_enable true;;
  setbits (ADCA, CTRLA) ADC_CH0START_bm.
