(* ===== verification/Capture.v ===== *)
(** * Sample capture, trigger and glitch timer

    Projects/HorrorScope/dmaadc.c, trigger.c and hires_glitch.c. A status
    register that a loop waits on is read with [ldv], a polling point. *)
From S2P Require Import Prelude RingBuffer Machine Endpoint Controller Adc.

(** Register masks and groups (avr/iox32a4u.h). *)
Definition DMA_ENABLE_bm : Z := 0x80.
Definition DMA_RESET_bm : Z := 0x40.
Definition DMA_DBUFMODE_DISABLED_gc : Z := 0x00.
Definition DMA_CH_ENABLE_bm : Z := 0x80.
Definition DMA_CH_REPEAT_bm : Z := 0x20.
Definition DMA_CH_SINGLE_bm : Z := 0x04.
Definition DMA_CH_BURSTLEN_1BYTE_gc : Z := 0x00.
Definition DMA_CH_BURSTLEN_2BYTE_gc : Z := 0x01.
Definition DMA_CH_SRCRELOAD_BURST_gc : Z := 0x80.
Definition DMA_CH_SRCDIR_INC_gc : Z := 0x10.
Definition DMA_CH_DESTRELOAD_BURST_gc : Z := 0x08.
Definition DMA_CH_DESTRELOAD_TRANSACTION_gc : Z := 0x0C.
Definition DMA_CH_DESTDIR_INC_gc : Z := 0x01.
Definition DMA_CH_TRIGSRC_EVSYS_CH0_gc : Z := 0x01.
Definition DMA_CH_TRIGSRC_ADCA_CH0_gc : Z := 0x10.
Definition TC_CLKSEL_DIV4_gc : Z := 0x03.
Definition TC0_OVFIF_bm : Z := 0x01.
Definition TC2_CLKSEL_OFF_gc : Z := 0x00.
Definition TC2_CLKSEL_DIV1_gc : Z := 0x01.
Definition TC2_LCMPAIF_bm : Z := 0x10.
Definition TC2_BYTEM_SPLITMODE_gc : Z := 0x02.
Definition PORT_OPC_PULLDOWN_gc : Z := 0x10.
Definition PORT_ISC_RISING_gc : Z := 0x01.
Definition EVSYS_CHMUX_PORTA_PIN2_gc : Z := 0x52.
Definition PIN2_bm : Z := 0x04.
Definition TRIGGER_PIN : Z := PIN2_bm.

(** [r |= m] on a register of interrupt flags. *)
Definition setflags (r : reg) (m : Z) : M unit := v ← ld r; st_w1c r (v .| m).

Section WithPlatform.
Context `{Platform}.

(** ** dmaadc.c *)
Definition dmaadc_init (bits12 : Z) : M unit :=
  (DMA, CTRL) ::= 0;;
  (DMA, CTRL) ::= DMA_RESET_bm;;
  while_ (v ← ldv (DMA, CTRL); mret (negb (v .& DMA_RESET_bm =? 0))) (mret tt);;
  (DMA_CH0, REPCNT) ::= 1;;
  (DMA, CTRL) ::= DMA_ENABLE_bm .| DMA_DBUFMODE_DISABLED_gc;;
  (DMA_CH0, ADDRCTRL) ::= DMA_CH_SRCRELOAD_BURST_gc .| DMA_CH_SRCDIR_INC_gc .|
                          DMA_CH_DESTRELOAD_TRANSACTION_gc .| DMA_CH_DESTDIR_INC_gc;;
  (DMA_CH0, TRIGSRC) ::= DMA_CH_TRIGSRC_ADCA_CH0_gc;;
  (if negb (bits12 =? 0) then
     (DMA_CH0, CTRLA) ::= DMA_CH_BURSTLEN_2BYTE_gc .| DMA_CH_SINGLE_bm;;
     (DMA_CH0, SRCADDR0) ::= (addr_ADCA_CH0_RES >> 0) .& 0xFF;;
     (DMA_CH0, SRCADDR1) ::= (addr_ADCA_CH0_RES >> 8) .& 0xFF
   else
     (DMA_CH0, CTRLA) ::= DMA_CH_BURSTLEN_1BYTE_gc .| DMA_CH_SINGLE_bm;;
     (DMA_CH0, SRCADDR0) ::= (addr_ADCA_CH0_RES >> 0) .& 0xFF;;
     (DMA_CH0, SRCADDR1) ::= (addr_ADCA_CH0_RES >> 8) .& 0xFF);;
  (DMA_CH0, SRCADDR2) ::= 0.

Definition dmaadc_read_buf_ch0 (buf length bits12 : Z) : M unit :=
  (DMA_CH0, REPCNT) ::= 1;;
  st16 (DMA_CH0, TRFCNT) length;;
  setbits (DMA_CH0, CTRLA) DMA_CH_REPEAT_bm;;
  (DMA_CH0, DESTADDR0) ::= (buf >> 0) .& 0xFF;;
  (DMA_CH0, DESTADDR1) ::= (buf >> 8) .& 0xFF;;
  (DMA_CH0, DESTADDR2) ::= 0;;
  st_w1c (DMA, INTFLAGS) 0;;
  setbits (DMA_CH0, CTRLA) DMA_CH_ENABLE_bm;;
  adc_ch_intlvl ADC_CH_INTLVL_LO_gc;;
  cli;;
  while_ (v ← ldv (DMA_CH0, CTRLA); mret (v .& DMA_CH_ENABLE_bm =? 0)) (mret tt);;
  sei;;
  adc_ch_intlvl ADC_CH_INTLVL_OFF_gc.

(** ** trigger.c *)
Definition trigger_init : M unit :=
  (PORTA, OUTCLR) ::= TRIGGER_PIN;;
  (PORTA, PIN2CTRL) ::= PORT_OPC_PULLDOWN_gc .| PORT_ISC_RISING_gc;;
  (PORTA, INTCTRL) ::= 0;;
  (TCD0, INTCTRLA) ::= 0;;
  (EVSYS, CH0MUX) ::= EVSYS_CHMUX_PORTA_PIN2_gc;;
  (DMA_CH2, TRIGSRC) ::= 0;;
  (DMA_CH1, REPCNT) ::= 1;;
  st16 (DMA_CH1, TRFCNT) 1;;
  (DMA_CH1, ADDRCTRL) ::= DMA_CH_SRCRELOAD_BURST_gc .| DMA_CH_DESTRELOAD_BURST_gc;;
  (DMA_CH1, CTRLA) ::= DMA_CH_BURSTLEN_1BYTE_gc .| DMA_CH_SINGLE_bm;;
  (DMA_CH1, SRCADDR0) ::= (addr_clkSel >> 0) .& 0xFF;;
  (DMA_CH1, SRCADDR1) ::= (addr_clkSel >> 8) .& 0xFF;;
  (DMA_CH1, SRCADDR2) ::= 0;;
  (DMA_CH1, DESTADDR0) ::= (addr_TCD0_CTRLA >> 0) .& 0xFF;;
  (DMA_CH1, DESTADDR1) ::= (addr_TCD0_CTRLA >> 8) .& 0xFF;;
  (DMA_CH1, DESTADDR2) ::= 0;;
  setbits (DMA_CH1, CTRLA) DMA_CH_ENABLE_bm.

(** [while(timeout>0 && !PORTA.INTFLAGS) timeout--;], answering the final
    [timeout]. *)
Definition trigger_body (timeout : Z) : M (Z + Z) :=
  if timeout >? 0 then
    f ← ldv (PORTA, INTFLAGS);
    if f =? 0 then mret (inl (u32 (timeout - 1))) else mret (inr timeout)
  else mret (inr timeout).

Definition trigger_wait (timeout delay : Z) : M Z :=
  (TCD0, CTRLA) ::= 0;;
  st16 (TCD0, CNT) 0;;
  st16 (TCD0, PER) delay;;
  st_w1c (TCD0, INTFLAGS) 0xff;;
  (DMA_CH1, REPCNT) ::= 1;;
  st16 (DMA_CH1, TRFCNT) 1;;
  st_w1c (DMA, INTFLAGS) 0;;
  (PORTA, INT0MASK) ::= TRIGGER_PIN;;
  st_w1c (PORTA, INTFLAGS) 0x3;;
  (DMA_CH1, TRIGSRC) ::= DMA_CH_TRIGSRC_EVSYS_CH0_gc;;
  setbits (DMA_CH1, CTRLA) (DMA_CH_SINGLE_bm .| DMA_CH_ENABLE_bm);;
  timeout ← iter 0 trigger_body timeout;
  (DMA_CH2, TRIGSRC) ::= 0;;
  if timeout =? 0 then
    (TCD0, CTRLA) ::= 0;;
    mret 1
  else
    while_ (f ← ldv (TCD0, INTFLAGS); mret (negb (tst f TC0_OVFIF_bm))) (mret tt);;
    (TCD0, CTRLA) ::= 0;;
    mret 0.

End WithPlatform.

(** ** hires_glitch.c *)
Definition hires_init : M unit :=
  setbits (TCC2, CTRLA) TC2_CLKSEL_OFF_gc;;
  (TCC2, CTRLB) ::= 0xff;;
  setbits (TCC2, CTRLE) TC2_BYTEM_SPLITMODE_gc;;
  setbits (TCC2, CTRLC) 0x4.

Definition hires_stop_timer : M unit := (TCC2, CTRLA) ::= TC2_CLKSEL_OFF_gc.

Definition hires_glitch : M unit :=
  st_w1c (TCC2, INTFLAGS) 0;;
  setflags (TCC2, INTFLAGS) TC2_LCMPAIF_bm;;
  (TCC2, CTRLA) ::= TC2_CLKSEL_DIV1_gc;;
  while_ (f ← ldv (TCC2, INTFLAGS); mret (negb (tst f TC2_LCMPAIF_bm))) (mret tt);;
  hires_stop_timer.

Definition hires_set_counter (counter : Z) : M unit :=
  (TCC2, LCNT) ::= counter;;
  (TCC2, HCNT) ::= counter.

Definition hires_set_period (period : Z) : M unit :=
  (TCC2, HPER) ::= period;;
  (TCC2, LPER) ::= period.

Definition hires_set_compare (compare : Z) : M unit :=
  (TCC2, LCMPA) ::= compare;;
  (TCC2, LCMPB) ::= compare;;
  (TCC2, LCMPC) ::= compare;;
  (TCC2, LCMPD) ::= compare;;
  (TCC2, HCMPA) ::= compare;;
  (TCC2, HCMPB) ::= compare;;
  (TCC2, HCMPC) ::= compare;;
  (TCC2, HCMPD) ::= compare.
