(* ===== verification/Usart.v ===== *)
(** * The hardware serial ports

    Projects/HorrorScope/usartx.c. [char] is unsigned in this build
    (-funsigned-char in LUFA/Build/DMBS/DMBS/gcc.mk). *)
From S2P Require Import Prelude RingBuffer Machine Endpoint Controller.

(** Register masks (avr/iox32a4u.h). *)
Definition USART_RXCINTLVL_OFF_gc : Z := 0x00.
Definition USART_TXCINTLVL_OFF_gc : Z := 0x00.
Definition USART_DREINTLVL_OFF_gc : Z := 0x00.
Definition USART_CLK2X_bm : Z := 0x04.
Definition USART_CHSIZE0_bm : Z := 0x01.
Definition USART_CHSIZE1_bm : Z := 0x02.
Definition USART_RXEN_bm : Z := 0x10.
Definition USART_TXEN_bm : Z := 0x08.
Definition USART_DREIF_bm : Z := 0x20.
Definition USART_TXCIF_bm : Z := 0x40.
Definition USART_RXCIF_bm : Z := 0x80.

(** [USART_CTX_t] *)
Record USART_CTX_t := USART_CTX {
  usart : periph; port : periph; RX_PIN_bm : Z; TX_PIN_bm : Z }.

Definition usart_c0_ctx : USART_CTX_t := USART_CTX USARTC0 PORTC 0x04 0x08.
Definition usart_d1_ctx : USART_CTX_t := USART_CTX USARTD1 PORTD 0x40 0x80.

Definition usart_init (usart_ctx : USART_CTX_t) : M unit :=
  (port usart_ctx, OUTSET) ::= TX_PIN_bm usart_ctx;;
  (port usart_ctx, DIRSET) ::= TX_PIN_bm usart_ctx;;
  (port usart_ctx, OUTCLR) ::= RX_PIN_bm usart_ctx;;
  (port usart_ctx, DIRCLR) ::= RX_PIN_bm usart_ctx;;
  clrbits (usart usart_ctx, CTRLA) USART_RXCINTLVL_OFF_gc;;
  clrbits (usart usart_ctx, CTRLA) USART_TXCINTLVL_OFF_gc;;
  clrbits (usart usart_ctx, CTRLA) USART_DREINTLVL_OFF_gc;;
  (usart usart_ctx, CTRLB) ::= USART_CLK2X_bm;;
  (usart usart_ctx, CTRLC) ::= USART_CHSIZE0_bm + USART_CHSIZE1_bm;;
  (usart usart_ctx, BAUDCTRLA) ::= 34 .& 0xff;;
  setbits (usart usart_ctx, CTRLB) (USART_RXEN_bm .| USART_TXEN_bm).

Definition usart_put_char (usart_ctx : USART_CTX_t) (c : Z) : M unit :=
  while_ (s ← ldv (usart usart_ctx, STATUS); mret (s .& USART_DREIF_bm =? 0)) (mret tt);;
  (usart usart_ctx, DATA) ::= c;;
  while_ (s ← ldv (usart usart_ctx, STATUS); mret (s .& USART_TXCIF_bm =? 1)) (mret tt).

Fixpoint usart_put_string_P_internal (usart_ctx : USART_CTX_t) (msg : list Z) : M unit :=
  match msg with
  | [] => fault
  | buf :: msg' =>
      if buf =? 0 then mret tt
      else usart_put_char usart_ctx buf;; usart_put_string_P_internal usart_ctx msg'
  end.

Definition usart_get_char (usart_ctx : USART_CTX_t) : M Z :=
  while_ (s ← ldv (usart usart_ctx, STATUS); mret (s .& USART_RXCIF_bm =? 0)) (mret tt);;
  ld (usart usart_ctx, DATA).

Definition usart_get_short (usart_ctx : USART_CTX_t) : M Z :=
  hi ← usart_get_char usart_ctx;
  let ret := u16 (hi << 8) in
  lo ← usart_get_char usart_ctx;
  mret (ret .| lo).

Definition usart_get_long (usart_ctx : USART_CTX_t) : M Z :=
  hi ← usart_get_short usart_ctx;
  let ret := u32 (hi << 16) in
  lo ← usart_get_short usart_ctx;
  mret (ret .| lo).

(** The loop of [usart_put_buf] from index [i], [n] bytes to go. *)
Fixpoint put_buf_from (usart_ctx : USART_CTX_t) (buf : list Z) (n : nat) (i : Z) : M unit :=
  match n with
  | O => mret tt
  | S n' =>
      x ← lift (rd buf i);
      usart_put_char usart_ctx x;;
      put_buf_from usart_ctx buf n' (i + 1)
  end.

Definition usart_put_buf (usart_ctx : USART_CTX_t) (buf : list Z) (length : Z) : M unit :=
  put_buf_from usart_ctx buf (Z.to_nat length) 0.
