(* ===== verification/Logic.v ===== *)
(** * Reasoning about the machine

    A weakest precondition for the monad of Machine.v: [wp m Q B s] says that
    [m] run from [s] neither faults nor spins, that a result satisfies [Q],
    and that [B] holds where the environment ends while [m] still waits. The
    rules below follow the structure of the code; [wp_iter] is the rule for
    loops, with an invariant and a measure. *)
From S2P Require Import Prelude RingBuffer Machine Endpoint Controller.

Definition wp {A} (m : M A) (Q : A → mach → Prop) (B : mach → Prop) (s : mach) : Prop :=
  match m s with
  | Ok a s' => Q a s'
  | Blocked s' => B s'
  | Fault _ | Spin _ => False
  end.

Section rules.
Context {A : Type}.
Implicit Types (Q : A → mach → Prop) (B : mach → Prop).

Lemma wp_mono (m : M A) Q Q' B B' s :
  (∀ a s', Q a s' → Q' a s') → (∀ s', B s' → B' s') → wp m Q B s → wp m Q' B' s.
Proof. unfold wp. destruct (m s); naive_solver. Qed.

Lemma wp_ret (a : A) Q B s : Q a s → wp (mret a) Q B s.
Proof. done. Qed.

Lemma wp_gets (f : mach → A) Q B s : Q (f s) s → wp (gets f) Q B s.
Proof. done. Qed.

Lemma wp_lift (o : option A) a Q B s : o = Some a → Q a s → wp (lift o) Q B s.
Proof. by intros ->. Qed.

Lemma wp_Ok (m : M A) a s' Q B s : m s = Ok a s' → Q a s' → wp m Q B s.
Proof. unfold wp. by intros ->. Qed.

(** A computation that satisfies a specification without waiting returns. *)
Lemma wp_returns (m : M A) Q s : wp m Q (λ _, False) s → ∃ a s', m s = Ok a s' ∧ Q a s'.
Proof. unfold wp. destruct (m s); naive_solver. Qed.
End rules.

Lemma wp_bind {A C} (m : M A) (k : A → M C) Q B s :
  wp m (λ a, wp (k a) Q B) B s → wp (m ≫= k) Q B s.
Proof. unfold wp, mbind, M_bind. by destruct (m s). Qed.

Lemma wp_unbind {A C} (m : M A) (k : A → M C) Q B s :
  wp (m ≫= k) Q B s → wp m (λ a, wp (k a) Q B) B s.
Proof. unfold wp, mbind, M_bind. by destruct (m s). Qed.

(** Sequences, regrouped. *)
Lemma bind_assoc {A B C} (m : M A) (k : A → M B) (h : B → M C) s :
  ((m ≫= k) ≫= h) s = (m ≫= λ a, k a ≫= h) s.
Proof. unfold mbind, M_bind. by destruct (m s). Qed.
Lemma bind_ext {A B} (m : M A) (k k' : A → M B) s : (∀ a s, k a s = k' a s) → (m ≫= k) s = (m ≫= k') s.
Proof. intros H. unfold mbind, M_bind. destruct (m s); auto. Qed.
Ltac regroup := repeat (rewrite bind_assoc; apply bind_ext; intros [] ?).

Lemma wp_modify f (Q : unit → mach → Prop) B s : Q tt (f s) → wp (modify f) Q B s.
Proof. done. Qed.

Lemma wp_when b (m : M unit) (Q : unit → mach → Prop) B s :
  (b = true → wp m Q B s) → (b = false → Q tt s) → wp (when b m) Q B s.
Proof. destruct b; cbn; intros H1 H2; [by apply H1|by apply H2]. Qed.

(** An iteration keeps the invariant and lowers the measure. *)
Lemma wp_iter {A X} (I : X → mach → Prop) (mu : X → mach → nat) slack body x (Q : A → mach → Prop) B s :
  (∀ x s, I x s → wp (body x)
     (λ r s', match r with inl x' => I x' s' ∧ (mu x' s' < mu x s)%nat | inr a => Q a s' end) B s) →
  I x s → (mu x s ≤ slack + length (script s))%nat → wp (iter slack body x) Q B s.
Proof.
  intros Hbody HI Hmu. unfold wp, iter.
  assert (mu x s < slack + S (length (script s)))%nat as Hn by lia.
  revert Hn HI. generalize (slack + S (length (script s)))%nat as n. clear Hmu. intros n.
  revert x s. induction n as [|n IH]; intros x s Hn HI; [lia|].
  specialize (Hbody x s HI). unfold wp in Hbody. cbn [itern]. unfold mbind, M_bind.
  destruct (body x s) as [[x'|a] s'|s'|s'|s']; cbn in *; try done.
  destruct Hbody as [HI' Hlt]. apply IH; [lia|done].
Qed.

(** A loop whose iterations each poll: the measure is the number of events. *)
Lemma wp_iter_poll {A X} (I : X → mach → Prop) body x (Q : A → mach → Prop) B s :
  (∀ x s, I x s → wp (body x)
     (λ r s', match r with
              | inl x' => I x' s' ∧ (length (script s') < length (script s))%nat
              | inr a => Q a s' end) B s) →
  I x s → wp (iter 0 body x) Q B s.
Proof. intros Hb HI. by apply (wp_iter I (λ _ s, length (script s))); [|done|lia]. Qed.

(** [while (c) ;] on a polled condition. *)
Lemma wp_while (I : mach → Prop) (c : M bool) (Q : unit → mach → Prop) B s :
  (∀ s, I s → wp c (λ b s', if (b : bool) then I s' ∧ (length (script s') < length (script s))%nat
                            else Q tt s') B s) →
  I s → wp (while_ c (mret tt)) Q B s.
Proof.
  intros Hc HI. apply (wp_iter_poll (λ _, I)); [|done]. intros _ s1 H1.
  apply wp_bind. eapply wp_mono; [|intros ? H; exact H|by apply Hc]. by intros [] s2.
Qed.

Lemma wp_poll (Q : unit → mach → Prop) B s :
  match script s with
  | [] => B s
  | EvHw f :: es => Q tt (set_hwst (f (hwst s)) (set_script es s))
  | EvIRQ f :: es =>
      let s' := set_hwst (f (hwst s)) (set_script es s) in
      if IFlag (fwst s') then wp USB_BUSEVENT_vect Q B s' else Q tt s'
  end → wp poll Q B s.
Proof.
  unfold wp, poll. destruct (script s) as [|[f|f] es]; [done|done|]. cbn.
  by destruct (IFlag (fwst s)).
Qed.

(** ** Tables *)
Lemma upd_eq {A B} `{EqDecision A} (f : A → B) a b : upd f a b a = b.
Proof. unfold upd. by rewrite decide_True. Qed.
Lemma upd_ne {A B} `{EqDecision A} (f : A → B) a a' b : a' ≠ a → upd f a b a' = f a'.
Proof. intros. unfold upd. by rewrite decide_False. Qed.
Lemma upd2_eq {B} (f : Z → bool → B) n d b : upd2 f (n, d) b n d = b.
Proof. unfold upd2. by rewrite decide_True. Qed.
Lemma upd2_ne {B} (f : Z → bool → B) p n d b : (n, d) ≠ p → upd2 f p b n d = f n d.
Proof. intros. unfold upd2. by rewrite decide_False. Qed.

Create Rewrite HintDb mach.
#[global] Hint Rewrite @upd_eq @upd2_eq : mach.
#[global] Hint Rewrite @upd_ne @upd2_ne using (congruence || discriminate) : mach.

(** ** Endpoints: the selection, and access through it *)
Definition sel (a : Z) (s : mach) : mach :=
  set_fwst (set_SelectedHandle (a .& 15, tst a 128) (set_SelectedFIFO (a .& 15, tst a 128)
    (set_SelectedEndpoint a (fwst s)))) s.

Lemma SelectEndpoint_eq a s : Endpoint_SelectEndpoint a s = Ok tt (sel a s).
Proof.
  unfold Endpoint_SelectEndpoint, sel, ENDPOINT_EPNUM_MASK, ENDPOINT_DIR_IN. by destruct (tst a 128).
Qed.

Lemma wp_select a Q B s : Q tt (sel a s) → wp (Endpoint_SelectEndpoint a) Q B s.
Proof. apply wp_Ok, SelectEndpoint_eq. Qed.

Lemma get_handle_eq {A} (f : USB_EP_t → A) p s :
  SelectedHandle (fwst s) = p → in_table p = true → get_handle f s = Ok (f (eps (hwst s) p.1 p.2)) s.
Proof. intros E Hp. unfold get_handle, mbind, M_bind, get_fw, gets. cbn. by rewrite E, Hp. Qed.

Lemma get_fifo_eq {A} (f : Endpoint_FIFO_t → A) p s :
  SelectedFIFO (fwst s) = p → in_table p = true → get_fifo f s = Ok (f (FIFOs (fwst s) p.1 p.2)) s.
Proof. intros E Hp. unfold get_fifo, mbind, M_bind, get_fw, gets. cbn. by rewrite E, Hp. Qed.

Definition upd_handle (p : Z * bool) (f : USB_EP_t → USB_EP_t) (s : mach) : mach :=
  set_hwst (set_eps (upd2 (eps (hwst s)) p (f (eps (hwst s) p.1 p.2))) (hwst s)) s.
Definition upd_fifo (p : Z * bool) (f : Endpoint_FIFO_t → Endpoint_FIFO_t) (s : mach) : mach :=
  set_fwst (set_FIFOs (upd2 (FIFOs (fwst s)) p (f (FIFOs (fwst s) p.1 p.2))) (fwst s)) s.

Lemma mod_handle_eq f p s : SelectedHandle (fwst s) = p → in_table p = true →
  mod_handle f s = Ok tt (upd_handle p f s).
Proof. intros E Hp. unfold mod_handle, mbind, M_bind, get_fw, gets. cbn. by rewrite E, Hp. Qed.

Lemma mod_fifo_eq f p s : SelectedFIFO (fwst s) = p → in_table p = true →
  mod_fifo f s = Ok tt (upd_fifo p f s).
Proof. intros E Hp. unfold mod_fifo, mbind, M_bind, get_fw, gets. cbn. by rewrite E, Hp. Qed.

(** ** Registers *)

(** [r] holds [x] and the store of [v] is recorded. *)
Definition stored (r : reg) (x v : Z) (s : mach) : mach :=
  set_trace (trace s ++ [OStore r v]) (set_hwst (set_rf (upd (rf (hwst s)) r x) (hwst s)) s).

Lemma wp_st8 r v Q B s : Q tt (stored r (u8 v) (u8 v) s) → wp (r ::= v) Q B s.
Proof. done. Qed.
Lemma wp_st16 r v Q B s : Q tt (stored r (u16 v) (u16 v) s) → wp (st16 r v) Q B s.
Proof. done. Qed.
Lemma wp_w1c r v Q B s : Q tt (stored r (clr8 (rf (hwst s) r) (u8 v)) (u8 v) s) → wp (st_w1c r v) Q B s.
Proof. done. Qed.
Lemma wp_setbits r m Q B s :
  Q tt (stored r (u8 (rf (hwst s) r .| m)) (u8 (rf (hwst s) r .| m)) s) → wp (setbits r m) Q B s.
Proof. done. Qed.
Lemma wp_clrbits r m Q B s :
  Q tt (stored r (u8 (clr8 (rf (hwst s) r) m)) (u8 (clr8 (rf (hwst s) r) m)) s) → wp (clrbits r m) Q B s.
Proof. done. Qed.

Lemma rf_stored r x v s r' : rf (hwst (stored r x v s)) r' = if decide (r' = r) then x else rf (hwst s) r'.
Proof. done. Qed.
Lemma rf_stored_eq r x v s : rf (hwst (stored r x v s)) r = x.
Proof. rewrite rf_stored. by rewrite decide_True. Qed.
Lemma rf_stored_ne r x v s r' : r' ≠ r → rf (hwst (stored r x v s)) r' = rf (hwst s) r'.
Proof. intros. rewrite rf_stored. by rewrite decide_False. Qed.
Lemma trace_stored r x v s : trace (stored r x v s) = trace s ++ [OStore r v].
Proof. done. Qed.
Lemma fw_stored r x v s : fwst (stored r x v s) = fwst s.
Proof. done. Qed.
Lemma script_stored r x v s : script (stored r x v s) = script s.
Proof. done. Qed.
#[global] Hint Rewrite rf_stored_eq trace_stored fw_stored script_stored : mach.
#[global] Hint Rewrite rf_stored_ne using discriminate : mach.

(** Bits that are not cleared keep their value. *)
Lemma tst_clr8 v m m' : (255 .^ m) .& m' = m' → tst (clr8 v m) m' = tst v m'.
Proof. intros E. unfold tst, clr8. by rewrite <-Z.land_assoc, E. Qed.
Lemma tst_cleared v m m' : (255 .^ m) .& m' = 0 → tst (clr8 v m) m' = false.
Proof. intros E. unfold tst, clr8. by rewrite <-Z.land_assoc, E, Z.land_0_r. Qed.

(** Bits of a union. *)
Lemma tst_lor x m m' : tst (x .| m) m' = tst x m' || tst m m'.
Proof.
  unfold tst. rewrite Z.land_lor_distr_l. apply eq_true_iff_eq.
  rewrite orb_true_iff, !negb_true_iff, !Z.eqb_neq, Z.lor_eq_0_iff. lia.
Qed.

(** The selected endpoint: known, or computed from the last selection. *)
Ltac selected :=
  first [ eassumption
        | match goal with |- ?x = _ => let v := eval vm_compute in x in exact (eq_refl : x = v) end ].

Ltac wstep :=
  lazymatch goal with
  | |- wp (_ ≫= _) _ _ _ => apply wp_bind
  | |- wp (mret _) _ _ _ => apply wp_ret
  | |- wp (get_fw _) _ _ _ => apply wp_gets
  | |- wp (get_hw _) _ _ _ => apply wp_gets
  | |- wp (gets _) _ _ _ => apply wp_gets
  | |- wp (mod_fw _) _ _ _ => apply wp_modify
  | |- wp (mod_hw _) _ _ _ => apply wp_modify
  | |- wp (emit _) _ _ _ => apply wp_modify
  | |- wp (ld _) _ _ _ => apply wp_gets
  | |- wp (st8 _ _) _ _ _ => apply wp_st8
  | |- wp (st16 _ _) _ _ _ => apply wp_st16
  | |- wp (st_w1c _ _) _ _ _ => apply wp_w1c
  | |- wp (setbits _ _) _ _ _ => apply wp_setbits
  | |- wp (clrbits _ _) _ _ _ => apply wp_clrbits
  | |- wp (Endpoint_SelectEndpoint _) _ _ _ => apply wp_select
  | |- wp (get_handle _) _ _ _ => eapply wp_Ok; [apply get_handle_eq; [selected|reflexivity]|]
  | |- wp (get_fifo _) _ _ _ => eapply wp_Ok; [apply get_fifo_eq; [selected|reflexivity]|]
  | |- wp (mod_handle _) _ _ _ => eapply wp_Ok; [apply mod_handle_eq; [selected|reflexivity]|]
  | |- wp (mod_fifo _) _ _ _ => eapply wp_Ok; [apply mod_fifo_eq; [selected|reflexivity]|]
  end.
Ltac wsteps := repeat (cbn beta iota; wstep); cbn beta iota.
(** Evaluate the address of the selected endpoint. *)
Ltac seladdr :=
  match goal with |- context [sel ?a _] =>
    let v := eval vm_compute in a in progress change a with v end.

(** A specification whose waiting case is impossible is a run. *)
Lemma wp_total {A} (m : M A) (Q : A → mach → Prop) (P : Prop) s : wp m Q (λ _, P) s → ¬ P → ∃ a s', m s = Ok a s' ∧ Q a s'.
Proof. unfold wp. destruct (m s); naive_solver. Qed.
