(* ===== verification/Regs.v ===== *)
(** * Straight-line register code

    Most of the peripheral drivers are sequences of register accesses without
    waiting. [runs m f o] gives such a sequence a meaning on the register file
    alone: [f] is what it does to the registers and [o] the stores it makes,
    in order. The rules are syntax-directed, so [f] and [o] are found by
    [regs]. *)
From S2P Require Import Prelude RingBuffer Machine Endpoint Controller Logic.

Definition regfile : Type := reg → Z.

Definition after_regs (f : regfile → regfile) (o : regfile → list obs) (s : mach) : mach :=
  set_trace (trace s ++ o (rf (hwst s))) (set_hwst (set_rf (f (rf (hwst s))) (hwst s)) s).

Definition runs (m : M unit) (f : regfile → regfile) (o : regfile → list obs) : Prop :=
  ∀ s, m s = Ok tt (after_regs f o s).

(** One register changes, as a function of its content. *)
Definition rset (r : reg) (h : Z → Z) (R : regfile) : regfile := upd R r (h (R r)).

Lemma rset_eq r h R : rset r h R r = h (R r).
Proof. apply upd_eq. Qed.
Lemma rset_ne r h R r' : r' ≠ r → rset r h R r' = R r'.
Proof. apply upd_ne. Qed.

Lemma runs_st8 r v : runs (r ::= v) (rset r (λ _, u8 v)) (λ _, [OStore r (u8 v)]).
Proof. intros s. reflexivity. Qed.
Lemma runs_st16 r v : runs (st16 r v) (rset r (λ _, u16 v)) (λ _, [OStore r (u16 v)]).
Proof. intros s. reflexivity. Qed.
Lemma runs_w1c r v : runs (st_w1c r v) (rset r (λ x, clr8 x (u8 v))) (λ _, [OStore r (u8 v)]).
Proof. intros s. reflexivity. Qed.
Lemma runs_setbits r m : runs (setbits r m) (rset r (λ x, u8 (x .| m))) (λ R, [OStore r (u8 (R r .| m))]).
Proof. intros s. reflexivity. Qed.
Lemma runs_clrbits r m : runs (clrbits r m) (rset r (λ x, u8 (clr8 x m))) (λ R, [OStore r (u8 (clr8 (R r) m))]).
Proof. intros s. reflexivity. Qed.
Lemma runs_setflags r m : runs (v ← ld r; st_w1c r (v .| m)) (rset r (λ x, clr8 x (u8 (x .| m))))
  (λ R, [OStore r (u8 (R r .| m))]).
Proof. intros s. reflexivity. Qed.
Lemma runs_ret : runs (mret tt) (λ R, R) (λ _, []).
Proof. intros [[] ? ? ?]. unfold after_regs. cbn. by rewrite app_nil_r. Qed.
Lemma runs_seq m k f g o p : runs m f o → runs k g p → runs (m;; k) (λ R, g (f R)) (λ R, o R ++ p (f R)).
Proof.
  intros Hm Hk s. unfold mbind, M_bind. rewrite Hm, Hk. unfold after_regs. cbn. by rewrite app_assoc.
Qed.
Lemma runs_if (b : bool) m k f g o p : runs m f o → runs k g p →
  runs (if b then m else k) (if b then f else g) (if b then o else p).
Proof. by destruct b. Qed.

Create HintDb regs.
#[global] Hint Resolve runs_st8 runs_st16 runs_w1c runs_setbits runs_clrbits runs_setflags runs_ret : regs.

Ltac regs_step :=
  first [ solve [eauto 2 with regs]
        | eapply runs_seq
        | eapply runs_if ].
Ltac regs := cbn beta; repeat regs_step.

Lemma wp_runs m f o Q B s : runs m f o → Q tt (after_regs f o s) → wp m Q B s.
Proof. intros Hm. apply wp_Ok, Hm. Qed.

(** The content of one register, read through the changes. *)
Ltac rdreg :=
  cbn beta; repeat (first [rewrite rset_eq | rewrite rset_ne by (discriminate || congruence)]; cbn beta).
