(* ===== verification/SerialPort.v ===== *)
(** * The interface between the command loop and its serial port

    [SerialPort] lists the functions of usb_serial.h that the command loop
    calls. [SerialLaws] is what it may rely on: an invariant [sp_inv], the
    stream [sp_rx] of bytes still to be received, and for each function which
    bytes it takes or sends, without a fault and without an endless loop, and
    within how many events when the environment is never late. *)
From S2P Require Import Prelude RingBuffer Machine Endpoint Controller Logic.

Class SerialPort := {
  sp_get_char : M Z;
  sp_get_short : M Z;
  sp_put_char : Z → M unit;
  sp_put_buf : (Z → M Z) → Z → M unit;
  sp_put_string_P : list Z → M unit }.

(** An event in which the DMA controller writes no samples. *)
Definition keeps_scope (e : event) : Prop := ∀ f, e = EvHw f → ∀ h, scopeBuf (f h) = scopeBuf h.

(** An event in which the DMA controller changes the sample buffer as [R]
    allows. *)
Definition moves (R : relation (list Z)) (e : event) : Prop := ∀ f, e = EvHw f → ∀ h, R (scopeBuf h) (scopeBuf (f h)).

(** [k] events have happened. *)
Record elapsed (k : nat) (s s' : mach) : Prop := {
  el_len : length (script s) = (k + length (script s'))%nat;
  el_sub : ∀ P, Forall P (script s) → Forall P (script s');
  el_scope : ∀ R, PreOrder R → Forall (moves R) (script s) → R (scopeBuf (hwst s)) (scopeBuf (hwst s')) }.

Lemma elapsed_trans j k s1 s2 s3 : elapsed j s1 s2 → elapsed k s2 s3 → elapsed (j + k) s1 s3.
Proof. intros [] []. split; [lia|auto|]. intros R ? H. exact (transitivity (el_scope0 R _ H) (el_scope1 R _ (el_sub0 _ H))). Qed.

Lemma elapsed_refl s : elapsed 0 s s.
Proof. by split. Qed.

(** [buff] yields the bytes [data] while the sample buffer holds [mem]. *)
Definition reads (buff : Z → M Z) (mem data : list Z) : Prop :=
  ∀ i x s, scopeBuf (hwst s) = mem → data !! i = Some x → buff (Z.of_nat i) s = Ok x s.

(** [buff] yields the byte [val m i] at position [i < n] while the sample
    buffer holds [m], for every [m] that [R] allows after [m0]. *)
Definition yields (R : relation (list Z)) (buff : Z → M Z) (val : list Z → nat → Z) (m0 : list Z) (n : nat) : Prop :=
  ∀ i m, (i < n)%nat → R m0 m → byte (val m i) ∧
    ∀ s, scopeBuf (hwst s) = m → buff (Z.of_nat i) s = Ok (val m i) s.

(** The pieces [ps] of a buffer from offset [off] on, each of them read at one
    moment: the sample buffer holds [m] before the first and [m'] after the
    last, and changes as [R] allows in between. *)
Inductive snapshots (R : relation (list Z)) (val : list Z → nat → Z) : list Z → nat → list (list Z) → list Z → Prop :=
  | snapshots_nil m off m' : R m m' → snapshots R val m off [] m'
  | snapshots_cons m m1 off p ps m' : R m m1 → p = map (val m1) (seq off (length p)) →
      snapshots R val m1 (off + length p) ps m' → snapshots R val m off (p :: ps) m'.

Lemma snapshots_snoc R val m off ps m1 p m2 m3 : PreOrder R → snapshots R val m off ps m1 → R m1 m2 →
  p = map (val m2) (seq (off + length (concat ps)) (length p)) → R m2 m3 →
  snapshots R val m off (ps ++ [p]) m3.
Proof.
  intros HR H H12 Hp H23. induction H as [m off m1 Hm|m m0 off q ps m1 Hm Hq H IH]; cbn in *.
  - eapply (snapshots_cons _ _ _ m2); [by transitivity m1| |by constructor]. by rewrite Nat.add_0_r in Hp.
  - econstructor; [exact Hm|exact Hq|]. apply IH; [done|]. by rewrite <-Nat.add_assoc, <-length_app.
Qed.

(** What was read does not depend on the moments when no moment matters. *)
Lemma snapshots_const R (val : list Z → nat → Z) (x : nat → Z) m off ps m' : Reflexive R → Transitive R →
  (∀ m1 i, R m m1 → val m1 i = x i) →
  snapshots R val m off ps m' → concat ps = map x (seq off (length (concat ps))).
Proof.
  intros HR HT Hx H. induction H as [|m m1 off p ps m' Hm Hp H IH]; [done|].
  cbn [concat]. rewrite length_app, seq_app, map_app. f_equal.
  - rewrite Hp at 1. apply map_ext. intros i. by apply Hx.
  - apply IH. intros m2 i H2. apply Hx. by transitivity m1.
Qed.

(** A function that receives: [bs] from the stream, within [K] events. *)
Section specs.
Context (inv : mach → Prop) (rx : mach → list Z) (timely : event → Prop).

Definition recv_post {A} (n K : nat) (val : list Z → A) (s : mach) (a : A) (s' : mach) : Prop :=
  inv s' ∧ trace s' = trace s ∧
  (∃ bs, length bs = n ∧ bytes bs ∧ rx s = bs ++ rx s' ∧ a = val bs) ∧
  ∃ k, elapsed k s s' ∧ (Forall timely (script s) → (k ≤ K)%nat).
Definition recv_stuck (n K : nat) (s : mach) (_ : mach) : Prop :=
  Forall timely (script s) → (n ≤ length (rx s))%nat → (length (script s) < K)%nat.

Definition send_post (out : list obs) (K : nat) (s : mach) (_ : unit) (s' : mach) : Prop :=
  inv s' ∧ rx s' = rx s ∧ trace s' = trace s ++ out ∧
  ∃ k, elapsed k s s' ∧ (Forall timely (script s) → (k ≤ K)%nat).
Definition send_stuck (K : nat) (s : mach) (_ : mach) : Prop :=
  Forall timely (script s) → (length (script s) < K)%nat.

(** Sequences of receptions and transmissions. *)
Lemma wp_recv_bind {A C} n K n' K' (m : M A) (val : list Z → A) (f : A → M C) (g : list Z → list Z → C) s :
  wp m (recv_post n K val s) (recv_stuck n K s) s →
  (∀ bs s', inv s' → length bs = n → bytes bs →
     wp (f (val bs)) (recv_post n' K' (g bs) s') (recv_stuck n' K' s') s') →
  wp (m ≫= f) (recv_post (n + n') (K + K') (λ l, g (take n l) (drop n l)) s)
    (recv_stuck (n + n') (K + K') s) s.
Proof.
  intros Hm Hf. apply wp_bind. eapply wp_mono; [| |exact Hm].
  - intros a s1 (Hi & Ht & (bs & Hl & Hb & Hr & ->) & k & He & Hk). pose proof (el_len _ _ _ He) as Hlen.
    eapply wp_mono; [| |by apply (Hf bs s1)].
    + intros c s2 (Hi2 & Ht2 & (bs2 & Hl2 & Hb2 & Hr2 & ->) & k2 & He2 & Hk2).
      split; [done|]. split; [congruence|]. split.
      * exists (bs ++ bs2). split; [rewrite length_app; lia|]. split; [by apply Forall_app|].
        split; [by rewrite Hr, Hr2, app_assoc|]. by rewrite take_app_length', drop_app_length'.
      * exists (k + k2)%nat. split; [by eapply elapsed_trans|]. intros Hp.
        specialize (Hk Hp). specialize (Hk2 (el_sub _ _ _ He _ Hp)). lia.
    + unfold recv_stuck. intros _ Hs Hp Hn. rewrite Hr, length_app in Hn.
      specialize (Hk Hp). specialize (Hs (el_sub _ _ _ He _ Hp) ltac:(lia)). lia.
  - unfold recv_stuck. intros _ Hs Hp Hn. specialize (Hs Hp ltac:(lia)). lia.
Qed.

Lemma wp_send_seq o1 o2 K1 K2 (m1 m2 : M unit) s :
  wp m1 (send_post o1 K1 s) (send_stuck K1 s) s →
  (∀ s', inv s' → wp m2 (send_post o2 K2 s') (send_stuck K2 s') s') →
  wp (m1;; m2) (send_post (o1 ++ o2) (K1 + K2) s) (send_stuck (K1 + K2) s) s.
Proof.
  intros H1 H2. apply wp_bind. eapply wp_mono; [| |exact H1].
  - intros [] s1 (Hi & Hr & Ht & k & He & Hk). pose proof (el_len _ _ _ He) as Hlen.
    eapply wp_mono; [| |by apply H2].
    + intros [] s2 (Hi2 & Hr2 & Ht2 & k2 & He2 & Hk2). split; [done|]. split; [congruence|].
      split; [by rewrite Ht2, Ht, app_assoc|]. exists (k + k2)%nat. split; [by eapply elapsed_trans|].
      intros Hp. specialize (Hk Hp). specialize (Hk2 (el_sub _ _ _ He _ Hp)). lia.
    + unfold send_stuck. intros _ Hs Hp. specialize (Hk Hp). specialize (Hs (el_sub _ _ _ He _ Hp)). lia.
  - unfold send_stuck. intros _ Hs Hp. specialize (Hs Hp). lia.
Qed.

End specs.

(** Big-endian value of received bytes. *)
Definition be_val (bs : list Z) : Z := foldl (λ a b, a * 256 + b) 0 bs.

(** The bytes handed to the host. *)
Definition payload (t : list obs) : list Z :=
  concat (map (λ o, match o with OPacket _ d => d | OStore _ _ => [] end) t).

Arguments payload : simpl never.

Class SerialLaws `{SerialPort} := {
  sp_inv : mach → Prop;
  sp_rx : mach → list Z;
  sp_timely : event → Prop;
  sp_out : list Z → list obs;
  law_out data : payload (sp_out data) = data;
  law_get_char s : sp_inv s →
    wp sp_get_char (recv_post sp_inv sp_rx sp_timely 1 8 be_val s) (recv_stuck sp_rx sp_timely 1 8 s) s;
  law_get_short s : sp_inv s →
    wp sp_get_short (recv_post sp_inv sp_rx sp_timely 2 16 be_val s) (recv_stuck sp_rx sp_timely 2 16 s) s;
  law_put_char c s : sp_inv s →
    wp (sp_put_char c) (send_post sp_inv sp_rx sp_timely (sp_out [u8 c]) 3 s) (send_stuck sp_timely 3 s) s;
  law_put_string l s : sp_inv s → bytes l → Forall (λ c, c ≠ 0) l →
    wp (sp_put_string_P (l ++ [0]))
      (send_post sp_inv sp_rx sp_timely (concat (map (λ c, sp_out [c]) l)) (3 * length l) s)
      (send_stuck sp_timely (3 * length l) s) s;
  (** A buffer goes in pieces, each of them as it is at one moment. *)
  law_put_buf R buff val n s : PreOrder R → sp_inv s → Forall (moves R) (script s) →
    yields R buff val (scopeBuf (hwst s)) n → Z.of_nat n < 65536 →
    wp (sp_put_buf buff (Z.of_nat n))
      (λ _ s', ∃ ps, length (concat ps) = n ∧ snapshots R val (scopeBuf (hwst s)) 0 ps (scopeBuf (hwst s')) ∧
         send_post sp_inv sp_rx sp_timely (sp_out (concat ps)) (4 * n) s tt s')
      (send_stuck sp_timely (4 * n) s) s;
  (** The port does not depend on the peripherals, nor on the record of the
      stores made to them. *)
  law_local s f g : (∀ h, eps (f h) = eps h ∧ bufs (f h) = bufs h ∧ host (f h) = host h) →
    sp_inv s → sp_inv (Mach (f (hwst s)) (fwst s) (script s) (g (trace s))) ∧
               sp_rx (Mach (f (hwst s)) (fwst s) (script s) (g (trace s))) = sp_rx s;
  law_iflag s b : sp_inv s → sp_inv (set_fwst (set_IFlag b (fwst s)) s) ∧
                             sp_rx (set_fwst (set_IFlag b (fwst s)) s) = sp_rx s;
  (** An event is no interrupt and loses no byte. *)
  law_poll s : sp_inv s → wp poll (λ _ s', sp_inv s' ∧ sp_rx s' = sp_rx s ∧ trace s' = trace s ∧ elapsed 1 s s')
                                  (λ _, script s = []) s }.
