(* ===== verification/HorrorScope.v ===== *)
(** * The command loop

    Projects/HorrorScope/HorrorScope.c: the initialisation of [main] and its
    command loop, a definition per command. The loop is written against the
    interface [SerialPort] of SerialPort.v; [usb_serial] is the implementation the program is
    linked with. *)
From stdpp Require Import strings.
From S2P Require Import Prelude RingBuffer Machine Packed Endpoint Controller EndpointPoll EndpointStream Cdc Descriptors StdReq UsbSerial Adc Capture Usart SerialPort.

(** ** The serial port the program is linked with (usb_serial.h) *)
Definition usb_serial `{Platform} : SerialPort := {|
  sp_get_char := USB_serial_get_char;
  sp_get_short := USB_serial_get_short;
  sp_put_char := USB_serial_put_char;
  sp_put_buf := USB_serial_put_buf;
  sp_put_string_P := USB_serial_put_string_P_internal |}.

(** ** Characters and strings *)
Definition CRLF : list Z := [13; 10].
(** A string literal followed by [\r\n], with its terminator. *)
Definition PSTR_line (s : string) : list Z := chars s ++ CRLF ++ [0].
Definition PSTR (s : string) : list Z := chars s ++ [0].

(** ** Register masks (avr/iox32a4u.h) *)
Definition OSC_RC32MEN_bm : Z := 0x02.
Definition OSC_XOSCEN_bm : Z := 0x08.
Definition OSC_PLLEN_bm : Z := 0x10.
Definition OSC_RC32MRDY_bm : Z := 0x02.
Definition OSC_PLLRDY_bm : Z := 0x10.
Definition CLK_SCLKSEL_RC32M_gc : Z := 0x01.
Definition OSC_RC32MCREF_USBSOF_gc : Z := 0x04.
Definition DFLL_ENABLE_bm : Z := 0x01.
Definition OSC_PLLSRC_RC32M_gc : Z := 0x80.
Definition OSC_PLLFAC_gp : Z := 0.
Definition CLK_PSADIV0_bm : Z := 0x04.
Definition PMIC_HILVLEN_bm : Z := 0x04.
Definition PMIC_MEDLVLEN_bm : Z := 0x02.
Definition PR_AES_bm : Z := 0x10.
Definition PR_EBI_bm : Z := 0x08.
Definition PR_RTC_bm : Z := 0x04.
Definition PR_DAC_bm : Z := 0x04.
Definition PR_ADC_bm : Z := 0x02.
Definition PR_AC_bm : Z := 0x01.
Definition PR_TWI_bm : Z := 0x40.
Definition PR_USART1_bm : Z := 0x20.
Definition PR_USART0_bm : Z := 0x10.
Definition PR_SPI_bm : Z := 0x08.
Definition PR_TC1_bm : Z := 0x02.
Definition PR_TC0_bm : Z := 0x01.

(** sizeof(scopeBuf) *)
Definition SCOPE_SIZE : Z := 1024 * 3 + 512.

(** The local variables of [main]. *)
Record locals := Locals {
  timeout : Z; delay : Z; numberOfSamples : Z; glitch_length : Z; bits12 : Z; pulses : Z }.

Definition locals_init : locals := Locals 40000 0 SCOPE_SIZE 0 1 1.

Definition set_timeout v l := Locals v (delay l) (numberOfSamples l) (glitch_length l) (bits12 l) (pulses l).
Definition set_delay v l := Locals (timeout l) v (numberOfSamples l) (glitch_length l) (bits12 l) (pulses l).
Definition set_numberOfSamples v l := Locals (timeout l) (delay l) v (glitch_length l) (bits12 l) (pulses l).
Definition set_glitch_length v l := Locals (timeout l) (delay l) (numberOfSamples l) v (bits12 l) (pulses l).
Definition set_bits12 v l := Locals (timeout l) (delay l) (numberOfSamples l) (glitch_length l) v (pulses l).
Definition set_pulses v l := Locals (timeout l) (delay l) (numberOfSamples l) (glitch_length l) (bits12 l) v.

(** [memset(scopeBuf, c, sizeof(scopeBuf))] *)
Definition memset_scopeBuf (c : Z) : M unit :=
  mod_hw (set_scopeBuf (replicate (Z.to_nat SCOPE_SIZE) c)).

(** A byte of [scopeBuf]. *)
Definition read_scopeBuf (p : Z) : M Z := l ← get_hw scopeBuf; lift (rd l p).

Section WithPlatform.
Context `{Platform}.

(** ** Initialisation *)
Definition init_clocks : M unit :=
  setbits (OSC, CTRL) (OSC_RC32MEN_bm .| OSC_XOSCEN_bm);;
  while_ (v ← ldv (OSC, STATUS); mret (v .& OSC_RC32MRDY_bm =? 0)) (mret tt);;
  (CLK, CTRL) ::= CLK_SCLKSEL_RC32M_gc;;
  setbits (OSC, DFLLCTRL) OSC_RC32MCREF_USBSOF_gc;;
  setbits (DFLLRC2M, CTRL) DFLL_ENABLE_bm;;
  setbits (DFLLRC32M, CTRL) DFLL_ENABLE_bm;;
  (OSC, PLLCTRL) ::= OSC_PLLSRC_RC32M_gc .| (6 << OSC_PLLFAC_gp);;
  setbits (OSC, CTRL) OSC_PLLEN_bm;;
  while_ (v ← ldv (OSC, STATUS); mret (v .& OSC_PLLRDY_bm =? 0)) (mret tt);;
  setbits (OSC, CTRL) (OSC_PLLEN_bm .| OSC_RC32MEN_bm);;
  while_ (v ← ldv (OSC, STATUS); mret (v .& OSC_PLLRDY_bm =? 0)) (mret tt);;
  (CLK, PSCTRL) ::= CLK_PSADIV0_bm;;
  setbits (PMIC, CTRL) (PMIC_HILVLEN_bm .| PMIC_MEDLVLEN_bm).

Definition init_power_reduction : M unit :=
  setbits (PR, PRGEN) (PR_AES_bm .| PR_EBI_bm .| PR_RTC_bm);;
  setbits (PR, PRPA) (PR_DAC_bm .| PR_AC_bm);;
  setbits (PR, PRPB) (PR_DAC_bm .| PR_AC_bm .| PR_ADC_bm);;
  setbits (PR, PRPC) (PR_TWI_bm .| PR_SPI_bm);;
  setbits (PR, PRPD) (PR_TWI_bm .| PR_SPI_bm);;
  setbits (PR, PRPE) (PR_TWI_bm .| PR_SPI_bm .| PR_USART0_bm .| PR_USART1_bm .| PR_TC0_bm .| PR_TC1_bm);;
  setbits (PR, PRPF) (PR_TWI_bm .| PR_SPI_bm .| PR_USART0_bm .| PR_USART1_bm .| PR_TC0_bm .| PR_TC1_bm).

(** Everything before [while(1)]; the sleep mode is never used. *)
Definition main_init : M locals :=
  let l := locals_init in
  memset_scopeBuf (char "U");;
  init_clocks;;
  sei;;
  usart_init usart_c0_ctx;;
  adc_init (bits12 l);;
  dmaadc_init (bits12 l);;
  trigger_init;;
  (PORTC, DIRSET) ::= 0xff;;
  (PORTC, OUT) ::= 0xff;;
  (TCC2, CTRLC) ::= 0xff;;
  USB_serial_init;;
  hires_init;;
  hires_set_period 0xff;;
  usart_put_string_P_internal usart_c0_ctx (PSTR_line "Welcome to the HorrorScope");;
  init_power_reduction;;
  mret l.

Context `{SerialPort}.

(** ** Commands *)
Definition put (c : string) : M unit := sp_put_char (char c).

Definition cmd_T (l : locals) : M locals := put "T";; mret l.

(** DMA arm *)
Definition cmd_d (l : locals) : M locals :=
  memset_scopeBuf 0;;
  put "r";;
  timedOut ← trigger_wait (timeout l) (delay l);
  dmaadc_read_buf_ch0 addr_scopeBuf (numberOfSamples l) (bits12 l);;
  put (if negb (timedOut =? 0) then "e" else "d");;
  mret l.

(** Sample fetch *)
Definition cmd_s (l : locals) : M locals := sp_put_buf read_scopeBuf (numberOfSamples l);; mret l.

(** Set number of samples *)
Definition cmd_n (l : locals) : M locals :=
  temp ← sp_get_short;
  if temp >? SCOPE_SIZE then
    sp_put_string_P (PSTR_line "Buffer too big");;
    mret l
  else
    put "d";;
    mret (set_numberOfSamples temp l).

(** Set gain *)
Definition cmd_g (l : locals) : M locals :=
  g ← sp_get_char;
  adc_ch_gain (u8 (g << 2));;
  put "d";;
  mret l.

(** Set clock divider *)
Definition cmd_c (l : locals) : M locals :=
  c ← sp_get_char;
  adc_prescaler (c .& 0x7);;
  put "d";;
  mret l.

(** Set bias *)
Definition cmd_b (l : locals) : M locals :=
  b ← sp_get_short;
  adc_calibrate b;;
  put "d";;
  mret l.

(** Fault *)
Definition cmd_f (l : locals) : M locals :=
  put "r";;
  timedOut ← trigger_wait (timeout l) (delay l);
  put (if negb (timedOut =? 0) then "d" else "e");;
  mret l.

(** Resolution *)
Definition cmd_8 (l : locals) : M locals :=
  b ← sp_get_char;
  let l := set_bits12 (b .& 1) l in
  dmaadc_init (bits12 l);;
  trigger_init;;
  put "d";;
  mret l.

(** Glitch *)
Definition cmd_h (l : locals) : M locals :=
  hires_set_counter 0x00;;
  hires_set_compare (u8 (0xff - glitch_length l));;
  put "r";;
  timedOut ← trigger_wait (timeout l) (delay l);
  repeat_ (Z.to_nat (pulses l)) (hires_set_counter 0x00;; hires_glitch);;
  put (if negb (timedOut =? 0) then "e" else "d");;
  mret l.

(** Wait, glitch length, exit timeout, pulses *)
Definition cmd_w (l : locals) : M locals := v ← sp_get_short; put "d";; mret (set_delay v l).
Definition cmd_l (l : locals) : M locals := v ← sp_get_short; put "d";; mret (set_glitch_length (u8 v) l).
Definition cmd_e (l : locals) : M locals := v ← sp_get_short; put "d";; mret (set_timeout v l).
Definition cmd_p (l : locals) : M locals := v ← sp_get_char; put "d";; mret (set_pulses v l).

(** Target power off and on *)
Definition cmd_x (l : locals) : M locals :=
  (PORTC, OUTCLR) ::= 0xff;;
  (TCC2, CTRLC) ::= 0x00;;
  put "d";;
  mret l.
Definition cmd_y (l : locals) : M locals :=
  (PORTC, OUTSET) ::= 0xff;;
  (TCC2, CTRLC) ::= 0xff;;
  put "d";;
  mret l.

Definition cmd_invalid (command : Z) (l : locals) : M locals :=
  sp_put_string_P (PSTR "Invalid command:");;
  sp_put_char command;;
  sp_put_string_P (PSTR_line "");;
  mret l.

Definition dispatch (command : Z) (l : locals) : M locals :=
  if (command =? char "T") || (command =? char "t") then cmd_T l
  else if command =? char "d" then cmd_d l
  else if command =? char "s" then cmd_s l
  else if command =? char "n" then cmd_n l
  else if command =? char "g" then cmd_g l
  else if command =? char "c" then cmd_c l
  else if command =? char "b" then cmd_b l
  else if command =? char "f" then cmd_f l
  else if command =? char "8" then cmd_8 l
  else if command =? char "h" then cmd_h l
  else if command =? char "w" then cmd_w l
  else if command =? char "l" then cmd_l l
  else if command =? char "e" then cmd_e l
  else if command =? char "p" then cmd_p l
  else if command =? char "x" then cmd_x l
  else if command =? char "y" then cmd_y l
  else cmd_invalid command l.

(** One iteration of [while(1)], and [n] of them. *)
Definition main_step (l : locals) : M locals :=
  command ← sp_get_char;
  dispatch command l.

Fixpoint main_loop (n : nat) (l : locals) : M locals :=
  match n with
  | O => mret l
  | S n' => l ← main_step l; main_loop n' l
  end.

End WithPlatform.

(** The program up to its [n]th command. *)
Definition main `{Platform} (n : nat) : M locals :=
  l ← main_init; @main_loop _ usb_serial n l.
