(* ===== verification/SerialSpec.v ===== *)
(** * The serial port over USB: what it delivers

    The environment of this file is a configured link: a host that takes IN
    packets and sends OUT packets at times of its own choosing, and makes no
    control transfer meanwhile. [port] is the invariant of the driver in that
    environment, [rx] the stream of bytes still to be received (ring buffer,
    packet buffer and the bytes the host has not sent yet). *)
From S2P Require Import Prelude RingBuffer Machine Endpoint Controller EndpointPoll EndpointStream Cdc Descriptors StdReq UsbSerial Logic SerialPort.

(** ** The host *)
Definition IN_ready (ep : Z → bool → USB_EP_t) : bool := tst (EP_STATUS (ep 3 true)) USB_EP_BUSNACK0_bm.
Definition OUT_full (ep : Z → bool → USB_EP_t) : bool := tst (EP_STATUS (ep 4 false)) USB_EP_TRNCOMPL0_bm.
Definition SETUP_seen (ep : Z → bool → USB_EP_t) : bool := tst (EP_STATUS (ep 0 false)) USB_EP_SETUP_bm.

(** The OUT endpoint is left alone, or a packet of the host's bytes is stored
    in the empty buffer. *)
Definition rx_same (h h' : hw) : Prop :=
  eps h' 4 false = eps h 4 false ∧ bufs h' out_fifo = bufs h out_fifo ∧ host h' = host h.
Definition rx_packet (h h' : hw) (pkt : list Z) : Prop :=
  OUT_full (eps h) = false ∧ OUT_full (eps h') = true ∧
  host h = pkt ++ host h' ∧ (length pkt ≤ 64)%nat ∧
  EP_CNT (eps h' 4 false) = Z.of_nat (length pkt) ∧
  take (length pkt) (bufs h' out_fifo) = pkt ∧ length (bufs h' out_fifo) = 64%nat.

Record link_step (h h' : hw) : Prop := {
  ls_in : IN_ready (eps h) = true → IN_ready (eps h') = true;
  ls_buf : bufs h' in_fifo = bufs h in_fifo;
  ls_setup : SETUP_seen (eps h') = false;
  ls_rx : rx_same h h' ∨ ∃ pkt, rx_packet h h' pkt }.

Definition link_event (e : event) : Prop := ∃ f, e = EvHw f ∧ ∀ h, link_step h (f h).

(** A host that is never late: each event takes the IN packet, and sends a
    packet when there are bytes to send and the buffer is free. *)
Definition prompt_event (e : event) : Prop :=
  ∃ f, e = EvHw f ∧ ∀ h, IN_ready (eps (f h)) = true ∧
    (OUT_full (eps h) = false → host h ≠ [] → ∃ pkt, pkt ≠ [] ∧ rx_packet h (f h) pkt).
Definition prompt (s : mach) : Prop := Forall prompt_event (script s).

(** ** The driver's invariant *)

(** Bytes in the packet buffer that are not read yet. *)
Definition fifo_bytes (ff : Z → bool → Endpoint_FIFO_t) (ep : Z → bool → USB_EP_t)
    (bf : buffer → list Z) : list Z :=
  if OUT_full ep then
    drop (Z.to_nat (FIFO_Position (ff 4 false))) (take (Z.to_nat (EP_CNT (ep 4 false))) (bf out_fifo))
  else [].

(** [p] bytes wait in the IN buffer. *)
Record port_view (p : Z) (ds : Z) (oks : Z) (cdc : CDC_State_t) (ff : Z → bool → Endpoint_FIFO_t)
    (rb : RingBuffer_t) (ep : Z → bool → USB_EP_t) (bf : buffer → list Z) (hs : list Z)
    (es : list event) : Prop := {
  pv_state : ds = DEVICE_STATE_Configured;
  pv_send : oks ≠ 0;
  pv_baud : BaudRateBPS (LineEncoding cdc) ≠ 0;
  pv_in : ff 3 true = Endpoint_FIFO (Some in_fifo) 64 p;
  pv_p : 0 ≤ p < 64;
  pv_ready : 0 < p → IN_ready ep = true;
  pv_inbuf : length (bf in_fifo) = 64%nat;
  pv_out : FIFO_Data (ff 4 false) = Some out_fifo;
  pv_pos : if OUT_full ep
           then 0 ≤ FIFO_Position (ff 4 false) ≤ EP_CNT (ep 4 false) ∧ EP_CNT (ep 4 false) ≤ 64
           else FIFO_Position (ff 4 false) = 0;
  pv_outbuf : length (bf out_fifo) = 64%nat;
  pv_bytes : bytes (fifo_bytes ff ep bf ++ hs);
  pv_setup : SETUP_seen ep = false;
  pv_ring : wf rb;
  pv_size : Size rb = 5;
  pv_ringb : bytes (contents rb);
  pv_env : Forall link_event es }.

Definition port_at (p : Z) (s : mach) : Prop :=
  port_view p (DeviceState (fwst s)) (ok_to_send (fwst s)) (CDC (fwst s)) (FIFOs (fwst s))
    (USBtoUSART_Buffer (fwst s)) (eps (hwst s)) (bufs (hwst s)) (host (hwst s)) (script s).
Definition port (s : mach) : Prop := port_at 0 s.

Definition rx (s : mach) : list Z :=
  contents (USBtoUSART_Buffer (fwst s)) ++
  fifo_bytes (FIFOs (fwst s)) (eps (hwst s)) (bufs (hwst s)) ++ host (hwst s).

(** ** Basic steps *)

(** One event of the link. *)
Record polled (s s' : mach) : Prop := {
  po_fw : fwst s' = fwst s;
  po_trace : trace s' = trace s;
  po_script : length (script s) = S (length (script s'));
  po_sub : ∀ P, Forall P (script s) → Forall P (script s');
  po_hw : link_step (hwst s) (hwst s');
  po_scope : ∀ R, PreOrder R → Forall (moves R) (script s) → R (scopeBuf (hwst s)) (scopeBuf (hwst s'));
  po_prompt : prompt s →
    IN_ready (eps (hwst s')) = true ∧
    (OUT_full (eps (hwst s)) = false → host (hwst s) ≠ [] →
     ∃ pkt, pkt ≠ [] ∧ rx_packet (hwst s) (hwst s') pkt) }.

Lemma wp_link_poll Q B s :
  Forall link_event (script s) →
  (script s = [] → B s) → (∀ s', polled s s' → Q tt s') → wp poll Q B s.
Proof.
  intros Henv HB HQ. apply wp_poll.
  destruct (script s) as [|e es] eqn:Es; [by apply HB|].
  inversion Henv as [|? ? (f & -> & Hf) Hes]; subst. apply HQ. split; cbn; try done.
  - by rewrite Es.
  - rewrite Es. by inversion 1.
  - intros R _. rewrite Es. inversion 1 as [|? ? Hk ?]; subst. by apply Hk.
  - unfold prompt. rewrite Es. inversion 1 as [|? ? (g & Eg & Hg) ?]; subst. injection Eg as <-. apply Hg.
Qed.

Lemma port_polled p s s' : port_at p s → polled s s' →
  port_at p s' ∧ rx s' = rx s.
Proof.
  intros Hp [Hfw _ _ Hsub [] _ _]. unfold port_at, rx in *. rewrite Hfw. destruct Hp.
  destruct ls_rx0 as [(E4 & Eb & Eh)|(pkt & Hf & Hf' & Hh & Hlen & Hcnt & Htake & Hbl)].
  - assert (OUT_full (eps (hwst s')) = OUT_full (eps (hwst s))) as EO by (unfold OUT_full; by rewrite E4).
    assert (fifo_bytes (FIFOs (fwst s)) (eps (hwst s')) (bufs (hwst s')) =
      fifo_bytes (FIFOs (fwst s)) (eps (hwst s)) (bufs (hwst s))) as EF
      by (unfold fifo_bytes; by rewrite EO, E4, Eb).
    split; [split; auto; rewrite ?EO, ?EF, ?E4, ?Eh, ?Eb, ?ls_buf0; auto|by rewrite EF, Eh].
  - rewrite Hf in pv_pos0.
    assert (fifo_bytes (FIFOs (fwst s)) (eps (hwst s)) (bufs (hwst s)) = []) as E0
      by (unfold fifo_bytes; by rewrite Hf).
    assert (fifo_bytes (FIFOs (fwst s)) (eps (hwst s')) (bufs (hwst s')) = pkt) as E1.
    { unfold fifo_bytes. rewrite Hf', pv_pos0, Hcnt, Nat2Z.id, Htake. done. }
    rewrite E0, Hh in *. split.
    + split; auto; rewrite ?Hf', ?E1, ?ls_buf0; auto. rewrite pv_pos0, Hcnt. lia.
    + by rewrite E1.
Qed.

Lemma port_polled_sel p a s s' : port_at p s → polled (sel a s) s' → port_at p s' ∧ rx s' = rx s.
Proof. intros Hp Hs. exact (port_polled p _ _ (Hp : port_at p (sel a s)) Hs). Qed.

(** A byte has been received and not read yet; it has been or will be. *)
Definition avail (s : mach) : Prop := fifo_bytes (FIFOs (fwst s)) (eps (hwst s)) (bufs (hwst s)) ≠ [].
Definition coming (s : mach) : Prop := avail s ∨ OUT_full (eps (hwst s)) = false ∧ host (hwst s) ≠ [].

Lemma avail_polled s s' : polled s s' → avail s → avail s'.
Proof.
  intros Hs. unfold avail, fifo_bytes. rewrite (po_fw _ _ Hs).
  destruct (ls_rx _ _ (po_hw _ _ Hs)) as [(E4 & Eb & _)|(pkt & Hf & _)].
  - unfold OUT_full. by rewrite E4, Eb.
  - by rewrite Hf.
Qed.

Lemma coming_polled p s s' : port_at p s → polled s s' → prompt s → coming s → avail s'.
Proof.
  intros Hp Hs Hpr [Ha|[Hf Hh]]; [by apply (avail_polled s)|].
  destruct (po_prompt _ _ Hs Hpr) as [_ Hpk]. destruct (Hpk Hf Hh) as (pkt & Hne & _ & Hf' & _ & _ & Hc & Ht & _).
  apply pv_pos in Hp. rewrite Hf in Hp. unfold avail, fifo_bytes.
  by rewrite Hf', (po_fw _ _ Hs), Hp, Hc, Nat2Z.id, Ht.
Qed.

(** [s'] is [s] after [k] events in which no byte is received or lost. *)
Record after (k : nat) (s s' : mach) : Prop := {
  af_rx : rx s' = rx s;
  af_ring : USBtoUSART_Buffer (fwst s') = USBtoUSART_Buffer (fwst s);
  af_len : length (script s) = (k + length (script s'))%nat;
  af_sub : ∀ P, Forall P (script s) → Forall P (script s');
  af_scope : ∀ R, PreOrder R → Forall (moves R) (script s) → R (scopeBuf (hwst s)) (scopeBuf (hwst s'));
  af_coming : prompt s → coming s → coming s' }.

Lemma after_trans j k s1 s2 s3 : after j s1 s2 → after k s2 s3 → after (j + k) s1 s3.
Proof.
  intros [] []. split; [congruence|congruence|lia|auto|..].
  - intros R ? H. exact (transitivity (af_scope0 R _ H) (af_scope1 R _ (af_sub0 _ H))).
  - intros Hp Hc. apply af_coming1; [by apply af_sub0|auto].
Qed.

Lemma after_refl s : after 0 s s.
Proof. by split. Qed.

Lemma after_sel k a s s' : after k (sel a s) s' → after k s s'.
Proof. by intros []; split. Qed.

Lemma after_polled p a s s' : port_at p s → polled (sel a s) s' → port_at p s' ∧ after 1 s s'.
Proof.
  intros Hp Hs. destruct (port_polled_sel p a s s' Hp Hs) as [Hp' Hrx].
  split; [done|]. split; [done|by rewrite (po_fw _ _ Hs)|apply Hs|apply Hs|apply Hs|].
  intros Hpr Hc. left. exact (coming_polled p (sel a s) s' Hp Hs Hpr Hc).
Qed.

(** Waiting outcomes in this file do not depend on the state in which the
    environment ends. *)
Definition stuck (P : Prop) (_ : mach) : Prop := P.

Lemma wp_IsINReady_tx p Q (P : Prop) s : SelectedEndpoint (fwst s) = 131 → port_at p s →
  (script s = [] → P) →
  (∀ s', polled (sel 131 s) s' → Q (IN_ready (eps (hwst s'))) s') →
  wp Endpoint_IsINReady Q (stuck P) s.
Proof.
  intros Ha Hp HP HQ. unfold Endpoint_IsINReady. wsteps. rewrite Ha. seladdr.
  apply wp_link_poll; [apply Hp|done|]. intros s' Hs.
  assert (SelectedHandle (fwst s') = (3, true)) by by rewrite (po_fw _ _ Hs).
  wsteps. by apply HQ.
Qed.

Lemma wp_IsSETUP_quiet p Q (P : Prop) s : SelectedEndpoint (fwst s) = 0 → port_at p s →
  (script s = [] → P) →
  (∀ s', polled (sel 0 s) s' → Q false s') →
  wp Endpoint_IsSETUPReceived Q (stuck P) s.
Proof.
  intros Ha Hp HP HQ. unfold Endpoint_IsSETUPReceived, received. wsteps. rewrite Ha. seladdr.
  apply wp_link_poll; [apply Hp|done|]. intros s' Hs.
  assert (SelectedHandle (fwst s') = (0, false)) by by rewrite (po_fw _ _ Hs).
  wsteps. destruct (port_polled_sel p _ _ _ Hp Hs) as [Hp' _]. apply pv_setup in Hp'.
  unfold SETUP_seen in Hp'. cbn. rewrite Hp'. wstep. by apply HQ.
Qed.

(** ** The tasks that run in every loop *)

(** The packet that [ClearIN] hands over. *)
Definition packet (n : Z) (s : mach) : list Z := take (Z.to_nat n) (bufs (hwst s) in_fifo).

Lemma IN_ready_upd ep p e : p ≠ (3, true) → IN_ready (upd2 ep p e) = IN_ready ep.
Proof. intros. unfold IN_ready. by rewrite upd2_ne. Qed.
Lemma OUT_full_upd ep p e : p ≠ (4, false) → OUT_full (upd2 ep p e) = OUT_full ep.
Proof. intros. unfold OUT_full. by rewrite upd2_ne. Qed.
Lemma SETUP_seen_upd ep p e : p ≠ (0, false) → SETUP_seen (upd2 ep p e) = SETUP_seen ep.
Proof. intros. unfold SETUP_seen. by rewrite upd2_ne. Qed.
Lemma fifo_bytes_ff ff ep bf p q : p ≠ (4, false) → fifo_bytes (upd2 ff p q) ep bf = fifo_bytes ff ep bf.
Proof. intros. unfold fifo_bytes. by rewrite upd2_ne. Qed.
Lemma fifo_bytes_ep ff ep bf p e : p ≠ (4, false) → fifo_bytes ff (upd2 ep p e) bf = fifo_bytes ff ep bf.
Proof. intros. unfold fifo_bytes, OUT_full. by rewrite upd2_ne. Qed.
Lemma fifo_bytes_bf ff ep bf l : fifo_bytes ff ep (upd bf in_fifo l) = fifo_bytes ff ep bf.
Proof. unfold fifo_bytes. by rewrite upd_ne. Qed.
#[local] Hint Rewrite IN_ready_upd OUT_full_upd SETUP_seen_upd fifo_bytes_ff fifo_bytes_ep fifo_bytes_bf
  using discriminate : mach.

(** Tables that differ from others in the IN endpoint only. *)
Definition same_but_tx {B} (f f' : Z → bool → B) : Prop := ∀ n d, (n, d) ≠ (3, true) → f' n d = f n d.

Lemma fifo_bytes_tx ff ff' ep ep' bf bf' : same_but_tx ff ff' → same_but_tx ep ep' →
  bf' out_fifo = bf out_fifo → fifo_bytes ff' ep' bf' = fifo_bytes ff ep bf.
Proof. intros Hf He Hb. unfold fifo_bytes, OUT_full. by rewrite Hf, He, Hb. Qed.

Lemma port_tx p p' ds oks cdc ff ff' rb ep ep' bf bf' hs es :
  port_view p ds oks cdc ff rb ep bf hs es →
  same_but_tx ff ff' → same_but_tx ep ep' → bf' out_fifo = bf out_fifo →
  length (bf' in_fifo) = 64%nat → ff' 3 true = Endpoint_FIFO (Some in_fifo) 64 p' →
  0 ≤ p' < 64 → (0 < p' → IN_ready ep' = true) →
  port_view p' ds oks cdc ff' rb ep' bf' hs es.
Proof.
  intros [] Hf He Hb Hl Ef Hp' Hr. unfold OUT_full, SETUP_seen in *.
  split; unfold OUT_full, SETUP_seen; rewrite ?Hf, ?He, ?Hb by discriminate; auto.
  by rewrite (fifo_bytes_tx ff ff' ep ep' bf bf').
Qed.

Lemma same_but_tx_refl {B} (f : Z → bool → B) : same_but_tx f f.
Proof. done. Qed.
Lemma same_but_tx_upd {B} (f f' : Z → bool → B) b : same_but_tx f f' → same_but_tx f (upd2 f' (3, true) b).
Proof. intros H n d Hn. rewrite upd2_ne by done. by apply H. Qed.
Create HintDb port.
#[local] Hint Resolve same_but_tx_refl same_but_tx_upd : port.

Lemma wp_ClearIN_tx p Q B s :
  SelectedHandle (fwst s) = (3, true) → SelectedFIFO (fwst s) = (3, true) → port_at p s →
  (∀ s', port_at 0 s' → after 0 s s' →
         trace s' = trace s ++ [OPacket 3 (packet p s)] → Q tt s') →
  wp Endpoint_ClearIN Q B s.
Proof.
  intros Hh Hf Hp HQ. unfold Endpoint_ClearIN. wsteps. rewrite Hh. cbn [when snd]. wsteps.
  pose proof (pv_in _ _ _ _ _ _ _ _ _ _ Hp) as Hin. apply HQ.
  - apply (port_tx p) with (1 := Hp); cbn; auto with port; try lia.
    + apply Hp.
    + autorewrite with mach. by rewrite Hin.
  - by split.
  - cbn. unfold pending_packet, packet. rewrite Hf. cbn. by rewrite Hin.
Qed.

Lemma CDC_active p s : port_at p s → CDC_inactive s = Ok false s.
Proof.
  intros []. unfold CDC_inactive, mbind, M_bind, get_fw, gets, mret, M_ret.
  rewrite pv_state0. by rewrite (proj2 (Z.eqb_neq _ _) pv_baud0).
Qed.

Definition flushed (p : Z) (s : mach) : list obs := if p =? 0 then [] else [OPacket 3 (packet p s)].

Lemma wp_Flush p Q B s : port_at p s →
  (∀ s', port_at 0 s' → after 0 s s' → trace s' = trace s ++ flushed p s → Q 0 s') →
  wp CDC_Device_Flush Q B s.
Proof.
  intros Hp HQ. unfold CDC_Device_Flush. apply wp_bind. eapply wp_Ok; [by apply (CDC_active p)|].
  pose proof (pv_in _ _ _ _ _ _ _ _ _ _ Hp) as Hin. pose proof (pv_p _ _ _ _ _ _ _ _ _ _ Hp) as Hr.
  wsteps. seladdr. unfold Endpoint_BytesInEndpoint. wsteps.
  change (tst (SelectedEndpoint (fwst (sel 131 s))) ENDPOINT_DIR_IN) with true. cbn iota. wsteps.
  unfold flushed in HQ. cbn. rewrite Hin. cbn.
  destruct (Z.eqb_spec p 0) as [->|Hp0]; wsteps.
  - apply HQ; [done|by split|by rewrite app_nil_r].
  - unfold Endpoint_IsReadWriteAllowed. wsteps. cbn. rewrite Hin. cbn.
    rewrite (proj2 (Z.ltb_lt p 64)) by lia. cbn.
    apply wp_bind, (wp_ClearIN_tx p); [done|done|done|]. intros s' H1 [] H3. wsteps. by apply HQ.
Qed.

(** An endpoint address does not matter to the port. *)
Lemma after_sel_r k a s s' : after k s s' → after k s (sel a s').
Proof. by intros []; split. Qed.

Lemma wp_CDC_USBTask p Q (P : Prop) s : port_at p s →
  (script s = [] → P) →
  (∀ s', port_at 0 s' → after 1 s s' → trace s' = trace s ++ flushed p s → Q tt s') →
  wp CDC_Device_USBTask Q (stuck P) s.
Proof.
  intros Hp HP HQ. unfold CDC_Device_USBTask. apply wp_bind.
  eapply wp_Ok; [by apply (CDC_active p)|]. wsteps. seladdr.
  apply (wp_IsINReady_tx p); [done|done|done|].
  intros s1 Hs1. destruct (after_polled p _ _ _ (Hp : port_at p (sel 131 s)) Hs1) as [Hp1 Ha1].
  apply after_sel in Ha1.
  assert (flushed p s1 = flushed p s) as Hfl.
  { unfold flushed, packet. by rewrite (ls_buf _ _ (po_hw _ _ Hs1)). }
  assert (trace s1 = trace s) as Ht by apply (po_trace _ _ Hs1).
  destruct (IN_ready (eps (hwst s1))) eqn:Er; cbn [when].
  - apply wp_bind, (wp_Flush p); [done|]. intros s2 Hp2 Ha2 Ht2. wsteps. apply HQ; [done| |].
    + exact (after_trans 1 0 _ _ _ Ha1 Ha2).
    + by rewrite Ht2, Ht, Hfl.
  - assert (p = 0) as ->.
    { destruct Hp1. destruct (decide (0 < p)) as [Hlt|]; [|lia]. by rewrite pv_ready0 in Er. }
    wsteps. apply HQ; [done|done|]. by rewrite Ht, app_nil_r.
Qed.

Lemma wp_USB_USBTask `{Platform} p Q (P : Prop) s : port_at p s →
  (script s = [] → P) →
  (∀ s', port_at p s' → after 1 s s' → trace s' = trace s → packet p s' = packet p s → Q tt s') →
  wp USB_USBTask Q (stuck P) s.
Proof.
  intros Hp HP HQ. unfold USB_USBTask, USB_DeviceTask. wsteps.
  rewrite (pv_state _ _ _ _ _ _ _ _ _ _ Hp). change (_ =? _) with false. cbn iota.
  unfold Endpoint_GetCurrentEndpoint. wsteps. seladdr.
  apply (wp_IsSETUP_quiet p); [done|done|done|].
  intros s1 Hs1. destruct (after_polled p _ _ _ (Hp : port_at p (sel 0 s)) Hs1) as [Hp1 Ha1].
  cbn [when]. wsteps. apply HQ; [done| | |].
  - apply after_sel_r. exact (after_sel _ _ _ _ Ha1).
  - apply (po_trace _ _ Hs1).
  - unfold packet. cbn. by rewrite (ls_buf _ _ (po_hw _ _ Hs1)).
Qed.

Lemma wp_tasks `{Platform} {A} p (k : M A) Q (P : Prop) s : port_at p s →
  ((length (script s) < 2)%nat → P) →
  (∀ s', port_at 0 s' → after 2 s s' → trace s' = trace s ++ flushed p s → wp k Q (stuck P) s') →
  wp CDC_Device_USBTask (λ _, wp (USB_USBTask;; k) Q (stuck P)) (stuck P) s.
Proof.
  intros Hp HP HQ. apply (wp_CDC_USBTask p); [done|intros E; apply HP; rewrite E; cbn; lia|].
  intros s1 Hp1 Ha1 Ht1. apply wp_bind, (wp_USB_USBTask 0); [done| |].
  - intros E. apply HP. rewrite (af_len _ _ _ Ha1), E. cbn. lia.
  - intros s2 Hp2 Ha2 Ht2 _. apply HQ; [done|exact (after_trans 1 1 _ _ _ Ha1 Ha2)|congruence].
Qed.

(** ** Sending *)
Lemma may_send_port p s : port_at p s → may_send s = Ok true s.
Proof.
  intros []. unfold may_send, mbind, M_bind, get_fw, gets, mret, M_ret.
  rewrite pv_state0. by rewrite (proj2 (Z.eqb_neq _ _) pv_send0).
Qed.

Lemma wp_Write_8_tx p x Q B s :
  SelectedFIFO (fwst s) = (3, true) → port_at p s → p + 1 < 64 → IN_ready (eps (hwst s)) = true →
  (∀ s', port_at (p + 1) s' → after 0 s s' → trace s' = trace s → packet (p + 1) s' = packet p s ++ [u8 x] →
         IN_ready (eps (hwst s')) = true → SelectedFIFO (fwst s') = (3, true) →
         scopeBuf (hwst s') = scopeBuf (hwst s) → Q tt s') →
  wp (Endpoint_Write_8 x) Q B s.
Proof.
  intros Hf Hp Hlt Hr HQ. pose proof (pv_in _ _ _ _ _ _ _ _ _ _ Hp) as Hin.
  pose proof (pv_p _ _ _ _ _ _ _ _ _ _ Hp) as Hp0.
  pose proof (pv_inbuf _ _ _ _ _ _ _ _ _ _ Hp) as Hlen.
  unfold Endpoint_Write_8. wsteps. cbn [fst snd]. rewrite Hin. cbn [FIFO_Data FIFO_Position]. unfold lift.
  wsteps. rewrite wr_Some by lia. wsteps. rewrite u8_small by (unfold byte; lia).
  apply HQ; cbn; autorewrite with mach; try done.
  - apply (port_tx p) with (1 := Hp); cbn; auto with port; try lia; autorewrite with mach; try done.
    + by rewrite length_insert.
    + by rewrite Hin.
  - unfold packet. cbn. rewrite upd_eq. replace (Z.to_nat (p + 1)) with (S (Z.to_nat p)) by lia.
    rewrite (take_S_r _ _ (u8 x)) by (apply list_lookup_insert_eq; lia). by rewrite take_insert_ge by lia.
Qed.

(** [m] sends [out]; a host that is never late lets it finish within [K]
    events. *)
Definition sends (m : M unit) (out : list obs) (K : nat) : Prop :=
  ∀ s, port s → wp m (λ _ s', port s' ∧ trace s' = trace s ++ out ∧
                              ∃ k, after k s s' ∧ (prompt s → (k ≤ K)%nat))
                     (stuck (prompt s → (length (script s) < K)%nat)) s.

Lemma wp_SendByte x Q B s : port_at 0 s → IN_ready (eps (hwst s)) = true →
  (∀ s', port_at 1 s' → after 0 s s' → trace s' = trace s → packet 1 s' = [u8 x] →
         IN_ready (eps (hwst s')) = true → Q 0 s') →
  wp (CDC_Device_SendByte x) Q B s.
Proof.
  intros Hp Hr HQ. unfold CDC_Device_SendByte. apply wp_bind. eapply wp_Ok; [by apply (CDC_active 0)|].
  wsteps. seladdr. unfold Endpoint_IsReadWriteAllowed. wsteps. cbn [fst snd FIFOs fwst sel].
  cbn. rewrite (pv_in _ _ _ _ _ _ _ _ _ _ Hp). cbn. wsteps.
  apply (wp_Write_8_tx 0); [done|done|lia|done|].
  intros s' Hp' Ha Ht Hpk Hr' _ _. wsteps. apply HQ; try done. by apply after_sel in Ha.
Qed.

Lemma put_char_sends `{Platform} c : sends (USB_serial_put_char c) [OPacket 3 [u8 c]] 3.
Proof.
  intros s Hp. unfold USB_serial_put_char.
  apply (wp_iter_poll (λ (need : bool) s1, port s1 ∧
    trace s1 = trace s ++ (if need then [] else [OPacket 3 [u8 c]]) ∧
    ∃ k, after k s s1 ∧ (prompt s → k = if need then 0%nat else 3%nat))).
  2: { split; [done|]. rewrite app_nil_r. split; [done|]. exists 0%nat. by split; [apply after_refl|]. }
  intros need s1 (Hp1 & Ht1 & k & Ha1 & Hk). apply wp_bind.
  eapply wp_Ok; [by apply (may_send_port 0)|]. cbn beta.
  destruct need; cbn [andb].
  2: { wsteps. split; [done|]. split; [done|]. exists k. split; [done|]. intros Hpr. rewrite Hk; [lia|done]. }
  wsteps. seladdr. apply (wp_IsINReady_tx 0); [done|done| |].
  { cbn. intros E Hpr. rewrite (af_len _ _ _ Ha1), (Hk Hpr), E. cbn. lia. }
  intros s2 Hs2. destruct (after_polled 0 _ _ _ (Hp1 : port_at 0 (sel 131 s1)) Hs2) as [Hp2 Ha2].
  apply after_sel in Ha2. assert (trace s2 = trace s1) as Ht2 by apply (po_trace _ _ Hs2).
  assert (prompt s → IN_ready (eps (hwst s2)) = true) as Hpr2.
  { intros Hpr. apply (po_prompt _ _ Hs2). apply (af_sub _ _ _ Ha1). exact Hpr. }
  pose proof (af_len _ _ _ Ha1) as Hl1. pose proof (af_len _ _ _ Ha2) as Hl2.
  destruct (IN_ready (eps (hwst s2))) eqn:Er.
  - apply wp_bind, wp_bind, wp_SendByte; [done|done|]. intros s3 Hp3 Ha3 Ht3 Hk3 Hr3. wsteps.
    pose proof (af_len _ _ _ Ha3) as Hl3.
    apply (wp_tasks 1); [done|intros Hl Hpr; specialize (Hk Hpr); lia|].
    intros s4 Hp4 Ha4 Ht4. wsteps. pose proof (af_len _ _ _ Ha4) as Hl4. split; [split; [done|]|lia].
    split; [rewrite Ht4, Ht3, Ht2, Ht1; unfold flushed; by rewrite Hk3, app_nil_r|].
    exists (k + (1 + (0 + 2)))%nat. split; [by repeat (eapply after_trans; [eassumption|])|].
    intros Hpr. by rewrite (Hk Hpr).
  - wsteps. apply (wp_tasks 0); [done|intros _ Hpr; by specialize (Hpr2 Hpr)|].
    intros s4 Hp4 Ha4 Ht4. wsteps. pose proof (af_len _ _ _ Ha4) as Hl4. split; [split; [done|]|lia].
    split; [by rewrite Ht4, Ht2, Ht1, !app_nil_r|].
    exists (k + (1 + 2))%nat. split; [by repeat (eapply after_trans; [eassumption|])|].
    intros Hpr. by specialize (Hpr2 Hpr).
Qed.

Lemma wp_WaitUntilReady_tx p Q (P : Prop) s :
  SelectedEndpoint (fwst s) = 131 → port_at p s → IN_ready (eps (hwst s)) = true →
  (script s = [] → P) →
  (∀ s', polled (sel 131 s) s' → IN_ready (eps (hwst s')) = true → Q 0 s') →
  wp Endpoint_WaitUntilReady Q (stuck P) s.
Proof.
  intros Ha Hp Hr HP HQ. unfold Endpoint_WaitUntilReady, USB_Device_GetFrameNumber. wsteps.
  apply (wp_iter_poll (λ _ s1, s1 = s)); [|done]. intros [t f] s1 ->.
  unfold wait_ready_body, Endpoint_GetEndpointDirection. wsteps. rewrite Ha.
  change (131 .& ENDPOINT_DIR_IN =? ENDPOINT_DIR_IN) with true. cbn iota.
  apply (wp_IsINReady_tx p); [done|done|done|]. intros s' Hs.
  rewrite (ls_in _ _ (po_hw _ _ Hs) Hr). wsteps. apply HQ; [done|].
  exact (ls_in _ _ (po_hw _ _ Hs) Hr).
Qed.

Lemma wp_rw_loop buff data Q (P : Prop) s :
  SelectedFIFO (fwst s) = (3, true) → port_at 0 s → IN_ready (eps (hwst s)) = true →
  (length data ≤ 63)%nat → bytes data → reads buff (scopeBuf (hwst s)) data →
  (∀ s', port_at (Z.of_nat (length data)) s' → after 0 s s' → trace s' = trace s →
         packet (Z.of_nat (length data)) s' = data → Q (0, (), None) s') →
  wp (iter (length data) (rw_body Endpoint_ClearIN move_LE (transfer_write buff) None)
       (RWVars () 0 (Z.of_nat (length data)) 0)) Q (stuck P) s.
Proof.
  intros Hf Hp Hr Hlen Hb Hrd HQ.
  apply (wp_iter (λ v s1, ∃ j : nat, (j ≤ length data)%nat ∧
      v = RWVars () (Z.of_nat j) (Z.of_nat (length data - j)) (Z.of_nat j) ∧
      port_at (Z.of_nat j) s1 ∧ after 0 s s1 ∧ trace s1 = trace s ∧
      packet (Z.of_nat j) s1 = take j data ∧ SelectedFIFO (fwst s1) = (3, true) ∧
      IN_ready (eps (hwst s1)) = true ∧ scopeBuf (hwst s1) = scopeBuf (hwst s))
    (λ v s1, Z.to_nat (rw_Length v) + length (script s1))%nat); [|exists 0%nat|cbn; lia].
  2: { replace (length data - 0)%nat with (length data) by lia.
       split; [lia|]. pose proof (after_refl s). done. }
  intros v s1 (j & Hj & -> & Hp1 & Ha1 & Ht1 & Hpk & Hf1 & Hr1 & Hm1). unfold rw_body. cbn [rw_Length].
  destruct (Z.eqb_spec (Z.of_nat (length data - j)) 0) as [E|E].
  - wsteps. replace j with (length data) in * by lia. rewrite take_ge in Hpk by lia. by apply HQ.
  - destruct (lookup_lt_is_Some_2 data j) as [x Hx]; [lia|].
    pose proof (Forall_lookup_1 _ _ _ _ Hb Hx) as Hbx. cbn beta in Hbx.
    unfold Endpoint_IsReadWriteAllowed. wsteps. cbn [fst snd].
    rewrite (pv_in _ _ _ _ _ _ _ _ _ _ Hp1). cbn [FIFO_Position FIFO_Length].
    rewrite (proj2 (Z.ltb_lt _ _)) by lia. cbn [negb]. unfold transfer_write. cbn. wsteps.
    eapply wp_Ok; [by apply Hrd|]. apply (wp_Write_8_tx (Z.of_nat j)); [done|done|lia|done|].
    intros s2 Hp2 Ha2 Ht2 Hpk2 Hr2 Hf2 Hm2. wsteps.
    rewrite !u16_small by (unfold word16; lia). rewrite u8_small in Hpk2 by done.
    pose proof (af_len _ _ _ Ha2) as Hl2. cbn in Hl2 |- *. split; [|lia].
    exists (S j). unfold move_LE.
    replace (Z.of_nat (S j)) with (Z.of_nat j + 1) by lia.
    split; [lia|]. split; [f_equal; lia|]. split; [done|]. split; [exact (after_trans 0 0 _ _ _ Ha1 Ha2)|].
    split; [congruence|]. split; [by rewrite Hpk2, Hpk, (take_S_r _ _ x)|]. by rewrite Hm2.
Qed.

(** The sample buffer holds [m] when the bytes are copied. *)
Lemma wp_SendData R buff len (data : list Z → list Z) Q (P : Prop) s : PreOrder R →
  port_at 0 s → IN_ready (eps (hwst s)) = true → Forall (moves R) (script s) → (len ≤ 63)%nat →
  (∀ m, R (scopeBuf (hwst s)) m → length (data m) = len ∧ bytes (data m) ∧ reads buff m (data m)) →
  (script s = [] → P) →
  (∀ m s', R (scopeBuf (hwst s)) m → R m (scopeBuf (hwst s')) → port_at (Z.of_nat len) s' → after 1 s s' →
     trace s' = trace s → packet (Z.of_nat len) s' = data m → Q 0 s') →
  wp (CDC_Device_SendData buff (Z.of_nat len)) Q (stuck P) s.
Proof.
  intros HR Hp Hr Hk Hlen Hd HP HQ. unfold CDC_Device_SendData. apply wp_bind.
  eapply wp_Ok; [by apply (CDC_active 0)|]. wsteps. seladdr.
  unfold Endpoint_Write_Stream_LE, Template_Endpoint_RW. apply wp_bind.
  apply (wp_WaitUntilReady_tx 0); [done|done|done|done|]. intros s1 Hs1 Hr1.
  destruct (after_polled 0 _ _ _ (Hp : port_at 0 (sel 131 s)) Hs1) as [Hp1 Ha1].
  apply after_sel in Ha1. cbn [Z.eqb negb]. unfold offset_LE. rewrite Nat2Z.id.
  pose proof (af_scope _ _ _ Ha1 R HR Hk) as Hm.
  destruct (Hd _ Hm) as (Hl & Hb & Hrd). rewrite <-Hl.
  apply wp_rw_loop; try done.
  - by rewrite (po_fw _ _ Hs1).
  - by rewrite Hl.
  - intros s2 Hp2 Ha2 Ht2 Hpk. wsteps. rewrite Hl in Hp2, Hpk. apply (HQ (scopeBuf (hwst s1))); try done.
    + exact (af_scope _ _ _ Ha2 R HR (af_sub _ _ _ Ha1 _ Hk)).
    + exact (after_trans 1 0 _ _ _ Ha1 Ha2).
    + rewrite Ht2. apply (po_trace _ _ Hs1).
Qed.

(** The packets of a buffer. *)
Fixpoint split_at (fuel : nat) (l : list Z) : list (list Z) :=
  match fuel, l with
  | S fuel', _ :: _ => take 63 l :: split_at fuel' (drop 63 l)
  | _, _ => []
  end.
Definition packets (l : list Z) : list (list Z) := split_at (length l) l.

Lemma split_at_enough n m l : (length l ≤ n)%nat → (length l ≤ m)%nat → split_at n l = split_at m l.
Proof.
  revert m l. induction n as [|n IH]; intros [|m] [|x l] Hn Hm; cbn in *; try done; try lia.
  f_equal. apply IH; rewrite length_drop; lia.
Qed.

Lemma packets_nil : packets [] = [].
Proof. done. Qed.

Lemma packets_cons l : l ≠ [] → packets l = take 63 l :: packets (drop 63 l).
Proof.
  intros Hl. unfold packets. destruct l as [|x l]; [done|]. cbn. f_equal.
  apply split_at_enough; rewrite length_drop; lia.
Qed.

Lemma packets_concat l : concat (packets l) = l.
Proof.
  unfold packets. assert (length l ≤ length l)%nat as Hn by lia. revert Hn.
  generalize (length l) at 2 3 as n. intros n. revert l. induction n as [|n IH]; intros [|x l] Hn; cbn in *; try done; [lia|].
  rewrite IH by (rewrite length_drop; lia). f_equal. apply take_drop.
Qed.

Lemma packets_size l : Forall (λ p, (0 < length p ≤ 63)%nat) (packets l).
Proof.
  unfold packets. generalize (length l) as n. intros n. revert l.
  induction n as [|n IH]; intros [|x l]; cbn; try constructor; [cbn; rewrite length_take; lia|apply IH].
Qed.

(** Packets of which all but the last are full are those of their
    concatenation. *)
Lemma packets_full ps p : Forall (λ q, length q = 63%nat) ps → (0 < length p ≤ 63)%nat →
  packets (concat (ps ++ [p])) = ps ++ [p].
Proof.
  intros Hps Hp. induction Hps as [|q ps Hq _ IH]; cbn [concat app].
  - rewrite app_nil_r, packets_cons by (by intros ->; cbn in Hp; lia). by rewrite take_ge, drop_ge by lia.
  - rewrite packets_cons by (by intros E; apply (f_equal length) in E; rewrite length_app, Hq in E; cbn in E; lia).
    by rewrite take_app_length', drop_app_length', IH.
Qed.

Lemma length_full ps : Forall (λ q : list Z, length q = 63%nat) ps → length (concat ps) = (63 * length ps)%nat.
Proof. induction 1 as [|q ps Hq _ IH]; [done|]. cbn. rewrite length_app, IH, Hq. lia. Qed.

(** The number of packets that [n] bytes take. *)
Definition npackets (n : nat) : nat := ((n + 62) / 63)%nat.
Arguments npackets : simpl never.

Lemma packets_count l : length (packets l) = npackets (length l).
Proof.
  remember (length l) as n eqn:Hn. revert l Hn. induction (lt_wf n) as [n _ IH]. intros l Hn.
  destruct (decide (l = [])) as [->|Hl]; [by subst|]. rewrite packets_cons by done. cbn [length].
  assert (0 < n)%nat by (subst; destruct l; [done|cbn; lia]).
  rewrite (IH (n - 63)%nat) by (rewrite ?length_drop; lia). unfold npackets. destruct (decide (63 ≤ n)%nat).
  - replace (n + 62)%nat with (n - 63 + 62 + 1 * 63)%nat by lia. rewrite Nat.div_add by done. lia.
  - replace (n - 63 + 62)%nat with 62%nat by lia. change (62 / 63)%nat with 0%nat. apply (Nat.div_unique _ _ _ (n - 1)); lia.
Qed.

Section sending.
Context `{Platform} (R : relation (list Z)) `{!PreOrder R} (buff : Z → M Z) (val : list Z → nat → Z) (n : nat).

(** The next packet from offset [off], read from the buffer [m]. *)
Definition chunk_length (off : nat) : nat := 63 `min` (n - off).
Definition chunk (m : list Z) (off : nat) : list Z := map (val m) (seq off (chunk_length off)).

Lemma length_chunk m off : length (chunk m off) = chunk_length off.
Proof. unfold chunk. by rewrite length_map, length_seq. Qed.

Lemma chunk_reads m0 m off : yields R buff val m0 n → R m0 m →
  bytes (chunk m off) ∧ reads (λ p, buff (Z.of_nat off + p)) m (chunk m off).
Proof.
  intros Hy Hm. assert (∀ i x, chunk m off !! i = Some x → (off + i < n)%nat ∧ x = val m (off + i)) as Hx.
  { intros i x. unfold chunk. rewrite list_lookup_fmap. intros (k & Hk & ->)%fmap_Some.
    apply lookup_seq in Hk as [-> Hi]. unfold chunk_length in Hi. split; [lia|done]. }
  split.
  - apply Forall_lookup. intros i x Hi. destruct (Hx i x Hi) as [Hlt ->].
    by apply (Hy (off + i)%nat m).
  - intros i x s Hs Hi. destruct (Hx i x Hi) as [Hlt ->]. rewrite <-Nat2Z.inj_add. by apply (Hy (off + i)%nat m).
Qed.

(** One iteration of the loop: the next packet goes out, or the endpoint was
    not free. *)
Lemma wp_put_chunk off s :
  port s → Forall (moves R) (script s) → yields R buff val (scopeBuf (hwst s)) n →
  Z.of_nat n < 65536 → (off < n)%nat →
  let off' := (off + chunk_length off)%nat in
  wp (put_buf_body buff (Z.of_nat off, Z.of_nat (n - off)))
    (λ r s', port s' ∧
      ((r = inl (Z.of_nat off, Z.of_nat (n - off)) ∧ trace s' = trace s ∧ after 3 s s' ∧ ¬ prompt s) ∨
       ∃ m, R (scopeBuf (hwst s)) m ∧ R m (scopeBuf (hwst s')) ∧
        r = inl (Z.of_nat off', Z.of_nat (n - off')) ∧
        trace s' = trace s ++ [OPacket 3 (chunk m off)] ∧ after 4 s s'))
    (stuck (prompt s → (length (script s) < 4)%nat)) s.
Proof.
  intros Hp Hks Hy Hlen Hoff off'. unfold put_buf_body. apply wp_bind.
  eapply wp_Ok; [by apply (may_send_port 0)|]. cbn beta. cbn [andb].
  assert (chunk_length off = 63 `min` (n - off))%nat as Hcl by done.
  rewrite (proj2 (Z.gtb_lt _ _)) by lia. cbn iota.
  wsteps. seladdr. apply (wp_IsINReady_tx 0); [done|done|cbn; intros -> _; cbn; lia|].
  intros s2 Hs2. destruct (after_polled 0 _ _ _ (Hp : port_at 0 (sel 131 s)) Hs2) as [Hp2 Ha2].
  apply after_sel in Ha2. assert (trace s2 = trace s) as Ht2 by apply (po_trace _ _ Hs2).
  pose proof (af_len _ _ _ Ha2) as Hl2. pose proof (af_scope _ _ _ Ha2 R _ Hks) as Hm2.
  destruct (IN_ready (eps (hwst s2))) eqn:Er.
  - apply wp_bind, wp_bind.
    replace (Z.of_nat (n - off) `min` (CDC_RX_EPSIZE - 1)) with (Z.of_nat (chunk_length off))
      by (change (CDC_RX_EPSIZE - 1) with 63; lia).
    apply (wp_SendData R _ _ (λ m, chunk m off)); [done|done|done|by apply (af_sub _ _ _ Ha2)|lia| | |].
    + intros m Hm. split; [apply length_chunk|]. eapply chunk_reads; [exact Hy|]. by transitivity (scopeBuf (hwst s2)).
    + intros E _. rewrite Hl2, E. cbn. lia.
    + intros m s3 Hm Hm3 Hp3 Ha3 Ht3 Hk3. wsteps. pose proof (af_len _ _ _ Ha3) as Hl3.
      apply (wp_tasks (Z.of_nat (chunk_length off))); [done|intros Hl _; lia|].
      intros s4 Hp4 Ha4 Ht4. wsteps. split; [done|]. right. exists m. split_and!.
      * by transitivity (scopeBuf (hwst s2)).
      * exact (transitivity Hm3 (af_scope _ _ _ Ha4 R _ (af_sub _ _ _ Ha3 _ (af_sub _ _ _ Ha2 _ Hks)))).
      * unfold off'. rewrite u16_small by (unfold word16; lia). f_equal. f_equal; lia.
      * rewrite Ht4, Ht3, Ht2. unfold flushed. rewrite (proj2 (Z.eqb_neq _ _)) by lia. by rewrite Hk3.
      * exact (after_trans 1 3 _ _ _ Ha2 (after_trans 1 2 _ _ _ Ha3 Ha4)).
  - wsteps. assert (¬ prompt s) as Hnp.
    { intros Hpr. destruct (po_prompt _ _ Hs2 Hpr) as [E _]. congruence. }
    apply (wp_tasks 0); [done|done|]. intros s4 Hp4 Ha4 Ht4. wsteps. split; [done|]. left.
    rewrite Ht4, Ht2, app_nil_r. split; [done|]. split; [done|].
    split; [exact (after_trans 1 2 _ _ _ Ha2 Ha4)|done].
Qed.

(** What has been sent when the loop has come to offset [off]: full packets,
    or everything. *)
Definition sent_to (s : mach) (off : nat) (ps : list (list Z)) (s1 : mach) : Prop :=
  length (concat ps) = off ∧ (off < n → Forall (λ p, length p = 63) ps)%nat ∧ packets (concat ps) = ps ∧
  snapshots R val (scopeBuf (hwst s)) 0 ps (scopeBuf (hwst s1)) ∧
  trace s1 = trace s ++ map (OPacket 3) ps.

Lemma sent_next s off ps s1 m s2 : sent_to s off ps s1 → (off < n)%nat →
  R (scopeBuf (hwst s1)) m → R m (scopeBuf (hwst s2)) → trace s2 = trace s1 ++ [OPacket 3 (chunk m off)] →
  sent_to s (off + chunk_length off) (ps ++ [chunk m off]) s2.
Proof.
  intros (Hl & Hf & Hpk & Hsn & Ht) Hoff Hm Hm2 Ht2. pose proof (length_chunk m off) as Hcl.
  unfold chunk_length in Hcl |- *. specialize (Hf Hoff). split_and!.
  - rewrite concat_app, length_app, Hl. cbn [concat]. rewrite app_nil_r. lia.
  - intros Hlt. apply Forall_app. split; [done|]. apply Forall_singleton. lia.
  - apply packets_full; [done|]. lia.
  - eapply snapshots_snoc; [done|exact Hsn|exact Hm| |exact Hm2]. by rewrite Hl, Hcl.
  - by rewrite Ht2, Ht, map_app, app_assoc.
Qed.

Lemma put_buf_snapshots s :
  port s → Forall (moves R) (script s) → yields R buff val (scopeBuf (hwst s)) n → Z.of_nat n < 65536 →
  wp (USB_serial_put_buf buff (Z.of_nat n))
    (λ _ s', port s' ∧ (∃ ps, sent_to s n ps s') ∧
             ∃ k, after k s s' ∧ (prompt s → (k ≤ 4 * npackets n)%nat))
    (stuck (prompt s → (length (script s) < 4 * npackets n)%nat)) s.
Proof.
  intros Hp Hks Hy Hlen. unfold USB_serial_put_buf.
  apply (wp_iter_poll (λ x s1, ∃ off ps, (off ≤ n)%nat ∧
    x = (Z.of_nat off, Z.of_nat (n - off)) ∧ port s1 ∧ sent_to s off ps s1 ∧
    ∃ k, after k s s1 ∧ (prompt s → k = (4 * length ps)%nat))).
  2: { exists 0%nat, []. rewrite Nat.sub_0_r. split; [lia|]. split; [done|]. split; [done|]. split.
       - split_and!; [done|done|done|by constructor|by rewrite app_nil_r].
       - exists 0%nat. by split; [apply after_refl|]. }
  intros x s1 (off & ps & Hoff & -> & Hp1 & Hsent & k & Ha1 & Hk).
  pose proof (af_len _ _ _ Ha1) as Hl1. pose proof (af_scope _ _ _ Ha1 R _ Hks) as Hm1.
  destruct (decide (off = n)) as [->|Hne].
  - rewrite Nat.sub_diag. unfold put_buf_body. apply wp_bind. eapply wp_Ok; [by apply (may_send_port 0)|].
    cbn. wsteps. split; [done|]. split; [by exists ps|]. exists k. split; [done|]. intros Hpr. rewrite Hk by done.
    destruct Hsent as (Hl & _ & Hpk & _). rewrite <-Hpk, packets_count, Hl. lia.
  - assert (prompt s → prompt s1) as Hpr1 by apply (af_sub _ _ _ Ha1).
    assert (length ps < npackets n)%nat as Hnp.
    { destruct Hsent as (Hl & Hf & _). specialize (Hf ltac:(lia)). rewrite length_full in Hl by done.
      unfold npackets. apply Nat.div_le_lower_bound; lia. }
    eapply wp_mono; [| |apply (wp_put_chunk off)]; try done; try lia.
    + intros r s2 (Hp2 & [(-> & Ht2 & Ha2 & Hnpr)|(m & Hm & Hm2 & -> & Ht2 & Ha2)]);
        pose proof (af_len _ _ _ Ha2) as Hl2; (split; [|lia]).
      * exists off, ps. do 3 (split; [done|]). split.
        { destruct Hsent as (? & ? & ? & Hsn & ?). split_and!; [done|done|done| |congruence].
          pose proof (af_scope _ _ _ Ha2 R _ (af_sub _ _ _ Ha1 _ Hks)) as Hm2. clear -Hsn Hm2 PreOrder0.
          induction Hsn; econstructor; eauto. by etransitivity. }
        exists (k + 3)%nat. split; [by eapply after_trans|]. tauto.
      * exists (off + chunk_length off)%nat, (ps ++ [chunk m off]). unfold chunk_length at 1. split; [lia|].
        split; [done|]. split; [done|]. split; [by eapply sent_next; [|lia|..]|].
        exists (k + 4)%nat. split; [by eapply after_trans|]. intros Hpr. rewrite (Hk Hpr), length_app. cbn. lia.
    + unfold stuck. intros _ Hb1 Hpr. specialize (Hb1 (Hpr1 Hpr)). specialize (Hk Hpr). lia.
    + by apply (af_sub _ _ _ Ha1).
    + intros i m Hi Hm. apply Hy; [done|]. by transitivity (scopeBuf (hwst s1)).
Qed.
End sending.

(** A buffer that no event changes goes as it is. *)
#[export] Instance kept_preorder : PreOrder (λ m m' : list Z, m' = m).
Proof. split; [by intros m|]. intros m1 m2 m3. congruence. Qed.

Lemma put_buf_sends `{Platform} buff data s :
  port s → Forall keeps_scope (script s) → reads buff (scopeBuf (hwst s)) data →
  bytes data → Z.of_nat (length data) < 65536 →
  wp (USB_serial_put_buf buff (Z.of_nat (length data)))
    (λ _ s', port s' ∧ trace s' = trace s ++ map (OPacket 3) (packets data) ∧
             ∃ k, after k s s' ∧ (prompt s → (k ≤ 4 * length (packets data))%nat))
    (stuck (prompt s → (length (script s) < 4 * length (packets data))%nat)) s.
Proof.
  intros Hp Hks Hrd Hb Hlen. rewrite packets_count.
  assert (yields (λ m m', m' = m) buff (λ _ i, data !!! i) (scopeBuf (hwst s)) (length data)) as Hy.
  { intros i m Hi ->. destruct (lookup_lt_is_Some_2 data i Hi) as [x Hx].
    rewrite (list_lookup_total_correct _ _ _ Hx). split; [exact (Forall_lookup_1 _ _ _ _ Hb Hx)|].
    intros s' Hs. by apply Hrd. }
  eapply wp_mono; [| |exact (put_buf_snapshots _ buff _ _ s Hp Hks Hy Hlen)]; [|done].
  intros [] s' (Hp' & (ps & Hl & _ & Hpk & Hsn & Ht) & Hk). split; [done|]. split; [|done].
  apply (snapshots_const _ _ (λ i, data !!! i)) in Hsn; [|apply _|apply _|done].
  assert (concat ps = data) as <-; [|by rewrite Hpk].
  rewrite Hsn, Hl. apply list_eq. intros i. rewrite list_lookup_fmap.
  destruct (decide (i < length data)%nat) as [Hi|Hi].
  - rewrite lookup_seq_lt by done. cbn. destruct (lookup_lt_is_Some_2 data i Hi) as [x Hx].
    by rewrite Hx, (list_lookup_total_correct _ _ _ Hx).
  - rewrite lookup_seq_ge, lookup_ge_None_2 by lia. done.
Qed.

(** ** Receiving *)

(** The bytes behind the ring buffer. *)
Definition src (s : mach) : list Z :=
  fifo_bytes (FIFOs (fwst s)) (eps (hwst s)) (bufs (hwst s)) ++ host (hwst s).

Lemma rx_src s : rx s = contents (USBtoUSART_Buffer (fwst s)) ++ src s.
Proof. done. Qed.

(** Time passes and bytes may be received; nothing is sent. *)
Definition idle (k : nat) (s s' : mach) : Prop := trace s' = trace s ∧ elapsed k s s'.

Lemma idle_trans j k s1 s2 s3 : idle j s1 s2 → idle k s2 s3 → idle (j + k) s1 s3.
Proof. intros [? ?] [? ?]. split; [congruence|by eapply elapsed_trans]. Qed.

Lemma idle_polled a s s' : polled (sel a s) s' → idle 1 s s'.
Proof. by intros []; split; [|split]. Qed.

Lemma idle_after k s s' : after k s s' → trace s' = trace s → idle k s s'.
Proof. by intros [] ?; split; [|split]. Qed.

(** Tables that differ from others in the OUT endpoint only. *)
Definition same_but_rx {B} (f f' : Z → bool → B) : Prop := ∀ n d, (n, d) ≠ (4, false) → f' n d = f n d.

Lemma same_but_rx_refl {B} (f : Z → bool → B) : same_but_rx f f.
Proof. done. Qed.
Lemma same_but_rx_upd {B} (f f' : Z → bool → B) b : same_but_rx f f' → same_but_rx f (upd2 f' (4, false) b).
Proof. intros H n d Hn. rewrite upd2_ne by done. by apply H. Qed.
#[local] Hint Resolve same_but_rx_refl same_but_rx_upd : port.

Lemma port_rx p ds oks cdc ff ff' rb ep ep' bf hs es :
  port_view p ds oks cdc ff rb ep bf hs es →
  same_but_rx ff ff' → same_but_rx ep ep' →
  FIFO_Data (ff' 4 false) = Some out_fifo →
  (if OUT_full ep'
   then 0 ≤ FIFO_Position (ff' 4 false) ≤ EP_CNT (ep' 4 false) ∧ EP_CNT (ep' 4 false) ≤ 64
   else FIFO_Position (ff' 4 false) = 0) →
  bytes (fifo_bytes ff' ep' bf ++ hs) →
  port_view p ds oks cdc ff' rb ep' bf hs es.
Proof.
  intros [] Hf He Hd Hpos Hb. split; auto; unfold IN_ready, SETUP_seen; by rewrite ?Hf, ?He by discriminate.
Qed.

Lemma OUT_cleared v : tst (clr8 v CLEAR_MASK) USB_EP_TRNCOMPL0_bm = false.
Proof.
  unfold tst, clr8. rewrite <-Z.land_assoc. change (Z.land (255 .^ CLEAR_MASK) USB_EP_TRNCOMPL0_bm) with 0.
  by rewrite Z.land_0_r.
Qed.

Lemma wp_ClearOUT_rx Q B s :
  SelectedHandle (fwst s) = (4, false) → SelectedFIFO (fwst s) = (4, false) → port_at 0 s → ¬ avail s →
  (∀ s', port_at 0 s' → idle 0 s s' → src s' = src s → OUT_full (eps (hwst s')) = false →
         USBtoUSART_Buffer (fwst s') = USBtoUSART_Buffer (fwst s) → Q tt s') →
  wp Endpoint_ClearOUT Q B s.
Proof.
  intros Hh Hf Hp Hav HQ. unfold Endpoint_ClearOUT. wsteps.
  unfold avail in Hav. apply dec_stable in Hav.
  assert (OUT_full (upd2 (eps (hwst s)) (4, false)
    (ep_set_status (clr8 (EP_STATUS (eps (hwst s) 4 false)) CLEAR_MASK) (eps (hwst s) 4 false))) = false) as Hc.
  { unfold OUT_full. rewrite upd2_eq. apply OUT_cleared. }
  apply HQ; try done.
  - apply port_rx with (1 := Hp); cbn; auto with port; rewrite ?Hc; autorewrite with mach; cbn; try done.
    + apply Hp.
    + unfold fifo_bytes. rewrite Hc. apply pv_bytes in Hp. by apply Forall_app in Hp as [_ ?].
  - unfold src. rewrite Hav. unfold fifo_bytes. cbn. by rewrite Hc.
Qed.

(** The number of bytes left in the packet buffer. *)
Lemma length_fifo_bytes p s : port_at p s → OUT_full (eps (hwst s)) = true →
  Z.of_nat (length (fifo_bytes (FIFOs (fwst s)) (eps (hwst s)) (bufs (hwst s)))) =
  EP_CNT (eps (hwst s) 4 false) - FIFO_Position (FIFOs (fwst s) 4 false).
Proof.
  intros [] Hf. rewrite Hf in *. unfold fifo_bytes. rewrite Hf, length_drop, length_take. lia.
Qed.

Lemma wp_BytesInEndpoint_rx p Q B s :
  SelectedEndpoint (fwst s) = 4 → SelectedFIFO (fwst s) = (4, false) → port_at p s →
  OUT_full (eps (hwst s)) = true → FIFO_Length (FIFOs (fwst s) 4 false) = EP_CNT (eps (hwst s) 4 false) →
  (∀ n, n = Z.of_nat (length (fifo_bytes (FIFOs (fwst s)) (eps (hwst s)) (bufs (hwst s)))) → Q n s) →
  wp Endpoint_BytesInEndpoint Q B s.
Proof.
  intros Ha Hf Hp Ho Hl HQ. unfold Endpoint_BytesInEndpoint. wsteps. rewrite Ha.
  change (tst 4 ENDPOINT_DIR_IN) with false. wsteps. cbn [fst snd]. apply HQ.
  rewrite (length_fifo_bytes p) by done. rewrite Hl. apply pv_pos in Hp. rewrite Ho in Hp.
  apply u16_small. unfold word16. lia.
Qed.

Lemma wp_Read_8_rx Q B s x l :
  SelectedFIFO (fwst s) = (4, false) → port_at 0 s → OUT_full (eps (hwst s)) = true →
  fifo_bytes (FIFOs (fwst s)) (eps (hwst s)) (bufs (hwst s)) = x :: l →
  (∀ s', port_at 0 s' → idle 0 s s' → hwst s' = hwst s →
     USBtoUSART_Buffer (fwst s') = USBtoUSART_Buffer (fwst s) →
     SelectedEndpoint (fwst s') = SelectedEndpoint (fwst s) →
     SelectedHandle (fwst s') = SelectedHandle (fwst s) → SelectedFIFO (fwst s') = (4, false) →
     FIFO_Length (FIFOs (fwst s') 4 false) = FIFO_Length (FIFOs (fwst s) 4 false) →
     fifo_bytes (FIFOs (fwst s')) (eps (hwst s)) (bufs (hwst s)) = l → Q x s') →
  wp Endpoint_Read_8 Q B s.
Proof.
  intros Hf Hp Ho Hx HQ. pose proof (length_fifo_bytes 0 s Hp Ho) as Hlen. rewrite Hx in Hlen. cbn in Hlen.
  pose proof (pv_pos _ _ _ _ _ _ _ _ _ _ Hp) as Hpos. rewrite Ho in Hpos.
  unfold Endpoint_Read_8. wsteps. cbn [fst snd]. rewrite (pv_out _ _ _ _ _ _ _ _ _ _ Hp). unfold lift. wsteps.
  set (q := FIFO_Position (FIFOs (fwst s) 4 false)) in *. set (c := EP_CNT (eps (hwst s) 4 false)) in *.
  assert (∀ ff, FIFO_Position (ff 4 false) = q + 1 → fifo_bytes ff (eps (hwst s)) (bufs (hwst s)) = l) as Hl.
  { intros ff E. unfold fifo_bytes in *. rewrite Ho in *. fold c in Hx |- *. fold q in Hx. rewrite E.
    replace (Z.to_nat (q + 1)) with (S (Z.to_nat q)) by lia.
    rewrite <-Nat.add_1_r, <-drop_drop. by rewrite Hx. }
  assert (rd (bufs (hwst s) out_fifo) q = Some x) as ->.
  { apply rd_Some. split; [lia|]. unfold fifo_bytes in Hx. rewrite Ho in Hx. fold c q in Hx.
    apply (f_equal (lookup 0%nat)) in Hx. rewrite lookup_drop, Nat.add_0_r in Hx. cbn in Hx.
    by apply lookup_take_Some in Hx as [? _]. }
  wsteps. rewrite u8_small by (unfold byte; lia).
  apply HQ; cbn; autorewrite with mach; try done.
  - apply port_rx with (1 := Hp); cbn; auto with port; autorewrite with mach; cbn.
    + apply Hp.
    + rewrite Ho. fold c. lia.
    + rewrite Hl by by rewrite upd2_eq. apply pv_bytes in Hp. rewrite Hx in Hp.
      by apply Forall_cons in Hp as [_ ?].
  - apply Hl. by rewrite upd2_eq.
Qed.

(** What [CDC_Device_ReceiveByte] answers. *)
Definition received_byte (b : Z) (s s' : mach) : Prop :=
  (b = -1 ∧ src s' = src s ∧ OUT_full (eps (hwst s')) = false ∧ ¬ avail s ∧ (prompt s → ¬ coming s)) ∨
  (byte b ∧ src s = b :: src s').

(** A packet is in the buffer and its length is known. *)
Lemma wp_take_byte Q B s :
  SelectedEndpoint (fwst s) = 4 → SelectedHandle (fwst s) = (4, false) → SelectedFIFO (fwst s) = (4, false) →
  port_at 0 s → OUT_full (eps (hwst s)) = true →
  FIFO_Length (FIFOs (fwst s) 4 false) = EP_CNT (eps (hwst s) 4 false) →
  (∀ b s', port_at 0 s' → idle 0 s s' → USBtoUSART_Buffer (fwst s') = USBtoUSART_Buffer (fwst s) →
           received_byte b s s' → Q b s') →
  wp (n ← Endpoint_BytesInEndpoint;
      ReceivedByte ← (if negb (n =? 0) then Endpoint_Read_8 else mret (-1));
      n ← Endpoint_BytesInEndpoint;
      when (n =? 0) Endpoint_ClearOUT;;
      mret ReceivedByte) Q B s.
Proof.
  intros Ha Hh Hf Hp Ho Hl HQ. apply wp_bind, (wp_BytesInEndpoint_rx 0); try done. intros n ->.
  destruct (fifo_bytes (FIFOs (fwst s)) (eps (hwst s)) (bufs (hwst s))) as [|x l] eqn:Efb.
  - cbn [length Z.of_nat Z.eqb negb]. wsteps. apply wp_bind, (wp_BytesInEndpoint_rx 0); try done. intros n ->. rewrite Efb.
    cbn [length Z.of_nat Z.eqb when]. wsteps.
    assert (¬ avail s) as Hav by (unfold avail; tauto).
    apply wp_ClearOUT_rx; try done. intros s' Hp' He Hs Hfull Hr. wsteps.
    apply HQ; try done. left. split_and!; try done. intros _ [?|[? _]]; [done|congruence].
  - cbn [length]. rewrite (proj2 (Z.eqb_neq _ 0)) by lia. cbn. apply wp_bind, (wp_Read_8_rx _ _ _ x l); try done.
    intros s1 Hp1 He1 Hhw Hr1 Ha1 Hh1 Hf1 Hl1 Hb1. rewrite <-Hhw in Hb1, Ho, Hl.
    assert (byte x).
    { apply pv_bytes in Hp. rewrite Efb in Hp. by apply Forall_cons in Hp as [? _]. }
    assert (src s = x :: src s1) as Hsrc by (unfold src; by rewrite Efb, Hb1, Hhw).
    apply wp_bind, (wp_BytesInEndpoint_rx 0); [congruence|done|done|done|congruence|].
    intros n ->. rewrite Hb1. destruct l as [|y l]; cbn [length].
    + cbn [Z.of_nat Z.eqb when]. wsteps. apply wp_ClearOUT_rx; [congruence|done|done|unfold avail; tauto|].
      intros s2 Hp2 He2 Hs2 Hfull Hr2. wsteps. apply HQ; [done| |congruence|].
      * exact (idle_trans 0 0 _ _ _ He1 He2).
      * right. by rewrite Hs2.
    + rewrite (proj2 (Z.eqb_neq _ 0)) by lia. cbn. wsteps. apply HQ; try done. by right.
Qed.

Lemma wp_ReceiveByte Q (P : Prop) s : port_at 0 s → (script s = [] → P) →
  (∀ b s', port_at 0 s' → idle 1 s s' → USBtoUSART_Buffer (fwst s') = USBtoUSART_Buffer (fwst s) →
           received_byte b s s' → Q b s') →
  wp CDC_Device_ReceiveByte Q (stuck P) s.
Proof.
  intros Hp HP HQ. unfold CDC_Device_ReceiveByte. apply wp_bind.
  eapply wp_Ok; [by apply (CDC_active 0)|]. wsteps. seladdr. unfold Endpoint_IsOUTReceived, received.
  wsteps. cbn. seladdr. apply wp_link_poll; [apply Hp|done|]. intros s1 Hs1.
  destruct (after_polled 0 _ _ _ (Hp : port_at 0 (sel 4 s)) Hs1) as [Hp1 Ha1].
  assert (∀ s2, hwst s2 = hwst s1 → script s2 = script s1 → trace s2 = trace s1 → idle 1 s s2) as He.
  { intros s2 Eh Es Et. destruct (idle_polled 4 (sel 4 s) s1 Hs1) as [? []].
    split; [by rewrite Et|]. split; rewrite ?Eh, ?Es; done. }
  assert (avail s → avail s1) as Hav by exact (avail_polled _ _ Hs1).
  assert (prompt s → coming s → avail s1) as Hco by exact (coming_polled 0 (sel 4 s) s1 Hp Hs1).
  assert (src s1 = src s) as Hsrc.
  { apply af_rx in Ha1. rewrite !rx_src, (po_fw _ _ Hs1) in Ha1. by apply app_inv_head in Ha1. }
  pose proof (po_fw _ _ Hs1) as Hfw.
  assert (SelectedHandle (fwst s1) = (4, false)) by by rewrite Hfw.
  assert (SelectedFIFO (fwst s1) = (4, false)) by by rewrite Hfw.
  wsteps. cbn [fst snd]. fold (OUT_full (eps (hwst s1))). destruct (OUT_full (eps (hwst s1))) eqn:Ho.
  - wsteps. cbn [fst snd]. pose proof (pv_pos _ _ _ _ _ _ _ _ _ _ Hp1) as Hpos. rewrite Ho in Hpos.
    rewrite u8_small by (unfold byte; lia).
    match goal with |- wp _ _ _ (upd_fifo _ ?f s1) => set (s2 := upd_fifo (4, false) f s1) end.
    assert (fifo_bytes (FIFOs (fwst s2)) (eps (hwst s2)) (bufs (hwst s2)) =
            fifo_bytes (FIFOs (fwst s1)) (eps (hwst s1)) (bufs (hwst s1))) as Efb
      by (unfold fifo_bytes; cbn; by autorewrite with mach).
    assert (src s2 = src s) as Hsrc2 by (rewrite <-Hsrc; unfold src; by rewrite Efb).
    assert (avail s → avail s2) as Hav2 by (unfold avail; rewrite Efb; exact Hav).
    apply wp_unbind, wp_take_byte; try done.
    + by unfold s2; cbn; rewrite Hfw.
    + apply port_rx with (1 := Hp1); cbn; auto with port; autorewrite with mach; cbn.
      * apply Hp1.
      * by rewrite Ho.
      * cbn in Efb. rewrite Efb. apply Hp1.
    + intros b s3 Hp3 He3 Hr3 Hb3. apply HQ; [done| | |].
      * by apply (idle_trans 1 0 _ s2); [apply He|].
      * rewrite Hr3. unfold s2. cbn. by rewrite Hfw.
      * unfold received_byte. rewrite <-Hsrc2. destruct Hb3 as [(? & ? & ? & ? & _)|?]; [left|by right].
        split_and!; tauto.
  - wsteps. apply HQ; [done|by apply He|by rewrite Hfw|].
    assert (¬ avail s1) as Hna by (intros Hx; apply Hx; unfold fifo_bytes; by rewrite Ho).
    left. split_and!; try done; [by intros Hx%Hav|]. by intros Hpr Hx%(Hco Hpr).
Qed.

(** A byte is stored in the empty ring buffer. *)
Lemma wp_store_byte b Q B s : port s → contents (USBtoUSART_Buffer (fwst s)) = [] → byte b →
  (∀ s', port s' → idle 0 s s' → contents (USBtoUSART_Buffer (fwst s')) = [b] → src s' = src s → Q tt s') →
  wp (rb ← get_fw USBtoUSART_Buffer;
      rb ← lift (RingBuffer_Insert rb (u8 b));
      mod_fw (set_USBtoUSART_Buffer rb)) Q B s.
Proof.
  intros Hp Hr Hb HQ. pose proof (pv_ring _ _ _ _ _ _ _ _ _ _ Hp) as Hwf.
  pose proof (length_contents _ Hwf) as Hl. rewrite Hr in Hl. cbn in Hl.
  pose proof (pv_size _ _ _ _ _ _ _ _ _ _ Hp) as Hsz.
  destruct (Insert_spec _ (u8 b) Hwf) as (rb' & E & Hwf' & Hc & Hs'); [lia|].
  wsteps. rewrite E. unfold lift. wsteps. rewrite u8_small, Hr in Hc by done. apply HQ; try done.
  destruct Hp. split; cbn; auto; [congruence|]. rewrite Hc. by constructor.
Qed.

(** The iteration of [USB_serial_get_char] on an empty ring buffer. *)
Lemma wp_get_char_body `{Platform} s : port s → contents (USBtoUSART_Buffer (fwst s)) = [] →
  wp (get_char_body tt)
    (λ r s', r = inl tt ∧ port s' ∧ rx s' = rx s ∧ idle 4 s s' ∧
       (contents (USBtoUSART_Buffer (fwst s')) = [] → prompt s → rx s ≠ [] → ¬ coming s ∧ coming s'))
    (stuck (length (script s) < 4)%nat) s.
Proof.
  intros Hp Hr. unfold get_char_body. wsteps. pose proof (pv_ring _ _ _ _ _ _ _ _ _ _ Hp) as Hwf.
  rewrite IsEmpty_spec, IsFull_spec, Hr, (pv_size _ _ _ _ _ _ _ _ _ _ Hp) by done.
  rewrite bool_decide_eq_true_2 by done. cbn [negb]. unfold USB_DeviceState_volatile.
  change (negb (Z.of_nat (length []) =? 5)) with true. cbn [when]. wsteps.
  apply wp_link_poll; [apply Hp|intros E; red; rewrite E; cbn; lia|]. intros s1 Hs1.
  destruct (port_polled 0 _ _ Hp Hs1) as [Hp1 Hrx1]. pose proof (po_script _ _ Hs1) as Hl1.
  assert (idle 1 s s1) as He1 by (destruct Hs1; by split).
  assert (contents (USBtoUSART_Buffer (fwst s1)) = []) as Hr1 by by rewrite (po_fw _ _ Hs1).
  wsteps. rewrite (pv_state _ _ _ _ _ _ _ _ _ _ Hp1). change (_ =? _) with true. cbn [when]. wsteps.
  apply wp_ReceiveByte; [done|intros E; red; rewrite Hl1, E; cbn; lia|].
  intros b s2 Hp2 He2 Hr2 Hb. pose proof (el_len _ _ _ (proj2 He2)) as Hl2. rewrite <-Hr2 in Hr1.
  rewrite !rx_src, Hr, <-Hr2, Hr1 in Hrx1. cbn in Hrx1.
  destruct Hb as [(-> & Hs & Hfull & Hav & _)|(Hb & Hs)].
  - change (negb (-1 <? 0)) with false. cbn [when]. wsteps.
    apply (wp_tasks 0); [done|intros Hl; red; lia|]. intros s3 Hp3 Ha3 Ht3. wsteps. split; [done|].
    cbn in Ht3. rewrite app_nil_r in Ht3.
    split; [done|]. split; [rewrite (af_rx _ _ _ Ha3), !rx_src, Hr, Hr1, Hs; done|].
    split; [exact (idle_trans 1 3 _ _ _ He1 (idle_trans 1 2 _ _ _ He2 (idle_after _ _ _ Ha3 Ht3)))|].
    intros _ Hpr Hne. split.
    + intros Hc. by apply Hav, (coming_polled 0 s).
    + apply (af_coming _ _ _ Ha3); [by apply (el_sub _ _ _ (proj2 He2)), (el_sub _ _ _ (proj2 He1))|]. right.
      split; [done|]. intros E. apply Hne. rewrite rx_src, Hr, <-Hrx1, <-Hs. unfold src, fifo_bytes.
      by rewrite Hfull, E.
  - rewrite (proj2 (Z.ltb_ge _ _)) by (unfold byte in Hb; lia). cbn [negb when].
    apply wp_store_byte; [done|done|done|]. intros s3 Hp3 He3 Hr3 Hs3. pose proof (el_len _ _ _ (proj2 He3)) as Hl3.
    wsteps. apply (wp_tasks 0); [done|intros Hl; red; lia|]. intros s4 Hp4 Ha4 Ht4. wsteps.
    cbn in Ht4. rewrite app_nil_r in Ht4. rewrite (af_ring _ _ _ Ha4), Hr3. split; [done|]. split; [done|].
    split; [rewrite (af_rx _ _ _ Ha4), !rx_src, Hr3, Hr, Hs3, <-Hrx1, Hs; done|]. split; [|done].
    exact (idle_trans 1 3 _ _ _ He1 (idle_trans 1 2 _ _ _ He2
      (idle_trans 0 2 _ _ _ He3 (idle_after _ _ _ Ha4 Ht4)))).
Qed.

(** [m] receives the next byte of the stream; a host that is never late and
    has a byte to send lets it finish within eight events. *)
Lemma get_char_receives `{Platform} s : port s →
  wp USB_serial_get_char
    (λ v s', port s' ∧ byte v ∧ rx s = v :: rx s' ∧ ∃ k, idle k s s' ∧ (prompt s → (k ≤ 8)%nat))
    (stuck (prompt s → rx s ≠ [] → (length (script s) < 8)%nat)) s.
Proof.
  intros Hp. unfold USB_serial_get_char. apply wp_bind.
  apply (wp_iter_poll (λ _ s1, port s1 ∧ rx s1 = rx s ∧ ∃ k, idle k s s1 ∧
    (prompt s → rx s ≠ [] → (contents (USBtoUSART_Buffer (fwst s1)) ≠ [] ∧ (k ≤ 8)%nat) ∨
       k = 0%nat ∨ (k = 4%nat ∧ coming s1)))).
  2: { split; [done|]. split; [done|]. exists 0%nat. split; [by split|]. auto. }
  intros [] s1 (Hp1 & Hrx1 & k & He1 & Hk). pose proof (el_len _ _ _ (proj2 He1)) as Hl1.
  destruct (contents (USBtoUSART_Buffer (fwst s1))) as [|v l] eqn:Er.
  - eapply wp_mono; [| |by apply wp_get_char_body].
    + intros r s2 (-> & Hp2 & Hrx2 & He2 & Hc2). pose proof (el_len _ _ _ (proj2 He2)) as Hl2. split; [|lia].
      split; [done|]. split; [congruence|]. exists (k + 4)%nat. split; [by eapply idle_trans|].
      intros Hpr Hne. assert (prompt s1) as Hpr1 by by apply (el_sub _ _ _ (proj2 He1)).
      rewrite <-Hrx1 in Hne.
      destruct (decide (contents (USBtoUSART_Buffer (fwst s2)) = [])) as [E|E].
      * destruct (Hc2 E Hpr1 Hne) as [Hn Hc]. rewrite Hrx1 in Hne.
        destruct (Hk Hpr Hne) as [[? ?]|[->|[-> ?]]]; [done| |done]. right. right. auto.
      * left. split; [done|]. rewrite Hrx1 in Hne. destruct (Hk Hpr Hne) as [[? ?]|[->|[-> ?]]]; [done|lia|lia].
    + unfold stuck. intros _ Hlt Hpr Hne. destruct (Hk Hpr Hne) as [[? ?]|[->|[-> ?]]]; [done|lia|lia].
  - unfold get_char_body. wsteps. pose proof (pv_ring _ _ _ _ _ _ _ _ _ _ Hp1) as Hwf.
    rewrite IsEmpty_spec, Er, bool_decide_eq_false_2 by done. cbn [negb]. wsteps.
    destruct (Remove_spec _ v l Hwf Er) as (rb' & Erm & Epk & Hwf' & Hc' & Hs'). rewrite Epk. unfold lift. wsteps.
    rewrite Erm. wsteps. pose proof (pv_ringb _ _ _ _ _ _ _ _ _ _ Hp1) as Hb. rewrite Er in Hb.
    apply Forall_cons in Hb as [Hv Hb].
    assert (rx s = v :: l ++ src s1) as Erx by (rewrite <-Hrx1, rx_src, Er; done).
    split; [destruct Hp1; split; cbn; auto; [congruence|by rewrite Hc']|]. split; [done|].
    split; [rewrite Erx, rx_src; cbn; by rewrite Hc'|].
    exists k. split; [by destruct He1 as [? []]; split; [|split]|]. intros Hpr.
    destruct (Hk Hpr) as [[? ?]|[->|[-> ?]]]; [by rewrite Erx|done|lia|lia].
Qed.

(** [CDC_Device_getchar_Blocking] takes a byte of the stream behind the ring
    buffer, within four events of a host that is never late. *)
Lemma getchar_Blocking_receives `{Platform} s : port s →
  wp CDC_Device_getchar_Blocking
    (λ v s', port s' ∧ byte v ∧ src s = v :: src s' ∧ contents (USBtoUSART_Buffer (fwst s')) = contents (USBtoUSART_Buffer (fwst s)) ∧
       ∃ k, idle k s s' ∧ (prompt s → (k ≤ 4)%nat))
    (stuck (prompt s → src s ≠ [] → (length (script s) < 4)%nat)) s.
Proof.
  intros Hp. unfold CDC_Device_getchar_Blocking.
  apply (wp_iter_poll (λ _ s1, port s1 ∧ src s1 = src s ∧ contents (USBtoUSART_Buffer (fwst s1)) = contents (USBtoUSART_Buffer (fwst s)) ∧
    ∃ k, idle k s s1 ∧ (prompt s → src s ≠ [] → k = 0%nat ∨ (k = 3%nat ∧ coming s1)))).
  2: { split_and!; [done..|]. exists 0%nat. split; [by split|]. auto. }
  intros _ s1 (Hp1 & Hs1 & Hr1 & k & He1 & Hk). pose proof (el_len _ _ _ (proj2 He1)) as Hl1.
  wsteps. apply wp_ReceiveByte; [done| |].
  { intros E Hpr Hne. rewrite E in Hl1. cbn in Hl1. destruct (Hk Hpr Hne) as [->|[-> _]]; lia. }
  intros b s2 Hp2 He2 Hr2 Hb. pose proof (el_len _ _ _ (proj2 He2)) as Hl2.
  destruct Hb as [(-> & Hs2 & Hfull & _ & Hc)|(Hb & Hs2)].
  - change (-1 <? 0) with true. cbn iota. wsteps. rewrite (pv_state _ _ _ _ _ _ _ _ _ _ Hp2).
    change (_ =? _) with false. cbn iota. wsteps.
    assert (prompt s → prompt s1) as Hpr1 by (intros; by apply (el_sub _ _ _ (proj2 He1))).
    apply (wp_tasks 0); [done| |].
    { intros Hlt Hpr Hne. destruct (Hk Hpr Hne) as [->|[-> Hcm]]; [lia|]. by destruct (Hc (Hpr1 Hpr)). }
    intros s3 Hp3 Ha3 Ht3. wsteps. cbn in Ht3. rewrite app_nil_r in Ht3.
    pose proof (idle_trans _ _ _ _ _ He2 (idle_after _ _ _ Ha3 Ht3)) as He3.
    pose proof (el_len _ _ _ (proj2 He3)). split; [|lia].
    assert (contents (USBtoUSART_Buffer (fwst s3)) = contents (USBtoUSART_Buffer (fwst s2))) as Hr3 by by rewrite (af_ring _ _ _ Ha3).
    pose proof (af_rx _ _ _ Ha3) as Hrx. rewrite !rx_src, Hr3 in Hrx. apply app_inv_head in Hrx.
    split_and!; [done|congruence|congruence|]. exists (k + 3)%nat. split; [by eapply idle_trans|]. intros Hpr Hne.
    destruct (Hk Hpr Hne) as [->|[-> Hcm]]; [|by destruct (Hc (Hpr1 Hpr))]. right. split; [done|].
    apply (af_coming _ _ _ Ha3); [by apply (el_sub _ _ _ (proj2 He2)), Hpr1|]. right. split; [done|]. intros E. apply Hne.
    rewrite <-Hs1, <-Hs2. unfold src, fifo_bytes. by rewrite Hfull, E.
  - rewrite (proj2 (Z.ltb_ge _ _)) by (unfold byte in Hb; lia). wsteps.
    split_and!; [done..|congruence|congruence|]. exists (k + 1)%nat. split; [by eapply idle_trans|]. intros Hpr.
    destruct (Hk Hpr) as [->|[-> _]]; [|lia..]. rewrite <-Hs1, Hs2. done.
Qed.
