(* ===== verification/SerialLink.v ===== *)
(** * The USB serial port implements the interface

    The lemmas of SerialSpec.v about usb_serial.c discharge the laws of
    SerialPort.v, so every theorem proved against the interface holds of the
    program as it is linked. *)
From S2P Require Import Prelude RingBuffer Machine Packed Endpoint Controller EndpointPoll EndpointStream Cdc Descriptors StdReq UsbSerial Logic SerialPort SerialSpec HorrorScope.

Section WithPlatform.
Context `{Platform}.

Definition usb_out (data : list Z) : list obs := map (OPacket 3) (packets data).

Lemma usb_out_one c : usb_out [c] = [OPacket 3 [c]].
Proof. done. Qed.

Lemma usb_out_payload data : payload (usb_out data) = data.
Proof.
  unfold payload, usb_out. rewrite map_map. cbn. by rewrite map_id, packets_concat.
Qed.

Lemma get_char_law s : port s →
  wp USB_serial_get_char (recv_post port rx prompt_event 1 8 be_val s) (recv_stuck rx prompt_event 1 8 s) s.
Proof.
  intros Hp. eapply wp_mono; [| |by apply get_char_receives].
  - intros v s' (Hp' & Hv & Hrx & k & [Ht He] & Hk). split; [done|]. split; [done|].
    split; [|by exists k]. exists [v]. split; [done|]. split; [by constructor|]. by split.
  - unfold stuck, recv_stuck. intros _ Hs Hpr Hn. apply Hs; [done|]. intros E. rewrite E in Hn. cbn in Hn. lia.
Qed.

Lemma wp_recv_eq {A} inv rx' timely n n' K K' (val val' : list Z → A) m s :
  n = n' → K = K' → (∀ l, length l = n → bytes l → val l = val' l) →
  wp m (recv_post inv rx' timely n K val s) (recv_stuck rx' timely n K s) s →
  wp m (recv_post inv rx' timely n' K' val' s) (recv_stuck rx' timely n' K' s) s.
Proof.
  intros <- <- Hv. apply wp_mono; [|done]. intros a s' (Hi & Ht & (bs & Hl & Hb & Hr & ->) & Hk).
  split; [done|]. split; [done|]. split; [|done]. exists bs. by rewrite Hv.
Qed.

Lemma wp_recv_ret {A} (a : A) s : port s →
  wp (mret a) (recv_post port rx prompt_event 0 0 (λ _, a) s) (recv_stuck rx prompt_event 0 0 s) s.
Proof.
  intros Hp. apply wp_ret. split; [done|]. split; [done|]. split; [by exists []; repeat split; constructor|].
  exists 0%nat. by split; [apply elapsed_refl|].
Qed.

Lemma join16 a b : byte a → byte b → u16 (a << 8) .| b = a * 256 + b.
Proof.
  unfold byte. intros Ha Hb. rewrite u16_small by (unfold word16; rewrite Z.shiftl_mul_pow2; lia).
  by rewrite shift_or.
Qed.

Lemma get_short_law s : port s →
  wp USB_serial_get_short (recv_post port rx prompt_event 2 16 be_val s) (recv_stuck rx prompt_event 2 16 s) s.
Proof.
  intros Hp. eapply (wp_recv_eq _ _ _ (1 + (1 + 0)) _ (8 + (8 + 0))); [done|done| |].
  2: { eapply wp_recv_bind; [by apply get_char_law|]. intros b1 s1 Hp1 Hl1 Hb1.
       eapply wp_recv_bind; [by apply get_char_law|]. intros b2 s2 Hp2 Hl2 Hb2. by apply wp_recv_ret. }
  intros [|a [|b []]] Hl Hb; try done. apply Forall_cons in Hb as [Ha [Hb _]%Forall_cons]. cbn.
  by apply join16.
Qed.

Lemma get_long_law s : port s →
  wp USB_serial_get_long (recv_post port rx prompt_event 4 32 be_val s) (recv_stuck rx prompt_event 4 32 s) s.
Proof.
  intros Hp. eapply (wp_recv_eq _ _ _ (2 + (2 + 0)) _ (16 + (16 + 0))); [done|done| |].
  2: { eapply wp_recv_bind; [by apply get_short_law|]. intros b1 s1 Hp1 Hl1 Hb1.
       eapply wp_recv_bind; [by apply get_short_law|]. intros b2 s2 Hp2 Hl2 Hb2. by apply wp_recv_ret. }
  intros [|a [|b [|c [|d []]]]] Hl Hb; try done.
  assert (bytes [a; b; c; d]) as H4 by exact Hb. apply Forall_cons in H4 as [Ha [Hb' [Hc [Hd _]%Forall_cons]%Forall_cons]%Forall_cons].
  unfold be_val. cbn. unfold byte in *. change (0 * 256) with 0. rewrite !Z.add_0_l.
  unfold u32. rewrite Z.mod_small by (rewrite Z.shiftl_mul_pow2 by lia; lia). rewrite shift_or; lia.
Qed.

Lemma put_char_law c s : port s →
  wp (USB_serial_put_char c) (send_post port rx prompt_event (usb_out [u8 c]) 3 s) (send_stuck prompt_event 3 s) s.
Proof.
  intros Hp. eapply wp_mono; [| |by apply put_char_sends]; [|done].
  intros [] s' (Hp' & Ht & k & Ha & Hk). split; [done|]. split; [apply Ha|]. split; [done|].
  exists k. by split; [destruct Ha; split|].
Qed.

Lemma put_string_law l s : port s → bytes l → Forall (λ c, c ≠ 0) l →
  wp (USB_serial_put_string_P_internal (l ++ [0]))
    (send_post port rx prompt_event (concat (map (λ c, usb_out [c]) l)) (3 * length l) s)
    (send_stuck prompt_event (3 * length l) s) s.
Proof.
  intros Hp Hb Hz. revert s Hp. induction l as [|c l IH]; intros s Hp; cbn [app USB_serial_put_string_P_internal].
  - apply wp_ret. split; [done|]. split; [done|]. split; [by rewrite app_nil_r|].
    exists 0%nat. by split; [apply elapsed_refl|].
  - apply Forall_cons in Hb as [Hc Hb], Hz as [Hc0 Hz]. rewrite (proj2 (Z.eqb_neq c 0)) by done.
    cbn [map concat]. replace (3 * length (c :: l))%nat with (3 + 3 * length l)%nat by (cbn; lia).
    apply wp_send_seq; [|by apply IH]. rewrite <-(u8_small c) at 2 by done. by apply put_char_law.
Qed.

Lemma npackets_le n : (npackets n ≤ n)%nat.
Proof. destruct n as [|n]; [done|]. unfold npackets. apply Nat.Div0.div_le_upper_bound. lia. Qed.

Lemma put_buf_law R buff val n s : PreOrder R → port s → Forall (moves R) (script s) →
  yields R buff val (scopeBuf (hwst s)) n → Z.of_nat n < 65536 →
  wp (USB_serial_put_buf buff (Z.of_nat n))
    (λ _ s', ∃ ps, length (concat ps) = n ∧ snapshots R val (scopeBuf (hwst s)) 0 ps (scopeBuf (hwst s')) ∧
       send_post port rx prompt_event (usb_out (concat ps)) (4 * n) s tt s')
    (send_stuck prompt_event (4 * n) s) s.
Proof.
  intros HR Hp Hk Hy Hl. pose proof (npackets_le n).
  eapply wp_mono; [| |by apply (put_buf_snapshots R buff val n)].
  - intros [] s' (Hp' & (ps & Hn & _ & Hpk & Hsn & Ht) & k & Ha & Hle). exists ps. split; [done|]. split; [done|].
    split; [done|]. split; [apply Ha|]. split; [unfold usb_out; by rewrite Hpk|].
    exists k. split; [by destruct Ha; split|]. intros Hpr. specialize (Hle Hpr). lia.
  - intros s' Hst Hpr. specialize (Hst Hpr). lia.
Qed.

#[export] Instance usb_laws : @SerialLaws usb_serial.
Proof.
  refine (@Build_SerialLaws usb_serial port rx prompt_event usb_out
    usb_out_payload get_char_law get_short_law put_char_law put_string_law put_buf_law _ _ _).
  - intros s f g Hf Hp. destruct (Hf (hwst s)) as (He & Hb & Hh). unfold port, port_at, rx in *. cbn.
    by rewrite He, Hb, Hh.
  - done.
  - intros s Hp. apply wp_link_poll; [apply Hp|done|]. intros s' Hs.
    destruct (port_polled 0 _ _ Hp Hs). split; [done|]. split; [done|]. by destruct Hs.
Defined.

End WithPlatform.
