(* ===== verification/HorrorSpec.v ===== *)
(** * The command protocol

    What the command loop of HorrorScope.c answers to each command, proved
    against the interface SerialPort.v: the abstract protocol is the relation
    [reply], and [main_step_refines] shows that an iteration of the loop takes
    one command with its arguments from the stream and sends one reply. *)
From stdpp Require Import strings.
From S2P Require Import Prelude RingBuffer Machine Packed Endpoint Controller Adc Capture Logic SerialPort HorrorScope.

(** ** The protocol

    [reply l c args out l']: with settings [l], the command [c] followed by the
    bytes [args] is answered with the bytes [out] and leaves the settings
    [l']. *)
Definition value16 (hi lo : Z) : Z := hi * 256 + lo.
Definition line (s : string) : list Z := chars s ++ CRLF.

Inductive reply (l : locals) : Z → list Z → list Z → locals → Prop :=
  | reply_test c : c = char "T" ∨ c = char "t" → reply l c [] (chars "T") l
  | reply_arm (timedOut : bool) :
      reply l (char "d") [] (chars "r" ++ chars (if timedOut then "e" else "d")) l
  | reply_fetch data : Z.of_nat (length data) = numberOfSamples l → reply l (char "s") [] data l
  | reply_samples hi lo : value16 hi lo ≤ SCOPE_SIZE →
      reply l (char "n") [hi; lo] (chars "d") (set_numberOfSamples (value16 hi lo) l)
  | reply_too_big hi lo : SCOPE_SIZE < value16 hi lo →
      reply l (char "n") [hi; lo] (line "Buffer too big") l
  | reply_gain x : reply l (char "g") [x] (chars "d") l
  | reply_divider x : reply l (char "c") [x] (chars "d") l
  | reply_bias hi lo : reply l (char "b") [hi; lo] (chars "d") l
  | reply_fault (timedOut : bool) :
      reply l (char "f") [] (chars "r" ++ chars (if timedOut then "d" else "e")) l
  | reply_bits x : reply l (char "8") [x] (chars "d") (set_bits12 (x .& 1) l)
  | reply_glitch (timedOut : bool) :
      reply l (char "h") [] (chars "r" ++ chars (if timedOut then "e" else "d")) l
  | reply_delay hi lo : reply l (char "w") [hi; lo] (chars "d") (set_delay (value16 hi lo) l)
  | reply_length hi lo : byte lo → reply l (char "l") [hi; lo] (chars "d") (set_glitch_length lo l)
  | reply_timeout hi lo : reply l (char "e") [hi; lo] (chars "d") (set_timeout (value16 hi lo) l)
  | reply_pulses x : reply l (char "p") [x] (chars "d") (set_pulses x l)
  | reply_off : reply l (char "x") [] (chars "d") l
  | reply_on : reply l (char "y") [] (chars "d") l
  | reply_invalid c : byte c → c ∉ chars "Ttdsngcbf8hwlepxy" →
      reply l c [] (chars "Invalid command:" ++ [c] ++ CRLF) l.

(** The number of argument bytes, and the commands that wait for nothing but
    the serial port. *)
Definition nargs (c : Z) : nat :=
  if bool_decide (c ∈ chars "nbwle") then 2 else if bool_decide (c ∈ chars "gc8p") then 1 else 0.
Definition immediate (c : Z) : bool := bool_decide (c ∉ chars "dfh8s").

Section protocol.
Context {PL : Platform} {SP : SerialPort} {SL : SerialLaws}.

(** ** Triples

    [ran s s' bs out]: from [s] to [s'] the bytes [bs] were received and
    [out] was sent. *)
Definition samples_ok (m : list Z) : Prop := Z.of_nat (length m) = SCOPE_SIZE ∧ bytes m.
Definition scope_ok (s : mach) : Prop := samples_ok (scopeBuf (hwst s)).

(** The DMA controller may write any bytes into the sample buffer, at any
    time. *)
Definition any_samples (m m' : list Z) : Prop := samples_ok m → samples_ok m'.
#[export] Instance any_samples_preorder : PreOrder any_samples.
Proof. split; unfold any_samples; [by intros m|]. intros m1 m2 m3. tauto. Qed.
Definition scope_event : event → Prop := moves any_samples.

Lemma elapsed_scope k s s' : elapsed k s s' → Forall scope_event (script s) → scope_ok s → scope_ok s'.
Proof. intros He. exact (el_scope _ _ _ He any_samples _). Qed.

Record ran (k : nat) (s s' : mach) (bs out : list Z) : Prop := {
  rn_inv : sp_inv s';
  rn_rx : sp_rx s = bs ++ sp_rx s';
  rn_out : payload (trace s') = payload (trace s) ++ out;
  rn_len : length (script s) = (k + length (script s'))%nat;
  rn_sub : ∀ P, Forall P (script s) → Forall P (script s');
  rn_scope : Forall scope_event (script s) → scope_ok s → scope_ok s' }.

Lemma ran_trans j k s1 s2 s3 b1 b2 o1 o2 : ran j s1 s2 b1 o1 → ran k s2 s3 b2 o2 →
  ran (j + k) s1 s3 (b1 ++ b2) (o1 ++ o2).
Proof.
  intros [] []. split; [done|by rewrite rn_rx0, rn_rx1, app_assoc|by rewrite rn_out1, rn_out0, app_assoc|lia|auto|auto].
Qed.

(** [m] answers [a] after receiving [bs] and sending [out] with [R a bs out];
    for an input that satisfies [need], a timely environment lets it finish
    within [K] events. *)
Definition triple {A} (m : M A) (R : A → list Z → list Z → Prop) (K : nat) (need : list Z → Prop) : Prop :=
  ∀ s, sp_inv s → wp m
    (λ a s', ∃ k bs out, ran k s s' bs out ∧ R a bs out ∧
               (Forall sp_timely (script s) → need (sp_rx s) → (k ≤ K)%nat))
    (λ _, Forall sp_timely (script s) → need (sp_rx s) → (length (script s) < K)%nat) s.

Lemma triple_bind {A C} (m : M A) (f : A → M C) R1 R2 K1 K2 need1 need2 :
  triple m R1 K1 need1 → (∀ a, triple (f a) (R2 a) K2 (need2 a)) →
  triple (m ≫= f)
    (λ c bs out, ∃ a b1 b2 o1 o2, R1 a b1 o1 ∧ R2 a c b2 o2 ∧ bs = b1 ++ b2 ∧ out = o1 ++ o2)
    (K1 + K2) (λ l, need1 l ∧ ∀ a b1 o1 l', R1 a b1 o1 → l = b1 ++ l' → need2 a l').
Proof.
  intros H1 H2 s Hs. apply wp_bind. eapply wp_mono; [| |by apply H1].
  - intros a s1 (k1 & b1 & o1 & Hr1 & HR1 & Hk1).
    eapply wp_mono; [| |apply (H2 a); apply Hr1].
    + intros c s2 (k2 & b2 & o2 & Hr2 & HR2 & Hk2). exists (k1 + k2)%nat, (b1 ++ b2), (o1 ++ o2).
      split; [by eapply ran_trans|]. split; [by exists a, b1, b2, o1, o2|].
      intros Ht [Hn1 Hn2]. specialize (Hk1 Ht Hn1). specialize (Hn2 a b1 o1 _ HR1 (rn_rx _ _ _ _ _ Hr1)).
      specialize (Hk2 (rn_sub _ _ _ _ _ Hr1 _ Ht) Hn2). lia.
    + cbn beta. intros s2 Hb Ht [Hn1 Hn2]. specialize (Hk1 Ht Hn1).
      specialize (Hn2 a b1 o1 _ HR1 (rn_rx _ _ _ _ _ Hr1)).
      specialize (Hb (rn_sub _ _ _ _ _ Hr1 _ Ht) Hn2). pose proof (rn_len _ _ _ _ _ Hr1). lia.
  - cbn beta. intros s1 Hb Ht [Hn1 _]. specialize (Hb Ht Hn1). lia.
Qed.

Lemma triple_mono {A} (m : M A) (R R' : A → list Z → list Z → Prop) K K' (need need' : list Z → Prop) :
  triple m R K need → (∀ a bs out, R a bs out → R' a bs out) → (K ≤ K')%nat → (∀ l, need' l → need l) →
  triple m R' K' need'.
Proof.
  intros H1 HR HK Hn s Hs. eapply wp_mono; [| |by apply H1]; cbn beta.
  - intros a s' (k & bs & out & Hr & Ha & Hk). exists k, bs, out. split; [done|]. split; [auto|].
    intros Ht Hl. specialize (Hk Ht (Hn _ Hl)). lia.
  - intros _ Hb Ht Hl. specialize (Hb Ht (Hn _ Hl)). lia.
Qed.

(** ** Primitive steps *)
Lemma triple_ret {A} (a : A) : triple (mret a) (λ a' bs out, a' = a ∧ bs = [] ∧ out = []) 0 (λ _, True).
Proof.
  intros s Hs. apply wp_ret. exists 0%nat, [], []. split; [|done].
  split; try done. by rewrite app_nil_r.
Qed.

Lemma payload_app t t' : payload (t ++ t') = payload t ++ payload t'.
Proof. unfold payload. by rewrite map_app, concat_app. Qed.

(** A step that touches the peripherals only. *)
Definition silent (m : M unit) : Prop := triple m (λ _ bs out, bs = [] ∧ out = []) 0 (λ _, True).

Lemma silent_local (f : hw → hw) (o : hw → list obs) m :
  (∀ s, m s = Ok tt (Mach (f (hwst s)) (fwst s) (script s) (trace s ++ o (hwst s)))) →
  (∀ h, eps (f h) = eps h ∧ bufs (f h) = bufs h ∧ host (f h) = host h) →
  (∀ h, scopeBuf (f h) = scopeBuf h ∨
     Z.of_nat (length (scopeBuf (f h))) = SCOPE_SIZE ∧ bytes (scopeBuf (f h))) →
  (∀ h, payload (o h) = []) → silent m.
Proof.
  intros Hm Hf Hsc Ho s Hs. eapply wp_Ok; [apply Hm|].
  destruct (law_local s f (λ t, t ++ o (hwst s)) Hf Hs) as [Hi Hr]. exists 0%nat, [], []. split; [|done].
  split; cbn; try done.
  - by rewrite payload_app, Ho.
  - intros _ [H1' H2']. unfold scope_ok. cbn. destruct (Hsc (hwst s)) as [->|[? ?]]; done.
Qed.

Lemma silent_st8 r v : silent (r ::= v).
Proof.
  apply (silent_local (λ h, set_rf (upd (rf h) r (u8 v)) h) (λ _, [OStore r (u8 v)])); [done|done|by left|done].
Qed.
Lemma silent_st16 r v : silent (st16 r v).
Proof.
  apply (silent_local (λ h, set_rf (upd (rf h) r (u16 v)) h) (λ _, [OStore r (u16 v)])); [done|done|by left|done].
Qed.
Lemma silent_w1c r v : silent (st_w1c r v).
Proof.
  apply (silent_local (λ h, set_rf (upd (rf h) r (clr8 (rf h r) (u8 v))) h) (λ _, [OStore r (u8 v)]));
    [done|done|by left|done].
Qed.
Lemma silent_setbits r m : silent (setbits r m).
Proof.
  apply (silent_local (λ h, set_rf (upd (rf h) r (u8 (rf h r .| m))) h) (λ h, [OStore r (u8 (rf h r .| m))]));
    [done|done|by left|done].
Qed.
Lemma silent_clrbits r m : silent (clrbits r m).
Proof.
  apply (silent_local (λ h, set_rf (upd (rf h) r (u8 (clr8 (rf h r) m))) h) (λ h, [OStore r (u8 (clr8 (rf h r) m))]));
    [done|done|by left|done].
Qed.
Lemma silent_setflags r m : silent (setflags r m).
Proof.
  apply (silent_local (λ h, set_rf (upd (rf h) r (clr8 (rf h r) (u8 (rf h r .| m)))) h)
    (λ h, [OStore r (u8 (rf h r .| m))])); [done|done|by left|done].
Qed.
Lemma silent_memset c : byte c → silent (memset_scopeBuf c).
Proof.
  intros Hc. apply (silent_local (set_scopeBuf (replicate (Z.to_nat SCOPE_SIZE) c)) (λ _, [])); [|done| |done].
  - intros s. rewrite app_nil_r. by destruct s.
  - intros h. right. cbn. split; [by rewrite length_replicate|]. by apply Forall_replicate.
Qed.

Lemma silent_iflag b : silent (mod_fw (set_IFlag b)).
Proof.
  intros s Hs. apply wp_modify. destruct (law_iflag s b Hs) as [Hi Hr]. exists 0%nat, [], [].
  split; [|done]. split; cbn; try done. by rewrite app_nil_r.
Qed.

Lemma silent_seq m1 m2 : silent m1 → silent m2 → silent (m1;; m2).
Proof.
  intros S1 S2. eapply triple_mono; [exact (triple_bind m1 (λ _, m2) _ (λ _ _ bs out, bs = [] ∧ out = [])
    0 0 _ (λ _ _, True) S1 (λ _, S2))|..]; [|done|by split].
  intros [] bs out (_ & b1 & b2 & o1 & o2 & [-> ->] & [-> ->] & -> & ->). done.
Qed.

Lemma silent_if (b : bool) m1 m2 : silent m1 → silent m2 → silent (if b then m1 else m2).
Proof. by destruct b. Qed.

(** Waiting for a peripheral: no bound on the number of events. *)
Definition waits {A} (m : M A) : Prop := triple m (λ _ bs out, bs = [] ∧ out = []) 0 (λ _, False).

Lemma silent_waits m : silent m → waits m.
Proof. intros S1. eapply triple_mono; [exact S1|done|done|done]. Qed.

Lemma waits_bind {A C} (m : M A) (f : A → M C) : waits m → (∀ a, waits (f a)) → waits (m ≫= f).
Proof.
  intros S1 S2. eapply triple_mono; [exact (triple_bind m f _ (λ _ _ bs out, bs = [] ∧ out = [])
    0 0 _ (λ _ _, False) S1 S2)|..]; [|done|done].
  intros a bs out (_ & b1 & b2 & o1 & o2 & [-> ->] & [-> ->] & -> & ->). done.
Qed.

Lemma waits_ret {A} (a : A) : waits (mret a).
Proof. eapply triple_mono; [apply triple_ret|by intros ? ? ? (_ & -> & ->)|done|done]. Qed.

Lemma waits_ldv {C} r (f : Z → M C) : (∀ v, waits (f v)) → waits (v ← ldv r; f v).
Proof.
  intros Hf. apply waits_bind; [|done]. intros s Hs. unfold ldv. apply wp_bind.
  eapply wp_mono; [| |by apply law_poll]; cbn beta; [|done].
  intros [] s' (Hi & Hr & Ht & He). apply wp_gets. exists 1%nat, [], []. split; [|done].
  pose proof (elapsed_scope _ _ _ He) as Hsc. destruct He. split; try done. by rewrite Ht, app_nil_r.
Qed.

(** A loop whose body waits, and polls in each iteration. *)
Lemma waits_iter {A X} (body : X → M (X + A)) x :
  (∀ x, waits (body x)) →
  (∀ x s, sp_inv s → wp (body x) (λ r s', match r with
     | inl _ => (length (script s') < length (script s))%nat | inr _ => True end) (λ _, True) s) →
  waits (iter 0 body x).
Proof.
  intros Hb Hl s Hs.
  apply (wp_iter_poll (λ _ s1, ∃ k, ran k s s1 [] [])).
  2: { exists 0%nat. split; try done. by rewrite app_nil_r. }
  intros x1 s1 (k & Hr1). pose proof (Hb x1 s1 (rn_inv _ _ _ _ _ Hr1)) as Hb1.
  pose proof (Hl x1 s1 (rn_inv _ _ _ _ _ Hr1)) as Hl1. unfold wp in *.
  destruct (body x1 s1) as [r s2|s2|s2|s2]; try done.
  destruct Hb1 as (k2 & bs & out & Hr2 & [-> ->] & _). pose proof (ran_trans _ _ _ _ _ _ _ _ _ Hr1 Hr2) as Hr.
  destruct r as [x2|a].
  - split; [by eexists|done].
  - by eexists _, [], [].
Qed.
Lemma wp_ldv_shrinks {A X} r (f : Z → M (X + A)) s : sp_inv s → (∀ v s, ∃ x, f v s = Ok x s) →
  wp (v ← ldv r; f v) (λ r s', match r with
     | inl _ => (length (script s') < length (script s))%nat | inr _ => True end) (λ _, True) s.
Proof.
  intros Hs Hf. unfold ldv. apply wp_bind, wp_bind. eapply wp_mono; [| |by apply law_poll]; [|done].
  intros [] s' (_ & _ & _ & He). apply wp_gets. destruct (Hf (rf (hwst s') r) s') as [x Ex].
  eapply wp_Ok; [exact Ex|]. rewrite (el_len _ _ _ He). destruct x; [lia|done].
Qed.

Lemma waits_while r (c : Z → bool) : waits (while_ (v ← ldv r; mret (c v)) (mret tt)).
Proof.
  apply waits_iter.
  - intros []. apply waits_bind; [apply waits_ldv; intros; apply waits_ret|].
    intros [|]; [apply waits_bind; intros|]; apply waits_ret.
  - intros [] s Hs. apply wp_bind, wp_bind.
    apply (wp_ldv_shrinks r (λ v, if c v then mret tt;; mret (inl tt) else mret (inr tt))) in Hs.
    + apply wp_unbind in Hs. eapply wp_mono; [| |exact Hs]; [|done].
      intros v s' Hv. apply wp_ret. exact Hv.
    + intros v s1. destruct (c v); by eexists.
Qed.

(** ** Peripherals *)
Create HintDb quiet.
#[local] Hint Resolve silent_st8 silent_st16 silent_w1c silent_setbits silent_clrbits silent_setflags
  silent_iflag silent_seq silent_if silent_waits waits_ret : quiet.
#[local] Hint Extern 1 (waits (while_ _ _)) => apply waits_while : quiet.
(** Through a sequence, one statement after the other. *)
Ltac quiet_seq :=
  repeat lazymatch goal with |- waits (_ ≫= _) => apply waits_bind; [auto 20 with quiet|intros ?] end;
  auto 20 with quiet.

Lemma silent_gain g : silent (adc_ch_gain g).
Proof. unfold adc_ch_gain. auto with quiet. Qed.
Lemma silent_prescaler g : silent (adc_prescaler g).
Proof. unfold adc_prescaler. auto with quiet. Qed.
Lemma silent_calibrate g : silent (adc_calibrate g).
Proof. unfold adc_calibrate. auto with quiet. Qed.
Lemma silent_counter c : silent (hires_set_counter c).
Proof. unfold hires_set_counter. auto with quiet. Qed.
Lemma silent_compare c : silent (hires_set_compare c).
Proof. unfold hires_set_compare. auto 20 with quiet. Qed.
Lemma silent_intlvl c : silent (adc_ch_intlvl c).
Proof. unfold adc_ch_intlvl. auto with quiet. Qed.
Lemma silent_trigger_init : silent trigger_init.
Proof. unfold trigger_init. auto 40 with quiet. Qed.
#[local] Hint Resolve silent_gain silent_prescaler silent_calibrate silent_counter silent_compare
  silent_intlvl silent_trigger_init : quiet.

Lemma waits_glitch : waits hires_glitch.
Proof. unfold hires_glitch, hires_stop_timer. quiet_seq. Qed.

Lemma waits_repeat n m : waits m → waits (repeat_ n m).
Proof. intros Hm. induction n; cbn; quiet_seq. Qed.

Lemma waits_dmaadc_init b : waits (dmaadc_init b).
Proof. unfold dmaadc_init. quiet_seq. Qed.

Lemma waits_dmaadc_read p n b : waits (dmaadc_read_buf_ch0 p n b).
Proof. unfold dmaadc_read_buf_ch0, cli, sei. quiet_seq. Qed.

Lemma waits_trigger t d : waits (trigger_wait t d).
Proof.
  unfold trigger_wait. do 11 (apply waits_bind; [auto with quiet|intros _]). apply waits_bind.
  - apply waits_iter.
    + intros x. unfold trigger_body. destruct (x >? 0); [|apply waits_ret].
      apply waits_ldv. intros v. destruct (v =? 0); apply waits_ret.
    + intros x s Hs. unfold trigger_body. destruct (x >? 0); [|by apply wp_ret].
      apply wp_ldv_shrinks; [done|]. intros v s1. destruct (v =? 0); by eexists.
  - intros x. apply waits_bind; [auto with quiet|intros _].
    destruct (x =? 0); quiet_seq.
Qed.

(** ** The serial port *)
Lemma triple_get : triple sp_get_char (λ v bs out, bs = [v] ∧ byte v ∧ out = []) 8 (λ l, (1 ≤ length l)%nat).
Proof.
  intros s Hs. eapply wp_mono; [| |by apply law_get_char]; [|done].
  intros v s' (Hi & Ht & (bs & Hl & Hb & Hr & ->) & k & He & Hk). destruct bs as [|b []]; try done.
  apply Forall_cons in Hb as [Hb _]. exists k, [b], []. split; [|split; [done|auto]].
  pose proof (elapsed_scope _ _ _ He) as Hsc. destruct He. split; try done. by rewrite Ht, app_nil_r.
Qed.

Lemma triple_get_short : triple sp_get_short
  (λ v bs out, ∃ hi lo, bs = [hi; lo] ∧ byte hi ∧ byte lo ∧ v = value16 hi lo ∧ out = []) 16
  (λ l, (2 ≤ length l)%nat).
Proof.
  intros s Hs. eapply wp_mono; [| |by apply law_get_short]; [|done].
  intros v s' (Hi & Ht & (bs & Hl & Hb & Hr & ->) & k & He & Hk). destruct bs as [|a [|b []]]; try done.
  apply Forall_cons in Hb as [Ha [Hb _]%Forall_cons]. exists k, [a; b], [].
  split; [|split; [by exists a, b|auto]]. pose proof (elapsed_scope _ _ _ He) as Hsc.
  destruct He. split; try done. by rewrite Ht, app_nil_r.
Qed.

Lemma triple_send m o K : (∀ s, sp_inv s →
    wp m (send_post sp_inv sp_rx sp_timely o K s) (send_stuck sp_timely K s) s) →
  triple m (λ _ bs out, bs = [] ∧ out = payload o) K (λ _, True).
Proof.
  intros Hm s Hs. eapply wp_mono; [| |by apply Hm]; [|unfold send_stuck; auto].
  intros [] s' (Hi & Hr & Ht & k & He & Hk). exists k, [], (payload o). split; [|split; [done|auto]].
  pose proof (elapsed_scope _ _ _ He) as Hsc. destruct He. split; try done. by rewrite Ht, payload_app.
Qed.

Lemma triple_put c : byte c → triple (sp_put_char c) (λ _ bs out, bs = [] ∧ out = [c]) 3 (λ _, True).
Proof.
  intros Hc. eapply triple_mono; [apply triple_send; intros s Hs; by apply law_put_char|..]; [|done|done].
  intros [] bs out [-> ->]. by rewrite law_out, u8_small.
Qed.

Lemma payload_chars l : payload (concat (map (λ c, sp_out [c]) l)) = l.
Proof. induction l as [|c l IH]; [done|]. cbn. by rewrite payload_app, law_out, IH. Qed.

Lemma triple_string l : bytes l → Forall (λ c, c ≠ 0) l →
  triple (sp_put_string_P (l ++ [0])) (λ _ bs out, bs = [] ∧ out = l) (3 * length l) (λ _, True).
Proof.
  intros Hb Hz. eapply triple_mono; [apply triple_send; intros s Hs; by apply law_put_string|..]; [|done|done].
  intros [] bs out [-> ->]. by rewrite payload_chars.
Qed.

(** ** Commands *)

(** Sequencing with effects that are known exactly. *)
Lemma triple_then {C} (m : M unit) (f : M C) o R K1 K2 need :
  triple m (λ _ bs out, bs = [] ∧ out = o) K1 (λ _, True) →
  triple f (λ c bs out, R c bs (o ++ out)) K2 need → triple (m;; f) R (K1 + K2) need.
Proof.
  intros H1 H2. eapply triple_mono; [eapply triple_bind; [exact H1|intros a; exact H2]|..]; [|done|].
  - intros c bs out (_ & b1 & b2 & o1 & o2 & [-> ->] & HR & -> & ->). done.
  - intros l Hn. split; [done|]. intros [] b1 o1 l' [-> _] ->. done.
Qed.

Lemma triple_silent {C} (m : M unit) (f : M C) R K need : silent m → triple f R K need → triple (m;; f) R K need.
Proof. intros H1 H2. by apply (triple_then m f [] R 0 K need). Qed.

Lemma triple_waits {A C} (m : M A) (f : A → M C) R :
  waits m → (∀ a, triple (f a) R 0 (λ _, False)) → triple (m ≫= f) R 0 (λ _, False).
Proof.
  intros H1 H2. eapply triple_mono; [exact (triple_bind m f _ _ _ _ _ _ H1 H2)|..]; [|done|done].
  intros c bs out (a & b1 & b2 & o1 & o2 & [-> ->] & HR & -> & ->). done.
Qed.

Lemma triple_pure {A} (a : A) (R : A → list Z → list Z → Prop) need : R a [] [] → triple (mret a) R 0 need.
Proof. intros Ha. eapply triple_mono; [apply triple_ret|by intros ? ? ? (-> & -> & ->)|done|done]. Qed.

(** An unbounded specification. *)
Lemma triple_forget {A} (m : M A) R K need : triple m R K need → triple m R 0 (λ _, False).
Proof.
  intros H1 s Hs. eapply wp_mono; [| |by apply H1]; [|done].
  intros a s' (k & bs & out & Hr & Ha & _). by exists k, bs, out.
Qed.

Lemma triple_input {C} (m : M Z) (P : Z → list Z → Prop) (f : Z → M C) R n K0 K :
  triple m (λ v bs out, P v bs ∧ out = []) K0 (λ l, (n ≤ length l)%nat) →
  (∀ v bs, P v bs → triple (f v) (λ c bs' out, R c (bs ++ bs') out) K (λ _, True)) →
  triple (m ≫= f) R (K0 + K) (λ l, (n ≤ length l)%nat).
Proof.
  intros Hm Hf s Hs. apply wp_bind. eapply wp_mono; [| |by apply Hm]; cbn beta.
  - intros x s1 (k1 & b1 & o1 & Hr1 & [HP ->] & Hk1).
    eapply wp_mono; [| |apply (Hf x b1 HP); apply Hr1]; cbn beta.
    + intros c s2 (k2 & b2 & o2 & Hr2 & HR2 & Hk2). exists (k1 + k2)%nat, (b1 ++ b2), o2.
      split; [exact (ran_trans _ _ _ _ _ b1 b2 [] o2 Hr1 Hr2)|]. split; [done|].
      intros Ht Hn. specialize (Hk1 Ht Hn). specialize (Hk2 (rn_sub _ _ _ _ _ Hr1 _ Ht) I). lia.
    + intros s2 Hb Ht Hn. specialize (Hk1 Ht Hn). specialize (Hb (rn_sub _ _ _ _ _ Hr1 _ Ht) I).
      pose proof (rn_len _ _ _ _ _ Hr1). lia.
  - intros _ Hb Ht Hn. specialize (Hb Ht Hn). lia.
Qed.

Lemma triple_arg {C} (f : Z → M C) R K :
  (∀ x, byte x → triple (f x) (λ c bs out, R c (x :: bs) out) K (λ _, True)) →
  triple (x ← sp_get_char; f x) R (8 + K) (λ l, (1 ≤ length l)%nat).
Proof.
  intros Hf. apply (triple_input _ (λ v bs, bs = [v] ∧ byte v)).
  - eapply triple_mono; [apply triple_get|by intros ? ? ? (-> & ? & ->)|done|done].
  - by intros v bs [-> Hv]; apply Hf.
Qed.

Lemma triple_arg16 {C} (f : Z → M C) R K :
  (∀ hi lo, byte hi → byte lo → triple (f (value16 hi lo)) (λ c bs out, R c (hi :: lo :: bs) out) K (λ _, True)) →
  triple (x ← sp_get_short; f x) R (16 + K) (λ l, (2 ≤ length l)%nat).
Proof.
  intros Hf. apply (triple_input _ (λ v bs, ∃ hi lo, bs = [hi; lo] ∧ byte hi ∧ byte lo ∧ v = value16 hi lo)).
  - eapply triple_mono; [apply triple_get_short| |done|done].
    intros v bs out (hi & lo & -> & Hhi & Hlo & -> & ->). split; [by exists hi, lo|done].
  - intros v bs (hi & lo & -> & Hhi & Hlo & ->). by apply Hf.
Qed.

(** The handler of each command keeps to the protocol. *)
Definition handles (c : Z) (m : locals → M locals) (K : nat) (need : list Z → Prop) : Prop :=
  ∀ l, triple (m l) (λ l' bs out, reply l c bs out l') K need.

Ltac put_done :=
  lazymatch goal with |- triple (put ?c ≫= _) _ _ _ =>
    apply (triple_then (put c) _ (chars c) _ 3 0); [by apply triple_put|apply triple_pure] end.

Lemma handles_T c : c = char "T" ∨ c = char "t" → handles c cmd_T 3 (λ _, True).
Proof. intros Hc l. unfold cmd_T. put_done. by constructor. Qed.

Lemma handles_n : handles (char "n") cmd_n 64 (λ l, (2 ≤ length l)%nat).
Proof.
  intros l. apply (triple_arg16 _ _ 48). intros hi lo Hhi Hlo. destruct (Z.gtb_spec (value16 hi lo) SCOPE_SIZE).
  - apply (triple_then _ _ (line "Buffer too big") _ 48 0);
      [|apply triple_pure; rewrite app_nil_r; by constructor].
    unfold PSTR_line. rewrite app_assoc. apply triple_string; by repeat constructor.
  - apply (triple_mono _ (λ l' bs out, reply l (char "n") (hi :: lo :: bs) out l') _ 3 _ (λ _, True));
      [put_done; by constructor|done|lia|done].
Qed.

Lemma handles_g : handles (char "g") cmd_g 11 (λ l, (1 ≤ length l)%nat).
Proof. intros l. apply (triple_arg _ _ 3). intros x Hx. apply triple_silent; [apply silent_gain|]. put_done. constructor. Qed.

Lemma handles_c : handles (char "c") cmd_c 11 (λ l, (1 ≤ length l)%nat).
Proof. intros l. apply (triple_arg _ _ 3). intros x Hx. apply triple_silent; [apply silent_prescaler|]. put_done. constructor. Qed.

Lemma handles_b : handles (char "b") cmd_b 19 (λ l, (2 ≤ length l)%nat).
Proof. intros l. apply (triple_arg16 _ _ 3). intros hi lo Hhi Hlo. apply triple_silent; [apply silent_calibrate|]. put_done. constructor. Qed.

Lemma handles_w : handles (char "w") cmd_w 19 (λ l, (2 ≤ length l)%nat).
Proof. intros l. apply (triple_arg16 _ _ 3). intros hi lo Hhi Hlo. put_done. constructor. Qed.

Lemma handles_e : handles (char "e") cmd_e 19 (λ l, (2 ≤ length l)%nat).
Proof. intros l. apply (triple_arg16 _ _ 3). intros hi lo Hhi Hlo. put_done. constructor. Qed.

Lemma handles_l : handles (char "l") cmd_l 19 (λ l, (2 ≤ length l)%nat).
Proof.
  intros l. apply (triple_arg16 _ _ 3). intros hi lo Hhi Hlo. put_done.
  replace (u8 (value16 hi lo)) with lo; [by constructor|].
  unfold u8, value16. unfold byte in *. rewrite Z.add_comm, Z.mod_add, Z.mod_small; lia.
Qed.

Lemma handles_p : handles (char "p") cmd_p 11 (λ l, (1 ≤ length l)%nat).
Proof. intros l. apply (triple_arg _ _ 3). intros x Hx. put_done. constructor. Qed.

Lemma handles_x : handles (char "x") cmd_x 3 (λ _, True).
Proof. intros l. do 2 (apply triple_silent; [apply silent_st8|]). put_done. constructor. Qed.

Lemma handles_y : handles (char "y") cmd_y 3 (λ _, True).
Proof. intros l. do 2 (apply triple_silent; [apply silent_st8|]). put_done. constructor. Qed.

Lemma handles_invalid c : byte c → c ∉ chars "Ttdsngcbf8hwlepxy" → handles c (cmd_invalid c) 57 (λ _, True).
Proof.
  intros Hb Hc l. apply (triple_then _ _ (chars "Invalid command:") _ 48 9);
    [apply triple_string; by repeat constructor|].
  apply (triple_then _ _ [c] _ 3 6); [by apply triple_put|].
  apply (triple_then _ _ CRLF _ 6 0); [apply (triple_string CRLF); by repeat constructor|].
  apply triple_pure. by constructor.
Qed.

(** The commands that wait for a trigger or for the DMA controller. *)
Lemma triple_put_last (b : bool) (c1 c2 : string) (l : locals) (R : locals → list Z → list Z → Prop) :
  byte (char c1) → byte (char c2) → R l [] [char (if b then c1 else c2)] →
  triple (put (if b then c1 else c2);; mret l) R 0 (λ _, False).
Proof.
  intros H1 H2 HR. apply (triple_forget _ _ 3 (λ _, True)).
  apply (triple_then _ _ [char (if b then c1 else c2)] _ 3 0); [|by apply triple_pure].
  apply triple_put. by destruct b.
Qed.

Lemma triple_put_first {A} (c : string) (f : M A) (R : A → list Z → list Z → Prop) : byte (char c) →
  triple f (λ a bs out, R a bs (char c :: out)) 0 (λ _, False) → triple (put c;; f) R 0 (λ _, False).
Proof.
  intros Hc Hf. apply (triple_forget _ _ (3 + 0) (λ _, False)).
  apply (triple_then _ _ [char c]); [by apply triple_put|done].
Qed.

Lemma handles_d : handles (char "d") cmd_d 0 (λ _, False).
Proof.
  intros l. apply triple_silent; [by apply silent_memset|]. apply triple_put_first; [done|].
  apply triple_waits; [apply waits_trigger|]. intros t. apply triple_waits; [apply waits_dmaadc_read|].
  intros _. apply triple_put_last; [done|done|]. destruct (negb (t =? 0)).
  - exact (reply_arm l true).
  - exact (reply_arm l false).
Qed.

Lemma handles_f : handles (char "f") cmd_f 0 (λ _, False).
Proof.
  intros l. apply triple_put_first; [done|]. apply triple_waits; [apply waits_trigger|]. intros t.
  apply triple_put_last; [done|done|]. destruct (negb (t =? 0)).
  - exact (reply_fault l true).
  - exact (reply_fault l false).
Qed.

Lemma handles_h : handles (char "h") cmd_h 0 (λ _, False).
Proof.
  intros l. apply triple_silent; [apply silent_counter|]. apply triple_silent; [apply silent_compare|].
  apply triple_put_first; [done|]. apply triple_waits; [apply waits_trigger|]. intros t.
  apply triple_waits.
  { apply waits_repeat, waits_bind; [apply silent_waits, silent_counter|intros _; apply waits_glitch]. }
  intros _. apply triple_put_last; [done|done|]. destruct (negb (t =? 0)).
  - exact (reply_glitch l true).
  - exact (reply_glitch l false).
Qed.

Lemma handles_8 : handles (char "8") cmd_8 8 (λ _, False).
Proof.
  intros l. unfold cmd_8.
  eapply triple_mono; [eapply (triple_bind _ _ _ (λ b l' bs out, reply l (char "8") (b :: bs) out l') 8 0
    _ (λ _ _, False) triple_get)|..]; [|..|done|done].
  - intros b. apply triple_waits; [apply waits_dmaadc_init|]. intros _.
    apply triple_waits; [apply silent_waits, silent_trigger_init|]. intros _.
    apply (triple_forget _ _ 3 (λ _, True)). put_done. constructor.
  - intros l' bs out (b & b1 & b2 & o1 & o2 & (-> & _ & ->) & HR & -> & ->). done.
Qed.

(** ** The loop *)
Lemma triple_imm c (m : M locals) R K (n : nat) :
  triple m R K (λ inp, (n ≤ length inp)%nat) → (K ≤ 64)%nat → (n ≤ nargs c)%nat →
  triple m (λ l' bs out, R l' bs out) 64 (λ inp, immediate c = true ∧ (nargs c ≤ length inp)%nat).
Proof. intros Hm HK Hn. eapply triple_mono; [apply Hm|done|done|]. intros ? [_ ?]. lia. Qed.

Lemma triple_late c (m : M locals) R K :
  triple m R K (λ _, False) → (K ≤ 64)%nat → immediate c = false →
  triple m (λ l' bs out, R l' bs out) 64 (λ inp, immediate c = true ∧ (nargs c ≤ length inp)%nat).
Proof. intros Hm HK Hi. eapply triple_mono; [apply Hm|done|done|]. intros ? [? _]. congruence. Qed.

(** Every command except the sample fetch. *)
Lemma dispatch_handles c : byte c → c ≠ char "s" →
  handles c (dispatch c) 64 (λ inp, immediate c = true ∧ (nargs c ≤ length inp)%nat).
Proof.
  intros Hb Hs l. unfold dispatch.
  assert (∀ m K, handles c m K (λ _, True) → (K ≤ 64)%nat →
     triple (m l) (λ l' bs out, reply l c bs out l') 64
       (λ inp, immediate c = true ∧ (nargs c ≤ length inp)%nat)) as H0.
  { intros m K Hm HK. by eapply triple_mono; [apply Hm|..]. }
  destruct (Z.eqb_spec c (char "T")) as [->|NT]; [apply (H0 _ 3%nat); [apply handles_T; auto|lia]|].
  destruct (Z.eqb_spec c (char "t")) as [->|Nt]; [apply (H0 _ 3%nat); [apply handles_T; auto|lia]|].
  cbn [orb].
  destruct (Z.eqb_spec c (char "d")) as [->|Nd]; [by eapply triple_late; [apply handles_d|lia|]|].
  destruct (Z.eqb_spec c (char "s")) as [->|_]; [done|].
  destruct (Z.eqb_spec c (char "n")) as [->|Nn]; [by eapply triple_imm; [apply handles_n|lia|]|].
  destruct (Z.eqb_spec c (char "g")) as [->|Ng]; [by eapply triple_imm; [apply handles_g|lia|]|].
  destruct (Z.eqb_spec c (char "c")) as [->|Nc]; [by eapply triple_imm; [apply handles_c|lia|]|].
  destruct (Z.eqb_spec c (char "b")) as [->|Nb]; [by eapply triple_imm; [apply handles_b|lia|]|].
  destruct (Z.eqb_spec c (char "f")) as [->|Nf]; [by eapply triple_late; [apply handles_f|lia|]|].
  destruct (Z.eqb_spec c (char "8")) as [->|N8]; [by eapply triple_late; [apply handles_8|lia|]|].
  destruct (Z.eqb_spec c (char "h")) as [->|Nh]; [by eapply triple_late; [apply handles_h|lia|]|].
  destruct (Z.eqb_spec c (char "w")) as [->|Nw]; [by eapply triple_imm; [apply handles_w|lia|]|].
  destruct (Z.eqb_spec c (char "l")) as [->|Nl]; [by eapply triple_imm; [apply handles_l|lia|]|].
  destruct (Z.eqb_spec c (char "e")) as [->|Ne]; [by eapply triple_imm; [apply handles_e|lia|]|].
  destruct (Z.eqb_spec c (char "p")) as [->|Np]; [by eapply triple_imm; [apply handles_p|lia|]|].
  destruct (Z.eqb_spec c (char "x")) as [->|Nx]; [apply (H0 _ 3%nat); [apply handles_x|lia]|].
  destruct (Z.eqb_spec c (char "y")) as [->|Ny]; [apply (H0 _ 3%nat); [apply handles_y|lia]|].
  apply (H0 _ 57%nat); [|lia]. apply handles_invalid; [done|]. cbn [chars].
  repeat (apply not_elem_of_cons; split; [done|]). apply not_elem_of_nil.
Qed.

(** The settings a program run can reach. *)
Definition settings_ok (l : locals) : Prop :=
  0 ≤ timeout l < 65536 ∧ word16 (delay l) ∧ 0 ≤ numberOfSamples l ≤ SCOPE_SIZE ∧
  byte (glitch_length l) ∧ (bits12 l = 0 ∨ bits12 l = 1) ∧ byte (pulses l).

Lemma settings_init : settings_ok locals_init.
Proof. repeat split; try done; try lia. by right. Qed.

Lemma settings_reply l c args out l' : bytes args → reply l c args out l' → settings_ok l → settings_ok l'.
Proof.
  intros Hb Hr (Ht & Hd & Hn & Hg & H1 & Hp).
  destruct Hr; repeat apply Forall_cons in Hb as [? Hb]; unfold settings_ok, word16, byte, value16 in *;
    cbn; repeat split; try lia; auto.
  pose proof (Z.land_ones x 1 ltac:(lia)) as E. change (Z.ones 1) with 1 in E. rewrite E.
  change (2 ^ 1) with 2. pose proof (Z.mod_pos_bound x 2). lia.
Qed.

(** Reading the sample buffer through [read_scopeBuf], whatever the DMA
    controller does to it. *)
Lemma read_scopeBuf_yields (R : relation (list Z)) m0 n : (∀ m, R m0 m → samples_ok m) → Z.of_nat n ≤ SCOPE_SIZE →
  yields R read_scopeBuf (λ m i, m !!! i) m0 n.
Proof.
  intros HR Hn i m Hi Hm. destruct (HR m Hm) as [Hl Hb]. destruct (lookup_lt_is_Some_2 m i) as [x Hx]; [lia|].
  rewrite (list_lookup_total_correct _ _ _ Hx). split; [exact (Forall_lookup_1 _ _ _ _ Hb Hx)|].
  intros s Hs. unfold read_scopeBuf, mbind, M_bind, get_hw, gets. rewrite Hs.
  assert (rd m (Z.of_nat i) = Some x) as ->; [|done]. apply rd_Some. split; [lia|]. by rewrite Nat2Z.id.
Qed.

Lemma read_scopeBuf_reads mem n : reads read_scopeBuf mem (take n mem).
Proof.
  intros i x s Hm Hx. unfold read_scopeBuf, mbind, M_bind, get_hw, gets. rewrite Hm.
  apply lookup_take_Some in Hx as [Hx _].
  assert (rd mem (Z.of_nat i) = Some x) as ->; [|done]. apply rd_Some. split; [lia|]. by rewrite Nat2Z.id.
Qed.

(** The sample fetch sends [numberOfSamples] bytes, also while the DMA
    controller is still writing. *)
Lemma cmd_s_sends l s : sp_inv s → settings_ok l → scope_ok s → Forall scope_event (script s) →
  wp (cmd_s l) (λ l' s', l' = l ∧ ∃ k data, Z.of_nat (length data) = numberOfSamples l ∧ ran k s s' [] data)
    (λ _, True) s.
Proof.
  intros Hi (_ & _ & Hn & _) Hs Hk. unfold cmd_s. apply wp_bind.
  destruct (Z_of_nat_complete (numberOfSamples l)) as [n E]; [lia|]. rewrite E in Hn |- *.
  eapply wp_mono; [| |apply (law_put_buf any_samples read_scopeBuf (λ m i, m !!! i) n s)]; try done.
  - intros [] s' (ps & Hps & _ & Hi' & Hr & Ht & k & He & _). apply wp_ret. split; [done|]. exists k, (concat ps).
    split; [by rewrite Hps|]. pose proof (elapsed_scope _ _ _ He) as Hsc. destruct He.
    split; try done. by rewrite Ht, payload_app, law_out.
  - apply _.
  - apply read_scopeBuf_yields; [auto|lia].
  - change SCOPE_SIZE with 3584 in *. lia.
Qed.

(** A complete command that waits for nothing but the port. *)
Definition ready_input (inp : list Z) : Prop :=
  ∃ c rest, inp = c :: rest ∧ immediate c = true ∧ (nargs c ≤ length rest)%nat.

Definition step_post (l : locals) (s : mach) (l' : locals) (s' : mach) : Prop :=
  ∃ k c args out, ran k s s' (c :: args) out ∧ reply l c args out l' ∧ bytes (c :: args) ∧
    (Forall sp_timely (script s) → ready_input (sp_rx s) → (k ≤ 72)%nat).
Definition step_stuck (s _ : mach) : Prop :=
  Forall sp_timely (script s) → ready_input (sp_rx s) → (length (script s) < 72)%nat.

Lemma main_step_wp l s : sp_inv s → bytes (sp_rx s) → settings_ok l →
  (head (sp_rx s) = Some (char "s") → scope_ok s ∧ Forall scope_event (script s)) →
  wp (main_step l) (step_post l s) (step_stuck s) s.
Proof.
  intros Hi Hb Hl Hf. unfold main_step. apply wp_bind. eapply wp_mono; [| |by apply law_get_char].
  2: { unfold recv_stuck, step_stuck. intros _ Hs Ht (c & rest & E & _ & _).
       specialize (Hs Ht). rewrite E in Hs. cbn in Hs. specialize (Hs ltac:(lia)). lia. }
  intros v s1 (Hi1 & Ht1 & (bs & Hbl & Hbb & Hr1 & ->) & k1 & He1 & Hk1). destruct bs as [|c []]; try done.
  change (be_val [c]) with c. apply Forall_cons in Hbb as [Hc _].
  assert (ran k1 s s1 [c] []) as Hran1.
  { pose proof (elapsed_scope _ _ _ He1) as Hsc. destruct He1. split; try done. by rewrite Ht1, app_nil_r. }
  destruct (decide (c = char "s")) as [->|Hns].
  - rewrite Hr1 in Hf. destruct (Hf eq_refl) as [Hsc Hks].
    eapply wp_mono; [| |apply (cmd_s_sends l s1)]; try done.
    + intros l' s2 (-> & k2 & data & Hlen & Hran2). exists (k1 + k2)%nat, (char "s"), [], data.
      split; [exact (ran_trans _ _ _ _ _ _ _ _ _ Hran1 Hran2)|]. split; [by constructor|].
      split; [by repeat constructor|].
      intros _ (c & rest & E & Him & _). rewrite Hr1 in E. injection E as <- _. discriminate.
    + unfold step_stuck. intros _ _ _ (c & rest & E & Him & _). rewrite Hr1 in E. injection E as <- _. discriminate.
    + by apply (rn_scope _ _ _ _ _ Hran1).
    + by apply (el_sub _ _ _ He1).
  - pose proof (dispatch_handles c Hc Hns l s1 Hi1) as Hd. eapply wp_mono; [| |exact Hd]; cbn beta.
    + intros l' s2 (k2 & args & out & Hran2 & Hrep & Hk2). exists (k1 + k2)%nat, c, args, out.
      split; [exact (ran_trans _ _ _ _ _ _ _ _ _ Hran1 Hran2)|]. split; [done|].
      split; [rewrite Hr1, (rn_rx _ _ _ _ _ Hran2) in Hb; cbn in Hb;
              apply Forall_cons in Hb as [? Hb]; apply Forall_app in Hb as [? _]; by constructor|].
      intros Ht (c' & rest & E & Him & Hn). rewrite Hr1 in E. injection E as <- <-.
      specialize (Hk1 Ht). specialize (Hk2 (el_sub _ _ _ He1 _ Ht) (conj Him Hn)). lia.
    + unfold step_stuck. intros _ Hst Ht (c' & rest & E & Him & Hn). rewrite Hr1 in E. injection E as <- <-.
      specialize (Hk1 Ht). specialize (Hst (el_sub _ _ _ He1 _ Ht) (conj Him Hn)).
      pose proof (el_len _ _ _ He1). lia.
Qed.

(** Whole sessions: the commands taken from the stream, and their replies. *)
Inductive session : locals → list Z → list Z → locals → Prop :=
  | session_nil l : session l [] [] l
  | session_cons l1 c args out l2 inp outs l3 :
      reply l1 c args out l2 → session l2 inp outs l3 → session l1 (c :: args ++ inp) (out ++ outs) l3.

Lemma main_loop_wp n l s : sp_inv s → bytes (sp_rx s) → settings_ok l →
  (scope_ok s ∧ Forall scope_event (script s)) ∨ char "s" ∉ sp_rx s →
  wp (main_loop n l) (λ l' s', settings_ok l' ∧ ∃ k inp out, ran k s s' inp out ∧ session l inp out l')
    (λ _, True) s.
Proof.
  revert l s. induction n as [|n IH]; intros l s Hi Hb Hl Hsc; cbn [main_loop].
  - apply wp_ret. split; [done|]. exists 0%nat, [], []. split; [|constructor].
    split; try done. by rewrite app_nil_r.
  - apply wp_bind. eapply wp_mono; [| |apply main_step_wp]; try done.
    2: { intros Hh. destruct Hsc as [?|Hns]; [done|]. destruct (sp_rx s); [done|]. cbn in Hh.
         injection Hh as ->. destruct Hns. by left. }
    intros l1 s1 (k1 & c & args & out & Hr1 & Hrep & Hba & _).
    assert (bytes (sp_rx s1)) as Hb1.
    { rewrite (rn_rx _ _ _ _ _ Hr1) in Hb. by apply Forall_app in Hb as [_ ?]. }
    assert (settings_ok l1) as Hl1.
    { eapply settings_reply; [|done|done]. by apply Forall_cons in Hba as [_ ?]. }
    eapply wp_mono; [| |apply (IH l1 s1)]; try done.
    + intros l2 s2 (Hl2 & k2 & inp & out2 & Hr2 & Hs2). split; [done|].
      exists (k1 + k2)%nat, ((c :: args) ++ inp), (out ++ out2). split; [by eapply ran_trans|by econstructor].
    + apply Hr1.
    + destruct Hsc as [[Hsc Hk]|Hns]; [left|right].
      * split; [by apply (rn_scope _ _ _ _ _ Hr1)|by apply (rn_sub _ _ _ _ _ Hr1)].
      * rewrite (rn_rx _ _ _ _ _ Hr1) in Hns. by apply not_elem_of_app in Hns as [_ ?].
Qed.

End protocol.
