(* ===== verification/EndpointSpec.v ===== *)
(** * Endpoint configuration, the bus interrupt and the ready wait

    Lemmas about Endpoint.v, Controller.v and EndpointPoll.v that hold for
    every state of the machine and, where the code waits, for the environments
    described with each of them. *)
From S2P Require Import Prelude RingBuffer Machine Endpoint Controller EndpointPoll Logic.

(** ** Endpoint sizes *)

(** The size codes: 8 << m bytes. *)
Lemma epsize_loop_spec (n : nat) Bytes m :
  0 ≤ m → m + Z.of_nat n = 12 → (m = 0 ∨ 2 ^ (m + 2) < Bytes) → Bytes ≤ 32768 →
  ∃ m', epsize_loop n Bytes m (2 ^ (m + 3)) = Some m' ∧ m ≤ m' ≤ 12 ∧ Bytes ≤ 2 ^ (m' + 3) ∧
        (m' = 0 ∨ 2 ^ (m' + 2) < Bytes).
Proof.
  revert m. induction n as [|n IH]; intros m Hm Hn Hlo Hb; cbn [epsize_loop].
  - replace m with 12 in * by lia. destruct (Z.ltb_spec (2 ^ (12 + 3)) Bytes) as [H|H]; [cbn in H; lia|].
    exists 12. split; [done|]. lia.
  - destruct (Z.ltb_spec (2 ^ (m + 3)) Bytes) as [H|H]; [|exists m; split; [done|]; lia].
    rewrite u8_small by (unfold byte; lia).
    assert (2 ^ (m + 3) << 1 = 2 ^ (m + 1 + 3)) as E.
    { rewrite Z.shiftl_mul_pow2 by lia. replace (m + 1 + 3) with (m + 3 + 1) by lia.
      rewrite (Z.pow_add_r 2 (m + 3) 1) by lia. done. }
    rewrite E, u16_small.
    2: { unfold word16. pose proof (Z.pow_le_mono_r 2 (m + 1 + 3) 15). change (2 ^ 15) with 32768 in *.
         pose proof (Z.pow_pos_nonneg 2 (m + 1 + 3)). lia. }
    destruct (IH (m + 1)) as (m' & Hm' & Hr); [lia|lia|right; by replace (m + 1 + 2) with (m + 3) by lia|done|].
    exists m'. split; [done|]. lia.
Qed.

Lemma BytesToEPSizeMask_spec Bytes : 0 ≤ Bytes ≤ 32768 →
  ∃ m, Endpoint_BytesToEPSizeMask Bytes = Some m ∧ 0 ≤ m ≤ 12 ∧ Bytes ≤ 8 * 2 ^ m ∧
       (m = 0 ∨ 8 * 2 ^ (m - 1) < Bytes).
Proof.
  intros Hb. destruct (epsize_loop_spec 12 Bytes 0) as (m & Hm & Hr & Hle & Hlo); [lia|done|by left|lia|].
  exists m. split.
  - unfold Endpoint_BytesToEPSizeMask. change (2 ^ (0 + 3)) with 8 in Hm.
    assert (∀ n b k c r, epsize_loop n b k c = Some r → epsize_loop (S n) b k c = Some r) as Hmono.
    { induction n as [|n IH]; intros b k c r; cbn; destruct (c <? b); try done. apply IH. }
    rewrite (Hmono 12%nat) with (r := m) by done. cbn. unfold USB_EP_BUFSIZE_gp. rewrite Z.shiftl_0_r.
    rewrite u8_small; [done|]. unfold byte. lia.
  - split; [lia|]. rewrite Z.pow_add_r in Hle by lia. split; [lia|].
    destruct Hlo as [->|Hlo]; [by left|]. destruct (decide (m = 0)); [by left|]. right.
    replace (m + 2) with (3 + (m - 1)) in Hlo by lia. rewrite Z.pow_add_r in Hlo by lia. lia.
Qed.

(** Above 32768 the doubled size overflows to 0 and stays there. *)
Definition sizes : list Z := [8; 16; 32; 64; 128; 256; 512; 1024; 2048; 4096; 8192; 16384; 32768; 0].

Lemma sizes_step c : c ∈ sizes → u16 (c << 1) ∈ sizes ∧ c ≤ 32768.
Proof.
  intros Hc. assert (Forall (λ c, u16 (c << 1) ∈ sizes ∧ c ≤ 32768) sizes) as H.
  { apply (bool_decide_unpack _). vm_compute. done. }
  rewrite Forall_forall in H. by apply H.
Qed.

Lemma epsize_diverges n Bytes m c : 32768 < Bytes → c ∈ sizes → epsize_loop n Bytes m c = None.
Proof.
  intros Hb. revert m c. induction n as [|n IH]; intros m c Hc; cbn; destruct (sizes_step c Hc) as [Hc' Hle];
    rewrite (proj2 (Z.ltb_lt _ _)) by lia; auto.
Qed.

(** ** Endpoint configuration *)

(** Only endpoint [p] differs between [s] and [s']: it is configured with
    [cfg], empty, and of the given size when it is an IN endpoint. *)
Record configured (p : Z * bool) (cfg size : Z) (s s' : mach) : Prop := {
  cf_ep : eps (hwst s') p.1 p.2 =
    USB_EP (if p.2 then USB_EP_BUSNACK0_bm else 0) cfg 0 (FIFO_Data (FIFOs (fwst s) p.1 p.2));
  cf_fifo : FIFOs (fwst s') p.1 p.2 =
    Endpoint_FIFO (FIFO_Data (FIFOs (fwst s) p.1 p.2)) (if p.2 then size else 0) 0;
  cf_ep_other n d : (n, d) ≠ p → eps (hwst s') n d = eps (hwst s) n d;
  cf_fifo_other n d : (n, d) ≠ p → FIFOs (fwst s') n d = FIFOs (fwst s) n d;
  cf_rf : rf (hwst s') = rf (hwst s);
  cf_bufs : bufs (hwst s') = bufs (hwst s);
  cf_state : DeviceState (fwst s') = DeviceState (fwst s);
  cf_conf : ConfigurationNumber (fwst s') = ConfigurationNumber (fwst s);
  cf_req : ControlRequest (fwst s') = ControlRequest (fwst s);
  cf_cdc : CDC (fwst s') = CDC (fwst s);
  cf_send : ok_to_send (fwst s') = ok_to_send (fwst s);
  cf_ring : USBtoUSART_Buffer (fwst s') = USBtoUSART_Buffer (fwst s);
  cf_host : host (hwst s') = host (hwst s);
  cf_scope : scopeBuf (hwst s') = scopeBuf (hwst s);
  cf_env : script s' = script s;
  cf_trace : trace s' = trace s }.

Definition ep_of (Address : Z) : Z * bool := (Address .& 15, tst Address 128).

Lemma wp_Configure_PRV Address cfg size Q B s : in_table (ep_of Address) = true →
  (∀ s', configured (ep_of Address) cfg size s s' → SelectedEndpoint (fwst s') = Address → Q true s') →
  wp (Endpoint_ConfigureEndpoint_PRV Address cfg size) Q B s.
Proof.
  intros Hin HQ. unfold Endpoint_ConfigureEndpoint_PRV. apply wp_bind, wp_select.
  assert (∀ s1, SelectedHandle (fwst s1) = ep_of Address → ∀ f,
    mod_handle f s1 = Ok tt (upd_handle (ep_of Address) f s1)) as Hh by (intros; by apply mod_handle_eq).
  assert (∀ s1, SelectedFIFO (fwst s1) = ep_of Address → ∀ f,
    mod_fifo f s1 = Ok tt (upd_fifo (ep_of Address) f s1)) as Hf by (intros; by apply mod_fifo_eq).
  do 4 (apply wp_bind; eapply wp_Ok; [by apply Hh|]).
  apply wp_bind; eapply wp_Ok; [by apply get_fifo_eq|]. cbn beta.
  apply wp_bind; eapply wp_Ok; [by apply Hh|].
  do 2 (apply wp_bind; eapply wp_Ok; [by apply Hf|]). apply wp_ret. apply HQ; [|done].
  unfold upd_handle, upd_fifo, ep_of, ENDPOINT_DIR_IN. split; cbn; intros; by autorewrite with mach.
Qed.

(** The CTRL value for a type and a size code; ping-pong is never used. *)
Definition ep_config (Type_ m : Z) : Z :=
  clr8 (USB_EP_INTDSBL_bm .| m) USB_EP_PINGPONG_bm .|
  (if Type_ =? EP_TYPE_CONTROL then USB_EP_TYPE_CONTROL_gc
   else if Type_ =? EP_TYPE_ISOCHRONOUS then USB_EP_TYPE_ISOCHRONOUS_gc else USB_EP_TYPE_BULK_gc).

Lemma ep_config_eq Type_ Banks m : 0 ≤ m ≤ 12 →
  (let c := clr8 (USB_EP_INTDSBL_bm .| (if Banks >? 1 then USB_EP_PINGPONG_bm else 0) .| m) USB_EP_PINGPONG_bm in
   if Type_ =? EP_TYPE_CONTROL then c .| USB_EP_TYPE_CONTROL_gc
   else if Type_ =? EP_TYPE_ISOCHRONOUS then c .| USB_EP_TYPE_ISOCHRONOUS_gc
   else c .| USB_EP_TYPE_BULK_gc) = ep_config Type_ m.
Proof.
  intros Hm. unfold ep_config.
  replace (clr8 (USB_EP_INTDSBL_bm .| (if Banks >? 1 then USB_EP_PINGPONG_bm else 0) .| m) USB_EP_PINGPONG_bm)
    with (clr8 (USB_EP_INTDSBL_bm .| m) USB_EP_PINGPONG_bm).
  { by destruct (Type_ =? EP_TYPE_CONTROL), (Type_ =? EP_TYPE_ISOCHRONOUS). }
  assert (Forall (λ m, clr8 (USB_EP_INTDSBL_bm .| m) USB_EP_PINGPONG_bm =
    clr8 (USB_EP_INTDSBL_bm .| USB_EP_PINGPONG_bm .| m) USB_EP_PINGPONG_bm ∧
    clr8 (USB_EP_INTDSBL_bm .| m) USB_EP_PINGPONG_bm =
    clr8 (USB_EP_INTDSBL_bm .| 0 .| m) USB_EP_PINGPONG_bm) (seqZ 0 13)) as HF.
  { apply (bool_decide_unpack _). by vm_compute. }
  rewrite Forall_forall in HF. destruct (HF m) as [H1 H2]; [apply elem_of_seqZ; lia|]. by destruct (Banks >? 1).
Qed.

(** A bulk, interrupt or isochronous endpoint. *)
Lemma wp_ConfigureEndpoint Address Type_ Size Banks Q B s :
  in_table (ep_of Address) = true → Type_ ≠ EP_TYPE_CONTROL → 0 ≤ Size ≤ 64 →
  (∀ m s', Endpoint_BytesToEPSizeMask Size = Some m →
     configured (ep_of Address) (ep_config Type_ m) Size s s' → SelectedEndpoint (fwst s') = Address → Q true s') →
  wp (Endpoint_ConfigureEndpoint Address Type_ Size Banks) Q B s.
Proof.
  intros Hin Ht Hs HQ. destruct (BytesToEPSizeMask_spec Size) as (m & Hm & Hmr & _); [lia|].
  unfold Endpoint_ConfigureEndpoint. rewrite Hm. cbn [ended]. apply wp_bind, wp_ret.
  pose proof (ep_config_eq Type_ Banks m Hmr) as Ec. cbv zeta in Ec |- *. rewrite Ec.
  unfold in_table, ep_of in Hin. cbn in Hin. apply andb_true_iff in Hin as [H0%Z.leb_le H5%Z.ltb_lt].
  unfold ENDPOINT_EPNUM_MASK. rewrite Z.geb_leb, (proj2 (Z.leb_gt _ _)) by done.
  rewrite Z.gtb_ltb, (proj2 (Z.ltb_ge _ _)) by lia. rewrite (proj2 (Z.eqb_neq _ _) Ht). cbn [when].
  apply wp_bind, wp_ret. rewrite u8_small by (unfold byte; lia).
  apply wp_Configure_PRV.
  - unfold in_table, ep_of. cbn. apply andb_true_iff. split; [by apply Z.leb_le|by apply Z.ltb_lt].
  - intros s' Hc Ha. by apply (HQ m).
Qed.

(** The errors: an endpoint number or a size the controller does not have. *)
Lemma ConfigureEndpoint_bad_number Address Type_ Size Banks s :
  0 ≤ Size ≤ 32768 → ENDPOINT_TOTAL_ENDPOINTS ≤ Address .& 15 →
  Endpoint_ConfigureEndpoint Address Type_ Size Banks s = Ok false s.
Proof.
  intros Hs Ha. destruct (BytesToEPSizeMask_spec Size) as (m & Hm & _); [lia|].
  unfold Endpoint_ConfigureEndpoint. rewrite Hm. cbn [ended]. unfold mbind, M_bind, mret, M_ret.
  unfold ENDPOINT_EPNUM_MASK. by rewrite Z.geb_leb, (proj2 (Z.leb_le _ _)).
Qed.

Lemma ConfigureEndpoint_bad_size Address Type_ Size Banks s :
  64 < Size ≤ 32768 → Endpoint_ConfigureEndpoint Address Type_ Size Banks s = Ok false s.
Proof.
  intros Hs. destruct (BytesToEPSizeMask_spec Size) as (m & Hm & _); [lia|].
  unfold Endpoint_ConfigureEndpoint. rewrite Hm. cbn [ended]. unfold mbind, M_bind, mret, M_ret.
  destruct (_ >=? _); [done|]. by rewrite Z.gtb_ltb, (proj2 (Z.ltb_lt _ _)) by lia.
Qed.

(** The control endpoint takes both directions. *)
Definition CONTROL_CFG : Z := ep_config EP_TYPE_CONTROL 0.

Lemma wp_Configure_control Q B s :
  (∀ s1 s', configured (0, true) CONTROL_CFG 8 s s1 → configured (0, false) CONTROL_CFG 8 s1 s' →
     SelectedEndpoint (fwst s') = 0 → Q true s') →
  wp (Endpoint_ConfigureEndpoint ENDPOINT_CONTROLEP EP_TYPE_CONTROL USB_Device_ControlEndpointSize 1) Q B s.
Proof.
  intros HQ. unfold Endpoint_ConfigureEndpoint.
  change (Endpoint_BytesToEPSizeMask USB_Device_ControlEndpointSize) with (Some 0). cbn [ended].
  apply wp_bind, wp_ret. change (_ >=? _) with false. change (_ >? _) with false. cbv zeta iota.
  cbn [when Z.eqb EP_TYPE_CONTROL]. apply wp_bind, wp_bind.
  apply (wp_Configure_PRV (ENDPOINT_CONTROLEP .^ ENDPOINT_DIR_IN)); [done|]. intros s1 H1 _. apply wp_ret.
  apply (wp_Configure_PRV ENDPOINT_CONTROLEP); [done|]. intros s2 H2 Ha. by apply (HQ s1).
Qed.

(** Configuring the control endpoint leaves the memory of the FIFOs in place. *)
Lemma control_data s s1 s2 n d : configured (0, true) CONTROL_CFG 8 s s1 → configured (0, false) CONTROL_CFG 8 s1 s2 →
  FIFO_Data (FIFOs (fwst s2) n d) = FIFO_Data (FIFOs (fwst s) n d).
Proof.
  intros [] []. cbn in *. destruct (decide ((n, d) = (0, false))) as [[= -> ->]|E].
  - by rewrite cf_fifo1, cf_fifo_other0.
  - rewrite cf_fifo_other1 by done. destruct (decide ((n, d) = (0, true))) as [[= -> ->]|E'].
    + by rewrite cf_fifo0.
    + by rewrite cf_fifo_other0.
Qed.

(** ** The bus interrupt *)

(** The device state after the interrupt, from the flags, the configuration
    and the address. *)
Definition bus_state (flags conf addr old : Z) : Z :=
  if tst flags USB_RSTIF_bm then DEVICE_STATE_Default
  else if tst flags USB_RESUMEIF_bm then
    if negb (conf =? 0) then DEVICE_STATE_Configured
    else if negb (addr =? 0) then DEVICE_STATE_Addressed else DEVICE_STATE_Powered
  else if tst flags USB_SUSPENDIF_bm then DEVICE_STATE_Unattached
  else old.

(** What the interrupt leaves alone unless the bus was reset. *)
Record isr_frame (s s' : mach) : Prop := {
  if_conf : ConfigurationNumber (fwst s') = ConfigurationNumber (fwst s);
  if_sel : SelectedEndpoint (fwst s') = SelectedEndpoint (fwst s) ∧
           SelectedHandle (fwst s') = SelectedHandle (fwst s) ∧ SelectedFIFO (fwst s') = SelectedFIFO (fwst s);
  if_fifos : FIFOs (fwst s') = FIFOs (fwst s);
  if_eps : eps (hwst s') = eps (hwst s);
  if_ring : USBtoUSART_Buffer (fwst s') = USBtoUSART_Buffer (fwst s);
  if_mem : bufs (hwst s') = bufs (hwst s) ∧ host (hwst s') = host (hwst s) ∧ scopeBuf (hwst s') = scopeBuf (hwst s);
  if_rf r : r ≠ (USB, INTFLAGSACLR) → rf (hwst s') r = rf (hwst s) r }.

Definition flags (s : mach) : Z := rf (hwst s) (USB, INTFLAGSACLR).

Lemma isr_frame_refl s : isr_frame s s.
Proof. by split. Qed.

Lemma isr_frame_trans s1 s2 s3 : isr_frame s1 s2 → isr_frame s2 s3 → isr_frame s1 s3.
Proof.
  intros [C1 (A1 & B1 & D1) F1 E1 U1 (X1 & Y1 & Z1) R1] [C2 (A2 & B2 & D2) F2 E2 U2 (X2 & Y2 & Z2) R2].
  split; [congruence|split_and!; congruence|congruence|congruence|congruence|split_and!; congruence|].
  intros r Hr. by rewrite R2, R1.
Qed.

(** Acknowledging [f] leaves the other flags. *)
Definition acks (f : Z) (s s' : mach) : Prop :=
  isr_frame s s' ∧ script s' = script s ∧ tst (flags s') f = false ∧
  ∀ m, (255 .^ f) .& m = m → tst (flags s') m = tst (flags s) m.

Lemma acks_w1c f s : byte f → (255 .^ f) .& f = 0 →
  acks f s (stored (USB, INTFLAGSACLR) (clr8 (rf (hwst s) (USB, INTFLAGSACLR)) (u8 f)) (u8 f) s).
Proof.
  intros Hb Hf. rewrite u8_small by done. unfold acks, flags. split; [split; try done|].
  - intros r Hr. by rewrite rf_stored_ne.
  - split; [done|]. rewrite rf_stored_eq. split; [by apply tst_cleared|]. intros m Hm. by apply tst_clr8.
Qed.

Lemma wp_ISR_SOF Q B s :
  (∀ s', isr_frame s s' → script s' = script s → DeviceState (fwst s') = DeviceState (fwst s) →
     (∀ m, (255 .^ USB_SOFIF_bm) .& m = m → tst (flags s') m = tst (flags s) m) → Q tt s') →
  wp ISR_SOF Q B s.
Proof.
  intros HQ. unfold ISR_SOF, USB_INT_HasOccurred, USB_INT_IsEnabled, USB_INT_Clear, USB_Event_Stub. wsteps.
  apply wp_when; intros _.
  - wsteps. destruct (acks_w1c USB_SOFIF_bm s) as (Hf & Hs & _ & Hm); [done|done|]. by apply HQ.
  - apply HQ; [apply isr_frame_refl|done|done|done].
Qed.

Lemma wp_ISR_Suspend Q B s :
  (∀ s', isr_frame s s' → script s' = script s →
     DeviceState (fwst s') =
       (if tst (flags s) USB_SUSPENDIF_bm then DEVICE_STATE_Unattached else DeviceState (fwst s)) →
     tst (flags s') USB_SUSPENDIF_bm = false →
     (∀ m, (255 .^ USB_SUSPENDIF_bm) .& m = m → tst (flags s') m = tst (flags s) m) → Q tt s') →
  wp ISR_Suspend Q B s.
Proof.
  intros HQ. unfold ISR_Suspend, USB_INT_HasOccurred, USB_INT_Clear, EVENT_USB_Device_Disconnect. wsteps.
  fold (flags s). apply wp_when; intros E; rewrite E in HQ.
  - wsteps. destruct (acks_w1c USB_SUSPENDIF_bm s) as ([] & Hs & Hc & Hm); [done|done|].
    apply HQ; by try split.
  - by apply HQ.
Qed.

(** The state after a resume. *)
Definition resumed (s : mach) : Z :=
  if negb (ConfigurationNumber (fwst s) =? 0) then DEVICE_STATE_Configured
  else if negb (rf (hwst s) (USB, ADDR) =? 0) then DEVICE_STATE_Addressed else DEVICE_STATE_Powered.

Lemma wp_ISR_Resume Q B s :
  (∀ s', isr_frame s s' → script s' = script s →
     DeviceState (fwst s') = (if tst (flags s) USB_RESUMEIF_bm then resumed s else DeviceState (fwst s)) →
     tst (flags s') USB_RESUMEIF_bm = false →
     (∀ m, (255 .^ USB_RESUMEIF_bm) .& m = m → tst (flags s') m = tst (flags s) m) → Q tt s') →
  wp ISR_Resume Q B s.
Proof.
  intros HQ. unfold ISR_Resume, USB_INT_HasOccurred, USB_INT_Clear, EVENT_USB_Device_Connect,
    USB_Device_IsAddressSet. wsteps. fold (flags s). apply wp_when; intros E; rewrite E in HQ.
  - wsteps. destruct (acks_w1c USB_RESUMEIF_bm s) as ([] & Hs & Hc & Hm); [done|done|].
    unfold resumed in HQ. cbn [fwst stored] in *. autorewrite with mach.
    destruct (ConfigurationNumber (fwst s) =? 0); cbn [negb] in *; wsteps; apply HQ; by try split.
  - by apply HQ.
Qed.

(** The tables after a bus reset: every endpoint is off except the control
    endpoint, which is selected. *)
Record reset_done (s s' : mach) : Prop := {
  rs_conf : ConfigurationNumber (fwst s') = 0;
  rs_state : DeviceState (fwst s') = DEVICE_STATE_Default;
  rs_addr : rf (hwst s') (USB, ADDR) = 0;
  rs_sel : SelectedEndpoint (fwst s') = 0;
  rs_ep0 d : eps (hwst s') 0 d =
    USB_EP (if d then USB_EP_BUSNACK0_bm else 0) CONTROL_CFG 0 (FIFO_Data (FIFOs (fwst s) 0 d));
  rs_off n d : 0 < n < ENDPOINT_TOTAL_ENDPOINTS → EP_CTRL (eps (hwst s') n d) = 0;
  rs_status n d : n ≠ 0 → EP_STATUS (eps (hwst s') n d) = EP_STATUS (eps (hwst s) n d);
  rs_data n d : FIFO_Data (FIFOs (fwst s') n d) = FIFO_Data (FIFOs (fwst s) n d);
  rs_pos d : FIFO_Position (FIFOs (fwst s') 0 d) = 0;
  rs_ring : USBtoUSART_Buffer (fwst s') = USBtoUSART_Buffer (fwst s);
  rs_bufs : bufs (hwst s') = bufs (hwst s);
  rs_host : host (hwst s') = host (hwst s);
  rs_script : script s' = script s }.

Lemma wp_ISR_Reset Q B s :
  (∀ s', reset_done s s' → Q tt s') → tst (flags s) USB_RSTIF_bm = true → wp ISR_Reset Q B s.
Proof.
  intros HQ E. unfold ISR_Reset, USB_INT_HasOccurred, USB_INT_Clear, USB_Device_EnableDeviceAddress,
    Endpoint_ClearEndpoints, USB_Event_Stub. wsteps. fold (flags s). rewrite E. cbn [when]. wsteps.
  apply wp_Configure_control. intros s1 s2 H1 H2 Ha. wsteps. apply HQ. pose proof (λ n d, control_data _ _ _ n d H1 H2) as Hdt. destruct H1, H2. split.
  - by rewrite cf_conf1, cf_conf0.
  - by rewrite cf_state1, cf_state0.
  - rewrite cf_rf1, cf_rf0. by cbn; rewrite upd_eq.
  - done.
  - intros [].
    + rewrite (cf_ep_other1 0 true) by done. cbn in cf_ep0. by rewrite cf_ep0.
    + cbn in cf_ep1. by rewrite cf_ep1, (cf_fifo_other0 0 false).
  - intros n d Hn. rewrite cf_ep_other1, cf_ep_other0 by (intros [= -> _]; lia). cbn.
    destruct (Z.leb_spec 0 n), (Z.ltb_spec n ENDPOINT_TOTAL_ENDPOINTS); try lia. done.
  - intros n d Hn. rewrite cf_ep_other1, cf_ep_other0 by (intros [= -> _]; lia). cbn. by destruct (_ && _).
  - intros n d. by rewrite Hdt.
  - cbn in cf_fifo0, cf_fifo1. intros []; [by rewrite (cf_fifo_other1 0 true), cf_fifo0|by rewrite cf_fifo1].
  - by rewrite cf_ring1, cf_ring0.
  - by rewrite cf_bufs1, cf_bufs0.
  - by rewrite cf_host1, cf_host0.
  - by rewrite cf_env1, cf_env0.
Qed.

(** The whole handler. *)
Lemma wp_BUSEVENT Q B s :
  (∀ s', DeviceState (fwst s') = bus_state (flags s) (ConfigurationNumber (fwst s)) (rf (hwst s) (USB, ADDR))
           (DeviceState (fwst s)) → script s' = script s →
     (if tst (flags s) USB_RSTIF_bm
      then ∃ s1, isr_frame s s1 ∧ reset_done s1 s'
      else isr_frame s s' ∧ tst (flags s') USB_SUSPENDIF_bm = false ∧ tst (flags s') USB_RESUMEIF_bm = false) →
     Q tt s') →
  wp USB_BUSEVENT_vect Q B s.
Proof.
  intros HQ. unfold USB_BUSEVENT_vect.
  apply wp_bind, wp_ISR_SOF. intros s1 F1 E1 D1 M1.
  apply wp_bind, wp_ISR_Suspend. intros s2 F2 E2 D2 C2 M2.
  apply wp_bind, wp_ISR_Resume. intros s3 F3 E3 D3 C3 M3.
  pose proof (isr_frame_trans _ _ _ F1 (isr_frame_trans _ _ _ F2 F3)) as F.
  assert (tst (flags s3) USB_RSTIF_bm = tst (flags s) USB_RSTIF_bm) as ER by by rewrite M3, M2, M1.
  assert (tst (flags s2) USB_RESUMEIF_bm = tst (flags s) USB_RESUMEIF_bm) as ES by by rewrite M2, M1.
  assert (tst (flags s1) USB_SUSPENDIF_bm = tst (flags s) USB_SUSPENDIF_bm) as EU by by rewrite M1.
  assert (tst (flags s3) USB_SUSPENDIF_bm = false) as CU by by rewrite M3.
  rewrite ES, D2, EU, D1 in D3.
  assert (resumed s2 = resumed s) as Erm.
  { unfold resumed. pose proof (isr_frame_trans _ _ _ F1 F2) as [HC _ _ _ _ _ HR]. by rewrite HC, HR. }
  unfold bus_state in HQ. destruct (tst (flags s) USB_RSTIF_bm).
  - apply wp_ISR_Reset; [|done]. intros s4 HR. apply HQ; [apply HR|rewrite (rs_script _ _ HR); congruence|].
    by exists s3.
  - unfold ISR_Reset, USB_INT_HasOccurred. wsteps. fold (flags s3). rewrite ER. cbn [when]. wsteps.
    apply HQ; [by rewrite D3, Erm|congruence|done].
Qed.

(** ** The ready wait *)

(** The host leaves the IN endpoint [p] busy; a new frame begins if [new]. *)
Definition late_event (p : Z * bool) (new : bool) (e : event) : Prop :=
  ∃ f, e = EvHw f ∧ ∀ h, tst (EP_STATUS (eps (f h) p.1 p.2)) USB_EP_BUSNACK0_bm = false ∧
    tst (EP_CTRL (eps (f h) p.1 p.2)) USB_EP_STALL_bm = false ∧ (FrameNum (f h) = FrameNum h ↔ new = false).

(** The number of frames that begin. *)
Fixpoint frames (bs : list bool) : nat :=
  match bs with [] => 0 | b :: bs => (if b then 1 else 0) + frames bs end%nat.
Lemma frames_app bs bs' : frames (bs ++ bs') = (frames bs + frames bs')%nat.
Proof. induction bs as [|b bs IH]; [done|]. cbn. lia. Qed.
(** The event with which a given frame begins is unique. *)
Lemma frames_unique pre post pre' post' :
  pre ++ true :: post = pre' ++ true :: post' → frames pre = frames pre' → post = post'.
Proof.
  revert pre'. induction pre as [|b pre IH]; intros [|b' pre']; cbn.
  - congruence.
  - intros [= <- E]. lia.
  - intros [= -> E]. lia.
  - intros [= <- E] Hf. apply (IH pre'); [done|lia].
Qed.

Definition live_state (d : Z) : bool := negb (d =? DEVICE_STATE_Unattached) && negb (d =? DEVICE_STATE_Suspended).

(** One iteration in which the endpoint stays busy. *)
Lemma wp_wait_late a t f bs Q B s :
  a .| 128 = a → in_table (ep_of a) = true → SelectedEndpoint (fwst s) = a →
  live_state (DeviceState (fwst s)) = true → Forall2 (late_event (ep_of a)) bs (script s) → f = FrameNum (hwst s) →
  (bs = [] → B (sel a s)) →
  (∀ b bs' s', bs = b :: bs' → length (script s) = S (length (script s')) → Forall2 (late_event (ep_of a)) bs' (script s') →
     fwst s' = fwst (sel a s) →
     Q (if b : bool then if t =? 0 then inr ENDPOINT_READYWAIT_Timeout else inl (u8 (t - 1), FrameNum (hwst s'))
        else inl (t, FrameNum (hwst s'))) s') →
  wp (wait_ready_body (t, f)) Q B s.
Proof.
  intros Ha Hin Hsel Hd Henv -> HB HQ.
  assert (a .& ENDPOINT_DIR_IN = ENDPOINT_DIR_IN) as Hdir.
  { rewrite <-Ha. change ENDPOINT_DIR_IN with 128. rewrite Z.land_lor_distr_l. apply Z.bits_inj'. intros i Hi.
    rewrite Z.lor_spec, !Z.land_spec. by destruct (Z.testbit a i), (Z.testbit 128 i). }
  unfold wait_ready_body, Endpoint_GetEndpointDirection. wsteps. rewrite Hsel, Hdir.
  rewrite Z.eqb_refl. cbn iota. unfold Endpoint_IsINReady. wsteps.
  rewrite Hsel. change ENDPOINT_DIR_IN with 128. rewrite Ha. apply wp_poll. cbn [script sel set_fwst].
  destruct (script s) as [|e es] eqn:Es; [apply Forall2_nil_inv_r in Henv; by apply HB|].
  apply Forall2_cons_inv_r in Henv as (b & bs' & (g & -> & Hg) & Hes & ->).
  destruct (Hg (hwst s)) as (Hb & Hst & Hf). unfold Endpoint_IsStalled, USB_Device_GetFrameNumber.
  apply wp_bind; eapply wp_Ok; [by apply get_handle_eq|]. cbn. cbn in Hb, Hst. rewrite Hb. wsteps. cbn.
  apply andb_true_iff in Hd as [Hd1%negb_true_iff Hd2%negb_true_iff]. rewrite Hd1, Hd2.
  apply wp_bind, wp_bind; eapply wp_Ok; [by apply get_handle_eq|]. cbn. rewrite Hst. wsteps. cbn.
  pose proof (HQ b bs' (set_hwst (g (hwst s)) (set_script es (sel a s))) eq_refl eq_refl Hes eq_refl) as HQ'.
  cbn in HQ'. destruct b.
  - rewrite (proj2 (Z.eqb_neq _ _)) by (intros E; by apply Hf in E). destruct (t =? 0); exact HQ'.
  - pose proof (proj2 Hf eq_refl) as E. rewrite (proj2 (Z.eqb_eq _ _) E). wsteps. by rewrite E in HQ'.
Qed.

(** The wait ends with the event that begins the 101st frame, and not before. *)
Lemma wait_times_out a bs s :
  a .| 128 = a → in_table (ep_of a) = true → SelectedEndpoint (fwst s) = a →
  live_state (DeviceState (fwst s)) = true → Forall2 (late_event (ep_of a)) bs (script s) →
  wp Endpoint_WaitUntilReady
    (λ c s', c = ENDPOINT_READYWAIT_Timeout ∧
       ∃ pre post, bs = pre ++ true :: post ∧ frames pre = 100%nat ∧ length (script s') = length post)
    (λ _, (frames bs ≤ 100)%nat) s.
Proof.
  intros Ha Hin Hsel Hd Henv. unfold Endpoint_WaitUntilReady. unfold USB_Device_GetFrameNumber. wsteps.
  apply (wp_iter_poll (λ x s1, ∃ pre rest, x = (Z.of_nat (100 - frames pre), FrameNum (hwst s1)) ∧ (frames pre ≤ 100)%nat ∧
    SelectedEndpoint (fwst s1) = a ∧ DeviceState (fwst s1) = DeviceState (fwst s) ∧ bs = pre ++ rest ∧
    Forall2 (late_event (ep_of a)) rest (script s1))).
  2: { exists [], bs. split; [done|]. split; [cbn; lia|]. done. }
  intros x s1 (pre & rest & -> & Hn & Hsel1 & Hd1 & -> & Henv1). apply (wp_wait_late a _ _ rest); try done.
  - by rewrite Hd1.
  - intros ->. by rewrite app_nil_r.
  - intros b bs' s2 -> Hl2 Henv2 Hfw. destruct b.
    + destruct (Z.eqb_spec (Z.of_nat (100 - frames pre)) 0) as [E|E].
      * split; [done|]. exists pre, bs'. split; [done|]. split; [lia|]. symmetry. by eapply Forall2_length.
      * split; [|lia]. exists (pre ++ [true]), bs'. rewrite u8_small by (unfold byte; lia). rewrite frames_app, <-app_assoc. cbn.
        split; [f_equal; lia|]. split; [lia|]. by rewrite Hfw.
    + split; [|lia]. exists (pre ++ [false]), bs'. rewrite frames_app, <-app_assoc. cbn. rewrite Nat.add_0_r.
      split; [done|]. split; [lia|]. by rewrite Hfw.
Qed.
