(* ===== verification/EndpointData.v ===== *)
(** * Endpoint data

    What the byte, word and double-word accessors of Endpoint_XMEGA.h do to
    the selected FIFO: the bytes they store and fetch, and that nothing else
    of the machine changes. *)
From S2P Require Import Prelude RingBuffer Machine Endpoint Controller Logic.

(** The selected FIFO is [p], it uses the buffer [b] and stands at [i]. *)
Record fifo_at (p : Z * bool) (b : buffer) (i : Z) (s : mach) : Prop := {
  fa_sel : SelectedFIFO (fwst s) = p;
  fa_in : in_table p = true;
  fa_data : FIFO_Data (FIFOs (fwst s) p.1 p.2) = Some b;
  fa_pos : FIFO_Position (FIFOs (fwst s) p.1 p.2) = i }.

(** [s'] differs from [s] at most in the position of FIFO [p] and in the
    contents of buffer [b]. *)
Record fifo_frame (p : Z * bool) (b : buffer) (s s' : mach) : Prop := {
  ff_len : FIFO_Length (FIFOs (fwst s') p.1 p.2) = FIFO_Length (FIFOs (fwst s) p.1 p.2);
  ff_data : FIFO_Data (FIFOs (fwst s') p.1 p.2) = FIFO_Data (FIFOs (fwst s) p.1 p.2);
  ff_fifos n d : (n, d) ≠ p → FIFOs (fwst s') n d = FIFOs (fwst s) n d;
  ff_fw : ∀ F, set_FIFOs F (fwst s') = set_FIFOs F (fwst s);
  ff_bufs b' : b' ≠ b → bufs (hwst s') b' = bufs (hwst s) b';
  ff_hw : ∀ l, set_bufs l (hwst s') = set_bufs l (hwst s);
  ff_script : script s' = script s;
  ff_trace : trace s' = trace s }.

Lemma fifo_frame_refl p b s : fifo_frame p b s s.
Proof. by split. Qed.
Lemma fifo_frame_trans p b s1 s2 s3 : fifo_frame p b s1 s2 → fifo_frame p b s2 s3 → fifo_frame p b s1 s3.
Proof.
  intros [] []. split; try congruence.
  - intros n d Hn. rewrite ff_fifos1, ff_fifos0; done.
  - intros b' Hb. rewrite ff_bufs1, ff_bufs0; done.
Qed.

Lemma wp_Read_8 p b i x Q B s :
  fifo_at p b i s → bufs (hwst s) b !! Z.to_nat i = Some x → 0 ≤ i < 255 →
  (∀ s', fifo_at p b (i + 1) s' → fifo_frame p b s s' → bufs (hwst s') = bufs (hwst s) → Q x s') →
  wp Endpoint_Read_8 Q B s.
Proof.
  intros [] Hx Hi HQ. destruct p as [n d]. unfold Endpoint_Read_8, get_fifo. wsteps.
  rewrite fa_sel0, fa_in0. wsteps. cbn [fst snd] in *. rewrite fa_data0, fa_pos0. cbn [lift]. wsteps.
  eapply wp_lift; [apply rd_Some; split; [lia|exact Hx]|]. wsteps.
  eapply wp_Ok; [apply mod_fifo_eq; [done|done]|]. wsteps. rewrite u8_small by (unfold byte; lia).
  apply HQ; [| |done].
  - split; cbn; rewrite ?upd2_eq; done.
  - split; cbn; rewrite ?upd2_eq; try done. intros ?? ?. by rewrite upd2_ne.
Qed.

Lemma wp_Write_8 p b i x Q B s :
  fifo_at p b i s → 0 ≤ i < 255 → i < Z.of_nat (length (bufs (hwst s) b)) →
  (∀ s', fifo_at p b (i + 1) s' → fifo_frame p b s s' →
     bufs (hwst s') b = <[Z.to_nat i := u8 x]> (bufs (hwst s) b) → Q tt s') →
  wp (Endpoint_Write_8 x) Q B s.
Proof.
  intros [] Hi Hl HQ. destruct p as [n d]. unfold Endpoint_Write_8, get_fifo. wsteps.
  rewrite fa_sel0, fa_in0. wsteps. cbn [fst snd] in *. rewrite fa_data0, fa_pos0. cbn [lift]. wsteps.
  eapply wp_lift; [apply wr_Some; lia|]. wsteps.
  eapply wp_Ok; [apply mod_fifo_eq; [done|done]|]. rewrite u8_small by (unfold byte; lia).
  apply HQ.
  - split; cbn; rewrite ?upd2_eq; done.
  - split; cbn; rewrite ?upd2_eq; try done.
    + intros ?? ?. by rewrite upd2_ne.
    + intros b' Hb. by rewrite upd_ne.
  - cbn. by rewrite upd_eq.
Qed.

(** ** Runs of bytes *)

(** Buffer [b] holds the bytes [l] from position [i] on. *)
Definition holds (b : buffer) (i : Z) (l : list Z) (s : mach) : Prop :=
  take (length l) (drop (Z.to_nat i) (bufs (hwst s) b)) = l.

Fixpoint read_list (n : nat) : M (list Z) :=
  match n with
  | O => mret []
  | S n' => x ← Endpoint_Read_8; l ← read_list n'; mret (x :: l)
  end.

Fixpoint write_list (l : list Z) : M unit :=
  match l with
  | [] => mret tt
  | x :: l' => Endpoint_Write_8 x;; write_list l'
  end.

Lemma holds_cons b i x l s : 0 ≤ i → holds b i (x :: l) s →
  bufs (hwst s) b !! Z.to_nat i = Some x ∧ holds b (i + 1) l s.
Proof.
  unfold holds. intros Hi H. cbn [length] in H. destruct (drop _ _) as [|y m] eqn:E; [done|].
  cbn in H. injection H as -> H. rewrite Z2Nat.inj_add by lia.
  rewrite Nat.add_comm, <-drop_drop. split.
  - rewrite <-(Nat.add_0_r (Z.to_nat i)), <-lookup_drop, E. done.
  - change (Z.to_nat 1) with 1%nat. rewrite drop_drop, Nat.add_comm, <-drop_drop, E. done.
Qed.

Lemma wp_read_list p b l Q B i s :
  fifo_at p b i s → holds b i l s → 0 ≤ i → i + Z.of_nat (length l) < 256 →
  (∀ s', fifo_at p b (i + Z.of_nat (length l)) s' → fifo_frame p b s s' →
     bufs (hwst s') = bufs (hwst s) → Q l s') →
  wp (read_list (length l)) Q B s.
Proof.
  revert Q i s. induction l as [|x l IH]; intros Q i s Hf Hh Hi Hl HQ; cbn [length read_list] in *.
  { wsteps. apply HQ; [by rewrite Z.add_0_r|apply fifo_frame_refl|done]. }
  destruct (holds_cons b i x l s) as [Hx Hr]; [done|done|].
  apply wp_bind, (wp_Read_8 p b i x); [done|done|lia|]. intros s1 H1 F1 E1.
  apply wp_bind, (IH _ (i + 1)); [done|by unfold holds; rewrite E1|lia|lia|]. intros s2 H2 F2 E2.
  wsteps. apply HQ; [|by eapply fifo_frame_trans|congruence].
  by replace (i + Z.of_nat (S (length l))) with (i + 1 + Z.of_nat (length l)) by lia.
Qed.

(** [l] written over [m] at position [i]. *)
Definition overwrite (i : nat) (l m : list Z) : list Z := take i m ++ l ++ drop (i + length l) m.

Lemma overwrite_cons i x l m : (i < length m)%nat →
  overwrite (S i) l (<[i := x]> m) = overwrite i (x :: l) m.
Proof.
  intros Hi. unfold overwrite. rewrite insert_take_drop by done. cbn [length].
  rewrite take_app, drop_app, length_take, Nat.min_l by lia.
  replace (S i - i)%nat with 1%nat by lia. replace (S i + length l - i)%nat with (S (length l)) by lia.
  rewrite take_take, Nat.min_r by lia. cbn [take drop]. rewrite take_0.
  rewrite drop_ge by (rewrite length_take; lia). rewrite drop_drop.
  replace (S i + length l)%nat with (i + S (length l))%nat by lia. by rewrite <-!app_assoc.
Qed.

Lemma wp_write_list p b l Q B i s :
  fifo_at p b i s → 0 ≤ i → i + Z.of_nat (length l) < 256 →
  i + Z.of_nat (length l) ≤ Z.of_nat (length (bufs (hwst s) b)) →
  (∀ s', fifo_at p b (i + Z.of_nat (length l)) s' → fifo_frame p b s s' →
     bufs (hwst s') b = overwrite (Z.to_nat i) (map u8 l) (bufs (hwst s) b) → Q tt s') →
  wp (write_list l) Q B s.
Proof.
  revert Q i s. induction l as [|x l IH]; intros Q i s Hf Hi Hl Hb HQ; cbn [length write_list] in *.
  { wsteps. apply HQ; [by rewrite Z.add_0_r|apply fifo_frame_refl|].
    unfold overwrite. cbn. by rewrite Nat.add_0_r, take_drop. }
  apply wp_bind, (wp_Write_8 p b i); [done|lia|lia|]. intros s1 H1 F1 E1.
  apply (IH _ (i + 1)); [done|lia|lia|rewrite E1, length_insert; lia|]. intros s2 H2 F2 E2.
  apply HQ; [|by eapply fifo_frame_trans|].
  - by replace (i + Z.of_nat (S (length l))) with (i + 1 + Z.of_nat (length l)) by lia.
  - rewrite E2, E1. replace (Z.to_nat (i + 1)) with (S (Z.to_nat i)) by lia.
    cbn [map]. apply overwrite_cons. lia.
Qed.

(** ** Words *)
Definition le_bytes (x : Z) : list Z := [x .& 0xFF; x >> 8; x >> 16; x >> 24].

Ltac run_bytes :=
  intros; unfold le_bytes; cbn [write_list];
  unfold mbind, M_bind, mret, M_ret;
  repeat match goal with |- context [match ?m ?s with _ => _ end] =>
    destruct (m s) as [[]| | |]; try reflexivity end.

Lemma Write_16_LE_list x s : Endpoint_Write_16_LE x s = write_list [x .& 0xFF; x >> 8] s.
Proof. unfold Endpoint_Write_16_LE. run_bytes. Qed.
Lemma Write_16_BE_list x s : Endpoint_Write_16_BE x s = write_list [x >> 8; x .& 0xFF] s.
Proof. unfold Endpoint_Write_16_BE. run_bytes. Qed.
Lemma Write_32_LE_list x s : Endpoint_Write_32_LE x s = write_list (le_bytes x) s.
Proof. unfold Endpoint_Write_32_LE. run_bytes. Qed.
Lemma Write_32_BE_list x s : Endpoint_Write_32_BE x s = write_list (reverse (le_bytes x)) s.
Proof. unfold Endpoint_Write_32_BE. change (reverse _) with [x >> 24; x >> 16; x >> 8; x .& 255]. run_bytes. Qed.

(** The values the accessors put together from the bytes they read. *)
Definition word_le (l : list Z) : Z := match l with [b0; b1] => u16 ((b1 << 8) .| b0) | _ => 0 end.
Definition dword_le (l : list Z) : Z :=
  match l with [b0; b1; b2; b3] => u32 ((b3 << 24) .| (b2 << 16) .| (b1 << 8) .| b0) | _ => 0 end.

Ltac run_reads :=
  intros; unfold read_list, mbind, M_bind, mret, M_ret, fmap;
  repeat match goal with |- context [Endpoint_Read_8 ?s] =>
    destruct (Endpoint_Read_8 s) as [?| | |]; try reflexivity end.

Lemma Read_16_LE_list s : Endpoint_Read_16_LE s = (l ← read_list 2; mret (word_le l)) s.
Proof. unfold Endpoint_Read_16_LE. run_reads. Qed.
Lemma Read_16_BE_list s : Endpoint_Read_16_BE s = (l ← read_list 2; mret (word_le (reverse l))) s.
Proof. unfold Endpoint_Read_16_BE. run_reads. Qed.
Lemma Read_32_LE_list s : Endpoint_Read_32_LE s = (l ← read_list 4; mret (dword_le l)) s.
Proof. unfold Endpoint_Read_32_LE. run_reads. Qed.
Lemma Read_32_BE_list s : Endpoint_Read_32_BE s = (l ← read_list 4; mret (dword_le (reverse l))) s.
Proof. unfold Endpoint_Read_32_BE. run_reads. Qed.

Lemma u8_land x : u8 (x .& 0xFF) = u8 x.
Proof. unfold u8. change 0xFF with (Z.ones 8). rewrite Z.land_ones by lia. apply Z.mod_mod. lia. Qed.

Lemma word_le_bytes x : word_le [u8 (x .& 0xFF); u8 (x >> 8)] = u16 x.
Proof.
  unfold word_le. rewrite u8_land. rewrite shift_or by (unfold u8; try apply Z.mod_pos_bound; lia).
  unfold u8, u16. rewrite Z.shiftr_div_pow2 by lia. change (2 ^ 8) with 256.
  Z.to_euclidean_division_equations; lia.
Qed.

Lemma dword_le_bytes x : dword_le (map u8 (le_bytes x)) = u32 x.
Proof.
  cbn [map le_bytes dword_le]. rewrite u8_land, !Z.shiftr_div_pow2 by lia.
  set (b0 := u8 x). set (b1 := u8 (x / 2 ^ 8)). set (b2 := u8 (x / 2 ^ 16)).
  set (b3 := u8 (x / 2 ^ 24)).
  pose proof (u8_byte x). pose proof (u8_byte (x / 2 ^ 8)). pose proof (u8_byte (x / 2 ^ 16)).
  fold b0 b1 b2 in H, H0, H1. unfold byte in *.
  rewrite (shift_or 24) by (rewrite ?Z.shiftl_mul_pow2 by lia; lia).
  replace (b3 * 2 ^ 24 + (b2 << 16)) with ((b3 * 256 + b2) << 16)
    by (rewrite !Z.shiftl_mul_pow2 by lia; lia).
  rewrite shift_or by (rewrite ?Z.shiftl_mul_pow2 by lia; lia).
  replace ((b3 * 256 + b2) * 2 ^ 16 + (b1 << 8)) with ((b3 * 65536 + b2 * 256 + b1) << 8)
    by (rewrite !Z.shiftl_mul_pow2 by lia; lia).
  rewrite shift_or by lia. subst b0 b1 b2 b3. unfold u8, u32.
  change (2 ^ 8) with 256. change (2 ^ 16) with 65536. change (2 ^ 24) with 16777216.
  Z.to_euclidean_division_equations; lia.
Qed.

(** Bytes written and, after the position is set back, read again. *)
Definition rewind (i : Z) : M unit := mod_fifo (fifo_set_position i).

Lemma write_read_back {A} (m : M unit) (k : M A) (f : list Z → A) p b i l n s :
  (∀ s, m s = write_list l s) → (∀ s, k s = (l ← read_list n; mret (f l)) s) → length l = n →
  fifo_at p b i s → 0 ≤ i → i + Z.of_nat n < 256 → i + Z.of_nat n ≤ Z.of_nat (length (bufs (hwst s) b)) →
  ∃ s', (m;; rewind i;; k) s = Ok (f (map u8 l)) s' ∧ fifo_at p b (i + Z.of_nat n) s' ∧
    fifo_frame p b s s' ∧ bufs (hwst s') b = overwrite (Z.to_nat i) (map u8 l) (bufs (hwst s) b).
Proof.
  intros Hm Hk <- Hf Hi Hl Hb.
  destruct (wp_returns (m;; rewind i;; k) (λ a s', a = f (map u8 l) ∧ fifo_at p b (i + Z.of_nat (length l)) s' ∧
    fifo_frame p b s s' ∧ bufs (hwst s') b = overwrite (Z.to_nat i) (map u8 l) (bufs (hwst s) b)) s)
    as (a & s' & E & -> & H'); [|by exists s'].
  apply wp_bind. unfold wp. rewrite Hm. apply (wp_write_list p b l _ _ i); [done..|].
  intros s1 H1 F1 E1. apply wp_bind. eapply wp_Ok; [apply mod_fifo_eq; [apply H1|apply H1]|].
  unfold wp. rewrite Hk. fold (wp (l0 ← read_list (length l); mret (f l0)) (λ a s', a = f (map u8 l) ∧
    fifo_at p b (i + Z.of_nat (length l)) s' ∧ fifo_frame p b s s' ∧
    bufs (hwst s') b = overwrite (Z.to_nat i) (map u8 l) (bufs (hwst s) b)) (λ _, False)
    (upd_fifo p (fifo_set_position i) s1)).
  replace (length l) with (length (map u8 l)) in * by apply length_map.
  apply wp_bind, (wp_read_list p b (map u8 l) _ _ i); [| |done|lia|].
  - destruct p, H1. split; cbn; rewrite ?upd2_eq; done.
  - unfold holds. cbn. rewrite E1. unfold overwrite. rewrite drop_app_length', take_app_length; [done|].
    rewrite length_take. lia.
  - intros s2 H2 F2 E2. wsteps. split; [done|]. split; [done|]. split.
    + eapply fifo_frame_trans; [exact F1|]. eapply fifo_frame_trans; [|exact F2].
      destruct p. split; cbn; rewrite ?upd2_eq; try done. intros ?? ?. by rewrite upd2_ne.
    + rewrite E2. done.
Qed.
