(* ===== verification/StdReqSpec.v ===== *)
(** * Control requests

    Which control requests the device answers, and that it refuses all the
    others by stalling both directions of the control endpoint
    (DeviceStandardReq.c, CDCClassDevice.c). *)
From S2P Require Import Prelude RingBuffer Machine Endpoint Controller EndpointPoll EndpointStream Cdc Descriptors StdReq Logic EndpointData.

(** ** The requests that have an answer *)
Definition accepts_cdc (r : USB_Request_Header_t) : bool :=
  (wIndex r =? ControlInterfaceNumber) &&
  (((bRequest r =? CDC_REQ_GetLineEncoding) && (bmRequestType r =? class_in)) ||
   ((bmRequestType r =? class_out) &&
    ((bRequest r =? CDC_REQ_SetLineEncoding) || (bRequest r =? CDC_REQ_SetControlLineState) ||
     (bRequest r =? CDC_REQ_SendBreak)))).

(** The endpoint a request addresses by its index. *)
Definition index_ep (r : USB_Request_Header_t) : Z := u8 (wIndex r) .& ENDPOINT_EPNUM_MASK.

Definition accepts_standard (r : USB_Request_Header_t) : bool :=
  let t := bmRequestType r in
  let q := bRequest r in
  if q =? REQ_GetStatus then
    (t =? std_in REQREC_DEVICE) || ((t =? std_in REQREC_ENDPOINT) && (index_ep r <? ENDPOINT_TOTAL_ENDPOINTS))
  else if (q =? REQ_ClearFeature) || (q =? REQ_SetFeature) then
    (t =? std_out REQREC_ENDPOINT) &&
    (negb (u8 (wValue r) =? FEATURE_SEL_EndpointHalt) ||
     (negb (index_ep r =? ENDPOINT_CONTROLEP) && (index_ep r <? ENDPOINT_TOTAL_ENDPOINTS)))
  else if q =? REQ_SetAddress then t =? std_out REQREC_DEVICE
  else if q =? REQ_GetDescriptor then
    ((t =? std_in REQREC_DEVICE) || (t =? std_in REQREC_INTERFACE)) &&
    ((wValue r =? ((DTYPE_String << 8) .| USE_INTERNAL_SERIAL)) ||
     negb ((CALLBACK_USB_GetDescriptor (wValue r) (wIndex r)).1 =? NO_DESCRIPTOR))
  else if q =? REQ_GetConfiguration then t =? std_in REQREC_DEVICE
  else if q =? REQ_SetConfiguration then
    (t =? std_out REQREC_DEVICE) && (u8 (wValue r) <=? FIXED_NUM_CONFIGURATIONS)
  else false.

Definition accepts (r : USB_Request_Header_t) : bool := accepts_cdc r || accepts_standard r.

(** ** The control endpoint while no further transfer happens *)
Definition ctl_idle (e : event) : Prop :=
  ∃ f, e = EvHw f ∧ ∀ h, (∀ d, eps (f h) 0 d = eps h 0 d).

(** The control endpoint holds the request [r], and neither the trace nor what
    a request may change has been touched since [s0]. *)
Record ctl (r : USB_Request_Header_t) (s0 s : mach) : Prop := {
  ct_sel : SelectedEndpoint (fwst s) = 0;
  ct_req : ControlRequest (fwst s) = r;
  ct_setup : tst (EP_STATUS (eps (hwst s) 0 false)) USB_EP_SETUP_bm = true;
  ct_type d : EP_CTRL (eps (hwst s) 0 d) .& USB_EP_TYPE_gm = USB_EP_TYPE_CONTROL_gc;
  ct_env : Forall ctl_idle (script s);
  ct_state : DeviceState (fwst s) = DeviceState (fwst s0);
  ct_conf : ConfigurationNumber (fwst s) = ConfigurationNumber (fwst s0);
  ct_cdc : CDC (fwst s) = CDC (fwst s0);
  ct_send : ok_to_send (fwst s) = ok_to_send (fwst s0);
  ct_trace : trace s = trace s0 }.

Lemma wp_setup_seen r s0 Q (P : Prop) s : ctl r s0 s → (script s = [] → P) →
  (∀ s', ctl r s0 s' → length (script s) = S (length (script s')) → Q true s') →
  wp Endpoint_IsSETUPReceived Q (λ _, P) s.
Proof.
  intros [] HP HQ. unfold Endpoint_IsSETUPReceived, received. wsteps. rewrite ct_sel0. seladdr.
  apply wp_poll. cbn [script sel set_fwst]. destruct (script s) as [|e es] eqn:Es; [by apply HP|].
  apply Forall_cons in ct_env0 as [(f & -> & Hf) Hes]. wsteps. cbn. rewrite (Hf (hwst s)), ct_setup0. wsteps.
  apply HQ; [|done]. split; cbn; try done.
  - by rewrite (Hf (hwst s)).
  - intros d. rewrite (Hf (hwst s)). apply ct_type0.
Qed.

(** A request that is not accepted leaves the handlers without effect. *)
Lemma CDC_ignores r s0 Q (P : Prop) s : ctl r s0 s → accepts_cdc r = false → (script s = [] → P) →
  (∀ s', ctl r s0 s' → length (script s) = S (length (script s')) → Q tt s') →
  wp EVENT_USB_Device_ControlRequest Q (λ _, P) s.
Proof.
  intros Hc Hr HP HQ. unfold EVENT_USB_Device_ControlRequest, CDC_Device_ProcessControlRequest.
  apply wp_bind, (wp_setup_seen r s0); [done|done|]. intros s1 H1 Hl. cbn [negb]. wsteps.
  rewrite (ct_req _ _ _ H1). unfold accepts_cdc in Hr.
  destruct (wIndex r =? ControlInterfaceNumber); cbn in Hr |- *; [|by apply wp_ret, HQ].
  destruct (bRequest r =? CDC_REQ_GetLineEncoding), (bRequest r =? CDC_REQ_SetLineEncoding),
    (bRequest r =? CDC_REQ_SetControlLineState), (bRequest r =? CDC_REQ_SendBreak),
    (bmRequestType r =? class_in), (bmRequestType r =? class_out); cbn in Hr |- *; try discriminate;
    by apply wp_ret, HQ.
Qed.

(** ** The header *)
Definition header_wf (r : USB_Request_Header_t) : Prop :=
  byte (bmRequestType r) ∧ byte (bRequest r) ∧ word16 (wValue r) ∧ word16 (wIndex r) ∧ word16 (wLength r).

Lemma word_split w : word16 w → (w .& 0xFF) .| ((w >> 8) << 8) = w.
Proof.
  intros Hw. rewrite Z.lor_comm. change 0xFF with (Z.ones 8). rewrite Z.land_ones by lia.
  rewrite shift_or by (try apply Z.mod_pos_bound; lia). rewrite Z.shiftr_div_pow2 by lia.
  pose proof (Z.div_mod w (2 ^ 8)). lia.
Qed.

Definition with_request (r : USB_Request_Header_t) (s : mach) : mach :=
  set_fwst (set_ControlRequest r (fwst s)) s.

Definition parse_header (l : list Z) : M unit :=
  match l with
  | [b0; b1; b2; b3; b4; b5; b6; b7] =>
      mod_fw (set_ControlRequest
        (USB_Request_Header b0 b1 (b2 .| (b3 << 8)) (b4 .| (b5 << 8)) (b6 .| (b7 << 8))))
  | _ => mret tt
  end.

Lemma read_header_list s : read_header s = (read_list 8 ≫= parse_header) s.
Proof. unfold read_header. run_reads. Qed.

Lemma wp_read_header p b r Q B s :
  fifo_at p b 0 s → holds b 0 (header_bytes r) s → header_wf r →
  (∀ s', fifo_frame p b s s' → bufs (hwst s') = bufs (hwst s) → Q tt (with_request r s')) →
  wp read_header Q B s.
Proof.
  intros Hf Hh (H1 & H2 & H3 & H4 & H5) HQ. unfold wp. rewrite read_header_list.
  apply (wp_bind (read_list 8) parse_header Q B).
  apply (wp_read_list p b (header_bytes r) _ _ 0); [done|done|lia|done|].
  intros s' _ Hfr Hb. cbn [header_bytes parse_header]. wsteps. rewrite !word_split by done.
  replace (USB_Request_Header _ _ _ _ _) with r by by destruct r. by apply HQ.
Qed.

Section WithPlatform.
Context {PL : Platform}.

Lemma standard_ignores Q B s : accepts_standard (ControlRequest (fwst s)) = false → Q tt s →
  wp standard_request Q B s.
Proof.
  intros Hr HQ. unfold standard_request. wsteps. unfold accepts_standard in Hr.
  set (r := ControlRequest (fwst s)) in *. cbn zeta in *.
  destruct (bRequest r =? REQ_GetStatus).
  { apply wp_when; intros Ht; [|done]. unfold USB_Device_GetStatus. wsteps. fold r.
    destruct (bmRequestType r =? std_in REQREC_DEVICE); [done|].
    destruct (bmRequestType r =? std_in REQREC_ENDPOINT); [|done]. cbn zeta. fold (index_ep r).
    rewrite Z.geb_leb. cbn in Hr. apply Z.ltb_ge, Z.leb_le in Hr. by rewrite Hr. }
  destruct (_ || _).
  { apply wp_when; intros Ht; [|done]. unfold USB_Device_ClearSetFeature. wsteps. fold r.
    destruct (Z.eqb_spec (bmRequestType r) (std_out REQREC_ENDPOINT)) as [E|E].
    - rewrite E. cbn [negb andb] in Hr. apply orb_false_iff in Hr as [Hv Hx]. apply negb_false_iff in Hv.
      rewrite Hv. cbn -[index_ep]. fold (index_ep r).
      destruct (index_ep r =? ENDPOINT_CONTROLEP); [done|]. cbn in Hx. apply Z.ltb_ge, Z.leb_le in Hx.
      by rewrite Z.geb_leb, Hx.
    - rewrite orb_false_r in Ht. apply Z.eqb_eq in Ht. by rewrite Ht. }
  destruct (bRequest r =? REQ_SetAddress); [by rewrite Hr|].
  destruct (bRequest r =? REQ_GetDescriptor).
  { apply wp_when; intros Ht; [|done]. rewrite Ht in Hr. apply orb_false_iff in Hr as [H1 H2].
    unfold USB_Device_GetDescriptor. wsteps. fold r. rewrite H1. apply negb_false_iff in H2.
    destruct (CALLBACK_USB_GetDescriptor (wValue r) (wIndex r)) as [n p]. cbn in H2. by rewrite H2. }
  destruct (bRequest r =? REQ_GetConfiguration); [by rewrite Hr|].
  destruct (bRequest r =? REQ_SetConfiguration); [|done].
  apply wp_when; intros Ht; [|done]. rewrite Ht in Hr. cbn [andb] in Hr.
  unfold USB_Device_SetConfiguration. wsteps. fold r. apply Z.leb_gt in Hr.
  rewrite (proj2 (Z.gtb_lt _ _)) by done. done.
Qed.

(** ** Refusal *)
Definition stalled (s : mach) (d : bool) : bool := tst (EP_CTRL (eps (hwst s) 0 d)) USB_EP_STALL_bm.

(** What [Endpoint_ClearSETUP] leaves: the IN direction of the control endpoint
    is selected, the flags of the SETUP packet are cleared, both directions
    start with DATA1 and both FIFOs are empty. *)
Record setup_cleared (s s' : mach) : Prop := {
  sc_ctrl n d : EP_CTRL (eps (hwst s') n d) = EP_CTRL (eps (hwst s) n d);
  sc_setup : tst (EP_STATUS (eps (hwst s') 0 false)) USB_EP_SETUP_bm = false;
  sc_in : EP_STATUS (eps (hwst s') 0 true) = EP_STATUS (eps (hwst s) 0 true) .| USB_EP_TOGGLE_bm;
  sc_toggle d : tst (EP_STATUS (eps (hwst s') 0 d)) USB_EP_TOGGLE_bm = true;
  sc_eps n d : n ≠ 0 → eps (hwst s') n d = eps (hwst s) n d;
  sc_hw : ∀ e, set_eps e (hwst s') = set_eps e (hwst s);
  sc_pos d : FIFOs (fwst s') 0 d = fifo_set_position 0 (FIFOs (fwst s) 0 d);
  sc_fifos n d : n ≠ 0 → FIFOs (fwst s') n d = FIFOs (fwst s) n d;
  sc_fw : ∀ F, set_FIFOs F (fwst s') = set_FIFOs F (fwst (sel 128 s));
  sc_script : script s' = script s;
  sc_trace : trace s' = trace s }.

Lemma wp_ClearSETUP Q B s : SelectedEndpoint (fwst s) = 0 →
  (∀ s', setup_cleared s s' → Q tt s') → wp Endpoint_ClearSETUP Q B s.
Proof.
  intros Hs HQ. unfold Endpoint_ClearSETUP. wsteps. rewrite Hs. wsteps. apply HQ.
  split; try done; cbn; try intros []; intros; unfold upd2; repeat (case_decide; simplify_eq/=; try done);
    rewrite tst_lor; try apply orb_true_r.
  by rewrite tst_cleared.
Qed.

(** The OUT packet flag is cleared as well. *)
Lemma wp_ClearSETUP_out Q B s : SelectedEndpoint (fwst s) = 0 →
  (∀ s', setup_cleared s s' → tst (EP_STATUS (eps (hwst s') 0 false)) USB_EP_TRNCOMPL0_bm = false → Q tt s') →
  wp Endpoint_ClearSETUP Q B s.
Proof.
  intros Hs HQ.
  assert (wp Endpoint_ClearSETUP (λ _ s', tst (EP_STATUS (eps (hwst s') 0 false)) USB_EP_TRNCOMPL0_bm = false) B s) as H1.
  { unfold Endpoint_ClearSETUP. wsteps. rewrite Hs. wsteps. cbn. unfold upd2. repeat (case_decide; simplify_eq/=).
    by rewrite tst_lor, tst_cleared. }
  assert (wp Endpoint_ClearSETUP (λ _, setup_cleared s) B s) as H2 by by apply wp_ClearSETUP.
  unfold wp in *. destruct (Endpoint_ClearSETUP s) as [[]| | |]; auto.
Qed.

Lemma wp_refuse r s0 Q B s : ctl r s0 s →
  (∀ s', (∀ d, stalled s' d = true) → tst (EP_STATUS (eps (hwst s') 0 false)) USB_EP_SETUP_bm = false →
     (∀ n d, n ≠ 0 → eps (hwst s') n d = eps (hwst s) n d) →
     (∀ F, set_FIFOs F (fwst s') = set_FIFOs F (fwst (sel 0 s))) →
     script s' = script s → trace s' = trace s0 → Q tt s') →
  wp (Endpoint_ClearSETUP;; Endpoint_StallTransaction) Q B s.
Proof.
  intros [] HQ. apply wp_bind, wp_ClearSETUP; [done|]. intros s1 [].
  pose proof (f_equal SelectedEndpoint (sc_fw0 (FIFOs (fwst s)))) as Hs. cbn in Hs.
  pose proof (f_equal SelectedHandle (sc_fw0 (FIFOs (fwst s)))) as Hh. cbn in Hh.
  unfold Endpoint_StallTransaction. wsteps. apply wp_when.
  - intros _. wsteps. cbn [fwst upd_handle set_hwst]. rewrite Hs. wsteps. apply HQ; cbn; try congruence.
    + intros d. unfold stalled. cbn. unfold upd2.
      destruct d; repeat (case_decide; simplify_eq/=); rewrite tst_lor; apply orb_true_r.
    + unfold upd2. by repeat (case_decide; simplify_eq/=).
    + intros n d Hn. unfold upd2. repeat (case_decide; simplify_eq/=). by apply sc_eps0.
    + intros F. pose proof (sc_fw0 F) as E. destruct s1 as [? [] ? ?], s as [? [] ? ?]. cbn in *. by simplify_eq.
  - intros E. cbn in E. rewrite upd2_eq in E. cbn in E. rewrite Z.land_lor_distr_l, sc_ctrl0, ct_type0 in E. done.
Qed.

(** A SETUP packet with request [r] has arrived and waits in the OUT direction
    of the selected control endpoint. *)
Record setup_arrived (r : USB_Request_Header_t) (b : buffer) (s : mach) : Prop := {
  sa_sel : SelectedEndpoint (fwst s) = 0;
  sa_fifo : fifo_at (0, false) b 0 s;
  sa_hdr : holds b 0 (header_bytes r) s;
  sa_wf : header_wf r;
  sa_setup : tst (EP_STATUS (eps (hwst s) 0 false)) USB_EP_SETUP_bm = true;
  sa_type d : EP_CTRL (eps (hwst s) 0 d) .& USB_EP_TYPE_gm = USB_EP_TYPE_CONTROL_gc;
  sa_env : Forall ctl_idle (script s) }.

Lemma ctl_read r b s s' : setup_arrived r b s → fifo_frame (0, false) b s s' → ctl r s (with_request r s').
Proof.
  intros [] F. pose proof (ff_fw _ _ _ _ F (FIFOs (fwst s))) as Ef.
  pose proof (f_equal eps (ff_hw _ _ _ _ F (bufs (hwst s)))) as Eh. cbn in Eh.
  split; cbn; rewrite ?Eh, ?(ff_script _ _ _ _ F), ?(ff_trace _ _ _ _ F); try done.
  - apply (f_equal SelectedEndpoint) in Ef. cbn in Ef. congruence.
  - by apply (f_equal DeviceState) in Ef.
  - by apply (f_equal ConfigurationNumber) in Ef.
  - by apply (f_equal CDC) in Ef.
  - by apply (f_equal ok_to_send) in Ef.
Qed.

(** The outcome of a refused request. *)
Record refused (r : USB_Request_Header_t) (s s' : mach) : Prop := {
  rf_stalled d : stalled s' d = true;
  rf_setup : tst (EP_STATUS (eps (hwst s') 0 false)) USB_EP_SETUP_bm = false;
  rf_request : ControlRequest (fwst s') = r;
  rf_state : DeviceState (fwst s') = DeviceState (fwst s);
  rf_conf : ConfigurationNumber (fwst s') = ConfigurationNumber (fwst s);
  rf_cdc : CDC (fwst s') = CDC (fwst s);
  rf_send : ok_to_send (fwst s') = ok_to_send (fwst s);
  rf_trace : trace s' = trace s }.

Lemma ProcessControlRequest_refuses r b s :
  setup_arrived r b s → accepts r = false → (3 ≤ length (script s))%nat →
  ∃ s', USB_Device_ProcessControlRequest s = Ok tt s' ∧ refused r s s' ∧
        (length (script s) = 3 + length (script s'))%nat.
Proof.
  intros Ha Hr Hlen. apply orb_false_iff in Hr as [Hcdc Hstd].
  destruct (wp_returns USB_Device_ProcessControlRequest (λ _ s', refused r s s' ∧
    (length (script s) = 3 + length (script s'))%nat) s) as ([] & s' & E & H); [|by eauto].
  unfold USB_Device_ProcessControlRequest.
  apply wp_bind, (wp_read_header (0, false) b r); [apply Ha..|]. intros s1 F1 _.
  pose proof (ctl_read _ _ _ _ Ha F1) as H1. assert (script (with_request r s1) = script s) as E1 by apply F1.
  apply wp_bind, (CDC_ignores r s); [done|done|rewrite E1; intros E; rewrite E in Hlen; cbn in Hlen; lia|].
  intros s2 H2 L2. rewrite E1 in L2.
  apply wp_bind, (wp_setup_seen r s); [done|intros E; rewrite E in L2; cbn in L2; lia|]. intros s3 H3 L3.
  cbn [when]. apply wp_bind, standard_ignores; [by rewrite (ct_req _ _ _ H3)|].
  apply wp_bind, (wp_setup_seen r s); [done|intros E; rewrite E in L3; cbn in L3; lia|]. intros s4 H4 L4.
  cbn [when]. apply (wp_refuse r s); [done|]. intros s5 Hst Hse _ Hfw Hsc Htr.
  split; [|rewrite Hsc; lia]. pose proof (Hfw (FIFOs (fwst s))) as Ef. destruct H4. split; try done.
  - apply (f_equal ControlRequest) in Ef. cbn in Ef. congruence.
  - apply (f_equal DeviceState) in Ef. cbn in Ef. congruence.
  - apply (f_equal ConfigurationNumber) in Ef. cbn in Ef. congruence.
  - apply (f_equal CDC) in Ef. cbn in Ef. congruence.
  - apply (f_equal ok_to_send) in Ef. cbn in Ef. congruence.
Qed.
End WithPlatform.
