(* ===== verification/ControlSpec.v ===== *)
(** * Requests the device answers

    The control requests that change the state of the device - SET_ADDRESS,
    SET_CONFIGURATION and the CDC request SET_CONTROL_LINE_STATE - from the
    arrival of the SETUP packet to the end of the status stage
    (DeviceStandardReq.c, CDCClassDevice.c, usb_serial.c). *)
From S2P Require Import Prelude RingBuffer Machine Endpoint Controller EndpointPoll EndpointStream Cdc Descriptors StdReq Logic.
From S2P Require Import EndpointSpec EndpointData StdReqSpec.

(** A host that collects what the control endpoint offers and sends nothing
    new: each event leaves the OUT direction alone and frees the IN one. *)
Record ctl_step (h h' : hw) : Prop := {
  cv_out : eps h' 0 false = eps h 0 false;
  cv_in : tst (EP_STATUS (eps h' 0 true)) USB_EP_BUSNACK0_bm = true;
  cv_ctrl n d : EP_CTRL (eps h' n d) = EP_CTRL (eps h n d);
  cv_setup n : tst (EP_STATUS (eps h' n false)) USB_EP_SETUP_bm = tst (EP_STATUS (eps h n false)) USB_EP_SETUP_bm;
  cv_rf : rf h' = rf h }.
Definition ctl_event (e : event) : Prop := ∃ f, e = EvHw f ∧ ∀ h, ctl_step h (f h).

(** ** What a control transfer leaves alone *)

(** An event of a host that is busy with the control endpoint only; its
    packets arrive in [notification_fifo2]. *)
Record quiet_step (h h' : hw) : Prop := {
  qs_eps n d : n ≠ 0 → eps h' n d = eps h n d;
  qs_bufs b : b ≠ notification_fifo2 → bufs h' b = bufs h b;
  qs_len b : length (bufs h' b) = length (bufs h b);
  qs_host : host h' = host h;
  qs_scope : scopeBuf h' = scopeBuf h }.
Definition quiet_event (e : event) : Prop := ∀ f, e = EvHw f → ∀ h, quiet_step h (f h).

(** [s] agrees with [z] on everything that belongs to the data endpoints and
    the serial port. *)
Record frame0 (z s : mach) : Prop := {
  f0_fifos n d : n ≠ 0 → FIFOs (fwst s) n d = FIFOs (fwst z) n d;
  f0_data d : FIFO_Data (FIFOs (fwst s) 0 d) = FIFO_Data (FIFOs (fwst z) 0 d);
  f0_ring : USBtoUSART_Buffer (fwst s) = USBtoUSART_Buffer (fwst z);
  f0_hw : quiet_step (hwst z) (hwst s) }.

Lemma quiet_refl h : quiet_step h h.
Proof. by split. Qed.
Lemma quiet_trans h1 h2 h3 : quiet_step h1 h2 → quiet_step h2 h3 → quiet_step h1 h3.
Proof.
  intros [] []. split; try congruence.
  - intros n d Hn. by rewrite qs_eps1, qs_eps0.
  - intros b Hb. by rewrite qs_bufs1, qs_bufs0.
Qed.
Lemma frame0_refl s : frame0 s s.
Proof. by split; [..|apply quiet_refl]. Qed.
Lemma frame0_trans s1 s2 s3 : frame0 s1 s2 → frame0 s2 s3 → frame0 s1 s3.
Proof.
  intros [] []. split; try congruence; [|by eapply quiet_trans].
  intros n d Hn. by rewrite f0_fifos1, f0_fifos0.
Qed.

(** The state of the device that requests read and change. *)
Definition core (w : fw) := (DeviceState w, ConfigurationNumber w, ControlRequest w, CDC w, ok_to_send w).

(** The machine while a request is handled. The frame is known when the host
    is quiet; [z] is the machine in which the request arrived and [rest] the
    script after the [n] events still to come. *)
Section Handling.
Context {PL : Platform} {quiet : Prop} {z : mach} {rest : list event}.

Record cst (c : _) (regs : reg → Z) (tr : list obs) (setup : bool) (n : nat) (s : mach) : Prop := {
  cs_core : core (fwst s) = c;
  cs_sel : SelectedEndpoint (fwst s) = 0 ∨ SelectedEndpoint (fwst s) = 128;
  cs_rf : rf (hwst s) = regs;
  cs_trace : trace s = tr;
  cs_setup : tst (EP_STATUS (eps (hwst s) 0 false)) USB_EP_SETUP_bm = setup;
  cs_other : tst (EP_STATUS (eps (hwst s) 2 false)) USB_EP_SETUP_bm = false;
  cs_empty d : setup = false → FIFO_Position (FIFOs (fwst s) 0 d) = 0;
  cs_frame : quiet → frame0 z s;
  cs_quiet : quiet → Forall quiet_event (script s);
  cs_env : Forall ctl_event (take n (script s));
  cs_left : (n ≤ length (script s))%nat;
  cs_rest : drop n (script s) = rest }.

Lemma frame0_fw s w : frame0 z s → FIFOs w = FIFOs (fwst s) → USBtoUSART_Buffer w = USBtoUSART_Buffer (fwst s) →
  frame0 z (set_fwst w s).
Proof. intros [] H1 H2. split; cbn; rewrite ?H1, ?H2; done. Qed.

Lemma frame0_fifo0 s d f : frame0 z s → (∀ q, FIFO_Data (f q) = FIFO_Data q) → frame0 z (upd_fifo (0, d) f s).
Proof.
  intros [] Hq. split; cbn; try done; intros; unfold upd2; case_decide; simplify_eq/=; auto. by rewrite Hq.
Qed.
Lemma frame0_handle0 s d f : frame0 z s → frame0 z (upd_handle (0, d) f s).
Proof.
  intros [??? []]. split; cbn; try done. split; cbn; try done.
  intros; unfold upd2; case_decide; simplify_eq/=; auto.
Qed.
Lemma frame0_trace l s : frame0 z s → frame0 z (set_trace l s).
Proof. intros []. by split. Qed.

Lemma cst_core c0 c regs tr b n s (f : fw → fw) : cst c0 regs tr b n s →
  (∀ w, (SelectedEndpoint (f w), FIFOs (f w), USBtoUSART_Buffer (f w)) = (SelectedEndpoint w, FIFOs w, USBtoUSART_Buffer w)) →
  core (f (fwst s)) = c → cst c regs tr b n (set_fwst (f (fwst s)) s).
Proof.
  intros [] Hf H3. specialize (Hf (fwst s)). injection Hf as H1 H2 H4.
  split; cbn; rewrite ?H1, ?H2; try done. intros Hq. apply frame0_fw; auto.
Qed.

Lemma cst_stored c regs tr b n r x v s : cst c regs tr b n s →
  cst c (upd regs r x) (tr ++ [OStore r v]) b n (stored r x v s).
Proof. intros []. split; cbn; try (congruence || done). intros Hq. by destruct (cs_frame0 Hq) as [??? []]. Qed.

Lemma cst_poll c regs tr b n s Q B :
  cst c regs tr b (S n) s → (∀ s', cst c regs tr b n s' →
    FIFOs (fwst s') = FIFOs (fwst s) → SelectedEndpoint (fwst s') = SelectedEndpoint (fwst s) →
    SelectedHandle (fwst s') = SelectedHandle (fwst s) → SelectedFIFO (fwst s') = SelectedFIFO (fwst s) →
    tst (EP_STATUS (eps (hwst s') 0 true)) USB_EP_BUSNACK0_bm = true → Q tt s') → wp poll Q B s.
Proof.
  intros [] HQ. apply wp_poll. destruct (script s) as [|e l]; [cbn in *; lia|].
  apply Forall_cons in cs_env0 as [(g & -> & Hg) Hl]. destruct (Hg (hwst s)).
  apply HQ; try done. split; cbn; rewrite ?cv_setup0, ?cv_rf0; try done.
  - intros Hq. destruct (cs_frame0 Hq). specialize (cs_quiet0 Hq). apply Forall_cons in cs_quiet0 as [Hg1 _].
    split; try done. eapply quiet_trans; [done|]. by apply Hg1.
  - intros Hq. specialize (cs_quiet0 Hq). by apply Forall_cons in cs_quiet0 as [_ ?].
  - cbn in cs_left0. lia.
Qed.

Lemma cst_sel c regs tr b n a s : cst c regs tr b n s → a = 0 ∨ a = 128 → cst c regs tr b n (sel a s).
Proof. intros [] Ha. split; try done. intros Hq. by destruct (cs_frame0 Hq). Qed.

(** [received] on the control endpoint, whichever direction is selected. *)
Lemma cst_IsSETUP c regs tr b n s Q B : cst c regs tr b (S n) s →
  (∀ s', cst c regs tr b n s' → SelectedEndpoint (fwst s') = 0 → Q b s') → wp Endpoint_IsSETUPReceived Q B s.
Proof.
  intros Hc HQ. unfold Endpoint_IsSETUPReceived, received. wsteps.
  assert (clr8 (SelectedEndpoint (fwst s)) ENDPOINT_DIR_IN = 0) as -> by (by destruct (cs_sel _ _ _ _ _ _ Hc) as [-> | ->]).
  wsteps. apply (cst_poll c regs tr b n); [apply cst_sel; auto|]. intros s1 H1 E1 Es Eh Ef _.
  change (SelectedHandle (fwst s1) = (0, false)) in Eh. change (SelectedFIFO (fwst s1) = (0, false)) in Ef.
  wsteps. cbn [fst snd]. rewrite (cs_setup _ _ _ _ _ _ H1).
  destruct b; wsteps; apply HQ; try done. destruct H1. split; cbn; try done.
  intros Hq. by apply frame0_fifo0; [apply cs_frame0|].
Qed.

Lemma cst_IsINReady c regs tr b n s Q B : cst c regs tr b (S n) s →
  (∀ s', cst c regs tr b n s' → SelectedHandle (fwst s') = (0, true) → SelectedFIFO (fwst s') = (0, true) →
     Q true s') → wp Endpoint_IsINReady Q B s.
Proof.
  intros Hc HQ. unfold Endpoint_IsINReady. wsteps.
  assert (SelectedEndpoint (fwst s) .| ENDPOINT_DIR_IN = 128) as -> by (by destruct (cs_sel _ _ _ _ _ _ Hc) as [-> | ->]).
  wsteps. apply (cst_poll c regs tr b n); [apply cst_sel; auto|]. intros s1 H1 E1 Es Eh Ef Hr.
  change (SelectedHandle (fwst s1) = (0, true)) in Eh. change (SelectedFIFO (fwst s1) = (0, true)) in Ef.
  wsteps. cbn [fst snd]. rewrite Hr. by apply HQ.
Qed.

Lemma frame0_ClearSETUP s s' : setup_cleared s s' → frame0 s s'.
Proof.
  intros []. pose proof (sc_hw (eps (hwst s))) as Eh. split.
  - done.
  - intros d. by rewrite sc_pos.
  - exact (f_equal USBtoUSART_Buffer (sc_fw (FIFOs (fwst s)))).
  - pose proof (f_equal bufs Eh) as Eb. cbn in Eb.
    split; [done|by rewrite Eb|by rewrite Eb|exact (f_equal host Eh)|exact (f_equal scopeBuf Eh)].
Qed.

Lemma cst_ClearSETUP c regs tr b n s Q B : cst c regs tr b n s → SelectedEndpoint (fwst s) = 0 →
  (∀ s', cst c regs tr false n s' → Q tt s') → wp Endpoint_ClearSETUP Q B s.
Proof.
  intros [] Hs HQ. apply wp_ClearSETUP; [done|]. intros s1 Hc. pose proof (frame0_ClearSETUP _ _ Hc) as Hf. destruct Hc.
  pose proof (sc_fw (FIFOs (fwst s))) as E. pose proof (f_equal rf (sc_hw (eps (hwst s)))) as Er. cbn in Er.
  apply HQ. split; try congruence; try rewrite sc_script; try done.
  - subst c. unfold core. destruct s1 as [? [] ? ?], s as [? [] ? ?]. cbn in E |- *. by simplify_eq.
  - right. by apply (f_equal SelectedEndpoint) in E.
  - by rewrite sc_eps.
  - intros d _. by rewrite sc_pos.
  - intros Hq. by eapply frame0_trans; [apply cs_frame0|].
Qed.

(** The status stage of a request without data to the host. *)
Lemma cst_StatusStage d k r x y regs tr n s Q B : cst (d, k, r, x, y) regs tr false (S n) s →
  tst (bmRequestType r) REQDIR_DEVICETOHOST = false →
  (∀ s', cst (d, k, r, x, y) regs (tr ++ [OPacket 0 []]) false n s' → Q tt s') →
  wp Endpoint_ClearStatusStage Q B s.
Proof.
  intros Hc Hr HQ. unfold Endpoint_ClearStatusStage. wsteps.
  pose proof (cs_core _ _ _ _ _ _ Hc) as Ec. injection Ec as _ _ Er _ _. rewrite Er, Hr.
  apply wp_bind. apply (wp_iter (λ _ s, cst (d, k, r, x, y) regs tr false (S n) s) (λ _ _, O)); [|done|lia].
  clear s Hc Er. intros _ s Hc. apply wp_bind, (cst_IsINReady _ _ _ _ _ _ _ _ Hc). intros s1 H1 Hh Hf. wsteps.
  cbn [when]. unfold Endpoint_ClearIN. wsteps. rewrite Hh. cbn [when snd fst]. wsteps. apply HQ.
  destruct H1. split; cbn; try done.
  - rewrite cs_trace0. do 3 f_equal. unfold pending_packet. rewrite Hf. cbn.
    rewrite cs_empty0 by done. by destruct (FIFO_Data _).
  - intros d' _. unfold upd2. case_decide; [done|auto].
  - intros Hq. apply frame0_trace. eauto using frame0_fifo0, frame0_handle0.
Qed.

(** ** Arrival and dispatch *)

(** A SETUP packet with request [r] waits in the selected control endpoint. *)
Record setup_waits (r : USB_Request_Header_t) (b : buffer) (s : mach) : Prop := {
  rw_sel : SelectedEndpoint (fwst s) = 0;
  rw_fifo : fifo_at (0, false) b 0 s;
  rw_hdr : holds b 0 (header_bytes r) s;
  rw_wf : header_wf r;
  rw_setup : tst (EP_STATUS (eps (hwst s) 0 false)) USB_EP_SETUP_bm = true;
  rw_other : tst (EP_STATUS (eps (hwst s) 2 false)) USB_EP_SETUP_bm = false }.
Definition request_waits (r : USB_Request_Header_t) (b : buffer) (s : mach) : Prop :=
  setup_waits r b s ∧ Forall ctl_event (script s).

(** The frame holds where the request arrives. *)
Definition arrival (s : mach) : Prop := quiet → frame0 z s ∧ Forall quiet_event (script s).
(** The next [n] events are those of a host that waits for the answer. *)
Definition waits_for (n : nat) (s : mach) : Prop :=
  Forall ctl_event (take n (script s)) ∧ (n ≤ length (script s))%nat ∧ drop n (script s) = rest.

Lemma cst_read r b n s Q B : setup_waits r b s → arrival s → waits_for n s →
  (∀ s', let w := fwst s in
     cst (DeviceState w, ConfigurationNumber w, r, CDC w, ok_to_send w) (rf (hwst s)) (trace s) true n s' →
     SelectedEndpoint (fwst s') = 0 → Q tt s') →
  wp read_header Q B s.
Proof.
  intros [] Har (Henv & Hn & Hr) HQ. apply (wp_read_header (0, false) b r); [done..|]. intros s1 F Eb.
  pose proof (ff_fw _ _ _ _ F (FIFOs (fwst s))) as Ef.
  pose proof (ff_hw _ _ _ _ F (bufs (hwst s))) as Eh.
  pose proof (f_equal rf Eh) as Er. pose proof (f_equal eps Eh) as Ee. cbn in Ee, Er.
  pose proof (f_equal SelectedEndpoint Ef) as Es. cbn in Es.
  apply HQ; [|cbn; congruence].
  split; cbn; rewrite ?Ee, ?Er, ?(ff_script _ _ _ _ F), ?(ff_trace _ _ _ _ F); try done.
  - unfold core. destruct s1 as [? [] ? ?], s as [? [] ? ?]. cbn in Ef |- *. by simplify_eq.
  - left. congruence.
  - intros Hq. destruct (Har Hq) as [Hf _]. eapply frame0_trans; [exact Hf|]. split; cbn.
    + intros n' d Hn'. rewrite (ff_fifos _ _ _ _ F); [done|]. intros E. by injection E.
    + intros [|]; [by rewrite (ff_fifos _ _ _ _ F)|apply F].
    + exact (f_equal USBtoUSART_Buffer Ef).
    + split; cbn; [by intros; rewrite Ee|by rewrite Eb|by rewrite Eb|exact (f_equal host Eh)|exact (f_equal scopeBuf Eh)].
  - intros Hq. apply Har, Hq.
Qed.

(** The class driver ignores a request that is not its own. *)
Lemma cst_CDC_ignores d k r x y regs tr n s Q B : cst (d, k, r, x, y) regs tr true (S n) s →
  accepts_cdc r = false →
  (∀ s', cst (d, k, r, x, y) regs tr true n s' → Q tt s') → wp EVENT_USB_Device_ControlRequest Q B s.
Proof.
  intros Hc Hr HQ. unfold EVENT_USB_Device_ControlRequest, CDC_Device_ProcessControlRequest.
  apply wp_bind, (cst_IsSETUP _ _ _ _ _ _ _ _ Hc). intros s1 H1 _. cbn [negb]. wsteps.
  pose proof (cs_core _ _ _ _ _ _ H1) as Ec. injection Ec as _ _ Er _ _. rewrite Er. unfold accepts_cdc in Hr.
  destruct (wIndex r =? ControlInterfaceNumber); cbn in Hr |- *; [|by apply wp_ret, HQ].
  destruct (bRequest r =? CDC_REQ_GetLineEncoding), (bRequest r =? CDC_REQ_SetLineEncoding),
    (bRequest r =? CDC_REQ_SetControlLineState), (bRequest r =? CDC_REQ_SendBreak),
    (bmRequestType r =? class_in), (bmRequestType r =? class_out); cbn in Hr |- *; try discriminate;
    by apply wp_ret, HQ.
Qed.

(** The last step of the dispatch: refuse what is still pending. *)
Definition leftover : M unit :=
  setup ← Endpoint_IsSETUPReceived; when setup (Endpoint_ClearSETUP;; Endpoint_StallTransaction).

(** A standard request: the handler runs once and the request is not refused. *)
Lemma wp_standard r b h n s Q B : setup_waits r b s → arrival s → waits_for (2 + n) s → accepts_cdc r = false →
  (∀ s, ControlRequest (fwst s) = r → standard_request s = h s) →
  (∀ s', let w := fwst s in
     cst (DeviceState w, ConfigurationNumber w, r, CDC w, ok_to_send w) (rf (hwst s)) (trace s) true n s' →
     SelectedEndpoint (fwst s') = 0 →
     wp h (λ _, wp leftover Q B) B s') →
  wp USB_Device_ProcessControlRequest Q B s.
Proof.
  intros Hw Har Hn Hr Hh HQ. unfold USB_Device_ProcessControlRequest.
  apply wp_bind, (cst_read r b (2 + n)); [done..|]. intros s1 w H1 _.
  apply wp_bind, (cst_CDC_ignores _ _ _ _ _ _ _ _ _ _ _ H1 Hr). intros s2 H2.
  apply wp_bind, (cst_IsSETUP _ _ _ _ _ _ _ _ H2). intros s3 H3 Hs. cbn [when].
  apply wp_bind. unfold wp at 1. rewrite Hh; [|by pose proof (cs_core _ _ _ _ _ _ H3) as Ec; injection Ec].
  by apply HQ.
Qed.

Lemma cst_done c regs tr n s (Q : unit → mach → Prop) B : cst c regs tr false (S n) s →
  (∀ s', cst c regs tr false n s' → Q tt s') →
  wp leftover Q B s.
Proof. intros Hc HQ. unfold leftover. apply wp_bind, (cst_IsSETUP _ _ _ _ _ _ _ _ Hc). intros s1 H1 _. by apply HQ. Qed.

(** ** SET_ADDRESS *)
Definition set_address (a : Z) : USB_Request_Header_t := USB_Request_Header (std_out REQREC_DEVICE) REQ_SetAddress a 0 0.

Lemma wp_process_SetAddress a b n s (Q : unit → mach → Prop) B : 0 ≤ a < 128 → setup_waits (set_address a) b s → arrival s →
  waits_for (5 + n) s →
  (∀ s', let w := fwst s in
     cst (if a =? 0 then DEVICE_STATE_Default else DEVICE_STATE_Addressed, ConfigurationNumber w, set_address a, CDC w, ok_to_send w)
       (upd (rf (hwst s)) (USB, ADDR) a) (trace s ++ [OPacket 0 []; OStore (USB, ADDR) a]) false n s' → Q tt s') →
  wp USB_Device_ProcessControlRequest Q B s.
Proof.
  intros Ha Hw Har Hn HQ. apply (wp_standard (set_address a) b USB_Device_SetAddress (3 + n)); [done|done|done|done| |].
  { intros s1 E1. unfold standard_request, mbind, M_bind, get_fw, gets. by rewrite E1. }
  intros s1 w H1 Hs. unfold USB_Device_SetAddress. wsteps.
  pose proof (cs_core _ _ _ _ _ _ H1) as Ec. injection Ec as _ _ Er _ _. rewrite Er. cbn [wValue set_address].
  assert (a .& 0x7F = a) as ->.
  { change 0x7F with (Z.ones 7). rewrite Z.land_ones by lia. apply Z.mod_small. lia. }
  unfold USB_Device_SetDeviceAddress. wsteps.
  apply wp_bind, (cst_ClearSETUP _ _ _ _ _ _ _ _ H1 Hs). intros s2 H2.
  apply wp_bind, (cst_StatusStage _ _ _ _ _ _ _ _ _ _ _ H2); [done|]. intros s3 H3.
  apply wp_bind, (wp_iter (λ _ s', s' = s3) (λ _ _, O)); [|done|lia]. intros _ ? ->.
  apply wp_bind, wp_bind, (cst_IsINReady _ _ _ _ _ _ _ _ H3). intros s4 H4 _ _. wsteps. cbn [negb].
  unfold USB_Device_EnableDeviceAddress. wsteps. rewrite (u8_small a) by (unfold byte; lia).
  pose proof (cst_stored _ _ _ _ _ (USB, ADDR) a a _ H4) as H5.
  eapply cst_done; [eapply cst_core; [exact H5|reflexivity|reflexivity]|].
  pose proof (cs_core _ _ _ _ _ _ H5) as Ec. unfold core in Ec. cbn in Ec. injection Ec as Ed Ek Ek2 Ek3 Ek4.
  intros s6 H6. apply HQ. cbn. rewrite <-app_assoc in H6. unfold core in H6. cbn in H6. rewrite Ek, Ek2, Ek3, Ek4 in H6.
  by destruct (a =? 0).
Qed.

(** ** SET_CONTROL_LINE_STATE *)
Definition set_control_line_state (v : Z) : USB_Request_Header_t :=
  USB_Request_Header class_out CDC_REQ_SetControlLineState v ControlInterfaceNumber 0.

(** The standard dispatch after the class driver has answered. *)
Definition dispatch_rest : M unit :=
  setup ← Endpoint_IsSETUPReceived; when setup standard_request;; leftover.

Lemma cst_answered c regs tr n s (Q : unit → mach → Prop) B : cst c regs tr false (2 + n) s →
  (∀ s', cst c regs tr false n s' → Q tt s') → wp dispatch_rest Q B s.
Proof.
  intros Hc HQ. unfold dispatch_rest. apply wp_bind, (cst_IsSETUP _ _ _ _ _ _ _ _ Hc). intros s1 H1 _.
  cbn [when]. wsteps. by apply (cst_done _ _ _ _ _ _ _ H1).
Qed.

Lemma cst_SetControlLineState d k v x y regs tr n s Q B :
  cst (d, k, set_control_line_state v, x, y) regs tr true (S n) s → SelectedEndpoint (fwst s) = 0 →
  (∀ s', cst (d, k, set_control_line_state v, set_HostToDevice v x,
      if tst v CDC_CONTROL_LINE_OUT_DTR then 1 else 0) regs (tr ++ [OPacket 0 []]) false n s' → Q tt s') →
  wp CDC_SetControlLineState Q B s.
Proof.
  intros Hc Hs HQ. unfold CDC_SetControlLineState.
  apply wp_bind, (cst_ClearSETUP _ _ _ _ _ _ _ _ Hc Hs). intros s1 H1.
  apply wp_bind, (cst_StatusStage _ _ _ _ _ _ _ _ _ _ _ H1); [done|]. intros s2 H2.
  pose proof (cs_core _ _ _ _ _ _ H2) as Ec. injection Ec as Ed Ek Er Ex Ey.
  unfold EVENT_CDC_Device_ControLineStateChanged. wsteps.
  cbn [fwst set_fwst CDC set_CDC set_HostToDevice HostToDevice]. rewrite Er. cbn [wValue set_control_line_state].
  destruct (tst v CDC_CONTROL_LINE_OUT_DTR); wsteps; apply HQ;
    (eapply (cst_core _ _ _ _ _ _ _ (set_ok_to_send _));
     [eapply (cst_core _ _ _ _ _ _ _ (set_CDC _)); [exact H2|done|reflexivity]|done|]);
    unfold core; cbn; by rewrite Ed, Ek, Er, Ex.
Qed.

Lemma wp_process_SetControlLineState v b n s (Q : unit → mach → Prop) B : setup_waits (set_control_line_state v) b s →
  arrival s → waits_for (4 + n) s →
  (∀ s', let w := fwst s in
     cst (DeviceState w, ConfigurationNumber w, set_control_line_state v, set_HostToDevice v (CDC w),
       if tst v CDC_CONTROL_LINE_OUT_DTR then 1 else 0) (rf (hwst s)) (trace s ++ [OPacket 0 []]) false n s' → Q tt s') →
  wp USB_Device_ProcessControlRequest Q B s.
Proof.
  intros Hw Har Hn HQ. unfold USB_Device_ProcessControlRequest.
  apply wp_bind, (cst_read _ b (4 + n) _ _ _ Hw Har); [done|]. intros s1 w H1 _.
  unfold EVENT_USB_Device_ControlRequest, CDC_Device_ProcessControlRequest.
  apply wp_bind, wp_bind, (cst_IsSETUP _ _ _ _ _ _ _ _ H1). intros s2 H2 Hs. cbn [negb]. wsteps.
  pose proof (cs_core _ _ _ _ _ _ H2) as Ec. injection Ec as _ _ Er _ _. rewrite Er. fold leftover. fold dispatch_rest.
  match goal with |- wp ?m _ _ _ => change m with CDC_SetControlLineState end.
  apply (cst_SetControlLineState _ _ _ _ _ _ _ _ _ _ _ H2 Hs). intros s3 H3.
  by apply (cst_answered _ _ _ _ _ _ _ H3).
Qed.

(** ** SET_CONFIGURATION *)
Definition set_configuration (n : Z) : USB_Request_Header_t :=
  USB_Request_Header (std_out REQREC_DEVICE) REQ_SetConfiguration n 0 0.

(** The three endpoints of the serial port. *)
Definition serial_endpoints (ep : Z → bool → USB_EP_t) : Prop :=
  EP_CTRL (ep 3 true) = ep_config EP_TYPE_BULK 3 ∧ EP_CTRL (ep 4 false) = ep_config EP_TYPE_BULK 3 ∧
  EP_CTRL (ep 2 true) = ep_config EP_TYPE_INTERRUPT 0.

Lemma wp_one_endpoint t m Q B s : Endpoint_BytesToEPSizeMask (T_Size t) = Some m → in_table (ep_of (T_Address t)) = true → T_Type t ≠ EP_TYPE_CONTROL →
  0 ≤ T_Size t ≤ 64 → T_Address t ≠ 0 →
  (∀ s', configured (ep_of (T_Address t)) (ep_config (T_Type t) m) (T_Size t) s s' →
     SelectedEndpoint (fwst s') = T_Address t → Q true s') →
  wp (Endpoint_ConfigureEndpointTable [t]) Q B s.
Proof.
  intros Hm H1 H2 H3 H4 HQ. cbn [Endpoint_ConfigureEndpointTable]. rewrite (proj2 (Z.eqb_neq _ _) H4).
  apply wp_bind, wp_ConfigureEndpoint; [done..|]. intros m' s' Hm' Hc Hs. wsteps.
  apply HQ; [|done]. by replace m with m' by congruence.
Qed.

Definition serial_handles : list (Z * bool) := [(3, true); (4, false); (2, true)].

(** From [s] to [s'] the endpoints of the serial port are configured. *)
Record ports_configured (s s' : mach) : Prop := {
  pc_eps : serial_endpoints (eps (hwst s'));
  pc_empty : EP_STATUS (eps (hwst s') 4 false) = 0;
  pc_other n d : (n, d) ∉ serial_handles → eps (hwst s') n d = eps (hwst s) n d;
  pc_out n : n ≠ 4 → eps (hwst s') n false = eps (hwst s) n false;
  pc_fifo_in : FIFOs (fwst s') 3 true = Endpoint_FIFO (FIFO_Data (FIFOs (fwst s) 3 true)) 64 0;
  pc_fifo_out : FIFOs (fwst s') 4 false = Endpoint_FIFO (FIFO_Data (FIFOs (fwst s) 4 false)) 0 0;
  pc_fifo0 d : FIFOs (fwst s') 0 d = FIFOs (fwst s) 0 d;
  pc_core : core (fwst s') = core (set_CDC CDC_zero (fwst s));
  pc_ring : USBtoUSART_Buffer (fwst s') = USBtoUSART_Buffer (fwst s);
  pc_bufs : bufs (hwst s') = bufs (hwst s);
  pc_host : host (hwst s') = host (hwst s);
  pc_scope : scopeBuf (hwst s') = scopeBuf (hwst s);
  pc_rf : rf (hwst s') = rf (hwst s);
  pc_script : script s' = script s;
  pc_trace : trace s' = trace s }.

Lemma wp_ConfigureEndpoints Q B s :
  (∀ s', ports_configured s s' → SelectedEndpoint (fwst s') = CDC_NOTIFICATION_EPADDR → Q true s') →
  wp CDC_Device_ConfigureEndpoints Q B s.
Proof.
  intros HQ. unfold CDC_Device_ConfigureEndpoints. wsteps.
  apply (wp_one_endpoint _ 3); [done..|]. intros s1 C1 _. cbn [negb]. apply wp_bind.
  apply (wp_one_endpoint _ 3); [reflexivity|reflexivity|discriminate|done|discriminate|]. intros s2 C2 _.
  cbn [negb]. apply wp_bind.
  apply (wp_one_endpoint _ 0); [reflexivity|reflexivity|discriminate|done|discriminate|]. intros s3 C3 Hs.
  cbn [negb]. apply wp_ret. change (ep_of _) with (3, true) in C1. change (ep_of _) with (4, false) in C2.
  change (ep_of _) with (2, true) in C3. destruct C1, C2, C3. cbn [fst snd] in *.
  apply HQ; [|done]. split.
  - split_and!.
    + by rewrite cf_ep_other1, cf_ep_other0, cf_ep.
    + by rewrite cf_ep_other1, cf_ep0.
    + by rewrite cf_ep1.
  - by rewrite cf_ep_other1, cf_ep0.
  - intros n d Hn. unfold serial_handles in Hn. rewrite !not_elem_of_cons in Hn. destruct Hn as (? & ? & ? & _).
    by rewrite cf_ep_other1, cf_ep_other0, cf_ep_other.
  - intros n Hn. rewrite cf_ep_other1, cf_ep_other0, cf_ep_other; cbn; try done; intros E; by injection E as ->.
  - by rewrite cf_fifo_other1, cf_fifo_other0, cf_fifo.
  - rewrite cf_fifo_other1, cf_fifo0 by done. by rewrite cf_fifo_other.
  - intros d. by rewrite cf_fifo_other1, cf_fifo_other0, cf_fifo_other.
  - unfold core. by rewrite cf_state1, cf_state0, cf_state, cf_conf1, cf_conf0, cf_conf, cf_req1, cf_req0, cf_req,
      cf_cdc1, cf_cdc0, cf_cdc, cf_send1, cf_send0, cf_send.
  - by rewrite cf_ring1, cf_ring0, cf_ring.
  - by rewrite cf_bufs1, cf_bufs0, cf_bufs.
  - by rewrite cf_host1, cf_host0, cf_host.
  - by rewrite cf_scope1, cf_scope0, cf_scope.
  - by rewrite cf_rf1, cf_rf0, cf_rf.
  - by rewrite cf_env1, cf_env0, cf_env.
  - by rewrite cf_trace1, cf_trace0, cf_trace.
Qed.

(** The device state after SET_CONFIGURATION [n] at address [addr]. *)
Definition config_state (n addr : Z) : Z :=
  if (n =? 0) && (addr =? 0) then DEVICE_STATE_Powered else DEVICE_STATE_Configured.

Lemma cst_SetConfiguration d k x y regs tr m n s Q B : 0 ≤ n ≤ 1 →
  cst (d, k, set_configuration n, x, y) regs tr true (S m) s → SelectedEndpoint (fwst s) = 0 →
  (∀ s', cst (config_state n (regs (USB, ADDR)), n, set_configuration n, x, y) regs (tr ++ [OPacket 0 []]) false m s' →
     wp EVENT_USB_Device_ConfigurationChanged Q B s') →
  wp USB_Device_SetConfiguration Q B s.
Proof.
  intros Hn H1 Hs HQ. unfold USB_Device_SetConfiguration. wsteps.
  pose proof (cs_core _ _ _ _ _ _ H1) as Ec. injection Ec as _ _ Er _ _. rewrite Er. cbn [wValue set_configuration].
  rewrite u8_small by (unfold byte; lia).
  rewrite Z.gtb_ltb, (proj2 (Z.ltb_ge _ _)) by (unfold FIXED_NUM_CONFIGURATIONS; lia).
  apply wp_bind, (cst_ClearSETUP _ _ _ _ _ _ _ _ H1 Hs). intros s2 H2. wsteps.
  pose proof (cs_core _ _ _ _ _ _ H2) as Ec. injection Ec as Ed _ Er2 Ex Ey. rewrite Er2.
  cbn [wValue set_configuration]. rewrite u8_small by (unfold byte; lia).
  assert (H3 := cst_core _ _ _ _ _ _ _ (set_ConfigurationNumber n) H2 (λ _, eq_refl) eq_refl).
  unfold core in H3. cbn in H3. rewrite Ed, Er2, Ex, Ey in H3.
  apply wp_bind, (cst_StatusStage _ _ _ _ _ _ _ _ _ _ _ H3); [done|]. intros s4 H4. wsteps.
  pose proof (cs_core _ _ _ _ _ _ H4) as Ec. injection Ec as E1 E2 E3 E4 E5. rewrite E2.
  assert (∀ v, cst (v, n, set_configuration n, x, y) regs (tr ++ [OPacket 0 []]) false m
    (set_fwst (set_DeviceState v (fwst s4)) s4)) as K.
  { intros v. apply (cst_core (d, n, set_configuration n, x, y)); [exact H4|reflexivity|].
    unfold core. cbn. by rewrite E2, E3, E4, E5. }
  unfold config_state in HQ. destruct (n =? 0); cbn [negb andb] in HQ |- *.
  - apply wp_bind. unfold USB_Device_IsAddressSet. wsteps. rewrite (cs_rf _ _ _ _ _ _ H4).
    apply HQ. destruct (regs (USB, ADDR) =? 0); apply K.
  - wsteps. apply HQ, K.
Qed.

(** The machine after SET_CONFIGURATION: what the configuration [pc] from
    [s1] to [s2] did, and one more event. *)
Record configured_from (s1 s' : mach) : Prop := {
  cd_core : core (fwst s') = core (set_CDC CDC_zero (fwst s1));
  cd_trace : trace s' = trace s1;
  cd_eps : serial_endpoints (eps (hwst s'));
  cd_script : ∃ e, script s1 = e :: script s';
  cd_setup : tst (EP_STATUS (eps (hwst s') 0 false)) USB_EP_SETUP_bm = tst (EP_STATUS (eps (hwst s1) 0 false)) USB_EP_SETUP_bm;
  cd_frame : quiet → ∃ s2, ports_configured s1 s2 ∧ fwst s' = fwst (sel 2 s2) ∧ quiet_step (hwst s2) (hwst s') }.

(** Configuring the endpoints leaves the notification endpoint selected, so
    the last step of the dispatch looks at endpoint 2 instead of 0. *)
Lemma cst_ConfigurationChanged c regs tr n s (Q : unit → mach → Prop) B : cst c regs tr false (S n) s →
  (∀ s', configured_from s s' → Q tt s') →
  wp EVENT_USB_Device_ConfigurationChanged (λ _, wp leftover Q B) B s.
Proof.
  intros [] HQ. unfold EVENT_USB_Device_ConfigurationChanged.
  apply wp_bind, wp_ConfigureEndpoints. intros s6 Hpc Hsel. wsteps.
  unfold leftover, Endpoint_IsSETUPReceived, received. wsteps. rewrite Hsel. seladdr.
  apply wp_poll. cbn [script sel set_fwst]. rewrite (pc_script _ _ Hpc).
  destruct (script s) as [|e l] eqn:Es; [cbn in *; lia|]. apply Forall_cons in cs_env0 as [(g & -> & Hg) Hl].
  destruct (Hg (hwst s6)). wsteps. cbn. rewrite cv_setup0, (pc_out _ _ Hpc 2), cs_other0 by done. wsteps. cbn [when].
  apply wp_ret. apply HQ. pose proof Hpc as Hpc'. destruct Hpc. split; cbn.
  - unfold core in *. cbn in *. congruence.
  - congruence.
  - unfold serial_endpoints. by rewrite !cv_ctrl0.
  - rewrite Es. by eexists.
  - rewrite cv_setup0, (pc_out0 0) by done. done.
  - intros Hq. exists s6. split_and!; [done|done|]. specialize (cs_quiet0 Hq). apply Forall_cons in cs_quiet0 as [H _].
    by apply H.
Qed.

Lemma wp_process_SetConfiguration k b n s (Q : unit → mach → Prop) B : 0 ≤ k ≤ 1 → setup_waits (set_configuration k) b s →
  arrival s → waits_for (4 + n) s →
  (∀ s1 s', let w := fwst s in
     cst (config_state k (rf (hwst s) (USB, ADDR)), k, set_configuration k, CDC w, ok_to_send w) (rf (hwst s))
       (trace s ++ [OPacket 0 []]) false (S n) s1 → configured_from s1 s' → Q tt s') →
  wp USB_Device_ProcessControlRequest Q B s.
Proof.
  intros Hk Hw Har Hl HQ.
  apply (wp_standard (set_configuration k) b USB_Device_SetConfiguration (2 + n)); [done|done|done|done| |].
  { intros s1 E1. unfold standard_request, mbind, M_bind, get_fw, gets. by rewrite E1. }
  intros s1 w H1 Hs. apply (cst_SetConfiguration _ _ _ _ _ _ _ _ _ _ _ Hk H1 Hs). intros s2 H2.
  apply (cst_ConfigurationChanged _ _ _ _ _ _ _ H2). intros s3 H3. by eapply HQ.
Qed.
End Handling.
Arguments cst : clear implicits.
Arguments configured_from : clear implicits.
Arguments arrival : clear implicits.
Arguments waits_for : clear implicits.

(** ** The requests as transfers *)
Section WithPlatform.
Context {PL : Platform}.

Ltac transfer :=
  match goal with |- ∃ s', ?m ?s = _ ∧ @?P s' =>
    destruct (wp_returns m (λ _, P) s) as ([] & s' & E & H); [|by eauto] end; cbn beta.

Lemma waits_all n s : Forall ctl_event (script s) → (n ≤ length (script s))%nat →
  waits_for (drop n (script s)) n s.
Proof. intros H Hn. split_and!; [by apply Forall_take|done|done]. Qed.

Lemma arrival_none s : arrival False s s.
Proof. done. Qed.

Lemma SetAddress_spec a b s : 0 ≤ a < 128 → request_waits (set_address a) b s → (5 ≤ length (script s))%nat →
  ∃ s', USB_Device_ProcessControlRequest s = Ok tt s' ∧
    DeviceState (fwst s') = (if a =? 0 then DEVICE_STATE_Default else DEVICE_STATE_Addressed) ∧
    rf (hwst s') (USB, ADDR) = a ∧
    trace s' = trace s ++ [OPacket 0 []; OStore (USB, ADDR) a] ∧
    ConfigurationNumber (fwst s') = ConfigurationNumber (fwst s).
Proof.
  intros Ha [Hw He] Hn. transfer. eapply (wp_process_SetAddress a b 0); [done|done|apply arrival_none|by apply waits_all|].
  intros s' w []. unfold core in cs_core0. injection cs_core0 as -> -> _ _ _.
  by rewrite cs_rf0, cs_trace0, upd_eq.
Qed.

Lemma SetControlLineState_spec v b s : request_waits (set_control_line_state v) b s →
  (4 ≤ length (script s))%nat →
  ∃ s', USB_Device_ProcessControlRequest s = Ok tt s' ∧
    ok_to_send (fwst s') = (if tst v CDC_CONTROL_LINE_OUT_DTR then 1 else 0) ∧
    CDC (fwst s') = set_HostToDevice v (CDC (fwst s)) ∧
    trace s' = trace s ++ [OPacket 0 []] ∧
    DeviceState (fwst s') = DeviceState (fwst s).
Proof.
  intros [Hw He] Hn. transfer. eapply (wp_process_SetControlLineState v b 0); [done|apply arrival_none|by apply waits_all|].
  intros s' w []. unfold core in cs_core0. by injection cs_core0.
Qed.

Lemma SetConfiguration_spec n b s : 0 ≤ n ≤ 1 → request_waits (set_configuration n) b s →
  (4 ≤ length (script s))%nat →
  ∃ s', USB_Device_ProcessControlRequest s = Ok tt s' ∧
    DeviceState (fwst s') = config_state n (rf (hwst s) (USB, ADDR)) ∧
    ConfigurationNumber (fwst s') = n ∧
    serial_endpoints (eps (hwst s')) ∧ CDC (fwst s') = CDC_zero ∧
    trace s' = trace s ++ [OPacket 0 []].
Proof.
  intros Hn [Hw He] Hl. transfer. eapply (wp_process_SetConfiguration n b 0); [done|done|apply arrival_none|by apply waits_all|].
  intros s1 s' w [] []. unfold core in cd_core0, cs_core0. cbn in cd_core0. split_and!; congruence || done.
Qed.
End WithPlatform.
