(* ===== verification/DescriptorSpec.v ===== *)
(** * GET_DESCRIPTOR

    The data stage of a control read (Template_Endpoint_Control_W.c) against a
    host that takes each packet and acknowledges the last one, and the request
    that uses it (DeviceStandardReq.c, Descriptors.c). *)
From S2P Require Import Prelude RingBuffer Machine Endpoint Controller EndpointPoll EndpointStream Cdc Descriptors StdReq Logic.
From S2P Require Import EndpointSpec EndpointData StdReqSpec ControlSpec.

(** ** The host *)

(** An event in which the host sends nothing and has emptied the IN
    direction, or, with [done], has sent the status packet. *)
Record host_step (done : bool) (h h' : hw) : Prop := {
  hs_setup : tst (EP_STATUS (eps h' 0 false)) USB_EP_SETUP_bm = tst (EP_STATUS (eps h 0 false)) USB_EP_SETUP_bm;
  hs_out : tst (EP_STATUS (eps h' 0 false)) USB_EP_TRNCOMPL0_bm =
           done || tst (EP_STATUS (eps h 0 false)) USB_EP_TRNCOMPL0_bm;
  hs_in : tst (EP_STATUS (eps h' 0 true)) USB_EP_BUSNACK0_bm = true;
  hs_len b : length (bufs h' b) = length (bufs h b) }.
Definition host_does (done : bool) (e : event) : Prop := ∃ f, e = EvHw f ∧ ∀ h, host_step done h (f h).

(** The control endpoint in the data stage: [b] is the buffer of its IN
    direction, [su] and [out] say whether a SETUP or an OUT packet waits. *)
Record dst (c : Z * Z * USB_Request_Header_t * CDC_State_t * Z) (b : buffer) (su out : bool) (tr : list obs) (s : mach) : Prop := {
  d_core : core (fwst s) = c;
  d_sel : SelectedEndpoint (fwst s) = 0 ∨ SelectedEndpoint (fwst s) = 128;
  d_trace : trace s = tr;
  d_setup : tst (EP_STATUS (eps (hwst s) 0 false)) USB_EP_SETUP_bm = su;
  d_out : su = false → tst (EP_STATUS (eps (hwst s) 0 false)) USB_EP_TRNCOMPL0_bm = out;
  d_data : FIFO_Data (FIFOs (fwst s) 0 true) = Some b;
  d_pos : su = false → FIFO_Position (FIFOs (fwst s) 0 true) = 0;
  d_len : (8 ≤ length (bufs (hwst s) b))%nat }.

Section Stage.
Context (c : Z * Z * USB_Request_Header_t * CDC_State_t * Z) (b : buffer).
Implicit Types (Q : bool → mach → Prop) (B : mach → Prop).

Lemma dst_sel su out tr a s : dst c b su out tr s → a = 0 ∨ a = 128 → dst c b su out tr (sel a s).
Proof. intros [] Ha. by split. Qed.

Lemma dst_poll su out tr done e es (Q : unit → mach → Prop) B s : dst c b su out tr s → script s = e :: es → host_does done e →
  (∀ s', dst c b su (done || out) tr s' → script s' = es → fwst s' = fwst s →
     tst (EP_STATUS (eps (hwst s') 0 true)) USB_EP_BUSNACK0_bm = true → Q tt s') → wp poll Q B s.
Proof.
  intros [] Es (f & -> & Hf) HQ. apply wp_poll. rewrite Es. destruct (Hf (hwst s)).
  apply HQ; try done. split; cbn; try done.
  - by rewrite hs_setup0.
  - intros Hsu. by rewrite hs_out0, d_out0.
  - by rewrite hs_len0.
Qed.

Lemma dst_out_dir su out tr s : dst c b su out tr s → clr8 (SelectedEndpoint (fwst s)) ENDPOINT_DIR_IN = 0.
Proof. intros []. by destruct d_sel0 as [-> | ->]. Qed.
Lemma dst_in_dir su out tr s : dst c b su out tr s → SelectedEndpoint (fwst s) .| ENDPOINT_DIR_IN = 128.
Proof. intros []. by destruct d_sel0 as [-> | ->]. Qed.

Definition state_of : Z := c.1.1.1.1.
Definition request_of : USB_Request_Header_t := c.1.1.2.
Lemma dst_state su out tr s : dst c b su out tr s → DeviceState (fwst s) = state_of.
Proof. intros []. unfold state_of. by rewrite <-d_core0. Qed.
Lemma dst_request su out tr s : dst c b su out tr s → ControlRequest (fwst s) = request_of.
Proof. intros []. unfold request_of. by rewrite <-d_core0. Qed.
Definition alive : Prop := state_of ≠ DEVICE_STATE_Unattached ∧ state_of ≠ DEVICE_STATE_Suspended.

(** A change of the OUT FIFO alone. *)
Lemma dst_out_fifo su out tr s q : dst c b su out tr s →
  dst c b su out tr (set_fwst (set_FIFOs (upd2 (FIFOs (fwst s)) (0, false) q) (fwst s)) s).
Proof. intros []. by split. Qed.

Lemma d_IsSETUP su out tr done e es Q B s : dst c b su out tr s → script s = e :: es → host_does done e →
  (∀ s', dst c b su (done || out) tr s' → script s' = es → SelectedEndpoint (fwst s') = 0 → Q su s') →
  wp Endpoint_IsSETUPReceived Q B s.
Proof.
  intros Hd Es He HQ. unfold Endpoint_IsSETUPReceived, received. wsteps. rewrite (dst_out_dir su out tr s Hd). wsteps.
  apply (dst_poll su out tr done e es); [by apply dst_sel; auto|done|done|]. intros s1 H1 E1 Ef _.
  assert (SelectedHandle (fwst s1) = (0, false)) as Eh by (by rewrite Ef).
  assert (SelectedFIFO (fwst s1) = (0, false)) as Eq by (by rewrite Ef).
  assert (SelectedEndpoint (fwst s1) = 0) as Ea by (by rewrite Ef).
  wsteps. cbn [fst snd]. rewrite (d_setup _ _ _ _ _ _ H1).
  destruct su; wsteps; apply HQ; try done. by apply dst_out_fifo.
Qed.

Lemma d_IsOUT out tr done e es Q B s : dst c b false out tr s → script s = e :: es → host_does done e →
  (∀ s', dst c b false (done || out) tr s' → script s' = es → SelectedHandle (fwst s') = (0, false) →
     SelectedFIFO (fwst s') = (0, false) → SelectedEndpoint (fwst s') = 0 → Q (done || out) s') →
  wp Endpoint_IsOUTReceived Q B s.
Proof.
  intros Hd Es He HQ. unfold Endpoint_IsOUTReceived, received. wsteps. rewrite (dst_out_dir _ _ _ _ Hd). wsteps.
  apply (dst_poll false out tr done e es); [by apply dst_sel; auto|done|done|]. intros s1 H1 E1 Ef _.
  assert (SelectedHandle (fwst s1) = (0, false)) as Eh by (by rewrite Ef).
  assert (SelectedFIFO (fwst s1) = (0, false)) as Eq by (by rewrite Ef).
  assert (SelectedEndpoint (fwst s1) = 0) as Ea by (by rewrite Ef).
  wsteps. cbn [fst snd]. rewrite (d_out _ _ _ _ _ _ H1) by done.
  destruct (done || out); wsteps; apply HQ; try done. by apply dst_out_fifo.
Qed.

Lemma d_IsINReady su out tr e es Q B s : dst c b su out tr s → script s = e :: es → host_does false e →
  (∀ s', dst c b su out tr s' → script s' = es → SelectedHandle (fwst s') = (0, true) →
     SelectedFIFO (fwst s') = (0, true) → SelectedEndpoint (fwst s') = 128 → Q true s') →
  wp Endpoint_IsINReady Q B s.
Proof.
  intros Hd Es He HQ. unfold Endpoint_IsINReady. wsteps. rewrite (dst_in_dir _ _ _ _ Hd). wsteps.
  apply (dst_poll su out tr false e es); [by apply dst_sel; auto|done|done|]. intros s1 H1 E1 Ef Hr.
  assert (SelectedHandle (fwst s1) = (0, true)) as Eh by (by rewrite Ef).
  assert (SelectedFIFO (fwst s1) = (0, true)) as Eq by (by rewrite Ef).
  assert (SelectedEndpoint (fwst s1) = 128) as Ea by (by rewrite Ef).
  wsteps. cbn [fst snd]. rewrite Hr. by apply HQ.
Qed.

Lemma d_ClearSETUP out tr (Q : unit → mach → Prop) B s : dst c b true out tr s → SelectedEndpoint (fwst s) = 0 →
  (∀ s', dst c b false false tr s' → script s' = script s → Q tt s') → wp Endpoint_ClearSETUP Q B s.
Proof.
  intros [] Hs HQ. apply wp_ClearSETUP_out; [done|]. intros s1 [] Ht.
  pose proof (sc_fw (FIFOs (fwst s))) as E. pose proof (f_equal bufs (sc_hw (eps (hwst s)))) as Eb. cbn in Eb.
  apply HQ; [|done]. split; try congruence; try done.
  - subst c. unfold core. destruct s1 as [? [] ? ?], s as [? [] ? ?]. cbn in E |- *. by simplify_eq.
  - right. by apply (f_equal SelectedEndpoint) in E.
  - rewrite sc_pos. done.
  - intros _. by rewrite sc_pos.
Qed.

(** ** One packet *)

(** The inner loop of the data stage writes one chunk. *)
Lemma fill_list (l : list Z) n p len s : (p + len ≤ length l)%nat → Z.of_nat len < 65536 → (n ≤ 8)%nat →
  fill_packet move_LE (pgm_read_byte l) n (Z.of_nat p) (Z.of_nat len) (8 - Z.of_nat n) s =
  (write_list (take (len `min` n) (drop p l));;
   mret (Z.of_nat (p + len `min` n), Z.of_nat (len - n), 8 - Z.of_nat n + Z.of_nat (len `min` n))) s.
Proof.
  revert p len s. induction n as [|n IH]; intros p len s Hp Hl Hn; cbn [fill_packet].
  { rewrite Z.ltb_irrefl, andb_false_r, Nat.min_0_r, take_0, Nat.add_0_r, Nat.sub_0_r. cbn. by rewrite Z.add_0_r. }
  destruct len as [|len]; [cbn -[Z.sub Z.of_nat Z.add]; by rewrite Nat.add_0_r, Z.add_0_r|].
  rewrite (proj2 (Z.eqb_neq _ _)), (proj2 (Z.ltb_lt _ _)) by (unfold USB_Device_ControlEndpointSize; lia).
  destruct (drop p l) as [|x l'] eqn:Ed; [apply (f_equal length) in Ed; rewrite length_drop in Ed; cbn in Ed; lia|].
  assert (l !! p = Some x) as Hx by (rewrite <-(Nat.add_0_r p), <-lookup_drop, Ed; done).
  assert (drop (S p) l = l') as Hd by (rewrite <-Nat.add_1_r, <-drop_drop, Ed; done).
  cbn [negb andb Nat.min take write_list].
  assert (pgm_read_byte l (Z.of_nat p) s = Ok x s) as Hr.
  { unfold pgm_read_byte. replace (rd l (Z.of_nat p)) with (Some x); [done|]. symmetry. apply rd_Some.
    rewrite Nat2Z.id. split; [lia|done]. }
  unfold mbind, M_bind, mret, M_ret. rewrite Hr. destruct (Endpoint_Write_8 x s) as [[] s1| | |]; try done.
  unfold move_LE. replace (Z.of_nat p + 1) with (Z.of_nat (S p)) by lia.
  rewrite !u16_small by (unfold word16; lia).
  replace (Z.of_nat (S len) - 1) with (Z.of_nat len) by lia.
  replace (8 - Z.of_nat (S n) + 1) with (8 - Z.of_nat n) by lia.
  rewrite IH by lia. rewrite Hd. unfold mbind, M_bind, mret, M_ret.
  destruct (write_list _ s1) as [[] s2| | |]; try done.
  do 2 f_equal; [f_equal|]; lia.
Qed.

Lemma map_u8_id l : Forall byte l → map u8 l = l.
Proof. induction 1; cbn; [done|]. rewrite u8_small by done. by f_equal. Qed.

(** The loop variables after a packet from position [p] with [len] bytes left. *)
Definition after_packet (p len : nat) : Z * Z * bool :=
  (Z.of_nat (p + len `min` 8), Z.of_nat (len - 8), (8 <=? len)%nat).

Lemma d_send (l : list Z) p len out tr (Q : Z * Z * bool + option Z → mach → Prop) B s :
  dst c b false out tr s → SelectedHandle (fwst s) = (0, true) → SelectedFIFO (fwst s) = (0, true) →
  SelectedEndpoint (fwst s) = 128 → (p + len ≤ length l)%nat → Z.of_nat len < 65536 → Forall byte l →
  (∀ s', dst c b false out (tr ++ [OPacket 0 (take (len `min` 8) (drop p l))]) s' → script s' = script s →
     Q (inl (after_packet p len)) s') →
  wp (BytesInEndpoint ← Endpoint_BytesInEndpoint;
      v' ← fill_packet move_LE (pgm_read_byte l) (Z.to_nat USB_Device_ControlEndpointSize)
             (Z.of_nat p) (Z.of_nat len) BytesInEndpoint;
      let '(DataStream, Length, BytesInEndpoint) := v' in
      Endpoint_ClearIN;;
      mret (inl (DataStream, Length, BytesInEndpoint =? USB_Device_ControlEndpointSize))) Q B s.
Proof.
  intros Hd Hh Hf Ha Hp Hl Hb HQ. pose proof (d_data _ _ _ _ _ _ Hd) as Ed.
  pose proof (d_pos _ _ _ _ _ _ Hd eq_refl) as Ep. pose proof (d_len _ _ _ _ _ _ Hd) as El.
  unfold Endpoint_BytesInEndpoint. wsteps. rewrite Ha. change (tst 128 ENDPOINT_DIR_IN) with true. cbn iota.
  wsteps. cbn [fst snd]. rewrite Ep. unfold wp at 1.
  change (Z.to_nat USB_Device_ControlEndpointSize) with 8%nat. change 0 with (8 - Z.of_nat 8).
  rewrite (fill_list l 8 p len) by lia. set (d := take (len `min` 8) (drop p l)).
  assert (length d = len `min` 8)%nat as Ld by (unfold d; rewrite length_take, length_drop; lia).
  assert (map u8 d = d) as Ed' by by apply map_u8_id, Forall_take, Forall_drop.
  assert (∀ m, overwrite (Z.to_nat 0) d m = d ++ drop (length d) m) as Ho by done.
  match goal with |- context [mret ?r] => apply (wp_bind (write_list d) (λ _, mret r)) end.
  apply (wp_write_list (0, true) b d _ _ 0); [by split|lia|lia|lia|]. intros s1 F1 F2 Eb. wsteps.
  change (8 - Z.of_nat 8) with 0. rewrite Z.add_0_l.
  pose proof (ff_fw _ _ _ _ F2 (FIFOs (fwst s))) as Efw.
  pose proof (fa_sel _ _ _ _ F1) as Hf1.
  pose proof (f_equal SelectedHandle Efw) as Hh1. cbn in Hh1. rewrite Hh in Hh1.
  unfold Endpoint_ClearIN. wsteps. rewrite Hh1. cbn [when snd fst]. wsteps.
  replace (Z.of_nat (len `min` 8) =? USB_Device_ControlEndpointSize) with (8 <=? len)%nat.
  2:{ apply eq_true_iff_eq. rewrite Nat.leb_le, Z.eqb_eq. unfold USB_Device_ControlEndpointSize. lia. }
  pose proof (f_equal core Efw) as Ec. pose proof (f_equal SelectedEndpoint Efw) as Es. cbn in Ec, Es.
  pose proof (f_equal eps (ff_hw _ _ _ _ F2 (bufs (hwst s)))) as Ee. cbn in Ee.
  pose proof (fa_data _ _ _ _ F1) as Ed1. pose proof (fa_pos _ _ _ _ F1) as Ep1. cbn in Ed1, Ep1.
  apply HQ; [|by cbn; rewrite (ff_script _ _ _ _ F2)]. destruct Hd. split; cbn; rewrite ?upd2_eq; try done.
  - unfold core in *. cbn in *. by rewrite Ec.
  - by rewrite Es.
  - rewrite (ff_trace _ _ _ _ F2), d_trace0. do 3 f_equal. unfold pending_packet. rewrite Hf1. cbn. rewrite Ed1, Ep1, Eb.
    rewrite Ed', Z.add_0_l, Nat2Z.id, Ho. by apply take_app_length.
  - rewrite Ee. done.
  - rewrite Ee. done.
  - rewrite Eb, Ed', Ho, length_app, length_drop. lia.
Qed.

(** ** The data stage *)

(** The packets of [data]: full ones, and a last one that is shorter. *)
Definition ctl_packet (data : list Z) (i : nat) : list Z := take 8 (drop (8 * i) data).
Definition ctl_packets (k : nat) (data : list Z) : list (list Z) := map (ctl_packet data) (seq 0 k).

(** The loop variables of the data stage after [j] packets. *)
Definition stage_vars (len j : nat) : Z * Z * bool :=
  (Z.of_nat ((8 * j) `min` len), Z.of_nat (len - 8 * j), ((0 <? j) && (8 * j <=? len))%nat).

Lemma after_stage_vars len j : (8 * j ≤ len)%nat →
  after_packet ((8 * j) `min` len) (len - 8 * j) = stage_vars len (S j).
Proof.
  intros H. unfold after_packet, stage_vars. f_equal; [f_equal; lia|].
  change (0 <? S j)%nat with true. apply eq_true_iff_eq. rewrite andb_true_l, !Nat.leb_le. lia.
Qed.

Lemma packet_chunk (l : list Z) len j : (len ≤ length l)%nat → (8 * j ≤ len)%nat →
  take ((len - 8 * j) `min` 8) (drop ((8 * j) `min` len) l) = ctl_packet (take len l) j.
Proof.
  intros Hl Hj. unfold ctl_packet. rewrite (Nat.min_l (8 * j) len) by done.
  replace len with (8 * j + (len - 8 * j))%nat at 2 by lia.
  rewrite <-take_drop_commute, take_take. f_equal. lia.
Qed.

Lemma packets_S k data : ctl_packets (S k) data = ctl_packets k data ++ [ctl_packet data k].
Proof. unfold ctl_packets. by rewrite seq_S, map_app. Qed.

Definition any_host (e : event) : Prop := ∃ done, host_does done e.

(** The stage stands after [j] of [k] packets: the host will take the others
    before it ends the transfer. *)
Definition in_stage (l : list Z) (len k : nat) (tr : list obs) (post : list event) (v : Z * Z * bool) (s : mach) : Prop :=
  ∃ j pre e, (j ≤ k)%nat ∧ v = stage_vars len j ∧
    dst c b false false (tr ++ map (OPacket 0) (ctl_packets j (take len l))) s ∧
    script s = pre ++ e :: post ∧ length pre = (3 * (k - j))%nat ∧ Forall (host_does false) pre ∧ host_does true e.

(** The data stage is over and the next look at the OUT direction finds the
    status packet. *)
Definition stage_over (tr : list obs) (o : option Z) (s : mach) : Prop :=
  o = None ∧ ∃ out done e post, dst c b false out tr s ∧ script s = e :: post ∧ host_does done e ∧ done || out = true ∧
    Forall any_host post ∧ post ≠ [].

Lemma d_body (l : list Z) len k tr post v (Q : option Z → mach → Prop) B s : in_stage l len k tr post v s → (0 < len ≤ length l)%nat →
  Z.of_nat len < 65536 → Forall byte l → (k ≤ len / 8 + 1)%nat → Forall any_host post → (3 ≤ length post)%nat →
  alive → (∀ o s', stage_over (tr ++ map (OPacket 0) (ctl_packets k (take len l))) o s' → Q o s') →
  wp (control_w_body move_LE (pgm_read_byte l) v)
    (λ r s', match r with
             | inl v' => in_stage l len k tr post v' s' ∧ (length (script s') < length (script s))%nat
             | inr o => Q o s'
             end) B s.
Proof.
  intros (j & pre & e & Hj & -> & Hd & Es & Hpre & Hf & He) Hlen H16 Hb Hk Hpost Hl3 [Hu Hsu] HQ.
  pose proof (Nat.div_mod_eq len 8) as Hdm. pose proof (Nat.mod_upper_bound len 8 ltac:(lia)) as Hm.
  unfold control_w_body, stage_vars. destruct (decide (j = len / 8 + 1)%nat) as [Ej|Ej].
  - assert (len - 8 * j = 0)%nat as -> by lia. rewrite (proj2 (Nat.leb_gt (8 * j) len)), andb_false_r by lia.
    wsteps. assert (k = j) as -> by lia. rewrite Nat.sub_diag in Hpre. destruct pre; [|done].
    apply HQ. split; [done|]. exists false, true, e, post. split_and!; try done. by destruct post; [cbn in Hl3; lia|].
  - replace ((Z.of_nat (len - 8 * j) =? 0) && _) with false.
    2:{ symmetry. apply not_true_is_false. rewrite andb_true_iff, negb_true_iff, andb_false_iff, Z.eqb_eq, Nat.ltb_ge, Nat.leb_gt. lia. }
    wsteps. rewrite (dst_state _ _ _ _ Hd), (proj2 (Z.eqb_neq _ _) Hu), (proj2 (Z.eqb_neq _ _) Hsu).
    destruct (decide (j = k)) as [->|Hjk].
    + rewrite Nat.sub_diag in Hpre. destruct pre; [|done]. destruct post as [|e1 [|e2 post]]; [cbn in Hl3; lia..|].
      apply Forall_cons in Hpost as [[d1 H1] Hpost]. apply Forall_cons in Hpost as [[d2 H2] Hpost].
      apply wp_bind, (d_IsSETUP _ _ _ _ _ _ _ _ _ Hd Es He). intros s1 D1 E1 _.
      apply wp_bind, (d_IsOUT _ _ _ _ _ _ _ _ D1 E1 H1). cbn [orb]. rewrite orb_true_r. intros s2 D2 E2 _ _ _. wsteps.
      apply HQ. split; [done|]. exists true, d2, e2, post. rewrite orb_true_r. split_and!; try done.
      by destruct post; [cbn in Hl3; lia|].
    + destruct pre as [|e1 [|e2 [|e3 pre]]]; [cbn in Hpre; lia..|]. rewrite !Forall_cons in Hf.
      destruct Hf as (H1 & H2 & H3 & Hf). change (script s = e1 :: e2 :: e3 :: (pre ++ e :: post)) in Es.
      apply wp_bind, (d_IsSETUP _ _ _ _ _ _ _ _ _ Hd Es H1). intros s1 D1 E1 _.
      apply wp_bind, (d_IsOUT _ _ _ _ _ _ _ _ D1 E1 H2). intros s2 D2 E2 _ _ _. cbn [orb].
      apply wp_bind, (d_IsINReady _ _ _ _ _ _ _ _ D2 E2 H3). intros s3 D3 E3 Hh Hfi Ha. cbn iota.
      apply (d_send l _ _ _ _ _ _ _ D3); [done..|lia|lia|done|]. intros s4 D4 E4.
      rewrite packet_chunk, after_stage_vars in * by lia. split.
      * exists (S j), pre, e. split_and!; try done; [lia| | |].
        -- rewrite packets_S, map_app, app_assoc. done.
        -- by rewrite E4, E3.
        -- cbn in Hpre. lia.
      * rewrite E4, E3, Es. cbn [length]. lia.
Qed.

(** The whole transfer: the data stage and the look for the status packet. *)
Lemma d_transfer (l : list Z) n k tr pre e post (Q : Z → mach → Prop) B s :
  (let len := Z.to_nat (n `min` wLength request_of) in
   dst c b false false tr s ∧ length l = Z.to_nat n ∧ 0 < n < 65536 ∧ 0 < wLength request_of ∧ Forall byte l ∧
   (k ≤ len / 8 + 1)%nat ∧ script s = pre ++ e :: post ∧ length pre = (3 * k)%nat ∧
   Forall (host_does false) pre ∧ host_does true e ∧ Forall any_host post ∧ (3 ≤ length post)%nat ∧ alive ∧
   (∀ s' e' post', dst c b false true (tr ++ map (OPacket 0) (ctl_packets k (take len l))) s' →
      script s' = e' :: post' → any_host e' → SelectedHandle (fwst s') = (0, false) → SelectedFIFO (fwst s') = (0, false) →
      SelectedEndpoint (fwst s') = 0 → Q ENDPOINT_RWCSTREAM_NoError s')) →
  wp (Endpoint_Write_Control_PStream_LE l n) Q B s.
Proof.
  intros (Hd & Hl & Hn & Hw & Hb & Hk & Es & Hpre & Hf & He & Hpost & Hl3 & Ha & HQ).
  set (len := Z.to_nat (n `min` wLength request_of)) in *.
  unfold Endpoint_Write_Control_PStream_LE, Template_Endpoint_Control_W. wsteps.
  rewrite (dst_in_dir _ _ _ _ Hd). wsteps.
  pose proof (dst_sel _ _ _ 128 _ Hd (or_intror eq_refl)) as Hd1.
  rewrite (dst_request _ _ _ _ Hd1).
  eassert (∀ (Q' : Z → mach → Prop) B' s', Q' (Z.of_nat len) s' → wp (if n >? _ then _ else _) Q' B' s') as HL;
    [|apply HL; clear HL].
  { intros Q' B' s' H'. rewrite Z.gtb_ltb, (proj2 (Z.eqb_neq n 0)) by lia. unfold len in H'.
    destruct (Z.ltb_spec (wLength request_of) n); apply wp_ret.
    - rewrite Z.min_r, Z2Nat.id in H' by lia. exact H'.
    - rewrite Z.min_l, Z2Nat.id in H' by lia. exact H'. }
  apply wp_bind, (wp_iter_poll (in_stage l len k tr post)).
  2:{ exists 0%nat, pre, e. rewrite app_nil_r, Nat.sub_0_r. split_and!; try done; [lia|].
    unfold stage_vars, offset_LE. by rewrite Nat.sub_0_r. }
  intros v s0 H0. apply (d_body l len k tr post); try done; [unfold len; lia..|].
  intros o s1 (-> & out & done & e1 & post1 & D1 & E1 & H1 & Ho & Hp1 & Hne).
  cbn iota. apply (wp_iter (λ _ s', s' = s1) (λ _ _, O)); [|done|lia]. intros [] ? ->.
  unfold control_w_status. apply wp_bind, (d_IsOUT _ _ _ _ _ _ _ _ D1 E1 H1). rewrite Ho.
  intros s2 D2 E2 Hh Hfi Hs. wsteps. destruct post1 as [|e2 post2]; [done|]. apply Forall_cons in Hp1 as [H2 _].
  by apply (HQ s2 e2 post2).
Qed.
End Stage.

(** ** GET_DESCRIPTOR *)

Lemma callback_size v i n d : CALLBACK_USB_GetDescriptor v i = (n, d) → n ≠ NO_DESCRIPTOR →
  0 < n < 65536 ∧ length d = Z.to_nat n ∧ Forall byte d.
Proof.
  unfold CALLBACK_USB_GetDescriptor. intros E Hn.
  repeat (case_match; simplify_eq/=; try done);
    (split; [done|]; split; [done|]; repeat constructor; done).
Qed.

Definition get_descriptor (v i w : Z) : USB_Request_Header_t :=
  USB_Request_Header (std_in REQREC_DEVICE) REQ_GetDescriptor v i w.

(** A SETUP packet with request [r] waits in the selected control endpoint,
    whose IN direction has the buffer [b'] of at least 8 bytes. *)
Record read_waits (r : USB_Request_Header_t) (b b' : buffer) (s : mach) : Prop := {
  dw_sel : SelectedEndpoint (fwst s) = 0;
  dw_fifo : fifo_at (0, false) b 0 s;
  dw_hdr : holds b 0 (header_bytes r) s;
  dw_wf : header_wf r;
  dw_setup : tst (EP_STATUS (eps (hwst s) 0 false)) USB_EP_SETUP_bm = true;
  dw_in : FIFO_Data (FIFOs (fwst s) 0 true) = Some b';
  dw_len : (8 ≤ length (bufs (hwst s) b'))%nat }.

Definition core_with (r : USB_Request_Header_t) (w : fw) := (DeviceState w, ConfigurationNumber w, r, CDC w, ok_to_send w).

Lemma d_read r b b' s Q B : read_waits r b b' s →
  (∀ s', dst (core_with r (fwst s)) b' true false (trace s) s' → script s' = script s → Q tt s') →
  wp read_header Q B s.
Proof.
  intros [] HQ. apply (wp_read_header (0, false) b r); [done..|]. intros s1 F Eb.
  pose proof (ff_fw _ _ _ _ F (FIFOs (fwst s))) as Ef.
  pose proof (f_equal eps (ff_hw _ _ _ _ F (bufs (hwst s)))) as Eh. cbn in Eh.
  pose proof (f_equal SelectedEndpoint Ef) as Es. cbn in Es.
  apply HQ; [|apply F]. split; cbn; rewrite ?Eh, ?Eb; try done.
  - pose proof (f_equal core Ef) as Ec. unfold core in Ec. cbn in Ec. unfold core, core_with. cbn. congruence.
  - left. congruence.
  - apply F.
  - by rewrite (ff_fifos _ _ _ _ F).
Qed.

(** The status packet is taken. *)
Lemma d_ClearOUT c b tr (Q : unit → mach → Prop) B s : dst c b false true tr s →
  SelectedHandle (fwst s) = (0, false) → SelectedFIFO (fwst s) = (0, false) →
  (∀ s', dst c b false false tr s' → script s' = script s → Q tt s') → wp Endpoint_ClearOUT Q B s.
Proof.
  intros [] Hh Hf HQ. unfold Endpoint_ClearOUT. wsteps. apply HQ; [|done].
  split; cbn; rewrite ?upd2_eq; try done; cbn.
  - by rewrite tst_clr8.
  - intros _. by rewrite tst_cleared.
Qed.

Section WithPlatform.
Context {PL : Platform}.

Lemma d_CDC_ignores c b tr e es s (Q : unit → mach → Prop) B : dst c b true false tr s → script s = e :: es → host_does false e →
  accepts_cdc (request_of c) = false →
  (∀ s', dst c b true false tr s' → script s' = es → Q tt s') → wp EVENT_USB_Device_ControlRequest Q B s.
Proof.
  intros Hd Es He Hr HQ. unfold EVENT_USB_Device_ControlRequest, CDC_Device_ProcessControlRequest.
  apply wp_bind, (d_IsSETUP _ _ _ _ _ _ _ _ _ _ _ Hd Es He). intros s1 H1 E1 _. cbn [negb]. wsteps.
  rewrite (dst_request _ _ _ _ _ _ H1). set (r := request_of c) in *. unfold accepts_cdc in Hr.
  destruct (wIndex r =? ControlInterfaceNumber); cbn in Hr |- *; [|by apply wp_ret, HQ].
  destruct (bRequest r =? CDC_REQ_GetLineEncoding), (bRequest r =? CDC_REQ_SetLineEncoding),
    (bRequest r =? CDC_REQ_SetControlLineState), (bRequest r =? CDC_REQ_SendBreak),
    (bmRequestType r =? class_in), (bmRequestType r =? class_out); cbn in Hr |- *; try discriminate;
    by apply wp_ret, HQ.
Qed.

(** The host sends the request, takes [k] packets - at most the full ones and
    the short one - and sends the status packet. *)
Lemma GetDescriptor_spec v i w n d k b b' pre e post s :
  let r := get_descriptor v i w in
  let data := take (Z.to_nat (n `min` w)) d in
  read_waits r b b' s → 0 < w → v ≠ (DTYPE_String << 8) .| USE_INTERNAL_SERIAL →
  CALLBACK_USB_GetDescriptor v i = (n, d) → n ≠ NO_DESCRIPTOR → alive (core_with r (fwst s)) →
  (k ≤ length data / 8 + 1)%nat → script s = pre ++ e :: post → length pre = (2 + 3 * k)%nat →
  Forall (host_does false) pre → host_does true e → Forall any_host post → (3 ≤ length post)%nat →
  ∃ s', USB_Device_ProcessControlRequest s = Ok tt s' ∧ core (fwst s') = core_with r (fwst s) ∧
    trace s' = trace s ++ map (OPacket 0) (ctl_packets k data).
Proof.
  intros r data Hw Hpos Hv Hcb Hn Ha Hk Es Hpre Hf He Hpost Hl3.
  destruct (callback_size _ _ _ _ Hcb Hn) as (Hn' & Hd & Hb).
  destruct pre as [|e1 [|e2 pre]]; [cbn in Hpre; lia..|]. rewrite !Forall_cons in Hf. destruct Hf as (H1 & H2 & Hf).
  change (script s = e1 :: e2 :: (pre ++ e :: post)) in Es.
  match goal with |- ∃ s', _ = _ ∧ @?P s' =>
    destruct (wp_returns USB_Device_ProcessControlRequest (λ _, P) s) as ([] & s' & E & H); [|by eauto] end.
  cbn beta. unfold USB_Device_ProcessControlRequest. apply wp_bind, (d_read r b b'); [done|]. intros s1 D1 E1.
  rewrite Es in E1. apply wp_bind, (d_CDC_ignores _ _ _ _ _ _ _ _ D1 E1 H1); [unfold accepts_cdc; cbn; by rewrite andb_false_r|]. intros s2 D2 E2.
  apply wp_bind, (d_IsSETUP _ _ _ _ _ _ _ _ _ _ _ D2 E2 H2). intros s3 D3 E3 Hs. cbn [when].
  apply wp_bind. unfold standard_request. wsteps. rewrite (dst_request _ _ _ _ _ _ D3). cbn.
  match goal with |- wp (when ?x _) _ _ _ => change x with true end. cbn [when].
  unfold USB_Device_GetDescriptor. wsteps. rewrite (dst_request _ _ _ _ _ _ D3).
  change (wValue _) with v. change (wIndex _) with i.
  rewrite (proj2 (Z.eqb_neq _ _) Hv), Hcb, (proj2 (Z.eqb_neq _ _) Hn).
  apply wp_bind, (d_ClearSETUP _ _ _ _ _ _ _ D3 Hs). intros s4 D4 E4. rewrite E3 in E4.
  assert (length data = Z.to_nat (n `min` w)) as Hlen by (unfold data; rewrite length_take; lia).
  apply wp_bind, (d_transfer (core_with r (fwst s)) b' d n k (trace s) pre e post).
  change (wLength (request_of _)) with w. cbn zeta. fold data. rewrite <-Hlen.
  split_and!; try done; [lia|lia|cbn in Hpre; lia|]. intros s5 e5 post5 D5 E5 [d5 H5] Hh Hfi _.
  apply (d_ClearOUT _ _ _ _ _ _ D5); [done..|]. intros s6 D6 E6. rewrite E5 in E6.
  apply wp_bind, (d_IsSETUP _ _ _ _ _ _ _ _ _ _ _ D6 E6 H5). intros s7 D7 _ _. cbn [when]. wsteps.
  split; [apply D7|]. by rewrite (d_trace _ _ _ _ _ _ D7).
Qed.
End WithPlatform.

(** What the packets carry. *)
Lemma concat_packets k data : concat (ctl_packets k data) = take (8 * k) data.
Proof.
  induction k as [|k IH]; [done|]. rewrite packets_S, concat_app, IH. cbn [concat]. rewrite app_nil_r.
  unfold ctl_packet. rewrite take_take_drop. f_equal. lia.
Qed.

Lemma packets_lengths k data i : (i < k)%nat → (8 * i ≤ length data)%nat →
  length <$> ctl_packets k data !! i = Some (8 `min` (length data - 8 * i))%nat.
Proof.
  intros Hi Hl. unfold ctl_packets. rewrite list_lookup_fmap, lookup_seq_lt by done. cbn [fmap option_fmap option_map].
  unfold ctl_packet. by rewrite length_take, length_drop.
Qed.
Lemma length_packets k data : length (ctl_packets k data) = k.
Proof. unfold ctl_packets. by rewrite length_map, length_seq. Qed.
