(* ===== verification/FeatureSpec.v ===== *)
(** * Halting endpoints, and requests with a short answer

    SET_FEATURE, CLEAR_FEATURE and GET_STATUS of an endpoint, and
    GET_CONFIGURATION (DeviceStandardReq.c), from the arrival of the SETUP
    packet to the end of the status stage. The host is quiet: it is busy with
    the control endpoint only. *)
From S2P Require Import Prelude RingBuffer Machine Endpoint Controller EndpointPoll EndpointStream Cdc Descriptors StdReq Logic.
From S2P Require Import EndpointSpec EndpointData StdReqSpec ControlSpec.

Lemma wp_same {A} (m m' : M A) s s' Q B : m s = m' s' → wp m' Q B s' → wp m Q B s.
Proof. unfold wp. by intros ->. Qed.

(** ** The OUT half of an endpoint, halted or released *)
Definition halt (set : bool) (e : USB_EP_t) : USB_EP_t :=
  if set then ep_set_ctrl (EP_CTRL e .| USB_EP_STALL_bm) e
  else ep_set_status (clr8 (EP_STATUS e) USB_EP_TOGGLE_bm) (ep_set_ctrl (clr8 (EP_CTRL e) USB_EP_STALL_bm) e).

(** The part of [USB_Device_ClearSetFeature] that works on endpoint [k]. *)
Definition work_on (set : bool) (k : Z) : M unit :=
  Endpoint_SelectEndpoint k;;
  e ← Endpoint_IsEnabled;
  when e
    (if set then Endpoint_StallTransaction
     else Endpoint_ClearStall;; Endpoint_ResetEndpoint k;; Endpoint_ResetDataToggle).

Definition data_endpoint (k : Z) : Prop := k = 1 ∨ k = 2 ∨ k = 3 ∨ k = 4.

(** Between [s] and [s'] only the OUT half of endpoint [k] has changed. *)
Record halted_out (set : bool) (k : Z) (s s' : mach) : Prop := {
  ho_core : core (fwst s') = core (fwst s);
  ho_eps n d : eps (hwst s') n d = upd2 (eps (hwst s)) (k, false) (halt set (eps (hwst s) k false)) n d;
  ho_fifo0 d : FIFOs (fwst s') 0 d = FIFOs (fwst s) 0 d;
  ho_rf : rf (hwst s') = rf (hwst s);
  ho_script : script s' = script s;
  ho_trace : trace s' = trace s }.

Lemma wp_work_on set k Q B s : data_endpoint k →
  EP_CTRL (eps (hwst s) k false) .& USB_EP_TYPE_gm ≠ USB_EP_TYPE_CONTROL_gc →
  (∀ s', halted_out set k s s' → Q tt s') → wp (work_on set k) Q B s.
Proof.
  intros Hk Ht HQ. unfold work_on, Endpoint_IsEnabled. wsteps. cbn [when].
  assert (∀ c, (c .| USB_EP_STALL_bm) .& USB_EP_TYPE_gm = c .& USB_EP_TYPE_gm) as Hs.
  { intros c. rewrite Z.land_lor_distr_l. change (USB_EP_STALL_bm .& USB_EP_TYPE_gm) with 0. apply Z.lor_0_r. }
  destruct Hk as [-> |[-> |[-> | ->]]], set; unfold Endpoint_StallTransaction, Endpoint_ClearStall, Endpoint_ResetEndpoint, Endpoint_ResetDataToggle;
    wsteps; try (apply wp_when; [intros E%Z.eqb_eq; destruct Ht; rewrite <-Hs; exact E|intros _]); apply HQ.
  all: split; try done; cbn; intros; unfold upd2; repeat (case_decide; simplify_eq/=); done.
Qed.

Definition halt_request (set : bool) (a : Z) : USB_Request_Header_t :=
  USB_Request_Header (std_out REQREC_ENDPOINT) (if set then REQ_SetFeature else REQ_ClearFeature) FEATURE_SEL_EndpointHalt a 0.

Lemma index_ep_data a w : data_endpoint (u8 a .& 15) →
  index_ep w = u8 a .& 15 → (index_ep w =? ENDPOINT_CONTROLEP) = false ∧ (index_ep w >=? ENDPOINT_TOTAL_ENDPOINTS) = false.
Proof. intros Hk ->. by destruct Hk as [-> |[-> |[-> | ->]]]. Qed.

Lemma ClearSetFeature_works set a s : ControlRequest (fwst s) = halt_request set a → data_endpoint (u8 a .& 15) →
  USB_Device_ClearSetFeature s = (work_on set (u8 a .& 15);; feature_done) s.
Proof.
  intros E Hk. unfold USB_Device_ClearSetFeature, get_fw, gets. unfold mbind at 1, M_bind at 1. rewrite E.
  destruct (index_ep_data a (halt_request set a) Hk eq_refl) as [H1 H2]. unfold index_ep in H1, H2.
  change (wIndex (halt_request set a)) with a in *. cbn -[u8 Z.land Endpoint_SelectEndpoint].
  rewrite H1, H2. cbn [orb]. unfold work_on. unfold mbind, M_bind. change ENDPOINT_EPNUM_MASK with 15.
  change (std_out REQREC_ENDPOINT .& CONTROL_REQTYPE_RECIPIENT =? REQREC_ENDPOINT) with true.
  change (u8 FEATURE_SEL_EndpointHalt =? FEATURE_SEL_EndpointHalt) with true. cbn iota.
  rewrite !SelectEndpoint_eq. by destruct set.
Qed.

Section Requests.
Context {PL : Platform}.

Context (rest : list event).

(** The handler of a SET_FEATURE or CLEAR_FEATURE for an endpoint. *)
Lemma cst_feature set a c regs tr z n s Q B (w := fwst s) : data_endpoint (u8 a .& 15) →
  cst True z rest c regs tr true (2 + n) s → SelectedEndpoint w = 0 → ControlRequest w = halt_request set a →
  EP_CTRL (eps (hwst s) (u8 a .& 15) false) .& USB_EP_TYPE_gm ≠ USB_EP_TYPE_CONTROL_gc →
  (∀ s', core (fwst s') = c → trace s' = tr ++ [OPacket 0 []] → rf (hwst s') = regs →
     (∀ m d, m ≠ 0 → eps (hwst s') m d =
        upd2 (eps (hwst s)) (u8 a .& 15, false) (halt set (eps (hwst s) (u8 a .& 15) false)) m d) → Q tt s') →
  wp USB_Device_ClearSetFeature (λ _, wp leftover Q B) B s.
Proof.
  intros Hk Hc Hs Hr Ht HQ. eapply wp_same; [by apply (ClearSetFeature_works set a)|].
  apply wp_bind, wp_work_on; [done|done|]. intros s1 H1.
  assert (u8 a .& 15 ≠ 0) as Hk0 by (by destruct Hk as [-> |[-> |[-> | ->]]]).
  unfold feature_done. wsteps.
  assert (cst True (sel 0 s1) rest c regs tr true (2 + n) (sel 0 s1)) as H2.
  { destruct Hc, H1. split; cbn; rewrite ?ho_eps0, ?ho_script0; try (congruence || done).
    - rewrite <-cs_core, <-ho_core0. done.
    - by left.
    - unfold upd2. case_decide as E; simplify_eq/=; done.
    - unfold upd2. case_decide as E; [|done]. injection E as E. rewrite <-E. etrans; [|exact cs_other].
      destruct set; cbn; [done|]. by apply tst_clr8.
  }
  destruct c as [[[[d k] r] x] y]. assert (r = halt_request set a) as ->.
  { pose proof (cs_core _ _ _ _ _ _ Hc) as Ec. injection Ec as _ _ Er _ _. rewrite <-Er. exact Hr. }
  apply (cst_ClearSETUP _ _ _ _ _ _ _ _ H2); [done|]. intros s3 H3.
  apply (cst_StatusStage _ _ _ _ _ _ _ _ _ _ _ H3); [by destruct set|]. intros s4 H4.
  apply (cst_done _ _ _ _ _ _ _ H4). intros s5 H5. apply HQ; try apply H5.
  intros m e Hm. rewrite (qs_eps _ _ (f0_hw _ _ (cs_frame _ _ _ _ _ _ H5 I)) m e Hm). cbn. apply H1.
Qed.

Lemma wp_process_halt set a b n s Q B (k := u8 a .& 15) : data_endpoint k →
  EP_CTRL (eps (hwst s) k false) .& USB_EP_TYPE_gm ≠ USB_EP_TYPE_CONTROL_gc →
  setup_waits (halt_request set a) b s → Forall quiet_event (script s) → waits_for rest (4 + n) s →
  (∀ s', core (fwst s') = core (set_ControlRequest (halt_request set a) (fwst s)) →
     trace s' = trace s ++ [OPacket 0 []] → rf (hwst s') = rf (hwst s) →
     (∀ m d, m ≠ 0 → eps (hwst s') m d = upd2 (eps (hwst s)) (k, false) (halt set (eps (hwst s) k false)) m d) → Q tt s') →
  wp USB_Device_ProcessControlRequest Q B s.
Proof.
  intros Hk Ht Hw Hq Hn HQ. assert (k ≠ 0) as Hk0 by (by destruct Hk as [-> |[-> |[-> | ->]]]).
  apply (wp_standard (quiet := True) (z := s) (rest := rest) (halt_request set a) b USB_Device_ClearSetFeature (2 + n)); [done| |done| | |].
  - intros _. split; [apply frame0_refl|done].
  - destruct set; unfold accepts_cdc; cbn; by rewrite andb_false_r.
  - intros s1 E1. unfold standard_request, mbind, M_bind, get_fw, gets. rewrite E1. by destruct set.
  - intros s1 w H1 Hs. pose proof (qs_eps _ _ (f0_hw _ _ (cs_frame _ _ _ _ _ _ H1 I))) as Hf.
    pose proof (cs_core _ _ _ _ _ _ H1) as Ec.
    eapply (cst_feature set a); [done|exact H1|done|by injection Ec|by rewrite Hf|].
    intros s' E1 E2 E3 E4. apply HQ; [exact E1|exact E2|exact E3|]. intros m d Hm. rewrite (E4 m d Hm), Hf by done.
    unfold upd2, k. repeat case_decide; try done. by apply Hf.
Qed.
End Requests.

(** ** Requests with one packet of data *)

(** The host has taken the data and sends the empty packet of the status
    stage; a later event sends no new request. *)
Definition status_event (e : event) : Prop := ∃ f, e = EvHw f ∧ ∀ h,
  tst (EP_STATUS (eps (f h) 0 false)) USB_EP_TRNCOMPL0_bm = true ∧
  tst (EP_STATUS (eps (f h) 0 false)) USB_EP_SETUP_bm = tst (EP_STATUS (eps h 0 false)) USB_EP_SETUP_bm.
Definition no_request (e : event) : Prop := ∃ f, e = EvHw f ∧ ∀ h,
  tst (EP_STATUS (eps (f h) 0 false)) USB_EP_SETUP_bm = tst (EP_STATUS (eps h 0 false)) USB_EP_SETUP_bm.

(** The FIFO of the IN half of the control endpoint. *)
Definition control_in (b : buffer) (s : mach) : Prop :=
  FIFO_Data (FIFOs (fwst s) 0 true) = Some b ∧ (8 ≤ length (bufs (hwst s) b))%nat.

Definition answer (l : list Z) : M unit :=
  write_list l;; Endpoint_ClearIN;; Endpoint_ClearStatusStage.

(** The dispatcher's steps [after] the handler, while the events [es] happen
    and no request is pending: nothing is left to do. *)
Definition nothing_to_do (after : M unit) (es : list event) : Prop := ∀ (Q : unit → mach → Prop) B s, script s = es →
  SelectedEndpoint (fwst s) = 0 → tst (EP_STATUS (eps (hwst s) 0 false)) USB_EP_SETUP_bm = false →
  (∀ s', core (fwst s') = core (fwst s) → trace s' = trace s → Q tt s') → wp after Q B s.

Lemma wp_no_setup e (k : bool → M unit) es (Q : unit → mach → Prop) B s : no_request e → script s = e :: es →
  SelectedEndpoint (fwst s) = 0 → tst (EP_STATUS (eps (hwst s) 0 false)) USB_EP_SETUP_bm = false →
  (∀ s', script s' = es → SelectedEndpoint (fwst s') = 0 → tst (EP_STATUS (eps (hwst s') 0 false)) USB_EP_SETUP_bm = false →
     core (fwst s') = core (fwst s) → trace s' = trace s → wp (k false) Q B s') →
  wp (setup ← Endpoint_IsSETUPReceived; k setup) Q B s.
Proof.
  intros (f & -> & Hf) Es Hs Hset HQ. apply wp_bind. unfold Endpoint_IsSETUPReceived, received. wsteps.
  rewrite Hs. seladdr. apply wp_poll. cbn [script sel set_fwst]. rewrite Es. wsteps. cbn. rewrite Hf, Hset. wsteps.
  apply HQ; try done. cbn. by rewrite Hf.
Qed.
Lemma nothing_left e rest : no_request e → nothing_to_do leftover (e :: rest).
Proof.
  intros He Q B s Es Hs Hset HQ. apply (wp_no_setup e _ rest); [done..|]. intros s' _ _ _ Ec Et. cbn [when]. wsteps. by apply HQ.
Qed.
Lemma nothing_dispatched `{Platform} e e' rest : no_request e → no_request e' → nothing_to_do dispatch_rest (e :: e' :: rest).
Proof.
  intros He He' Q B s Es Hs Hset HQ. apply (wp_no_setup e _ (e' :: rest)); [done..|]. intros s1 E1 S1 T1 C1 R1. cbn [when].
  wsteps. apply (nothing_left e' rest He'); try done. intros s' C2 R2. apply HQ; congruence.
Qed.

Section Answer.
Context {PL : Platform} (z : mach) (e1 : event) (es : list event) (after : M unit) (b : buffer).
Context (Hb : control_in b z) (He1 : status_event e1) (Hafter : nothing_to_do after es).

(** The status stage of a request with data for the host. *)
Lemma wp_status_in (Q : unit → mach → Prop) B s : script s = e1 :: es →
  SelectedEndpoint (fwst s) = 0 ∨ SelectedEndpoint (fwst s) = 128 →
  tst (EP_STATUS (eps (hwst s) 0 false)) USB_EP_SETUP_bm = false →
  tst (bmRequestType (ControlRequest (fwst s))) REQDIR_DEVICETOHOST = true →
  (∀ s', core (fwst s') = core (fwst s) → trace s' = trace s → Q tt s') →
  wp Endpoint_ClearStatusStage (λ _, wp after Q B) B s.
Proof using He1 Hafter.
  intros Es Hs Hset Hd HQ. destruct He1 as (f & -> & Hf). unfold Endpoint_ClearStatusStage. wsteps. rewrite Hd.
  apply wp_bind, (wp_iter (λ _ s', s' = s) (λ _ _, O)); [|done|lia]. intros [] ? ->.
  unfold Endpoint_IsOUTReceived, received. wsteps.
  assert (clr8 (SelectedEndpoint (fwst s)) ENDPOINT_DIR_IN = 0) as -> by (by destruct Hs as [-> | ->]).
  apply wp_poll. cbn [script sel set_fwst]. rewrite Es. wsteps. cbn. destruct (Hf (hwst s)) as [H1 H2]. rewrite H1. wsteps.
  cbn [when]. unfold Endpoint_ClearOUT. wsteps. apply Hafter; [done|done| |].
  - cbn. unfold upd2. repeat (case_decide; simplify_eq/=). rewrite tst_clr8 by done. by rewrite H2.
  - intros s' E1 E2. by apply HQ.
Qed.

Lemma cst_answer l c regs tr s Q B : cst True z (e1 :: es) c regs tr false 0 s →
  SelectedHandle (fwst s) = (0, true) → SelectedFIFO (fwst s) = (0, true) → (length l ≤ 8)%nat →
  tst (bmRequestType (ControlRequest (fwst s))) REQDIR_DEVICETOHOST = true →
  (∀ s', core (fwst s') = c → trace s' = tr ++ [OPacket 0 (map u8 l)] → Q tt s') →
  wp (answer l) (λ _, wp after Q B) B s.
Proof using Hb He1 Hafter.
  intros Hc Hh Hfi Hl Hd HQ. destruct Hb as [Hb1 Hb2]. pose proof (cs_frame _ _ _ _ _ _ Hc I) as Hf.
  unfold answer. apply wp_bind, (wp_write_list (0, true) b l _ _ 0); [|lia|lia| |].
  { split; [done|done|by rewrite (f0_data _ _ Hf)|by apply (cs_empty _ _ _ _ _ _ Hc)]. }
  { rewrite (qs_len _ _ (f0_hw _ _ Hf)). lia. }
  intros s1 F1 F2 Eb. pose proof (ff_fw _ _ _ _ F2 (FIFOs (fwst s))) as Ef.
  pose proof (fa_sel _ _ _ _ F1) as Hf1. pose proof (f_equal SelectedHandle Ef) as Hh1. cbn in Hh1. rewrite Hh in Hh1.
  pose proof (f_equal eps (ff_hw _ _ _ _ F2 (bufs (hwst s)))) as Ee. pose proof (f_equal core Ef) as Ec. cbn in Ee, Ec.
  pose proof (f_equal SelectedEndpoint Ef) as Es. pose proof (f_equal ControlRequest Ef) as Er. cbn in Es, Er.
  apply wp_bind. unfold Endpoint_ClearIN. wsteps. rewrite Hh1. cbn [when snd fst]. wsteps.
  apply wp_status_in; cbn.
  - rewrite (ff_script _ _ _ _ F2). apply (cs_rest _ _ _ _ _ _ Hc).
  - rewrite Es. apply Hc.
  - rewrite Ee. apply Hc.
  - by rewrite Er.
  - intros s' E1 E2. apply HQ.
    + rewrite E1, <-(cs_core _ _ _ _ _ _ Hc). exact Ec.
    + rewrite E2, (ff_trace _ _ _ _ F2), (cs_trace _ _ _ _ _ _ Hc). do 3 f_equal.
      pose proof (fa_data _ _ _ _ F1) as Ed1. pose proof (fa_pos _ _ _ _ F1) as Ep1. cbn in Ed1, Ep1.
      unfold pending_packet. rewrite Hf1. cbn. rewrite Ed1, Ep1, Eb.
      rewrite Z.add_0_l, Nat2Z.id, <-(length_map u8 l). apply (take_app_length (map u8 l)).
Qed.

Lemma cst_short l c regs tr s Q B : cst True z (e1 :: es) c regs tr true 0 s → SelectedEndpoint (fwst s) = 0 →
  (length l ≤ 8)%nat → tst (bmRequestType (ControlRequest (fwst s))) REQDIR_DEVICETOHOST = true →
  (∀ s', core (fwst s') = c → trace s' = tr ++ [OPacket 0 (map u8 l)] → Q tt s') →
  wp (Endpoint_ClearSETUP;; answer l) (λ _, wp after Q B) B s.
Proof using Hb He1 Hafter.
  intros Hc Hs Hl Hd HQ. apply wp_bind.
  assert (wp Endpoint_ClearSETUP (λ _, cst True z (e1 :: es) c regs tr false 0) B s) as H1
    by by apply (cst_ClearSETUP _ _ _ _ _ _ _ _ Hc Hs).
  assert (wp Endpoint_ClearSETUP (λ _ s', fwst (sel 128 s) = set_FIFOs (FIFOs (fwst s)) (fwst s')) B s) as H2.
  { apply wp_ClearSETUP; [done|]. intros s' H. symmetry. apply (sc_fw _ _ H). }
  unfold wp in H1, H2 |- *. destruct (Endpoint_ClearSETUP s) as [[] s'| | |]; try done.
  apply (cst_answer l c regs tr s' Q B H1); try done.
  - by apply (f_equal SelectedHandle) in H2.
  - by apply (f_equal SelectedFIFO) in H2.
  - apply (f_equal ControlRequest) in H2. cbn in H2. by rewrite <-H2.
Qed.

End Answer.

(** A standard request whose handler [h] comes down to an answer. *)
Lemma wp_process_short {PL : Platform} e1 e2 rest b r b0 l (h : M unit) s (Q : unit → mach → Prop) B :
  control_in b s → status_event e1 → no_request e2 → setup_waits r b0 s →
  Forall quiet_event (script s) → waits_for (e1 :: e2 :: rest) 2 s → accepts_cdc r = false →
  tst (bmRequestType r) REQDIR_DEVICETOHOST = true → (length l ≤ 8)%nat →
  (∀ s', ControlRequest (fwst s') = r → standard_request s' = h s') →
  (∀ s', SelectedEndpoint (fwst s') = 0 → frame0 s s' → ConfigurationNumber (fwst s') = ConfigurationNumber (fwst s) →
     ControlRequest (fwst s') = r → h s' = (Endpoint_ClearSETUP;; answer l) (sel 0 s')) →
  (∀ s', core (fwst s') = core (set_ControlRequest r (fwst s)) → trace s' = trace s ++ [OPacket 0 (map u8 l)] → Q tt s') →
  wp USB_Device_ProcessControlRequest Q B s.
Proof.
  intros Hb He1 He2 Hw Hq Hn Hr Hd Hl Hst Hh HQ.
  apply (wp_standard (quiet := True) (z := s) (rest := e1 :: e2 :: rest) r b0 h 0); [done| |done|done|done|].
  { intros _. split; [apply frame0_refl|done]. }
  intros s1 w H1 Hs. pose proof (cs_core _ _ _ _ _ _ H1) as Ec. injection Ec as _ Ek Er _ _.
  pose proof (cs_frame _ _ _ _ _ _ H1 I) as Hf.
  eapply wp_same; [by apply Hh|].
  eapply (cst_short s e1 (e2 :: rest) leftover b Hb He1 (nothing_left e2 rest He2) l); [apply cst_sel; [exact H1|by left]|done|done|cbn; by rewrite Er|].
  intros s' E1 E2. by apply HQ.
Qed.

Definition get_status (a : Z) : USB_Request_Header_t := USB_Request_Header (std_in REQREC_ENDPOINT) REQ_GetStatus 0 a 2.
Definition get_configuration : USB_Request_Header_t := USB_Request_Header (std_in REQREC_DEVICE) REQ_GetConfiguration 0 0 1.

Lemma GetStatus_answers a s s' : data_endpoint (u8 a .& 15) → SelectedEndpoint (fwst s') = 0 → frame0 s s' →
  ControlRequest (fwst s') = get_status a →
  USB_Device_GetStatus s' =
    (Endpoint_ClearSETUP;; answer [if tst (EP_CTRL (eps (hwst s) (u8 a .& 15) false)) USB_EP_STALL_bm then 1 else 0; 0]) (sel 0 s').
Proof.
  intros Hk Hs Hf Er. unfold USB_Device_GetStatus, get_fw, gets. unfold mbind at 1, M_bind at 1. rewrite Er.
  destruct (index_ep_data a (get_status a) Hk eq_refl) as [_ H2]. unfold index_ep in H2.
  change (wIndex (get_status a)) with a in *. change (bmRequestType (get_status a) =? std_in REQREC_DEVICE) with false.
  change (bmRequestType (get_status a) =? std_in REQREC_ENDPOINT) with true. cbn iota zeta. rewrite H2.
  change ENDPOINT_EPNUM_MASK with 15. change ENDPOINT_CONTROLEP with 0.
  assert (Endpoint_IsStalled (sel (u8 a .& 15) s') =
    Ok (tst (EP_CTRL (eps (hwst s) (u8 a .& 15) false)) USB_EP_STALL_bm) (sel (u8 a .& 15) s')) as E.
  { rewrite <-(qs_eps _ _ (f0_hw _ _ Hf)) by (by destruct Hk as [-> |[-> |[-> | ->]]]).
    by destruct Hk as [-> |[-> |[-> | ->]]]. }
  unfold mbind, M_bind. rewrite SelectEndpoint_eq, E, SelectEndpoint_eq. unfold send_status, mbind, M_bind.
  change (sel 0 (sel (u8 a .& 15) s')) with (sel 0 s'). destruct (Endpoint_ClearSETUP (sel 0 s')) as [[] s1| | |]; try done.
  unfold answer, mbind, M_bind. rewrite Write_16_LE_list. by destruct (tst _ _).
Qed.

Lemma ClearSETUP_sel s : SelectedEndpoint (fwst s) = 0 → Endpoint_ClearSETUP s = Endpoint_ClearSETUP (sel 0 s).
Proof.
  intros Hs. unfold Endpoint_ClearSETUP, get_fw, gets, mbind, M_bind. cbn [fwst sel set_fwst SelectedEndpoint set_SelectedEndpoint set_SelectedHandle set_SelectedFIFO].
  rewrite Hs, !SelectEndpoint_eq. done.
Qed.

Lemma GetConfiguration_answers n s' : SelectedEndpoint (fwst s') = 0 → ConfigurationNumber (fwst s') = n →
  USB_Device_GetConfiguration s' = (Endpoint_ClearSETUP;; answer [n]) (sel 0 s').
Proof.
  intros Hs Hn. assert (wp Endpoint_ClearSETUP (λ _ s1, ConfigurationNumber (fwst s1) = n) (λ _, False) s') as H.
  { apply wp_ClearSETUP; [done|]. intros s1 H. pose proof (f_equal ConfigurationNumber (sc_fw _ _ H (FIFOs (fwst s')))) as E.
    cbn in E. congruence. }
  unfold USB_Device_GetConfiguration, mbind, M_bind. rewrite <-ClearSETUP_sel by done. unfold wp in H.
  destruct (Endpoint_ClearSETUP s') as [[] s1| | |]; try done. unfold get_fw, gets. rewrite H.
  unfold answer, mbind, M_bind. cbn [write_list]. unfold mbind, M_bind. by destruct (Endpoint_Write_8 n s1) as [[]| | |].
Qed.

(** ** The requests *)
Section Spec.
Context {PL : Platform}.

(** A request that is answered with one packet: two events until the packet is
    there, one with the acknowledgement, and one more. *)
Record read_request (r : USB_Request_Header_t) (b b' : buffer) (s : mach) : Prop := {
  rr_setup : setup_waits r b s;
  rr_quiet : Forall quiet_event (script s);
  rr_in : control_in b' s;
  rr_events : ∃ e1 e2 e3 e4 es, script s = e1 :: e2 :: e3 :: e4 :: es ∧ ctl_event e1 ∧ ctl_event e2 ∧
    status_event e3 ∧ no_request e4 }.

Lemma Halt_spec set a b s (k := u8 a .& 15) : data_endpoint k →
  EP_CTRL (eps (hwst s) k false) .& USB_EP_TYPE_gm ≠ USB_EP_TYPE_CONTROL_gc →
  request_waits (halt_request set a) b s → Forall quiet_event (script s) → (4 ≤ length (script s))%nat →
  ∃ s', USB_Device_ProcessControlRequest s = Ok tt s' ∧ trace s' = trace s ++ [OPacket 0 []] ∧
    core (fwst s') = core (set_ControlRequest (halt_request set a) (fwst s)) ∧
    ∀ m d, m ≠ 0 → eps (hwst s') m d = upd2 (eps (hwst s)) (k, false) (halt set (eps (hwst s) k false)) m d.
Proof.
  intros Hk Ht [Hw He] Hq Hl.
  match goal with |- ∃ s', _ = _ ∧ @?P s' =>
    destruct (wp_returns USB_Device_ProcessControlRequest (λ _, P) s) as ([] & s' & E & H); [|by eauto] end.
  cbn beta. apply (wp_process_halt (drop 4 (script s)) set a b 0); try done.
  split_and!; [by apply Forall_take|done|done].
Qed.

Lemma Short_spec r b b' l (h : M unit) s : read_request r b b' s → accepts_cdc r = false →
  tst (bmRequestType r) REQDIR_DEVICETOHOST = true → (length l ≤ 8)%nat →
  (∀ s', ControlRequest (fwst s') = r → standard_request s' = h s') →
  (∀ s', SelectedEndpoint (fwst s') = 0 → frame0 s s' → ConfigurationNumber (fwst s') = ConfigurationNumber (fwst s) →
     ControlRequest (fwst s') = r → h s' = (Endpoint_ClearSETUP;; answer l) (sel 0 s')) →
  ∃ s', USB_Device_ProcessControlRequest s = Ok tt s' ∧ trace s' = trace s ++ [OPacket 0 (map u8 l)] ∧
    core (fwst s') = core (set_ControlRequest r (fwst s)).
Proof.
  intros [Hw Hq Hb (e1 & e2 & e3 & e4 & es & Es & H1 & H2 & H3 & H4)] Hr Hd Hl Hst Hh.
  match goal with |- ∃ s', _ = _ ∧ @?P s' =>
    destruct (wp_returns USB_Device_ProcessControlRequest (λ _, P) s) as ([] & s' & E & H); [|by eauto] end.
  cbn beta. apply (wp_process_short e3 e4 es b' r b l h); try done.
  unfold waits_for. rewrite Es. split_and!; [by repeat constructor|cbn; lia|done].
Qed.

Lemma GetStatus_spec a b b' s : data_endpoint (u8 a .& 15) → read_request (get_status a) b b' s →
  ∃ s', USB_Device_ProcessControlRequest s = Ok tt s' ∧
    trace s' = trace s ++ [OPacket 0 [if tst (EP_CTRL (eps (hwst s) (u8 a .& 15) false)) USB_EP_STALL_bm then 1 else 0; 0]] ∧
    core (fwst s') = core (set_ControlRequest (get_status a) (fwst s)).
Proof.
  intros Hk Hr. destruct (Short_spec (get_status a) b b' [if tst (EP_CTRL (eps (hwst s) (u8 a .& 15) false)) USB_EP_STALL_bm then 1 else 0; 0]
    USB_Device_GetStatus s Hr) as (s' & E & Et & Ec).
  - unfold accepts_cdc. cbn. by rewrite andb_false_r.
  - done.
  - cbn. lia.
  - intros s1 E1. unfold standard_request, mbind, M_bind, get_fw, gets. by rewrite E1.
  - intros s1 Hs Hf _ E1. by apply GetStatus_answers.
  - exists s'. split; [done|]. split; [|done]. rewrite Et. by destruct (tst _ _).
Qed.

Lemma GetConfiguration_spec b b' s : read_request get_configuration b b' s →
  ∃ s', USB_Device_ProcessControlRequest s = Ok tt s' ∧ trace s' = trace s ++ [OPacket 0 [u8 (ConfigurationNumber (fwst s))]] ∧
    core (fwst s') = core (set_ControlRequest get_configuration (fwst s)).
Proof.
  intros Hr. apply (Short_spec get_configuration b b' [ConfigurationNumber (fwst s)] USB_Device_GetConfiguration s Hr); try done.
  - cbn. lia.
  - intros s1 E1. unfold standard_request, mbind, M_bind, get_fw, gets. by rewrite E1.
  - intros s1 Hs _ En _. by apply GetConfiguration_answers.
Qed.
End Spec.
