(* ===== verification/Enumeration.v ===== *)
(** * Enumeration

    SET_LINE_ENCODING with its data stage, the task that serves one request
    (USBTask.c), and the sequence of requests with which a host opens the
    serial port: it leads from a device that has been reset to the invariant
    [port] of usb_serial.c. *)
From S2P Require Import Prelude RingBuffer Machine Endpoint Controller EndpointPoll EndpointStream Cdc Descriptors StdReq UsbSerial Logic.
From S2P Require Import EndpointSpec EndpointData StdReqSpec ControlSpec FeatureSpec SerialPort SerialSpec.

Lemma buffer_length b n : Z.of_nat n = fifo_size b → n = Z.to_nat (fifo_size b).
Proof. lia. Qed.

(** ** SET_LINE_ENCODING *)

(** The packet [data] arrives in the OUT buffer of the control endpoint. *)
Record data_step (data : list Z) (h h' : hw) : Prop := {
  da_quiet : quiet_step h h';
  da_buf : Z.of_nat (length (bufs h notification_fifo2)) = fifo_size notification_fifo2 → take (length data) (bufs h' notification_fifo2) = data;
  da_out : tst (EP_STATUS (eps h' 0 false)) USB_EP_TRNCOMPL0_bm = true;
  da_setup : tst (EP_STATUS (eps h' 0 false)) USB_EP_SETUP_bm = tst (EP_STATUS (eps h 0 false)) USB_EP_SETUP_bm;
  da_rf : rf h' = rf h }.
Definition data_event (data : list Z) (e : event) : Prop := ∃ f, e = EvHw f ∧ ∀ h, data_step data h (f h).

Definition set_line_encoding : USB_Request_Header_t :=
  USB_Request_Header class_out CDC_REQ_SetLineEncoding 0 ControlInterfaceNumber 7.
(** The line encoding as the host sends it. *)
Definition line_bytes (e : CDC_LineEncoding_t) : list Z :=
  map u8 (le_bytes (BaudRateBPS e)) ++ [CharFormat e; ParityType e; DataBits e].

(** ** What a host reads in a configuration descriptor *)

(** The descriptors of [l], split by their size bytes. *)
Fixpoint split_descriptors (n : nat) (l : list Z) : list (list Z) :=
  match n, l with
  | S n', k :: _ => take (Z.to_nat k) l :: split_descriptors n' (drop (Z.to_nat k) l)
  | _, _ => []
  end.
(** An endpoint descriptor: address, transfer type, size. *)
Definition endpoint_fields (d : list Z) : option (Z * Z * Z) :=
  match d with
  | [_; dt; a; t; lo; hi; _] => if dt =? DTYPE_Endpoint then Some (a, t, lo + 256 * hi) else None
  | _ => None
  end.
Definition endpoints_in (l : list Z) : list (Z * Z * Z) := omap endpoint_fields (split_descriptors (length l) l).

Section Handling.
Context {PL : Platform} {quiet : Prop} {z : mach} (Hq : quiet)
  (Hz : FIFO_Data (FIFOs (fwst z) 0 false) = Some notification_fifo2)
  (Hzl : Z.of_nat (length (bufs (hwst z) notification_fifo2)) = fifo_size notification_fifo2).

(** The seven bytes are read and the packet buffer is given back. *)
Definition read_line : M unit :=
  b ← Endpoint_Read_32_LE;
  c ← Endpoint_Read_8;
  p ← Endpoint_Read_8;
  d ← Endpoint_Read_8;
  mod_fw (λ w, set_CDC (set_LineEncoding (CDC_LineEncoding b c p d) (CDC w)) w);;
  Endpoint_ClearOUT;;
  Endpoint_ClearStatusStage;;
  EVENT_CDC_Device_LineEncodingChanged.

Definition parse_line (l : list Z) : M unit :=
  match l with
  | [b0; b1; b2; b3; c; p; d] =>
      mod_fw (λ w, set_CDC (set_LineEncoding (CDC_LineEncoding (dword_le [b0; b1; b2; b3]) c p d) (CDC w)) w);;
      Endpoint_ClearOUT;;
      Endpoint_ClearStatusStage;;
      EVENT_CDC_Device_LineEncodingChanged
  | _ => mret tt
  end.

Lemma read_line_list s : read_line s = (l ← read_list 7; parse_line l) s.
Proof.
  unfold read_line, mbind at 1, M_bind. rewrite Read_32_LE_list. unfold mbind at 1, M_bind.
  unfold read_list, mret, M_ret, mbind, M_bind.
  repeat match goal with |- context [Endpoint_Read_8 ?s] =>
    destruct (Endpoint_Read_8 s) as [?| | |]; try reflexivity end.
Qed.

Lemma cst_IsOUT data e es n c regs tr s Q B : cst quiet z (e :: es) c regs tr false 0 s → data_event data e →
  Forall ctl_event (take n es) → (n ≤ length es)%nat →
  (∀ s', cst quiet z (drop n es) c regs tr false n s' → fifo_at (0, false) notification_fifo2 0 s' →
     holds notification_fifo2 0 data s' → SelectedHandle (fwst s') = (0, false) → Q true s') →
  wp Endpoint_IsOUTReceived Q B s.
Proof.
  intros [] (f & -> & Hf) He Hn HQ. rewrite drop_0 in cs_rest. unfold Endpoint_IsOUTReceived, received. wsteps.
  assert (clr8 (SelectedEndpoint (fwst s)) ENDPOINT_DIR_IN = 0) as -> by (by destruct cs_sel as [-> | ->]).
  wsteps. apply wp_poll. cbn [script sel set_fwst]. rewrite cs_rest. destruct (Hf (hwst s)).
  wsteps. cbn [fst snd hwst set_hwst set_script sel set_fwst]. rewrite da_out0. wsteps.
  pose proof (cs_frame Hq) as Hf0. specialize (cs_quiet Hq). rewrite cs_rest in cs_quiet.
  apply Forall_cons in cs_quiet as [_ Hqs]. pose proof (qs_eps _ _ da_quiet0) as Hqe. apply HQ; [split| | |done]; cbn; try done.
  - by left.
  - by rewrite da_rf0.
  - by rewrite da_setup0.
  - by rewrite Hqe.
  - intros d _. unfold upd2. case_decide; simplify_eq/=; auto.
  - intros _. apply frame0_fifo0; [|done]. destruct Hf0. split; try done. cbn. by eapply quiet_trans.
  - split; cbn; rewrite ?upd2_eq; cbn; try done.
    + rewrite (f0_data _ _ Hf0). done.
    + by apply cs_empty.
  - apply da_buf0. by rewrite (qs_len _ _ (f0_hw _ _ Hf0)).
Qed.

(** The bytes have been read, [x'] is the new CDC state, and the packet is
    given back. *)
Lemma cst_taken rest d k r x y x' regs tr n s s' b g :
  cst quiet z rest (d, k, r, x, y) regs tr false n s → fifo_frame (0, false) b s s' → bufs (hwst s') = bufs (hwst s) →
  (∀ e, tst (EP_STATUS (g e)) USB_EP_SETUP_bm = tst (EP_STATUS e) USB_EP_SETUP_bm) →
  cst quiet z rest (d, k, r, x', y) regs tr false n
    (upd_fifo (0, false) (fifo_set_position 0) (upd_handle (0, false) g (set_fwst (set_CDC x' (fwst s')) s'))).
Proof.
  intros [] F Eb Hg. pose proof (ff_fw _ _ _ _ F (FIFOs (fwst s))) as Ef.
  pose proof (ff_hw _ _ _ _ F (bufs (hwst s))) as Eh.
  pose proof (f_equal rf Eh) as Er. pose proof (f_equal eps Eh) as Ee. cbn in Ee, Er.
  pose proof (f_equal core Ef) as Ec. pose proof (f_equal SelectedEndpoint Ef) as Es. unfold core in Ec, cs_core. cbn in Ec, Es.
  split; cbn; rewrite ?Er, ?(ff_script _ _ _ _ F), ?(ff_trace _ _ _ _ F), ?upd2_eq; try done.
  - unfold core. cbn. congruence.
  - by rewrite Es.
  - by rewrite Hg, Ee.
  - rewrite upd2_ne by done. by rewrite Ee.
  - intros d' _. unfold upd2. case_decide as E; [done|]. rewrite (ff_fifos _ _ _ _ F); [by apply cs_empty|].
    intros E'. by rewrite E' in E.
  - intros _. apply frame0_fifo0; [|done]. apply frame0_handle0, frame0_fw; [|done|done].
    eapply frame0_trans; [by apply cs_frame|]. split; cbn.
    + intros n' d' Hn'. rewrite (ff_fifos _ _ _ _ F); [done|]. intros E. by injection E.
    + intros [|]; [by rewrite (ff_fifos _ _ _ _ F)|apply F].
    + exact (f_equal USBtoUSART_Buffer Ef).
    + split; cbn; [by intros; rewrite Ee|by rewrite Eb|by rewrite Eb|exact (f_equal host Eh)|exact (f_equal scopeBuf Eh)].
Qed.

(** A line encoding of values that fit their fields. *)
Definition line_wf (l : CDC_LineEncoding_t) : Prop :=
  0 ≤ BaudRateBPS l < 2 ^ 32 ∧ byte (CharFormat l) ∧ byte (ParityType l) ∧ byte (DataBits l).

Lemma cst_SetLineEncoding l e es n d k r x y regs tr s Q B :
  cst quiet z (e :: es) (d, k, r, x, y) regs tr true 0 s → SelectedEndpoint (fwst s) = 0 → line_wf l →
  data_event (line_bytes l) e → tst (bmRequestType r) REQDIR_DEVICETOHOST = false →
  Forall ctl_event (take (S n) es) → (S n ≤ length es)%nat →
  (∀ s', cst quiet z (drop (S n) es) (d, k, r, set_LineEncoding l x, y) regs (tr ++ [OPacket 0 []]) false n s' → Q tt s') →
  wp CDC_SetLineEncoding Q B s.
Proof.
  intros H0 Hs Hl He Hr Hes Hn HQ. unfold CDC_SetLineEncoding.
  apply wp_bind, (cst_ClearSETUP _ _ _ _ _ _ _ _ H0 Hs). intros s1 H1.
  apply wp_bind. unfold wait_attached. apply (wp_iter (λ _ s', s' = s1) (λ _ _, O)); [|done|lia]. intros [] ? ->.
  apply wp_bind, (cst_IsOUT _ _ _ _ _ _ _ _ _ _ H1 He Hes Hn). intros s2 H2 Hf Hh Hsel. wsteps. cbn [when].
  fold read_line. unfold wp. rewrite read_line_list.
  apply (wp_bind (read_list 7) parse_line Q B). change 7%nat with (length (line_bytes l)).
  apply (wp_read_list (0, false) notification_fifo2 (line_bytes l) _ _ 0); [done|done|lia|done|].
  intros s3 F3 Fr Eb. change (parse_line (line_bytes l)) with (
    mod_fw (λ w, set_CDC (set_LineEncoding (CDC_LineEncoding (dword_le (map u8 (le_bytes (BaudRateBPS l))))
      (CharFormat l) (ParityType l) (DataBits l)) (CDC w)) w);;
    Endpoint_ClearOUT;; Endpoint_ClearStatusStage;; EVENT_CDC_Device_LineEncodingChanged).
  rewrite dword_le_bytes. unfold u32. rewrite Z.mod_small by apply Hl. unfold Endpoint_ClearOUT.
  assert (SelectedHandle (fwst s3) = (0, false)) as Hsel3.
  { pose proof (f_equal SelectedHandle (ff_fw _ _ _ _ Fr (FIFOs (fwst s2)))) as E. cbn in E. congruence. }
  pose proof (fa_sel _ _ _ _ F3) as Hsf3.
  assert (CDC (fwst s3) = x) as Ex.
  { pose proof (f_equal CDC (ff_fw _ _ _ _ Fr (FIFOs (fwst s2)))) as E. cbn in E. rewrite E.
    pose proof (cs_core _ _ _ _ _ _ H2) as Ec. by injection Ec. }
  wsteps. rewrite Ex.
  pose proof (cst_taken _ _ _ _ _ _ (set_LineEncoding (CDC_LineEncoding (BaudRateBPS l) (CharFormat l) (ParityType l) (DataBits l)) x) _ _ _ _ _ _
    (λ e, ep_set_status (clr8 (EP_STATUS e) CLEAR_MASK) e) H2 Fr Eb
    ltac:(intros e'; cbn; by rewrite tst_clr8)) as H4.
  eapply (cst_StatusStage _ _ _ _ _ _ _ _ _ _ _ H4); [done|]. intros s5 H5. apply wp_ret. apply HQ.
  by destruct l.
Qed.

Lemma wp_process_SetLineEncoding l e0 e es n b s (Q : unit → mach → Prop) B :
  setup_waits set_line_encoding b s → arrival quiet z s → script s = e0 :: e :: es → ctl_event e0 → line_wf l →
  data_event (line_bytes l) e → Forall ctl_event (take (3 + n) es) → (3 + n ≤ length es)%nat →
  (∀ s', let w := fwst s in
     cst quiet z (drop (3 + n) es) (DeviceState w, ConfigurationNumber w, set_line_encoding,
       set_LineEncoding l (CDC w), ok_to_send w) (rf (hwst s)) (trace s ++ [OPacket 0 []]) false n s' → Q tt s') →
  wp USB_Device_ProcessControlRequest Q B s.
Proof.
  intros Hw Har Es He0 Hl He Hes Hn HQ. unfold USB_Device_ProcessControlRequest.
  assert (waits_for (e :: es) 1 s) as Hwf.
  { unfold waits_for. rewrite Es. split_and!; [by apply Forall_singleton|cbn; lia|done]. }
  apply wp_bind, (cst_read _ b 1 _ _ _ Hw Har Hwf). intros s1 w H1 _.
  unfold EVENT_USB_Device_ControlRequest, CDC_Device_ProcessControlRequest.
  apply wp_bind, wp_bind, (cst_IsSETUP _ _ _ _ _ _ _ _ H1). intros s2 H2 Hs. cbn [negb]. wsteps.
  pose proof (cs_core _ _ _ _ _ _ H2) as Ec. injection Ec as _ _ Er _ _. rewrite Er. fold leftover. fold dispatch_rest.
  match goal with |- wp ?m _ _ _ => change m with CDC_SetLineEncoding end.
  eapply (cst_SetLineEncoding l e es (2 + n)); [exact H2|done|done|done|done|done|done|]. intros s3 H3.
  by apply (cst_answered _ _ _ _ _ _ _ H3).
Qed.
End Handling.

(** ** One request served by the task *)

(** The controller stores a SETUP packet with request [r]; the events [es]
    follow. *)
Record setup_arrives (r : USB_Request_Header_t) (es : list event) (s s' : mach) : Prop := {
  sa_fw : fwst s' = fwst s;
  sa_trace : trace s' = trace s;
  sa_script : script s' = es;
  sa_rf : rf (hwst s') = rf (hwst s);
  sa_quiet : quiet_step (hwst s) (hwst s');
  sa_setup : tst (EP_STATUS (eps (hwst s') 0 false)) USB_EP_SETUP_bm = true;
  sa_hdr : take 8 (bufs (hwst s') notification_fifo2) = header_bytes r }.

(** An event of a host that waits for the answer to its request. *)
Definition still_event (e : event) : Prop :=
  ctl_event e ∧ ∀ f, e = EvHw f → ∀ h, quiet_step h (f h) ∧ bufs (f h) = bufs h.

Lemma still_quiet e : still_event e → quiet_event e.
Proof. intros [_ H] f E h. by apply H. Qed.

(** Between two requests. *)
Record idle_dev (s : mach) : Prop := {
  id_data : FIFO_Data (FIFOs (fwst s) 0 false) = Some notification_fifo2;
  id_pos d : FIFO_Position (FIFOs (fwst s) 0 d) = 0;
  id_other : tst (EP_STATUS (eps (hwst s) 2 false)) USB_EP_SETUP_bm = false;
  id_live : DeviceState (fwst s) ≠ DEVICE_STATE_Unattached }.

(** The SETUP packet as the dispatch finds it. *)
Record request_seen (r : USB_Request_Header_t) (es : list event) (s s1 : mach) : Prop := {
  sn_waits : setup_waits r notification_fifo2 s1;
  sn_arrival : Forall quiet_event es → arrival True s s1;
  sn_script : script s1 = es;
  sn_core : core (fwst s1) = core (fwst s);
  sn_rf : rf (hwst s1) = rf (hwst s);
  sn_trace : trace s1 = trace s }.

Section Task.
Context {PL : Platform}.

Lemma wp_task r e0 es s s' (Q : unit → mach → Prop) B : idle_dev s → setup_arrives r (e0 :: es) s s' → header_wf r → still_event e0 →
  (∀ s1, request_seen r es s s1 →
     wp USB_Device_ProcessControlRequest (λ _ s2, Q tt (sel (SelectedEndpoint (fwst s)) s2)) B s1) →
  wp USB_USBTask Q B s'.
Proof.
  intros [] [] Hr [(f & -> & Hf) Hst] HQ. destruct (Hst f eq_refl (hwst s')) as [Hq Hb]. destruct (Hf (hwst s')).
  unfold USB_USBTask, USB_DeviceTask. wsteps. rewrite sa_fw0. rewrite (proj2 (Z.eqb_neq _ _) id_live0).
  unfold Endpoint_GetCurrentEndpoint, Endpoint_IsSETUPReceived, received. wsteps. seladdr. seladdr.
  apply wp_poll. cbn [script sel set_fwst]. rewrite sa_script0. wsteps. cbn [fst snd hwst set_hwst set_script sel set_fwst].
  rewrite cv_setup, sa_setup0. wsteps. cbn [when]. 
  eapply wp_mono; [|intros ? H2; exact H2|apply HQ]; [intros [] s2 H2; apply wp_select; rewrite sa_fw0; exact H2|].
  pose proof (quiet_trans _ _ _ sa_quiet0 Hq) as Hz. pose proof (qs_eps _ _ Hz) as He. split; cbn.
  - split; cbn; try done.
    + split; cbn; rewrite ?upd2_eq; cbn; rewrite ?sa_fw0; done.
    + unfold holds. change (Z.to_nat 0) with 0%nat. rewrite drop_0. cbn. by rewrite Hb.
    + by rewrite cv_setup.
    + by rewrite He.
  - intros Hes _. split; [|done]. apply frame0_fifo0; [|done]. split; cbn; by rewrite ?sa_fw0.
  - done.
  - unfold core. cbn. by rewrite sa_fw0.
  - by rewrite cv_rf.
  - done.
Qed.

(** ** From reset to the open port *)

(** The device after a bus reset: the memory of usb_serial.c is in place. *)
Record ready_dev (s : mach) : Prop := {
  rd_idle : idle_dev s;
  rd_in : FIFO_Data (FIFOs (fwst s) 3 true) = Some in_fifo;
  rd_out : FIFO_Data (FIFOs (fwst s) 4 false) = Some out_fifo;
  rd_bufs b : Z.of_nat (length (bufs (hwst s) b)) = fifo_size b;
  rd_ring : wf (USBtoUSART_Buffer (fwst s)) ∧ Size (USBtoUSART_Buffer (fwst s)) = 5 ∧
            bytes (contents (USBtoUSART_Buffer (fwst s)));
  rd_host : bytes (host (hwst s)) }.

(** The endpoints of the serial port are configured and empty. *)
Record configured_dev (s : mach) : Prop := {
  cn_ready : ready_dev s;
  cn_state : DeviceState (fwst s) = DEVICE_STATE_Configured;
  cn_in : FIFOs (fwst s) 3 true = Endpoint_FIFO (Some in_fifo) 64 0;
  cn_out : FIFO_Position (FIFOs (fwst s) 4 false) = 0;
  cn_empty : OUT_full (eps (hwst s)) = false }.

Lemma idle_cst s rest d k r x y regs tr a s' : cst True s rest (d, k, r, x, y) regs tr false 0 s' → idle_dev s →
  d ≠ DEVICE_STATE_Unattached → idle_dev (sel a s').
Proof.
  intros [] [] Hd. destruct (cs_frame I). split; cbn; auto; [by rewrite f0_data|].
  unfold core in cs_core. injection cs_core as -> _ _ _ _. done.
Qed.

Lemma ready_frame s s' a : ready_dev s → frame0 s s' → idle_dev (sel a s') → ready_dev (sel a s').
Proof.
  intros [] [? ? Hring []] ?. split; cbn; rewrite ?f0_fifos, ?Hring, ?qs_host by done; try done.
  intros b. by rewrite qs_len.
Qed.

Lemma configured_frame s s' a : configured_dev s → frame0 s s' → idle_dev (sel a s') →
  DeviceState (fwst s') = DeviceState (fwst s) → configured_dev (sel a s').
Proof.
  intros [] Hf Hi Hd. pose proof Hf as [? ? Hring []]. split; cbn; rewrite ?f0_fifos by done; try done.
  - by eapply ready_frame.
  - congruence.
  - unfold OUT_full. by rewrite qs_eps.
Qed.

Ltac served :=
  match goal with |- ∃ s', ?m ?s = _ ∧ @?P s' =>
    let H := fresh in
    enough (wp m (λ _, P) (λ _, False) s) as H; [by destruct (wp_returns _ _ _ H) as ([] & s' & ? & ?); eauto|]; cbn beta end.

Lemma still_all es : Forall still_event es → Forall ctl_event es ∧ Forall quiet_event es.
Proof. intros H. split; (eapply Forall_impl; [exact H|]); [by intros ? []|apply still_quiet]. Qed.

Lemma seen_waits r es s s1 n : request_seen r es s s1 → Forall ctl_event es → (n ≤ length es)%nat → waits_for (drop n es) n s1.
Proof. intros [] He Hn. unfold waits_for. rewrite sn_script0. split_and!; [by apply Forall_take|done|done]. Qed.

Lemma task_SetAddress a es s s1 : ready_dev s → setup_arrives (set_address a) es s s1 → 0 ≤ a < 128 →
  Forall still_event es → length es = 6%nat →
  ∃ s', USB_USBTask s1 = Ok tt s' ∧ ready_dev s' ∧ rf (hwst s') (USB, ADDR) = a ∧
    trace s' = trace s ++ [OPacket 0 []; OStore (USB, ADDR) a] ∧ script s' = [].
Proof.
  intros Hs Ha Hr Hes Hl. served. destruct es as [|e0 es]; [done|]. apply Forall_cons in Hes as [He0 Hes].
  destruct (still_all _ Hes) as [Hc Hq]. cbn in Hl.
  apply (wp_task (set_address a) e0 es s); [apply Hs|done| |done|].
  { split_and!; unfold word16, byte; cbn; try done; lia. }
  intros s2 Hsn. apply (wp_process_SetAddress (quiet := True) (z := s) (rest := []) a notification_fifo2 0); [done|apply Hsn|by apply Hsn| |].
  { rewrite <-(drop_ge es 5) by lia. apply (seen_waits _ _ _ _ _ Hsn); [done|lia]. }
  intros s3 w H3. pose proof (idle_cst _ _ _ _ _ _ _ _ _ (SelectedEndpoint (fwst s)) _ H3 (rd_idle _ Hs)) as Hi.
  destruct H3. cbn. rewrite drop_0 in cs_rest. split_and!; try done.
  - eapply ready_frame; [done|by apply cs_frame|]. apply Hi. by destruct (a =? 0).
  - by rewrite cs_rf, upd_eq.
  - by rewrite cs_trace, (sn_trace _ _ _ _ Hsn).
Qed.

(** What SET_CONFIGURATION leaves is a configured device. *)
Lemma configured_after s s1 s' rest d r x y regs tr n a : ready_dev s → d = DEVICE_STATE_Configured →
  cst True s rest (d, 1, r, x, y) regs tr false n s1 → configured_from True s1 s' → configured_dev (sel a s').
Proof.
  intros [] -> [] []. destruct (cs_frame I) as [Hff Hfd Hring Hhw], (cd_frame I) as (s2 & Hpc & Hfw & Hq2).
  destruct Hpc. pose proof (f_equal FIFOs Hfw) as EF. pose proof (f_equal USBtoUSART_Buffer Hfw) as ER. cbn in EF, ER.
  destruct rd_idle0. unfold core in *. cbn in *. split; cbn; rewrite ?EF, ?pc_fifo_in, ?pc_fifo_out; try done.
  - split; cbn; rewrite ?EF, ?pc_fifo_in, ?pc_fifo_out; cbn; rewrite ?Hff by done; try done.
    + split; cbn; rewrite ?EF; try done.
      * by rewrite pc_fifo0, Hfd.
      * intros d. by rewrite pc_fifo0, cs_empty.
      * rewrite (qs_eps _ _ Hq2), pc_out by done. done.
      * replace (DeviceState (fwst s')) with DEVICE_STATE_Configured; [done|congruence].
    + intros b. by rewrite (qs_len _ _ Hq2), pc_bufs, (qs_len _ _ Hhw).
    + by rewrite ER, pc_ring, Hring.
    + by rewrite (qs_host _ _ Hq2), pc_host, (qs_host _ _ Hhw).
  - congruence.
  - by rewrite Hff, rd_in0.
  - unfold OUT_full. rewrite (qs_eps _ _ Hq2), pc_empty by done. done.
Qed.

Lemma task_SetConfiguration es s s1 : ready_dev s → setup_arrives (set_configuration 1) es s s1 →
  Forall still_event es → length es = 5%nat →
  ∃ s', USB_USBTask s1 = Ok tt s' ∧ configured_dev s' ∧ trace s' = trace s ++ [OPacket 0 []] ∧ script s' = [] ∧
    serial_endpoints (eps (hwst s')) ∧
    ∀ n d, n ≠ 0 → (n, d) ∉ serial_handles → eps (hwst s') n d = eps (hwst s) n d.
Proof.
  intros Hs Ha Hes Hl. served. destruct es as [|e0 es]; [done|]. apply Forall_cons in Hes as [He0 Hes].
  destruct (still_all _ Hes) as [Hc Hq]. cbn in Hl.
  apply (wp_task (set_configuration 1) e0 es s); [apply Hs|done|by split_and!|done|].
  intros s2 Hsn. apply (wp_process_SetConfiguration (quiet := True) (z := s) (rest := []) 1 notification_fifo2 0); [done|apply Hsn|by apply Hsn| |].
  { rewrite <-(drop_ge es 4) by lia. apply (seen_waits _ _ _ _ _ Hsn); [done|lia]. }
  intros s3 s4 w H3 H4. split_and!.
  - by eapply configured_after.
  - cbn. by rewrite (cd_trace _ _ H4), (cs_trace _ _ _ _ _ _ H3), (sn_trace _ _ _ _ Hsn).
  - cbn. destruct (cd_script _ _ H4) as [e E]. pose proof (cs_rest _ _ _ _ _ _ H3) as Er. by rewrite E in Er.
  - apply H4.
  - intros n d Hn Hd. destruct (cd_frame _ _ H4 I) as (s5 & H5 & _ & Hq5). cbn.
    rewrite (qs_eps _ _ Hq5), (pc_other _ _ H5) by done. by apply (f0_hw _ _ (cs_frame _ _ _ _ _ _ H3 I)).
Qed.

Lemma task_SetControlLineState v es s s1 : configured_dev s → setup_arrives (set_control_line_state v) es s s1 → word16 v →
  Forall still_event es → length es = 5%nat →
  ∃ s', USB_USBTask s1 = Ok tt s' ∧ configured_dev s' ∧ SETUP_seen (eps (hwst s')) = false ∧
    ok_to_send (fwst s') = (if tst v CDC_CONTROL_LINE_OUT_DTR then 1 else 0) ∧
    LineEncoding (CDC (fwst s')) = LineEncoding (CDC (fwst s)) ∧ trace s' = trace s ++ [OPacket 0 []] ∧ script s' = [].
Proof.
  intros Hs Ha Hv Hes Hl. served. destruct es as [|e0 es]; [done|]. apply Forall_cons in Hes as [He0 Hes].
  destruct (still_all _ Hes) as [Hc Hq]. cbn in Hl. pose proof (rd_idle _ (cn_ready _ Hs)) as Hid.
  apply (wp_task (set_control_line_state v) e0 es s); [done|done|by split_and!|done|].
  intros s2 Hsn. apply (wp_process_SetControlLineState (quiet := True) (z := s) (rest := []) v notification_fifo2 0); [apply Hsn|by apply Hsn| |].
  { rewrite <-(drop_ge es 4) by lia. apply (seen_waits _ _ _ _ _ Hsn); [done|lia]. }
  intros s3 w H3. pose proof (sn_core _ _ _ _ Hsn) as Ec. unfold core in Ec. injection Ec as E1 E2 E3 E4 E5.
  pose proof (idle_cst _ _ _ _ _ _ _ _ _ (SelectedEndpoint (fwst s)) _ H3 Hid) as Hi. subst w. rewrite E1 in Hi.
  destruct H3. unfold core in cs_core. injection cs_core as C1 C2 C3 C4 C5. rewrite drop_0 in cs_rest.
  split_and!; cbn; try done.
  - eapply configured_frame; [done|by apply cs_frame|apply Hi, Hid|congruence].
  - by rewrite C4, E4.
  - by rewrite cs_trace, (sn_trace _ _ _ _ Hsn).
Qed.

Lemma data_quiet l e : data_event l e → quiet_event e.
Proof. intros (f & -> & Hf) g [= <-] h. apply Hf. Qed.

Lemma task_SetLineEncoding l e0 e1 e es s s1 : configured_dev s →
  setup_arrives set_line_encoding (e0 :: e1 :: e :: es) s s1 → line_wf l → still_event e0 → still_event e1 →
  data_event (line_bytes l) e → Forall still_event es → length es = 3%nat →
  ∃ s', USB_USBTask s1 = Ok tt s' ∧ configured_dev s' ∧ ok_to_send (fwst s') = ok_to_send (fwst s) ∧
    LineEncoding (CDC (fwst s')) = l ∧ trace s' = trace s ++ [OPacket 0 []] ∧ script s' = [] ∧
    ∀ b, control_in b s → control_in b s'.
Proof.
  intros Hs Ha Hwf He0 He1 He Hes Hl. served. pose proof (rd_idle _ (cn_ready _ Hs)) as Hid.
  destruct (still_all _ Hes) as [Hc Hq].
  apply (wp_task set_line_encoding e0 (e1 :: e :: es) s); [done|done|by split_and!|done|].
  intros s2 Hsn. eapply (wp_process_SetLineEncoding (quiet := True) (z := s) I (id_data _ Hid) (rd_bufs _ (cn_ready _ Hs) notification_fifo2) l e1 e es 0);
    [apply Hsn| |apply Hsn|apply He1|done|done|by apply Forall_take|lia|].
  { apply Hsn. rewrite !Forall_cons. split_and!; [by apply still_quiet|by eapply data_quiet|done]. }
  intros s3 w H3. pose proof (sn_core _ _ _ _ Hsn) as Ec. unfold core in Ec. injection Ec as E1 E2 E3 E4 E5.
  pose proof (idle_cst _ _ _ _ _ _ _ _ _ (SelectedEndpoint (fwst s)) _ H3 Hid) as Hi. subst w. rewrite E1 in Hi.
  destruct H3. unfold core in cs_core. injection cs_core as C1 C2 C3 C4 C5. rewrite drop_0, drop_ge in cs_rest by lia.
  split_and!; cbn; try done.
  - eapply configured_frame; [done|by apply cs_frame|apply Hi, Hid|congruence].
  - congruence.
  - by rewrite C4.
  - by rewrite cs_trace, (sn_trace _ _ _ _ Hsn).
  - intros b [Hb1 Hb2]. destruct (cs_frame I) as [_ Hfd _ Hhw]. split; cbn; [by rewrite Hfd|by rewrite (qs_len _ _ Hhw)].
Qed.

(** ** The whole sequence *)

(** The controller can store a SETUP packet in any state, and for each way in
    which it does, the task serves the request and the rest follows. *)
Fixpoint serves (l : list (USB_Request_Header_t * list event)) (s : mach) (P : mach → Prop) : Prop :=
  match l with
  | [] => P s
  | (r, es) :: l =>
      (∃ s1, setup_arrives r es s s1) ∧
      ∀ s1, setup_arrives r es s s1 → ∃ s2, USB_USBTask s1 = Ok tt s2 ∧ serves l s2 P
  end.

Lemma setup_can_arrive r es s : Z.of_nat (length (bufs (hwst s) notification_fifo2)) = fifo_size notification_fifo2 → ∃ s1, setup_arrives r es s s1.
Proof.
  intros Hl. exists (set_script es (set_hwst (set_bufs
    (upd (bufs (hwst s)) notification_fifo2 (header_bytes r ++ drop 8 (bufs (hwst s) notification_fifo2)))
    (set_eps (upd2 (eps (hwst s)) (0, false) (ep_set_status USB_EP_SETUP_bm (eps (hwst s) 0 false))) (hwst s))) s)).
  split; cbn; rewrite ?upd_eq, ?upd2_eq; try done.
  - split; cbn; try done.
    + intros n d Hn. rewrite upd2_ne; [done|]. intros E. by injection E.
    + intros b Hb. by rewrite upd_ne.
    + intros b. destruct (decide (b = notification_fifo2)) as [->|Hb]; [|by rewrite upd_ne].
      rewrite upd_eq. cbn [app header_bytes length]. rewrite length_drop, (buffer_length _ _ Hl). done.
Qed.

(** The requests with which a host opens the port, each with the events that
    follow it: address [a], configuration 1, line encoding [l], control lines
    [v]. *)
Definition open_port (a v : Z) (es1 es2 es3 es4 : list event) : list (USB_Request_Header_t * list event) :=
  [(set_address a, es1); (set_configuration 1, es2); (set_line_encoding, es3); (set_control_line_state v, es4)].

Lemma open_port_opens a l v es1 es2 e0 e1 e es3 es4 s : ready_dev s → 0 ≤ a < 128 → line_wf l → BaudRateBPS l ≠ 0 →
  word16 v → tst v CDC_CONTROL_LINE_OUT_DTR = true →
  Forall still_event (es1 ++ es2 ++ e0 :: e1 :: es3 ++ es4) → data_event (line_bytes l) e →
  length es1 = 6%nat → length es2 = 5%nat → length es3 = 3%nat → length es4 = 5%nat →
  serves (open_port a v es1 es2 (e0 :: e1 :: e :: es3) es4) s (λ s',
    trace s' = trace s ++ [OPacket 0 []; OStore (USB, ADDR) a; OPacket 0 []; OPacket 0 []; OPacket 0 []] ∧
    ∀ es, Forall link_event es → port (set_script es s')).
Proof.
  intros Hs Ha Hl Hb Hv Hdtr Hes He L1 L2 L3 L4.
  rewrite !Forall_app, !Forall_cons, !Forall_app in Hes. destruct Hes as (H1 & H2 & H3 & H4 & H5 & H6).
  cbn [serves open_port]. split; [apply setup_can_arrive, Hs|]. intros s1 A1.
  destruct (task_SetAddress a es1 s s1) as (s2 & E2 & R2 & _ & T2 & _); [done..|]. exists s2. split; [done|].
  split; [apply setup_can_arrive, R2|]. intros s3 A3.
  destruct (task_SetConfiguration es2 s2 s3) as (s4 & E4 & C4 & T4 & _); [done..|]. exists s4. split; [done|].
  split; [apply setup_can_arrive, C4|]. intros s5 A5.
  destruct (task_SetLineEncoding l e0 e1 e es3 s4 s5) as (s6 & E6 & C6 & _ & Hline & T6 & _); [done..|]. exists s6. split; [done|].
  split; [apply setup_can_arrive, C6|]. intros s7 A7.
  destruct (task_SetControlLineState v es4 s6 s7) as (s8 & E8 & C8 & Hsetup & Hok & Henc & T8 & _); [done..|]. exists s8.
  split; [done|]. split; [by rewrite T8, T6, T4, T2, <-!app_assoc|]. intros es Hlink.
  destruct C8 as [[] ? ? ? ?]. destruct rd_ring0 as (? & ? & ?). split; cbn; try done.
  - by rewrite Hok, Hdtr.
  - by rewrite Henc, Hline.
  - apply (buffer_length in_fifo), rd_bufs0.
  - by rewrite cn_empty0.
  - apply (buffer_length out_fifo), rd_bufs0.
  - unfold fifo_bytes. by rewrite cn_empty0.
Qed.

(** ** From power-up to the reset *)

(** The variables of usb_serial.c and LUFA as the C start-up leaves them; the
    contents of the memory do not matter. *)
Record power_on (s : mach) : Prop := {
  pw_bufs b : Z.of_nat (length (bufs (hwst s) b)) = fifo_size b;
  pw_ring : length (Data (USBtoUSART_Buffer (fwst s))) = 5%nat;
  pw_other : tst (EP_STATUS (eps (hwst s) 2 false)) USB_EP_SETUP_bm = false;
  pw_host : bytes (host (hwst s)) }.

Record initialised (s s' : mach) : Prop := {
  in_data n d : 0 ≤ n < ENDPOINT_TOTAL_ENDPOINTS → FIFO_Data (FIFOs (fwst s') n d) = fifo_memory n d;
  in_ring : USBtoUSART_Buffer (fwst s') = RingBuffer_InitBuffer (Data (USBtoUSART_Buffer (fwst s))) 5;
  in_bufs : bufs (hwst s') = bufs (hwst s);
  in_host : host (hwst s') = host (hwst s);
  in_status n d : n ≠ 0 → EP_STATUS (eps (hwst s') n d) = EP_STATUS (eps (hwst s) n d);
  in_script : script s' = script s;
  in_state : DeviceState (fwst s') = DEVICE_STATE_Unattached }.

(** [s'] differs from [s] in registers only, apart from flags of the firmware
    that the endpoints do not depend on. *)
Record regs_only (s s' : mach) : Prop := {
  ro_fifos : FIFOs (fwst s') = FIFOs (fwst s);
  ro_ring : USBtoUSART_Buffer (fwst s') = USBtoUSART_Buffer (fwst s);
  ro_eps : eps (hwst s') = eps (hwst s);
  ro_bufs : bufs (hwst s') = bufs (hwst s);
  ro_host : host (hwst s') = host (hwst s);
  ro_script : script s' = script s }.

Lemma wp_ResetInterface (Q : unit → mach → Prop) B s :
  (∀ s0 s1 s2 s', regs_only s s0 → configured (0, true) CONTROL_CFG 8 s0 s1 → configured (0, false) CONTROL_CFG 8 s1 s2 →
     DeviceState (fwst s0) = DEVICE_STATE_Unattached → regs_only s2 s' →
     DeviceState (fwst s') = DeviceState (fwst s2) → Q tt s') → wp USB_ResetInterface Q B s.
Proof.
  intros HQ. unfold USB_ResetInterface. 
  replace (divider_loop _ _ 0) with (Some 1) by by vm_compute. cbn [ended]. wsteps.
  change (tst USB_Options USB_OPT_PLLCLKSRC) with true. cbn iota. wsteps.
  unfold USB_Device_SetDeviceAddress, USB_INT_DisableAllInterrupts, USB_INT_ClearAllInterrupts, USB_Controller_Reset,
    USB_Init_Device. wsteps. change (tst USB_Options USB_DEVICE_OPT_LOWSPEED) with false. cbn iota.
  unfold USB_Device_SetFullSpeed. wsteps.
  apply wp_Configure_control. intros s1 s2 H1 H2 _. unfold USB_INT_Enable, USB_Attach. wsteps.
  eapply HQ; [|exact H1|exact H2|done|by split|done]. by split.
Qed.

Lemma wp_serial_init (Q : unit → mach → Prop) B s : (∀ s', initialised s s' → Q tt s') → wp USB_serial_init Q B s.
Proof.
  intros HQ. unfold USB_serial_init, USB_Init, cli, read_sig. wsteps.
  change (USB_Options .& USB_OPT_BUSEVENT_PRIHIGH =? USB_OPT_BUSEVENT_PRIHIGH) with false. cbn iota.
  change (USB_Options .& USB_OPT_BUSEVENT_PRIMED =? USB_OPT_BUSEVENT_PRIMED) with true. cbn iota. wsteps.
  apply wp_ResetInterface. intros s0 s1 s2 s3 [] H1 H2 Hd [] Hd3. wsteps. apply HQ.
  pose proof (λ n d, control_data _ _ _ n d H1 H2) as Hdt. destruct H1, H2. cbn in *.
  split; cbn.
  - intros n d Hn. rewrite ro_fifos1, Hdt, ro_fifos0.
    destruct (Z.leb_spec 0 n), (Z.ltb_spec n ENDPOINT_TOTAL_ENDPOINTS); try lia. done.
  - by rewrite ro_ring1, cf_ring0, cf_ring, ro_ring0.
  - by rewrite ro_bufs1, cf_bufs0, cf_bufs, ro_bufs0.
  - by rewrite ro_host1, cf_host0, cf_host, ro_host0.
  - intros n d Hn. rewrite ro_eps1, cf_ep_other0, cf_ep_other, ro_eps0 by (intros [= -> _]; lia). done.
  - by rewrite ro_script1, cf_env0, cf_env, ro_script0.
  - by rewrite Hd3, cf_state0, cf_state, Hd.
Qed.

(** The bus reports a reset, with whatever other flags [v] has. *)
Definition signal_reset (v : Z) (s : mach) : mach :=
  set_hwst (set_rf (upd (rf (hwst s)) (USB, INTFLAGSACLR) v) (hwst s)) s.

Lemma reset_ready v s s' : power_on s → initialised s s' → tst v USB_RSTIF_bm = true →
  ∃ s2, USB_BUSEVENT_vect (signal_reset v s') = Ok tt s2 ∧ ready_dev s2 ∧ script s2 = script s'.
Proof.
  intros [] [] Hv. served. apply wp_BUSEVENT. intros s2 _ Hs. unfold flags. cbn. rewrite upd_eq, Hv.
  intros (s1 & [] & []). split; [|done]. destruct if_mem as (? & ? & _).
  destruct (InitBuffer_wf (Data (USBtoUSART_Buffer (fwst s))) 5) as [Hwf Hc]; [by rewrite pw_ring0|done|].
  cbn in *. split; [split|..].
  - rewrite rs_data, if_fifos. by rewrite in_data0.
  - done.
  - rewrite rs_status, if_eps by done. cbn. by rewrite in_status0.
  - by rewrite rs_state.
  - by rewrite rs_data, if_fifos, in_data0.
  - by rewrite rs_data, if_fifos, in_data0.
  - intros b. rewrite rs_bufs, H, in_bufs0. apply pw_bufs0.
  - rewrite rs_ring, if_ring, in_ring0, Hc. split_and!; [done|done|constructor].
  - rewrite rs_host, H0, in_host0. done.
Qed.

(** Power-up, bus reset and the requests that open the port. *)
Lemma boot_to_port v a l ctl es1 es2 e0 e1 e es3 es4 s : power_on s → tst v USB_RSTIF_bm = true →
  0 ≤ a < 128 → line_wf l → BaudRateBPS l ≠ 0 → word16 ctl → tst ctl CDC_CONTROL_LINE_OUT_DTR = true →
  Forall still_event (es1 ++ es2 ++ e0 :: e1 :: es3 ++ es4) → data_event (line_bytes l) e →
  length es1 = 6%nat → length es2 = 5%nat → length es3 = 3%nat → length es4 = 5%nat →
  ∃ s1 s2, USB_serial_init s = Ok tt s1 ∧ USB_BUSEVENT_vect (signal_reset v s1) = Ok tt s2 ∧
    serves (open_port a ctl es1 es2 (e0 :: e1 :: e :: es3) es4) s2 (λ s',
      trace s' = trace s2 ++ [OPacket 0 []; OStore (USB, ADDR) a; OPacket 0 []; OPacket 0 []; OPacket 0 []] ∧
      ∀ es, Forall link_event es → port (set_script es s')).
Proof.
  intros Hs Hv Ha Hl Hb Hc Hd Hes He L1 L2 L3 L4.
  destruct (wp_returns USB_serial_init (λ _, initialised s) s) as ([] & s1 & E1 & Hi); [by apply wp_serial_init|].
  destruct (reset_ready v s s1) as (s2 & E2 & Hr & _); [done..|].
  exists s1, s2. split_and!; [done|done|]. by apply (open_port_opens a l).
Qed.
End Task.
