(* ===== verification/LineSpec.v ===== *)
(** * The line encoding read back

    The CDC request GET_LINE_ENCODING (CDCClassDevice.c), from the arrival of
    the SETUP packet to the end of the status stage, and what it answers after
    a SET_LINE_ENCODING. *)
From S2P Require Import Prelude RingBuffer Machine Endpoint Controller EndpointPoll EndpointStream Cdc Descriptors StdReq UsbSerial Logic.
From S2P Require Import EndpointSpec EndpointData StdReqSpec ControlSpec FeatureSpec SerialPort SerialSpec Enumeration.

Definition get_line_encoding : USB_Request_Header_t :=
  USB_Request_Header class_in CDC_REQ_GetLineEncoding 0 ControlInterfaceNumber 7.

(** The bytes handed to [Endpoint_Write_8]. *)
Definition line_values (l : CDC_LineEncoding_t) : list Z :=
  le_bytes (BaudRateBPS l) ++ [CharFormat l; ParityType l; DataBits l].
Lemma line_values_bytes l : line_wf l → map u8 (line_values l) = line_bytes l.
Proof. intros (_ & Hc & Hp & Hd). unfold line_values, line_bytes. rewrite map_app. cbn [map]. by rewrite !u8_small. Qed.

Definition send_line (l : CDC_LineEncoding_t) : M unit :=
  Endpoint_Write_32_LE (BaudRateBPS l);;
  Endpoint_Write_8 (CharFormat l);;
  Endpoint_Write_8 (ParityType l);;
  Endpoint_Write_8 (DataBits l);;
  Endpoint_ClearIN;;
  Endpoint_ClearStatusStage.
Lemma send_line_answers l s : send_line l s = answer (line_values l) s.
Proof.
  unfold send_line, answer. unfold mbind at 1, M_bind at 1. rewrite Write_32_LE_list.
  unfold line_values. cbn [app le_bytes write_list]. unfold mret, M_ret, mbind, M_bind.
  repeat match goal with |- context [Endpoint_Write_8 ?x ?s] => destruct (Endpoint_Write_8 x s) as [[]| | |]; try reflexivity end.
Qed.

Section Request.
Context {PL : Platform} (z : mach) (e1 : event) (es : list event) (after : M unit) (b : buffer).
Context (Hb : control_in b z) (He1 : status_event e1) (Hafter : nothing_to_do after es).

Lemma cst_GetLineEncoding d k x y regs tr s Q B :
  cst True z (e1 :: es) (d, k, get_line_encoding, x, y) regs tr true 1 s → SelectedEndpoint (fwst s) = 0 →
  (∀ s', core (fwst s') = (d, k, get_line_encoding, x, y) → trace s' = tr ++ [OPacket 0 (map u8 (line_values (LineEncoding x)))] → Q tt s') →
  wp CDC_GetLineEncoding (λ _, wp after Q B) B s.
Proof using Hb He1 Hafter.
  intros Hc Hs HQ. unfold CDC_GetLineEncoding.
  apply wp_bind, (cst_ClearSETUP _ _ _ _ _ _ _ _ Hc Hs). intros s1 H1.
  apply wp_bind, (wp_iter (λ _ s', s' = s1) (λ _ _, O)); [|done|lia]. intros [] ? ->.
  apply wp_bind, wp_bind, (cst_IsINReady _ _ _ _ _ _ _ _ H1). intros s2 H2 Hh Hf. wsteps. cbn [negb].
  pose proof (cs_core _ _ _ _ _ _ H2) as Ec. injection Ec as _ _ Er Ex _. wsteps. rewrite Ex.
  apply wp_unbind. eapply (wp_same (send_line (LineEncoding x))); [apply send_line_answers|].
  eapply (cst_answer z e1 es after b Hb He1 Hafter); [exact H2|done|done|cbn; lia|by rewrite Er|exact HQ].
Qed.
End Request.

Lemma wp_process_GetLineEncoding {PL : Platform} e0 e1 e2 e3 e4 rest b b' z s (Q : unit → mach → Prop) B :
  setup_waits get_line_encoding b' s → arrival True z s → control_in b z → script s = e0 :: e1 :: e2 :: e3 :: e4 :: rest →
  ctl_event e0 → ctl_event e1 → status_event e2 → no_request e3 → no_request e4 →
  (∀ s', let w := fwst s in core (fwst s') = (DeviceState w, ConfigurationNumber w, get_line_encoding, CDC w, ok_to_send w) →
     trace s' = trace s ++ [OPacket 0 (map u8 (line_values (LineEncoding (CDC w))))] → Q tt s') →
  wp USB_Device_ProcessControlRequest Q B s.
Proof.
  intros Hw Har Hb Es He0 He1 He2 He3 He4 HQ. unfold USB_Device_ProcessControlRequest.
  assert (waits_for (e2 :: e3 :: e4 :: rest) 2 s) as Hwf.
  { unfold waits_for. rewrite Es. split_and!; [by repeat constructor|cbn; lia|done]. }
  apply wp_bind, (cst_read _ b' 2 _ _ _ Hw Har Hwf). intros s1 w H1 _.
  unfold EVENT_USB_Device_ControlRequest, CDC_Device_ProcessControlRequest.
  apply wp_bind, wp_bind, (cst_IsSETUP _ _ _ _ _ _ _ _ H1). intros s2 H2 Hs. cbn [negb]. wsteps.
  pose proof (cs_core _ _ _ _ _ _ H2) as Ec. injection Ec as _ _ Er _ _. rewrite Er. fold leftover. fold dispatch_rest.
  match goal with |- wp ?m _ _ _ => change m with CDC_GetLineEncoding end.
  eapply (cst_GetLineEncoding z e2 (e3 :: e4 :: rest) dispatch_rest b Hb He2 (nothing_dispatched e3 e4 rest He3 He4));
    [exact H2|done|exact HQ].
Qed.

Section Task.
Context {PL : Platform}.

(** The events of a host that reads an answer: three until the answer is in
    the packet buffer, one with the empty packet of the status stage, and two
    more. *)
Record reads_answer (es : list event) : Prop := {
  ra_quiet : Forall quiet_event es;
  ra_events : ∃ e0 e1 e2 e3 e4 e5, es = [e0; e1; e2; e3; e4; e5] ∧ still_event e0 ∧ ctl_event e1 ∧ ctl_event e2 ∧
    status_event e3 ∧ no_request e4 ∧ no_request e5 }.

Lemma task_GetLineEncoding es b s s1 : idle_dev s → control_in b s → setup_arrives get_line_encoding es s s1 → reads_answer es →
  ∃ s', USB_USBTask s1 = Ok tt s' ∧ LineEncoding (CDC (fwst s')) = LineEncoding (CDC (fwst s)) ∧
    DeviceState (fwst s') = DeviceState (fwst s) ∧
    trace s' = trace s ++ [OPacket 0 (map u8 (line_values (LineEncoding (CDC (fwst s)))))].
Proof.
  intros Hid Hb Ha [Hq (e0 & e1 & e2 & e3 & e4 & e5 & -> & H0 & H1 & H2 & H3 & H4 & H5)].
  match goal with |- ∃ s', ?m ?s = _ ∧ @?P s' =>
    enough (wp m (λ _, P) (λ _, False) s) as Hw; [by destruct (wp_returns _ _ _ Hw) as ([] & s' & ? & ?); eauto|] end.
  cbn beta. apply (wp_task get_line_encoding e0 [e1; e2; e3; e4; e5] s); [done|done|by split_and!|done|].
  intros s2 Hsn. apply Forall_cons in Hq as [_ Hq].
  eapply (wp_process_GetLineEncoding e1 e2 e3 e4 e5 [] b _ s); [apply Hsn|by apply Hsn|done|apply Hsn|done..|].
  intros s' w Ec Et. pose proof (sn_core _ _ _ _ Hsn) as Ec2. unfold core in Ec, Ec2. injection Ec as D1 _ _ D4 _.
  injection Ec2 as F1 _ _ F4 _. subst w. cbn. rewrite D1, D4, F1, F4 in *. split_and!; [done..|].
  by rewrite Et, (sn_trace _ _ _ _ Hsn).
Qed.
End Task.
