(* ===== verification/CaptureSpec.v ===== *)
(** * The converter and the capture: lemmas

    What the routines of adc.c leave in the registers, and what the busy-waits
    of trigger.c, dmaadc.c, hires_glitch.c and usartx.c do. *)
From S2P Require Import Prelude RingBuffer Machine Endpoint Controller Adc Capture Usart Logic Regs.

(** * The converter set-up

    What the routines of adc.c leave in the registers of the converter, for
    every content of the registers before the call. *)

(** ** Fields of a register *)
Lemma u8_land_255 x : u8 x = x .& 255.
Proof. unfold u8. change 255 with (Z.ones 8). by rewrite Z.land_ones. Qed.

(** Identities between bytes built from one unknown byte and constants, bit by
    bit. *)
Ltac const_false i :=
  repeat match goal with |- context [Z.testbit ?c i] =>
    lazymatch c with
    | context [_ .& _] => fail | _ => idtac end;
    let v := eval vm_compute in c in
    lazymatch v with Z0 => idtac | Zpos _ => idtac end;
    rewrite (high_bits 8 c i) by (assumption || (split; [discriminate|reflexivity])) end.
Ltac bits8 :=
  rewrite ?u8_land_255; unfold clr8; apply Z.bits_inj';
  let i := fresh "i" in let Hi := fresh "Hi" in intros i Hi;
  repeat first [rewrite Z.land_spec | rewrite Z.lor_spec | rewrite Z.lxor_spec];
  destruct (Z.lt_ge_cases i 8) as [Hlt|Hge];
  [ assert (i = 0 ∨ i = 1 ∨ i = 2 ∨ i = 3 ∨ i = 4 ∨ i = 5 ∨ i = 6 ∨ i = 7) as Hc by lia;
    repeat match goal with |- context [Z.testbit ?v i] => is_var v;
      let b := fresh "b" in set (b := Z.testbit v i); clearbody b end;
    destruct Hc as [->|[->|[->|[->|[->|[->|[->| ->]]]]]]];
    repeat match goal with b : bool |- _ => destruct b end; vm_compute; reflexivity
  | const_false i; rewrite ?andb_false_r; try reflexivity ].

Lemma lor_in gm x v : gm .& 255 = gm → u8 (v .| x) .& gm = (v .& gm) .| (x .& gm).
Proof.
  intros Hg. rewrite u8_land_255. apply Z.bits_inj'. intros i Hi. apply (f_equal (λ z, Z.testbit z i)) in Hg.
  revert Hg. rewrite !Z.lor_spec, !Z.land_spec, !Z.lor_spec.
  destruct (Z.testbit v i), (Z.testbit gm i), (Z.testbit x i), (Z.testbit 255 i); cbn; congruence.
Qed.

(** ** [adc_init] *)
Record adc_ready (bits12 : Z) (before after : reg → Z) : Prop := {
  ar_on : tst (after (ADCA, CTRLA)) ADC_ENABLE_bm = true ∧ tst (after (ADCA, CTRLA)) ADC_CH0START_bm = true;
  ar_mode : after (ADCA, CTRLB) = ADC_CONMODE_bm .| ADC_FREERUN_bm .|
    (if bits12 =? 0 then ADC_RESOLUTION_8BIT_gc else ADC_RESOLUTION_12BIT_gc);
  ar_ref : after (ADCA, REFCTRL) .& ADC_REFSEL_gm = ADC_REFSEL_INT1V_gc ∧
    tst (after (ADCA, REFCTRL)) ADC_BANDGAP_bm = true;
  ar_ev : after (ADCA, EVCTRL) .& (ADC_SWEEP_gm .| ADC_EVSEL_gm .| ADC_EVACT_gm) = 0;
  ar_clock : after (ADCA, PRESCALER) .& ADC_PRESCALER_gm = ADC_PRESCALER_DIV4_gc;
  ar_input : after (ADCA_CH0, CTRL) .& ADC_CH_INPUTMODE_gm = ADC_CH_INPUTMODE_DIFFWGAIN_gc;
  ar_gain : after (ADCA_CH0, CTRL) .& ADC_CH_GAIN_gm = before (ADCA_CH0, CTRL) .& ADC_CH_GAIN_gm;
  ar_pos : after (ADCA_CH0, MUXCTRL) .& ADC_CH_MUXPOS_gm = ADC_CH_MUXPOS_PIN3_gc;
  ar_neg : after (ADCA_CH0, MUXCTRL) .& ADC_CH_MUXNEG_gm = ADC_CH_MUXNEG_PIN5_gc;
  ar_int : after (ADCA_CH0, INTCTRL) .& ADC_CH_INTLVL_gm = ADC_CH_INTLVL_OFF_gc;
  ar_flags : after (ADCA, INTFLAGS) .& ADC_CHIF_all = 0;
  ar_frame p f : p ≠ ADCA → p ≠ ADCA_CH0 → p ≠ PORTA → after (p, f) = before (p, f) }.

Lemma tst_bit x m : x .& m = m → m ≠ 0 → tst x m = true.
Proof. intros E H. unfold tst. rewrite E. by apply negb_true_iff, Z.eqb_neq. Qed.

Lemma adc_init_runs bits12 : ∃ f o, runs (adc_init bits12) f o ∧ ∀ R, adc_ready bits12 R (f R).
Proof.
  do 2 eexists. split.
  { unfold adc_init, adc_enable, adc_intflags, adc_refsel, adc_bandgap, adc_sweep, adc_evsel, adc_evact,
      adc_prescaler, adc_ch_gain, adc_ch_inputmode, adc_ch_muxpos, adc_ch_muxneg, adc_ch_intlvl. regs. }
  intros R. destruct (bits12 =? 0) eqn:Hb; cbn [negb]; split; rewrite ?Hb; intros; rdreg; try done;
    repeat match goal with |- context [R ?r] => generalize (R r); intros ? end;
    repeat match goal with |- _ ∧ _ => split | |- tst _ _ = true => apply tst_bit; [|done] end; bits8.
Qed.

(** ** Settings made by commands *)

(** The prescaler replaces the old one. *)
Lemma adc_prescaler_runs p : p .& ADC_PRESCALER_gm = p → ∃ f o, runs (adc_prescaler p) f o ∧
  ∀ R, f R (ADCA, PRESCALER) .& ADC_PRESCALER_gm = p ∧
       f R (ADCA, PRESCALER) .& (255 .^ ADC_PRESCALER_gm) = R (ADCA, PRESCALER) .& (255 .^ ADC_PRESCALER_gm) ∧
       ∀ r, r ≠ (ADCA, PRESCALER) → f R r = R r.
Proof.
  intros Hp. do 2 eexists. split; [unfold adc_prescaler; regs|]. intros R. split_and!; intros; rdreg; try done;
    rewrite <-Hp; generalize (R (ADCA, PRESCALER)); intros v; bits8.
Qed.

(** The gain is added to the old one: no bit of the field is ever cleared. *)
Lemma adc_ch_gain_runs g : g .& ADC_CH_GAIN_gm = g → ∃ f o, runs (adc_ch_gain g) f o ∧
  ∀ R, f R (ADCA_CH0, CTRL) .& ADC_CH_GAIN_gm = (R (ADCA_CH0, CTRL) .& ADC_CH_GAIN_gm) .| g ∧
       ∀ r, r ≠ (ADCA_CH0, CTRL) → f R r = R r.
Proof.
  intros Hg. do 2 eexists. split; [unfold adc_ch_gain; regs|]. intros R. split; intros; rdreg; [|done].
  rewrite lor_in, Hg; done.
Qed.

(** * Waiting for the trigger, the samples, the glitch and the serial line

    What the busy-waits of trigger.c, dmaadc.c, hires_glitch.c and usartx.c do
    against a hardware that shows a given sequence of register contents. *)

(** ** Waiting for a register *)

(** After the event [e], register [r] satisfies [g]. *)
Definition shows (r : reg) (g : Z → bool) (e : event) : Prop :=
  ∃ f, e = EvHw f ∧ ∀ h, g (rf (f h) r) = true.

Definition waits_for (r : reg) (stay : Z → bool) : M unit :=
  while_ (v ← ldv r; mret (stay v)) (mret tt).

(** What a busy-wait leaves: [es] events have passed, nothing was stored. *)
Record waited (es : list event) (s s' : mach) : Prop := {
  wt_script : script s = es ++ script s';
  wt_trace : trace s' = trace s;
  wt_fw : fwst s' = fwst s }.

Lemma wp_ldv_shows r g e es Q B s : shows r g e → script s = e :: es →
  (∀ v s', g v = true → v = rf (hwst s') r → script s' = es → trace s' = trace s → fwst s' = fwst s → Q v s') →
  wp (ldv r) Q B s.
Proof.
  intros (f & -> & Hf) Hs HQ. unfold ldv. apply wp_bind, wp_poll. rewrite Hs. wsteps. apply HQ; try done. apply Hf.
Qed.

Lemma wp_waits_for r stay pre e Q B s :
  Forall (shows r stay) pre → shows r (λ v, negb (stay v)) e → (∃ rest, script s = pre ++ e :: rest) →
  (∀ s', waited (pre ++ [e]) s s' → stay (rf (hwst s') r) = false → Q tt s') → wp (waits_for r stay) Q B s.
Proof.
  intros Hpre He [rest Hs] HQ. unfold waits_for.
  apply (wp_while (λ s1, ∃ done todo, pre = done ++ todo ∧ waited done s s1)).
  - intros s1 (dn & todo & -> & [H1 H2 H3]). apply wp_bind.
    rewrite Hs, <-app_assoc in H1. apply app_inv_head in H1.
    destruct todo as [|e1 todo]; cbn in H1.
    + eapply wp_ldv_shows; [exact He|by rewrite <-H1|]. intros v s2 Hv -> E1 E2 E3. wsteps.
      apply negb_true_iff in Hv. rewrite Hv. rewrite app_nil_r in HQ. apply HQ; [|done].
      split; [rewrite Hs, E1; by rewrite app_nil_r, <-app_assoc|congruence|congruence].
    + rewrite Forall_app, Forall_cons in Hpre. destruct Hpre as (_ & Hg & _).
      eapply wp_ldv_shows; [exact Hg|by rewrite <-H1|]. intros v s2 Hv -> E1 E2 E3. wsteps. rewrite Hv.
      rewrite E1, <-H1. split; [|cbn; lia]. exists (dn ++ [e1]), todo. rewrite <-app_assoc. split; [done|].
      split; [rewrite Hs, E1; by rewrite <-!app_assoc|congruence|congruence].
  - exists [], pre. by split; [|split].
Qed.

(** A condition that never comes. *)
Lemma waits_forever r stay s : Forall (shows r stay) (script s) →
  ∃ s', waits_for r stay s = Blocked s' ∧ script s' = [] ∧ trace s' = trace s.
Proof.
  intros Hall.
  assert (wp (waits_for r stay) (λ _ _, False) (λ s', script s' = [] ∧ trace s' = trace s) s) as H.
  { apply (wp_while (λ s1, Forall (shows r stay) (script s1) ∧ trace s1 = trace s)); [|done].
    intros s1 [H1 Ht]. apply wp_bind. destruct (script s1) as [|e es] eqn:Es.
    - unfold ldv. apply wp_bind, wp_poll. by rewrite Es.
    - apply Forall_cons in H1 as [He Hes]. eapply wp_ldv_shows; [exact He|exact Es|].
      intros v s2 Hv _ E1 E2 _. wsteps. rewrite Hv, E1, E2. split; [done|cbn; lia]. }
  unfold wp in H. destruct (waits_for r stay s) as [| s' | |]; try done. by exists s'.
Qed.

(** ** The trigger *)
Definition no_trigger : event → Prop := shows (PORTA, INTFLAGS) (λ v, v =? 0).
Definition triggers : event → Prop := shows (PORTA, INTFLAGS) (λ v, negb (v =? 0)).

(** Nothing is seen while the counter runs down. *)
Lemma wp_trigger_timeout pre Q B s : Forall no_trigger pre → Z.of_nat (length pre) < 2 ^ 32 →
  (∃ rest, script s = pre ++ rest) → (∀ s', waited pre s s' → Q 0 s') →
  wp (iter 0 trigger_body (Z.of_nat (length pre))) Q B s.
Proof.
  intros Hpre Hlen [rest Hs] HQ.
  apply (wp_iter (λ t s1, ∃ dn todo, pre = dn ++ todo ∧ t = Z.of_nat (length todo) ∧ waited dn s s1)
    (λ t _, Z.to_nat t)).
  - intros t s1 (dn & todo & -> & -> & [H1 H2 H3]). unfold trigger_body.
    destruct todo as [|e todo].
    + cbn. wsteps. rewrite app_nil_r in HQ. apply HQ. by split.
    + rewrite (proj2 (Z.gtb_lt _ _)) by (cbn; lia). apply wp_bind.
      rewrite Hs, <-app_assoc in H1. apply app_inv_head in H1. cbn in H1.
      rewrite Forall_app, Forall_cons in Hpre. destruct Hpre as (_ & He & _).
      eapply wp_ldv_shows; [exact He|by rewrite <-H1|]. intros v s2 Hv _ E1 E2 E3. cbn beta in Hv. rewrite Hv. wsteps.
      rewrite length_app in Hlen. cbn [length] in *. unfold u32. rewrite Z.mod_small by lia. split; [|lia].
      exists (dn ++ [e]), todo. rewrite <-app_assoc. split; [done|]. split; [lia|].
      split; [rewrite Hs, E1; by rewrite <-!app_assoc|congruence|congruence].
  - exists [], pre. by split; [|split; [|split]].
  - rewrite Hs, length_app. lia.
Qed.

(** The trigger comes after fewer than [timeout] looks. *)
Lemma wp_trigger_seen pre e timeout Q B s : Forall no_trigger pre → triggers e →
  Z.of_nat (length pre) < timeout < 2 ^ 32 →
  (∃ rest, script s = pre ++ e :: rest) → (∀ s', waited (pre ++ [e]) s s' → Q (timeout - Z.of_nat (length pre)) s') →
  wp (iter 0 trigger_body timeout) Q B s.
Proof.
  intros Hpre He Hlen [rest Hs] HQ.
  apply (wp_iter (λ t s1, ∃ dn todo, pre = dn ++ todo ∧ t = timeout - Z.of_nat (length dn) ∧ waited dn s s1)
    (λ _ s1, length (script s1))).
  - intros t s1 (dn & todo & -> & -> & [H1 H2 H3]). unfold trigger_body. rewrite length_app in Hlen.
    rewrite (proj2 (Z.gtb_lt _ _)) by (cbn; lia). apply wp_bind.
    rewrite Hs, <-app_assoc in H1. apply app_inv_head in H1.
    destruct todo as [|e1 todo]; cbn in H1.
    + eapply wp_ldv_shows; [exact He|by rewrite <-H1|]. intros v s2 Hv _ E1 E2 E3. cbn beta in Hv.
      apply negb_true_iff in Hv. rewrite Hv. wsteps. rewrite app_nil_r in HQ. apply HQ.
      split; [rewrite Hs, E1; by rewrite app_nil_r, <-app_assoc|congruence|congruence].
    + rewrite Forall_app, Forall_cons in Hpre. destruct Hpre as (_ & Hg & _).
      eapply wp_ldv_shows; [exact Hg|by rewrite <-H1|]. intros v s2 Hv _ E1 E2 E3. cbn beta in Hv. rewrite Hv. wsteps.
      rewrite E1, <-H1. split; [|cbn; lia]. exists (dn ++ [e1]), todo. rewrite <-app_assoc. split; [done|].
      cbn [length] in *. unfold u32. rewrite Z.mod_small by lia. split; [rewrite length_app; cbn; lia|].
      split; [rewrite Hs, E1; by rewrite <-!app_assoc|congruence|congruence].
  - exists [], pre. split; [done|]. split; [cbn; lia|]. by split.
  - lia.
Qed.

(** What [trigger_wait] stores before it waits. *)
Definition trigger_arm (delay : Z) : M unit :=
  (TCD0, CTRLA) ::= 0;; st16 (TCD0, CNT) 0;; st16 (TCD0, PER) delay;; st_w1c (TCD0, INTFLAGS) 0xff;;
  (DMA_CH1, REPCNT) ::= 1;; st16 (DMA_CH1, TRFCNT) 1;; st_w1c (DMA, INTFLAGS) 0;;
  (PORTA, INT0MASK) ::= TRIGGER_PIN;; st_w1c (PORTA, INTFLAGS) 0x3;;
  (DMA_CH1, TRIGSRC) ::= DMA_CH_TRIGSRC_EVSYS_CH0_gc;;
  setbits (DMA_CH1, CTRLA) (DMA_CH_SINGLE_bm .| DMA_CH_ENABLE_bm).

Definition armed (delay : Z) (R : regfile) : list obs :=
  [OStore (TCD0, CTRLA) 0; OStore (TCD0, CNT) 0; OStore (TCD0, PER) (u16 delay); OStore (TCD0, INTFLAGS) 255;
   OStore (DMA_CH1, REPCNT) 1; OStore (DMA_CH1, TRFCNT) 1; OStore (DMA, INTFLAGS) 0;
   OStore (PORTA, INT0MASK) TRIGGER_PIN; OStore (PORTA, INTFLAGS) 3; OStore (DMA_CH1, TRIGSRC) 1;
   OStore (DMA_CH1, CTRLA) (u8 (R (DMA_CH1, CTRLA) .| 0x84))].

Lemma trigger_arm_runs delay : ∃ f, runs (trigger_arm delay) f (armed delay).
Proof.
  assert (∃ f o, runs (trigger_arm delay) f o ∧ ∀ R, o R = armed delay R) as (f & o & Hr & Ho).
  { do 2 eexists. split; [unfold trigger_arm; regs|]. intros R. cbn -[rset u8 u16]. by rdreg. }
  exists f. intros s. rewrite Hr. unfold after_regs. by rewrite Ho.
Qed.

Definition trigger_rest (timeout : Z) : M Z :=
  timeout ← iter 0 trigger_body timeout;
  (DMA_CH2, TRIGSRC) ::= 0;;
  if timeout =? 0 then (TCD0, CTRLA) ::= 0;; mret 1
  else
    waits_for (TCD0, INTFLAGS) (λ f, negb (tst f TC0_OVFIF_bm));;
    (TCD0, CTRLA) ::= 0;; mret 0.

Lemma trigger_wait_split timeout delay s :
  trigger_wait timeout delay s = (trigger_arm delay;; trigger_rest timeout) s.
Proof. unfold trigger_wait, trigger_arm. regroup. by apply bind_ext. Qed.

(** The end of a wait for the trigger: the result, the events that passed, the
    stores, and that the delay timer is off. *)
Record trigger_done (delay : Z) (es : list event) (s s' : mach) : Prop := {
  td_events : script s = es ++ script s';
  td_stores : trace s' = trace s ++ armed delay (rf (hwst s)) ++ [OStore (DMA_CH2, TRIGSRC) 0; OStore (TCD0, CTRLA) 0];
  td_timer : rf (hwst s') (TCD0, CTRLA) = 0;
  td_fw : fwst s' = fwst s }.

Lemma trigger_wait_times_out pre delay s : Forall no_trigger pre → Z.of_nat (length pre) < 2 ^ 32 →
  (∃ rest, script s = pre ++ rest) →
  ∃ s', trigger_wait (Z.of_nat (length pre)) delay s = Ok 1 s' ∧ trigger_done delay pre s s'.
Proof.
  intros Hpre Hlen Hs. rewrite trigger_wait_split.
  destruct (wp_returns (trigger_arm delay;; trigger_rest (Z.of_nat (length pre)))
    (λ a s', a = 1 ∧ trigger_done delay pre s s') s) as (a & s' & E & -> & H); [|by eauto].
  destruct (trigger_arm_runs delay) as [f Hf]. apply wp_bind, (wp_runs _ _ _ _ _ _ Hf).
  unfold trigger_rest. apply wp_bind, (wp_trigger_timeout pre); [done..|]. intros s1 [H1 H2 H3]. wsteps.
  change (0 =? 0) with true. wsteps. split; [done|]. cbn in H1, H2, H3. split; cbn; try done.
  rewrite H2. by rewrite <-!app_assoc.
Qed.

Lemma trigger_wait_catches pre e mid o timeout delay s : Forall no_trigger pre → triggers e →
  Forall (shows (TCD0, INTFLAGS) (λ f, negb (tst f TC0_OVFIF_bm))) mid →
  shows (TCD0, INTFLAGS) (λ f, tst f TC0_OVFIF_bm) o →
  Z.of_nat (length pre) < timeout < 2 ^ 32 → (∃ rest, script s = (pre ++ [e]) ++ mid ++ o :: rest) →
  ∃ s', trigger_wait timeout delay s = Ok 0 s' ∧ trigger_done delay ((pre ++ [e]) ++ mid ++ [o]) s s'.
Proof.
  intros Hpre He Hmid Ho Ht [rest Hs]. rewrite trigger_wait_split.
  destruct (wp_returns (trigger_arm delay;; trigger_rest timeout)
    (λ a s', a = 0 ∧ trigger_done delay ((pre ++ [e]) ++ mid ++ [o]) s s') s) as (a & s' & E & -> & H); [|by eauto].
  destruct (trigger_arm_runs delay) as [f Hf]. apply wp_bind, (wp_runs _ _ _ _ _ _ Hf).
  unfold trigger_rest. apply wp_bind, (wp_trigger_seen pre e); [done..| |].
  { exists (mid ++ o :: rest). cbn. by rewrite Hs, <-app_assoc. }
  intros s1 [H1 H2 H3]. cbn in H1, H2, H3. wsteps.
  rewrite (proj2 (Z.eqb_neq _ 0)) by lia. apply wp_bind, (wp_waits_for _ _ mid o); [done| | |].
  { destruct Ho as (g & -> & Hg). exists g. split; [done|]. intros h. by rewrite negb_involutive. }
  { exists rest. cbn. rewrite Hs in H1. by apply app_inv_head in H1. }
  intros s2 [H4 H5 H6] _. cbn in H4, H5, H6. wsteps. split; [done|]. split; cbn; try congruence; try done.
  - rewrite H1, H4. by rewrite <-!app_assoc.
  - rewrite H5, H2. by rewrite <-!app_assoc.
Qed.

(** ** The capture *)
Definition capture_start (buf length : Z) : M unit :=
  (DMA_CH0, REPCNT) ::= 1;; st16 (DMA_CH0, TRFCNT) length;; setbits (DMA_CH0, CTRLA) DMA_CH_REPEAT_bm;;
  (DMA_CH0, DESTADDR0) ::= (buf >> 0) .& 0xFF;; (DMA_CH0, DESTADDR1) ::= (buf >> 8) .& 0xFF;;
  (DMA_CH0, DESTADDR2) ::= 0;; st_w1c (DMA, INTFLAGS) 0;; setbits (DMA_CH0, CTRLA) DMA_CH_ENABLE_bm;;
  adc_ch_intlvl ADC_CH_INTLVL_LO_gc.

(** The transfer as the controller is told to make it. *)
Record capture_set (buf length : Z) (R : regfile) : Prop := {
  cp_count : R (DMA_CH0, TRFCNT) = length ∧ R (DMA_CH0, REPCNT) = 1;
  cp_dest : R (DMA_CH0, DESTADDR0) + 256 * R (DMA_CH0, DESTADDR1) = buf ∧ R (DMA_CH0, DESTADDR2) = 0;
  cp_on : tst (R (DMA_CH0, CTRLA)) DMA_CH_ENABLE_bm = true ∧ tst (R (DMA_CH0, CTRLA)) DMA_CH_REPEAT_bm = true }.

Lemma address_bytes a : word16 a → u8 ((a >> 0) .& 0xFF) + 256 * u8 ((a >> 8) .& 0xFF) = a.
Proof.
  intros Ha. change 0xFF with (Z.ones 8). rewrite !Z.land_ones, Z.shiftr_0_r, Z.shiftr_div_pow2 by lia.
  change (2 ^ 8) with 256. unfold u8, word16 in *. Z.to_euclidean_division_equations; lia.
Qed.

Lemma capture_start_runs buf length : word16 buf → word16 length →
  ∃ f o, runs (capture_start buf length) f o ∧ ∀ R, capture_set buf length (f R).
Proof.
  intros Hb Hl. do 2 eexists. split; [unfold capture_start, adc_ch_intlvl; regs|]. intros R. split; rdreg.
  - split; [by rewrite u16_small|done].
  - split; [by apply address_bytes|done].
  - generalize (R (DMA_CH0, CTRLA)); intros v. split; apply tst_bit; [bits8|done|bits8|done].
Qed.

Definition busy (v : Z) : bool := negb (v .& DMA_CH_ENABLE_bm =? 0).

Definition capture_rest : M unit :=
  cli;;
  waits_for (DMA_CH0, CTRLA) (λ v, v .& DMA_CH_ENABLE_bm =? 0);;
  sei;;
  adc_ch_intlvl ADC_CH_INTLVL_OFF_gc.

Lemma dmaadc_read_split buf length bits12 s :
  dmaadc_read_buf_ch0 buf length bits12 s = (capture_start buf length;; capture_rest) s.
Proof. unfold dmaadc_read_buf_ch0, capture_start. regroup. by apply bind_ext. Qed.

(** The loop runs while the channel is idle: it ends as soon as the channel is
    seen busy. *)
Lemma dmaadc_read_returns buf length bits12 pre e s : word16 buf → word16 length →
  Forall (shows (DMA_CH0, CTRLA) (λ v, negb (busy v))) pre → shows (DMA_CH0, CTRLA) busy e →
  (∃ rest, script s = pre ++ e :: rest) →
  ∃ s', dmaadc_read_buf_ch0 buf length bits12 s = Ok tt s' ∧ script s = (pre ++ [e]) ++ script s' ∧
        busy (rf (hwst s') (DMA_CH0, CTRLA)) = true ∧ IFlag (fwst s') = true.
Proof.
  intros Hb Hl Hpre He Hs. rewrite dmaadc_read_split.
  destruct (wp_returns (capture_start buf length;; capture_rest)
    (λ _ s', script s = (pre ++ [e]) ++ script s' ∧ busy (rf (hwst s') (DMA_CH0, CTRLA)) = true ∧
      IFlag (fwst s') = true) s) as ([] & s' & E & H); [|by eauto].
  destruct (capture_start_runs buf length Hb Hl) as (f & o & Hf & _). apply wp_bind, (wp_runs _ _ _ _ _ _ Hf).
  unfold capture_rest, cli, sei, adc_ch_intlvl. wsteps. apply (wp_waits_for _ _ pre e); [| |done|].
  { eapply Forall_impl; [exact Hpre|]. intros e1 (g & -> & Hg). exists g. split; [done|]. intros h.
    specialize (Hg h). unfold busy in Hg. by rewrite negb_involutive in Hg. }
  { exact He. }
  intros s1 [H1 H2 H3] Hst. wsteps. split; [exact H1|]. split; [|done].
  unfold busy. rewrite !rf_stored_ne by discriminate. cbn [hwst set_fwst]. by rewrite Hst.
Qed.

(** When the transfer is over before the loop looks, the loop never ends, and
    interrupts stay disabled. *)
Lemma dmaadc_read_hangs buf length bits12 s : word16 buf → word16 length →
  Forall (shows (DMA_CH0, CTRLA) (λ v, negb (busy v))) (script s) →
  ∃ s', dmaadc_read_buf_ch0 buf length bits12 s = Blocked s'.
Proof.
  intros Hb Hl Hall. rewrite dmaadc_read_split.
  destruct (capture_start_runs buf length Hb Hl) as (f & o & Hf & _).
  unfold mbind, M_bind. rewrite Hf. unfold capture_rest, cli, mod_fw, modify, mbind, M_bind. cbn beta iota.
  destruct (waits_forever (DMA_CH0, CTRLA) (λ v, v .& DMA_CH_ENABLE_bm =? 0)
    (set_fwst (set_IFlag false (fwst (after_regs f o s))) (after_regs f o s))) as (s' & E & _).
  { cbn. eapply Forall_impl; [exact Hall|]. intros e (g & -> & Hg). exists g. split; [done|]. intros h.
    specialize (Hg h). unfold busy in Hg. by rewrite negb_involutive in Hg. }
  rewrite E. by exists s'.
Qed.

(** ** The glitch timer *)
Lemma hires_glitch_spec pre e s :
  Forall (shows (TCC2, INTFLAGS) (λ f, negb (tst f TC2_LCMPAIF_bm))) pre →
  shows (TCC2, INTFLAGS) (λ f, tst f TC2_LCMPAIF_bm) e → (∃ rest, script s = pre ++ e :: rest) →
  ∃ s', hires_glitch s = Ok tt s' ∧ script s = (pre ++ [e]) ++ script s' ∧
    trace s' = trace s ++ [OStore (TCC2, INTFLAGS) 0; OStore (TCC2, INTFLAGS) (u8 (clr8 (rf (hwst s) (TCC2, INTFLAGS)) 0 .| TC2_LCMPAIF_bm));
                           OStore (TCC2, CTRLA) TC2_CLKSEL_DIV1_gc; OStore (TCC2, CTRLA) TC2_CLKSEL_OFF_gc] ∧
    rf (hwst s') (TCC2, CTRLA) = TC2_CLKSEL_OFF_gc.
Proof.
  intros Hpre He Hs.
  match goal with |- ∃ s', _ = _ ∧ @?P s' =>
    destruct (wp_returns hires_glitch (λ _, P) s) as ([] & s' & E & H); [|by eauto] end.
  cbn beta. unfold hires_glitch, setflags, hires_stop_timer. wsteps. apply (wp_waits_for _ _ pre e); [done| |done|].
  { destruct He as (g & -> & Hg). exists g. split; [done|]. intros h. by rewrite negb_involutive. }
  intros s1 [H1 H2 H3] _. wsteps. cbn in H1, H2. cbn. split; [done|]. split; [|done].
  rewrite H2. by rewrite <-!app_assoc.
Qed.

(** ** The hardware serial ports *)
Section usart.
Context (ctx : USART_CTX_t).

Definition can_send : event → Prop := shows (usart ctx, STATUS) (λ v, negb (v .& USART_DREIF_bm =? 0)).
Definition cannot_send : event → Prop := shows (usart ctx, STATUS) (λ v, v .& USART_DREIF_bm =? 0).

(** The loop behind the store never waits: [v & 0x40] is not 1. *)
Lemma sent_at_once v : (v .& USART_TXCIF_bm =? 1) = false.
Proof.
  apply Z.eqb_neq. intros E. apply (f_equal (λ z, Z.testbit z 0)) in E. rewrite Z.land_spec in E.
  rewrite andb_comm in E. done.
Qed.

Lemma wp_usart_put_char pre e f c Q B s : Forall cannot_send pre → can_send e →
  (∃ rest, script s = pre ++ e :: EvHw f :: rest) →
  (∀ s', script s = (pre ++ [e; EvHw f]) ++ script s' →
     trace s' = trace s ++ [OStore (usart ctx, DATA) (u8 c)] → fwst s' = fwst s → Q tt s') →
  wp (usart_put_char ctx c) Q B s.
Proof.
  intros Hpre He [rest Hs] HQ. unfold usart_put_char.
  apply wp_bind, (wp_waits_for (usart ctx, STATUS) (λ v, v .& USART_DREIF_bm =? 0) pre e); [done..|by eauto|].
  intros s1 [H1 H2 H3] _. wsteps.
  assert (script s1 = EvHw f :: rest) as E1.
  { rewrite Hs in H1. rewrite <-app_assoc in H1. apply app_inv_head in H1. by injection H1. }
  apply (wp_waits_for (usart ctx, STATUS) (λ v, v .& USART_TXCIF_bm =? 1) [] (EvHw f)); [done| |by exists rest|].
  { exists f. split; [done|]. intros h. by rewrite sent_at_once. }
  intros s2 [H4 H5 H6] _. cbn in H4, H5, H6. apply HQ; [|by rewrite H5, H2|congruence].
  rewrite Hs. rewrite <-!app_assoc. cbn. do 2 f_equal. congruence.
Qed.

Lemma wp_put_buf_from buf n i Q B s : Forall can_send (script s) → (2 * n ≤ length (script s))%nat →
  0 ≤ i → (Z.to_nat i + n ≤ length buf)%nat →
  (∀ s', script s' = drop (2 * n) (script s) →
     trace s' = trace s ++ map (λ x, OStore (usart ctx, DATA) (u8 x)) (take n (drop (Z.to_nat i) buf)) → Q tt s') →
  wp (put_buf_from ctx buf n i) Q B s.
Proof.
  revert i Q s. induction n as [|n IH]; intros i Q s Hall Hlen Hi Hb HQ; cbn [put_buf_from].
  { apply wp_ret, HQ; [done|]. cbn. by rewrite take_0, app_nil_r. }
  destruct (script s) as [|e [|e2 es]] eqn:Es; [cbn in Hlen; lia..|].
  rewrite !Forall_cons in Hall. destruct Hall as (He & (f & -> & Hf) & Hes).
  destruct (lookup_lt_is_Some_2 buf (Z.to_nat i)) as [x Hx]; [lia|].
  apply wp_bind, (wp_lift _ x); [by apply rd_Some|].
  apply wp_bind, (wp_usart_put_char [] e f); [done|done|by exists es|]. intros s1 H1 H2 _.
  assert (script s1 = es) as E1 by (rewrite Es in H1; cbn in H1; congruence).
  apply IH; rewrite ?E1; [done|cbn in Hlen; lia|lia|lia|]. intros s2 H3 H4. apply HQ.
  - rewrite H3. by replace (2 * S n)%nat with (S (S (2 * n))) by lia.
  - rewrite H4, H2, <-app_assoc. f_equal. rewrite (drop_S buf x (Z.to_nat i)) by done. cbn.
    by replace (Z.to_nat (i + 1)) with (S (Z.to_nat i)) by lia.
Qed.

Lemma usart_put_buf_spec buf length_ s : Forall can_send (script s) →
  0 ≤ length_ ≤ Z.of_nat (length buf) → (2 * Z.to_nat length_ ≤ length (script s))%nat →
  ∃ s', usart_put_buf ctx buf length_ s = Ok tt s' ∧ script s' = drop (2 * Z.to_nat length_) (script s) ∧
    trace s' = trace s ++ map (λ x, OStore (usart ctx, DATA) (u8 x)) (take (Z.to_nat length_) buf).
Proof.
  intros Hall Hl Hlen.
  match goal with |- ∃ s', _ = _ ∧ @?P s' =>
    destruct (wp_returns (usart_put_buf ctx buf length_) (λ _, P) s) as ([] & s' & E & H); [|by eauto] end.
  apply wp_put_buf_from; [done|done|lia|lia|]. done.
Qed.

(** A byte arrives. *)
Definition delivers (b : Z) (e : event) : Prop :=
  ∃ f, e = EvHw f ∧ ∀ h, rf (f h) (usart ctx, STATUS) .& USART_RXCIF_bm ≠ 0 ∧ rf (f h) (usart ctx, DATA) = b.

Lemma wp_usart_get_char b e es Q B s : delivers b e → script s = e :: es →
  (∀ s', script s' = es → trace s' = trace s → Q b s') → wp (usart_get_char ctx) Q B s.
Proof.
  intros (f & -> & Hf) Hs HQ. unfold usart_get_char, while_. apply wp_bind.
  apply (wp_iter (λ _ s1, s1 = s) (λ _ _, O)); [|done|lia]. intros _ s1 ->. apply wp_bind, wp_bind. unfold ldv.
  apply wp_bind, wp_poll. rewrite Hs. destruct (Hf (hwst s)) as [H1 H2]. wsteps. cbn [hwst set_hwst].
  rewrite (proj2 (Z.eqb_neq _ _) H1). wsteps. cbn [hwst set_hwst]. rewrite H2. by apply HQ.
Qed.

Lemma usart_get_long_spec b3 b2 b1 b0 e3 e2 e1 e0 es s :
  byte b3 → byte b2 → byte b1 → byte b0 → delivers b3 e3 → delivers b2 e2 → delivers b1 e1 → delivers b0 e0 →
  script s = e3 :: e2 :: e1 :: e0 :: es →
  ∃ s', usart_get_long ctx s = Ok (((b3 * 256 + b2) * 256 + b1) * 256 + b0) s' ∧ script s' = es ∧ trace s' = trace s.
Proof.
  intros B3 B2 B1 B0 D3 D2 D1 D0 Hs.
  destruct (wp_returns (usart_get_long ctx) (λ a s', a = ((b3 * 256 + b2) * 256 + b1) * 256 + b0 ∧
    script s' = es ∧ trace s' = trace s) s) as (a & s' & E & -> & H); [|by eauto].
  unfold usart_get_long, usart_get_short.
  apply wp_bind, wp_bind, (wp_usart_get_char b3 _ _ _ _ _ D3 Hs). intros s1 H1 T1.
  apply wp_bind, (wp_usart_get_char b2 _ _ _ _ _ D2 H1). intros s2 H2 T2. wsteps.
  apply (wp_usart_get_char b1 _ _ _ _ _ D1 H2). intros s3 H3 T3.
  apply wp_bind, (wp_usart_get_char b0 _ _ _ _ _ D0 H3). intros s4 H4 T4. wsteps.
  split; [|split; [done|congruence]]. unfold byte in *.
  assert (∀ x y, 0 ≤ x < 256 → 0 ≤ y < 256 → u16 (x << 8) .| y = x * 256 + y) as E.
  { intros x y Hx Hy. rewrite u16_small by (unfold word16; rewrite Z.shiftl_mul_pow2; lia). by rewrite shift_or by lia. }
  rewrite !E by done. unfold u32. rewrite Z.mod_small by (rewrite Z.shiftl_mul_pow2; lia). rewrite shift_or by lia. lia.
Qed.
End usart.
