(* ===== verification/Host.v ===== *)
(** * A host

    A concrete environment and a concrete state of the linked machine: a host
    that takes every IN packet and sends its bytes in packets of up to 64. It
    satisfies the assumptions that the theorems about the serial port make of
    an environment. *)
From S2P Require Import Prelude RingBuffer Machine Endpoint Controller EndpointPoll EndpointStream Cdc Descriptors StdReq UsbSerial Logic SerialPort SerialSpec.

(** The OUT packet, when the buffer is free. *)
Definition host_sends (h : hw) : hw :=
  if OUT_full (eps h) then h
  else match host h with
       | [] => h
       | _ =>
           let pkt := take 64 (host h) in
           let e := eps h 4 false in
           set_host (drop 64 (host h))
             (set_bufs (upd (bufs h) out_fifo (take 64 (pkt ++ replicate 64 0)))
               (set_eps (upd2 (eps h) (4, false)
                 (USB_EP USB_EP_TRNCOMPL0_bm (EP_CTRL e) (Z.of_nat (length pkt)) (EP_DATAPTR e))) h))
       end.

(** The IN packet is taken, and no control transfer is made. *)
Definition host_takes (h : hw) : hw :=
  let e3 := eps h 3 true in
  let e0 := eps h 0 false in
  set_eps (upd2 (upd2 (eps h) (3, true) (ep_set_status (EP_STATUS e3 .| USB_EP_BUSNACK0_bm) e3))
    (0, false) (ep_set_status (clr8 (EP_STATUS e0) USB_EP_SETUP_bm) e0)) h.

Definition host_event : event := EvHw (λ h, host_takes (host_sends h)).

Lemma host_takes_eps h n d : (n, d) ≠ (3, true) → (n, d) ≠ (0, false) → eps (host_takes h) n d = eps h n d.
Proof. intros H3 H0. unfold host_takes. cbn. by rewrite !upd2_ne. Qed.

Lemma host_takes_in h : IN_ready (eps (host_takes h)) = true.
Proof.
  unfold IN_ready, host_takes. cbn. rewrite upd2_ne, upd2_eq by done. cbn. rewrite tst_lor. apply orb_true_r.
Qed.

Lemma host_takes_full h : OUT_full (eps (host_takes h)) = OUT_full (eps h).
Proof. unfold OUT_full. by rewrite host_takes_eps. Qed.

Lemma host_sends_packet h : OUT_full (eps h) = false → host h ≠ [] →
  take 64 (host h) ≠ [] ∧ rx_packet h (host_takes (host_sends h)) (take 64 (host h)).
Proof.
  intros Hf Hh. unfold host_sends. rewrite Hf. destruct (host h) as [|x l] eqn:E; [done|]. rewrite <-E.
  split; [by rewrite E|].
  assert (length (take 64 (host h)) ≤ 64)%nat as Hl by (rewrite length_take; lia).
  split; [done|]. rewrite host_takes_full. cbn [eps set_host set_bufs set_eps].
  split; [unfold OUT_full; by rewrite upd2_eq|]. split; [symmetry; apply take_drop|]. split; [done|].
  rewrite host_takes_eps by done. cbn [eps set_host set_bufs set_eps bufs host_takes]. rewrite upd2_eq, upd_eq.
  split; [done|]. split; [|rewrite length_take, length_app, length_replicate; lia].
  rewrite take_take, Nat.min_l by done. by apply take_app_length'.
Qed.

Lemma host_sends_same h : OUT_full (eps h) = true ∨ host h = [] → host_sends h = h.
Proof. unfold host_sends. intros [-> | ->]; [done|]. by destruct (OUT_full _). Qed.

Lemma host_link : link_event host_event.
Proof.
  exists (λ h, host_takes (host_sends h)). split; [done|]. intros h. split.
  - intros _. apply host_takes_in.
  - unfold host_takes, host_sends. cbn. destruct (OUT_full _); [done|]. destruct (host h); done.
  - unfold SETUP_seen, host_takes. cbn. rewrite upd2_eq. cbn. by rewrite tst_cleared.
  - destruct (OUT_full (eps h)) eqn:Ef; [|destruct (host h) as [|x l] eqn:Eh].
    1, 2: left; rewrite host_sends_same by auto; unfold rx_same; by rewrite host_takes_eps.
    right. exists (take 64 (host h)). apply host_sends_packet; [done|congruence].
Qed.

Lemma host_prompt : prompt_event host_event.
Proof.
  exists (λ h, host_takes (host_sends h)). split; [done|]. intros h. split; [apply host_takes_in|].
  intros Hf Hh. exists (take 64 (host h)). by apply host_sends_packet.
Qed.

Lemma host_keeps : keeps_scope host_event.
Proof.
  intros f [= <-] h. unfold host_takes, host_sends. cbn. destruct (OUT_full _); [done|]. by destruct (host h).
Qed.

(** ** A linked machine, [inp] still to be sent by the host *)
Definition demo_platform : Platform := Build_Platform 0x2000 0x2100 0x2F00 0x0900 0x0224 (λ _, 0).

Definition demo_fifos (n : Z) (d : bool) : Endpoint_FIFO_t := Endpoint_FIFO (fifo_memory n d) (if d then from_option fifo_size 0 (fifo_memory n d) else 0) 0.

Definition demo (inp : list Z) (events : nat) : mach :=
  Mach (HW (λ _, 0) (λ _ _, USB_EP 0 0 0 None) 0 (λ b, replicate (Z.to_nat (fifo_size b)) 0) (replicate 3584 0) inp)
    (FW 0 (0, false) (0, false) demo_fifos DEVICE_STATE_Configured 1 (USB_Request_Header 0 0 0 0 0) true
       (CDC_State 1 0 (CDC_LineEncoding 9600 0 0 8)) 1 (RingBuffer_InitBuffer (replicate 5 0) 5) true)
    (replicate events host_event) [].

Lemma demo_port inp n : bytes inp → port (demo inp n).
Proof.
  intros Hb. split; try done.
  - constructor.
  - apply Forall_replicate, host_link.
Qed.

Lemma demo_prompt inp n : Forall prompt_event (script (demo inp n)).
Proof. apply Forall_replicate, host_prompt. Qed.
Lemma demo_keeps inp n : Forall keeps_scope (script (demo inp n)).
Proof. apply Forall_replicate, host_keeps. Qed.
