(* ===== verification/Typing.v ===== *)
(** * Widths

    Every register and every variable of the firmware is an integer of a fixed
    width, a [Z] in the model, and every array has a fixed size. [typed] says
    that all of them are within their widths and sizes, and that the DMA
    controller was never told to write more than the sample buffer holds; [⊢ m ∷ P] says that [m] keeps it so - in every state, under every
    environment whose events do, and however the run ends - and returns a
    value with [P]. The rules are syntax directed; the tactic [typing] follows
    them. *)
From S2P Require Import Prelude RingBuffer Machine Packed Endpoint Controller UsbSerial HorrorScope.

Definition dword (x : Z) : Prop := 0 ≤ x < 4294967296.

(** ** Well-typed machines *)

(** The 16-bit registers. *)
Definition wide (f : field) : bool :=
  match f with TRFCNT | CNT | PER | RES | CAL | EPPTR => true | _ => false end.
Definition in_reg (r : reg) (v : Z) : Prop := if wide r.2 then word16 v else byte v.

Record typed_ep (e : USB_EP_t) : Prop := {
  te_status : byte (EP_STATUS e); te_ctrl : byte (EP_CTRL e); te_cnt : word16 (EP_CNT e) }.
Record typed_hw (h : hw) : Prop := {
  th_rf r : in_reg r (rf h r);
  th_eps n d : typed_ep (eps h n d);
  th_frame : word16 (FrameNum h);
  th_bufs b : bytes (bufs h b);
  th_bufs_size b : Z.of_nat (length (bufs h b)) = fifo_size b;
  th_scope : bytes (scopeBuf h);
  th_scope_size : Z.of_nat (length (scopeBuf h)) = SCOPE_SIZE;
  th_host : bytes (host h) }.

Record typed_fifo (q : Endpoint_FIFO_t) : Prop := {
  tq_length : byte (FIFO_Length q); tq_position : byte (FIFO_Position q) }.
Record typed_request (r : USB_Request_Header_t) : Prop := {
  tr_type : byte (bmRequestType r); tr_request : byte (bRequest r);
  tr_value : word16 (wValue r); tr_index : word16 (wIndex r); tr_length : word16 (wLength r) }.
Record typed_line (l : CDC_LineEncoding_t) : Prop := {
  tl_baud : dword (BaudRateBPS l); tl_format : byte (CharFormat l);
  tl_parity : byte (ParityType l); tl_bits : byte (DataBits l) }.
Record typed_cdc (c : CDC_State_t) : Prop := {
  tc_host : word16 (HostToDevice c); tc_device : word16 (DeviceToHost c); tc_line : typed_line (LineEncoding c) }.
Record typed_ring (b : RingBuffer_t) : Prop := {
  tb_data : bytes (Data b); tb_size : length (Data b) = 5%nat; tb_count : word16 (Count b) }.
Record typed_fw (w : fw) : Prop := {
  tf_selected : byte (SelectedEndpoint w);
  tf_fifos n d : typed_fifo (FIFOs w n d);
  tf_state : byte (DeviceState w);
  tf_conf : byte (ConfigurationNumber w);
  tf_request : typed_request (ControlRequest w);
  tf_cdc : typed_cdc (CDC w);
  tf_send : byte (ok_to_send w);
  tf_ring : typed_ring (USBtoUSART_Buffer w) }.

Definition typed_event (e : event) : Prop :=
  match e with EvHw f | EvIRQ f => ∀ h, typed_hw h → typed_hw (f h) end.
(** The transfer count of the channel that fills the sample buffer. *)
Definition dma_fits (r : reg) (v : Z) : Prop := r = (DMA_CH0, TRFCNT) → v ≤ SCOPE_SIZE.
Definition typed_obs (o : obs) : Prop :=
  match o with
  | OStore r v => in_reg r v ∧ dma_fits r v
  | OPacket _ data => bytes data
  end.

Record typed (s : mach) : Prop := {
  ty_hw : typed_hw (hwst s);
  ty_fw : typed_fw (fwst s);
  ty_script : Forall typed_event (script s);
  ty_trace : Forall typed_obs (trace s) }.

(** ** Typed computations *)
Definition has_type {A} (m : M A) (P : A → Prop) : Prop := ∀ s, typed s →
  match m s with Ok a s' => P a ∧ typed s' | Blocked s' | Fault s' | Spin s' => typed s' end.
Notation "⊢ m ∷ P" := (has_type m P) (at level 74, m at level 73, P at level 73).
Abbreviation any := (λ _, True).

Section rules.
Context {A B : Type}.
Implicit Types (P : A → Prop) (Q : B → Prop).

Lemma ty_ret P a : P a → ⊢ mret a ∷ P.
Proof. by intros H s Hs. Qed.
Lemma ty_bind P Q m (k : A → M B) : ⊢ m ∷ P → (∀ a, P a → ⊢ k a ∷ Q) → ⊢ m ≫= k ∷ Q.
Proof.
  intros Hm Hk s Hs. specialize (Hm s Hs). unfold mbind, M_bind. destruct (m s); try done.
  destruct Hm. by apply Hk.
Qed.
Lemma ty_weaken P (P' : A → Prop) m : ⊢ m ∷ P → (∀ a, P a → P' a) → ⊢ m ∷ P'.
Proof. intros Hm H s Hs. specialize (Hm s Hs). destruct (m s); try done. destruct Hm; auto. Qed.
Lemma ty_any P m : ⊢ m ∷ P → ⊢ m ∷ any.
Proof. intros H. by apply (ty_weaken P). Qed.
Lemma ty_if P (b : bool) m m' : ⊢ m ∷ P → ⊢ m' ∷ P → ⊢ if b then m else m' ∷ P.
Proof. by destruct b. Qed.
Lemma ty_fault P : ⊢ @fault A ∷ P.
Proof. by intros s. Qed.
Lemma ty_spin P : ⊢ @spin A ∷ P.
Proof. by intros s. Qed.
Lemma ty_lift P o : (∀ a, o = Some a → P a) → ⊢ lift o ∷ P.
Proof. destruct o; intros H; [apply ty_ret; auto|apply ty_fault]. Qed.
Lemma ty_ended P o : (∀ a, o = Some a → P a) → ⊢ ended o ∷ P.
Proof. destruct o; intros H; [apply ty_ret; auto|apply ty_spin]. Qed.
Lemma ty_get_fw P (f : fw → A) : (∀ w, typed_fw w → P (f w)) → ⊢ get_fw f ∷ P.
Proof. intros H s Hs. split; [|done]. apply H, Hs. Qed.
Lemma ty_get_hw P (f : hw → A) : (∀ h, typed_hw h → P (f h)) → ⊢ get_hw f ∷ P.
Proof. intros H s Hs. split; [|done]. apply H, Hs. Qed.

(** Loops keep an invariant of their variables. *)
Lemma ty_iter (I : B → Prop) P n (body : B → M (B + A)) x : I x →
  (∀ x, I x → ⊢ body x ∷ λ r, match r with inl x' => I x' | inr a => P a end) → ⊢ iter n body x ∷ P.
Proof.
  intros Hx Hb s Hs. unfold iter. generalize (n + S (length (script s)))%nat as k. intros k.
  revert x s Hx Hs. induction k as [|k IH]; intros x s Hx Hs; cbn [itern]; [done|].
  specialize (Hb x Hx s Hs). unfold mbind, M_bind. destruct (body x s) as [[x'|a] s'| | |]; try done.
  - destruct Hb. by apply IH.
Qed.
End rules.

Lemma ty_mod_fw f : (∀ w, typed_fw w → typed_fw (f w)) → ⊢ mod_fw f ∷ any.
Proof. intros H s []. split; [done|]. split; cbn; auto. Qed.
Lemma ty_mod_hw f : (∀ h, typed_hw h → typed_hw (f h)) → ⊢ mod_hw f ∷ any.
Proof. intros H s []. split; [done|]. split; cbn; auto. Qed.
Lemma ty_emit o : typed_obs o → ⊢ emit o ∷ any.
Proof. intros H s []. split; [done|]. split; cbn; try done. by apply Forall_app_2; [|apply Forall_singleton]. Qed.
Lemma ty_when b m : ⊢ m ∷ any → ⊢ when b m ∷ any.
Proof. intros H. destruct b; [done|by apply ty_ret]. Qed.
Lemma ty_while c m : ⊢ c ∷ any → ⊢ m ∷ any → ⊢ while_ c m ∷ any.
Proof.
  intros Hc Hm. apply (ty_iter any); [done|]. intros _ _. apply (ty_bind any); [done|]. intros b _. destruct b.
  - apply (ty_bind any); [done|]. intros _ _. by apply ty_ret.
  - by apply ty_ret.
Qed.
Lemma ty_repeat n m : ⊢ m ∷ any → ⊢ repeat_ n m ∷ any.
Proof. intros H. induction n as [|n IH]; cbn; [by apply ty_ret|]. apply (ty_bind any); [done|]. by intros. Qed.

(** ** Widths of values *)
Create HintDb width.
Lemma byte_word x : byte x → word16 x.
Proof. unfold byte, word16. lia. Qed.
Lemma word_dword x : word16 x → dword x.
Proof. unfold word16, dword. lia. Qed.
Lemma u32_dword x : dword (u32 x).
Proof. apply Z.mod_pos_bound. lia. Qed.
Lemma word_lor x y : word16 x → word16 y → word16 (x .| y).
Proof. apply (lor_bound 16). lia. Qed.
Lemma dword_lor x y : dword x → dword y → dword (x .| y).
Proof. apply (lor_bound 32). lia. Qed.
Lemma byte_clr8 x m : byte x → byte m → byte (clr8 x m).
Proof. intros Hx Hm. apply (land_bound 8); [lia|done|]. apply byte_lxor; [by unfold byte|done]. Qed.
Lemma byte_land_r x m : byte m → 0 ≤ x → byte (x .& m).
Proof. rewrite Z.land_comm. apply byte_land. Qed.
Lemma word_shiftl x : byte x → word16 (x << 8).
Proof. unfold byte, word16. rewrite Z.shiftl_mul_pow2 by lia. change (2 ^ 8) with 256. lia. Qed.
Lemma byte_shiftr x : word16 x → byte (x >> 8).
Proof.
  unfold byte, word16. rewrite Z.shiftr_div_pow2 by lia. change (2 ^ 8) with 256. intros.
  split; [apply Z.div_pos; lia|apply Z.div_lt_upper_bound; lia].
Qed.
Lemma bytes_rd l i x : bytes l → rd l i = Some x → byte x.
Proof. intros Hl [_ Hx]%rd_Some. by apply (Forall_lookup_1 _ _ _ _ Hl Hx). Qed.
Lemma bytes_wr l i x l' : bytes l → byte x → wr l i x = Some l' → bytes l'.
Proof.
  unfold wr. intros Hl Hx E. case_match; simplify_eq. by apply Forall_insert.
Qed.

Lemma wr_length (l : list Z) i x l' : wr l i x = Some l' → length l' = length l.
Proof. unfold wr. intros E. case_match; simplify_eq. apply length_insert. Qed.

#[export] Hint Resolve u8_byte u16_word u32_dword byte_lor word_lor dword_lor byte_lxor byte_clr8 byte_land byte_land_r
  word_shiftl byte_shiftr byte_word word_dword : width.
#[export] Hint Resolve te_status te_ctrl te_cnt th_rf th_eps th_frame th_bufs th_scope tq_length tq_position tr_type tr_request
  tr_value tr_index tr_length tl_baud tl_format tl_parity tl_bits tc_host tc_device tc_line tb_data tb_count
  tf_selected tf_fifos tf_state tf_conf tf_request tf_cdc tf_send tf_ring : width.
Lemma typed_CDC_State h d l : word16 h → word16 d → typed_line l → typed_cdc (CDC_State h d l).
Proof. by split. Qed.
Lemma typed_LineEncoding b c p d : dword b → byte c → byte p → byte d → typed_line (CDC_LineEncoding b c p d).
Proof. by split. Qed.
Lemma typed_Header t q v i n : byte t → byte q → word16 v → word16 i → word16 n → typed_request (USB_Request_Header t q v i n).
Proof. by split. Qed.
#[export] Hint Resolve typed_CDC_State typed_LineEncoding typed_Header : width.
#[export] Hint Extern 1 (byte (Z.pos _)) => (split; [discriminate|reflexivity]) : width.
#[export] Hint Extern 1 (byte 0) => (split; [discriminate|reflexivity]) : width.
#[export] Hint Extern 1 (word16 (Z.pos _)) => (split; [discriminate|reflexivity]) : width.
#[export] Hint Extern 1 (word16 0) => (split; [discriminate|reflexivity]) : width.
#[export] Hint Extern 1 (dword 0) => (split; [discriminate|reflexivity]) : width.
#[export] Hint Extern 1 (0 ≤ Z.pos _) => discriminate : width.

(** Constants are closed, their width is computed. *)
Ltac constant := match goal with
  | |- byte ?x => split; [vm_compute; discriminate|vm_compute; reflexivity]
  | |- word16 ?x => split; [vm_compute; discriminate|vm_compute; reflexivity]
  | |- dword ?x => split; [vm_compute; discriminate|vm_compute; reflexivity]
  | |- 0 ≤ ?x => vm_compute; discriminate
  end.
#[export] Hint Extern 2 => constant : width.
#[export] Hint Extern 1 (byte (if ?b then _ else _)) => destruct b : width.
Ltac width := cbn beta iota; try exact I; eauto 7 with width.

(** The rules, one construct at a time; calls are typed by the lemmas of the
    callees. *)
Create HintDb typing.
#[export] Hint Resolve ty_fault ty_spin : typing.
Ltac typing_call := first [eassumption | solve [eauto 3 with typing] | eapply ty_any; solve [eauto 3 with typing]].
Ltac typing_step := match goal with
  | |- ⊢ mret _ ∷ _ => apply ty_ret
  | |- ⊢ _ ≫= _ ∷ _ => first [eapply ty_bind; [typing_call|cbn beta; intros ? ?] | eapply (ty_bind any); [|cbn beta; intros ? ?]]
  | |- ⊢ (if _ then _ else _) ∷ _ => apply ty_if
  | |- ⊢ when _ _ ∷ _ => apply ty_when
  | |- ⊢ while_ _ _ ∷ _ => apply ty_while
  | |- ⊢ repeat_ _ _ ∷ _ => apply ty_repeat
  | |- ⊢ (let _ := _ in _) ∷ _ => cbv zeta
  | |- ⊢ _ ∷ _ => first [typing_call | eapply ty_weaken; [typing_call|]]
  end.
Ltac typing := repeat typing_step; width.
Ltac typing_of f := intros; unfold f; typing.

(** ** Registers *)
Lemma in_reg_byte r v : byte v → in_reg r v.
Proof. unfold in_reg. destruct (wide r.2); auto with width. Qed.
Lemma typed_store h r v : typed_hw h → in_reg r v → typed_hw (set_rf (upd (rf h) r v) h).
Proof. intros [] Hv. split; cbn; try done. intros r'. unfold upd. case_decide; [by subst|done]. Qed.

Lemma ty_ld r : ⊢ ld r ∷ in_reg r.
Proof. apply ty_get_hw. intros h Hh. apply Hh. Qed.
Lemma ty_ld8 p f : wide f = false → ⊢ ld (p, f) ∷ byte.
Proof. intros E. eapply ty_weaken; [apply ty_ld|]. intros v. unfold in_reg. cbn. by rewrite E. Qed.
Lemma typed_store_byte r v : byte v → typed_obs (OStore r v).
Proof. intros Hv. split; [by apply in_reg_byte|]. intros _. change SCOPE_SIZE with 3584. unfold byte in Hv. lia. Qed.
Lemma ty_st8 r v : ⊢ (r ::= v) ∷ any.
Proof.
  eapply ty_bind; [apply ty_mod_hw|intros _ _; apply ty_emit, typed_store_byte, u8_byte].
  intros h Hh. apply typed_store; [done|]. apply in_reg_byte, u8_byte.
Qed.
Lemma ty_st16 p f v : wide f = true → dma_fits (p, f) (u16 v) → ⊢ st16 (p, f) v ∷ any.
Proof.
  intros E Hv. assert (in_reg (p, f) (u16 v)) by (unfold in_reg; cbn; rewrite E; apply u16_word).
  eapply ty_bind; [apply ty_mod_hw|intros _ _; by apply ty_emit]. intros h Hh. by apply typed_store.
Qed.
Lemma ty_w1c p f v : wide f = false → ⊢ st_w1c (p, f) v ∷ any.
Proof.
  intros E. eapply ty_bind; [apply ty_mod_hw|intros _ _; apply ty_emit, typed_store_byte, u8_byte].
  intros h Hh. apply typed_store; [done|]. apply in_reg_byte, byte_clr8; [|apply u8_byte].
  pose proof (th_rf h Hh (p, f)) as H. unfold in_reg in H. cbn in H. by rewrite E in H.
Qed.
#[export] Hint Resolve ty_ld8 ty_st8 ty_st16 ty_w1c : typing.
Lemma ty_setbits r m : ⊢ setbits r m ∷ any.
Proof. eapply ty_bind; [apply ty_ld|]. intros v _. apply ty_st8. Qed.
Lemma ty_clrbits r m : ⊢ clrbits r m ∷ any.
Proof. eapply ty_bind; [apply ty_ld|]. intros v _. apply ty_st8. Qed.
#[export] Hint Resolve ty_setbits ty_clrbits : typing.
#[export] Hint Extern 0 (wide _ = _) => reflexivity : typing.
#[export] Hint Extern 0 (dma_fits _ _) => (intros ?; discriminate) : typing.

(** ** Variables *)
Lemma ty_flag {A} (f : fw → A) : ⊢ get_fw f ∷ any.
Proof. by apply ty_get_fw. Qed.
Lemma ty_selected : ⊢ get_fw SelectedEndpoint ∷ byte.
Proof. apply ty_get_fw. auto with width. Qed.
Lemma ty_state : ⊢ get_fw DeviceState ∷ byte.
Proof. apply ty_get_fw. auto with width. Qed.
Lemma ty_conf : ⊢ get_fw ConfigurationNumber ∷ byte.
Proof. apply ty_get_fw. auto with width. Qed.
Lemma ty_request : ⊢ get_fw ControlRequest ∷ typed_request.
Proof. apply ty_get_fw. auto with width. Qed.
Lemma ty_ring : ⊢ get_fw USBtoUSART_Buffer ∷ typed_ring.
Proof. apply ty_get_fw. auto with width. Qed.
Lemma ty_line : ⊢ get_fw (λ w, LineEncoding (CDC w)) ∷ typed_line.
Proof. apply ty_get_fw. auto with width. Qed.
Lemma ty_get_cdc : ⊢ get_fw CDC ∷ typed_cdc.
Proof. apply ty_get_fw. auto with width. Qed.
Lemma ty_buf b : ⊢ get_hw (λ h, bufs h b) ∷ bytes.
Proof. apply ty_get_hw. auto with width. Qed.
Lemma ty_samples : ⊢ get_hw scopeBuf ∷ bytes.
Proof. apply ty_get_hw. auto with width. Qed.
Lemma ty_frame_number : ⊢ USB_Device_GetFrameNumber ∷ word16.
Proof. apply ty_get_hw. auto with width. Qed.
#[export] Hint Resolve ty_selected ty_state ty_conf ty_request ty_ring ty_line ty_get_cdc ty_buf ty_samples ty_frame_number : typing.
#[export] Hint Resolve ty_flag | 9 : typing.

Ltac typed_record := let w := fresh "w" in let H := fresh "H" in
  apply ty_mod_fw; intros w H; destruct H; split; cbn; width.
#[export] Hint Extern 2 (⊢ mod_fw _ ∷ _) => solve [typed_record] : typing.
Lemma ty_cli : ⊢ cli ∷ any.
Proof. typing_of cli. Qed.
Lemma ty_sei : ⊢ sei ∷ any.
Proof. typing_of sei. Qed.
#[export] Hint Resolve ty_cli ty_sei : typing.
