(* ===== verification/TypingUsb.v ===== *)
(** * Widths in the USB stack

    Every function of LUFA's device stack and of usb_serial.c keeps the
    machine well typed. *)
From S2P Require Import Prelude RingBuffer Machine Endpoint Controller EndpointPoll EndpointStream Cdc Descriptors StdReq UsbSerial Typing.

(** ** Endpoints *)
Lemma ty_get_handle {A} P (f : USB_EP_t → A) : (∀ e, typed_ep e → P (f e)) → ⊢ get_handle f ∷ P.
Proof.
  intros H. unfold get_handle. eapply ty_bind; [apply ty_flag|]. intros p _. apply ty_if; [|apply ty_fault].
  apply ty_get_hw. intros h Hh. apply H, Hh.
Qed.
Lemma ty_mod_handle f : (∀ e, typed_ep e → typed_ep (f e)) → ⊢ mod_handle f ∷ any.
Proof.
  intros H. unfold mod_handle. eapply ty_bind; [apply ty_flag|]. intros p _. apply ty_if; [|apply ty_fault].
  apply ty_mod_hw. intros h []. split; cbn; try done. intros n d. unfold upd2. case_decide; auto.
Qed.
Lemma ty_get_fifo {A} P (f : Endpoint_FIFO_t → A) : (∀ q, typed_fifo q → P (f q)) → ⊢ get_fifo f ∷ P.
Proof.
  intros H. unfold get_fifo. eapply ty_bind; [apply ty_flag|]. intros p _. apply ty_if; [|apply ty_fault].
  apply ty_get_fw. intros w Hw. apply H, Hw.
Qed.
Lemma ty_mod_fifo f : (∀ q, typed_fifo q → typed_fifo (f q)) → ⊢ mod_fifo f ∷ any.
Proof.
  intros H. unfold mod_fifo. eapply ty_bind; [apply ty_flag|]. intros p _. apply ty_if; [|apply ty_fault].
  apply ty_mod_fw. intros w []. split; cbn; try done. intros n d. unfold upd2. case_decide; auto.
Qed.

Lemma ty_status : ⊢ get_handle EP_STATUS ∷ byte.
Proof. apply ty_get_handle. auto with width. Qed.
Lemma ty_ctrl : ⊢ get_handle EP_CTRL ∷ byte.
Proof. apply ty_get_handle. auto with width. Qed.
Lemma ty_cnt : ⊢ get_handle EP_CNT ∷ word16.
Proof. apply ty_get_handle. auto with width. Qed.
Lemma ty_position : ⊢ get_fifo FIFO_Position ∷ byte.
Proof. apply ty_get_fifo. auto with width. Qed.
Lemma ty_fifo : ⊢ get_fifo (λ q, q) ∷ typed_fifo.
Proof. by apply ty_get_fifo. Qed.
Lemma ty_fifo_any {A} (f : Endpoint_FIFO_t → A) : ⊢ get_fifo f ∷ any.
Proof. by apply ty_get_fifo. Qed.
#[export] Hint Resolve ty_status ty_ctrl ty_cnt ty_position ty_fifo : typing.
#[export] Hint Resolve ty_fifo_any | 8 : typing.
Ltac typed_entry := intros ? []; split; cbn; width.
#[export] Hint Extern 2 (⊢ mod_handle _ ∷ _) => (apply ty_mod_handle; solve [typed_entry]) : typing.
#[export] Hint Extern 2 (⊢ mod_fifo _ ∷ _) => (apply ty_mod_fifo; solve [typed_entry]) : typing.

Lemma ty_select a : byte a → ⊢ Endpoint_SelectEndpoint a ∷ any.
Proof. typing_of Endpoint_SelectEndpoint. Qed.
#[export] Hint Extern 2 (⊢ Endpoint_SelectEndpoint _ ∷ _) => (apply ty_select; solve [width]) : typing.

Lemma epsize_byte n b m c r : byte m → epsize_loop n b m c = Some r → byte r.
Proof.
  revert m c. induction n as [|n IH]; intros m c Hm; cbn; destruct (c <? b); intros E; simplify_eq; try done.
  eapply IH; [|exact E]. apply u8_byte.
Qed.
Lemma ty_configure_prv a c n : byte a → byte c → byte n → ⊢ Endpoint_ConfigureEndpoint_PRV a c n ∷ any.
Proof.
  intros. unfold Endpoint_ConfigureEndpoint_PRV.
  assert (∀ x y, byte x → byte y → byte (if tst a ENDPOINT_DIR_IN then x else y)) by (by intros; destruct (tst _ _)).
  typing.
Qed.
Lemma ty_configure a t n b : byte a → ⊢ Endpoint_ConfigureEndpoint a t n b ∷ any.
Proof.
  intros Ha. unfold Endpoint_ConfigureEndpoint. eapply (ty_bind byte).
  { apply ty_ended. unfold Endpoint_BytesToEPSizeMask. intros m E.
    destruct (epsize_loop _ _ _ _); simplify_eq/=. apply u8_byte. }
  intros m Hm. cbv zeta. apply ty_if; [by apply ty_ret|]. apply ty_if; [by apply ty_ret|].
  set (c := if t =? EP_TYPE_CONTROL then _ else _). assert (byte c) as Hc.
  { unfold c. repeat case_match; repeat apply byte_lor || apply byte_clr8; width. }
  clearbody c. eapply (ty_bind any); [apply ty_when; eapply (ty_bind any); [|by intros; apply ty_ret]|intros _ _];
    apply ty_configure_prv; width.
Qed.
#[export] Hint Extern 2 (⊢ Endpoint_ConfigureEndpoint _ _ _ _ ∷ _) => (apply ty_configure; solve [width]) : typing.
Lemma ty_configure_table l : Forall (λ t, byte (T_Address t)) l → ⊢ Endpoint_ConfigureEndpointTable l ∷ any.
Proof.
  induction 1 as [|t l Ht Hl IH]; cbn; [by apply ty_ret|]. apply ty_if; [done|].
  eapply (ty_bind any); [by apply ty_configure|]. intros ok _. apply ty_if; [done|by apply ty_ret].
Qed.
Lemma ty_clear_endpoints : ⊢ Endpoint_ClearEndpoints ∷ any.
Proof.
  apply ty_mod_hw. intros h []. split; cbn; try done. intros n d. specialize (th_eps n d).
  destruct (_ && _); [|done]. destruct th_eps. by split; cbn; width.
Qed.
#[export] Hint Resolve ty_clear_endpoints : typing.

Lemma ty_ClearSETUP : ⊢ Endpoint_ClearSETUP ∷ any.
Proof. typing_of Endpoint_ClearSETUP. Qed.
Lemma ty_ClearIN : ⊢ Endpoint_ClearIN ∷ any.
Proof.
  unfold Endpoint_ClearIN. eapply (ty_bind bytes).
  { intros s Hs. split; [|done]. unfold pending_packet. case_match; [|constructor]. apply Forall_take, Hs. }
  intros pkt Hp. eapply (ty_bind any); [apply ty_flag|]. intros p _. typing. apply ty_emit. done.
Qed.
Lemma ty_ClearOUT : ⊢ Endpoint_ClearOUT ∷ any.
Proof. typing_of Endpoint_ClearOUT. Qed.
Lemma ty_Stall : ⊢ Endpoint_StallTransaction ∷ any.
Proof. typing_of Endpoint_StallTransaction. Qed.
Lemma ty_ClearStall : ⊢ Endpoint_ClearStall ∷ any.
Proof. typing_of Endpoint_ClearStall. Qed.
Lemma ty_IsStalled : ⊢ Endpoint_IsStalled ∷ any.
Proof. typing_of Endpoint_IsStalled. Qed.
Lemma ty_IsEnabled : ⊢ Endpoint_IsEnabled ∷ any.
Proof. typing_of Endpoint_IsEnabled. Qed.
Lemma ty_ResetDataToggle : ⊢ Endpoint_ResetDataToggle ∷ any.
Proof. typing_of Endpoint_ResetDataToggle. Qed.
Lemma ty_ResetEndpoint a : ⊢ Endpoint_ResetEndpoint a ∷ any.
Proof.
  unfold Endpoint_ResetEndpoint. cbv zeta. apply ty_if; [|apply ty_fault]. apply ty_mod_fw. intros w [].
  split; cbn; try done. intros n d. unfold upd2. case_decide; [|done]. split; cbn; [apply tf_fifos|width].
Qed.
Lemma ty_direction : ⊢ Endpoint_GetEndpointDirection ∷ any.
Proof. typing_of Endpoint_GetEndpointDirection. Qed.
Lemma ty_current : ⊢ Endpoint_GetCurrentEndpoint ∷ byte.
Proof. typing_of Endpoint_GetCurrentEndpoint. Qed.
Lemma ty_BytesIn : ⊢ Endpoint_BytesInEndpoint ∷ word16.
Proof.
  unfold Endpoint_BytesInEndpoint. eapply ty_bind; [apply ty_selected|]. intros a _. apply ty_if.
  - eapply ty_weaken; [apply ty_position|apply byte_word].
  - apply ty_get_fifo. intros. apply u16_word.
Qed.
Lemma ty_allowed : ⊢ Endpoint_IsReadWriteAllowed ∷ any.
Proof. apply ty_fifo_any. Qed.
#[export] Hint Resolve ty_ClearSETUP ty_ClearIN ty_ClearOUT ty_Stall ty_ClearStall ty_IsStalled ty_IsEnabled
  ty_ResetDataToggle ty_ResetEndpoint ty_direction ty_current ty_BytesIn ty_allowed : typing.

Lemma ty_lift_any {A} (o : option A) : ⊢ lift o ∷ any.
Proof. by apply ty_lift. Qed.
Lemma ty_rd l i : bytes l → ⊢ lift (rd l i) ∷ byte.
Proof. intros Hl. apply ty_lift. intros x. by apply bytes_rd. Qed.
Lemma ty_Read_8 : ⊢ Endpoint_Read_8 ∷ byte.
Proof.
  unfold Endpoint_Read_8. eapply ty_bind; [apply ty_fifo|]. intros q Hq. eapply ty_bind; [apply ty_lift_any|]. intros b _.
  eapply ty_bind; [apply ty_buf|]. intros l Hl. eapply ty_bind; [by apply ty_rd|]. intros x Hx. typing.
Qed.
Lemma ty_Write_8 x : ⊢ Endpoint_Write_8 x ∷ any.
Proof.
  unfold Endpoint_Write_8. eapply ty_bind; [apply ty_fifo|]. intros q Hq. eapply ty_bind; [apply ty_lift_any|]. intros b _.
  eapply (ty_bind (λ l, bytes l ∧ Z.of_nat (length l) = fifo_size b)); [apply ty_get_hw; intros h []; auto|].
  intros l [Hl Hn]. eapply (ty_bind (λ l, bytes l ∧ Z.of_nat (length l) = fifo_size b)).
  { apply ty_lift. intros l' E. split; [|by erewrite wr_length]. eapply bytes_wr; [exact Hl|apply (u8_byte x)|exact E]. }
  intros l' [Hl' Hn']. eapply (ty_bind any).
  { apply ty_mod_hw. intros h []. split; cbn; try done; intros b'; unfold upd; by case_decide; subst. }
  intros _ _. typing.
Qed.
#[export] Hint Resolve ty_Read_8 ty_Write_8 : typing.
Lemma ty_Read_32 : ⊢ Endpoint_Read_32_LE ∷ dword.
Proof. typing_of Endpoint_Read_32_LE. Qed.
Lemma ty_Write_16 x : ⊢ Endpoint_Write_16_LE x ∷ any.
Proof. typing_of Endpoint_Write_16_LE. Qed.
Lemma ty_Write_32 x : ⊢ Endpoint_Write_32_LE x ∷ any.
Proof. typing_of Endpoint_Write_32_LE. Qed.
#[export] Hint Resolve ty_Read_32 ty_Write_16 ty_Write_32 : typing.

(** ** The controller and the bus interrupt *)
Lemma ty_int_enable i : ⊢ USB_INT_Enable i ∷ any.
Proof. unfold USB_INT_Enable. destruct i; typing. Qed.
Lemma ty_int_clear i : ⊢ USB_INT_Clear i ∷ any.
Proof. unfold USB_INT_Clear. destruct i; typing. Qed.
Lemma ty_int_enabled i : ⊢ USB_INT_IsEnabled i ∷ any.
Proof. unfold USB_INT_IsEnabled. destruct i; typing. Qed.
Lemma ty_int_occurred i : ⊢ USB_INT_HasOccurred i ∷ any.
Proof. unfold USB_INT_HasOccurred. destruct i; typing. Qed.
#[export] Hint Resolve ty_int_enable ty_int_clear ty_int_enabled ty_int_occurred : typing.
Lemma ty_address_set : ⊢ USB_Device_IsAddressSet ∷ any.
Proof. typing_of USB_Device_IsAddressSet. Qed.
Lemma ty_enable_address a : ⊢ USB_Device_EnableDeviceAddress a ∷ any.
Proof. typing_of USB_Device_EnableDeviceAddress. Qed.
#[export] Hint Resolve ty_address_set ty_enable_address : typing.
Lemma ty_isr_sof : ⊢ ISR_SOF ∷ any.
Proof. unfold ISR_SOF, USB_Event_Stub. typing. Qed.
Lemma ty_isr_suspend : ⊢ ISR_Suspend ∷ any.
Proof. unfold ISR_Suspend, EVENT_USB_Device_Disconnect. typing. Qed.
Lemma ty_isr_resume : ⊢ ISR_Resume ∷ any.
Proof. unfold ISR_Resume, EVENT_USB_Device_Connect. typing. Qed.
Lemma ty_isr_reset : ⊢ ISR_Reset ∷ any.
Proof. unfold ISR_Reset, USB_Event_Stub. typing. Qed.
#[export] Hint Resolve ty_isr_sof ty_isr_suspend ty_isr_resume ty_isr_reset : typing.
Lemma ty_bus : ⊢ USB_BUSEVENT_vect ∷ any.
Proof. typing_of USB_BUSEVENT_vect. Qed.
(** The environment acts, and the interrupt may be taken. *)
Lemma ty_poll : ⊢ poll ∷ any.
Proof.
  intros s []. unfold poll. destruct (script s) as [|e es] eqn:Es; [split; [done..|by rewrite Es|done]|].
  apply Forall_cons in ty_script as [He Hes].
  assert (∀ f, (∀ h, typed_hw h → typed_hw (f h)) → typed (set_hwst (f (hwst s)) (set_script es s))) as Hs
    by (intros f Hf; split; cbn; auto).
  destruct e as [f|f]; [by split; [|apply Hs]|]. cbv zeta.
  destruct (IFlag _); [exact (ty_bus _ (Hs f He))|by split; [|apply Hs]].
Qed.
#[export] Hint Resolve ty_poll : typing.
Lemma ty_ldv p f : wide f = false → ⊢ ldv (p, f) ∷ byte.
Proof. typing_of ldv. Qed.
Lemma ty_state_volatile : ⊢ USB_DeviceState_volatile ∷ byte.
Proof. typing_of USB_DeviceState_volatile. Qed.
#[export] Hint Resolve ty_ldv ty_state_volatile : typing.

Lemma ty_IsINReady : ⊢ Endpoint_IsINReady ∷ any.
Proof. typing_of Endpoint_IsINReady. Qed.
Lemma ty_received f : ⊢ received f ∷ any.
Proof. typing_of received. Qed.
Lemma ty_IsOUT : ⊢ Endpoint_IsOUTReceived ∷ any.
Proof. apply ty_received. Qed.
Lemma ty_IsSETUP : ⊢ Endpoint_IsSETUPReceived ∷ any.
Proof. apply ty_received. Qed.
#[export] Hint Resolve ty_IsINReady ty_IsOUT ty_IsSETUP : typing.
Lemma ty_wait_attached c : ⊢ c ∷ any → ⊢ wait_attached c ∷ any.
Proof.
  intros Hc. unfold wait_attached. apply (ty_iter any); [done|]. intros _ _. typing. by case_match.
Qed.
#[export] Hint Resolve ty_wait_attached : typing.
Lemma ty_status_stage : ⊢ Endpoint_ClearStatusStage ∷ any.
Proof. typing_of Endpoint_ClearStatusStage. Qed.
#[export] Hint Resolve ty_status_stage : typing.
Lemma ty_ready : ⊢ Endpoint_WaitUntilReady ∷ byte.
Proof.
  unfold Endpoint_WaitUntilReady. eapply ty_bind; [apply ty_frame_number|]. intros f Hf.
  apply (ty_iter any); [done|]. intros [t p] _. unfold wait_ready_body.
  eapply ty_bind; [apply ty_direction|]. intros dir _. eapply (ty_bind any); [apply ty_if; typing|]. intros ready _.
  typing.
Qed.
#[export] Hint Resolve ty_ready : typing.

(** ** Streams *)
Section RW.
Context {B : Type} (good : B → Prop) (clear : M unit) (offset : Z → Z) (move : Z → Z → Z) (transfer : B → Z → M B).
Context (Hclear : ⊢ clear ∷ any) (Htransfer : ∀ b p, good b → ⊢ transfer b p ∷ good).
Definition typed_result (r : Z * B * option Z) : Prop :=
  byte r.1.1 ∧ good r.1.2 ∧ ∀ n, r.2 = Some n → word16 n.
Lemma ty_Template_RW b n p : good b → (∀ n, p = Some n → word16 n) →
  ⊢ Template_Endpoint_RW clear offset move transfer b n p ∷ typed_result.
Proof using Hclear Htransfer.
  intros Hb Hp. unfold Template_Endpoint_RW. eapply ty_bind; [apply ty_ready|]. intros e He. apply ty_if; [by apply ty_ret|].
  destruct (match p with Some _ => _ | None => _ end) as [len data].
  apply (ty_iter (λ v, good (rw_Buffer v))); [done|]. intros v Hv. unfold rw_body. apply ty_if; [by apply ty_ret|].
  eapply ty_bind; [apply ty_allowed|]. intros ok _. apply ty_if.
  - eapply ty_bind; [done|]. intros _ _. destruct p as [p|].
    + apply ty_ret. split; [width|]. split; [done|]. intros ? [= <-]. apply u16_word.
    + eapply ty_bind; [apply ty_ready|]. intros e' He'. apply ty_if; by apply ty_ret.
  - eapply ty_bind; [by apply Htransfer|]. intros b' Hb'. by apply ty_ret.
Qed.
End RW.
#[export] Hint Extern 1 (typed_result _ _) => (split; [width|split; [done|by intros]]) : width.

Lemma ty_Write_Stream buf n p : (∀ k, ⊢ buf k ∷ any) → (∀ m, p = Some m → word16 m) →
  ⊢ Endpoint_Write_Stream_LE buf n p ∷ typed_result any.
Proof.
  intros Hb Hp. apply ty_Template_RW; [apply ty_ClearIN| |done|done]. intros [] k _. unfold transfer_write. typing.
Qed.

Section ControlW.
Context (offset : Z → Z) (move : Z → Z → Z) (buf : Z → M Z) (Hbuf : ∀ k, ⊢ buf k ∷ any).
Lemma ty_fill_packet n d l b : ⊢ fill_packet move buf n d l b ∷ any.
Proof using Hbuf.
  revert d l b. induction n as [|n IH]; intros d l b; cbn [fill_packet]; (apply ty_if; [|by apply ty_ret]); typing.
Qed.
Lemma ty_Control_W n : ⊢ Template_Endpoint_Control_W offset move buf n ∷ any.
Proof using Hbuf.
  unfold Template_Endpoint_Control_W. cbv zeta. eapply ty_bind; [apply ty_selected|]. intros a Ha. typing.
  - apply (ty_iter any); [done|]. intros [[d l] full] _. unfold control_w_body. pose proof ty_fill_packet. typing.
    destruct a8 as [[]]. typing.
  - case_match; [by apply ty_ret|]. apply (ty_iter any); [done|]. intros [] _. unfold control_w_status. typing.
Qed.
End ControlW.

Lemma ty_Write_Control l n : ⊢ Endpoint_Write_Control_Stream_LE l n ∷ any.
Proof. refine (ty_Control_W _ _ _ (λ k, ty_lift_any _) n). Qed.
Lemma ty_Write_Control_P l n : ⊢ Endpoint_Write_Control_PStream_LE l n ∷ any.
Proof. refine (ty_Control_W _ _ _ (λ k, ty_lift_any _) n). Qed.
#[export] Hint Resolve ty_Write_Control ty_Write_Control_P : typing.

(** ** CDC *)
Lemma ty_line_state : ⊢ EVENT_CDC_Device_ControLineStateChanged ∷ any.
Proof. typing_of EVENT_CDC_Device_ControLineStateChanged. Qed.
#[export] Hint Resolve ty_line_state : typing.
Lemma ty_GetLineEncoding : ⊢ CDC_GetLineEncoding ∷ any.
Proof. typing_of CDC_GetLineEncoding. Qed.
Lemma ty_SetLineEncoding : ⊢ CDC_SetLineEncoding ∷ any.
Proof.
  unfold CDC_SetLineEncoding, EVENT_CDC_Device_LineEncodingChanged. typing.
Qed.
Lemma ty_SetControlLineState : ⊢ CDC_SetControlLineState ∷ any.
Proof. typing_of CDC_SetControlLineState. Qed.
Lemma ty_SendBreak : ⊢ CDC_SendBreak ∷ any.
Proof. unfold CDC_SendBreak, CDC_Device_Event_Stub. typing. Qed.
#[export] Hint Resolve ty_GetLineEncoding ty_SetLineEncoding ty_SetControlLineState ty_SendBreak : typing.
Lemma ty_cdc_request : ⊢ CDC_Device_ProcessControlRequest ∷ any.
Proof. typing_of CDC_Device_ProcessControlRequest. Qed.
#[local] Hint Extern 1 (⊢ Endpoint_ConfigureEndpointTable _ ∷ _) =>
  (apply ty_configure_table, Forall_singleton; solve [constant]) : typing.
Lemma ty_cdc_configure : ⊢ CDC_Device_ConfigureEndpoints ∷ any.
Proof. unfold CDC_Device_ConfigureEndpoints. typing. Qed.
#[export] Hint Resolve ty_cdc_request ty_cdc_configure : typing.
Lemma ty_inactive : ⊢ CDC_inactive ∷ any.
Proof. typing_of CDC_inactive. Qed.
#[export] Hint Resolve ty_inactive : typing.
Lemma ty_Flush : ⊢ CDC_Device_Flush ∷ any.
Proof. typing_of CDC_Device_Flush. Qed.
#[export] Hint Resolve ty_Flush : typing.
Lemma ty_cdc_task : ⊢ CDC_Device_USBTask ∷ any.
Proof. typing_of CDC_Device_USBTask. Qed.
Lemma ty_SendData buf n : (∀ k, ⊢ buf k ∷ any) → ⊢ CDC_Device_SendData buf n ∷ any.
Proof. intros Hb. pose proof (ty_Write_Stream buf n None Hb ltac:(done)). typing_of CDC_Device_SendData. Qed.
Lemma ty_SendByte x : ⊢ CDC_Device_SendByte x ∷ any.
Proof. typing_of CDC_Device_SendByte. Qed.
Lemma ty_ReceiveByte : ⊢ CDC_Device_ReceiveByte ∷ any.
Proof. typing_of CDC_Device_ReceiveByte. Qed.
#[export] Hint Resolve ty_cdc_task ty_SendByte ty_ReceiveByte : typing.

(** ** Control requests *)
Lemma ty_SetAddress : ⊢ USB_Device_SetAddress ∷ any.
Proof. unfold USB_Device_SetAddress, USB_Device_SetDeviceAddress. typing. Qed.
Lemma ty_SetConfiguration : ⊢ USB_Device_SetConfiguration ∷ any.
Proof. unfold USB_Device_SetConfiguration, EVENT_USB_Device_ConfigurationChanged. typing. Qed.
Lemma ty_GetConfiguration : ⊢ USB_Device_GetConfiguration ∷ any.
Proof. typing_of USB_Device_GetConfiguration. Qed.
Lemma ty_send_status x : ⊢ send_status x ∷ any.
Proof. typing_of send_status. Qed.
Lemma ty_feature_done : ⊢ feature_done ∷ any.
Proof. typing_of feature_done. Qed.
#[export] Hint Resolve ty_SetAddress ty_SetConfiguration ty_GetConfiguration ty_send_status ty_feature_done : typing.
Lemma ty_GetStatus : ⊢ USB_Device_GetStatus ∷ any.
Proof. typing_of USB_Device_GetStatus. Qed.
Lemma ty_ClearSetFeature : ⊢ USB_Device_ClearSetFeature ∷ any.
Proof. typing_of USB_Device_ClearSetFeature. Qed.
#[export] Hint Resolve ty_GetStatus ty_ClearSetFeature : typing.

Section WithPlatform.
Context {PL : Platform}.
Lemma ty_serial_loop n c a : ⊢ serial_loop n c a ∷ any.
Proof. revert c a. induction n as [|n IH]; intros c a; cbn [serial_loop]; unfold read_sig; typing. Qed.
Lemma ty_serial_string : ⊢ USB_Device_GetSerialString ∷ any.
Proof. pose proof ty_serial_loop. unfold USB_Device_GetSerialString. typing. Qed.
#[local] Hint Resolve ty_serial_string : typing.
Lemma ty_internal_serial : ⊢ USB_Device_GetInternalSerialDescriptor ∷ any.
Proof. unfold USB_Device_GetInternalSerialDescriptor. typing. Qed.
#[local] Hint Resolve ty_internal_serial : typing.
Lemma ty_GetDescriptor : ⊢ USB_Device_GetDescriptor ∷ any.
Proof. unfold USB_Device_GetDescriptor. typing. case_match. typing. Qed.
#[local] Hint Resolve ty_GetDescriptor : typing.
Lemma ty_standard : ⊢ standard_request ∷ any.
Proof. unfold standard_request. typing. Qed.
Lemma ty_read_header : ⊢ read_header ∷ any.
Proof.
  unfold read_header. typing. apply ty_mod_fw. intros w []. split; cbn; width.
  apply typed_Header; try apply word_lor; width.
Qed.
#[local] Hint Resolve ty_standard ty_read_header : typing.
Lemma ty_process : ⊢ USB_Device_ProcessControlRequest ∷ any.
Proof. unfold USB_Device_ProcessControlRequest, EVENT_USB_Device_ControlRequest. typing. Qed.
#[local] Hint Resolve ty_process : typing.
Lemma ty_task : ⊢ USB_USBTask ∷ any.
Proof. unfold USB_USBTask, USB_DeviceTask. typing. Qed.
#[local] Hint Resolve ty_task : typing.

(** ** The serial port *)
Lemma ty_init_device : ⊢ USB_Init_Device ∷ any.
Proof. unfold USB_Init_Device, USB_Attach, USB_Device_SetLowSpeed, USB_Device_SetFullSpeed. typing. Qed.
#[local] Hint Resolve ty_init_device : typing.
Lemma ty_reset_interface : ⊢ USB_ResetInterface ∷ any.
Proof.
  unfold USB_ResetInterface, USB_Device_SetDeviceAddress, USB_INT_DisableAllInterrupts, USB_INT_ClearAllInterrupts,
    USB_Controller_Reset.
  cbv zeta. eapply (ty_bind any); [by apply ty_ended|]. intros d _. typing.
Qed.
#[local] Hint Resolve ty_reset_interface : typing.
Lemma ty_usb_init : ⊢ USB_Init ∷ any.
Proof. unfold USB_Init, read_sig. typing. Qed.
#[local] Hint Resolve ty_usb_init : typing.
Lemma typed_InitBuffer d n : bytes d → length d = 5%nat → typed_ring (RingBuffer_InitBuffer d n).
Proof. intros. split; cbn; width. Qed.
Lemma ty_serial_init : ⊢ USB_serial_init ∷ any.
Proof.
  unfold USB_serial_init. eapply (ty_bind any).
  { apply ty_mod_fw. intros w []. split; cbn; try done. intros n d. case_match; [|done]. destruct (tf_fifos n d). by split. }
  intros _ _. eapply (ty_bind any); [apply ty_usb_init|]. intros _ _. apply ty_mod_fw. intros w Hw.
  pose proof (typed_InitBuffer _ 5 (tb_data _ (tf_ring _ Hw)) (tb_size _ (tf_ring _ Hw))). destruct Hw. by split.
Qed.

Lemma ty_may_send : ⊢ may_send ∷ any.
Proof. unfold may_send. typing. Qed.
#[local] Hint Resolve ty_may_send : typing.
Lemma ty_put_char x : ⊢ USB_serial_put_char x ∷ any.
Proof. unfold USB_serial_put_char. apply (ty_iter any); [done|]. intros b _. typing. Qed.
#[local] Hint Resolve ty_put_char : typing.
Lemma ty_put_buf buf n : (∀ k, ⊢ buf k ∷ any) → ⊢ USB_serial_put_buf buf n ∷ any.
Proof.
  intros Hb. unfold USB_serial_put_buf. apply (ty_iter any); [done|]. intros [off k] _. unfold put_buf_body.
  pose proof (λ n, ty_SendData (λ p, buf (off + p)) n (λ k, Hb _)). typing.
Qed.
Lemma ty_put_string l : ⊢ USB_serial_put_string_P_internal l ∷ any.
Proof. induction l as [|x l IH]; cbn [USB_serial_put_string_P_internal]; typing. Qed.

Lemma typed_Insert b x b' : typed_ring b → byte x → RingBuffer_Insert b x = Some b' → typed_ring b'.
Proof.
  intros [] Hx. unfold RingBuffer_Insert. intros E. destruct (wr _ _ _) eqn:Ew; simplify_eq/=.
  split; cbn; [by eapply bytes_wr|by erewrite wr_length|width].
Qed.
Lemma typed_Remove b x b' : typed_ring b → RingBuffer_Remove b = Some (x, b') → typed_ring b'.
Proof. intros [] E. unfold RingBuffer_Remove in E. destruct (rd _ _); simplify_eq/=. split; cbn; width. Qed.
Lemma ty_set_ring b : typed_ring b → ⊢ mod_fw (set_USBtoUSART_Buffer b) ∷ any.
Proof. intros. typed_record. Qed.
Lemma ty_insert b x : typed_ring b → byte x → ⊢ lift (RingBuffer_Insert b x) ∷ typed_ring.
Proof. intros. apply ty_lift. intros b'. by eapply typed_Insert. Qed.
#[local] Hint Resolve ty_insert ty_set_ring u8_byte : typing.
Lemma ty_get_char_body : ⊢ get_char_body tt ∷ any.
Proof. unfold get_char_body. typing. Qed.
Lemma ty_get_char : ⊢ USB_serial_get_char ∷ byte.
Proof.
  unfold USB_serial_get_char. eapply (ty_bind any).
  { apply (ty_iter any); [done|]. intros [] _. eapply ty_weaken; [apply ty_get_char_body|by intros [] ?]. }
  intros _ _. eapply ty_bind; [apply ty_ring|]. intros b Hb. eapply ty_bind; [apply ty_rd; width|]. intros x Hx.
  eapply (ty_bind (λ r, typed_ring r.2)).
  { apply ty_lift. intros [y b'] E. by eapply typed_Remove. }
  intros r Hr. eapply ty_bind; [by apply ty_set_ring|]. intros. by apply ty_ret.
Qed.
#[local] Hint Resolve ty_get_char : typing.
Lemma ty_get_short : ⊢ USB_serial_get_short ∷ word16.
Proof. unfold USB_serial_get_short. repeat typing_step. apply word_lor; width. Qed.
#[local] Hint Resolve ty_get_short : typing.
Lemma ty_get_long : ⊢ USB_serial_get_long ∷ dword.
Proof. unfold USB_serial_get_long. repeat typing_step. apply dword_lor; width. Qed.
End WithPlatform.
