(* ===== verification/TypingScope.v ===== *)
(** * Widths in the command loop

    The converter, the capture and glitch hardware, the hardware serial port
    and the commands keep the machine and the local variables of [main] well
    typed, over every serial port that does. *)
From S2P Require Import Prelude RingBuffer Machine Packed Endpoint Controller EndpointPoll UsbSerial Adc Capture Usart SerialPort HorrorScope Typing TypingUsb.

(** ** adc.c *)
Ltac typing_adc := unfold adc_calibrate, adc_enable, adc_intflags, adc_refsel, adc_bandgap, adc_sweep, adc_evsel, adc_evact,
  adc_prescaler, adc_ch_gain, adc_ch_inputmode, adc_ch_muxpos, adc_ch_muxneg, adc_ch_intlvl; typing.
Lemma ty_adc_init b : ⊢ adc_init b ∷ any.
Proof. unfold adc_init. typing_adc. Qed.
Lemma ty_calibrate x : ⊢ adc_calibrate x ∷ any.
Proof. typing_adc. Qed.
Lemma ty_gain x : ⊢ adc_ch_gain x ∷ any.
Proof. typing_adc. Qed.
Lemma ty_prescaler x : ⊢ adc_prescaler x ∷ any.
Proof. typing_adc. Qed.
Lemma ty_intlvl x : ⊢ adc_ch_intlvl x ∷ any.
Proof. typing_adc. Qed.
#[export] Hint Resolve ty_adc_init ty_calibrate ty_gain ty_prescaler ty_intlvl : typing.

(** ** dmaadc.c, trigger.c, hires_glitch.c *)
Section WithPlatform.
Context {PL : Platform}.
Lemma ty_dmaadc_init b : ⊢ dmaadc_init b ∷ any.
Proof. unfold dmaadc_init. typing. Qed.
Lemma ty_read_buf a n b : 0 ≤ n ≤ SCOPE_SIZE → ⊢ dmaadc_read_buf_ch0 a n b ∷ any.
Proof.
  intros Hn. unfold dmaadc_read_buf_ch0. assert (dma_fits (DMA_CH0, TRFCNT) (u16 n)) as Hfit.
  { intros _. change SCOPE_SIZE with 3584 in *. rewrite u16_small; [lia|]. unfold word16. lia. }
  eapply (ty_bind any); [apply ty_st8|]. intros _ _. eapply (ty_bind any); [by apply ty_st16|]. intros _ _. typing.
Qed.
Lemma ty_trigger_init : ⊢ trigger_init ∷ any.
Proof. unfold trigger_init. typing. Qed.
Lemma ty_trigger_wait t d : dword t → ⊢ trigger_wait t d ∷ byte.
Proof.
  intros Ht. unfold trigger_wait. repeat (eapply (ty_bind any); [solve [typing]|intros _ _]).
  eapply (ty_bind dword); [|intros; typing]. apply (ty_iter dword); [done|]. intros x Hx. unfold trigger_body. typing.
Qed.
End WithPlatform.
#[export] Hint Resolve ty_dmaadc_init ty_read_buf ty_trigger_init ty_trigger_wait : typing.
Lemma ty_hires_init : ⊢ hires_init ∷ any.
Proof. unfold hires_init. typing. Qed.
Lemma ty_hires_glitch : ⊢ hires_glitch ∷ any.
Proof. unfold hires_glitch, setflags, hires_stop_timer. typing. Qed.
Lemma ty_hires_counter x : ⊢ hires_set_counter x ∷ any.
Proof. unfold hires_set_counter. typing. Qed.
Lemma ty_hires_period x : ⊢ hires_set_period x ∷ any.
Proof. unfold hires_set_period. typing. Qed.
Lemma ty_hires_compare x : ⊢ hires_set_compare x ∷ any.
Proof. unfold hires_set_compare. typing. Qed.
#[export] Hint Resolve ty_hires_init ty_hires_glitch ty_hires_counter ty_hires_period ty_hires_compare : typing.

(** ** usartx.c *)
Lemma ty_usart_init u : ⊢ usart_init u ∷ any.
Proof. unfold usart_init. typing. Qed.
Lemma ty_usart_put u x : ⊢ usart_put_char u x ∷ any.
Proof. unfold usart_put_char. typing. Qed.
#[export] Hint Resolve ty_usart_init ty_usart_put : typing.
Lemma ty_usart_string u l : ⊢ usart_put_string_P_internal u l ∷ any.
Proof. induction l; cbn [usart_put_string_P_internal]; typing. Qed.
#[export] Hint Resolve ty_usart_string : typing.

(** ** HorrorScope.c *)
Record typed_locals (l : locals) : Prop := {
  tv_timeout : dword (timeout l); tv_delay : word16 (delay l); tv_samples : 0 ≤ numberOfSamples l ≤ SCOPE_SIZE;
  tv_glitch : byte (glitch_length l); tv_bits12 : 0 ≤ bits12 l < 2; tv_pulses : byte (pulses l) }.

(** What the commands ask of the serial port. *)
Class TypedPort (SP : SerialPort) : Prop := {
  tp_get_char : ⊢ sp_get_char ∷ byte;
  tp_get_short : ⊢ sp_get_short ∷ word16;
  tp_put_char x : ⊢ sp_put_char x ∷ any;
  tp_put_buf buf n : (∀ k, ⊢ buf k ∷ any) → ⊢ sp_put_buf buf n ∷ any;
  tp_put_string l : ⊢ sp_put_string_P l ∷ any }.
#[export] Instance usb_serial_typed `{Platform} : TypedPort usb_serial.
Proof.
  exact (Build_TypedPort usb_serial ty_get_char ty_get_short ty_put_char ty_put_buf ty_put_string).
Qed.

Lemma ty_memset c : byte c → ⊢ memset_scopeBuf c ∷ any.
Proof. intros. apply ty_mod_hw. intros h []. split; cbn; try done. by apply Forall_replicate. Qed.
Lemma ty_read_scopeBuf k : ⊢ read_scopeBuf k ∷ any.
Proof. eapply ty_bind; [apply ty_samples|]. intros l _. apply ty_lift_any. Qed.

Section Commands.
Context {PL : Platform}.
Lemma ty_clocks : ⊢ init_clocks ∷ any.
Proof. unfold init_clocks. typing. Qed.
Lemma ty_power : ⊢ init_power_reduction ∷ any.
Proof. unfold init_power_reduction. typing. Qed.
#[local] Hint Resolve ty_clocks ty_power ty_serial_init : typing.
Lemma ty_main_init : ⊢ main_init ∷ typed_locals.
Proof.
  assert (typed_locals locals_init) by (split; try constant; by vm_compute). unfold main_init. cbv zeta.
  eapply (ty_bind any); [apply ty_memset; constant|]. intros _ _. typing.
Qed.

Context {SP : SerialPort} {TP : TypedPort SP}.
#[local] Hint Resolve tp_get_char tp_get_short tp_put_char tp_put_string tv_timeout tv_samples : typing.
Lemma ty_put c : ⊢ put c ∷ any.
Proof using TP. apply tp_put_char. Qed.
#[local] Hint Resolve ty_put : typing.
Ltac command := cbv zeta; repeat typing_step; try done;
  match goal with H : typed_locals _ |- typed_locals _ => destruct H; split; cbn; width | _ => width end.
Lemma ty_cmd_d l : typed_locals l → ⊢ cmd_d l ∷ typed_locals.
Proof using TP. intros Hl. unfold cmd_d. eapply (ty_bind any); [apply ty_memset; constant|]. intros _ _. command. Qed.
Lemma ty_cmd_s l : typed_locals l → ⊢ cmd_s l ∷ typed_locals.
Proof using TP.
  intros Hl. unfold cmd_s. eapply (ty_bind any); [apply tp_put_buf, ty_read_scopeBuf|]. intros. by apply ty_ret.
Qed.
Lemma ty_cmd_n l : typed_locals l → ⊢ cmd_n l ∷ typed_locals.
Proof using TP.
  intros Hl. unfold cmd_n. eapply ty_bind; [apply tp_get_short|]. intros n Hn. unfold word16 in Hn.
  destruct (Z.gtb_spec n SCOPE_SIZE); command. lia.
Qed.
Lemma ty_cmd_8 l : typed_locals l → ⊢ cmd_8 l ∷ typed_locals.
Proof using TP.
  intros Hl. unfold cmd_8. eapply ty_bind; [apply tp_get_char|]. intros b [Hb _].
  assert (0 ≤ b .& 1 < 2) by (rewrite Z.land_comm; by apply (land_bound 1)). command.
Qed.
Lemma ty_dispatch c l : byte c → typed_locals l → ⊢ dispatch c l ∷ typed_locals.
Proof using TP.
  intros Hc Hl. unfold dispatch.
  repeat (apply ty_if; [first [by apply ty_cmd_d | by apply ty_cmd_s | by apply ty_cmd_n | by apply ty_cmd_8 |
    unfold cmd_T, cmd_g, cmd_c, cmd_b, cmd_f, cmd_h, cmd_w, cmd_l, cmd_e, cmd_p, cmd_x, cmd_y; command]|]).
  unfold cmd_invalid. command.
Qed.
Lemma ty_main_loop n l : typed_locals l → ⊢ main_loop n l ∷ typed_locals.
Proof using TP.
  revert l. induction n as [|n IH]; intros l Hl; cbn; [by apply ty_ret|].
  eapply (ty_bind typed_locals); [|by intros; apply IH]. eapply ty_bind; [apply tp_get_char|]. intros c Hc.
  by apply ty_dispatch.
Qed.
End Commands.

Lemma ty_main `{Platform} n : ⊢ main n ∷ typed_locals.
Proof. eapply ty_bind; [apply ty_main_init|]. intros l Hl. by apply ty_main_loop. Qed.
