(* ===== verification/TypingProps.v ===== *)
(** * Properties: widths

    The type of the whole firmware. *)
From S2P Require Import Prelude RingBuffer Machine Packed Endpoint Controller UsbSerial SerialPort HorrorScope Host Typing TypingUsb TypingScope.

(** C35: The firmware is well typed: from a machine whose registers, variables
    and arrays are within their widths and sizes, the program up to its [n]th
    command keeps them so, and its own local variables within theirs, whatever
    the environment does that respects them, and whether the run ends, waits,
    faults or spins. In particular every packet handed to the host consists of
    bytes, every value stored in a register fits it, and every transfer count
    stored in the DMA channel that fills the sample buffer is at most the size
    of that buffer. The count may be 0, which command [n] accepts and the
    controller reads as 65536 transfers: that no more than the buffer is
    written is not claimed. *)
Theorem firmware_well_typed `{Platform} n s : typed s →
  match main n s with
  | Ok l s' => typed_locals l ∧ typed s'
  | Blocked s' | Fault s' | Spin s' => typed s'
  end.
Proof. apply (ty_main n s). Qed.

(** A board whose oscillators start, whose DMA controller leaves its reset and
    whose transmitter is always ready. *)
Definition board (h : hw) : hw :=
  set_rf (upd (upd (upd (rf h) (OSC, STATUS) 0xFF) (DMA, CTRL) 0) (USARTC0, STATUS) 0x20) h.
Lemma board_typed : typed_event (EvHw board).
Proof.
  intros h Hh. do 3 (refine (typed_store (set_rf _ h) _ _ _ _); [|apply in_reg_byte; constant]). by destruct Hh; split.
Qed.
Definition demo_board : mach := set_script (replicate 80 (EvHw board)) (demo [110; 1; 2] 0).
Lemma demo_board_typed : typed demo_board.
Proof.
  split; [| |by apply Forall_replicate, board_typed|constructor].
  - split; cbn -[replicate]; try done.
    + intros r. by apply in_reg_byte.
    + intros b. by apply Forall_replicate.
    + intros b. by destruct b.
    + by apply Forall_replicate.
    + repeat (constructor; [constant|]). constructor.
  - split; cbn -[replicate]; try done; [|split; [by apply Forall_replicate|done..]].
    intros n d. destruct d; [|done]. unfold demo_fifos, fifo_memory. split; cbn; [|done].
    repeat (case_match; try done).
Qed.

Definition returns {A} (r : res A) : bool := match r with Ok _ _ => true | _ => false end.
Lemma returned {A} (r : res A) (P : A → mach → Prop) (Q : mach → Prop) : returns r = true →
  match r with Ok a s => P a s | Blocked s | Fault s | Spin s => Q s end → ∃ a s, r = Ok a s ∧ P a s.
Proof. destruct r; [eauto|done..]. Qed.

Lemma firmware_well_typed_witness : typed demo_board ∧
  ∃ l s', @main demo_platform 0 demo_board = Ok l s' ∧ typed_locals l ∧ typed s'.
Proof.
  split; [exact demo_board_typed|]. apply (returned _ (λ l s', typed_locals l ∧ typed s') typed).
  - vm_compute. reflexivity.
  - exact (@firmware_well_typed demo_platform 0 demo_board demo_board_typed).
Defined.
