(* ===== verification/ScopeProps.v ===== *)
(** * Properties of the command loop

    The theorems about HorrorScope.c as it is linked with usb_serial.c, for
    every environment of SerialSpec.v, each with an instance on the concrete
    host of Host.v. *)
From stdpp Require Import strings.
From S2P Require Import Prelude RingBuffer Machine Packed Endpoint Controller EndpointPoll EndpointStream Cdc Descriptors StdReq UsbSerial Adc Capture Logic SerialPort HorrorScope SerialSpec SerialLink HorrorSpec Host.

Section linked.
Context {PL : Platform}.

Lemma port_bytes s : port s → bytes (rx s).
Proof.
  intros []. unfold rx. apply Forall_app. by split.
Qed.

(** C1: From every state in which the USB serial link is up, and for as long as
    the environment keeps it up (no bus interrupt, no control transfer), any
    number of iterations of the command loop takes whole commands from the
    received bytes and sends exactly the replies that the protocol [reply]
    gives to them, in order; it never faults or loops without waiting, and the
    settings stay within their bounds (at most 3584 samples). The DMA
    controller may write any bytes into the sample buffer at any time, a fetch
    included: the reply to a fetch is [numberOfSamples] bytes, of which
    C3 says what they are. *)
Theorem main_loop_serves n l s : port s → settings_ok l → scope_ok s → Forall scope_event (script s) →
  wp (@main_loop PL usb_serial n l)
    (λ l' s', settings_ok l' ∧ port s' ∧ scope_ok s' ∧
       ∃ inp out, rx s = inp ++ rx s' ∧ payload (trace s') = payload (trace s) ++ out ∧ session l inp out l')
    (λ _, True) s.
Proof.
  intros Hp Hl Hsc Hk. eapply wp_mono; [| |apply (@main_loop_wp PL usb_serial usb_laws n l s Hp (port_bytes s Hp) Hl); by left]; [|done].
  intros l' s' (Hl' & k & inp & out & [] & Hs). split; [done|]. split; [done|]. split; [auto|].
  exists inp, out. done.
Qed.

(** The arguments a reply accounts for. *)
Lemma reply_nargs l c args out l' : reply l c args out l' → length args = nargs c.
Proof.
  destruct 1; try reflexivity.
  - by destruct H as [-> | ->].
  - unfold nargs. rewrite !bool_decide_eq_false_2; [done| |];
      (intros Hc; apply H0; revert Hc; cbn; rewrite !elem_of_cons, elem_of_nil; tauto).
Qed.

(** C2: A host that is never late gets the reply to every complete command
    that does not wait for the trigger, the DMA controller or the sample
    buffer: within 72 events the loop has taken exactly the command and its
    arguments and sent exactly its reply. *)
Theorem command_is_answered l s c args rest : port s → settings_ok l → Forall prompt_event (script s) →
  (72 ≤ length (script s))%nat → rx s = c :: args ++ rest → immediate c = true → length args = nargs c →
  ∃ l' s' out, @main_step PL usb_serial l s = Ok l' s' ∧ reply l c args out l' ∧ rx s' = rest ∧
    payload (trace s') = payload (trace s) ++ out ∧ (length (script s) ≤ 72 + length (script s'))%nat.
Proof.
  intros Hp Hl Ht Hlen Hrx Him Ha.
  assert (ready_input (rx s)) as Hready.
  { exists c, (args ++ rest). rewrite length_app. split_and!; [done|done|lia]. }
  pose proof (@main_step_wp PL usb_serial usb_laws l s Hp (port_bytes s Hp) Hl) as Hw.
  assert (head (rx s) ≠ Some (char "s")) as Hns.
  { rewrite Hrx. cbn. intros [= ->]. discriminate. }
  specialize (Hw (λ E, False_ind _ (Hns E))). unfold wp in Hw.
  destruct (main_step l s) as [l' s'|s'| |]; [|specialize (Hw Ht Hready); lia|done|done].
  destruct Hw as (k & c' & args' & out & [] & Hrep & _ & Hk). specialize (Hk Ht Hready).
  change (rx s = (c' :: args') ++ rx s') in rn_rx. rewrite Hrx in rn_rx. cbn in rn_rx. injection rn_rx as <- E.
  apply app_inj_1 in E as [<- ->]; [|by rewrite Ha, (reply_nargs _ _ _ _ _ Hrep)].
  exists l', s', out. split_and!; [done..|lia].
Qed.

(** C3: The sample fetch command sends [numberOfSamples] bytes in packets of at
    most 63 and nothing else, and a host that is never late has them after
    four events per packet. While the DMA controller still writes the sample
    buffer - in whatever way, described by a reflexive and transitive relation
    [R] on the contents of the buffer that keeps its size - each packet holds
    its part of the buffer as it is at one moment, later than the moment of
    the packet before it (in the model, in which the environment acts where the
    program polls and not while a packet is filled). When no event of the fetch writes the buffer, the
    bytes sent are the first [numberOfSamples] bytes of it. *)
Theorem fetch_sends_samples l s : port s → settings_ok l → scope_ok s →
  let n := Z.to_nat (numberOfSamples l) in
  (∀ R, PreOrder R → (∀ m, R (scopeBuf (hwst s)) m → samples_ok m) → Forall (moves R) (script s) →
   wp (@cmd_s usb_serial l)
    (λ l' s', l' = l ∧ port s' ∧ rx s' = rx s ∧
       ∃ ps, trace s' = trace s ++ map (OPacket 3) ps ∧ length (concat ps) = n ∧
         Forall (λ p, (0 < length p ≤ 63)%nat) ps ∧
         snapshots R (λ m i, m !!! i) (scopeBuf (hwst s)) 0 ps (scopeBuf (hwst s')))
    (λ _, Forall prompt_event (script s) → (length (script s) < 4 * npackets n)%nat) s) ∧
  (Forall keeps_scope (script s) →
   let data := take n (scopeBuf (hwst s)) in
   wp (@cmd_s usb_serial l)
    (λ l' s', l' = l ∧ port s' ∧ rx s' = rx s ∧ trace s' = trace s ++ map (OPacket 3) (packets data) ∧
       concat (packets data) = data ∧ Forall (λ p, (0 < length p ≤ 63)%nat) (packets data))
    (λ _, Forall prompt_event (script s) → (length (script s) < 4 * length (packets data))%nat) s).
Proof.
  intros Hp (_ & _ & Hn & _) Hs n.
  assert (numberOfSamples l = Z.of_nat n ∧ Z.of_nat n < 65536) as [E Hlt]
    by (change SCOPE_SIZE with 3584 in Hn; lia).
  unfold cmd_s. rewrite E. split.
  - intros R HR Hok Hk. apply wp_bind. assert (yields R read_scopeBuf (λ m i, m !!! i) (scopeBuf (hwst s)) n) as Hy
      by (apply read_scopeBuf_yields; [done|lia]).
    pose proof (put_buf_snapshots R _ _ n s Hp Hk Hy Hlt) as Hw. revert Hw. apply wp_mono; [|done].
    intros [] s' (Hp' & (ps & Hl & _ & Hpk & Hsn & Ht) & k & Ha & _). apply wp_ret.
    split_and!; [done|done|apply Ha|]. exists ps. split_and!; [done|done|rewrite <-Hpk; apply packets_size|done].
  - intros Hk. set (data := take n (scopeBuf (hwst s))). assert (length data = n) as Hl by (unfold data; rewrite length_take; destruct Hs; lia).
    assert (reads read_scopeBuf (scopeBuf (hwst s)) data) as Hrd by apply read_scopeBuf_reads.
    assert (bytes data) as Hbd by (apply Forall_take, Hs). clearbody data. rewrite <-Hl in *. apply wp_bind.
    pose proof (put_buf_sends read_scopeBuf data s Hp Hk Hrd Hbd Hlt) as Hw. revert Hw. apply wp_mono; [|done].
    intros [] s' (Hp' & Ht & k & Ha & _). apply wp_ret.
    split_and!; [done|done|apply Ha|done|apply packets_concat|apply packets_size].
Qed.
End linked.

(** A host as before, on a board whose DMA controller fills the buffer. *)
Definition sevens : list Z := replicate 3584 7.
Definition sampling_event : event := EvHw (λ h, set_scopeBuf sevens (host_takes (host_sends h))).

Lemma sampling_link : link_event sampling_event.
Proof.
  destruct host_link as (f & [= <-] & Hf). eexists. split; [done|]. intros h. by destruct (Hf h).
Qed.

Definition demo_sampling (inp : list Z) (n : nat) : mach := set_script (replicate n sampling_event) (demo inp 0).

Lemma demo_sampling_port inp n : bytes inp → port (demo_sampling inp n).
Proof. intros Hb. destruct (demo_port inp 0 Hb). split; try done. apply Forall_replicate, sampling_link. Qed.

(** The buffer is as it was, or filled. *)
Definition filled (m m' : list Z) : Prop := m' = m ∨ m' = sevens.
#[local] Instance filled_preorder : PreOrder filled.
Proof. split; [by left|]. intros m1 m2 m3 [->| ->] [->| ->]; unfold filled; auto. Qed.
Lemma samples_sevens : samples_ok sevens.
Proof. split; [done|]. by apply Forall_replicate. Qed.
Lemma sampling_fills : moves filled sampling_event.
Proof. intros f [= <-] h. by right. Qed.
Lemma sampling_any : scope_event sampling_event.
Proof. intros f [= <-] h _. exact samples_sevens. Qed.

Lemma demo_scope inp n : scope_ok (demo inp n).
Proof. split; [done|]. apply Forall_replicate. done. Qed.

Definition demo_fetch : mach := demo_sampling (chars "Ts") 40.

Lemma main_loop_serves_witness :
  wp (@main_loop demo_platform (@usb_serial demo_platform) 2 locals_init)
    (λ l' s', settings_ok l' ∧ port s' ∧ scope_ok s' ∧
       ∃ inp out, rx demo_fetch = inp ++ rx s' ∧ payload (trace s') = payload (trace demo_fetch) ++ out ∧
         session locals_init inp out l')
    (λ _, True) demo_fetch.
Proof.
  apply (@main_loop_serves demo_platform 2 locals_init demo_fetch).
  - apply demo_sampling_port. apply (bool_decide_unpack _). vm_compute. reflexivity.
  - apply settings_init.
  - exact (demo_scope (chars "Ts") 0).
  - apply Forall_replicate, sampling_any.
Defined.

Definition demo_n : mach := demo (chars "n" ++ [1; 2]) 80.

Lemma command_is_answered_witness :
  ∃ l' s' out, @main_step demo_platform (@usb_serial demo_platform) locals_init demo_n = Ok l' s' ∧
    reply locals_init (char "n") [1; 2] out l' ∧ rx s' = [] ∧
    payload (trace s') = payload (trace demo_n) ++ out ∧
    (length (script demo_n) ≤ 72 + length (script s'))%nat.
Proof.
  apply (@command_is_answered demo_platform locals_init demo_n (char "n") [1; 2] []).
  - apply demo_port. apply (bool_decide_unpack _). vm_compute. reflexivity.
  - apply settings_init.
  - apply demo_prompt.
  - apply Nat.leb_le. vm_compute. reflexivity.
  - reflexivity.
  - reflexivity.
  - reflexivity.
Defined.

Definition demo_data : list Z := replicate 3584 0.
Definition demo_busy : mach := demo_sampling [] 300.

Lemma fetch_sends_samples_witness :
  wp (@cmd_s (@usb_serial demo_platform) locals_init)
    (λ l' s', l' = locals_init ∧ port s' ∧ rx s' = rx demo_busy ∧
       ∃ ps, trace s' = trace demo_busy ++ map (OPacket 3) ps ∧ length (concat ps) = 3584%nat ∧
         Forall (λ p, (0 < length p ≤ 63)%nat) ps ∧
         snapshots filled (λ m i, m !!! i) (scopeBuf (hwst demo_busy)) 0 ps (scopeBuf (hwst s')))
    (λ _, Forall prompt_event (script demo_busy) → (length (script demo_busy) < 4 * npackets 3584)%nat) demo_busy ∧
  wp (@cmd_s (@usb_serial demo_platform) locals_init)
    (λ l' s', l' = locals_init ∧ port s' ∧ rx s' = rx (demo [] 300) ∧
       trace s' = trace (demo [] 300) ++ map (OPacket 3) (packets demo_data) ∧
       concat (packets demo_data) = demo_data ∧
       Forall (λ p, (0 < length p ≤ 63)%nat) (packets demo_data))
    (λ _, Forall prompt_event (script (demo [] 300)) → (length (script (demo [] 300)) < 4 * length (packets demo_data))%nat)
    (demo [] 300).
Proof.
  split.
  - apply (proj1 (@fetch_sends_samples demo_platform locals_init demo_busy
      (demo_sampling_port [] 300 (Forall_nil_2 _)) settings_init (demo_scope [] 0)) filled filled_preorder).
    + intros m [->| ->]; [exact (demo_scope [] 0)|exact samples_sevens].
    + apply Forall_replicate, sampling_fills.
  - apply (proj2 (@fetch_sends_samples demo_platform locals_init (demo [] 300)
      (demo_port [] 300 (Forall_nil_2 _)) settings_init (demo_scope [] 300))).
    apply demo_keeps.
Defined.
