(* ===== verification/SerialProps.v ===== *)
(** * Properties of the serial port

    The theorems about usb_serial.c, the endpoint streams and the ring buffer
    beneath it, each with an instance on the host of Host.v. *)
From S2P Require Import Prelude RingBuffer Machine Endpoint Controller EndpointPoll EndpointStream Cdc Descriptors StdReq Packed Printer UsbSerial Logic SerialPort HorrorScope SerialSpec SerialLink Host.

Section link.
Context {PL : Platform}.

(** C4: A host that is never late receives what is sent, completely and in
    order. A byte goes as one packet within three events. A buffer of any
    length below 64 KiB goes as packets of 1 to 63 bytes on endpoint 3 whose
    concatenation is the buffer, after at most four events per packet. The
    bytes still to be received are not disturbed. *)
Theorem bytes_delivered s : port s → Forall prompt_event (script s) →
  (∀ c, (3 ≤ length (script s))%nat →
   ∃ s', USB_serial_put_char c s = Ok tt s' ∧ port s' ∧ rx s' = rx s ∧ trace s' = trace s ++ [OPacket 3 [u8 c]]) ∧
  (∀ buff data, Forall keeps_scope (script s) → reads buff (scopeBuf (hwst s)) data → bytes data →
   Z.of_nat (length data) < 65536 → (4 * length (packets data) ≤ length (script s))%nat →
   ∃ s', USB_serial_put_buf buff (Z.of_nat (length data)) s = Ok tt s' ∧ port s' ∧ rx s' = rx s ∧
     trace s' = trace s ++ map (OPacket 3) (packets data) ∧ concat (packets data) = data ∧
     Forall (λ p, (0 < length p ≤ 63)%nat) (packets data) ∧
     (length (script s) ≤ 4 * length (packets data) + length (script s'))%nat).
Proof.
  intros Hp Ht. split.
  - intros c Hn.
    destruct (wp_total _ _ _ _ (put_char_sends c s Hp)) as ([] & s' & E & Hp' & Htr & k & Ha & Hle).
    { intros Hs. specialize (Hs Ht). lia. }
    exists s'. split_and!; [done|done|apply Ha|done].
  - intros buff data Hk Hrd Hb Hl Hn.
    destruct (wp_total _ _ _ _ (put_buf_sends buff data s Hp Hk Hrd Hb Hl)) as ([] & s' & E & Hp' & Htr & k & Ha & Hle).
    { intros Hs. specialize (Hs Ht). lia. }
    exists s'. specialize (Hle Ht). pose proof (af_len _ _ _ Ha).
    split_and!; [done|done|apply Ha|done|apply packets_concat|apply packets_size|lia].
Qed.

(** C5: Bytes are received as they were sent, whatever the packets in which a
    host that is never late sends them. [USB_serial_get_char] returns the
    first byte of the stream and leaves the rest of it, within eight events;
    [USB_serial_get_short] and [USB_serial_get_long] return the next two and
    four bytes as a big-endian number and take no other byte. The standard
    stream that [CDC_Device_CreateBlockingStream] makes yields the next byte
    that is not yet in the ring buffer, within four events. *)
Theorem bytes_received s : port s → Forall prompt_event (script s) →
  (∀ b l, rx s = b :: l → (8 ≤ length (script s))%nat →
   ∃ s', USB_serial_get_char s = Ok b s' ∧ port s' ∧ rx s' = l ∧ trace s' = trace s ∧
     (length (script s) ≤ 8 + length (script s'))%nat) ∧
  (∀ b1 b0 l, rx s = b1 :: b0 :: l → (16 ≤ length (script s))%nat →
   ∃ s', USB_serial_get_short s = Ok (b1 * 256 + b0) s' ∧ port s' ∧ rx s' = l ∧ trace s' = trace s) ∧
  (∀ b3 b2 b1 b0 l, rx s = b3 :: b2 :: b1 :: b0 :: l → (32 ≤ length (script s))%nat →
   ∃ s', USB_serial_get_long s = Ok (((b3 * 256 + b2) * 256 + b1) * 256 + b0) s' ∧ port s' ∧ rx s' = l ∧ trace s' = trace s) ∧
  (∀ b l, src s = b :: l → (4 ≤ length (script s))%nat →
   ∃ s', stream_get CDC_Device_CreateBlockingStream s = Ok b s' ∧ port s' ∧ src s' = l ∧ trace s' = trace s ∧
     (length (script s) ≤ 4 + length (script s'))%nat).
Proof.
  intros Hp Ht. split_and!.
  - intros b l Hrx Hn.
    destruct (wp_total _ _ _ _ (get_char_receives s Hp)) as (v & s' & E & Hp' & _ & Hv & k & [Htr He] & Hle).
    { intros Hs. specialize (Hs Ht). rewrite Hrx in Hs. specialize (Hs ltac:(done)). lia. }
    rewrite Hrx in Hv. injection Hv as <- Hl. specialize (Hle Ht). pose proof (el_len _ _ _ He).
    exists s'. split_and!; [done..|lia].
  - intros b1 b0 l Hrx Hn. pose proof (get_short_law s Hp) as Hw.
    apply (wp_total _ _ (recv_stuck rx prompt_event 2 16 s s)) in Hw as (v & s' & E & Hp' & Htr & (bs & Hbl & _ & Hr & ->) & _).
    + destruct bs as [|x [|y []]]; try done. rewrite Hrx in Hr. injection Hr as <- <- ?. by exists s'.
    + intros Hs. specialize (Hs Ht). rewrite Hrx in Hs. cbn in Hs. specialize (Hs ltac:(lia)). lia.
  - intros b3 b2 b1 b0 l Hrx Hn. pose proof (get_long_law s Hp) as Hw.
    apply (wp_total _ _ (recv_stuck rx prompt_event 4 32 s s)) in Hw as (v & s' & E & Hp' & Htr & (bs & Hbl & _ & Hr & ->) & _).
    + destruct bs as [|w [|x [|y [|z []]]]]; try done. rewrite Hrx in Hr. injection Hr as <- <- <- <- ?. by exists s'.
    + intros Hs. specialize (Hs Ht). rewrite Hrx in Hs. cbn in Hs. specialize (Hs ltac:(lia)). lia.
  - intros b l Hsrc Hn.
    destruct (wp_total _ _ _ _ (getchar_Blocking_receives s Hp)) as (v & s' & E & Hp' & _ & Hv & _ & k & [Htr He] & Hle).
    { intros Hs. specialize (Hs Ht). rewrite Hsrc in Hs. specialize (Hs ltac:(done)). lia. }
    rewrite Hsrc in Hv. injection Hv as <- Hl. specialize (Hle Ht). pose proof (el_len _ _ _ He).
    exists s'. split_and!; [by apply blocking_stream_get|done..|lia].
Qed.
End link.

(** ** Instances *)
Definition demo_hello : mach := demo [104; 105; 33] 20.
Lemma demo_hello_port : port demo_hello.
Proof. apply demo_port. apply (bool_decide_unpack _). vm_compute. reflexivity. Qed.

Lemma bytes_delivered_witness :
  (∃ s', @USB_serial_put_char demo_platform 300 demo_hello = Ok tt s' ∧ port s' ∧ rx s' = rx demo_hello ∧
    trace s' = trace demo_hello ++ [OPacket 3 [44]]) ∧
  (∃ s', @USB_serial_put_buf demo_platform (λ _, mret 7) 3 demo_hello = Ok tt s' ∧ port s' ∧ rx s' = rx demo_hello ∧
    trace s' = trace demo_hello ++ map (OPacket 3) (packets [7; 7; 7]) ∧ concat (packets [7; 7; 7]) = [7; 7; 7] ∧
    Forall (λ p, (0 < length p ≤ 63)%nat) (packets [7; 7; 7]) ∧
    (20 ≤ 4 * 1 + length (script s'))%nat).
Proof.
  destruct (@bytes_delivered demo_platform demo_hello demo_hello_port (demo_prompt _ _)) as [Hc Hb]. split.
  - apply (Hc 300). apply Nat.leb_le. vm_compute. reflexivity.
  - apply (Hb (λ _, mret 7) [7; 7; 7]).
    + apply demo_keeps.
    + intros [|[|[|i]]] x s _ Hx; cbn in Hx; simplify_eq; reflexivity.
    + apply (bool_decide_unpack _). vm_compute. reflexivity.
    + reflexivity.
    + apply Nat.leb_le. vm_compute. reflexivity.
Defined.

Lemma bytes_received_witness :
  (∃ s', @USB_serial_get_char demo_platform demo_hello = Ok 104 s' ∧ port s' ∧ rx s' = [105; 33] ∧
    trace s' = trace demo_hello ∧ (20 ≤ 8 + length (script s'))%nat) ∧
  (∃ s', @USB_serial_get_short demo_platform demo_hello = Ok 26729 s' ∧ port s' ∧ rx s' = [33] ∧
    trace s' = trace demo_hello) ∧
  (∃ s', stream_get (@CDC_Device_CreateBlockingStream demo_platform) demo_hello = Ok 104 s' ∧ port s' ∧ src s' = [105; 33] ∧
    trace s' = trace demo_hello ∧ (20 ≤ 4 + length (script s'))%nat).
Proof.
  destruct (@bytes_received demo_platform demo_hello demo_hello_port (demo_prompt _ _)) as (Hc & Hs & _ & Hf). split_and!.
  - apply Hc; [reflexivity|]. apply Nat.leb_le. vm_compute. reflexivity.
  - apply (Hs 104 105); [reflexivity|]. apply Nat.leb_le. vm_compute. reflexivity.
  - apply Hf; [reflexivity|]. apply Nat.leb_le. vm_compute. reflexivity.
Defined.
