(* ===== verification/UsbProps.v ===== *)
(** * Properties of the USB device stack

    The theorems about control requests, the bus interrupt, endpoint
    configuration and endpoint data, each with a concrete instance. *)
From S2P Require Import Prelude RingBuffer Machine Endpoint Controller EndpointPoll EndpointStream Cdc Descriptors StdReq UsbSerial Logic.
From S2P Require Import EndpointSpec EndpointData StdReqSpec ControlSpec DescriptorSpec FeatureSpec SerialPort SerialSpec Enumeration LineSpec Host.

(** A loop that ends in its first iteration. *)
Lemma iter_done {A X} (body : X → M (X + A)) x a s s' : body x s = Ok (inr a) s' → iter 0 body x s = Ok a s'.
Proof. intros E. unfold iter. cbn [Nat.add itern]. unfold mbind, M_bind. by rewrite E. Qed.

Section stack.
Context {PL : Platform}.

(** C9: Every control request that neither the CDC class nor the standard
    dispatch accepts is refused: the SETUP packet is acknowledged, both
    directions of the control endpoint are stalled, nothing is sent and the
    state of the device is unchanged, after exactly three looks at the
    endpoint. *)
Theorem unsupported_request_stalls r b s :
  setup_arrived r b s → accepts r = false → (3 ≤ length (script s))%nat →
  ∃ s', USB_Device_ProcessControlRequest s = Ok tt s' ∧ refused r s s' ∧
        (length (script s) = 3 + length (script s'))%nat.
Proof. apply ProcessControlRequest_refuses. Qed.


(** C11: SET_CONFIGURATION [n] configures the three endpoints of the serial
    port, resets the line encoding and records [n]; the device is then in the
    configured state, also for [n] = 0 when an address is set, where the
    addressed state would be due. GET_CONFIGURATION is answered with the
    recorded number in one packet and changes nothing. *)
Theorem configuration_requests s :
  (∀ n b, 0 ≤ n ≤ 1 → request_waits (set_configuration n) b s → (4 ≤ length (script s))%nat →
   ∃ s', USB_Device_ProcessControlRequest s = Ok tt s' ∧
     DeviceState (fwst s') =
       (if (n =? 0) && (rf (hwst s) (USB, ADDR) =? 0) then DEVICE_STATE_Powered else DEVICE_STATE_Configured) ∧
     ConfigurationNumber (fwst s') = n ∧
     serial_endpoints (eps (hwst s')) ∧ CDC (fwst s') = CDC_zero ∧
     trace s' = trace s ++ [OPacket 0 []]) ∧
  (∀ b b', read_request get_configuration b b' s →
   ∃ s', USB_Device_ProcessControlRequest s = Ok tt s' ∧
     trace s' = trace s ++ [OPacket 0 [u8 (ConfigurationNumber (fwst s))]] ∧
     core (fwst s') = core_with get_configuration (fwst s)).
Proof. split; [intros; by eapply SetConfiguration_spec|intros; by eapply GetConfiguration_spec]. Qed.

(** C13: The terminal's DTR line opens the port. SET_CONTROL_LINE_STATE is
    acknowledged and the port may send exactly while DTR is held. While it is
    not, or while the device is not configured, sending a byte or a buffer
    returns at once and has no effect, for every state of the machine and
    every environment. *)
Theorem control_line_gates_port s :
  (∀ v b, request_waits (set_control_line_state v) b s → (4 ≤ length (script s))%nat →
   ∃ s', USB_Device_ProcessControlRequest s = Ok tt s' ∧
     ok_to_send (fwst s') = (if tst v CDC_CONTROL_LINE_OUT_DTR then 1 else 0) ∧
     CDC (fwst s') = set_HostToDevice v (CDC (fwst s)) ∧
     trace s' = trace s ++ [OPacket 0 []] ∧
     DeviceState (fwst s') = DeviceState (fwst s)) ∧
  (DeviceState (fwst s) ≠ DEVICE_STATE_Configured ∨ ok_to_send (fwst s) = 0 →
   ∀ c buff n, USB_serial_put_char c s = Ok tt s ∧ USB_serial_put_buf buff n s = Ok tt s).
Proof.
  split; [intros; by eapply SetControlLineState_spec|]. intros Hd c buff n.
  assert (may_send s = Ok false s) as E.
  { unfold may_send, get_fw, gets, mbind, M_bind, mret, M_ret. f_equal.
    destruct Hd as [Hd|Hd]; [by rewrite (proj2 (Z.eqb_neq _ _) Hd)|rewrite Hd; apply andb_false_r]. }
  split; apply iter_done; unfold put_buf_body, mbind, M_bind; by rewrite E.
Qed.

(** C30: SET_FEATURE and CLEAR_FEATURE halt and release the OUT half of the
    endpoint whose number the request names, whichever direction its address
    names: the address 0x83 of an IN endpoint halts OUT endpoint 3. Nothing
    else of the endpoint table changes, the request is acknowledged.
    GET_STATUS reports in one packet whether the OUT half is halted. *)
Theorem endpoint_halt_requests a s (k := u8 a .& 15) : data_endpoint k →
  (∀ set b, EP_CTRL (eps (hwst s) k false) .& USB_EP_TYPE_gm ≠ USB_EP_TYPE_CONTROL_gc →
   request_waits (halt_request set a) b s → Forall quiet_event (script s) → (4 ≤ length (script s))%nat →
   ∃ s', USB_Device_ProcessControlRequest s = Ok tt s' ∧ trace s' = trace s ++ [OPacket 0 []] ∧
     core (fwst s') = core_with (halt_request set a) (fwst s) ∧
     tst (EP_CTRL (eps (hwst s') k false)) USB_EP_STALL_bm = set ∧
     (set = false → tst (EP_STATUS (eps (hwst s') k false)) USB_EP_TOGGLE_bm = false) ∧
     ∀ m d, m ≠ 0 → (m, d) ≠ (k, false) → eps (hwst s') m d = eps (hwst s) m d) ∧
  (∀ b b', read_request (get_status a) b b' s →
   ∃ s', USB_Device_ProcessControlRequest s = Ok tt s' ∧
     trace s' = trace s ++ [OPacket 0 [if tst (EP_CTRL (eps (hwst s) k false)) USB_EP_STALL_bm then 1 else 0; 0]] ∧
     core (fwst s') = core_with (get_status a) (fwst s)).
Proof.
  intros Hk. assert (k ≠ 0) as Hk0 by (by destruct Hk as [-> |[-> |[-> | ->]]]). split.
  - intros set b Ht Hw Hq Hl. destruct (Halt_spec set a b s Hk Ht Hw Hq Hl) as (s' & E & Etr & Ec & Ee).
    exists s'. split_and!; try done.
    + rewrite Ee by done. fold k. rewrite upd2_eq. destruct set; cbn.
      * rewrite tst_lor. apply orb_true_r.
      * by rewrite tst_cleared.
    + intros ->. rewrite Ee by done. fold k. rewrite upd2_eq. cbn. by rewrite tst_cleared.
    + intros m d Hm Hn. rewrite Ee by done. by apply upd2_ne.
  - intros b b' Hr. by eapply GetStatus_spec.
Qed.

(** The bus interrupt moves the device state as the flags demand - reset
    over resume over suspend - for every state of the machine, never waits,
    and touches endpoints, address and selection only for a bus reset, after
    which the control endpoint alone is enabled and the address is 0. *)
Theorem bus_interrupt_state s :
  ∃ s', USB_BUSEVENT_vect s = Ok tt s' ∧ script s' = script s ∧
    DeviceState (fwst s') =
      bus_state (flags s) (ConfigurationNumber (fwst s)) (rf (hwst s) (USB, ADDR)) (DeviceState (fwst s)) ∧
    if tst (flags s) USB_RSTIF_bm
    then ∃ s1, isr_frame s s1 ∧ reset_done s1 s'
    else isr_frame s s' ∧ tst (flags s') USB_SUSPENDIF_bm = false ∧ tst (flags s') USB_RESUMEIF_bm = false.
Proof.
  match goal with |- ∃ s', _ = _ ∧ @?P s' =>
    destruct (wp_returns USB_BUSEVENT_vect (λ _, P) s) as ([] & s' & E & H); [|by eauto] end.
  apply wp_BUSEVENT. intros s' H1 H2 H3. done.
Qed.

(** C19: The wait for an IN endpoint that the host leaves busy and not stalled
    counts frames, not looks, for every endpoint of the table and in every
    device state but unattached and suspended. It returns the timeout at the
    look that sees the 101st change of the frame number, however many looks see
    no change in between, and has used no event after it; while at most 100
    changes have been seen it goes on waiting. *)
Theorem ready_wait_times_out a bs s :
  a .| 128 = a → in_table (ep_of a) = true → SelectedEndpoint (fwst s) = a →
  live_state (DeviceState (fwst s)) = true → Forall2 (late_event (ep_of a)) bs (script s) →
  (∀ pre post, bs = pre ++ true :: post → frames pre = 100%nat →
   ∃ s', Endpoint_WaitUntilReady s = Ok ENDPOINT_READYWAIT_Timeout s' ∧ length (script s') = length post) ∧
  ((frames bs ≤ 100)%nat → ∃ s', Endpoint_WaitUntilReady s = Blocked s').
Proof.
  intros Ha Hin Hsel Hd He. pose proof (wait_times_out a bs s Ha Hin Hsel Hd He) as Hw. unfold wp in Hw. split.
  - intros pre post E Hf. destruct (Endpoint_WaitUntilReady s) as [c s'|s'| |]; [| |done|done].
    + destruct Hw as (-> & pre' & post' & E' & Hf' & Hl). exists s'. split; [done|]. rewrite Hl.
      rewrite E' in E. by rewrite (frames_unique _ _ _ _ E) by lia.
    + rewrite E, frames_app, Hf in Hw. cbn in Hw. lia.
  - intros Hle. destruct (Endpoint_WaitUntilReady s) as [c s'|s'| |]; [|by exists s'|done|done].
    destruct Hw as (_ & pre & post & -> & Hf & _). rewrite frames_app, Hf in Hle. cbn in Hle. lia.
Qed.

(** C20: SET_CONFIGURATION makes the controller what the configuration
    descriptor announces, on a device that is ready for control requests and
    with a host that is busy with the control endpoint only. The device answers a request for the descriptor with
    all of it, as many bytes as it states. A host that splits it by its size
    bytes finds endpoint descriptors; when the device, whatever its endpoints
    were set to before, has served SET_CONFIGURATION, each endpoint it found is
    enabled in the controller's table with the transfer type the descriptor
    states and exactly the packet size it states, and no other endpoint but
    endpoint 0 has been touched. *)
Theorem descriptors_match_endpoints es s s1 : ready_dev s → setup_arrives (set_configuration 1) es s s1 →
  Forall still_event es → length es = 5%nat →
  let '(n, d) := CALLBACK_USB_GetDescriptor (DTYPE_Configuration << 8) 0 in
  n = Z.of_nat (length d) ∧ take 2 (drop 2 d) = le16 n ∧
  ∃ s', USB_USBTask s1 = Ok tt s' ∧ DeviceState (fwst s') = DEVICE_STATE_Configured ∧ endpoints_in d ≠ [] ∧
    Forall (λ '(a, t, z), ∃ m, EP_CTRL (eps (hwst s') (a .& ENDPOINT_EPNUM_MASK) (tst a ENDPOINT_DIR_IN)) = ep_config t m ∧ 8 * 2 ^ m = z)
      (endpoints_in d) ∧
    ∀ k dir, k ≠ 0 → (k, dir) ∉ map (λ f, ep_of f.1.1) (endpoints_in d) → eps (hwst s') k dir = eps (hwst s) k dir.
Proof.
  intros Hs Ha He Hl. change (CALLBACK_USB_GetDescriptor _ _) with (sizeof_USB_Descriptor_Configuration, ConfigurationDescriptor).
  split; [done|]. split; [done|].
  destruct (task_SetConfiguration es s s1) as (s' & E & C & _ & _ & (C3 & C4 & C2) & Ho); [done..|].
  exists s'. split; [done|]. split; [apply C|].
  change (endpoints_in ConfigurationDescriptor) with
    [(CDC_NOTIFICATION_EPADDR, EP_TYPE_INTERRUPT, 8); (CDC_RX_EPADDR, EP_TYPE_BULK, 64); (CDC_TX_EPADDR, EP_TYPE_BULK, 64)].
  split; [done|]. split.
  - repeat (apply Forall_cons; split); [by exists 0|by exists 3|by exists 3|done].
  - intros k dir Hk Hin. apply Ho; [done|]. intros H. apply Hin. clear -H.
    unfold serial_handles in H. cbn in H |- *. rewrite !elem_of_cons, elem_of_nil in H |- *. tauto.
Qed.

(** C32: A bulk, interrupt or isochronous endpoint of up to 64 bytes is
    configured with the least size code [m] whose 8 * 2^m bytes hold it; no
    other endpoint, FIFO or register changes. An endpoint number the table does
    not have, or a size the controller cannot buffer, is reported as [false]
    and changes nothing, for sizes up to 32768; above, the doubled 16-bit size
    overflows to 0 and the loop that looks for the code does not end. *)
Theorem configure_endpoint Address Type_ Size Banks s : 0 ≤ Size →
  (in_table (ep_of Address) = true → Type_ ≠ EP_TYPE_CONTROL → Size ≤ 64 →
   ∃ m s', Endpoint_ConfigureEndpoint Address Type_ Size Banks s = Ok true s' ∧
     configured (ep_of Address) (ep_config Type_ m) Size s s' ∧ SelectedEndpoint (fwst s') = Address ∧
     Endpoint_BytesToEPSizeMask Size = Some m ∧ Size ≤ 8 * 2 ^ m ∧ (∀ k, 0 ≤ k → Size ≤ 8 * 2 ^ k → m ≤ k)) ∧
  (Size ≤ 32768 → ENDPOINT_TOTAL_ENDPOINTS ≤ Address .& 15 ∨ 64 < Size →
   Endpoint_ConfigureEndpoint Address Type_ Size Banks s = Ok false s) ∧
  (32768 < Size → ∀ n, epsize_loop n Size 0 8 = None).
Proof.
  intros Hs. split_and!.
  - intros H1 H2 H3. destruct (BytesToEPSizeMask_spec Size) as (m & Hm & _ & Hlo & Hhi); [lia|].
    destruct (wp_returns (Endpoint_ConfigureEndpoint Address Type_ Size Banks) (λ a s', a = true ∧
      configured (ep_of Address) (ep_config Type_ m) Size s s' ∧ SelectedEndpoint (fwst s') = Address) s)
      as (a & s' & E & -> & Hc & Hsel).
    { apply wp_ConfigureEndpoint; [done|done|lia|]. intros m' s' Hm' Hc Hsel. replace m' with m in Hc by congruence. done. }
    exists m, s'. split_and!; [done..|]. intros k Hk Hbk. destruct Hhi as [->|Hhi]; [lia|].
    destruct (Z.le_gt_cases m k); [done|]. pose proof (Z.pow_le_mono_r 2 k (m - 1)). lia.
  - intros Hl [Ha|Ha]; [by apply ConfigureEndpoint_bad_number|]. apply ConfigureEndpoint_bad_size. lia.
  - intros Hb n. apply epsize_diverges; [done|]. unfold sizes. apply elem_of_cons. by left.
Qed.

(** What the word and double-word accessors write, their counterparts
    read back, in either byte order, at every position of every FIFO; only the
    bytes of the word change in the buffer. *)
Theorem words_round_trip x p b i s : fifo_at p b i s → 0 ≤ i → i + 4 < 256 →
  i + 4 ≤ Z.of_nat (length (bufs (hwst s) b)) →
  (∃ s', (Endpoint_Write_16_LE x;; rewind i;; Endpoint_Read_16_LE) s = Ok (u16 x) s' ∧ fifo_at p b (i + 2) s' ∧
     bufs (hwst s') b = overwrite (Z.to_nat i) [u8 x; u8 (x >> 8)] (bufs (hwst s) b)) ∧
  (∃ s', (Endpoint_Write_16_BE x;; rewind i;; Endpoint_Read_16_BE) s = Ok (u16 x) s' ∧ fifo_at p b (i + 2) s' ∧
     bufs (hwst s') b = overwrite (Z.to_nat i) [u8 (x >> 8); u8 x] (bufs (hwst s) b)) ∧
  (∃ s', (Endpoint_Write_32_LE x;; rewind i;; Endpoint_Read_32_LE) s = Ok (u32 x) s' ∧ fifo_at p b (i + 4) s' ∧
     bufs (hwst s') b = overwrite (Z.to_nat i) (map u8 (le_bytes x)) (bufs (hwst s) b)) ∧
  (∃ s', (Endpoint_Write_32_BE x;; rewind i;; Endpoint_Read_32_BE) s = Ok (u32 x) s' ∧ fifo_at p b (i + 4) s' ∧
     bufs (hwst s') b = overwrite (Z.to_nat i) (map u8 (reverse (le_bytes x))) (bufs (hwst s) b)).
Proof.
  intros Hf Hi Hm Hl. split_and!.
  - destruct (write_read_back _ _ _ p b i [x .& 0xFF; x >> 8] 2 s (Write_16_LE_list x) Read_16_LE_list)
      as (s' & E & H1 & _ & H2); [done|done|lia..|]. exists s'. cbn [map] in E, H2.
    rewrite word_le_bytes in E. rewrite u8_land in H2. done.
  - destruct (write_read_back _ _ _ p b i [x >> 8; x .& 0xFF] 2 s (Write_16_BE_list x) Read_16_BE_list)
      as (s' & E & H1 & _ & H2); [done|done|lia..|]. exists s'. cbn [map] in E, H2.
    change (reverse _) with [u8 (x .& 255); u8 (x >> 8)] in E. rewrite word_le_bytes in E. rewrite u8_land in H2. done.
  - destruct (write_read_back _ _ _ p b i (le_bytes x) 4 s (Write_32_LE_list x) Read_32_LE_list)
      as (s' & E & H1 & _ & H2); [done|done|lia..|]. exists s'. rewrite dword_le_bytes in E. done.
  - destruct (write_read_back _ _ _ p b i (reverse (le_bytes x)) 4 s (Write_32_BE_list x) Read_32_BE_list)
      as (s' & E & H1 & _ & H2); [done|done|lia..|]. exists s'.
    change (reverse (map u8 (reverse (le_bytes x)))) with (map u8 (le_bytes x)) in E. by rewrite dword_le_bytes in E.
Qed.

(** C33: The line encoding is kept for the host: whatever encoding it sets with
    SET_LINE_ENCODING - any baud rate of 32 bits, any bytes for stop bits,
    parity and data bits - a later GET_LINE_ENCODING answers with the same seven
    bytes, in the order in which they came. Both requests are served by one run
    of the task each, and the device stays configured. The host is busy with the
    control endpoint only, sends the seven bytes after the SETUP packet and
    takes the answer. *)
Theorem line_encoding_round_trip l e0 e1 e es fs b s : configured_dev s → control_in b s → line_wf l →
  Forall still_event (e0 :: e1 :: es) → length es = 3%nat → data_event (line_bytes l) e → reads_answer fs →
  serves [(set_line_encoding, e0 :: e1 :: e :: es); (get_line_encoding, fs)] s (λ s',
    trace s' = trace s ++ [OPacket 0 []; OPacket 0 (line_bytes l)] ∧
    LineEncoding (CDC (fwst s')) = l ∧ DeviceState (fwst s') = DEVICE_STATE_Configured).
Proof.
  intros Hs Hb Hl Hes Hn He Hfs. rewrite !Forall_cons in Hes. destruct Hes as (H0 & H1 & Hes).
  cbn [serves]. split; [apply setup_can_arrive, Hs|]. intros s1 A1.
  destruct (task_SetLineEncoding l e0 e1 e es s s1) as (s2 & E2 & C2 & _ & L2 & T2 & _ & B2); [done..|].
  exists s2. split; [done|]. split; [apply setup_can_arrive, C2|]. intros s3 A3.
  destruct (task_GetLineEncoding fs b s2 s3) as (s4 & E4 & L4 & D4 & T4); [apply C2|by apply B2|done|done|].
  exists s4. split; [done|]. split; [|split; [congruence|by rewrite D4, (cn_state _ C2)]].
  rewrite T4, T2, L2, line_values_bytes, <-app_assoc by done. done.
Qed.

(** C12: GET_DESCRIPTOR: the host sends the request, takes [k] packets and
    ends the transfer with the status packet. Those packets are the first [k]
    pieces of 8 bytes of the descriptor cut to the length asked for; with all
    of them - the last one is short, or empty when the length is a multiple of
    8 - the host has the whole of it. The request is answered, not refused, and
    the state of the device does not change. *)
Theorem get_descriptor_sends v i w n d k b b' pre e post s :
  let r := get_descriptor v i w in
  let data := take (Z.to_nat (n `min` w)) d in
  read_waits r b b' s → 0 < w → v ≠ (DTYPE_String << 8) .| USE_INTERNAL_SERIAL →
  CALLBACK_USB_GetDescriptor v i = (n, d) → n ≠ NO_DESCRIPTOR → alive (core_with r (fwst s)) →
  (k ≤ length data / 8 + 1)%nat → script s = pre ++ e :: post → length pre = (2 + 3 * k)%nat →
  Forall (host_does false) pre → host_does true e → Forall any_host post → (3 ≤ length post)%nat →
  ∃ s' sent, USB_Device_ProcessControlRequest s = Ok tt s' ∧ core (fwst s') = core_with r (fwst s) ∧
    trace s' = trace s ++ map (OPacket 0) sent ∧ length sent = k ∧ concat sent = take (8 * k) data ∧
    (∀ j, (j < k)%nat → length <$> sent !! j = Some (8 `min` (length data - 8 * j))%nat) ∧
    ((k = length data / 8 + 1)%nat → concat sent = data).
Proof.
  intros r data H1 H2 H3 H4 H5 H6 H7 H8 H9 H10 H11 H12 H13.
  destruct (GetDescriptor_spec v i w n d k b b' pre e post s) as (s' & E & Ec & Et); try done.
  exists s', (ctl_packets k data). pose proof (Nat.div_mod_eq (length data) 8) as Hd.
  pose proof (Nat.mod_upper_bound (length data) 8 ltac:(lia)). split_and!; try done.
  - apply length_packets.
  - apply concat_packets.
  - intros j Hj. apply packets_lengths; lia.
  - intros ->. rewrite concat_packets. apply take_ge. lia.
Qed.

(** C6: From power-up to the open port: [USB_serial_init], a bus reset and the
    requests with which a host opens the port - SET_ADDRESS,
    SET_CONFIGURATION, SET_LINE_ENCODING with a baud rate, and
    SET_CONTROL_LINE_STATE with DTR - lead to the invariant under which the
    serial port delivers its bytes. The packet buffers have the sizes
    usb_serial.c declares, 64 bytes for the data endpoints and 8 for the
    control endpoint, and any contents; the registers and the endpoint table
    hold anything too, but for a SETUP flag on the unused OUT half of
    endpoint 2. Between the requests the host is busy with the control
    endpoint only ([still_event]), takes each acknowledgement when it is
    offered and sends the line encoding after its SETUP packet ([data_event]).
    Every request is served by one run of the USB task and acknowledged; the
    address is set after the first acknowledgement. *)
Theorem boot_opens_port v a l ctl es1 es2 e0 e1 e es3 es4 s : power_on s → tst v USB_RSTIF_bm = true →
  0 ≤ a < 128 → line_wf l → BaudRateBPS l ≠ 0 → word16 ctl → tst ctl CDC_CONTROL_LINE_OUT_DTR = true →
  Forall still_event (es1 ++ es2 ++ e0 :: e1 :: es3 ++ es4) → data_event (line_bytes l) e →
  length es1 = 6%nat → length es2 = 5%nat → length es3 = 3%nat → length es4 = 5%nat →
  ∃ s1 s2, USB_serial_init s = Ok tt s1 ∧ USB_BUSEVENT_vect (signal_reset v s1) = Ok tt s2 ∧
    serves (open_port a ctl es1 es2 (e0 :: e1 :: e :: es3) es4) s2 (λ s',
      trace s' = trace s2 ++ [OPacket 0 []; OStore (USB, ADDR) a; OPacket 0 []; OPacket 0 []; OPacket 0 []] ∧
      ∀ es, Forall link_event es → port (set_script es s')).
Proof. apply boot_to_port. Qed.
End stack.

(** ** Instances *)
Definition demo_request (r : USB_Request_Header_t) (f : hw → hw) (n : nat) : mach :=
  let m := demo [] 0 in
  Mach (set_bufs (upd (bufs (hwst m)) notification_fifo2 (header_bytes r))
         (set_eps (λ k d, if k =? 0 then USB_EP (if d then USB_EP_BUSNACK0_bm else USB_EP_SETUP_bm) USB_EP_TYPE_CONTROL_gc 8 None
                          else USB_EP 0 0 0 None) (hwst m)))
    (fwst m) (replicate n (EvHw f)) [].

(** A host that collects the status packet. *)
Definition collects (h : hw) : hw :=
  set_eps (upd2 (eps h) (0, true) (ep_set_status (EP_STATUS (eps h 0 true) .| USB_EP_BUSNACK0_bm) (eps h 0 true))) h.

Lemma collects_event : ctl_event (EvHw collects).
Proof.
  exists collects. split; [done|]. intros h. split; unfold collects; cbn; intros; unfold upd2;
    repeat (case_decide; simplify_eq/=); try done. rewrite tst_lor. apply orb_true_r.
Qed.

Lemma demo_request_waits r n : header_wf r → request_waits r notification_fifo2 (demo_request r collects n).
Proof.
  intros Hr. split; [by split|]. by apply Forall_replicate, collects_event.
Qed.

(** [l] written over the start of [m]. *)
Definition overwrite_to (l m : list Z) : list Z := take (length m) (l ++ drop (length l) m).
Lemma length_overwrite_to l m : length (overwrite_to l m) = length m.
Proof. unfold overwrite_to. rewrite length_take, length_app, length_drop. lia. Qed.
Lemma overwrite_to_head l m : (length l ≤ length m)%nat → take (length l) (overwrite_to l m) = l.
Proof. intros H. unfold overwrite_to. rewrite take_take, Nat.min_l by done. apply take_app_length. Qed.

Definition get_interface : USB_Request_Header_t := USB_Request_Header 0x81 0x0A 0 0 1.

Lemma unsupported_request_stalls_witness :
  let s := demo_request get_interface (λ h, h) 3 in
  ∃ s', @USB_Device_ProcessControlRequest demo_platform s = Ok tt s' ∧ refused get_interface s s' ∧ (3 = 3 + length (script s'))%nat.
Proof.
  apply (@unsupported_request_stalls demo_platform get_interface notification_fifo2 (demo_request get_interface (λ h, h) 3)).
  - split; try reflexivity.
    + split; reflexivity.
    + repeat split; (discriminate || reflexivity).
    + apply Forall_replicate. exists (λ h, h). split; reflexivity.
  - vm_compute. reflexivity.
  - apply Nat.leb_le. reflexivity.
Defined.


(** A host that takes the descriptor of the device, then acknowledges it. *)
Definition acknowledges (h : hw) : hw :=
  set_eps (upd2 (eps (collects h)) (0, false)
    (ep_set_status (EP_STATUS (eps h 0 false) .| USB_EP_TRNCOMPL0_bm) (eps h 0 false))) h.

Lemma collects_step : host_does false (EvHw collects).
Proof.
  exists collects. split; [done|]. intros h. split; unfold collects; cbn; intros; unfold upd2;
    repeat (case_decide; simplify_eq/=); try done. rewrite tst_lor. apply orb_true_r.
Qed.
Lemma acknowledges_step : host_does true (EvHw acknowledges).
Proof.
  exists acknowledges. split; [done|]. intros h. split; unfold acknowledges, collects; cbn; intros; unfold upd2;
    repeat (case_decide; simplify_eq/=); rewrite ?tst_lor, ?orb_true_r; try done. apply orb_false_r.
Qed.

(** Hosts that are busy with the control endpoint only. *)
Lemma collects_quiet : quiet_event (EvHw collects).
Proof.
  intros f [= <-] h. split; try done. intros n d Hn. unfold collects. cbn. unfold upd2. case_decide; by simplify_eq/=.
Qed.
Lemma acknowledges_quiet : quiet_event (EvHw acknowledges).
Proof.
  intros f [= <-] h. split; try done. intros n d Hn. unfold acknowledges, collects. cbn. unfold upd2.
  repeat (case_decide; simplify_eq/=); done.
Qed.

Lemma acknowledges_status : status_event (EvHw acknowledges).
Proof.
  destruct acknowledges_step as (f & E & Hf). exists f. split; [done|]. intros h. destruct (Hf h). by rewrite hs_out, hs_setup.
Qed.
Lemma collects_no_request : no_request (EvHw collects).
Proof. destruct collects_step as (f & E & Hf). exists f. split; [done|]. intros h. by destruct (Hf h). Qed.

Definition demo_read (r : USB_Request_Header_t) : mach :=
  set_script [EvHw collects; EvHw collects; EvHw acknowledges; EvHw collects] (demo_request r collects 0).
Lemma demo_read_request r : header_wf r → read_request r notification_fifo2 notification_fifo (demo_read r).
Proof.
  intros Hr. split.
  - by split.
  - repeat (apply Forall_cons; split); [apply collects_quiet|apply collects_quiet|apply acknowledges_quiet|apply collects_quiet|done].
  - split; [done|]. apply Nat.leb_le. reflexivity.
  - eexists _, _, _, _, _. split; [done|]. split; [apply collects_event|]. split; [apply collects_event|]. split.
    + apply acknowledges_status.
    + apply collects_no_request.
Qed.

Lemma configuration_requests_witness :
  (let s := demo_request (set_configuration 1) collects 4 in
   ∃ s', @USB_Device_ProcessControlRequest demo_platform s = Ok tt s' ∧ DeviceState (fwst s') = DEVICE_STATE_Configured ∧
     ConfigurationNumber (fwst s') = 1 ∧ serial_endpoints (eps (hwst s')) ∧ CDC (fwst s') = CDC_zero ∧
     trace s' = [OPacket 0 []]) ∧
  ∃ s', @USB_Device_ProcessControlRequest demo_platform (demo_read get_configuration) = Ok tt s' ∧ trace s' = [OPacket 0 [1]] ∧
    core (fwst s') = core_with get_configuration (fwst (demo_read get_configuration)).
Proof.
  split.
  - apply (proj1 (@configuration_requests demo_platform (demo_request (set_configuration 1) collects 4)) 1 notification_fifo2).
    + split; [discriminate|discriminate].
    + apply demo_request_waits. repeat split; (discriminate || reflexivity).
    + apply Nat.leb_le. reflexivity.
  - apply (proj2 (@configuration_requests demo_platform (demo_read get_configuration)) notification_fifo2 notification_fifo).
    apply demo_read_request. repeat split; (discriminate || reflexivity).
Defined.

Lemma control_line_gates_port_witness :
  (let s := demo_request (set_control_line_state 3) collects 4 in
   ∃ s', @USB_Device_ProcessControlRequest demo_platform s = Ok tt s' ∧ ok_to_send (fwst s') = 1 ∧
     CDC (fwst s') = set_HostToDevice 3 (CDC (fwst s)) ∧ trace s' = [OPacket 0 []] ∧
     DeviceState (fwst s') = DEVICE_STATE_Configured) ∧
  let s := set_fwst (set_ok_to_send 0 (fwst (demo [] 20))) (demo [] 20) in
  @USB_serial_put_char demo_platform 65 s = Ok tt s ∧ @USB_serial_put_buf demo_platform (λ _, mret 7) 3 s = Ok tt s.
Proof.
  split.
  - apply (proj1 (@control_line_gates_port demo_platform (demo_request (set_control_line_state 3) collects 4)) 3 notification_fifo2).
    + apply demo_request_waits. repeat split; (discriminate || reflexivity).
    + apply Nat.leb_le. reflexivity.
  - apply (proj2 (@control_line_gates_port demo_platform (set_fwst (set_ok_to_send 0 (fwst (demo [] 20))) (demo [] 20)))).
    right. reflexivity.
Defined.

Lemma endpoint_halt_requests_witness :
  (let s := demo_request (halt_request true 0x83) collects 4 in
   ∃ s', @USB_Device_ProcessControlRequest demo_platform s = Ok tt s' ∧ trace s' = [OPacket 0 []] ∧
     tst (EP_CTRL (eps (hwst s') 3 false)) USB_EP_STALL_bm = true ∧ eps (hwst s') 3 true = eps (hwst s) 3 true) ∧
  ∃ s', @USB_Device_ProcessControlRequest demo_platform (demo_read (get_status 0x83)) = Ok tt s' ∧ trace s' = [OPacket 0 [0; 0]].
Proof.
  assert (data_endpoint (u8 0x83 .& 15)) as Hk by (right; right; left; reflexivity). split.
  - destruct (proj1 (@endpoint_halt_requests demo_platform 0x83 (demo_request (halt_request true 0x83) collects 4) Hk) true notification_fifo2)
      as (s' & E & Et & _ & Hst & _ & Ho).
    + discriminate.
    + apply demo_request_waits. repeat split; (discriminate || reflexivity).
    + apply Forall_replicate, collects_quiet.
    + apply Nat.leb_le. reflexivity.
    + exists s'. split; [exact E|]. split; [exact Et|]. split; [exact Hst|]. apply (Ho 3 true); discriminate.
  - destruct (proj2 (@endpoint_halt_requests demo_platform 0x83 (demo_read (get_status 0x83)) Hk) notification_fifo2 notification_fifo)
      as (s' & E & Et & _).
    + apply demo_read_request. repeat split; (discriminate || reflexivity).
    + exists s'. split; [exact E|exact Et].
Defined.

Definition demo_descriptor : mach :=
  set_script (replicate 11 (EvHw collects) ++ EvHw acknowledges :: replicate 3 (EvHw collects))
    (demo_request (get_descriptor 0x0100 0 64) collects 0).

Lemma get_descriptor_sends_witness :
  ∃ s' sent, @USB_Device_ProcessControlRequest demo_platform demo_descriptor = Ok tt s' ∧
    core (fwst s') = core_with (get_descriptor 0x0100 0 64) (fwst demo_descriptor) ∧
    trace s' = map (OPacket 0) sent ∧ length sent = 3%nat ∧ concat sent = take 24 DeviceDescriptor ∧
    (∀ j, (j < 3)%nat → length <$> sent !! j = Some (8 `min` (18 - 8 * j))%nat) ∧
    (3%nat = (18 / 8 + 1)%nat → concat sent = DeviceDescriptor).
Proof.
  apply (@get_descriptor_sends demo_platform 0x0100 0 64 18 DeviceDescriptor 3 notification_fifo2 notification_fifo
    (replicate 11 (EvHw collects)) (EvHw acknowledges) (replicate 3 (EvHw collects)) demo_descriptor).
  - split; try reflexivity; first [split; reflexivity|repeat split; (discriminate || reflexivity)|apply Nat.leb_le; reflexivity].
  - reflexivity.
  - discriminate.
  - reflexivity.
  - discriminate.
  - split; discriminate.
  - apply Nat.leb_le. reflexivity.
  - reflexivity.
  - reflexivity.
  - apply Forall_replicate, collects_step.
  - apply acknowledges_step.
  - apply Forall_replicate. exists false. apply collects_step.
  - apply Nat.leb_le. reflexivity.
Defined.

(** A host that sends the line encoding 9600 8N1 when its SETUP packet has been
    taken. *)
Definition demo_line : CDC_LineEncoding_t := CDC_LineEncoding 9600 0 0 8.
Definition sends_line (h : hw) : hw :=
  set_bufs (upd (bufs h) notification_fifo2 (overwrite_to (line_bytes demo_line) (bufs h notification_fifo2)))
    (set_eps (upd2 (eps h) (0, false)
      (ep_set_status (EP_STATUS (eps h 0 false) .| USB_EP_TRNCOMPL0_bm) (eps h 0 false))) h).

Lemma sends_line_event : data_event (line_bytes demo_line) (EvHw sends_line).
Proof.
  exists sends_line. split; [done|]. intros h. unfold sends_line. split; cbn; rewrite ?upd2_eq, ?upd_eq; cbn; try done.
  - split; cbn; try done.
    + intros n d Hn. rewrite upd2_ne; [done|]. intros E. by injection E.
    + intros b Hb. by rewrite upd_ne.
    + intros b. destruct (decide (b = notification_fifo2)) as [->|Hb]; [|by rewrite upd_ne].
      rewrite upd_eq. apply length_overwrite_to.
  - intros Hl. apply (overwrite_to_head (line_bytes demo_line)). rewrite (buffer_length notification_fifo2 _ Hl). apply Nat.leb_le. reflexivity.
  - rewrite tst_lor. apply orb_true_r.
  - rewrite tst_lor. apply orb_false_r.
Qed.

Lemma collects_still : still_event (EvHw collects).
Proof.
  split; [apply collects_event|]. intros f [= <-] h. split; [|done]. split; try done.
  intros n d Hn. unfold collects. cbn. rewrite upd2_ne; [done|]. intros E. by injection E.
Qed.

Lemma boot_opens_port_witness :
  let es n := replicate n (EvHw collects) in
  ∃ s1 s2, @USB_serial_init demo_platform (demo [1; 2; 3] 0) = Ok tt s1 ∧
    USB_BUSEVENT_vect (signal_reset USB_RSTIF_bm s1) = Ok tt s2 ∧
    @serves demo_platform (open_port 5 3 (es 6%nat) (es 5%nat) (EvHw collects :: EvHw collects :: EvHw sends_line :: es 3%nat) (es 5%nat))
      s2 (λ s', trace s' = trace s2 ++ [OPacket 0 []; OStore (USB, ADDR) 5; OPacket 0 []; OPacket 0 []; OPacket 0 []] ∧
      ∀ es, Forall link_event es → port (set_script es s')).
Proof.
  intros es. apply (@boot_opens_port demo_platform USB_RSTIF_bm 5 demo_line 3 (es 6%nat) (es 5%nat) (EvHw collects) (EvHw collects)
    (EvHw sends_line) (es 3%nat) (es 5%nat) (demo [1; 2; 3] 0)); try reflexivity.
  - split; try reflexivity; [intros b; destruct b; reflexivity|repeat constructor; discriminate].
  - split; [discriminate|reflexivity].
  - repeat split; (discriminate || reflexivity).
  - discriminate.
  - split; [discriminate|reflexivity].
  - apply (Forall_replicate still_event 21), collects_still.
  - apply sends_line_event.
Defined.

(** A host that begins frames and never asks for data, and one that is looked
    at twice in a frame. *)
Definition frames_only (h : hw) : hw :=
  set_FrameNum (FrameNum h + 1) (set_eps (λ _ _, USB_EP 0 0 0 None) h).
Definition idles (h : hw) : hw := set_eps (λ _ _, USB_EP 0 0 0 None) h.
Definition two_looks : list event := [EvHw idles; EvHw frames_only].
Definition demo_late : mach :=
  set_script (concat (replicate 101 two_looks)) (set_fwst (set_SelectedEndpoint 0x83 (fwst (demo [] 0))) (demo [] 0)).

Lemma two_looks_late p : Forall2 (late_event p) [false; true] two_looks.
Proof.
  constructor; [|constructor; [|constructor]].
  - by exists idles.
  - exists frames_only. split; [done|]. intros h. split; [done|]. split; [done|]. split; [cbn; lia|done].
Qed.
Lemma looks_late p n : Forall2 (late_event p) (concat (replicate n [false; true])) (concat (replicate n two_looks)).
Proof. induction n; [constructor|]. cbn [replicate concat]. by apply Forall2_app; [apply two_looks_late|]. Qed.

Lemma ready_wait_times_out_witness :
  (∃ s', Endpoint_WaitUntilReady demo_late = Ok ENDPOINT_READYWAIT_Timeout s' ∧ length (script s') = 0%nat) ∧
  (∃ s', Endpoint_WaitUntilReady (set_script (concat (replicate 100 two_looks)) demo_late) = Blocked s').
Proof.
  split.
  - apply (proj1 (ready_wait_times_out 0x83 (concat (replicate 101 [false; true])) demo_late
      eq_refl eq_refl eq_refl eq_refl (looks_late _ 101)) (concat (replicate 100 [false; true]) ++ [false]) []); reflexivity.
  - apply (proj2 (ready_wait_times_out 0x83 (concat (replicate 100 [false; true])) (set_script (concat (replicate 100 two_looks)) demo_late)
      eq_refl eq_refl eq_refl eq_refl (looks_late _ 100))). apply Nat.leb_le. reflexivity.
Defined.

Lemma configure_endpoint_witness :
  (∃ m s', Endpoint_ConfigureEndpoint CDC_TX_EPADDR EP_TYPE_BULK 64 1 demo_late = Ok true s' ∧
    configured (3, true) (ep_config EP_TYPE_BULK m) 64 demo_late s' ∧ SelectedEndpoint (fwst s') = CDC_TX_EPADDR ∧
    Endpoint_BytesToEPSizeMask 64 = Some m ∧ 64 ≤ 8 * 2 ^ m ∧ (∀ k, 0 ≤ k → 64 ≤ 8 * 2 ^ k → m ≤ k)) ∧
  Endpoint_ConfigureEndpoint 0x86 EP_TYPE_BULK 64 1 demo_late = Ok false demo_late ∧
  (∀ n, epsize_loop n 40000 0 8 = None).
Proof.
  split_and!.
  - apply (configure_endpoint CDC_TX_EPADDR EP_TYPE_BULK 64 1 demo_late); [lia|reflexivity|discriminate|lia].
  - apply (configure_endpoint 0x86 EP_TYPE_BULK 64 1 demo_late); [lia|lia|left; discriminate].
  - apply (configure_endpoint 0x83 EP_TYPE_BULK 40000 1 demo_late); lia.
Defined.

Definition demo_fifo : mach := sel 0x83 (demo [] 0).

Lemma demo_configured : configured_dev (demo [] 0).
Proof. repeat split; try done. all: try constructor. intros b. by destruct b. Qed.

Lemma descriptors_match_endpoints_witness : ∃ s1 s',
  setup_arrives (set_configuration 1) (replicate 5 (EvHw collects)) (demo [] 0) s1 ∧ @USB_USBTask demo_platform s1 = Ok tt s' ∧
  Forall (λ '(a, t, z), ∃ m, EP_CTRL (eps (hwst s') (a .& ENDPOINT_EPNUM_MASK) (tst a ENDPOINT_DIR_IN)) = ep_config t m ∧ 8 * 2 ^ m = z)
    (endpoints_in ConfigurationDescriptor).
Proof.
  destruct (setup_can_arrive (set_configuration 1) (replicate 5 (EvHw collects)) (demo [] 0)) as [s1 Ha]; [reflexivity|].
  destruct (@descriptors_match_endpoints demo_platform (replicate 5 (EvHw collects)) (demo [] 0) s1) as (_ & _ & s' & E & _ & _ & H & _).
  - exact (cn_ready _ demo_configured).
  - exact Ha.
  - apply Forall_replicate, collects_still.
  - reflexivity.
  - exists s1, s'. split; [exact Ha|]. split; [exact E|exact H].
Defined.

Lemma line_encoding_round_trip_witness :
  let es n := replicate n (EvHw collects) in
  @serves demo_platform [(set_line_encoding, EvHw collects :: EvHw collects :: EvHw sends_line :: es 3%nat);
      (get_line_encoding, [EvHw collects; EvHw collects; EvHw collects; EvHw acknowledges; EvHw collects; EvHw collects])]
    (demo [] 0) (λ s', trace s' = [OPacket 0 []; OPacket 0 [128; 37; 0; 0; 0; 0; 8]] ∧
      LineEncoding (CDC (fwst s')) = demo_line ∧ DeviceState (fwst s') = DEVICE_STATE_Configured).
Proof.
  intros es. apply (@line_encoding_round_trip demo_platform demo_line (EvHw collects) (EvHw collects) (EvHw sends_line) (es 3%nat)
    [EvHw collects; EvHw collects; EvHw collects; EvHw acknowledges; EvHw collects; EvHw collects] notification_fifo (demo [] 0)).
  - exact demo_configured.
  - split; [reflexivity|]. apply Nat.leb_le. reflexivity.
  - repeat split; (discriminate || reflexivity).
  - apply (Forall_replicate still_event 5), collects_still.
  - reflexivity.
  - apply sends_line_event.
  - split.
    + repeat (apply Forall_cons; split); try apply collects_quiet; [apply acknowledges_quiet|apply Forall_nil; exact I].
    + do 6 eexists. split; [reflexivity|]. split; [apply collects_still|]. split; [apply collects_event|]. split; [apply collects_event|].
      split; [apply acknowledges_status|split; apply collects_no_request].
Defined.

Lemma words_round_trip_witness :
  ∃ s', (Endpoint_Write_32_LE 0x12345678;; rewind 0;; Endpoint_Read_32_LE) demo_fifo = Ok 0x12345678 s' ∧
    fifo_at (3, true) in_fifo 4 s' ∧
    bufs (hwst s') in_fifo = overwrite 0 [0x78; 0x56; 0x34; 0x12] (replicate 64 0).
Proof.
  apply (words_round_trip 0x12345678 (3, true) in_fifo 0 demo_fifo).
  - split; reflexivity.
  - lia.
  - lia.
  - apply Z.leb_le. reflexivity.
Defined.

