(* ===== verification/DataProps.v ===== *)
(** * Properties of the ring buffer and of the descriptors *)
From S2P Require Import Prelude RingBuffer Machine Endpoint Controller EndpointPoll EndpointStream Cdc Descriptors ConfigDesc Enumeration.

(** ** The ring buffer as a bounded queue *)

(** The operations as the drivers use them: a byte is inserted when the
    buffer is not full, and looked at and removed when it is not empty. Both
    the byte [RingBuffer_Peek] shows and the one [RingBuffer_Remove] returns are
    observed. *)
Inductive ring_op := RInsert (x : Z) | RRemove.

Definition ring_step (b : RingBuffer_t) (op : ring_op) : option (RingBuffer_t * list Z) :=
  match op with
  | RInsert x => if RingBuffer_IsFull b then Some (b, []) else b' ← RingBuffer_Insert b x; Some (b', [])
  | RRemove =>
      if RingBuffer_IsEmpty b then Some (b, [])
      else x ← RingBuffer_Peek b; r ← RingBuffer_Remove b; Some (r.2, [x; r.1])
  end.
Fixpoint ring_run (b : RingBuffer_t) (ops : list ring_op) : option (RingBuffer_t * list Z) :=
  match ops with
  | [] => Some (b, [])
  | op :: ops' =>
      r ← ring_step b op;
      r' ← ring_run r.1 ops';
      Some (r'.1, r.2 ++ r'.2)
  end.

(** A queue of at most [n] bytes. *)
Definition queue_step (n : Z) (q : list Z) (op : ring_op) : list Z * list Z :=
  match op with
  | RInsert x => (if Z.of_nat (length q) =? n then q else q ++ [x], [])
  | RRemove => match q with [] => ([], []) | x :: q' => (q', [x; x]) end
  end.
Fixpoint queue_run (n : Z) (q : list Z) (ops : list ring_op) : list Z * list Z :=
  match ops with
  | [] => (q, [])
  | op :: ops' =>
      let r := queue_step n q op in
      let r' := queue_run n r.1 ops' in
      (r'.1, r.2 ++ r'.2)
  end.

Lemma ring_step_refines b op : wf b → ∃ b', ring_step b op = Some (b', (queue_step (Size b) (contents b) op).2) ∧
  wf b' ∧ Size b' = Size b ∧ contents b' = (queue_step (Size b) (contents b) op).1.
Proof.
  intros Hb. destruct op as [x|]; cbn.
  - rewrite IsFull_spec by done. destruct (Z.eqb_spec (Z.of_nat (length (contents b))) (Size b)); [by exists b|].
    destruct (Insert_spec b x) as (b' & -> & Hw & Hc & Hs); [done| |].
    { rewrite length_contents in * by done. destruct Hb. lia. }
    cbn. by exists b'.
  - rewrite IsEmpty_spec by done. destruct (contents b) as [|x l] eqn:E.
    + rewrite bool_decide_eq_true_2 by done. by exists b.
    + rewrite bool_decide_eq_false_2 by done. destruct (Remove_spec b x l) as (b' & -> & -> & Hw & Hc & Hs); [done..|].
      cbn. by exists b'.
Qed.

Lemma ring_run_refines b ops : wf b → ∃ b', ring_run b ops = Some (b', (queue_run (Size b) (contents b) ops).2) ∧
  wf b' ∧ contents b' = (queue_run (Size b) (contents b) ops).1.
Proof.
  revert b. induction ops as [|op ops IH]; intros b Hb; [by exists b|].
  destruct (ring_step_refines b op Hb) as (b1 & E1 & Hb1 & Hs1 & Hc1).
  destruct (IH b1 Hb1) as (b2 & E2 & Hb2 & Hc2). rewrite Hs1, Hc1 in *.
  exists b2. cbn [ring_run queue_run]. rewrite E1. cbn [mbind option_bind fst snd]. rewrite E2. done.
Qed.

(** C16: The ring buffer is a bounded queue: every sequence of guarded
    insertions and removals on a fresh buffer of any size shows (Peek) and gives
    (Remove) exactly the bytes that are at the head of a first-in-first-out
    queue of that size, and no access leaves the underlying array. *)
Theorem ring_buffer_is_queue d n ops : Z.of_nat (length d) = n → 0 < n < 65536 →
  ∃ b', ring_run (RingBuffer_InitBuffer d n) ops = Some (b', (queue_run n [] ops).2) ∧
        wf b' ∧ contents b' = (queue_run n [] ops).1.
Proof.
  intros Hd Hn. destruct (InitBuffer_wf d n Hd Hn) as [Hw Hc].
  destruct (ring_run_refines _ ops Hw) as (b' & E & H). rewrite Hc in *. by exists b'.
Qed.

Lemma ring_buffer_is_queue_witness :
  ∃ b', ring_run (RingBuffer_InitBuffer [0; 0] 2) [RInsert 1; RInsert 2; RInsert 3; RRemove; RInsert 4; RRemove; RRemove; RRemove]
        = Some (b', [1; 1; 2; 2; 4; 4]) ∧ wf b' ∧ contents b' = [].
Proof. apply (ring_buffer_is_queue [0; 0] 2); [reflexivity|split; reflexivity]. Defined.

(** ** Descriptors *)

(** In a list of well-formed descriptors, the search for a type stops at
    the first later descriptor of that type and returns its location and the
    number of bytes left; without one it reads behind the end of the
    descriptors, which is outside the object when nothing follows them. *)
Theorem descriptor_search T pre d0 a d b tail :
  Forall descriptor (d0 :: a ++ d :: b) → Forall (λ x, dtype x ≠ T) a → dtype d = T →
  size (d0 :: a ++ d :: b) < 65536 →
  USB_GetNextDescriptorOfType (pre ++ concat (d0 :: a ++ d :: b) ++ tail) T
    (size (d0 :: a ++ d :: b), Z.of_nat (length pre)) =
  WDone (size (d :: b), Z.of_nat (length pre) + size (d0 :: a)) ∧
  (USB_GetNextDescriptorOfType (pre ++ concat (d0 :: a)) T (size (d0 :: a), Z.of_nat (length pre)) = WFault).
Proof.
  intros Hds Ha Hd Hl. split; [by apply GetNextDescriptorOfType_spec|].
  apply GetNextDescriptorOfType_overruns; [|done|].
  - apply Forall_cons in Hds as [? Hds]. apply Forall_app in Hds as [? _]. by constructor.
  - unfold size in *. cbn [concat] in *. rewrite concat_app, !length_app in *. lia.
Qed.

(** The descriptors of ConfigurationDescriptor. *)
Definition config_parts : list (list Z) := split_descriptors 20 ConfigurationDescriptor.

Lemma descriptor_search_witness :
  let d0 := config_parts !!! 0%nat in
  let a := take 4 (drop 1 config_parts) in
  let d := config_parts !!! 5%nat in
  USB_GetNextDescriptorOfType (concat (d0 :: a ++ [d]) ++ []) DTYPE_Endpoint (size (d0 :: a ++ [d]), 0) =
    WDone (size [d], size (d0 :: a)) ∧
  USB_GetNextDescriptorOfType (concat (d0 :: a)) DTYPE_Endpoint (size (d0 :: a), 0) = WFault.
Proof.
  intros d0 a d. apply (descriptor_search DTYPE_Endpoint [] d0 a d [] []).
  - apply (Forall_impl (λ d, bool_decide (d = Z.of_nat (length d) :: d !!! 1%nat :: drop 2 d ∧ Z.of_nat (length d) < 256) = true)).
    + repeat constructor.
    + intros x Hx%bool_decide_eq_true. destruct Hx as [E Hx]. exists (x !!! 1%nat), (drop 2 x). split; assumption.
  - repeat constructor; discriminate.
  - reflexivity.
  - reflexivity.
Defined.

