(* ===== verification/PeriphProps.v ===== *)
(** * Properties of the capture and glitch hardware drivers

    The theorems about adc.c, dmaadc.c, trigger.c, hires_glitch.c and
    usartx.c, each with a concrete instance. *)
From stdpp Require Import strings.
From S2P Require Import Prelude RingBuffer Machine Endpoint Controller EndpointPoll EndpointStream Cdc Descriptors StdReq Packed UsbSerial Adc Capture Usart Logic Regs SerialPort HorrorScope SerialSpec SerialLink HorrorSpec CaptureSpec Host.

(** C23: [trigger_wait] ends on both branches with the delay timer off, having
    stored the delay as the timer period before it armed the trigger. When the
    trigger does not come while the counter runs down, it returns 1 after
    exactly [timeout] looks at the pin; when the trigger comes in time, it
    waits for the delay timer to overflow and returns 0. *)
Theorem trigger_wait_outcome pre rest delay s : Forall no_trigger pre →
  let ended s' := script s' = rest ∧ rf (hwst s') (TCD0, CTRLA) = 0 ∧ fwst s' = fwst s ∧
    trace s' = trace s ++ armed delay (rf (hwst s)) ++ [OStore (DMA_CH2, TRIGSRC) 0; OStore (TCD0, CTRLA) 0] in
  (Z.of_nat (length pre) < 2 ^ 32 → script s = pre ++ rest →
   ∃ s', trigger_wait (Z.of_nat (length pre)) delay s = Ok 1 s' ∧ ended s') ∧
  (∀ e mid o timeout, triggers e → Forall (shows (TCD0, INTFLAGS) (λ f, negb (tst f TC0_OVFIF_bm))) mid →
   shows (TCD0, INTFLAGS) (λ f, tst f TC0_OVFIF_bm) o → Z.of_nat (length pre) < timeout < 2 ^ 32 →
   script s = pre ++ e :: mid ++ o :: rest → ∃ s', trigger_wait timeout delay s = Ok 0 s' ∧ ended s').
Proof.
  intros Hp ended. split.
  - intros Hl Hs. destruct (trigger_wait_times_out pre delay s) as (s' & E & []); [done|done|by eauto|].
    exists s'. rewrite Hs in td_events. apply app_inv_head in td_events. done.
  - intros e mid o timeout He Hm Ho Ht Hs.
    destruct (trigger_wait_catches pre e mid o timeout delay s) as (s' & E & []); [done..| |].
    { exists rest. by rewrite Hs, <-app_assoc. }
    exists s'. split; [done|]. split; [|done]. rewrite Hs, <-!app_assoc in td_events. apply app_inv_head in td_events.
    injection td_events as E'. apply app_inv_head in E'. by injection E' as ->.
Qed.

Lemma wp_run {A} (m : M A) Q B s a s' : wp m Q B s → m s = Ok a s' → Q a s'.
Proof. unfold wp. intros H E. by rewrite E in H. Qed.

(** A trigger that is not waited for is missed. *)
Lemma missed_trigger {PL : Platform} d s : port s → ∃ s', trigger_wait 0 d s = Ok 1 s' ∧ port s' ∧
  payload (trace s') = payload (trace s) ∧ script s' = script s.
Proof.
  intros Hp. destruct (trigger_wait_times_out [] d s) as (s' & E & Hd); [done|done|by eexists|]. cbn [length Z.of_nat] in E.
  destruct (wp_run _ _ _ _ _ _ (waits_trigger (SL := usb_laws) 0 d s Hp) E) as (k & bs & out & Hr & Ho & _).
  destruct Ho as [-> ->]. exists s'. split; [exact E|]. split; [exact (rn_inv _ _ _ _ _ Hr)|]. split; [|by destruct Hd].
  pose proof (rn_out _ _ _ _ _ Hr) as H. by rewrite app_nil_r in H.
Qed.

(** C24: Two tests of the firmware are inverted. The wait in
    [dmaadc_read_buf_ch0] tests the opposite of completion: the capture returns
    as soon as the DMA channel is seen enabled, that is, while the transfer is
    still running; a transfer that is over before the wait begins is never
    noticed, and the capture hangs for as long as the channel stays disabled.
    And the fault command reports a missed trigger as a caught one: with a
    timeout of 0 and any other settings it sends "rd" over every open port, where
    'e' stands for a timeout. *)
Theorem inverted_tests {PL : Platform} buf length_ bits12 l s : word16 buf → word16 length_ →
  ((∀ e rest, shows (DMA_CH0, CTRLA) busy e → script s = e :: rest →
   ∃ s', dmaadc_read_buf_ch0 buf length_ bits12 s = Ok tt s' ∧ script s' = rest ∧
         busy (rf (hwst s') (DMA_CH0, CTRLA)) = true ∧ IFlag (fwst s') = true) ∧
   (Forall (shows (DMA_CH0, CTRLA) (λ v, negb (busy v))) (script s) →
    ∃ s', dmaadc_read_buf_ch0 buf length_ bits12 s = Blocked s')) ∧
  (timeout l = 0 → port s → Forall prompt_event (script s) → (6 ≤ length (script s))%nat →
   ∃ s', @cmd_f usb_serial l s = Ok l s' ∧ port s' ∧ payload (trace s') = payload (trace s) ++ chars "rd").
Proof.
  intros Hb Hl. split; [split; [|by apply dmaadc_read_hangs]|].
  - intros e rest He Hs. destruct (dmaadc_read_returns buf length_ bits12 [] e s) as (s' & E & H1 & H2 & H3); try done.
    { by exists rest. }
    exists s'. split; [done|]. split; [|done]. rewrite Hs in H1. by injection H1.
  - intros Ht Hp Hpr Hn.
    destruct (wp_total _ _ _ _ (put_char_sends (char "r") s Hp)) as ([] & s1 & E1 & Hp1 & T1 & k1 & A1 & K1).
    { intros H. specialize (H Hpr). lia. }
    specialize (K1 Hpr). pose proof (af_len _ _ _ A1) as L1.
    destruct (missed_trigger (delay l) s1 Hp1) as (s2 & E2 & Hp2 & T2 & S2).
    destruct (wp_total _ _ _ _ (put_char_sends (char "d") s2 Hp2)) as ([] & s3 & E3 & Hp3 & T3 & _).
    { unfold prompt. intros H. rewrite S2 in H. specialize (H (af_sub _ _ _ A1 _ Hpr)). lia. }
    exists s3. split.
    + unfold cmd_f, put. unfold mbind, M_bind. change (sp_put_char (char "r")) with (USB_serial_put_char (char "r")).
      rewrite E1, Ht, E2. change (negb (1 =? 0)) with true. cbv iota.
      change (sp_put_char (char "d")) with (USB_serial_put_char (char "d")). by rewrite E3.
    + split; [done|]. rewrite T3, payload_app, T2, T1, payload_app, <-app_assoc. done.
Qed.

(** A glitch starts the timer, waits for the compare match however long
    it takes, and stops the timer; nothing else is stored. *)
Theorem glitch_stops_timer pre e rest s :
  Forall (shows (TCC2, INTFLAGS) (λ f, negb (tst f TC2_LCMPAIF_bm))) pre →
  shows (TCC2, INTFLAGS) (λ f, tst f TC2_LCMPAIF_bm) e → script s = pre ++ e :: rest →
  ∃ s', hires_glitch s = Ok tt s' ∧ script s' = rest ∧ rf (hwst s') (TCC2, CTRLA) = TC2_CLKSEL_OFF_gc ∧
    trace s' = trace s ++ [OStore (TCC2, INTFLAGS) 0;
      OStore (TCC2, INTFLAGS) (u8 (clr8 (rf (hwst s) (TCC2, INTFLAGS)) 0 .| TC2_LCMPAIF_bm));
      OStore (TCC2, CTRLA) TC2_CLKSEL_DIV1_gc; OStore (TCC2, CTRLA) TC2_CLKSEL_OFF_gc].
Proof.
  intros Hp He Hs. destruct (hires_glitch_spec pre e s) as (s' & E & H1 & H2 & H3); [done..|by eauto|].
  exists s'. split; [done|]. split; [|done]. rewrite Hs, <-app_assoc in H1. apply app_inv_head in H1. by injection H1.
Qed.

(** [adc_init] leaves the converter ready - enabled and started, free
    running and signed at the requested resolution, reference, prescaler,
    inputs and interrupt level as the code states them - whatever the
    registers held before; the gain alone keeps its old value. The gain
    accumulates: setting [g1] and then [g2] leaves the union of their bits and
    of the old ones in the gain field, not [g2]. The clock divider is replaced:
    after any earlier setting the prescaler field holds exactly the requested
    value, and the other bits of the register and the other registers are as
    before. *)
Theorem adc_settings s :
  (∀ bits12, ∃ s', adc_init bits12 s = Ok tt s' ∧ adc_ready bits12 (rf (hwst s)) (rf (hwst s')) ∧
     fwst s' = fwst s ∧ script s' = script s) ∧
  (∀ g1 g2, g1 .& ADC_CH_GAIN_gm = g1 → g2 .& ADC_CH_GAIN_gm = g2 →
   ∃ s', (adc_ch_gain g1;; adc_ch_gain g2) s = Ok tt s' ∧
     rf (hwst s') (ADCA_CH0, CTRL) .& ADC_CH_GAIN_gm = (rf (hwst s) (ADCA_CH0, CTRL) .& ADC_CH_GAIN_gm) .| g1 .| g2) ∧
  (∀ p, p .& ADC_PRESCALER_gm = p →
   ∃ s', adc_prescaler p s = Ok tt s' ∧ rf (hwst s') (ADCA, PRESCALER) .& ADC_PRESCALER_gm = p ∧
     rf (hwst s') (ADCA, PRESCALER) .& (255 .^ ADC_PRESCALER_gm) = rf (hwst s) (ADCA, PRESCALER) .& (255 .^ ADC_PRESCALER_gm) ∧
     ∀ r, r ≠ (ADCA, PRESCALER) → rf (hwst s') r = rf (hwst s) r).
Proof.
  split_and!.
  - intros bits12. destruct (adc_init_runs bits12) as (f & o & Hr & Ha). eexists. split; [apply Hr|]. split; [apply Ha|done].
  - intros g1 g2 H1 H2.
    destruct (adc_ch_gain_runs g1 H1) as (f1 & o1 & R1 & A1), (adc_ch_gain_runs g2 H2) as (f2 & o2 & R2 & A2).
    eexists. split; [apply (runs_seq _ _ _ _ _ _ R1 R2)|]. cbn. by rewrite (proj1 (A2 _)), (proj1 (A1 _)).
  - intros p Hp. destruct (adc_prescaler_runs p Hp) as (f & o & R & A). eexists. split; [apply R|]. apply A.
Qed.

(** [usart_put_buf] stores the first [length] bytes of the buffer in the
    data register, in order and each once, whenever the transmitter is ready;
    [usart_get_long] returns the four bytes that arrive as a big-endian
    number. *)
Theorem usart_transfers ctx : 
  (∀ buf length_ s, Forall (can_send ctx) (script s) →
   0 ≤ length_ ≤ Z.of_nat (length buf) → (2 * Z.to_nat length_ ≤ length (script s))%nat →
   ∃ s', usart_put_buf ctx buf length_ s = Ok tt s' ∧ script s' = drop (2 * Z.to_nat length_) (script s) ∧
     trace s' = trace s ++ map (λ x, OStore (usart ctx, DATA) (u8 x)) (take (Z.to_nat length_) buf)) ∧
  (∀ b3 b2 b1 b0 e3 e2 e1 e0 es s,
   byte b3 → byte b2 → byte b1 → byte b0 →
   delivers ctx b3 e3 → delivers ctx b2 e2 → delivers ctx b1 e1 → delivers ctx b0 e0 →
   script s = e3 :: e2 :: e1 :: e0 :: es →
   ∃ s', usart_get_long ctx s = Ok (((b3 * 256 + b2) * 256 + b1) * 256 + b0) s' ∧ script s' = es ∧ trace s' = trace s).
Proof. split; [apply usart_put_buf_spec|apply usart_get_long_spec]. Qed.

(** ** Instances *)
Definition sets (r : reg) (v : Z) : event := EvHw (λ h, set_rf (upd (rf h) r v) h).

Lemma sets_shows r g v : g v = true → shows r g (sets r v).
Proof. intros H. exists (λ h, set_rf (upd (rf h) r v) h). split; [done|]. intros h. cbn. by rewrite upd_eq. Qed.

Definition with_events (es : list event) : mach := set_script es (demo [] 0).

Lemma trigger_wait_outcome_witness :
  let s1 := with_events (replicate 3 (sets (PORTA, INTFLAGS) 0)) in
  let s2 := with_events [sets (PORTA, INTFLAGS) 0; sets (PORTA, INTFLAGS) 1; sets (TCD0, INTFLAGS) 0; sets (TCD0, INTFLAGS) 1] in
  let ended s s' := script s' = [] ∧ rf (hwst s') (TCD0, CTRLA) = 0 ∧ fwst s' = fwst s ∧
    trace s' = trace s ++ armed 100 (rf (hwst s)) ++ [OStore (DMA_CH2, TRIGSRC) 0; OStore (TCD0, CTRLA) 0] in
  (∃ s', trigger_wait 3 100 s1 = Ok 1 s' ∧ ended s1 s') ∧ (∃ s', trigger_wait 40000 100 s2 = Ok 0 s' ∧ ended s2 s').
Proof.
  split.
  - apply (trigger_wait_outcome (replicate 3 (sets (PORTA, INTFLAGS) 0)) []).
    + apply Forall_replicate, sets_shows. reflexivity.
    + reflexivity.
    + reflexivity.
  - apply (trigger_wait_outcome [sets (PORTA, INTFLAGS) 0] []) with (e := sets (PORTA, INTFLAGS) 1)
      (mid := [sets (TCD0, INTFLAGS) 0]) (o := sets (TCD0, INTFLAGS) 1).
    + apply Forall_singleton, sets_shows. reflexivity.
    + apply sets_shows. reflexivity.
    + apply Forall_singleton, sets_shows. reflexivity.
    + apply sets_shows. reflexivity.
    + split; reflexivity.
    + reflexivity.
Defined.

Lemma inverted_tests_witness :
  (∃ s', dmaadc_read_buf_ch0 0x2100 3584 1 (with_events [sets (DMA_CH0, CTRLA) 0xC0]) = Ok tt s' ∧ script s' = [] ∧
        busy (rf (hwst s') (DMA_CH0, CTRLA)) = true ∧ IFlag (fwst s') = true) ∧
  (∃ s', dmaadc_read_buf_ch0 0x2100 3584 1 (with_events (replicate 9 (sets (DMA_CH0, CTRLA) 0x24))) = Blocked s') ∧
  ∃ s', @cmd_f (@usb_serial demo_platform) (set_timeout 0 locals_init) (demo [] 9) = Ok (set_timeout 0 locals_init) s' ∧
    port s' ∧ payload (trace s') = chars "rd".
Proof.
  assert (word16 0x2100) as H1 by (split; [discriminate|reflexivity]).
  assert (word16 3584) as H2 by (split; [discriminate|reflexivity]). split_and!.
  - apply (proj1 (proj1 (@inverted_tests demo_platform 0x2100 3584 1 locals_init (with_events [sets (DMA_CH0, CTRLA) 0xC0]) H1 H2))
      (sets (DMA_CH0, CTRLA) 0xC0) []); [apply sets_shows|]; reflexivity.
  - apply (@inverted_tests demo_platform 0x2100 3584 1 locals_init _ H1 H2). apply Forall_replicate, sets_shows. reflexivity.
  - apply (@inverted_tests demo_platform 0x2100 3584 1 (set_timeout 0 locals_init) (demo [] 9) H1 H2).
    + reflexivity.
    + apply demo_port. constructor.
    + apply demo_prompt.
    + apply Nat.leb_le. reflexivity.
Defined.

Lemma glitch_stops_timer_witness :
  let s := with_events [sets (TCC2, INTFLAGS) 0; sets (TCC2, INTFLAGS) 0x10] in
  ∃ s', hires_glitch s = Ok tt s' ∧ script s' = [] ∧ rf (hwst s') (TCC2, CTRLA) = TC2_CLKSEL_OFF_gc ∧
    trace s' = trace s ++ [OStore (TCC2, INTFLAGS) 0;
      OStore (TCC2, INTFLAGS) (u8 (clr8 (rf (hwst s) (TCC2, INTFLAGS)) 0 .| TC2_LCMPAIF_bm));
      OStore (TCC2, CTRLA) TC2_CLKSEL_DIV1_gc; OStore (TCC2, CTRLA) TC2_CLKSEL_OFF_gc].
Proof.
  apply (glitch_stops_timer [sets (TCC2, INTFLAGS) 0] (sets (TCC2, INTFLAGS) 0x10) []).
  - apply Forall_singleton, sets_shows. reflexivity.
  - apply sets_shows. reflexivity.
  - reflexivity.
Defined.

Lemma adc_settings_witness :
  (∃ s', (adc_ch_gain 0x04;; adc_ch_gain 0x08) (demo [] 0) = Ok tt s' ∧
    rf (hwst s') (ADCA_CH0, CTRL) .& ADC_CH_GAIN_gm = 0x0C) ∧
  ∃ s', adc_prescaler 3 (demo [] 0) = Ok tt s' ∧ rf (hwst s') (ADCA, PRESCALER) .& ADC_PRESCALER_gm = 3 ∧
    rf (hwst s') (ADCA, PRESCALER) .& (255 .^ ADC_PRESCALER_gm) = 0 ∧
    ∀ r, r ≠ (ADCA, PRESCALER) → rf (hwst s') r = 0.
Proof.
  destruct (adc_settings (demo [] 0)) as (_ & Hg & Hp). split.
  - apply (Hg 0x04 0x08); reflexivity.
  - apply (Hp 3). reflexivity.
Defined.

Definition arrives_byte (b : Z) : event :=
  EvHw (λ h, set_rf (upd (upd (rf h) (USARTC0, STATUS) 0x80) (USARTC0, DATA) b) h).
Lemma arrives_delivers b : delivers usart_c0_ctx b (arrives_byte b).
Proof. eexists. split; [reflexivity|]. intros h. split; [discriminate|reflexivity]. Qed.

Lemma usart_transfers_witness :
  (∃ s', usart_put_buf usart_c0_ctx [72; 105; 33] 2 (with_events (replicate 4 (sets (USARTC0, STATUS) 0x20))) = Ok tt s' ∧
    script s' = [] ∧ trace s' = [OStore (USARTC0, DATA) 72; OStore (USARTC0, DATA) 105]) ∧
  ∃ s', usart_get_long usart_c0_ctx (with_events [arrives_byte 1; arrives_byte 2; arrives_byte 3; arrives_byte 4])
        = Ok 16909060 s' ∧ script s' = [] ∧ trace s' = [].
Proof.
  split.
  - apply (proj1 (usart_transfers usart_c0_ctx) [72; 105; 33] 2 (with_events (replicate 4 (sets (USARTC0, STATUS) 0x20)))).
    + apply Forall_replicate, sets_shows. reflexivity.
    + cbn. lia.
    + cbn. lia.
  - apply (proj2 (usart_transfers usart_c0_ctx) 1 2 3 4 (arrives_byte 1) (arrives_byte 2) (arrives_byte 3) (arrives_byte 4) []
      (with_events [arrives_byte 1; arrives_byte 2; arrives_byte 3; arrives_byte 4]));
      first [apply arrives_delivers | split; [discriminate|reflexivity] | reflexivity].
Defined.

