(* ===== verification/AESProps.v ===== *)
(** * Properties of the AES code and of the target that runs it

    The theorems about aes.c and sketch_slowAes.ino, each with an instance on
    the vectors of FIPS 197. *)
From S2P Require Import Prelude GF256 AES AESSpec AESKey TOE TOELib.

(** ** Shared lemmas *)

(** The three variants of the standard, as [Nk] and [Nr]. *)
Definition variant (Nk Nr : Z) : Prop := (Nk = 4 ∧ Nr = 10) ∨ (Nk = 6 ∧ Nr = 12) ∨ (Nk = 8 ∧ Nr = 14).

(** The expanded key of a variant. *)
Definition expanded (Nk Nr : Z) (key : list Z) : list Z := KeySchedule Nk key (Nb * (Nr + 1)).

Lemma expansion_of_variant Nk Nr key w R :
  variant Nk Nr → Z.of_nat (length key) = 4 * Nk → bytes key →
  Z.of_nat (length w) = 16 * (Nr + 1) → is_R R →
  ∃ R', is_R R' ∧ key_expansion Nk Nr key w R = Some (expanded Nk Nr key, R') ∧
    bytes (expanded Nk Nr key) ∧ Z.of_nat (length (expanded Nk Nr key)) = 16 * (Nr + 1).
Proof.
  intros Hv Hk Hb Hw HR.
  destruct (key_expansion_KeySchedule Nk Nr key w R) as (R' & HR' & HB & HL & E);
    [unfold Nb, variant in *; lia..|exact Hb|exact HR|].
  exists R'. unfold expanded, Nb in *. split_and!; [exact HR'|exact E|exact HB|lia].
Qed.

Lemma gf_inv_inverse x : byte x → x ≠ 0 → gmult x (gf_inv x) = 1.
Proof.
  intros Hx H0.
  assert (forallb (λ y, (y =? 0) || (gmult y (gf_inv y) =? 1)) (seqZ 0 256) = true) as Hall by by vm_compute.
  rewrite forallb_forall in Hall. specialize (Hall x).
  rewrite <-list_elem_of_In, elem_of_seqZ in Hall. unfold byte in Hx.
  specialize (Hall ltac:(lia)). apply orb_true_iff in Hall as [H|H]; lia.
Qed.

Lemma InvSBox_onto y : byte y → SBox (InvSBox y) = y.
Proof.
  intros Hy. assert (forallb (λ y, SBox (InvSBox y) =? y) (seqZ 0 256) = true) as Hall by by vm_compute.
  rewrite forallb_forall in Hall. specialize (Hall y).
  rewrite <-list_elem_of_In, elem_of_seqZ in Hall. unfold byte in Hy.
  specialize (Hall ltac:(lia)). lia.
Qed.

(** The bytes [a], [a + 1], ... , as the vectors of FIPS 197 use them. *)
Definition count_from (a n : Z) : list Z := seqZ a n.

(** The plain text [00 11 22 ... ff]. *)
Definition fips_plain : list Z := map (λ i, 0x11 * i) (seqZ 0 16).

(** Expand a key into zeroed memory and encrypt a block with it. *)
Definition run_cipher (Nk Nr : Z) (key inp : list Z) : option (list Z) :=
  '(w, _) ← key_expansion Nk Nr key (replicate (Z.to_nat (16 * (Nr + 1))) 0) R_init;
  cipher Nr inp (replicate 16 0) w.

(** ** The cipher *)

(** C7: For the three key lengths of the standard, whatever the key, the block
    and the previous contents of the output and round-key arrays,
    [key_expansion] fills the round-key array with the key schedule of FIPS
    197 and [cipher] with these round keys fills the output with the FIPS 197
    encryption of the block, neither leaving its arrays. *)
Theorem aes_encrypts Nk Nr key w R inp out :
  variant Nk Nr → Z.of_nat (length key) = 4 * Nk → bytes key →
  Z.of_nat (length w) = 16 * (Nr + 1) → is_R R → block inp → length out = 16%nat →
  ∃ R', is_R R' ∧ key_expansion Nk Nr key w R = Some (expanded Nk Nr key, R') ∧
    cipher Nr inp out (expanded Nk Nr key) = Some (Cipher Nr inp (expanded Nk Nr key)).
Proof.
  intros Hv Hk Hb Hw HR Hi Ho.
  destruct (expansion_of_variant Nk Nr key w R) as (R' & HR' & E & HB & HL); [done..|].
  exists R'. split_and!; [done|done|].
  apply cipher_Cipher; [unfold variant in *; lia|lia|done..].
Qed.

Lemma aes_encrypts_witness :
  ∃ R', is_R R' ∧ key_expansion 4 10 (count_from 0 16) (replicate 176 0) R_init = Some (expanded 4 10 (count_from 0 16), R') ∧
    cipher 10 fips_plain (replicate 16 0) (expanded 4 10 (count_from 0 16))
    = Some (Cipher 10 fips_plain (expanded 4 10 (count_from 0 16))).
Proof.
  apply aes_encrypts; [by left|done|by apply (bool_decide_unpack _); vm_compute|done|by exists 2| |done].
  split; [done|by apply (bool_decide_unpack _); vm_compute].
Defined.

(** C8: Decryption undoes encryption: for the three key lengths, every key
    and every block, [inv_cipher] applied to what [cipher] produced, with the
    round keys of [key_expansion], returns the block. *)
Theorem aes_decrypts Nk Nr key w R inp out out' :
  variant Nk Nr → Z.of_nat (length key) = 4 * Nk → bytes key →
  Z.of_nat (length w) = 16 * (Nr + 1) → is_R R → block inp → length out = 16%nat → length out' = 16%nat →
  ∃ R' ks ct, key_expansion Nk Nr key w R = Some (ks, R') ∧
    cipher Nr inp out ks = Some ct ∧ inv_cipher Nr ct out' ks = Some inp.
Proof.
  intros Hv Hk Hb Hw HR Hi Ho Ho'.
  destruct (expansion_of_variant Nk Nr key w R) as (R' & HR' & E & HB & HL); [done..|].
  assert (1 ≤ Nr) by (unfold variant in *; lia).
  exists R', (expanded Nk Nr key), (Cipher Nr inp (expanded Nk Nr key)). split_and!; [done| |].
  - by apply cipher_Cipher; [lia|lia|..].
  - rewrite inv_cipher_InvCipher; [by rewrite InvCipher_Cipher; [|lia|lia|..]|lia|lia|done| |done].
    by apply Cipher_block; [lia|lia|..].
Qed.

Lemma aes_decrypts_witness :
  ∃ R' ks ct, key_expansion 8 14 (count_from 0 32) (replicate 240 0) R_init = Some (ks, R') ∧
    cipher 14 fips_plain (replicate 16 0) ks = Some ct ∧ inv_cipher 14 ct (replicate 16 7) ks = Some fips_plain.
Proof.
  apply aes_decrypts; [by right; right|done|by apply (bool_decide_unpack _); vm_compute|done|by exists 2| |done|done].
  split; [done|by apply (bool_decide_unpack _); vm_compute].
Defined.

(** ** The target *)
Section session.
Context {S : Type} (serial_read : S → option (Z * S)) (serial_write : list Z → S → S).

(** [main] of the Arduino core calls [loop] for ever: the passes of a list,
    each with the contents its automatic array [w] happens to have. *)
Fixpoint passes (ws : list (list Z)) (g : toe) (s : S) : ending (toe * S) :=
  match ws with
  | [] => Returns (g, s)
  | w :: ws' => '(g, s) ← loop serial_read serial_write w g s; passes ws' g s
  end.

(** The conversation in which each request arrives in full and is followed by
    its reply. *)
Fixpoint conversation (reqs : list (list Z)) (s s' : S) : Prop :=
  match reqs with
  | [] => s = s'
  | req :: reqs' => ∃ s1 r, bytes req ∧ arrives serial_read req s s1 ∧ toe_reply req = Some r ∧
      conversation reqs' (serial_write r s1) s'
  end.

Lemma passes_serve ws reqs g s s' : toe_wf g → Forall (λ w, length w = 176%nat) ws → length ws = length reqs →
  conversation reqs s s' → ∃ g', passes ws g s = Returns (g', s') ∧ toe_wf g'.
Proof.
  intros Hg Hw. revert reqs g Hg s.
  induction Hw as [|w ws Hw _ IH]; intros [|req reqs] g Hg s Hl Hc; try discriminate Hl.
  - cbn in Hc. subst s'. exists g. by split.
  - destruct Hc as (s1 & r & Hb & Ha & Hr & Hc). injection Hl as Hl. cbn [passes].
    destruct (loop_serves serial_read serial_write w g req r s s1) as (g1 & -> & Hg1); [assumption..|].
    cbn [mbind ending_bind]. by apply (IH reqs).
Qed.

(** C22: The target serves its line: from power-up, for any sequence of
    complete requests (an 'a' with a block and a line end, a 't', or any other
    byte), [setup] followed by one pass of [loop] per request sends the banner
    and answers every request in order, an 'a' with the FIPS 197 encryption of
    its block under the target's key, whatever the stack held. *)
Theorem target_serves ws reqs g s s' :
  is_R (R_ g) → length (out g) = 16%nat → length (data g) = 16%nat →
  Forall (λ w, length w = 176%nat) ws → length ws = length reqs →
  conversation reqs (serial_write str_banner s) s' →
  ∃ g', passes ws (setup serial_write g s).1 (setup serial_write g s).2 = Returns (g', s') ∧ toe_wf g'.
Proof.
  intros HR Ho Hd Hw Hl Hc. apply (passes_serve ws reqs); [by split|done..].
Qed.
End session.

(** A serial line for the instance: the bytes that will arrive and those sent. *)
Definition line_read (s : list Z * list Z) : option (Z * (list Z * list Z)) :=
  match s.1 with b :: l => Some (b, (l, s.2)) | [] => None end.
Definition line_write (l : list Z) (s : list Z * list Z) : list Z * list Z := (s.1, s.2 ++ l).
Definition demo_requests : list (list Z) := [[116]; 97 :: fips_plain ++ [10]; [63]].

Lemma target_serves_witness :
  let s : list Z * list Z := (concat demo_requests, []) in
  ∃ g', passes line_read line_write (replicate 3 (replicate 176 0xA5))
      (setup line_write (TOE 0 0 R_init (replicate 16 0) (replicate 16 0)) s).1
      (setup line_write (TOE 0 0 R_init (replicate 16 0) (replicate 16 0)) s).2
    = Returns (g', ([], str_banner ++ str_T ++ Cipher 10 fips_plain round_keys ++ str_Incorrect)) ∧ toe_wf g'.
Proof.
  cbv zeta. apply (target_serves line_read line_write _ demo_requests);
    [by exists 2|done|done|by repeat constructor|done|].
  exists (97 :: fips_plain ++ [10; 63], str_banner), str_T.
  split_and!; [by apply (bool_decide_unpack _); vm_compute|by vm_compute; eauto|done|].
  exists ([63], str_banner ++ str_T), (Cipher 10 fips_plain round_keys).
  split_and!; [by apply (bool_decide_unpack _); vm_compute| |done|].
  { vm_compute. repeat (eexists; split; [reflexivity|]). reflexivity. }
  exists ([], (str_banner ++ str_T) ++ Cipher 10 fips_plain round_keys), str_Incorrect.
  split_and!; [by apply (bool_decide_unpack _); vm_compute|by vm_compute; eauto|done|].
  unfold line_write. cbn [fst snd]. by rewrite <-!app_assoc.
Defined.

(** ** The target on AESLib *)
Section variants.
Context {S : Type} (serial_read : S → option (Z * S)) (serial_write : list Z → S → S).
Context (aes128_enc_single : list Z → list Z → list Z).

(** C38: The two targets cannot be told apart on the line. If AESLib's
    [aes128_enc_single] is AES-128 of one block, then from power-up, whatever
    arrives - complete requests or not - any number of passes of the sketch
    that calls the library reads and writes exactly what as many passes of the
    sketch with its own aes.c read and write, and waits exactly when that one
    waits; neither ever accesses memory outside its arrays. *)
Theorem targets_alike ws g d s :
  (∀ k b, length k = 16%nat → bytes k → block b → aes128_enc_single k b = Cipher 10 b (KeySchedule 4 k 44)) →
  is_R (R_ g) → length (out g) = 16%nat → length (data g) = 16%nat → length d = 16%nat →
  Forall (λ w, length w = 176%nat) ws →
  alike (passes serial_read serial_write ws (setup serial_write g s).1 (setup serial_write g s).2)
    (lib_passes serial_read serial_write aes128_enc_single (length ws) d (lib_setup serial_write s)).
Proof.
  intros Henc HR Ho Hd Hl Hw. change (lib_setup serial_write s) with (setup serial_write g s).2.
  assert (toe_wf (setup serial_write g s).1) as Hg by by split.
  revert Hg. generalize (setup serial_write g s) as p. intros [g1 s1]. cbn [fst snd]. clear s g HR Ho Hd.
  revert g1 s1 d Hl. induction Hw as [|w ws Hw Hws IH]; intros g s d Hl Hg; cbn [passes lib_passes length]; [done|].
  destruct (loops_alike serial_read serial_write aes128_enc_single Henc w g d s Hg Hw Hl) as (Ha & Hg' & Hd').
  destruct (loop serial_read serial_write w g s) as [[g1 s1]| |], (lib_loop serial_read serial_write aes128_enc_single d s) as [[d1 s2]| |];
    cbn [mbind ending_bind]; cbn [alike] in Ha; try done. subst s2. eapply IH; [by eapply Hd'|by eapply Hg'].
Qed.
End variants.

Lemma targets_alike_witness :
  let s : list Z * list Z := (concat demo_requests ++ [97; 1; 2], []) in
  let enc k b := Cipher 10 b (KeySchedule 4 k 44) in
  alike (passes line_read line_write (replicate 4 (replicate 176 0xA5))
      (setup line_write (TOE 0 0 R_init (replicate 16 0) (replicate 16 0)) s).1
      (setup line_write (TOE 0 0 R_init (replicate 16 0) (replicate 16 0)) s).2)
    (lib_passes line_read line_write enc 4 (1 :: replicate 15 0) (lib_setup line_write s)).
Proof.
  apply (targets_alike line_read line_write (λ k b, Cipher 10 b (KeySchedule 4 k 44)) (replicate 4 (replicate 176 0xA5)));
    [done|by exists 2|done..|by repeat constructor].
Defined.

(** ** The tables and the field *)

Lemma s_box_entry y : byte y → rd s_box y = Some (SBox y).
Proof. intros Hy. by rewrite <-s_box_SBox, box_index_id. Qed.
Lemma inv_s_box_entry y : byte y → rd inv_s_box y = Some (InvSBox y).
Proof. intros Hy. by rewrite <-inv_s_box_InvSBox, box_index_id. Qed.

(** The arithmetic is right. [gmult] is multiplication in GF(2^8): on
    bytes it is the carry-less product reduced by x^8 + x^4 + x^3 + x + 1, and
    makes the bytes with [gadd] a field. Entry [a] of [s_box] is [SBox a], the
    affine image of the inverse of [a] in that field, for every byte [a];
    [inv_s_box] undoes [s_box] and [s_box] undoes [inv_s_box]. *)
Theorem field_and_tables a b c : byte a → byte b → byte c →
  (gmult a b = gf_mul a b ∧ byte (gmult a b) ∧ gmult a b = gmult b a ∧
   gmult a (gmult b c) = gmult (gmult a b) c ∧ gmult a (gadd b c) = gadd (gmult a b) (gmult a c) ∧
   gmult a 1 = a ∧ (a ≠ 0 → gmult a (gf_inv a) = 1)) ∧
  (rd s_box a = Some (SBox a) ∧ rd inv_s_box (SBox a) = Some a ∧ (rd inv_s_box a ≫= rd s_box) = Some a).
Proof.
  intros Ha Hb Hc. split; [split_and!|split_and!].
  - by apply gmult_gf_mul.
  - by apply byte_gmult.
  - by apply gmult_comm.
  - by rewrite gmult_assoc.
  - apply gmult_lxor_r.
  - by apply gmult_1_r.
  - by apply gf_inv_inverse.
  - by apply s_box_entry.
  - rewrite inv_s_box_entry by by apply SBox_byte. by rewrite InvSBox_SBox.
  - rewrite inv_s_box_entry by done. cbn [mbind option_bind].
    rewrite s_box_entry by by apply InvSBox_byte. by rewrite InvSBox_onto.
Qed.

Lemma field_and_tables_witness : byte 0x57 ∧ byte 0x83 ∧ byte 0x13 ∧
  (gmult 0x57 0x83 = gf_mul 0x57 0x83 ∧ gf_mul 0x57 0x83 = 0xc1) ∧ (rd s_box 0x57 = Some (SBox 0x57) ∧ SBox 0x57 = 0x5b).
Proof.
  do 3 (split; [by vm_compute|]). split; (split; [|by vm_compute]).
  - by apply (field_and_tables 0x57 0x83 0x13); vm_compute.
  - by apply (field_and_tables 0x57 0x83 0x13); vm_compute.
Defined.

(** The examples of FIPS 197, appendix C: expanding the keys 00 01 02 ...
    of 16, 24 and 32 bytes and encrypting 00 11 22 ... ff gives the published
    cipher texts. *)
Example fips_vectors :
  run_cipher 4 10 (count_from 0 16) fips_plain =
    Some [0x69; 0xc4; 0xe0; 0xd8; 0x6a; 0x7b; 0x04; 0x30; 0xd8; 0xcd; 0xb7; 0x80; 0x70; 0xb4; 0xc5; 0x5a] ∧
  run_cipher 6 12 (count_from 0 24) fips_plain =
    Some [0xdd; 0xa9; 0x7c; 0xa4; 0x86; 0x4c; 0xdf; 0xe0; 0x6e; 0xaf; 0x70; 0xa0; 0xec; 0x0d; 0x71; 0x91] ∧
  run_cipher 8 14 (count_from 0 32) fips_plain =
    Some [0x8e; 0xa2; 0xb7; 0xca; 0x51; 0x67; 0x45; 0xbf; 0xea; 0xfc; 0x49; 0x90; 0x4b; 0x49; 0x60; 0x89].
Proof. split_and!; by vm_compute. Qed.
