(* ===== verification/HIDParser.v ===== *)
(** * The HID report parser of LUFA

    LUFA/Drivers/USB/Class/Common/HIDParser.c, which the firmware's build
    compiles with the class drivers: [USB_ProcessHIDReport], which turns a
    report descriptor into tables of items, collections and report sizes, and
    the functions that move values in and out of reports by these tables.

    Pointers into the parser's tables are indices, [None] the null pointer;
    the report descriptor is the list of the bytes from [ReportData] to the
    end of the object it points into, and reading on behind it is an
    [Overrun]. The filter callback is the application's: a parameter. What
    the automatic variables hold before they are written is a parameter too. *)
From S2P Require Import Prelude.

(** ** Constants (HIDParser.h, HIDReportData.h, HIDClassCommon.h) *)
Definition HID_STATETABLE_STACK_DEPTH : Z := 2.
Definition HID_USAGE_STACK_DEPTH : Z := 8.
Definition HID_MAX_COLLECTIONS : Z := 10.
Definition HID_MAX_REPORTITEMS : Z := 20.
Definition HID_MAX_REPORT_IDS : Z := 10.

Definition HID_PARSE_Successful : Z := 0.
Definition HID_PARSE_HIDStackOverflow : Z := 1.
Definition HID_PARSE_HIDStackUnderflow : Z := 2.
Definition HID_PARSE_InsufficientReportItems : Z := 3.
Definition HID_PARSE_UnexpectedEndCollection : Z := 4.
Definition HID_PARSE_InsufficientCollectionPaths : Z := 5.
Definition HID_PARSE_UsageListOverflow : Z := 6.
Definition HID_PARSE_InsufficientReportIDItems : Z := 7.
Definition HID_PARSE_NoUnfilteredReportItems : Z := 8.

Definition HID_RI_DATA_SIZE_MASK : Z := 0x03.
Definition HID_RI_TYPE_MASK : Z := 0x0C.
Definition HID_RI_TAG_MASK : Z := 0xF0.
Definition HID_RI_TYPE_MAIN : Z := 0x00.
Definition HID_RI_TYPE_GLOBAL : Z := 0x04.
Definition HID_RI_TYPE_LOCAL : Z := 0x08.
Definition HID_RI_DATA_BITS_8 : Z := 0x01.
Definition HID_RI_DATA_BITS_16 : Z := 0x02.
Definition HID_RI_DATA_BITS_32 : Z := 0x03.
Definition HID_IOF_CONSTANT : Z := 1 << 0.

(** [HID_RI_INPUT(0)] and so on: type and tag without data. *)
Definition HID_RI_INPUT : Z := HID_RI_TYPE_MAIN .| 0x80.
Definition HID_RI_OUTPUT : Z := HID_RI_TYPE_MAIN .| 0x90.
Definition HID_RI_COLLECTION : Z := HID_RI_TYPE_MAIN .| 0xA0.
Definition HID_RI_FEATURE : Z := HID_RI_TYPE_MAIN .| 0xB0.
Definition HID_RI_END_COLLECTION : Z := HID_RI_TYPE_MAIN .| 0xC0.
Definition HID_RI_USAGE_PAGE : Z := HID_RI_TYPE_GLOBAL .| 0x00.
Definition HID_RI_LOGICAL_MINIMUM : Z := HID_RI_TYPE_GLOBAL .| 0x10.
Definition HID_RI_LOGICAL_MAXIMUM : Z := HID_RI_TYPE_GLOBAL .| 0x20.
Definition HID_RI_PHYSICAL_MINIMUM : Z := HID_RI_TYPE_GLOBAL .| 0x30.
Definition HID_RI_PHYSICAL_MAXIMUM : Z := HID_RI_TYPE_GLOBAL .| 0x40.
Definition HID_RI_UNIT_EXPONENT : Z := HID_RI_TYPE_GLOBAL .| 0x50.
Definition HID_RI_UNIT : Z := HID_RI_TYPE_GLOBAL .| 0x60.
Definition HID_RI_REPORT_SIZE : Z := HID_RI_TYPE_GLOBAL .| 0x70.
Definition HID_RI_REPORT_ID : Z := HID_RI_TYPE_GLOBAL .| 0x80.
Definition HID_RI_REPORT_COUNT : Z := HID_RI_TYPE_GLOBAL .| 0x90.
Definition HID_RI_PUSH : Z := HID_RI_TYPE_GLOBAL .| 0xA0.
Definition HID_RI_POP : Z := HID_RI_TYPE_GLOBAL .| 0xB0.
Definition HID_RI_USAGE : Z := HID_RI_TYPE_LOCAL .| 0x00.
Definition HID_RI_USAGE_MINIMUM : Z := HID_RI_TYPE_LOCAL .| 0x10.
Definition HID_RI_USAGE_MAXIMUM : Z := HID_RI_TYPE_LOCAL .| 0x20.

Definition HID_REPORT_ITEM_In : Z := 0.
Definition HID_REPORT_ITEM_Out : Z := 1.
Definition HID_REPORT_ITEM_Feature : Z := 2.

(** ** Data *)
Record HID_MinMax_t := HID_MinMax { Minimum : Z; Maximum : Z }.
Record HID_Unit_t := HID_Unit { Unit_Type : Z; Exponent : Z }.
Record HID_Usage_t := HID_Usage { Page : Z; Usage : Z }.
Record HID_CollectionPath_t := HID_CollectionPath { CP_Type : Z; CP_Usage : HID_Usage_t; Parent : option Z }.
Record HID_ReportItem_Attributes_t := HID_ReportItem_Attributes {
  BitSize : Z; A_Usage : HID_Usage_t; A_Unit : HID_Unit_t; Logical : HID_MinMax_t; Physical : HID_MinMax_t }.
Record HID_ReportItem_t := HID_ReportItem {
  BitOffset : Z; ItemType : Z; ItemFlags : Z; ReportID : Z; CollectionPath : option Z;
  Attributes : HID_ReportItem_Attributes_t; Value : Z; PreviousValue : Z }.
Record HID_ReportSizeInfo_t := HID_ReportSizeInfo { RS_ReportID : Z; ReportSizeBits : list Z }.
Record HID_ReportInfo_t := HID_ReportInfo {
  TotalReportItems : Z; ReportItems : list HID_ReportItem_t; CollectionPaths : list HID_CollectionPath_t;
  TotalDeviceReports : Z; ReportIDSizes : list HID_ReportSizeInfo_t;
  LargestReportSizeBits : Z; UsingReportIDs : bool }.
Record HID_StateTable_t := HID_StateTable {
  ST_Attributes : HID_ReportItem_Attributes_t; ReportCount : Z; ST_ReportID : Z }.

(** [sizeof] on a target without padding and with 2-byte pointers. *)
Definition sizeof_HID_StateTable_t : Z := (1 + 4 + 5 + 8 + 8) + 1 + 1.
Definition sizeof_HID_ReportItem_t : Z := 2 + 1 + 2 + 1 + 2 + (1 + 4 + 5 + 8 + 8) + 4 + 4.

(** What [memset(.., 0x00, ..)] leaves. *)
Definition zero_MinMax := HID_MinMax 0 0.
Definition zero_Attributes := HID_ReportItem_Attributes 0 (HID_Usage 0 0) (HID_Unit 0 0) zero_MinMax zero_MinMax.
Definition zero_Item := HID_ReportItem 0 0 0 0 None zero_Attributes 0 0.
Definition zero_SizeInfo := HID_ReportSizeInfo 0 [0; 0; 0].
Definition zero_StateTable := HID_StateTable zero_Attributes 0 0.
Definition zero_Info : HID_ReportInfo_t :=
  HID_ReportInfo 0 (replicate 20 zero_Item) (replicate 10 (HID_CollectionPath 0 (HID_Usage 0 0) None))
    0 (replicate 10 zero_SizeInfo) 0 false.

(** The variables of [USB_ProcessHIDReport]. *)
Record parser := Parser {
  StateTable : list HID_StateTable_t; CurrStateTable : Z;
  CurrCollectionPath : option Z; CurrReportIDInfo : Z;
  UsageList : list Z; UsageListSize : Z; UsageMinMax : HID_MinMax_t;
  ParserData : HID_ReportInfo_t }.

(** How a step ends: the parse goes on, the function returns an error code, or
    it accesses memory outside an object. *)
Inductive parse (A : Type) :=
  | Go (a : A)
  | Return (code : Z) (info : HID_ReportInfo_t)
  | Overrun.
Arguments Go {A} _.
Arguments Return {A} _ _.
Arguments Overrun {A}.

#[export] Instance parse_ret : MRet parse := @Go.
#[export] Instance parse_bind : MBind parse := λ A B k m,
  match m with Go a => k a | Return c i => Return c i | Overrun => Overrun end.
Definition inside {A} (o : option A) : parse A := match o with Some a => Go a | None => Overrun end.

Definition set_StateTable v s := Parser v (CurrStateTable s) (CurrCollectionPath s) (CurrReportIDInfo s)
  (UsageList s) (UsageListSize s) (UsageMinMax s) (ParserData s).
Definition set_CurrStateTable v s := Parser (StateTable s) v (CurrCollectionPath s) (CurrReportIDInfo s)
  (UsageList s) (UsageListSize s) (UsageMinMax s) (ParserData s).
Definition set_CurrCollectionPath v s := Parser (StateTable s) (CurrStateTable s) v (CurrReportIDInfo s)
  (UsageList s) (UsageListSize s) (UsageMinMax s) (ParserData s).
Definition set_CurrReportIDInfo v s := Parser (StateTable s) (CurrStateTable s) (CurrCollectionPath s) v
  (UsageList s) (UsageListSize s) (UsageMinMax s) (ParserData s).
Definition set_UsageList v n s := Parser (StateTable s) (CurrStateTable s) (CurrCollectionPath s) (CurrReportIDInfo s)
  v n (UsageMinMax s) (ParserData s).
Definition set_UsageMinMax v s := Parser (StateTable s) (CurrStateTable s) (CurrCollectionPath s) (CurrReportIDInfo s)
  (UsageList s) (UsageListSize s) v (ParserData s).
Definition set_ParserData v s := Parser (StateTable s) (CurrStateTable s) (CurrCollectionPath s) (CurrReportIDInfo s)
  (UsageList s) (UsageListSize s) (UsageMinMax s) v.

Definition set_Items n l i := HID_ReportInfo n l (CollectionPaths i) (TotalDeviceReports i) (ReportIDSizes i)
  (LargestReportSizeBits i) (UsingReportIDs i).
Definition set_CollectionPaths v i := HID_ReportInfo (TotalReportItems i) (ReportItems i) v (TotalDeviceReports i)
  (ReportIDSizes i) (LargestReportSizeBits i) (UsingReportIDs i).
Definition set_TotalDeviceReports v i := HID_ReportInfo (TotalReportItems i) (ReportItems i) (CollectionPaths i) v
  (ReportIDSizes i) (LargestReportSizeBits i) (UsingReportIDs i).
Definition set_ReportIDSizes v i := HID_ReportInfo (TotalReportItems i) (ReportItems i) (CollectionPaths i)
  (TotalDeviceReports i) v (LargestReportSizeBits i) (UsingReportIDs i).
Definition set_Largest v i := HID_ReportInfo (TotalReportItems i) (ReportItems i) (CollectionPaths i)
  (TotalDeviceReports i) (ReportIDSizes i) v (UsingReportIDs i).
Definition set_UsingReportIDs v i := HID_ReportInfo (TotalReportItems i) (ReportItems i) (CollectionPaths i)
  (TotalDeviceReports i) (ReportIDSizes i) (LargestReportSizeBits i) v.
Definition set_RS_ReportID v r := HID_ReportSizeInfo v (ReportSizeBits r).
Definition set_ReportSizeBits v r := HID_ReportSizeInfo (RS_ReportID r) v.

Definition set_Page v a := HID_ReportItem_Attributes (BitSize a) (HID_Usage v (Usage (A_Usage a))) (A_Unit a) (Logical a) (Physical a).
Definition set_Usage v a := HID_ReportItem_Attributes (BitSize a) (HID_Usage (Page (A_Usage a)) v) (A_Unit a) (Logical a) (Physical a).
Definition set_BitSize v a := HID_ReportItem_Attributes v (A_Usage a) (A_Unit a) (Logical a) (Physical a).
Definition set_Exponent v a := HID_ReportItem_Attributes (BitSize a) (A_Usage a) (HID_Unit (Unit_Type (A_Unit a)) v) (Logical a) (Physical a).
Definition set_Unit_Type v a := HID_ReportItem_Attributes (BitSize a) (A_Usage a) (HID_Unit v (Exponent (A_Unit a))) (Logical a) (Physical a).
Definition set_LMin v a := HID_ReportItem_Attributes (BitSize a) (A_Usage a) (A_Unit a) (HID_MinMax v (Maximum (Logical a))) (Physical a).
Definition set_LMax v a := HID_ReportItem_Attributes (BitSize a) (A_Usage a) (A_Unit a) (HID_MinMax (Minimum (Logical a)) v) (Physical a).
Definition set_PMin v a := HID_ReportItem_Attributes (BitSize a) (A_Usage a) (A_Unit a) (Logical a) (HID_MinMax v (Maximum (Physical a))).
Definition set_PMax v a := HID_ReportItem_Attributes (BitSize a) (A_Usage a) (A_Unit a) (Logical a) (HID_MinMax (Minimum (Physical a)) v).

Definition map_Attributes f t := HID_StateTable (f (ST_Attributes t)) (ReportCount t) (ST_ReportID t).
Definition set_ReportCount v t := HID_StateTable (ST_Attributes t) v (ST_ReportID t).
Definition set_ST_ReportID v t := HID_StateTable (ST_Attributes t) (ReportCount t) v.

(** [*CurrStateTable], read and changed. *)
Definition current (s : parser) : parse HID_StateTable_t := inside (rd (StateTable s) (CurrStateTable s)).
Definition mod_current (f : HID_StateTable_t → HID_StateTable_t) (s : parser) : parse parser :=
  t ← current s;
  l ← inside (wr (StateTable s) (CurrStateTable s) (f t));
  Go (set_StateTable l s).
Definition attribute (f : HID_ReportItem_Attributes_t → HID_ReportItem_Attributes_t) : parser → parse parser :=
  mod_current (map_Attributes f).
Definition return_ {A} (code : Z) (s : parser) : parse A := Return code (ParserData s).

(** ** The items *)

(** [memcpy] of [n] bytes from entry [src] of the state table to the entry
    behind it. A copy of more than one entry overlaps its source, which is
    undefined; a shorter one does not occur. *)
Definition memcpy_next (l : list HID_StateTable_t) (src n : Z) : option (list HID_StateTable_t) :=
  if n =? sizeof_HID_StateTable_t then t ← rd l src; wr l (src + 1) t else None.

Definition item_push (s : parser) : parse parser :=
  if CurrStateTable s =? HID_STATETABLE_STACK_DEPTH - 1 then return_ HID_PARSE_HIDStackOverflow s
  else
    l ← inside (memcpy_next (StateTable s) (CurrStateTable s) sizeof_HID_ReportItem_t);
    Go (set_CurrStateTable (CurrStateTable s + 1) (set_StateTable l s)).

Definition item_pop (s : parser) : parse parser :=
  if CurrStateTable s =? 0 then return_ HID_PARSE_HIDStackUnderflow s
  else Go (set_CurrStateTable (CurrStateTable s - 1) s).

(** [Page] is a [uint16_t]; the second assignment is made in both cases. *)
Definition item_usage_page (HIDReportItem data : Z) (s : parser) : parse parser :=
  s ← (if HIDReportItem .& HID_RI_DATA_SIZE_MASK =? HID_RI_DATA_BITS_32
       then attribute (set_Page (u16 (data >> 16))) s else Go s);
  attribute (set_Page (u16 data)) s.

(** The search for a report ID among the first [n] reports from index [i]. *)
Fixpoint find_report (l : list HID_ReportSizeInfo_t) (id : Z) (n : nat) (i : Z) : parse (option Z) :=
  match n with
  | O => Go None
  | S n' =>
      r ← inside (rd l i);
      if RS_ReportID r =? id then Go (Some i) else find_report l id n' (i + 1)
  end.

(** The report of the current ID: the one in use, a known one or a new one. *)
Definition select_report (id : Z) (s : parser) : parse parser :=
  let p := ParserData s in
  if UsingReportIDs p then
    k ← find_report (ReportIDSizes p) id (Z.to_nat (TotalDeviceReports p)) 0;
    match k with
    | Some i => Go (set_CurrReportIDInfo i s)
    | None =>
        if TotalDeviceReports p =? HID_MAX_REPORT_IDS then return_ HID_PARSE_InsufficientReportIDItems s
        else
          l ← inside (wr (ReportIDSizes p) (TotalDeviceReports p) zero_SizeInfo);
          Go (set_CurrReportIDInfo (TotalDeviceReports p)
                (set_ParserData (set_ReportIDSizes l (set_TotalDeviceReports (u8 (TotalDeviceReports p + 1)) p)) s))
    end
  else Go s.

Definition item_report_id (data : Z) (s : parser) : parse parser :=
  s ← mod_current (set_ST_ReportID (u8 data)) s;
  t ← current s;
  s ← select_report (ST_ReportID t) s;
  let p := set_UsingReportIDs true (ParserData s) in
  r ← inside (rd (ReportIDSizes p) (CurrReportIDInfo s));
  l ← inside (wr (ReportIDSizes p) (CurrReportIDInfo s) (set_RS_ReportID (ST_ReportID t) r));
  Go (set_ParserData (set_ReportIDSizes l p) s).

Definition item_usage (data : Z) (s : parser) : parse parser :=
  if UsageListSize s =? HID_USAGE_STACK_DEPTH then return_ HID_PARSE_UsageListOverflow s
  else
    l ← inside (wr (UsageList s) (UsageListSize s) (u16 data));
    Go (set_UsageList l (u8 (UsageListSize s + 1)) s).

(** The next usage, taken from the list or from the range, if there is one. *)
Definition next_usage (s : parser) : parse (option Z * parser) :=
  if negb (UsageListSize s =? 0) then
    u ← inside (rd (UsageList s) 0);
    l ← inside (for_up 1 (UsageListSize s) (λ i l, x ← rd l i; wr l (i - 1) x) (UsageList s));
    Go (Some u, set_UsageList l (UsageListSize s - 1) s)
  else
    let m := UsageMinMax s in
    if Minimum m <=? Maximum m
    then Go (Some (u16 (Minimum m)), set_UsageMinMax (HID_MinMax (u32 (Minimum m + 1)) (Maximum m)) s)
    else Go (None, s).

(** The first collection without a parent from index [k]; [n] bounds the rest
    of the table. *)
Fixpoint free_path (l : list HID_CollectionPath_t) (n : nat) (k : Z) : parse (option Z) :=
  c ← inside (rd l k);
  match Parent c with
  | None => Go (Some k)
  | Some _ =>
      if k =? HID_MAX_COLLECTIONS - 1 then Go None
      else match n with O => Overrun | S n' => free_path l n' (k + 1) end
  end.

Definition set_Parent v c := HID_CollectionPath (CP_Type c) (CP_Usage c) v.
Definition set_Type_Page t p c := HID_CollectionPath t (HID_Usage p (Usage (CP_Usage c))) (Parent c).
Definition set_CP_Usage u c := HID_CollectionPath (CP_Type c) (HID_Usage (Page (CP_Usage c)) u) (Parent c).

Definition mod_path (f : HID_CollectionPath_t → HID_CollectionPath_t) (k : Z) (s : parser) : parse parser :=
  let p := ParserData s in
  c ← inside (rd (CollectionPaths p) k);
  l ← inside (wr (CollectionPaths p) k (f c));
  Go (set_ParserData (set_CollectionPaths l p) s).

(** A collection's table entry: the first one for a root, a free one with its
    parent otherwise. *)
Definition open_path (s : parser) : parse (Z * parser) :=
  match CurrCollectionPath s with
  | None => Go (0, set_CurrCollectionPath (Some 0) s)
  | Some parent =>
      k ← free_path (CollectionPaths (ParserData s)) (Z.to_nat HID_MAX_COLLECTIONS) 1;
      match k with
      | None => return_ HID_PARSE_InsufficientCollectionPaths s
      | Some k => s ← mod_path (set_Parent (Some parent)) k s; Go (k, set_CurrCollectionPath (Some k) s)
      end
  end.

Definition item_collection (data : Z) (s : parser) : parse parser :=
  '(k, s) ← open_path s;
  t ← current s;
  s ← mod_path (set_Type_Page (u8 data) (Page (A_Usage (ST_Attributes t)))) k s;
  '(u, s) ← next_usage s;
  match u with Some u => mod_path (set_CP_Usage u) k s | None => Go s end.

Definition item_end_collection (s : parser) : parse parser :=
  match CurrCollectionPath s with
  | None => return_ HID_PARSE_UnexpectedEndCollection s
  | Some k =>
      c ← inside (rd (CollectionPaths (ParserData s)) k);
      Go (set_CurrCollectionPath (Parent c) s)
  end.

Section Callback.
Context (CALLBACK_HIDParser_FilterHIDReportItem : HID_ReportItem_t → bool).
(** [Value] and [PreviousValue] of the automatic [NewReportItem], which are
    never set, in the iteration [ReportItemNum] with [ReportSize] bytes of the
    descriptor left. *)
Context (uninitialised : Z → Z → Z * Z).

Definition item_type (ItemTypeTag : Z) : Z :=
  if ItemTypeTag =? HID_RI_INPUT then HID_REPORT_ITEM_In
  else if ItemTypeTag =? HID_RI_OUTPUT then HID_REPORT_ITEM_Out
  else HID_REPORT_ITEM_Feature.

(** The bit offset of a new item, and the report grown by the item. *)
Definition grow_report (ty BitSize : Z) (s : parser) : parse (Z * parser) :=
  let p := ParserData s in
  r ← inside (rd (ReportIDSizes p) (CurrReportIDInfo s));
  off ← inside (rd (ReportSizeBits r) ty);
  let new := u16 (off + BitSize) in
  b ← inside (wr (ReportSizeBits r) ty new);
  l ← inside (wr (ReportIDSizes p) (CurrReportIDInfo s) (set_ReportSizeBits b r));
  Go (off, set_ParserData (set_Largest (Z.max (LargestReportSizeBits p) new) (set_ReportIDSizes l p)) s).

(** The new item is stored, and kept if it is neither constant nor filtered. *)
Definition store_item (data : Z) (item : HID_ReportItem_t) (s : parser) : parse parser :=
  let p := ParserData s in
  if TotalReportItems p =? HID_MAX_REPORTITEMS then return_ HID_PARSE_InsufficientReportItems s
  else
    l ← inside (wr (ReportItems p) (TotalReportItems p) item);
    let n := if negb (tst data HID_IOF_CONSTANT) && CALLBACK_HIDParser_FilterHIDReportItem item
             then u8 (TotalReportItems p + 1) else TotalReportItems p in
    Go (set_ParserData (set_Items n l p) s).

(** One iteration of the loop over the items of a report. *)
Definition report_item (HIDReportItem data : Z) (junk : Z * Z) (s : parser) : parse parser :=
  t ← current s;
  '(u, s) ← next_usage s;
  let attributes := match u with Some u => set_Usage u (ST_Attributes t) | None => ST_Attributes t end in
  let ty := item_type (HIDReportItem .& (HID_RI_TYPE_MASK .| HID_RI_TAG_MASK)) in
  '(off, s) ← grow_report ty (BitSize (ST_Attributes t)) s;
  store_item data
    (HID_ReportItem off ty (u16 data) (ST_ReportID t) (CurrCollectionPath s) attributes junk.1 junk.2) s.

(** [for (ReportItemNum = i; ReportItemNum < CurrStateTable->ReportCount; ReportItemNum++)];
    no iteration changes the state table. *)
Fixpoint report_items (HIDReportItem ReportSize data : Z) (n : nat) (i : Z) (s : parser) : parse parser :=
  match n with
  | O => Go s
  | S n' =>
      s ← report_item HIDReportItem data (uninitialised ReportSize i) s;
      report_items HIDReportItem ReportSize data n' (i + 1) s
  end.

(** The [switch] on the type and tag of an item. *)
Definition item_switch (HIDReportItem ReportSize data : Z) (s : parser) : parse parser :=
  let tag := HIDReportItem .& (HID_RI_TYPE_MASK .| HID_RI_TAG_MASK) in
  if tag =? HID_RI_PUSH then item_push s
  else if tag =? HID_RI_POP then item_pop s
  else if tag =? HID_RI_USAGE_PAGE then item_usage_page HIDReportItem data s
  else if tag =? HID_RI_LOGICAL_MINIMUM then attribute (set_LMin data) s
  else if tag =? HID_RI_LOGICAL_MAXIMUM then attribute (set_LMax data) s
  else if tag =? HID_RI_PHYSICAL_MINIMUM then attribute (set_PMin data) s
  else if tag =? HID_RI_PHYSICAL_MAXIMUM then attribute (set_PMax data) s
  else if tag =? HID_RI_UNIT_EXPONENT then attribute (set_Exponent (u8 data)) s
  else if tag =? HID_RI_UNIT then attribute (set_Unit_Type data) s
  else if tag =? HID_RI_REPORT_SIZE then attribute (set_BitSize (u8 data)) s
  else if tag =? HID_RI_REPORT_COUNT then mod_current (set_ReportCount (u8 data)) s
  else if tag =? HID_RI_REPORT_ID then item_report_id data s
  else if tag =? HID_RI_USAGE then item_usage data s
  else if tag =? HID_RI_USAGE_MINIMUM then Go (set_UsageMinMax (HID_MinMax data (Maximum (UsageMinMax s))) s)
  else if tag =? HID_RI_USAGE_MAXIMUM then Go (set_UsageMinMax (HID_MinMax (Minimum (UsageMinMax s)) data) s)
  else if tag =? HID_RI_COLLECTION then item_collection data s
  else if tag =? HID_RI_END_COLLECTION then item_end_collection s
  else if (tag =? HID_RI_INPUT) || (tag =? HID_RI_OUTPUT) || (tag =? HID_RI_FEATURE) then
    t ← current s;
    report_items HIDReportItem ReportSize data (Z.to_nat (ReportCount t)) 0 s
  else Go s.

(** An item: the [switch], and the reset of the local state by a main item. *)
Definition item (HIDReportItem ReportSize data : Z) (s : parser) : parse parser :=
  s ← item_switch HIDReportItem ReportSize data s;
  if HIDReportItem .& HID_RI_TYPE_MASK =? HID_RI_TYPE_MAIN
  then Go (set_UsageMinMax (HID_MinMax 0 0) (set_UsageList (UsageList s) 0 s))
  else Go s.

(** [while (ReportSize)]: the bytes left of the object and [ReportSize], a
    [uint16_t] that the subtractions wrap. *)
Fixpoint items (ReportData : list Z) (ReportSize : Z) (s : parser) : parse parser :=
  if ReportSize =? 0 then Go s
  else
    match ReportData with
    | [] => Overrun
    | HIDReportItem :: r =>
        let n := u16 (ReportSize - 1) in
        let bits := HIDReportItem .& HID_RI_DATA_SIZE_MASK in
        if bits =? HID_RI_DATA_BITS_32 then
          match r with
          | d0 :: d1 :: d2 :: d3 :: r' =>
              s ← item HIDReportItem (u16 (n - 4)) ((d3 << 24) .| (d2 << 16) .| (d1 << 8) .| d0) s;
              items r' (u16 (n - 4)) s
          | _ => Overrun
          end
        else if bits =? HID_RI_DATA_BITS_16 then
          match r with
          | d0 :: d1 :: r' =>
              s ← item HIDReportItem (u16 (n - 2)) ((d1 << 8) .| d0) s;
              items r' (u16 (n - 2)) s
          | _ => Overrun
          end
        else if bits =? HID_RI_DATA_BITS_8 then
          match r with
          | d0 :: r' => s ← item HIDReportItem (u16 (n - 1)) d0 s; items r' (u16 (n - 1)) s
          | _ => Overrun
          end
        else s ← item HIDReportItem n 0 s; items r n s
    end.

(** The state before the first item; [state1] and [usages] are what the
    automatic arrays hold. *)
Definition parser_init (state1 : HID_StateTable_t) (usages : list Z) : parser :=
  Parser [zero_StateTable; state1] 0 None 0 usages 0 zero_MinMax (set_TotalDeviceReports 1 zero_Info).

(** The return code and [*ParserData], [None] for an access out of range. *)
Definition USB_ProcessHIDReport (state1 : HID_StateTable_t) (usages : list Z)
    (ReportData : list Z) (ReportSize : Z) : option (Z * HID_ReportInfo_t) :=
  match items ReportData ReportSize (parser_init state1 usages) with
  | Go s =>
      Some (if TotalReportItems (ParserData s) =? 0 then HID_PARSE_NoUnfilteredReportItems
            else HID_PARSE_Successful, ParserData s)
  | Return c i => Some (c, i)
  | Overrun => None
  end.

End Callback.

(** ** Values in reports *)
Definition set_Value v i := HID_ReportItem (BitOffset i) (ItemType i) (ItemFlags i) (ReportID i) (CollectionPath i)
  (Attributes i) v (PreviousValue i).
Definition set_PreviousValue v i := HID_ReportItem (BitOffset i) (ItemType i) (ItemFlags i) (ReportID i)
  (CollectionPath i) (Attributes i) (Value i) v.

(** [ReportData++] behind the report ID moves the base by one. *)
Definition report_base (i : HID_ReportItem_t) : Z := if negb (ReportID i =? 0) then 1 else 0.

Fixpoint get_bits (ReportData : list Z) (base : Z) (DataBitsRem : nat) (CurrentBit BitMask v : Z) : option Z :=
  match DataBitsRem with
  | O => Some v
  | S n =>
      x ← rd ReportData (base + CurrentBit / 8);
      get_bits ReportData base n (u16 (CurrentBit + 1)) (u32 (BitMask << 1))
        (if tst x (1 << (CurrentBit mod 8)) then v .| BitMask else v)
  end.

(** [None] for the null pointer; the result is the item and the return value. *)
Definition USB_GetHIDReportItemInfo (ReportData : list Z) (ReportItem : option HID_ReportItem_t)
    : option (bool * option HID_ReportItem_t) :=
  match ReportItem with
  | None => Some (false, None)
  | Some i =>
      first ← (if negb (ReportID i =? 0) then rd ReportData 0 else Some 0);
      if negb (ReportID i =? 0) && negb (ReportID i =? first) then Some (false, Some i)
      else
        v ← get_bits ReportData (report_base i) (Z.to_nat (BitSize (Attributes i))) (BitOffset i) 1 0;
        Some (true, Some (set_Value v (set_PreviousValue (Value i) i)))
  end.

Fixpoint set_bits (ReportData : list Z) (base v : Z) (DataBitsRem : nat) (CurrentBit BitMask : Z) : option (list Z) :=
  match DataBitsRem with
  | O => Some ReportData
  | S n =>
      ReportData ← (if tst v BitMask then
                      x ← rd ReportData (base + CurrentBit / 8);
                      wr ReportData (base + CurrentBit / 8) (x .| (1 << (CurrentBit mod 8)))
                    else Some ReportData);
      set_bits ReportData base v n (u16 (CurrentBit + 1)) (u32 (BitMask << 1))
  end.

Definition USB_SetHIDReportItemInfo (ReportData : list Z) (ReportItem : option HID_ReportItem_t)
    : option (list Z * option HID_ReportItem_t) :=
  match ReportItem with
  | None => Some (ReportData, None)
  | Some i =>
      ReportData ← (if negb (ReportID i =? 0) then wr ReportData 0 (ReportID i) else Some ReportData);
      ReportData ← set_bits ReportData (report_base i) (Value i) (Z.to_nat (BitSize (Attributes i))) (BitOffset i) 1;
      Some (ReportData, Some (set_PreviousValue (Value i) i))
  end.

(** The search of [USB_GetHIDReportSize] through all entries of the table. *)
Fixpoint report_size (l : list HID_ReportSizeInfo_t) (id ty : Z) (n : nat) (i : Z) : option Z :=
  match n with
  | O => Some 0
  | S n' =>
      r ← rd l i;
      bits ← rd (ReportSizeBits r) ty;
      if RS_ReportID r =? id then Some (bits / 8 + (if negb (bits mod 8 =? 0) then 1 else 0))
      else report_size l id ty n' (i + 1)
  end.
Definition USB_GetHIDReportSize (ParserData : HID_ReportInfo_t) (id ReportType : Z) : option Z :=
  report_size (ReportIDSizes ParserData) id ReportType (Z.to_nat HID_MAX_REPORT_IDS) 0.
