(* ===== verification/HIDSpec.v ===== *)
(** * The HID report parser keeps its tables in order

    The invariant of the parser's tables and its preservation by every item,
    the equations of the item loop on a sequence of whole items, and the bits
    of a report as the item accessors see them. *)
From S2P Require Import Prelude HIDParser.

(** ** Invariant *)
Definition path_in (n : Z) (o : option Z) : Prop := match o with None => True | Some k => 0 ≤ k < n end.

(** The collections in use are 0 to [n - 1]: 0 is a root, every other one has
    an earlier one as its parent; the entries from [n] on are free. *)
Record forest (n : Z) (l : list HID_CollectionPath_t) : Prop := {
  fo_length : length l = 10%nat;
  fo_range : 1 ≤ n ≤ 10;
  fo_root : ∀ c, l !! 0%nat = Some c → Parent c = None;
  fo_used : ∀ k c, 0 < Z.of_nat k < n → l !! k = Some c → ∃ p, Parent c = Some p ∧ 0 ≤ p < Z.of_nat k;
  fo_free : ∀ k c, n ≤ Z.of_nat k → l !! k = Some c → Parent c = None }.

Definition sizes_ok (r : HID_ReportSizeInfo_t) : Prop :=
  length (ReportSizeBits r) = 3%nat ∧ Forall word16 (ReportSizeBits r).
Definition state_ok (t : HID_StateTable_t) : Prop := byte (ReportCount t) ∧ byte (BitSize (ST_Attributes t)).

Section Invariant.
Context (filter : HID_ReportItem_t → bool).

(** An item that was kept. *)
Record item_ok (n : Z) (i : HID_ReportItem_t) : Prop := {
  io_path : path_in n (CollectionPath i);
  io_data : tst (ItemFlags i) HID_IOF_CONSTANT = false;
  io_kept : filter i = true;
  io_type : 0 ≤ ItemType i ≤ 2;
  io_bits : word16 (BitOffset i) ∧ byte (BitSize (Attributes i)) }.

Record info_ok (n : Z) (p : HID_ReportInfo_t) : Prop := {
  ri_total : 0 ≤ TotalReportItems p ≤ 20;
  ri_items : length (ReportItems p) = 20%nat;
  ri_kept : Forall (item_ok n) (take (Z.to_nat (TotalReportItems p)) (ReportItems p));
  ri_paths : forest n (CollectionPaths p);
  ri_reports : 1 ≤ TotalDeviceReports p ≤ 10;
  ri_sizes : length (ReportIDSizes p) = 10%nat ∧ Forall sizes_ok (ReportIDSizes p);
  ri_largest : word16 (LargestReportSizeBits p) }.

Record parser_ok (n : Z) (s : parser) : Prop := {
  po_info : info_ok n (ParserData s);
  po_path : path_in n (CurrCollectionPath s);
  po_table : length (StateTable s) = 2%nat ∧ Forall state_ok (StateTable s);
  po_current : CurrStateTable s = 0;
  po_report : 0 ≤ CurrReportIDInfo s < TotalDeviceReports (ParserData s);
  po_usages : length (UsageList s) = 8%nat;
  po_size : 0 ≤ UsageListSize s ≤ 8 }.

(** A step that goes on in [P], or returns an error code with the tables in
    order; it never leaves an object. *)
Definition good {A} (P : A → Prop) (r : parse A) : Prop :=
  match r with
  | Go a => P a
  | Return c i => 1 ≤ c ≤ 7 ∧ ∃ n, info_ok n i
  | Overrun => False
  end.
Definition some_ok (s : parser) : Prop := ∃ n, parser_ok n s.

Lemma good_bind {A B} (P : A → Prop) (Q : B → Prop) m (k : A → parse B) :
  good P m → (∀ a, P a → good Q (k a)) → good Q (m ≫= k).
Proof. destruct m; cbn; [auto|done|done]. Qed.

Lemma good_weaken {A} (P Q : A → Prop) m : good P m → (∀ a, P a → Q a) → good Q m.
Proof. destruct m; cbn; auto. Qed.

Lemma good_return {A} (P : A → Prop) n s c : parser_ok n s → 1 ≤ c ≤ 7 → good P (return_ c s).
Proof. intros H Hc. split; [done|]. exists n. apply H. Qed.

Lemma good_rd {A} (P : A → Prop) (Q : A → Prop) l i :
  0 ≤ i < Z.of_nat (length l) → Forall Q l → (∀ x, l !! Z.to_nat i = Some x → Q x → P x) → good P (inside (rd l i)).
Proof.
  intros Hi HQ HP. destruct (lookup_lt_is_Some_2 l (Z.to_nat i)) as [x Hx]; [lia|].
  assert (rd l i = Some x) as -> by (apply rd_Some; split; [lia|done]).
  apply HP; [done|]. by eapply Forall_lookup_1.
Qed.

Lemma good_wr {A} (P : list A → Prop) l i x :
  0 ≤ i < Z.of_nat (length l) → P (<[Z.to_nat i := x]> l) → good P (inside (wr l i x)).
Proof. intros Hi HP. by rewrite wr_Some. Qed.

(** ** The state table and the usages *)
Lemma current_good n s : parser_ok n s → good state_ok (current s).
Proof.
  intros H. destruct (po_table n s H) as [Hl Hf]. pose proof (po_current n s H).
  apply (good_rd _ state_ok); [lia|done|auto].
Qed.

Lemma mod_current_good n s f : parser_ok n s → (∀ t, state_ok t → state_ok (f t)) →
  good (parser_ok n) (mod_current f s).
Proof.
  intros H Hf. destruct (po_table n s H) as [Hl Hs]. pose proof (po_current n s H).
  eapply good_bind; [by apply (current_good n)|]. intros t Ht.
  eapply good_bind.
  { apply (good_wr (λ l, length l = 2%nat ∧ Forall state_ok l)); [lia|].
    rewrite length_insert. split; [done|]. by apply Forall_insert; [|apply Hf]. }
  intros l Hl'. destruct H. by constructor.
Qed.

Lemma attribute_good n s f : parser_ok n s → (∀ a, byte (BitSize a) → byte (BitSize (f a))) →
  good (parser_ok n) (attribute f s).
Proof. intros H Hf. apply mod_current_good; [done|]. intros t [? ?]. split; [done|]. by apply Hf. Qed.

Lemma shift_list (l : list Z) n : 1 ≤ n ≤ Z.of_nat (length l) →
  ∃ l', for_up 1 n (λ i l, x ← rd l i; wr l (i - 1) x) l = Some l' ∧ length l' = length l.
Proof.
  intros Hn. unfold for_up.
  destruct (for_inv (λ _ (l' : list Z), length l' = length l) (Z.to_nat (n - 1)) 1
    (λ i l, x ← rd l i; wr l (i - 1) x) l) as (l' & E & H'); [done| |by exists l'].
  intros k l1 Hk Hl. destruct (lookup_lt_is_Some_2 l1 (Z.to_nat k)) as [x Hx]; [lia|].
  assert (rd l1 k = Some x) as -> by (apply rd_Some; split; [lia|done]). cbn.
  rewrite wr_Some by lia. eexists. split; [done|]. by rewrite length_insert.
Qed.

Lemma next_usage_good n s : parser_ok n s → good (λ x, parser_ok n x.2 ∧ StateTable x.2 = StateTable s ∧
  CurrCollectionPath x.2 = CurrCollectionPath s) (next_usage s).
Proof.
  intros H. unfold next_usage. pose proof (po_usages n s H) as Hl. pose proof (po_size n s H) as Hz.
  destruct (Z.eqb_spec (UsageListSize s) 0); cbn [negb].
  - destruct (_ <=? _); cbn; split_and!; try done; destruct H; by constructor.
  - eapply good_bind; [apply (good_rd (λ _, True) (λ _, True)); [lia|by apply Forall_true|done]|]. intros u _.
    destruct (shift_list (UsageList s) (UsageListSize s)) as (l' & -> & Hl'); [lia|].
    cbn. split_and!; [|done|done]. destruct H. constructor; cbn; try done; lia.
Qed.

Lemma item_usage_good n s d : parser_ok n s → good (parser_ok n) (item_usage d s).
Proof.
  intros H. unfold item_usage. pose proof (po_usages n s H) as Hl. pose proof (po_size n s H) as Hz.
  destruct (Z.eqb_spec (UsageListSize s) HID_USAGE_STACK_DEPTH) as [|Hne].
  { apply (good_return _ n); [done|by vm_compute]. }
  unfold HID_USAGE_STACK_DEPTH in Hne.
  eapply good_bind; [apply (good_wr (λ l, length l = 8%nat)); [lia|by rewrite length_insert]|].
  intros l Hl'. rewrite u8_small by (unfold byte; lia). destruct H. constructor; cbn; try done; lia.
Qed.

(** ** Reports *)

(** A change of the information that leaves items and collections alone. *)
Lemma report_change n s p i : parser_ok n s → 0 ≤ i < TotalDeviceReports p → 1 ≤ TotalDeviceReports p ≤ 10 →
  TotalReportItems p = TotalReportItems (ParserData s) → ReportItems p = ReportItems (ParserData s) →
  CollectionPaths p = CollectionPaths (ParserData s) →
  length (ReportIDSizes p) = 10%nat ∧ Forall sizes_ok (ReportIDSizes p) → word16 (LargestReportSizeBits p) →
  parser_ok n (set_CurrReportIDInfo i (set_ParserData p s)).
Proof.
  intros [[] ] Hi Hr E1 E2 E3 Hs Hl. constructor; cbn; try done.
  constructor; rewrite ?E1, ?E2, ?E3; done.
Qed.

Lemma find_report_good l id n i (N : Z) : (length l = 10)%nat → 0 ≤ i → i + Z.of_nat n ≤ N → N ≤ 10 →
  good (λ k, match k with Some j => 0 ≤ j < N | None => True end) (find_report l id n i).
Proof.
  intros Hl. revert i. induction n as [|n IH]; intros i H0 Hi HN; [done|]. cbn [find_report].
  eapply good_bind; [apply (good_rd (λ _, True) (λ _, True)); [lia|by apply Forall_true|done]|]. intros r _.
  destruct (_ =? _); [cbn; lia|]. apply IH; lia.
Qed.

Lemma select_report_good n s id : parser_ok n s → good (parser_ok n) (select_report id s).
Proof.
  intros H. pose proof (po_info n s H) as HI. destruct (ri_sizes n _ HI) as [Hl Hf].
  pose proof (ri_reports n _ HI). unfold select_report. destruct (UsingReportIDs _); [|done].
  eapply good_bind; [apply (find_report_good _ _ _ _ (TotalDeviceReports (ParserData s))); [done|lia..]|].
  intros [j|] Hj.
  { by apply (report_change n s (ParserData s)); try apply HI. }
  destruct (Z.eqb_spec (TotalDeviceReports (ParserData s)) HID_MAX_REPORT_IDS) as [|Hne].
  { apply (good_return _ n); [done|by vm_compute]. }
  unfold HID_MAX_REPORT_IDS in Hne.
  eapply good_bind.
  { apply (good_wr (λ l, length l = 10%nat ∧ Forall sizes_ok l)); [lia|]. rewrite length_insert.
    split; [done|]. apply Forall_insert; [done|]. split; [done|]. repeat constructor; by vm_compute. }
  intros l Hl'. rewrite u8_small by (unfold byte; lia).
  apply (report_change n); cbn; try done; [lia|lia|apply HI].
Qed.

Lemma item_report_id_good n s d : parser_ok n s → good (parser_ok n) (item_report_id d s).
Proof.
  intros H. unfold item_report_id.
  eapply good_bind; [by apply (mod_current_good n)|]. clear s H. intros s H.
  eapply good_bind; [by apply (current_good n)|]. intros t _.
  eapply good_bind; [by apply (select_report_good n)|]. clear s H. intros s H.
  pose proof (po_info n s H) as HI. destruct (ri_sizes n _ HI) as [Hl Hf]. pose proof (po_report n s H).
  pose proof (ri_reports n _ HI).
  eapply good_bind; [apply (good_rd sizes_ok sizes_ok); [cbn; lia|done|done]|]. intros r Hr.
  eapply good_bind.
  { apply (good_wr (λ l, length l = 10%nat ∧ Forall sizes_ok l)); [cbn; lia|]. cbn. rewrite length_insert.
    split; [done|]. by apply Forall_insert. }
  intros l Hl'. apply (report_change n s _ (CurrReportIDInfo s) H); cbn; try done. apply HI.
Qed.

Lemma grow_report_good n s ty b : parser_ok n s → 0 ≤ ty ≤ 2 →
  good (λ x, word16 x.1 ∧ parser_ok n x.2 ∧ CurrCollectionPath x.2 = CurrCollectionPath s) (grow_report ty b s).
Proof.
  intros H Hty. unfold grow_report.
  pose proof (po_info n s H) as HI. destruct (ri_sizes n _ HI) as [Hl Hf]. pose proof (po_report n s H).
  pose proof (ri_reports n _ HI).
  eapply good_bind; [apply (good_rd sizes_ok sizes_ok); [lia|done|done]|]. intros r [Hr1 Hr2].
  eapply good_bind; [apply (good_rd word16 word16); [lia|done|done]|]. intros off Hoff.
  eapply good_bind.
  { apply (good_wr (λ l, length l = 3%nat ∧ Forall word16 l)); [lia|]. rewrite length_insert.
    split; [done|]. apply Forall_insert; [done|]. apply u16_word. }
  intros bits Hbits. eapply good_bind.
  { apply (good_wr (λ l, length l = 10%nat ∧ Forall sizes_ok l)); [lia|]. rewrite length_insert.
    split; [done|]. by apply Forall_insert. }
  intros l Hl'. cbn. split_and!; [done| |done].
  apply (report_change n s _ (CurrReportIDInfo s) H); cbn; try done.
  pose proof (ri_largest n _ HI) as HL. pose proof (u16_word (off + b)). cbn in HL. unfold word16 in *. lia.
Qed.

(** The new item goes behind the kept ones. *)
Lemma store_item_good n s d i : parser_ok n s → path_in n (CollectionPath i) → ItemFlags i = u16 d →
  0 ≤ ItemType i ≤ 2 → word16 (BitOffset i) ∧ byte (BitSize (Attributes i)) →
  good (parser_ok n) (store_item filter d i s).
Proof.
  intros H Hp Hd Ht Hb. unfold store_item. pose proof (po_info n s H) as HI.
  pose proof (ri_total n _ HI). pose proof (ri_items n _ HI) as Hl.
  destruct (Z.eqb_spec (TotalReportItems (ParserData s)) HID_MAX_REPORTITEMS) as [|Hne].
  { apply (good_return _ n); [done|by vm_compute]. }
  unfold HID_MAX_REPORTITEMS in Hne. set (T := TotalReportItems (ParserData s)) in *.
  rewrite wr_Some by lia. cbn [inside mbind parse_bind good].
  destruct H as [[]]. constructor; cbn; try done. constructor; cbn; try done.
  - destruct (_ && _); [rewrite u8_small by (unfold byte; lia)|]; lia.
  - by rewrite length_insert.
  - destruct (negb (tst d HID_IOF_CONSTANT)) eqn:Ec; cbn [andb]; [destruct (filter i) eqn:Ef|].
    2,3: by rewrite take_insert_ge by lia.
    rewrite u8_small by (unfold byte; lia). replace (Z.to_nat (T + 1)) with (S (Z.to_nat T)) by lia.
    rewrite (take_S_r _ _ i) by (apply list_lookup_insert_eq; lia). apply Forall_app. split.
    + by rewrite take_insert_ge by lia.
    + constructor; [|done]. constructor; try done. rewrite Hd. unfold tst, HID_IOF_CONSTANT, u16 in *.
      change 65536 with (2 ^ 16). change (1 << 0) with (Z.ones 1) in *. rewrite Z.land_ones in * by lia.
      rewrite Z.mod_mod_divide by (by exists (2 ^ 15)).
      by destruct (d mod 2 ^ 1 =? 0).
Qed.

(** ** Collections *)
Lemma path_in_mono n m o : n ≤ m → path_in n o → path_in m o.
Proof. destruct o; cbn; [lia|done]. Qed.

Lemma info_paths n m p l : n ≤ m → info_ok n p → forest m l → info_ok m (set_CollectionPaths l p).
Proof.
  intros Hn [] Hf. constructor; cbn; try done.
  eapply Forall_impl; [done|]. intros i []. constructor; try done. by eapply path_in_mono.
Qed.

Lemma forest_keep n l k c f : forest n l → l !! k = Some c → Parent (f c) = Parent c → forest n (<[k := f c]> l).
Proof.
  intros [] Hc Hf. constructor; [by rewrite length_insert|done|..].
  - intros c' [(-> & <- & _)|[_ ?]]%list_lookup_insert_Some; [rewrite Hf|]; eauto.
  - intros j c' Hj [(-> & <- & _)|[_ ?]]%list_lookup_insert_Some; [rewrite Hf|]; eauto.
  - intros j c' Hj [(-> & <- & _)|[_ ?]]%list_lookup_insert_Some; [rewrite Hf|]; eauto.
Qed.

Lemma mod_path_good n s f k : parser_ok n s → 0 ≤ k < 10 → (∀ c, Parent (f c) = Parent c) →
  good (parser_ok n) (mod_path f k s).
Proof.
  intros H Hk Hf. unfold mod_path. pose proof (ri_paths n _ (po_info n s H)) as HF. pose proof (fo_length _ _ HF) as Hl.
  eapply good_bind; [apply (good_rd (λ c, CollectionPaths (ParserData s) !! Z.to_nat k = Some c) (λ _, True));
    [lia|by apply Forall_true|done]|]. intros c Hc.
  rewrite wr_Some by lia. cbn. destruct H. constructor; cbn; try done.
  apply (info_paths n n); [lia|done|]. by apply forest_keep.
Qed.

(** The search from index [k] finds the first free entry. *)
Lemma free_path_first m l n k : forest n l → 1 ≤ k ≤ n → k < 10 → 10 - k ≤ Z.of_nat m →
  free_path l m k = Go (if n <? 10 then Some n else None).
Proof.
  intros HF. pose proof (fo_length _ _ HF) as Hl. revert k.
  induction m as [|m IH]; intros k Hk Hk' Hm; [lia|]. cbn [free_path].
  destruct (lookup_lt_is_Some_2 l (Z.to_nat k)) as [c Hc]; [lia|].
  assert (rd l k = Some c) as -> by (apply rd_Some; split; [lia|done]). cbn [inside mbind parse_bind].
  destruct (decide (k = n)) as [->|].
  { rewrite (fo_free _ _ HF (Z.to_nat n) c) by (done || lia). destruct (Z.ltb_spec n 10); [done|lia]. }
  destruct (fo_used _ _ HF (Z.to_nat k) c) as (p & -> & _); [lia|done|]. unfold HID_MAX_COLLECTIONS.
  pose proof (fo_range _ _ HF). destruct (Z.eqb_spec k (10 - 1)).
  - destruct (Z.ltb_spec n 10); [lia|done].
  - apply IH; lia.
Qed.

Lemma forest_grow n l c p : forest n l → n < 10 → 0 ≤ p < n → l !! Z.to_nat n = Some c →
  forest (n + 1) (<[Z.to_nat n := set_Parent (Some p) c]> l).
Proof.
  intros [] Hn Hp Hc. constructor; [by rewrite length_insert|lia|..].
  - intros c' [(? & _)|[_ ?]]%list_lookup_insert_Some; [lia|eauto].
  - intros k c' Hk [(<- & <- & _)|[? ?]]%list_lookup_insert_Some; [cbn; exists p; split; [done|lia]|].
    apply fo_used0; [lia|done].
  - intros k c' Hk [(<- & <- & _)|[? ?]]%list_lookup_insert_Some; [lia|]. apply (fo_free0 k); [lia|done].
Qed.

Lemma open_path_good n s : parser_ok n s → good (λ x, 0 ≤ x.1 < 10 ∧ some_ok x.2) (open_path s).
Proof.
  intros H. pose proof (po_info n s H) as HI. pose proof (ri_paths n _ HI) as HF. pose proof (fo_range _ _ HF).
  pose proof (fo_length _ _ HF) as Hl. pose proof (po_path n s H) as Hp. unfold open_path.
  destruct (CurrCollectionPath s) as [p|]; cbn in Hp.
  - rewrite (free_path_first _ _ n) by (done || lia || (unfold HID_MAX_COLLECTIONS; lia)).
    cbn [mbind parse_bind]. destruct (Z.ltb_spec n 10).
    2: { apply (good_return _ n); [done|by vm_compute]. }
    unfold mod_path. destruct (lookup_lt_is_Some_2 (CollectionPaths (ParserData s)) (Z.to_nat n)) as [c Hc]; [lia|].
    assert (rd (CollectionPaths (ParserData s)) n = Some c) as -> by (apply rd_Some; split; [lia|done]).
    cbn [inside mbind parse_bind]. rewrite wr_Some by lia. cbn. split; [lia|]. exists (n + 1).
    destruct H. constructor; cbn; try done; [|lia].
    apply (info_paths n); [lia|done|]. by apply forest_grow.
  - cbn. split; [lia|]. exists n. destruct H. constructor; cbn; try done. lia.
Qed.

Lemma item_collection_good n s d : parser_ok n s → good some_ok (item_collection d s).
Proof.
  intros H. unfold item_collection. eapply good_bind; [by apply (open_path_good n)|].
  clear n s H. intros [k s] [Hk [n H]]. cbn in Hk, H.
  eapply good_bind; [by apply (current_good n)|]. intros t _.
  eapply good_bind; [by apply (mod_path_good n)|]. clear s H. intros s H.
  eapply good_bind; [by apply (next_usage_good n)|]. intros [u s'] (H' & _). cbn in H'.
  destruct u; [|by exists n]. eapply good_weaken; [by apply (mod_path_good n)|]. intros s1 H1. by exists n.
Qed.

Lemma item_end_collection_good n s : parser_ok n s → good (parser_ok n) (item_end_collection s).
Proof.
  intros H. pose proof (po_path n s H) as Hp. pose proof (ri_paths n _ (po_info n s H)) as HF.
  pose proof (fo_range _ _ HF). pose proof (fo_length _ _ HF) as Hl. unfold item_end_collection.
  destruct (CurrCollectionPath s) as [k|]; [|apply (good_return _ n); [done|by vm_compute]]. cbn in Hp.
  eapply good_bind; [apply (good_rd (λ c, CollectionPaths (ParserData s) !! Z.to_nat k = Some c) (λ _, True));
    [lia|by apply Forall_true|done]|]. intros c Hc.
  assert (path_in n (Parent c)).
  { destruct (decide (k = 0)) as [->|]; [by rewrite (fo_root _ _ HF c)|].
    destruct (fo_used _ _ HF (Z.to_nat k) c) as (p & -> & ?); [lia|done|]. cbn. lia. }
  destruct H. by constructor.
Qed.

(** ** Items *)
Lemma item_type_range t : 0 ≤ item_type t ≤ 2.
Proof. unfold item_type. repeat case_match; by vm_compute. Qed.

Lemma report_item_good n s h d junk : parser_ok n s → good (parser_ok n) (report_item filter h d junk s).
Proof.
  intros H. unfold report_item. eapply good_bind; [by apply (current_good n)|]. intros t [_ Ht].
  eapply good_bind; [by apply (next_usage_good n)|]. intros [u s1] (H1 & _). cbn in H1.
  pose proof (item_type_range (h .& (HID_RI_TYPE_MASK .| HID_RI_TAG_MASK))).
  eapply good_bind; [by apply (grow_report_good n)|]. intros [off s2] (Ho & H2 & _). cbn in Ho, H2.
  apply store_item_good; cbn; try done; [by apply po_path|]. split; [done|]. by destruct u.
Qed.

Lemma report_items_good n junk h z d m i s : parser_ok n s →
  good (parser_ok n) (report_items filter junk h z d m i s).
Proof.
  revert i s. induction m as [|m IH]; intros i s H; [done|]. cbn [report_items].
  eapply good_bind; [by apply (report_item_good n)|]. auto.
Qed.

(** The state table never holds more than one state, so there is none to go
    back to. *)
Lemma item_pop_good n s : parser_ok n s → good (parser_ok n) (item_pop s).
Proof.
  intros H. unfold item_pop. rewrite (po_current n s H). apply (good_return _ n); [done|by vm_compute].
Qed.

Lemma item_push_overruns n s : parser_ok n s → item_push s = Overrun.
Proof. intros H. unfold item_push. by rewrite (po_current n s H). Qed.

Lemma item_usage_page_good n s h d : parser_ok n s → good (parser_ok n) (item_usage_page h d s).
Proof.
  intros H. unfold item_usage_page. eapply (good_bind (parser_ok n)); [case_match; [by apply attribute_good|done]|].
  intros s1 H1. by apply attribute_good.
Qed.

Lemma usage_range_good n s m : parser_ok n s → parser_ok n (set_UsageMinMax m s).
Proof. intros []. by constructor. Qed.

Definition is_push (h : Z) : bool := h .& (HID_RI_TYPE_MASK .| HID_RI_TAG_MASK) =? HID_RI_PUSH.

Lemma item_switch_good junk n s h z d : parser_ok n s → is_push h = false →
  good some_ok (item_switch filter junk h z d s).
Proof.
  intros H Hp. unfold is_push in Hp. unfold item_switch. cbv zeta. rewrite Hp.
  assert (∀ r, good (parser_ok n) r → good some_ok r) as up.
  { intros r Hr. eapply good_weaken; [done|]. intros a Ha. by exists n. }
  repeat match goal with |- good _ (if ?c then _ else _) => destruct c end;
    try (by exists n); try (eapply item_collection_good; done); apply up;
    try (apply attribute_good; [done|intros a Ha; cbn; by auto with cint]); try (by exists n).
  - by apply item_pop_good.
  - by apply item_usage_page_good.
  - apply mod_current_good; [done|]. intros t [? ?]. split; [apply u8_byte|done].
  - by apply item_report_id_good.
  - by apply item_usage_good.
  - by apply usage_range_good.
  - by apply usage_range_good.
  - by apply item_end_collection_good.
  - eapply good_bind; [by apply (current_good n)|]. intros t _. by apply report_items_good.
Qed.

Lemma item_good junk s h z d : some_ok s → is_push h = false → good some_ok (item filter junk h z d s).
Proof.
  intros [n H] Hp. unfold item. eapply good_bind; [by apply (item_switch_good junk n)|].
  intros s1 [n1 H1]. case_match; [|by exists n1]. exists n1. destruct H1. constructor; cbn; done.
Qed.

(** ** The item loop *)

(** An item of a report descriptor: its first byte and its data bytes, as
    many as the first byte says. *)
Definition data_length (h : Z) : nat :=
  match h .& HID_RI_DATA_SIZE_MASK with 1 => 1 | 2 => 2 | 3 => 4 | _ => 0 end.
Definition whole (it : Z * list Z) : Prop := length it.2 = data_length it.1.
Definition encode (its : list (Z * list Z)) : list Z := concat (map (λ it, it.1 :: it.2) its).

(** The little-endian number in the data bytes. *)
Definition item_data (l : list Z) : Z :=
  match l with
  | [d0; d1; d2; d3] => (d3 << 24) .| (d2 << 16) .| (d1 << 8) .| d0
  | [d0; d1] => (d1 << 8) .| d0
  | [d0] => d0
  | _ => 0
  end.

Lemma size_bits h : 0 ≤ h .& HID_RI_DATA_SIZE_MASK < 4.
Proof. unfold HID_RI_DATA_SIZE_MASK. change 3 with (Z.ones 2). rewrite Z.land_ones by lia. apply Z.mod_pos_bound. lia. Qed.

(** One iteration of the loop on a whole item. *)
Lemma items_step junk h l tail z s : whole (h, l) → Z.of_nat (S (length l)) ≤ z < 65536 →
  items filter junk (h :: l ++ tail) z s =
  (s' ← item filter junk h (z - Z.of_nat (S (length l))) (item_data l) s;
   items filter junk tail (z - Z.of_nat (S (length l))) s').
Proof.
  unfold whole, data_length. cbn [fst snd]. intros Hl Hz. pose proof (size_bits h) as Hb.
  change (items filter junk (h :: l ++ tail) z s) with (items filter junk ([h] ++ l ++ tail) z s).
  cbn [items app]. destruct (Z.eqb_spec z 0); [lia|]. cbv zeta.
  assert (h .& HID_RI_DATA_SIZE_MASK = 0 ∨ h .& HID_RI_DATA_SIZE_MASK = 1 ∨ h .& HID_RI_DATA_SIZE_MASK = 2 ∨
    h .& HID_RI_DATA_SIZE_MASK = 3) as Hc by lia.
  rewrite (u16_small (z - 1)) by (unfold word16; lia).
  destruct Hc as [E|[E|[E|E]]]; rewrite E in Hl |- *; clear E Hb.
  - destruct l; [|discriminate Hl]. cbn [length] in Hz |- *.
    replace (z - Z.of_nat 1) with (z - 1) by lia. reflexivity.
  - destruct l as [|d0 [|]]; try discriminate Hl. cbn [length app] in Hz |- *.
    rewrite (u16_small (z - 1 - 1)) by (unfold word16; lia).
    replace (z - Z.of_nat 2) with (z - 1 - 1) by lia. reflexivity.
  - destruct l as [|d0 [|d1 [|]]]; try discriminate Hl. cbn [length app] in Hz |- *.
    rewrite (u16_small (z - 1 - 2)) by (unfold word16; lia).
    replace (z - Z.of_nat 3) with (z - 1 - 2) by lia. reflexivity.
  - destruct l as [|d0 [|d1 [|d2 [|d3 [|]]]]]; try discriminate Hl. cbn [length app] in Hz |- *.
    rewrite (u16_small (z - 1 - 4)) by (unfold word16; lia).
    replace (z - Z.of_nat 5) with (z - 1 - 4) by lia. reflexivity.
Qed.

Lemma encode_cons h l its : encode ((h, l) :: its) = h :: l ++ encode its.
Proof. done. Qed.
Lemma encode_app a b : encode (a ++ b) = encode a ++ encode b.
Proof. unfold encode. by rewrite map_app, concat_app. Qed.

(** The loop on whole items without a PUSH keeps the invariant and goes on
    behind them. *)
Lemma items_good junk its tail z s :
  Forall whole its → Forall (λ it, is_push it.1 = false) its → some_ok s →
  Z.of_nat (length (encode its)) ≤ z < 65536 →
  (∃ s', some_ok s' ∧
     items filter junk (encode its ++ tail) z s = items filter junk tail (z - Z.of_nat (length (encode its))) s') ∨
  (∃ c i n, items filter junk (encode its ++ tail) z s = Return c i ∧ 1 ≤ c ≤ 7 ∧ info_ok n i).
Proof.
  intros Hw Hp. revert z s. induction Hw as [|[h l] its Hw _ IH]; intros z s Hs Hz.
  { left. exists s. split; [done|]. by rewrite Z.sub_0_r. }
  apply Forall_cons in Hp as [Hp1 Hp2]. rewrite encode_cons in *. cbn [length] in Hz |- *.
  rewrite length_app in *. rewrite <-app_comm_cons, <-app_assoc.
  rewrite items_step by (done || lia).
  pose proof (item_good junk s h (z - Z.of_nat (S (length l))) (item_data l) Hs Hp1) as Hi.
  destruct (item _ _ _ _ _ _) as [s1|c i|]; cbn in Hi |- *; [|destruct Hi as [Hc [n Hn]]; by right; exists c, i, n|done].
  destruct (IH Hp2 (z - Z.of_nat (S (length l))) s1 Hi) as [(s' & Hs' & E)|HR]; [lia| |by right].
  left. exists s'. split; [done|]. rewrite E. f_equal. lia.
Qed.

Lemma parser_init_ok state1 usages : state_ok state1 → length usages = 8%nat →
  some_ok (parser_init state1 usages).
Proof.
  intros H1 Hu. exists 1. constructor; cbn; try done.
  - constructor; cbn; try done.
    + constructor; try done.
      * intros c [= <-]. done.
      * intros k c Hk. lia.
      * intros k c Hk E. by apply (lookup_replicate_1 10) in E as [-> _].
    + split; [done|]. apply (Forall_replicate sizes_ok 10). split; [done|]. repeat constructor; by vm_compute.
  - split; [done|]. constructor; [by vm_compute|by constructor].
Qed.

End Invariant.
