(* ===== verification/HIDBits.v ===== *)
(** * Values in HID reports

    The bits of a report as the item accessors of HIDParser.c number them, and
    what the loops of [USB_SetHIDReportItemInfo] and
    [USB_GetHIDReportItemInfo] do to them. *)
From S2P Require Import Prelude HIDParser.

(** Bit [k] of the report that starts at index [base]. *)
Definition report_bit (data : list Z) (base k : Z) : bool :=
  Z.testbit (default 0 (rd data (base + k / 8))) (k mod 8).

(** [BitMask] after [i] shifts. *)
Definition mask (i : Z) : Z := if i <? 32 then 2 ^ i else 0.

Lemma mask_shift i : 0 ≤ i → u32 (mask i << 1) = mask (i + 1).
Proof.
  intros Hi. unfold mask, u32. change 4294967296 with (2 ^ 32). destruct (Z.ltb_spec i 32).
  - rewrite Z.shiftl_mul_pow2 by lia. rewrite <-Z.pow_add_r by lia. destruct (Z.ltb_spec (i + 1) 32).
    + apply Z.mod_small. split; [apply Z.pow_nonneg; lia|]. apply Z.pow_lt_mono_r; lia.
    + replace (i + 1) with 32 by lia. apply Z.mod_same. lia.
  - destruct (Z.ltb_spec (i + 1) 32); [lia|done].
Qed.

Lemma tst_pow2 x j : 0 ≤ j → tst x (2 ^ j) = Z.testbit x j.
Proof.
  intros Hj. unfold tst. destruct (Z.testbit x j) eqn:E; [apply negb_true_iff, Z.eqb_neq|apply negb_false_iff, Z.eqb_eq].
  - intros H0. assert (Z.testbit (x .& 2 ^ j) j = false) as Hf by (rewrite H0; apply Z.bits_0).
    by rewrite Z.land_spec, E, Z.pow2_bits_true in Hf.
  - apply Z.bits_inj'. intros k Hk. rewrite Z.land_spec, Z.bits_0.
    destruct (decide (k = j)) as [->|]; [by rewrite E|]. by rewrite Z.pow2_bits_false, andb_false_r by lia.
Qed.

Lemma tst_mask v i : 0 ≤ v < 2 ^ 32 → 0 ≤ i → tst v (mask i) = Z.testbit v i.
Proof.
  intros Hv Hi. unfold mask. destruct (Z.ltb_spec i 32); [by apply tst_pow2|].
  rewrite (high_bits 32) by lia. unfold tst. by rewrite Z.land_0_r.
Qed.

Lemma mask_bits i j : 0 ≤ i → 0 ≤ j → Z.testbit (mask i) j = (i <? 32) && (j =? i).
Proof.
  intros Hi Hj. unfold mask. destruct (i <? 32); [|apply Z.bits_0]. cbn. apply eq_true_iff_eq.
  rewrite Z.eqb_eq, Z.pow2_bits_eqb, Z.eqb_eq by lia. lia.
Qed.

(** A bit set in the report. *)
Lemma report_bit_set data base cur x k : 0 ≤ base → 0 ≤ cur → 0 ≤ k → rd data (base + cur / 8) = Some x →
  report_bit (<[Z.to_nat (base + cur / 8) := x .| (1 << (cur mod 8))]> data) base k
  = report_bit data base k || (k =? cur).
Proof.
  intros Hb Hc Hk E. apply rd_Some in E as [H0 E]. pose proof (lookup_lt_Some _ _ _ E) as Hl.
  pose proof (Z.mod_pos_bound cur 8). pose proof (Z.mod_pos_bound k 8). pose proof (Z.div_pos k 8).
  pose proof (Z.div_pos cur 8). unfold report_bit, rd.
  destruct (Z.leb_spec 0 (base + k / 8)); [|lia].
  destruct (decide (k / 8 = cur / 8)) as [Ed|Ed].
  - rewrite Ed, list_lookup_insert_eq, E by done. cbn [from_option id]. rewrite Z.lor_spec, Z.shiftl_1_l. f_equal.
    rewrite Z.pow2_bits_eqb by lia. pose proof (Z.div_mod k 8). pose proof (Z.div_mod cur 8).
    destruct (Z.eqb_spec (cur mod 8) (k mod 8)), (Z.eqb_spec k cur); try done; subst; lia.
  - rewrite list_lookup_insert_ne by lia. destruct (Z.eqb_spec k cur) as [->|]; [done|]. by rewrite orb_false_r.
Qed.

(** The bytes that hold the bits from [cur] on are inside the report. *)
Definition holds (data : list Z) (base cur n : Z) : Prop :=
  ∀ k, cur ≤ k < cur + n → base + k / 8 < Z.of_nat (length data).

Lemma holds_rd data base cur n k : 0 ≤ base → 0 ≤ cur → holds data base cur n → cur ≤ k < cur + n →
  ∃ x, rd data (base + k / 8) = Some x.
Proof.
  intros Hb Hc Hh Hk. pose proof (Z.div_pos k 8). specialize (Hh k Hk).
  destruct (lookup_lt_is_Some_2 data (Z.to_nat (base + k / 8))) as [x Hx]; [lia|].
  exists x. apply rd_Some. split; [lia|done].
Qed.

(** One bit of the value is written, or nothing. *)
Lemma set_bit_step data base v cur i n : 0 ≤ base → 0 ≤ cur → 0 ≤ i → 0 ≤ v < 2 ^ 32 → holds data base cur (n + 1) → 0 ≤ n →
  ∃ data1, (if tst v (mask i) then
              x ← rd data (base + cur / 8); wr data (base + cur / 8) (x .| (1 << (cur mod 8)))
            else Some data) = Some data1 ∧ length data1 = length data ∧
    (∀ j, j < base → rd data1 j = rd data j) ∧
    ∀ k, 0 ≤ k → report_bit data1 base k = report_bit data base k || ((k =? cur) && Z.testbit v i).
Proof.
  intros Hb Hc Hi Hv Hh Hn. rewrite tst_mask by done. destruct (Z.testbit v i).
  - destruct (holds_rd data base cur (n + 1) cur) as [x Hx]; [done|done|done|lia|]. rewrite Hx. cbn [mbind option_bind].
    specialize (Hh cur ltac:(lia)). pose proof (Z.div_pos cur 8). rewrite wr_Some by lia.
    eexists. split; [done|]. rewrite length_insert. split; [done|]. split.
    + intros j Hj. unfold rd. case_match; [|done]. apply list_lookup_insert_ne. lia.
    + intros k Hk. rewrite andb_true_r. by apply report_bit_set.
  - exists data. split_and!; try done. intros k Hk. by rewrite andb_false_r, orb_false_r.
Qed.

Lemma set_bits_spec base v n data cur i : 0 ≤ base → 0 ≤ cur → 0 ≤ i → 0 ≤ v < 2 ^ 32 →
  cur + Z.of_nat n < 65536 → holds data base cur (Z.of_nat n) →
  ∃ data', set_bits data base v n cur (mask i) = Some data' ∧ length data' = length data ∧
    (∀ j, j < base → rd data' j = rd data j) ∧
    ∀ k, 0 ≤ k → report_bit data' base k =
      report_bit data base k || ((cur <=? k) && (k <? cur + Z.of_nat n) && Z.testbit v (i + (k - cur))).
Proof.
  intros Hb. revert data cur i. induction n as [|n IH]; intros data cur i Hc Hi Hv Hn Hh.
  { exists data. split_and!; try done. intros k Hk.
    destruct (Z.leb_spec cur k), (Z.ltb_spec k (cur + Z.of_nat 0)); try lia; by rewrite orb_false_r. }
  destruct (set_bit_step data base v cur i (Z.of_nat n)) as (d1 & E1 & L1 & F1 & B1); try done; [|lia|].
  { intros k Hk. apply Hh. lia. }
  destruct (IH d1 (cur + 1) (i + 1)) as (d' & E' & L' & F' & B'); try lia.
  { intros k Hk. rewrite L1. apply Hh. lia. }
  exists d'. cbn [set_bits]. rewrite E1. cbn [mbind option_bind]. rewrite mask_shift, u16_small by (done || unfold word16; lia).
  split; [done|]. split; [by rewrite L', L1|]. split; [intros j Hj; by rewrite F', F1|].
  intros k Hk. rewrite B', B1 by done. rewrite <-orb_assoc. f_equal.
  replace (i + 1 + (k - (cur + 1))) with (i + (k - cur)) by lia.
  destruct (Z.eqb_spec k cur) as [->|].
  - replace (i + (cur - cur)) with i by lia.
    destruct (Z.leb_spec cur cur), (Z.ltb_spec cur (cur + Z.of_nat (S n))), (Z.leb_spec (cur + 1) cur); try lia.
    by rewrite orb_false_r.
  - destruct (Z.leb_spec (cur + 1) k), (Z.leb_spec cur k), (Z.ltb_spec k (cur + 1 + Z.of_nat n)),
      (Z.ltb_spec k (cur + Z.of_nat (S n))); try lia; done.
Qed.

Lemma get_bits_spec data base n cur i v : 0 ≤ base → 0 ≤ cur → 0 ≤ i → 0 ≤ v →
  cur + Z.of_nat n < 65536 → holds data base cur (Z.of_nat n) →
  ∃ v', get_bits data base n cur (mask i) v = Some v' ∧ 0 ≤ v' ∧
    ∀ j, 0 ≤ j → Z.testbit v' j =
      Z.testbit v j || ((i <=? j) && (j <? i + Z.of_nat n) && (j <? 32) && report_bit data base (cur + (j - i))).
Proof.
  intros Hb. revert cur i v. induction n as [|n IH]; intros cur i v Hc Hi Hv Hn Hh.
  { exists v. split_and!; try done. intros j Hj.
    destruct (Z.leb_spec i j), (Z.ltb_spec j (i + Z.of_nat 0)); try lia; by rewrite orb_false_r. }
  destruct (holds_rd data base cur (Z.of_nat (S n)) cur) as [x Hx]; [done|done|done|lia|].
  assert (0 ≤ mask i) as Hm by (unfold mask; case_match; [apply Z.pow_nonneg; lia|lia]).
  assert (tst x (1 << (cur mod 8)) = report_bit data base cur) as Hbit.
  { unfold report_bit. rewrite Hx, Z.shiftl_1_l. apply tst_pow2. pose proof (Z.mod_pos_bound cur 8). lia. }
  destruct (IH (cur + 1) (i + 1) (if report_bit data base cur then v .| mask i else v)) as (v' & E' & H' & B');
    [lia..| |lia| |].
  { case_match; [by apply Z.lor_nonneg|done]. }
  { intros k Hk. apply Hh. lia. }
  exists v'. cbn [get_bits]. rewrite Hx. cbn [mbind option_bind]. rewrite Hbit.
  rewrite mask_shift, u16_small by (done || unfold word16; lia). split; [done|]. split; [done|].
  intros j Hj. rewrite B' by done. replace (cur + 1 + (j - (i + 1))) with (cur + (j - i)) by lia.
  assert (Z.testbit (if report_bit data base cur then v .| mask i else v) j
    = Z.testbit v j || (report_bit data base cur && (i <? 32) && (j =? i))) as ->.
  { destruct (report_bit data base cur); [|by rewrite orb_false_r].
    by rewrite Z.lor_spec, mask_bits. }
  rewrite <-orb_assoc. f_equal. destruct (Z.eqb_spec j i) as [->|].
  - replace (cur + (i - i)) with cur by lia.
    destruct (Z.leb_spec (i + 1) i), (Z.leb_spec i i), (Z.ltb_spec i (i + Z.of_nat (S n))); try lia.
    cbn. by rewrite orb_false_r, andb_true_r, andb_comm.
  - rewrite !andb_false_r. cbn. destruct (Z.leb_spec (i + 1) j), (Z.leb_spec i j), (Z.ltb_spec j (i + 1 + Z.of_nat n)),
      (Z.ltb_spec j (i + Z.of_nat (S n))); try lia; done.
Qed.

(** ** Writing an item and reading it back *)

(** An item whose bits are inside the report and clear there. *)
Record placed (data : list Z) (i : HID_ReportItem_t) : Prop := {
  pl_value : 0 ≤ Value i < 2 ^ 32;
  pl_range : 0 ≤ BitOffset i ∧ 0 ≤ BitSize (Attributes i) ∧ BitOffset i + BitSize (Attributes i) < 65536;
  pl_inside : holds data (report_base i) (BitOffset i) (BitSize (Attributes i));
  pl_id : (0 < length data)%nat;
  pl_clear : ∀ k, BitOffset i ≤ k < BitOffset i + BitSize (Attributes i) → report_bit data (report_base i) k = false }.

Lemma base_nonneg i : 0 ≤ report_base i.
Proof. unfold report_base. by case_match. Qed.

(** The report with its ID in place. *)
Definition with_id (data : list Z) (i : HID_ReportItem_t) : list Z :=
  if negb (ReportID i =? 0) then <[0%nat := ReportID i]> data else data.

Lemma with_id_bit data i k : 0 ≤ k → report_bit (with_id data i) (report_base i) k = report_bit data (report_base i) k.
Proof.
  intros Hk. unfold with_id, report_base, report_bit, rd. destruct (negb _); [|done].
  pose proof (Z.div_pos k 8). destruct (Z.leb_spec 0 (1 + k / 8)); [|lia].
  by rewrite list_lookup_insert_ne by lia.
Qed.

Lemma with_id_length data i : length (with_id data i) = length data.
Proof. unfold with_id. case_match; [apply length_insert|done]. Qed.

Lemma set_item data i : placed data i → ∃ data', USB_SetHIDReportItemInfo data (Some i) = Some (data', Some (set_PreviousValue (Value i) i)) ∧
  length data' = length data ∧ (ReportID i ≠ 0 → rd data' 0 = Some (ReportID i)) ∧
  ∀ k, 0 ≤ k → report_bit data' (report_base i) k = report_bit data (report_base i) k ||
    ((BitOffset i <=? k) && (k <? BitOffset i + BitSize (Attributes i)) && Z.testbit (Value i) (k - BitOffset i)).
Proof.
  intros [Hv (Ho & Hs & Hr) Hi Hl Hc]. pose proof (base_nonneg i) as Hb.
  destruct (set_bits_spec (report_base i) (Value i) (Z.to_nat (BitSize (Attributes i))) (with_id data i) (BitOffset i) 0)
    as (d' & E & L & F & B); [lia..| |].
  { intros k Hk. rewrite with_id_length. apply Hi. lia. }
  exists d'. unfold USB_SetHIDReportItemInfo.
  assert ((if negb (ReportID i =? 0) then wr data 0 (ReportID i) else Some data) = Some (with_id data i)) as ->.
  { unfold with_id. destruct (negb _); [|done]. by rewrite wr_Some by lia. }
  cbn [mbind option_bind]. change (mask 0) with 1 in E. rewrite E. cbn [mbind option_bind].
  split; [done|]. split; [by rewrite L, with_id_length|]. split.
  - intros Hne. unfold report_base in F. destruct (Z.eqb_spec (ReportID i) 0) as [|Hn]; [done|]. cbn [negb] in F.
    rewrite F by lia. unfold with_id. destruct (Z.eqb_spec (ReportID i) 0); [done|]. cbn [negb]. apply rd_Some.
    split; [lia|]. by apply list_lookup_insert_eq.
  - intros k Hk. rewrite B, with_id_bit by done. rewrite Z2Nat.id by lia. by rewrite Z.add_0_l.
Qed.

Lemma get_item data i : 0 ≤ BitOffset i → 0 ≤ BitSize (Attributes i) → BitOffset i + BitSize (Attributes i) < 65536 →
  holds data (report_base i) (BitOffset i) (BitSize (Attributes i)) →
  (ReportID i ≠ 0 → rd data 0 = Some (ReportID i)) →
  ∃ v, USB_GetHIDReportItemInfo data (Some i) = Some (true, Some (set_Value v (set_PreviousValue (Value i) i))) ∧
    0 ≤ v ∧ ∀ j, 0 ≤ j → Z.testbit v j =
      ((j <? BitSize (Attributes i)) && (j <? 32) && report_bit data (report_base i) (BitOffset i + j)).
Proof.
  intros Ho Hs Hr Hi Hid. pose proof (base_nonneg i) as Hb.
  destruct (get_bits_spec data (report_base i) (Z.to_nat (BitSize (Attributes i))) (BitOffset i) 0 0)
    as (v & E & Hv & B); [lia..| |].
  { by rewrite Z2Nat.id. }
  exists v. unfold USB_GetHIDReportItemInfo. change (mask 0) with 1 in E. rewrite E. split; [|split; [done|]].
  - destruct (Z.eqb_spec (ReportID i) 0) as [|Hn]; cbn [negb andb]; [done|]. rewrite Hid by done. cbn [mbind option_bind].
    by rewrite Z.eqb_refl.
  - intros j Hj. rewrite B, Z.bits_0, Z.sub_0_r, Z2Nat.id by done. cbn. destruct (Z.leb_spec 0 j); [|lia]. done.
Qed.
