(* ===== verification/HIDProps.v ===== *)
(** * Properties of the HID report parser

    The theorems about HIDParser.c, with instances on the report descriptor
    of a three-button mouse. *)
From S2P Require Import Prelude HIDParser HIDSpec HIDBits.

Lemma first_push (its : list (Z * list Z)) : Exists (λ it, is_push it.1 = true) its →
  ∃ a h l b, its = a ++ (h, l) :: b ∧ Forall (λ it, is_push it.1 = false) a ∧ is_push h = true.
Proof.
  induction its as [|[h l] its IH]; intros H; [by inversion H|]. destruct (is_push h) eqn:Eh.
  { exists [], h, l, its. by split_and!. }
  apply Exists_cons in H as [H|H]; [by cbn in H; rewrite Eh in H|].
  destruct (IH H) as (a & h' & l' & b & -> & Ha & Hh). exists ((h, l) :: a), h', l', b.
  split_and!; [done|by constructor|done].
Qed.

Lemma push_overruns filter junk h l tail z s n : parser_ok filter n s → whole (h, l) → is_push h = true →
  Z.of_nat (S (length l)) ≤ z < 65536 → items filter junk (h :: l ++ tail) z s = Overrun.
Proof.
  intros Hs Hw Hp Hz. rewrite items_step by done. unfold item, item_switch. unfold is_push in Hp. cbv zeta.
  rewrite Hp. by rewrite (item_push_overruns filter n).
Qed.

(** C17: The parser of report descriptors is safe and total on every sequence
    of whole items without a PUSH, whatever the filter and the stack hold: it
    returns one of its codes without leaving its tables, at most 20 items are
    kept, all of them data items the filter accepted, every item's collection
    and every parent is in the table and parents precede their children, and
    success means that an item was kept. A descriptor with a PUSH never
    parses: it ends in the error of an earlier item or in the oversized copy
    of the state. *)
Theorem hid_parser_safe filter junk state1 usages its :
  Forall whole its → Z.of_nat (length (encode its)) < 65536 → state_ok state1 → length usages = 8%nat →
  let r := USB_ProcessHIDReport filter junk state1 usages (encode its) (Z.of_nat (length (encode its))) in
  (Forall (λ it, is_push it.1 = false) its →
     ∃ c i n, r = Some (c, i) ∧ 0 ≤ c ≤ 8 ∧ info_ok filter n i ∧ (c = 0 → 0 < TotalReportItems i)) ∧
  (Exists (λ it, is_push it.1 = true) its →
     match r with Some (c, _) => 1 ≤ c ≤ 7 | None => True end).
Proof.
  intros Hw Hz H1 Hu. pose proof (parser_init_ok filter state1 usages H1 Hu) as Hi. cbv zeta.
  unfold USB_ProcessHIDReport. split.
  - intros Hp. destruct (items_good filter junk its [] (Z.of_nat (length (encode its))) (parser_init state1 usages))
      as [(s & [n Hs] & E)|(c & i & n & E & Hc & Hn)]; try done; rewrite app_nil_r in E; rewrite E.
    + rewrite Z.sub_diag. cbn [items Z.eqb]. pose proof (ri_total _ _ _ (po_info _ _ _ Hs)).
      eexists _, _, n. split; [done|]. split; [by case_match|]. split; [by apply po_info|].
      destruct (Z.eqb_spec (TotalReportItems (ParserData s)) 0); [done|lia].
    + exists c, i, n. split_and!; try done; lia.
  - intros (a & h & l & b & -> & Ha & Hh)%first_push. apply Forall_app in Hw as [Hwa Hwb].
    apply Forall_cons in Hwb as [Hwh _]. rewrite encode_app, encode_cons in *.
    rewrite length_app in *. cbn [length] in *. rewrite length_app in *.
    destruct (items_good filter junk a (h :: l ++ encode b) (Z.of_nat (length (encode a) + S (length l + length (encode b))))
      (parser_init state1 usages)) as [(s & [n Hs] & ->)|(c & i & n & -> & Hc & Hn)]; try done; [lia|].
    by rewrite (push_overruns filter junk h l _ _ s n) by (done || lia).
Qed.

(** A value written into a report is the value read back: for an item
    that lies in the report, with its bits clear, the two accessors round-trip
    the value truncated to the item's width, keep the old value as the
    previous one, put the report ID in front and change no other bit. *)
Theorem item_round_trip data i : placed data i →
  ∃ data' i', USB_SetHIDReportItemInfo data (Some i) = Some (data', Some i') ∧ length data' = length data ∧
    (∀ k, 0 ≤ k → ¬ BitOffset i ≤ k < BitOffset i + BitSize (Attributes i) →
       report_bit data' (report_base i) k = report_bit data (report_base i) k) ∧
    USB_GetHIDReportItemInfo data' (Some i') =
      Some (true, Some (set_Value (Value i mod 2 ^ BitSize (Attributes i)) (set_PreviousValue (Value i) i'))).
Proof.
  intros H. destruct (set_item data i H) as (d' & E & L & Hid & B). destruct H as [Hv (Ho & Hs & Hr) Hi _ Hc].
  eexists d', _. split; [exact E|]. split; [done|]. split.
  { intros k Hk Hk'. rewrite B by done.
    destruct (Z.leb_spec (BitOffset i) k), (Z.ltb_spec k (BitOffset i + BitSize (Attributes i))); try lia; by rewrite orb_false_r. }
  destruct (get_item d' (set_PreviousValue (Value i) i)) as (v & Ev & Hv0 & Bv); [exact Ho|exact Hs|exact Hr| |exact Hid|].
  { intros k Hk. rewrite L. by apply Hi. }
  rewrite Ev. cbn [Value set_PreviousValue]. do 4 f_equal. apply Z.bits_inj'. intros j Hj. rewrite Bv by done. cbn.
  change (report_base (set_PreviousValue (Value i) i)) with (report_base i). rewrite B by lia.
  replace (BitOffset i + j - BitOffset i) with j by lia.
  destruct (Z.ltb_spec j (BitSize (Attributes i))).
  - rewrite Z.mod_pow2_bits_low, Hc by lia. cbn.
    destruct (Z.leb_spec (BitOffset i) (BitOffset i + j)), (Z.ltb_spec (BitOffset i + j) (BitOffset i + BitSize (Attributes i))); try lia.
    destruct (Z.ltb_spec j 32); [done|]. by rewrite (high_bits 32) by lia.
  - by rewrite Z.mod_pow2_bits_high by lia.
Qed.

(** ** Instances *)
Definition mouse : list (Z * list Z) :=
  [(0x05, [0x01]); (0x09, [0x02]); (0xA1, [0x01]); (0x09, [0x01]); (0xA1, [0x00]); (0x05, [0x09]); (0x19, [0x01]);
   (0x29, [0x03]); (0x15, [0x00]); (0x25, [0x01]); (0x95, [0x03]); (0x75, [0x01]); (0x81, [0x02]); (0x95, [0x01]);
   (0x75, [0x05]); (0x81, [0x01]); (0x05, [0x01]); (0x09, [0x30]); (0x09, [0x31]); (0x15, [0x81]); (0x25, [0x7F]);
   (0x75, [0x08]); (0x95, [0x02]); (0x81, [0x06]); (0xC0, []); (0xC0, [])].
Definition mouse_parse : option (Z * HID_ReportInfo_t) :=
  USB_ProcessHIDReport (λ _, true) (λ _ _, (0, 0)) zero_StateTable (replicate 8 0) (encode mouse) (Z.of_nat (length (encode mouse))).

Lemma hid_parser_safe_witness :
  (∃ c i n, mouse_parse = Some (c, i) ∧ 0 ≤ c ≤ 8 ∧ info_ok (λ _, true) n i ∧ (c = 0 → 0 < TotalReportItems i)) ∧
  option_map fst mouse_parse = Some HID_PARSE_Successful.
Proof.
  split; [|by vm_compute].
  refine (proj1 (hid_parser_safe (λ _, true) (λ _ _, (0, 0)) zero_StateTable (replicate 8 0) mouse _ _ _ _) _).
  - repeat (apply Forall_cons; split; [reflexivity|]). apply Forall_nil_2.
  - by vm_compute.
  - by vm_compute.
  - reflexivity.
  - repeat (apply Forall_cons; split; [reflexivity|]). apply Forall_nil_2.
Defined.

(** The horizontal axis of the mouse: eight bits at offset 8, report ID 3. *)
Definition axis : HID_ReportItem_t :=
  HID_ReportItem 8 HID_REPORT_ITEM_In 6 3 (Some 1) (set_BitSize 8 zero_Attributes) 0x1A5 0.

Lemma item_round_trip_witness :
  ∃ data' i', USB_SetHIDReportItemInfo [0; 7; 0; 9] (Some axis) = Some (data', Some i') ∧ length data' = 4%nat ∧
    (∀ k, 0 ≤ k → ¬ 8 ≤ k < 16 → report_bit data' 1 k = report_bit [0; 7; 0; 9] 1 k) ∧
    USB_GetHIDReportItemInfo data' (Some i') = Some (true, Some (set_Value 0xA5 (set_PreviousValue 0x1A5 i'))).
Proof.
  apply (item_round_trip [0; 7; 0; 9] axis). constructor.
  - by vm_compute.
  - by vm_compute.
  - intros k Hk. cbn in *. assert (k / 8 = 1) as -> by (symmetry; apply (Z.div_unique k 8 1 (k - 8)); lia). by vm_compute.
  - cbn. lia.
  - intros k Hk. cbn in Hk. unfold report_bit. assert (k / 8 = 1) as -> by (symmetry; apply (Z.div_unique k 8 1 (k - 8)); lia).
    cbn. apply Z.bits_0.
Defined.
