(* ===== verification/Rndis.v ===== *)
(** * The RNDIS class driver

    LUFA/Drivers/USB/Class/Device/RNDISClassDevice.c with the messages of
    Class/Common/RNDISClassCommon.h. The structure the application passes to
    every function is a record that is threaded through them; the message
    buffer is a list of bytes, the structures laid over it are offsets into it
    (packed, little endian), and an access behind its end is [None] in the pure
    functions and a fault in the others. *)
From S2P Require Import Prelude RingBuffer Machine Endpoint Controller EndpointPoll EndpointStream Cdc Packed.

(** ** RNDISClassCommon.h *)
Definition RNDIS_ERROR_LOGICAL_CMD_FAILED : Z := 0x80.
Definition REMOTE_NDIS_VERSION_MAJOR : Z := 0x01.
Definition REMOTE_NDIS_VERSION_MINOR : Z := 0x00.
Definition REMOTE_NDIS_PACKET_MSG : Z := 0x00000001.
Definition REMOTE_NDIS_INITIALIZE_MSG : Z := 0x00000002.
Definition REMOTE_NDIS_HALT_MSG : Z := 0x00000003.
Definition REMOTE_NDIS_QUERY_MSG : Z := 0x00000004.
Definition REMOTE_NDIS_SET_MSG : Z := 0x00000005.
Definition REMOTE_NDIS_RESET_MSG : Z := 0x00000006.
Definition REMOTE_NDIS_KEEPALIVE_MSG : Z := 0x00000008.
Definition REMOTE_NDIS_INITIALIZE_CMPLT : Z := 0x80000002.
Definition REMOTE_NDIS_QUERY_CMPLT : Z := 0x80000004.
Definition REMOTE_NDIS_SET_CMPLT : Z := 0x80000005.
Definition REMOTE_NDIS_RESET_CMPLT : Z := 0x80000006.
Definition REMOTE_NDIS_KEEPALIVE_CMPLT : Z := 0x80000008.
Definition REMOTE_NDIS_STATUS_SUCCESS : Z := 0x00000000.
Definition REMOTE_NDIS_STATUS_NOT_SUPPORTED : Z := 0xC00000BB.
Definition REMOTE_NDIS_MEDIA_STATE_CONNECTED : Z := 0x00000000.
Definition REMOTE_NDIS_MEDIUM_802_3 : Z := 0x00000000.
Definition REMOTE_NDIS_DF_CONNECTIONLESS : Z := 0x00000001.
Definition OID_GEN_SUPPORTED_LIST : Z := 0x00010101.
Definition OID_GEN_HARDWARE_STATUS : Z := 0x00010102.
Definition OID_GEN_MEDIA_SUPPORTED : Z := 0x00010103.
Definition OID_GEN_MEDIA_IN_USE : Z := 0x00010104.
Definition OID_GEN_MAXIMUM_FRAME_SIZE : Z := 0x00010106.
Definition OID_GEN_MAXIMUM_TOTAL_SIZE : Z := 0x00010111.
Definition OID_GEN_LINK_SPEED : Z := 0x00010107.
Definition OID_GEN_TRANSMIT_BLOCK_SIZE : Z := 0x0001010A.
Definition OID_GEN_RECEIVE_BLOCK_SIZE : Z := 0x0001010B.
Definition OID_GEN_VENDOR_ID : Z := 0x0001010C.
Definition OID_GEN_VENDOR_DESCRIPTION : Z := 0x0001010D.
Definition OID_GEN_CURRENT_PACKET_FILTER : Z := 0x0001010E.
Definition OID_GEN_MEDIA_CONNECT_STATUS : Z := 0x00010114.
Definition OID_GEN_PHYSICAL_MEDIUM : Z := 0x00010202.
Definition OID_GEN_XMIT_OK : Z := 0x00020101.
Definition OID_GEN_RCV_OK : Z := 0x00020102.
Definition OID_GEN_XMIT_ERROR : Z := 0x00020103.
Definition OID_GEN_RCV_ERROR : Z := 0x00020104.
Definition OID_GEN_RCV_NO_BUFFER : Z := 0x00020105.
Definition OID_802_3_PERMANENT_ADDRESS : Z := 0x01010101.
Definition OID_802_3_CURRENT_ADDRESS : Z := 0x01010102.
Definition OID_802_3_MULTICAST_LIST : Z := 0x01010103.
Definition OID_802_3_MAXIMUM_LIST_SIZE : Z := 0x01010104.
Definition OID_802_3_RCV_ERROR_ALIGNMENT : Z := 0x01020101.
Definition OID_802_3_XMIT_ONE_COLLISION : Z := 0x01020102.
Definition OID_802_3_XMIT_MORE_COLLISIONS : Z := 0x01020103.
Definition ETHERNET_FRAME_SIZE_MAX : Z := 1500.
Definition RNDIS_REQ_SendEncapsulatedCommand : Z := 0x00.
Definition RNDIS_REQ_GetEncapsulatedResponse : Z := 0x01.
Definition RNDIS_Uninitialized : Z := 0.
Definition RNDIS_Initialized : Z := 1.
Definition RNDIS_Data_Initialized : Z := 2.
Definition RNDIS_NOTIF_ResponseAvailable : Z := 0x01.
Definition NDIS_HardwareStatus_Ready : Z := 0.

(** The sizes of the packed structures and the offsets of their members. *)
Definition sizeof_RNDIS_Message_Header : Z := 8.
Definition sizeof_RNDIS_Packet_Message : Z := 44.
Definition sizeof_RNDIS_Initialize_Complete : Z := 52.
Definition sizeof_RNDIS_KeepAlive_Complete : Z := 16.
Definition sizeof_RNDIS_Reset_Complete : Z := 16.
Definition sizeof_RNDIS_Set_Complete : Z := 16.
Definition sizeof_RNDIS_Query_Complete : Z := 24.
Definition o_MessageType : Z := 0.
Definition o_MessageLength : Z := 4.
Definition o_RequestId : Z := 8.
(** Set and Query messages *)
Definition o_Oid : Z := 12.
Definition o_InformationBufferLength : Z := 16.
Definition o_InformationBufferOffset : Z := 20.
(** Complete messages with a request identifier, and the one without *)
Definition o_Status : Z := 12.
Definition o_Reset_Status : Z := 8.
Definition o_Reset_AddressingReset : Z := 12.
(** Packet messages *)
Definition o_DataOffset : Z := 8.
Definition o_DataLength : Z := 12.

(** ** RNDISClassDevice.h *)
Record RNDIS_Config_t := RNDIS_Config {
  R_ControlInterfaceNumber : Z;
  R_DataINEndpoint : USB_Endpoint_Table_t;
  R_DataOUTEndpoint : USB_Endpoint_Table_t;
  R_NotificationEndpoint : USB_Endpoint_Table_t;
  AdapterVendorDescription : list Z;
  AdapterMACAddress : list Z;
  MessageBuffer : option (list Z);
  MessageBufferLength : Z }.
Record RNDIS_State_t := RNDIS_State {
  ResponseReady : bool;
  CurrRNDISState : Z;
  CurrPacketFilter : Z }.
Record USB_ClassInfo_RNDIS_Device_t := RNDIS_Device {
  R_Config : RNDIS_Config_t;
  R_State : RNDIS_State_t }.

Definition set_buffer (b : list Z) (i : USB_ClassInfo_RNDIS_Device_t) : USB_ClassInfo_RNDIS_Device_t :=
  let c := R_Config i in
  RNDIS_Device (RNDIS_Config (R_ControlInterfaceNumber c) (R_DataINEndpoint c) (R_DataOUTEndpoint c)
    (R_NotificationEndpoint c) (AdapterVendorDescription c) (AdapterMACAddress c) (Some b) (MessageBufferLength c))
    (R_State i).
Definition set_state (st : RNDIS_State_t) (i : USB_ClassInfo_RNDIS_Device_t) : USB_ClassInfo_RNDIS_Device_t :=
  RNDIS_Device (R_Config i) st.
Definition set_ready (b : bool) (i : USB_ClassInfo_RNDIS_Device_t) : USB_ClassInfo_RNDIS_Device_t :=
  set_state (RNDIS_State b (CurrRNDISState (R_State i)) (CurrPacketFilter (R_State i))) i.
Definition set_rndis_state (v : Z) (i : USB_ClassInfo_RNDIS_Device_t) : USB_ClassInfo_RNDIS_Device_t :=
  set_state (RNDIS_State (ResponseReady (R_State i)) v (CurrPacketFilter (R_State i))) i.
Definition set_filter (v : Z) (i : USB_ClassInfo_RNDIS_Device_t) : USB_ClassInfo_RNDIS_Device_t :=
  set_state (RNDIS_State (ResponseReady (R_State i)) (CurrRNDISState (R_State i)) v) i.

Definition AdapterSupportedOIDList : list Z :=
  [OID_GEN_SUPPORTED_LIST; OID_GEN_PHYSICAL_MEDIUM; OID_GEN_HARDWARE_STATUS; OID_GEN_MEDIA_SUPPORTED;
   OID_GEN_MEDIA_IN_USE; OID_GEN_MAXIMUM_FRAME_SIZE; OID_GEN_MAXIMUM_TOTAL_SIZE; OID_GEN_LINK_SPEED;
   OID_GEN_TRANSMIT_BLOCK_SIZE; OID_GEN_RECEIVE_BLOCK_SIZE; OID_GEN_VENDOR_ID; OID_GEN_VENDOR_DESCRIPTION;
   OID_GEN_CURRENT_PACKET_FILTER; OID_GEN_MAXIMUM_TOTAL_SIZE; OID_GEN_MEDIA_CONNECT_STATUS; OID_GEN_XMIT_OK;
   OID_GEN_RCV_OK; OID_GEN_XMIT_ERROR; OID_GEN_RCV_ERROR; OID_GEN_RCV_NO_BUFFER; OID_802_3_PERMANENT_ADDRESS;
   OID_802_3_CURRENT_ADDRESS; OID_802_3_MULTICAST_LIST; OID_802_3_MAXIMUM_LIST_SIZE;
   OID_802_3_RCV_ERROR_ALIGNMENT; OID_802_3_XMIT_ONE_COLLISION; OID_802_3_XMIT_MORE_COLLISIONS].
Definition RNDIS_DEVICE_MIN_MESSAGE_BUFFER_LENGTH : Z := 27 * 4 + sizeof_RNDIS_Query_Complete.

(** ** Queries and settings *)

(** The bytes of the answer to a query, [None] when the object is unknown.
    [ *ResponseSize] is their number. *)
Definition query_answer (i : USB_ClassInfo_RNDIS_Device_t) (OId : Z) : option (list Z) :=
  if OId =? OID_GEN_SUPPORTED_LIST then Some (concat (map le32 AdapterSupportedOIDList))
  else if OId =? OID_GEN_PHYSICAL_MEDIUM then Some (le32 0)
  else if OId =? OID_GEN_HARDWARE_STATUS then Some (le32 NDIS_HardwareStatus_Ready)
  else if (OId =? OID_GEN_MEDIA_SUPPORTED) || (OId =? OID_GEN_MEDIA_IN_USE) then Some (le32 REMOTE_NDIS_MEDIUM_802_3)
  else if OId =? OID_GEN_VENDOR_ID then Some (le32 0x00FFFFFF)
  else if (OId =? OID_GEN_MAXIMUM_FRAME_SIZE) || (OId =? OID_GEN_TRANSMIT_BLOCK_SIZE) ||
          (OId =? OID_GEN_RECEIVE_BLOCK_SIZE) then Some (le32 ETHERNET_FRAME_SIZE_MAX)
  else if OId =? OID_GEN_VENDOR_DESCRIPTION then Some (AdapterVendorDescription (R_Config i) ++ [0])
  else if OId =? OID_GEN_MEDIA_CONNECT_STATUS then Some (le32 REMOTE_NDIS_MEDIA_STATE_CONNECTED)
  else if OId =? OID_GEN_LINK_SPEED then Some (le32 100000)
  else if (OId =? OID_802_3_PERMANENT_ADDRESS) || (OId =? OID_802_3_CURRENT_ADDRESS) then
    Some (AdapterMACAddress (R_Config i))
  else if OId =? OID_802_3_MAXIMUM_LIST_SIZE then Some (le32 1)
  else if OId =? OID_GEN_CURRENT_PACKET_FILTER then Some (le32 (CurrPacketFilter (R_State i)))
  else if (OId =? OID_GEN_XMIT_OK) || (OId =? OID_GEN_RCV_OK) || (OId =? OID_GEN_XMIT_ERROR) ||
          (OId =? OID_GEN_RCV_ERROR) || (OId =? OID_GEN_RCV_NO_BUFFER) || (OId =? OID_802_3_RCV_ERROR_ALIGNMENT) ||
          (OId =? OID_802_3_XMIT_ONE_COLLISION) || (OId =? OID_802_3_XMIT_MORE_COLLISIONS) then Some (le32 0)
  else if OId =? OID_GEN_MAXIMUM_TOTAL_SIZE then
    Some (le32 (u16 (MessageBufferLength (R_Config i) + ETHERNET_FRAME_SIZE_MAX)))
  else None.

(** The result, the message buffer and [*ResponseSize]; the answer goes to
    [ResponseData], offset [r]. *)
Definition RNDIS_Device_ProcessNDISQuery (i : USB_ClassInfo_RNDIS_Device_t) (OId : Z) (b : list Z) (r : Z) :
    option (bool * list Z * Z) :=
  match query_answer i OId with
  | Some d => b' ← wr_bytes b r d; Some (true, b', u16 (Z.of_nat (length d)))
  | None => Some (false, b, 0)
  end.

(** [SetData] is the offset [p]. *)
Definition RNDIS_Device_ProcessNDISSet (i : USB_ClassInfo_RNDIS_Device_t) (OId : Z) (b : list Z) (p : Z) :
    option (bool * USB_ClassInfo_RNDIS_Device_t) :=
  if OId =? OID_GEN_CURRENT_PACKET_FILTER then
    v ← rd32 b p;
    let i := set_filter v i in
    Some (true, set_rndis_state (if negb (v =? 0) then RNDIS_Data_Initialized else RNDIS_Initialized) i)
  else if OId =? OID_802_3_MULTICAST_LIST then Some (true, i)
  else Some (false, i).

(** ** Control messages

    One definition per case of the switch; message and response share the
    buffer. *)
Definition msg_initialize (i : USB_ClassInfo_RNDIS_Device_t) (b : list Z) : option USB_ClassInfo_RNDIS_Device_t :=
  let i := set_ready true i in
  b ← wr_members b [(o_MessageType, REMOTE_NDIS_INITIALIZE_CMPLT); (o_MessageLength, sizeof_RNDIS_Initialize_Complete)];
  RequestId ← rd32 b o_RequestId;
  b ← wr_members b [(o_RequestId, RequestId); (o_Status, REMOTE_NDIS_STATUS_SUCCESS);
        (16, REMOTE_NDIS_VERSION_MAJOR); (20, REMOTE_NDIS_VERSION_MINOR); (24, REMOTE_NDIS_DF_CONNECTIONLESS);
        (28, REMOTE_NDIS_MEDIUM_802_3); (32, 1); (36, sizeof_RNDIS_Packet_Message + ETHERNET_FRAME_SIZE_MAX);
        (40, 0); (44, 0); (48, 0)];
  Some (set_rndis_state RNDIS_Initialized (set_buffer b i)).

Definition msg_halt (i : USB_ClassInfo_RNDIS_Device_t) (b : list Z) : option USB_ClassInfo_RNDIS_Device_t :=
  let i := set_ready false i in
  b ← wr32 b o_MessageLength 0;
  Some (set_rndis_state RNDIS_Uninitialized (set_buffer b i)).

(** [QueryData] and [QuerySize] are computed but not used. *)
Definition msg_query (i : USB_ClassInfo_RNDIS_Device_t) (b : list Z) : option USB_ClassInfo_RNDIS_Device_t :=
  let i := set_ready true i in
  Query_Oid ← rd32 b o_Oid;
  _ ← rd32 b o_InformationBufferOffset;
  b ← wr32 b o_MessageType REMOTE_NDIS_QUERY_CMPLT;
  _ ← rd32 b o_InformationBufferLength;
  '(ok, b, ResponseSize) ← RNDIS_Device_ProcessNDISQuery i Query_Oid b sizeof_RNDIS_Query_Complete;
  b ← (if (ok : bool) then
         wr_members b [(o_Status, REMOTE_NDIS_STATUS_SUCCESS);
           (o_MessageLength, u16 (sizeof_RNDIS_Query_Complete + ResponseSize));
           (o_InformationBufferLength, ResponseSize);
           (o_InformationBufferOffset, sizeof_RNDIS_Query_Complete - sizeof_RNDIS_Message_Header)]
       else
         wr_members b [(o_Status, REMOTE_NDIS_STATUS_NOT_SUPPORTED); (o_MessageLength, sizeof_RNDIS_Query_Complete);
           (o_InformationBufferLength, 0); (o_InformationBufferOffset, 0)]);
  Some (set_buffer b i).

Definition msg_set (i : USB_ClassInfo_RNDIS_Device_t) (b : list Z) : option USB_ClassInfo_RNDIS_Device_t :=
  let i := set_ready true i in
  SET_Oid ← rd32 b o_Oid;
  b ← wr_members b [(o_MessageType, REMOTE_NDIS_SET_CMPLT); (o_MessageLength, sizeof_RNDIS_Set_Complete)];
  RequestId ← rd32 b o_RequestId;
  b ← wr32 b o_RequestId RequestId;
  o ← rd32 b o_InformationBufferOffset;
  let SetData := u32 (sizeof_RNDIS_Message_Header + o) in
  _ ← rd32 b o_InformationBufferLength;
  '(ok, i) ← RNDIS_Device_ProcessNDISSet i SET_Oid b SetData;
  b ← wr32 b o_Status (if (ok : bool) then REMOTE_NDIS_STATUS_SUCCESS else REMOTE_NDIS_STATUS_NOT_SUPPORTED);
  Some (set_buffer b i).

Definition msg_reset (i : USB_ClassInfo_RNDIS_Device_t) (b : list Z) : option USB_ClassInfo_RNDIS_Device_t :=
  let i := set_ready true i in
  b ← wr_members b [(o_MessageType, REMOTE_NDIS_RESET_CMPLT); (o_MessageLength, sizeof_RNDIS_Reset_Complete);
        (o_Reset_Status, REMOTE_NDIS_STATUS_SUCCESS); (o_Reset_AddressingReset, 0)];
  Some (set_buffer b i).

Definition msg_keepalive (i : USB_ClassInfo_RNDIS_Device_t) (b : list Z) : option USB_ClassInfo_RNDIS_Device_t :=
  let i := set_ready true i in
  b ← wr_members b [(o_MessageType, REMOTE_NDIS_KEEPALIVE_CMPLT); (o_MessageLength, sizeof_RNDIS_KeepAlive_Complete)];
  RequestId ← rd32 b o_RequestId;
  b ← wr_members b [(o_RequestId, RequestId); (o_Status, REMOTE_NDIS_STATUS_SUCCESS)];
  Some (set_buffer b i).

Definition RNDIS_Device_ProcessRNDISControlMessage (i : USB_ClassInfo_RNDIS_Device_t) :
    option USB_ClassInfo_RNDIS_Device_t :=
  b ← MessageBuffer (R_Config i);
  t ← rd32 b o_MessageType;
  if t =? REMOTE_NDIS_INITIALIZE_MSG then msg_initialize i b
  else if t =? REMOTE_NDIS_HALT_MSG then msg_halt i b
  else if t =? REMOTE_NDIS_QUERY_MSG then msg_query i b
  else if t =? REMOTE_NDIS_SET_MSG then msg_set i b
  else if t =? REMOTE_NDIS_RESET_MSG then msg_reset i b
  else if t =? REMOTE_NDIS_KEEPALIVE_MSG then msg_keepalive i b
  else Some i.

(** ** Control requests *)

(** The buffer that [RNDIS_REQ_GetEncapsulatedResponse] sends and the length
    it passes on. *)
Definition response (b : list Z) : option (list Z * Z) :=
  n ← rd32 b o_MessageLength;
  if n =? 0 then
    b ← wr b 0 0;
    b ← wr32 b o_MessageLength 1;
    n ← rd32 b o_MessageLength;
    Some (b, u16 n)
  else Some (b, u16 n).

Definition RNDIS_Device_ProcessControlRequest (i : USB_ClassInfo_RNDIS_Device_t) : M USB_ClassInfo_RNDIS_Device_t :=
  setup ← Endpoint_IsSETUPReceived;
  if negb setup then mret i
  else
    r ← get_fw ControlRequest;
    if negb (wIndex r =? R_ControlInterfaceNumber (R_Config i)) then mret i
    else if bRequest r =? RNDIS_REQ_SendEncapsulatedCommand then
      if bmRequestType r =? class_out then
        Endpoint_ClearSETUP;;
        b ← lift (MessageBuffer (R_Config i));
        r ← get_fw ControlRequest;
        v ← Endpoint_Read_Control_Stream_LE b (wLength r);
        Endpoint_ClearIN;;
        lift (RNDIS_Device_ProcessRNDISControlMessage (set_buffer v.2 i))
      else mret i
    else if bRequest r =? RNDIS_REQ_GetEncapsulatedResponse then
      if bmRequestType r =? class_in then
        b ← lift (MessageBuffer (R_Config i));
        v ← lift (response b);
        Endpoint_ClearSETUP;;
        _ ← Endpoint_Write_Control_Stream_LE v.1 v.2;
        Endpoint_ClearOUT;;
        b ← lift (wr32 v.1 o_MessageLength 0);
        mret (set_buffer b i)
      else mret i
    else mret i.

Definition RNDIS_Device_ConfigureEndpoints (i : USB_ClassInfo_RNDIS_Device_t) : M (bool * USB_ClassInfo_RNDIS_Device_t) :=
  let c := R_Config i in
  let c := RNDIS_Config (R_ControlInterfaceNumber c) (with_type EP_TYPE_BULK (R_DataINEndpoint c))
    (with_type EP_TYPE_BULK (R_DataOUTEndpoint c)) (with_type EP_TYPE_INTERRUPT (R_NotificationEndpoint c))
    (AdapterVendorDescription c) (AdapterMACAddress c) (MessageBuffer c) (MessageBufferLength c) in
  let i := RNDIS_Device c (RNDIS_State false 0 0) in
  match MessageBuffer c with
  | None => mret (false, i)
  | Some _ =>
      if MessageBufferLength c <? RNDIS_DEVICE_MIN_MESSAGE_BUFFER_LENGTH then mret (false, i)
      else
        ok ← Endpoint_ConfigureEndpointTable [R_DataINEndpoint c];
        if negb ok then mret (false, i)
        else
          ok ← Endpoint_ConfigureEndpointTable [R_DataOUTEndpoint c];
          if negb ok then mret (false, i)
          else
            ok ← Endpoint_ConfigureEndpointTable [R_NotificationEndpoint c];
            if negb ok then mret (false, i) else mret (true, i)
  end.

(** ** The task and the data path *)
Definition Notification : list Z := [class_in; RNDIS_NOTIF_ResponseAvailable; 0; 0; 0; 0; 0; 0].

Definition RNDIS_Device_USBTask (i : USB_ClassInfo_RNDIS_Device_t) : M USB_ClassInfo_RNDIS_Device_t :=
  d ← get_fw DeviceState;
  if negb (d =? DEVICE_STATE_Configured) then mret i
  else
    Endpoint_SelectEndpoint (T_Address (R_NotificationEndpoint (R_Config i)));;
    ready ← Endpoint_IsINReady;
    if ready && ResponseReady (R_State i) then
      _ ← Endpoint_Write_Stream_LE (in_memory Notification) 8 None;
      Endpoint_ClearIN;;
      mret (set_ready false i)
    else mret i.

(** [(USB_DeviceState != DEVICE_STATE_Configured) || (CurrRNDISState !=
    RNDIS_Data_Initialized)] *)
Definition RNDIS_inactive (i : USB_ClassInfo_RNDIS_Device_t) : M bool :=
  d ← get_fw DeviceState;
  mret (negb (d =? DEVICE_STATE_Configured) || negb (CurrRNDISState (R_State i) =? RNDIS_Data_Initialized)).

Definition RNDIS_Device_IsPacketReceived (i : USB_ClassInfo_RNDIS_Device_t) : M bool :=
  off ← RNDIS_inactive i;
  if (off : bool) then mret false
  else
    Endpoint_SelectEndpoint (T_Address (R_DataOUTEndpoint (R_Config i)));;
    Endpoint_IsOUTReceived.

(** [junk] is what the automatic variable [RNDISPacketHeader] holds before it
    is read. The result is the error code, the caller's buffer and
    [ *PacketLength]. *)
Definition RNDIS_Device_ReadPacket (i : USB_ClassInfo_RNDIS_Device_t) (junk Buffer : list Z) (PacketLength : Z) :
    M (Z * list Z * Z) :=
  off ← RNDIS_inactive i;
  if (off : bool) then mret (ENDPOINT_RWSTREAM_DeviceDisconnected, Buffer, PacketLength)
  else
    Endpoint_SelectEndpoint (T_Address (R_DataOUTEndpoint (R_Config i)));;
    out ← Endpoint_IsOUTReceived;
    if negb out then mret (ENDPOINT_RWSTREAM_NoError, Buffer, 0)
    else
      v ← Endpoint_Read_Stream_LE junk sizeof_RNDIS_Packet_Message None;
      let RNDISPacketHeader := v.1.2 in
      n ← lift (rd32 RNDISPacketHeader o_DataLength);
      if n >? ETHERNET_FRAME_SIZE_MAX then
        Endpoint_StallTransaction;;
        mret (RNDIS_ERROR_LOGICAL_CMD_FAILED, Buffer, 0)
      else
        let PacketLength := u16 n in
        v ← Endpoint_Read_Stream_LE Buffer PacketLength None;
        Endpoint_ClearOUT;;
        mret (ENDPOINT_RWSTREAM_NoError, v.1.2, PacketLength).

Definition packet_header (PacketLength : Z) : list Z :=
  le32 REMOTE_NDIS_PACKET_MSG ++ le32 (u16 (sizeof_RNDIS_Packet_Message + PacketLength)) ++
  le32 (sizeof_RNDIS_Packet_Message - sizeof_RNDIS_Message_Header) ++ le32 PacketLength ++ replicate 28 0.

Definition RNDIS_Device_SendPacket (i : USB_ClassInfo_RNDIS_Device_t) (Buffer : list Z) (PacketLength : Z) : M Z :=
  off ← RNDIS_inactive i;
  if (off : bool) then mret ENDPOINT_RWSTREAM_DeviceDisconnected
  else
    Endpoint_SelectEndpoint (T_Address (R_DataINEndpoint (R_Config i)));;
    ErrorCode ← Endpoint_WaitUntilReady;
    if negb (ErrorCode =? ENDPOINT_READYWAIT_NoError) then mret ErrorCode
    else
      _ ← Endpoint_Write_Stream_LE (in_memory (packet_header PacketLength)) sizeof_RNDIS_Packet_Message None;
      _ ← Endpoint_Write_Stream_LE (in_memory Buffer) PacketLength None;
      Endpoint_ClearIN;;
      mret ENDPOINT_RWSTREAM_NoError.
