(* ===== verification/RndisSpec.v ===== *)
(** * RNDIS messages

    What the control messages of RNDISClassDevice.c do to the message buffer
    and to the state of the adapter, member by member, and that no access
    leaves the buffer as long as the host keeps its offsets in range. *)
From S2P Require Import Prelude RingBuffer Machine Endpoint Controller EndpointPoll EndpointStream Cdc Packed Rndis.

(** ** The interface structure *)
Record rndis_wf (i : USB_ClassInfo_RNDIS_Device_t) (b : list Z) : Prop := {
  rn_buf : MessageBuffer (R_Config i) = Some b;
  rn_len : Z.of_nat (length b) = MessageBufferLength (R_Config i);
  rn_min : RNDIS_DEVICE_MIN_MESSAGE_BUFFER_LENGTH ≤ MessageBufferLength (R_Config i) < 65536;
  rn_bytes : bytes b;
  rn_mac : length (AdapterMACAddress (R_Config i)) = 6%nat ∧ bytes (AdapterMACAddress (R_Config i));
  rn_desc : sizeof_RNDIS_Query_Complete + Z.of_nat (length (AdapterVendorDescription (R_Config i))) + 1 ≤
              MessageBufferLength (R_Config i) ∧ bytes (AdapterVendorDescription (R_Config i));
  rn_filter : 0 ≤ CurrPacketFilter (R_State i) < 2 ^ 32;
  rn_state : CurrRNDISState (R_State i) = RNDIS_Uninitialized ∨ CurrRNDISState (R_State i) = RNDIS_Initialized ∨
             (CurrRNDISState (R_State i) = RNDIS_Data_Initialized ∧ CurrPacketFilter (R_State i) ≠ 0) }.

(** Every answer fits behind the header of the response. *)
Lemma query_answer_fits i b oid ans : rndis_wf i b → query_answer i oid = Some ans →
  24 + Z.of_nat (length ans) ≤ Z.of_nat (length b) ∧ bytes ans.
Proof.
  intros [] H. unfold RNDIS_DEVICE_MIN_MESSAGE_BUFFER_LENGTH, sizeof_RNDIS_Query_Complete in *.
  assert (∀ v, 24 + Z.of_nat (length (le32 v)) ≤ Z.of_nat (length b) ∧ bytes (le32 v)) as K
    by (intros v; split; [cbn; lia|apply le32_bytes]).
  unfold query_answer in H.
  repeat match type of H with (if ?c then _ else _) = _ => destruct c end; simplify_eq; try apply K.
  - assert (length (concat (map le32 AdapterSupportedOIDList)) = 108%nat) as -> by reflexivity. split; [lia|]. apply Forall_concat, Forall_map, Forall_forall. intros v _. apply le32_bytes.
  - destruct rn_desc0 as [? Hd]. split; [rewrite length_app; cbn; lia|]. apply Forall_app. by split; [|repeat constructor].
  - destruct rn_mac0 as [-> ?]. split; [lia|done].
Qed.

(** *** The objects

    The objects of the adapter by their numbers, with the value each of them has
    for the host: the general objects 0x0001xxxx, the statistics 0x0002xxxx and
    those of an Ethernet adapter 0x0101xxxx and 0x0102xxxx. *)
Definition objects_of (i : USB_ClassInfo_RNDIS_Device_t) : list (Z * list Z) :=
  [(0x00010101, concat (map le32 [0x00010101; 0x00010202; 0x00010102; 0x00010103; 0x00010104; 0x00010106; 0x00010111; 0x00010107;
      0x0001010A; 0x0001010B; 0x0001010C; 0x0001010D; 0x0001010E; 0x00010111; 0x00010114; 0x00020101; 0x00020102; 0x00020103;
      0x00020104; 0x00020105; 0x01010101; 0x01010102; 0x01010103; 0x01010104; 0x01020101; 0x01020102; 0x01020103]));
   (0x00010102, [0; 0; 0; 0]); (* ready *)
   (0x00010103, [0; 0; 0; 0]); (0x00010104, [0; 0; 0; 0]); (* 802.3 *)
   (0x00010106, [0xDC; 5; 0; 0]); (0x0001010A, [0xDC; 5; 0; 0]); (0x0001010B, [0xDC; 5; 0; 0]); (* frames of 1500 bytes *)
   (0x00010107, [0xA0; 0x86; 1; 0]); (* 10 MBit/s in units of 100 *)
   (0x0001010C, [0xFF; 0xFF; 0xFF; 0]);
   (0x0001010D, AdapterVendorDescription (R_Config i) ++ [0]);
   (0x0001010E, le32 (CurrPacketFilter (R_State i)));
   (0x00010111, le32 ((MessageBufferLength (R_Config i) + 1500) mod 65536));
   (0x00010114, [0; 0; 0; 0]); (* connected *)
   (0x00010202, [0; 0; 0; 0]);
   (0x00020101, [0; 0; 0; 0]); (0x00020102, [0; 0; 0; 0]); (0x00020103, [0; 0; 0; 0]); (0x00020104, [0; 0; 0; 0]);
   (0x00020105, [0; 0; 0; 0]); (0x01020101, [0; 0; 0; 0]); (0x01020102, [0; 0; 0; 0]); (0x01020103, [0; 0; 0; 0]);
   (0x01010101, AdapterMACAddress (R_Config i)); (0x01010102, AdapterMACAddress (R_Config i));
   (0x01010104, [1; 0; 0; 0])].
Fixpoint value_of (oid : Z) (l : list (Z * list Z)) : option (list Z) :=
  match l with [] => None | (n, v) :: l => if oid =? n then Some v else value_of oid l end.

Lemma query_answer_objects i oid : query_answer i oid = value_of oid (objects_of i).
Proof.
  assert (∀ l, oid ∉ map fst l → value_of oid l = None) as Knone.
  { intros l. induction l as [|[n v] l IH]; [done|]. cbn. rewrite not_elem_of_cons. intros [Hn Hl].
    by rewrite (proj2 (Z.eqb_neq _ _)), IH. }
  destruct (decide (oid ∈ map fst (objects_of i))) as [H|H].
  - cbn [map fst objects_of] in H. repeat (apply elem_of_cons in H as [->|H]; [reflexivity|]). by apply elem_of_nil in H.
  - rewrite Knone by done. cbn [map fst objects_of] in H. repeat (apply not_elem_of_cons in H as [? H]).
    assert (∀ n, oid ≠ n → (oid =? n) = false) as K by (intros; by apply Z.eqb_neq). unfold query_answer. by rewrite !K by assumption.
Qed.

(** The structure after a message: the buffer is [b'], the state [st]. *)
Definition after (b' : list Z) (st : RNDIS_State_t) (i : USB_ClassInfo_RNDIS_Device_t) : USB_ClassInfo_RNDIS_Device_t :=
  set_state st (set_buffer b' i).

(** ** The protocol

    A message of type [t] with request identifier [id], object [oid] and
    information buffer offset [off] in the buffer [b] is answered in the
    buffer [b'], and the state becomes [st]. *)
Inductive rndis_reply (i : USB_ClassInfo_RNDIS_Device_t) (b : list Z) (id oid off : Z) :
    Z → list Z → RNDIS_State_t → Prop :=
  | R_initialize b' :
      members b' [(0, REMOTE_NDIS_INITIALIZE_CMPLT); (4, 52); (8, id); (12, REMOTE_NDIS_STATUS_SUCCESS);
        (16, 1); (20, 0); (24, 1); (28, 0); (32, 1); (36, 1544); (40, 0); (44, 0); (48, 0)] →
      rndis_reply i b id oid off REMOTE_NDIS_INITIALIZE_MSG b'
        (RNDIS_State true RNDIS_Initialized (CurrPacketFilter (R_State i)))
  | R_halt b' :
      members b' [(4, 0)] →
      rndis_reply i b id oid off REMOTE_NDIS_HALT_MSG b'
        (RNDIS_State false RNDIS_Uninitialized (CurrPacketFilter (R_State i)))
  | R_query ans b' :
      value_of oid (objects_of i) = Some ans →
      members b' [(0, REMOTE_NDIS_QUERY_CMPLT); (4, 24 + Z.of_nat (length ans)); (8, id);
        (12, REMOTE_NDIS_STATUS_SUCCESS); (16, Z.of_nat (length ans)); (20, 16)] →
      block 24 (Z.of_nat (length ans)) b' = ans →
      rndis_reply i b id oid off REMOTE_NDIS_QUERY_MSG b'
        (RNDIS_State true (CurrRNDISState (R_State i)) (CurrPacketFilter (R_State i)))
  | R_query_unknown b' :
      value_of oid (objects_of i) = None →
      members b' [(0, REMOTE_NDIS_QUERY_CMPLT); (4, 24); (8, id); (12, REMOTE_NDIS_STATUS_NOT_SUPPORTED);
        (16, 0); (20, 0)] →
      rndis_reply i b id oid off REMOTE_NDIS_QUERY_MSG b'
        (RNDIS_State true (CurrRNDISState (R_State i)) (CurrPacketFilter (R_State i)))
  | R_set_filter v b' :
      oid = OID_GEN_CURRENT_PACKET_FILTER → rd32 b (8 + off) = Some v →
      members b' [(0, REMOTE_NDIS_SET_CMPLT); (4, 16); (8, id); (12, REMOTE_NDIS_STATUS_SUCCESS)] →
      rndis_reply i b id oid off REMOTE_NDIS_SET_MSG b'
        (RNDIS_State true (if v =? 0 then RNDIS_Initialized else RNDIS_Data_Initialized) v)
  | R_set_other b' :
      oid ≠ OID_GEN_CURRENT_PACKET_FILTER →
      members b' [(0, REMOTE_NDIS_SET_CMPLT); (4, 16); (8, id);
        (12, if oid =? OID_802_3_MULTICAST_LIST then REMOTE_NDIS_STATUS_SUCCESS else REMOTE_NDIS_STATUS_NOT_SUPPORTED)] →
      rndis_reply i b id oid off REMOTE_NDIS_SET_MSG b'
        (RNDIS_State true (CurrRNDISState (R_State i)) (CurrPacketFilter (R_State i)))
  | R_reset b' :
      members b' [(0, REMOTE_NDIS_RESET_CMPLT); (4, 16); (8, REMOTE_NDIS_STATUS_SUCCESS); (12, 0)] →
      rndis_reply i b id oid off REMOTE_NDIS_RESET_MSG b'
        (RNDIS_State true (CurrRNDISState (R_State i)) (CurrPacketFilter (R_State i)))
  | R_keepalive b' :
      members b' [(0, REMOTE_NDIS_KEEPALIVE_CMPLT); (4, 16); (8, id); (12, REMOTE_NDIS_STATUS_SUCCESS)] →
      rndis_reply i b id oid off REMOTE_NDIS_KEEPALIVE_MSG b'
        (RNDIS_State true (CurrRNDISState (R_State i)) (CurrPacketFilter (R_State i)))
  | R_unknown t :
      t ∉ [REMOTE_NDIS_INITIALIZE_MSG; REMOTE_NDIS_HALT_MSG; REMOTE_NDIS_QUERY_MSG; REMOTE_NDIS_SET_MSG;
           REMOTE_NDIS_RESET_MSG; REMOTE_NDIS_KEEPALIVE_MSG] →
      rndis_reply i b id oid off t b (R_State i).

(** The result of one case of the switch. *)
Definition served (i : USB_ClassInfo_RNDIS_Device_t) (b : list Z) (id oid off t : Z)
    (o : option USB_ClassInfo_RNDIS_Device_t) : Prop :=
  ∃ b' st, o = Some (after b' st i) ∧ length b' = length b ∧ bytes b' ∧ rndis_reply i b id oid off t b' st.

(** Members that keep the value they have. *)
Ltac in_range := apply forallb_forall; intros m Hm; cbn in Hm; apply Z.leb_le; 
  repeat (destruct Hm as [<-|Hm];
    [match goal with |- ?x ≤ _ => let v := eval vm_compute in x in change x with v end; lia|]); destruct Hm.
Ltac assign ms b b' H :=
  let E := fresh "E" in
  destruct (wr_members_ok ms b) as (b' & E & H); [reflexivity|in_range|rewrite E; cbn [mbind option_bind]; clear E].

(** A member of the buffer after a chain of assignments. *)
Ltac value := first [reflexivity | assumption | f_equal; first [assumption | symmetry; assumption | lia]].
Ltac mem :=
  lazymatch goal with |- rd32 ?l ?o = Some _ =>
    first
      [ match goal with H : rd32 l _ = Some _ |- _ => etransitivity; [exact H|value] end
      | match goal with H : assigned _ _ l |- _ =>
          etransitivity; [exact (assigned_rd _ _ _ o H ltac:(done) eq_refl)|mem] end ]
  end.
Ltac expand H :=
  let M := fresh "M" in
  pose proof (as_members _ _ _ H) as M; unfold members in M; cbn [map fst snd] in M; rewrite ?Forall_cons in M;
  repeat (let M' := fresh "M" in destruct M as [M' M]); clear M.
Ltac all_members := unfold members; repeat (apply Forall_cons; split; [cbn [fst snd]; mem|]); apply Forall_nil; exact I.

Section Messages.
Context (i : USB_ClassInfo_RNDIS_Device_t) (b : list Z) (id oid off : Z).
Context (Hlen : 132 ≤ Z.of_nat (length b)) (Hb : bytes b) (Hid : rd32 b o_RequestId = Some id).

Lemma id_u32 : u32 id = id.
Proof. pose proof (rd32_range _ _ _ Hid Hb). unfold u32. by apply Z.mod_small. Qed.

Lemma msg_initialize_ok : served i b id oid off REMOTE_NDIS_INITIALIZE_MSG (msg_initialize i b).
Proof.
  unfold msg_initialize. pose proof id_u32 as Hu.
  match goal with |- context [wr_members b ?ms] => assign ms b b1 H1 end.
  rewrite (assigned_rd _ _ _ o_RequestId H1); [|done|reflexivity]. rewrite Hid. cbn [mbind option_bind].
  pose proof (as_len _ _ _ H1) as L1.
  match goal with |- context [wr_members b1 ?ms] => assign ms b1 b2 H2 end.
  exists b2, (RNDIS_State true RNDIS_Initialized (CurrPacketFilter (R_State i))).
  split_and!; [reflexivity|destruct H2; congruence|by apply H2, H1|].
  apply R_initialize. expand H1. expand H2. all_members.
Qed.

Lemma wr32_members l o v : wr32 l o v = wr_members l [(o, v)].
Proof. cbn [wr_members]. by destruct (wr32 l o v). Qed.

Lemma msg_halt_ok : served i b id oid off REMOTE_NDIS_HALT_MSG (msg_halt i b).
Proof.
  unfold msg_halt. rewrite wr32_members.
  match goal with |- context [wr_members b ?ms] => assign ms b b1 H1 end.
  exists b1, (RNDIS_State false RNDIS_Uninitialized (CurrPacketFilter (R_State i))).
  split_and!; [reflexivity|apply H1|by apply H1|]. apply R_halt. expand H1. all_members.
Qed.

Lemma msg_reset_ok : served i b id oid off REMOTE_NDIS_RESET_MSG (msg_reset i b).
Proof.
  unfold msg_reset.
  match goal with |- context [wr_members b ?ms] => assign ms b b1 H1 end.
  exists b1, (RNDIS_State true (CurrRNDISState (R_State i)) (CurrPacketFilter (R_State i))).
  split_and!; [reflexivity|apply H1|by apply H1|]. apply R_reset. expand H1. all_members.
Qed.

Lemma msg_keepalive_ok : served i b id oid off REMOTE_NDIS_KEEPALIVE_MSG (msg_keepalive i b).
Proof.
  unfold msg_keepalive. pose proof id_u32 as Hu.
  match goal with |- context [wr_members b ?ms] => assign ms b b1 H1 end.
  rewrite (assigned_rd _ _ _ o_RequestId H1); [|done|reflexivity]. rewrite Hid. cbn [mbind option_bind].
  pose proof (as_len _ _ _ H1) as L1.
  match goal with |- context [wr_members b1 ?ms] => assign ms b1 b2 H2 end.
  exists b2, (RNDIS_State true (CurrRNDISState (R_State i)) (CurrPacketFilter (R_State i))).
  split_and!; [reflexivity|destruct H2; congruence|by apply H2, H1|].
  apply R_keepalive. expand H1. expand H2. all_members.
Qed.

Context (Hoid : rd32 b o_Oid = Some oid) (Hoff : rd32 b o_InformationBufferOffset = Some off).

Lemma msg_set_ok : (oid = OID_GEN_CURRENT_PACKET_FILTER → 8 + off + 4 ≤ Z.of_nat (length b)) → Z.of_nat (length b) < 65536 →
  served i b id oid off REMOTE_NDIS_SET_MSG (msg_set i b).
Proof.
  intros Hr Hmax. unfold msg_set. pose proof id_u32 as Hu. rewrite Hoid. cbn [mbind option_bind].
  match goal with |- context [wr_members b ?ms] => assign ms b b1 H1 end.
  pose proof (as_len _ _ _ H1) as L1.
  rewrite (assigned_rd _ _ _ o_RequestId H1); [|done|reflexivity]. rewrite Hid. cbn [mbind option_bind].
  pose proof (as_bytes _ _ _ H1 Hb) as B1.
  rewrite wr32_same by (done || by rewrite (assigned_rd _ _ _ o_RequestId H1)). cbn [mbind option_bind].
  rewrite (assigned_rd _ _ _ o_InformationBufferOffset H1); [|done|reflexivity]. rewrite Hoff. cbn [mbind option_bind].
  destruct (rd32_ok b1 o_InformationBufferLength) as [n En]; [done|unfold o_InformationBufferLength; lia|].
  rewrite En. cbn [mbind option_bind]. unfold RNDIS_Device_ProcessNDISSet.
  destruct (Z.eqb_spec oid OID_GEN_CURRENT_PACKET_FILTER) as [Eo|Eo].
  - specialize (Hr Eo). pose proof (rd32_range _ _ _ Hoff Hb) as Hrange.
    assert (u32 (sizeof_RNDIS_Message_Header + off) = 8 + off) as ->
      by (unfold u32, sizeof_RNDIS_Message_Header; apply Z.mod_small; lia).
    destruct (rd32_ok b (8 + off)) as [v Ev]; [lia|lia|].
    rewrite (assigned_rd _ _ _ (8 + off) H1); [|lia|].
    2:{ unfold apart. cbn. rewrite andb_true_r, andb_true_iff, !orb_true_iff, !Z.leb_le. unfold o_MessageType, o_MessageLength. lia. }
    rewrite Ev. cbn [mbind option_bind]. rewrite wr32_members.
    match goal with |- context [wr_members b1 ?ms] => assign ms b1 b2 H2 end.
    exists b2, (RNDIS_State true (if v =? 0 then RNDIS_Initialized else RNDIS_Data_Initialized) v).
    split_and!; [by destruct (v =? 0)|destruct H2; congruence|by apply H2|].
    apply R_set_filter; [done|done|]. expand H1. expand H2. all_members.
  - assert (∀ ok : bool, ok = (oid =? OID_802_3_MULTICAST_LIST) →
      served i b id oid off REMOTE_NDIS_SET_MSG
        (b' ← wr32 b1 o_Status (if ok then REMOTE_NDIS_STATUS_SUCCESS else REMOTE_NDIS_STATUS_NOT_SUPPORTED);
         Some (set_buffer b' (set_ready true i)))) as K.
    { intros ok Eok. rewrite wr32_members. match goal with |- context [wr_members b1 ?ms] => assign ms b1 b2 H2 end.
      exists b2, (RNDIS_State true (CurrRNDISState (R_State i)) (CurrPacketFilter (R_State i))).
      split_and!; [done|destruct H2; congruence|by apply H2|].
      apply R_set_other; [done|]. rewrite <-Eok. expand H1. expand H2. destruct ok; all_members. }
    destruct (oid =? OID_802_3_MULTICAST_LIST); by apply K.
Qed.

Context (Hwf : rndis_wf i b).

Lemma msg_query_ok : served i b id oid off REMOTE_NDIS_QUERY_MSG (msg_query i b).
Proof.
  unfold msg_query. pose proof id_u32 as Hu. rewrite Hoid, Hoff. cbn [mbind option_bind]. rewrite wr32_members.
  match goal with |- context [wr_members b ?ms] => assign ms b b1 H1 end.
  pose proof (as_len _ _ _ H1) as L1. pose proof (as_bytes _ _ _ H1 Hb) as B1.
  destruct (rd32_ok b1 o_InformationBufferLength) as [n En]; [done|unfold o_InformationBufferLength; lia|].
  rewrite En. cbn [mbind option_bind]. unfold RNDIS_Device_ProcessNDISQuery.
  change (query_answer (set_ready true i) oid) with (query_answer i oid).
  pose proof (rn_min _ _ Hwf) as Hmin. pose proof (rn_len _ _ Hwf) as Hl.
  destruct (query_answer i oid) as [ans|] eqn:Eq; pose proof Eq as Ev; rewrite query_answer_objects in Ev.
  - destruct (query_answer_fits _ _ _ _ Hwf Eq) as [Hfit Hba].
    destruct (wr_bytes_ok b1 sizeof_RNDIS_Query_Complete ans) as [b2 E2]; [done|rewrite L1; done|].
    rewrite E2. cbn [mbind option_bind]. destruct (wr_bytes_lookup _ _ _ _ E2) as [L2 _].
    pose proof (wr_bytes_bytes _ _ _ _ E2 B1 Hba) as B2.
    rewrite (u16_small (Z.of_nat (length ans))) by (unfold word16; lia).
    rewrite u16_small by (unfold word16, sizeof_RNDIS_Query_Complete; lia).
    match goal with |- context [wr_members b2 ?ms] => assign ms b2 b3 H3 end.
    exists b3, (RNDIS_State true (CurrRNDISState (R_State i)) (CurrPacketFilter (R_State i))).
    split_and!; [done|destruct H3; congruence|by apply H3|].
    assert (∀ o, 0 ≤ o → o + 4 ≤ 24 → rd32 b2 o = rd32 b1 o) as K.
    { intros o Ho Hd. rewrite !rd32_block by done. 
      rewrite (wr_bytes_other _ _ _ _ o 4 E2); [done|done|]. left. unfold sizeof_RNDIS_Query_Complete. lia. }
    assert (u32 (24 + Z.of_nat (length ans)) = 24 + Z.of_nat (length ans)) as U1 by (unfold u32; apply Z.mod_small; lia).
    assert (u32 (Z.of_nat (length ans)) = Z.of_nat (length ans)) as U2 by (unfold u32; apply Z.mod_small; lia).
    apply (R_query _ _ _ _ _ ans); [done| |].
    + expand H1. expand H3. pose proof (K 0 ltac:(lia) ltac:(lia)) as K0. pose proof (K 8 ltac:(lia) ltac:(lia)) as K8.
      assert (rd32 b2 0 = Some REMOTE_NDIS_QUERY_CMPLT) by (rewrite K0; mem).
      assert (rd32 b2 8 = Some id) by (rewrite K8; mem).
      all_members.
    + rewrite (as_other _ _ _ H3); [|done|lia|].
      * unfold block. rewrite Nat2Z.id. exact (wr_bytes_block _ _ _ _ E2 ltac:(done)).
      * unfold apart. cbn. rewrite !andb_true_r, !andb_true_iff, !orb_true_iff, !Z.leb_le.
        unfold o_Status, o_MessageLength, o_InformationBufferLength, o_InformationBufferOffset. lia.
  - cbn [mbind option_bind]. match goal with |- context [wr_members b1 ?ms] => assign ms b1 b2 H2 end.
    exists b2, (RNDIS_State true (CurrRNDISState (R_State i)) (CurrPacketFilter (R_State i))).
    split_and!; [done|destruct H2; congruence|by apply H2|].
    apply R_query_unknown; [done|]. expand H1. expand H2. all_members.
Qed.
End Messages.

(** ** Any message *)

(** The offset of a packet filter lies in the buffer. *)
Definition filter_in_range (b : list Z) : Prop :=
  rd32 b o_MessageType = Some REMOTE_NDIS_SET_MSG → rd32 b o_Oid = Some OID_GEN_CURRENT_PACKET_FILTER →
  ∀ off, rd32 b o_InformationBufferOffset = Some off → 8 + off + 4 ≤ Z.of_nat (length b).

(** The header members of the message in the buffer. *)
Definition message (b : list Z) (t id oid off : Z) : Prop :=
  members b [(o_MessageType, t); (o_RequestId, id); (o_Oid, oid); (o_InformationBufferOffset, off)].

Lemma message_exists i b : rndis_wf i b → ∃ t id oid off, message b t id oid off.
Proof.
  intros []. unfold RNDIS_DEVICE_MIN_MESSAGE_BUFFER_LENGTH, sizeof_RNDIS_Query_Complete in *.
  destruct (rd32_ok b o_MessageType) as [t ?]; [done|unfold o_MessageType; lia|].
  destruct (rd32_ok b o_RequestId) as [id ?]; [done|unfold o_RequestId; lia|].
  destruct (rd32_ok b o_Oid) as [oid ?]; [done|unfold o_Oid; lia|].
  destruct (rd32_ok b o_InformationBufferOffset) as [off ?]; [done|unfold o_InformationBufferOffset; lia|].
  exists t, id, oid, off. repeat constructor; done.
Qed.

Lemma process_served i b t id oid off : rndis_wf i b → message b t id oid off → filter_in_range b →
  served i b id oid off t (RNDIS_Device_ProcessRNDISControlMessage i).
Proof.
  intros Hwf Hm Hr. pose proof (rn_min _ _ Hwf) as Hmin. pose proof (rn_len _ _ Hwf) as Hl. pose proof (rn_bytes _ _ Hwf) as Hb.
  unfold message, members in Hm. rewrite !Forall_cons in Hm. destruct Hm as (Ht & Hid & Hoid & Hoff & _). cbn [fst snd] in *.
  assert (132 ≤ Z.of_nat (length b)) as Hlen by (rewrite Hl; exact (proj1 Hmin)).
  unfold RNDIS_Device_ProcessRNDISControlMessage. rewrite (rn_buf _ _ Hwf). cbn [mbind option_bind]. rewrite Ht. cbn [mbind option_bind].
  destruct (Z.eqb_spec t REMOTE_NDIS_INITIALIZE_MSG) as [->|N1]; [by apply msg_initialize_ok|].
  destruct (Z.eqb_spec t REMOTE_NDIS_HALT_MSG) as [->|N2]; [by apply msg_halt_ok|].
  destruct (Z.eqb_spec t REMOTE_NDIS_QUERY_MSG) as [->|N3]; [by apply msg_query_ok|].
  destruct (Z.eqb_spec t REMOTE_NDIS_SET_MSG) as [->|N4].
  { apply msg_set_ok; try done; [|lia]. intros ->. by apply Hr. }
  destruct (Z.eqb_spec t REMOTE_NDIS_RESET_MSG) as [->|N5]; [by apply msg_reset_ok|].
  destruct (Z.eqb_spec t REMOTE_NDIS_KEEPALIVE_MSG) as [->|N6]; [by apply msg_keepalive_ok|].
  exists b, (R_State i). split_and!; [|done|done|].
  - unfold after, set_state, set_buffer. cbn. rewrite <-(rn_buf _ _ Hwf). by destruct i as [[] ?].
  - apply R_unknown. rewrite !not_elem_of_cons. split_and!; try done. apply not_elem_of_nil.
Qed.

(** The invariant is kept. *)
Lemma reply_wf i b id oid off t b' st : rndis_wf i b → length b' = length b → bytes b' →
  rndis_reply i b id oid off t b' st → rndis_wf (after b' st i) b'.
Proof.
  intros [] Hl Hb Hr. split; try done; cbn.
  - by rewrite Hl.
  - inversion Hr; subst; cbn; try done. by eapply rd32_range.
  - inversion Hr; subst; cbn; try done; auto. destruct (Z.eqb_spec v 0); auto.
Qed.

(** The response the host can then fetch lies in the buffer. *)
Definition known (t : Z) : Prop :=
  t ∈ [REMOTE_NDIS_INITIALIZE_MSG; REMOTE_NDIS_HALT_MSG; REMOTE_NDIS_QUERY_MSG; REMOTE_NDIS_SET_MSG;
       REMOTE_NDIS_RESET_MSG; REMOTE_NDIS_KEEPALIVE_MSG].

Lemma response_length b' n : rd32 b' o_MessageLength = Some n → 8 ≤ Z.of_nat (length b') → 0 ≤ n ≤ Z.of_nat (length b') →
  Z.of_nat (length b') < 65536 →
  ∃ b'' m, response b' = Some (b'', m) ∧ length b'' = length b' ∧ 0 < m ≤ Z.of_nat (length b'').
Proof.
  intros Hn H8 Hr Hmax. unfold response. rewrite Hn. cbn [mbind option_bind]. destruct (Z.eqb_spec n 0) as [->|Hz].
  - rewrite wr_Some by lia. cbn [mbind option_bind]. rewrite wr32_members.
    set (b1 := <[Z.to_nat 0 := 0]> b'). assert (length b1 = length b') as L1 by apply length_insert.
    match goal with |- context [wr_members b1 ?ms] => assign ms b1 b2 H2 end. expand H2. cbn [fst snd] in M0. rewrite M0.
    exists b2, 1. pose proof (as_len _ _ _ H2). split_and!; [done|congruence|lia|lia].
  - exists b', n. rewrite u16_small by (unfold word16; lia). split_and!; [done|done|lia|lia].
Qed.

Lemma reply_fits i b id oid off t b' st : rndis_wf i b → length b' = length b →
  rndis_reply i b id oid off t b' st → known t →
  ∃ b'' m, response b' = Some (b'', m) ∧ length b'' = length b' ∧ 0 < m ≤ Z.of_nat (length b'').
Proof.
  intros Hwf Hl Hr Hk. pose proof (rn_min _ _ Hwf) as Hmin. pose proof (rn_len _ _ Hwf) as Hlen.
  unfold RNDIS_DEVICE_MIN_MESSAGE_BUFFER_LENGTH, sizeof_RNDIS_Query_Complete in Hmin.
  assert (∀ n, rd32 b' 4 = Some n → 0 ≤ n ≤ Z.of_nat (length b') →
    ∃ b'' m, response b' = Some (b'', m) ∧ length b'' = length b' ∧ 0 < m ≤ Z.of_nat (length b'')) as K
    by (intros n En Hn; apply (response_length b' n); [done|lia|done|lia]).
  inversion Hr as [? M|? M|ans ? Ha M|? _ M|? ? _ _ M|? _ M|? M|? M|? Hu]; subst; try (by exfalso; apply Hu);
    unfold members in M; rewrite !Forall_cons in M; cbn [fst snd] in M.
  all: try (eapply K; [apply M|]; lia).
  rewrite <-query_answer_objects in Ha. destruct (query_answer_fits _ _ _ _ Hwf Ha). eapply K; [apply M|]. lia.
Qed.

(** ** Sequences of messages *)

(** [m] received into the buffer [b]. *)
Definition receive (m b : list Z) : list Z := m ++ drop (length m) b.

(** The structures and buffers that any messages of the host can lead to. *)
Inductive reachable (i0 : USB_ClassInfo_RNDIS_Device_t) (b0 : list Z) : USB_ClassInfo_RNDIS_Device_t → list Z → Prop :=
  | reach_start : reachable i0 b0 i0 b0
  | reach_message i b m i' b' :
      reachable i0 b0 i b → bytes m → (length m ≤ length b)%nat → filter_in_range (receive m b) →
      RNDIS_Device_ProcessRNDISControlMessage (set_buffer (receive m b) i) = Some i' →
      MessageBuffer (R_Config i') = Some b' → reachable i0 b0 i' b'.

Lemma receive_wf i b m : rndis_wf i b → bytes m → (length m ≤ length b)%nat →
  rndis_wf (set_buffer (receive m b) i) (receive m b).
Proof.
  intros [] Hm Hl. assert (length (receive m b) = length b) as L by (unfold receive; rewrite length_app, length_drop; lia).
  split; try done; cbn.
  - by rewrite L.
  - apply Forall_app. split; [done|]. by apply Forall_drop.
Qed.

Lemma process_wf i b i' b' : rndis_wf i b → filter_in_range b → RNDIS_Device_ProcessRNDISControlMessage i = Some i' →
  MessageBuffer (R_Config i') = Some b' → rndis_wf i' b'.
Proof.
  intros Hwf Hr Hp Hb. destruct (message_exists _ _ Hwf) as (t & id & oid & off & Hm).
  destruct (process_served _ _ _ _ _ _ Hwf Hm Hr) as (b1 & st & E & L & B & R). rewrite E in Hp. injection Hp as <-.
  cbn in Hb. injection Hb as <-. by eapply reply_wf.
Qed.

Lemma reachable_wf i0 b0 i b : rndis_wf i0 b0 → reachable i0 b0 i b → rndis_wf i b.
Proof. intros H0 H. induction H; [done|]. eapply process_wf; [by apply receive_wf|done..]. Qed.

(** ** What the driver does not check *)
Lemma rd32_None l o : 0 ≤ o → Z.of_nat (length l) < o + 4 → rd32 l o = None.
Proof.
  intros Ho Hl. rewrite rd32_block by done.
  assert (length (drop (Z.to_nat o) l) < 4)%nat as H by (rewrite length_drop; lia).
  destruct (drop (Z.to_nat o) l) as [|a0 [|a1 [|a2 [|a3 rest]]]]; cbn in H; try done. lia.
Qed.

Lemma filter_overrun i b id off : rndis_wf i b → message b REMOTE_NDIS_SET_MSG id OID_GEN_CURRENT_PACKET_FILTER off →
  Z.of_nat (length b) < 8 + off + 4 → 8 + off < 2 ^ 32 → RNDIS_Device_ProcessRNDISControlMessage i = None.
Proof.
  intros Hwf Hm Hlen Hmax. pose proof (rn_min _ _ Hwf) as Hmin. pose proof (rn_len _ _ Hwf) as Hl. pose proof (rn_bytes _ _ Hwf) as Hb.
  unfold RNDIS_DEVICE_MIN_MESSAGE_BUFFER_LENGTH, sizeof_RNDIS_Query_Complete in Hmin.
  unfold message, members in Hm. rewrite !Forall_cons in Hm. destruct Hm as (Ht & Hid & Hoid & Hoff & _). cbn [fst snd] in *.
  unfold RNDIS_Device_ProcessRNDISControlMessage. rewrite (rn_buf _ _ Hwf). cbn [mbind option_bind]. rewrite Ht. cbn [mbind option_bind].
  change (msg_set i b = None). unfold msg_set. rewrite Hoid. cbn [mbind option_bind].
  match goal with |- context [wr_members b ?ms] => assign ms b b1 H1 end. pose proof (as_len _ _ _ H1) as L1.
  rewrite (assigned_rd _ _ _ o_RequestId H1); [|done|reflexivity]. rewrite Hid. cbn [mbind option_bind].
  rewrite wr32_same by (done || (by apply H1) || by rewrite (assigned_rd _ _ _ o_RequestId H1)). cbn [mbind option_bind].
  rewrite (assigned_rd _ _ _ o_InformationBufferOffset H1); [|done|reflexivity]. rewrite Hoff. cbn [mbind option_bind].
  destruct (rd32_ok b1 o_InformationBufferLength) as [n En]; [done|unfold o_InformationBufferLength; lia|].
  rewrite En. cbn [mbind option_bind]. unfold RNDIS_Device_ProcessNDISSet. rewrite Z.eqb_refl.
  pose proof (rd32_range _ _ _ Hoff Hb) as Hr. unfold u32, sizeof_RNDIS_Message_Header. rewrite Z.mod_small by lia.
  by rewrite rd32_None by lia.
Qed.

Lemma unknown_overrun i b t id oid off n : rndis_wf i b → message b t id oid off → ¬ known t →
  rd32 b o_MessageLength = Some n → Z.of_nat (length b) < n < 65536 →
  RNDIS_Device_ProcessRNDISControlMessage i = Some i ∧ response b = Some (b, n) ∧ rd b (n - 1) = None.
Proof.
  intros Hwf Hm Hk Hn Hr. split_and!.
  - destruct (process_served _ _ _ _ _ _ Hwf Hm) as (b1 & st & E & _ & _ & R).
    + intros Ht. unfold message, members in Hm. rewrite !Forall_cons in Hm. destruct Hm as (Ht' & _).
      cbn [fst snd] in Ht'. exfalso. apply Hk. rewrite Ht' in Ht. injection Ht as ->. unfold known.
      rewrite !elem_of_cons. tauto.
    + rewrite E. inversion R; subst; try (exfalso; apply Hk; unfold known; rewrite !elem_of_cons; tauto).
      f_equal. unfold after, set_state, set_buffer. cbn. rewrite <-(rn_buf _ _ Hwf). by destruct i as [[] ?].
  - unfold response. rewrite Hn. cbn [mbind option_bind]. rewrite (proj2 (Z.eqb_neq _ _)) by lia.
    by rewrite u16_small by (unfold word16; lia).
  - unfold rd. destruct (Z.leb_spec 0 (n - 1)); [|done]. apply lookup_ge_None. lia.
Qed.
