(* ===== verification/BulkSpec.v ===== *)
(** * Bulk pipes

    What the stream functions do on a pair of bulk endpoints, whatever their
    numbers: a packet that has been received is read byte by byte, and a packet
    is assembled for a host that takes every packet in time. The class drivers
    that move packets are proved against these lemmas. *)
From S2P Require Import Prelude RingBuffer Machine Endpoint Controller EndpointPoll EndpointStream Packed Logic EndpointSpec EndpointData.

(** Addresses of IN and OUT endpoints of the table. *)
Definition in_address (a : Z) : Prop := a .| 128 = a ∧ tst a 128 = true ∧ in_table (ep_of a) = true.
Definition out_address (a : Z) : Prop := clr8 a 128 = a ∧ tst a 128 = false ∧ in_table (ep_of a) = true.

Definition selected_is (a : Z) (s : mach) : Prop :=
  SelectedEndpoint (fwst s) = a ∧ SelectedHandle (fwst s) = ep_of a ∧ SelectedFIFO (fwst s) = ep_of a.

Lemma selected_sel a s : selected_is a (sel a s).
Proof. done. Qed.

Lemma script_ne s : (0 < length (script s))%nat → script s ≠ [].
Proof. by destruct (script s); cbn; [lia|]. Qed.

(** Tables at an endpoint that is a variable. *)
Lemma upd2_at {B} (f : Z → bool → B) p b : upd2 f p b p.1 p.2 = b.
Proof. destruct p. apply upd2_eq. Qed.
Lemma upd2_off {B} (f : Z → bool → B) p p' b : p' ≠ p → upd2 f p b p'.1 p'.2 = f p'.1 p'.2.
Proof. destruct p'. apply upd2_ne. Qed.

Definition entry (a : Z) (s : mach) : USB_EP_t := eps (hwst s) (ep_of a).1 (ep_of a).2.
Definition fifo (a : Z) (s : mach) : Endpoint_FIFO_t := FIFOs (fwst s) (ep_of a).1 (ep_of a).2.

(** The memory behind a stream starts with [data]. *)
Definition gives (Buffer : Z → M Z) (data : list Z) : Prop :=
  ∀ (k : nat) x s, data !! k = Some x → Buffer (Z.of_nat k) s = Ok x s.
Lemma in_memory_gives l n : gives (in_memory l) (take n l).
Proof.
  intros k x s Hx. apply lookup_take_Some in Hx as [Hx _]. unfold in_memory.
  by rewrite (proj2 (rd_Some l (Z.of_nat k) x)) by (split; [lia|by rewrite Nat2Z.id]).
Qed.
Lemma in_memory_gives_all l : gives (in_memory l) l.
Proof. rewrite <-(take_ge l (length l)) at 2 by done. apply in_memory_gives. Qed.

#[local] Arguments ep_of : simpl never.

Section Pipe.
Context (ai ao : Z) (bi bo : buffer).
Context (Hai : in_address ai) (Hao : out_address ao) (Hb : bi ≠ bo).

(** One event of a host that takes IN packets before the firmware looks again,
    sends OUT packets into a free buffer only and makes no request that changes
    an endpoint: the control registers of both endpoints stay as they are. No
    interrupt is served either. In particular there is no bus reset, whose
    service routine disables every endpoint and so ends the transfer. *)
Record pipe_step (h h' : hw) : Prop := {
  ps_taken : tst (EP_STATUS (eps h' (ep_of ai).1 (ep_of ai).2)) USB_EP_BUSNACK0_bm = true;
  ps_ctrl_in : EP_CTRL (eps h' (ep_of ai).1 (ep_of ai).2) = EP_CTRL (eps h (ep_of ai).1 (ep_of ai).2);
  ps_ctrl_out : EP_CTRL (eps h' (ep_of ao).1 (ep_of ao).2) = EP_CTRL (eps h (ep_of ao).1 (ep_of ao).2);
  ps_bi : bufs h' bi = bufs h bi;
  ps_out : tst (EP_STATUS (eps h (ep_of ao).1 (ep_of ao).2)) USB_EP_TRNCOMPL0_bm = true →
    eps h' (ep_of ao).1 (ep_of ao).2 = eps h (ep_of ao).1 (ep_of ao).2 ∧ bufs h' bo = bufs h bo }.
Definition pipe_event (e : event) : Prop := ∃ f, e = EvHw f ∧ ∀ h, pipe_step h (f h).

(** The driver at rest: the IN FIFO has [j] bytes in it. *)
Record pipe (j : Z) (s : mach) : Prop := {
  pi_in : fifo ai s = Endpoint_FIFO (Some bi) 64 j;
  pi_buf : length (bufs (hwst s) bi) = 64%nat;
  pi_env : Forall pipe_event (script s) }.

(** The packet [pkt] has been received and read up to [k]. *)
Record holding (pkt : list Z) (k : Z) (s : mach) : Prop := {
  ho_data : FIFO_Data (fifo ao s) = Some bo;
  ho_pos : FIFO_Position (fifo ao s) = k;
  ho_full : tst (EP_STATUS (entry ao s)) USB_EP_TRNCOMPL0_bm = true;
  ho_cnt : EP_CNT (entry ao s) = Z.of_nat (length pkt);
  ho_pkt : take (length pkt) (bufs (hwst s) bo) = pkt;
  ho_len : (length pkt ≤ 64)%nat }.

(** [n] events later, with nothing sent and no endpoint halted or released. *)
Record later (n : nat) (s s' : mach) : Prop := {
  la_trace : trace s' = trace s;
  la_script : length (script s) = (n + length (script s'))%nat;
  la_in : EP_CTRL (entry ai s') = EP_CTRL (entry ai s);
  la_out : EP_CTRL (entry ao s') = EP_CTRL (entry ao s);
  la_state : DeviceState (fwst s') = DeviceState (fwst s) }.

Lemma later_refl s : later 0 s s.
Proof. done. Qed.
Lemma later_trans m n s1 s2 s3 : later m s1 s2 → later n s2 s3 → later (m + n) s1 s3.
Proof. intros [] []. split; try congruence. lia. Qed.
Lemma later_sel a n s s' : later n (sel a s) s' → later n s s'.
Proof. by intros []. Qed.
Lemma pipe_sel a j s : pipe j s → pipe j (sel a s).
Proof. by intros []. Qed.
Lemma holding_sel a pkt k s : holding pkt k s → holding pkt k (sel a s).
Proof. by intros []. Qed.

Lemma ends_apart : ep_of ai ≠ ep_of ao.
Proof using Hai Hao. destruct Hai as (_ & E1 & _), Hao as (_ & E2 & _). unfold ep_of. congruence. Qed.

(** An event. *)
Lemma wp_pipe_poll j Q B s : pipe j s → script s ≠ [] →
  (∀ s', pipe j s' → later 1 s s' → fwst s' = fwst s → pipe_step (hwst s) (hwst s') → Q tt s') →
  wp poll Q B s.
Proof.
  intros [Hin Hbuf Henv] Hs HQ. apply wp_poll. destruct (script s) as [|e es] eqn:Es; [done|].
  inversion Henv as [|? ? (f & -> & Hf) Hes]; subst. specialize (Hf (hwst s)) as Hst.
  apply HQ; [|split|..]; try done.
  - split; [done|cbn; by rewrite (ps_bi _ _ Hst)|done].
  - by rewrite Es.
  - apply Hst.
  - apply Hst.
Qed.

Lemma holding_step pkt k s s' : holding pkt k s → fwst s' = fwst s → pipe_step (hwst s) (hwst s') → holding pkt k s'.
Proof.
  intros [] Hfw Hst. destruct (ps_out _ _ Hst ho_full0) as [Ee Eb]. unfold fifo, entry in *.
  split; unfold fifo, entry; rewrite ?Hfw, ?Ee, ?Eb; done.
Qed.

(** ** Receiving *)
Lemma wp_IsOUTReceived j pkt k Q B s : SelectedEndpoint (fwst s) = ao → pipe j s → holding pkt k s → script s ≠ [] →
  (∀ s', pipe j s' → holding pkt k s' → later 1 s s' → selected_is ao s' →
     FIFO_Length (fifo ao s') = Z.of_nat (length pkt) → Q true s') →
  wp Endpoint_IsOUTReceived Q B s.
Proof using Hai Hao.
  intros Ha Hp Hh Hs HQ. destruct Hao as (E1 & E2 & Hin). unfold Endpoint_IsOUTReceived, received. wsteps.
  rewrite Ha. change (clr8 ao ENDPOINT_DIR_IN) with (clr8 ao 128). rewrite E1.
  apply (wp_pipe_poll j); [by apply pipe_sel|done|]. intros s1 Hp1 Hl1 Hfw Hst.
  pose proof (holding_step _ _ _ _ (holding_sel ao _ _ _ Hh) Hfw Hst) as Hh1.
  apply wp_bind. eapply wp_Ok; [by apply (get_handle_eq _ (ep_of ao)); [rewrite Hfw|]|].
  change (eps (hwst s1) _ _) with (entry ao s1). rewrite (ho_full _ _ _ Hh1).
  apply wp_bind. eapply wp_Ok; [by apply (get_handle_eq _ (ep_of ao)); [rewrite Hfw|]|].
  change (eps (hwst s1) _ _) with (entry ao s1). rewrite (ho_cnt _ _ _ Hh1).
  apply wp_bind. eapply wp_Ok; [by apply (mod_fifo_eq _ (ep_of ao)); [rewrite Hfw|]|]. wsteps.
  assert (u8 (Z.of_nat (length pkt)) = Z.of_nat (length pkt)) as Eu.
  { apply u8_small. pose proof (ho_len _ _ _ Hh1). unfold byte. lia. }
  rewrite Eu. pose proof ends_apart as Hne. apply HQ.
  - destruct Hp1. split; try done. unfold fifo in *. cbn. by rewrite upd2_off.
  - destruct Hh1. unfold fifo, entry in *. by split; unfold fifo, entry; cbn; rewrite ?upd2_at.
  - by destruct (later_sel _ _ _ _ Hl1).
  - split; [|split]; cbn; by rewrite Hfw.
  - unfold fifo. cbn. by rewrite upd2_at.
Qed.

Lemma wp_wait_OUT j pkt k Q B s : SelectedEndpoint (fwst s) = ao → pipe j s → holding pkt k s → script s ≠ [] →
  (∀ s', pipe j s' → holding pkt k s' → later 1 s s' → selected_is ao s' →
     FIFO_Length (fifo ao s') = Z.of_nat (length pkt) → Q 0 s') →
  wp Endpoint_WaitUntilReady Q B s.
Proof using Hai Hao.
  intros Ha Hp Hh Hs HQ. unfold Endpoint_WaitUntilReady, USB_Device_GetFrameNumber. wsteps.
  apply (wp_iter_poll (λ _ s1, s1 = s)); [|done]. intros [t f] s1 ->.
  unfold wait_ready_body, Endpoint_GetEndpointDirection. wsteps. rewrite Ha.
  assert ((ao .& ENDPOINT_DIR_IN =? ENDPOINT_DIR_IN) = false) as ->.
  { destruct Hao as (_ & E & _). unfold tst in E. apply negb_false_iff, Z.eqb_eq in E.
    change ENDPOINT_DIR_IN with 128. by rewrite E. }
  by apply (wp_IsOUTReceived j pkt k).
Qed.

(** One byte out of the packet. *)
Lemma wp_Read_at j pkt k x Q B s : selected_is ao s → pipe j s → holding pkt k s → 0 ≤ k →
  pkt !! Z.to_nat k = Some x →
  (∀ s', pipe j s' → holding pkt (k + 1) s' → later 0 s s' → selected_is ao s' →
     FIFO_Length (fifo ao s') = FIFO_Length (fifo ao s) → hwst s' = hwst s → script s' = script s → Q x s') →
  wp Endpoint_Read_8 Q B s.
Proof using Hai Hao Hb.
  intros (Hs1 & Hs2 & Hs3) Hp Hh Hk Hx HQ. pose proof (lookup_lt_Some _ _ _ Hx) as Hlt. pose proof (ho_len _ _ _ Hh) as Hl.
  apply (wp_Read_8 (ep_of ao) bo k x).
  - split; [done|apply Hao|apply Hh|apply Hh].
  - rewrite <-(ho_pkt _ _ _ Hh) in Hx. by apply lookup_take_Some in Hx as [Hx _].
  - lia.
  - intros s' [] Hf Eb. pose proof ends_apart as Hne. destruct Hf.
    assert (fwst s' = set_FIFOs (FIFOs (fwst s')) (fwst s)) as Ew by (rewrite <-ff_fw; by destruct (fwst s')).
    assert (hwst s' = hwst s) as Eh by (pose proof (ff_hw (bufs (hwst s))) as E; rewrite <-Eb in E at 1; by destruct (hwst s'), (hwst s)).
    apply HQ.
    + destruct Hp. split; [|by rewrite Eh|by rewrite ff_script]. unfold fifo in *. rewrite ff_fifos; [done|].
      by rewrite <-surjective_pairing.
    + destruct Hh. unfold fifo, entry in *. split; unfold fifo, entry; rewrite ?Eh; done.
    + split; unfold entry; rewrite ?Eh, ?ff_trace, ?ff_script; try done. by rewrite Ew.
    + split; [|split]; rewrite Ew; done.
    + exact ff_len.
    + exact Eh.
    + exact ff_script.
Qed.
Lemma wp_Read_pipe j pkt k x Q B s : selected_is ao s → pipe j s → holding pkt k s → 0 ≤ k →
  pkt !! Z.to_nat k = Some x →
  (∀ s', pipe j s' → holding pkt (k + 1) s' → later 0 s s' → selected_is ao s' →
     FIFO_Length (fifo ao s') = FIFO_Length (fifo ao s) → Q x s') →
  wp Endpoint_Read_8 Q B s.
Proof using Hai Hao Hb. intros Hs Hp Hh Hk Hx HQ. apply (wp_Read_at j pkt k x); try done. intros. by apply HQ. Qed.

(** A run of bytes out of the packet, into the buffer. *)
Lemma wp_read_loop j pkt k n Buffer p Q B s : selected_is ao s → pipe j s → holding pkt k s → 0 ≤ k →
  FIFO_Length (fifo ao s) = Z.of_nat (length pkt) → k + Z.of_nat n ≤ Z.of_nat (length pkt) → (n ≤ length Buffer)%nat →
  (∀ s', pipe j s' → holding pkt (k + Z.of_nat n) s' → later 0 s s' → selected_is ao s' →
     FIFO_Length (fifo ao s') = Z.of_nat (length pkt) →
     Q (0, take n (drop (Z.to_nat k) pkt) ++ drop n Buffer, p) s') →
  wp (iter n (rw_body Endpoint_ClearOUT move_LE transfer_read p) (RWVars Buffer 0 (Z.of_nat n) 0)) Q B s.
Proof using Hai Hao Hb.
  intros Hsel Hp Hh Hk HL Hn HB HQ. pose proof (ho_len _ _ _ Hh) as Hl64.
  apply (wp_iter (λ v s1, ∃ i : nat, (i ≤ n)%nat ∧
      v = RWVars (take i (drop (Z.to_nat k) pkt) ++ drop i Buffer) (Z.of_nat i) (Z.of_nat (n - i)) (Z.of_nat i) ∧
      pipe j s1 ∧ holding pkt (k + Z.of_nat i) s1 ∧ later 0 s s1 ∧ selected_is ao s1 ∧
      FIFO_Length (fifo ao s1) = Z.of_nat (length pkt))
    (λ v s1, Z.to_nat (rw_Length v) + length (script s1))%nat); [|exists 0%nat|cbn; lia].
  2: { rewrite Nat.sub_0_r, drop_0, Z.add_0_r. split; [lia|]. by pose proof (later_refl s). }
  intros v s1 (i & Hi & -> & Hp1 & Hh1 & Hl1 & Hs1 & HL1). unfold rw_body. cbn [rw_Length].
  destruct (Z.eqb_spec (Z.of_nat (n - i)) 0) as [E|E].
  { wsteps. replace i with n in * by lia. by apply HQ. }
  destruct (lookup_lt_is_Some_2 pkt (Z.to_nat (k + Z.of_nat i))) as [x Hx]; [lia|].
  unfold Endpoint_IsReadWriteAllowed.
  apply wp_bind. eapply wp_Ok; [apply (get_fifo_eq _ (ep_of ao)); [apply Hs1|apply Hao]|].
  change (FIFOs _ _ _) with (fifo ao s1). rewrite HL1, (ho_pos _ _ _ Hh1), (proj2 (Z.ltb_lt _ _)) by lia. cbn [negb].
  unfold transfer_read. cbn [rw_Buffer rw_DataStream rw_Length rw_BytesInTransfer].
  apply wp_bind, wp_bind, (wp_Read_pipe j pkt (k + Z.of_nat i) x); try done; [lia|]. intros s2 Hp2 Hh2 Hl2 Hs2 HL2.
  assert (length (take i (drop (Z.to_nat k) pkt)) = i) as Lt by (rewrite length_take, length_drop; lia).
  eapply wp_lift; [apply wr_Some; rewrite length_app, Lt, length_drop; lia|]. wsteps. unfold move_LE.
  rewrite !u16_small by (unfold word16; lia).
  pose proof (la_script _ _ _ Hl2) as Hsc. cbn [rw_Length]. split; [|lia].
  exists (S i). split; [lia|]. split; [f_equal; [|lia..]|].
  - rewrite Nat2Z.id. rewrite <-Lt at 1. rewrite <-(Nat.add_0_r (length (take i _))), insert_app_r.
    rewrite (take_S_r _ _ x), <-app_assoc by (rewrite lookup_drop; rewrite <-Hx; f_equal; lia). f_equal.
    destruct (drop i Buffer) as [|y l] eqn:Ed.
    { apply (f_equal length) in Ed. rewrite length_drop in Ed. cbn in Ed. lia. }
    cbn. f_equal. by rewrite <-Nat.add_1_r, <-drop_drop, Ed.
  - split; [done|]. split; [by replace (k + Z.of_nat (S i)) with (k + Z.of_nat i + 1) by lia|].
    split; [exact (later_trans 0 0 _ _ _ Hl1 Hl2)|]. split; [done|congruence].
Qed.

Lemma wp_Read_Stream j pkt k n Buffer p Q B s : SelectedEndpoint (fwst s) = ao → pipe j s → holding pkt k s → 0 ≤ k →
  k + Z.of_nat n ≤ Z.of_nat (length pkt) → (n ≤ length Buffer)%nat → p = None ∨ p = Some 0 → script s ≠ [] →
  (∀ s', pipe j s' → holding pkt (k + Z.of_nat n) s' → later 1 s s' → selected_is ao s' →
     FIFO_Length (fifo ao s') = Z.of_nat (length pkt) →
     Q (0, take n (drop (Z.to_nat k) pkt) ++ drop n Buffer, p) s') →
  wp (Endpoint_Read_Stream_LE Buffer (Z.of_nat n) p) Q B s.
Proof using Hai Hao Hb.
  intros Ha Hpi Hh Hk Hn HB Hp Hs HQ. pose proof (ho_len _ _ _ Hh) as Hl64.
  unfold Endpoint_Read_Stream_LE, Template_Endpoint_RW.
  apply wp_bind, (wp_wait_OUT j pkt k); try done. intros s1 Hp1 Hh1 Hl1 Hs1 HL1. cbn [negb Z.eqb].
  assert (match p with Some p => (u16 (Z.of_nat n - p), move_LE (offset_LE (Z.of_nat n)) p)
          | None => (Z.of_nat n, offset_LE (Z.of_nat n)) end = (Z.of_nat n, 0)) as ->.
  { destruct Hp as [-> | ->]; [done|]. unfold move_LE, offset_LE. by rewrite Z.sub_0_r, u16_small by (unfold word16; lia). }
  rewrite Nat2Z.id. apply (wp_read_loop j pkt k); try done. intros s2 Hp2 Hh2 Hl2 Hs2 HL2. apply HQ; try done.
  exact (later_trans 1 0 _ _ _ Hl1 Hl2).
Qed.

(** The packet is given back. *)
Lemma wp_ClearOUT_pipe j Q B s : selected_is ao s → pipe j s →
  (∀ s', pipe j s' → later 0 s s' → selected_is ao s' → FIFO_Position (fifo ao s') = 0 →
     tst (EP_STATUS (entry ao s')) USB_EP_TRNCOMPL0_bm = false → Q tt s') →
  wp Endpoint_ClearOUT Q B s.
Proof using Hai Hao.
  intros (Hs1 & Hs2 & Hs3) Hp HQ. pose proof ends_apart as Hne. pose proof (proj2 (proj2 Hao)) as Hin.
  unfold Endpoint_ClearOUT. apply wp_bind.
  eapply wp_Ok; [by apply (mod_handle_eq _ (ep_of ao))|]. eapply wp_Ok; [by apply (mod_fifo_eq _ (ep_of ao))|].
  apply HQ; [destruct Hp; split|split|split| |]; unfold fifo, entry in *; cbn; rewrite ?upd2_at, ?upd2_off by done; try done.
  by apply tst_cleared.
Qed.

(** ** Sending *)
Lemma wp_wait_IN j Q B s : SelectedEndpoint (fwst s) = ai → pipe j s → script s ≠ [] →
  (∀ s', pipe j s' → later 1 s s' → selected_is ai s' → bufs (hwst s') bi = bufs (hwst s) bi → Q 0 s') →
  wp Endpoint_WaitUntilReady Q B s.
Proof using Hai.
  intros Ha Hp Hs HQ. destruct Hai as (E1 & E2 & Hin).
  unfold Endpoint_WaitUntilReady, USB_Device_GetFrameNumber. wsteps.
  apply (wp_iter_poll (λ _ s1, s1 = s)); [|done]. intros [t f] s1 ->.
  unfold wait_ready_body, Endpoint_GetEndpointDirection. wsteps. rewrite Ha.
  assert (ai .& ENDPOINT_DIR_IN = ENDPOINT_DIR_IN) as ->.
  { rewrite <-E1. change ENDPOINT_DIR_IN with 128. rewrite Z.land_lor_distr_l. apply Z.bits_inj'. intros i Hi.
    rewrite Z.lor_spec, !Z.land_spec. by destruct (Z.testbit ai i), (Z.testbit 128 i). }
  rewrite Z.eqb_refl. unfold Endpoint_IsINReady. wsteps. rewrite Ha. change (ai .| ENDPOINT_DIR_IN) with (ai .| 128).
  rewrite E1. apply (wp_pipe_poll j); [by apply pipe_sel|done|]. intros s1 Hp1 Hl1 Hfw Hst.
  apply wp_bind. eapply wp_Ok; [by apply (get_handle_eq _ (ep_of ai)); [rewrite Hfw|]|].
  rewrite (ps_taken _ _ Hst). wsteps. apply HQ; [done|by apply later_sel in Hl1|by unfold selected_is; rewrite Hfw|apply Hst].
Qed.

(** The bytes assembled so far. *)
Definition bank (j : Z) (s : mach) : list Z := take (Z.to_nat j) (bufs (hwst s) bi).

Lemma wp_Write_pipe j x Q B s : selected_is ai s → pipe j s → 0 ≤ j < 64 →
  (∀ s', pipe (j + 1) s' → later 0 s s' → selected_is ai s' → bank (j + 1) s' = bank j s ++ [u8 x] → Q tt s') →
  wp (Endpoint_Write_8 x) Q B s.
Proof using Hai.
  intros (Hs1 & Hs2 & Hs3) Hp Hj HQ. pose proof (pi_in _ _ Hp) as Hin. pose proof (pi_buf _ _ Hp) as Hlen.
  apply (wp_Write_8 (ep_of ai) bi j).
  - unfold fifo in Hin. split; [done|apply Hai|by rewrite Hin..].
  - lia.
  - lia.
  - intros s' [] [] Ebuf.
    assert (fwst s' = set_FIFOs (FIFOs (fwst s')) (fwst s)) as Ew by (rewrite <-ff_fw; by destruct (fwst s')).
    assert (eps (hwst s') = eps (hwst s)) as Ee by (pose proof (ff_hw (λ _, [])) as E; by destruct (hwst s'), (hwst s); injection E).
    apply HQ.
    + destruct Hp. split; [|by rewrite Ebuf, length_insert|by rewrite ff_script]. unfold fifo in *.
      rewrite Hin in ff_len, ff_data. by destruct (FIFOs (fwst s') _ _); cbn in *; subst.
    + split; unfold entry; rewrite ?Ee, ?ff_trace, ?ff_script; try done. by rewrite Ew.
    + split; [|split]; rewrite Ew; done.
    + unfold bank. rewrite Ebuf. replace (Z.to_nat (j + 1)) with (S (Z.to_nat j)) by lia.
      rewrite (take_S_r _ _ (u8 x)) by (apply list_lookup_insert_eq; lia). by rewrite take_insert_ge by lia.
Qed.

(** The packet is handed over. *)
Lemma wp_ClearIN_pipe j Q B s : selected_is ai s → pipe j s →
  (∀ s', pipe 0 s' → trace s' = trace s ++ [OPacket (ai .& 15) (bank j s)] → script s' = script s → selected_is ai s' →
     DeviceState (fwst s') = DeviceState (fwst s) → EP_CTRL (entry ai s') = EP_CTRL (entry ai s) →
     entry ao s' = entry ao s → fifo ao s' = fifo ao s → Q tt s') →
  wp Endpoint_ClearIN Q B s.
Proof using Hai Hao.
  intros (Hs1 & Hs2 & Hs3) Hp HQ. destruct Hai as (E1 & E2 & Hin). pose proof ends_apart as Hne.
  pose proof (pi_in _ _ Hp) as Hf. unfold Endpoint_ClearIN. wsteps.
  eapply wp_Ok; [by apply (get_fifo_eq _ (ep_of ai))|]. wsteps.
  eapply wp_Ok; [by apply (mod_handle_eq _ (ep_of ai))|]. wsteps.
  eapply wp_Ok; [by apply (mod_handle_eq _ (ep_of ai))|]. wsteps.
  eapply wp_Ok; [by apply (mod_fifo_eq _ (ep_of ai))|]. rewrite Hs2. change (ep_of ai).2 with (tst ai 128). rewrite E2.
  cbn [when]. wsteps.
  apply HQ; unfold fifo, entry in *; cbn; rewrite ?upd2_at, ?upd2_off by done; try done.
  - destruct Hp. split; unfold fifo; cbn; rewrite ?upd2_at; try done. by rewrite Hf.
  - unfold pending_packet, bank. by rewrite Hs3, Hf.
Qed.

(** A run of bytes into the packet. *)
Lemma wp_write_loop Buffer j data p Q B s : gives Buffer data → selected_is ai s → pipe j s → 0 ≤ j →
  j + Z.of_nat (length data) ≤ 64 → bytes data →
  (∀ s', pipe (j + Z.of_nat (length data)) s' → later 0 s s' → selected_is ai s' →
     bank (j + Z.of_nat (length data)) s' = bank j s ++ data → Q (0, (), p) s') →
  wp (iter (length data) (rw_body Endpoint_ClearIN move_LE (transfer_write Buffer) p)
       (RWVars () 0 (Z.of_nat (length data)) 0)) Q B s.
Proof using Hai.
  intros Hg Hsel Hp Hj Hn Hby HQ. pose proof (proj2 (proj2 Hai)) as Hin.
  apply (wp_iter (λ v s1, ∃ i : nat, (i ≤ length data)%nat ∧
      v = RWVars () (Z.of_nat i) (Z.of_nat (length data - i)) (Z.of_nat i) ∧
      pipe (j + Z.of_nat i) s1 ∧ later 0 s s1 ∧ selected_is ai s1 ∧ bank (j + Z.of_nat i) s1 = bank j s ++ take i data)
    (λ v s1, Z.to_nat (rw_Length v) + length (script s1))%nat); [|exists 0%nat|cbn; lia].
  2: { rewrite Nat.sub_0_r, Z.add_0_r, app_nil_r. split; [lia|]. by pose proof (later_refl s). }
  intros v s1 (i & Hi & -> & Hp1 & Hl1 & Hs1 & Hb1). unfold rw_body. cbn [rw_Length].
  destruct (Z.eqb_spec (Z.of_nat (length data - i)) 0) as [E|E].
  { wsteps. replace i with (length data) in * by lia. rewrite take_ge in Hb1 by lia. by apply HQ. }
  destruct (lookup_lt_is_Some_2 data i) as [x Hx]; [lia|].
  pose proof (Forall_lookup_1 _ _ _ _ Hby Hx) as Hbx. cbn beta in Hbx.
  unfold Endpoint_IsReadWriteAllowed.
  apply wp_bind. eapply wp_Ok; [apply (get_fifo_eq _ (ep_of ai)); [apply Hs1|done]|].
  change (FIFOs _ _ _) with (fifo ai s1). rewrite (pi_in _ _ Hp1). cbn [FIFO_Position FIFO_Length].
  rewrite (proj2 (Z.ltb_lt _ _)) by lia. cbn [negb].
  unfold transfer_write. cbn [rw_Buffer rw_DataStream rw_Length rw_BytesInTransfer].
  apply wp_bind, wp_bind. eapply wp_Ok; [by apply Hg|].
  apply (wp_Write_pipe (j + Z.of_nat i)); [done|done|lia|]. intros s2 Hp2 Hl2 Hs2 Hb2. wsteps. unfold move_LE.
  rewrite !u16_small by (unfold word16; lia). rewrite u8_small in Hb2 by done.
  pose proof (la_script _ _ _ Hl2) as Hsc. cbn [rw_Length]. split; [|lia].
  exists (S i). replace (j + Z.of_nat (S i)) with (j + Z.of_nat i + 1) by lia.
  split; [lia|]. split; [f_equal; lia|]. split; [done|]. split; [exact (later_trans 0 0 _ _ _ Hl1 Hl2)|]. split; [done|].
  by rewrite Hb2, Hb1, (take_S_r _ _ x), app_assoc.
Qed.

Lemma wp_Write_Stream Buffer j data p Q B s : gives Buffer data → SelectedEndpoint (fwst s) = ai → pipe j s → 0 ≤ j →
  j + Z.of_nat (length data) ≤ 64 → bytes data → p = None ∨ p = Some 0 → script s ≠ [] →
  (∀ s', pipe (j + Z.of_nat (length data)) s' → later 1 s s' → selected_is ai s' →
     bank (j + Z.of_nat (length data)) s' = bank j s ++ data → Q (0, (), p) s') →
  wp (Endpoint_Write_Stream_LE Buffer (Z.of_nat (length data)) p) Q B s.
Proof using Hai.
  intros Hg Ha Hpi Hj Hn Hby Hpp Hs HQ. unfold Endpoint_Write_Stream_LE, Template_Endpoint_RW.
  apply wp_bind, (wp_wait_IN j); try done. intros s1 Hp1 Hl1 Hs1 Eb. cbn [negb Z.eqb].
  assert (match p with Some p => (u16 (Z.of_nat (length data) - p), move_LE (offset_LE (Z.of_nat (length data))) p)
          | None => (Z.of_nat (length data), offset_LE (Z.of_nat (length data))) end = (Z.of_nat (length data), 0)) as ->.
  { destruct Hpp as [-> | ->]; [done|]. unfold move_LE, offset_LE. by rewrite Z.sub_0_r, u16_small by (unfold word16; lia). }
  rewrite Nat2Z.id. apply (wp_write_loop Buffer j); try done. intros s2 Hp2 Hl2 Hs2 Hb2. apply HQ; try done.
  - exact (later_trans 1 0 _ _ _ Hl1 Hl2).
  - rewrite Hb2. unfold bank. by rewrite Eb.
Qed.
End Pipe.

(** ** Endpoints that are halted *)
Definition halted (a : Z) (s : mach) : bool := tst (EP_CTRL (entry a s)) USB_EP_STALL_bm.
Definition is_bulk (a : Z) (s : mach) : Prop := EP_CTRL (entry a s) .& USB_EP_TYPE_gm = USB_EP_TYPE_BULK_gc.

Definition halt (a : Z) (s : mach) : mach :=
  upd_handle (ep_of a) (λ e, ep_set_ctrl (EP_CTRL e .| USB_EP_STALL_bm) e) s.

Lemma halt_at a s : entry a (halt a s) = ep_set_ctrl (EP_CTRL (entry a s) .| USB_EP_STALL_bm) (entry a s).
Proof. unfold entry, halt. cbn. apply upd2_at. Qed.
Lemma halt_off a a' s : ep_of a' ≠ ep_of a → entry a' (halt a s) = entry a' s.
Proof. intros H. unfold entry, halt. cbn. by apply upd2_off. Qed.
Lemma halted_halt a s : halted a (halt a s) = true.
Proof. unfold halted. rewrite halt_at. cbn. rewrite tst_lor. apply orb_true_r. Qed.
Lemma halted_stays a a' s : halted a s = true → halted a (halt a' s) = true.
Proof.
  destruct (decide (ep_of a = ep_of a')) as [E|E].
  - intros _. unfold halted, entry. rewrite E. apply halted_halt.
  - unfold halted. by rewrite halt_off.
Qed.

Lemma wp_Stall a Q B s : selected_is a s → in_table (ep_of a) = true → is_bulk a s → Q tt (halt a s) →
  wp Endpoint_StallTransaction Q B s.
Proof.
  intros (Hs1 & Hs2 & Hs3) Hin Hb HQ. unfold Endpoint_StallTransaction. apply wp_bind.
  eapply wp_Ok; [by apply (mod_handle_eq _ (ep_of a))|]. apply wp_bind.
  eapply wp_Ok; [by apply (get_handle_eq _ (ep_of a))|]. fold (halt a s). change (eps _ _ _) with (entry a (halt a s)).
  rewrite halt_at. cbn [EP_CTRL ep_set_ctrl]. rewrite Z.land_lor_distr_l, Hb. exact HQ.
Qed.

(** ** An instance: endpoints 0x83 and 0x04 *)
(** A host that takes every packet and sends nothing more. *)
Definition demo_taken : event := EvHw (λ h,
  set_eps (upd2 (eps h) (3, true) (ep_set_status (EP_STATUS (eps h 3 true) .| USB_EP_BUSNACK0_bm) (eps h 3 true))) h).
Definition demo_bulk (pkt : list Z) (events : nat) : mach :=
  Mach (HW (λ _, 0) (λ _ d, if d then USB_EP USB_EP_BUSNACK0_bm USB_EP_TYPE_BULK_gc 0 (Some in_fifo)
                            else USB_EP USB_EP_TRNCOMPL0_bm USB_EP_TYPE_BULK_gc (Z.of_nat (length pkt)) (Some out_fifo))
          0 (λ b, if decide (b = out_fifo) then pkt ++ replicate 33 0 else replicate 64 0) [] [])
    (FW 0 (0, false) (0, false) (λ _ d, if d then Endpoint_FIFO (Some in_fifo) 64 0 else Endpoint_FIFO (Some out_fifo) 0 0)
       DEVICE_STATE_Configured 1 (USB_Request_Header 0 0 0 0 0) true (CDC_State 0 0 (CDC_LineEncoding 0 0 0 0)) 0
       (RingBuffer_InitBuffer (replicate 5 0) 5) true)
    (replicate events demo_taken) [].

Lemma demo_bulk_pipe pkt n : pipe 0x83 0x04 in_fifo out_fifo 0 (demo_bulk pkt n).
Proof.
  split; [done|done|]. apply Forall_replicate. eexists. split; [done|]. intros h. split; cbn; try done.
  rewrite upd2_eq. cbn. rewrite tst_lor. apply orb_true_r.
Qed.
Lemma demo_bulk_holding pkt n : (length pkt ≤ 64)%nat → holding 0x04 out_fifo pkt 0 (demo_bulk pkt n).
Proof. intros H. split; try done. apply take_app_length. Qed.

(** * Streams over many packets

    What the stream functions do on a pair of bulk endpoints when the data do
    not fit a packet: a write hands over full packets and leaves the rest in
    the packet buffer, and a read goes on in the packet the host sends next. *)

#[local] Arguments ep_of : simpl never.

Section Streams.
Context (ai ao : Z) (bi bo : buffer).
Context (Hai : in_address ai) (Hao : out_address ao) (Hb : bi ≠ bo).
Local Abbreviation pipe := (pipe ai ao bi bo).
Local Abbreviation holding := (holding ao bo).
Local Abbreviation later := (later ai ao).
Local Abbreviation bank := (bank bi).

(** ** Writing *)

(** [m] events later, the packets [ps] have been handed over. *)
Record sent (ps : list (list Z)) (m : nat) (s s' : mach) : Prop := {
  se_trace : trace s' = trace s ++ map (OPacket (ai .& 15)) ps;
  se_script : length (script s) = (m + length (script s'))%nat;
  se_in : EP_CTRL (entry ai s') = EP_CTRL (entry ai s);
  se_out : EP_CTRL (entry ao s') = EP_CTRL (entry ao s);
  se_state : DeviceState (fwst s') = DeviceState (fwst s) }.
Lemma sent_refl s : sent [] 0 s s.
Proof. split; [by rewrite app_nil_r|done..]. Qed.
Lemma sent_trans ps m ps' m' s1 s2 s3 : sent ps m s1 s2 → sent ps' m' s2 s3 → sent (ps ++ ps') (m + m') s1 s3.
Proof. intros [] []. split; [|lia|congruence..]. by rewrite se_trace1, se_trace0, map_app, app_assoc. Qed.
Lemma sent_later m s s' : later m s s' → sent [] m s s'.
Proof. intros []. split; [by rewrite app_nil_r|done..]. Qed.

Definition full (p : list Z) : Prop := length p = 64%nat.
Lemma full_concat ps : Forall full ps → length (concat ps) = (64 * length ps)%nat.
Proof. induction 1 as [|p ps Hp _ IH]; [done|]. cbn [concat]. rewrite length_app, IH, Hp. cbn. lia. Qed.
Lemma length_bank j s : pipe j s → 0 ≤ j ≤ 64 → length (bank j s) = Z.to_nat j.
Proof. intros Hp Hj. unfold BulkSpec.bank. rewrite length_take, (pi_buf _ _ _ _ _ _ Hp). lia. Qed.

(** The loop: [l] has been written already, since the last packet. *)
Lemma wp_write_packets Buffer data Q B s j : gives Buffer data → selected_is ai s → pipe j s → 0 ≤ j ≤ 64 →
  bytes data → Z.of_nat (length data) < 65536 → (length data ≤ length (script s))%nat →
  (∀ ps j' s', Forall full ps → pipe j' s' → 0 ≤ j' ≤ 64 → sent ps (length ps) s s' → selected_is ai s' →
     concat ps ++ bank j' s' = bank j s ++ data → (j' = 0 → j = 0 ∧ data = []) → Q (0, (), None) s') →
  wp (iter (length data) (rw_body Endpoint_ClearIN move_LE (transfer_write Buffer) None)
       (RWVars () 0 (Z.of_nat (length data)) 0)) Q B s.
Proof using Hai Hao.
  intros Hg Hsel Hp Hj Hby Hlen Hev HQ. pose proof (proj2 (proj2 Hai)) as Hin.
  apply (wp_iter (λ v s1, ∃ (i : nat) ps j1, (i ≤ length data)%nat ∧
      v = RWVars () (Z.of_nat i) (Z.of_nat (length data - i)) (Z.of_nat i) ∧ Forall full ps ∧
      pipe j1 s1 ∧ 0 ≤ j1 ≤ 64 ∧ sent ps (length ps) s s1 ∧ selected_is ai s1 ∧
      concat ps ++ bank j1 s1 = bank j s ++ take i data ∧ (j1 = 0 → (i < length data)%nat ∨ j = 0 ∧ data = []))
    (λ v s1, Z.to_nat (rw_Length v) + length (script s1))%nat); [|exists 0%nat, [], j|cbn; lia].
  2: { rewrite Nat.sub_0_r, app_nil_r. split_and!; [lia|done|constructor|done|lia|lia|apply sent_refl|done|done|]. destruct data; [auto|cbn; lia]. }
  intros v s1 (i & ps & j1 & Hi & -> & Hf & Hp1 & Hj1 & Hs & Hs1 & Hb1 & Hz). unfold rw_body. cbn [rw_Length].
  destruct (Z.eqb_spec (Z.of_nat (length data - i)) 0) as [E|E].
  { wsteps. replace i with (length data) in * by lia. rewrite take_ge in Hb1 by lia. eapply HQ; try done. intros Hj0. destruct (Hz Hj0); [lia|done]. }
  assert (64 * length ps + Z.to_nat j1 = Z.to_nat j + i)%nat as Hcount.
  { apply (f_equal length) in Hb1. rewrite !length_app, full_concat, !length_bank, length_take in Hb1 by done. lia. }
  unfold Endpoint_IsReadWriteAllowed.
  apply wp_bind. eapply wp_Ok; [apply (get_fifo_eq _ (ep_of ai)); [apply Hs1|done]|].
  change (FIFOs _ _ _) with (fifo ai s1). rewrite (pi_in _ _ _ _ _ _ Hp1). cbn [FIFO_Position FIFO_Length].
  destruct (Z.ltb_spec j1 64) as [Hlt|Hge]; cbn [negb].
  - destruct (lookup_lt_is_Some_2 data i) as [x Hx]; [lia|].
    pose proof (Forall_lookup_1 _ _ _ _ Hby Hx) as Hbx. cbn beta in Hbx.
    unfold transfer_write. cbn [rw_Buffer rw_DataStream rw_Length rw_BytesInTransfer].
    apply wp_bind, wp_bind. eapply wp_Ok; [by apply Hg|].
    apply (wp_Write_pipe ai ao bi bo Hai j1); [done|done|lia|]. intros s2 Hp2 Hl2 Hs2 Hb2. wsteps. unfold move_LE.
    rewrite !u16_small by (unfold word16; lia). rewrite u8_small in Hb2 by done.
    pose proof (la_script _ _ _ _ _ Hl2) as Hsc. cbn [rw_Length]. split; [|lia].
    exists (S i), ps, (j1 + 1). split_and!; try (done || lia); [f_equal; lia| |].
    + pose proof (sent_trans _ _ _ _ _ _ _ Hs (sent_later _ _ _ Hl2)) as H. by rewrite app_nil_r, Nat.add_0_r in H.
    + by rewrite Hb2, app_assoc, Hb1, (take_S_r _ _ x), app_assoc.
  - assert (j1 = 64) as -> by lia.
    apply wp_bind, (wp_ClearIN_pipe ai ao bi bo Hai Hao 64); [done|done|].
    intros s2 Hp2 Ht2 Hsc2 Hs2 Hd2 Hci Hco _. pose proof (se_script _ _ _ _ Hs) as Hsc.
    apply wp_bind, (wp_wait_IN ai ao bi bo Hai 0); [apply Hs2|done|apply script_ne; rewrite Hsc2; lia|].
    intros s3 Hp3 Hl3 Hs3 Eb. cbn [negb Z.eqb]. wsteps. pose proof (la_script _ _ _ _ _ Hl3) as Hsc3.
    rewrite Hsc2 in Hsc3. cbn [rw_Length]. split; [|lia].
    exists i, (ps ++ [bank 64 s1]), 0. rewrite length_app. cbn [length].
    split_and!; try (done || lia).
    + apply Forall_app. split; [done|]. apply Forall_singleton. by apply (length_bank 64).
    + assert (sent [bank 64 s1] 0 s1 s2) as Hs12 by (split; [done|by rewrite Hsc2|done|by rewrite Hco|done]).
      pose proof (sent_trans _ _ _ _ _ _ _ Hs (sent_trans _ _ _ _ _ _ _ Hs12 (sent_later _ _ _ Hl3))) as H. done.
    + rewrite concat_app. cbn [concat]. unfold BulkSpec.bank at 2. cbn [Z.to_nat take]. by rewrite !app_nil_r.
Qed.
Lemma wp_Write_Packets Buffer data Q B s j : gives Buffer data → SelectedEndpoint (fwst s) = ai → pipe j s → 0 ≤ j ≤ 64 →
  bytes data → Z.of_nat (length data) < 65536 → (length data < length (script s))%nat →
  (∀ ps j' s', Forall full ps → pipe j' s' → 0 ≤ j' ≤ 64 → sent ps (S (length ps)) s s' → selected_is ai s' →
     concat ps ++ bank j' s' = bank j s ++ data → (j' = 0 → j = 0 ∧ data = []) → Q (0, (), None) s') →
  wp (Endpoint_Write_Stream_LE Buffer (Z.of_nat (length data)) None) Q B s.
Proof using Hai Hao.
  intros Hg Ha Hp Hj Hby Hlen Hev HQ. unfold Endpoint_Write_Stream_LE, Template_Endpoint_RW.
  apply wp_bind, (wp_wait_IN ai ao bi bo Hai j); try done; [apply script_ne; lia|]. intros s1 Hp1 Hl1 Hs1 Eb. cbn [negb Z.eqb].
  pose proof (la_script _ _ _ _ _ Hl1) as Hsc. rewrite Nat2Z.id.
  apply (wp_write_packets Buffer data _ _ _ j); try done; [lia|]. intros ps j' s' Hf Hp' Hj' Hs' Hsel' Hc Hz.
  eapply HQ; try done.
  - exact (sent_trans [] 1 _ _ _ _ _ (sent_later _ _ _ Hl1) Hs').
  - rewrite Hc. unfold BulkSpec.bank. by rewrite Eb.
Qed.

(** ** Reading *)

(** One event of a host that has the bytes [host h] to send: it leaves a packet
    that has not been read alone, and puts the next one into a free buffer. The
    length of its packets is a multiple of [quantum]: with 1 it is any, and with 64
    the packets are full. *)
Context (quantum : Z).
Definition out_full (h : hw) : bool := tst (EP_STATUS (eps h (ep_of ao).1 (ep_of ao).2)) USB_EP_TRNCOMPL0_bm.
Record feed_step (h h' : hw) : Prop := {
  fd_pipe : pipe_step ai ao bi bo h h';
  fd_full : out_full h = true → host h' = host h;
  fd_free : out_full h = false → host h ≠ [] → ∃ pkt, pkt ≠ [] ∧ (length pkt ≤ 64)%nat ∧ (quantum | Z.of_nat (length pkt)) ∧ host h = pkt ++ host h' ∧
    out_full h' = true ∧ EP_CNT (eps h' (ep_of ao).1 (ep_of ao).2) = Z.of_nat (length pkt) ∧
    take (length pkt) (bufs h' bo) = pkt }.
Definition feed_event (e : event) : Prop := ∃ f, e = EvHw f ∧ ∀ h, feed_step h (f h).

(** The packet [pkt], read up to [k], and [rest] still to come, at the offset
    [al] in what the host sends. *)
Record feeding (al : Z) (pkt : list Z) (k : Z) (rest : list Z) (s : mach) : Prop := {
  fe_hold : holding pkt k s;
  fe_pos : 0 ≤ k ≤ Z.of_nat (length pkt);
  fe_rest : drop (Z.to_nat k) pkt ++ host (hwst s) = rest;
  fe_unit : (quantum | Z.of_nat (length pkt));
  fe_al : (quantum | k - al);
  fe_env : Forall feed_event (script s) }.

Lemma wp_feed_poll j Q B s : pipe j s → Forall feed_event (script s) → script s ≠ [] →
  (∀ s', pipe j s' → later 1 s s' → fwst s' = fwst s → feed_step (hwst s) (hwst s') → Forall feed_event (script s') → Q tt s') →
  wp poll Q B s.
Proof.
  intros [Hin Hbuf Henv] Hf Hs HQ. apply wp_poll. destruct (script s) as [|e es] eqn:Es; [done|].
  inversion Hf as [|? ? (f & -> & Hst) Hes]; subst. inversion Henv as [|? ? _ Henv']; subst. specialize (Hst (hwst s)).
  pose proof (fd_pipe _ _ Hst) as Hps. apply HQ; [|split|..]; try done.
  - split; [done|cbn; by rewrite (ps_bi _ _ _ _ _ _ Hps)|done].
  - by rewrite Es.
  - apply Hps.
  - apply Hps.
Qed.

(** What the driver finds when it looks: the current packet, or a free buffer
    and a host that has more to send. *)
Definition supplied (al : Z) (rest : list Z) (s : mach) : Prop :=
  (∃ pkt k, feeding al pkt k rest s) ∨
  out_full (hwst s) = false ∧ (quantum | al) ∧ FIFO_Data (fifo ao s) = Some bo ∧ FIFO_Position (fifo ao s) = 0 ∧
    host (hwst s) = rest ∧ rest ≠ [] ∧ Forall feed_event (script s).

(** After the event that precedes the look there is a packet in the buffer. *)
Lemma supplied_step al rest s s' : supplied al rest s → fwst s' = fwst s → feed_step (hwst s) (hwst s') →
  Forall feed_event (script s') →
  ∃ pkt k, feeding al pkt k rest s' ∧ (out_full (hwst s) = false → k < Z.of_nat (length pkt)).
Proof.
  intros Hsup Hfw Hst Hes. destruct Hsup as [(pkt & k & [Hh Hk Hr Hu Ha He])|(Hfr & Ha & Hd & Hpos & Hho & Hne & He)].
  - exists pkt, k. pose proof (ho_full _ _ _ _ _ Hh) as Hfu. change (out_full (hwst s) = true) in Hfu. split; [|by rewrite Hfu].
    split; [by eapply holding_step, Hst|done| |done..]. by rewrite (fd_full _ _ Hst Hfu).
  - rewrite <-Hho in Hne. destruct (fd_free _ _ Hst Hfr Hne) as (pkt & Hp & Hl & Hu & Eh & Hfu & Hc & Ht).
    exists pkt, 0. split.
    + split; [|lia|change (Z.to_nat 0) with 0%nat; rewrite drop_0; congruence|done|by apply Z.divide_opp_r|done].
      split; unfold fifo, entry in *; rewrite ?Hfw; done.
    + intros _. destruct pkt; [done|]. cbn. lia.
Qed.

Lemma feeding_fw al pkt k rest s s' : feeding al pkt k rest s → holding pkt k s' → hwst s' = hwst s → script s' = script s →
  feeding al pkt k rest s'.
Proof. intros [] Hh Eh Es. split; [done|done|by rewrite Eh|done|done|by rewrite Es]. Qed.

Lemma wp_feed_IsOUT j al rest Q B s : SelectedEndpoint (fwst s) = ao → pipe j s → supplied al rest s → script s ≠ [] →
  (∀ pkt k s', feeding al pkt k rest s' → (out_full (hwst s) = false → k < Z.of_nat (length pkt)) →
     pipe j s' → later 1 s s' → selected_is ao s' → FIFO_Length (fifo ao s') = Z.of_nat (length pkt) → Q true s') →
  wp Endpoint_IsOUTReceived Q B s.
Proof using Hai Hao.
  intros Ha Hp Hsup Hs HQ. destruct Hao as (E1 & E2 & Hin). unfold Endpoint_IsOUTReceived, received. wsteps.
  rewrite Ha. change (clr8 ao ENDPOINT_DIR_IN) with (clr8 ao 128). rewrite E1.
  apply (wp_feed_poll j); [by apply pipe_sel| |done|].
  { destruct Hsup as [(? & ? & [])|(_ & _ & _ & _ & _ & _ & ?)]; done. }
  intros s1 Hp1 Hl1 Hfw Hst Hes.
  assert (supplied al rest (sel ao s)) as Hsup'.
  { destruct Hsup as [(pkt & k & [])|?]; [left; exists pkt, k; split; try done; by apply holding_sel|by right]. }
  destruct (supplied_step _ _ _ _ Hsup' Hfw Hst Hes) as (pkt & k & Hf1 & Hk). pose proof (fe_hold _ _ _ _ _ Hf1) as Hh1.
  apply wp_bind. eapply wp_Ok; [by apply (get_handle_eq _ (ep_of ao)); [rewrite Hfw|]|].
  change (eps (hwst s1) _ _) with (entry ao s1). rewrite (ho_full _ _ _ _ _ Hh1).
  apply wp_bind. eapply wp_Ok; [by apply (get_handle_eq _ (ep_of ao)); [rewrite Hfw|]|].
  change (eps (hwst s1) _ _) with (entry ao s1). rewrite (ho_cnt _ _ _ _ _ Hh1).
  apply wp_bind. eapply wp_Ok; [by apply (mod_fifo_eq _ (ep_of ao)); [rewrite Hfw|]|]. wsteps.
  assert (u8 (Z.of_nat (length pkt)) = Z.of_nat (length pkt)) as Eu.
  { apply u8_small. pose proof (ho_len _ _ _ _ _ Hh1). unfold byte. lia. }
  rewrite Eu. pose proof (ends_apart ai ao Hai Hao) as Hne. apply (HQ pkt k).
  - eapply feeding_fw; [exact Hf1| |done|done]. destruct Hh1. unfold fifo, entry in *. by split; unfold fifo, entry; cbn; rewrite ?upd2_at.
  - exact Hk.
  - destruct Hp1. split; try done. unfold fifo in *. cbn. by rewrite upd2_off.
  - by destruct (later_sel _ _ _ _ _ _ Hl1).
  - split; [|split]; cbn; by rewrite Hfw.
  - unfold fifo. cbn. by rewrite upd2_at.
Qed.

Lemma wp_feed_wait j al rest Q B s : SelectedEndpoint (fwst s) = ao → pipe j s → supplied al rest s → script s ≠ [] →
  (∀ pkt k s', feeding al pkt k rest s' → (out_full (hwst s) = false → k < Z.of_nat (length pkt)) →
     pipe j s' → later 1 s s' → selected_is ao s' → FIFO_Length (fifo ao s') = Z.of_nat (length pkt) → Q 0 s') →
  wp Endpoint_WaitUntilReady Q B s.
Proof using Hai Hao.
  intros Ha Hp Hsup Hs HQ. unfold Endpoint_WaitUntilReady, USB_Device_GetFrameNumber. wsteps.
  apply (wp_iter_poll (λ _ s1, s1 = s)); [|done]. intros [t f] s1 ->.
  unfold wait_ready_body, Endpoint_GetEndpointDirection. wsteps. rewrite Ha.
  assert ((ao .& ENDPOINT_DIR_IN =? ENDPOINT_DIR_IN) = false) as ->.
  { destruct Hao as (_ & E & _). unfold tst in E. apply negb_false_iff, Z.eqb_eq in E.
    change ENDPOINT_DIR_IN with 128. by rewrite E. }
  by apply (wp_feed_IsOUT j al rest).
Qed.

(** The packet that has been read is given back; more is to come. *)
Lemma wp_feed_ClearOUT j al pkt rest Q B s : selected_is ao s → pipe j s → feeding al pkt (Z.of_nat (length pkt)) rest s → rest ≠ [] →
  (∀ s', pipe j s' → supplied al rest s' → out_full (hwst s') = false → later 0 s s' → selected_is ao s' → Q tt s') →
  wp Endpoint_ClearOUT Q B s.
Proof using Hai Hao.
  intros (Hs1 & Hs2 & Hs3) Hp [Hh Hk Hr Hu Ha He] Hne HQ. pose proof (ends_apart ai ao Hai Hao) as Hap. pose proof (proj2 (proj2 Hao)) as Hin.
  rewrite Nat2Z.id, drop_ge in Hr by done. cbn in Hr.
  unfold Endpoint_ClearOUT. apply wp_bind.
  eapply wp_Ok; [by apply (mod_handle_eq _ (ep_of ao))|]. eapply wp_Ok; [by apply (mod_fifo_eq _ (ep_of ao))|].
  assert (∀ e, tst (EP_STATUS (ep_set_status (clr8 (EP_STATUS e) CLEAR_MASK) e)) USB_EP_TRNCOMPL0_bm = false) as Hc
    by (intros; by apply tst_cleared).
  apply HQ; [destruct Hp; split|right; split_and!| |split|split]; unfold out_full, fifo, entry in *; cbn; rewrite ?upd2_at, ?upd2_off by done; try done.
  - replace al with (Z.of_nat (length pkt) - (Z.of_nat (length pkt) - al)) by lia. by apply Z.divide_sub_r.
  - apply Hh.
Qed.

(** The read loop: [i] bytes read, in [c] packets. *)
Lemma wp_read_packets j al pkt k rest n Buffer Q B s : selected_is ao s → pipe j s → feeding al pkt k rest s →
  FIFO_Length (fifo ao s) = Z.of_nat (length pkt) → (n ≤ length rest)%nat → (n ≤ length Buffer)%nat → Z.of_nat n < 65536 →
  (n ≤ length (script s))%nat →
  (∀ pkt' k' m s', feeding (al + Z.of_nat n) pkt' k' (drop n rest) s' → ((0 < n)%nat → 0 < k') → pipe j s' → later m s s' →
     (m ≤ n)%nat → selected_is ao s' → Q (0, take n rest ++ drop n Buffer, None) s') →
  wp (iter n (rw_body Endpoint_ClearOUT move_LE transfer_read None) (RWVars Buffer 0 (Z.of_nat n) 0)) Q B s.
Proof using Hai Hao Hb.
  intros Hsel Hp Hf HL Hn HB Hn16 Hev HQ.
  apply (wp_iter (λ v s1, ∃ (i c : nat) pkt1 k1, (i ≤ n)%nat ∧
      v = RWVars (take i rest ++ drop i Buffer) (Z.of_nat i) (Z.of_nat (n - i)) (Z.of_nat i) ∧
      feeding (al + Z.of_nat i) pkt1 k1 (drop i rest) s1 ∧ (i = n → (0 < n)%nat → 0 < k1) ∧ pipe j s1 ∧ later c s s1 ∧ selected_is ao s1 ∧
      FIFO_Length (fifo ao s1) = Z.of_nat (length pkt1) ∧
      (if decide (k1 < Z.of_nat (length pkt1)) then (c ≤ S i)%nat else (c ≤ i)%nat) ∧ (c ≤ n)%nat)
    (λ v s1, Z.to_nat (rw_Length v) + length (script s1))%nat); [|exists 0%nat, 0%nat, pkt, k|cbn; lia].
  2: { rewrite Nat.sub_0_r, drop_0. rewrite Z.add_0_r. split_and!; try (done || lia). case_decide; lia. }
  intros v s1 (i & c & pkt1 & k1 & Hi & -> & Hf1 & Hk0 & Hp1 & Hl1 & Hs1 & HL1 & Hc & Hcn). unfold rw_body. cbn [rw_Length].
  destruct (Z.eqb_spec (Z.of_nat (n - i)) 0) as [E|E].
  { wsteps. assert (i = n) as -> by lia. eapply HQ; try done. by apply Hk0. }
  pose proof (fe_pos _ _ _ _ _ Hf1) as Hk1. pose proof (la_script _ _ _ _ _ Hl1) as Hsc1.
  unfold Endpoint_IsReadWriteAllowed.
  apply wp_bind. eapply wp_Ok; [apply (get_fifo_eq _ (ep_of ao)); [apply Hs1|apply Hao]|].
  change (FIFOs _ _ _) with (fifo ao s1). rewrite HL1, (ho_pos _ _ _ _ _ (fe_hold _ _ _ _ _ Hf1)).
  destruct (Z.ltb_spec k1 (Z.of_nat (length pkt1))) as [Hlt|Hge]; cbn [negb].
  - destruct (lookup_lt_is_Some_2 pkt1 (Z.to_nat k1)) as [x Hx]; [lia|].
    assert (rest !! i = Some x) as Hri.
    { rewrite <-(Nat.add_0_r i), <-lookup_drop, <-(fe_rest _ _ _ _ _ Hf1). rewrite lookup_app_l by (rewrite length_drop; lia).
      by rewrite lookup_drop, Nat.add_0_r. }
    unfold transfer_read. cbn [rw_Buffer rw_DataStream rw_Length rw_BytesInTransfer].
    apply wp_bind, wp_bind, (wp_Read_at ai ao bi bo Hai Hao Hb j pkt1 k1 x); try done; [apply Hf1|lia|].
    intros s2 Hp2 Hh2 Hl2 Hs2 HL2 Eh2 Es2.
    assert (length (take i rest) = i) as Lt by (rewrite length_take; lia).
    eapply wp_lift; [apply wr_Some; rewrite length_app, Lt, length_drop; lia|]. wsteps. unfold move_LE.
    rewrite !u16_small by (unfold word16; lia). cbn [rw_Length]. rewrite Es2. split; [|lia].
    exists (S i), c, pkt1, (k1 + 1). split_and!; try (done || lia).
    + f_equal; [|lia..]. rewrite Nat2Z.id. rewrite <-Lt at 1. rewrite <-(Nat.add_0_r (length (take i _))), insert_app_r.
      rewrite (take_S_r _ _ x), <-app_assoc by done. f_equal.
      destruct (drop i Buffer) as [|y l] eqn:Ed.
      { apply (f_equal length) in Ed. rewrite length_drop in Ed. cbn in Ed. lia. }
      cbn. f_equal. by rewrite <-Nat.add_1_r, <-drop_drop, Ed.
    + destruct Hf1. split; [done|lia| |done| |by rewrite Es2];
        [|by replace (k1 + 1 - (al + Z.of_nat (S i))) with (k1 - (al + Z.of_nat i)) by lia]. rewrite Eh2.
      assert (drop (Z.to_nat (k1 + 1)) pkt1 = drop 1 (drop (Z.to_nat k1) pkt1)) as -> by (rewrite drop_drop; f_equal; lia).
      assert (drop (S i) rest = drop 1 (drop i rest)) as -> by (rewrite drop_drop; f_equal; lia).
      rewrite <-fe_rest0, skipn_app, length_drop.
      replace (1 - (length pkt1 - Z.to_nat k1))%nat with 0%nat by lia. done.
    + pose proof (later_trans _ _ _ _ _ _ _ Hl1 Hl2) as H. by rewrite Nat.add_0_r in H.
    + revert Hc. repeat case_decide; lia.
  - assert (k1 = Z.of_nat (length pkt1)) as -> by lia. rewrite decide_False in Hc by lia.
    apply wp_bind, (wp_feed_ClearOUT j (al + Z.of_nat i) pkt1 (drop i rest)); [done|done|done| |].
    { intros Ed. apply (f_equal length) in Ed. rewrite length_drop in Ed. cbn in Ed. lia. }
    intros s2 Hp2 Hsup2 Hfr2 Hl2 Hs2. pose proof (la_script _ _ _ _ _ Hl2) as Hsc2.
    apply wp_bind, (wp_feed_wait j (al + Z.of_nat i) (drop i rest)); [apply Hs2|done|done|apply script_ne; lia|].
    intros pkt3 k3 s3 Hf3 Hk3 Hp3 Hl3 Hs3 HL3. cbn [negb Z.eqb]. wsteps. pose proof (la_script _ _ _ _ _ Hl3) as Hsc3.
    cbn [rw_Length]. split; [|lia]. exists i, (S c), pkt3, k3. split_and!; try (done || lia).
    + pose proof (later_trans _ _ _ _ _ _ _ Hl1 (later_trans _ _ _ _ _ _ _ Hl2 Hl3)) as H. by replace (c + (0 + 1))%nat with (S c) in H by lia.
    + specialize (Hk3 Hfr2). rewrite decide_True by done. lia.
Qed.

Lemma wp_Read_Packets j al rest n Buffer Q B s : SelectedEndpoint (fwst s) = ao → pipe j s → supplied al rest s →
  (n ≤ length rest)%nat → (n ≤ length Buffer)%nat → Z.of_nat n < 65536 → (n < length (script s))%nat →
  (∀ pkt k m s', feeding (al + Z.of_nat n) pkt k (drop n rest) s' → ((0 < n)%nat → 0 < k) → pipe j s' → later m s s' →
     (m ≤ S n)%nat → selected_is ao s' → Q (0, take n rest ++ drop n Buffer, None) s') →
  wp (Endpoint_Read_Stream_LE Buffer (Z.of_nat n) None) Q B s.
Proof using Hai Hao Hb.
  intros Ha Hp Hsup Hn HB Hn16 Hev HQ. unfold Endpoint_Read_Stream_LE, Template_Endpoint_RW.
  apply wp_bind, (wp_feed_wait j al rest); try done; [apply script_ne; lia|]. intros pkt k s1 Hf1 _ Hp1 Hl1 Hs1 HL1. cbn [negb Z.eqb].
  pose proof (la_script _ _ _ _ _ Hl1) as Hsc. rewrite Nat2Z.id.
  apply (wp_read_packets j al pkt k rest n Buffer); try done; [lia|]. intros pkt' k' m s' Hf' Hk' Hp' Hl' Hm Hs'.
  eapply (HQ pkt' k' (1 + m)%nat); try done; [by eapply later_trans|lia].
Qed.
End Streams.
