(* ===== verification/RndisData.v ===== *)
(** * RNDIS frames

    The data path of RNDISClassDevice.c on a pair of bulk endpoints: a frame
    goes out behind its header in as many packets as it takes, and comes in
    from a host that sends header and frame in packets of any sizes. *)
From S2P Require Import Prelude RingBuffer Machine Endpoint Controller EndpointPoll EndpointStream Cdc Packed Logic EndpointSpec EndpointData Rndis BulkSpec.

#[local] Arguments ep_of : simpl never.

Section Frames.
Context (i : USB_ClassInfo_RNDIS_Device_t) (bi bo : buffer).
Abbreviation ai := (T_Address (R_DataINEndpoint (R_Config i))).
Abbreviation ao := (T_Address (R_DataOUTEndpoint (R_Config i))).
Context (Hai : in_address ai) (Hao : out_address ao) (Hb : bi ≠ bo).
Abbreviation pipe := (pipe ai ao bi bo).

(** The adapter is up: configured, and initialised by the host. *)
Definition adapter_up (s : mach) : Prop :=
  DeviceState (fwst s) = DEVICE_STATE_Configured ∧ CurrRNDISState (R_State i) = RNDIS_Data_Initialized.

Lemma up_active s : adapter_up s → RNDIS_inactive i s = Ok false s.
Proof. intros [H1 H2]. unfold RNDIS_inactive, mbind, M_bind, get_fw, gets. by rewrite H1, H2. Qed.

Lemma packet_header_bytes n : bytes (packet_header n).
Proof. unfold packet_header. repeat (apply Forall_app; split); try apply le32_bytes. by apply Forall_replicate. Qed.
Lemma packet_header_length n : length (packet_header n) = 44%nat.
Proof. reflexivity. Qed.

(** The frame is what the buffer starts with. *)
Lemma SendPacket_wp Buffer data Q B s : adapter_up s → pipe 0 s → take (length data) Buffer = data → bytes data → Z.of_nat (length data) < 65492 →
  (2 * length data + 92 ≤ length (script s))%nat →
  (∀ ps last m s', Forall full ps → (0 < length last ≤ 64)%nat → concat ps ++ last = packet_header (Z.of_nat (length data)) ++ data →
     sent ai ao (ps ++ [last]) m s s' → (m ≤ 3 + length ps)%nat → pipe 0 s' → Q ENDPOINT_RWSTREAM_NoError s') →
  wp (RNDIS_Device_SendPacket i Buffer (Z.of_nat (length data))) Q B s.
Proof using Hai Hao.
  intros Hup Hp Htk Hby Hlen Hev HQ. unfold RNDIS_Device_SendPacket. apply wp_bind. eapply wp_Ok; [by apply up_active|]. wsteps.
  apply (wp_wait_IN ai ao bi bo Hai 0); [done|by apply pipe_sel|apply script_ne; cbn; lia|].
  intros s1 Hp1 Hl1 Hs1 Eb. apply later_sel in Hl1. pose proof (la_script _ _ _ _ _ Hl1) as Hsc1.
  change (negb (0 =? ENDPOINT_READYWAIT_NoError)) with false. cbn iota.
  apply wp_bind. change sizeof_RNDIS_Packet_Message with (Z.of_nat (length (packet_header (Z.of_nat (length data))))).
  apply (wp_Write_Packets ai ao bi bo Hai Hao _ _ _ _ _ 0); [apply in_memory_gives_all|apply Hs1|done|lia|apply packet_header_bytes|done| |].
  { rewrite packet_header_length. lia. }
  intros ps1 j1 s2 Hf1 Hp2 Hj1 Hse1 Hs2 Hc1 _. pose proof (se_script _ _ _ _ _ _ Hse1) as Hsc2.
  assert (length ps1 = 0%nat) as Hps1.
  { apply (f_equal length) in Hc1. rewrite !length_app, full_concat, packet_header_length in Hc1 by done.
    rewrite !(length_bank ai ao bi bo) in Hc1 by (done || lia). cbn in Hc1. lia. }
  apply length_zero_iff_nil in Hps1. subst ps1. cbn in Hsc2.
  change (bank bi j1 s2 = packet_header (Z.of_nat (length data))) in Hc1.
  apply wp_bind, (wp_Write_Packets ai ao bi bo Hai Hao _ data _ _ _ j1); [rewrite <-Htk; apply in_memory_gives|apply Hs2|done|lia|done|lia|lia|].
  intros ps2 j2 s3 Hf2 Hp3 Hj2 Hse2 Hs3 Hc2 Hz.
  apply wp_bind, (wp_ClearIN_pipe ai ao bi bo Hai Hao j2); [done|done|]. intros s4 Hp4 Ht4 Hsc4 Hs4 Hd4 Hci4 Hco4 _. wsteps.
  assert (length (bank bi j2 s3) = Z.to_nat j2) as Hlb by (apply (length_bank ai ao bi bo); [done|lia]).
  assert (j2 ≠ 0) as Hj2'.
  { intros E0. destruct (Hz E0) as [-> _]. apply (f_equal length) in Hc1. by rewrite packet_header_length in Hc1. }
  apply (HQ ps2 (bank bi j2 s3) (1 + (1 + (S (length ps2) + 0)))%nat); [done|lia| | |lia|done].
  - rewrite Hc2. f_equal. exact Hc1.
  - apply (sent_trans _ _ [] 1 _ _ _ s1); [by eapply sent_later|].
    apply (sent_trans _ _ [] 1 _ _ _ s2); [done|]. apply (sent_trans _ _ ps2 _ [bank bi j2 s3] 0 _ s3); [done|]. split; [done|by rewrite Hsc4|done|by rewrite Hco4|done].
Qed.

(** A message: its header and what follows it. *)
Definition length_of (hdr : list Z) : option Z := rd32 hdr o_DataLength.
Definition header_for (n : Z) (hdr : list Z) : Prop := length hdr = 44%nat ∧ length_of hdr = Some n.

(** The header of a packet message for a frame of [n] bytes, behind it. *)
Definition packet_message (n : Z) (hdr : list Z) : Prop :=
  header_for n hdr ∧ rd32 hdr o_MessageType = Some REMOTE_NDIS_PACKET_MSG ∧ rd32 hdr o_MessageLength = Some (44 + n) ∧
  rd32 hdr o_DataOffset = Some (44 - 8).

Lemma packet_header_message n : 0 ≤ n < 65492 → packet_message n (packet_header n).
Proof.
  intros Hn. assert (∀ v, 0 ≤ v < 65536 → of_le (le32 v) = Some v) as H.
  { intros v Hv. rewrite rd32_le32. unfold u32. by rewrite Z.mod_small by lia. }
  unfold packet_message, header_for, length_of. rewrite !rd32_block by done. split_and!.
  - done.
  - change (take 4 _) with (le32 n). apply H. lia.
  - done.
  - change (take 4 _) with (le32 (u16 (44 + n))). rewrite u16_small by (unfold word16; lia). apply H. lia.
  - done.
Qed.

Lemma read_message_header rest junk Buffer P Q B s : adapter_up s → pipe 0 s → supplied ai ao bi bo 1 0 rest s →
  length junk = 44%nat → (44 ≤ length rest)%nat → (46 ≤ length (script s))%nat →
  (∀ pkt k m s', feeding ai ao bi bo 1 44 pkt k (drop 44 rest) s' → pipe 0 s' → later ai ao m s s' → (m ≤ 46)%nat → selected_is ao s' →
     wp (n ← lift (rd32 (take 44 rest) o_DataLength);
      if n >? ETHERNET_FRAME_SIZE_MAX then
        Endpoint_StallTransaction;;
        mret (RNDIS_ERROR_LOGICAL_CMD_FAILED, Buffer, 0)
      else
        let PacketLength := u16 n in
        v ← Endpoint_Read_Stream_LE Buffer PacketLength None;
        Endpoint_ClearOUT;;
        mret (ENDPOINT_RWSTREAM_NoError, v.1.2, PacketLength)) Q B s') →
  wp (RNDIS_Device_ReadPacket i junk Buffer P) Q B s.
Proof using Hai Hao Hb.
  intros Hup Hp Hsup Hj Hr Hev HQ. unfold RNDIS_Device_ReadPacket. apply wp_bind. eapply wp_Ok; [by apply up_active|]. wsteps.
  assert (supplied ai ao bi bo 1 0 rest (sel ao s)) as Hsup'.
  { destruct Hsup as [(pkt & k & [])|?]; [left; exists pkt, k; split; try done; by apply holding_sel|by right]. }
  apply (wp_feed_IsOUT ai ao bi bo Hai Hao 1 0 0 rest); [done|by apply pipe_sel|done|apply script_ne; cbn; lia|].
  intros pkt k s1 Hf1 _ Hp1 Hl1 Hs1 _. apply later_sel in Hl1. pose proof (la_script _ _ _ _ _ Hl1) as Hsc1. cbn [negb].
  apply wp_bind. change sizeof_RNDIS_Packet_Message with (Z.of_nat 44).
  apply (wp_Read_Packets ai ao bi bo Hai Hao Hb 1 0 0 rest); [apply Hs1|done|left; by eauto|done|lia|done|lia|].
  intros pkt' k' m s' Hf' _ Hp' Hl' Hm Hs'. cbn [fst snd]. rewrite (drop_ge junk) by lia. rewrite app_nil_r.
  eapply (HQ pkt' k' (1 + m)%nat); try done; [by eapply later_trans|lia].
Qed.

(** A frame that fits is received; the packet it ends in is given back, with
    what follows the frame in it. *)
Lemma ReadPacket_wp hdr data tail junk Buffer P Q B s : adapter_up s → pipe 0 s →
  supplied ai ao bi bo 1 0 (hdr ++ data ++ tail) s → length hdr = 44%nat → length_of hdr = Some (Z.of_nat (length data)) →
  Z.of_nat (length data) ≤ ETHERNET_FRAME_SIZE_MAX → length junk = 44%nat → (length data ≤ length Buffer)%nat →
  (length data + 47 ≤ length (script s))%nat →
  (∀ m s', later ai ao m s s' → (m ≤ length data + 47)%nat → pipe 0 s' → out_full ao (hwst s') = false →
     (∃ lost, tail = lost ++ host (hwst s') ∧ (length lost ≤ 64)%nat) →
     Q (ENDPOINT_RWSTREAM_NoError, data ++ drop (length data) Buffer, Z.of_nat (length data)) s') →
  wp (RNDIS_Device_ReadPacket i junk Buffer P) Q B s.
Proof using Hai Hao Hb.
  intros Hup Hp Hsup Hh Hn Hmax Hj HB Hev HQ.
  apply (read_message_header (hdr ++ data ++ tail)); try done; [rewrite length_app; lia|lia|].
  intros pkt k m s1 Hf1 Hp1 Hl1 Hm Hs1. pose proof (la_script _ _ _ _ _ Hl1) as Hsc1.
  rewrite take_app_length', drop_app_length' in * by done.
  eapply wp_bind, wp_lift; [exact Hn|]. rewrite Z.gtb_ltb, (proj2 (Z.ltb_ge _ _)) by lia.
  unfold ETHERNET_FRAME_SIZE_MAX in Hmax. cbv zeta. rewrite u16_small by (unfold word16; lia).
  apply wp_bind, (wp_Read_Packets ai ao bi bo Hai Hao Hb 1 0 44 (data ++ tail)); [apply Hs1|done|left; by eauto| |done|lia|lia|].
  { rewrite length_app. lia. }
  intros pkt2 k2 m2 s2 Hf2 _ Hp2 Hl2 Hm2 Hs2. cbn [fst snd]. rewrite take_app_length, drop_app_length in *.
  apply wp_bind. pose proof (proj2 (proj2 Hao)) as Hin. destruct Hs2 as (Hs21 & Hs22 & Hs23).
  unfold Endpoint_ClearOUT. apply wp_bind.
  eapply wp_Ok; [by apply (mod_handle_eq _ (ep_of ao))|]. eapply wp_Ok; [by apply (mod_fifo_eq _ (ep_of ao))|]. wsteps.
  pose proof (ends_apart ai ao Hai Hao) as Hap. destruct Hf2 as [Hho2 Hk2 Hr2 _ _ He2].
  eapply (HQ (m + m2)%nat).
  - eapply later_trans; [exact Hl1|]. destruct Hl2. split; unfold entry in *; cbn; rewrite ?upd2_at, ?upd2_off by done; done.
  - lia.
  - destruct Hp2. split; unfold fifo in *; cbn; rewrite ?upd2_at, ?upd2_off by done; done.
  - unfold out_full. cbn. rewrite upd2_at. by apply tst_cleared.
  - exists (drop (Z.to_nat k2) pkt2). split; [by rewrite <-Hr2|]. pose proof (ho_len _ _ _ _ _ Hho2). rewrite length_drop. lia.
Qed.

(** A frame that is too long is refused: the endpoint is halted. *)
Lemma ReadPacket_refuses hdr tail n junk Buffer P Q B s : adapter_up s → pipe 0 s → is_bulk ao s →
  supplied ai ao bi bo 1 0 (hdr ++ tail) s → length hdr = 44%nat → length_of hdr = Some n → ETHERNET_FRAME_SIZE_MAX < n →
  length junk = 44%nat → (46 ≤ length (script s))%nat →
  (∀ s', trace s' = trace s → halted ao s' = true → Q (RNDIS_ERROR_LOGICAL_CMD_FAILED, Buffer, 0) s') →
  wp (RNDIS_Device_ReadPacket i junk Buffer P) Q B s.
Proof using Hai Hao Hb.
  intros Hup Hp Hbk Hsup Hh Hn Hmax Hj Hev HQ.
  apply (read_message_header (hdr ++ tail)); try done; [rewrite length_app; lia|].
  intros pkt k m s1 Hf1 Hp1 Hl1 Hm Hs1. rewrite take_app_length' by done.
  eapply wp_bind, wp_lift; [exact Hn|]. rewrite Z.gtb_ltb, (proj2 (Z.ltb_lt _ _)) by lia.
  apply wp_bind, (wp_Stall ao); [done|apply Hao|by unfold is_bulk in *; rewrite (la_out _ _ _ _ _ Hl1)|]. wsteps.
  apply HQ; [by rewrite <-(la_trace _ _ _ _ _ Hl1)|apply halted_halt].
Qed.
End Frames.

(** ** An instance: the host of endpoints 0x83 and 0x04 *)
(** It takes every packet and sends what it has, 64 bytes at a time. *)
Definition demo_supply (h : hw) : hw :=
  let h := set_eps (upd2 (eps h) (3, true) (ep_set_status (EP_STATUS (eps h 3 true) .| USB_EP_BUSNACK0_bm) (eps h 3 true))) h in
  if tst (EP_STATUS (eps h 4 false)) USB_EP_TRNCOMPL0_bm then h
  else
    let pkt := take 64 (host h) in
    set_host (drop 64 (host h)) (set_bufs (λ b, if decide (b = out_fifo) then pkt ++ drop (length pkt) (bufs h b) else bufs h b)
      (set_eps (upd2 (eps h) (4, false) (USB_EP (EP_STATUS (eps h 4 false) .| USB_EP_TRNCOMPL0_bm) (EP_CTRL (eps h 4 false))
        (Z.of_nat (length pkt)) (EP_DATAPTR (eps h 4 false)))) h)).
Lemma demo_supply_feeds : feed_event 0x83 0x04 in_fifo out_fifo 1 (EvHw demo_supply).
Proof.
  eexists. split; [done|]. intros h. unfold demo_supply. cbn [eps set_eps host bufs].
  change (upd2 (eps h) (3, true) ?e 4 false) with (eps h 4 false).
  split; [split| |]; unfold out_full in *; change (ep_of 0x83) with (3, true) in *; change (ep_of 0x04) with (4, false) in *;
    cbn [fst snd] in *; destruct (tst (EP_STATUS (eps h 4 false)) USB_EP_TRNCOMPL0_bm) eqn:Ef; try done; cbn.
  1: rewrite upd2_eq. 2: rewrite upd2_ne, upd2_eq by done.
  1,2: cbn; rewrite tst_lor; apply orb_true_r.
  intros _ Hne. exists (take 64 (host h)). rewrite upd2_eq, decide_True, take_app_length, take_drop by done. cbn.
  rewrite tst_lor, orb_true_r, length_take. split_and!; try done; [by destruct (host h)|lia|apply Z.divide_1_l].
Qed.
(** The state in which [l] is still to be sent to the device. *)
Definition demo_sending (l : list Z) (events : nat) : mach :=
  let s := demo_bulk [] events in
  Mach (set_host l (set_eps (λ _ d, if d then USB_EP USB_EP_BUSNACK0_bm USB_EP_TYPE_BULK_gc 0 (Some in_fifo)
                       else USB_EP 0 USB_EP_TYPE_BULK_gc 0 (Some out_fifo)) (hwst s)))
    (fwst s) (replicate events (EvHw demo_supply)) [].
Lemma demo_sending_pipe l n : pipe 0x83 0x04 in_fifo out_fifo 0 (demo_sending l n).
Proof.
  split; [done|done|]. apply Forall_replicate. destruct demo_supply_feeds as (f & E & H). exists f.
  split; [done|]. intros h. apply H.
Qed.
Lemma demo_sending_supplied l n : l ≠ [] → supplied 0x83 0x04 in_fifo out_fifo 1 0 l (demo_sending l n).
Proof. intros H. right. split_and!; try done; [apply Z.divide_0_r|]. apply Forall_replicate, demo_supply_feeds. Qed.
