(* ===== verification/RndisProps.v ===== *)
(** * Properties of the RNDIS class driver

    RNDISClassDevice.c: the protocol of the control messages, its safety, what
    the driver takes from the host without a check, and the data path. *)
From S2P Require Import Prelude RingBuffer Machine Endpoint Controller EndpointPoll EndpointStream Cdc Packed Logic EndpointSpec EndpointData Rndis RndisSpec BulkSpec RndisData.

(** C14: A control message in a buffer of sufficient size is processed without
    an access outside the buffer, provided that the offset of a packet filter
    lies in it; the response and the new state of the adapter are those of the
    protocol [rndis_reply] - the response type, length and status of each
    message, the echo of its request identifier, behind the header of the answer
    to a query the value of the object in the table [objects_of] - and the
    structure is well formed again. *)
Theorem rndis_protocol i b t id oid off : rndis_wf i b → message b t id oid off → filter_in_range b →
  ∃ b' st, RNDIS_Device_ProcessRNDISControlMessage i = Some (after b' st i) ∧
    rndis_reply i b id oid off t b' st ∧ rndis_wf (after b' st i) b'.
Proof.
  intros Hwf Hm Hr. destruct (process_served _ _ _ _ _ _ Hwf Hm Hr) as (b' & st & E & L & B & R).
  exists b', st. split_and!; [done|done|]. by eapply reply_wf.
Qed.

(** C25: Whatever messages the host has sent before - of any type and content,
    apart from a packet filter outside the buffer - the next one is processed
    as well, and the response to a message of a known type lies in the buffer,
    so that fetching it reads nothing else. The adapter is never in the data
    state without a packet filter. *)
Theorem rndis_adapter_safe i0 b0 i b m : rndis_wf i0 b0 → reachable i0 b0 i b →
  bytes m → (length m ≤ length b)%nat → filter_in_range (receive m b) →
  (CurrRNDISState (R_State i) = RNDIS_Data_Initialized → CurrPacketFilter (R_State i) ≠ 0) ∧
  ∃ i' b', RNDIS_Device_ProcessRNDISControlMessage (set_buffer (receive m b) i) = Some i' ∧
    MessageBuffer (R_Config i') = Some b' ∧ reachable i0 b0 i' b' ∧
    ∀ t, rd32 (receive m b) o_MessageType = Some t → known t →
      ∃ b'' n, response b' = Some (b'', n) ∧ length b'' = length b' ∧ 0 < n ≤ Z.of_nat (length b'').
Proof.
  intros H0 Hreach Hm Hl Hr. pose proof (reachable_wf _ _ _ _ H0 Hreach) as Hwf. split.
  { intros E. destruct (rn_state _ _ Hwf) as [E'|[E'|[_ ?]]]; [by rewrite E' in E..|done]. }
  pose proof (receive_wf _ _ _ Hwf Hm Hl) as Hwf'. destruct (message_exists _ _ Hwf') as (t & id & oid & off & Hmsg).
  destruct (process_served _ _ _ _ _ _ Hwf' Hmsg Hr) as (b' & st & E & L & B & R).
  exists (after b' st (set_buffer (receive m b) i)), b'. split_and!; [done|done|exact (reach_message _ _ i b m _ b' Hreach Hm Hl Hr E eq_refl)|].
  intros t' Ht' Hk. assert (t' = t) as ->.
  { unfold message, members in Hmsg. apply Forall_cons in Hmsg as [Ht _]. cbn [fst snd] in Ht. congruence. }
  by eapply reply_fits.
Qed.

(** Two lengths are taken from the host unchecked. A packet filter whose
    offset points behind the buffer is read from there, and after a message of
    an unknown type the next response has the length the message claimed,
    which reads behind the buffer when it is larger. *)
Theorem rndis_trusts_host i b t id oid off : rndis_wf i b → message b t id oid off →
  (t = REMOTE_NDIS_SET_MSG → oid = OID_GEN_CURRENT_PACKET_FILTER →
   Z.of_nat (length b) < 8 + off + 4 → 8 + off < 2 ^ 32 → RNDIS_Device_ProcessRNDISControlMessage i = None) ∧
  (∀ n, ¬ known t → rd32 b o_MessageLength = Some n → Z.of_nat (length b) < n < 65536 →
   RNDIS_Device_ProcessRNDISControlMessage i = Some i ∧ response b = Some (b, n) ∧ rd b (n - 1) = None).
Proof.
  intros Hwf Hm. split.
  - intros -> ->. by apply (filter_overrun i b id).
  - intros n. by apply unknown_overrun with (id := id) (oid := oid) (off := off).
Qed.

(** C21: Ethernet frames cross the bulk pipes whole, whatever packets they
    travel in, as long as no bus reset and no request changes the endpoints and
    the host takes the packets it is sent. A frame of up to 1500 bytes is sent behind the header of a packet
    message that states its length, in full packets and one last packet that is not empty. A host
    that sends a header, a frame of the length it states and anything else, in
    packets of any sizes, has the frame delivered with its length; the packet
    the frame ends in is given back, and what follows the frame in that packet
    is lost. A header that states more than 1500 bytes is refused, and the
    endpoint halted. *)
Theorem rndis_frames_cross i bi bo s
    (ai := T_Address (R_DataINEndpoint (R_Config i))) (ao := T_Address (R_DataOUTEndpoint (R_Config i))) :
  in_address ai → out_address ao → bi ≠ bo → adapter_up i s → pipe ai ao bi bo 0 s →
  (∀ data, bytes data → Z.of_nat (length data) ≤ ETHERNET_FRAME_SIZE_MAX → (2 * length data + 92 ≤ length (script s))%nat →
   ∃ hdr ps last s', RNDIS_Device_SendPacket i data (Z.of_nat (length data)) s = Ok ENDPOINT_RWSTREAM_NoError s' ∧
     trace s' = trace s ++ map (OPacket (ai .& 15)) (ps ++ [last]) ∧ Forall full ps ∧ (0 < length last ≤ 64)%nat ∧
     concat ps ++ last = hdr ++ data ∧ packet_message (Z.of_nat (length data)) hdr) ∧
  (∀ hdr data tail junk Buffer P, header_for (Z.of_nat (length data)) hdr → Z.of_nat (length data) ≤ ETHERNET_FRAME_SIZE_MAX →
   supplied ai ao bi bo 1 0 (hdr ++ data ++ tail) s → length junk = 44%nat → (length data ≤ length Buffer)%nat →
   (length data + 47 ≤ length (script s))%nat →
   ∃ s' lost, RNDIS_Device_ReadPacket i junk Buffer P s =
       Ok (ENDPOINT_RWSTREAM_NoError, data ++ drop (length data) Buffer, Z.of_nat (length data)) s' ∧
     out_full ao (hwst s') = false ∧ trace s' = trace s ∧ tail = lost ++ host (hwst s') ∧ (length lost ≤ 64)%nat) ∧
  (∀ hdr n tail junk Buffer P, header_for n hdr → ETHERNET_FRAME_SIZE_MAX < n → is_bulk ao s →
   supplied ai ao bi bo 1 0 (hdr ++ tail) s → length junk = 44%nat → (46 ≤ length (script s))%nat →
   ∃ s', RNDIS_Device_ReadPacket i junk Buffer P s = Ok (RNDIS_ERROR_LOGICAL_CMD_FAILED, Buffer, 0) s' ∧
     halted ao s' = true ∧ trace s' = trace s).
Proof.
  intros Hai Hao Hb Hup Hp. unfold ETHERNET_FRAME_SIZE_MAX. split_and!.
  - intros data Hby Hlen Hev.
    destruct (wp_returns (RNDIS_Device_SendPacket i data (Z.of_nat (length data))) (λ r s', r = ENDPOINT_RWSTREAM_NoError ∧
      ∃ ps last, Forall full ps ∧ (0 < length last ≤ 64)%nat ∧ concat ps ++ last = packet_header (Z.of_nat (length data)) ++ data ∧
        trace s' = trace s ++ map (OPacket (ai .& 15)) (ps ++ [last])) s) as (r & s' & E & -> & ps & last & H1 & H2 & H3 & H4).
    + apply (SendPacket_wp i bi bo Hai Hao); try done; [by apply take_ge|lia|]. intros ps last m s' H1 H2 H3 [] _ _. eauto 10.
    + exists (packet_header (Z.of_nat (length data))), ps, last, s'. split_and!; try done; try lia. apply packet_header_message. lia.
  - intros hdr data tail junk Buffer P [Hh Hn] Hlen Hsup Hj HB Hev.
    destruct (wp_returns (RNDIS_Device_ReadPacket i junk Buffer P) (λ r s',
      r = (ENDPOINT_RWSTREAM_NoError, data ++ drop (length data) Buffer, Z.of_nat (length data)) ∧
      out_full ao (hwst s') = false ∧ trace s' = trace s ∧ ∃ lost, tail = lost ++ host (hwst s') ∧ (length lost ≤ 64)%nat) s)
      as (r & s' & E & -> & H1 & H2 & lost & H3 & H4).
    + apply (ReadPacket_wp i bi bo Hai Hao Hb hdr data tail); try done. intros m s' [] _ _ Hf Hl. by eauto 10.
    + exists s', lost. done.
  - intros hdr n tail junk Buffer P [Hh Hn] Hlen Hbk Hsup Hj Hev.
    destruct (wp_returns (RNDIS_Device_ReadPacket i junk Buffer P) (λ r s',
      r = (RNDIS_ERROR_LOGICAL_CMD_FAILED, Buffer, 0) ∧ halted ao s' = true ∧ trace s' = trace s) s) as (r & s' & E & -> & H1 & H2).
    + apply (ReadPacket_refuses i bi bo Hai Hao Hb hdr tail n); try done.
    + exists s'. done.
Qed.

(** ** Instances *)
Definition demo_endpoint (a : Z) : USB_Endpoint_Table_t := USB_Endpoint_Table a 64 EP_TYPE_BULK 1.
Definition demo_adapter (b : list Z) : USB_ClassInfo_RNDIS_Device_t :=
  RNDIS_Device (RNDIS_Config 0 (demo_endpoint 0x83) (demo_endpoint 0x04) (demo_endpoint 0x82)
    [76; 85; 70; 65] [2; 0; 2; 0; 2; 0] (Some b) 132) (RNDIS_State false RNDIS_Uninitialized 0).

Lemma demo_adapter_wf b : length b = 132%nat → bytes b → rndis_wf (demo_adapter b) b.
Proof.
  intros Hl Hb. split; cbn; try done.
  - by rewrite Hl.
  - split; [done|]. repeat constructor; discriminate.
  - split; [done|]. repeat constructor; discriminate.
  - by left.
Qed.

(** A query for the link speed with request identifier 7. *)
Definition demo_query : list Z :=
  concat (map le32 [REMOTE_NDIS_QUERY_MSG; 28; 7; OID_GEN_LINK_SPEED; 0; 0; 0]) ++ replicate 104 0.
Lemma demo_query_bytes : bytes demo_query.
Proof. apply (bool_decide_unpack (Forall byte demo_query)). vm_compute. exact I. Qed.

Lemma rndis_protocol_witness :
  ∃ b' st, RNDIS_Device_ProcessRNDISControlMessage (demo_adapter demo_query) = Some (after b' st (demo_adapter demo_query)) ∧
    rndis_reply (demo_adapter demo_query) demo_query 7 OID_GEN_LINK_SPEED 0 REMOTE_NDIS_QUERY_MSG b' st ∧
    rndis_wf (after b' st (demo_adapter demo_query)) b'.
Proof.
  apply (rndis_protocol (demo_adapter demo_query) demo_query REMOTE_NDIS_QUERY_MSG 7 OID_GEN_LINK_SPEED 0).
  - apply demo_adapter_wf; [reflexivity|apply demo_query_bytes].
  - repeat constructor.
  - intros H. discriminate H.
Defined.

Lemma rndis_adapter_safe_witness :
  let b := replicate 132 0 in
  ∃ i' b', RNDIS_Device_ProcessRNDISControlMessage (set_buffer (receive demo_query b) (demo_adapter b)) = Some i' ∧
    MessageBuffer (R_Config i') = Some b' ∧ reachable (demo_adapter b) b i' b' ∧
    ∀ t, rd32 (receive demo_query b) o_MessageType = Some t → known t →
      ∃ b'' n, response b' = Some (b'', n) ∧ length b'' = length b' ∧ 0 < n ≤ Z.of_nat (length b'').
Proof.
  apply (rndis_adapter_safe (demo_adapter (replicate 132 0)) (replicate 132 0) (demo_adapter (replicate 132 0)) (replicate 132 0) demo_query).
  - apply demo_adapter_wf; [reflexivity|]. apply Forall_replicate. split; [discriminate|reflexivity].
  - constructor.
  - apply demo_query_bytes.
  - apply Nat.leb_le. reflexivity.
  - intros H. discriminate H.
Defined.

(** A filter 4000 bytes behind the message, and a message of type 9 that
    claims 5000 bytes. *)
Definition demo_far : list Z :=
  concat (map le32 [REMOTE_NDIS_SET_MSG; 28; 7; OID_GEN_CURRENT_PACKET_FILTER; 4; 4000; 0]) ++ replicate 104 0.
Definition demo_long : list Z := concat (map le32 [9; 5000; 7; 0; 0; 0; 0]) ++ replicate 104 0.

Lemma rndis_trusts_host_witness :
  RNDIS_Device_ProcessRNDISControlMessage (demo_adapter demo_far) = None ∧
  response demo_long = Some (demo_long, 5000) ∧ rd demo_long 4999 = None.
Proof.
  split.
  - apply (rndis_trusts_host (demo_adapter demo_far) demo_far REMOTE_NDIS_SET_MSG 7 OID_GEN_CURRENT_PACKET_FILTER 4000);
      try reflexivity.
    + apply demo_adapter_wf; [reflexivity|]. apply (bool_decide_unpack (Forall byte demo_far)). vm_compute. exact I.
    + repeat constructor.
  - apply (rndis_trusts_host (demo_adapter demo_long) demo_long 9 7 0 0); try reflexivity.
    + apply demo_adapter_wf; [reflexivity|]. apply (bool_decide_unpack (Forall byte demo_long)). vm_compute. exact I.
    + repeat constructor.
    + unfold known. apply (bool_decide_unpack (¬ _)). vm_compute. exact I.
    + split; reflexivity.
Defined.

(** An adapter that is up, sending and receiving a frame of 100 bytes. *)
Definition demo_up : USB_ClassInfo_RNDIS_Device_t :=
  set_state (RNDIS_State false RNDIS_Data_Initialized 1) (demo_adapter []).
Definition demo_frame : list Z := replicate 100 0x55.

Lemma rndis_frames_cross_witness :
  (∃ hdr ps last s', RNDIS_Device_SendPacket demo_up demo_frame 100 (demo_bulk [] 292) = Ok 0 s' ∧
     trace s' = map (OPacket 3) (ps ++ [last]) ∧ concat ps ++ last = hdr ++ demo_frame ∧ packet_message 100 hdr) ∧
  (∃ s', RNDIS_Device_ReadPacket demo_up (replicate 44 0) (replicate 1500 0) 0 (demo_sending (packet_header 100 ++ demo_frame) 147) =
     Ok (0, demo_frame ++ replicate 1400 0, 100) s' ∧ host (hwst s') = []) ∧
  (∃ s', RNDIS_Device_ReadPacket demo_up (replicate 44 0) [] 0 (demo_sending (packet_header 1501) 46) =
     Ok (RNDIS_ERROR_LOGICAL_CMD_FAILED, [], 0) s' ∧ halted 0x04 s' = true).
Proof.
  split_and!.
  - destruct (rndis_frames_cross demo_up in_fifo out_fifo (demo_bulk [] 292)) as (H & _ & _);
      [done..|split; reflexivity|apply demo_bulk_pipe|].
    destruct (H demo_frame) as (hdr & ps & last & s' & E & Ht & _ & _ & Hc & Hm);
      [apply Forall_replicate; split; [discriminate|reflexivity]|discriminate|apply Nat.leb_le; reflexivity|].
    exists hdr, ps, last, s'. split; [exact E|]. split; [exact Ht|]. split; [exact Hc|exact Hm].
  - destruct (rndis_frames_cross demo_up in_fifo out_fifo (demo_sending (packet_header 100 ++ demo_frame) 147)) as (_ & H & _);
      [done..|split; reflexivity|apply demo_sending_pipe|].
    destruct (H (packet_header 100) demo_frame [] (replicate 44 0) (replicate 1500 0) 0) as (s' & lost & E & _ & _ & Hl & _).
    + split; reflexivity.
    + discriminate.
    + rewrite app_nil_r. apply demo_sending_supplied. discriminate.
    + reflexivity.
    + apply Nat.leb_le. reflexivity.
    + apply Nat.leb_le. reflexivity.
    + exists s'. split; [exact E|]. symmetry in Hl. apply app_nil in Hl as [_ Hl]. exact Hl.
  - destruct (rndis_frames_cross demo_up in_fifo out_fifo (demo_sending (packet_header 1501) 46)) as (_ & _ & H);
      [done..|split; reflexivity|apply demo_sending_pipe|].
    destruct (H (packet_header 1501) 1501 [] (replicate 44 0) [] 0) as (s' & E & Hh & _).
    + split; reflexivity.
    + reflexivity.
    + reflexivity.
    + rewrite app_nil_r. apply demo_sending_supplied. discriminate.
    + reflexivity.
    + apply Nat.leb_le. reflexivity.
    + exists s'. split; [exact E|exact Hh].
Defined.
