(* ===== verification/MassStorage.v ===== *)
(** * The Mass Storage class driver

    LUFA/Drivers/USB/Class/Device/MassStorageClassDevice.c with the wrappers of
    Class/Common/MassStorageClassCommon.h. The interface structure is a record
    threaded through the functions; the two wrappers in it are the lists of
    their bytes. The application's [CALLBACK_MS_Device_SCSICommandReceived] is
    a parameter, and may change the structure and variables of its own, of any
    type. INTERRUPT_CONTROL_ENDPOINT is
    defined in this project, so [MS_Device_ReturnCommandStatus] does not run
    [USB_USBTask] while it waits; on the XMEGA no interrupt handles control
    requests either, so nothing but the callback sets [IsMassStoreReset] while
    [MS_Device_USBTask] runs. *)
From S2P Require Import Prelude RingBuffer Machine Endpoint Controller EndpointPoll EndpointStream Cdc Packed.

(** ** MassStorageClassCommon.h *)
Definition MS_CBW_SIGNATURE : Z := 0x43425355.
Definition MS_CSW_SIGNATURE : Z := 0x53425355.
Definition MS_COMMAND_DIR_DATA_IN : Z := 0x80.
Definition MS_REQ_GetMaxLUN : Z := 0xFE.
Definition MS_REQ_MassStorageReset : Z := 0xFF.
Definition MS_SCSI_COMMAND_Pass : Z := 0.
Definition MS_SCSI_COMMAND_Fail : Z := 1.

(** Sizes and offsets of the packed wrappers. *)
Definition sizeof_MS_CommandBlockWrapper : Z := 31.
Definition sizeof_MS_CommandStatusWrapper : Z := 13.
Definition cbw_Signature : Z := 0.
Definition cbw_Tag : Z := 4.
Definition cbw_DataTransferLength : Z := 8.
Definition cbw_Flags : Z := 12.
Definition cbw_LUN : Z := 13.
Definition cbw_SCSICommandLength : Z := 14.
Definition cbw_SCSICommandData : Z := 15.
Definition csw_Signature : Z := 0.
Definition csw_Tag : Z := 4.
Definition csw_DataTransferResidue : Z := 8.
Definition csw_Status : Z := 12.

(** ** MassStorageClassDevice.h *)
Record MS_Config_t := MS_Config {
  MS_InterfaceNumber : Z;
  MS_DataINEndpoint : USB_Endpoint_Table_t;
  MS_DataOUTEndpoint : USB_Endpoint_Table_t;
  TotalLUNs : Z }.
Record MS_State_t := MS_State {
  CommandBlock : list Z;
  CommandStatus : list Z;
  IsMassStoreReset : bool }.
Record USB_ClassInfo_MS_Device_t := MS_Device {
  MS_Cfg : MS_Config_t;
  MS_St : MS_State_t }.

Definition set_CommandBlock (b : list Z) (i : USB_ClassInfo_MS_Device_t) : USB_ClassInfo_MS_Device_t :=
  MS_Device (MS_Cfg i) (MS_State b (CommandStatus (MS_St i)) (IsMassStoreReset (MS_St i))).
Definition set_CommandStatus (b : list Z) (i : USB_ClassInfo_MS_Device_t) : USB_ClassInfo_MS_Device_t :=
  MS_Device (MS_Cfg i) (MS_State (CommandBlock (MS_St i)) b (IsMassStoreReset (MS_St i))).
Definition set_IsMassStoreReset (v : bool) (i : USB_ClassInfo_MS_Device_t) : USB_ClassInfo_MS_Device_t :=
  MS_Device (MS_Cfg i) (MS_State (CommandBlock (MS_St i)) (CommandStatus (MS_St i)) v).

(** ** Control requests *)
Definition MS_Device_ProcessControlRequest (i : USB_ClassInfo_MS_Device_t) : M USB_ClassInfo_MS_Device_t :=
  setup ← Endpoint_IsSETUPReceived;
  if negb setup then mret i
  else
    r ← get_fw ControlRequest;
    if negb (wIndex r =? MS_InterfaceNumber (MS_Cfg i)) then mret i
    else if bRequest r =? MS_REQ_MassStorageReset then
      if bmRequestType r =? class_out then
        Endpoint_ClearSETUP;;
        Endpoint_ClearStatusStage;;
        mret (set_IsMassStoreReset true i)
      else mret i
    else if bRequest r =? MS_REQ_GetMaxLUN then
      if bmRequestType r =? class_in then
        Endpoint_ClearSETUP;;
        while_ (b ← Endpoint_IsINReady; mret (negb b)) (mret tt);;
        Endpoint_Write_8 (u8 (TotalLUNs (MS_Cfg i) - 1));;
        Endpoint_ClearIN;;
        Endpoint_ClearStatusStage;;
        mret i
      else mret i
    else mret i.

Definition MS_Device_ConfigureEndpoints (i : USB_ClassInfo_MS_Device_t) : M (bool * USB_ClassInfo_MS_Device_t) :=
  let c := MS_Cfg i in
  let c := MS_Config (MS_InterfaceNumber c) (with_type EP_TYPE_BULK (MS_DataINEndpoint c))
    (with_type EP_TYPE_BULK (MS_DataOUTEndpoint c)) (TotalLUNs c) in
  let i := MS_Device c (MS_State (replicate 31 0) (replicate 13 0) false) in
  ok ← Endpoint_ConfigureEndpointTable [MS_DataINEndpoint c];
  if negb ok then mret (false, i)
  else
    ok ← Endpoint_ConfigureEndpointTable [MS_DataOUTEndpoint c];
    if negb ok then mret (false, i) else mret (true, i).

(** ** The command block *)

(** [BytesProcessed = 0; while (Endpoint_Read_Stream_LE(Buffer, Length,
    &BytesProcessed) == ENDPOINT_RWSTREAM_IncompleteTransfer) { if
    (IsMassStoreReset) return false; }], answering whether the loop was left by
    its condition, and the buffer. *)
Definition read_all (reset : bool) (Buffer : list Z) (Length : Z) : M (bool * list Z) :=
  iter 0 (λ v : list Z * option Z,
    r ← Endpoint_Read_Stream_LE v.1 Length v.2;
    if r.1.1 =? ENDPOINT_RWSTREAM_IncompleteTransfer then
      if reset then mret (inr (false, r.1.2)) else mret (inl (r.1.2, r.2))
    else mret (inr (true, r.1.2))) (Buffer, Some 0).

(** The condition under which the command block is refused. *)
Definition cbw_invalid (c : MS_Config_t) (b : list Z) : option bool :=
  sig ← rd32 b cbw_Signature; lun ← rd b cbw_LUN; fl ← rd b cbw_Flags; n ← rd b cbw_SCSICommandLength;
  Some (negb (sig =? MS_CBW_SIGNATURE) || (lun >=? TotalLUNs c) || tst fl 0x1F || (n =? 0) || (n >? 16)).

Definition MS_Device_ReadInCommandBlock (i : USB_ClassInfo_MS_Device_t) : M (bool * USB_ClassInfo_MS_Device_t) :=
  let reset := IsMassStoreReset (MS_St i) in
  Endpoint_SelectEndpoint (T_Address (MS_DataOUTEndpoint (MS_Cfg i)));;
  v ← read_all reset (CommandBlock (MS_St i)) (sizeof_MS_CommandBlockWrapper - 16);
  let i := set_CommandBlock v.2 i in
  if negb v.1 then mret (false, i)
  else
    bad ← lift (cbw_invalid (MS_Cfg i) (CommandBlock (MS_St i)));
    if (bad : bool) then
      Endpoint_StallTransaction;;
      Endpoint_SelectEndpoint (T_Address (MS_DataINEndpoint (MS_Cfg i)));;
      Endpoint_StallTransaction;;
      mret (false, i)
    else
      let b := CommandBlock (MS_St i) in
      n ← lift (rd b cbw_SCSICommandLength);
      v ← read_all reset (drop (Z.to_nat cbw_SCSICommandData) b) n;
      let i := set_CommandBlock (take (Z.to_nat cbw_SCSICommandData) b ++ v.2) i in
      if negb v.1 then mret (false, i)
      else Endpoint_ClearOUT;; mret (true, i).

(** ** The command status *)

(** [while (Endpoint_IsStalled()) { if (IsMassStoreReset) return; }], answering
    whether the loop was left by its condition. *)
Definition while_stalled (reset : bool) : M bool :=
  iter 0 (λ _ : unit,
    poll;;
    b ← Endpoint_IsStalled;
    if negb b then mret (inr true) else if reset then mret (inr false) else mret (inl tt)) tt.

(** The loop that sends the status wrapper, as [read_all]. *)
Definition write_all (reset : bool) (Buffer : list Z) (Length : Z) : M bool :=
  iter 0 (λ p : option Z,
    r ← Endpoint_Write_Stream_LE (in_memory Buffer) Length p;
    if r.1.1 =? ENDPOINT_RWSTREAM_IncompleteTransfer then
      if reset then mret (inr false) else mret (inl r.2)
    else mret (inr true)) (Some 0).

Definition MS_Device_ReturnCommandStatus (i : USB_ClassInfo_MS_Device_t) : M unit :=
  let reset := IsMassStoreReset (MS_St i) in
  Endpoint_SelectEndpoint (T_Address (MS_DataOUTEndpoint (MS_Cfg i)));;
  go ← while_stalled reset;
  if negb go then mret tt
  else
    Endpoint_SelectEndpoint (T_Address (MS_DataINEndpoint (MS_Cfg i)));;
    go ← while_stalled reset;
    if negb go then mret tt
    else
      go ← write_all reset (CommandStatus (MS_St i)) sizeof_MS_CommandStatusWrapper;
      if negb go then mret tt else Endpoint_ClearIN.

(** The assignments to [CommandStatus]. *)
Definition fill_status (ok : bool) (cb cs : list Z) : option (list Z) :=
  cs ← wr cs csw_Status (if ok then MS_SCSI_COMMAND_Pass else MS_SCSI_COMMAND_Fail);
  cs ← wr32 cs csw_Signature MS_CSW_SIGNATURE;
  tag ← rd32 cb cbw_Tag;
  cs ← wr32 cs csw_Tag tag;
  n ← rd32 cb cbw_DataTransferLength;
  wr32 cs csw_DataTransferResidue n.

Section Task.
Context {V : Type}.
Context (CALLBACK_MS_Device_SCSICommandReceived : USB_ClassInfo_MS_Device_t → V → M (bool * USB_ClassInfo_MS_Device_t * V)).

(** The body of [if (MS_Device_ReadInCommandBlock(...))]. *)
Definition serve_command (i : USB_ClassInfo_MS_Device_t) (vars : V) : M (USB_ClassInfo_MS_Device_t * V) :=
  fl ← lift (rd (CommandBlock (MS_St i)) cbw_Flags);
  when (tst fl MS_COMMAND_DIR_DATA_IN) (Endpoint_SelectEndpoint (T_Address (MS_DataINEndpoint (MS_Cfg i))));;
  v ← CALLBACK_MS_Device_SCSICommandReceived i vars;
  let SCSICommandResult : bool := v.1.1 in
  let i := v.1.2 in
  cs ← lift (fill_status SCSICommandResult (CommandBlock (MS_St i)) (CommandStatus (MS_St i)));
  let i := set_CommandStatus cs i in
  n ← lift (rd32 cs csw_DataTransferResidue);
  when (negb SCSICommandResult && negb (n =? 0)) Endpoint_StallTransaction;;
  MS_Device_ReturnCommandStatus i;;
  mret (i, v.2).

(** The body of [if (MSInterfaceInfo->State.IsMassStoreReset)]. *)
Definition reset_endpoints (i : USB_ClassInfo_MS_Device_t) : M USB_ClassInfo_MS_Device_t :=
  let out := T_Address (MS_DataOUTEndpoint (MS_Cfg i)) in
  let inn := T_Address (MS_DataINEndpoint (MS_Cfg i)) in
  Endpoint_ResetEndpoint out;;
  Endpoint_ResetEndpoint inn;;
  Endpoint_SelectEndpoint out;;
  Endpoint_ClearStall;;
  Endpoint_ResetDataToggle;;
  Endpoint_SelectEndpoint inn;;
  Endpoint_ClearStall;;
  Endpoint_ResetDataToggle;;
  mret (set_IsMassStoreReset false i).

Definition MS_Device_USBTask (i : USB_ClassInfo_MS_Device_t) (vars : V) : M (USB_ClassInfo_MS_Device_t * V) :=
  d ← get_fw DeviceState;
  if negb (d =? DEVICE_STATE_Configured) then mret (i, vars)
  else
    Endpoint_SelectEndpoint (T_Address (MS_DataOUTEndpoint (MS_Cfg i)));;
    out ← Endpoint_IsOUTReceived;
    w ← (if (out : bool) then
           v ← MS_Device_ReadInCommandBlock i;
           if (v.1 : bool) then serve_command v.2 vars else mret (v.2, vars)
         else mret (i, vars));
    if IsMassStoreReset (MS_St w.1) then i ← reset_endpoints w.1; mret (i, w.2) else mret w.
End Task.
