(* ===== verification/MassSpec.v ===== *)
(** * Mass storage transactions

    The pieces of [MS_Device_USBTask] on a pair of bulk endpoints: reading in a
    command block, refusing a bad one, waiting for the endpoints to be released
    and returning the status. *)
From S2P Require Import Prelude RingBuffer Machine Endpoint Controller EndpointPoll EndpointStream Cdc Packed Logic EndpointSpec EndpointData BulkSpec MassStorage.

#[local] Arguments ep_of : simpl never.

(** ** The command block *)
Section Transaction.
Context (c : MS_Config_t) (bi bo : buffer).
Abbreviation ai := (T_Address (MS_DataINEndpoint c)).
Abbreviation ao := (T_Address (MS_DataOUTEndpoint c)).
Context (Hai : in_address ai) (Hao : out_address ao) (Hb : bi ≠ bo).
Abbreviation pipe := (pipe ai ao bi bo).
Abbreviation holding := (holding ao bo).
Abbreviation later := (later ai ao).

Lemma wp_read_all pkt k n Buffer Q B s : SelectedEndpoint (fwst s) = ao → pipe 0 s → holding pkt k s → 0 ≤ k →
  k + Z.of_nat n ≤ Z.of_nat (length pkt) → (n ≤ length Buffer)%nat → script s ≠ [] →
  (∀ s', pipe 0 s' → holding pkt (k + Z.of_nat n) s' → later 1 s s' → selected_is ao s' →
     Q (true, take n (drop (Z.to_nat k) pkt) ++ drop n Buffer) s') →
  wp (read_all false Buffer (Z.of_nat n)) Q B s.
Proof using Hai Hao Hb.
  intros Ha Hp Hh Hk Hn HB Hs HQ. unfold read_all.
  apply (wp_iter_poll (λ v s1, s1 = s ∧ v = (Buffer, Some 0))); [|done]. intros v s1 [-> ->]. cbn [fst snd].
  apply wp_bind, (wp_Read_Stream ai ao bi bo Hai Hao Hb 0 pkt k); try done; [by right|].
  intros s' H1 H2 H3 H4 _. by apply HQ.
Qed.

(** The fields the driver checks are in the first fifteen bytes. *)
Lemma cbw_invalid_head (pkt old : list Z) : (15 ≤ length pkt)%nat → cbw_invalid c (take 15 pkt ++ old) = cbw_invalid c pkt.
Proof. intros H. do 15 (destruct pkt as [|? pkt]; [cbn in H; lia|]). reflexivity. Qed.
Lemma cbw_length_head (pkt old : list Z) : (15 ≤ length pkt)%nat →
  rd (take 15 pkt ++ old) cbw_SCSICommandLength = rd pkt cbw_SCSICommandLength.
Proof. intros H. do 15 (destruct pkt as [|? pkt]; [cbn in H; lia|]). reflexivity. Qed.

Lemma cbw_valid_length (pkt : list Z) : bytes pkt → cbw_invalid c pkt = Some false →
  ∃ n : nat, rd pkt cbw_SCSICommandLength = Some (Z.of_nat n) ∧ (1 ≤ n ≤ 16)%nat.
Proof.
  unfold cbw_invalid. intros Hby H. apply bind_Some in H as (sig & _ & H). apply bind_Some in H as (l & _ & H).
  apply bind_Some in H as (f & _ & H). apply bind_Some in H as (n & Hn & H). injection H as H.
  repeat apply orb_false_iff in H as [H ?]. exists (Z.to_nat n).
  assert (n ≠ 0 ∧ n ≤ 16 ∧ 0 ≤ n) as (? & ? & ?); [|rewrite Z2Nat.id by lia; split; [done|lia]].
  apply rd_Some in Hn as [_ Hn]. unfold bytes in Hby. pose proof (Forall_lookup_1 _ _ _ _ Hby Hn) as Hbn. unfold byte in Hbn. lia.
Qed.

(** What the command block holds after a packet has been read into it. *)
Definition block_of (pkt old : list Z) : list Z :=
  let n := match rd pkt cbw_SCSICommandLength with Some n => (15 + Z.to_nat n)%nat | None => 15%nat end in
  take n pkt ++ drop n old.

(** ** The command status *)
Lemma wp_while_free a Q B s : selected_is a s → in_table (ep_of a) = true → pipe 0 s → script s ≠ [] →
  a = ai ∨ a = ao → halted a s = false →
  (∀ s', pipe 0 s' → later 1 s s' → selected_is a s' → Q true s') →
  wp (while_stalled false) Q B s.
Proof.
  intros (Hs1 & Hs2 & Hs3) Hin Hp Hs Ha Hh HQ. unfold while_stalled.
  apply (wp_iter_poll (λ _ s1, s1 = s)); [|done]. intros _ s1 ->.
  apply wp_bind, (wp_pipe_poll ai ao bi bo 0); [done|done|]. intros s1 Hp1 Hl1 Hfw _.
  unfold Endpoint_IsStalled. apply wp_bind, wp_bind. eapply wp_Ok; [by apply (get_handle_eq _ (ep_of a)); [rewrite Hfw|]|].
  change (eps _ _ _) with (entry a s1). wsteps.
  assert (EP_CTRL (entry a s1) = EP_CTRL (entry a s)) as -> by (destruct Hl1, Ha as [-> | ->]; done).
  unfold halted in Hh. rewrite Hh. cbn [negb]. wsteps. apply HQ; [done|done|]. unfold selected_is. by rewrite Hfw.
Qed.

(** The events have run out, with nothing sent and no endpoint halted or
    released. *)
Record out_of_events (s s' : mach) : Prop := {
  oe_trace : trace s' = trace s;
  oe_script : script s' = [];
  oe_in : EP_CTRL (entry ai s') = EP_CTRL (entry ai s);
  oe_out : EP_CTRL (entry ao s') = EP_CTRL (entry ao s) }.

(** A halted endpoint is waited for as long as there are events that leave it
    halted. *)
Lemma wp_while_halted a Q s0 s : selected_is a s → in_table (ep_of a) = true → pipe 0 s →
  a = ai ∨ a = ao → halted a s = true → trace s = trace s0 →
  EP_CTRL (entry ai s) = EP_CTRL (entry ai s0) → EP_CTRL (entry ao s) = EP_CTRL (entry ao s0) →
  wp (while_stalled false) Q (out_of_events s0) s.
Proof.
  intros Hsel Hin Hp Ha Hh Ht Hi Ho. unfold while_stalled.
  apply (wp_iter_poll (λ _ s1, selected_is a s1 ∧ pipe 0 s1 ∧ halted a s1 = true ∧ trace s1 = trace s0 ∧
    EP_CTRL (entry ai s1) = EP_CTRL (entry ai s0) ∧ EP_CTRL (entry ao s1) = EP_CTRL (entry ao s0))); [|done].
  intros _ s1 ((Hs1 & Hs2 & Hs3) & Hp1 & Hh1 & Ht1 & Hi1 & Ho1). apply wp_bind.
  destruct (decide (script s1 = [])) as [E|E]; [apply wp_poll; by rewrite E|].
  apply (wp_pipe_poll ai ao bi bo 0); [done|done|]. intros s2 Hp2 Hl2 Hfw _.
  unfold Endpoint_IsStalled. apply wp_bind, wp_bind. eapply wp_Ok; [by apply (get_handle_eq _ (ep_of a)); [rewrite Hfw|]|].
  change (eps _ _ _) with (entry a s2). wsteps.
  assert (halted a s2 = halted a s1) as Eh by (unfold halted; by destruct Hl2, Ha as [-> | ->]; rewrite ?la_in, ?la_out).
  unfold halted in Hh1, Eh. rewrite Eh, Hh1. cbn [negb]. wsteps. destruct Hl2. split; [|lia].
  unfold selected_is. rewrite Hfw. split_and!; try done; [unfold halted; congruence|congruence..].
Qed.

Lemma wp_write_all data Q B s : SelectedEndpoint (fwst s) = ai → pipe 0 s → (length data ≤ 64)%nat → bytes data → script s ≠ [] →
  (∀ s', pipe (Z.of_nat (length data)) s' → later 1 s s' → selected_is ai s' →
     bank bi (Z.of_nat (length data)) s' = data → Q true s') →
  wp (write_all false data (Z.of_nat (length data))) Q B s.
Proof using Hai.
  intros Ha Hp Hl Hby Hs HQ. unfold write_all.
  apply (wp_iter_poll (λ v s1, s1 = s ∧ v = Some 0)); [|done]. intros v s1 [-> ->].
  apply wp_bind, (wp_Write_Stream ai ao bi bo Hai (in_memory data) 0); [apply in_memory_gives_all|done|done|lia|lia|done|by right|done|]. exact HQ.
Qed.

(** The wrapper: signature, the tag of the command, what was not transferred,
    and the result. *)
Definition csw (ok : bool) (tag residue : Z) : list Z :=
  le32 MS_CSW_SIGNATURE ++ le32 tag ++ le32 residue ++ [if ok then MS_SCSI_COMMAND_Pass else MS_SCSI_COMMAND_Fail].

Lemma fill_status_csw ok cb cs tag n : length cs = 13%nat → rd32 cb cbw_Tag = Some tag →
  rd32 cb cbw_DataTransferLength = Some n → fill_status ok cb cs = Some (csw ok tag n).
Proof.
  intros Hl Ht Hn. do 13 (destruct cs as [|? cs]; [done|]). destruct cs; [|done].
  unfold fill_status. cbn -[rd32 le32]. rewrite Ht. cbn -[rd32 le32]. rewrite Hn. reflexivity.
Qed.

Lemma csw_residue ok tag n : 0 ≤ n < 2 ^ 32 → rd32 (csw ok tag n) csw_DataTransferResidue = Some n.
Proof.
  intros Hn. rewrite rd32_block by done. change (take 4 _) with (le32 n). rewrite rd32_le32. f_equal.
  unfold u32. by apply Z.mod_small.
Qed.

Lemma csw_bytes ok tag n : bytes (csw ok tag n).
Proof.
  unfold csw. repeat (apply Forall_app; split); try apply le32_bytes.
  destruct ok; (constructor; [split; [discriminate|reflexivity]|constructor]).
Qed.

Definition status_sent (cs : list Z) (s s' : mach) : Prop := trace s' = trace s ++ [OPacket (ai .& 15) cs].

Lemma wp_ReturnCommandStatus ok tag n i Q B s : MS_Cfg i = c → IsMassStoreReset (MS_St i) = false →
  CommandStatus (MS_St i) = csw ok tag n → pipe 0 s → (3 ≤ length (script s))%nat →
  halted ai s = false → halted ao s = false →
  (∀ s', pipe 0 s' → status_sent (csw ok tag n) s s' → length (script s) = (3 + length (script s'))%nat → Q tt s') →
  wp (MS_Device_ReturnCommandStatus i) Q B s.
Proof using Hai Hao.
  intros Hc Hr Hcs Hp Hs Hhi Hho HQ. unfold MS_Device_ReturnCommandStatus. rewrite Hc, Hr, Hcs. wsteps.
  apply (wp_while_free ao); [done|apply Hao|by apply pipe_sel|apply (script_ne s); lia|by right|done|].
  intros s1 Hp1 Hl1 _. apply later_sel in Hl1. pose proof (la_script _ _ _ _ _ Hl1) as L1. cbn [negb]. wsteps.
  apply (wp_while_free ai); [done|apply Hai|by apply pipe_sel|apply (script_ne s1); lia|by left| |].
  { unfold halted in *. change (entry ai (sel ai s1)) with (entry ai s1). by rewrite (la_in _ _ _ _ _ Hl1). }
  intros s2 Hp2 Hl2 Hs2. apply later_sel in Hl2. pose proof (la_script _ _ _ _ _ Hl2) as L2. cbn [negb].
  apply wp_bind. change sizeof_MS_CommandStatusWrapper with (Z.of_nat (length (csw ok tag n))).
  apply wp_write_all; [apply Hs2|done|cbn; lia|apply csw_bytes|apply script_ne; lia|].
  intros s3 Hp3 Hl3 Hs3 Hbk. cbn [negb].
  apply (wp_ClearIN_pipe ai ao bi bo Hai Hao (Z.of_nat (length (csw ok tag n)))); [done|done|].
  intros s4 Hp4 Ht4 Hs4 _ _ _ _ _. destruct Hl1, Hl2, Hl3. apply HQ; [done| |rewrite Hs4; lia].
  unfold status_sent. rewrite Ht4, Hbk. congruence.
Qed.

(** While one of the endpoints stays halted the status is not sent. *)
Lemma wp_ReturnCommandStatus_halted i Q s : MS_Cfg i = c → IsMassStoreReset (MS_St i) = false →
  pipe 0 s → halted ai s = true ∨ halted ao s = true →
  wp (MS_Device_ReturnCommandStatus i) Q (out_of_events s) s.
Proof using Hai Hao.
  intros Hc Hr Hp Hh. unfold MS_Device_ReturnCommandStatus. rewrite Hc, Hr. wsteps.
  destruct (halted ao s) eqn:Eo.
  { apply (wp_while_halted ao); [done|apply Hao|by apply pipe_sel|by right|done..]. }
  destruct Hh as [Ei|]; [|done].
  destruct (decide (script s = [])) as [E|E].
  { unfold while_stalled. apply (wp_iter_poll (λ _ s1, s1 = sel ao s)); [|done]. intros _ s1 ->.
    apply wp_bind, wp_poll. cbn. by rewrite E. }
  apply (wp_while_free ao); [done|apply Hao|by apply pipe_sel|done|by right|done|].
  intros s1 Hp1 Hl1 _. apply later_sel in Hl1. destruct Hl1. cbn [negb]. wsteps.
  apply (wp_while_halted ai); [done|apply Hai|by apply pipe_sel|by left| |done..].
  unfold halted in *. change (entry ai (sel ai s1)) with (entry ai s1). by rewrite la_in.
Qed.

Context (i : USB_ClassInfo_MS_Device_t) (Hc : MS_Cfg i = c) (Hreset : IsMassStoreReset (MS_St i) = false).
Context (Hblock : length (CommandBlock (MS_St i)) = 31%nat).
Context (pkt : list Z) (Hlen : length pkt = 31%nat) (Hbytes : bytes pkt).

Lemma wp_ReadIn_valid Q B s : pipe 0 s → holding pkt 0 s → (2 ≤ length (script s))%nat → cbw_invalid c pkt = Some false →
  (∀ s', pipe 0 s' → later 2 s s' → selected_is ao s' → FIFO_Position (fifo ao s') = 0 →
     tst (EP_STATUS (entry ao s')) USB_EP_TRNCOMPL0_bm = false →
     Q (true, set_CommandBlock (block_of pkt (CommandBlock (MS_St i))) i) s') →
  wp (MS_Device_ReadInCommandBlock i) Q B s.
Proof using Hai Hao Hb Hc Hreset Hblock Hlen Hbytes.
  intros Hp Hh Hs Hv HQ. destruct (cbw_valid_length pkt Hbytes Hv) as (n & Hn & Hn16).
  unfold MS_Device_ReadInCommandBlock. rewrite Hc, Hreset. wsteps.
  apply (wp_read_all pkt 0 15); [done|by apply pipe_sel|by apply holding_sel|lia|lia|lia|eapply (script_ne s); lia|].
  intros s1 Hp1 Hh1 Hl1 Hs1. apply later_sel in Hl1. cbn [negb fst snd set_CommandBlock MS_Cfg MS_St CommandBlock].
  rewrite Hc, drop_0, cbw_invalid_head, Hv by lia. cbn [lift]. wsteps.
  rewrite cbw_length_head, Hn by lia. cbn [lift]. wsteps. change (Z.to_nat cbw_SCSICommandData) with 15%nat.
  pose proof (la_script _ _ _ _ _ Hl1) as L1.
  assert (drop 15 (take 15 pkt ++ drop 15 (CommandBlock (MS_St i))) = drop 15 (CommandBlock (MS_St i))) as ->.
  { rewrite drop_app_ge, length_take, drop_drop by (rewrite length_take; lia). f_equal. lia. }
  apply (wp_read_all pkt 15 n); [apply Hs1|done|done|lia|lia|rewrite length_drop; lia|apply script_ne; lia|].
  intros s2 Hp2 Hh2 Hl2 Hs2. cbn [negb fst snd].
  apply wp_bind, (wp_ClearOUT_pipe ai ao bi bo Hai Hao 0); [done|done|]. intros s3 Hp3 Hl3 Hs3 Hpos Hfull. wsteps.
  replace (take 15 (take 15 pkt ++ drop 15 (CommandBlock (MS_St i))) ++
      take n (drop (Z.to_nat 15) pkt) ++ drop n (drop 15 (CommandBlock (MS_St i))))
    with (block_of pkt (CommandBlock (MS_St i))).
  - apply HQ; try done. exact (later_trans _ _ 1 1 _ _ _ Hl1 (later_trans _ _ 1 0 _ _ _ Hl2 Hl3)).
  - unfold block_of. rewrite Hn, Nat2Z.id, take_app_le, take_take, drop_drop, app_assoc by (rewrite length_take; lia).
    f_equal. rewrite Nat.min_id. symmetry. apply take_take_drop.
Qed.

(** A bad block halts both endpoints and is not acted on. *)
Lemma wp_ReadIn_invalid Q B s : pipe 0 s → holding pkt 0 s → script s ≠ [] → cbw_invalid c pkt = Some true →
  is_bulk ai s → is_bulk ao s →
  (∀ s', trace s' = trace s → halted ai s' = true → halted ao s' = true →
     Q (false, set_CommandBlock (take 15 pkt ++ drop 15 (CommandBlock (MS_St i))) i) s') →
  wp (MS_Device_ReadInCommandBlock i) Q B s.
Proof using Hai Hao Hb Hc Hreset Hblock Hlen.
  intros Hp Hh Hs Hv Hbi Hbo HQ. unfold MS_Device_ReadInCommandBlock. rewrite Hc, Hreset. wsteps.
  apply (wp_read_all pkt 0 15); [done|by apply pipe_sel|by apply holding_sel|lia|lia|lia|done|].
  intros s1 Hp1 Hh1 Hl1 Hs1. apply later_sel in Hl1. cbn [negb fst snd set_CommandBlock MS_Cfg MS_St CommandBlock].
  rewrite Hc, drop_0, cbw_invalid_head, Hv by lia. cbn [lift]. wsteps.
  destruct Hl1. pose proof (ends_apart ai ao Hai Hao) as Hne.
  apply (wp_Stall ao); [done|apply Hao|by unfold is_bulk; rewrite la_out|]. wsteps.
  apply (wp_Stall ai); [done|apply Hai| |].
  - unfold is_bulk. change (entry ai (sel ai ?s)) with (entry ai s). rewrite halt_off by done. by rewrite la_in.
  - wsteps. apply HQ; [done|apply halted_halt|]. apply halted_stays. apply halted_halt.
Qed.
(** ** The task *)

(** The driver has nothing to do but to serve the command in [pkt]. *)
Record ms_ready (s : mach) : Prop := {
  mr_pipe : pipe 0 s;
  mr_holding : holding pkt 0 s;
  mr_state : DeviceState (fwst s) = DEVICE_STATE_Configured;
  mr_bulk_in : is_bulk ai s;
  mr_bulk_out : is_bulk ao s }.

(** What the application makes of the command [i1]: it takes at most [K]
    events, leaves the endpoints as the driver needs them and keeps the tag. *)
Record answered (i1 : USB_ClassInfo_MS_Device_t) (i2 : USB_ClassInfo_MS_Device_t) (s2 : mach) : Prop := {
  an_cfg : MS_Cfg i2 = c;
  an_reset : IsMassStoreReset (MS_St i2) = false;
  an_status : length (CommandStatus (MS_St i2)) = 13%nat;
  an_block : length (CommandBlock (MS_St i2)) = 31%nat ∧ bytes (CommandBlock (MS_St i2));
  an_tag : rd32 (CommandBlock (MS_St i2)) cbw_Tag = rd32 (CommandBlock (MS_St i1)) cbw_Tag;
  an_pipe : pipe 0 s2;
  an_free : halted ai s2 = false ∧ halted ao s2 = false;
  an_bulk : is_bulk ai s2 ∧ is_bulk ao s2;
  an_sel : selected_is ai s2 ∨ selected_is ao s2 }.
(** The endpoint the command selects. *)
Definition direction (i1 : USB_ClassInfo_MS_Device_t) : Z :=
  match rd (CommandBlock (MS_St i1)) cbw_Flags with Some fl => if tst fl MS_COMMAND_DIR_DATA_IN then ai else ao | None => ao end.
(** The state in which the application is called, with [K] events to come. *)
Record callable (K : nat) (i1 : USB_ClassInfo_MS_Device_t) (s1 : mach) : Prop := {
  ca_pipe : pipe 0 s1;
  ca_state : DeviceState (fwst s1) = DEVICE_STATE_Configured;
  ca_bulk : is_bulk ai s1 ∧ is_bulk ao s1;
  ca_free : halted ai s1 = false ∧ halted ao s1 = false;
  ca_sel : selected_is (direction i1) s1;
  ca_script : (K ≤ length (script s1))%nat }.
Definition application {V} (K : nat) (cb : USB_ClassInfo_MS_Device_t → V → M (bool * USB_ClassInfo_MS_Device_t * V))
    (i1 : USB_ClassInfo_MS_Device_t) (vars : V) : Prop :=
  ∀ s1, callable K i1 s1 →
    ∃ ok i2 vars2 s2, cb i1 vars s1 = Ok (ok, i2, vars2) s2 ∧ answered i1 i2 s2 ∧ (length (script s1) ≤ K + length (script s2))%nat.

Definition command : USB_ClassInfo_MS_Device_t := set_CommandBlock (block_of pkt (CommandBlock (MS_St i))) i.

Lemma command_head o x : (o < 15)%nat → pkt !! o = Some x → CommandBlock (MS_St command) !! o = Some x.
Proof using Hlen.
  clear Hblock. intros Ho Hx. cbn [command set_CommandBlock MS_St CommandBlock]. unfold block_of. cbv zeta.
  assert (∀ n, (15 ≤ n)%nat → (take n pkt ++ drop n (CommandBlock (MS_St i))) !! o = Some x) as H.
  { intros n Hn. rewrite lookup_app_l by (rewrite length_take; lia). by rewrite lookup_take_lt by lia. }
  destruct (rd pkt cbw_SCSICommandLength); apply H; lia.
Qed.
Lemma command_tag : rd32 (CommandBlock (MS_St command)) cbw_Tag = rd32 pkt cbw_Tag.
Proof using Hlen.
  clear Hblock. assert (∀ o : Z, 0 ≤ o < 15 → rd (CommandBlock (MS_St command)) o = rd pkt o) as E.
  { intros o Ho. destruct (lookup_lt_is_Some_2 pkt (Z.to_nat o)) as [x Hx]; [lia|].
    rewrite (proj2 (rd_Some pkt o x)) by (split; [lia|done]). apply rd_Some. split; [lia|]. apply command_head; [lia|done]. }
  unfold rd32, cbw_Tag. rewrite !E by lia. done.
Qed.
(** The task up to the command block. *)
Lemma wp_USBTask_start {V} (cb : _ → V → _) vars Q B s : ms_ready s → (1 ≤ length (script s))%nat →
  (∀ s1, ms_ready s1 → later 1 s s1 →
     wp (v ← MS_Device_ReadInCommandBlock i; if (v.1 : bool) then serve_command cb v.2 vars else mret (v.2, vars))
        (λ w, wp (if IsMassStoreReset (MS_St w.1) then i' ← reset_endpoints w.1; mret (i', w.2) else mret w) Q B) B s1) →
  wp (MS_Device_USBTask cb i vars) Q B s.
Proof using All.
  intros [] Hs HQ. unfold MS_Device_USBTask. rewrite Hc. wsteps. rewrite mr_state0.
  change (negb (DEVICE_STATE_Configured =? DEVICE_STATE_Configured)) with false. cbn iota. wsteps.
  apply (wp_IsOUTReceived ai ao bi bo Hai Hao 0 pkt 0); [done|by apply pipe_sel|by apply holding_sel|apply (script_ne s); lia|].
  intros s1 Hp1 Hh1 Hl1 Hs1 _. apply later_sel in Hl1. apply wp_bind. apply HQ; [|done]. destruct Hl1.
  split; try done; [congruence|unfold is_bulk in *; congruence..].
Qed.

(** The command reaches the application. *)
Lemma wp_serve_command {V} K (cb : _ → V → _) vars Q B s : application K cb command vars → pipe 0 s →
  DeviceState (fwst s) = DEVICE_STATE_Configured → is_bulk ai s → is_bulk ao s →
  halted ai s = false → halted ao s = false → selected_is ao s → (K + 3 ≤ length (script s))%nat →
  (∀ s1 ok i2 vars2 s2 tag n, callable K command s1 → trace s1 = trace s → cb command vars s1 = Ok (ok, i2, vars2) s2 → answered command i2 s2 →
     rd32 pkt cbw_Tag = Some tag → rd32 (CommandBlock (MS_St i2)) cbw_DataTransferLength = Some n →
     0 ≤ n < 2 ^ 32 → (3 ≤ length (script s2))%nat →
     wp (when (negb ok && negb (n =? 0)) Endpoint_StallTransaction;;
         MS_Device_ReturnCommandStatus (set_CommandStatus (csw ok tag n) i2);;
         mret (set_CommandStatus (csw ok tag n) i2, vars2)) Q B s2) →
  wp (serve_command cb command vars) Q B s.
Proof using All.
  intros Happ Hp Hd Hbi Hbo Hhi Hho Hsel Hs HQ. unfold serve_command.
  destruct (lookup_lt_is_Some_2 pkt 12) as [fl Hfl]; [lia|].
  apply wp_bind. eapply wp_lift; [apply rd_Some; split; [done|]; apply (command_head 12 fl); [lia|done]|].
  assert (direction command = if tst fl MS_COMMAND_DIR_DATA_IN then ai else ao) as Hdir.
  { unfold direction. by rewrite (proj2 (rd_Some _ cbw_Flags fl)) by (split; [done|]; apply (command_head 12 fl); [lia|done]). }
  assert (∃ s1, when (tst fl MS_COMMAND_DIR_DATA_IN) (Endpoint_SelectEndpoint (T_Address (MS_DataINEndpoint (MS_Cfg command)))) s = Ok tt s1 ∧
      (s1 = s ∨ s1 = sel ai s) ∧ selected_is (direction command) s1) as (s1 & E1 & Hs1 & Hsel1).
  { rewrite Hdir. destruct (tst fl MS_COMMAND_DIR_DATA_IN); cbn [when]; [|exists s; by split; [|split; [left|]]].
    exists (sel ai s). split; [|by split; [right|]]. change (MS_Cfg command) with (MS_Cfg i). rewrite Hc. apply SelectEndpoint_eq. }
  apply wp_bind. eapply wp_Ok; [exact E1|].
  assert (callable K command s1) as Hca.
  { split; [|by destruct Hs1 as [-> | ->]..|done|]; destruct Hs1 as [-> | ->]; [done|by apply pipe_sel|cbn; lia..]. }
  destruct (Happ s1 Hca) as (ok & i2 & vars2 & s2 & Ecb & Han & Hk).
  apply wp_bind. eapply wp_Ok; [exact Ecb|]. cbn [fst snd].
  destruct (an_block _ _ _ Han) as [Hl2 Hb2].
  destruct (rd32_ok pkt cbw_Tag) as [tag Htag]; [done|rewrite Hlen; done|].
  destruct (rd32_ok (CommandBlock (MS_St i2)) cbw_DataTransferLength) as [n Hn]; [done|by rewrite Hl2|].
  apply wp_bind. eapply wp_lift; [apply fill_status_csw; [apply Han|by rewrite (an_tag _ _ _ Han), command_tag|done]|].
  pose proof (rd32_range _ _ _ Hn Hb2) as Hr.
  apply wp_bind. eapply wp_lift; [by apply csw_residue|].
  assert (trace s1 = trace s ∧ script s1 = script s) as [Et Es] by by destruct Hs1 as [-> | ->].
  eapply HQ; try done. rewrite Es in Hk. lia.
Qed.
End Transaction.

(** ** A transaction *)
(** What every driver state has in common. *)
Record ms_wf (c : MS_Config_t) (bi bo : buffer) (i : USB_ClassInfo_MS_Device_t) : Prop := {
  mw_in : in_address (T_Address (MS_DataINEndpoint c));
  mw_out : out_address (T_Address (MS_DataOUTEndpoint c));
  mw_bufs : bi ≠ bo;
  mw_cfg : MS_Cfg i = c;
  mw_reset : IsMassStoreReset (MS_St i) = false;
  mw_block : length (CommandBlock (MS_St i)) = 31%nat }.

(** The device halts neither endpoint. *)
Definition unhalted (c : MS_Config_t) (s : mach) : Prop :=
  halted (T_Address (MS_DataINEndpoint c)) s = false ∧ halted (T_Address (MS_DataOUTEndpoint c)) s = false.

(** From the command block to the status wrapper. *)
Lemma ms_serves {V} c bi bo i pkt K (cb : _ → V → _) vars s : ms_wf c bi bo i → length pkt = 31%nat → bytes pkt →
  ms_ready c bi bo pkt s → unhalted c s → cbw_invalid c pkt = Some false →
  application c bi bo K cb (command i pkt) vars → (6 + K ≤ length (script s))%nat →
  ∃ s1 ok i2 vars2 s2 tag n, callable c bi bo K (command i pkt) s1 ∧ trace s1 = trace s ∧ cb (command i pkt) vars s1 = Ok (ok, i2, vars2) s2 ∧
    rd32 pkt cbw_Tag = Some tag ∧ rd32 (CommandBlock (MS_St i2)) cbw_DataTransferLength = Some n ∧
    if ok || (n =? 0)
    then ∃ s', MS_Device_USBTask cb i vars s = Ok (set_CommandStatus (csw ok tag n) i2, vars2) s' ∧
           trace s' = trace s2 ++ [OPacket (T_Address (MS_DataINEndpoint c) .& 15) (csw ok tag n)]
    else ∃ s', MS_Device_USBTask cb i vars s = Blocked s' ∧ trace s' = trace s2 ∧ script s' = [] ∧
           halted (SelectedEndpoint (fwst s2)) s' = true.
Proof.
  intros [Hai Hao Hb Hc Hr Hbl] Hlen Hby Hready [Hhi Hho] Hv Happ Hs.
  set (P := λ (blocked : bool) (w : USB_ClassInfo_MS_Device_t * V) s', ∃ s1 ok i2 vars2 s2 tag n,
    callable c bi bo K (command i pkt) s1 ∧ trace s1 = trace s ∧ cb (command i pkt) vars s1 = Ok (ok, i2, vars2) s2 ∧ rd32 pkt cbw_Tag = Some tag ∧
    rd32 (CommandBlock (MS_St i2)) cbw_DataTransferLength = Some n ∧ ok || (n =? 0) = negb blocked ∧
    (blocked = false → w = (set_CommandStatus (csw ok tag n) i2, vars2)) ∧
    if blocked then trace s' = trace s2 ∧ script s' = [] ∧ halted (SelectedEndpoint (fwst s2)) s' = true
    else trace s' = trace s2 ++ [OPacket (T_Address (MS_DataINEndpoint c) .& 15) (csw ok tag n)]).
  assert (wp (MS_Device_USBTask cb i vars) (P false) (P true (i, vars)) s) as W.
  2: { unfold wp in W. destruct (MS_Device_USBTask cb i vars s) as [w s'|s'|s'|s']; try done;
       destruct W as (s1 & ok & i2 & vars2 & s2 & tag & n & Hca & Ht & Ecb & Etag & En & Eb & Ei & Et);
       exists s1, ok, i2, vars2, s2, tag, n; rewrite Eb; cbn; repeat (split; [done|]); exists s'.
       - by rewrite Ei.
       - done. }
  apply (wp_USBTask_start c bi bo Hai Hao Hb i Hc Hr Hbl pkt Hlen Hby); [done|lia|]. intros s1 [] Hl1.
  destruct Hl1. apply wp_bind.
  apply (wp_ReadIn_valid c bi bo Hai Hao Hb i Hc Hr Hbl pkt Hlen Hby); [done|done|lia|done|].
  intros s2 Hp2 Hl2 Hs2 _ _. destruct Hl2. cbn [fst snd].
  apply (wp_serve_command c bi bo Hai Hao Hb i Hc Hr Hbl pkt Hlen Hby K); try done;
    [congruence|unfold is_bulk, halted in *; congruence..|lia|].
  intros s3 ok i2 vars2 s4 tag n Hca Ht Ecb Han Etag En Hn Hs4. unfold P. destruct (an_free _ _ _ _ _ _ Han) as [Hfi Hfo].
  assert (trace s3 = trace s) as Ht3 by congruence.
  destruct (negb ok && negb (n =? 0)) eqn:Ef; cbn [when].
  - assert (ok || (n =? 0) = false) as Eo by by destruct ok, (n =? 0).
    assert (∃ a, selected_is a s4 ∧ is_bulk a s4 ∧ in_table (ep_of a) = true ∧
      (a = T_Address (MS_DataINEndpoint c) ∨ a = T_Address (MS_DataOUTEndpoint c))) as (a & Ha & Hba & Hta & Eab).
    { destruct (an_bulk _ _ _ _ _ _ Han), (an_sel _ _ _ _ _ _ Han); eexists; (split; [eassumption|]);
        (split; [done|]); [split; [apply Hai|by left]|split; [apply Hao|by right]]. }
    apply wp_bind, (wp_Stall a); [done|done|done|]. apply wp_bind.
    eapply wp_mono; [| |apply (wp_ReturnCommandStatus_halted c bi bo Hai Hao _ (λ _ _, False))]; try done.
    + cbn. intros s5 [Ht5 He5 Hi5 Ho5]. exists s3, ok, i2, vars2, s4, tag, n. repeat (split; [done|]).
      destruct Ha as (-> & _). pose proof (halted_halt a s4) as Hh. unfold halted in *.
      destruct Eab as [-> | ->]; [by rewrite Hi5|by rewrite Ho5].
    + by apply Han.
    + apply Han.
    + destruct (an_pipe _ _ _ _ _ _ Han). by split.
    + pose proof (halted_halt a s4). destruct Eab as [<- | <-]; auto.
  - assert (ok || (n =? 0) = true) as Eo by by destruct ok, (n =? 0).
    apply wp_bind, wp_ret, wp_bind.
    apply (wp_ReturnCommandStatus c bi bo Hai Hao ok tag n); try done; [apply Han|apply Han|apply Han|].
    intros s5 Hp5 Ht5 _. wsteps. cbn [fst set_CommandStatus MS_St IsMassStoreReset]. rewrite (an_reset _ _ _ _ _ _ Han). wsteps.
    exists s3, ok, i2, vars2, s4, tag, n. by repeat (split; [done|]).
Qed.
