(* ===== verification/MassProps.v ===== *)
(** * Properties of the Mass Storage class driver

    A transaction of MassStorageClassDevice.c from the command block to the
    status wrapper, and the refusal of a bad command block. *)
From S2P Require Import Prelude RingBuffer Machine Endpoint Controller EndpointPoll EndpointStream Cdc Packed Logic EndpointSpec EndpointData BulkSpec MassStorage MassSpec.

(** C15: On a bus without a reset, with a host that takes the packets and
    leaves the control registers of the two endpoints alone, and for an
    application that returns in bounded time with the endpoints as it found
    them and the tag of the command kept: a valid command block of 31 bytes is
    handed to the application once, as it was received, before anything is
    sent and with the endpoint of its direction selected. When the application succeeds, or fails with nothing left to
    transfer, the task returns after one more packet on the IN endpoint, the
    status wrapper with the tag of the command, the residue the application
    left and its verdict. When it fails with data outstanding, the endpoint it
    had selected is halted and nothing is sent: under these events the endpoint
    stays halted, and the task is still waiting for its release, which the code
    of the wait never asks for, when the last event has passed. *)
Theorem ms_transaction {V} c bi bo i pkt K (cb : _ → V → _) vars s : ms_wf c bi bo i → length pkt = 31%nat → bytes pkt →
  ms_ready c bi bo pkt s → unhalted c s → cbw_invalid c pkt = Some false →
  application c bi bo K cb (command i pkt) vars → (6 + K ≤ length (script s))%nat →
  ∃ s1 ok i2 vars2 s2 tag n, trace s1 = trace s ∧ SelectedEndpoint (fwst s1) = direction c (command i pkt) ∧ cb (command i pkt) vars s1 = Ok (ok, i2, vars2) s2 ∧
    rd32 pkt cbw_Tag = Some tag ∧ rd32 (CommandBlock (MS_St i2)) cbw_DataTransferLength = Some n ∧
    if ok || (n =? 0)
    then ∃ s', MS_Device_USBTask cb i vars s = Ok (set_CommandStatus (csw ok tag n) i2, vars2) s' ∧
           trace s' = trace s2 ++ [OPacket (T_Address (MS_DataINEndpoint c) .& 15) (csw ok tag n)]
    else ∃ s', MS_Device_USBTask cb i vars s = Blocked s' ∧ trace s' = trace s2 ∧ script s' = [] ∧
           halted (SelectedEndpoint (fwst s2)) s' = true.
Proof.
  intros H1 H2 H3 H4 H5 H6 H7 H8. destruct (ms_serves c bi bo i pkt K cb vars s H1 H2 H3 H4 H5 H6 H7 H8) as (s1 & ok & i2 & vars2 & s2 & tag & n & [_ _ _ _ [Hsel _] _] & Ht & H).
  by exists s1, ok, i2, vars2, s2, tag, n.
Qed.

(** A run that ends with an application that may not be called ends so with
    every application. *)
Lemma task_without_application {V} (cb : _ → V → _) vars i s w s' :
  MS_Device_USBTask (λ _ _, fault) i vars s = Ok w s' → MS_Device_USBTask cb i vars s = Ok w s'.
Proof.
  unfold MS_Device_USBTask, mbind, M_bind, get_fw, gets. destruct (negb _); [done|]. rewrite SelectEndpoint_eq.
  destruct (Endpoint_IsOUTReceived _) as [[] s1|?|?|?]; try done.
  destruct (MS_Device_ReadInCommandBlock i s1) as [[[] i1] s2|?|?|?]; try done. cbn [fst snd].
  unfold serve_command, mbind, M_bind. destruct (lift _ s2) as [fl s3|?|?|?]; try done.
  destruct (when _ _ s3); done.
Qed.

(** A command block with a wrong signature, logical unit, flags or
    length is refused whatever the application is: both endpoints are halted,
    no packet is sent, and the application plays no part in the outcome; its
    variables keep their values. *)
Theorem ms_refuses {V} c bi bo i pkt (vars : V) s : ms_wf c bi bo i → length pkt = 31%nat → bytes pkt →
  ms_ready c bi bo pkt s → cbw_invalid c pkt = Some true → (2 ≤ length (script s))%nat →
  ∃ i' s', (∀ cb, MS_Device_USBTask cb i vars s = Ok (i', vars) s') ∧ MS_Cfg i' = MS_Cfg i ∧ trace s' = trace s ∧
    halted (T_Address (MS_DataINEndpoint c)) s' = true ∧ halted (T_Address (MS_DataOUTEndpoint c)) s' = true.
Proof.
  intros [Hai Hao Hb Hc Hr Hbl] Hlen Hby Hready Hv Hs.
  destruct (wp_returns (MS_Device_USBTask (λ _ _, fault) i vars) (λ w s', w.2 = vars ∧ MS_Cfg w.1 = MS_Cfg i ∧ trace s' = trace s ∧
    halted (T_Address (MS_DataINEndpoint c)) s' = true ∧ halted (T_Address (MS_DataOUTEndpoint c)) s' = true) s)
    as ([i' ?] & s' & E & Ev & H).
  2: { cbn in Ev, H. subst. exists i', s'. split; [|done]. intros cb. by apply task_without_application. }
  apply (wp_USBTask_start c bi bo Hai Hao Hb i Hc Hr Hbl pkt Hlen Hby); [done|lia|]. intros s1 [] Hl1. destruct Hl1.
  apply wp_bind, (wp_ReadIn_invalid c bi bo Hai Hao Hb i Hc Hr Hbl pkt Hlen); try done; [apply script_ne; lia|].
  intros s2 Ht2 Hi Ho. cbn [fst snd]. wsteps. cbn [fst set_CommandBlock MS_St IsMassStoreReset]. rewrite Hr. wsteps.
  split; [done|]. split; [done|]. split; [congruence|done].
Qed.

(** ** Instances *)
Definition demo_config : MS_Config_t :=
  MS_Config 0 (USB_Endpoint_Table 0x83 64 EP_TYPE_BULK 1) (USB_Endpoint_Table 0x04 64 EP_TYPE_BULK 1) 1.
Definition demo_ms : USB_ClassInfo_MS_Device_t := MS_Device demo_config (MS_State (replicate 31 0) (replicate 13 0) false).

Lemma demo_ms_wf : ms_wf demo_config in_fifo out_fifo demo_ms.
Proof. by split. Qed.

(** A command with tag 0x01020304, with the given signature and length of the
    data. *)
Definition demo_cbw (sig n : Z) : list Z :=
  le32 sig ++ le32 0x01020304 ++ le32 n ++ [0; 0; 6] ++ replicate 16 0.
Lemma demo_cbw_bytes sig n : bytes (demo_cbw sig n).
Proof.
  unfold demo_cbw. repeat (apply Forall_app; split); try apply le32_bytes.
  - repeat constructor; discriminate.
  - apply Forall_replicate. split; [discriminate|reflexivity].
Qed.

Lemma demo_bulk_ready sig n k : ms_ready demo_config in_fifo out_fifo (demo_cbw sig n) (demo_bulk (demo_cbw sig n) k).
Proof.
  split; [apply demo_bulk_pipe|apply demo_bulk_holding; cbn; lia|done..].
Qed.

(** An application without a data stage that counts the commands and gives
    every one of them the verdict [ok]. *)
Definition demo_app (ok : bool) (i : USB_ClassInfo_MS_Device_t) (served : nat) : M (bool * USB_ClassInfo_MS_Device_t * nat) :=
  mret (ok, i, S served).

Definition demo_command (n : Z) : USB_ClassInfo_MS_Device_t := command demo_ms (demo_cbw MS_CBW_SIGNATURE n).
Lemma demo_application ok n : bytes (CommandBlock (MS_St (demo_command n))) → length (CommandBlock (MS_St (demo_command n))) = 31%nat →
  application demo_config in_fifo out_fifo 0 (demo_app ok) (demo_command n) 7%nat.
Proof.
  intros Hb Hl s1 [Hp Hd Hbk Hf Hsel Hsc]. exists ok, (demo_command n), 8%nat, s1. split; [reflexivity|]. split; [|lia].
  split; try done. unfold direction in Hsel. destruct (rd _ _) as [fl|]; [destruct (tst fl _)|]; auto.
Qed.

(** An application that succeeds, and one that fails with eight bytes
    outstanding, with twenty events to come. *)
Lemma ms_transaction_witness :
  (∃ s', MS_Device_USBTask (demo_app true) demo_ms 7%nat (demo_bulk (demo_cbw MS_CBW_SIGNATURE 0) 6) =
          Ok (set_CommandStatus (csw true 0x01020304 0) (demo_command 0), 8%nat) s' ∧
        trace s' = [OPacket 3 (csw true 0x01020304 0)]) ∧
  (∃ s', MS_Device_USBTask (demo_app false) demo_ms 7%nat (demo_bulk (demo_cbw MS_CBW_SIGNATURE 8) 20) = Blocked s' ∧ trace s' = [] ∧
        script s' = [] ∧ halted 0x04 s' = true).
Proof.
  split.
  - destruct (ms_transaction demo_config in_fifo out_fifo demo_ms (demo_cbw MS_CBW_SIGNATURE 0) 0 (demo_app true) 7%nat
      (demo_bulk (demo_cbw MS_CBW_SIGNATURE 0) 6)) as (s1 & ok & i2 & vars2 & s2 & tag & n & Ht & Hsel & Ecb & Etag & En & H).
    + apply demo_ms_wf.
    + reflexivity.
    + apply demo_cbw_bytes.
    + apply demo_bulk_ready.
    + split; reflexivity.
    + reflexivity.
    + apply demo_application; [apply (bool_decide_unpack (Forall byte _)); vm_compute; exact I|reflexivity].
    + cbn. lia.
    + unfold demo_app, mret, M_ret in Ecb. injection Ecb as <- <- <- <-. injection Etag as <-. injection En as <-.
      destruct H as (s' & E & Et). exists s'. split; [exact E|]. rewrite Et, Ht. reflexivity.
  - destruct (ms_transaction demo_config in_fifo out_fifo demo_ms (demo_cbw MS_CBW_SIGNATURE 8) 0 (demo_app false) 7%nat
      (demo_bulk (demo_cbw MS_CBW_SIGNATURE 8) 20)) as (s1 & ok & i2 & vars2 & s2 & tag & n & Ht & Hsel & Ecb & Etag & En & H).
    + apply demo_ms_wf.
    + reflexivity.
    + apply demo_cbw_bytes.
    + apply demo_bulk_ready.
    + split; reflexivity.
    + reflexivity.
    + apply demo_application; [apply (bool_decide_unpack (Forall byte _)); vm_compute; exact I|reflexivity].
    + cbn. lia.
    + unfold demo_app, mret, M_ret in Ecb. injection Ecb as <- <- <- <-. injection Etag as <-. injection En as <-.
      destruct H as (s' & E & Et & Es & Hh). exists s'. split; [exact E|]. split; [by rewrite Et, Ht|]. split; [exact Es|].
      rewrite Hsel in Hh. exact Hh.
Defined.

Lemma ms_refuses_witness :
  ∃ i' s', (∀ cb, MS_Device_USBTask cb demo_ms 7%nat (demo_bulk (demo_cbw 0 0) 2) = Ok (i', 7%nat) s') ∧ trace s' = [] ∧
    halted 0x83 s' = true ∧ halted 0x04 s' = true.
Proof.
  destruct (ms_refuses demo_config in_fifo out_fifo demo_ms (demo_cbw 0 0) 7%nat (demo_bulk (demo_cbw 0 0) 2))
    as (i' & s' & E & _ & H).
  - apply demo_ms_wf.
  - reflexivity.
  - apply demo_cbw_bytes.
  - apply demo_bulk_ready.
  - reflexivity.
  - cbn. lia.
  - exists i', s'. split; [exact E|exact H].
Defined.
