(* ===== verification/VirtualFAT.v ===== *)
(** * The virtual disk of the mass storage boot loader

    Bootloaders/MassStorage/Lib/VirtualFAT.c and VirtualFAT.h, with the
    programming functions of BootloaderAPI.c: a FAT12 volume that is computed
    block by block, and whose two files are the program flash and the EEPROM.

    The chip is a parameter, class [Chip]: the constants of avr/io.h and of the
    makefile, and the macros of avr/boot.h, avr/pgmspace.h and avr/eeprom.h on
    a memory of any type. [ChipLaws] is what avr-libc and the data sheet say of
    them. The endpoints are used through the functions of LUFA's interface that
    class [DiskPort] lists; EndpointStream.v is one implementation of it. [int]
    has 16 bits. *)
From stdpp Require Import strings.
From S2P Require Import Prelude RingBuffer Machine Endpoint Packed Descriptors.

(** ** The chip *)
Class Chip := {
  FLASHEND : Z;
  E2END : Z;
  SPM_PAGESIZE : Z;
  BOOT_START_ADDR : Z;
  AUX_BOOT_SECTION_SIZE : Z;
  memory : Type;
  pgm_read_flash : Z → memory → Z;
  boot_page_erase_safe : Z → memory → memory;
  boot_page_fill_safe : Z → Z → memory → memory;
  boot_page_write_safe : Z → memory → memory;
  boot_rww_enable : memory → memory;
  eeprom_read_byte : Z → memory → Z;
  eeprom_update_byte : Z → Z → memory → memory }.

(** ** The interface to the endpoints *)
Class DiskPort := {
  port_Write_Stream_LE : list Z → Z → M unit;
  port_Null_Stream : Z → M unit;
  port_Read_Stream_LE : list Z → Z → M (list Z);
  port_Write_32_BE : Z → M unit;
  port_Write_32_LE : Z → M unit;
  port_ClearIN : M unit;
  port_ClearOUT : M unit }.

Section Disk.
Context {C : Chip}.

(** ** Sizes *)
Definition FLASH_FILE_SIZE_BYTES : Z := FLASHEND - (FLASHEND - BOOT_START_ADDR) - AUX_BOOT_SECTION_SIZE.
Definition EEPROM_FILE_SIZE_BYTES : Z := E2END.
Definition SECTOR_PER_CLUSTER : Z := 4.
Definition SECTOR_SIZE_BYTES : Z := 512.
Definition CLUSTER_SIZE_BYTES : Z := SECTOR_PER_CLUSTER * SECTOR_SIZE_BYTES.
Definition FILE_SECTORS (size : Z) : Z := size / SECTOR_SIZE_BYTES + (if size mod SECTOR_SIZE_BYTES =? 0 then 0 else 1).
Definition FILE_CLUSTERS (size : Z) : Z := size / CLUSTER_SIZE_BYTES + (if size mod CLUSTER_SIZE_BYTES =? 0 then 0 else 1).
Definition LUN_MEDIA_BLOCKS : Z := FILE_SECTORS FLASH_FILE_SIZE_BYTES + FILE_SECTORS EEPROM_FILE_SIZE_BYTES + 32.

Definition FAT_TIME (hh mm ss : Z) : Z := (hh << 11) .| (mm << 5) .| (ss >> 1).
Definition FAT_DATE (dd mm yyyy : Z) : Z := ((yyyy - 1980) << 9) .| (mm << 5) .| (dd << 0).
Definition ROT8 (x : Z) : Z := ((x .& 0xFE) >> 1) .| (if tst x 1 then 0x80 else 0x00).
(** The macro nests [ROT8(... + n)] from [n0] on. *)
Definition FAT_CHECKSUM (name : list Z) : Z :=
  match name with [] => 0 | n0 :: rest => u8 (foldl (λ sum c, ROT8 sum + c) n0 rest) end.

Definition FAT_FLAG_VOLUME_NAME : Z := 1 << 3.
Definition FAT_FLAG_LONG_FILE_NAME : Z := 0x0F.
Definition FAT_ORDINAL_LAST_ENTRY : Z := 1 << 6.

Definition DISK_FILE_ENTRY_FLASH_MSDOS : Z := 2.
Definition DISK_FILE_ENTRY_EEPROM_MSDOS : Z := 4.
Definition DISK_BLOCK_BootBlock : Z := 0.
Definition DISK_BLOCK_FATBlock1 : Z := 1.
Definition DISK_BLOCK_FATBlock2 : Z := 2.
Definition DISK_BLOCK_RootFilesBlock : Z := 3.
Definition DISK_BLOCK_DataStartBlock : Z := 4.

(** ** The structures of the volume, as their bytes *)
Definition sizeof_FATDirectoryEntry : Z := 32.
Definition MediaDescriptor : Z := 0xF8.
Definition BootBlock : list Z :=
  [0xEB; 0x3C; 0x90] ++ chars "mkdosfs" ++ [0] ++ le16 SECTOR_SIZE_BYTES ++ [SECTOR_PER_CLUSTER] ++ le16 1 ++ [2] ++
  le16 (SECTOR_SIZE_BYTES / sizeof_FATDirectoryEntry) ++ le16 LUN_MEDIA_BLOCKS ++ [MediaDescriptor] ++ le16 1 ++
  le16 (LUN_MEDIA_BLOCKS mod 64) ++ le16 (LUN_MEDIA_BLOCKS / 64) ++ le32 0 ++ le32 0 ++ le16 0 ++ [0x29] ++
  le32 0x12345678 ++ chars "LUFA BOOT  " ++ chars "FAT12   ".

(** [MSDOS_Directory] and [MSDOS_File]: name and extension, attributes, time,
    date, first cluster and size. *)
Definition MSDOS_entry (name : list Z) (Attributes time date StartingCluster size : Z) : list Z :=
  name ++ [Attributes] ++ replicate 10 0 ++ le16 time ++ le16 date ++ le16 StartingCluster ++ le32 size.
(** [VFAT_LongFileName], with the thirteen characters of the name. *)
Definition VFAT_LongFileName (Checksum : Z) (unicode : list Z) : list Z :=
  [1 .| FAT_ORDINAL_LAST_ENTRY] ++ concat (map le16 (take 5 unicode)) ++ [FAT_FLAG_LONG_FILE_NAME; 0; Checksum] ++
  concat (map le16 (take 6 (drop 5 unicode))) ++ le16 0 ++ concat (map le16 (drop 11 unicode)).

Definition FirmwareFileEntries_init : list Z :=
  MSDOS_entry (chars "LUFA BOOT  ") FAT_FLAG_VOLUME_NAME 0 0 0 0 ++
  VFAT_LongFileName (FAT_CHECKSUM (chars "FLASH   BIN")) (chars "FLASH.BIN" ++ replicate 4 0) ++
  MSDOS_entry (chars "FLASH   BIN") 0 (FAT_TIME 1 1 0) (FAT_DATE 14 2 1989) 2 FLASH_FILE_SIZE_BYTES ++
  VFAT_LongFileName (FAT_CHECKSUM (chars "EEPROM  BIN")) (chars "EEPROM.BIN" ++ replicate 3 0) ++
  MSDOS_entry (chars "EEPROM  BIN") 0 (FAT_TIME 1 1 0) (FAT_DATE 14 2 1989) (2 + FILE_CLUSTERS FLASH_FILE_SIZE_BYTES)
    EEPROM_FILE_SIZE_BYTES.
Definition sizeof_FirmwareFileEntries : nat := 160.

(** The static variables, and the memories of the chip. *)
Record disk := Disk {
  FirmwareFileEntries : list Z;
  memories : memory }.

(** [*FLASHFileStartCluster] and [*EEPROMFileStartCluster] *)
Definition rd16 (l : list Z) (o : Z) : option Z := b0 ← rd l o; b1 ← rd l (o + 1); Some (b0 + b1 * 2 ^ 8).
Definition StartingCluster (entry : Z) (d : disk) : option Z :=
  rd16 (FirmwareFileEntries d) (entry * sizeof_FATDirectoryEntry + 26).
Definition FLASHFileStartCluster : disk → option Z := StartingCluster DISK_FILE_ENTRY_FLASH_MSDOS.
Definition EEPROMFileStartCluster : disk → option Z := StartingCluster DISK_FILE_ENTRY_EEPROM_MSDOS.

(** ** BootloaderAPI.c *)
Definition BootloaderAPI_ErasePage (Address : Z) (m : memory) : memory := boot_rww_enable (boot_page_erase_safe Address m).
Definition BootloaderAPI_WritePage (Address : Z) (m : memory) : memory := boot_rww_enable (boot_page_write_safe Address m).
Definition BootloaderAPI_FillWord (Address Word : Z) (m : memory) : memory := boot_page_fill_safe Address Word m.

Definition ReadEEPROMByte (Address : Z) (m : memory) : Z := eeprom_read_byte Address m.
Definition WriteEEPROMByte (Address Data : Z) (m : memory) : memory := eeprom_update_byte Address Data m.

(** ** The allocation table *)
Definition UpdateFAT12ClusterEntry (FATTable : list Z) (Index ChainEntry : Z) : option (list Z) :=
  let FATOffset := u8 (Index + (Index >> 1)) in
  let UpperNibble := negb (Index .& 1 =? 0) in
  if UpperNibble then
    b ← rd FATTable FATOffset;
    t ← wr FATTable FATOffset (u8 ((b .& 0x0F) .| ((ChainEntry .& 0x0F) << 4)));
    wr t (FATOffset + 1) (u8 (ChainEntry >> 4))
  else
    t ← wr FATTable FATOffset (u8 ChainEntry);
    b ← rd t FATOffset;
    wr t (FATOffset + 1) (u8 ((b .& 0xF0) .| (ChainEntry >> 8))).

(** [ChainLength] is a [uint8_t]. *)
Definition UpdateFAT12ClusterChain (FATTable : list Z) (Index ChainLength : Z) : option (list Z) :=
  for_up 0 (u8 ChainLength) (λ i t,
    let CurrentCluster := u16 (Index + i) in
    let NextCluster := if i =? u8 ChainLength - 1 then 0xFFF else u16 (CurrentCluster + 1) in
    UpdateFAT12ClusterEntry t CurrentCluster NextCluster) FATTable.

(** ** The two files *)

(** The type of [FlashAddress]. *)
Definition flash_t (x : Z) : Z := if FLASHEND >? 0xFFFF then u32 x else u16 x.

Definition FileStartBlock (StartCluster : Z) : Z := u16 (DISK_BLOCK_DataStartBlock + (StartCluster - 2) * SECTOR_PER_CLUSTER).
Definition FileEndBlock (StartCluster size : Z) : Z := u16 (FileStartBlock StartCluster + (FILE_SECTORS size - 1)).
(** The range check, and the distance from the first block of the file. *)
Definition file_block (StartCluster size BlockNumber : Z) : option Z :=
  if (BlockNumber >=? FileStartBlock StartCluster) && (BlockNumber <=? FileEndBlock StartCluster size)
  then Some (u16 (BlockNumber - FileStartBlock StartCluster)) else None.

(** The loop that reads: [BlockBuffer[i] = pgm_read_byte(FlashAddress++)] for
    each [i], and the like for the EEPROM. *)
Definition read_loop (ty : Z → Z) (read : Z → memory → Z) (m : memory) (Address : Z) (BlockBuffer : list Z) : option (list Z) :=
  r ← for_up 0 SECTOR_SIZE_BYTES (λ i '(a, b), b ← wr b i (read a m); Some (ty (a + 1), b)) (Address, BlockBuffer);
  Some r.2.

(** The loop that programs, [i] counting words. *)
Definition program_word (BlockBuffer : list Z) (k : Z) (v : Z * memory) : option (Z * memory) :=
  let '(FlashAddress, m) := v in
  let i := 2 * k in
  let m := if FlashAddress mod SPM_PAGESIZE =? 0 then BootloaderAPI_ErasePage FlashAddress m else m in
  hi ← rd BlockBuffer (i + 1); lo ← rd BlockBuffer i;
  let m := BootloaderAPI_FillWord FlashAddress (u16 ((hi << 8) .| lo)) m in
  let FlashAddress := flash_t (FlashAddress + 2) in
  let m := if FlashAddress mod SPM_PAGESIZE =? 0 then BootloaderAPI_WritePage (flash_t (FlashAddress - SPM_PAGESIZE)) m else m in
  Some (FlashAddress, m).
Definition program_loop (BlockBuffer : list Z) (FlashAddress : Z) (m : memory) : option memory :=
  r ← for_up 0 (SECTOR_SIZE_BYTES / 2) (program_word BlockBuffer) (FlashAddress, m); Some r.2.
Definition update_loop (BlockBuffer : list Z) (EEPROMAddress : Z) (m : memory) : option memory :=
  r ← for_up 0 SECTOR_SIZE_BYTES (λ i '(a, m), x ← rd BlockBuffer i; Some (u16 (a + 1), WriteEEPROMByte a x m)) (EEPROMAddress, m);
  Some r.2.

(** With [Read] true the buffer is the result, otherwise the memory. *)
Definition ReadWriteFLASHFileBlock (BlockNumber : Z) (d : disk) (BlockBuffer : list Z) (Read : bool) : option (list Z * disk) :=
  start ← FLASHFileStartCluster d;
  match file_block start FLASH_FILE_SIZE_BYTES BlockNumber with
  | None => Some (BlockBuffer, d)
  | Some k =>
    let FlashAddress := flash_t (k * SECTOR_SIZE_BYTES) in
    if Read then b ← read_loop flash_t pgm_read_flash (memories d) FlashAddress BlockBuffer; Some (b, d)
    else m ← program_loop BlockBuffer FlashAddress (memories d); Some (BlockBuffer, Disk (FirmwareFileEntries d) m)
  end.
Definition ReadWriteEEPROMFileBlock (BlockNumber : Z) (d : disk) (BlockBuffer : list Z) (Read : bool) : option (list Z * disk) :=
  start ← EEPROMFileStartCluster d;
  match file_block start EEPROM_FILE_SIZE_BYTES BlockNumber with
  | None => Some (BlockBuffer, d)
  | Some k =>
    let EEPROMAddress := u16 (k * SECTOR_SIZE_BYTES) in
    if Read then b ← read_loop u16 ReadEEPROMByte (memories d) EEPROMAddress BlockBuffer; Some (b, d)
    else m ← update_loop BlockBuffer EEPROMAddress (memories d); Some (BlockBuffer, Disk (FirmwareFileEntries d) m)
  end.

(** ** Blocks *)

(** The [switch] of [VirtualFAT_WriteBlock]. *)
Definition write_switch (BlockNumber : Z) (BlockBuffer : list Z) (d : disk) : option disk :=
  if (BlockNumber =? DISK_BLOCK_BootBlock) || (BlockNumber =? DISK_BLOCK_FATBlock1) || (BlockNumber =? DISK_BLOCK_FATBlock2)
  then Some d
  else if BlockNumber =? DISK_BLOCK_RootFilesBlock
  then Some (Disk (take sizeof_FirmwareFileEntries BlockBuffer) (memories d))
  else
    v ← ReadWriteFLASHFileBlock BlockNumber d BlockBuffer false;
    v ← ReadWriteEEPROMFileBlock BlockNumber v.2 v.1 false;
    Some v.2.

(** [memcpy] to the start of a buffer. *)
Definition copy_over (b src : list Z) : list Z := src ++ drop (length src) b.

(** The [switch] of [VirtualFAT_ReadBlock], after [memset]. *)
Definition read_switch (BlockNumber : Z) (d : disk) : option (list Z) :=
  let BlockBuffer := replicate (Z.to_nat SECTOR_SIZE_BYTES) 0 in
  if BlockNumber =? DISK_BLOCK_BootBlock then
    b ← wr (copy_over BlockBuffer BootBlock) (SECTOR_SIZE_BYTES - 2) 0x55;
    wr b (SECTOR_SIZE_BYTES - 1) 0xAA
  else if (BlockNumber =? DISK_BLOCK_FATBlock1) || (BlockNumber =? DISK_BLOCK_FATBlock2) then
    b ← UpdateFAT12ClusterEntry BlockBuffer 0 (0xF00 .| MediaDescriptor);
    b ← UpdateFAT12ClusterEntry b 1 0xFFF;
    c ← FLASHFileStartCluster d;
    b ← UpdateFAT12ClusterChain b c (FILE_CLUSTERS FLASH_FILE_SIZE_BYTES);
    c ← EEPROMFileStartCluster d;
    UpdateFAT12ClusterChain b c (FILE_CLUSTERS EEPROM_FILE_SIZE_BYTES)
  else if BlockNumber =? DISK_BLOCK_RootFilesBlock then
    Some (copy_over BlockBuffer (FirmwareFileEntries d))
  else
    v ← ReadWriteFLASHFileBlock BlockNumber d BlockBuffer true;
    v ← ReadWriteEEPROMFileBlock BlockNumber v.2 v.1 true;
    Some v.1.

Context {DP : DiskPort}.

(** [junk] is what the automatic variable [BlockBuffer] holds at first. *)
Definition VirtualFAT_WriteBlock (junk : list Z) (BlockNumber : Z) (d : disk) : M disk :=
  BlockBuffer ← port_Read_Stream_LE junk SECTOR_SIZE_BYTES;
  port_ClearOUT;;
  lift (write_switch BlockNumber BlockBuffer d).
Definition VirtualFAT_ReadBlock (BlockNumber : Z) (d : disk) : M unit :=
  BlockBuffer ← lift (read_switch BlockNumber d);
  port_Write_Stream_LE BlockBuffer SECTOR_SIZE_BYTES;;
  port_ClearIN.
End Disk.
