(* ===== verification/DiskSpec.v ===== *)
(** * The virtual disk: lemmas

    What avr-libc and the data sheets say of the memories of the chip, and what
    the loops of VirtualFAT.c then do: a block is programmed as a whole, page
    by page, and read back; the allocation table is filled in. *)
From stdpp Require Import strings.
From S2P Require Import Prelude RingBuffer Machine Endpoint Packed Descriptors VirtualFAT.

(** ** The chip *)

(** [temporary m o] is byte [o] of the temporary page buffer. A page is erased
    to 0xFF; programming a page clears the bits that are clear in the buffer;
    enabling the RWW section erases the buffer, whose words may be loaded once
    after that. *)
Class ChipLaws (C : Chip) := {
  page_even : (2 | SPM_PAGESIZE);
  page_fits : (SPM_PAGESIZE | 512);
  page_pos : 0 < SPM_PAGESIZE;
  boot_in_flash : 0 ≤ AUX_BOOT_SECTION_SIZE < BOOT_START_ADDR ∧ BOOT_START_ADDR ≤ FLASHEND < 2 ^ 18;
  flash_aligned : (512 | BOOT_START_ADDR - AUX_BOOT_SECTION_SIZE);
  eeprom_aligned : (512 | E2END + 1);
  eeprom_range : 0 < E2END < 65536;
  temporary : memory → Z → Z;
  flash_byte x m : byte (pgm_read_flash x m);
  eeprom_byte x m : byte (eeprom_read_byte x m);
  read_erase x a m : 0 ≤ a ≤ FLASHEND →
    pgm_read_flash x (boot_page_erase_safe a m) = if decide (x / SPM_PAGESIZE = a / SPM_PAGESIZE) then 0xFF else pgm_read_flash x m;
  read_fill x a w m : pgm_read_flash x (boot_page_fill_safe a w m) = pgm_read_flash x m;
  read_write x a m : 0 ≤ a ≤ FLASHEND →
    pgm_read_flash x (boot_page_write_safe a m) =
      if decide (x / SPM_PAGESIZE = a / SPM_PAGESIZE) then pgm_read_flash x m .& temporary m (x mod SPM_PAGESIZE) else pgm_read_flash x m;
  read_enable x m : pgm_read_flash x (boot_rww_enable m) = pgm_read_flash x m;
  temporary_enable o m : 0 ≤ o < SPM_PAGESIZE → temporary (boot_rww_enable m) o = 0xFF;
  temporary_fill o a w m : 0 ≤ a ≤ FLASHEND → (2 | a) → word16 w → 0 ≤ o < SPM_PAGESIZE →
    temporary m (a mod SPM_PAGESIZE) = 0xFF → temporary m (a mod SPM_PAGESIZE + 1) = 0xFF →
    temporary (boot_page_fill_safe a w m) o =
      if decide (o = a mod SPM_PAGESIZE) then w mod 256
      else if decide (o = a mod SPM_PAGESIZE + 1) then w / 256 else temporary m o;
  eeprom_erase x a m : eeprom_read_byte x (boot_page_erase_safe a m) = eeprom_read_byte x m;
  eeprom_fill x a w m : eeprom_read_byte x (boot_page_fill_safe a w m) = eeprom_read_byte x m;
  eeprom_write x a m : eeprom_read_byte x (boot_page_write_safe a m) = eeprom_read_byte x m;
  eeprom_enable x m : eeprom_read_byte x (boot_rww_enable m) = eeprom_read_byte x m;
  read_update x a v m : pgm_read_flash x (eeprom_update_byte a v m) = pgm_read_flash x m;
  eeprom_update x a v m : 0 ≤ a ≤ E2END → byte v →
    eeprom_read_byte x (eeprom_update_byte a v m) = if decide (x = a) then v else eeprom_read_byte x m }.

(** ** Whole sectors *)
Definition at_ (b : list Z) (i : Z) : Z := nth (Z.to_nat i) b 0.
Lemma rd_sector_at (b : list Z) i : 0 ≤ i < Z.of_nat (length b) → rd b i = Some (at_ b i).
Proof.
  intros Hi. apply rd_Some. split; [lia|]. unfold at_. destruct (lookup_lt_is_Some_2 b (Z.to_nat i)) as [x Hx]; [lia|].
  by rewrite Hx, (nth_lookup_Some _ _ _ _ Hx).
Qed.
Lemma at_byte b i : bytes b → 0 ≤ i < Z.of_nat (length b) → byte (at_ b i).
Proof. intros Hb Hi. pose proof (rd_sector_at b i Hi) as H. apply rd_Some in H as [_ H]. exact (Forall_lookup_1 _ _ _ _ Hb H). Qed.

(** A sector at address [A] of a memory that is read with [f]. *)
Definition sector (f : Z → Z) (A : Z) : list Z := map f (seqZ A 512).
Lemma length_sector f A : length (sector f A) = 512%nat.
Proof. unfold sector. rewrite length_map, length_seqZ. done. Qed.
Lemma sector_ext f g A : (∀ x, A ≤ x < A + 512 → f x = g x) → sector f A = sector g A.
Proof. intros H. apply map_ext_in. intros x Hx. apply list_elem_of_In, elem_of_seqZ in Hx. by apply H. Qed.
Lemma sector_of b f A : length b = 512%nat → (∀ x, A ≤ x < A + 512 → f x = at_ b (x - A)) → sector f A = b.
Proof.
  intros Hl H. apply list_eq. intros k. unfold sector. rewrite list_lookup_fmap.
  destruct (decide (k < 512)%nat).
  - rewrite lookup_seqZ_lt by lia. cbn. rewrite H by lia. pose proof (rd_sector_at b (Z.of_nat k)) as Hr.
    replace (A + Z.of_nat k - A) with (Z.of_nat k) by lia. rewrite rd_Some, Nat2Z.id in Hr. symmetry. apply Hr. lia.
  - rewrite lookup_seqZ_ge by lia. symmetry. apply lookup_ge_None_2. lia.
Qed.

(** The reading loops. *)
Lemma read_loop_sector `{C : Chip} (ty : Z → Z) (read : Z → memory → Z) m A b : length b = 512%nat →
  (∀ x, A ≤ x ≤ A + 512 → x < A + 512 → ty x = x) →
  read_loop ty read m A b = Some (sector (λ x, read x m) A).
Proof.
  intros Hl Hty. unfold read_loop, for_up. change (Z.to_nat _) with 512%nat.
  destruct (for_inv (λ i '(a, b1), length b1 = 512%nat ∧ (i < 512 → a = A + i) ∧ ∀ k : nat, Z.of_nat k < i → b1 !! k = Some (read (A + Z.of_nat k) m))
    512 0 (λ i '(a, b), b ← wr b i (read a m); Some (ty (a + 1), b)) (A, b)) as ([a b1] & -> & Hl1 & _ & H).
  - split; [done|]. split; [lia|lia].
  - intros i [a b1] Hi (Hl1 & Ha & H). rewrite Ha, wr_Some by lia. eexists. split; [done|]. cbv beta iota.
    rewrite length_insert. split; [done|]. split.
    + intros Hi'. rewrite Hty; lia.
    + intros k Hk. destruct (decide (k = Z.to_nat i)) as [->|Hne].
      * rewrite list_lookup_insert_eq by lia. by rewrite Z2Nat.id by lia.
      * rewrite list_lookup_insert_ne by lia. apply H. lia.
  - cbn. f_equal. apply list_eq. intros k. unfold sector. rewrite list_lookup_fmap. destruct (decide (k < 512)%nat).
    + rewrite H, lookup_seqZ_lt by lia. done.
    + rewrite lookup_seqZ_ge by lia. apply lookup_ge_None_2. lia.
Qed.

Section Memories.
Context {C : Chip} {L : ChipLaws C}.

Lemma flash_t_small x : 0 ≤ x ≤ FLASHEND → flash_t x = x.
Proof using L. pose proof boot_in_flash. unfold flash_t, u16, u32. destruct (Z.gtb_spec FLASHEND 0xFFFF); intros; apply Z.mod_small; lia. Qed.

(** ** Programming *)
Lemma page_step a : (2 | a) → 0 ≤ a →
  a mod SPM_PAGESIZE + 2 = SPM_PAGESIZE ∧ (a + 2) mod SPM_PAGESIZE = 0 ∨
  a mod SPM_PAGESIZE + 2 < SPM_PAGESIZE ∧ (a + 2) mod SPM_PAGESIZE = a mod SPM_PAGESIZE + 2.
Proof using L.
  intros [h Hh] Ha. destruct page_even as [p Hp]. pose proof page_pos. set (P := SPM_PAGESIZE) in *.
  pose proof (Z.mod_pos_bound a P ltac:(lia)). pose proof (Z.div_mod a P ltac:(lia)) as Hd.
  assert (∃ r, a mod P = 2 * r) as [r Hr]. { exists (h - p * (a / P)). lia. }
  destruct (Z.eq_dec (a mod P + 2) P) as [E|E]; [left|right].
  - split; [done|]. symmetry. apply Z.mod_unique with (a / P + 1); lia.
  - split; [lia|]. symmetry. apply Z.mod_unique with (a / P); lia.
Qed.
Lemma same_page a p x : (SPM_PAGESIZE | p) → p ≤ a < p + SPM_PAGESIZE → x / SPM_PAGESIZE = a / SPM_PAGESIZE ↔ p ≤ x < p + SPM_PAGESIZE.
Proof using L.
  intros [q ->] Ha. pose proof page_pos. set (P := SPM_PAGESIZE) in *.
  assert (a / P = q) as -> by (symmetry; apply Z.div_unique with (a - q * P); lia).
  split; [intros <-; pose proof (Z.mod_pos_bound x P); pose proof (Z.div_mod x P); lia|].
  intros Hx. symmetry. apply Z.div_unique with (x - q * P); lia.
Qed.
Lemma in_page p x : (SPM_PAGESIZE | p) → p ≤ x < p + SPM_PAGESIZE → x mod SPM_PAGESIZE = x - p.
Proof using L.
  intros [q ->] Hx. pose proof page_pos. symmetry. apply Z.mod_unique with q; lia.
Qed.

Section Block.
Context (b : list Z) (A : Z) (m0 : memory).
Context (Hb : bytes b) (Hlen : length b = 512%nat) (HA : (512 | A)) (Hpos : 0 ≤ A) (Hend : A + 512 ≤ FLASHEND + 1).

Lemma A_page : (SPM_PAGESIZE | A).
Proof using L HA. eapply Z.divide_trans; [apply page_fits|done]. Qed.

(** Nothing has changed outside the sector. *)
Definition untouched (m : memory) : Prop :=
  (∀ x, ¬ (A ≤ x < A + 512) → pgm_read_flash x m = pgm_read_flash x m0) ∧ ∀ x, eeprom_read_byte x m = eeprom_read_byte x m0.
(** The page at [p] is erased and its words up to [a] are in the buffer. *)
Definition filled (p a : Z) (m : memory) : Prop :=
  ∀ x, p ≤ x < p + SPM_PAGESIZE → pgm_read_flash x m = 0xFF ∧ temporary m (x - p) = if decide (x < a) then at_ b (x - A) else 0xFF.
Definition programmed (p : Z) (m : memory) : Prop := ∀ x, A ≤ x < p → pgm_read_flash x m = at_ b (x - A).

(** In the page at [p], with the address [a]. *)
Record progress (p a : Z) (m : memory) : Prop := {
  pr_page : (SPM_PAGESIZE | p);
  pr_in : A ≤ p ∧ p + SPM_PAGESIZE ≤ A + 512;
  pr_addr : p ≤ a < p + SPM_PAGESIZE;
  pr_even : (2 | a);
  pr_rest : untouched m;
  pr_done : programmed p m;
  pr_filled : filled p a m }.

Lemma erase_page p m : (SPM_PAGESIZE | p) → A ≤ p ∧ p + SPM_PAGESIZE ≤ A + 512 → untouched m → programmed p m →
  progress p p (BootloaderAPI_ErasePage p m).
Proof using All.
  intros Hp Hin [Hu1 Hu2] Hd. pose proof page_pos. unfold BootloaderAPI_ErasePage.
  assert (∀ x, pgm_read_flash x (boot_rww_enable (boot_page_erase_safe p m)) =
    if decide (p ≤ x < p + SPM_PAGESIZE) then 0xFF else pgm_read_flash x m) as Hr.
  { intros x. rewrite read_enable, read_erase by lia. apply decide_ext. apply same_page; [done|lia]. }
  split; [done|done|lia| |split| |].
  - eapply Z.divide_trans; [apply page_even|done].
  - intros x Hx. rewrite Hr, decide_False by lia. by apply Hu1.
  - intros x. by rewrite eeprom_enable, eeprom_erase.
  - intros x Hx. rewrite Hr, decide_False by lia. by apply Hd.
  - intros x Hx. rewrite Hr, decide_True by lia. split; [done|]. rewrite decide_False by lia. apply temporary_enable. lia.
Qed.

Lemma fill_word p a m : progress p a m →
  let m' := BootloaderAPI_FillWord a (u16 ((at_ b (a - A + 1) << 8) .| at_ b (a - A))) m in
  untouched m' ∧ programmed p m' ∧ filled p (a + 2) m'.
Proof using All.
  intros [Hp Hin Ha Hev [Hu1 Hu2] Hd Hf] m'. pose proof page_pos. destruct page_even as [h Hh]. destruct Hp as [q Hq]. destruct Hev as [e He].
  assert (a + 2 ≤ p + SPM_PAGESIZE) as Ha2 by nia.
  pose proof (at_byte b (a - A) Hb ltac:(lia)) as B0. pose proof (at_byte b (a - A + 1) Hb ltac:(lia)) as B1.
  assert ((at_ b (a - A + 1) << 8) .| at_ b (a - A) = at_ b (a - A + 1) * 256 + at_ b (a - A)) as Ew by (apply shift_or; [lia|exact B0]).
  unfold byte in B0, B1.
  assert (a mod SPM_PAGESIZE = a - p) as Eo by (apply in_page; [by exists q|done]).
  split; [split|split].
  - intros x Hx. unfold m', BootloaderAPI_FillWord. rewrite read_fill. by apply Hu1.
  - intros x. unfold m', BootloaderAPI_FillWord. by rewrite eeprom_fill.
  - intros x Hx. unfold m', BootloaderAPI_FillWord. rewrite read_fill. by apply Hd.
  - intros x Hx. destruct (Hf x Hx) as [Hx1 Hx2]. unfold m', BootloaderAPI_FillWord. rewrite read_fill. split; [done|].
    rewrite temporary_fill; rewrite ?Eo.
    + rewrite Ew, u16_small by (unfold word16; lia).
      destruct (decide (x - p = a - p)) as [E|E]; [|destruct (decide (x - p = a - p + 1)) as [E'|E']].
      * assert (x = a) as -> by lia. rewrite decide_True by lia. rewrite (Z.add_comm (_ * 256)), Z.mod_add, Z.mod_small by lia. done.
      * assert (x = a + 1) as -> by lia. rewrite decide_True by lia. rewrite Z.div_add_l, Z.div_small by lia. rewrite Z.add_0_r. f_equal. lia.
      * rewrite Hx2. apply decide_ext. lia.
    + lia.
    + by exists e.
    + apply u16_word.
    + lia.
    + destruct (Hf a ltac:(lia)) as [_ Hta]. rewrite Hta, decide_False by lia. done.
    + destruct (Hf (a + 1) ltac:(lia)) as [_ Hta]. replace (a - p + 1) with (a + 1 - p) by lia. rewrite Hta, decide_False by lia. done.
Qed.

Lemma write_page p m : (SPM_PAGESIZE | p) → A ≤ p ∧ p + SPM_PAGESIZE ≤ A + 512 → untouched m → programmed p m →
  filled p (p + SPM_PAGESIZE) m →
  untouched (BootloaderAPI_WritePage p m) ∧ programmed (p + SPM_PAGESIZE) (BootloaderAPI_WritePage p m).
Proof using All.
  intros Hp Hin [Hu1 Hu2] Hd Hf. pose proof page_pos. unfold BootloaderAPI_WritePage.
  assert (∀ x, pgm_read_flash x (boot_rww_enable (boot_page_write_safe p m)) =
    if decide (p ≤ x < p + SPM_PAGESIZE) then pgm_read_flash x m .& temporary m (x mod SPM_PAGESIZE) else pgm_read_flash x m) as Hr.
  { intros x. rewrite read_enable, read_write by lia. apply decide_ext. apply same_page; [done|lia]. }
  split; [split|].
  - intros x Hx. rewrite Hr, decide_False by lia. by apply Hu1.
  - intros x. by rewrite eeprom_enable, eeprom_write.
  - intros x Hx. rewrite Hr. case_decide as Hd'; [|apply Hd; lia].
    rewrite (in_page p) by done. destruct (Hf x Hd') as [-> ->]. rewrite decide_True by lia.
    pose proof (at_byte b (x - A) Hb ltac:(lia)) as [? ?]. change 0xFF with (Z.ones 8). rewrite Z.land_comm, Z.land_ones by lia.
    apply Z.mod_small. change (2 ^ 8) with 256. lia.
Qed.

(** After [k] words: in the middle of a page, or between two pages. *)
Definition programming (k : Z) (v : Z * memory) : Prop :=
  v.1 = A + 2 * k ∧
  if decide (v.1 mod SPM_PAGESIZE = 0) then untouched v.2 ∧ programmed v.1 v.2
  else ∃ p, progress p v.1 v.2.

Lemma program_step k v : 0 ≤ k < 256 → programming k v → A + 512 ≤ FLASHEND →
  ∃ v', program_word b k v = Some v' ∧ programming (k + 1) v'.
Proof using All.
  intros Hk [Ea Hv] Hlt. destruct v as [a m]. cbn [fst snd] in *. unfold program_word. pose proof A_page as HAp. pose proof page_pos as HP.
  assert ((2 | a)) as Hev. { rewrite Ea. apply Z.divide_add_r; [|by exists k; lia]. eapply Z.divide_trans; [|exact HA]. by exists 256. }
  set (m1 := if a mod SPM_PAGESIZE =? 0 then BootloaderAPI_ErasePage a m else m).
  assert (∃ p, progress p a m1) as [p Hpr].
  { unfold m1. destruct (Z.eqb_spec (a mod SPM_PAGESIZE) 0) as [E|E].
    - rewrite decide_True in Hv by done. destruct Hv. exists a. apply Z.mod_divide in E; [|lia]. apply erase_page; try done.
      split; [lia|]. destruct E as [q Hq]. destruct HAp as [r Hr]. destruct page_fits as [t Ht].
      assert (q < r + t) by (apply (Z.mul_lt_mono_pos_r SPM_PAGESIZE); lia).
      assert ((q + 1) * SPM_PAGESIZE ≤ (r + t) * SPM_PAGESIZE) by (apply Z.mul_le_mono_pos_r; lia). lia.
    - by rewrite decide_False in Hv. }
  rewrite !rd_sector_at by lia. cbn [mbind option_bind]. destruct Hpr as [Hp Hin Ha _ Hu Hd Hf].
  replace (2 * k) with (a - A) by lia.
  destruct (fill_word p a m1 ltac:(done)) as (Hu' & Hd' & Hf'). set (m2 := BootloaderAPI_FillWord _ _ _) in *.
  rewrite (flash_t_small (a + 2)) by lia. eexists. split; [done|]. split; [cbn; lia|]. cbn [fst snd].
  pose proof (in_page p a Hp Ha) as Eo.
  destruct (page_step a Hev ltac:(lia)) as [[E1 E2]|[E1 E2]].
  - rewrite E2. cbn [Z.eqb]. rewrite decide_True by done.
    assert (a + 2 = p + SPM_PAGESIZE) as E3 by lia. replace (a + 2 - SPM_PAGESIZE) with p by lia. rewrite flash_t_small by lia.
    rewrite E3 in *. by apply write_page.
  - rewrite E2. destruct (Z.eqb_spec (a mod SPM_PAGESIZE + 2) 0); [lia|]. rewrite decide_False by done.
    exists p. split; try done; [lia|]. apply Z.divide_add_r; [done|]. by exists 1.
Qed.

(** The whole sector is programmed, and nothing else. *)
Lemma program_loop_block : A + 512 ≤ FLASHEND → ∃ m, program_loop b A m0 = Some m ∧ untouched m ∧
  ∀ x, A ≤ x < A + 512 → pgm_read_flash x m = at_ b (x - A).
Proof using All.
  intros Hlt. unfold program_loop, for_up. change (Z.to_nat _) with 256%nat. pose proof A_page as HAp. pose proof page_pos as HP.
  assert (∀ x, (SPM_PAGESIZE | x) → x mod SPM_PAGESIZE = 0) as Hm by (intros x Hx; apply Z.mod_divide; [lia|done]).
  destruct (for_inv programming 256 0 (program_word b) (A, m0)) as ([a m] & -> & Ea & H).
  - split; [cbn; lia|]. cbn [fst snd]. rewrite decide_True by auto. split; [done|]. intros x Hx. lia.
  - intros k v Hk Hv. by apply program_step.
  - cbn [fst snd] in *. exists m. split; [done|]. change (2 * (0 + Z.of_nat 256)) with 512 in Ea. rewrite decide_True in H.
    + rewrite Ea in H. exact H.
    + apply Hm. rewrite Ea. apply Z.divide_add_r; [done|]. eapply Z.divide_trans; [apply page_fits|]. by exists 1.
Qed.

(** The same for the EEPROM. *)
Lemma update_loop_block : A + 512 ≤ E2END + 1 → ∃ m, update_loop b A m0 = Some m ∧
  (∀ x, pgm_read_flash x m = pgm_read_flash x m0) ∧
  ∀ x, eeprom_read_byte x m = if decide (A ≤ x < A + 512) then at_ b (x - A) else eeprom_read_byte x m0.
Proof using L Hb Hlen Hpos.
  clear HA Hend. intros HE. unfold update_loop, for_up. change (Z.to_nat _) with 512%nat. pose proof eeprom_range.
  destruct (for_inv (λ i '(a, m), (i < 512 → a = A + i) ∧ (∀ x, pgm_read_flash x m = pgm_read_flash x m0) ∧
      ∀ x, eeprom_read_byte x m = if decide (A ≤ x < A + i) then at_ b (x - A) else eeprom_read_byte x m0)
    512 0 (λ i '(a, m), x ← rd b i; Some (u16 (a + 1), WriteEEPROMByte a x m)) (A, m0)) as ([a m] & -> & _ & H1 & H2).
  - split; [lia|]. split; [done|]. intros x. by rewrite decide_False by lia.
  - intros i [a m] Hi (Ha & H1 & H2). rewrite rd_sector_at by lia. eexists. split; [done|]. rewrite Ha by lia. split_and!.
    + intros Hi'. rewrite u16_small; [lia|]. unfold word16. lia.
    + intros x. unfold WriteEEPROMByte. by rewrite read_update.
    + intros x. unfold WriteEEPROMByte. rewrite eeprom_update by (lia || (apply at_byte; [done|lia])). rewrite H2.
      repeat case_decide; try lia; try done. f_equal. lia.
  - exists m. split; [done|]. split; [done|]. exact H2.
Qed.
End Block.
End Memories.

(** ** Blocks *)
Section Blocks.
Context {C : Chip} {L : ChipLaws C}.

Definition disk_wf (d : disk) : Prop := length (FirmwareFileEntries d) = 160%nat ∧ bytes (FirmwareFileEntries d).
Definition block (b : list Z) : Prop := length b = 512%nat ∧ bytes b.

Lemma StartingCluster_ok e d : disk_wf d → 0 ≤ e < 5 → ∃ c, StartingCluster e d = Some c ∧ word16 c.
Proof.
  intros [Hl Hb] He. unfold StartingCluster, rd16, sizeof_FATDirectoryEntry. rewrite !rd_sector_at by lia. eexists. split; [done|].
  pose proof (at_byte _ (e * 32 + 26) Hb ltac:(lia)) as [??]. pose proof (at_byte _ (e * 32 + 26 + 1) Hb ltac:(lia)) as [??].
  unfold word16. change (2 ^ 8) with 256. lia.
Qed.

Lemma flash_sectors : FILE_SECTORS FLASH_FILE_SIZE_BYTES * 512 = BOOT_START_ADDR - AUX_BOOT_SECTION_SIZE ∧
  0 < FILE_SECTORS FLASH_FILE_SIZE_BYTES < 65536.
Proof using L.
  pose proof boot_in_flash. destruct flash_aligned as [q Hq]. unfold FILE_SECTORS, FLASH_FILE_SIZE_BYTES, SECTOR_SIZE_BYTES.
  replace (FLASHEND - (FLASHEND - BOOT_START_ADDR) - AUX_BOOT_SECTION_SIZE) with (q * 512) by lia.
  rewrite Z.div_mul, Z.mod_mul by lia. cbn [Z.eqb]. lia.
Qed.
Lemma eeprom_sectors : FILE_SECTORS EEPROM_FILE_SIZE_BYTES * 512 = E2END + 1 ∧ 0 < FILE_SECTORS EEPROM_FILE_SIZE_BYTES < 65536.
Proof using L.
  pose proof eeprom_range. destruct eeprom_aligned as [q Hq]. unfold FILE_SECTORS, EEPROM_FILE_SIZE_BYTES, SECTOR_SIZE_BYTES.
  assert (E2END / 512 = q - 1) as E1 by (symmetry; apply Z.div_unique with 511; lia).
  assert (E2END mod 512 = 511) as E2 by (symmetry; apply Z.mod_unique with (q - 1); lia).
  rewrite E1, E2. cbn [Z.eqb]. lia.
Qed.

(** The blocks of a file are consecutive; a file that would go past block 65535
    has none. *)
Lemma file_block_Some c size n k : word16 n → 0 < FILE_SECTORS size < 65536 → file_block c size n = Some k →
  k = n - FileStartBlock c ∧ 0 ≤ k < FILE_SECTORS size.
Proof.
  unfold word16. intros Hn HN. unfold file_block, FileEndBlock. pose proof (u16_word (DISK_BLOCK_DataStartBlock + (c - 2) * SECTOR_PER_CLUSTER)) as Hs.
  fold (FileStartBlock c) in Hs. unfold word16 in Hs.
  destruct (Z.geb_spec n (FileStartBlock c)); [|done]. destruct (Z.leb_spec n (u16 (FileStartBlock c + (FILE_SECTORS size - 1)))) as [Hle|]; [|done].
  cbn [andb]. intros [= <-]. rewrite u16_small by (unfold word16; lia). split; [done|].
  split; [lia|]. unfold u16 in Hle. destruct (Z_lt_le_dec (FileStartBlock c + (FILE_SECTORS size - 1)) 65536).
  - rewrite Z.mod_small in Hle by lia. lia.
  - rewrite <-(Z.mod_add _ (-1)), Z.mod_small in Hle by lia. lia.
Qed.

(** Where block [n] is found: in the flash, and in the EEPROM. *)
Definition flash_at (d : disk) (n : Z) : option Z := c ← FLASHFileStartCluster d; file_block c FLASH_FILE_SIZE_BYTES n.
Definition eeprom_at (d : disk) (n : Z) : option Z := c ← EEPROMFileStartCluster d; file_block c EEPROM_FILE_SIZE_BYTES n.

Lemma flash_at_range d n k : word16 n → flash_at d n = Some k → 0 ≤ k * 512 ∧ k * 512 + 512 ≤ BOOT_START_ADDR - AUX_BOOT_SECTION_SIZE.
Proof using L.
  intros Hn H. apply bind_Some in H as (c & _ & H). destruct flash_sectors as [E HN].
  apply file_block_Some in H; [|done|done]. lia.
Qed.
Lemma eeprom_at_range d n k : word16 n → eeprom_at d n = Some k → 0 ≤ k * 512 ∧ k * 512 + 512 ≤ E2END + 1.
Proof using L.
  intros Hn H. apply bind_Some in H as (c & _ & H). destruct eeprom_sectors as [E HN].
  apply file_block_Some in H; [|done|done]. lia.
Qed.
Lemma flash_at_inj d n n' k : word16 n → word16 n' → flash_at d n = Some k → flash_at d n' = Some k → n = n'.
Proof using L.
  intros Hn Hn' H H'. unfold flash_at in *. destruct (FLASHFileStartCluster d) as [c|]; [|done]. cbn in H, H'.
  destruct flash_sectors as [_ HN]. apply file_block_Some in H, H'; try done. lia.
Qed.
Lemma eeprom_at_inj d n n' k : word16 n → word16 n' → eeprom_at d n = Some k → eeprom_at d n' = Some k → n = n'.
Proof using L.
  intros Hn Hn' H H'. unfold eeprom_at in *. destruct (EEPROMFileStartCluster d) as [c|]; [|done]. cbn in H, H'.
  destruct eeprom_sectors as [_ HN]. apply file_block_Some in H, H'; try done. lia.
Qed.

(** What a data block reads as. *)
Definition contents (d : disk) (n : Z) : list Z :=
  match eeprom_at d n, flash_at d n with
  | Some k, _ => sector (λ x, eeprom_read_byte x (memories d)) (k * 512)
  | None, Some k => sector (λ x, pgm_read_flash x (memories d)) (k * 512)
  | None, None => replicate 512 0
  end.

Lemma read_flash_block n d b : disk_wf d → word16 n → length b = 512%nat →
  ReadWriteFLASHFileBlock n d b true =
    Some (match flash_at d n with Some k => sector (λ x, pgm_read_flash x (memories d)) (k * 512) | None => b end, d).
Proof using L.
  intros Hd Hn Hl. destruct (StartingCluster_ok DISK_FILE_ENTRY_FLASH_MSDOS d Hd) as (c & Ec & _); [done|].
  unfold ReadWriteFLASHFileBlock. destruct (flash_at d n) as [k|] eqn:Ek; unfold flash_at, FLASHFileStartCluster in *; rewrite Ec in *; cbn [mbind option_bind] in *.
  - pose proof (flash_at_range d n k Hn) as Hr. unfold flash_at, FLASHFileStartCluster in Hr. rewrite Ec in Hr. specialize (Hr Ek).
    rewrite Ek. pose proof boot_in_flash. unfold SECTOR_SIZE_BYTES. rewrite flash_t_small by lia.
    rewrite read_loop_sector; [done|done|]. intros x Hx _. apply flash_t_small. lia.
  - by rewrite Ek.
Qed.
Lemma read_eeprom_block n d b : disk_wf d → word16 n → length b = 512%nat →
  ReadWriteEEPROMFileBlock n d b true =
    Some (match eeprom_at d n with Some k => sector (λ x, eeprom_read_byte x (memories d)) (k * 512) | None => b end, d).
Proof using L.
  intros Hd Hn Hl. destruct (StartingCluster_ok DISK_FILE_ENTRY_EEPROM_MSDOS d Hd) as (c & Ec & _); [done|].
  unfold ReadWriteEEPROMFileBlock. destruct (eeprom_at d n) as [k|] eqn:Ek; unfold eeprom_at, EEPROMFileStartCluster in *; rewrite Ec in *; cbn [mbind option_bind] in *.
  - pose proof (eeprom_at_range d n k Hn) as Hr. unfold eeprom_at, EEPROMFileStartCluster in Hr. rewrite Ec in Hr. specialize (Hr Ek).
    rewrite Ek. pose proof eeprom_range. unfold SECTOR_SIZE_BYTES. rewrite u16_small by (unfold word16; lia).
    rewrite read_loop_sector; [done|done|]. intros x Hx Hx'. apply u16_small. unfold word16. lia.
  - by rewrite Ek.
Qed.

Lemma read_data_block n d : disk_wf d → word16 n → 4 ≤ n → read_switch n d = Some (contents d n).
Proof using L.
  intros Hd Hn H4. unfold read_switch, DISK_BLOCK_BootBlock, DISK_BLOCK_FATBlock1, DISK_BLOCK_FATBlock2, DISK_BLOCK_RootFilesBlock.
  repeat (rewrite (proj2 (Z.eqb_neq n _)) by lia). cbn [orb]. rewrite read_flash_block by done. cbn [mbind option_bind fst snd].
  assert (length (match flash_at d n with Some k => sector (λ x, pgm_read_flash x (memories d)) (k * 512)
    | None => replicate (Z.to_nat SECTOR_SIZE_BYTES) 0 end) = 512%nat) as Hl by (destruct (flash_at d n); [apply length_sector|done]).
  rewrite read_eeprom_block by done. cbn -[replicate]. unfold contents.
  by destruct (eeprom_at d n), (flash_at d n).
Qed.

(** A data block is written to the place where it is read. *)
Lemma write_data_block n b d : disk_wf d → word16 n → block b → 4 ≤ n →
  ∃ m, write_switch n b d = Some (Disk (FirmwareFileEntries d) m) ∧
    (∀ x, pgm_read_flash x m = match flash_at d n with
      | Some k => if decide (k * 512 ≤ x < k * 512 + 512) then at_ b (x - k * 512) else pgm_read_flash x (memories d)
      | None => pgm_read_flash x (memories d) end) ∧
    ∀ x, eeprom_read_byte x m = match eeprom_at d n with
      | Some k => if decide (k * 512 ≤ x < k * 512 + 512) then at_ b (x - k * 512) else eeprom_read_byte x (memories d)
      | None => eeprom_read_byte x (memories d) end.
Proof using L.
  intros Hd Hn [Hl Hb] H4. unfold write_switch, DISK_BLOCK_BootBlock, DISK_BLOCK_FATBlock1, DISK_BLOCK_FATBlock2, DISK_BLOCK_RootFilesBlock.
  repeat (rewrite (proj2 (Z.eqb_neq n _)) by lia). cbn [orb].
  destruct (StartingCluster_ok DISK_FILE_ENTRY_FLASH_MSDOS d Hd) as (c & Ec & _); [done|].
  destruct (StartingCluster_ok DISK_FILE_ENTRY_EEPROM_MSDOS d Hd) as (e & Ee & _); [done|].
  pose proof (flash_at_range d n) as Hf. pose proof (eeprom_at_range d n) as He. pose proof boot_in_flash. pose proof eeprom_range.
  assert (∃ m1, ReadWriteFLASHFileBlock n d b false = Some (b, Disk (FirmwareFileEntries d) m1) ∧
    (∀ x, eeprom_read_byte x m1 = eeprom_read_byte x (memories d)) ∧
    ∀ x, pgm_read_flash x m1 = match flash_at d n with
      | Some k => if decide (k * 512 ≤ x < k * 512 + 512) then at_ b (x - k * 512) else pgm_read_flash x (memories d)
      | None => pgm_read_flash x (memories d) end) as (m1 & -> & Hm1 & Hm1').
  { unfold ReadWriteFLASHFileBlock, flash_at, FLASHFileStartCluster in *. rewrite Ec in *. cbn [mbind option_bind] in *.
    destruct (file_block c FLASH_FILE_SIZE_BYTES n) as [k|].
    - specialize (Hf k Hn eq_refl). unfold SECTOR_SIZE_BYTES. rewrite flash_t_small by lia.
      destruct (program_loop_block b (k * 512) (memories d)) as (m1 & -> & [Hu1 Hu2] & Hp); try done; try lia; [by exists k|].
      exists m1. split; [done|]. split; [done|]. intros x. case_decide; auto.
    - exists (memories d). by destruct d. }
  cbn [mbind option_bind fst snd]. unfold ReadWriteEEPROMFileBlock, eeprom_at, EEPROMFileStartCluster, StartingCluster in *.
  cbn [FirmwareFileEntries memories]. rewrite Ee in *. cbn [mbind option_bind] in *.
  destruct (file_block e EEPROM_FILE_SIZE_BYTES n) as [k|].
  - specialize (He k Hn eq_refl). unfold SECTOR_SIZE_BYTES. rewrite u16_small by (unfold word16; lia).
    destruct (update_loop_block b (k * 512) m1) as (m & -> & Hm & Hm'); try done; try lia.
    exists m. split; [done|]. split; intros x; [by rewrite Hm|]. rewrite Hm'. by rewrite Hm1.
  - exists m1. split; [done|]. auto.
Qed.
End Blocks.

(** * FAT12 tables

    The twelve-bit entries of an allocation table, and what the functions that
    fill it in do to them. *)
Lemma range_forall n (P : Z → bool) x : forallb P (seqZ 0 n) = true → 0 ≤ x < n → P x = true.
Proof. rewrite forallb_forall. intros H Hx. apply H, list_elem_of_In, elem_of_seqZ. lia. Qed.

Lemma at_insert (l : list Z) i v j : 0 ≤ i < Z.of_nat (length l) → 0 ≤ j → at_ (<[Z.to_nat i := v]> l) j = if decide (j = i) then v else at_ l j.
Proof.
  intros Hi Hj. unfold at_. rewrite !nth_lookup. case_decide as H.
  - subst. by rewrite list_lookup_insert_eq by lia.
  - by rewrite list_lookup_insert_ne by lia.
Qed.

(** Conditions that are settled by arithmetic. *)
Ltac decides := repeat first [rewrite decide_True by lia | rewrite decide_False by lia].

(** Entry [j]: three bytes hold two entries, the low one first. *)
Definition fat_entry (t : list Z) (j : Z) : Z :=
  let o := 3 * (j / 2) in
  if Z.odd j then (at_ t (o + 1) >> 4) .| (at_ t (o + 2) << 4)
  else at_ t o .| ((at_ t (o + 1) .& 0x0F) << 8).

(** A table of one sector; 171 entries are reached by an offset of 8 bits. *)
Definition table (t : list Z) : Prop := length t = 512%nat ∧ bytes t.
Lemma table_byte t i : table t → 0 ≤ i < 512 → byte (at_ t i).
Proof. intros [Hl Hb] Hi. apply at_byte; [done|lia]. Qed.
Lemma table_insert t i v : table t → byte v → table (<[i := v]> t).
Proof. intros [Hl Hb] Hv. split; [by rewrite length_insert|by apply Forall_insert]. Qed.

Lemma half i : 0 ≤ i → i = 2 * (i / 2) + (if Z.odd i then 1 else 0) ∧ Z.odd i = negb (i .& 1 =? 0) ∧ i + (i >> 1) = 3 * (i / 2) + (if Z.odd i then 1 else 0).
Proof.
  intros Hi. change (i .& 1) with (i .& Z.ones 1). rewrite Z.land_ones, Z.shiftr_div_pow2 by lia. change (2 ^ 1) with 2.
  pose proof (Zdiv.Zmod_odd i) as Ho. pose proof (Z.div_mod i 2). destruct (Z.odd i); rewrite Ho; cbn; lia.
Qed.

(** What the bytes come to. *)
Lemma even_self v : 0 ≤ v < 4096 → u8 v .| ((u8 ((u8 v .& 0xF0) .| (v >> 8)) .& 0x0F) << 8) = v.
Proof.
  intros Hv. apply Z.eqb_eq, (range_forall 4096 (λ v, u8 v .| ((u8 ((u8 v .& 0xF0) .| (v >> 8)) .& 0x0F) << 8) =? v)); [vm_compute; reflexivity|done].
Qed.
Lemma even_next v : 0 ≤ v < 4096 → u8 ((u8 v .& 0xF0) .| (v >> 8)) >> 4 = (v >> 4) .& 0x0F.
Proof.
  intros Hv. apply Z.eqb_eq, (range_forall 4096 (λ v, u8 ((u8 v .& 0xF0) .| (v >> 8)) >> 4 =? (v >> 4) .& 0x0F)); [vm_compute; reflexivity|done].
Qed.
Lemma odd_self b v : byte b → 0 ≤ v < 4096 → (u8 ((b .& 0x0F) .| ((v .& 0x0F) << 4)) >> 4) .| (u8 (v >> 4) << 4) = v.
Proof.
  intros Hb Hv.
  assert (u8 ((b .& 0x0F) .| ((v .& 0x0F) << 4)) >> 4 = v .& 0x0F) as ->.
  { assert (0 ≤ v .& 0x0F < 16) as Hn by (change 15 with (Z.ones 4); rewrite Z.land_ones by lia; apply Z.mod_pos_bound; lia).
    generalize dependent (v .& 0x0F). intros n Hn. apply Z.eqb_eq.
    assert (forallb (λ b, forallb (λ n, u8 ((b .& 0x0F) .| (n << 4)) >> 4 =? n) (seqZ 0 16)) (seqZ 0 256) = true) as H by (vm_compute; reflexivity).
    pose proof (range_forall 256 _ b H Hb) as H'. exact (range_forall 16 _ n H' Hn). }
  apply Z.eqb_eq, (range_forall 4096 (λ v, (v .& 0x0F) .| (u8 (v >> 4) << 4) =? v)); [vm_compute; reflexivity|done].
Qed.
Lemma odd_low b v : byte b → 0 ≤ v < 4096 → u8 ((b .& 0x0F) .| ((v .& 0x0F) << 4)) .& 0x0F = b .& 0x0F.
Proof.
  intros Hb Hv.
  assert (0 ≤ v .& 0x0F < 16) as Hn by (change 15 with (Z.ones 4); rewrite Z.land_ones by lia; apply Z.mod_pos_bound; lia).
  generalize dependent (v .& 0x0F). intros n Hn. apply Z.eqb_eq.
  assert (forallb (λ b, forallb (λ n, u8 ((b .& 0x0F) .| (n << 4)) .& 0x0F =? b .& 0x0F) (seqZ 0 16)) (seqZ 0 256) = true) as H by (vm_compute; reflexivity).
  pose proof (range_forall 256 _ b H Hb) as H'. exact (range_forall 16 _ n H' Hn).
Qed.

(** ** One entry *)
(** The entry behind an even one loses its low digit to the middle digit of
    what is written. *)
Definition spoiled (v old : Z) : Z := ((v >> 4) .& 0x0F) .| ((old >> 4) << 4).

Lemma spoiled_entry h v : byte h → 0 ≤ v < 4096 → ∀ b, byte b →
  ((v >> 4) .& 0x0F) .| (h << 4) = spoiled v ((b >> 4) .| (h << 4)).
Proof.
  intros Hh Hv b Hb. unfold spoiled. f_equal. f_equal. apply Z.bits_inj'. intros n Hn.
  rewrite Z.shiftr_spec, Z.lor_spec, Z.shiftr_spec, Z.shiftl_spec by lia.
  rewrite (high_bits 8 b) by (cbn; unfold byte in Hb; lia). cbn. f_equal. lia.
Qed.

Lemma UpdateEntry_spec t i v : table t → 0 ≤ i < 171 → 0 ≤ v < 4096 →
  ∃ t', UpdateFAT12ClusterEntry t i v = Some t' ∧ table t' ∧ fat_entry t' i = v ∧
    ∀ j, 0 ≤ j < 340 → j ≠ i → fat_entry t' j = if decide (j = i + 1 ∧ Z.odd i = false) then spoiled v (fat_entry t j) else fat_entry t j.
Proof.
  intros Ht Hi Hv. destruct (half i) as (E1 & E2 & E3); [lia|]. pose proof Ht as [Hl Hb].
  unfold UpdateFAT12ClusterEntry. rewrite <-E2, E3. destruct (Z.odd i) eqn:Eo; cbn iota in *.
  - rewrite u8_small by (unfold byte; lia). rewrite rd_sector_at by lia. cbn [mbind option_bind].
    rewrite wr_Some by lia. cbn [mbind option_bind]. rewrite wr_Some by (rewrite length_insert; lia).
    eexists. split; [done|]. split; [by apply table_insert; [apply table_insert|]; auto with cint|].
    split.
    + unfold fat_entry. rewrite Eo, !at_insert by (rewrite ?length_insert; lia).
      decides. apply odd_self; [|done]. apply table_byte; [done|lia].
    + intros j Hj Hne. rewrite decide_False by (intros [_ [=]]). destruct (half j) as (F1 & _); [lia|]. unfold fat_entry.
      destruct (Z.odd j); rewrite !at_insert by (rewrite ?length_insert; lia).
      * by decides.
      * rewrite (decide_False (P := 3 * (j / 2) = _)), (decide_False (P := 3 * (j / 2) = _)) by lia.
        rewrite (decide_False (P := 3 * (j / 2) + 1 = 3 * (i / 2) + 1 + 1)) by lia.
        case_decide as H; [|done]. rewrite odd_low by (done || (apply table_byte; [done|lia])). do 4 f_equal. lia.
  - rewrite u8_small by (unfold byte; lia). rewrite wr_Some by lia. cbn [mbind option_bind].
    rewrite rd_sector_at by (rewrite length_insert; lia). cbn [mbind option_bind]. rewrite wr_Some by (rewrite length_insert; lia).
    rewrite at_insert, decide_True by lia.
    eexists. split; [done|]. split; [by apply table_insert; [apply table_insert|]; auto with cint|].
    split.
    + unfold fat_entry. rewrite Eo, !at_insert by (rewrite ?length_insert; lia).
      decides. by apply even_self.
    + intros j Hj Hne. destruct (half j) as (F1 & _); [lia|]. unfold fat_entry.
      destruct (Z.odd j) eqn:Ej; rewrite !at_insert by (rewrite ?length_insert; lia).
      * rewrite (decide_False (P := 3 * (j / 2) + 2 = _)), (decide_False (P := 3 * (j / 2) + 2 = _)) by lia.
        rewrite (decide_False (P := 3 * (j / 2) + 1 = 3 * (i / 2) + 0)) by lia.
        destruct (decide (j = i + 1 ∧ false = false)) as [[H _]|H].
        -- rewrite decide_True by lia. rewrite even_next by done. apply spoiled_entry; [|done|]; (apply table_byte; [done|lia]).
        -- rewrite decide_False by (intros ?; apply H; split; [lia|done]). done.
      * rewrite !decide_False by lia. done.
Qed.

(** From entry 171 on the offset of 8 bits wraps: the entry is not written. *)
Lemma UpdateEntry_wraps t i v : table t → 171 ≤ i < 340 →
  ∃ t', UpdateFAT12ClusterEntry t i v = Some t' ∧ fat_entry t' i = fat_entry t i.
Proof.
  intros [Hl Hb] Hi. destruct (half i) as (E1 & E2 & E3); [lia|].
  assert (u8 (i + (i >> 1)) = i + (i >> 1) - 256) as Eo.
  { unfold u8. rewrite <-(Z.mod_add _ (-1)), Z.mod_small by (rewrite ?E3; destruct (Z.odd i); lia). lia. }
  unfold UpdateFAT12ClusterEntry. rewrite <-E2, Eo, E3. destruct (Z.odd i) eqn:Ei; cbn iota in *.
  - rewrite rd_sector_at by lia. cbn [mbind option_bind]. rewrite wr_Some by lia. cbn [mbind option_bind].
    rewrite wr_Some by (rewrite length_insert; lia). eexists. split; [done|].
    unfold fat_entry. rewrite Ei, !at_insert by (rewrite ?length_insert; lia). by rewrite !decide_False by lia.
  - rewrite wr_Some by lia. cbn [mbind option_bind]. rewrite rd_sector_at by (rewrite length_insert; lia).
    cbn [mbind option_bind]. rewrite wr_Some by (rewrite length_insert; lia). eexists. split; [done|].
    unfold fat_entry. rewrite Ei, !at_insert by (rewrite ?length_insert; lia). by rewrite !decide_False by lia.
Qed.

(** ** A chain *)
Definition link (c n k : Z) : Z := if k =? n - 1 then 0xFFF else c + k + 1.

Lemma UpdateChain_spec t c n : table t → 0 ≤ c → 0 < n < 256 → c + n ≤ 171 →
  ∃ t', UpdateFAT12ClusterChain t c n = Some t' ∧ table t' ∧
    (∀ k, 0 ≤ k < n → fat_entry t' (c + k) = link c n k) ∧
    (∀ j, 0 ≤ j < 340 → ¬ (c ≤ j < c + n) →
       fat_entry t' j = if decide (j = c + n ∧ Z.odd j = true) then spoiled 0xFFF (fat_entry t j) else fat_entry t j).
Proof.
  intros Ht Hc Hn Hcn. unfold UpdateFAT12ClusterChain. rewrite u8_small by (unfold byte; lia). unfold for_up. rewrite Z.sub_0_r.
  set (I := λ i t1, table t1 ∧ (∀ k, 0 ≤ k < i → fat_entry t1 (c + k) = link c n k) ∧
    ∀ j, 0 ≤ j < 340 → ¬ (c ≤ j < c + i) →
      fat_entry t1 j = if decide (0 < i ∧ j = c + i ∧ Z.odd j = true) then spoiled (link c n (i - 1)) (fat_entry t j) else fat_entry t j).
  destruct (for_inv I (Z.to_nat n) 0 (λ i t, UpdateFAT12ClusterEntry t (u16 (c + i)) (if i =? n - 1 then 0xFFF else u16 (u16 (c + i) + 1))) t)
    as (t' & -> & Ht' & H1 & H2).
  - split; [done|]. split; [lia|]. intros j Hj _. by rewrite decide_False by lia.
  - intros i t1 Hi (Ht1 & H1 & H2). rewrite !u16_small by (rewrite ?u16_small; unfold word16; lia). fold (link c n i).
    assert (0 ≤ link c n i < 4096) as Hlk by (unfold link; destruct (i =? n - 1); lia).
    destruct (UpdateEntry_spec t1 (c + i) (link c n i)) as (t2 & -> & Ht2 & Hs & Ho); [done|lia|done|].
    exists t2. split; [done|]. split; [done|]. split.
    + intros k Hk. destruct (Z.eq_dec k i) as [->|Hne]; [done|]. rewrite Ho, decide_False by lia. apply H1. lia.
    + intros j Hj Hout. rewrite Ho by lia. rewrite H2 by lia. rewrite (decide_False (P := 0 < i ∧ _)) by lia.
      replace (i + 1 - 1) with i by lia. apply decide_ext.
      replace (Z.odd (c + i) = false) with (Z.odd (c + i) = false) by done. split.
      * intros [-> E]. split_and!; [lia|lia|]. rewrite Z.add_1_r, Z.odd_succ, <-Z.negb_odd, E. done.
      * intros (_ & -> & E). split; [lia|]. rewrite Z.add_assoc, Z.add_1_r, Z.odd_succ, <-Z.negb_odd in E. by destruct (Z.odd (c + i)).
  - rewrite Z.add_0_l, Z2Nat.id in * by lia. exists t'. split_and!; [done|done|done|]. intros j Hj Hout. rewrite H2 by done.
    replace (link c n (n - 1)) with 0xFFF by (unfold link; by rewrite Z.eqb_refl). apply decide_ext. split; [tauto|]. intros [? ?]. split; [lia|done].
Qed.

(** Whatever the index is, the table is not left. *)
Lemma UpdateEntry_safe t i v : table t → 0 ≤ i → 0 ≤ v → ∃ t', UpdateFAT12ClusterEntry t i v = Some t' ∧ table t'.
Proof.
  intros Ht Hi Hv. pose proof Ht as [Hl Hb]. unfold UpdateFAT12ClusterEntry. pose proof (u8_byte (i + (i >> 1))) as Ho. unfold byte in Ho.
  set (o := u8 (i + (i >> 1))) in *. destruct (negb (i .& 1 =? 0)).
  - rewrite rd_sector_at by lia. cbn [mbind option_bind]. rewrite wr_Some by lia. cbn [mbind option_bind].
    rewrite wr_Some by (rewrite length_insert; lia). eexists. split; [done|]. apply table_insert; [apply table_insert|]; auto with cint.
  - rewrite wr_Some by lia. cbn [mbind option_bind]. rewrite rd_sector_at by (rewrite length_insert; lia). cbn [mbind option_bind].
    rewrite wr_Some by (rewrite length_insert; lia). eexists. split; [done|]. apply table_insert; [apply table_insert|]; auto with cint.
Qed.
Lemma UpdateChain_safe t c n : table t → 0 ≤ c → ∃ t', UpdateFAT12ClusterChain t c n = Some t' ∧ table t'.
Proof.
  intros Ht Hc. unfold UpdateFAT12ClusterChain, for_up. pose proof (u8_byte n) as Hn. unfold byte in Hn.
  destruct (for_inv (λ _ t, table t) (Z.to_nat (u8 n - 0)) 0 (λ i t, UpdateFAT12ClusterEntry t (u16 (c + i))
    (if i =? u8 n - 1 then 0xFFF else u16 (u16 (c + i) + 1))) t Ht) as (t' & -> & H); [|by exists t'].
  intros k t1 Hk Ht1. apply UpdateEntry_safe; [done|apply u16_word|]. destruct (k =? u8 n - 1); [lia|apply u16_word].
Qed.

(** ** The table of the volume *)
Lemma zeros_table : table (replicate 512 0).
Proof. split; [done|]. by apply Forall_replicate. Qed.
Lemma nth_repeat_0 n k : nth k (replicate n 0) 0 = 0.
Proof. revert k. induction n as [|n IH]; intros [|k]; cbn; auto. Qed.
Lemma zeros_entry j : fat_entry (replicate 512 0) j = 0.
Proof.
  assert (∀ i, at_ (replicate 512 0) i = 0) as H by (intros i; unfold at_; apply nth_repeat_0).
  unfold fat_entry. rewrite !H. by destruct (Z.odd j).
Qed.

(** What entry [j] holds when the files start at the clusters [c1] and [c2] and
    have [n1] and [n2] of them: a chain for each, the two reserved entries, and
    a stray value behind a chain that ends in an even cluster. *)
Definition fat_holds (c1 n1 c2 n2 j : Z) : Z :=
  if j =? 0 then 0xFF8 else if j =? 1 then 0xFFF
  else if (c1 <=? j) && (j <? c1 + n1) then link c1 n1 (j - c1)
  else if (c2 <=? j) && (j <? c2 + n2) then link c2 n2 (j - c2)
  else if Z.odd j && ((j =? c1 + n1) || (j =? c2 + n2)) then 0x00F
  else 0.

Lemma reserved_entries : ∃ t1 t, UpdateFAT12ClusterEntry (replicate 512 0) 0 (0xF00 .| MediaDescriptor) = Some t1 ∧
  UpdateFAT12ClusterEntry t1 1 0xFFF = Some t ∧ table t ∧
  ∀ j, 0 ≤ j < 340 → fat_entry t j = if j =? 0 then 0xFF8 else if j =? 1 then 0xFFF else 0.
Proof.
  destruct (UpdateEntry_spec (replicate 512 0) 0 (0xF00 .| MediaDescriptor)) as (t1 & E1 & T1 & S1 & O1); [apply zeros_table|lia|done|].
  destruct (UpdateEntry_spec t1 1 0xFFF) as (t2 & E2 & T2 & S2 & O2); [done|lia|lia|].
  exists t1, t2. split_and!; try done. intros j Hj. destruct (Z.eqb_spec j 0) as [->|H0]; [by rewrite O2, decide_False, S1 by lia|].
  destruct (Z.eqb_spec j 1) as [->|H1]; [done|]. rewrite O2, decide_False by (done || lia || (intros [_ [=]])).
  rewrite O1, decide_False, zeros_entry by lia. done.
Qed.

Lemma fat_table c1 n1 c2 n2 : 2 ≤ c1 → 0 < n1 < 256 → c1 + n1 ≤ c2 → 0 < n2 < 256 → c2 + n2 ≤ 171 →
  ∃ t1 t2 t3 t, UpdateFAT12ClusterEntry (replicate 512 0) 0 (0xF00 .| MediaDescriptor) = Some t1 ∧
    UpdateFAT12ClusterEntry t1 1 0xFFF = Some t2 ∧ UpdateFAT12ClusterChain t2 c1 n1 = Some t3 ∧
    UpdateFAT12ClusterChain t3 c2 n2 = Some t ∧ table t ∧ ∀ j, 0 ≤ j < 340 → fat_entry t j = fat_holds c1 n1 c2 n2 j.
Proof.
  intros Hc1 Hn1 Hc2 Hn2 Hend. destruct reserved_entries as (t1 & t2 & E1 & E2 & T2 & O2).
  destruct (UpdateChain_spec t2 c1 n1) as (t3 & E3 & T3 & S3 & O3); [done|lia|done|lia|].
  destruct (UpdateChain_spec t3 c2 n2) as (t4 & E4 & T4 & S4 & O4); [done|lia|done|lia|].
  exists t1, t2, t3, t4. split_and!; try done. intros j Hj. unfold fat_holds.
  destruct (Z.leb_spec c2 j), (Z.ltb_spec j (c2 + n2)); cbn [andb].
  - rewrite (proj2 (Z.eqb_neq j 0)), (proj2 (Z.eqb_neq j 1)), (proj2 (Z.ltb_ge j (c1 + n1))), andb_false_r by lia.
    rewrite <-S4 by lia. f_equal. lia.
  - rewrite O4 by lia. rewrite O3, O2, (proj2 (Z.eqb_neq j 0)), (proj2 (Z.eqb_neq j 1)), (proj2 (Z.ltb_ge j (c1 + n1))), andb_false_r by lia.
    rewrite (decide_False (P := j = c1 + n1 ∧ _)), (proj2 (Z.eqb_neq j (c1 + n1))) by lia. cbn [orb].
    destruct (Z.eqb_spec j (c2 + n2)), (Z.odd j); cbn [andb];
      [rewrite decide_True by done|rewrite decide_False by (intros [? ?]; done)..]; done.
  - rewrite O4, decide_False by lia. destruct (Z.leb_spec c1 j), (Z.ltb_spec j (c1 + n1)); cbn [andb]; try lia.
    + rewrite (proj2 (Z.eqb_neq j 0)), (proj2 (Z.eqb_neq j 1)) by lia. rewrite <-S3 by lia. f_equal. lia.
    + rewrite O3, O2, (proj2 (Z.eqb_neq j 0)), (proj2 (Z.eqb_neq j 1)), (proj2 (Z.eqb_neq j (c2 + n2))), orb_false_r by lia.
      destruct (Z.eqb_spec j (c1 + n1)), (Z.odd j); cbn [andb];
        [rewrite decide_True by done|rewrite decide_False by (intros [? ?]; done)..]; done.
    + rewrite O3, decide_False, O2 by lia. destruct (j =? 0), (j =? 1); try done.
      rewrite (proj2 (Z.eqb_neq j (c1 + n1))), (proj2 (Z.eqb_neq j (c2 + n2))) by lia. by rewrite andb_false_r.
  - lia.
Qed.

(** ** Every block can be read and written *)
(** Any number of blocks, written one after the other. *)
Fixpoint write_blocks `{Chip} (l : list (Z * list Z)) (d : disk) : option disk :=
  match l with [] => Some d | (n, b) :: l => d ← write_switch n b d; write_blocks l d end.
Definition is_write (w : Z * list Z) : Prop := word16 w.1 ∧ block w.2.

Section Safe.
Context {C : Chip} {L : ChipLaws C}.

Lemma le16_bytes x : bytes (le16 x).
Proof.
  assert (∀ y, byte (y .& 0xFF)) as H by (intros y; change 0xFF with (Z.ones 8); rewrite Z.land_ones by lia; apply Z.mod_pos_bound; lia).
  by repeat constructor; apply H.
Qed.
Lemma BootBlock_bytes : bytes BootBlock.
Proof.
  unfold BootBlock. repeat (apply Forall_app; split); try apply le16_bytes; try apply le32_bytes.
  all: apply (bool_decide_unpack (Forall byte _)); vm_compute; exact I.
Qed.
Lemma copy_over_block src : bytes src → (length src ≤ 512)%nat → block (copy_over (replicate 512 0) src).
Proof.
  intros Hb Hl. split; [unfold copy_over; rewrite length_app, length_drop, length_replicate; lia|].
  apply Forall_app. split; [done|]. apply Forall_drop. by apply Forall_replicate.
Qed.
Lemma sector_bytes f A : (∀ x, byte (f x)) → bytes (sector f A).
Proof. intros H. apply Forall_map, Forall_true. intros x. apply H. Qed.

(** Reading never leaves the buffer. *)
Lemma read_switch_block n d : disk_wf d → word16 n → ∃ b, read_switch n d = Some b ∧ block b.
Proof using L.
  intros Hd Hn. destruct (Z_lt_le_dec n 4) as [H4|H4].
  - unfold read_switch, DISK_BLOCK_BootBlock, DISK_BLOCK_FATBlock1, DISK_BLOCK_FATBlock2, DISK_BLOCK_RootFilesBlock.
    change (Z.to_nat SECTOR_SIZE_BYTES) with 512%nat. destruct (Z.eqb_spec n 0); [|destruct ((n =? 1) || (n =? 2)) eqn:E12].
    + destruct (copy_over_block BootBlock BootBlock_bytes) as [Hl Hb]; [apply Nat.leb_le; reflexivity|].
      rewrite wr_Some by (unfold SECTOR_SIZE_BYTES; lia). cbn [mbind option_bind].
      rewrite wr_Some by (rewrite length_insert; unfold SECTOR_SIZE_BYTES; lia). eexists. split; [done|].
      split; [by rewrite !length_insert|]. apply Forall_insert; [apply Forall_insert|]; done.
    + destruct (StartingCluster_ok DISK_FILE_ENTRY_FLASH_MSDOS d Hd) as (c & Ec & Hc); [done|].
      destruct (StartingCluster_ok DISK_FILE_ENTRY_EEPROM_MSDOS d Hd) as (e & Ee & He); [done|]. unfold word16 in Hc, He.
      destruct reserved_entries as (t1 & t2 & -> & E2 & T2 & _). cbn [mbind option_bind]. rewrite E2. cbn [mbind option_bind].
      unfold FLASHFileStartCluster, EEPROMFileStartCluster. rewrite Ec. cbn [mbind option_bind].
      destruct (UpdateChain_safe t2 c (FILE_CLUSTERS FLASH_FILE_SIZE_BYTES)) as (t3 & -> & T3); [done|lia|]. cbn [mbind option_bind].
      rewrite Ee. cbn [mbind option_bind].
      destruct (UpdateChain_safe t3 e (FILE_CLUSTERS EEPROM_FILE_SIZE_BYTES)) as (t4 & -> & T4); [done|lia|]. by exists t4.
    + destruct (Z.eqb_spec n 3); [|unfold word16 in Hn; destruct (Z.eqb_spec n 1), (Z.eqb_spec n 2); done || lia].
      destruct Hd as [Hl Hb]. eexists. split; [done|]. apply copy_over_block; [done|lia].
  - rewrite read_data_block by done. eexists. split; [done|]. unfold contents.
    destruct (eeprom_at d n); [|destruct (flash_at d n)]; (split; [by rewrite ?length_sector|]);
      try (apply sector_bytes; intros x; apply eeprom_byte || apply flash_byte). by apply Forall_replicate.
Qed.

(** One write: the flash changes in the application section only. *)
Lemma write_switch_safe n b d : disk_wf d → is_write (n, b) → ∃ d', write_switch n b d = Some d' ∧ disk_wf d' ∧
  ∀ x, ¬ (0 ≤ x < BOOT_START_ADDR - AUX_BOOT_SECTION_SIZE) → pgm_read_flash x (memories d') = pgm_read_flash x (memories d).
Proof using L.
  intros Hd [Hn Hb]. cbn in Hn, Hb. destruct (Z_lt_le_dec n 4) as [H4|H4].
  - unfold write_switch, DISK_BLOCK_BootBlock, DISK_BLOCK_FATBlock1, DISK_BLOCK_FATBlock2, DISK_BLOCK_RootFilesBlock.
    destruct ((n =? 0) || (n =? 1) || (n =? 2)) eqn:E; [by exists d|]. destruct (Z.eqb_spec n 3).
    + eexists. split; [done|]. split; [|done]. destruct Hb as [Hl Hb]. split; [|by apply Forall_take].
      cbn [FirmwareFileEntries]. rewrite length_take. unfold sizeof_FirmwareFileEntries. lia.
    + unfold word16 in Hn. destruct (Z.eqb_spec n 0), (Z.eqb_spec n 1), (Z.eqb_spec n 2); done || lia.
  - destruct (write_data_block n b d Hd Hn Hb H4) as (m & -> & Hf & _). eexists. split; [done|]. split; [done|].
    intros x Hx. cbn [memories]. rewrite Hf. destruct (flash_at d n) as [k|] eqn:Ek; [|done].
    pose proof (flash_at_range d n k Hn Ek). by rewrite decide_False by lia.
Qed.
End Safe.

(** ** An instance *)
(** The AT90USB1287 with the section sizes of the makefile. *)
Record demo_memory := DemoMemory { dm_flash : Z → Z; dm_page : Z → Z; dm_eeprom : Z → Z }.
#[local] Instance at90usb1287 : Chip := {|
  FLASHEND := 0x1FFFF; E2END := 0xFFF; SPM_PAGESIZE := 256; BOOT_START_ADDR := 0x1E000; AUX_BOOT_SECTION_SIZE := 0;
  memory := demo_memory;
  pgm_read_flash x m := u8 (dm_flash m x);
  boot_page_erase_safe a m := DemoMemory (λ x, if decide (x / 256 = a / 256) then 0xFF else dm_flash m x) (dm_page m) (dm_eeprom m);
  boot_page_fill_safe a w m := DemoMemory (dm_flash m)
    (λ o, if decide (o = a mod 256) then w mod 256 else if decide (o = a mod 256 + 1) then w / 256 else dm_page m o) (dm_eeprom m);
  boot_page_write_safe a m := DemoMemory (λ x, if decide (x / 256 = a / 256) then u8 (dm_flash m x) .& dm_page m (x mod 256) else dm_flash m x)
    (dm_page m) (dm_eeprom m);
  boot_rww_enable m := DemoMemory (dm_flash m) (λ _, 0xFF) (dm_eeprom m);
  eeprom_read_byte x m := u8 (dm_eeprom m x);
  eeprom_update_byte a v m := DemoMemory (dm_flash m) (dm_page m) (λ x, if decide (x = a) then v else dm_eeprom m x) |}.

Lemma u8_land_byte x y : u8 (u8 x .& y) = u8 x .& y.
Proof.
  unfold u8. rewrite <-!(Z.land_ones _ 8) by lia. rewrite <-!Z.land_assoc, (Z.land_comm y), !Z.land_assoc.
  by rewrite <-(Z.land_assoc x), Z.land_diag.
Qed.
#[local] Instance at90usb1287_laws : ChipLaws at90usb1287.
Proof.
  refine (Build_ChipLaws at90usb1287 _ _ _ _ _ _ _ dm_page _ _ _ _ _ _ _ _ _ _ _ _ _ _); cbn.
  - by exists 128.
  - by exists 2.
  - done.
  - done.
  - by exists 240.
  - by exists 8.
  - done.
  - intros. apply u8_byte.
  - intros. apply u8_byte.
  - intros x a m _. by case_decide.
  - done.
  - intros x a m _. case_decide; [|done]. apply u8_land_byte.
  - done.
  - done.
  - done.
  - done.
  - done.
  - done.
  - done.
  - done.
  - intros x a v m _ Hv. case_decide; [|done]. by apply u8_small.
Qed.

Definition demo_disk : disk := Disk FirmwareFileEntries_init (DemoMemory (λ _, 0xFF) (λ _, 0xFF) (λ _, 0xFF)).
Lemma demo_disk_wf : disk_wf demo_disk.
Proof. split; [reflexivity|]. apply (bool_decide_unpack (Forall byte _)). vm_compute. exact I. Qed.
