(* ===== verification/DiskProps.v ===== *)
(** * Properties of the virtual disk

    VirtualFAT.c: what a host can do to the memories of the chip through the
    disk, how blocks are stored, and how the volume describes its files. *)
From stdpp Require Import strings.
From S2P Require Import Prelude RingBuffer Machine Endpoint Packed Descriptors VirtualFAT DiskSpec.

Section Props.
Context {C : Chip} {L : ChipLaws C}.

(** C40: No host can damage the boot loader through the disk. Whatever blocks
    are written, to any addresses, also to the directory that says where the
    files start, every write is carried out without an access outside a
    buffer, the flash from the boot sections on is left as it is, and every
    block can be read afterwards. *)
Theorem bootloader_survives d l : disk_wf d → Forall is_write l →
  ∃ d', write_blocks l d = Some d' ∧ disk_wf d' ∧
    (∀ x, ¬ (0 ≤ x < BOOT_START_ADDR - AUX_BOOT_SECTION_SIZE) → pgm_read_flash x (memories d') = pgm_read_flash x (memories d)) ∧
    ∀ n, word16 n → ∃ b, read_switch n d' = Some b ∧ block b.
Proof using L.
  intros Hd Hl. revert d Hd. induction Hl as [|[n b] l Hw _ IH]; intros d Hd.
  - exists d. split_and!; try done. intros n Hn. by apply read_switch_block.
  - destruct (write_switch_safe n b d Hd Hw) as (d1 & E1 & Hd1 & Hx1). cbn [write_blocks]. rewrite E1. cbn [mbind option_bind].
    destruct (IH d1 Hd1) as (d' & E & Hd' & Hx & Hr). exists d'. split_and!; try done. intros x Hx'. rewrite Hx, Hx1; done.
Qed.

(** C39: The disk stores the blocks of its files. A block that is written is
    read back as it was, and every other block reads as before; a block of the
    data area that belongs to neither file reads as zeros. Writes to the boot
    block and the allocation tables change nothing, and the directory keeps
    the five entries it has room for. *)
Theorem disk_stores_blocks d n b : disk_wf d → word16 n → block b →
  ∃ d', write_switch n b d = Some d' ∧ disk_wf d' ∧
    (n < 3 → d' = d) ∧
    (n = 3 → memories d' = memories d ∧ read_switch 3 d' = Some (take 160 b ++ replicate 352 0)) ∧
    (4 ≤ n →
       read_switch n d' = Some (if bool_decide (flash_at d n = None ∧ eeprom_at d n = None) then replicate 512 0 else b) ∧
       ∀ n', word16 n' → n' ≠ n → read_switch n' d' = read_switch n' d).
Proof using L.
  intros Hd Hn Hb. destruct (write_switch_safe n b d Hd) as (d' & E & Hd' & _); [done|]. exists d'. split; [done|]. split; [done|].
  split_and!.
  - intros Hlt. unfold write_switch, DISK_BLOCK_BootBlock, DISK_BLOCK_FATBlock1, DISK_BLOCK_FATBlock2 in E. unfold word16 in Hn.
    destruct (Z.eqb_spec n 0), (Z.eqb_spec n 1), (Z.eqb_spec n 2); cbn in E; congruence || lia.
  - intros ->. injection E as <-. split; [done|]. destruct Hb as [Hl Hb].
    unfold read_switch, copy_over, sizeof_FirmwareFileEntries. cbn [Z.eqb DISK_BLOCK_BootBlock orb]. f_equal.
    cbn [FirmwareFileEntries]. f_equal. rewrite length_take, Hl. reflexivity.
  - intros H4. destruct (write_data_block n b d Hd Hn Hb H4) as (m & E' & Hf & He). rewrite E in E'. injection E' as ->.
    assert (∀ n', flash_at (Disk (FirmwareFileEntries d) m) n' = flash_at d n') as Ef by done.
    assert (∀ n', eeprom_at (Disk (FirmwareFileEntries d) m) n' = eeprom_at d n') as Ee by done.
    split.
    + rewrite read_data_block by done. f_equal. unfold contents. rewrite Ef, Ee. cbn [memories].
      destruct (eeprom_at d n) as [k|]; [|destruct (flash_at d n) as [k|]].
      * rewrite bool_decide_false by (intros [_ [=]]). apply sector_of; [apply Hb|]. intros x Hx. by rewrite He, decide_True.
      * rewrite bool_decide_false by (intros [[=] _]). apply sector_of; [apply Hb|]. intros x Hx. by rewrite Hf, decide_True.
      * by rewrite bool_decide_true.
    + intros n' Hn' Hne. destruct (Z_lt_le_dec n' 4) as [Hlt|Hge].
      * unfold read_switch, DISK_BLOCK_BootBlock, DISK_BLOCK_FATBlock1, DISK_BLOCK_FATBlock2, DISK_BLOCK_RootFilesBlock.
        destruct (n' =? 0) eqn:E0, ((n' =? 1) || (n' =? 2)) eqn:E1, (n' =? 3) eqn:E2; try done. unfold word16 in Hn'. lia.
      * rewrite !read_data_block by done. f_equal. unfold contents. rewrite Ef, Ee. cbn [memories].
        destruct (eeprom_at d n') as [k'|] eqn:Ek'; [|destruct (flash_at d n') as [k'|] eqn:Ek''; [|done]].
        -- apply sector_ext. intros x Hx. rewrite He. destruct (eeprom_at d n) as [k|] eqn:Ek; [|done].
           assert (k ≠ k') by (intros ->; apply Hne; by eapply eeprom_at_inj). by rewrite decide_False by lia.
        -- apply sector_ext. intros x Hx. rewrite Hf. destruct (flash_at d n) as [k|] eqn:Ek; [|done].
           assert (k ≠ k') by (intros ->; apply Hne; by eapply flash_at_inj). by rewrite decide_False by lia.
Qed.

(** The first block of a cluster, by the FAT specification: the data area
    starts behind the boot block, the two tables and the directory. *)
Definition cluster_block (c : Z) : Z := 4 + (c - 2) * 4.

Lemma clusters_pos size : 0 < size → 0 < FILE_CLUSTERS size.
Proof.
  intros H. unfold FILE_CLUSTERS. change CLUSTER_SIZE_BYTES with 2048. pose proof (Z.div_mod size 2048).
  pose proof (Z.mod_pos_bound size 2048). pose proof (Z.div_pos size 2048). destruct (Z.eqb_spec (size mod 2048) 0); lia.
Qed.
(** The blocks of the clusters are those of the file. *)
Lemma cluster_in_file c size k s : 2 ≤ c ≤ 171 → 0 ≤ k → 0 ≤ s < 4 → 4 * k + s < FILE_SECTORS size < 32768 →
  file_block c size (cluster_block (c + k) + s) = Some (4 * k + s).
Proof.
  intros Hc Hk Hs Hlt. unfold file_block, FileEndBlock, FileStartBlock, cluster_block, DISK_BLOCK_DataStartBlock, SECTOR_PER_CLUSTER.
  rewrite !(u16_small (4 + (c - 2) * 4)) by (unfold word16; lia). rewrite u16_small by (unfold word16; lia).
  rewrite Z.geb_leb, !(proj2 (Z.leb_le _ _)) by lia. cbn [andb]. f_equal. rewrite u16_small by (unfold word16; lia). lia.
Qed.

(** The files follow each other in the directory the boot loader starts
    with. *)
Lemma files_at_start m : FLASHFileStartCluster (Disk FirmwareFileEntries_init m) = Some 2 ∧
  EEPROMFileStartCluster (Disk FirmwareFileEntries_init m) = Some (2 + FILE_CLUSTERS FLASH_FILE_SIZE_BYTES).
Proof using L.
  split; [reflexivity|]. pose proof boot_in_flash as Hb.
  assert (0 ≤ FILE_CLUSTERS FLASH_FILE_SIZE_BYTES < 256) as Hc.
  { unfold FILE_CLUSTERS, FLASH_FILE_SIZE_BYTES. change CLUSTER_SIZE_BYTES with 2048.
    set (x := FLASHEND - _ - _). assert (0 ≤ x < 2 ^ 18) as Hx by (unfold x; lia). clearbody x.
    pose proof (Z.div_mod x 2048). pose proof (Z.mod_pos_bound x 2048). destruct (_ =? 0); lia. }
  set (x := 2 + FILE_CLUSTERS FLASH_FILE_SIZE_BYTES).
  change (EEPROMFileStartCluster _) with (Some ((x .& 0xFF) + ((x >> 8) .& 0xFF) * 2 ^ 8)). f_equal.
  change 0xFF with (Z.ones 8). rewrite !Z.land_ones, Z.shiftr_div_pow2 by lia. change (2 ^ 8) with 256.
  rewrite (Z.mod_small (x / 256)) by (split; [apply Z.div_pos|apply Z.div_lt_upper_bound]; lia).
  pose proof (Z.div_mod x 256). lia.
Qed.

(** C34: The allocation tables describe the files. Both tables hold, for each
    file, the chain that starts at the cluster its directory entry names and
    runs over as many clusters as the file has, closed by 0xFFF, and the two
    reserved entries; the sectors of the clusters of a chain are, in their
    order, the sectors of the memory. The rest is free, except that behind a
    chain that ends in an even cluster the next entry is given the value
    0x00F, which marks a cluster as used that belongs to no file. This holds
    while the directory, which the host may rewrite, names the clusters in
    order and without overlap - 2 at least for the flash file, the EEPROM file
    behind it - and the files end below cluster 171. In the directory the boot
    loader starts with the files are in order and adjacent. An entry from 171
    on is never recorded, because its offset of 8 bits wraps. *)
Theorem fat_links_the_files d c1 c2 (n1 := FILE_CLUSTERS FLASH_FILE_SIZE_BYTES) (n2 := FILE_CLUSTERS EEPROM_FILE_SIZE_BYTES) :
  (disk_wf d → FLASHFileStartCluster d = Some c1 → EEPROMFileStartCluster d = Some c2 →
  2 ≤ c1 → c1 + n1 ≤ c2 → c2 + n2 ≤ 171 →
  ∃ t, read_switch 1 d = Some t ∧ read_switch 2 d = Some t ∧
    (∀ j, 0 ≤ j < 340 → fat_entry t j = fat_holds c1 n1 c2 n2 j) ∧
    (∀ k s, 0 ≤ k < n1 → 0 ≤ s < 4 → 4 * k + s < FILE_SECTORS FLASH_FILE_SIZE_BYTES →
       flash_at d (cluster_block (c1 + k) + s) = Some (4 * k + s)) ∧
    (∀ k s, 0 ≤ k < n2 → 0 ≤ s < 4 → 4 * k + s < FILE_SECTORS EEPROM_FILE_SIZE_BYTES →
       eeprom_at d (cluster_block (c2 + k) + s) = Some (4 * k + s))) ∧
  (∀ m, FLASHFileStartCluster (Disk FirmwareFileEntries_init m) = Some 2 ∧
        EEPROMFileStartCluster (Disk FirmwareFileEntries_init m) = Some (2 + n1)) ∧
  (∀ t i v, table t → 171 ≤ i < 340 → ∃ t', UpdateFAT12ClusterEntry t i v = Some t' ∧ fat_entry t' i = fat_entry t i).
Proof using L.
  split; [|split; [exact files_at_start|intros; by apply UpdateEntry_wraps]]. intros Hd E1 E2 Hc1 Hc2 Hend. destruct flash_sectors as [Hs1 _]. destruct eeprom_sectors as [Hs2 _].
  pose proof boot_in_flash. pose proof eeprom_range.
  assert (0 < n1) as Hn1 by (apply clusters_pos; unfold FLASH_FILE_SIZE_BYTES; lia).
  assert (0 < n2) as Hn2 by (apply clusters_pos; unfold EEPROM_FILE_SIZE_BYTES; lia).
  destruct (fat_table c1 n1 c2 n2) as (t1 & t2 & t3 & t & F1 & F2 & F3 & F4 & _ & Ht); try lia.
  assert (∀ n, n = 1 ∨ n = 2 → read_switch n d = Some t) as Hr.
  { intros n Hn. unfold read_switch. fold n1 n2. change (Z.to_nat SECTOR_SIZE_BYTES) with 512%nat.
    replace (n =? DISK_BLOCK_BootBlock) with false by (destruct Hn as [-> | ->]; done).
    replace ((n =? DISK_BLOCK_FATBlock1) || (n =? DISK_BLOCK_FATBlock2)) with true by (destruct Hn as [-> | ->]; done).
    rewrite F1. cbn [mbind option_bind]. rewrite F2, E1. cbn [mbind option_bind]. rewrite F3, E2. exact F4. }
  exists t. split_and!.
  - by apply Hr; left.
  - by apply Hr; right.
  - exact Ht.
  - intros k s Hk Hs Hlt. unfold flash_at. rewrite E1. cbn [mbind option_bind]. apply cluster_in_file; lia.
  - intros k s Hk Hs Hlt. unfold eeprom_at. rewrite E2. cbn [mbind option_bind]. apply cluster_in_file; lia.
Qed.
End Props.

(** ** Instances *)

#[local] Existing Instances at90usb1287 at90usb1287_laws.

Definition demo_block : list Z := replicate 512 0x5A.
Lemma demo_block_ok : block demo_block.
Proof. split; [reflexivity|]. apply Forall_replicate. split; [discriminate|reflexivity]. Qed.

(** A host that moves the files, then writes all over the disk. *)
Lemma bootloader_survives_witness :
  ∃ d', write_blocks [(3, demo_block); (4, demo_block); (65535, demo_block)] demo_disk = Some d' ∧
    pgm_read_flash 0x1E000 (memories d') = 0xFF ∧ ∃ b, read_switch 1 d' = Some b ∧ block b.
Proof.
  destruct (bootloader_survives demo_disk [(3, demo_block); (4, demo_block); (65535, demo_block)]) as (d' & E & _ & Hx & Hr).
  - apply demo_disk_wf.
  - repeat (apply Forall_cons; split; [split; [split; [discriminate|reflexivity]|apply demo_block_ok]|]). apply Forall_nil. exact I.
  - exists d'. split; [exact E|]. split; [|apply Hr; split; [discriminate|reflexivity]]. rewrite Hx; [reflexivity|]. cbn. lia.
Defined.

(** Block 243 is the last sector of FLASH.BIN, block 300 is in no file. *)
Lemma disk_stores_blocks_witness :
  (∃ d', write_switch 243 demo_block demo_disk = Some d' ∧ read_switch 243 d' = Some demo_block ∧
     read_switch 244 d' = read_switch 244 demo_disk) ∧
  (∃ d', write_switch 3 demo_block demo_disk = Some d' ∧ read_switch 3 d' = Some (take 160 demo_block ++ replicate 352 0)).
Proof.
  split.
  - destruct (disk_stores_blocks demo_disk 243 demo_block) as (d' & E & _ & _ & _ & H);
      [apply demo_disk_wf|split; [discriminate|reflexivity]|apply demo_block_ok|].
    destruct H as [H1 H2]; [discriminate|]. exists d'. split; [exact E|]. split; [exact H1|].
    apply H2; [split; [discriminate|reflexivity]|discriminate].
  - destruct (disk_stores_blocks demo_disk 3 demo_block) as (d' & E & _ & _ & H & _);
      [apply demo_disk_wf|split; [discriminate|reflexivity]|apply demo_block_ok|].
    exists d'. split; [exact E|]. apply H. reflexivity.
Defined.

(** The files as they are at first: clusters 2 to 61, and 62 and 63. *)
Lemma fat_links_the_files_witness :
  ∃ t, read_switch 1 demo_disk = Some t ∧ fat_entry t 0 = 0xFF8 ∧ fat_entry t 2 = 3 ∧ fat_entry t 61 = 0xFFF ∧
    fat_entry t 62 = 63 ∧ fat_entry t 63 = 0xFFF ∧ fat_entry t 64 = 0 ∧ flash_at demo_disk 243 = Some 239.
Proof.
  destruct (proj1 (fat_links_the_files demo_disk 2 62)) as (t & E & _ & Ht & Hf & _);
    [apply demo_disk_wf|reflexivity|reflexivity|discriminate|discriminate|discriminate|].
  exists t. split; [exact E|]. rewrite !Ht by lia. repeat (split; [reflexivity|]). apply (Hf 59 3); [split; [discriminate|reflexivity]..|reflexivity].
Defined.
