(* ===== verification/Scsi.v ===== *)
(** * SCSI commands of the mass storage boot loader

    Bootloaders/MassStorage/Lib/SCSI.c and SCSI.h, with the structures and
    codes of MassStorageClassCommon.h they use, and the parts of
    BootloaderMassStorage.c around them: the callback of the class driver and
    the loop of [main]. The LEDs are left out. *)
From stdpp Require Import strings.
From S2P Require Import Prelude RingBuffer Machine Endpoint Controller EndpointPoll EndpointStream Cdc Packed Descriptors MassStorage VirtualFAT.

(** ** MassStorageClassCommon.h *)
Definition SCSI_CMD_INQUIRY : Z := 0x12.
Definition SCSI_CMD_REQUEST_SENSE : Z := 0x03.
Definition SCSI_CMD_TEST_UNIT_READY : Z := 0x00.
Definition SCSI_CMD_READ_CAPACITY_10 : Z := 0x25.
Definition SCSI_CMD_START_STOP_UNIT : Z := 0x1B.
Definition SCSI_CMD_SEND_DIAGNOSTIC : Z := 0x1D.
Definition SCSI_CMD_PREVENT_ALLOW_MEDIUM_REMOVAL : Z := 0x1E.
Definition SCSI_CMD_WRITE_10 : Z := 0x2A.
Definition SCSI_CMD_READ_10 : Z := 0x28.
Definition SCSI_CMD_VERIFY_10 : Z := 0x2F.
Definition SCSI_CMD_MODE_SENSE_6 : Z := 0x1A.
Definition SCSI_SENSE_KEY_GOOD : Z := 0x00.
Definition SCSI_SENSE_KEY_ILLEGAL_REQUEST : Z := 0x05.
Definition SCSI_ASENSE_NO_ADDITIONAL_INFORMATION : Z := 0x00.
Definition SCSI_ASENSE_INVALID_FIELD_IN_CDB : Z := 0x24.
Definition SCSI_ASENSE_INVALID_COMMAND : Z := 0x20.
Definition SCSI_ASENSE_LOGICAL_BLOCK_ADDRESS_OUT_OF_RANGE : Z := 0x21.
Definition SCSI_ASENSEQ_NO_QUALIFIER : Z := 0x00.
Definition DATA_READ : bool := true.
Definition DATA_WRITE : bool := false.

(** [SCSI_Inquiry_Response_t], and the response as its bytes: a removable block
    device, response data format 2, additional length 31. *)
Definition sizeof_SCSI_Inquiry_Response : Z := 36.
Definition InquiryData : list Z :=
  [0x00; 0x80; 0; 2; 0x1F; 0; 0; 0] ++ chars "LUFA" ++ replicate 4 0 ++ chars "Bootloader" ++ replicate 6 0 ++ chars "0.00".

(** [SCSI_Request_Sense_Response_t] *)
Definition sizeof_SCSI_Request_Sense_Response : Z := 18.
Definition sense_SenseKey : Z := 2.
Definition sense_AdditionalSenseCode : Z := 12.
Definition sense_AdditionalSenseQualifier : Z := 13.
Definition SenseData_init : list Z := [0x70; 0; 0; 0; 0; 0; 0; 0x0A] ++ replicate 10 0.

Definition SCSI_SET_SENSE (Key Acode Aqual : Z) (s : list Z) : option (list Z) :=
  b ← rd s sense_SenseKey;
  s ← wr s sense_SenseKey (u8 ((b .& 0xF0) .| (Key .& 0x0F)));
  s ← wr s sense_AdditionalSenseCode (u8 Acode);
  wr s sense_AdditionalSenseQualifier (u8 Aqual).

Section Scsi.
Context {C : Chip} {DP : DiskPort}.

(** The static variables of SCSI.c and VirtualFAT.c, and [RunBootloader]. *)
Record scsi := SCSI {
  the_disk : disk;
  SenseData : list Z;
  RunBootloader : bool }.
Definition set_disk (d : disk) (v : scsi) : scsi := SCSI d (SenseData v) (RunBootloader v).
Definition set_SenseData (s : list Z) (v : scsi) : scsi := SCSI (the_disk v) s (RunBootloader v).
Definition set_RunBootloader (b : bool) (v : scsi) : scsi := SCSI (the_disk v) (SenseData v) b.

Definition set_sense (Key Acode Aqual : Z) (v : scsi) : option scsi :=
  s ← SCSI_SET_SENSE Key Acode Aqual (SenseData v); Some (set_SenseData s v).

(** [SCSICommandData[k]] *)
Definition SCSICommandData (i : USB_ClassInfo_MS_Device_t) (k : Z) : option Z :=
  rd (CommandBlock (MS_St i)) (cbw_SCSICommandData + k).
(** [SwapEndian_16] and [SwapEndian_32] of the bytes at [k]. *)
Definition swapped_16 (i : USB_ClassInfo_MS_Device_t) (k : Z) : option Z :=
  hi ← SCSICommandData i k; lo ← SCSICommandData i (k + 1); Some (hi * 2 ^ 8 + lo).
Definition swapped_32 (i : USB_ClassInfo_MS_Device_t) (k : Z) : option Z :=
  hi ← swapped_16 i k; lo ← swapped_16 i (k + 2); Some (hi * 2 ^ 16 + lo).
(** [DataTransferLength -= n] and [DataTransferLength = 0] *)
Definition transferred (n : Z) (i : USB_ClassInfo_MS_Device_t) : option USB_ClassInfo_MS_Device_t :=
  let b := CommandBlock (MS_St i) in
  x ← rd32 b cbw_DataTransferLength; b ← wr32 b cbw_DataTransferLength (u32 (x - n)); Some (set_CommandBlock b i).
Definition no_transfer (i : USB_ClassInfo_MS_Device_t) : option USB_ClassInfo_MS_Device_t :=
  b ← wr32 (CommandBlock (MS_St i)) cbw_DataTransferLength 0; Some (set_CommandBlock b i).

(** Every command answers whether it succeeded, with the structure and the
    variables it leaves. *)
Abbreviation outcome := (bool * USB_ClassInfo_MS_Device_t * scsi)%type.

Definition SCSI_Command_Inquiry (i : USB_ClassInfo_MS_Device_t) (v : scsi) : M outcome :=
  AllocationLength ← lift (swapped_16 i 3);
  let BytesTransferred := Z.min AllocationLength sizeof_SCSI_Inquiry_Response in
  b1 ← lift (SCSICommandData i 1);
  b2 ← lift (SCSICommandData i 2);
  if tst b1 ((1 << 0) .| (1 << 1)) || negb (b2 =? 0) then
    v ← lift (set_sense SCSI_SENSE_KEY_ILLEGAL_REQUEST SCSI_ASENSE_INVALID_FIELD_IN_CDB SCSI_ASENSEQ_NO_QUALIFIER v);
    mret (false, i, v)
  else
    port_Write_Stream_LE InquiryData BytesTransferred;;
    port_Null_Stream (u16 (AllocationLength - BytesTransferred));;
    port_ClearIN;;
    i ← lift (transferred BytesTransferred i);
    mret (true, i, v).

Definition SCSI_Command_Request_Sense (i : USB_ClassInfo_MS_Device_t) (v : scsi) : M outcome :=
  AllocationLength ← lift (SCSICommandData i 4);
  let BytesTransferred := Z.min AllocationLength sizeof_SCSI_Request_Sense_Response in
  port_Write_Stream_LE (SenseData v) BytesTransferred;;
  port_Null_Stream (u16 (AllocationLength - BytesTransferred));;
  port_ClearIN;;
  i ← lift (transferred BytesTransferred i);
  mret (true, i, v).

Definition SCSI_Command_Read_Capacity_10 (i : USB_ClassInfo_MS_Device_t) (v : scsi) : M outcome :=
  port_Write_32_BE (LUN_MEDIA_BLOCKS - 1);;
  port_Write_32_BE SECTOR_SIZE_BYTES;;
  port_ClearIN;;
  i ← lift (transferred 8 i);
  mret (true, i, v).

(** The loop over the blocks, [n] of them left; [junk k] is what the buffer on
    the stack holds when block [k] is written. *)
Fixpoint block_loop (junk : Z → list Z) (IsDataRead : bool) (n : nat) (block : Z) (d : disk) : M disk :=
  match n with
  | O => mret d
  | S n =>
    d ← (if IsDataRead then VirtualFAT_ReadBlock (u16 block) d;; mret d else VirtualFAT_WriteBlock (junk block) (u16 block) d);
    block_loop junk IsDataRead n (block + 1) d
  end.

Definition SCSI_Command_ReadWrite_10 (junk : Z → list Z) (i : USB_ClassInfo_MS_Device_t) (IsDataRead : bool) (v : scsi) : M outcome :=
  a ← lift (swapped_32 i 2);
  let BlockAddress := u16 a in
  TotalBlocks ← lift (swapped_16 i 7);
  if BlockAddress >=? LUN_MEDIA_BLOCKS then
    v ← lift (set_sense SCSI_SENSE_KEY_ILLEGAL_REQUEST SCSI_ASENSE_LOGICAL_BLOCK_ADDRESS_OUT_OF_RANGE SCSI_ASENSEQ_NO_QUALIFIER v);
    mret (false, i, v)
  else
    d ← block_loop junk IsDataRead (Z.to_nat TotalBlocks) BlockAddress (the_disk v);
    i ← lift (transferred (u32 (TotalBlocks * SECTOR_SIZE_BYTES)) i);
    mret (true, i, set_disk d v).

Definition SCSI_Command_ModeSense_6 (i : USB_ClassInfo_MS_Device_t) (v : scsi) : M outcome :=
  port_Write_32_LE 0;;
  port_ClearIN;;
  i ← lift (transferred 4 i);
  mret (true, i, v).

(** The commands that just succeed. *)
Definition SCSI_succeeds (i : USB_ClassInfo_MS_Device_t) (v : scsi) : M outcome :=
  i ← lift (no_transfer i); mret (true, i, v).

(** The [switch]. *)
Definition SCSI_dispatch (junk : Z → list Z) (i : USB_ClassInfo_MS_Device_t) (v : scsi) : M outcome :=
  c ← lift (SCSICommandData i 0);
  if c =? SCSI_CMD_INQUIRY then SCSI_Command_Inquiry i v
  else if c =? SCSI_CMD_REQUEST_SENSE then SCSI_Command_Request_Sense i v
  else if c =? SCSI_CMD_READ_CAPACITY_10 then SCSI_Command_Read_Capacity_10 i v
  else if c =? SCSI_CMD_WRITE_10 then SCSI_Command_ReadWrite_10 junk i DATA_WRITE v
  else if c =? SCSI_CMD_READ_10 then SCSI_Command_ReadWrite_10 junk i DATA_READ v
  else if c =? SCSI_CMD_MODE_SENSE_6 then SCSI_Command_ModeSense_6 i v
  else if c =? SCSI_CMD_START_STOP_UNIT then
    b4 ← lift (SCSICommandData i 4);
    SCSI_succeeds i (set_RunBootloader (negb (b4 .& 0x03 =? 0x02)) v)
  else if (c =? SCSI_CMD_SEND_DIAGNOSTIC) || (c =? SCSI_CMD_TEST_UNIT_READY) ||
          (c =? SCSI_CMD_PREVENT_ALLOW_MEDIUM_REMOVAL) || (c =? SCSI_CMD_VERIFY_10) then SCSI_succeeds i v
  else
    v ← lift (set_sense SCSI_SENSE_KEY_ILLEGAL_REQUEST SCSI_ASENSE_INVALID_COMMAND SCSI_ASENSEQ_NO_QUALIFIER v);
    mret (false, i, v).

Definition SCSI_DecodeSCSICommand (junk : Z → list Z) (i : USB_ClassInfo_MS_Device_t) (v : scsi) : M outcome :=
  r ← SCSI_dispatch junk i v;
  if (r.1.1 : bool) then
    v ← lift (set_sense SCSI_SENSE_KEY_GOOD SCSI_ASENSE_NO_ADDITIONAL_INFORMATION SCSI_ASENSEQ_NO_QUALIFIER r.2);
    mret (r.1, v)
  else mret r.

(** ** BootloaderMassStorage.c *)
Record bootloader := Bootloader {
  the_scsi : scsi;
  TicksSinceLastCommand : Z }.

Definition CALLBACK_MS_Device_SCSICommandReceived (junk : Z → list Z) (i : USB_ClassInfo_MS_Device_t) (v : bootloader) :
    M (bool * USB_ClassInfo_MS_Device_t * bootloader) :=
  r ← SCSI_DecodeSCSICommand junk i (the_scsi v);
  mret (r.1, Bootloader r.2 0).

(** [while (RunBootloader || TicksSinceLastCommand++ < 0xFF)]: [n] times at
    most; the answer says whether the loop was left. [MS_Device_USBTask] and
    [USB_USBTask] are those of the AVR8 build. *)
Fixpoint boot_loop (MS_Device_USBTask : USB_ClassInfo_MS_Device_t → bootloader → M (USB_ClassInfo_MS_Device_t * bootloader))
    (USB_USBTask : M unit) (n : nat) (i : USB_ClassInfo_MS_Device_t) (v : bootloader) :
    M (bool * USB_ClassInfo_MS_Device_t * bootloader) :=
  match n with
  | O => mret (false, i, v)
  | S n =>
    let ticks := TicksSinceLastCommand v in
    let again := RunBootloader (the_scsi v) || (ticks <? 0xFF) in
    let v := if RunBootloader (the_scsi v) then v else Bootloader (the_scsi v) (u8 (ticks + 1)) in
    if again then
      w ← MS_Device_USBTask i v;
      USB_USBTask;;
      boot_loop MS_Device_USBTask USB_USBTask n w.1 w.2
    else mret (true, i, v)
  end.
End Scsi.
