(* ===== verification/ScsiSpec.v ===== *)
(** * SCSI commands: lemmas

    What SCSI.c may rely on of the endpoints, class [PortLaws], the replies the
    commands have, relation [scsi_reply], and the proof that SCSI.c gives
    them. *)
From stdpp Require Import strings.
From S2P Require Import Prelude RingBuffer Machine Endpoint Controller EndpointPoll EndpointStream Cdc Descriptors Packed Logic EndpointSpec EndpointData BulkSpec MassStorage VirtualFAT DiskSpec Scsi.

(** ** The endpoints *)
Definition be32 (x : Z) : list Z := [u8 (x >> 24); u8 (x >> 16); u8 (x >> 8); u8 x].

(** [sending p s]: the IN endpoint is selected and ready, and the bytes [p]
    have been written since the last packet was handed over; [wire] is what has
    been handed over so far. [receiving l s]: the OUT endpoint is selected, and
    the host sends [l], in full packets. Every function takes a bounded number
    of events. *)
Class PortLaws (DP : DiskPort) := {
  sending : list Z → mach → Prop;
  receiving : list Z → mach → Prop;
  wire : mach → list Z;
  send_Stream b (n : nat) p s : sending p s → (n ≤ length b)%nat → bytes b → Z.of_nat n < 65536 → (n < length (script s))%nat →
    ∃ p' s', port_Write_Stream_LE b (Z.of_nat n) s = Ok tt s' ∧ sending p' s' ∧ wire s' ++ p' = wire s ++ p ++ take n b ∧
      (length (script s) ≤ length (script s') + S n)%nat;
  send_Null (n : nat) p s : sending p s → Z.of_nat n < 65536 → (n < length (script s))%nat →
    ∃ p' s', port_Null_Stream (Z.of_nat n) s = Ok tt s' ∧ sending p' s' ∧ wire s' ++ p' = wire s ++ p ++ replicate n 0 ∧
      (length (script s) ≤ length (script s') + S n)%nat;
  send_32_BE x p s : sending p s → (length p + 4 ≤ 64)%nat →
    ∃ s', port_Write_32_BE x s = Ok tt s' ∧ sending (p ++ be32 x) s' ∧ wire s' = wire s ∧ length (script s') = length (script s);
  send_32_LE x p s : sending p s → (length p + 4 ≤ 64)%nat →
    ∃ s', port_Write_32_LE x s = Ok tt s' ∧ sending (p ++ le32 x) s' ∧ wire s' = wire s ∧ length (script s') = length (script s);
  send_ClearIN p s : sending p s →
    ∃ s', port_ClearIN s = Ok tt s' ∧ sending [] s' ∧ wire s' = wire s ++ p ∧ length (script s') = length (script s);
  receive_block data rest junk s : receiving (data ++ rest) s → length data = 512%nat → bytes data → length junk = 512%nat →
    (512 < length (script s))%nat →
    ∃ s1 s', port_Read_Stream_LE junk 512 s = Ok data s1 ∧ port_ClearOUT s1 = Ok tt s' ∧ receiving rest s' ∧
      wire s' = wire s ∧ (length (script s) ≤ length (script s') + 513)%nat }.

(** ** The command block *)
Definition command_wf (i : USB_ClassInfo_MS_Device_t) : Prop :=
  length (CommandBlock (MS_St i)) = 31%nat ∧ bytes (CommandBlock (MS_St i)).

Lemma SCSICommandData_ok i k : command_wf i → 0 ≤ k < 16 → ∃ x, SCSICommandData i k = Some x ∧ byte x.
Proof.
  intros [Hl Hb] Hk. exists (at_ (CommandBlock (MS_St i)) (cbw_SCSICommandData + k)).
  unfold SCSICommandData, cbw_SCSICommandData. split; [apply rd_sector_at|apply at_byte; [done|]]; lia.
Qed.
Lemma swapped_16_ok i k : command_wf i → 0 ≤ k < 15 → ∃ x, swapped_16 i k = Some x ∧ word16 x.
Proof.
  intros Hi Hk. destruct (SCSICommandData_ok i k Hi) as (h & Eh & Hh); [lia|]. destruct (SCSICommandData_ok i (k + 1) Hi) as (l & El & Hl); [lia|].
  exists (h * 2 ^ 8 + l). unfold swapped_16. rewrite Eh, El. split; [done|]. unfold byte, word16 in *. lia.
Qed.
Lemma swapped_32_ok i k : command_wf i → 0 ≤ k < 13 → ∃ x, swapped_32 i k = Some x ∧ 0 ≤ x < 2 ^ 32.
Proof.
  intros Hi Hk. destruct (swapped_16_ok i k Hi) as (h & Eh & Hh); [lia|]. destruct (swapped_16_ok i (k + 2) Hi) as (l & El & Hl); [lia|].
  exists (h * 2 ^ 16 + l). unfold swapped_32. rewrite Eh, El. split; [done|]. unfold word16 in *. lia.
Qed.

(** The structure with [x] for the data transfer length. *)
Record with_length (x : Z) (i i' : USB_ClassInfo_MS_Device_t) : Prop := {
  wl_cfg : MS_Cfg i' = MS_Cfg i;
  wl_status : CommandStatus (MS_St i') = CommandStatus (MS_St i);
  wl_reset : IsMassStoreReset (MS_St i') = IsMassStoreReset (MS_St i);
  wl_wf : command_wf i';
  wl_length : rd32 (CommandBlock (MS_St i')) cbw_DataTransferLength = Some x;
  wl_head : take 8 (CommandBlock (MS_St i')) = take 8 (CommandBlock (MS_St i));
  wl_tail : drop 12 (CommandBlock (MS_St i')) = drop 12 (CommandBlock (MS_St i)) }.

Lemma assign_length x i : command_wf i → 0 ≤ x < 2 ^ 32 →
  ∃ b, wr32 (CommandBlock (MS_St i)) cbw_DataTransferLength x = Some b ∧ with_length x i (set_CommandBlock b i).
Proof.
  intros [Hl Hb] Hx. unfold wr32, cbw_DataTransferLength. destruct (wr_bytes_ok (CommandBlock (MS_St i)) 8 (le32 x)) as [b E]; [done|cbn; lia|].
  exists b. split; [done|]. destruct (wr_bytes_lookup _ _ _ _ E) as [Hlen Hk]. cbn [length le32 map] in Hk.
  split; try done; cbn [set_CommandBlock MS_St CommandBlock].
  - split; [cbn; congruence|]. cbn. eapply wr_bytes_bytes; [exact E|done|apply le32_bytes].
  - unfold cbw_DataTransferLength. rewrite rd32_block by done. change 4%nat with (length (le32 x)).
    rewrite (wr_bytes_block _ _ _ _ E) by done. rewrite rd32_le32. unfold u32. by rewrite Z.mod_small.
  - exact (wr_bytes_other _ _ _ _ 0 8 E ltac:(done) ltac:(left; done)).
  - pose proof (wr_bytes_other _ _ _ _ 12 19 E ltac:(done) ltac:(right; done)) as H. change (Z.to_nat 12) with 12%nat in H.
    rewrite !take_ge in H by (rewrite length_drop; lia). exact H.
Qed.
Lemma transferred_ok n i : command_wf i → ∃ x i', rd32 (CommandBlock (MS_St i)) cbw_DataTransferLength = Some x ∧
  transferred n i = Some i' ∧ with_length (u32 (x - n)) i i'.
Proof.
  intros Hi. pose proof Hi as [Hl Hb]. destruct (rd32_ok (CommandBlock (MS_St i)) cbw_DataTransferLength) as [x Ex]; [done|by rewrite Hl|].
  destruct (assign_length (u32 (x - n)) i Hi) as (b & E & H); [unfold u32; apply Z.mod_pos_bound; lia|].
  exists x, (set_CommandBlock b i). split; [done|]. split; [|done]. unfold transferred. rewrite Ex. cbn [mbind option_bind]. by rewrite E.
Qed.
Lemma no_transfer_ok i : command_wf i → ∃ i', no_transfer i = Some i' ∧ with_length 0 i i'.
Proof.
  intros Hi. destruct (assign_length 0 i Hi) as (b & E & H); [lia|]. exists (set_CommandBlock b i). unfold no_transfer. by rewrite E.
Qed.

(** ** Sense data *)
Definition sense (key code : Z) : list Z := [0x70; 0; key; 0; 0; 0; 0; 0x0A; 0; 0; 0; 0; code; 0; 0; 0; 0; 0].
Lemma sense_init : SenseData_init = sense 0 0.
Proof. done. Qed.
Lemma SET_SENSE_ok key code k c : 0 ≤ key < 16 → byte code → 0 ≤ k < 16 → SCSI_SET_SENSE key code 0 (sense k c) = Some (sense key code).
Proof.
  intros Hk Hc Hk'.
  assert (u8 ((k .& 0xF0) .| (key .& 0x0F)) = key) as E.
  { assert (forallb (λ k, forallb (λ key, u8 ((k .& 0xF0) .| (key .& 0x0F)) =? key) (seqZ 0 16)) (seqZ 0 16) = true) as H by (vm_compute; reflexivity).
    apply Z.eqb_eq. pose proof (range_forall 16 _ k H Hk') as H'. exact (range_forall 16 _ key H' Hk). }
  unfold SCSI_SET_SENSE. change (rd (sense k c) sense_SenseKey) with (Some k). cbn [mbind option_bind]. rewrite E.
  cbn -[u8]. rewrite (u8_small code) by done. done.
Qed.

(** ** Replies *)
Section Replies.
Context {C : Chip} {DP : DiskPort}.

Definition vars_wf (v : scsi) : Prop :=
  disk_wf (the_disk v) ∧ ∃ key code, 0 ≤ key < 16 ∧ byte code ∧ SenseData v = sense key code.
Definition served (v : scsi) : scsi := set_SenseData (sense 0 0) v.
Definition refused (code : Z) (v : scsi) : scsi := set_SenseData (sense SCSI_SENSE_KEY_ILLEGAL_REQUEST code) v.

(** [n] bytes of a response of any length: cut, or padded with zeros. *)
Definition padded (b : list Z) (n : Z) : list Z := take (Z.to_nat n) (b ++ replicate (Z.to_nat n) 0).
(** [n] blocks of the disk from [a] on. *)
Definition blocks_from (a n : Z) (d : disk) : list Z :=
  concat (map (λ k, default [] (read_switch (u16 k) d)) (seqZ a n)).

Abbreviation cdb := SCSICommandData.

(** The reply to the command in [i]: whether it succeeds, the bytes that are
    sent, how many of them are counted, and the variables afterwards. No count
    means that the data transfer length becomes zero. The block address of READ
    (10) is cut to 16 bits before it is compared with the size of the disk, as
    the code does: 0x10000 is block 0. WRITE (10) has data to receive and is
    treated below. *)
Inductive scsi_reply (i : USB_ClassInfo_MS_Device_t) (v : scsi) : bool → list Z → option Z → scsi → Prop :=
  | reply_inquiry n b1 : cdb i 0 = Some SCSI_CMD_INQUIRY → swapped_16 i 3 = Some n →
      cdb i 1 = Some b1 → tst b1 3 = false → cdb i 2 = Some 0 →
      scsi_reply i v true (padded InquiryData n) (Some (Z.min n 36)) (served v)
  | reply_inquiry_page b1 b2 : cdb i 0 = Some SCSI_CMD_INQUIRY → cdb i 1 = Some b1 → cdb i 2 = Some b2 → tst b1 3 = true ∨ b2 ≠ 0 →
      scsi_reply i v false [] (Some 0) (refused SCSI_ASENSE_INVALID_FIELD_IN_CDB v)
  | reply_sense n : cdb i 0 = Some SCSI_CMD_REQUEST_SENSE → cdb i 4 = Some n →
      scsi_reply i v true (padded (SenseData v) n) (Some (Z.min n 18)) (served v)
  | reply_capacity : cdb i 0 = Some SCSI_CMD_READ_CAPACITY_10 →
      scsi_reply i v true (be32 (LUN_MEDIA_BLOCKS - 1) ++ be32 512) (Some 8) (served v)
  | reply_read a n : cdb i 0 = Some SCSI_CMD_READ_10 → swapped_32 i 2 = Some a → swapped_16 i 7 = Some n → u16 a < LUN_MEDIA_BLOCKS →
      scsi_reply i v true (blocks_from (u16 a) n (the_disk v)) (Some (512 * n)) (served v)
  | reply_read_range a : cdb i 0 = Some SCSI_CMD_READ_10 → swapped_32 i 2 = Some a → LUN_MEDIA_BLOCKS ≤ u16 a →
      scsi_reply i v false [] (Some 0) (refused SCSI_ASENSE_LOGICAL_BLOCK_ADDRESS_OUT_OF_RANGE v)
  | reply_mode_sense : cdb i 0 = Some SCSI_CMD_MODE_SENSE_6 → scsi_reply i v true (replicate 4 0) (Some 4) (served v)
  | reply_start_stop b4 : cdb i 0 = Some SCSI_CMD_START_STOP_UNIT → cdb i 4 = Some b4 →
      scsi_reply i v true [] None (served (set_RunBootloader (negb (b4 .& 3 =? 2)) v))
  | reply_nothing c : cdb i 0 = Some c →
      c ∈ [SCSI_CMD_SEND_DIAGNOSTIC; SCSI_CMD_TEST_UNIT_READY; SCSI_CMD_PREVENT_ALLOW_MEDIUM_REMOVAL; SCSI_CMD_VERIFY_10] →
      scsi_reply i v true [] None (served v)
  | reply_unknown c : cdb i 0 = Some c →
      c ∉ [SCSI_CMD_INQUIRY; SCSI_CMD_REQUEST_SENSE; SCSI_CMD_READ_CAPACITY_10; SCSI_CMD_WRITE_10; SCSI_CMD_READ_10; SCSI_CMD_MODE_SENSE_6;
           SCSI_CMD_START_STOP_UNIT; SCSI_CMD_SEND_DIAGNOSTIC; SCSI_CMD_TEST_UNIT_READY; SCSI_CMD_PREVENT_ALLOW_MEDIUM_REMOVAL; SCSI_CMD_VERIFY_10] →
      scsi_reply i v false [] (Some 0) (refused SCSI_ASENSE_INVALID_COMMAND v).

(** The structure after a reply. *)
Definition counted (count : option Z) (i i' : USB_ClassInfo_MS_Device_t) : Prop :=
  match count with
  | Some n => ∃ x, rd32 (CommandBlock (MS_St i)) cbw_DataTransferLength = Some x ∧ with_length (u32 (x - n)) i i'
  | None => with_length 0 i i'
  end.

Context {PL : PortLaws DP} {L : ChipLaws C}.

(** The number of events that are enough for the command in [i]. *)
Definition patience (i : USB_ClassInfo_MS_Device_t) : nat :=
  match swapped_16 i 7, swapped_16 i 3 with Some n, Some m => 1024 * Z.to_nat n + 2 * Z.to_nat m + 514 | _, _ => 0 end.
Lemma patience_ge i : command_wf i → ∃ n m, swapped_16 i 7 = Some n ∧ word16 n ∧ swapped_16 i 3 = Some m ∧ word16 m ∧
  patience i = (1024 * Z.to_nat n + 2 * Z.to_nat m + 514)%nat.
Proof.
  intros Hi. destruct (swapped_16_ok i 7 Hi) as (n & En & Hn); [lia|]. destruct (swapped_16_ok i 3 Hi) as (m & Em & Hm); [lia|].
  exists n, m. unfold patience. rewrite En, Em. auto.
Qed.
Lemma length_padded b n : length (padded b n) = Z.to_nat n.
Proof. unfold padded. rewrite length_take, length_app, length_replicate. lia. Qed.

(** A reply, in a run. *)
Definition replies (i : USB_ClassInfo_MS_Device_t) (v : scsi) (s : mach) (r : bool * USB_ClassInfo_MS_Device_t * scsi) (s' : mach) : Prop :=
  ∃ data count, scsi_reply i v r.1.1 data count (if r.1.1 then served r.2 else r.2) ∧ counted count i r.1.2 ∧ vars_wf r.2 ∧
    sending [] s' ∧ wire s' = wire s ++ data ∧ (length (script s) ≤ length (script s') + patience i)%nat.

Lemma with_length_refl i x : command_wf i → rd32 (CommandBlock (MS_St i)) cbw_DataTransferLength = Some x → with_length (u32 (x - 0)) i i.
Proof.
  intros Hi E. split; try done. rewrite Z.sub_0_r. pose proof (rd32_range _ _ _ E (proj2 Hi)). unfold u32. by rewrite Z.mod_small.
Qed.
Lemma counted_0 i : command_wf i → counted (Some 0) i i.
Proof.
  intros Hi. pose proof Hi as [Hl _]. destruct (rd32_ok (CommandBlock (MS_St i)) cbw_DataTransferLength) as [x Ex]; [done|by rewrite Hl|].
  exists x. split; [done|]. by apply with_length_refl.
Qed.

Lemma wp_sense key code v Q B s : 0 ≤ key < 16 → byte code → vars_wf v → Q (set_SenseData (sense key code) v) s →
  wp (lift (set_sense key code SCSI_ASENSEQ_NO_QUALIFIER v)) Q B s.
Proof.
  intros Hk Hc [_ (k & c & Hk' & _ & Es)] HQ. eapply wp_lift; [|exact HQ]. unfold set_sense. rewrite Es.
  change SCSI_ASENSEQ_NO_QUALIFIER with 0. by rewrite SET_SENSE_ok.
Qed.
Lemma vars_wf_sense key code v : vars_wf v → 0 ≤ key < 16 → byte code → vars_wf (set_SenseData (sense key code) v).
Proof. intros [Hd _] Hk Hc. split; [done|]. by exists key, code. Qed.

(** A response that is sent from a buffer and padded. *)
Lemma wp_padded b n count i v s (Q : bool * USB_ClassInfo_MS_Device_t * scsi → mach → Prop) B : command_wf i → bytes b → word16 n →
  count = Z.min n (Z.of_nat (length b)) → sending [] s → (2 * Z.to_nat n + 2 ≤ length (script s))%nat →
  (∀ i' s', counted (Some count) i i' → sending [] s' → wire s' = wire s ++ padded b n →
     (length (script s) ≤ length (script s') + 2 * Z.to_nat n + 2)%nat → Q (true, i', v) s') →
  wp (port_Write_Stream_LE b count;; port_Null_Stream (u16 (n - count));; port_ClearIN;; i ← lift (transferred count i); mret (true, i, v)) Q B s.
Proof using PL.
  unfold word16. intros Hi Hb Hn Hc Hs Hev HQ.
  destruct (send_Stream b (Z.to_nat count) [] s) as (p1 & s1 & E1 & Hs1 & W1 & V1); [done|lia|done|lia|lia|].
  rewrite Z2Nat.id in E1 by lia. apply wp_bind. eapply wp_Ok; [exact E1|].
  destruct (send_Null (Z.to_nat (n - count)) p1 s1) as (p2 & s2 & E2 & Hs2 & W2 & V2); [done|lia|lia|].
  rewrite Z2Nat.id in E2 by lia. rewrite u16_small by (unfold word16; lia). apply wp_bind. eapply wp_Ok; [exact E2|].
  destruct (send_ClearIN p2 s2 Hs2) as (s3 & E3 & Hs3 & W3 & V3). apply wp_bind. eapply wp_Ok; [exact E3|].
  destruct (transferred_ok count i Hi) as (x & i' & Ex & Et & Hw). apply wp_bind. eapply wp_lift; [exact Et|]. apply wp_ret.
  assert (padded b n = take (Z.to_nat count) b ++ replicate (Z.to_nat (n - count)) 0) as Ep.
  { unfold padded. rewrite take_app, take_replicate. subst count. destruct (Z.le_ge_cases n (Z.of_nat (length b))).
    - rewrite Z.min_l by lia. rewrite Z.sub_diag. f_equal. f_equal. lia.
    - rewrite Z.min_r by lia. rewrite !take_ge by lia. f_equal. f_equal. lia. }
  apply HQ; [by exists x|done| |].
  - rewrite Ep, W3, W2, app_assoc, W1. cbn. by rewrite app_assoc.
  - lia.
Qed.

(** Blocks that are read. *)
Lemma wp_read_blocks junk n a d Q B s : disk_wf d → sending [] s → (1024 * n + 1 ≤ length (script s))%nat →
  (∀ s', sending [] s' → wire s' = wire s ++ blocks_from a (Z.of_nat n) d → length (blocks_from a (Z.of_nat n) d) = (512 * n)%nat →
     (length (script s) ≤ length (script s') + 513 * n)%nat → Q d s') →
  wp (block_loop junk true n a d) Q B s.
Proof using PL L.
  intros Hd. revert a s Q. induction n as [|n IH]; intros a s Q Hs Hev HQ; cbn [block_loop].
  { apply wp_ret. apply HQ; try done; [by rewrite app_nil_r|lia]. }
  destruct (read_switch_block (u16 a) d Hd (u16_word a)) as (b & Eb & Hlb & Hb).
  unfold VirtualFAT_ReadBlock. apply wp_bind, wp_bind, wp_bind. eapply wp_lift; [exact Eb|].
  destruct (send_Stream b 512 [] s) as (p1 & s1 & E1 & Hs1 & W1 & V1); [done|lia|done|lia|lia|].
  apply wp_bind. eapply wp_Ok; [exact E1|]. destruct (send_ClearIN p1 s1 Hs1) as (s2 & E2 & Hs2 & W2 & V2). eapply wp_Ok; [exact E2|].
  apply wp_ret. rewrite take_ge in W1 by lia.
  assert (blocks_from a (Z.of_nat (S n)) d = b ++ blocks_from (a + 1) (Z.of_nat n) d) as Eb'.
  { unfold blocks_from. rewrite Nat2Z.inj_succ, seqZ_cons by lia. cbn [map concat]. rewrite Eb. cbn. f_equal. f_equal. f_equal. f_equal; lia. }
  apply IH; [done|lia|]. intros s' Hs' W V Hl. apply HQ; [done| | |lia].
  - rewrite Eb', W, W2, W1. cbn. by rewrite app_assoc.
  - rewrite Eb', length_app, V. lia.
Qed.

(** A response of a few bytes that is assembled in the packet. *)
Lemma wp_counted n i (v : scsi) (Q : bool * USB_ClassInfo_MS_Device_t * scsi → mach → Prop) B s : command_wf i →
  (∀ i', counted (Some n) i i' → Q (true, i', v) s) → wp (i ← lift (transferred n i); mret (true, i, v)) Q B s.
Proof.
  intros Hi HQ. destruct (transferred_ok n i Hi) as (x & i' & Ex & Et & Hw). apply wp_bind. eapply wp_lift; [exact Et|].
  apply wp_ret, HQ. by exists x.
Qed.

(** ** The commands *)
Section Command.
Context (i : USB_ClassInfo_MS_Device_t) (v : scsi) (s : mach).
Context (Hi : command_wf i) (Hv : vars_wf v) (Hs : sending [] s).

(** A refusal, and a success without data. *)
Lemma wp_refused code : byte code → scsi_reply i v false [] (Some 0) (refused code v) →
  wp (v ← lift (set_sense SCSI_SENSE_KEY_ILLEGAL_REQUEST code SCSI_ASENSEQ_NO_QUALIFIER v); mret (false, i, v)) (replies i v s) (λ _, False) s.
Proof using Hi Hv Hs.
  intros Hc Hr. apply wp_bind, wp_sense; [done|done|done|]. apply wp_ret. exists [], (Some 0). cbn [fst snd].
  split_and!; [done|by apply counted_0|by apply vars_wf_sense|done|by rewrite app_nil_r|lia].
Qed.
Lemma wp_succeeds v' : vars_wf v' → scsi_reply i v true [] None (served v') →
  wp (SCSI_succeeds i v') (replies i v s) (λ _, False) s.
Proof using Hi Hs.
  intros Hv' Hr. destruct (no_transfer_ok i Hi) as (i' & E & Hw'). unfold SCSI_succeeds. apply wp_bind. eapply wp_lift; [exact E|].
  apply wp_ret. exists [], None. cbn [fst snd]. split_and!; try done; [by rewrite app_nil_r|lia].
Qed.

Lemma wp_Inquiry n : cdb i 0 = Some SCSI_CMD_INQUIRY → swapped_16 i 3 = Some n → word16 n → (2 * Z.to_nat n + 2 ≤ patience i ≤ length (script s))%nat →
  wp (SCSI_Command_Inquiry i v) (replies i v s) (λ _, False) s.
Proof using Hi Hv Hs PL.
  intros Ec En Hn Hev. destruct (SCSICommandData_ok i 1 Hi) as (b1 & E1 & _); [lia|]. destruct (SCSICommandData_ok i 2 Hi) as (b2 & E2 & _); [lia|].
  unfold SCSI_Command_Inquiry. apply wp_bind. eapply wp_lift; [exact En|]. apply wp_bind. eapply wp_lift; [exact E1|].
  apply wp_bind. eapply wp_lift; [exact E2|]. change ((1 << 0) .| (1 << 1)) with 3.
  destruct (tst b1 3 || negb (b2 =? 0)) eqn:Eb.
  - apply wp_refused; [done|]. apply (reply_inquiry_page i v b1 b2); try done. apply orb_prop in Eb as [?|Eb]; [by left|right].
    by destruct (Z.eqb_spec b2 0).
  - apply orb_false_elim in Eb as [Et Eb]. apply negb_false_iff, Z.eqb_eq in Eb. subst b2.
    apply wp_padded; [done|apply (bool_decide_unpack (Forall byte _)); vm_compute; exact I|done|done|done|lia|].
    intros i' s' Hc' Hs' W V. exists (padded InquiryData n), (Some (Z.min n 36)). cbn [fst snd]. split_and!; try done; [|lia].
    by eapply reply_inquiry.
Qed.

Lemma wp_Request_Sense : cdb i 0 = Some SCSI_CMD_REQUEST_SENSE → (512 ≤ patience i ≤ length (script s))%nat →
  wp (SCSI_Command_Request_Sense i v) (replies i v s) (λ _, False) s.
Proof using Hi Hv Hs PL.
  intros Ec Hev. destruct (SCSICommandData_ok i 4 Hi) as (n & En & Hn); [lia|]. pose proof Hv as [_ (key & code & Hkey & Hcode & Hse)].
  unfold SCSI_Command_Request_Sense. apply wp_bind. eapply wp_lift; [exact En|]. unfold byte in Hn.
  apply wp_padded; [done| |unfold word16; lia|by rewrite Hse|done|lia|].
  - rewrite Hse. unfold sense. repeat (apply Forall_cons; split); try done. unfold byte. lia.
  - intros i' s' Hc' Hs' W V. exists (padded (SenseData v) n), (Some (Z.min n 18)). cbn [fst snd]. split_and!; try done; [|lia].
    by eapply reply_sense.
Qed.

Lemma wp_Read_Capacity : cdb i 0 = Some SCSI_CMD_READ_CAPACITY_10 → wp (SCSI_Command_Read_Capacity_10 i v) (replies i v s) (λ _, False) s.
Proof using Hi Hv Hs PL.
  intros Ec. unfold SCSI_Command_Read_Capacity_10. destruct (send_32_BE (LUN_MEDIA_BLOCKS - 1) [] s Hs) as (s1 & F1 & Hs1 & W1 & V1); [cbn; lia|].
  apply wp_bind. eapply wp_Ok; [exact F1|]. destruct (send_32_BE SECTOR_SIZE_BYTES _ s1 Hs1) as (s2 & F2 & Hs2 & W2 & V2); [cbn; lia|].
  apply wp_bind. eapply wp_Ok; [exact F2|]. destruct (send_ClearIN _ s2 Hs2) as (s3 & F3 & Hs3 & W3 & V3).
  apply wp_bind. eapply wp_Ok; [exact F3|]. apply wp_counted; [done|]. intros i' Hc'.
  eexists _, (Some 8). cbn [fst snd]. split; [by apply reply_capacity|]. split_and!; try done; [by rewrite W3, W2, W1|lia].
Qed.
Lemma wp_ModeSense : cdb i 0 = Some SCSI_CMD_MODE_SENSE_6 → wp (SCSI_Command_ModeSense_6 i v) (replies i v s) (λ _, False) s.
Proof using Hi Hv Hs PL.
  intros Ec. unfold SCSI_Command_ModeSense_6. destruct (send_32_LE 0 [] s Hs) as (s1 & F1 & Hs1 & W1 & V1); [cbn; lia|].
  apply wp_bind. eapply wp_Ok; [exact F1|]. destruct (send_ClearIN _ s1 Hs1) as (s3 & F3 & Hs3 & W3 & V3).
  apply wp_bind. eapply wp_Ok; [exact F3|]. apply wp_counted; [done|]. intros i' Hc'.
  exists (replicate 4 0), (Some 4). cbn [fst snd]. split; [by apply reply_mode_sense|]. split_and!; try done; [by rewrite W3, W1|lia].
Qed.

Lemma wp_Read_10 junk n : cdb i 0 = Some SCSI_CMD_READ_10 → swapped_16 i 7 = Some n → word16 n → (1024 * Z.to_nat n + 1 ≤ patience i ≤ length (script s))%nat →
  wp (SCSI_Command_ReadWrite_10 junk i DATA_READ v) (replies i v s) (λ _, False) s.
Proof using Hi Hv Hs PL L.
  unfold word16. intros Ec En Hn Hev. destruct (swapped_32_ok i 2 Hi) as (a & Ea & Ha); [lia|].
  unfold SCSI_Command_ReadWrite_10. apply wp_bind. eapply wp_lift; [exact Ea|]. apply wp_bind. eapply wp_lift; [exact En|].
  destruct (Z.geb_spec (u16 a) LUN_MEDIA_BLOCKS) as [Hge|Hlt].
  - apply wp_refused; [done|]. by eapply reply_read_range.
  - apply wp_bind. change DATA_READ with true. apply wp_read_blocks; [apply Hv|done|lia|]. rewrite Z2Nat.id by lia.
    intros s' Hs' W Hl V. change SECTOR_SIZE_BYTES with 512. assert (u32 (n * 512) = 512 * n) as -> by (unfold u32; rewrite Z.mod_small; lia).
    assert (set_disk (the_disk v) v = v) as -> by by destruct v.
    apply wp_counted; [done|]. intros i' Hc'. exists (blocks_from (u16 a) n (the_disk v)), (Some (512 * n)). cbn [fst snd].
    split_and!; try done; [by eapply reply_read|]. lia.
Qed.

Lemma wp_dispatch junk : (patience i ≤ length (script s))%nat → cdb i 0 ≠ Some SCSI_CMD_WRITE_10 →
  wp (SCSI_dispatch junk i v) (replies i v s) (λ _, False) s.
Proof using All.
  intros Hev Hw. destruct (SCSICommandData_ok i 0 Hi) as (c & Ec & _); [lia|]. destruct (SCSICommandData_ok i 4 Hi) as (b4 & E4 & _); [lia|].
  destruct (patience_ge i Hi) as (n & al & En & Hn & Eal & Hal & Ep). unfold SCSI_dispatch. apply wp_bind. eapply wp_lift; [exact Ec|].
  destruct (Z.eqb_spec c SCSI_CMD_INQUIRY) as [->|H1]; [apply (wp_Inquiry al); done || lia|].
  destruct (Z.eqb_spec c SCSI_CMD_REQUEST_SENSE) as [->|H2]; [apply wp_Request_Sense; done || lia|].
  destruct (Z.eqb_spec c SCSI_CMD_READ_CAPACITY_10) as [->|H3]; [by apply wp_Read_Capacity|].
  destruct (Z.eqb_spec c SCSI_CMD_WRITE_10) as [->|H4]; [done|].
  destruct (Z.eqb_spec c SCSI_CMD_READ_10) as [->|H5]; [apply (wp_Read_10 junk n); done || lia|].
  destruct (Z.eqb_spec c SCSI_CMD_MODE_SENSE_6) as [->|H6]; [by apply wp_ModeSense|].
  destruct (Z.eqb_spec c SCSI_CMD_START_STOP_UNIT) as [->|H7].
  { apply wp_bind. eapply wp_lift; [exact E4|]. apply wp_succeeds; [done|]. by apply reply_start_stop. }
  destruct ((c =? SCSI_CMD_SEND_DIAGNOSTIC) || (c =? SCSI_CMD_TEST_UNIT_READY) || (c =? SCSI_CMD_PREVENT_ALLOW_MEDIUM_REMOVAL) || (c =? SCSI_CMD_VERIFY_10)) eqn:E8.
  - apply wp_succeeds; [done|]. apply (reply_nothing i v c); [done|]. rewrite !orb_true_iff, !Z.eqb_eq in E8. rewrite !elem_of_cons. tauto.
  - apply wp_refused; [done|]. apply (reply_unknown i v c); [done|]. rewrite !orb_false_iff, !Z.eqb_neq in E8. rewrite !elem_of_cons, elem_of_nil. tauto.
Qed.

(** The whole of [SCSI_DecodeSCSICommand]. *)
Lemma wp_DecodeSCSICommand junk Q : (patience i ≤ length (script s))%nat → cdb i 0 ≠ Some SCSI_CMD_WRITE_10 →
  (∀ ok i' v' s' data count, scsi_reply i v ok data count v' → counted count i i' → vars_wf v' → sending [] s' →
     wire s' = wire s ++ data → (length (script s) ≤ length (script s') + patience i)%nat → Q (ok, i', v') s') →
  wp (SCSI_DecodeSCSICommand junk i v) Q (λ _, False) s.
Proof using All.
  intros Hev Hw HQ. unfold SCSI_DecodeSCSICommand. apply wp_bind. eapply wp_mono; [|intros ?; exact id|by apply wp_dispatch].
  intros [[ok i'] v'] s' (data & count & Hr & Hc & Hv' & Hs' & W & V). cbn [fst snd] in *. destruct ok.
  - apply wp_bind, wp_sense; [done|done|done|]. apply wp_ret. eapply HQ; try done. by apply vars_wf_sense.
  - apply wp_ret. by eapply HQ.
Qed.
End Command.

(** ** Blocks that are written *)
(** The writes of consecutive blocks from [a] on. *)
Definition numbered (a : Z) (bs : list (list Z)) : list (Z * list Z) := zip (map u16 (seqZ a (Z.of_nat (length bs)))) bs.
Lemma numbered_cons a b bs : numbered a (b :: bs) = (u16 a, b) :: numbered (a + 1) bs.
Proof.
  unfold numbered. cbn [length]. rewrite Nat2Z.inj_succ, seqZ_cons by lia. cbn. f_equal. f_equal. f_equal. f_equal; lia.
Qed.

Lemma wp_write_received junk a bs rest d Q B s : disk_wf d → Forall block bs → (∀ k, length (junk k) = 512%nat) →
  receiving (concat bs ++ rest) s → (513 * length bs + 1 ≤ length (script s))%nat →
  (∀ d' s', write_blocks (numbered a bs) d = Some d' → disk_wf d' → receiving rest s' → wire s' = wire s →
     (length (script s) ≤ length (script s') + 513 * length bs)%nat → Q d' s') →
  wp (block_loop junk false (length bs) a d) Q B s.
Proof using PL L.
  intros Hd Hbs Hj. revert a d s Q Hd. induction Hbs as [|b bs [Hlb Hb] _ IH]; intros a d s Q Hd Hr Hev HQ; cbn [block_loop length].
  { apply wp_ret. apply HQ; try done. lia. }
  cbn [concat] in Hr. rewrite <-app_assoc in Hr. cbn [length] in *.
  destruct (receive_block b _ (junk a) s Hr) as (s1 & s2 & E1 & E2 & Hr2 & W2 & V2); [done|done|done|lia|].
  destruct (write_switch_safe (u16 a) b d Hd) as (d1 & Ed & Hd1 & _); [by split; [apply u16_word|]|].
  unfold VirtualFAT_WriteBlock. apply wp_bind, wp_bind. eapply wp_Ok; [exact E1|]. apply wp_bind. eapply wp_Ok; [exact E2|].
  eapply wp_lift; [exact Ed|]. apply IH; [done|done|lia|]. intros d' s' Ew Hd' Hr' W V. apply HQ; [|done|done|congruence|lia].
  rewrite numbered_cons. cbn [write_blocks]. by rewrite Ed.
Qed.

(** A block address behind the disk, once it is cut to 16 bits. *)
Lemma ReadWrite_range junk i v c a s : command_wf i → vars_wf v → c = SCSI_CMD_READ_10 ∨ c = SCSI_CMD_WRITE_10 → cdb i 0 = Some c →
  swapped_32 i 2 = Some a → LUN_MEDIA_BLOCKS ≤ u16 a →
  SCSI_DecodeSCSICommand junk i v s = Ok (false, i, refused SCSI_ASENSE_LOGICAL_BLOCK_ADDRESS_OUT_OF_RANGE v) s.
Proof.
  intros Hi [_ (k & x & Hk & _ & Es)] Hc Ec Ea Hge. destruct (swapped_16_ok i 7 Hi) as (n & En & _); [lia|].
  assert (∀ b, SCSI_Command_ReadWrite_10 junk i b v s = Ok (false, i, refused SCSI_ASENSE_LOGICAL_BLOCK_ADDRESS_OUT_OF_RANGE v) s) as E.
  { intros b. unfold SCSI_Command_ReadWrite_10, mbind, M_bind. rewrite Ea, En. cbn [lift]. unfold mret, M_ret.
    rewrite (proj2 (Z.geb_le _ _)) by done. unfold set_sense. rewrite Es. change SCSI_ASENSEQ_NO_QUALIFIER with 0. by rewrite SET_SENSE_ok. }
  unfold SCSI_DecodeSCSICommand, SCSI_dispatch, mbind, M_bind. rewrite Ec. cbn [lift]. unfold mret, M_ret.
  destruct Hc as [->| ->]; cbn -[SCSI_Command_ReadWrite_10 refused]; by rewrite E.
Qed.

(** WRITE (10). *)
Lemma wp_Write_10 junk i v a bs rest Q s : command_wf i → vars_wf v → (∀ k, length (junk k) = 512%nat) →
  cdb i 0 = Some SCSI_CMD_WRITE_10 → swapped_32 i 2 = Some a → u16 a < LUN_MEDIA_BLOCKS →
  swapped_16 i 7 = Some (Z.of_nat (length bs)) → Forall block bs → receiving (concat bs ++ rest) s →
  (513 * length bs + 1 ≤ length (script s))%nat →
  (∀ i' d' s', counted (Some (512 * Z.of_nat (length bs))) i i' → write_blocks (numbered (u16 a) bs) (the_disk v) = Some d' → disk_wf d' →
     receiving rest s' → wire s' = wire s → Q (true, i', served (set_disk d' v)) s') →
  wp (SCSI_DecodeSCSICommand junk i v) Q (λ _, False) s.
Proof using PL L.
  intros Hi Hv Hj Ec Ea Hlt En Hbs Hr Hev HQ. unfold SCSI_DecodeSCSICommand, SCSI_dispatch. apply wp_bind, wp_bind. eapply wp_lift; [exact Ec|].
  cbn [Z.eqb]. unfold SCSI_Command_ReadWrite_10. apply wp_bind. eapply wp_lift; [exact Ea|]. apply wp_bind. eapply wp_lift; [exact En|].
  rewrite Z.geb_leb, (proj2 (Z.leb_gt _ _)) by lia. apply wp_bind. change DATA_WRITE with false. rewrite Nat2Z.id.
  eapply wp_write_received; [apply Hv|done|done|done|done|]. intros d' s' Ew Hd' Hr' W _.
  destruct (swapped_16_ok i 7 Hi) as (n & En' & Hn); [lia|]. rewrite En in En'. injection En' as <-. unfold word16 in Hn.
  change SECTOR_SIZE_BYTES with 512. assert (u32 (Z.of_nat (length bs) * 512) = 512 * Z.of_nat (length bs)) as -> by (unfold u32; rewrite Z.mod_small; lia).
  apply wp_counted; [done|]. intros i' Hc'. cbn [fst snd]. apply wp_bind, wp_sense; [done|done| |apply wp_ret; by apply HQ].
  destruct Hv as [_ Hs]. by split.
Qed.
End Replies.
