(* ===== verification/ScsiProps.v ===== *)
(** * Properties of the SCSI commands

    SCSI.c against the interface of its endpoints, and the loop of [main]. *)
From stdpp Require Import strings.
From S2P Require Import Prelude RingBuffer Machine Endpoint Controller EndpointPoll EndpointStream Cdc Descriptors Packed Logic EndpointSpec EndpointData BulkSpec MassStorage MassSpec VirtualFAT DiskSpec Scsi ScsiSpec.

(** C26: Every command is answered as the relation [scsi_reply] says, on any
    endpoints that keep the laws of the interface: INQUIRY, REQUEST SENSE, READ
    CAPACITY, READ (10) and MODE SENSE send exactly their response, cut or
    padded to the length the host allocated; a command that is not known and an
    optional page are refused with the right sense data and without a byte; the
    data transfer length is lowered by what was sent; after a success the sense
    data are cleared. WRITE (10) takes its blocks from the host in order and
    stores them one after the other. READ (10) and WRITE (10) look at the low
    16 bits of the block address only: if these are behind the disk the command
    is refused, in every state of the endpoints, and nothing else changes; an
    address from 0x10000 on whose low bits are on the disk is not refused but
    served as that block. *)
Theorem scsi_replies {C : Chip} {DP : DiskPort} {PL : PortLaws DP} {L : ChipLaws C} junk i v s : command_wf i → vars_wf v →
  (sending [] s → SCSICommandData i 0 ≠ Some SCSI_CMD_WRITE_10 → (patience i ≤ length (script s))%nat →
   ∃ ok i' v' s' data count, SCSI_DecodeSCSICommand junk i v s = Ok (ok, i', v') s' ∧
     scsi_reply i v ok data count v' ∧ counted count i i' ∧ vars_wf v' ∧ sending [] s' ∧ wire s' = wire s ++ data) ∧
  (∀ a bs rest, SCSICommandData i 0 = Some SCSI_CMD_WRITE_10 → swapped_32 i 2 = Some a → u16 a < LUN_MEDIA_BLOCKS →
   swapped_16 i 7 = Some (Z.of_nat (length bs)) → Forall block bs → (∀ k, length (junk k) = 512%nat) →
   receiving (concat bs ++ rest) s → (513 * length bs + 1 ≤ length (script s))%nat →
   ∃ i' d' s', SCSI_DecodeSCSICommand junk i v s = Ok (true, i', served (set_disk d' v)) s' ∧
     write_blocks (numbered (u16 a) bs) (the_disk v) = Some d' ∧ disk_wf d' ∧
     counted (Some (512 * Z.of_nat (length bs))) i i' ∧ receiving rest s' ∧ wire s' = wire s) ∧
  (∀ c a, c = SCSI_CMD_READ_10 ∨ c = SCSI_CMD_WRITE_10 → SCSICommandData i 0 = Some c → swapped_32 i 2 = Some a →
   LUN_MEDIA_BLOCKS ≤ u16 a →
   SCSI_DecodeSCSICommand junk i v s = Ok (false, i, refused SCSI_ASENSE_LOGICAL_BLOCK_ADDRESS_OUT_OF_RANGE v) s).
Proof.
  intros Hi Hv. split_and!.
  - intros Hs Hw Hev.
    destruct (wp_returns (SCSI_DecodeSCSICommand junk i v) (λ r s', ∃ data count, scsi_reply i v r.1.1 data count r.2 ∧ counted count i r.1.2 ∧
      vars_wf r.2 ∧ sending [] s' ∧ wire s' = wire s ++ data) s) as ([[ok i'] v'] & s' & E & data & count & H).
    + apply wp_DecodeSCSICommand; try done. intros. by eauto 10.
    + by exists ok, i', v', s', data, count.
  - intros a bs rest Hc Ha Hlt Hn Hbs Hj Hr Hev.
    destruct (wp_returns (SCSI_DecodeSCSICommand junk i v) (λ r s', ∃ d', r.1.1 = true ∧ r.2 = served (set_disk d' v) ∧
      write_blocks (numbered (u16 a) bs) (the_disk v) = Some d' ∧ disk_wf d' ∧ counted (Some (512 * Z.of_nat (length bs))) i r.1.2 ∧
      receiving rest s' ∧ wire s' = wire s) s) as ([[ok i'] v'] & s' & E & d' & Eok & Ev & H).
    + eapply wp_Write_10; try done. intros. by eauto 10.
    + cbn in Eok, Ev, H. subst. exists i', d', s'. destruct H as (?&?&?&?&?). by auto.
  - intros. by eapply ReadWrite_range.
Qed.

(** ** The loop of [main] *)
Section Loop.
Context {C : Chip} {DP : DiskPort}.
Context (task : USB_ClassInfo_MS_Device_t → bootloader → M (USB_ClassInfo_MS_Device_t * bootloader)).
Context (USB_USBTask : M unit) (i : USB_ClassInfo_MS_Device_t) (idle : mach → Prop).
(** A pass in which no command arrives. *)
Context (Hidle : ∀ v s, idle s → ∃ s1 s2, task i v s = Ok (i, v) s1 ∧
  USB_USBTask s1 = Ok tt s2 ∧ idle s2).

(** After the volume has been ejected the loop is left within 256 passes
    without a command; before that it is not left, however long it runs. *)
Theorem eject_ends_the_loop v s : idle s → byte (TicksSinceLastCommand v) →
  if RunBootloader (the_scsi v)
  then ∀ n, ∃ s', boot_loop task USB_USBTask n i v s = Ok (false, i, v) s'
  else ∃ s', boot_loop task USB_USBTask 256 i v s = Ok (true, i, Bootloader (the_scsi v) 0) s'.
Proof using Hidle.
  intros Hi Hb. destruct (RunBootloader (the_scsi v)) eqn:Er.
  - intros n. revert s Hi. induction n as [|n IH]; intros s Hi; [by exists s|]. cbn [boot_loop]. rewrite Er. cbn [orb].
    destruct (Hidle v s Hi) as (s1 & s2 & E1 & E2 & Hi2). unfold mbind, M_bind. rewrite E1, E2. cbn [fst snd]. by apply IH.
  - assert (∀ (n : nat) w s, idle s → the_scsi w = the_scsi v → byte (TicksSinceLastCommand w) → (256 - TicksSinceLastCommand w ≤ Z.of_nat n) →
      ∃ s', boot_loop task USB_USBTask n i w s = Ok (true, i, Bootloader (the_scsi v) 0) s') as H.
    { intros n. induction n as [|n IH]; intros w s0 Hi0 Ew Hbw Hn; unfold byte in Hbw; [lia|]. cbn [boot_loop]. rewrite Ew, Er. cbn [orb].
      destruct (Z.ltb_spec (TicksSinceLastCommand w) 0xFF).
      - destruct (Hidle (Bootloader (the_scsi v) (u8 (TicksSinceLastCommand w + 1))) s0 Hi0) as (s1 & s2 & E1 & E2 & Hi2).
        unfold mbind, M_bind. rewrite E1, E2. cbn [fst snd]. rewrite u8_small by (unfold byte; lia).
        apply IH; cbn [the_scsi TicksSinceLastCommand]; try done; [unfold byte; lia|lia].
      - exists s0. replace (TicksSinceLastCommand w) with 0xFF by lia. done. }
    unfold byte in Hb. apply H; try done. lia.
Qed.
End Loop.

(** ** Instances *)
#[local] Existing Instances at90usb1287 at90usb1287_laws.

(** Endpoints that keep the laws: a bank without a limit that is handed over as
    one packet, and an OUT endpoint that holds what the host has sent. *)
Definition append (l : list Z) : M unit := mod_hw (λ h, set_bufs (upd (bufs h) in_fifo (bufs h in_fifo ++ l)) h).
Definition buffered_port : DiskPort := {|
  port_Write_Stream_LE b n := append (take (Z.to_nat n) b);
  port_Null_Stream n := append (replicate (Z.to_nat n) 0);
  port_Read_Stream_LE b n := l ← get_hw host; mod_hw (set_host (drop (Z.to_nat n) l));; mret (take (Z.to_nat n) l);
  port_Write_32_BE x := append (be32 x);
  port_Write_32_LE x := append (le32 x);
  port_ClearIN := l ← get_hw (λ h, bufs h in_fifo); emit (OPacket 3 l);; mod_hw (λ h, set_bufs (upd (bufs h) in_fifo []) h);
  port_ClearOUT := mret tt |}.

(** The bytes of the packets. *)
Definition handed_over (s : mach) : list Z := concat (map (λ o, match o with OPacket _ p => p | OStore _ _ => [] end) (trace s)).

Lemma append_ok l p s : bufs (hwst s) in_fifo = p →
  ∃ s', append l s = Ok tt s' ∧ bufs (hwst s') in_fifo = p ++ l ∧ handed_over s' = handed_over s ∧ script s' = script s.
Proof. intros <-. eexists. split; [done|]. cbn. by rewrite upd_eq. Qed.

Definition buffered_laws : PortLaws buffered_port.
Proof.
  refine (Build_PortLaws buffered_port (λ p s, bufs (hwst s) in_fifo = p) (λ l s, host (hwst s) = l) handed_over _ _ _ _ _ _).
  - intros b n p s Hs _ _ _ _. destruct (append_ok (take n b) p s Hs) as (s' & E & H1 & H2 & H3).
    exists (p ++ take n b), s'. cbn [port_Write_Stream_LE buffered_port]. rewrite Nat2Z.id, H2, H3. split_and!; [done|done|done|lia].
  - intros n p s Hs _ _. destruct (append_ok (replicate n 0) p s Hs) as (s' & E & H1 & H2 & H3).
    exists (p ++ replicate n 0), s'. cbn [port_Null_Stream buffered_port]. rewrite Nat2Z.id, H2, H3. split_and!; [done|done|done|lia].
  - intros x p s Hs _. destruct (append_ok (be32 x) p s Hs) as (s' & E & H1 & H2 & H3). exists s'. by rewrite H3.
  - intros x p s Hs _. destruct (append_ok (le32 x) p s Hs) as (s' & E & H1 & H2 & H3). exists s'. by rewrite H3.
  - intros p s <-. eexists. split; [done|]. cbn. rewrite upd_eq. split_and!; try done.
    unfold handed_over. cbn. rewrite map_app, concat_app. cbn. by rewrite app_nil_r.
  - intros data rest junk s Hr Hl _ _ _. eexists _, _. split; [|split; [done|]].
    + cbn. unfold mbind, M_bind, get_hw, gets. rewrite Hr, take_app_length' by done. done.
    + cbn. rewrite drop_app_length' by done. split_and!; [done|done|lia].
Defined.

(** A command block with the data direction IN, and the device around it. *)
Definition demo_command (len : Z) (cdb : list Z) : list Z :=
  le32 MS_CBW_SIGNATURE ++ le32 7 ++ le32 len ++ [0x80; 0; 16] ++ cdb ++ replicate (16 - length cdb) 0.
Definition demo_drive (len : Z) (cdb : list Z) : USB_ClassInfo_MS_Device_t :=
  MS_Device (MS_Config 0 (USB_Endpoint_Table 0x83 64 EP_TYPE_BULK 1) (USB_Endpoint_Table 0x04 64 EP_TYPE_BULK 1) 1)
    (MS_State (demo_command len cdb) (replicate 13 0) false).
Definition demo_vars : scsi := SCSI demo_disk SenseData_init true.
Lemma demo_vars_wf : vars_wf demo_vars.
Proof. split; [apply demo_disk_wf|]. exists 0, 0. split; [split; [discriminate|reflexivity]|]. split; [split; [discriminate|reflexivity]|reflexivity]. Qed.

(** The one reply READ CAPACITY (10) has. *)
Lemma capacity_reply {C : Chip} i v ok data count v' : SCSICommandData i 0 = Some SCSI_CMD_READ_CAPACITY_10 →
  scsi_reply i v ok data count v' → ok = true ∧ data = be32 (LUN_MEDIA_BLOCKS - 1) ++ be32 512 ∧ count = Some 8.
Proof.
  intros E Hr. destruct Hr as [? ? H|? ? H|? H|H|? ? H|? H|H|? H|? H Hc|? H Hc]; rewrite E in H; try discriminate H; [done|injection H as <-..].
  - rewrite !elem_of_cons, elem_of_nil in Hc. by destruct Hc as [|[|[|[|]]]].
  - exfalso. apply Hc. rewrite !elem_of_cons. tauto.
Qed.

(** Endpoints with an empty bank, and a host that sends a block. *)
Definition demo_port (sent : list Z) : mach :=
  set_hwst (set_host sent (set_bufs (λ _, []) (hwst (demo_bulk [] 600)))) (demo_bulk [] 600).
Definition demo_block : list Z := replicate 512 0x5A.
Definition capacity : USB_ClassInfo_MS_Device_t := demo_drive 8 [SCSI_CMD_READ_CAPACITY_10].
Definition write_at (a : list Z) : USB_ClassInfo_MS_Device_t := demo_drive 512 ([SCSI_CMD_WRITE_10; 0] ++ a ++ [0; 0; 1]).
Ltac command_ok := split; [reflexivity|apply (bool_decide_unpack (Forall byte _)); vm_compute; exact I].

Lemma scsi_replies_witness :
  (∃ i' v' s', SCSI_DecodeSCSICommand (DP := buffered_port) (λ _, demo_block) capacity demo_vars (demo_port []) =
      Ok (true, i', v') s' ∧ handed_over s' = [0; 0; 1; 23; 0; 0; 2; 0]) ∧
  (∃ i' d' s', SCSI_DecodeSCSICommand (DP := buffered_port) (λ _, demo_block) (write_at [0; 0; 0; 4]) demo_vars (demo_port demo_block) =
      Ok (true, i', served (set_disk d' demo_vars)) s' ∧ write_blocks [(4, demo_block)] demo_disk = Some d') ∧
  SCSI_DecodeSCSICommand (DP := buffered_port) (λ _, demo_block) (write_at [0; 0; 2; 0]) demo_vars (demo_port demo_block) =
    Ok (false, write_at [0; 0; 2; 0], refused SCSI_ASENSE_LOGICAL_BLOCK_ADDRESS_OUT_OF_RANGE demo_vars) (demo_port demo_block).
Proof.
  split; [|split].
  - destruct (scsi_replies (DP := buffered_port) (PL := buffered_laws) (λ _, demo_block) capacity demo_vars (demo_port [])) as [H _].
    + command_ok.
    + apply demo_vars_wf.
    + destruct H as (ok & i' & v' & s' & data & count & E & Hr & _ & _ & _ & W); [reflexivity|discriminate|apply Nat.leb_le; reflexivity|].
      destruct (capacity_reply capacity _ _ _ _ _ eq_refl Hr) as (-> & -> & _). exists i', v', s'. split; [exact E|]. refine (eq_trans W _). vm_compute. reflexivity.
  - destruct (scsi_replies (DP := buffered_port) (PL := buffered_laws) (λ _, demo_block) (write_at [0; 0; 0; 4]) demo_vars (demo_port demo_block)) as (_ & H & _).
    + command_ok.
    + apply demo_vars_wf.
    + destruct (H 4 [demo_block] []) as (i' & d' & s' & E & W & _).
      * reflexivity.
      * reflexivity.
      * reflexivity.
      * reflexivity.
      * constructor; [|constructor]. split; [reflexivity|]. apply Forall_replicate. split; [discriminate|reflexivity].
      * reflexivity.
      * reflexivity.
      * apply Nat.leb_le. reflexivity.
      * exists i', d', s'. split; [exact E|exact W].
  - apply (scsi_replies (DP := buffered_port) (PL := buffered_laws) (λ _, demo_block) (write_at [0; 0; 2; 0]) demo_vars (demo_port demo_block)) with SCSI_CMD_WRITE_10 0x200.
    + command_ok.
    + apply demo_vars_wf.
    + right. reflexivity.
    + reflexivity.
    + reflexivity.
    + discriminate.
Defined.
