(* ===== verification/Midi.v ===== *)
(** * The MIDI class driver

    LUFA/Drivers/USB/Class/Device/MIDIClassDevice.c and .h. The interface has
    no state; a [MIDI_EventPacket_t] is its four bytes. *)
From S2P Require Import Prelude RingBuffer Machine Endpoint Controller EndpointPoll EndpointStream Packed.

Record USB_ClassInfo_MIDI_Device_t := MIDI_Device {
  StreamingInterfaceNumber : Z;
  MIDI_DataINEndpoint : USB_Endpoint_Table_t;
  MIDI_DataOUTEndpoint : USB_Endpoint_Table_t }.

Definition sizeof_MIDI_EventPacket : Z := 4.

Definition MIDI_Device_ConfigureEndpoints (i : USB_ClassInfo_MIDI_Device_t) : M (bool * USB_ClassInfo_MIDI_Device_t) :=
  let i := MIDI_Device (StreamingInterfaceNumber i) (with_type EP_TYPE_BULK (MIDI_DataINEndpoint i))
    (with_type EP_TYPE_BULK (MIDI_DataOUTEndpoint i)) in
  ok ← Endpoint_ConfigureEndpointTable [MIDI_DataINEndpoint i];
  if negb ok then mret (false, i)
  else
    ok ← Endpoint_ConfigureEndpointTable [MIDI_DataOUTEndpoint i];
    if negb ok then mret (false, i) else mret (true, i).

Definition MIDI_Device_Flush (i : USB_ClassInfo_MIDI_Device_t) : M Z :=
  d ← get_fw DeviceState;
  if negb (d =? DEVICE_STATE_Configured) then mret ENDPOINT_RWSTREAM_DeviceDisconnected
  else
    Endpoint_SelectEndpoint (T_Address (MIDI_DataINEndpoint i));;
    n ← Endpoint_BytesInEndpoint;
    if negb (n =? 0) then
      Endpoint_ClearIN;;
      ErrorCode ← Endpoint_WaitUntilReady;
      if negb (ErrorCode =? ENDPOINT_READYWAIT_NoError) then mret ErrorCode
      else mret ENDPOINT_READYWAIT_NoError
    else mret ENDPOINT_READYWAIT_NoError.

Definition MIDI_Device_USBTask (i : USB_ClassInfo_MIDI_Device_t) : M unit :=
  d ← get_fw DeviceState;
  if negb (d =? DEVICE_STATE_Configured) then mret tt
  else
    Endpoint_SelectEndpoint (T_Address (MIDI_DataINEndpoint i));;
    ready ← Endpoint_IsINReady;
    when ready (_ ← MIDI_Device_Flush i; mret tt).

Definition MIDI_Device_SendEventPacket (i : USB_ClassInfo_MIDI_Device_t) (Event : list Z) : M Z :=
  d ← get_fw DeviceState;
  if negb (d =? DEVICE_STATE_Configured) then mret ENDPOINT_RWSTREAM_DeviceDisconnected
  else
    Endpoint_SelectEndpoint (T_Address (MIDI_DataINEndpoint i));;
    r ← Endpoint_Write_Stream_LE (in_memory Event) sizeof_MIDI_EventPacket None;
    let ErrorCode := r.1.1 in
    if negb (ErrorCode =? ENDPOINT_RWSTREAM_NoError) then mret ErrorCode
    else
      rw ← Endpoint_IsReadWriteAllowed;
      when (negb rw) Endpoint_ClearIN;;
      mret ENDPOINT_RWSTREAM_NoError.

(** The result and [*Event]. *)
Definition MIDI_Device_ReceiveEventPacket (i : USB_ClassInfo_MIDI_Device_t) (Event : list Z) : M (bool * list Z) :=
  d ← get_fw DeviceState;
  if negb (d =? DEVICE_STATE_Configured) then mret (false, Event)
  else
    Endpoint_SelectEndpoint (T_Address (MIDI_DataOUTEndpoint i));;
    out ← Endpoint_IsOUTReceived;
    if negb out then mret (false, Event)
    else
      rw ← Endpoint_IsReadWriteAllowed;
      if negb rw then mret (false, Event)
      else
        r ← Endpoint_Read_Stream_LE Event sizeof_MIDI_EventPacket None;
        rw ← Endpoint_IsReadWriteAllowed;
        when (negb rw) Endpoint_ClearOUT;;
        mret (true, r.1.2).

Definition MIDI_Device_ProcessControlRequest (i : USB_ClassInfo_MIDI_Device_t) : M unit := mret tt.
