(* ===== verification/HidDevice.v ===== *)
(** * The HID class driver

    LUFA/Drivers/USB/Class/Device/HIDClassDevice.c and .h. The interface
    structure is a record threaded through the functions;
    [PrevReportINBuffer] is the memory it points to, [None] for NULL. The
    application's two callbacks are parameters, as is what an uninitialised
    automatic array holds. *)
From S2P Require Import Prelude RingBuffer Machine Endpoint Controller EndpointPoll EndpointStream Cdc Packed.

Definition HID_REQ_GetReport : Z := 0x01.
Definition HID_REQ_GetIdle : Z := 0x02.
Definition HID_REQ_GetProtocol : Z := 0x03.
Definition HID_REQ_SetReport : Z := 0x09.
Definition HID_REQ_SetIdle : Z := 0x0A.
Definition HID_REQ_SetProtocol : Z := 0x0B.
Definition HID_REPORT_ITEM_In : Z := 0.

Record HID_Config_t := HID_Config {
  HID_InterfaceNumber : Z;
  ReportINEndpoint : USB_Endpoint_Table_t;
  PrevReportINBuffer : option (list Z);
  PrevReportINBufferSize : Z }.
Record HID_State_t := HID_State {
  UsingReportProtocol : bool;
  PrevFrameNum : Z;
  IdleCount : Z;
  IdleMSRemaining : Z }.
Record USB_ClassInfo_HID_Device_t := HID_Device {
  HID_Cfg : HID_Config_t;
  HID_St : HID_State_t }.

Definition set_PrevReportINBuffer (b : list Z) (i : USB_ClassInfo_HID_Device_t) : USB_ClassInfo_HID_Device_t :=
  let c := HID_Cfg i in
  HID_Device (HID_Config (HID_InterfaceNumber c) (ReportINEndpoint c) (Some b) (PrevReportINBufferSize c)) (HID_St i).
Definition set_UsingReportProtocol (v : bool) (i : USB_ClassInfo_HID_Device_t) : USB_ClassInfo_HID_Device_t :=
  let t := HID_St i in HID_Device (HID_Cfg i) (HID_State v (PrevFrameNum t) (IdleCount t) (IdleMSRemaining t)).
Definition set_PrevFrameNum (v : Z) (i : USB_ClassInfo_HID_Device_t) : USB_ClassInfo_HID_Device_t :=
  let t := HID_St i in HID_Device (HID_Cfg i) (HID_State (UsingReportProtocol t) v (IdleCount t) (IdleMSRemaining t)).
Definition set_IdleCount (v : Z) (i : USB_ClassInfo_HID_Device_t) : USB_ClassInfo_HID_Device_t :=
  let t := HID_St i in HID_Device (HID_Cfg i) (HID_State (UsingReportProtocol t) (PrevFrameNum t) v (IdleMSRemaining t)).
Definition set_IdleMSRemaining (v : Z) (i : USB_ClassInfo_HID_Device_t) : USB_ClassInfo_HID_Device_t :=
  let t := HID_St i in HID_Device (HID_Cfg i) (HID_State (UsingReportProtocol t) (PrevFrameNum t) (IdleCount t) v).

(** What [CALLBACK_HID_Device_CreateHIDReport] returns and leaves in
    [*ReportID], [ReportData] and [*ReportSize]. *)
Record HID_Report := Report {
  rp_force : bool;
  rp_info : USB_ClassInfo_HID_Device_t;
  rp_ID : Z;
  rp_data : list Z;
  rp_size : Z }.

(** [memcmp(a, b, n) != 0] *)
Definition memcmp_differs (a b : list Z) (n : Z) : option bool :=
  if (n <=? Z.of_nat (length a)) && (n <=? Z.of_nat (length b))
  then Some (negb (bool_decide (take (Z.to_nat n) a = take (Z.to_nat n) b)))
  else None.

(** [if (PrevReportINBuffer != NULL) memcpy(PrevReportINBuffer, ReportData,
    PrevReportINBufferSize)] *)
Definition keep_report (data : list Z) (i : USB_ClassInfo_HID_Device_t) : option USB_ClassInfo_HID_Device_t :=
  match PrevReportINBuffer (HID_Cfg i) with
  | None => Some i
  | Some b =>
      let n := PrevReportINBufferSize (HID_Cfg i) in
      if n <=? Z.of_nat (length data) then
        b ← wr_bytes b 0 (take (Z.to_nat n) data); Some (set_PrevReportINBuffer b i)
      else None
  end.

Section Driver.
Context (CreateHIDReport : USB_ClassInfo_HID_Device_t → Z → Z → list Z → Z → M HID_Report).
Context (ProcessHIDReport : USB_ClassInfo_HID_Device_t → Z → Z → list Z → Z → M USB_ClassInfo_HID_Device_t).
Context (stack : nat → Z).

(** ** Control requests *)
Definition HID_GetReport (i : USB_ClassInfo_HID_Device_t) : M USB_ClassInfo_HID_Device_t :=
  r ← get_fw ControlRequest;
  let ReportID := wValue r .& 0xFF in
  let ReportType := u8 ((wValue r >> 8) - 1) in
  let ReportData := replicate (Z.to_nat (PrevReportINBufferSize (HID_Cfg i))) 0 in
  v ← CreateHIDReport i ReportID ReportType ReportData 0;
  i ← lift (keep_report (rp_data v) (rp_info v));
  Endpoint_SelectEndpoint ENDPOINT_CONTROLEP;;
  Endpoint_ClearSETUP;;
  when (negb (rp_ID v =? 0)) (Endpoint_Write_8 (rp_ID v));;
  _ ← Endpoint_Write_Control_Stream_LE (rp_data v) (rp_size v);
  Endpoint_ClearOUT;;
  mret i.

Definition HID_SetReport (i : USB_ClassInfo_HID_Device_t) : M USB_ClassInfo_HID_Device_t :=
  r ← get_fw ControlRequest;
  let ReportSize := wLength r in
  let ReportID := wValue r .& 0xFF in
  let ReportType := u8 ((wValue r >> 8) - 1) in
  let ReportData := map stack (seq 0 (Z.to_nat ReportSize)) in
  Endpoint_ClearSETUP;;
  v ← Endpoint_Read_Control_Stream_LE ReportData ReportSize;
  Endpoint_ClearIN;;
  let skip := if negb (ReportID =? 0) then 1 else 0 in
  ProcessHIDReport i ReportID ReportType (drop (Z.to_nat skip) v.2) (u16 (ReportSize - skip)).

Definition HID_GetProtocol (i : USB_ClassInfo_HID_Device_t) : M unit :=
  Endpoint_ClearSETUP;;
  while_ (b ← Endpoint_IsINReady; mret (negb b)) (mret tt);;
  Endpoint_Write_8 (if UsingReportProtocol (HID_St i) then 1 else 0);;
  Endpoint_ClearIN;;
  Endpoint_ClearStatusStage.

Definition HID_SetProtocol (i : USB_ClassInfo_HID_Device_t) : M USB_ClassInfo_HID_Device_t :=
  Endpoint_ClearSETUP;;
  Endpoint_ClearStatusStage;;
  r ← get_fw ControlRequest;
  mret (set_UsingReportProtocol (negb (wValue r .& 0xFF =? 0)) i).

Definition HID_SetIdle (i : USB_ClassInfo_HID_Device_t) : M USB_ClassInfo_HID_Device_t :=
  Endpoint_ClearSETUP;;
  Endpoint_ClearStatusStage;;
  r ← get_fw ControlRequest;
  mret (set_IdleCount ((wValue r .& 0xFF00) >> 6) i).

Definition HID_GetIdle (i : USB_ClassInfo_HID_Device_t) : M unit :=
  Endpoint_ClearSETUP;;
  while_ (b ← Endpoint_IsINReady; mret (negb b)) (mret tt);;
  Endpoint_Write_8 (IdleCount (HID_St i) >> 2);;
  Endpoint_ClearIN;;
  Endpoint_ClearStatusStage.

Definition HID_Device_ProcessControlRequest (i : USB_ClassInfo_HID_Device_t) : M USB_ClassInfo_HID_Device_t :=
  setup ← Endpoint_IsSETUPReceived;
  if negb setup then mret i
  else
    r ← get_fw ControlRequest;
    if negb (wIndex r =? HID_InterfaceNumber (HID_Cfg i)) then mret i
    else if bRequest r =? HID_REQ_GetReport then
      if bmRequestType r =? class_in then HID_GetReport i else mret i
    else if bRequest r =? HID_REQ_SetReport then
      if bmRequestType r =? class_out then HID_SetReport i else mret i
    else if bRequest r =? HID_REQ_GetProtocol then
      if bmRequestType r =? class_in then HID_GetProtocol i;; mret i else mret i
    else if bRequest r =? HID_REQ_SetProtocol then
      if bmRequestType r =? class_out then HID_SetProtocol i else mret i
    else if bRequest r =? HID_REQ_SetIdle then
      if bmRequestType r =? class_out then HID_SetIdle i else mret i
    else if bRequest r =? HID_REQ_GetIdle then
      if bmRequestType r =? class_in then HID_GetIdle i;; mret i else mret i
    else mret i.

Definition HID_Device_ConfigureEndpoints (i : USB_ClassInfo_HID_Device_t) : M (bool * USB_ClassInfo_HID_Device_t) :=
  let c := HID_Cfg i in
  let c := HID_Config (HID_InterfaceNumber c) (with_type EP_TYPE_INTERRUPT (ReportINEndpoint c))
    (PrevReportINBuffer c) (PrevReportINBufferSize c) in
  let i := HID_Device c (HID_State true 0 500 0) in
  ok ← Endpoint_ConfigureEndpointTable [ReportINEndpoint c];
  if negb ok then mret (false, i) else mret (true, i).

(** ** Reports *)

(** The body of [if (Endpoint_IsReadWriteAllowed())]. *)
Definition HID_report (i : USB_ClassInfo_HID_Device_t) : M USB_ClassInfo_HID_Device_t :=
  let ReportINData := replicate (Z.to_nat (PrevReportINBufferSize (HID_Cfg i))) 0 in
  v ← CreateHIDReport i 0 HID_REPORT_ITEM_In ReportINData 0;
  let ForceSend := rp_force v in
  let i := rp_info v in
  let IdlePeriodElapsed := negb (IdleCount (HID_St i) =? 0) && (IdleMSRemaining (HID_St i) =? 0) in
  StatesChanged ← lift (match PrevReportINBuffer (HID_Cfg i) with
                        | Some b => memcmp_differs (rp_data v) b (rp_size v)
                        | None => Some false
                        end);
  i ← lift (keep_report (rp_data v) i);
  i ← (if negb (rp_size v =? 0) && (ForceSend || StatesChanged || IdlePeriodElapsed) then
         let i := set_IdleMSRemaining (IdleCount (HID_St i)) i in
         Endpoint_SelectEndpoint (T_Address (ReportINEndpoint (HID_Cfg i)));;
         when (negb (rp_ID v =? 0)) (Endpoint_Write_8 (rp_ID v));;
         _ ← Endpoint_Write_Stream_LE (in_memory (rp_data v)) (rp_size v) None;
         Endpoint_ClearIN;;
         mret i
       else mret i);
  f ← USB_Device_GetFrameNumber;
  mret (set_PrevFrameNum f i).

Definition HID_Device_USBTask (i : USB_ClassInfo_HID_Device_t) : M USB_ClassInfo_HID_Device_t :=
  d ← get_fw DeviceState;
  if negb (d =? DEVICE_STATE_Configured) then mret i
  else
    f ← USB_Device_GetFrameNumber;
    if (PrevFrameNum (HID_St i) =? f) && negb (tst USB_Options USB_DEVICE_OPT_LOWSPEED) then mret i
    else
      Endpoint_SelectEndpoint (T_Address (ReportINEndpoint (HID_Cfg i)));;
      rw ← Endpoint_IsReadWriteAllowed;
      if (rw : bool) then HID_report i else mret i.
End Driver.

Definition HID_Device_MillisecondElapsed (i : USB_ClassInfo_HID_Device_t) : USB_ClassInfo_HID_Device_t :=
  if negb (IdleMSRemaining (HID_St i) =? 0) then set_IdleMSRemaining (u16 (IdleMSRemaining (HID_St i) - 1)) i else i.
