(* ===== verification/Audio.v ===== *)
(** * The Audio class driver

    LUFA/Drivers/USB/Class/Device/AudioClassDevice.c and the inline functions
    of AudioClassDevice.h. The interface structure is a record threaded through
    the functions. The application's two property callbacks are parameters, as
    is what an uninitialised automatic array holds;
    [EVENT_Audio_Device_StreamStartStop] is the weak alias of the stub, which
    nothing in the program overrides. *)
From S2P Require Import Prelude RingBuffer Machine Endpoint Controller EndpointPoll EndpointStream Cdc Descriptors StdReq Packed.

Definition REQ_SetInterface : Z := 11.
Definition AUDIO_REQ_SetCurrent : Z := 0x01.
Definition AUDIO_REQ_SetMinimum : Z := 0x02.
Definition AUDIO_REQ_SetMaximum : Z := 0x03.
Definition AUDIO_REQ_SetResolution : Z := 0x04.
Definition AUDIO_REQ_GetCurrent : Z := 0x81.
Definition AUDIO_REQ_GetMinimum : Z := 0x82.
Definition AUDIO_REQ_GetMaximum : Z := 0x83.
Definition AUDIO_REQ_GetResolution : Z := 0x84.
Definition AUDIO_REQ_GetStatus : Z := 0xFF.

Record Audio_Config_t := Audio_Config {
  A_ControlInterfaceNumber : Z;
  A_StreamingInterfaceNumber : Z;
  A_DataINEndpoint : USB_Endpoint_Table_t;
  A_DataOUTEndpoint : USB_Endpoint_Table_t }.
Record USB_ClassInfo_Audio_Device_t := Audio_Device {
  A_Cfg : Audio_Config_t;
  InterfaceEnabled : bool }.

Definition Audio_Device_Event_Stub : M unit := mret tt.

(** Requests to an endpoint, by recipient [REQREC_ENDPOINT] of the class. *)
Definition class_out_endpoint : Z := REQTYPE_CLASS .| REQREC_ENDPOINT.

Section Driver.
(** [*DataLength] and [Data], or [None] for the null pointers; the result comes
    with what the callback leaves there. *)
Context (GetSetEndpointProperty : USB_ClassInfo_Audio_Device_t → Z → Z → Z → option (Z * list Z) →
  M (bool * USB_ClassInfo_Audio_Device_t * (Z * list Z))).
Context (GetSetInterfaceProperty : USB_ClassInfo_Audio_Device_t → Z → Z → Z → option (Z * list Z) →
  M (bool * USB_ClassInfo_Audio_Device_t * (Z * list Z))).
Context (stack : nat → Z).

(** [uint8_t Value[ValueLength]] *)
Definition uninitialised (n : Z) : list Z := map stack (seq 0 (Z.to_nat n)).

(** The two branches of the Set requests, for one of the callbacks. *)
Definition audio_set (property : USB_ClassInfo_Audio_Device_t → option (Z * list Z) →
      M (bool * USB_ClassInfo_Audio_Device_t * (Z * list Z)))
    (r : USB_Request_Header_t) (i : USB_ClassInfo_Audio_Device_t) : M USB_ClassInfo_Audio_Device_t :=
  v ← property i None;
  let i := v.1.2 in
  if (v.1.1 : bool) then
    let ValueLength := wLength r in
    Endpoint_ClearSETUP;;
    d ← Endpoint_Read_Control_Stream_LE (uninitialised ValueLength) ValueLength;
    Endpoint_ClearIN;;
    v ← property i (Some (ValueLength, d.2));
    mret v.1.2
  else mret i.

(** The two branches of the Get requests. *)
Definition audio_get (property : USB_ClassInfo_Audio_Device_t → option (Z * list Z) →
      M (bool * USB_ClassInfo_Audio_Device_t * (Z * list Z)))
    (r : USB_Request_Header_t) (i : USB_ClassInfo_Audio_Device_t) : M USB_ClassInfo_Audio_Device_t :=
  v ← property i (Some (wLength r, uninitialised (wLength r)));
  let i := v.1.2 in
  if (v.1.1 : bool) then
    Endpoint_ClearSETUP;;
    _ ← Endpoint_Write_Control_Stream_LE v.2.2 v.2.1;
    Endpoint_ClearOUT;;
    mret i
  else mret i.

(** [EndpointProperty], [EndpointAddress], [EndpointControl] and [Property],
    [Entity], [Parameter] of a request. *)
Definition endpoint_property (r : USB_Request_Header_t) (i : USB_ClassInfo_Audio_Device_t) :=
  GetSetEndpointProperty i (bRequest r) (u8 (wIndex r)) (wValue r >> 8).
Definition interface_property (r : USB_Request_Header_t) (i : USB_ClassInfo_Audio_Device_t) :=
  GetSetInterfaceProperty i (bRequest r) (wIndex r >> 8) (wValue r).

(** The early returns for requests to another interface or endpoint. *)
Definition audio_not_for_us (r : USB_Request_Header_t) (c : Audio_Config_t) : bool :=
  if bmRequestType r .& CONTROL_REQTYPE_RECIPIENT =? REQREC_INTERFACE then
    let InterfaceIndex := wIndex r .& 0xFF in
    negb (InterfaceIndex =? A_ControlInterfaceNumber c) && negb (InterfaceIndex =? A_StreamingInterfaceNumber c)
  else if bmRequestType r .& CONTROL_REQTYPE_RECIPIENT =? REQREC_ENDPOINT then
    let EndpointAddress := wIndex r .& 0xFF in
    negb (EndpointAddress =? T_Address (A_DataINEndpoint c)) && negb (EndpointAddress =? T_Address (A_DataOUTEndpoint c))
  else false.

Definition Audio_Device_ProcessControlRequest (i : USB_ClassInfo_Audio_Device_t) : M USB_ClassInfo_Audio_Device_t :=
  setup ← Endpoint_IsSETUPReceived;
  if negb setup then mret i
  else
    r ← get_fw ControlRequest;
    if audio_not_for_us r (A_Cfg i) then mret i
    else
      let rec_ := bmRequestType r .& CONTROL_REQTYPE_RECIPIENT in
      let q := bRequest r in
      if q =? REQ_SetInterface then
        if bmRequestType r =? std_out REQREC_INTERFACE then
          Endpoint_ClearSETUP;;
          Endpoint_ClearStatusStage;;
          r ← get_fw ControlRequest;
          let i := Audio_Device (A_Cfg i) (negb (wValue r .& 0xFF =? 0)) in
          Audio_Device_Event_Stub;;
          mret i
        else mret i
      else if q =? AUDIO_REQ_GetStatus then
        if (bmRequestType r =? class_out) || (bmRequestType r =? class_out_endpoint) then
          Endpoint_ClearSETUP;;
          Endpoint_ClearStatusStage;;
          mret i
        else mret i
      else if (q =? AUDIO_REQ_SetCurrent) || (q =? AUDIO_REQ_SetMinimum) || (q =? AUDIO_REQ_SetMaximum) ||
              (q =? AUDIO_REQ_SetResolution) then
        if rec_ =? REQREC_ENDPOINT then audio_set (endpoint_property r) r i
        else if rec_ =? REQREC_INTERFACE then audio_set (interface_property r) r i
        else mret i
      else if (q =? AUDIO_REQ_GetCurrent) || (q =? AUDIO_REQ_GetMinimum) || (q =? AUDIO_REQ_GetMaximum) ||
              (q =? AUDIO_REQ_GetResolution) then
        if rec_ =? REQREC_ENDPOINT then audio_get (endpoint_property r) r i
        else if rec_ =? REQREC_INTERFACE then audio_get (interface_property r) r i
        else mret i
      else mret i.
End Driver.

Definition Audio_Device_ConfigureEndpoints (i : USB_ClassInfo_Audio_Device_t) : M (bool * USB_ClassInfo_Audio_Device_t) :=
  let c := A_Cfg i in
  let c := Audio_Config (A_ControlInterfaceNumber c) (A_StreamingInterfaceNumber c)
    (with_type EP_TYPE_ISOCHRONOUS (A_DataINEndpoint c)) (with_type EP_TYPE_ISOCHRONOUS (A_DataOUTEndpoint c)) in
  let i := Audio_Device c false in
  ok ← Endpoint_ConfigureEndpointTable [A_DataINEndpoint c];
  if negb ok then mret (false, i)
  else
    ok ← Endpoint_ConfigureEndpointTable [A_DataOUTEndpoint c];
    if negb ok then mret (false, i) else mret (true, i).

(** ** Samples

    Conversions of unsigned values to [int8_t], [int16_t] and [int32_t]. *)
Definition s8 (x : Z) : Z := if u8 x <? 2 ^ 7 then u8 x else u8 x - 2 ^ 8.
Definition s16 (x : Z) : Z := if u16 x <? 2 ^ 15 then u16 x else u16 x - 2 ^ 16.
Definition s32 (x : Z) : Z := if u32 x <? 2 ^ 31 then u32 x else u32 x - 2 ^ 32.

Definition Audio_Device_USBTask (i : USB_ClassInfo_Audio_Device_t) : M unit := mret tt.

Definition Audio_inactive (i : USB_ClassInfo_Audio_Device_t) : M bool :=
  d ← get_fw DeviceState; mret (negb (d =? DEVICE_STATE_Configured) || negb (InterfaceEnabled i)).

Definition Audio_Device_IsSampleReceived (i : USB_ClassInfo_Audio_Device_t) : M bool :=
  off ← Audio_inactive i;
  if (off : bool) then mret false
  else Endpoint_SelectEndpoint (T_Address (A_DataOUTEndpoint (A_Cfg i)));; Endpoint_IsOUTReceived.

Definition Audio_Device_IsReadyForNextSample (i : USB_ClassInfo_Audio_Device_t) : M bool :=
  off ← Audio_inactive i;
  if (off : bool) then mret false
  else Endpoint_SelectEndpoint (T_Address (A_DataINEndpoint (A_Cfg i)));; Endpoint_IsINReady.

(** [if (!(Endpoint_BytesInEndpoint())) Endpoint_ClearOUT();] *)
Definition release_empty : M unit := n ← Endpoint_BytesInEndpoint; when (n =? 0) Endpoint_ClearOUT.

Definition Audio_Device_ReadSample8 (i : USB_ClassInfo_Audio_Device_t) : M Z :=
  x ← Endpoint_Read_8; release_empty;; mret (s8 x).
Definition Audio_Device_ReadSample16 (i : USB_ClassInfo_Audio_Device_t) : M Z :=
  x ← Endpoint_Read_16_LE; release_empty;; mret (s16 x).
(** C leaves open which operand of [|] is evaluated first: [left] says
    whether it is the left one. *)
Definition Audio_Device_ReadSample24 (left : bool) (i : USB_ClassInfo_Audio_Device_t) : M Z :=
  x ← (if left then h ← Endpoint_Read_8; l ← Endpoint_Read_16_LE; mret (u32 (h << 16) .| l)
       else l ← Endpoint_Read_16_LE; h ← Endpoint_Read_8; mret (u32 (h << 16) .| l));
  release_empty;;
  mret (s32 x).

(** [if (Endpoint_BytesInEndpoint() == Size) Endpoint_ClearIN();] *)
Definition send_full (i : USB_ClassInfo_Audio_Device_t) : M unit :=
  n ← Endpoint_BytesInEndpoint; when (n =? T_Size (A_DataINEndpoint (A_Cfg i))) Endpoint_ClearIN.

Definition Audio_Device_WriteSample8 (i : USB_ClassInfo_Audio_Device_t) (Sample : Z) : M unit :=
  Endpoint_Write_8 (u8 Sample);; send_full i.
Definition Audio_Device_WriteSample16 (i : USB_ClassInfo_Audio_Device_t) (Sample : Z) : M unit :=
  Endpoint_Write_16_LE (u16 Sample);; send_full i.
Definition Audio_Device_WriteSample24 (i : USB_ClassInfo_Audio_Device_t) (Sample : Z) : M unit :=
  Endpoint_Write_16_LE (u16 Sample);; Endpoint_Write_8 (u8 (Sample >> 16));; send_full i.
