(* ===== verification/DriverSpec.v ===== *)
(** * The drivers for MIDI, HID and audio: lemmas

    Computations that send no packet, decided by instance search; the events,
    reports and samples the three drivers put on the wire and take from it. *)
From S2P Require Import Prelude RingBuffer Machine Endpoint Controller EndpointPoll EndpointStream Cdc Descriptors StdReq Packed Logic EndpointSpec EndpointData BulkSpec Midi HidDevice Audio.

(** * Silent computations

    A computation is silent when it hands no packet to the USB controller and
    leaves the control request alone, in every state, under every environment
    and however it ends. [Silent] is closed under the constructs of the monad,
    so instances for the primitives decide it by type class search. *)

Definition is_packet (o : obs) : bool := match o with OPacket _ _ => true | OStore _ _ => false end.
Definition packets_in (s : mach) : list obs := filter is_packet (trace s).

Definition final {A} (r : res A) : mach := match r with Ok _ s | Blocked s | Fault s | Spin s => s end.

Definition quietly (s s' : mach) : Prop :=
  packets_in s' = packets_in s ∧ ControlRequest (fwst s') = ControlRequest (fwst s).

#[export] Instance quietly_preorder : PreOrder quietly.
Proof. split; [done|]. intros s1 s2 s3 [] []. split; congruence. Qed.

Class Silent {A} (m : M A) : Prop := silent s : quietly s (final (m s)).

Section closure.
Context {A B : Type}.
#[export] Instance silent_ret (a : A) : Silent (mret a).
Proof. by intros s. Qed.
#[export] Instance silent_fault : Silent (@fault A).
Proof. by intros s. Qed.
#[export] Instance silent_spin : Silent (@spin A).
Proof. by intros s. Qed.
#[export] Instance silent_gets (f : mach → A) : Silent (gets f).
Proof. by intros s. Qed.
#[export] Instance silent_lift (o : option A) : Silent (lift o).
Proof. destruct o; by intros s. Qed.
#[export] Instance silent_ended (o : option A) : Silent (ended o).
Proof. destruct o; by intros s. Qed.
#[export] Instance silent_bind (m : M A) (k : A → M B) : Silent m → (∀ a, Silent (k a)) → Silent (m ≫= k).
Proof.
  intros Hm Hk s. specialize (Hm s). unfold mbind, M_bind. destruct (m s); cbn in *; try done.
  by etrans; [exact Hm|apply Hk].
Qed.
#[export] Instance silent_if (b : bool) (m m' : M A) : Silent m → Silent m' → Silent (if b then m else m').
Proof. by destruct b. Qed.
#[export] Instance silent_when (b : bool) (m : M unit) : Silent m → Silent (when b m).
Proof. intros H. destruct b; [exact H|by intros s]. Qed.
#[export] Instance silent_iter n (body : B → M (B + A)) x : (∀ x, Silent (body x)) → Silent (iter n body x).
Proof.
  intros H s. unfold iter. generalize (n + S (length (script s)))%nat as k. intros k. revert x s.
  induction k as [|k IH]; intros x s; cbn [itern]; [done|]. specialize (H x s). unfold mbind, M_bind.
  destruct (body x s) as [[x'|a] s'|s'|s'|s']; cbn in *; try done. by etrans; [exact H|].
Qed.
End closure.

(** One step at a time, for what depends on the state. *)
Lemma quietly_bind {A B} (m : M A) (k : A → M B) s : Silent m →
  (∀ a s', quietly s s' → quietly s' (final (k a s'))) → quietly s (final ((m ≫= k) s)).
Proof.
  intros Hm Hk. specialize (Hm s). unfold mbind, M_bind. destruct (m s) as [a s'|s'|s'|s']; cbn in *; try done.
  etrans; [exact Hm|by apply Hk].
Qed.

(** The search follows the text of a computation, it unfolds nothing. *)
#[local] Hint Constants Opaque : typeclass_instances.
#[local] Typeclasses Transparent reg.

(** Changes of the firmware's variables that keep the control request. *)
Class KeepsRequest (f : fw → fw) : Prop := keeps_request w : ControlRequest (f w) = ControlRequest w.
#[export] Hint Extern 0 (KeepsRequest _) => (intros ?; reflexivity) : typeclass_instances.

#[export] Instance silent_mod_fw f : KeepsRequest f → Silent (mod_fw f).
Proof. intros H s. split; [done|]. apply H. Qed.
#[export] Instance silent_mod_hw f : Silent (mod_hw f).
Proof. by intros s. Qed.
#[export] Instance silent_store r v : Silent (emit (OStore r v)).
Proof. intros s. split; [|done]. unfold packets_in. cbn. by rewrite filter_app, app_nil_r. Qed.

(** Unfold the function and search. *)
Ltac silently f := intros; unfold f; cbv zeta; apply _.

#[export] Instance silent_get_fw {A} (f : fw → A) : Silent (get_fw f).
Proof. silently @get_fw. Qed.
#[export] Instance silent_get_hw {A} (f : hw → A) : Silent (get_hw f).
Proof. silently @get_hw. Qed.
#[export] Instance silent_ld r : Silent (ld r).
Proof. silently ld. Qed.
#[export] Instance silent_st8 r v : Silent (r ::= v).
Proof. silently st8. Qed.
#[export] Instance silent_w1c r v : Silent (st_w1c r v).
Proof. silently st_w1c. Qed.
#[export] Instance silent_setbits r v : Silent (setbits r v).
Proof. silently setbits. Qed.
#[export] Instance silent_clrbits r v : Silent (clrbits r v).
Proof. silently clrbits. Qed.

(** ** Endpoints *)
#[export] Instance silent_get_handle {A} (f : USB_EP_t → A) : Silent (get_handle f).
Proof. silently @get_handle. Qed.
#[export] Instance silent_mod_handle f : Silent (mod_handle f).
Proof. silently mod_handle. Qed.
#[export] Instance silent_get_fifo {A} (f : Endpoint_FIFO_t → A) : Silent (get_fifo f).
Proof. silently @get_fifo. Qed.
#[export] Instance silent_mod_fifo f : Silent (mod_fifo f).
Proof. silently mod_fifo. Qed.
#[export] Instance silent_select a : Silent (Endpoint_SelectEndpoint a).
Proof. silently Endpoint_SelectEndpoint. Qed.
#[export] Instance silent_configure_prv a c n : Silent (Endpoint_ConfigureEndpoint_PRV a c n).
Proof. silently Endpoint_ConfigureEndpoint_PRV. Qed.
#[export] Instance silent_configure a t n b : Silent (Endpoint_ConfigureEndpoint a t n b).
Proof. silently Endpoint_ConfigureEndpoint. Qed.
#[export] Instance silent_clear_endpoints : Silent Endpoint_ClearEndpoints.
Proof. silently Endpoint_ClearEndpoints. Qed.
#[export] Instance silent_ClearSETUP : Silent Endpoint_ClearSETUP.
Proof. silently Endpoint_ClearSETUP. Qed.
#[export] Instance silent_ClearOUT : Silent Endpoint_ClearOUT.
Proof. silently Endpoint_ClearOUT. Qed.
#[export] Instance silent_Write_8 x : Silent (Endpoint_Write_8 x).
Proof. silently Endpoint_Write_8. Qed.

(** ** The bus interrupt and polling *)
#[export] Instance silent_has i : Silent (USB_INT_HasOccurred i).
Proof. unfold USB_INT_HasOccurred. destruct i; apply _. Qed.
#[export] Instance silent_enabled i : Silent (USB_INT_IsEnabled i).
Proof. unfold USB_INT_IsEnabled. destruct i; apply _. Qed.
#[export] Instance silent_clear i : Silent (USB_INT_Clear i).
Proof. unfold USB_INT_Clear. destruct i; apply _. Qed.
#[export] Instance silent_bus : Silent USB_BUSEVENT_vect.
Proof.
  unfold USB_BUSEVENT_vect, ISR_SOF, ISR_Suspend, ISR_Resume, ISR_Reset, USB_Event_Stub, EVENT_USB_Device_Connect,
    EVENT_USB_Device_Disconnect, USB_Device_IsAddressSet, USB_Device_EnableDeviceAddress. apply _.
Qed.
#[export] Instance silent_poll : Silent poll.
Proof.
  intros s. unfold poll. destruct (script s) as [|[f|f] es]; [done|done|]. cbn zeta.
  destruct (IFlag _); [|done]. exact (silent_bus (set_hwst (f (hwst s)) (set_script es s))).
Qed.
#[export] Instance silent_IsINReady : Silent Endpoint_IsINReady.
Proof. silently Endpoint_IsINReady. Qed.
#[export] Instance silent_received f : Silent (received f).
Proof. silently received. Qed.
#[export] Instance silent_IsOUTReceived : Silent Endpoint_IsOUTReceived.
Proof. silently Endpoint_IsOUTReceived. Qed.
#[export] Instance silent_IsSETUPReceived : Silent Endpoint_IsSETUPReceived.
Proof. silently Endpoint_IsSETUPReceived. Qed.
#[export] Instance silent_wait_attached c : Silent c → Silent (wait_attached c).
Proof. silently wait_attached. Qed.

(** ** Computations that look at the control request *)
Lemma quietly_request {A} (k : USB_Request_Header_t → M A) s :
  quietly s (final (k (ControlRequest (fwst s)) s)) → quietly s (final ((get_fw ControlRequest ≫= k) s)).
Proof. done. Qed.

(** The status stage of a request with a data stage to the host is an OUT
    packet. *)
Lemma quietly_status_stage s : tst (bmRequestType (ControlRequest (fwst s))) REQDIR_DEVICETOHOST = true →
  quietly s (final (Endpoint_ClearStatusStage s)).
Proof. intros Hd. unfold Endpoint_ClearStatusStage. apply quietly_request. rewrite Hd. apply silent. Qed.

(** * MIDI events over bulk pipes

    What a sequence of calls of the MIDI driver puts on the wire and takes from
    it. *)

#[local] Arguments ep_of : simpl never.

(** An event packet. *)
Definition midi_event (e : list Z) : Prop := length e = 4%nat ∧ bytes e.

(** Calls until one reports an error. *)
Fixpoint send_events (i : USB_ClassInfo_MIDI_Device_t) (evs : list (list Z)) : M Z :=
  match evs with
  | [] => mret ENDPOINT_RWSTREAM_NoError
  | e :: evs =>
      r ← MIDI_Device_SendEventPacket i e;
      if negb (r =? ENDPOINT_RWSTREAM_NoError) then mret r else send_events i evs
  end.

(** [n] calls, the events they return. *)
Fixpoint receive_events (i : USB_ClassInfo_MIDI_Device_t) (n : nat) : M (list (bool * list Z)) :=
  match n with
  | O => mret []
  | S n' => r ← MIDI_Device_ReceiveEventPacket i [0; 0; 0; 0]; l ← receive_events i n'; mret (r :: l)
  end.

Section Midi.
Context (i : USB_ClassInfo_MIDI_Device_t) (bi bo : buffer).
Abbreviation ai := (T_Address (MIDI_DataINEndpoint i)).
Abbreviation ao := (T_Address (MIDI_DataOUTEndpoint i)).
Context (Hai : in_address ai) (Hao : out_address ao) (Hb : bi ≠ bo).
Abbreviation pipe := (pipe ai ao bi bo).
Abbreviation holding := (holding ao bo).
Abbreviation later := (later ai ao).

Lemma configured_on {A} (m m' : M A) s Q B : DeviceState (fwst s) = DEVICE_STATE_Configured →
  wp m' Q B s → wp (d ← get_fw DeviceState; if negb (d =? DEVICE_STATE_Configured) then m else m') Q B s.
Proof. intros E H. apply wp_bind, wp_gets. rewrite E. exact H. Qed.

(** One event in: it waits in the bank, or completes it. *)
Lemma wp_SendEventPacket j e Q B s : pipe j s → 0 ≤ j → j + 4 ≤ 64 → midi_event e →
  DeviceState (fwst s) = DEVICE_STATE_Configured → script s ≠ [] →
  (∀ s', length (script s) = S (length (script s')) → DeviceState (fwst s') = DEVICE_STATE_Configured →
     (if j + 4 <? 64 then pipe (j + 4) s' ∧ trace s' = trace s ∧ bank bi (j + 4) s' = bank bi j s ++ e
      else pipe 0 s' ∧ trace s' = trace s ++ [OPacket (ai .& 15) (bank bi j s ++ e)]) → Q 0 s') →
  wp (MIDI_Device_SendEventPacket i e) Q B s.
Proof using Hai Hao Hb.
  intros Hp Hj Hj4 [He Hby] Hd Hs HQ. apply configured_on; [done|]. wsteps.
  change sizeof_MIDI_EventPacket with (Z.of_nat 4). rewrite <-He.
  apply (wp_Write_Stream ai ao bi bo Hai (in_memory e) j); [apply in_memory_gives_all|done|by apply pipe_sel|done|lia|done|by left|done|].
  intros s1 Hp1 Hl1 Hs1 Hb1. apply later_sel in Hl1. cbn [fst snd]. change (negb (0 =? ENDPOINT_RWSTREAM_NoError)) with false.
  cbn iota. rewrite He in *. unfold Endpoint_IsReadWriteAllowed. apply wp_bind.
  eapply wp_Ok; [apply (get_fifo_eq _ (ep_of ai)); [apply Hs1|apply Hai]|]. change (FIFOs _ _ _) with (fifo ai s1).
  rewrite (pi_in _ _ _ _ _ _ Hp1). cbn [FIFO_Position FIFO_Length]. destruct Hl1. change (Z.of_nat 4) with 4 in *.
  destruct (j + 4 <? 64) eqn:Ej; cbn [negb when].
  - wsteps. apply HQ; [lia|congruence|]. by rewrite Hb1.
  - apply wp_bind, (wp_ClearIN_pipe ai ao bi bo Hai Hao (j + 4)); [done|done|].
    intros s2 Hp2 Ht2 Hsc2 _ Hd2 _ _ _. wsteps. apply HQ; [rewrite Hsc2; lia|congruence|].
    split; [done|]. by rewrite Ht2, Hb1, la_trace.
Qed.

(** Many events: full packets go out, the rest waits. *)
Lemma wp_send_events evs j Q B s : pipe j s → 0 ≤ j < 64 → (4 | j) → Forall midi_event evs →
  DeviceState (fwst s) = DEVICE_STATE_Configured → (length evs ≤ length (script s))%nat →
  (∀ s' j' pk, pipe j' s' → 0 ≤ j' < 64 → DeviceState (fwst s') = DEVICE_STATE_Configured →
     length (script s) = (length evs + length (script s'))%nat →
     trace s' = trace s ++ map (OPacket (ai .& 15)) pk → Forall (λ p, length p = 64%nat) pk →
     concat pk ++ bank bi j' s' = bank bi j s ++ concat evs → Q 0 s') →
  wp (send_events i evs) Q B s.
Proof using Hai Hao Hb.
  revert j s. induction evs as [|e evs IH]; intros j s Hp Hj Hdiv He Hd Hs HQ; cbn [send_events].
  { wsteps. apply (HQ s j []); try done; by rewrite !app_nil_r. }
  apply Forall_cons in He as [He Hes]. assert (j + 4 ≤ 64) as Hj4 by (destruct Hdiv as [q ->]; lia).
  assert (4 | j + 4) as Hdiv' by (apply Z.divide_add_r; [done|by exists 1]).
  assert (length (bank bi j s ++ e) = Z.to_nat (j + 4)) as Hle.
  { destruct He as [He _]. unfold bank. rewrite length_app, length_take, (pi_buf _ _ _ _ _ _ Hp), He. lia. }
  apply wp_bind, (wp_SendEventPacket j); try done; [lia|apply script_ne; cbn in Hs; lia|]. intros s1 Hl1 Hd1 H1.
  change (negb (0 =? ENDPOINT_RWSTREAM_NoError)) with false. cbn iota. cbn in Hs.
  destruct (Z.ltb_spec (j + 4) 64) as [Hlt|Hge].
  - destruct H1 as (Hp1 & Ht1 & Hb1). apply (IH (j + 4)); try done; [lia|lia|].
    intros s2 j' pk Hp2 Hj' Hd2 Hl2 Ht2 Hpk Hc. apply (HQ s2 j' pk); try done; [cbn; lia|by rewrite Ht2, Ht1|].
    by rewrite Hc, Hb1, <-app_assoc.
  - destruct H1 as (Hp1 & Ht1). apply (IH 0); try done; [by exists 0|lia|].
    intros s2 j' pk Hp2 Hj' Hd2 Hl2 Ht2 Hpk Hc. apply (HQ s2 j' ((bank bi j s ++ e) :: pk)); try done.
    + cbn. lia.
    + by rewrite Ht2, Ht1, <-app_assoc.
    + constructor; [|done]. rewrite Hle. lia.
    + cbn [concat]. rewrite <-!app_assoc, Hc. done.
Qed.

(** What waits is sent. *)
Lemma wp_Flush_midi j Q B s : pipe j s → 0 ≤ j < 64 → DeviceState (fwst s) = DEVICE_STATE_Configured → script s ≠ [] →
  (∀ s', pipe 0 s' → trace s' = trace s ++ (if j =? 0 then [] else [OPacket (ai .& 15) (bank bi j s)]) → Q 0 s') →
  wp (MIDI_Device_Flush i) Q B s.
Proof using Hai Hao.
  intros Hp Hj Hd Hs HQ. apply configured_on; [done|]. wsteps. unfold Endpoint_BytesInEndpoint. wsteps.
  change (SelectedEndpoint (fwst (sel ai s))) with ai. change ENDPOINT_DIR_IN with 128.
  rewrite (proj1 (proj2 Hai)). eapply wp_Ok; [apply (get_fifo_eq _ (ep_of ai)); [done|apply Hai]|].
  change (FIFOs _ _ _) with (fifo ai s). rewrite (pi_in _ _ _ _ _ _ Hp). cbn [FIFO_Position].
  destruct (j =? 0) eqn:Ej; cbn [negb].
  - wsteps. apply Z.eqb_eq in Ej as ->. apply HQ; [by apply pipe_sel|by rewrite app_nil_r].
  - apply wp_bind, (wp_ClearIN_pipe ai ao bi bo Hai Hao j); [done|by apply pipe_sel|].
    intros s1 Hp1 Ht1 Hsc1 Hs1 _ _ _ _. apply wp_bind, (wp_wait_IN ai ao bi bo Hai 0); [apply Hs1|done|by rewrite Hsc1|].
    intros s2 Hp2 Hl2 _ _. wsteps. destruct Hl2. apply HQ; [done|]. by rewrite la_trace.
Qed.

(** One event out; the last one releases the packet. *)
Lemma wp_ReceiveEventPacket pkt k Q B s : pipe 0 s → holding pkt k s → 0 ≤ k → k + 4 ≤ Z.of_nat (length pkt) →
  DeviceState (fwst s) = DEVICE_STATE_Configured → (2 ≤ length (script s))%nat →
  (∀ s', pipe 0 s' → later 2 s s' →
     (if k + 4 <? Z.of_nat (length pkt) then holding pkt (k + 4) s'
      else tst (EP_STATUS (entry ao s')) USB_EP_TRNCOMPL0_bm = false ∧ FIFO_Position (fifo ao s') = 0) →
     Q (true, take 4 (drop (Z.to_nat k) pkt)) s') →
  wp (MIDI_Device_ReceiveEventPacket i [0; 0; 0; 0]) Q B s.
Proof using Hai Hao Hb.
  intros Hp Hh Hk Hk4 Hd Hs HQ. apply configured_on; [done|]. wsteps.
  apply (wp_IsOUTReceived ai ao bi bo Hai Hao 0 pkt k); [done|by apply pipe_sel|by apply holding_sel|apply (script_ne s); lia|].
  intros s1 Hp1 Hh1 Hl1 Hs1 HL1. apply later_sel in Hl1. pose proof (la_script _ _ _ _ _ Hl1) as L1. cbn [negb].
  unfold Endpoint_IsReadWriteAllowed. apply wp_bind.
  eapply wp_Ok; [apply (get_fifo_eq _ (ep_of ao)); [apply Hs1|apply Hao]|]. change (FIFOs _ _ _) with (fifo ao s1).
  rewrite HL1, (ho_pos _ _ _ _ _ Hh1), (proj2 (Z.ltb_lt _ _)) by lia. cbn [negb].
  change sizeof_MIDI_EventPacket with (Z.of_nat 4).
  apply wp_bind, (wp_Read_Stream ai ao bi bo Hai Hao Hb 0 pkt k); [apply Hs1|done|done|done|lia|cbn; lia|by left|apply script_ne; lia|].
  intros s2 Hp2 Hh2 Hl2 Hs2 HL2. cbn [fst snd]. apply wp_bind.
  eapply wp_Ok; [apply (get_fifo_eq _ (ep_of ao)); [apply Hs2|apply Hao]|]. change (FIFOs _ _ _) with (fifo ao s2).
  rewrite HL2, (ho_pos _ _ _ _ _ Hh2). change (Z.of_nat 4) with 4 in *. cbn [drop]. rewrite app_nil_r.
  pose proof (later_trans _ _ 1 1 _ _ _ Hl1 Hl2) as Hl12.
  destruct (k + 4 <? Z.of_nat (length pkt)) eqn:Ek; cbn [negb when]; [wsteps; by apply HQ|].
  apply wp_bind, (wp_ClearOUT_pipe ai ao bi bo Hai Hao 0); [done|done|]. intros s3 Hp3 Hl3 _ Hpos Hfull. wsteps.
  apply HQ; [done| |done]. exact (later_trans _ _ 2 0 _ _ _ Hl12 Hl3).
Qed.

(** A packet of events, call by call. *)
Lemma wp_receive_events evs k pre Q B s : evs ≠ [] → Forall midi_event evs → k = Z.of_nat (length pre) →
  pipe 0 s → holding (pre ++ concat evs) k s → DeviceState (fwst s) = DEVICE_STATE_Configured →
  (2 * length evs ≤ length (script s))%nat →
  (∀ s', trace s' = trace s → tst (EP_STATUS (entry ao s')) USB_EP_TRNCOMPL0_bm = false →
     Q (map (λ e, (true, e)) evs) s') →
  wp (receive_events i (length evs)) Q B s.
Proof using Hai Hao Hb.
  revert Q k pre s. induction evs as [|e evs IH]; intros Q k pre s Hne He -> Hp Hh Hd Hs HQ; [done|].
  apply Forall_cons in He as [[He Hby] Hes]. cbn [length receive_events concat] in *.
  assert (4 * length evs = length (concat evs))%nat as Hlc.
  { clear -Hes. induction Hes as [|x l [Hx _] _ IH]; cbn; [done|]. rewrite length_app. lia. }
  apply wp_bind, (wp_ReceiveEventPacket _ _ _ _ _ Hp Hh); [lia|rewrite !length_app; lia|done|lia|].
  intros s1 Hp1 Hl1 H1. destruct Hl1. rewrite Nat2Z.id, drop_app_length, <-He, take_app_length.
  rewrite !length_app, He, <-Hlc in H1. destruct evs as [|e' evs].
  - cbn [length receive_events]. wsteps. rewrite (proj2 (Z.ltb_ge _ _)) in H1 by (cbn; lia). apply HQ; [done|apply H1].
  - rewrite (proj2 (Z.ltb_lt _ _)) in H1 by (cbn; lia). apply wp_bind.
    apply (IH _ (Z.of_nat (length (pre ++ e))) (pre ++ e)); [done|done|done|done| |congruence|lia|].
    + rewrite <-app_assoc, length_app, He. by replace (Z.of_nat (length pre + 4)) with (Z.of_nat (length pre) + 4) by lia.
    + intros s2 Ht2 Hf2. wsteps. apply HQ; [congruence|done].
Qed.

(** A packet without data is never released. *)
Lemma wp_ReceiveEventPacket_empty Q B s : pipe 0 s → holding [] 0 s →
  DeviceState (fwst s) = DEVICE_STATE_Configured → script s ≠ [] →
  (∀ s', pipe 0 s' → holding [] 0 s' → later 1 s s' → Q (false, [0; 0; 0; 0]) s') →
  wp (MIDI_Device_ReceiveEventPacket i [0; 0; 0; 0]) Q B s.
Proof using Hai Hao.
  intros Hp Hh Hd Hs HQ. apply configured_on; [done|]. wsteps.
  apply (wp_IsOUTReceived ai ao bi bo Hai Hao 0 [] 0); [done|by apply pipe_sel|by apply holding_sel|done|].
  intros s1 Hp1 Hh1 Hl1 Hs1 HL1. apply later_sel in Hl1. cbn [negb].
  unfold Endpoint_IsReadWriteAllowed. apply wp_bind.
  eapply wp_Ok; [apply (get_fifo_eq _ (ep_of ao)); [apply Hs1|apply Hao]|]. change (FIFOs _ _ _) with (fifo ao s1).
  rewrite HL1, (ho_pos _ _ _ _ _ Hh1). wsteps. by apply HQ.
Qed.

Lemma wp_receive_empty n Q B s : pipe 0 s → holding [] 0 s → DeviceState (fwst s) = DEVICE_STATE_Configured →
  (n ≤ length (script s))%nat → (∀ s', holding [] 0 s' → Q (replicate n (false, [0; 0; 0; 0])) s') →
  wp (receive_events i n) Q B s.
Proof using Hai Hao.
  revert Q s. induction n as [|n IH]; intros Q s Hp Hh Hd Hs HQ; cbn [receive_events]; [wsteps; by apply HQ|].
  apply wp_bind, wp_ReceiveEventPacket_empty; [done|done|done|apply script_ne; lia|]. intros s1 Hp1 Hh1 [].
  apply wp_bind, IH; [done|done|congruence|lia|]. intros s2 Hh2. wsteps. by apply HQ.
Qed.
End Midi.

(** * HID reports

    When [HID_Device_USBTask] sends a report and what it sends, and the idle
    period counted by [HID_Device_MillisecondElapsed]. *)

#[local] Arguments ep_of : simpl never.

(** ** The report buffer *)
Lemma wr_bytes_whole l d : length d = length l → wr_bytes l 0 d = Some d.
Proof.
  intros Hl. destruct (wr_bytes_ok l 0 d) as [l' E]; [done|lia|]. rewrite E. f_equal.
  destruct (wr_bytes_lookup _ _ _ _ E) as [L H]. apply list_eq. intros k. rewrite H. case_decide as D.
  - f_equal. lia.
  - rewrite !lookup_ge_None_2 by lia. done.
Qed.

Lemma keep_report_whole d b i : PrevReportINBuffer (HID_Cfg i) = Some b →
  Z.of_nat (length b) = PrevReportINBufferSize (HID_Cfg i) → length d = length b →
  keep_report d i = Some (set_PrevReportINBuffer d i).
Proof.
  intros Eb Hn Hd. unfold keep_report. rewrite Eb, (proj2 (Z.leb_le _ _)) by lia.
  rewrite take_ge by lia. by rewrite wr_bytes_whole.
Qed.

(** ** A report *)

(** [v] is a report the driver can send: it fills the buffer the application
    was given, and its identifier and its data fit the endpoint. *)
Record sendable (i : USB_ClassInfo_HID_Device_t) (b : list Z) (v : HID_Report) : Prop := {
  sn_info : rp_info v = i;
  sn_prev : PrevReportINBuffer (HID_Cfg i) = Some b;
  sn_size : Z.of_nat (length b) = PrevReportINBufferSize (HID_Cfg i);
  sn_data : length (rp_data v) = length b ∧ bytes (rp_data v);
  sn_len : 0 ≤ rp_size v ≤ Z.of_nat (length b) ∧ rp_size v + 1 ≤ 64;
  sn_id : byte (rp_ID v) }.

(** The report is due: forced, changed, or the idle period is over. *)
Definition due (i : USB_ClassInfo_HID_Device_t) (b : list Z) (v : HID_Report) : bool :=
  negb (rp_size v =? 0) &&
  (rp_force v || negb (bool_decide (take (Z.to_nat (rp_size v)) (rp_data v) = take (Z.to_nat (rp_size v)) b)) ||
   (negb (IdleCount (HID_St i) =? 0) && (IdleMSRemaining (HID_St i) =? 0))).

(** The bytes of the report, behind its identifier if it has one. *)
Definition report_bytes (v : HID_Report) : list Z :=
  (if rp_ID v =? 0 then [] else [rp_ID v]) ++ take (Z.to_nat (rp_size v)) (rp_data v).

(** The interface after the report. *)
Definition reported (i : USB_ClassInfo_HID_Device_t) (b : list Z) (v : HID_Report) : USB_ClassInfo_HID_Device_t :=
  let i' := set_PrevReportINBuffer (rp_data v) i in
  if due i b v then set_IdleMSRemaining (IdleCount (HID_St i)) i' else i'.

Section Report.
Context (ai ao : Z) (bi bo : buffer) (Hai : in_address ai) (Hao : out_address ao).
Abbreviation pipe := (pipe ai ao bi bo).

(** The identifier and the data go into one packet. *)
Lemma wp_send_report {A} (k : M A) v Q B s : byte (rp_ID v) → bytes (rp_data v) → 0 ≤ rp_size v ≤ Z.of_nat (length (rp_data v)) →
  rp_size v + 1 ≤ 64 → pipe 0 s → selected_is ai s → script s ≠ [] →
  (∀ s', pipe 0 s' → trace s' = trace s ++ [OPacket (ai .& 15) (report_bytes v)] → wp k Q B s') →
  wp (when (negb (rp_ID v =? 0)) (Endpoint_Write_8 (rp_ID v));;
      _ ← Endpoint_Write_Stream_LE (in_memory (rp_data v)) (rp_size v) None;
      Endpoint_ClearIN;; k) Q B s.
Proof using Hai Hao.
  intros Hid Hby Hn Hn64 Hp Hsel Hs HQ. unfold report_bytes in HQ.
  set (d := take (Z.to_nat (rp_size v)) (rp_data v)) in *.
  assert (Z.of_nat (length d) = rp_size v) as Hd by (unfold d; rewrite length_take; lia).
  assert (∀ j s1, pipe j s1 → selected_is ai s1 → 0 ≤ j ≤ 1 → length (script s1) = length (script s) → trace s1 = trace s →
    bank bi j s1 = (if rp_ID v =? 0 then [] else [rp_ID v]) →
    wp (_ ← Endpoint_Write_Stream_LE (in_memory (rp_data v)) (rp_size v) None; Endpoint_ClearIN;; k) Q B s1) as W.
  { intros j s1 Hp1 Hs1 Hj Hsc Ht Hbk. rewrite <-Hd. apply wp_bind.
    apply (wp_Write_Stream ai ao bi bo Hai _ j d); [apply in_memory_gives|apply Hs1|done|lia|lia|by apply Forall_take|by left|apply script_ne; rewrite Hsc; by destruct (script s); [|cbn; lia]|].
    intros s2 Hp2 [] Hs2 Hb2. apply wp_bind, (wp_ClearIN_pipe ai ao bi bo Hai Hao (j + Z.of_nat (length d))); [done|done|].
    intros s3 Hp3 Ht3 _ _ _ _ _ _. apply HQ; [done|]. rewrite Ht3, Hb2, Hbk. congruence. }
  apply wp_bind. destruct (rp_ID v =? 0) eqn:Eid; cbn [negb when].
  - apply wp_ret. by apply (W 0).
  - apply (wp_Write_pipe ai ao bi bo Hai 0); [done|done|lia|]. intros s1 Hp1 Hl1 Hs1 Hb1.
    destruct Hl1. apply (W 1); try done. rewrite u8_small in Hb1 by done. exact Hb1.
Qed.
End Report.

(** ** The task *)
Lemma wp_HID_USBTask ao bi bo create i b v Q B s :
  let ai := T_Address (ReportINEndpoint (HID_Cfg i)) in
  in_address ai → out_address ao → pipe ai ao bi bo 0 s →
  DeviceState (fwst s) = DEVICE_STATE_Configured → PrevFrameNum (HID_St i) ≠ FrameNum (hwst s) → sendable i b v →
  (∀ s1, create i 0 HID_REPORT_ITEM_In (replicate (length b) 0) 0 s1 = Ok v s1) → script s ≠ [] →
  (∀ s', pipe ai ao bi bo 0 s' →
     trace s' = trace s ++ (if due i b v then [OPacket (ai .& 15) (report_bytes v)] else []) →
     Q (set_PrevFrameNum (FrameNum (hwst s')) (reported i b v)) s') →
  wp (HID_Device_USBTask create i) Q B s.
Proof.
  intros ai Hai Hao Hp Hd Hf [Ei Eb Hsz [Hdl Hdb] [Hn Hn64] Hid] Hcr Hs HQ. unfold HID_Device_USBTask. wsteps.
  rewrite Hd. change (negb (DEVICE_STATE_Configured =? DEVICE_STATE_Configured)) with false. cbn iota.
  unfold USB_Device_GetFrameNumber. wsteps. rewrite (proj2 (Z.eqb_neq _ _) Hf). cbn [andb]. wsteps.
  unfold Endpoint_IsReadWriteAllowed. eapply wp_Ok; [apply (get_fifo_eq _ (ep_of ai)); [done|apply Hai]|].
  change (FIFOs _ _ _) with (fifo ai s). rewrite (pi_in _ _ _ _ _ _ Hp). cbn [FIFO_Position FIFO_Length].
  change (0 <? 64) with true. cbn iota. unfold HID_report. rewrite <-Hsz, Nat2Z.id.
  apply wp_bind. eapply wp_Ok; [apply Hcr|]. rewrite Ei, Eb.
  unfold memcmp_differs. rewrite !(proj2 (Z.leb_le _ _)) by lia. cbn [andb lift]. wsteps.
  rewrite (keep_report_whole _ b) by done. cbn [lift]. wsteps.
  change (IdleCount (HID_St (set_PrevReportINBuffer (rp_data v) i))) with (IdleCount (HID_St i)).
  fold (due i b v). unfold reported in HQ. destruct (due i b v).
  - apply wp_bind, wp_select. apply (wp_send_report ai ao bi bo Hai Hao); [done|done|lia|done|by do 2 apply pipe_sel|done|done|].
    intros s1 Hp1 Ht1. wsteps. by apply HQ.
  - wsteps. apply HQ; [by apply pipe_sel|by rewrite app_nil_r].
Qed.

(** ** The idle period *)
Definition elapse (k : nat) (i : USB_ClassInfo_HID_Device_t) : USB_ClassInfo_HID_Device_t :=
  Nat.iter k HID_Device_MillisecondElapsed i.

Lemma elapse_remaining k i : word16 (IdleMSRemaining (HID_St i)) →
  elapse k i = set_IdleMSRemaining (Z.max 0 (IdleMSRemaining (HID_St i) - Z.of_nat k)) i.
Proof.
  intros Hr. unfold word16 in Hr. induction k as [|k IH].
  - cbn. rewrite Z.sub_0_r, Z.max_r by lia. by destruct i as [? []].
  - change (elapse (S k) i) with (HID_Device_MillisecondElapsed (elapse k i)). rewrite IH.
    unfold HID_Device_MillisecondElapsed. cbn [set_IdleMSRemaining HID_St IdleMSRemaining].
    destruct (Z.eqb_spec (Z.max 0 (IdleMSRemaining (HID_St i) - Z.of_nat k)) 0) as [E|E]; cbn [negb].
    + rewrite E. by rewrite Z.max_l by lia.
    + rewrite u16_small by (unfold word16; lia). unfold set_IdleMSRemaining. cbn. do 2 f_equal. lia.
Qed.

(** * Audio samples

    The bytes the sample functions of AudioClassDevice.h write into a packet,
    and the values they read from one. *)

#[local] Arguments ep_of : simpl never.

(** The [w] low bytes of a sample, the lowest first. *)
Definition sample_bytes (w : nat) (x : Z) : list Z := map (λ k : nat, u8 (x >> (8 * Z.of_nat k))) (seq 0 w).

Section Audio.
Context (i : USB_ClassInfo_Audio_Device_t) (bi bo : buffer).
Abbreviation ai := (T_Address (A_DataINEndpoint (A_Cfg i))).
Abbreviation ao := (T_Address (A_DataOUTEndpoint (A_Cfg i))).
Context (Hai : in_address ai) (Hao : out_address ao) (Hb : bi ≠ bo).
Abbreviation pipe := (pipe ai ao bi bo).
Abbreviation holding := (holding ao bo).

(** [m] adds [l] to the packet being assembled; the packet is not full then. *)
Definition appends (m : M unit) (l : list Z) : Prop := ∀ j s, selected_is ai s → pipe j s → 0 ≤ j →
  j + Z.of_nat (length l) ≤ 64 → j + Z.of_nat (length l) ≠ T_Size (A_DataINEndpoint (A_Cfg i)) →
  ∃ s', m s = Ok tt s' ∧ pipe (j + Z.of_nat (length l)) s' ∧ selected_is ai s' ∧ trace s' = trace s ∧
    bank bi (j + Z.of_nat (length l)) s' = bank bi j s ++ l.

(** [m] takes [l] from a received packet and makes [v] of it. *)
Definition takes_value (m : M Z) (l : list Z) (v : Z) : Prop := ∀ pkt k s, selected_is ao s → pipe 0 s → holding pkt k s →
  FIFO_Length (fifo ao s) = Z.of_nat (length pkt) → 0 ≤ k → take (length l) (drop (Z.to_nat k) pkt) = l →
  ∃ s', m s = Ok v s' ∧ trace s' = trace s.

Lemma wp_send_full j Q B s : selected_is ai s → pipe j s → j ≠ T_Size (A_DataINEndpoint (A_Cfg i)) → Q tt s →
  wp (send_full i) Q B s.
Proof using Hai.
  intros (Hs1 & Hs2 & Hs3) Hp Hj HQ. unfold send_full, Endpoint_BytesInEndpoint. wsteps. rewrite Hs1.
  change ENDPOINT_DIR_IN with 128. rewrite (proj1 (proj2 Hai)).
  eapply wp_Ok; [apply (get_fifo_eq _ (ep_of ai)); [done|apply Hai]|]. change (FIFOs _ _ _) with (fifo ai s).
  rewrite (pi_in _ _ _ _ _ _ Hp). cbn [FIFO_Position]. by rewrite (proj2 (Z.eqb_neq _ _) Hj).
Qed.

Lemma wp_release_empty pkt k Q B s : selected_is ao s → pipe 0 s → holding pkt k s →
  (∀ s', trace s' = trace s → Q tt s') → wp release_empty Q B s.
Proof using Hai Hao.
  intros Hsel Hp Hh HQ. unfold release_empty, Endpoint_BytesInEndpoint. wsteps. rewrite (proj1 Hsel).
  change ENDPOINT_DIR_IN with 128. rewrite (proj1 (proj2 Hao)).
  eapply wp_Ok; [apply (get_fifo_eq _ (ep_of ao)); [apply Hsel|apply Hao]|].
  destruct (u16 _ =? 0); cbn [when]; [|by apply wp_ret, HQ].
  apply (wp_ClearOUT_pipe ai ao bi bo Hai Hao 0); [done|done|]. intros s' _ [] _ _ _. by apply HQ.
Qed.

(** A list of bytes, one by one. *)
Lemma wp_append_list l j Q B s : selected_is ai s → pipe j s → 0 ≤ j → j + Z.of_nat (length l) ≤ 64 →
  (∀ s', pipe (j + Z.of_nat (length l)) s' → selected_is ai s' → trace s' = trace s →
     bank bi (j + Z.of_nat (length l)) s' = bank bi j s ++ map u8 l → Q tt s') →
  wp (write_list l) Q B s.
Proof using Hai.
  revert j s. induction l as [|x l IH]; intros j s Hsel Hp Hj Hl HQ; cbn [write_list length] in *.
  { wsteps. apply HQ; rewrite ?Z.add_0_r; cbn; rewrite ?app_nil_r; done. }
  apply wp_bind, (wp_Write_pipe ai ao bi bo Hai j); [done|done|lia|]. intros s1 Hp1 [] Hs1 Hb1.
  apply (IH (j + 1)); [done|done|lia|lia|].
  replace (j + Z.of_nat (S (length l))) with (j + 1 + Z.of_nat (length l)) in HQ by lia.
  intros s2 Hp2 Hs2 Ht2 Hb2. apply HQ; [done|done|congruence|]. by rewrite Hb2, Hb1, <-app_assoc.
Qed.

Lemma wp_take_list l pkt k Q B s : selected_is ao s → pipe 0 s → holding pkt k s → 0 ≤ k →
  take (length l) (drop (Z.to_nat k) pkt) = l →
  (∀ s', pipe 0 s' → holding pkt (k + Z.of_nat (length l)) s' → selected_is ao s' → trace s' = trace s → Q l s') →
  wp (read_list (length l)) Q B s.
Proof using Hai Hao Hb.
  revert Q k s. induction l as [|x l IH]; intros Q k s Hsel Hp Hh Hk Hl HQ; cbn [read_list length] in *.
  { wsteps. apply HQ; try done. by rewrite Z.add_0_r. }
  destruct (drop (Z.to_nat k) pkt) as [|y m] eqn:Ed; [done|]. injection Hl as -> Hl.
  assert (pkt !! Z.to_nat k = Some x) as Hx by by rewrite <-(Nat.add_0_r (Z.to_nat k)), <-lookup_drop, Ed.
  apply wp_bind, (wp_Read_pipe ai ao bi bo Hai Hao Hb 0 pkt k x); [done|done|done|done|done|].
  intros s1 Hp1 Hh1 [] Hs1 _. apply wp_bind, (IH _ (k + 1)); [done|done|done|lia| |].
  - replace (Z.to_nat (k + 1)) with (Z.to_nat k + 1)%nat by lia. by rewrite <-drop_drop, Ed.
  - replace (k + Z.of_nat (S (length l))) with (k + 1 + Z.of_nat (length l)) in HQ by lia.
    intros s2 Hp2 Hh2 Hs2 Ht2. wsteps. apply HQ; [done|done|done|congruence].
Qed.

(** A write of bytes, then the check for a full packet. *)
Lemma appends_list l l' (m : M unit) : (∀ s, m s = write_list l s) → map u8 l = l' → appends (m;; send_full i) l'.
Proof using Hai.
  intros Hm El j s Hsel Hp Hj Hl Hsz. assert (length l' = length l) as Ll by by rewrite <-El, length_map.
  rewrite Ll in *.
  destruct (wp_returns (m;; send_full i) (λ _ s', pipe (j + Z.of_nat (length l)) s' ∧ selected_is ai s' ∧ trace s' = trace s ∧
    bank bi (j + Z.of_nat (length l)) s' = bank bi j s ++ l') s) as ([] & s' & E & H); [|by exists s'].
  apply wp_bind. unfold wp at 1. rewrite Hm. change (wp (write_list l) (λ _, wp (send_full i)
    (λ _ s', pipe (j + Z.of_nat (length l)) s' ∧ selected_is ai s' ∧ trace s' = trace s ∧
    bank bi (j + Z.of_nat (length l)) s' = bank bi j s ++ l') (λ _, False)) (λ _, False) s).
  apply (wp_append_list l j); [done..|]. intros s1 Hp1 Hs1 Ht1 Hb1. rewrite El in Hb1.
  by apply (wp_send_full _ _ _ s1 Hs1 Hp1).
Qed.

(** A read of bytes, then the check for an empty packet. *)
Lemma takes_value_list {A} l (m : M A) (f : list Z → A) (g : A → Z) :
  (∀ s, m s = (l ← read_list (length l); mret (f l)) s) → takes_value (x ← m; release_empty;; mret (g x)) l (g (f l)).
Proof using Hai Hao Hb.
  intros Hm pkt k s Hsel Hp Hh _ Hk Hl.
  destruct (wp_returns (x ← m; release_empty;; mret (g x)) (λ v s', v = g (f l) ∧ trace s' = trace s) s)
    as (v & s' & E & -> & H); [|by exists s'].
  apply wp_bind. unfold wp at 1. rewrite Hm. change (wp (l0 ← read_list (length l); mret (f l0))
    (λ x, wp (release_empty;; mret (g x)) (λ v s', v = g (f l) ∧ trace s' = trace s) (λ _, False)) (λ _, False) s).
  apply wp_bind, (wp_take_list l pkt k); [done..|]. intros s1 Hp1 Hh1 Hs1 Ht1. wsteps.
  apply (wp_release_empty pkt (k + Z.of_nat (length l))); [done..|]. intros s2 Ht2. wsteps. split; [done|congruence].
Qed.

Lemma appends_ext (m m' : M unit) l : (∀ s, m' s = m s) → appends m l → appends m' l.
Proof. intros E H j s. rewrite E. apply H. Qed.
Lemma takes_ext (m m' : M Z) l v : (∀ s, m' s = m s) → takes_value m l v → takes_value m' l v.
Proof. intros E H pkt k s. rewrite E. apply H. Qed.
End Audio.

(** ** Values *)
Lemma u8_u8 x : u8 (u8 x) = u8 x.
Proof. unfold u8. apply Z.mod_mod. lia. Qed.
Lemma u8_u16 x : u8 (u16 x .& 0xFF) = u8 x.
Proof. rewrite u8_land. unfold u8, u16. Z.to_euclidean_division_equations; lia. Qed.
Lemma u8_u16_high x : u8 (u16 x >> 8) = u8 (x >> 8).
Proof.
  unfold u8, u16. rewrite !Z.shiftr_div_pow2 by lia. change (2 ^ 8) with 256.
  Z.to_euclidean_division_equations; lia.
Qed.
Lemma s8_u8 x : - 2 ^ 7 ≤ x < 2 ^ 7 → s8 (u8 x) = x.
Proof.
  intros Hx. unfold s8. rewrite u8_u8. unfold u8. change (2 ^ 7) with 128 in *. change (2 ^ 8) with 256.
  destruct (Z.ltb_spec (x mod 256) 128); Z.to_euclidean_division_equations; lia.
Qed.
Lemma s16_u16 x : - 2 ^ 15 ≤ x < 2 ^ 15 → s16 (u16 x) = x.
Proof.
  intros Hx. unfold s16, u16. rewrite Z.mod_mod by lia. change (2 ^ 15) with 32768 in *. change (2 ^ 16) with 65536.
  destruct (Z.ltb_spec (x mod 65536) 32768); Z.to_euclidean_division_equations; lia.
Qed.
Lemma word_of_bytes x : word_le [u8 x; u8 (x >> 8)] = u16 x.
Proof. rewrite <-(u8_land x). apply word_le_bytes. Qed.
(** Three bytes put together. *)
Lemma triple h w : byte h → word16 w → s32 (u32 (h << 16) .| w) = h * 2 ^ 16 + w.
Proof.
  unfold byte, word16. intros Hh Hw.
  assert (u32 (h << 16) = h << 16) as ->.
  { unfold u32. rewrite Z.shiftl_mul_pow2 by lia. change (2 ^ 16) with 65536. apply Z.mod_small. lia. }
  rewrite shift_or by lia. unfold s32, u32. change (2 ^ 16) with 65536. change (2 ^ 31) with 2147483648.
  rewrite Z.mod_small by lia. by rewrite (proj2 (Z.ltb_lt _ _)) by lia.
Qed.
