(* ===== verification/DriverProps.v ===== *)
(** * Properties of the remaining class drivers

    Printer, MIDI, HID and Audio. *)
From S2P Require Import Prelude RingBuffer Machine Endpoint Controller EndpointPoll EndpointStream Cdc Descriptors StdReq Packed Printer Logic EndpointSpec EndpointData BulkSpec Midi HidDevice Audio DriverSpec.

(** The port status of the printer driver never reaches the host: however
    the host behaves and however the request ends, a GET_PORT_STATUS is
    processed without handing a packet to the controller. The status byte is
    written to the FIFO, which is not released to the host. *)
Theorem port_status_never_sent i s : bRequest (ControlRequest (fwst s)) = PRNT_REQ_GetPortStatus →
  packets_in (final (PRNT_Device_ProcessControlRequest i s)) = packets_in s.
Proof.
  intros Hreq. enough (quietly s (final (PRNT_Device_ProcessControlRequest i s))) as [E _]; [exact E|].
  unfold PRNT_Device_ProcessControlRequest. apply quietly_bind; [apply _|]. intros setup s1 [_ E1].
  destruct setup; [|done]. cbn [negb]. apply quietly_request. rewrite E1, Hreq.
  destruct (negb (wIndex _ =? _)); [done|].
  change (PRNT_REQ_GetPortStatus =? PRNT_REQ_GetDeviceID) with false.
  change (PRNT_REQ_GetPortStatus =? PRNT_REQ_GetPortStatus) with true. cbn iota.
  destruct (Z.eqb_spec (bmRequestType (ControlRequest (fwst s))) class_in) as [Ed|]; [|done].
  assert (quietly s1 (final (PRNT_GetPortStatus i s1))) as Hq.
  { unfold PRNT_GetPortStatus. apply quietly_bind; [apply _|]. intros _ s2 [_ E2].
    apply quietly_bind; [apply _|]. intros [] s3 [_ E3]; cbn [when]; [|done].
    apply quietly_bind; [apply _|]. intros _ s4 [_ E4]. apply quietly_status_stage.
    by rewrite E4, E3, E2, E1, Ed. }
  unfold mbind, M_bind. by destruct (PRNT_GetPortStatus i s1).
Qed.

(** MIDI events cross the bulk pipes in order and whole. The events given
    to [MIDI_Device_SendEventPacket], then flushed, leave as packets of 1 to 64
    bytes whose contents together are the events; the events of a received
    packet are what as many calls of [MIDI_Device_ReceiveEventPacket] return,
    and the last one gives the packet back. A packet without data is not given
    back by any number of calls, so that nothing is received after it. *)
Theorem midi_events_cross i bi bo s : in_address (T_Address (MIDI_DataINEndpoint i)) →
  out_address (T_Address (MIDI_DataOUTEndpoint i)) → bi ≠ bo →
  pipe (T_Address (MIDI_DataINEndpoint i)) (T_Address (MIDI_DataOUTEndpoint i)) bi bo 0 s →
  DeviceState (fwst s) = DEVICE_STATE_Configured →
  let held pkt s := holding (T_Address (MIDI_DataOUTEndpoint i)) bo pkt 0 s in
  (∀ evs, Forall midi_event evs → (length evs < length (script s))%nat →
   ∃ s' pk, (send_events i evs ≫= λ _, MIDI_Device_Flush i) s = Ok 0 s' ∧
     trace s' = trace s ++ map (OPacket (T_Address (MIDI_DataINEndpoint i) .& 15)) pk ∧
     concat pk = concat evs ∧ Forall (λ p, 0 < length p ≤ 64)%nat pk) ∧
  (∀ evs, evs ≠ [] → Forall midi_event evs → held (concat evs) s → (2 * length evs ≤ length (script s))%nat →
   ∃ s', receive_events i (length evs) s = Ok (map (λ e, (true, e)) evs) s' ∧
     tst (EP_STATUS (entry (T_Address (MIDI_DataOUTEndpoint i)) s')) USB_EP_TRNCOMPL0_bm = false) ∧
  (∀ n, held [] s → (n ≤ length (script s))%nat →
   ∃ s', receive_events i n s = Ok (replicate n (false, [0; 0; 0; 0])) s' ∧ held [] s').
Proof.
  intros Hai Hao Hb Hp Hd held. split_and!.
  - intros evs He Hs. destruct (wp_returns (send_events i evs ≫= λ _, MIDI_Device_Flush i) (λ r s', r = 0 ∧ ∃ pk,
      trace s' = trace s ++ map (OPacket (T_Address (MIDI_DataINEndpoint i) .& 15)) pk ∧
      concat pk = concat evs ∧ Forall (λ p, 0 < length p ≤ 64)%nat pk) s) as (r & s' & E & -> & pk & H); [|by exists s', pk].
    apply wp_bind, (wp_send_events i bi bo Hai Hao Hb evs 0); try done; [by exists 0|lia|].
    intros s1 j pk Hp1 Hj Hd1 Hl1 Ht1 Hpk Hc. apply (wp_Flush_midi i bi bo Hai Hao j); try done; [apply script_ne; lia|].
    intros s2 _ Ht2. split; [done|]. change (bank bi 0 s ++ concat evs) with (concat evs) in Hc. rewrite <-Hc.
    assert (Forall (λ p, 0 < length p ≤ 64)%nat pk) as Hpk' by (eapply Forall_impl; [exact Hpk|]; cbn; lia).
    destruct (Z.eqb_spec j 0) as [->|Hj0].
    + exists pk. rewrite Ht2, Ht1, !app_nil_r. split; [done|]. by split.
    + exists (pk ++ [bank bi j s1]). rewrite Ht2, Ht1, map_app, <-app_assoc. split; [done|].
      split; [by rewrite concat_app; cbn; rewrite app_nil_r|]. apply Forall_app. split; [done|]. apply Forall_singleton.
      unfold bank. rewrite length_take, (pi_buf _ _ _ _ _ _ Hp1). lia.
  - intros evs Hne He Hh Hs. destruct (wp_returns (receive_events i (length evs)) (λ r s', r = map (λ e, (true, e)) evs ∧
      tst (EP_STATUS (entry (T_Address (MIDI_DataOUTEndpoint i)) s')) USB_EP_TRNCOMPL0_bm = false) s)
      as (r & s' & E & -> & H); [|by exists s'].
    by apply (wp_receive_events i bi bo Hai Hao Hb evs 0 []).
  - intros n Hh Hs. destruct (wp_returns (receive_events i n) (λ r s', r = replicate n (false, [0; 0; 0; 0]) ∧ held [] s') s)
      as (r & s' & E & -> & H); [|by exists s']. by apply (wp_receive_empty i bi bo Hai Hao).
Qed.

(** In every new frame the HID driver asks the application for a report
    and sends it, behind its identifier if it has one, exactly when it is due:
    when the application insists, when it differs from the last one, or when
    the idle period the host has set is over; the report is kept for the next
    comparison. After a report has been sent, an unchanged one becomes due
    again after exactly [IdleCount] milliseconds, and never when that is 0. *)
Theorem hid_reports_when_due ao bi bo create i b v s :
  in_address (T_Address (ReportINEndpoint (HID_Cfg i))) → out_address ao →
  pipe (T_Address (ReportINEndpoint (HID_Cfg i))) ao bi bo 0 s → script s ≠ [] →
  DeviceState (fwst s) = DEVICE_STATE_Configured → PrevFrameNum (HID_St i) ≠ FrameNum (hwst s) →
  sendable i b v → word16 (IdleCount (HID_St i)) →
  (∀ s1, create i 0 HID_REPORT_ITEM_In (replicate (length b) 0) 0 s1 = Ok v s1) →
  (∃ s', HID_Device_USBTask create i s = Ok (set_PrevFrameNum (FrameNum (hwst s')) (reported i b v)) s' ∧
     trace s' = trace s ++ (if due i b v
       then [OPacket (T_Address (ReportINEndpoint (HID_Cfg i)) .& 15) (report_bytes v)] else [])) ∧
  (∀ k v', due i b v = true → rp_data v' = rp_data v → rp_size v' = rp_size v → rp_force v' = false →
   due (elapse k (reported i b v)) (rp_data v) v' =
     negb (IdleCount (HID_St i) =? 0) && (IdleCount (HID_St i) <=? Z.of_nat k)).
Proof.
  intros Hai Hao Hp Hs Hd Hf Hv Hi Hcr. split.
  - destruct (wp_returns (HID_Device_USBTask create i) (λ i' s', i' = set_PrevFrameNum (FrameNum (hwst s')) (reported i b v) ∧
      trace s' = trace s ++ (if due i b v
        then [OPacket (T_Address (ReportINEndpoint (HID_Cfg i)) .& 15) (report_bytes v)] else [])) s) as (i' & s' & E & -> & Ht).
    { by apply (wp_HID_USBTask ao bi bo create i b v). }
    by exists s'.
  - intros k v' Hdue Ed Es Ef. unfold reported. rewrite Hdue. unfold word16 in Hi.
    assert ((rp_size v =? 0) = false) as Hz by (unfold due in Hdue; by destruct (rp_size v =? 0)).
    rewrite elapse_remaining by done. unfold due. cbn. rewrite Ed, Es, Ef, Hz, bool_decide_true by done. cbn.
    destruct (IdleCount (HID_St i) =? 0); [done|]. cbn.
    destruct (Z.eqb_spec (Z.max 0 (IdleCount (HID_St i) - Z.of_nat k)) 0), (Z.leb_spec (IdleCount (HID_St i)) (Z.of_nat k)); lia.
Qed.

(** Audio samples of 8 and 16 bits are sent with their low byte first and
    read back as they were written. A sample of 24 bits is not: it is sent low
    byte first as well, but read as a byte of weight 2^16 and a word, whose
    order C leaves open. If the word is read first, the value lacks its sign;
    if the byte is read first, the lowest byte is taken for the highest. *)
Theorem audio_samples i bi bo x : in_address (T_Address (A_DataINEndpoint (A_Cfg i))) →
  out_address (T_Address (A_DataOUTEndpoint (A_Cfg i))) → bi ≠ bo →
  (appends i bi bo (Audio_Device_WriteSample8 i x) (sample_bytes 1 x) ∧
   (- 2 ^ 7 ≤ x < 2 ^ 7 → takes_value i bi bo (Audio_Device_ReadSample8 i) (sample_bytes 1 x) x)) ∧
  (appends i bi bo (Audio_Device_WriteSample16 i x) (sample_bytes 2 x) ∧
   (- 2 ^ 15 ≤ x < 2 ^ 15 → takes_value i bi bo (Audio_Device_ReadSample16 i) (sample_bytes 2 x) x)) ∧
  (appends i bi bo (Audio_Device_WriteSample24 i x) (sample_bytes 3 x) ∧
   takes_value i bi bo (Audio_Device_ReadSample24 false i) (sample_bytes 3 x) (u8 (x >> 16) * 2 ^ 16 + u16 x) ∧
   takes_value i bi bo (Audio_Device_ReadSample24 true i) (sample_bytes 3 x) (u8 x * 2 ^ 16 + u16 (x >> 8))).
Proof.
  intros Hai Hao Hb. split_and!.
  - apply (appends_list i bi bo Hai [u8 x]); [run_bytes|]. cbn. by rewrite Z.shiftr_0_r, u8_u8.
  - intros Hx. rewrite <-(s8_u8 x Hx) at 2. rewrite <-(Z.shiftr_0_r x) at 2.
    apply (takes_value_list i bi bo Hai Hao Hb (sample_bytes 1 x) Endpoint_Read_8 (hd 0) s8).
    change (length (sample_bytes 1 x)) with 1%nat. run_reads.
  - apply (appends_list i bi bo Hai [u16 x .& 0xFF; u16 x >> 8]); [intros s; apply Write_16_LE_list|].
    cbn. by rewrite u8_u16, u8_u16_high, Z.shiftr_0_r.
  - intros Hx. rewrite <-(s16_u16 x Hx) at 2. rewrite <-word_of_bytes. rewrite <-(Z.shiftr_0_r x) at 2.
    apply (takes_value_list i bi bo Hai Hao Hb (sample_bytes 2 x) Endpoint_Read_16_LE word_le s16). apply Read_16_LE_list.
  - eapply appends_ext; [intros s; symmetry; apply bind_assoc|].
    apply (appends_list i bi bo Hai [u16 x .& 0xFF; u16 x >> 8; u8 (x >> 16)]).
    { unfold Endpoint_Write_16_LE. run_bytes. }
    cbn. by rewrite u8_u16, u8_u16_high, u8_u8, Z.shiftr_0_r.
  - rewrite <-triple by (try apply u8_byte; unfold word16, u16; apply Z.mod_pos_bound; lia).
    rewrite <-word_of_bytes. rewrite <-(Z.shiftr_0_r x) at 3.
    apply (takes_value_list i bi bo Hai Hao Hb (sample_bytes 3 x) _
      (λ l, match l with [a; b; c] => u32 (c << 16) .| word_le [a; b] | _ => 0 end) s32).
    change (length (sample_bytes 3 x)) with 3%nat. unfold Endpoint_Read_16_LE. run_reads.
  - rewrite <-triple by (try apply u8_byte; unfold word16, u16; apply Z.mod_pos_bound; lia).
    rewrite <-word_of_bytes. rewrite <-(Z.shiftr_0_r x) at 2. rewrite (Z.shiftr_shiftr x 8 8) by lia.
    apply (takes_value_list i bi bo Hai Hao Hb (sample_bytes 3 x) _
      (λ l, match l with [a; b; c] => u32 (a << 16) .| word_le [b; c] | _ => 0 end) s32).
    change (length (sample_bytes 3 x)) with 3%nat. unfold Endpoint_Read_16_LE. run_reads.
Qed.

(** ** Instances *)
Definition demo_in : USB_Endpoint_Table_t := USB_Endpoint_Table 0x83 64 EP_TYPE_BULK 1.
Definition demo_out : USB_Endpoint_Table_t := USB_Endpoint_Table 0x04 64 EP_TYPE_BULK 1.

(** A printer that has received a SETUP packet with GET_PORT_STATUS. *)
Definition demo_printer : USB_ClassInfo_PRNT_Device_t :=
  PRNT_Device (PRNT_Config 0 demo_in demo_out []) (PRNT_State 0x18 false).
Definition demo_status_request : mach :=
  let s := demo_bulk [] 3 in
  Mach (set_eps (upd2 (eps (hwst s)) (0, false) (USB_EP (USB_EP_TRNCOMPL0_bm .| USB_EP_SETUP_bm) USB_EP_TYPE_CONTROL_gc 8 (Some out_fifo))) (hwst s))
    (set_ControlRequest (USB_Request_Header class_in PRNT_REQ_GetPortStatus 0 0 1) (fwst s)) (script s) [].

Lemma port_status_never_sent_witness :
  (∃ s1, Endpoint_IsSETUPReceived demo_status_request = Ok true s1) ∧
  packets_in (final (PRNT_Device_ProcessControlRequest demo_printer demo_status_request)) = [].
Proof. split; [eexists; reflexivity|]. by rewrite (port_status_never_sent demo_printer demo_status_request). Defined.

Definition demo_midi : USB_ClassInfo_MIDI_Device_t := MIDI_Device 1 demo_in demo_out.
Definition demo_events : list (list Z) := [[0x09; 0x90; 0x3C; 0x40]; [0x08; 0x80; 0x3C; 0x00]].

Lemma midi_events_cross_witness :
  (∃ s' pk, (send_events demo_midi demo_events ≫= λ _, MIDI_Device_Flush demo_midi) (demo_bulk [] 4) = Ok 0 s' ∧
     trace s' = map (OPacket 3) pk ∧ concat pk = concat demo_events) ∧
  (∃ s', receive_events demo_midi 2 (demo_bulk (concat demo_events) 4) = Ok (map (λ e, (true, e)) demo_events) s') ∧
  (∃ s', receive_events demo_midi 3 (demo_bulk [] 4) = Ok (replicate 3 (false, [0; 0; 0; 0])) s').
Proof.
  assert (Forall midi_event demo_events) as He by (by repeat constructor).
  destruct (midi_events_cross demo_midi in_fifo out_fifo (demo_bulk [] 4)) as (H1 & _ & H3); try done; [apply demo_bulk_pipe|].
  destruct (midi_events_cross demo_midi in_fifo out_fifo (demo_bulk (concat demo_events) 4)) as (_ & H2 & _); try done; [apply demo_bulk_pipe|].
  split_and!.
  - destruct (H1 demo_events) as (s' & pk & E & Ht & Hc & _); [done|cbn; lia|]. exists s', pk. split; [exact E|]. split; [exact Ht|exact Hc].
  - destruct (H2 demo_events) as (s' & E & _); [done|done|apply demo_bulk_holding; cbn; lia|cbn; lia|]. exists s'. exact E.
  - destruct (H3 3%nat) as (s' & E & _); [apply demo_bulk_holding; cbn; lia|cbn; lia|]. exists s'. exact E.
Defined.

(** A keyboard with reports of two bytes and an idle period of 500 ms. *)
Definition demo_hid : USB_ClassInfo_HID_Device_t :=
  HID_Device (HID_Config 0 demo_in (Some [0; 0]) 2) (HID_State true 7 500 500).
Definition demo_report : HID_Report := Report false demo_hid 5 [0; 4] 2.

Definition demo_create (_ : USB_ClassInfo_HID_Device_t) (_ _ : Z) (_ : list Z) (_ : Z) : M HID_Report := mret demo_report.

Lemma hid_reports_when_due_witness :
  (∃ s', HID_Device_USBTask demo_create demo_hid (demo_bulk [] 3) =
           Ok (set_PrevFrameNum (FrameNum (hwst s')) (reported demo_hid [0; 0] demo_report)) s' ∧
         trace s' = [OPacket 3 [5; 0; 4]]) ∧
  due (elapse 499 (reported demo_hid [0; 0] demo_report)) [0; 4] demo_report = false ∧
  due (elapse 500 (reported demo_hid [0; 0] demo_report)) [0; 4] demo_report = true.
Proof.
  destruct (hid_reports_when_due 0x04 in_fifo out_fifo demo_create demo_hid [0; 0] demo_report (demo_bulk [] 3))
    as [H1 H2]; [done|done|apply demo_bulk_pipe|done|done|done| |done|done|].
  - split; try done. split; [done|by repeat constructor].
  - split; [exact H1|]. split; [by apply (H2 499%nat demo_report)|by apply (H2 500%nat demo_report)].
Defined.

Definition demo_audio : USB_ClassInfo_Audio_Device_t := Audio_Device (Audio_Config 0 1 demo_in demo_out) true.

(** The sample -2 of 24 bits is read as 0xFFFFFE or as 0xFEFFFF. *)
Lemma audio_samples_witness :
  appends demo_audio in_fifo out_fifo (Audio_Device_WriteSample16 demo_audio (-2)) [0xFE; 0xFF] ∧
  takes_value demo_audio in_fifo out_fifo (Audio_Device_ReadSample16 demo_audio) [0xFE; 0xFF] (-2) ∧
  takes_value demo_audio in_fifo out_fifo (Audio_Device_ReadSample24 false demo_audio) [0xFE; 0xFF; 0xFF] 0xFFFFFE ∧
  takes_value demo_audio in_fifo out_fifo (Audio_Device_ReadSample24 true demo_audio) [0xFE; 0xFF; 0xFF] 0xFEFFFF.
Proof.
  destruct (audio_samples demo_audio in_fifo out_fifo (-2)) as (_ & [H1 H2] & _ & H3 & H4); try done.
  split; [exact H1|]. split; [apply H2; lia|]. split; [exact H3|exact H4].
Defined.
