(* ===== verification/Net.v ===== *)
(** * The network stack of the RNDIS application: frames and stateless protocols

    Demos/Device/ClassDriver/RNDISEthernet/Lib/: Ethernet.c (the checksum), ARP.c,
    ICMP.c, DHCP.c and UDP.c, with the structures of their headers. The two frame
    buffers and the tables of TCP.c are the record [net]; the functions run in a
    state monad over it whose failure [None] is an access outside an object or
    through the null pointer. A pointer into a frame is its offset in
    [FrameData]; the structures laid over it are offsets, little endian, their
    bit-fields allocated from the lowest bit. *)
From S2P Require Import Prelude Packed.

(** ** Memory *)
Definition le_value (l : list Z) : Z := foldr (λ b v, b + 256 * v) 0 l.
Fixpoint le_store (n : nat) (v : Z) : list Z :=
  match n with O => [] | S n => u8 v :: le_store n (v >> 8) end.

Definition rd_bytes (l : list Z) (o n : Z) : option (list Z) :=
  if (0 <=? o) && (0 <=? n) && (o + n <=? Z.of_nat (length l)) then Some (take (Z.to_nat n) (drop (Z.to_nat o) l)) else None.
Definition rd_le (n : Z) (l : list Z) (o : Z) : option Z := le_value <$> rd_bytes l o n.

Definition SwapEndian_16 (Word : Z) : Z := le_value (rev (le_store 2 Word)).
Definition SwapEndian_32 (DWord : Z) : Z := le_value (rev (le_store 4 DWord)).

(** The conversion to [int16_t]. *)
Definition i16 (x : Z) : Z := if u16 x <? 32768 then u16 x else u16 x - 65536.

(** An assignment to a member at an offset: its bytes, or the [w] bits from
    [lo] on of a unit of [n] bytes. *)
Inductive assignment :=
  | Member (o : Z) (bs : list Z)
  | Bits (o : Z) (n : nat) (lo w v : Z).
Definition put_field (x lo w v : Z) : Z := Z.ldiff x (Z.ones w << lo) .| ((v .& Z.ones w) << lo).
Definition get_field (x lo w : Z) : Z := (x >> lo) .& Z.ones w.
Definition assign (p : Z) (l : list Z) (a : assignment) : option (list Z) :=
  match a with
  | Member o bs => wr_bytes l (p + o) bs
  | Bits o n lo w v => old ← rd_bytes l (p + o) (Z.of_nat n); wr_bytes l (p + o) (le_store n (put_field (le_value old) lo w v))
  end.
(** Assignments through the pointer [p], in order. *)
Fixpoint assigns (p : Z) (l : list Z) (ms : list assignment) : option (list Z) :=
  match ms with
  | [] => Some l
  | a :: ms => l ← assign p l a; assigns p l ms
  end.

(** ** EthernetProtocols.h, TCP.h: data *)
Definition ETHERTYPE_IPV4 : Z := 0x0800.
Definition ETHERTYPE_ARP : Z := 0x0806.
Definition PROTOCOL_ICMP : Z := 1.
Definition PROTOCOL_TCP : Z := 6.
Definition PROTOCOL_UDP : Z := 17.

Record Ethernet_Frame_Info_t := Ethernet_Frame_Info {
  FrameData : list Z;
  FrameLength : Z }.
Record TCP_ConnectionBuffer_t := TCP_ConnectionBuffer {
  B_Length : Z;
  B_Data : list Z;
  B_Direction : bool;
  B_Ready : bool;
  B_InUse : bool }.
Record TCP_ConnectionInfo_t := TCP_ConnectionInfo {
  SequenceNumberIn : Z;
  SequenceNumberOut : Z;
  Buffer : TCP_ConnectionBuffer_t }.
Record TCP_ConnectionState_t := TCP_ConnectionState {
  C_Port : Z;
  C_RemotePort : Z;
  C_RemoteAddress : list Z;
  C_Info : TCP_ConnectionInfo_t;
  C_State : Z }.
(** An application handler gets the connection and the static variable of the
    application, and gives them back. *)
Definition handler : Type := TCP_ConnectionState_t → Z → option (TCP_ConnectionState_t * Z).
Record TCP_PortState_t := TCP_PortState {
  P_Port : Z;
  P_State : Z;
  ApplicationHandler : option handler }.

Record net := Net {
  FrameIN : Ethernet_Frame_Info_t;
  FrameOUT : Ethernet_Frame_Info_t;
  PortStateTable : list TCP_PortState_t;
  ConnectionStateTable : list TCP_ConnectionState_t;
  PageBlock : Z }.
Definition set_FrameIN (f : Ethernet_Frame_Info_t) (n : net) : net :=
  Net f (FrameOUT n) (PortStateTable n) (ConnectionStateTable n) (PageBlock n).
Definition set_FrameOUT (f : Ethernet_Frame_Info_t) (n : net) : net :=
  Net (FrameIN n) f (PortStateTable n) (ConnectionStateTable n) (PageBlock n).
Definition set_PortStateTable (t : list TCP_PortState_t) (n : net) : net :=
  Net (FrameIN n) (FrameOUT n) t (ConnectionStateTable n) (PageBlock n).
Definition set_ConnectionStateTable (t : list TCP_ConnectionState_t) (n : net) : net :=
  Net (FrameIN n) (FrameOUT n) (PortStateTable n) t (PageBlock n).
Definition set_PageBlock (b : Z) (n : net) : net :=
  Net (FrameIN n) (FrameOUT n) (PortStateTable n) (ConnectionStateTable n) b.
Definition with_data (d : list Z) (f : Ethernet_Frame_Info_t) : Ethernet_Frame_Info_t := Ethernet_Frame_Info d (FrameLength f).
Definition with_length (n : Z) (f : Ethernet_Frame_Info_t) : Ethernet_Frame_Info_t := Ethernet_Frame_Info (FrameData f) n.

(** ** The monad *)
Definition NetM (A : Type) : Type := net → option (A * net).
#[export] Instance NetM_ret : MRet NetM := λ A a n, Some (a, n).
#[export] Instance NetM_bind : MBind NetM := λ A B f m n, match m n with Some (a, n') => f a n' | None => None end.
Definition net_lift {A} (o : option A) : NetM A := λ n, (λ a, (a, n)) <$> o.
Definition net_gets {A} (f : net → A) : NetM A := λ n, Some (f n, n).
Definition net_update (f : net → option net) : NetM unit := λ n, (λ n', (tt, n')) <$> f n.
Definition net_modify (f : net → net) : NetM unit := λ n, Some (tt, f n).

(** Reads from the incoming frame, assignments to the two frames. *)
Definition in_bytes (p n : Z) : NetM (list Z) := λ s, (λ b, (b, s)) <$> rd_bytes (FrameData (FrameIN s)) p n.
Definition in_le (n p : Z) : NetM Z := λ s, (λ v, (v, s)) <$> rd_le n (FrameData (FrameIN s)) p.
Definition in8 : Z → NetM Z := in_le 1.
Definition in16 : Z → NetM Z := in_le 2.
Definition in32 : Z → NetM Z := in_le 4.
Definition out_assigns (p : Z) (ms : list assignment) : NetM unit :=
  net_update (λ s, d ← assigns p (FrameData (FrameOUT s)) ms; Some (set_FrameOUT (with_data d (FrameOUT s)) s)).
Definition in_assigns (p : Z) (ms : list assignment) : NetM unit :=
  net_update (λ s, d ← assigns p (FrameData (FrameIN s)) ms; Some (set_FrameIN (with_data d (FrameIN s)) s)).

(** ** Config/AppConfig.h, Ethernet.h, IP.h, Ethernet.c *)
Definition ServerMACAddress : list Z := [0x00; 0x01; 0x00; 0x01; 0x00; 0x01].
Definition ServerIPAddress : list Z := [10; 0; 0; 2].
Definition BroadcastMACAddress : list Z := [0xFF; 0xFF; 0xFF; 0xFF; 0xFF; 0xFF].
Definition BroadcastIPAddress : list Z := [0xFF; 0xFF; 0xFF; 0xFF].
Definition ClientIPAddress : list Z := [10; 0; 0; 1].
Definition sizeof_MAC_Address : Z := 6.
Definition sizeof_IP_Address : Z := 4.
(** [memcmp(..) == 0] on two addresses *)
Definition MAC_COMPARE (MAC1 MAC2 : list Z) : bool := bool_decide (MAC1 = MAC2).
Definition IP_COMPARE (IP1 IP2 : list Z) : bool := bool_decide (IP1 = IP2).
Definition ETHERNET_VER2_MINSIZE : Z := 0x0600.
Definition NO_RESPONSE : Z := 0.
Definition NO_PROCESS : Z := -1.

(** [while (Checksum & 0xFFFF0000) ...], at most [fuel] times *)
Fixpoint fold_carries (fuel : nat) (Checksum : Z) : option Z :=
  if tst Checksum 0xFFFF0000 then
    match fuel with
    | O => None
    | S fuel => fold_carries fuel (u32 ((Checksum .& 0xFFFF) + (Checksum >> 16)))
    end
  else Some Checksum.
Definition CARRY_FUEL : nat := 2.

(** [Checksum += Words[CurrWord]] for each of the words at [p] *)
Definition sum_words (d : list Z) (p words Checksum : Z) : option Z :=
  for_up 0 words (λ CurrWord Checksum, w ← rd_le 2 d (p + 2 * CurrWord); Some (u32 (Checksum + w))) Checksum.

Definition Ethernet_Checksum16 (d : list Z) (p Bytes : Z) : option Z :=
  Checksum ← sum_words d p (Bytes >> 1) 0;
  Checksum ← fold_carries CARRY_FUEL Checksum;
  Some (u16 (Z.lnot Checksum)).
Definition out_checksum (p Bytes : Z) : NetM Z := λ s, (λ v, (v, s)) <$> Ethernet_Checksum16 (FrameData (FrameOUT s)) p Bytes.

(** [Ethernet_Frame_Header_t] *)
Definition sizeof_Ethernet_Frame_Header : Z := 14.
Definition eth_Destination : Z := 0.
Definition eth_Source : Z := 6.
Definition eth_EtherType : Z := 12.

(** ** ARP.c *)
Definition ARP_OPERATION_REQUEST : Z := 1.
Definition ARP_OPERATION_REPLY : Z := 2.
(** [ARP_Header_t] *)
Definition sizeof_ARP_Header : Z := 28.
Definition arp_HardwareType : Z := 0.
Definition arp_ProtocolType : Z := 2.
Definition arp_HLEN : Z := 4.
Definition arp_PLEN : Z := 5.
Definition arp_Operation : Z := 6.
Definition arp_SHA : Z := 8.
Definition arp_SPA : Z := 14.
Definition arp_THA : Z := 18.
Definition arp_TPA : Z := 24.

Definition ARP_ProcessARPPacket (InDataStart OutDataStart : Z) : NetM Z :=
  ProtocolType ← in16 (InDataStart + arp_ProtocolType);
  Operation ← in16 (InDataStart + arp_Operation);
  if (SwapEndian_16 ProtocolType =? ETHERTYPE_IPV4) && (SwapEndian_16 Operation =? ARP_OPERATION_REQUEST) then
    TPA ← in_bytes (InDataStart + arp_TPA) sizeof_IP_Address;
    THA ← in_bytes (InDataStart + arp_THA) sizeof_MAC_Address;
    if IP_COMPARE TPA ServerIPAddress || MAC_COMPARE THA ServerMACAddress then
      HardwareType ← in_bytes (InDataStart + arp_HardwareType) 2;
      HLEN ← in_bytes (InDataStart + arp_HLEN) 1;
      PLEN ← in_bytes (InDataStart + arp_PLEN) 1;
      SHA ← in_bytes (InDataStart + arp_SHA) sizeof_MAC_Address;
      SPA ← in_bytes (InDataStart + arp_SPA) sizeof_IP_Address;
      out_assigns OutDataStart
        [Member arp_HardwareType HardwareType; Member arp_ProtocolType (le_store 2 ProtocolType);
         Member arp_HLEN HLEN; Member arp_PLEN PLEN;
         Member arp_Operation (le_store 2 (SwapEndian_16 ARP_OPERATION_REPLY));
         Member arp_THA SHA; Member arp_TPA SPA;
         Member arp_SHA ServerMACAddress; Member arp_SPA ServerIPAddress];;
      mret sizeof_ARP_Header
    else mret NO_RESPONSE
  else mret NO_RESPONSE.

(** ** ICMP.c *)
Definition ICMP_TYPE_ECHOREPLY : Z := 0.
Definition ICMP_TYPE_ECHOREQUEST : Z := 8.
(** [ICMP_Header_t] *)
Definition sizeof_ICMP_Header : Z := 8.
Definition icmp_Type : Z := 0.
Definition icmp_Code : Z := 1.
Definition icmp_Checksum : Z := 2.
Definition icmp_Id : Z := 4.
Definition icmp_Sequence : Z := 6.

(** The size of the copy is [DataSize] converted to [size_t], 16 bits wide. *)
Definition ICMP_ProcessICMPPacket (InDataStart OutDataStart : Z) : NetM Z :=
  Type_ ← in8 (InDataStart + icmp_Type);
  if Type_ =? ICMP_TYPE_ECHOREQUEST then
    Id ← in_bytes (InDataStart + icmp_Id) 2;
    Sequence ← in_bytes (InDataStart + icmp_Sequence) 2;
    out_assigns OutDataStart
      [Member icmp_Type [ICMP_TYPE_ECHOREPLY]; Member icmp_Code [0]; Member icmp_Checksum (le_store 2 0);
       Member icmp_Id Id; Member icmp_Sequence Sequence];;
    FrameLength ← net_gets (λ s, FrameLength (FrameIN s));
    let DataSize := i16 (FrameLength - (InDataStart + sizeof_ICMP_Header)) in
    payload ← in_bytes (InDataStart + sizeof_ICMP_Header) (u16 DataSize);
    out_assigns OutDataStart [Member sizeof_ICMP_Header payload];;
    Checksum ← out_checksum OutDataStart (u16 (DataSize + sizeof_ICMP_Header));
    out_assigns OutDataStart [Member icmp_Checksum (le_store 2 Checksum)];;
    mret (i16 (DataSize + sizeof_ICMP_Header))
  else mret NO_RESPONSE.

(** ** DHCP.c *)
Definition DHCP_OP_BOOTREPLY : Z := 0x02.
Definition DHCP_MAGIC_COOKIE : Z := 0x63825363.
Definition DHCP_OPTION_SUBNETMASK : Z := 1.
Definition DHCP_OPTION_LEASETIME : Z := 51.
Definition DHCP_OPTION_MESSAGETYPE : Z := 53.
Definition DHCP_OPTION_DHCPSERVER : Z := 54.
Definition DHCP_OPTION_PAD : Z := 0.
Definition DHCP_OPTION_END : Z := 255.
Definition DHCP_MESSAGETYPE_DISCOVER : Z := 1.
Definition DHCP_MESSAGETYPE_OFFER : Z := 2.
Definition DHCP_MESSAGETYPE_REQUEST : Z := 3.
Definition DHCP_MESSAGETYPE_ACK : Z := 5.
(** [DHCP_Header_t] *)
Definition sizeof_DHCP_Header : Z := 240.
Definition dhcp_Operation : Z := 0.
Definition dhcp_HardwareType : Z := 1.
Definition dhcp_HardwareAddressLength : Z := 2.
Definition dhcp_Hops : Z := 3.
Definition dhcp_TransactionID : Z := 4.
Definition dhcp_ElapsedSeconds : Z := 8.
Definition dhcp_Flags : Z := 10.
Definition dhcp_YourIP : Z := 16.
Definition dhcp_ClientHardwareAddress : Z := 28.
Definition dhcp_Cookie : Z := 236.
(** [IP_Header_t] *)
Definition sizeof_IP_Header : Z := 20.
Definition ip_HeaderLength : Z := 0.
Definition ip_Version : Z := 0.
Definition ip_TypeOfService : Z := 1.
Definition ip_TotalLength : Z := 2.
Definition ip_Identification : Z := 4.
Definition ip_FragmentOffset : Z := 6.
Definition ip_Flags : Z := 6.
Definition ip_TTL : Z := 8.
Definition ip_Protocol : Z := 9.
Definition ip_HeaderChecksum : Z := 10.
Definition ip_SourceAddress : Z := 12.
Definition ip_DestinationAddress : Z := 16.

(** One pass of the loop over the options, at [p]: it ends with the message
    type of a DISCOVER or REQUEST or at the end option, or goes on at a later
    option. [None] is an access outside the array. *)
Definition dhcp_pass (d : list Z) (p : Z) : option (Z + option Z) :=
  b0 ← rd d p;
  if b0 =? DHCP_OPTION_END then Some (inr None)
  else
    found ← (if b0 =? DHCP_OPTION_MESSAGETYPE then
               b2 ← rd d (p + 2);
               Some (if (b2 =? DHCP_MESSAGETYPE_DISCOVER) || (b2 =? DHCP_MESSAGETYPE_REQUEST) then Some b2 else None)
             else Some None);
    match found with
    | Some b2 => Some (inr (Some b2))
    | None =>
        step ← (if b0 =? DHCP_OPTION_PAD then Some 1 else b1 ← rd d (p + 1); Some (b1 + 2));
        Some (inl (p + step))
    end.

(** The loop: it ends, leaves the array, or has not ended after [fuel]
    passes. *)
Inductive search_result := Found (r : option Z) | Overrun | Unfinished.
Fixpoint dhcp_options (fuel : nat) (d : list Z) (p : Z) : search_result :=
  match fuel with
  | O => Unfinished
  | S fuel =>
      match dhcp_pass d p with
      | None => Overrun
      | Some (inl p) => dhcp_options fuel d p
      | Some (inr r) => Found r
      end
  end.
Definition search_found (r : search_result) : option (option Z) := match r with Found r => Some r | _ => None end.
(** The options of the response. *)
Definition dhcp_response (b2 : Z) : list Z :=
  [DHCP_OPTION_MESSAGETYPE; 1; if b2 =? DHCP_MESSAGETYPE_DISCOVER then DHCP_MESSAGETYPE_OFFER else DHCP_MESSAGETYPE_ACK;
   DHCP_OPTION_SUBNETMASK; sizeof_IP_Address; 0xFF; 0xFF; 0xFF; 0x00;
   DHCP_OPTION_LEASETIME; 4; 0x00; 0x01; 0x51; 0x80;
   DHCP_OPTION_DHCPSERVER; sizeof_IP_Address] ++ ServerIPAddress ++ [DHCP_OPTION_END].

Definition DHCP_ProcessDHCPPacket (IPHeaderInStart DHCPHeaderInStart DHCPHeaderOutStart : Z) : NetM Z :=
  HardwareType ← in_bytes (DHCPHeaderInStart + dhcp_HardwareType) 1;
  HardwareAddressLength ← in_bytes (DHCPHeaderInStart + dhcp_HardwareAddressLength) 1;
  TransactionID ← in_bytes (DHCPHeaderInStart + dhcp_TransactionID) 4;
  Flags ← in_bytes (DHCPHeaderInStart + dhcp_Flags) 2;
  ClientHardwareAddress ← in_bytes (DHCPHeaderInStart + dhcp_ClientHardwareAddress) sizeof_MAC_Address;
  out_assigns DHCPHeaderOutStart
    [Member 0 (replicate (Z.to_nat sizeof_DHCP_Header) 0);
     Member dhcp_HardwareType HardwareType; Member dhcp_Operation [DHCP_OP_BOOTREPLY];
     Member dhcp_HardwareAddressLength HardwareAddressLength; Member dhcp_Hops [0];
     Member dhcp_TransactionID TransactionID; Member dhcp_ElapsedSeconds (le_store 2 0);
     Member dhcp_Flags Flags; Member dhcp_YourIP ClientIPAddress;
     Member dhcp_ClientHardwareAddress ClientHardwareAddress;
     Member dhcp_Cookie (le_store 4 (SwapEndian_32 DHCP_MAGIC_COOKIE))];;
  in_assigns IPHeaderInStart [Member ip_SourceAddress ClientIPAddress; Member ip_DestinationAddress ServerIPAddress];;
  d ← net_gets (λ s, FrameData (FrameIN s));
  r ← net_lift (search_found (dhcp_options (S (length d)) d (DHCPHeaderInStart + sizeof_DHCP_Header)));
  match r with
  | Some b2 =>
      out_assigns DHCPHeaderOutStart [Member sizeof_DHCP_Header (dhcp_response b2)];;
      mret (sizeof_DHCP_Header + 18 + sizeof_IP_Address)
  | None => mret NO_RESPONSE
  end.

(** ** UDP.c *)
Definition UDP_PORT_DHCP_REQUEST : Z := 67.
(** [UDP_Header_t] *)
Definition sizeof_UDP_Header : Z := 8.
Definition udp_SourcePort : Z := 0.
Definition udp_DestinationPort : Z := 2.
Definition udp_Length : Z := 4.
Definition udp_Checksum : Z := 6.

Definition UDP_ProcessUDPPacket (IPHeaderInStart UDPHeaderInStart UDPHeaderOutStart : Z) : NetM Z :=
  DestinationPort ← in16 (UDPHeaderInStart + udp_DestinationPort);
  RetSize ← (if SwapEndian_16 DestinationPort =? UDP_PORT_DHCP_REQUEST then
               DHCP_ProcessDHCPPacket IPHeaderInStart (UDPHeaderInStart + sizeof_UDP_Header) (UDPHeaderOutStart + sizeof_UDP_Header)
             else mret NO_RESPONSE);
  if RetSize >? 0 then
    SourcePort ← in_bytes (UDPHeaderInStart + udp_SourcePort) 2;
    out_assigns UDPHeaderOutStart
      [Member udp_SourcePort (le_store 2 DestinationPort); Member udp_DestinationPort SourcePort;
       Member udp_Checksum (le_store 2 0); Member udp_Length (le_store 2 (SwapEndian_16 (u16 (sizeof_UDP_Header + RetSize))))];;
    mret (i16 (sizeof_UDP_Header + RetSize))
  else mret NO_RESPONSE.

(** ** The headers of a response *)
Definition DEFAULT_TTL : Z := 128.
(** The response IP header, as IP.c and TCP.c fill it in. *)
Definition ip_header_out (p RetSize Protocol : Z) (src dst : list Z) : NetM unit :=
  out_assigns p
    [Member ip_TotalLength (le_store 2 (SwapEndian_16 (u16 (sizeof_IP_Header + RetSize))));
     Member ip_TypeOfService [0];
     Bits ip_HeaderLength 1 0 4 (sizeof_IP_Header / 4); Bits ip_Version 1 4 4 4;
     Bits ip_Flags 2 13 3 0; Bits ip_FragmentOffset 2 0 13 0;
     Member ip_Identification (le_store 2 0); Member ip_HeaderChecksum (le_store 2 0);
     Member ip_Protocol [Protocol]; Member ip_TTL [DEFAULT_TTL];
     Member ip_SourceAddress src; Member ip_DestinationAddress dst];;
  HeaderChecksum ← out_checksum p sizeof_IP_Header;
  out_assigns p [Member ip_HeaderChecksum (le_store 2 HeaderChecksum)].

(** The response Ethernet header of both. *)
Definition ethernet_header_out (dst EtherType : list Z) : NetM unit :=
  out_assigns 0 [Member eth_Source ServerMACAddress; Member eth_Destination dst; Member eth_EtherType EtherType].
