(* ===== verification/Tcp.v ===== *)
(** * The network stack of the RNDIS application: TCP, IP and the web server

    Demos/Device/ClassDriver/RNDISEthernet/Lib/: TCP.c, Webserver.c, IP.c and
    [Ethernet_ProcessPacket] of Ethernet.c, in the monad of [Net]. The tables of
    ports and connections are lists; a pointer to the information of a
    connection is the index of its entry, [None] is NULL. *)
From stdpp Require Import strings.
From S2P Require Import Prelude Packed Net.

(** ** TCP.h *)
Definition MAX_OPEN_TCP_PORTS : nat := 1.
Definition MAX_TCP_CONNECTIONS : nat := 3.
Definition TCP_WINDOW_SIZE : Z := 512.
Definition TCP_PORT_HTTP : Z := SwapEndian_16 80.
Definition TCP_PACKETDIR_IN : bool := false.
Definition TCP_PACKETDIR_OUT : bool := true.
Definition TCP_FLAG_ACK : Z := 1 << 4.
Definition TCP_FLAG_PSH : Z := 1 << 3.
Definition TCP_FLAG_RST : Z := 1 << 2.
Definition TCP_FLAG_SYN : Z := 1 << 1.
Definition TCP_FLAG_FIN : Z := 1 << 0.
Definition TCP_Port_Closed : Z := 0.
Definition TCP_Port_Open : Z := 1.
Definition TCP_Connection_Listen : Z := 0.
Definition TCP_Connection_SYNReceived : Z := 2.
Definition TCP_Connection_Established : Z := 3.
Definition TCP_Connection_FINWait1 : Z := 4.
Definition TCP_Connection_FINWait2 : Z := 5.
Definition TCP_Connection_CloseWait : Z := 6.
Definition TCP_Connection_Closing : Z := 7.
Definition TCP_Connection_Closed : Z := 10.
(** [TCP_Header_t] *)
Definition sizeof_TCP_Header : Z := 20.
Definition tcp_SourcePort : Z := 0.
Definition tcp_DestinationPort : Z := 2.
Definition tcp_SequenceNumber : Z := 4.
Definition tcp_AcknowledgmentNumber : Z := 8.
Definition tcp_Reserved : Z := 12.
Definition tcp_DataOffset : Z := 12.
Definition tcp_Flags : Z := 13.
Definition tcp_WindowSize : Z := 14.
Definition tcp_Checksum : Z := 16.
Definition tcp_UrgentPointer : Z := 18.

(** Assignments to members. *)
Definition set_B_Length (v : Z) (b : TCP_ConnectionBuffer_t) := TCP_ConnectionBuffer v (B_Data b) (B_Direction b) (B_Ready b) (B_InUse b).
Definition set_B_Data (v : list Z) (b : TCP_ConnectionBuffer_t) := TCP_ConnectionBuffer (B_Length b) v (B_Direction b) (B_Ready b) (B_InUse b).
Definition set_B_Direction (v : bool) (b : TCP_ConnectionBuffer_t) := TCP_ConnectionBuffer (B_Length b) (B_Data b) v (B_Ready b) (B_InUse b).
Definition set_B_Ready (v : bool) (b : TCP_ConnectionBuffer_t) := TCP_ConnectionBuffer (B_Length b) (B_Data b) (B_Direction b) v (B_InUse b).
Definition set_B_InUse (v : bool) (b : TCP_ConnectionBuffer_t) := TCP_ConnectionBuffer (B_Length b) (B_Data b) (B_Direction b) (B_Ready b) v.
Definition set_SequenceNumberIn (v : Z) (i : TCP_ConnectionInfo_t) := TCP_ConnectionInfo (u32 v) (SequenceNumberOut i) (Buffer i).
Definition set_SequenceNumberOut (v : Z) (i : TCP_ConnectionInfo_t) := TCP_ConnectionInfo (SequenceNumberIn i) (u32 v) (Buffer i).
Definition set_Buffer (v : TCP_ConnectionBuffer_t) (i : TCP_ConnectionInfo_t) := TCP_ConnectionInfo (SequenceNumberIn i) (SequenceNumberOut i) v.
Definition set_C_Info (v : TCP_ConnectionInfo_t) (c : TCP_ConnectionState_t) := TCP_ConnectionState (C_Port c) (C_RemotePort c) (C_RemoteAddress c) v (C_State c).
Definition set_C_State (v : Z) (c : TCP_ConnectionState_t) := TCP_ConnectionState (C_Port c) (C_RemotePort c) (C_RemoteAddress c) (C_Info c) v.
Definition set_P_State (v : Z) (p : TCP_PortState_t) := TCP_PortState (P_Port p) v (ApplicationHandler p).

(** The application macros. *)
Definition TCP_APP_HAS_RECEIVED_PACKET (b : TCP_ConnectionBuffer_t) : bool := B_Ready b && Bool.eqb (B_Direction b) TCP_PACKETDIR_IN.
Definition TCP_APP_HAVE_CAPTURED_BUFFER (b : TCP_ConnectionBuffer_t) : bool :=
  negb (B_Ready b) && B_InUse b && Bool.eqb (B_Direction b) TCP_PACKETDIR_OUT.
Definition TCP_APP_CAPTURE_BUFFER (b : TCP_ConnectionBuffer_t) := set_B_InUse true (set_B_Direction TCP_PACKETDIR_OUT b).
Definition TCP_APP_RELEASE_BUFFER (b : TCP_ConnectionBuffer_t) := set_B_InUse false b.
Definition TCP_APP_SEND_BUFFER (b : TCP_ConnectionBuffer_t) (Len : Z) := set_B_Ready true (set_B_Length (u16 Len) (set_B_Direction TCP_PACKETDIR_OUT b)).
Definition TCP_APP_CLEAR_BUFFER (b : TCP_ConnectionBuffer_t) := set_B_Length 0 (set_B_Ready false b).
Definition TCP_APP_CLOSECONNECTION (c : TCP_ConnectionState_t) := set_C_State TCP_Connection_Closing c.

(** ** TCP.c: the tables *)

(** The loop that looks for the first entry of a table that [f] holds of. *)
Fixpoint first_entry {A} (f : A → bool) (t : list A) : option nat :=
  match t with
  | [] => None
  | x :: t => if f x then Some O else S <$> first_entry f t
  end.

Definition TCP_Init : NetM unit :=
  net_modify (λ s, set_PortStateTable (map (set_P_State TCP_Port_Closed) (PortStateTable s)) s);;
  net_modify (λ s, set_ConnectionStateTable (map (set_C_State TCP_Connection_Closed) (ConnectionStateTable s)) s).

Definition TCP_SetPortState (Port State : Z) (Handler : option handler) : NetM bool := λ s,
  let t := PortStateTable s in
  match first_entry (λ e, P_Port e =? Port) t with
  | Some k => Some (true, set_PortStateTable (<[k := TCP_PortState Port State Handler]> t) s)
  | None =>
      if State =? TCP_Port_Open then
        match first_entry (λ e, P_State e =? TCP_Port_Closed) t with
        | Some k => Some (true, set_PortStateTable (<[k := TCP_PortState Port State Handler]> t) s)
        | None => Some (false, s)
        end
      else Some (true, s)
  end.

Definition TCP_GetPortState (Port : Z) : NetM Z := λ s,
  Some (match first_entry (λ e, P_Port e =? Port) (PortStateTable s) with
        | Some k => match PortStateTable s !! k with Some e => P_State e | None => TCP_Port_Closed end
        | None => TCP_Port_Closed
        end, s).

(** The condition the three functions on connections look for. *)
Definition is_connection (Port : Z) (RemoteAddress : list Z) (RemotePort : Z) (c : TCP_ConnectionState_t) : bool :=
  (C_Port c =? Port) && IP_COMPARE (C_RemoteAddress c) RemoteAddress && (C_RemotePort c =? RemotePort).

Definition TCP_SetConnectionState (Port : Z) (RemoteAddress : list Z) (RemotePort State : Z) : NetM bool := λ s,
  let t := ConnectionStateTable s in
  match first_entry (is_connection Port RemoteAddress RemotePort) t with
  | Some k => Some (true, set_ConnectionStateTable (alter (set_C_State State) k t) s)
  | None =>
      match first_entry (λ c, C_State c =? TCP_Connection_Closed) t with
      | Some k => Some (true, set_ConnectionStateTable
          (alter (λ c, TCP_ConnectionState Port RemotePort RemoteAddress (C_Info c) State) k t) s)
      | None => Some (false, s)
      end
  end.

Definition TCP_GetConnectionState (Port : Z) (RemoteAddress : list Z) (RemotePort : Z) : NetM Z := λ s,
  Some (match first_entry (is_connection Port RemoteAddress RemotePort) (ConnectionStateTable s) with
        | Some k => match ConnectionStateTable s !! k with Some c => C_State c | None => TCP_Connection_Closed end
        | None => TCP_Connection_Closed
        end, s).

Definition TCP_GetConnectionInfo (Port : Z) (RemoteAddress : list Z) (RemotePort : Z) : NetM (option nat) := λ s,
  Some (first_entry (is_connection Port RemoteAddress RemotePort) (ConnectionStateTable s), s).

(** Accesses through the pointer [ConnectionInfo]. *)
Definition info_get (ConnectionInfo : option nat) : NetM TCP_ConnectionInfo_t := λ s,
  k ← ConnectionInfo; c ← ConnectionStateTable s !! k; Some (C_Info c, s).
Definition info_set (ConnectionInfo : option nat) (f : TCP_ConnectionInfo_t → TCP_ConnectionInfo_t) : NetM unit := λ s,
  k ← ConnectionInfo; c ← ConnectionStateTable s !! k;
  Some (tt, set_ConnectionStateTable (<[k := set_C_Info (f (C_Info c)) c]> (ConnectionStateTable s)) s).
Definition update_buffer (f : TCP_ConnectionBuffer_t → TCP_ConnectionBuffer_t) (i : TCP_ConnectionInfo_t) := set_Buffer (f (Buffer i)) i.

(** ** TCP.c: packets *)
Definition TCP_Checksum16 (d : list Z) (p : Z) (SourceAddress DestinationAddress : list Z) (TCPOutSize : Z) : option Z :=
  a0 ← rd_le 2 SourceAddress 0; a1 ← rd_le 2 SourceAddress 2;
  a2 ← rd_le 2 DestinationAddress 0; a3 ← rd_le 2 DestinationAddress 2;
  let Checksum := foldl (λ c w, u32 (c + w)) 0 [a0; a1; a2; a3; SwapEndian_16 PROTOCOL_TCP; SwapEndian_16 TCPOutSize] in
  Checksum ← sum_words d p (TCPOutSize >> 1) Checksum;
  Checksum ← (if tst TCPOutSize 0x01 then w ← rd_le 2 d (p + 2 * (TCPOutSize >> 1)); Some (u32 (Checksum + (w .& 0x00FF)))
              else Some Checksum);
  Checksum ← fold_carries CARRY_FUEL Checksum;
  Some (u16 (Z.lnot Checksum)).
Definition out_tcp_checksum (p : Z) (src dst : list Z) (n : Z) : NetM Z := λ s,
  (λ v, (v, s)) <$> TCP_Checksum16 (FrameData (FrameOUT s)) p src dst n.

(** What [TCP_ProcessTCPPacket] keeps of its arguments: the pointers, the three
    members that identify the connection, and the flags. *)
Record segment_in := Segment_in {
  s_IP : Z;
  s_TCP : Z;
  s_OUT : Z;
  s_Port : Z;
  s_Address : list Z;
  s_RemotePort : Z;
  s_Flags : Z }.

Section Packet.
Context (g : segment_in).
Abbreviation set_state := (TCP_SetConnectionState (s_Port g) (s_Address g) (s_RemotePort g)).
Abbreviation get_info := (TCP_GetConnectionInfo (s_Port g) (s_Address g) (s_RemotePort g)).
Definition out_flags (f : Z) : NetM unit := out_assigns (s_OUT g) [Member tcp_Flags [f]].

(** The cases of the [switch]; the result is [PacketResponse], or [None] where
    the function returns [NO_PROCESS]. *)
Definition tcp_Listen : NetM (option bool) :=
  if s_Flags g =? TCP_FLAG_SYN then
    ok ← set_state TCP_Connection_SYNReceived;
    (if (ok : bool) then
       out_flags (TCP_FLAG_SYN .| TCP_FLAG_ACK);;
       ConnectionInfo ← get_info;
       SequenceNumber ← in32 (s_TCP g + tcp_SequenceNumber);
       info_set ConnectionInfo (set_SequenceNumberIn (SwapEndian_32 SequenceNumber + 1));;
       info_set ConnectionInfo (set_SequenceNumberOut 0);;
       info_set ConnectionInfo (update_buffer (set_B_InUse false))
     else out_flags TCP_FLAG_RST);;
    mret (Some true)
  else mret (Some false).

Definition tcp_SYNReceived : NetM (option bool) :=
  if s_Flags g =? TCP_FLAG_ACK then
    _ ← set_state TCP_Connection_Established;
    ConnectionInfo ← get_info;
    info_set ConnectionInfo (λ i, set_SequenceNumberOut (SequenceNumberOut i + 1) i);;
    mret (Some false)
  else mret (Some false).

(** The data of a packet are taken into the buffer of the connection. *)
Definition tcp_receive : NetM (option bool) :=
  ConnectionInfo ← get_info;
  i ← info_get ConnectionInfo;
  (if negb (B_InUse (Buffer i)) && negb (B_Ready (Buffer i)) then
     info_set ConnectionInfo (update_buffer (λ b, set_B_Length 0 (set_B_InUse true (set_B_Direction TCP_PACKETDIR_IN b))))
   else mret tt);;
  i ← info_get ConnectionInfo;
  if Bool.eqb (B_Direction (Buffer i)) TCP_PACKETDIR_IN && negb (B_Length (Buffer i) =? TCP_WINDOW_SIZE) then
    ihl ← in8 (s_IP g + ip_HeaderLength);
    off ← in8 (s_TCP g + tcp_DataOffset);
    TotalLength ← in16 (s_IP g + ip_TotalLength);
    let IPOffset := get_field ihl 0 4 * 4 in
    let TCPOffset := get_field off 4 4 * 4 in
    let DataLength := u16 (SwapEndian_16 TotalLength - IPOffset - TCPOffset) in
    data ← in_bytes (s_TCP g + TCPOffset) DataLength;
    Data ← net_lift (wr_bytes (B_Data (Buffer i)) (B_Length (Buffer i)) data);
    info_set ConnectionInfo (update_buffer (set_B_Data Data));;
    info_set ConnectionInfo (λ i, set_SequenceNumberIn (SequenceNumberIn i + DataLength) i);;
    info_set ConnectionInfo (update_buffer (λ b, set_B_Length (u16 (B_Length b + DataLength)) b));;
    i ← info_get ConnectionInfo;
    if (B_Length (Buffer i) =? TCP_WINDOW_SIZE) || tst (s_Flags g) TCP_FLAG_PSH then
      info_set ConnectionInfo (update_buffer (λ b, set_B_Ready true (set_B_InUse false b)));;
      out_flags TCP_FLAG_ACK;;
      mret (Some true)
    else mret (Some false)
  else mret None.

Definition tcp_Established : NetM (option bool) :=
  if s_Flags g =? TCP_FLAG_FIN .| TCP_FLAG_ACK then
    out_flags (TCP_FLAG_FIN .| TCP_FLAG_ACK);;
    _ ← set_state TCP_Connection_CloseWait;
    ConnectionInfo ← get_info;
    info_set ConnectionInfo (λ i, set_SequenceNumberIn (SequenceNumberIn i + 1) i);;
    info_set ConnectionInfo (λ i, set_SequenceNumberOut (SequenceNumberOut i + 1) i);;
    mret (Some true)
  else if (s_Flags g =? TCP_FLAG_ACK) || (s_Flags g =? TCP_FLAG_ACK .| TCP_FLAG_PSH) then tcp_receive
  else mret (Some false).

Definition tcp_Closing : NetM (option bool) :=
  ConnectionInfo ← get_info;
  out_flags (TCP_FLAG_ACK .| TCP_FLAG_FIN);;
  info_set ConnectionInfo (update_buffer (set_B_InUse false));;
  _ ← set_state TCP_Connection_FINWait1;
  mret (Some true).

(** The end of a connection that the device has closed. *)
Definition tcp_finish : NetM (option bool) :=
  ConnectionInfo ← get_info;
  out_flags TCP_FLAG_ACK;;
  info_set ConnectionInfo (λ i, set_SequenceNumberIn (SequenceNumberIn i + 1) i);;
  info_set ConnectionInfo (λ i, set_SequenceNumberOut (SequenceNumberOut i + 1) i);;
  _ ← set_state TCP_Connection_Closed;
  mret (Some true).
Definition tcp_FINWait1 : NetM (option bool) :=
  if s_Flags g =? TCP_FLAG_FIN .| TCP_FLAG_ACK then tcp_finish
  else if s_Flags g =? TCP_FLAG_ACK then _ ← set_state TCP_Connection_FINWait2; mret (Some false)
  else mret (Some false).
Definition tcp_FINWait2 : NetM (option bool) :=
  if s_Flags g =? TCP_FLAG_FIN .| TCP_FLAG_ACK then tcp_finish else mret (Some false).
Definition tcp_CloseWait : NetM (option bool) :=
  if s_Flags g =? TCP_FLAG_ACK then _ ← set_state TCP_Connection_Closed; mret (Some false) else mret (Some false).

Definition tcp_by_state (State : Z) : NetM (option bool) :=
  if State =? TCP_Connection_Listen then tcp_Listen
  else if State =? TCP_Connection_SYNReceived then tcp_SYNReceived
  else if State =? TCP_Connection_Established then tcp_Established
  else if State =? TCP_Connection_Closing then tcp_Closing
  else if State =? TCP_Connection_FINWait1 then tcp_FINWait1
  else if State =? TCP_Connection_FINWait2 then tcp_FINWait2
  else if State =? TCP_Connection_CloseWait then tcp_CloseWait
  else mret (Some false).

(** Up to the response: what the flags and the tables ask for. *)
Definition tcp_packet : NetM (option bool) :=
  port ← TCP_GetPortState (s_Port g);
  if port =? TCP_Port_Open then
    (if tst (s_Flags g) TCP_FLAG_SYN then _ ← set_state TCP_Connection_Listen; mret tt else mret tt);;
    if tst (s_Flags g) TCP_FLAG_RST then
      ok ← set_state TCP_Connection_Closed;
      if (ok : bool) then out_flags (TCP_FLAG_RST .| TCP_FLAG_ACK);; mret (Some true) else mret (Some false)
    else
      State ← TCP_GetConnectionState (s_Port g) (s_Address g) (s_RemotePort g);
      tcp_by_state State
  else
    out_flags (TCP_FLAG_RST .| TCP_FLAG_ACK);;
    mret (Some true).

Definition tcp_respond : NetM Z :=
  ConnectionInfo ← get_info;
  i ← info_get ConnectionInfo;
  let WindowSize := if negb (B_InUse (Buffer i)) then TCP_WINDOW_SIZE else u16 (TCP_WINDOW_SIZE - B_Length (Buffer i)) in
  out_assigns (s_OUT g)
    [Member tcp_SourcePort (le_store 2 (s_Port g)); Member tcp_DestinationPort (le_store 2 (s_RemotePort g));
     Member tcp_SequenceNumber (le_store 4 (SwapEndian_32 (SequenceNumberOut i)));
     Member tcp_AcknowledgmentNumber (le_store 4 (SwapEndian_32 (SequenceNumberIn i)));
     Bits tcp_DataOffset 1 4 4 (sizeof_TCP_Header / 4);
     Member tcp_WindowSize (le_store 2 (SwapEndian_16 WindowSize));
     Member tcp_UrgentPointer (le_store 2 0); Member tcp_Checksum (le_store 2 0); Bits tcp_Reserved 1 0 4 0];;
  dst ← in_bytes (s_IP g + ip_DestinationAddress) sizeof_IP_Address;
  Checksum ← out_tcp_checksum (s_OUT g) dst (s_Address g) sizeof_TCP_Header;
  out_assigns (s_OUT g) [Member tcp_Checksum (le_store 2 Checksum)];;
  mret sizeof_TCP_Header.
End Packet.

Definition TCP_ProcessTCPPacket (IPHeaderInStart TCPHeaderInStart TCPHeaderOutStart : Z) : NetM Z :=
  Port ← in16 (TCPHeaderInStart + tcp_DestinationPort);
  RemoteAddress ← in_bytes (IPHeaderInStart + ip_SourceAddress) sizeof_IP_Address;
  RemotePort ← in16 (TCPHeaderInStart + tcp_SourcePort);
  Flags ← in8 (TCPHeaderInStart + tcp_Flags);
  let g := Segment_in IPHeaderInStart TCPHeaderInStart TCPHeaderOutStart Port RemoteAddress RemotePort Flags in
  r ← tcp_packet g;
  match r with
  | None => mret NO_PROCESS
  | Some true => tcp_respond g
  | Some false => mret NO_RESPONSE
  end.

(** ** TCP.c: the task *)
Definition run_handler (CSTableEntry PTableEntry : nat) (s : net) : option net :=
  p ← PortStateTable s !! PTableEntry;
  c ← ConnectionStateTable s !! CSTableEntry;
  if (P_Port p =? C_Port c) && (P_State p =? TCP_Port_Open) then
    h ← ApplicationHandler p;
    v ← h c (PageBlock s);
    Some (set_PageBlock v.2 (set_ConnectionStateTable (<[CSTableEntry := v.1]> (ConnectionStateTable s)) s))
  else Some s.
Definition run_handlers (s : net) : option net :=
  for_up 0 (Z.of_nat MAX_TCP_CONNECTIONS) (λ CSTableEntry,
    for_up 0 (Z.of_nat MAX_OPEN_TCP_PORTS) (λ PTableEntry, run_handler (Z.to_nat CSTableEntry) (Z.to_nat PTableEntry))) s.

(** A filled buffer becomes a frame. *)
Definition tcp_send (CSTableEntry : nat) : NetM unit :=
  let IPHeaderOUT := sizeof_Ethernet_Frame_Header in
  let TCPHeaderOUT := sizeof_Ethernet_Frame_Header + sizeof_IP_Header in
  let TCPDataOUT := sizeof_Ethernet_Frame_Header + sizeof_IP_Header + sizeof_TCP_Header in
  t ← net_gets ConnectionStateTable;
  c ← net_lift (t !! CSTableEntry);
  let i := C_Info c in
  let PacketSize := B_Length (Buffer i) in
  out_assigns TCPHeaderOUT
    [Member tcp_SourcePort (le_store 2 (C_Port c)); Member tcp_DestinationPort (le_store 2 (C_RemotePort c));
     Member tcp_SequenceNumber (le_store 4 (SwapEndian_32 (SequenceNumberOut i)));
     Member tcp_AcknowledgmentNumber (le_store 4 (SwapEndian_32 (SequenceNumberIn i)));
     Bits tcp_DataOffset 1 4 4 (sizeof_TCP_Header / 4);
     Member tcp_WindowSize (le_store 2 (SwapEndian_16 TCP_WINDOW_SIZE));
     Member tcp_Flags [TCP_FLAG_ACK];
     Member tcp_UrgentPointer (le_store 2 0); Member tcp_Checksum (le_store 2 0); Bits tcp_Reserved 1 0 4 0];;
  data ← net_lift (rd_bytes (B_Data (Buffer i)) 0 PacketSize);
  out_assigns TCPDataOUT [Member 0 data];;
  info_set (Some CSTableEntry) (λ i, set_SequenceNumberOut (SequenceNumberOut i + PacketSize) i);;
  Checksum ← out_tcp_checksum TCPHeaderOUT ServerIPAddress (C_RemoteAddress c) (u16 (sizeof_TCP_Header + PacketSize));
  out_assigns TCPHeaderOUT [Member tcp_Checksum (le_store 2 Checksum)];;
  let PacketSize := u16 (PacketSize + sizeof_TCP_Header) in
  ip_header_out IPHeaderOUT PacketSize PROTOCOL_TCP ServerIPAddress (C_RemoteAddress c);;
  let PacketSize := u16 (PacketSize + sizeof_IP_Header) in
  ethernet_header_out [0x02; 0x00; 0x02; 0x00; 0x02; 0x00] (le_store 2 (SwapEndian_16 ETHERTYPE_IPV4));;
  let PacketSize := u16 (PacketSize + sizeof_Ethernet_Frame_Header) in
  net_modify (λ s, set_FrameOUT (with_length PacketSize (FrameOUT s)) s);;
  info_set (Some CSTableEntry) (update_buffer (set_B_Ready false)).

Definition to_send (c : TCP_ConnectionState_t) : bool :=
  Bool.eqb (B_Direction (Buffer (C_Info c))) TCP_PACKETDIR_OUT && B_Ready (Buffer (C_Info c)).

Definition TCP_TCPTask : NetM unit :=
  net_update run_handlers;;
  n ← net_gets (λ s, FrameLength (FrameOUT s));
  if negb (n =? 0) then mret tt
  else
    t ← net_gets ConnectionStateTable;
    match first_entry to_send t with
    | Some k => tcp_send k
    | None => mret tt
    end.

(** ** IP.c *)
Definition IP_ProcessIPPacket (InDataStart OutDataStart : Z) : NetM Z :=
  ihl ← in8 (InDataStart + ip_HeaderLength);
  let HeaderLengthBytes := get_field ihl 0 4 * 4 in
  DestinationAddress ← in_bytes (InDataStart + ip_DestinationAddress) sizeof_IP_Address;
  if negb (IP_COMPARE DestinationAddress ServerIPAddress) && negb (IP_COMPARE DestinationAddress BroadcastIPAddress) then
    mret NO_RESPONSE
  else
    Protocol ← in8 (InDataStart + ip_Protocol);
    RetSize ← (if Protocol =? PROTOCOL_ICMP then
                 ICMP_ProcessICMPPacket (InDataStart + HeaderLengthBytes) (OutDataStart + sizeof_IP_Header)
               else if Protocol =? PROTOCOL_TCP then
                 TCP_ProcessTCPPacket InDataStart (InDataStart + HeaderLengthBytes) (OutDataStart + sizeof_IP_Header)
               else if Protocol =? PROTOCOL_UDP then
                 UDP_ProcessUDPPacket InDataStart (InDataStart + HeaderLengthBytes) (OutDataStart + sizeof_IP_Header)
               else mret NO_RESPONSE);
    if RetSize >? 0 then
      (* DHCP.c may have changed the addresses *)
      Protocol ← in8 (InDataStart + ip_Protocol);
      DestinationAddress ← in_bytes (InDataStart + ip_DestinationAddress) sizeof_IP_Address;
      SourceAddress ← in_bytes (InDataStart + ip_SourceAddress) sizeof_IP_Address;
      ip_header_out OutDataStart RetSize Protocol DestinationAddress SourceAddress;;
      mret (i16 (sizeof_IP_Header + RetSize))
    else mret RetSize.

(** ** Ethernet.c *)
Definition Ethernet_ProcessPacket : NetM unit :=
  Destination ← in_bytes eth_Destination sizeof_MAC_Address;
  EtherType ← in16 eth_EtherType;
  n ← net_gets (λ s, FrameLength (FrameIN s));
  RetSize ← (if (MAC_COMPARE Destination ServerMACAddress || MAC_COMPARE Destination BroadcastMACAddress) &&
                (SwapEndian_16 n >? ETHERNET_VER2_MINSIZE) then
      RetSize ← (if SwapEndian_16 EtherType =? ETHERTYPE_ARP then
                   ARP_ProcessARPPacket sizeof_Ethernet_Frame_Header sizeof_Ethernet_Frame_Header
                 else if SwapEndian_16 EtherType =? ETHERTYPE_IPV4 then
                   IP_ProcessIPPacket sizeof_Ethernet_Frame_Header sizeof_Ethernet_Frame_Header
                 else mret NO_RESPONSE);
      (if RetSize >? 0 then
         Source ← in_bytes eth_Source sizeof_MAC_Address;
         EtherType ← in_bytes eth_EtherType 2;
         ethernet_header_out Source EtherType;;
         net_modify (λ s, set_FrameOUT (with_length (u16 (sizeof_Ethernet_Frame_Header + RetSize)) (FrameOUT s)) s)
       else mret tt);;
      mret RetSize
    else mret NO_RESPONSE);
  if negb (RetSize =? NO_PROCESS) then net_modify (λ s, set_FrameIN (with_length 0 (FrameIN s)) s) else mret tt.
