(* ===== verification/Webserver.v ===== *)
(** * The network stack of the RNDIS application: the web server and the main loop

    Demos/Device/ClassDriver/RNDISEthernet/: Lib/Webserver.c and the loop of
    RNDISEthernet.c, which takes frames from the class driver [Rndis] and gives
    it the responses. The LEDs are left out. *)
From stdpp Require Import strings.
From S2P Require Import Prelude RingBuffer Machine Endpoint Controller EndpointPoll EndpointStream Packed Rndis Net Tcp.

(** ** Webserver.c *)
Definition CRLF : list Z := [13; 10].
Definition HTTP200Header : list Z :=
  chars "HTTP/1.1 200 OK" ++ CRLF ++ chars "Server: LUFA RNDIS" ++ CRLF ++ chars "Content-type: text/html" ++ CRLF ++
  chars "Connection: close" ++ CRLF ++ CRLF.
Definition HTTP404Header : list Z :=
  chars "HTTP/1.1 404 Not Found" ++ CRLF ++ chars "Server: LUFA RNDIS" ++ CRLF ++ chars "Connection: close" ++ CRLF ++ CRLF.
Definition LUFA_VERSION_STRING : list Z := chars "170418".
Definition tab : list Z := [9].
Definition tabs (n : nat) (s : string) : list Z := concat (replicate n tab) ++ chars s.
Definition quoted (s : string) : list Z := [34] ++ chars s ++ [34].
Definition HTTPPage : list Z :=
  chars "<html>" ++ tabs 1 "<head>" ++ tabs 2 "<title>" ++ tabs 3 "LUFA Webserver Demo" ++ tabs 2 "</title>" ++ tabs 1 "</head>" ++
  tabs 1 "<body>" ++ tabs 2 "<h1>Hello from your USB AVR!</h1>" ++ tabs 2 "<p>" ++
  tabs 3 "Hello! Welcome to the LUFA RNDIS Demo Webserver test page, running on your USB AVR via the LUFA library. This demonstrates the HTTP webserver, TCP/IP stack and RNDIS demo all running atop the LUFA USB stack." ++
  tabs 3 "<br /><br />" ++
  tabs 3 "<small>Project Information: <a href=" ++ quoted "http://www.lufa-lib.org" ++ chars ">http://www.lufa-lib.org</a>.</small>" ++
  tabs 3 "<hr />" ++ tabs 3 "<i>LUFA Version: </i>" ++ LUFA_VERSION_STRING ++ tabs 2 "</p>" ++ tabs 1 "</body>" ++ chars "</html>".
(** The arrays, with the terminator the compiler adds. *)
Definition c_string (l : list Z) : list Z := l ++ [0].
Definition sizeof_HTTPPage : Z := Z.of_nat (length (c_string HTTPPage)).
Definition HTTP_REPLY_BLOCK_SIZE : Z := 128.

(** Functions of avr-libc's string.h. [strlen]: the bytes before the first
    zero, [None] if the object ends first. *)
Fixpoint strlen (l : list Z) : option Z :=
  match l with [] => None | b :: l => if b =? 0 then Some 0 else n ← strlen l; Some (n + 1) end.
(** [strncmp(a, b, n) == 0] *)
Fixpoint strncmp_eq (n : nat) (a b : list Z) : option bool :=
  match n with
  | O => Some true
  | S n =>
      x ← head a; y ← head b;
      if negb (x =? y) then Some false else if x =? 0 then Some true else strncmp_eq n (tail a) (tail b)
  end.
(** The bytes [strncpy] writes. *)
Fixpoint strncpy (src : list Z) (n : nat) : option (list Z) :=
  match n with
  | O => Some []
  | S n => x ← head src; if x =? 0 then Some (replicate (S n) 0) else r ← strncpy (tail src) n; Some (x :: r)
  end.

Definition IsHTTPCommand (RequestHeader : list Z) (Command : string) : option bool :=
  strncmp_eq (length (chars Command)) RequestHeader (c_string (chars Command)).

Definition with_buffer (f : TCP_ConnectionBuffer_t → TCP_ConnectionBuffer_t) (c : TCP_ConnectionState_t) : TCP_ConnectionState_t :=
  set_C_Info (update_buffer f (C_Info c)) c.
(** [strcpy_P(BufferDataStr, s)], then the buffer is sent. *)
Definition send_string (s : list Z) (c : TCP_ConnectionState_t) : option TCP_ConnectionState_t :=
  d ← wr_bytes (B_Data (Buffer (C_Info c))) 0 (c_string s);
  n ← strlen d;
  Some (with_buffer (λ b, TCP_APP_SEND_BUFFER b n) (with_buffer (set_B_Data d) c)).

Definition web_GET (c : TCP_ConnectionState_t) (PageBlock : Z) : option (TCP_ConnectionState_t * Z) :=
  root ← IsHTTPCommand (B_Data (Buffer (C_Info c))) "GET / ";
  if (root : bool) then
    c ← send_string HTTP200Header c;
    Some (with_buffer TCP_APP_CAPTURE_BUFFER c, 0)
  else
    c ← send_string HTTP404Header c;
    Some (TCP_APP_CLOSECONNECTION c, PageBlock).
Definition web_HEAD (c : TCP_ConnectionState_t) (PageBlock : Z) : option (TCP_ConnectionState_t * Z) :=
  root ← IsHTTPCommand (B_Data (Buffer (C_Info c))) "HEAD / ";
  c ← send_string (if (root : bool) then HTTP200Header else HTTP404Header) c;
  Some (TCP_APP_CLOSECONNECTION c, PageBlock).
Definition web_TRACE (c : TCP_ConnectionState_t) (PageBlock : Z) : option (TCP_ConnectionState_t * Z) :=
  Some (TCP_APP_CLOSECONNECTION (with_buffer (λ b, TCP_APP_SEND_BUFFER b (B_Length b)) c), PageBlock).
(** The next block of the page; [&HTTPPage[k]] must point into the array. *)
Definition web_block (c : TCP_ConnectionState_t) (PageBlock : Z) : option (TCP_ConnectionState_t * Z) :=
  let page := drop (Z.to_nat (PageBlock * HTTP_REPLY_BLOCK_SIZE)) (c_string HTTPPage) in
  RemLength ← strlen page;
  let Length := if RemLength >? HTTP_REPLY_BLOCK_SIZE then HTTP_REPLY_BLOCK_SIZE else RemLength in
  block ← strncpy page (Z.to_nat Length);
  d ← wr_bytes (B_Data (Buffer (C_Info c))) 0 block;
  let c := with_buffer (λ b, TCP_APP_SEND_BUFFER b Length) (with_buffer (set_B_Data d) c) in
  if PageBlock =? sizeof_HTTPPage / HTTP_REPLY_BLOCK_SIZE then
    Some (TCP_APP_CLOSECONNECTION (with_buffer TCP_APP_RELEASE_BUFFER c), u8 (PageBlock + 1))
  else Some (c, u8 (PageBlock + 1)).

Definition Webserver_ApplicationCallback : handler := λ c PageBlock,
  let b := Buffer (C_Info c) in
  if TCP_APP_HAS_RECEIVED_PACKET b then
    get ← IsHTTPCommand (B_Data b) "GET";
    if (get : bool) then web_GET c PageBlock
    else
      hd ← IsHTTPCommand (B_Data b) "HEAD";
      if (hd : bool) then web_HEAD c PageBlock
      else
        trace ← IsHTTPCommand (B_Data b) "TRACE";
        if (trace : bool) then web_TRACE c PageBlock
        else Some (with_buffer TCP_APP_CLEAR_BUFFER c, PageBlock)
  else if TCP_APP_HAVE_CAPTURED_BUFFER b then web_block c PageBlock
  else Some (c, PageBlock).

Definition Webserver_Init : NetM bool := TCP_SetPortState TCP_PORT_HTTP TCP_Port_Open (Some Webserver_ApplicationCallback).

(** ** RNDISEthernet.c *)

(** The variables before [main]: zeroed. *)
Definition zero_frame : Ethernet_Frame_Info_t := Ethernet_Frame_Info (replicate (Z.to_nat ETHERNET_FRAME_SIZE_MAX) 0) 0.
Definition zero_buffer : TCP_ConnectionBuffer_t := TCP_ConnectionBuffer 0 (replicate (Z.to_nat TCP_WINDOW_SIZE) 0) false false false.
Definition zero_connection : TCP_ConnectionState_t := TCP_ConnectionState 0 0 (replicate 4 0) (TCP_ConnectionInfo 0 0 zero_buffer) 0.
Definition zero_net : net :=
  Net zero_frame zero_frame (replicate MAX_OPEN_TCP_PORTS (TCP_PortState 0 0 None)) (replicate MAX_TCP_CONNECTIONS zero_connection) 0.
Definition stack_init : NetM bool := TCP_Init;; Webserver_Init.

(** A received frame: read, processed, its response sent. [junk] is the
    automatic variable of [RNDIS_Device_ReadPacket]. *)
Definition serve_packet (i : USB_ClassInfo_RNDIS_Device_t) (junk : list Z) (s : net) : M net :=
  v ← RNDIS_Device_ReadPacket i junk (FrameData (FrameIN s)) (FrameLength (FrameIN s));
  let s := set_FrameIN (Ethernet_Frame_Info v.1.2 v.2) s in
  r ← lift (Ethernet_ProcessPacket s);
  let s := r.2 in
  if negb (FrameLength (FrameOUT s) =? 0) then
    _ ← RNDIS_Device_SendPacket i (FrameData (FrameOUT s)) (FrameLength (FrameOUT s));
    mret (set_FrameOUT (with_length 0 (FrameOUT s)) s)
  else mret s.

(** The network part of the loop's body; the class driver's and LUFA's task
    follow it. *)
Definition network_iteration (i : USB_ClassInfo_RNDIS_Device_t) (junk : list Z) (s : net) : M net :=
  received ← RNDIS_Device_IsPacketReceived i;
  s ← (if (received : bool) then serve_packet i junk s else mret s);
  r ← lift (TCP_TCPTask s);
  mret r.2.
