(* ===== verification/NetSpec.v ===== *)
(** * The network stack: lemmas on memory and the checksum

    Reads and assignments within a frame that is a concatenation, and the
    Internet checksum of RFC 1071 against which the two checksum functions are
    proved. *)
From stdpp Require Import relations.
From S2P Require Import Prelude Packed Net.

(** ** Numbers and their bytes *)

(** The [n] bytes of a number in network order. *)
Definition be (n : nat) (v : Z) : list Z := rev (le_store n v).

Lemma le_store_length n v : length (le_store n v) = n.
Proof. revert v. induction n; intros v; cbn; [done|by rewrite IHn]. Qed.
Lemma le_store_bytes n v : bytes (le_store n v).
Proof. revert v. induction n; intros v; cbn; constructor; [apply u8_byte|apply IHn]. Qed.
Lemma be_length n v : length (be n v) = n.
Proof. unfold be. by rewrite length_rev, le_store_length. Qed.
Lemma be_bytes n v : bytes (be n v).
Proof. apply Forall_rev, le_store_bytes. Qed.

Lemma le_value_bound l : bytes l → 0 ≤ le_value l < 256 ^ Z.of_nat (length l).
Proof.
  induction 1 as [|b l Hb Hl IH]; cbn [le_value foldr length]; [done|].
  rewrite Nat2Z.inj_succ, Z.pow_succ_r by lia. fold (le_value l). unfold byte in Hb. lia.
Qed.
Lemma le_value_store n v : le_value (le_store n v) = v mod 256 ^ Z.of_nat n.
Proof.
  revert v. induction n as [|n IH]; intros v; cbn [le_store le_value foldr].
  { by rewrite Z.mod_1_r. }
  fold (le_value (le_store n (v >> 8))). rewrite IH, Nat2Z.inj_succ, Z.pow_succ_r by lia. unfold u8.
  rewrite Z.shiftr_div_pow2 by lia. change (2 ^ 8) with 256.
  rewrite Z.rem_mul_r by (lia || apply Z.pow_pos_nonneg; lia). done.
Qed.
Lemma le_store_value l : bytes l → le_store (length l) (le_value l) = l.
Proof.
  induction 1 as [|b l Hb Hl IH]; [done|]. cbn [length le_store le_value foldr]. fold (le_value l). unfold byte in Hb. f_equal.
  - unfold u8. rewrite Z.mul_comm, Z.mod_add by lia. by apply Z.mod_small.
  - rewrite Z.shiftr_div_pow2 by lia. change (2 ^ 8) with 256.
    replace ((b + 256 * le_value l) / 256) with (le_value l) by (apply (Z.div_unique _ _ _ b); lia). done.
Qed.
Lemma le_value_app a b : le_value (a ++ b) = le_value a + 256 ^ Z.of_nat (length a) * le_value b.
Proof.
  induction a as [|x a IH]; cbn [app le_value foldr length]; fold (le_value b).
  { rewrite Z.pow_0_r. lia. }
  fold (le_value (a ++ b)) (le_value a). rewrite IH, Nat2Z.inj_succ, Z.pow_succ_r by lia. lia.
Qed.

(** Stored words that were swapped are in network order, and back. *)
Lemma swapped_store_16 v : le_store 2 (SwapEndian_16 v) = be 2 v.
Proof. unfold SwapEndian_16, be. apply (le_store_value (rev (le_store 2 v))), Forall_rev, le_store_bytes. Qed.
Lemma swapped_store_32 v : le_store 4 (SwapEndian_32 v) = be 4 v.
Proof. unfold SwapEndian_32, be. apply (le_store_value (rev (le_store 4 v))), Forall_rev, le_store_bytes. Qed.
Lemma swap_be_16 v : SwapEndian_16 (le_value (be 2 v)) = v mod 65536.
Proof.
  unfold SwapEndian_16. change 2%nat with (length (be 2 v)) at 1. rewrite le_store_value by apply be_bytes.
  unfold be. rewrite rev_involutive. apply (le_value_store 2).
Qed.
Lemma swap_be_32 v : SwapEndian_32 (le_value (be 4 v)) = u32 v.
Proof.
  unfold SwapEndian_32. change 4%nat with (length (be 4 v)) at 1. rewrite le_store_value by apply be_bytes.
  unfold be. rewrite rev_involutive. apply (le_value_store 4).
Qed.
Lemma store_of_le n l : bytes l → length l = n → le_store n (le_value l) = l.
Proof. intros H <-. by apply le_store_value. Qed.

Ltac solve_bytes := repeat first
  [ assumption | apply be_bytes | apply le_store_bytes | apply Forall_nil_2 | apply Forall_cons; split | apply Forall_app; split
  | apply u8_byte | unfold byte; lia ].

(** ** Reads and assignments in a concatenation *)
Lemma rd_bytes_in l o n : 0 ≤ o → 0 ≤ n → o + n ≤ Z.of_nat (length l) →
  rd_bytes l o n = Some (take (Z.to_nat n) (drop (Z.to_nat o) l)).
Proof. intros. unfold rd_bytes. by rewrite !(proj2 (Z.leb_le _ _)) by lia. Qed.
Lemma rd_bytes_inv l o n b : rd_bytes l o n = Some b →
  0 ≤ o ∧ 0 ≤ n ∧ o + n ≤ Z.of_nat (length l) ∧ b = take (Z.to_nat n) (drop (Z.to_nat o) l).
Proof.
  unfold rd_bytes. destruct (Z.leb_spec 0 o), (Z.leb_spec 0 n), (Z.leb_spec (o + n) (Z.of_nat (length l))); cbn; try done.
  by intros [= <-].
Qed.
Lemma rd_bytes_mid pre mid post o n b p : length pre = Z.to_nat p → 0 ≤ p → rd_bytes mid o n = Some b →
  rd_bytes (pre ++ mid ++ post) (p + o) n = Some b.
Proof.
  intros Hp Hp0 (Ho & Hn & Hl & ->)%rd_bytes_inv. rewrite rd_bytes_in by (rewrite ?length_app; lia). f_equal.
  rewrite drop_app_ge by lia. replace (Z.to_nat (p + o) - length pre)%nat with (Z.to_nat o) by lia.
  rewrite drop_app_le by lia. rewrite take_app_le; [done|]. rewrite length_drop. lia.
Qed.
Lemma rd_bytes_front mid post o n b : rd_bytes mid o n = Some b → rd_bytes (mid ++ post) o n = Some b.
Proof. intros H. by apply (rd_bytes_mid [] mid post o n b 0). Qed.

Lemma wr_bytes_eq l o bs : 0 ≤ o → o + Z.of_nat (length bs) ≤ Z.of_nat (length l) →
  wr_bytes l o bs = Some (take (Z.to_nat o) l ++ bs ++ drop (Z.to_nat o + length bs) l).
Proof.
  intros Ho Hl. destruct (wr_bytes_ok l o bs) as [l' E]; [done|done|]. rewrite E. f_equal.
  destruct (wr_bytes_lookup _ _ _ _ E) as [L H]. apply list_eq. intros k. rewrite H.
  assert (length (take (Z.to_nat o) l) = Z.to_nat o) as Lt by (rewrite length_take; lia).
  case_decide as D; destruct (decide (k < Z.to_nat o)%nat) as [D1|D1]; try lia.
  - rewrite lookup_app_r, Lt, lookup_app_l by lia. done.
  - rewrite lookup_app_l, lookup_take_lt by lia. done.
  - rewrite lookup_app_r, Lt, lookup_app_r, lookup_drop by lia. f_equal. lia.
Qed.
Lemma wr_bytes_inv l o bs l' : bs ≠ [] → wr_bytes l o bs = Some l' →
  0 ≤ o ∧ o + Z.of_nat (length bs) ≤ Z.of_nat (length l).
Proof.
  revert l o. induction bs as [|b bs IH]; intros l o Hne; [done|]. cbn [wr_bytes length].
  intros (l1 & H1 & H2)%bind_Some. apply wr_inv in H1 as (Ho & Hlt & ->). destruct (decide (bs = [])) as [->|Hb].
  - cbn. lia.
  - apply IH in H2; [|done]. rewrite length_insert in H2. lia.
Qed.
Lemma wr_bytes_mid pre mid post o bs mid' p : length pre = Z.to_nat p → 0 ≤ p → wr_bytes mid o bs = Some mid' →
  wr_bytes (pre ++ mid ++ post) (p + o) bs = Some (pre ++ mid' ++ post).
Proof.
  intros Hp Hp0 H. destruct (decide (bs = [])) as [->|Hne]; [by injection H as <-|].
  destruct (wr_bytes_inv _ _ _ _ Hne H) as [Ho Hl]. rewrite wr_bytes_eq in H by done. injection H as <-.
  rewrite wr_bytes_eq by (rewrite ?length_app; lia). f_equal.
  rewrite take_app_ge, drop_app_ge by lia. replace (Z.to_nat (p + o) - length pre)%nat with (Z.to_nat o) by lia.
  replace (Z.to_nat (p + o) + length bs - length pre)%nat with (Z.to_nat o + length bs)%nat by lia.
  rewrite take_app_le, drop_app_le by lia. by rewrite <-!(assoc_L (++)).
Qed.

Lemma assign_mid pre mid post a mid' p : length pre = Z.to_nat p → 0 ≤ p → assign 0 mid a = Some mid' →
  assign p (pre ++ mid ++ post) a = Some (pre ++ mid' ++ post).
Proof.
  intros Hp Hp0. destruct a as [o bs|o n lo w v]; cbn [assign].
  - change (0 + o) with o. by apply wr_bytes_mid.
  - change (0 + o) with o. intros (old & H1 & H2)%bind_Some. rewrite (rd_bytes_mid _ _ _ _ _ _ _ Hp Hp0 H1). cbn [mbind option_bind].
    by apply wr_bytes_mid.
Qed.
Lemma assigns_mid pre mid post ms mid' p : length pre = Z.to_nat p → 0 ≤ p → assigns 0 mid ms = Some mid' →
  assigns p (pre ++ mid ++ post) ms = Some (pre ++ mid' ++ post).
Proof.
  intros Hp Hp0. revert mid. induction ms as [|a ms IH]; intros mid; cbn [assigns]; [by intros [= ->]|].
  intros (m1 & H1 & H2)%bind_Some. rewrite (assign_mid _ _ _ _ _ _ Hp Hp0 H1). cbn [mbind option_bind]. by apply IH.
Qed.
Lemma assigns_front mid post ms mid' : assigns 0 mid ms = Some mid' → assigns 0 (mid ++ post) ms = Some (mid' ++ post).
Proof. intros H. by apply (assigns_mid [] mid post ms mid' 0). Qed.

(** A member in the middle is replaced. *)
Lemma assigns_patch a x b bs o : length a = Z.to_nat o → 0 ≤ o → length x = length bs →
  assigns 0 (a ++ x ++ b) [Member o bs] = Some (a ++ bs ++ b).
Proof.
  intros Ha Ho Hx. cbn [assigns assign]. change (0 + o) with o. rewrite <-(Z.add_0_r o) at 1.
  rewrite (wr_bytes_mid a x b 0 bs bs); [done|done|done|]. rewrite wr_bytes_eq by lia. cbn. by rewrite drop_ge, app_nil_r by lia.
Qed.

(** A list is its first elements and the rest. *)
Lemma split_at {A} (n : nat) (l : list A) : (n ≤ length l)%nat → ∃ a b, l = a ++ b ∧ length a = n.
Proof. intros H. exists (take n l), (drop n l). rewrite take_drop, length_take. split; [done|lia]. Qed.

(** Gives a list of known length its elements. *)
Ltac elements H := match type of H with length ?l = ?n =>
  repeat (destruct l as [|? l]; [discriminate H|cbn [length] in H]); (destruct l; [clear H|discriminate H]) end.

(** ** The Internet checksum, RFC 1071 *)

(** The 16-bit words of a message in network order; an odd byte at the end is
    padded with a zero. *)
Fixpoint words (l : list Z) : list Z :=
  match l with
  | [] => []
  | [b] => [256 * b]
  | b0 :: b1 :: l => 256 * b0 + b1 :: words l
  end.
(** Addition with end-around carry. *)
Definition ones_add (x y : Z) : Z := if x + y <? 65536 then x + y else x + y - 65535.
Definition ones_sum (l : list Z) : Z := foldl ones_add 0 (words l).
Definition rfc1071 (l : list Z) : Z := 65535 - ones_sum l.

(** The representative of a number modulo 65535, zero only for zero. *)
Definition norm (x : Z) : Z := if x =? 0 then 0 else 1 + (x - 1) mod 65535.
Definition total (ws : list Z) : Z := foldr Z.add 0 ws.

Lemma norm_range x : 0 ≤ x → 0 ≤ norm x ≤ 65535 ∧ (norm x = 0 ↔ x = 0).
Proof.
  intros H. unfold norm. destruct (Z.eqb_spec x 0) as [->|]; [lia|].
  pose proof (Z.mod_pos_bound (x - 1) 65535). lia.
Qed.
(** [norm] is determined by its value modulo 65535 and by being zero or not. *)
Lemma norm_unique x y : 0 ≤ x → 0 ≤ y ≤ 65535 → (x = 0 ↔ y = 0) → (65535 | x - y) → norm x = y.
Proof.
  intros Hx Hy H0 [k Hk]. unfold norm. destruct (Z.eqb_spec x 0) as [->|]; [lia|].
  replace (x - 1) with (y - 1 + k * 65535) by lia. rewrite Z.mod_add, Z.mod_small by lia. lia.
Qed.
Lemma norm_div x : 0 ≤ x → (65535 | x - norm x).
Proof.
  intros H. unfold norm. destruct (Z.eqb_spec x 0) as [->|]; [by exists 0|].
  exists ((x - 1) / 65535). pose proof (Z.div_mod (x - 1) 65535). lia.
Qed.
Lemma norm_small x : 0 ≤ x ≤ 65535 → norm x = x.
Proof. intros H. apply norm_unique; try lia. exists 0. lia. Qed.

Lemma ones_add_norm x y : 0 ≤ x → 0 ≤ y < 65536 → ones_add (norm x) y = norm (x + y).
Proof.
  intros Hx Hy. pose proof (norm_range x Hx) as [Hr H0]. destruct (norm_div x Hx) as [k Hk]. symmetry. unfold ones_add.
  destruct (Z.ltb_spec (norm x + y) 65536); apply norm_unique; try lia; [exists k|exists (k + 1)]; lia.
Qed.
Lemma foldl_ones ws x : 0 ≤ x → Forall word16 ws → foldl ones_add (norm x) ws = norm (x + total ws).
Proof.
  revert x. induction ws as [|w ws IH]; intros x Hx Hw; cbn [foldl total foldr]; [by rewrite Z.add_0_r|].
  apply Forall_cons in Hw as [Hw Hws]. unfold word16 in Hw. rewrite ones_add_norm by lia. fold (total ws).
  rewrite IH by (done || lia). f_equal. lia.
Qed.

(** Two bytes at a time. *)
Lemma pair_ind (P : list Z → Prop) : P [] → (∀ b, P [b]) → (∀ b0 b1 l, P l → P (b0 :: b1 :: l)) → ∀ l, P l.
Proof. intros H0 H1 H2. fix IH 1. intros [|b0 [|b1 l]]; [done|apply H1|apply H2, IH]. Qed.
Lemma words_range l : bytes l → Forall word16 (words l).
Proof.
  induction l as [|b|b0 b1 l IH] using pair_ind; intros H; cbn [words]; [constructor| |];
    rewrite ?Forall_cons in H; unfold bytes in H; rewrite ?Forall_cons in H; unfold byte in H; repeat constructor; unfold word16; try lia.
  apply IH. apply H.
Qed.
Lemma ones_sum_norm l : bytes l → ones_sum l = norm (total (words l)).
Proof. intros H. unfold ones_sum. change 0 with (norm 0) at 1. rewrite foldl_ones; [done|lia|by apply words_range]. Qed.
Lemma total_range l : bytes l → 0 ≤ total (words l) ≤ 65535 * Z.of_nat (length (words l)).
Proof.
  intros H. pose proof (words_range l H) as Hw. induction Hw as [|w ws Hw _ IH]; cbn; [lia|].
  fold (total ws). unfold word16 in Hw. lia.
Qed.
Lemma total_app a b : total (a ++ b) = total a + total b.
Proof. induction a as [|w a IH]; cbn; [done|]. fold (total (a ++ b)) (total a). lia. Qed.
Lemma words_app a b : Nat.Even (length a) → words (a ++ b) = words a ++ words b.
Proof.
  induction a as [|x|b0 b1 l IH] using pair_ind; intros H; [done| |].
  - exfalso. destruct H. cbn in *. lia.
  - cbn [app words]. rewrite IH; [done|]. destruct H as [k H]. exists (k - 1)%nat. cbn in H. lia.
Qed.

Lemma rfc1071_range l : bytes l → word16 (rfc1071 l).
Proof.
  intros H. unfold rfc1071, word16. rewrite ones_sum_norm by done.
  pose proof (norm_range (total (words l))). pose proof (total_range l H). lia.
Qed.
Lemma be2 v : be 2 v = [u8 (v >> 8); u8 v].
Proof. reflexivity. Qed.
Lemma words_be v : word16 v → words (be 2 v) = [v].
Proof.
  intros H. rewrite be2. cbn [words]. f_equal. unfold u8, word16 in *. rewrite Z.shiftr_div_pow2 by lia. change (2 ^ 8) with 256.
  rewrite (Z.mod_small (v / 256)) by (split; [apply Z.div_pos|apply Z.div_lt_upper_bound]; lia).
  pose proof (Z.div_mod v 256). lia.
Qed.

(** A message that carries its checksum sums up to 0xFFFF, as a receiver
    checks. *)
Lemma rfc1071_verifies a b : bytes a → bytes b → Nat.Even (length a) →
  ones_sum (a ++ be 2 (rfc1071 (a ++ [0; 0] ++ b)) ++ b) = 0xFFFF.
Proof.
  intros Ha Hb He. assert (bytes (a ++ [0; 0] ++ b)) as Hm.
  { apply Forall_app. split; [done|]. by do 2 (constructor; [done|]). }
 
  pose proof (rfc1071_range _ Hm) as Hc. pose proof (total_range _ Hm) as Ht. set (c := rfc1071 _) in *.
  rewrite ones_sum_norm by (apply Forall_app; split; [done|]; apply Forall_app; split; [apply be_bytes|done]).
  assert (Nat.Even 2) as H2 by by exists 1%nat.
  rewrite (words_app a), (words_app (be 2 c)), words_be, !total_app by done.
  assert (total (words (a ++ [0; 0] ++ b)) = total (words a) + total (words b)) as E.
  { rewrite (words_app a), (words_app [0; 0]), !total_app by done. change (total (words [0; 0])) with 0. lia. }
  replace (total (words a) + (total [c] + total (words b))) with (total (words (a ++ [0; 0] ++ b)) + c) by (rewrite E; cbn; lia).
  assert (c = 65535 - norm (total (words (a ++ [0; 0] ++ b)))) as -> by (unfold c, rfc1071; by rewrite ones_sum_norm).
  set (t := total (words (a ++ [0; 0] ++ b))) in *. clearbody t.
  pose proof (norm_range t) as [Hn H0]; [lia|]. destruct (norm_div t) as [k Hk]; [lia|].
  apply norm_unique; [lia|lia|lia|exists k; lia].
Qed.

(** ** The checksum functions *)

(** The words as a little endian processor reads them. *)
Fixpoint le_words (l : list Z) : list Z :=
  match l with b0 :: b1 :: l => b0 + 256 * b1 :: le_words l | _ => [] end.

Lemma le_words_range l : bytes l → 0 ≤ total (le_words l) ≤ 65535 * (Z.of_nat (length l) / 2).
Proof.
  induction l as [|b|b0 b1 l IH] using pair_ind; intros H; [done|done|]. unfold bytes in H. rewrite !Forall_cons in H.
  destruct H as (H0 & H1 & H). cbn [le_words total foldr length]. fold (total (le_words l)). specialize (IH H). unfold byte in *.
  replace (Z.of_nat (S (S (length l)))) with (Z.of_nat (length l) + 1 * 2) by lia. rewrite Z.div_add by lia. lia.
Qed.

Lemma le_words_app a b : Nat.Even (length a) → le_words (a ++ b) = le_words a ++ le_words b.
Proof.
  induction a as [|x|b0 b1 l IH] using pair_ind; intros H; [done| |].
  - exfalso. destruct H. cbn in *. lia.
  - cbn [app le_words]. rewrite IH; [done|]. destruct H as [k H]. exists (k - 1)%nat. cbn in H. lia.
Qed.

(** The two byte orders differ by a factor modulo 65535. *)
Lemma words_orders l : bytes l → Nat.Even (length l) →
  (65535 | 256 * total (le_words l) - total (words l)) ∧ (total (le_words l) = 0 ↔ total (words l) = 0).
Proof.
  intros H He. assert (0 ≤ total (le_words l)) as Hp by (by apply le_words_range).
  assert (0 ≤ total (words l)) as Hp' by (by apply total_range). revert H He Hp Hp'.
  induction l as [|b|b0 b1 l IH] using pair_ind; intros H He Hp Hp'; [split; [by exists 0|done]|exfalso; destruct He; cbn in *; lia|].
  unfold bytes in H. rewrite !Forall_cons in H. destruct H as (H0 & H1 & H). cbn [le_words words total foldr] in *.
  fold (total (le_words l)) (total (words l)) in *.
  assert (0 ≤ total (le_words l)) as Hq by (by apply le_words_range). assert (0 ≤ total (words l)) as Hq' by (by apply total_range).
  destruct IH as [[k Hk] Hz]; [done| |done|done|]. { destruct He as [m Hm]. exists (m - 1)%nat. cbn in Hm. lia. }
  unfold byte in *. split; [|lia]. exists (k + b1). lia.
Qed.

Lemma swap_word x : word16 x → SwapEndian_16 x = 256 * (x mod 256) + x / 256.
Proof.
  intros H. unfold SwapEndian_16, u8, word16 in *. cbn [le_store rev app le_value foldr]. unfold u8.
  rewrite Z.shiftr_div_pow2 by lia. change (2 ^ 8) with 256.
  rewrite (Z.mod_small (x / 256)) by (split; [apply Z.div_pos|apply Z.div_lt_upper_bound]; lia). lia.
Qed.
Lemma norm_swap x y : 0 ≤ x → 0 ≤ y → (65535 | 256 * x - y) → (x = 0 ↔ y = 0) → norm y = SwapEndian_16 (norm x).
Proof.
  intros Hx Hy [k Hk] H0. pose proof (norm_range x Hx) as [Hr Hr0]. destruct (norm_div x Hx) as [m Hm].
  rewrite swap_word by (unfold word16; lia). pose proof (Z.div_mod (norm x) 256). pose proof (Z.mod_pos_bound (norm x) 256).
  apply norm_unique; [done|lia|lia|]. exists (256 * m - k + norm x / 256). lia.
Qed.

Lemma fold_carries_eq x : 0 ≤ x < 2 ^ 32 → fold_carries CARRY_FUEL x = Some (norm x).
Proof.
  assert (∀ y, 0 ≤ y < 2 ^ 32 → tst y 0xFFFF0000 = negb (y <? 65536)) as Ht.
  { intros y Hy. unfold tst. f_equal. assert (y .& 0xFFFF0000 = y / 65536 * 65536) as ->.
    { apply Z.bits_inj'. intros n Hn. rewrite Z.land_spec. change 65536 with (2 ^ 16). rewrite <-Z.shiftr_div_pow2, <-Z.shiftl_mul_pow2 by lia.
      rewrite Z.shiftl_spec by lia. change 0xFFFF0000 with (Z.ones 16 << 16). rewrite Z.shiftl_spec by lia.
      destruct (decide (n < 16)); [by rewrite !(Z.testbit_neg_r _ (n - 16)), andb_false_r by lia|]. rewrite Z.shiftr_spec by lia.
      replace (n - 16 + 16) with n by lia. destruct (decide (n < 32)).
      - by rewrite Z.ones_spec_low, andb_true_r by lia.
      - by rewrite (high_bits 32) by lia. }
    destruct (Z.eqb_spec (y / 65536 * 65536) 0), (Z.ltb_spec y 65536); try done; Z.to_euclidean_division_equations; lia. }
  assert (∀ y, 0 ≤ y < 2 ^ 32 → u32 ((y .& 0xFFFF) + (y >> 16)) = y mod 65536 + y / 65536) as Hs.
  { intros y Hy. change 0xFFFF with (Z.ones 16). rewrite Z.land_ones, Z.shiftr_div_pow2 by lia. change (2 ^ 16) with 65536.
    change (2 ^ 32) with 4294967296 in Hy.
    unfold u32. rewrite Z.mod_small; [done|]. Z.to_euclidean_division_equations; lia. }
  intros Hx. change (2 ^ 32) with 4294967296 in *. unfold CARRY_FUEL. cbn [fold_carries]. rewrite Ht by done. destruct (Z.ltb_spec x 65536); cbn [negb].
  { by rewrite norm_small by lia. }
  rewrite Hs by done. set (y := x mod 65536 + x / 65536). assert (0 < y ≤ 131070) as Hy by (unfold y; Z.to_euclidean_division_equations; lia).
  assert (norm x = norm y) as ->.
  { pose proof (norm_range y) as []; [lia|]. destruct (norm_div y) as [k Hk]; [lia|]. apply norm_unique; try lia.
    exists (k + x / 65536). unfold y in *. pose proof (Z.div_mod x 65536). lia. }
  rewrite Ht by lia. destruct (Z.ltb_spec y 65536); cbn [negb]; [by rewrite norm_small by lia|].
  rewrite Hs by lia. replace (y / 65536) with 1 by (Z.to_euclidean_division_equations; lia).
  replace (y mod 65536) with (y - 65536) by (Z.to_euclidean_division_equations; lia).
  rewrite Ht by lia. rewrite (proj2 (Z.ltb_lt _ _)) by lia. cbn [negb]. f_equal. symmetry. apply norm_unique; try lia. exists 1. lia.
Qed.

Lemma complement_swap x : 0 ≤ x ≤ 65535 → le_store 2 (u16 (Z.lnot x)) = be 2 (65535 - SwapEndian_16 x).
Proof.
  intros Hx. rewrite swap_word by (unfold word16; lia). rewrite be2. cbn [le_store].
  pose proof (Z.div_mod x 256) as E. pose proof (Z.mod_pos_bound x 256) as Hl.
  assert (0 ≤ x / 256 < 256) as Hh by (split; [apply Z.div_pos|apply Z.div_lt_upper_bound]; lia).
  generalize dependent (x mod 256). generalize dependent (x / 256). intros h Hh l E Hl.
  assert (u16 (Z.lnot x) = 256 * (255 - h) + (255 - l)) as ->.
  { unfold u16. symmetry. apply (Z.mod_unique _ _ (-1)); unfold Z.lnot; lia. }
  replace (65535 - (256 * l + h)) with (256 * (255 - l) + (255 - h)) by lia.
  assert (∀ a b, byte a → byte b → u8 (256 * a + b) = b ∧ u8 ((256 * a + b) >> 8) = a) as H.
  { intros a b Ha Hb. unfold byte, u8 in *. rewrite Z.shiftr_div_pow2 by lia. change (2 ^ 8) with 256. split.
    - symmetry. apply (Z.mod_unique _ _ a); lia.
    - replace ((256 * a + b) / 256) with a by (apply (Z.div_unique _ _ _ b); lia). apply Z.mod_small. lia. }
  destruct (H (255 - h) (255 - l)) as [-> ->]; [unfold byte; lia..|]. by destruct (H (255 - l) (255 - h)) as [-> ->]; [unfold byte; lia..|].
Qed.

Lemma sum_words_eq pre0 l0 post p c : bytes l0 → Nat.Even (length l0) → length pre0 = Z.to_nat p → 0 ≤ p → 0 ≤ c →
  c + 65535 * (Z.of_nat (length l0) / 2) < 2 ^ 32 →
  sum_words (pre0 ++ l0 ++ post) p (Z.of_nat (length l0) / 2) c = Some (c + total (le_words l0)).
Proof.
  intros Hb [m Hm] Hpre Hp Hc Hlt. unfold sum_words, for_up. rewrite Z.sub_0_r.
  replace (Z.of_nat (length l0) / 2) with (Z.of_nat m) in * by (rewrite Hm; Z.to_euclidean_division_equations; lia).
  rewrite Nat2Z.id. set (f := λ CurrWord Checksum, _).
  assert (∀ i pre l c, 0 ≤ i → length pre = Z.to_nat (p + 2 * i) → pre ++ l ++ post = pre0 ++ l0 ++ post → bytes l → length l = (2 * m)%nat → 0 ≤ c →
    c + 65535 * Z.of_nat m < 2 ^ 32 → for_ m i f c = Some (c + total (le_words l))) as H.
  2: { apply (H 0 pre0 l0); try done. by rewrite Z.mul_0_r, Z.add_0_r. }
  clear Hpre Hb Hm Hc Hlt c. induction m as [|m IH]; intros i pre l c Hi Hpre Hd Hb Hm Hc Hlt.
  { destruct l; [|done]. cbn. by rewrite Z.add_0_r. }
  destruct l as [|b0 [|b1 l]]; [done|cbn in Hm; lia|]. unfold bytes in Hb. rewrite !Forall_cons in Hb. destruct Hb as (Hb0 & Hb1 & Hb).
  unfold byte in *. cbn [for_]. assert (f i c = Some (c + (b0 + 256 * b1))) as ->.
  { unfold f, rd_le. rewrite <-Hd. replace (p + 2 * i) with (p + 2 * i + 0) by lia.
    rewrite (rd_bytes_mid pre (b0 :: b1 :: l) post 0 2 [b0; b1]); [|done|lia|rewrite rd_bytes_in by (cbn; lia); done].
    cbn [fmap option_fmap option_map mbind option_bind le_value foldr]. f_equal. unfold u32. rewrite Z.mod_small; lia. }
  cbn [mbind option_bind].
  rewrite (IH (i + 1) (pre ++ [b0; b1]) l); [|lia|rewrite length_app; cbn; lia|by rewrite <-Hd, <-!(assoc_L (++))|done|cbn in Hm; lia|lia|lia].
  cbn [le_words total foldr]. f_equal. fold (total (le_words l)). lia.
Qed.

(** From the sum of the words to the checksum. *)
Lemma finish_checksum m : bytes m → Nat.Even (length m) → total (le_words m) < 2 ^ 32 →
  ∃ c, (Checksum ← fold_carries CARRY_FUEL (total (le_words m)); Some (u16 (Z.lnot Checksum))) = Some c ∧ le_store 2 c = be 2 (rfc1071 m).
Proof.
  intros Hb He Hlt. pose proof (le_words_range m Hb) as Hr. rewrite fold_carries_eq by lia. cbn [mbind option_bind]. eexists. split; [done|].
  rewrite complement_swap by (apply norm_range; lia). unfold rfc1071. rewrite ones_sum_norm by done.
  destruct (words_orders m Hb He) as [Hd Hz].
  by rewrite (norm_swap (total (le_words m)) (total (words m))) by (done || lia || by apply total_range).
Qed.

(** On an even number of bytes [Ethernet_Checksum16] is the checksum of RFC
    1071, in network order when it is stored. *)
Lemma Ethernet_Checksum16_eq pre l post p : bytes l → Nat.Even (length l) → Z.of_nat (length l) < 65536 → length pre = Z.to_nat p → 0 ≤ p →
  ∃ c, Ethernet_Checksum16 (pre ++ l ++ post) p (Z.of_nat (length l)) = Some c ∧ le_store 2 c = be 2 (rfc1071 l).
Proof.
  intros Hb He Hl Hpre Hp. unfold Ethernet_Checksum16. rewrite Z.shiftr_div_pow2 by lia. change (2 ^ 1) with 2.
  assert (Z.of_nat (length l) / 2 < 65536) by (apply Z.div_lt_upper_bound; lia).
  rewrite sum_words_eq by (done || lia). cbn [mbind option_bind]. pose proof (le_words_range l Hb) as Hr. rewrite Z.add_0_l.
  apply finish_checksum; [done|done|lia].
Qed.
(** An odd byte at the end is left out. *)
Lemma Ethernet_Checksum16_odd d p (n : nat) : Nat.Even n →
  Ethernet_Checksum16 d p (Z.of_nat (S n)) = Ethernet_Checksum16 d p (Z.of_nat n).
Proof.
  intros [m ->]. unfold Ethernet_Checksum16. rewrite !Z.shiftr_div_pow2 by lia.
  replace (Z.of_nat (S (2 * m)) / 2 ^ 1) with (Z.of_nat (2 * m) / 2 ^ 1); [done|]. change (2 ^ 1) with 2. Z.to_euclidean_division_equations; lia.
Qed.

(** ** Packets as the standards define them *)

(** A message that carries its checksum between [a] and [b]. *)
Definition with_checksum (a b : list Z) : list Z := a ++ be 2 (rfc1071 (a ++ [0; 0] ++ b)) ++ b.
Definition frame (dst src : list Z) (ethertype : Z) (payload : list Z) : list Z := dst ++ src ++ be 2 ethertype ++ payload.
Definition ip_header (len proto : Z) (src dst : list Z) : list Z :=
  with_checksum ([0x45; 0] ++ be 2 (20 + len) ++ [0; 0; 0; 0; 128; proto]) (src ++ dst).
Definition ip_packet (proto : Z) (src dst payload : list Z) : list Z :=
  ip_header (Z.of_nat (length payload)) proto src dst ++ payload.

Definition MAC (a : list Z) : Prop := length a = 6%nat ∧ bytes a.
Definition IP (a : list Z) : Prop := length a = 4%nat ∧ bytes a.

(** ** Steps *)
Lemma net_bind {A B} (m : NetM A) (k : A → NetM B) s a s' : m s = Some (a, s') → (m ≫= k) s = k a s'.
Proof. unfold mbind, NetM_bind. by intros ->. Qed.

Lemma net_bind_none {A B} (m : NetM A) (k : A → NetM B) s : m s = None → (m ≫= k) s = None.
Proof. unfold mbind, NetM_bind. by intros ->. Qed.

Abbreviation in_data s := (FrameData (FrameIN s)).
Abbreviation out_data s := (FrameData (FrameOUT s)).
Definition set_out (d : list Z) (s : net) : net := set_FrameOUT (with_data d (FrameOUT s)) s.
Lemma set_out_out d d' s : set_out d (set_out d' s) = set_out d s.
Proof. done. Qed.
Lemma out_data_set d s : out_data (set_out d s) = d.
Proof. done. Qed.

Lemma in_bytes_mid pre mid post p o n b s : in_data s = pre ++ mid ++ post → length pre = Z.to_nat p → 0 ≤ p →
  rd_bytes mid o n = Some b → in_bytes (p + o) n s = Some (b, s).
Proof. intros E Hp Hp0 H. unfold in_bytes. by rewrite E, (rd_bytes_mid _ _ _ _ _ _ _ Hp Hp0 H). Qed.
Lemma in_le_mid pre mid post p o n b s : in_data s = pre ++ mid ++ post → length pre = Z.to_nat p → 0 ≤ p →
  rd_bytes mid o n = Some b → in_le n (p + o) s = Some (le_value b, s).
Proof. intros E Hp Hp0 H. unfold in_le, rd_le. by rewrite E, (rd_bytes_mid _ _ _ _ _ _ _ Hp Hp0 H). Qed.
Lemma out_assigns_mid pre mid post mid' p ms s : out_data s = pre ++ mid ++ post → length pre = Z.to_nat p → 0 ≤ p →
  assigns 0 mid ms = Some mid' → out_assigns p ms s = Some (tt, set_out (pre ++ mid' ++ post) s).
Proof. intros E Hp Hp0 H. unfold out_assigns, net_update. by rewrite E, (assigns_mid _ _ _ _ _ _ Hp Hp0 H). Qed.
Lemma out_checksum_mid pre l post p s : out_data s = pre ++ l ++ post → length pre = Z.to_nat p → 0 ≤ p →
  bytes l → Nat.Even (length l) → Z.of_nat (length l) < 65536 →
  ∃ c, out_checksum p (Z.of_nat (length l)) s = Some (c, s) ∧ le_store 2 c = be 2 (rfc1071 l).
Proof.
  intros E Hp Hp0 Hb He Hl. destruct (Ethernet_Checksum16_eq pre l post p) as (c & H & Hc); try done.
  exists c. split; [|done]. unfold out_checksum. by rewrite E, H.
Qed.

(** Bit-fields that are all assigned. *)
Lemma bits_version x : byte x → u8 (put_field (le_value [u8 (put_field (le_value [x]) 0 4 5)]) 4 4 4) = 0x45.
Proof.
  intros H. apply Z.eqb_eq. revert x H. apply (byte_forall (λ x, _ =? _)). by vm_compute.
Qed.
Lemma bits_offset x : byte x → u8 (put_field (le_value [u8 (put_field (le_value [x]) 4 4 5)]) 0 4 0) = 0x50.
Proof.
  intros H. apply Z.eqb_eq. revert x H. apply (byte_forall (λ x, _ =? _)). by vm_compute.
Qed.
Lemma bits_fragment x y : byte x → byte y →
  let Y := put_field (le_value [x; y]) 13 3 0 in
  let X := put_field (le_value [u8 Y; u8 (Y >> 8)]) 0 13 0 in u8 X = 0 ∧ u8 (X >> 8) = 0.
Proof.
  intros Hx Hy Y X. subst X. change [u8 Y; u8 (Y >> 8)] with (le_store 2 Y). subst Y. rewrite (le_value_store 2). assert (0 ≤ le_value [x; y] < 2 ^ 16) as Hw by (apply (le_value_bound [x; y]); by repeat (apply Forall_cons; split)).
  set (w := le_value [x; y]) in *. clearbody w.
  assert (put_field (put_field w 13 3 0 mod 256 ^ Z.of_nat 2) 0 13 0 = 0) as ->; [|done].
  change (256 ^ Z.of_nat 2) with (2 ^ 16). rewrite <-Z.land_ones by lia. unfold put_field. rewrite Z.land_0_l, !Z.shiftl_0_l, !Z.lor_0_r.
  apply Z.bits_inj'. intros n Hn. rewrite Z.bits_0, Z.ldiff_spec, Z.land_spec, Z.ldiff_spec. change (Z.ones 13 << 0) with (Z.ones 13).
  rewrite Z.shiftl_spec by lia. destruct (decide (n < 13)).
  { rewrite (Z.ones_spec_low 13) by lia. by rewrite andb_false_r. }
  destruct (decide (n < 16)).
  - rewrite (Z.ones_spec_low 3) by lia. by rewrite andb_false_r.
  - by rewrite (high_bits 16 w) by lia.
Qed.

(** ** The IP header *)
Lemma ip_header_length len proto src dst : IP src → IP dst → length (ip_header len proto src dst) = 20%nat.
Proof. intros [Hs _] [Hd _]. unfold ip_header, with_checksum. rewrite !length_app, !be_length. cbn [length]. lia. Qed.
Lemma ip_header_bytes len proto src dst : byte proto → IP src → IP dst → bytes (ip_header len proto src dst).
Proof.
  intros Hp [_ Hs] [_ Hd]. unfold ip_header, with_checksum.
  solve_bytes.
Qed.

Ltac layout := lazy -[u8 u16 put_field le_value be rfc1071 Z.shiftr SwapEndian_16 SwapEndian_32].

(** The members of the header, before its checksum. *)
Lemma ip_header_fill hdr RetSize proto src dst : length hdr = 20%nat → bytes hdr → IP src → IP dst → 0 ≤ 20 + RetSize < 65536 →
  assigns 0 hdr [Member ip_TotalLength (le_store 2 (SwapEndian_16 (u16 (sizeof_IP_Header + RetSize))));
     Member ip_TypeOfService [0];
     Bits ip_HeaderLength 1 0 4 (sizeof_IP_Header / 4); Bits ip_Version 1 4 4 4;
     Bits ip_Flags 2 13 3 0; Bits ip_FragmentOffset 2 0 13 0;
     Member ip_Identification (le_store 2 0); Member ip_HeaderChecksum (le_store 2 0);
     Member ip_Protocol [proto]; Member ip_TTL [DEFAULT_TTL];
     Member ip_SourceAddress src; Member ip_DestinationAddress dst] =
  Some (([0x45; 0] ++ be 2 (20 + RetSize) ++ [0; 0; 0; 0; 128; proto]) ++ [0; 0] ++ src ++ dst).
Proof.
  intros Hl Hb [Hs _] [Hd _] Hr. elements Hl. elements Hs. elements Hd. unfold bytes in Hb. rewrite !Forall_cons in Hb.
  unfold sizeof_IP_Header. rewrite u16_small, swapped_store_16 by done. rewrite be2.
  match type of Hb with byte ?x0 ∧ _ ∧ _ ∧ _ ∧ _ ∧ _ ∧ byte ?x6 ∧ byte ?x7 ∧ _ =>
    pose proof (bits_version x0) as V; pose proof (bits_fragment x6 x7) as F end.
  destruct F as [F1 F2]; [tauto..|]. generalize (20 + RetSize) as len. intros len. layout. rewrite F1, F2, V by tauto. reflexivity.
Qed.

Lemma ip_header_out_eq pre hdr post p RetSize proto src dst s : out_data s = pre ++ hdr ++ post → length pre = Z.to_nat p → 0 ≤ p →
  length hdr = 20%nat → bytes hdr → byte proto → IP src → IP dst → 0 ≤ 20 + RetSize < 65536 →
  ip_header_out p RetSize proto src dst s = Some (tt, set_out (pre ++ ip_header RetSize proto src dst ++ post) s).
Proof.
  intros E Hp Hp0 Hl Hb Hpr Hs Hd Hr. unfold ip_header_out.
  erewrite net_bind; [|eapply (out_assigns_mid pre); [exact E|done|done|by apply ip_header_fill]].
  set (a := [0x45; 0] ++ be 2 (20 + RetSize) ++ [0; 0; 0; 0; 128; proto]). set (b := src ++ dst).
  assert (length a = 10%nat) as La by done. assert (length (a ++ [0; 0] ++ b) = 20%nat) as L.
  { unfold b. rewrite !length_app, La, (proj1 Hs), (proj1 Hd). done. }
  destruct (out_checksum_mid pre (a ++ [0; 0] ++ b) post p (set_out (pre ++ (a ++ [0; 0] ++ b) ++ post) s)) as (c & Ec & Hc);
    [done|done|done| |by rewrite L; exists 10%nat|rewrite L; lia|].
  { destruct Hs, Hd. unfold a, b. solve_bytes. }
  rewrite L in Ec. erewrite net_bind; [|exact Ec].
  erewrite (out_assigns_mid pre (a ++ [0; 0] ++ b) post); [|done|done|done|by apply assigns_patch].
  unfold ip_header, with_checksum. fold a b. by rewrite Hc, set_out_out.
Qed.

(** ** ARP *)
Definition arp_packet (hw : list Z) (hlen plen op : Z) (sha spa tha tpa : list Z) : list Z :=
  hw ++ be 2 0x0800 ++ [hlen; plen] ++ be 2 op ++ sha ++ spa ++ tha ++ tpa.
(** It asks for the server. *)
Definition asks_server (tha tpa : list Z) : Prop := tpa = ServerIPAddress ∨ tha = ServerMACAddress.

(** Reads a member of a packet whose bytes are explicit: it is [v]. *)
Ltac read_as E v := first
  [ erewrite net_bind; [|eapply (in_le_mid _ _ _ _ _ _ v); [exact E|done|done|reflexivity]]
  | erewrite net_bind; [|eapply (in_bytes_mid _ _ _ _ _ _ v); [exact E|done|done|reflexivity]] ]; cbv beta.

Lemma ARP_eq (p q : Z) prei posti pre mid post hw hlen plen op sha spa tha tpa s :
  in_data s = prei ++ arp_packet hw hlen plen op sha spa tha tpa ++ posti → length prei = Z.to_nat p → 0 ≤ p →
  out_data s = pre ++ mid ++ post → length pre = Z.to_nat q → 0 ≤ q → length mid = 28%nat →
  length hw = 2%nat → MAC sha → IP spa → MAC tha → IP tpa → word16 op →
  ARP_ProcessARPPacket p q s =
    if decide (op = ARP_OPERATION_REQUEST ∧ asks_server tha tpa)
    then Some (28, set_out (pre ++ arp_packet hw hlen plen ARP_OPERATION_REPLY ServerMACAddress ServerIPAddress sha spa ++ post) s)
    else Some (NO_RESPONSE, s).
Proof.
  intros Ei Hp Hp0 Eo Hq Hq0 Hm Hhw [Hsha _] [Hspa _] [Htha _] [Htpa _] Hop.
  elements Hhw. elements Hsha. elements Hspa. elements Htha. elements Htpa.
  match type of Ei with context [arp_packet ?h _ _ _ ?a ?b ?c ?d] => set (hw := h) in *; set (sha := a) in *; set (spa := b) in *;
    set (tha := c) in *; set (tpa := d) in * end.
  unfold ARP_ProcessARPPacket, in16. read_as Ei (be 2 0x0800). read_as Ei (be 2 op).
  rewrite !swap_be_16, (Z.mod_small op), andb_true_l by done.
  destruct (Z.eqb_spec op ARP_OPERATION_REQUEST) as [->|Hne]; [|by rewrite decide_False by tauto].
  read_as Ei tpa. read_as Ei tha. unfold IP_COMPARE, MAC_COMPARE. rewrite <-bool_decide_or.
  case_bool_decide as HP; [|by rewrite decide_False by (intros [_ H]; by apply HP)].
  rewrite decide_True by by split. read_as Ei hw. read_as Ei [hlen]. read_as Ei [plen]. read_as Ei sha. read_as Ei spa. elements Hm.
  rewrite store_of_le, swapped_store_16 by (done || apply be_bytes).
  erewrite net_bind; [|eapply (out_assigns_mid pre); [exact Eo|done|done|reflexivity]]. done.
Qed.

(** ** ICMP *)
(** The part of a message that consists of whole words. *)
Definition even_part (l : list Z) : list Z := take (2 * (length l / 2)) l.
Lemma even_part_even l : Nat.Even (length l) → even_part l = l.
Proof. intros [k H]. unfold even_part. by rewrite H, (Nat.mul_comm 2 k), Nat.div_mul, take_ge by lia. Qed.
Lemma even_part_odd l b : Nat.Even (length l) → even_part (l ++ [b]) = l.
Proof.
  intros [k H]. unfold even_part. rewrite length_app, H. cbn [length]. replace ((2 * k + 1) / 2)%nat with k; [|by rewrite Nat.mul_comm, Nat.div_add_l].
  rewrite <-H. by rewrite take_app_length.
Qed.
Lemma parity (l : list Z) : Nat.Even (length l) ∨ ∃ l' b, l = l' ++ [b] ∧ Nat.Even (length l').
Proof.
  destruct (Nat.Even_or_Odd (length l)) as [H|[k H]]; [by left|right].
  destruct l as [|b l' _] using rev_ind; [cbn in H; lia|]. rewrite length_app in H. cbn in H. exists l', b. split; [done|]. exists k. lia.
Qed.
Lemma even_part_app a l : Nat.Even (length a) → even_part (a ++ l) = a ++ even_part l.
Proof.
  intros [k H]. destruct (parity l) as [[m E]|(l' & b & -> & [m E])].
  - rewrite !even_part_even; [done|by exists m|exists (k + m)%nat; rewrite length_app; lia].
  - rewrite (assoc_L (++)), !even_part_odd; [done|by exists m|exists (k + m)%nat; rewrite length_app; lia].
Qed.
Lemma out_checksum_words pre l post p s : out_data s = pre ++ l ++ post → length pre = Z.to_nat p → 0 ≤ p →
  bytes l → Z.of_nat (length l) < 65536 →
  ∃ c, out_checksum p (Z.of_nat (length l)) s = Some (c, s) ∧ le_store 2 c = be 2 (rfc1071 (even_part l)).
Proof.
  intros E Hp Hp0 Hb Hl. destruct (parity l) as [He|(l' & b & -> & He)].
  - rewrite even_part_even by done. by apply (out_checksum_mid pre l post).
  - rewrite even_part_odd by done. rewrite length_app in *. cbn [length] in *. apply Forall_app in Hb as [Hb _].
    destruct (out_checksum_mid pre l' ([b] ++ post) p s) as (c & Ec & Hc); try done; [by rewrite E, <-!(assoc_L (++))|lia|].
    exists c. split; [|done]. rewrite <-Ec. unfold out_checksum. rewrite Nat.add_1_r. by rewrite Ethernet_Checksum16_odd.
Qed.
Definition echo_request (code c0 c1 : Z) (idseq payload : list Z) : list Z := [8; code; c0; c1] ++ idseq ++ payload.
Definition echo_reply (idseq payload : list Z) : list Z :=
  [0; 0] ++ be 2 (rfc1071 ([0; 0] ++ [0; 0] ++ idseq ++ even_part payload)) ++ idseq ++ payload.

Lemma echo_reply_even idseq payload : Nat.Even (length payload) → echo_reply idseq payload = with_checksum [0; 0] (idseq ++ payload).
Proof. intros H. unfold echo_reply, with_checksum. by rewrite even_part_even. Qed.
Lemma echo_reply_length idseq payload : length idseq = 4%nat → length (echo_reply idseq payload) = (8 + length payload)%nat.
Proof. intros H. unfold echo_reply. rewrite !length_app, be_length, H. done. Qed.

Lemma i16_small x : 0 ≤ x < 32768 → i16 x = x.
Proof. intros H. unfold i16. rewrite u16_small by (unfold word16; lia). by rewrite (proj2 (Z.ltb_lt _ _)) by lia. Qed.

Lemma ICMP_echo (p q : Z) prei posti pre m1 m2 post code c0 c1 idseq payload s :
  in_data s = prei ++ echo_request code c0 c1 idseq payload ++ posti → length prei = Z.to_nat p → 0 ≤ p →
  out_data s = pre ++ (m1 ++ m2) ++ post → length pre = Z.to_nat q → 0 ≤ q → length m1 = 8%nat → length m2 = length payload →
  length idseq = 4%nat → bytes idseq → bytes payload →
  FrameLength (FrameIN s) = p + 8 + Z.of_nat (length payload) → FrameLength (FrameIN s) < 32768 →
  ICMP_ProcessICMPPacket p q s = Some (8 + Z.of_nat (length payload), set_out (pre ++ echo_reply idseq payload ++ post) s).
Proof.
  intros Ei Hp Hp0 Eo Hq Hq0 H1 H2 Hid Bid Bpl Hlen Hmax. unfold ICMP_ProcessICMPPacket, in8. elements Hid.
  unfold echo_request in Ei. rewrite (assoc_L (++) _ _ payload), <-(assoc_L (++) (_ ++ _) payload) in Ei.
  match type of Ei with context [[8; code; c0; c1] ++ [?a; ?b; ?c; ?d]] => read_as Ei [8]; change (_ =? ICMP_TYPE_ECHOREQUEST) with true; cbn iota;
    read_as Ei [a; b]; read_as Ei [c; d]; set (idseq := [a; b; c; d]) in * end.
  rewrite <-(assoc_L (++) m1) in Eo. elements H1.
  erewrite net_bind; [|eapply (out_assigns_mid pre); [exact Eo|done|done|reflexivity]].
  set (hdr := [0; 0; 0; 0] ++ idseq). change (<[_:=_]> _) with hdr.
  unfold net_gets. erewrite net_bind; [|done]. cbv zeta beta.
  change (FrameLength (FrameIN (set_out _ s))) with (FrameLength (FrameIN s)). rewrite Hlen. unfold sizeof_ICMP_Header.
  replace (p + 8 + Z.of_nat (length payload) - (p + 8)) with (Z.of_nat (length payload)) by lia. 
  rewrite !(i16_small (Z.of_nat (length payload))), (i16_small (_ + 8)), !u16_small by (unfold word16; lia).
  replace (p + 8) with (p + 8 + 0) by lia.
  erewrite net_bind; [|apply (in_bytes_mid (prei ++ [8; code; c0; c1] ++ idseq) payload posti (p + 8) 0 _ payload)].
  2: { cbn [in_data set_out set_FrameOUT FrameIN]. by rewrite Ei, <-!(assoc_L (++)). }
  2: { rewrite length_app, Hp. cbn. lia. }
  2: lia.
  2: { rewrite rd_bytes_in by lia. cbn. by rewrite drop_0, Nat2Z.id, take_ge. }
  erewrite net_bind.
  2: { eapply (out_assigns_mid pre (hdr ++ m2 ++ []) post); [by rewrite app_nil_r, <-(assoc_L (++))|done|done|]. by apply assigns_patch. }
  rewrite app_nil_r, set_out_out.
  destruct (out_checksum_words pre (hdr ++ payload) post q (set_out (pre ++ (hdr ++ payload) ++ post) s)) as (c & Ec & Hc); try done.
  { apply Forall_app. split; [|done]. apply Forall_app. split; [solve_bytes|done]. }
  { rewrite length_app. cbn. lia. }
  rewrite length_app, Nat2Z.inj_add, Z.add_comm in Ec. change (Z.of_nat (length hdr)) with 8 in Ec.
  erewrite net_bind; [|exact Ec].
  erewrite net_bind.
  2: { eapply (out_assigns_mid pre ([0; 0] ++ [0; 0] ++ idseq ++ payload) post); [done|done|done|]. by apply assigns_patch. }
  rewrite Hc, even_part_app by (by exists 4%nat). rewrite Z.add_comm. done.
Qed.

(** ** DHCP *)
Inductive dhcp_option := Pad | Opt (code : Z) (data : list Z).
Definition well_formed (o : dhcp_option) : Prop :=
  match o with
  | Pad => True
  | Opt code data => code ≠ DHCP_OPTION_PAD ∧ code ≠ DHCP_OPTION_END ∧ (code = DHCP_OPTION_MESSAGETYPE → data ≠ [])
  end.
Definition encode_option (o : dhcp_option) : list Z :=
  match o with Pad => [DHCP_OPTION_PAD] | Opt code data => [code; Z.of_nat (length data)] ++ data end.
Definition encode_options (os : list dhcp_option) : list Z := concat (map encode_option os) ++ [DHCP_OPTION_END].
(** The first message type option that asks for an address. *)
Fixpoint message_type (os : list dhcp_option) : option Z :=
  match os with
  | [] => None
  | Opt code (t :: _) :: os =>
      if (code =? DHCP_OPTION_MESSAGETYPE) && ((t =? DHCP_MESSAGETYPE_DISCOVER) || (t =? DHCP_MESSAGETYPE_REQUEST)) then Some t
      else message_type os
  | _ :: os => message_type os
  end.

Lemma rd_mid (pre mid post : list Z) p o b : Z.of_nat (length pre) = p → 0 ≤ o → mid !! Z.to_nat o = Some b →
  rd (pre ++ mid ++ post) (p + o) = Some b.
Proof.
  intros Hp Ho H. apply rd_Some. split; [lia|]. rewrite lookup_app_r by lia.
  replace (Z.to_nat (p + o) - length pre)%nat with (Z.to_nat o) by lia. apply lookup_app_l_Some, H.
Qed.
Lemma rd_first (pre mid post : list Z) p b : Z.of_nat (length pre) = p → mid !! O = Some b → rd (pre ++ mid ++ post) p = Some b.
Proof. intros Hp H. rewrite <-(Z.add_0_r p). by apply rd_mid. Qed.

Lemma dhcp_options_eq os : ∀ pre post fuel p, Forall well_formed os → Z.of_nat (length pre) = p → (length os < fuel)%nat →
  dhcp_options fuel (pre ++ encode_options os ++ post) p = Found (message_type os).
Proof.
  induction os as [|o os IH]; intros pre post fuel p Hw Hp Hf; (destruct fuel as [|fuel]; [lia|]); cbn [dhcp_options]; unfold dhcp_pass.
  { by rewrite (rd_first _ _ _ p DHCP_OPTION_END) by done. }
  apply Forall_cons in Hw as [Ho Hw]. unfold encode_options. cbn [map concat]. rewrite <-(assoc_L (++) (encode_option o)). fold (encode_options os).
  rewrite <-(assoc_L (++) (encode_option o)).
  assert (∀ n, n = Z.of_nat (length (encode_option o)) →
    dhcp_options fuel (pre ++ encode_option o ++ encode_options os ++ post) (p + n) = Found (message_type os)) as Next.
  { intros n ->. rewrite (assoc_L (++)). apply IH; [done|rewrite length_app; lia|cbn in Hf; lia]. }
  destruct o as [|code data]; cbn [encode_option message_type] in *.
  { rewrite (rd_first _ _ _ p DHCP_OPTION_PAD) by done. cbn. by apply Next. }
  destruct Ho as (H0 & H255 & H53). rewrite (rd_first _ _ _ p code) by done. cbn [mbind option_bind].
  rewrite (proj2 (Z.eqb_neq code DHCP_OPTION_END)), (proj2 (Z.eqb_neq code DHCP_OPTION_PAD)) by done.
  rewrite (rd_mid _ _ _ p 1 (Z.of_nat (length data))) by (done || lia). cbn [mbind option_bind].
  destruct (Z.eqb_spec code DHCP_OPTION_MESSAGETYPE) as [E53|N53].
  - destruct data as [|t data]; [by specialize (H53 E53)|]. rewrite (rd_mid _ _ _ p 2 t) by (done || lia). cbn [mbind option_bind andb].
    destruct ((t =? DHCP_MESSAGETYPE_DISCOVER) || (t =? DHCP_MESSAGETYPE_REQUEST)); [done|]. apply Next. rewrite length_app. cbn [length]. lia.
  - destruct data as [|t data]; apply Next; rewrite length_app; cbn [length]; lia.
Qed.

(** The loop ends: each pass moves on by a byte at least, so that it leaves the
    array when it does not end within it. *)
Lemma dhcp_pass_moves d p p' : bytes d → dhcp_pass d p = Some (inl p') → p < p' ∧ p < Z.of_nat (length d).
Proof.
  intros Hb. unfold dhcp_pass. destruct (rd d p) as [b0|] eqn:E0; [|done]. cbn [mbind option_bind].
  assert (p < Z.of_nat (length d)) as Hp by (apply rd_Some in E0 as [? E0]; apply lookup_lt_Some in E0; lia).
  destruct (b0 =? DHCP_OPTION_END); [done|].
  match goal with |- context [if b0 =? DHCP_OPTION_MESSAGETYPE then ?a else ?b] =>
    destruct (if b0 =? DHCP_OPTION_MESSAGETYPE then a else b) as [[b2|]|] end; [done| |done]. cbn [mbind option_bind].
  destruct (b0 =? DHCP_OPTION_PAD); cbn [mbind option_bind]; [intros [= <-]; lia|].
  destruct (rd d (p + 1)) as [b1|] eqn:E1; [|done]. cbn [mbind option_bind]. intros [= <-].
  apply rd_Some in E1 as [_ E1]. unfold bytes in Hb. eapply Forall_lookup_1 in E1; [|exact Hb]. unfold byte in E1. lia.
Qed.

Definition passes (d : list Z) : Z → Z → Prop := rtc (λ p p', dhcp_pass d p = Some (inl p')).

Lemma dhcp_search d fuel p : bytes d → 0 ≤ p → (0 < fuel)%nat → Z.of_nat (length d) < p + Z.of_nat fuel →
  match dhcp_options fuel d p with
  | Found r => ∃ p', passes d p p' ∧ dhcp_pass d p' = Some (inr r)
  | Overrun => ∃ p', passes d p p' ∧ dhcp_pass d p' = None
  | Unfinished => False
  end.
Proof.
  intros Hb. revert p. induction fuel as [|fuel IH]; intros p Hp Hf0 Hf; [lia|].
  cbn [dhcp_options]. destruct (dhcp_pass d p) as [[p1|r]|] eqn:E; [|by exists p; split; [constructor|]..].
  apply dhcp_pass_moves in E as Hm; [|done]. specialize (IH p1 ltac:(lia) ltac:(lia) ltac:(lia)).
  destruct (dhcp_options fuel d p1); [| |done]; destruct IH as (p' & H1 & H2); exists p'; (split; [by econstructor|done]).
Qed.

Definition set_in (d : list Z) (s : net) : net := set_FrameIN (with_data d (FrameIN s)) s.
Lemma in_assigns_mid pre mid post mid' p ms s : in_data s = pre ++ mid ++ post → length pre = Z.to_nat p → 0 ≤ p →
  assigns 0 mid ms = Some mid' → in_assigns p ms s = Some (tt, set_in (pre ++ mid' ++ post) s).
Proof. intros E Hp Hp0 H. unfold in_assigns, net_update. by rewrite E, (assigns_mid _ _ _ _ _ _ Hp Hp0 H). Qed.

(** The fixed part of a request, up to the hardware address of the client. *)
Record dhcp_request := DHCP_request {
  dq_op : Z; dq_htype : Z; dq_hlen : Z; dq_hops : Z; dq_xid : list Z; dq_secs : list Z; dq_flags : list Z; dq_ips : list Z; dq_mac : list Z;
  dq_rest : list Z;
  dq_xid_len : length dq_xid = 4%nat; dq_secs_len : length dq_secs = 2%nat; dq_flags_len : length dq_flags = 2%nat;
  dq_ips_len : length dq_ips = 16%nat; dq_mac_len : length dq_mac = 6%nat; dq_rest_len : length dq_rest = 206%nat }.
Definition dhcp_fixed (q : dhcp_request) : list Z :=
  [dq_op q; dq_htype q; dq_hlen q; dq_hops q] ++ dq_xid q ++ dq_secs q ++ dq_flags q ++ dq_ips q ++ dq_mac q.
Definition dhcp_message (q : dhcp_request) (os : list dhcp_option) : list Z := dhcp_fixed q ++ dq_rest q ++ encode_options os.
(** The reply that leases the client's address for a day. *)
Definition dhcp_header_out (q : dhcp_request) : list Z :=
  [2; dq_htype q; dq_hlen q; 0] ++ dq_xid q ++ [0; 0] ++ dq_flags q ++ [0; 0; 0; 0] ++ ClientIPAddress ++ replicate 8 0 ++ dq_mac q ++
  replicate 202 0 ++ be 4 0x63825363.
Definition dhcp_lease (t : Z) : list Z :=
  [53; 1; if t =? DHCP_MESSAGETYPE_DISCOVER then DHCP_MESSAGETYPE_OFFER else DHCP_MESSAGETYPE_ACK] ++ [1; 4; 255; 255; 255; 0] ++
  [51; 4] ++ be 4 86400 ++ [54; 4] ++ ServerIPAddress ++ [255].
Definition dhcp_reply (q : dhcp_request) (t : Z) : list Z := dhcp_header_out q ++ dhcp_lease t.

Lemma dhcp_fixed_length q : length (dhcp_fixed q) = 34%nat.
Proof. destruct q. unfold dhcp_fixed. cbn. rewrite !length_app. lia. Qed.
Lemma dhcp_header_out_length q : length (dhcp_header_out q) = 240%nat.
Proof. destruct q. unfold dhcp_header_out. rewrite !length_app. cbn. lia. Qed.
Lemma encode_options_length os : (length os < length (encode_options os))%nat.
Proof.
  unfold encode_options. rewrite length_app. cbn [length]. assert (length os ≤ length (concat (map encode_option os)))%nat; [|lia].
  induction os as [|o os IH]; cbn [map concat length]; [lia|]. rewrite length_app. destruct o; cbn; lia.
Qed.

(** The assignments to the header of the reply. *)
Lemma dhcp_fill mid q : length mid = 240%nat →
  assigns 0 mid [Member 0 (replicate (Z.to_nat sizeof_DHCP_Header) 0);
     Member dhcp_HardwareType [dq_htype q]; Member dhcp_Operation [DHCP_OP_BOOTREPLY];
     Member dhcp_HardwareAddressLength [dq_hlen q]; Member dhcp_Hops [0];
     Member dhcp_TransactionID (dq_xid q); Member dhcp_ElapsedSeconds (le_store 2 0);
     Member dhcp_Flags (dq_flags q); Member dhcp_YourIP ClientIPAddress;
     Member dhcp_ClientHardwareAddress (dq_mac q);
     Member dhcp_Cookie (le_store 4 (SwapEndian_32 DHCP_MAGIC_COOKIE))] = Some (dhcp_header_out q).
Proof.
  intros Hm. cbn [assigns assign]. change (0 + 0) with 0. rewrite wr_bytes_eq by (rewrite ?Hm; done).
  rewrite drop_ge by (rewrite Hm; done). change (take (Z.to_nat 0) mid) with (@nil Z). rewrite app_nil_r. cbn [mbind option_bind app].
  destruct q as [op ht hl hops xid secs flags ips mac rest Hxid Hsecs Hflags Hips Hmac Hrest]. cbn [dq_htype dq_hlen dq_xid dq_flags dq_mac].
  unfold dhcp_header_out. cbn [dq_htype dq_hlen dq_xid dq_flags dq_mac]. clear Hsecs Hips Hrest.
  elements Hxid. elements Hflags. elements Hmac. vm_compute. reflexivity.
Qed.

Lemma DHCP_eq (pi pd q : Z) a h src dst b posti pre mid m2 post r os s :
  in_data s = a ++ (h ++ src ++ dst) ++ b ++ dhcp_message r os ++ posti → length a = Z.to_nat pi → 0 ≤ pi →
  length h = 12%nat → length src = 4%nat → length dst = 4%nat → Z.of_nat (length (a ++ (h ++ src ++ dst) ++ b)) = pd →
  Forall well_formed os →
  out_data s = pre ++ mid ++ m2 ++ post → length pre = Z.to_nat q → 0 ≤ q → length mid = 240%nat → length m2 = 22%nat →
  DHCP_ProcessDHCPPacket pi pd q s =
    let s' := set_in (a ++ (h ++ ClientIPAddress ++ ServerIPAddress) ++ b ++ dhcp_message r os ++ posti) s in
    match message_type os with
    | Some t => Some (262, set_out (pre ++ dhcp_reply r t ++ post) s')
    | None => Some (NO_RESPONSE, set_out (pre ++ dhcp_header_out r ++ m2 ++ post) s')
    end.
Proof.
  intros Ei Ha Hpi Hh Hs Hd Hpd Hw Eo Hq Hq0 Hm Hm2. unfold DHCP_ProcessDHCPPacket.
  assert (in_data s = (a ++ (h ++ src ++ dst) ++ b) ++ dhcp_fixed r ++ dq_rest r ++ encode_options os ++ posti) as Ei'.
  { rewrite Ei. unfold dhcp_message. by rewrite <-!(assoc_L (++)). }
  assert (length (a ++ (h ++ src ++ dst) ++ b) = Z.to_nat pd) as Hl by lia. assert (0 ≤ pd) as Hpd0 by lia.
  pose proof (dhcp_fill mid r Hm) as Hfill. unfold sizeof_MAC_Address.
  assert (∀ o n v, rd_bytes (dhcp_fixed r) o n = Some v → in_bytes (pd + o) n s = Some (v, s)) as Hrd.
  { intros o n v Hv. by eapply in_bytes_mid. }
  assert (∀ o n v, 0 ≤ o → 0 ≤ n → o + n ≤ 34 → take (Z.to_nat n) (drop (Z.to_nat o) (dhcp_fixed r)) = v → in_bytes (pd + o) n s = Some (v, s)) as Hr.
  { intros o n v Ho Hn Hon <-. apply Hrd, rd_bytes_in; [done|done|]. by rewrite dhcp_fixed_length. }
  assert (take 1 (drop 1 (dhcp_fixed r)) = [dq_htype r] ∧ take 1 (drop 2 (dhcp_fixed r)) = [dq_hlen r] ∧ take 4 (drop 4 (dhcp_fixed r)) = dq_xid r ∧
    take 2 (drop 10 (dhcp_fixed r)) = dq_flags r ∧ take 6 (drop 28 (dhcp_fixed r)) = dq_mac r) as (R1 & R2 & R3 & R4 & R5).
  { clear -r. destruct r as [op ht hl hops xid secs flags ips mac rest Hxid Hsecs Hflags Hips Hmac Hrest]. unfold dhcp_fixed.
    cbn [dq_op dq_htype dq_hlen dq_hops dq_xid dq_secs dq_flags dq_ips dq_mac]. clear Hrest.
    elements Hxid. elements Hsecs. elements Hflags. elements Hips. elements Hmac. done. }
  erewrite net_bind; [|by apply (Hr 1 1 [dq_htype r])]. erewrite net_bind; [|by apply (Hr 2 1 [dq_hlen r])].
  erewrite net_bind; [|by apply (Hr 4 4 (dq_xid r))]. erewrite net_bind; [|by apply (Hr 10 2 (dq_flags r))].
  erewrite net_bind; [|by apply (Hr 28 6 (dq_mac r))].
  erewrite net_bind; [|eapply (out_assigns_mid pre mid (m2 ++ post)); [done|done|done|exact Hfill]].
  erewrite net_bind.
  2: { eapply (in_assigns_mid a (h ++ src ++ dst) (b ++ dhcp_message r os ++ posti) (h ++ ClientIPAddress ++ ServerIPAddress)); [exact Ei|done|done|].
    clear -Hh Hs Hd. elements Hh. elements Hs. elements Hd. reflexivity. }
  unfold net_gets. erewrite net_bind; [|done]. cbv beta. change (in_data (set_in ?d _)) with d.
  set (d' := a ++ (h ++ ClientIPAddress ++ ServerIPAddress) ++ b ++ dhcp_message r os ++ posti).
  assert (d' = (a ++ (h ++ ClientIPAddress ++ ServerIPAddress) ++ b ++ dhcp_fixed r ++ dq_rest r) ++ encode_options os ++ posti) as Ed.
  { unfold d', dhcp_message. by rewrite <-!(assoc_L (++)). }
  assert (dhcp_options (S (length d')) d' (pd + sizeof_DHCP_Header) = Found (message_type os)) as Eo'.
  { rewrite Ed at 2. apply dhcp_options_eq; [done| |].
    - rewrite !length_app in *. rewrite dhcp_fixed_length, dq_rest_len. change (length ClientIPAddress) with 4%nat.
      change (length ServerIPAddress) with 4%nat. unfold sizeof_DHCP_Header. lia.
    - rewrite Ed, !length_app. pose proof (encode_options_length os). lia. }
  unfold net_lift. rewrite Eo'. erewrite net_bind; [|done]. destruct (message_type os) as [t|]; [|done].
  erewrite net_bind; [|eapply (out_assigns_mid pre (dhcp_header_out r ++ m2 ++ []) post)]; [done|by rewrite app_nil_r, <-(assoc_L (++))|done|done|].
  rewrite assigns_patch; [|by rewrite dhcp_header_out_length|done|by rewrite Hm2]. by rewrite app_nil_r.
Qed.

(** ** UDP *)
Definition udp_datagram (sport dport len csum : Z) (payload : list Z) : list Z := be 2 sport ++ be 2 dport ++ be 2 len ++ be 2 csum ++ payload.

Lemma UDP_eq (pi pu q : Z) a h src dst b posti pre mu mid m2 post sport len csum r os t s :
  in_data s = (a ++ (h ++ src ++ dst) ++ b) ++ udp_datagram sport UDP_PORT_DHCP_REQUEST len csum (dhcp_message r os) ++ posti →
  length a = Z.to_nat pi → 0 ≤ pi → length h = 12%nat → length src = 4%nat → length dst = 4%nat →
  length (a ++ (h ++ src ++ dst) ++ b) = Z.to_nat pu → 0 ≤ pu → Forall well_formed os → message_type os = Some t →
  out_data s = pre ++ mu ++ mid ++ m2 ++ post → length pre = Z.to_nat q → 0 ≤ q → length mu = 8%nat → length mid = 240%nat → length m2 = 22%nat →
  UDP_ProcessUDPPacket pi pu q s =
    Some (270, set_out (pre ++ udp_datagram UDP_PORT_DHCP_REQUEST sport 270 0 (dhcp_reply r t) ++ post)
      (set_in ((a ++ (h ++ ClientIPAddress ++ ServerIPAddress) ++ b) ++
               udp_datagram sport UDP_PORT_DHCP_REQUEST len csum (dhcp_message r os) ++ posti) s)).
Proof.
  intros Ei Ha Hpi Hh Hs Hd Hpu Hpu0 Hw Ht Eo Hq Hq0 Hmu Hm Hm2. unfold UDP_ProcessUDPPacket, in16.
  set (u := be 2 sport ++ be 2 UDP_PORT_DHCP_REQUEST ++ be 2 len ++ be 2 csum).
  assert (∀ w, udp_datagram sport UDP_PORT_DHCP_REQUEST len csum w = u ++ w) as Eu by (intros w; unfold udp_datagram, u; by rewrite <-!(assoc_L (++))).
  rewrite Eu in Ei. rewrite Eu. rewrite <-(assoc_L (++) u) in Ei. rewrite <-(assoc_L (++) u).
  read_as Ei (be 2 UDP_PORT_DHCP_REQUEST). rewrite swap_be_16. change (_ =? UDP_PORT_DHCP_REQUEST) with true. cbn iota.
  rewrite store_of_le by (apply be_bytes || done).
  set (s' := set_in ((a ++ (h ++ ClientIPAddress ++ ServerIPAddress) ++ b) ++ u ++ dhcp_message r os ++ posti) s).
  assert (in_data s' = (a ++ (h ++ ClientIPAddress ++ ServerIPAddress) ++ b) ++ u ++ dhcp_message r os ++ posti) as Ei' by done.
  assert (length (a ++ (h ++ ClientIPAddress ++ ServerIPAddress) ++ b) = Z.to_nat pu) as Hpu'.
  { rewrite !length_app in *. change (length ClientIPAddress) with 4%nat. change (length ServerIPAddress) with 4%nat. lia. }
  erewrite net_bind.
  2: { rewrite (DHCP_eq pi (pu + sizeof_UDP_Header) (q + sizeof_UDP_Header) a h src dst (b ++ u) posti (pre ++ mu) mid m2 post r os s); [|try done..].
    - rewrite Ht. cbv zeta. reflexivity.
    - rewrite Ei. by rewrite <-!(assoc_L (++)).
    - rewrite !length_app in *. unfold sizeof_UDP_Header. cbn. lia.
    - by rewrite Eo, <-!(assoc_L (++)).
    - rewrite length_app, Hq, Hmu. unfold sizeof_UDP_Header. lia.
    - unfold sizeof_UDP_Header. lia. }
  replace (a ++ (h ++ ClientIPAddress ++ ServerIPAddress) ++ (b ++ u) ++ dhcp_message r os ++ posti)
    with ((a ++ (h ++ ClientIPAddress ++ ServerIPAddress) ++ b) ++ u ++ dhcp_message r os ++ posti) by by rewrite <-!(assoc_L (++)).
  fold s'. change (262 >? 0) with true. cbn iota.
  read_as Ei' (be 2 sport).
  erewrite net_bind.
  2: { eapply (out_assigns_mid pre mu (dhcp_reply r t ++ post) (be 2 UDP_PORT_DHCP_REQUEST ++ be 2 sport ++ be 2 270 ++ be 2 0)); [|done|done|].
    - cbn [out_data set_out set_FrameOUT with_data FrameOUT FrameData]. by rewrite <-!(assoc_L (++)).
    - clear -Hmu. elements Hmu. reflexivity. }
  rewrite set_out_out. unfold udp_datagram. rewrite <-!(assoc_L (++)). done.
Qed.
