(* ===== verification/TcpSpec.v ===== *)
(** * The network stack: lemmas on TCP

    The tables of TCP.c as finite maps, the segment checksum against RFC 1071 and
    the pseudo header of RFC 793, and the reaction to each packet. *)
From stdpp Require Import gmap.
From S2P Require Import Prelude Packed Net Tcp NetSpec.

(** ** The first entry of a table *)
Lemma first_entry_Some {A} (f : A → bool) t k : first_entry f t = Some k ↔
  (∃ x, t !! k = Some x ∧ f x = true) ∧ ∀ j x, (j < k)%nat → t !! j = Some x → f x = false.
Proof.
  revert k. induction t as [|y t IH]; intros k; cbn [first_entry].
  { split; [done|]. intros [(x & Hx & _) _]. by rewrite lookup_nil in Hx. }
  destruct (f y) eqn:Ef.
  - split.
    + intros [= <-]. split; [by exists y|]. intros j x Hj. lia.
    + intros [(x & Hx & Hf) Hmin]. destruct k as [|k]; [done|]. specialize (Hmin O y). rewrite Ef in Hmin. by discriminate Hmin; [lia|].
  - rewrite fmap_Some. split.
    + intros (k' & [(x & Hx & Hf) Hmin]%IH & ->). split; [by exists x|]. intros [|j] x' Hj Hx'; cbn in Hx'; [by simplify_eq|].
      apply (Hmin j); [lia|done].
    + intros [(x & Hx & Hf) Hmin]. destruct k as [|k]; cbn in Hx; [congruence|]. exists k. split; [|done]. apply IH.
      split; [by exists x|]. intros j x' Hj Hx'. apply (Hmin (S j)); [lia|done].
Qed.
Lemma first_entry_None {A} (f : A → bool) t : first_entry f t = None ↔ Forall (λ x, f x = false) t.
Proof.
  induction t as [|y t IH]; cbn [first_entry]; [done|]. rewrite Forall_cons. destruct (f y) eqn:Ef; [split; [done|by intros [? _]]|].
  rewrite fmap_None, IH. tauto.
Qed.

(** ** The connections as a finite map *)
Abbreviation key := (Z * list Z * Z)%type.
Definition key_of (c : TCP_ConnectionState_t) : key := (C_Port c, C_RemoteAddress c, C_RemotePort c).
Definition is_active (c : TCP_ConnectionState_t) : Prop := C_State c ≠ TCP_Connection_Closed.
#[export] Instance is_active_dec c : Decision (is_active c).
Proof. unfold is_active. apply _. Defined.

(** The connections that are not closed, with their states. *)
Definition active (t : list TCP_ConnectionState_t) : gmap key Z := list_to_map (map (λ c, (key_of c, C_State c)) (filter is_active t)).

(** Every entry of the table that has been used has a key of its own. *)
Record table_ok (t : list TCP_ConnectionState_t) : Prop := {
  tk_len : length t = MAX_TCP_CONNECTIONS;
  tk_keys i j c d : t !! i = Some c → t !! j = Some d → key_of c = key_of d → C_Port c ≠ 0 → i = j;
  tk_used i c : t !! i = Some c → is_active c → C_Port c ≠ 0 }.

Lemma is_connection_key p a r c : is_connection p a r c = true ↔ key_of c = (p, a, r).
Proof.
  unfold is_connection, IP_COMPARE, key_of. rewrite !andb_true_iff, !Z.eqb_eq, bool_decide_eq_true. split; [by intros [[-> ->] ->]|by intros [= -> -> ->]].
Qed.

Lemma active_nodup t : table_ok t → NoDup (map (λ c, (key_of c, C_State c)) (filter is_active t)).*1.
Proof.
  intros [_ Hk Hu]. rewrite <-list_fmap_compose. change (fst ∘ _) with key_of. clear -Hk Hu. induction t as [|c t IH]; [constructor|].
  assert (NoDup (key_of <$> filter is_active t)) as HN.
  { apply IH. - intros i j x y Hi Hj E Hp. by injection (Hk (S i) (S j) x y Hi Hj E Hp). - intros i x Hx. by apply (Hu (S i)). }
  rewrite filter_cons. case_decide as Ha; [|done]. cbn. constructor; [|done]. intros (d & E & [_ Hd]%list_elem_of_filter)%list_elem_of_fmap.
  apply list_elem_of_lookup in Hd as [j Hj]. specialize (Hk O (S j) c d eq_refl Hj E (Hu O c eq_refl Ha)). discriminate Hk.
Qed.

Lemma active_lookup t k st : table_ok t →
  active t !! k = Some st ↔ ∃ i c, t !! i = Some c ∧ key_of c = k ∧ C_State c = st ∧ st ≠ TCP_Connection_Closed.
Proof.
  intros Ht. unfold active. rewrite <-elem_of_list_to_map by by apply active_nodup.
  change (map ?f ?l) with (f <$> l). rewrite list_elem_of_fmap. setoid_rewrite list_elem_of_filter. setoid_rewrite list_elem_of_lookup. unfold is_active. split.
  - intros (c & [= -> ->] & Hc & i & Hi). by exists i, c.
  - intros (i & c & Hi & <- & <- & Hc). exists c. eauto.
Qed.
Lemma active_size t : table_ok t → size (active t) = length (filter is_active t).
Proof. intros Ht. unfold active. rewrite map_size_list_to_map by by apply active_nodup. apply length_map. Qed.

(** The state the program sees is the state in the map. *)
Lemma get_state_active t s p a r : table_ok t → ConnectionStateTable s = t → p ≠ 0 →
  TCP_GetConnectionState p a r s = Some (default TCP_Connection_Closed (active t !! (p, a, r)), s).
Proof.
  intros Ht Es Hp. unfold TCP_GetConnectionState. rewrite Es. do 2 f_equal.
  destruct (first_entry _ t) as [k|] eqn:Ek.
  - apply first_entry_Some in Ek as [(c & Hc & Hk) _]. apply is_connection_key in Hk. rewrite Hc.
    destruct (decide (C_State c = TCP_Connection_Closed)) as [E|E].
    + destruct (active t !! _) as [st|] eqn:Est; [|by rewrite E]. exfalso. apply active_lookup in Est as (i & d & Hi & Kd & Sd & Nd); [|done].
      assert (i = k) as -> by (apply (tk_keys t Ht i k d c Hi Hc); [congruence|unfold key_of in Kd; by simplify_eq]). simplify_eq.
    + rewrite (proj2 (active_lookup t (p, a, r) (C_State c) Ht)); [done|]. by exists k, c.
  - apply first_entry_None in Ek. destruct (active t !! _) as [st|] eqn:Est; [|done]. exfalso.
    apply active_lookup in Est as (i & d & Hi & Kd & _); [|done]. eapply Forall_lookup_1 in Ek; [|exact Hi].
    apply is_connection_key in Kd. by rewrite Kd in Ek.
Qed.

Lemma alter_insert {A} (f : A → A) i (t : list A) c : t !! i = Some c → alter f i t = <[i := f c]> t.
Proof.
  intros H. apply list_eq. intros j. destruct (decide (j = i)) as [->|Hne].
  - rewrite list_lookup_alter_eq, list_lookup_insert_eq, H by (eapply lookup_lt_Some; done). done.
  - by rewrite list_lookup_alter_ne, list_lookup_insert_ne by done.
Qed.

(** An entry is given a key that no other has; it had that key or was closed. *)
Lemma connections_insert t i c c' : table_ok t → t !! i = Some c → C_Port c' ≠ 0 →
  (∀ j d, t !! j = Some d → key_of d = key_of c' → j = i) → key_of c = key_of c' ∨ C_State c = TCP_Connection_Closed →
  table_ok (<[i := c']> t) ∧ active (<[i := c']> t) =
    if decide (C_State c' = TCP_Connection_Closed) then delete (key_of c') (active t) else <[key_of c' := C_State c']> (active t).
Proof.
  intros Ht Hi Hp Hu Hc. assert (i < length t)%nat as Hlt by by eapply lookup_lt_Some. assert (table_ok (<[i := c']> t)) as Ht'.
  { destruct Ht as [Hl Hk Ha]. split.
    - by rewrite length_insert.
    - intros j l d e Hj He E Hpd. apply list_lookup_insert_Some in Hj, He.
      destruct Hj as [(<- & <- & _)|[Nj Hj]], He as [(<- & <- & _)|[Nl He]]; [done| | |by eapply Hk].
      + symmetry. by eapply Hu.
      + by eapply Hu.
    - intros j d Hj Hd. apply list_lookup_insert_Some in Hj as [(<- & <- & _)|[_ Hj]]; [done|by eapply Ha]. }
  split; [done|]. apply map_eq. intros k. apply option_eq. intros st. rewrite active_lookup by done.
  assert (k ≠ key_of c' → (∃ j d, <[i := c']> t !! j = Some d ∧ key_of d = k ∧ C_State d = st ∧ st ≠ TCP_Connection_Closed) ↔ active t !! k = Some st) as Hother.
  { intros Hne. rewrite active_lookup by done. split; intros (j & d & Hj & Kd & Sd & Nd); exists j, d; split_and!; try done.
    - apply list_lookup_insert_Some in Hj as [(<- & <- & _)|[_ Hj]]; [congruence|done].
    - rewrite list_lookup_insert_ne; [done|]. intros <-. simplify_eq. destruct Hc; congruence. }
  assert ((∃ j d, <[i := c']> t !! j = Some d ∧ key_of d = key_of c' ∧ C_State d = st ∧ st ≠ TCP_Connection_Closed) ↔
    C_State c' = st ∧ st ≠ TCP_Connection_Closed) as Hsame.
  { split.
    - intros (j & d & Hj & Kd & Sd & Nd). apply list_lookup_insert_Some in Hj as [(<- & <- & _)|[Nj Hj]]; [done|]. by specialize (Hu j d Hj Kd).
    - intros [<- ?]. exists i, c'. by rewrite list_lookup_insert_eq. }
  destruct (decide (k = key_of c')) as [->|Hne]; [rewrite Hsame|rewrite Hother by done]; case_decide as D.
  - rewrite lookup_delete_eq. split; [intros [<- ?]; done|done].
  - rewrite lookup_insert_eq. split; [by intros [-> _]|intros [= <-]; done].
  - by rewrite lookup_delete_ne.
  - by rewrite lookup_insert_ne.
Qed.

(** A closed entry leaves room. *)
Lemma active_room t i c : table_ok t → t !! i = Some c → ¬ is_active c → (size (active t) < MAX_TCP_CONNECTIONS)%nat.
Proof.
  intros Ht Hi Hc. rewrite active_size, <-(tk_len t Ht) by done. clear Ht. revert i Hi. induction t as [|d t IH]; intros i Hi; [done|].
  rewrite filter_cons. pose proof (length_filter is_active t). destruct i as [|i]; cbn in Hi.
  - simplify_eq. rewrite decide_False by done. cbn. lia.
  - specialize (IH i Hi). case_decide; cbn; lia.
Qed.
Lemma active_full t : table_ok t → Forall is_active t → size (active t) = MAX_TCP_CONNECTIONS.
Proof.
  intros Ht Ha. rewrite active_size, <-(tk_len t Ht) by done. f_equal. clear Ht. induction Ha as [|c t Hc _ IH]; [done|].
  rewrite filter_cons, decide_True by done. by rewrite IH.
Qed.

(** [TCP_SetConnectionState] is the update of a map of bounded size. *)
Definition room (m : gmap key Z) (k : key) : Prop := is_Some (m !! k) ∨ (size m < MAX_TCP_CONNECTIONS)%nat.
#[export] Instance room_dec m k : Decision (room m k).
Proof. unfold room. apply _. Defined.
Definition put_state (m : gmap key Z) (k : key) (st : Z) : gmap key Z :=
  if decide (st = TCP_Connection_Closed) then delete k m else <[k := st]> m.

Lemma set_state_active t s p a r st : table_ok t → ConnectionStateTable s = t → p ≠ 0 →
  if decide (room (active t) (p, a, r)) then
    ∃ t', TCP_SetConnectionState p a r st s = Some (true, set_ConnectionStateTable t' s) ∧ table_ok t' ∧ active t' = put_state (active t) (p, a, r) st
  else TCP_SetConnectionState p a r st s = Some (false, s).
Proof.
  intros Ht Es Hp. unfold TCP_SetConnectionState, put_state. rewrite Es. destruct (first_entry (is_connection p a r) t) as [i|] eqn:Ei.
  - apply first_entry_Some in Ei as [(c & Hc & Hk) _]. apply is_connection_key in Hk.
    assert (room (active t) (p, a, r)) as Hr.
    { destruct (decide (is_active c)) as [Ha|Ha]; [left|right; by eapply active_room].
      exists (C_State c). apply active_lookup; [done|]. by exists i, c. }
    rewrite decide_True by done. rewrite (alter_insert _ _ _ c) by done. eexists. split; [done|].
    destruct (connections_insert t i c (set_C_State st c)) as [H1 H2]; try done.
    + cbn. unfold key_of in Hk. by simplify_eq.
    + intros j d Hj Kd. change (key_of (set_C_State st c)) with (key_of c) in Kd. eapply (tk_keys t Ht j i d c); try done. unfold key_of in *. congruence.
    + by left.
    + split; [done|]. rewrite H2. change (key_of (set_C_State st c)) with (key_of c). rewrite Hk. done.
  - pose proof (proj1 (first_entry_None _ _) Ei) as Hno. destruct (first_entry (λ c, _) t) as [i|] eqn:Ej.
    + apply first_entry_Some in Ej as [(c & Hc & Hcl) _]. apply Z.eqb_eq in Hcl.
      rewrite decide_True by (right; eapply active_room; [done|done|by intros []]). rewrite (alter_insert _ _ _ c) by done. eexists. split; [done|].
      destruct (connections_insert t i c (TCP_ConnectionState p r a (C_Info c) st)) as [H1 H2]; try done; [|by right].
      intros j d Hj Kd. exfalso. eapply Forall_lookup_1 in Hno; [|exact Hj]. apply (is_connection_key p a r d) in Kd. by rewrite Kd in Hno.
    + rewrite decide_False; [done|]. apply first_entry_None in Ej. intros [[st' H]|H].
      * apply active_lookup in H as (j & d & Hj & Kd & _); [|done]. eapply Forall_lookup_1 in Hno; [|exact Hj].
        apply is_connection_key in Kd. by rewrite Kd in Hno.
      * rewrite active_full in H; [lia|done|]. eapply Forall_impl; [exact Ej|]. intros c Hc%Z.eqb_neq. done.
Qed.

(** ** Segments *)

(** The pseudo header of RFC 793. *)
Definition pseudo (src dst : list Z) (len : Z) : list Z := src ++ dst ++ [0; PROTOCOL_TCP] ++ be 2 len.
Lemma pseudo_length src dst len : IP src → IP dst → length (pseudo src dst len) = 12%nat.
Proof. intros [Hs _] [Hd _]. unfold pseudo. rewrite !length_app, be_length. cbn. lia. Qed.

(** An odd byte counts as if a zero followed it. *)
Lemma rfc1071_pad a b : Nat.Even (length a) → rfc1071 (a ++ [b]) = rfc1071 (a ++ [b; 0]).
Proof. intros H. unfold rfc1071, ones_sum. rewrite !words_app by done. cbn [words]. by rewrite Z.add_0_r. Qed.

Lemma foldl_words ws c : 0 ≤ c → Forall word16 ws → c + 65535 * Z.of_nat (length ws) < 2 ^ 32 → foldl (λ c w, u32 (c + w)) c ws = c + total ws.
Proof.
  revert c. induction ws as [|w ws IH]; intros c Hc Hw Hlt; cbn [foldl total foldr length] in *; [lia|].
  apply Forall_cons in Hw as [Hw Hws]. unfold word16 in Hw. unfold u32 at 2. rewrite Z.mod_small by lia. rewrite IH by (done || lia).
  fold (total ws). lia.
Qed.
Lemma pseudo_sum src dst len : IP src → IP dst → word16 len →
  ∃ a0 a1 a2 a3, rd_le 2 src 0 = Some a0 ∧ rd_le 2 src 2 = Some a1 ∧ rd_le 2 dst 0 = Some a2 ∧ rd_le 2 dst 2 = Some a3 ∧
    foldl (λ c w, u32 (c + w)) 0 [a0; a1; a2; a3; SwapEndian_16 PROTOCOL_TCP; SwapEndian_16 len] = total (le_words (pseudo src dst len)).
Proof.
  intros [Hs Bs] [Hd Bd] Hl. elements Hs. elements Hd. do 4 eexists. do 4 (split; [reflexivity|]).
  unfold pseudo. rewrite be2. change (SwapEndian_16 PROTOCOL_TCP) with 1536.
  assert (SwapEndian_16 len = u8 (len >> 8) + 256 * u8 len) as -> by (unfold SwapEndian_16; cbn [le_store rev app le_value foldr]; lia).
  pose proof (u8_byte len). pose proof (u8_byte (len >> 8)). generalize dependent (u8 len). generalize dependent (u8 (len >> 8)). intros hi Hhi lo Hlo.
  unfold bytes in *. rewrite !Forall_cons in *. unfold byte in *.
  change (Z.to_nat 2) with 2%nat. change (Z.to_nat 0) with 0%nat. cbn [take drop foldr le_value app le_words].
  rewrite foldl_words; [|lia| |cbn; lia].
  - unfold PROTOCOL_TCP. cbn [total foldr]. lia.
  - repeat (apply Forall_cons; split); unfold word16; try lia. constructor.
Qed.

Lemma TCP_Checksum16_eq pre l post p src dst : IP src → IP dst → bytes l → Z.of_nat (length l) < 65536 → length pre = Z.to_nat p → 0 ≤ p → post ≠ [] →
  bytes post →
  ∃ c, TCP_Checksum16 (pre ++ l ++ post) p src dst (Z.of_nat (length l)) = Some c ∧
    le_store 2 c = be 2 (rfc1071 (pseudo src dst (Z.of_nat (length l)) ++ l)).
Proof.
  intros Hs Hd Hb Hlen Hpre Hp Hpost Hbp. destruct (pseudo_sum src dst (Z.of_nat (length l))) as (a0 & a1 & a2 & a3 & E0 & E1 & E2 & E3 & Ec); [done|done|unfold word16; lia|].
  unfold TCP_Checksum16. rewrite E0, E1, E2, E3. cbn [mbind option_bind]. cbv zeta. rewrite Ec.
  set (ps := pseudo src dst (Z.of_nat (length l))). assert (Nat.Even (length ps)) as Hev by (unfold ps; rewrite pseudo_length by done; by exists 6%nat).
  assert (bytes ps) as Hps by (destruct Hs, Hd; unfold ps, pseudo, PROTOCOL_TCP; solve_bytes).
  pose proof (le_words_range ps Hps) as Hr. unfold ps in Hr at 3. rewrite pseudo_length in Hr by done. change (Z.of_nat 12 / 2) with 6 in Hr.
  rewrite Z.shiftr_div_pow2 by lia. change (2 ^ 1) with 2.
  assert (Z.of_nat (length l) / 2 ≤ 32768) by (apply Z.div_le_upper_bound; lia). change (2 ^ 32) with 4294967296 in *.
  destruct (parity l) as [He|(l' & b & -> & He)].
  - rewrite sum_words_eq by (done || lia). cbn [mbind option_bind].
    assert (tst (Z.of_nat (length l)) 1 = false) as ->.
    { destruct He as [k ->]. unfold tst. change 1 with (Z.ones 1). rewrite Z.land_ones by lia. rewrite Nat2Z.inj_mul, Z.mul_comm, Z.mod_mul by lia. done. }
    cbn [mbind option_bind]. rewrite <-total_app, <-le_words_app by done. pose proof (le_words_range l Hb).
    apply finish_checksum; [by apply Forall_app|rewrite length_app; by apply Nat.Even_Even_add|]. rewrite le_words_app, total_app by done. lia.
  - rewrite length_app in *. cbn [length] in *. apply Forall_app in Hb as [Hb Hbb]. apply Forall_cons in Hbb as [Hbb _]. unfold byte in Hbb.
    replace (Z.of_nat (length l' + 1) / 2) with (Z.of_nat (length l') / 2) in *
      by (destruct He as [k ->]; Z.to_euclidean_division_equations; lia).
    replace (pre ++ (l' ++ [b]) ++ post) with (pre ++ l' ++ [b] ++ post) by by rewrite <-!(assoc_L (++)).
    rewrite sum_words_eq by (done || lia). cbn [mbind option_bind].
    assert (tst (Z.of_nat (length l' + 1)) 1 = true) as ->.
    { destruct He as [k ->]. unfold tst. change 1 with (Z.ones 1). rewrite Z.land_ones by lia.
      replace (Z.of_nat (2 * k + 1)) with (1 + Z.of_nat k * 2) by lia. change (2 ^ 1) with 2. by rewrite Z.mod_add by lia. }
    destruct post as [|x post]; [done|]. apply Forall_cons in Hbp as [Hbx _]. unfold byte in Hbx.
    replace (2 * (Z.of_nat (length l') / 2)) with (Z.of_nat (length l')) by (destruct He as [k ->]; Z.to_euclidean_division_equations; lia).
    assert (rd_le 2 (pre ++ l' ++ [b] ++ x :: post) (p + Z.of_nat (length l')) = Some (b + 256 * x)) as ->.
    { unfold rd_le. rewrite <-(Z.add_0_r (p + _)), (assoc_L (++) pre l'), (rd_bytes_mid (pre ++ l') [b; x] post 0 2 [b; x]); [|rewrite length_app; lia|lia|done].
      cbn. f_equal. lia. }
    cbn [mbind option_bind]. assert ((b + 256 * x) .& 255 = b) as ->.
    { change 255 with (Z.ones 8). rewrite Z.land_ones, Z.mul_comm by lia. change (2 ^ 8) with 256. by rewrite Z.mod_add, Z.mod_small by lia. }
    pose proof (le_words_range l' Hb). unfold u32. rewrite Z.mod_small by lia.
    assert (total (le_words ps) + total (le_words l') + b = total (le_words ((ps ++ l') ++ [b; 0]))) as E.
    { rewrite !le_words_app, !total_app by (rewrite ?length_app; first [done|by apply Nat.Even_Even_add]). cbn. lia. }
    rewrite E, (assoc_L (++) ps l'), rfc1071_pad by (rewrite length_app; by apply Nat.Even_Even_add).
    apply finish_checksum; [|rewrite !length_app; repeat apply Nat.Even_Even_add; try done; by exists 1%nat|rewrite <-E; change (2 ^ 32) with 4294967296; lia].
    apply Forall_app. split; [by apply Forall_app|]. solve_bytes.
Qed.

Definition tcp_header (sp dp : list Z) (seq ack flags win : Z) (csum : list Z) : list Z :=
  sp ++ dp ++ be 4 seq ++ be 4 ack ++ [0x50; flags] ++ be 2 win ++ csum ++ [0; 0].
(** A segment from [src], port [sp], to [dst], port [dp]. *)
Definition tcp_segment (src dst sp dp : list Z) (seq ack flags win : Z) (payload : list Z) : list Z :=
  let h := tcp_header sp dp seq ack flags win in
  h (be 2 (rfc1071 (pseudo src dst (20 + Z.of_nat (length payload)) ++ h [0; 0] ++ payload))) ++ payload.

Definition Port (p : list Z) : Prop := length p = 2%nat ∧ bytes p.

Lemma tcp_header_length sp dp seq ack flags win csum : Port sp → Port dp → length csum = 2%nat →
  length (tcp_header sp dp seq ack flags win csum) = 20%nat.
Proof. intros [Hs _] [Hd _] Hc. unfold tcp_header. rewrite !length_app, !be_length, Hs, Hd, Hc. done. Qed.
Lemma tcp_header_bytes sp dp seq ack flags win csum : Port sp → Port dp → byte flags → bytes csum →
  bytes (tcp_header sp dp seq ack flags win csum).
Proof. intros [_ Hs] [_ Hd] Hf Hc. unfold tcp_header. solve_bytes. Qed.

Lemma be4 v : be 4 v = [u8 (v >> 8 >> 8 >> 8); u8 (v >> 8 >> 8); u8 (v >> 8); u8 v].
Proof. reflexivity. Qed.

(** The assignments to the header of a response, whose flags are there. *)
Lemma tcp_fill hdr f sp dp seq ack win : length hdr = 20%nat → bytes hdr → hdr !! 13%nat = Some f → length sp = 2%nat → length dp = 2%nat →
  assigns 0 hdr
    [Member tcp_SourcePort sp; Member tcp_DestinationPort dp;
     Member tcp_SequenceNumber (le_store 4 (SwapEndian_32 seq)); Member tcp_AcknowledgmentNumber (le_store 4 (SwapEndian_32 ack));
     Bits tcp_DataOffset 1 4 4 (sizeof_TCP_Header / 4);
     Member tcp_WindowSize (le_store 2 (SwapEndian_16 win));
     Member tcp_UrgentPointer (le_store 2 0); Member tcp_Checksum (le_store 2 0); Bits tcp_Reserved 1 0 4 0] =
  Some (tcp_header sp dp seq ack f win [0; 0]).
Proof.
  intros Hl Hb Hf Hs Hd. elements Hl. elements Hs. elements Hd. unfold bytes in Hb. rewrite !Forall_cons in Hb. injection Hf as ->.
  rewrite !swapped_store_32, swapped_store_16. unfold tcp_header. rewrite be2, !be4.
  match type of Hb with byte _ ∧ byte _ ∧ byte _ ∧ byte _ ∧ byte _ ∧ byte _ ∧ byte _ ∧ byte _ ∧ byte _ ∧ byte _ ∧ byte _ ∧ byte _ ∧ byte ?x ∧ _ =>
    pose proof (bits_offset x) as V end.
  layout. rewrite V by tauto. reflexivity.
Qed.
(** The same with the flags assigned. *)
Lemma tcp_fill_send hdr f sp dp seq ack win : length hdr = 20%nat → bytes hdr → length sp = 2%nat → length dp = 2%nat →
  assigns 0 hdr
    [Member tcp_SourcePort sp; Member tcp_DestinationPort dp;
     Member tcp_SequenceNumber (le_store 4 (SwapEndian_32 seq)); Member tcp_AcknowledgmentNumber (le_store 4 (SwapEndian_32 ack));
     Bits tcp_DataOffset 1 4 4 (sizeof_TCP_Header / 4);
     Member tcp_WindowSize (le_store 2 (SwapEndian_16 win)); Member tcp_Flags [f];
     Member tcp_UrgentPointer (le_store 2 0); Member tcp_Checksum (le_store 2 0); Bits tcp_Reserved 1 0 4 0] =
  Some (tcp_header sp dp seq ack f win [0; 0]).
Proof.
  intros Hl Hb Hs Hd. elements Hl. elements Hs. elements Hd. unfold bytes in Hb. rewrite !Forall_cons in Hb.
  rewrite !swapped_store_32, swapped_store_16. unfold tcp_header. rewrite be2, !be4.
  match type of Hb with byte _ ∧ byte _ ∧ byte _ ∧ byte _ ∧ byte _ ∧ byte _ ∧ byte _ ∧ byte _ ∧ byte _ ∧ byte _ ∧ byte _ ∧ byte _ ∧ byte ?x ∧ _ =>
    pose proof (bits_offset x) as V end.
  layout. rewrite V by tauto. reflexivity.
Qed.

(** The checksum is computed and put into the header. *)
Lemma tcp_checksum_out pre post p src dst sp dp seq ack f win payload s :
  out_data s = pre ++ (tcp_header sp dp seq ack f win [0; 0] ++ payload) ++ post → length pre = Z.to_nat p → 0 ≤ p → post ≠ [] → bytes post →
  IP src → IP dst → Port sp → Port dp → byte f → bytes payload → 20 + Z.of_nat (length payload) < 65536 →
  ∃ c, out_tcp_checksum p src dst (20 + Z.of_nat (length payload)) s = Some (c, s) ∧
    out_assigns p [Member tcp_Checksum (le_store 2 c)] s =
      Some (tt, set_out (pre ++ tcp_segment src dst sp dp seq ack f win payload ++ post) s).
Proof.
  intros Eo Hp Hp0 Hne Hpost Hs Hd Hsp Hdp Hf Hb Hl. set (l := tcp_header sp dp seq ack f win [0; 0] ++ payload) in *.
  assert (length l = (20 + length payload)%nat) as Ll by (unfold l; by rewrite length_app, tcp_header_length).
  destruct (TCP_Checksum16_eq pre l post p src dst) as (c & Ec & Hc); try done; [|lia|].
  { apply Forall_app. split; [apply tcp_header_bytes; try done; solve_bytes|done]. }
  replace (Z.of_nat (length l)) with (20 + Z.of_nat (length payload)) in * by lia.
  exists c. unfold out_tcp_checksum. rewrite Eo, Ec. split; [done|].
  eapply (out_assigns_mid pre l post); [done|done|done|]. unfold tcp_segment. cbv zeta. fold l. rewrite Hc.
  set (cs := be 2 _). unfold l, tcp_header.
  set (a := sp ++ dp ++ be 4 seq ++ be 4 ack ++ [0x50; f] ++ be 2 win).
  replace ((sp ++ dp ++ be 4 seq ++ be 4 ack ++ [0x50; f] ++ be 2 win ++ [0; 0] ++ [0; 0]) ++ payload) with (a ++ [0; 0] ++ [0; 0] ++ payload)
    by (unfold a; by rewrite <-!(assoc_L (++))).
  replace ((sp ++ dp ++ be 4 seq ++ be 4 ack ++ [0x50; f] ++ be 2 win ++ cs ++ [0; 0]) ++ payload) with (a ++ cs ++ [0; 0] ++ payload)
    by (unfold a; by rewrite <-!(assoc_L (++))).
  apply assigns_patch; [|done|done]. unfold a. rewrite !length_app, !be_length, (proj1 Hsp), (proj1 Hdp). done.
Qed.

(** ** The connection of a packet *)
Definition put (k : nat) (c : TCP_ConnectionState_t) (s : net) : net :=
  set_ConnectionStateTable (<[k := c]> (ConnectionStateTable s)) s.
Lemma put_put k c c' s : put k c (put k c' s) = put k c s.
Proof. unfold put, set_ConnectionStateTable. cbn. by rewrite list_insert_insert_eq. Qed.

(** The entry [k] of the table is the connection [c] that the packet [g]
    belongs to. *)
Record at_conn (g : segment_in) (k : nat) (c : TCP_ConnectionState_t) (s : net) : Prop := {
  ac_first : first_entry (is_connection (s_Port g) (s_Address g) (s_RemotePort g)) (ConnectionStateTable s) = Some k;
  ac_at : ConnectionStateTable s !! k = Some c }.

Lemma at_conn_put g k c c' s : at_conn g k c s → key_of c' = key_of c → at_conn g k c' (put k c' s).
Proof.
  intros [H1 H2] E. assert (k < length (ConnectionStateTable s))%nat as Hk by by eapply lookup_lt_Some.
  split; [|unfold put; cbn; by rewrite list_lookup_insert_eq]. unfold put. cbn [ConnectionStateTable set_ConnectionStateTable].
  apply first_entry_Some in H1 as [(c0 & Hc0 & Hk0) Hmin]. rewrite H2 in Hc0. injection Hc0 as <-. apply first_entry_Some. split.
  - exists c'. rewrite list_lookup_insert_eq by done. split; [done|]. apply is_connection_key in Hk0. apply is_connection_key. by rewrite E.
  - intros j x Hj Hx. rewrite list_lookup_insert_ne in Hx by lia. by eapply Hmin.
Qed.

Section Access.
Context (g : segment_in) (k : nat) (c : TCP_ConnectionState_t) (s : net) (Hat : at_conn g k c s).

Lemma at_set_state st : TCP_SetConnectionState (s_Port g) (s_Address g) (s_RemotePort g) st s = Some (true, put k (set_C_State st c) s).
Proof. destruct Hat as [H1 H2]. unfold TCP_SetConnectionState. rewrite H1. by rewrite (alter_insert _ _ _ c). Qed.
Lemma at_get_state : TCP_GetConnectionState (s_Port g) (s_Address g) (s_RemotePort g) s = Some (C_State c, s).
Proof. destruct Hat as [H1 H2]. unfold TCP_GetConnectionState. by rewrite H1, H2. Qed.
Lemma at_get_info : TCP_GetConnectionInfo (s_Port g) (s_Address g) (s_RemotePort g) s = Some (Some k, s).
Proof. destruct Hat as [H1 H2]. unfold TCP_GetConnectionInfo. by rewrite H1. Qed.
Lemma at_info_get : info_get (Some k) s = Some (C_Info c, s).
Proof. destruct Hat as [H1 H2]. unfold info_get. cbn. by rewrite H2. Qed.
Lemma at_info_set f : info_set (Some k) f s = Some (tt, put k (set_C_Info (f (C_Info c)) c) s).
Proof. destruct Hat as [H1 H2]. unfold info_set. cbn. by rewrite H2. Qed.
End Access.

(** What the program takes from a packet: the sequence number and the data. *)
Record carries (g : segment_in) (seq : Z) (data : list Z) (s : net) : Prop := {
  ca_seq : in32 (s_TCP g + tcp_SequenceNumber) s = Some (le_value (be 4 seq), s);
  ca_data : ∃ ihl off tl,
    in8 (s_IP g + ip_HeaderLength) s = Some (ihl, s) ∧ in8 (s_TCP g + tcp_DataOffset) s = Some (off, s) ∧
    in16 (s_IP g + ip_TotalLength) s = Some (le_value (be 2 tl), s) ∧ word16 tl ∧
    tl = get_field ihl 0 4 * 4 + get_field off 4 4 * 4 + Z.of_nat (length data) ∧
    in_bytes (s_TCP g + get_field off 4 4 * 4) (Z.of_nat (length data)) s = Some (data, s) }.

(** The reads depend on the incoming frame only. *)
Lemma reads_frame n p s s' v : FrameIN s' = FrameIN s → in_le n p s = Some (v, s) → in_le n p s' = Some (v, s').
Proof. unfold in_le. intros -> H. destruct (rd_le _ _ _); cbn in *; congruence. Qed.
Lemma reads_frame_bytes n p s s' v : FrameIN s' = FrameIN s → in_bytes p n s = Some (v, s) → in_bytes p n s' = Some (v, s').
Proof. unfold in_bytes. intros -> H. destruct (rd_bytes _ _ _); cbn in *; congruence. Qed.
Lemma carries_frame g seq data s s' : FrameIN s' = FrameIN s → carries g seq data s → carries g seq data s'.
Proof.
  intros E [H1 (ihl & off & tl & H2 & H3 & H4 & H5 & H6 & H7)]. split; [by eapply reads_frame|]. exists ihl, off, tl.
  split_and!; try done; try (by eapply reads_frame). by eapply reads_frame_bytes.
Qed.

(** ** The reaction of a connection to a packet *)
Inductive answer := Quiet | Answer (flags : Z) | Defer.

Definition bump_in (n : Z) (c : TCP_ConnectionState_t) : TCP_ConnectionState_t :=
  set_C_Info (set_SequenceNumberIn (SequenceNumberIn (C_Info c) + n) (C_Info c)) c.
Definition bump_out (n : Z) (c : TCP_ConnectionState_t) : TCP_ConnectionState_t :=
  set_C_Info (set_SequenceNumberOut (SequenceNumberOut (C_Info c) + n) (C_Info c)) c.
Definition on_buffer (f : TCP_ConnectionBuffer_t → TCP_ConnectionBuffer_t) (c : TCP_ConnectionState_t) : TCP_ConnectionState_t :=
  set_C_Info (update_buffer f (C_Info c)) c.

(** Data are appended to the buffer, [None] if they do not fit. *)
Definition append_data (data : list Z) (b : TCP_ConnectionBuffer_t) : option TCP_ConnectionBuffer_t :=
  d ← wr_bytes (B_Data b) (B_Length b) data; Some (set_B_Length (u16 (B_Length b + Z.of_nat (length data))) (set_B_Data d b)).
Definition take_data (flags : Z) (data : list Z) (c : TCP_ConnectionState_t) : option (TCP_ConnectionState_t * answer) :=
  let b := Buffer (C_Info c) in
  let c := if negb (B_InUse b) && negb (B_Ready b)
           then on_buffer (λ b, set_B_Length 0 (set_B_InUse true (set_B_Direction TCP_PACKETDIR_IN b))) c else c in
  let b := Buffer (C_Info c) in
  if Bool.eqb (B_Direction b) TCP_PACKETDIR_IN && negb (B_Length b =? TCP_WINDOW_SIZE) then
    b ← append_data data b;
    let c := bump_in (Z.of_nat (length data)) (on_buffer (λ _, b) c) in
    if (B_Length b =? TCP_WINDOW_SIZE) || tst flags TCP_FLAG_PSH
    then Some (on_buffer (λ b, set_B_Ready true (set_B_InUse false b)) c, Answer TCP_FLAG_ACK)
    else Some (c, Quiet)
  else Some (c, Defer).

(** The state machine, with the names of RFC 793. *)
Definition react_in (flags seq : Z) (data : list Z) (c : TCP_ConnectionState_t) : option (TCP_ConnectionState_t * answer) :=
  let st := C_State c in
  if (st =? TCP_Connection_Listen) && (flags =? TCP_FLAG_SYN) then
    let i := set_SequenceNumberOut 0 (set_SequenceNumberIn (u32 seq + 1) (C_Info c)) in
    Some (on_buffer (set_B_InUse false) (set_C_Info i (set_C_State TCP_Connection_SYNReceived c)), Answer (TCP_FLAG_SYN .| TCP_FLAG_ACK))
  else if (st =? TCP_Connection_SYNReceived) && (flags =? TCP_FLAG_ACK) then Some (bump_out 1 (set_C_State TCP_Connection_Established c), Quiet)
  else if (st =? TCP_Connection_Established) && (flags =? TCP_FLAG_FIN .| TCP_FLAG_ACK) then
    Some (bump_out 1 (bump_in 1 (set_C_State TCP_Connection_CloseWait c)), Answer (TCP_FLAG_FIN .| TCP_FLAG_ACK))
  else if (st =? TCP_Connection_Established) && ((flags =? TCP_FLAG_ACK) || (flags =? TCP_FLAG_ACK .| TCP_FLAG_PSH)) then take_data flags data c
  else if st =? TCP_Connection_Closing then
    Some (set_C_State TCP_Connection_FINWait1 (on_buffer (set_B_InUse false) c), Answer (TCP_FLAG_ACK .| TCP_FLAG_FIN))
  else if ((st =? TCP_Connection_FINWait1) || (st =? TCP_Connection_FINWait2)) && (flags =? TCP_FLAG_FIN .| TCP_FLAG_ACK) then
    Some (set_C_State TCP_Connection_Closed (bump_out 1 (bump_in 1 c)), Answer TCP_FLAG_ACK)
  else if (st =? TCP_Connection_FINWait1) && (flags =? TCP_FLAG_ACK) then Some (set_C_State TCP_Connection_FINWait2 c, Quiet)
  else if (st =? TCP_Connection_CloseWait) && (flags =? TCP_FLAG_ACK) then Some (set_C_State TCP_Connection_Closed c, Quiet)
  else Some (c, Quiet).
Definition react (flags seq : Z) (data : list Z) (c : TCP_ConnectionState_t) : option (TCP_ConnectionState_t * answer) :=
  let c := if tst flags TCP_FLAG_SYN then set_C_State TCP_Connection_Listen c else c in
  if tst flags TCP_FLAG_RST then Some (set_C_State TCP_Connection_Closed c, Answer (TCP_FLAG_RST .| TCP_FLAG_ACK))
  else react_in flags seq data c.

(** The data of a segment that the connection takes and that do not fit in what
    is left of its buffer. *)
Definition takes_data (flags : Z) (c : TCP_ConnectionState_t) : Prop :=
  C_State c = TCP_Connection_Established ∧ (flags = TCP_FLAG_ACK ∨ flags = TCP_FLAG_ACK .| TCP_FLAG_PSH) ∧
  let b := Buffer (C_Info c) in
  (B_InUse b = false ∧ B_Ready b = false) ∨ (B_Direction b = TCP_PACKETDIR_IN ∧ B_Length b ≠ TCP_WINDOW_SIZE).
Definition fill (c : TCP_ConnectionState_t) : Z :=
  let b := Buffer (C_Info c) in if negb (B_InUse b) && negb (B_Ready b) then 0 else B_Length b.
Definition overflows (flags : Z) (data : list Z) (c : TCP_ConnectionState_t) : Prop :=
  takes_data flags c ∧ Z.of_nat (length (B_Data (Buffer (C_Info c)))) < fill c + Z.of_nat (length data).

Lemma wr_bytes_none l o bs : 0 ≤ o ≤ Z.of_nat (length l) →
  wr_bytes l o bs = None ↔ Z.of_nat (length l) < o + Z.of_nat (length bs).
Proof.
  intros Ho. split.
  - intros E. destruct (decide (o + Z.of_nat (length bs) ≤ Z.of_nat (length l))) as [H|H]; [|lia].
    destruct (wr_bytes_ok l o bs) as [? E']; [lia|done|congruence].
  - intros H. destruct (wr_bytes l o bs) as [l'|] eqn:E; [|done].
    destruct (decide (bs = [])) as [->|Hne]; [cbn in H; lia|]. apply wr_bytes_inv in E; [lia|done].
Qed.

Lemma append_none data b : 0 ≤ B_Length b ≤ Z.of_nat (length (B_Data b)) →
  append_data data b = None ↔ Z.of_nat (length (B_Data b)) < B_Length b + Z.of_nat (length data).
Proof.
  intros Hb. rewrite <-wr_bytes_none by done. unfold append_data. by destruct (wr_bytes _ _ _).
Qed.

Lemma take_data_none flags data c : 0 ≤ B_Length (Buffer (C_Info c)) ≤ Z.of_nat (length (B_Data (Buffer (C_Info c)))) →
  take_data flags data c = None ↔
  (let b := Buffer (C_Info c) in
   (B_InUse b = false ∧ B_Ready b = false) ∨ (B_Direction b = TCP_PACKETDIR_IN ∧ B_Length b ≠ TCP_WINDOW_SIZE)) ∧
  Z.of_nat (length (B_Data (Buffer (C_Info c)))) < fill c + Z.of_nat (length data).
Proof.
  intros Hb. unfold take_data, fill. cbv zeta.
  assert (∀ c' : TCP_ConnectionState_t, 0 ≤ B_Length (Buffer (C_Info c')) ≤ Z.of_nat (length (B_Data (Buffer (C_Info c')))) →
    (b ← append_data data (Buffer (C_Info c'));
     if (B_Length b =? TCP_WINDOW_SIZE) || tst flags TCP_FLAG_PSH
     then Some (on_buffer (λ b, set_B_Ready true (set_B_InUse false b)) (bump_in (Z.of_nat (length data)) (on_buffer (λ _, b) c')), Answer TCP_FLAG_ACK)
     else Some (bump_in (Z.of_nat (length data)) (on_buffer (λ _, b) c'), Quiet)) = None ↔
    Z.of_nat (length (B_Data (Buffer (C_Info c')))) < B_Length (Buffer (C_Info c')) + Z.of_nat (length data)) as Happ.
  { intros c' Hc'. rewrite <-append_none by done. destruct (append_data _ _) as [b|]; cbn; [|done].
    by destruct (_ || _). }
  destruct (B_InUse (Buffer (C_Info c))) eqn:Eu, (B_Ready (Buffer (C_Info c))) eqn:Er; cbn [negb andb].
  4: { etransitivity; [exact (Happ (on_buffer (λ b, set_B_Length 0 (set_B_InUse true (set_B_Direction TCP_PACKETDIR_IN b))) c) ltac:(cbn; lia))|].
       cbn. tauto. }
  all: destruct (B_Direction (Buffer (C_Info c))) eqn:Ed; cbn [Bool.eqb TCP_PACKETDIR_IN];
    destruct (Z.eqb_spec (B_Length (Buffer (C_Info c))) TCP_WINDOW_SIZE) as [El|El]; cbn [negb andb]; rewrite ?Happ by done;
    split; intros; destruct_and?; try done; destruct_or?; destruct_and?; try done; auto.
Qed.

(** [react] is undefined where the code writes behind the buffer of the
    connection, and only there. *)
Lemma react_none flags seq data c : 0 ≤ B_Length (Buffer (C_Info c)) ≤ Z.of_nat (length (B_Data (Buffer (C_Info c)))) →
  react flags seq data c = None ↔ overflows flags data c.
Proof.
  intros Hb. unfold overflows, takes_data. cbv zeta. split.
  - unfold react. destruct (tst flags TCP_FLAG_RST); [done|]. unfold react_in. cbv zeta. intros H.
    repeat match type of H with (if ?b then _ else _) = None => destruct b eqn:?; try done end.
    destruct (tst flags TCP_FLAG_SYN) eqn:ES; [done|].
    apply take_data_none in H as [H1 H2]; [|done]. split; [|done]. rewrite ?andb_true_iff, ?orb_true_iff, ?Z.eqb_eq in *. tauto.
  - intros [(Es & Hf & Ht) Hl]. assert (tst flags TCP_FLAG_SYN = false ∧ tst flags TCP_FLAG_RST = false) as [E1 E2] by (by destruct Hf as [->| ->]).
    unfold react, react_in. rewrite E1, E2, Es. cbv zeta. destruct Hf as [->| ->]; cbn -[take_data]; by apply take_data_none.
Qed.

Section Reaction.
Context (g : segment_in) (k : nat) (c0 : TCP_ConnectionState_t) (s : net) (pre hdr post : list Z).
Context (Hat : at_conn g k c0 s) (Hp : length pre = Z.to_nat (s_OUT g)) (Hp0 : 0 ≤ s_OUT g) (Hh : length hdr = 20%nat).

(** The states a packet goes through: its connection and the header of the
    response change. *)
Definition during (c : TCP_ConnectionState_t) (h : list Z) : net := put k c (set_out (pre ++ h ++ post) s).
Definition flagged (f : Z) : list Z := <[13%nat := f]> hdr.

Lemma during_at c h : key_of c = key_of c0 → at_conn g k c (during c h).
Proof using Hat. intros E. apply (at_conn_put g k c0); [|done]. by destruct Hat. Qed.
Lemma during_put c c' h : put k c (during c' h) = during c h.
Proof. apply put_put. Qed.

Lemma d_set_state c h st : key_of c = key_of c0 →
  TCP_SetConnectionState (s_Port g) (s_Address g) (s_RemotePort g) st (during c h) = Some (true, during (set_C_State st c) h).
Proof using Hat. intros E. rewrite (at_set_state g k c) by by apply during_at. by rewrite during_put. Qed.
Lemma d_get_info c h : key_of c = key_of c0 → TCP_GetConnectionInfo (s_Port g) (s_Address g) (s_RemotePort g) (during c h) = Some (Some k, during c h).
Proof using Hat. intros E. by apply (at_get_info g k c), during_at. Qed.
Lemma d_get_state c h : key_of c = key_of c0 → TCP_GetConnectionState (s_Port g) (s_Address g) (s_RemotePort g) (during c h) = Some (C_State c, during c h).
Proof using Hat. intros E. by apply (at_get_state g k c), during_at. Qed.
Lemma d_info_get c h : key_of c = key_of c0 → info_get (Some k) (during c h) = Some (C_Info c, during c h).
Proof using Hat. intros E. by apply (at_info_get g k c), during_at. Qed.
Lemma d_info_set c h f : key_of c = key_of c0 → info_set (Some k) f (during c h) = Some (tt, during (set_C_Info (f (C_Info c)) c) h).
Proof using Hat. intros E. rewrite (at_info_set g k c) by by apply during_at. by rewrite during_put. Qed.
Lemma d_flags c f : out_flags g f (during c hdr) = Some (tt, during c (flagged f)).
Proof using Hp Hp0 Hh.
  unfold out_flags. erewrite (out_assigns_mid pre hdr post); [done|done|done|done|]. cbn [assigns assign wr_bytes]. by rewrite wr_Some by (rewrite Hh; done).
Qed.
Lemma d_in_le n p c h v : in_le n p s = Some (v, s) → in_le n p (during c h) = Some (v, during c h).
Proof. by apply reads_frame. Qed.
Lemma d_in_bytes n p c h v : in_bytes p n s = Some (v, s) → in_bytes p n (during c h) = Some (v, during c h).
Proof. by apply reads_frame_bytes. Qed.

(** The next call of a handler. *)
Ltac call := erewrite net_bind; [|first
  [ apply d_set_state; reflexivity | apply d_get_info; reflexivity | apply d_info_get; reflexivity | apply d_info_set; reflexivity
  | apply d_flags | apply d_in_le; eassumption | apply d_in_bytes; eassumption | reflexivity ]]; cbv beta.

(** What an answer looks like to the function that sends it. *)
Definition outcome (r : TCP_ConnectionState_t * answer) : option (option bool * net) :=
  match r with
  | (c, Quiet) => Some (Some false, during c hdr)
  | (c, Answer f) => Some (Some true, during c (flagged f))
  | (c, Defer) => Some (None, during c hdr)
  end.

Context (seq : Z) (data : list Z) (Hca : carries g seq data s).

Lemma receive_eq c : key_of c = key_of c0 → tcp_receive g (during c hdr) = take_data (s_Flags g) data c ≫= outcome.
Proof using Hat Hp Hp0 Hh Hca.
  intros E. destruct Hca as [_ (ihl & off & tl & R1 & R2 & R3 & Htl & Etl & R4)]. unfold tcp_receive, take_data.
  erewrite net_bind; [|by apply d_get_info]. erewrite net_bind; [|by apply d_info_get].
  set (c1 := if negb _ && negb _ then _ else c).
  assert (key_of c1 = key_of c0) as E1 by (unfold c1; by destruct (negb _ && negb _)).
  erewrite (net_bind _ _ _ tt (during c1 hdr)).
  2: { unfold c1. destruct (negb _ && negb _); [|done]. by rewrite d_info_set. }
  erewrite net_bind; [|by apply d_info_get]. cbv zeta.
  destruct (Bool.eqb (B_Direction (Buffer (C_Info c1))) TCP_PACKETDIR_IN && _); [|done].
  do 3 call. rewrite swap_be_16, (Z.mod_small tl) by done.
  replace (tl - get_field ihl 0 4 * 4 - get_field off 4 4 * 4) with (Z.of_nat (length data)) by lia.
  assert (0 ≤ get_field ihl 0 4 ∧ 0 ≤ get_field off 4 4) as [G1 G2].
  { unfold get_field. split; apply Z.land_nonneg; right; done. }
  rewrite u16_small by (unfold word16 in *; lia). call. unfold append_data.
  destruct (wr_bytes _ _ data) as [d|] eqn:Ed; cbn [mbind option_bind]; [|done].
  erewrite (net_bind (net_lift _)); [|done].
  erewrite net_bind; [|by apply d_info_set]. erewrite net_bind; [|by apply d_info_set]. erewrite net_bind; [|by apply d_info_set].
  erewrite net_bind; [|by apply d_info_get].
  cbn [C_Info set_C_Info Buffer update_buffer set_Buffer set_SequenceNumberIn B_Length set_B_Length set_B_Data].
  destruct ((u16 _ =? TCP_WINDOW_SIZE) || _); [|done].
  erewrite net_bind; [|by apply d_info_set]. call. done.
Qed.
Ltac states := cbv [TCP_Connection_Listen TCP_Connection_SYNReceived TCP_Connection_Established TCP_Connection_FINWait1 TCP_Connection_FINWait2
  TCP_Connection_CloseWait TCP_Connection_Closing]; cbn [Z.eqb Pos.eqb andb orb].
Lemma by_state_eq c : key_of c = key_of c0 → tcp_by_state g (C_State c) (during c hdr) = react_in (s_Flags g) seq data c ≫= outcome.
Proof using Hat Hp Hp0 Hh Hca.
  intros E. pose proof (receive_eq c E) as Hrec. destruct Hca as [R _].
  assert (∀ c, key_of c = key_of c0 → tcp_finish g (during c hdr) =
    outcome (set_C_State TCP_Connection_Closed (bump_out 1 (bump_in 1 c)), Answer TCP_FLAG_ACK)) as Hfin.
  { clear c E Hrec. intros c E. unfold tcp_finish. erewrite net_bind; [|by apply d_get_info]. call. do 2 (erewrite net_bind; [|by apply d_info_set]).
    erewrite net_bind; [|by apply d_set_state]. done. }
  unfold tcp_by_state, react_in. cbv zeta. destruct (Z.eqb_spec (C_State c) TCP_Connection_Listen) as [Ec|_]; [rewrite ?Ec|].
  { cbn [andb]. unfold tcp_Listen. destruct (s_Flags g =? TCP_FLAG_SYN); [|states; done].
    erewrite net_bind; [|by apply d_set_state]. cbn iota. erewrite (net_bind _ _ _ tt (during _ _)); [done|].
    call. erewrite net_bind; [|by apply d_get_info]. erewrite net_bind; [|by apply d_in_le]. rewrite swap_be_32.
    do 2 (erewrite net_bind; [|by apply d_info_set]). by rewrite d_info_set. }
  destruct (Z.eqb_spec (C_State c) TCP_Connection_SYNReceived) as [Ec|_]; [rewrite ?Ec|].
  { cbn [andb]. unfold tcp_SYNReceived. destruct (s_Flags g =? TCP_FLAG_ACK); [|states; done].
    erewrite net_bind; [|by apply d_set_state]. erewrite net_bind; [|by apply d_get_info]. erewrite net_bind; [|by apply d_info_set]. done. }
  destruct (Z.eqb_spec (C_State c) TCP_Connection_Established) as [Ec|_]; [rewrite ?Ec|].
  { cbn [andb]. unfold tcp_Established. destruct (s_Flags g =? TCP_FLAG_FIN .| TCP_FLAG_ACK).
    - call. erewrite net_bind; [|by apply d_set_state]. erewrite net_bind; [|by apply d_get_info]. do 2 (erewrite net_bind; [|by apply d_info_set]). done.
    - destruct (_ || _); [done|]. states. done. }
  destruct (Z.eqb_spec (C_State c) TCP_Connection_Closing) as [Ec|_]; [rewrite ?Ec|].
  { states. unfold tcp_Closing. erewrite net_bind; [|by apply d_get_info]. call. erewrite net_bind; [|by apply d_info_set].
    erewrite net_bind; [|by apply d_set_state]. done. }
  cbn [andb]. destruct (Z.eqb_spec (C_State c) TCP_Connection_FINWait1) as [Ec|_]; [rewrite ?Ec|].
  { cbn [andb orb]. unfold tcp_FINWait1. destruct (s_Flags g =? TCP_FLAG_FIN .| TCP_FLAG_ACK); [by rewrite Hfin|].
    destruct (s_Flags g =? TCP_FLAG_ACK); [|states; done]. erewrite net_bind; [|by apply d_set_state]. done. }
  destruct (Z.eqb_spec (C_State c) TCP_Connection_FINWait2) as [Ec|_]; [rewrite ?Ec|].
  { cbn [andb orb]. unfold tcp_FINWait2. destruct (s_Flags g =? TCP_FLAG_FIN .| TCP_FLAG_ACK); [by rewrite Hfin|]. states. done. }
  cbn [andb orb]. destruct (Z.eqb_spec (C_State c) TCP_Connection_CloseWait) as [Ec|_]; [rewrite ?Ec|done].
  unfold tcp_CloseWait. cbn [andb]. destruct (s_Flags g =? TCP_FLAG_ACK); [|done]. erewrite net_bind; [|by apply d_set_state]. done.
Qed.
End Reaction.

Lemma set_out_id d s : out_data s = d → set_out d s = s.
Proof. intros <-. by destruct s as [? [] ? ? ?]. Qed.
Lemma put_id k c s : ConnectionStateTable s !! k = Some c → put k c s = s.
Proof. intros H. unfold put. rewrite list_insert_id by done. by destruct s. Qed.

(** The connection a packet is for: its entry, or a closed entry that a SYN
    takes over. *)
Definition taken_over (g : segment_in) (old : TCP_ConnectionState_t) : TCP_ConnectionState_t :=
  TCP_ConnectionState (s_Port g) (s_RemotePort g) (s_Address g) (C_Info old) TCP_Connection_Closed.
Definition target (g : segment_in) (k : nat) (c : TCP_ConnectionState_t) (s : net) : Prop :=
  at_conn g k c s ∨
  first_entry (is_connection (s_Port g) (s_Address g) (s_RemotePort g)) (ConnectionStateTable s) = None ∧
  first_entry (λ c, C_State c =? TCP_Connection_Closed) (ConnectionStateTable s) = Some k ∧ tst (s_Flags g) TCP_FLAG_SYN = true ∧
  ∃ old, ConnectionStateTable s !! k = Some old ∧ c = taken_over g old.

Lemma target_at g k c s : target g k c s → at_conn g k c (put k c s).
Proof.
  intros [H|(H1 & H2 & _ & old & Hk & ->)]; [by eapply at_conn_put|]. split.
  - apply first_entry_None in H1. apply first_entry_Some. unfold put. cbn. split.
    + eexists. rewrite list_lookup_insert_eq by (by eapply lookup_lt_Some). split; [done|]. by apply is_connection_key.
    + intros j x Hj Hx. rewrite list_lookup_insert_ne in Hx by lia. by eapply Forall_lookup_1 in H1.
  - unfold put. cbn. by rewrite list_lookup_insert_eq by (by eapply lookup_lt_Some).
Qed.

(** The port of the packet is open. *)
Definition port_open (p : Z) (s : net) : Prop := TCP_GetPortState p s = Some (TCP_Port_Open, s).
Lemma port_open_frame p s s' : PortStateTable s' = PortStateTable s → port_open p s → port_open p s'.
Proof. unfold port_open, TCP_GetPortState. intros -> [= ->]. done. Qed.

Lemma target_packet g k c s : target g k c s → port_open (s_Port g) s → tcp_packet g s = tcp_packet g (put k c s).
Proof.
  intros Ht Ho. pose proof (target_at g k c s Ht) as Hat. destruct Ht as [[_ H]|(H1 & H2 & Hs & old & Hk & ->)]; [by rewrite put_id|].
  unfold tcp_packet. erewrite net_bind; [|exact Ho]. erewrite (net_bind _ _ (put _ _ _)); [|by apply (port_open_frame _ s)].
  change (TCP_Port_Open =? TCP_Port_Open) with true. cbn iota. rewrite Hs.
  erewrite (net_bind _ _ s).
  2: { erewrite net_bind; [done|]. unfold TCP_SetConnectionState. rewrite H1, H2. by rewrite (alter_insert _ _ _ old). }
  erewrite (net_bind _ _ (put k _ s)); [|erewrite net_bind; [done|by apply (at_set_state g k (taken_over g old))]].
  rewrite put_put. done.
Qed.

(** The window a connection offers. *)
Definition window (c : TCP_ConnectionState_t) : Z :=
  let b := Buffer (C_Info c) in if negb (B_InUse b) then TCP_WINDOW_SIZE else u16 (TCP_WINDOW_SIZE - B_Length b).
(** The segment that answers a packet. *)
Definition reply_segment (g : segment_in) (dst : list Z) (c : TCP_ConnectionState_t) (f : Z) : list Z :=
  tcp_segment dst (s_Address g) (le_store 2 (s_Port g)) (le_store 2 (s_RemotePort g)) (SequenceNumberOut (C_Info c)) (SequenceNumberIn (C_Info c))
    f (window c) [].

(** A reaction keeps the key of its connection, and answers with flags. *)
Lemma react_key flags seq data c c' a : react flags seq data c = Some (c', a) → key_of c' = key_of c.
Proof.
  unfold react. intros H. assert (∀ c c' a, react_in flags seq data c = Some (c', a) → key_of c' = key_of c) as Hin.
  { clear. intros c c' a. unfold react_in. cbv zeta.
    repeat match goal with |- context [if ?b then _ else _] => destruct b end; try (by intros; simplify_eq).
    unfold take_data. cbv zeta. set (c1 := if _ && _ then _ else c). assert (key_of c1 = key_of c) as <- by (unfold c1; by destruct (_ && _)).
    clearbody c1. destruct (_ && _); [|by intros [= <- <-]]. destruct (append_data _ _); [|done]. cbn [mbind option_bind].
    destruct (_ || _); by intros; simplify_eq. }
  destruct (tst flags TCP_FLAG_RST); [injection H as <- _|apply Hin in H]; by destruct (tst flags TCP_FLAG_SYN).
Qed.
Lemma react_flags flags seq data c c' f : react flags seq data c = Some (c', Answer f) → byte f.
Proof.
  unfold react, react_in, take_data. cbv zeta. intros H.
  repeat match type of H with context [if ?b then _ else _] => destruct b end; try done;
    first [injection H as _ <-|apply bind_Some in H as (? & _ & H); repeat match type of H with context [if ?b then _ else _] => destruct b end;
      try done; injection H as _ <-]; done.
Qed.

Section Process.
Context (g : segment_in) (k : nat) (c0 : TCP_ConnectionState_t) (s : net) (pre hdr post : list Z) (seq : Z) (data dst : list Z).
Context (Ht : target g k c0 s) (Ho : port_open (s_Port g) s).
Context (Eo : out_data s = pre ++ hdr ++ post) (Hp : length pre = Z.to_nat (s_OUT g)) (Hp0 : 0 ≤ s_OUT g) (Hh : length hdr = 20%nat).
Context (Hbh : bytes hdr) (Hbp : bytes post) (Hne : post ≠ []) (Hca : carries g seq data s).
Context (Hdst : in_bytes (s_IP g + ip_DestinationAddress) 4 s = Some (dst, s)) (HIPd : IP dst) (HIPs : IP (s_Address g)).

Lemma packet_eq : tcp_packet g s = react (s_Flags g) seq data c0 ≫= outcome k s pre hdr post.
Proof using Ht Ho Eo Hp Hp0 Hh Hca.
  rewrite (target_packet g k c0) by done. pose proof (target_at g k c0 s Ht) as Hat.
  set (s1 := put k c0 s) in *. assert (s1 = during k s pre post c0 hdr) as E1 by (unfold s1, during; by rewrite set_out_id).
  assert (∀ c h, during k s1 pre post c h = during k s pre post c h) as Ed
    by (intros c h; exact (put_put k c c0 (set_out (pre ++ h ++ post) s))).
  assert (s1 = during k s1 pre post c0 hdr) as E2 by by rewrite Ed.
  assert (carries g seq data s1) as Hca1 by (by apply (carries_frame g seq data s)).
  assert (∀ c, react_in (s_Flags g) seq data c ≫= outcome k s pre hdr post = react_in (s_Flags g) seq data c ≫= outcome k s1 pre hdr post) as Eou.
  { intros c. destruct (react_in _ _ _ c) as [[c' []]|]; [..|done]; cbn; by rewrite Ed. }
  unfold tcp_packet, react. erewrite net_bind; [|by apply (port_open_frame _ s)]. change (TCP_Port_Open =? TCP_Port_Open) with true. cbn iota.
  set (c1 := if tst (s_Flags g) TCP_FLAG_SYN then set_C_State TCP_Connection_Listen c0 else c0). cbv zeta.
  assert (key_of c1 = key_of c0) as K1 by (unfold c1; by destruct (tst _ _)).
  erewrite (net_bind _ _ s1 tt (during k s1 pre post c1 hdr)).
  2: { rewrite E2 at 1. unfold c1. destruct (tst _ TCP_FLAG_SYN); [|done]. erewrite net_bind; [done|]. by apply (d_set_state g k c0). }
  destruct (tst (s_Flags g) TCP_FLAG_RST).
  - erewrite net_bind; [|by apply (d_set_state g k c0)]. cbn iota. erewrite net_bind; [|by apply d_flags]. cbn. by rewrite Ed.
  - erewrite net_bind; [|by apply (d_get_state g k c0)]. rewrite Eou. by apply (by_state_eq g k c0).
Qed.

Lemma during_conn c h : key_of c = key_of c0 → at_conn g k c (during k s pre post c h).
Proof using Ht.
  intros K. unfold during. rewrite <-(put_put k c c0). apply (at_conn_put g k c0); [|done].
  destruct (target_at g k c0 s Ht). by split.
Qed.

Lemma respond_eq c f : key_of c = key_of c0 → byte f →
  tcp_respond g (during k s pre post c (flagged hdr f)) = Some (20, during k s pre post c (reply_segment g dst c f)).
Proof using All.
  intros K Hf. pose proof (during_conn c (flagged hdr f) K) as Hat. unfold tcp_respond.
  erewrite net_bind; [|by eapply at_get_info]. erewrite net_bind; [|by eapply at_info_get]. cbv zeta. fold (window c).
  set (sp := le_store 2 (s_Port g)). set (dp := le_store 2 (s_RemotePort g)).
  assert (Port sp ∧ Port dp) as [Hsp Hdp] by (split; split; try apply le_store_length; apply le_store_bytes).
  erewrite net_bind.
  2: { eapply (out_assigns_mid pre (flagged hdr f) post); [done|done|done|]. apply (tcp_fill _ f).
    - unfold flagged. by rewrite length_insert.
    - unfold flagged. by apply Forall_insert.
    - unfold flagged. rewrite list_lookup_insert_eq; [done|]. rewrite Hh. lia.
    - apply le_store_length.
    - apply le_store_length. }
  erewrite net_bind; [|apply (reads_frame_bytes _ _ s); [done|exact Hdst]].
  set (s2 := set_out _ _).
  destruct (tcp_checksum_out pre post (s_OUT g) dst (s_Address g) sp dp (SequenceNumberOut (C_Info c)) (SequenceNumberIn (C_Info c)) f (window c) [] s2)
    as (cs & E1 & E2); [by rewrite app_nil_r|try done..|]; [constructor|].
  erewrite net_bind; [|exact E1]. erewrite net_bind; [|exact E2]. done.
Qed.

(** What [TCP_ProcessTCPPacket] does with the packet [g]. *)
Definition processed (r : TCP_ConnectionState_t * answer) : option (Z * net) :=
  match r with
  | (c, Quiet) => Some (NO_RESPONSE, during k s pre post c hdr)
  | (c, Answer f) => Some (20, during k s pre post c (reply_segment g dst c f))
  | (c, Defer) => Some (NO_PROCESS, during k s pre post c hdr)
  end.
Lemma process_eq :
  in16 (s_TCP g + tcp_DestinationPort) s = Some (s_Port g, s) → in_bytes (s_IP g + ip_SourceAddress) sizeof_IP_Address s = Some (s_Address g, s) →
  in16 (s_TCP g + tcp_SourcePort) s = Some (s_RemotePort g, s) → in8 (s_TCP g + tcp_Flags) s = Some (s_Flags g, s) →
  TCP_ProcessTCPPacket (s_IP g) (s_TCP g) (s_OUT g) s = react (s_Flags g) seq data c0 ≫= processed.
Proof using All.
  intros R1 R2 R3 R4. unfold TCP_ProcessTCPPacket.
  erewrite net_bind; [|exact R1]. erewrite net_bind; [|exact R2]. erewrite net_bind; [|exact R3]. erewrite net_bind; [|exact R4]. cbv zeta.
  replace (Segment_in _ _ _ _ _ _ _) with g by by destruct g.
  destruct (react (s_Flags g) seq data c0) as [[c a]|] eqn:Er; cbn [mbind option_bind].
  - erewrite (net_bind _ _ _ (match a with Quiet => Some false | Answer _ => Some true | Defer => None end)
      (during k s pre post c (match a with Answer f => flagged hdr f | _ => hdr end))).
    2: { rewrite packet_eq, Er. cbn [mbind option_bind outcome]. by destruct a. }
    destruct a as [|f|]; [done| |done]. apply respond_eq; [by eapply react_key|by eapply react_flags].
  - unfold mbind, NetM_bind. by rewrite packet_eq, Er.
Qed.
End Process.
