(* ===== verification/StackSpec.v ===== *)
(** * The network stack: frames and the web server

    What [Ethernet_ProcessPacket] makes of whole frames, from the lemmas on the
    protocols; the page that [TCP_TCPTask] sends; frames over USB. *)
From stdpp Require Import strings.
From S2P Require Import Prelude RingBuffer Machine Endpoint Controller EndpointPoll EndpointStream Packed Logic EndpointSpec EndpointData Rndis BulkSpec RndisData Net Tcp Webserver NetSpec TcpSpec.

(** ** Ethernet frames *)
Lemma in_bytes_front mid post o n b s : in_data s = mid ++ post → rd_bytes mid o n = Some b → in_bytes o n s = Some (b, s).
Proof. intros E H. by apply (in_bytes_mid [] mid post 0 o n b s). Qed.
Lemma in_le_front mid post o n b s : in_data s = mid ++ post → rd_bytes mid o n = Some b → in_le n o s = Some (le_value b, s).
Proof. intros E H. by apply (in_le_mid [] mid post 0 o n b s). Qed.
(** Reads a member of the header that the frame starts with. *)
Ltac read_front E v := first
  [ erewrite net_bind; [|eapply (in_le_front _ _ _ _ v); [exact E|reflexivity]]
  | erewrite net_bind; [|eapply (in_bytes_front _ _ _ _ v); [exact E|reflexivity]] ]; cbv beta.

(** The lengths that pass the test on [SwapEndian_16(FrameIN->FrameLength)]. *)
Definition accepted (n : Z) : bool := SwapEndian_16 n >? ETHERNET_VER2_MINSIZE.
Lemma accepted_iff n : word16 n → accepted n = true ↔ 6 < n mod 256 ∨ n mod 256 = 6 ∧ 256 ≤ n.
Proof.
  intros H. unfold accepted, ETHERNET_VER2_MINSIZE. rewrite swap_word, Z.gtb_ltb, Z.ltb_lt by done. unfold word16 in H.
  pose proof (Z.mod_pos_bound n 256). pose proof (Z.div_mod n 256). assert (0 ≤ n / 256 < 256) by (split; [apply Z.div_pos|apply Z.div_lt_upper_bound]; lia). lia.
Qed.

(** The destination addresses the stack listens to. *)
Definition for_us (mac : list Z) : Prop := mac = ServerMACAddress ∨ mac = BroadcastMACAddress.
Lemma for_us_MAC mac : for_us mac → MAC mac.
Proof. intros [->| ->]; split; try done; unfold ServerMACAddress, BroadcastMACAddress; solve_bytes. Qed.

(** The state once a frame is taken and [FrameOUT] holds the answer. *)
Definition emptied (s : net) : net := set_FrameIN (with_length 0 (FrameIN s)) s.
Definition answered (d : list Z) (n : Z) (s : net) : net := set_FrameOUT (Ethernet_Frame_Info d n) (emptied s).

(** The handler of an EtherType. *)
Definition protocol (et : Z) : NetM Z :=
  if et =? ETHERTYPE_ARP then ARP_ProcessARPPacket 14 14 else if et =? ETHERTYPE_IPV4 then IP_ProcessIPPacket 14 14 else mret NO_RESPONSE.

Lemma ethernet_ignores s dmac smac et rest : in_data s = dmac ++ smac ++ be 2 et ++ rest → MAC dmac → MAC smac →
  ¬ (for_us dmac ∧ accepted (FrameLength (FrameIN s)) = true) → Ethernet_ProcessPacket s = Some (tt, emptied s).
Proof.
  intros Ei [Ld _] [Ls _] Hno. unfold Ethernet_ProcessPacket.
  assert (in_data s = (dmac ++ smac ++ be 2 et) ++ rest) as E' by (rewrite Ei; by rewrite <-!(assoc_L (++))).
  elements Ld. elements Ls. match type of E' with context [?a ++ ?b ++ be 2 et] => set (da := a) in *; set (sa := b) in * end.
  read_front E' da. unfold in16. read_front E' (be 2 et). unfold net_gets. erewrite net_bind; [|done]. cbv beta.
  fold (accepted (FrameLength (FrameIN s))).
  replace ((MAC_COMPARE da ServerMACAddress || MAC_COMPARE da BroadcastMACAddress) && accepted (FrameLength (FrameIN s))) with false.
  { erewrite net_bind; [|done]. done. }
  symmetry. apply not_true_is_false. intros [H1 H2]%andb_prop. apply Hno. split; [|done]. apply orb_prop in H1.
  unfold MAC_COMPARE in H1. rewrite !bool_decide_eq_true in H1. done.
Qed.

Lemma ethernet_serves s dmac smac et rest r s1 : in_data s = dmac ++ smac ++ be 2 et ++ rest → MAC dmac → MAC smac → word16 et →
  for_us dmac → accepted (FrameLength (FrameIN s)) = true → protocol et s = Some (r, s1) →
  (0 < r → ∃ rest' e body, in_data s1 = dmac ++ smac ++ be 2 et ++ rest' ∧ out_data s1 = e ++ body ∧ length e = 14%nat) →
  Ethernet_ProcessPacket s = Some (tt,
    if r =? NO_PROCESS then s1 else if r >? 0 then answered (smac ++ ServerMACAddress ++ be 2 et ++ drop 14 (out_data s1)) (u16 (14 + r)) s1 else emptied s1).
Proof.
  intros Ei [Ld Bd] [Ls Bs] Het Hus Hacc Hpr Hr. unfold Ethernet_ProcessPacket.
  assert (in_data s = (dmac ++ smac ++ be 2 et) ++ rest) as E' by (rewrite Ei; by rewrite <-!(assoc_L (++))).
  elements Ld. elements Ls. match type of E' with context [?a ++ ?b ++ be 2 et] => set (da := a) in *; set (sa := b) in * end.
  read_front E' da. unfold in16. read_front E' (be 2 et). unfold net_gets. erewrite net_bind; [|done]. cbv beta.
  fold (accepted (FrameLength (FrameIN s))). rewrite Hacc, andb_true_r, swap_be_16, Z.mod_small by done.
  replace (MAC_COMPARE da ServerMACAddress || MAC_COMPARE da BroadcastMACAddress) with true
    by (symmetry; apply orb_true_iff; unfold MAC_COMPARE; by rewrite !bool_decide_eq_true).
  unfold sizeof_Ethernet_Frame_Header. fold (protocol et).
  set (s2 := if r >? 0 then set_FrameOUT (Ethernet_Frame_Info (sa ++ ServerMACAddress ++ be 2 et ++ drop 14 (out_data s1)) (u16 (14 + r))) s1 else s1).
  erewrite (net_bind _ _ s r s2).
  { destruct (Z.eqb_spec r NO_PROCESS) as [->|Hne]; [done|]. cbn [negb]. unfold s2, answered. by destruct (r >? 0). }
  erewrite net_bind; [|exact Hpr]. erewrite (net_bind _ _ s1 tt s2); [done|]. unfold s2. rewrite Z.gtb_ltb. destruct (Z.ltb_spec 0 r) as [Hpos|_]; [|done].
  destruct (Hr Hpos) as (rest' & e & body & E1 & E2 & He).
  assert (in_data s1 = (da ++ sa ++ be 2 et) ++ rest') as E1' by (rewrite E1; by rewrite <-!(assoc_L (++))).
  read_front E1' sa. read_front E1' (be 2 et). unfold ethernet_header_out.
  erewrite net_bind.
  2: { eapply (out_assigns_mid [] e body _ 0); [exact E2|done|done|]. instantiate (1 := sa ++ ServerMACAddress ++ be 2 et).
    clear -He. elements He. reflexivity. }
  rewrite E2, drop_app_length' by done. by rewrite <-!(assoc_L (++)).
Qed.

(** A protocol that leaves its arrays takes the frame with it. *)
Lemma ethernet_faults s dmac smac et rest : in_data s = dmac ++ smac ++ be 2 et ++ rest → MAC dmac → MAC smac → word16 et →
  for_us dmac → accepted (FrameLength (FrameIN s)) = true → protocol et s = None → Ethernet_ProcessPacket s = None.
Proof.
  intros Ei [Ld Bd] [Ls Bs] Het Hus Hacc Hpr. unfold Ethernet_ProcessPacket.
  assert (in_data s = (dmac ++ smac ++ be 2 et) ++ rest) as E' by (rewrite Ei; by rewrite <-!(assoc_L (++))).
  elements Ld. elements Ls. match type of E' with context [?a ++ ?b ++ be 2 et] => set (da := a) in *; set (sa := b) in * end.
  read_front E' da. unfold in16. read_front E' (be 2 et). unfold net_gets. erewrite net_bind; [|done]. cbv beta.
  fold (accepted (FrameLength (FrameIN s))). rewrite Hacc, andb_true_r, swap_be_16, Z.mod_small by done.
  replace (MAC_COMPARE da ServerMACAddress || MAC_COMPARE da BroadcastMACAddress) with true
    by (symmetry; apply orb_true_iff; unfold MAC_COMPARE; by rewrite !bool_decide_eq_true).
  unfold sizeof_Ethernet_Frame_Header. fold (protocol et). by apply net_bind_none, net_bind_none.
Qed.

(** ** IP packets *)

(** The part of an IP header before the addresses. *)
Record ip_start (h : list Z) (proto : Z) (opts : list Z) : Prop := {
  is_len : length h = 12%nat;
  is_bytes : bytes h;
  is_proto : h !! 9%nat = Some proto;
  is_ihl : ∃ v, h !! 0%nat = Some v ∧ get_field v 0 4 * 4 = 20 + Z.of_nat (length opts) }.
Definition ip_for_us (a : list Z) : Prop := a = ServerIPAddress ∨ a = BroadcastIPAddress.
Lemma ip_for_us_IP a : ip_for_us a → IP a.
Proof. intros [->| ->]; split; try done; unfold ServerIPAddress, BroadcastIPAddress; solve_bytes. Qed.

(** The handler of a protocol whose header is behind the options. *)
Definition ip_protocol (proto : Z) (opts : list Z) : NetM Z :=
  let p := 34 + Z.of_nat (length opts) in
  if proto =? PROTOCOL_ICMP then ICMP_ProcessICMPPacket p 34
  else if proto =? PROTOCOL_TCP then TCP_ProcessTCPPacket 14 p 34
  else if proto =? PROTOCOL_UDP then UDP_ProcessUDPPacket 14 p 34
  else mret NO_RESPONSE.

Lemma one_byte (x : Z) : le_value [x] = x.
Proof. unfold le_value. cbn [foldr]. lia. Qed.

(** The members of the header are read. *)
Lemma ip_reads s e h src dst rest proto opts : in_data s = e ++ (h ++ src ++ dst) ++ rest → length e = 14%nat → ip_start h proto opts → IP src → IP dst →
  (∃ v, in8 (14 + ip_HeaderLength) s = Some (v, s) ∧ get_field v 0 4 * 4 = 20 + Z.of_nat (length opts)) ∧
  in8 (14 + ip_Protocol) s = Some (proto, s) ∧
  in_bytes (14 + ip_SourceAddress) sizeof_IP_Address s = Some (src, s) ∧ in_bytes (14 + ip_DestinationAddress) sizeof_IP_Address s = Some (dst, s).
Proof.
  intros Ei He [Hl Hb Hp (v & Hv & Hihl)] [Hs _] [Hd _]. elements Hl. elements Hs. elements Hd. injection Hp as ->. injection Hv as ->.
  match type of Ei with _ = _ ++ ?l ++ _ => set (mid := l) in * end.
  assert (∀ o n b, rd_bytes mid o n = Some b → in_bytes (14 + o) n s = Some (b, s) ∧ in_le n (14 + o) s = Some (le_value b, s)) as R.
  { intros o n b Hb'. split; [by eapply in_bytes_mid|by eapply in_le_mid]. }
  unfold in8. split_and!.
  - exists v. split; [|done]. rewrite <-(one_byte v) at 1. by apply R.
  - rewrite <-(one_byte proto). by apply R.
  - by apply R.
  - by apply R.
Qed.

Lemma ip_ignores s e h src dst rest proto opts : in_data s = e ++ (h ++ src ++ dst) ++ rest → length e = 14%nat → ip_start h proto opts → IP src → IP dst →
  ¬ ip_for_us dst → IP_ProcessIPPacket 14 14 s = Some (NO_RESPONSE, s).
Proof.
  intros Ei He Hh Hs Hd Hno. destruct (ip_reads _ _ _ _ _ _ _ _ Ei He Hh Hs Hd) as ((v & R1 & Hihl) & R2 & R3 & R4). unfold IP_ProcessIPPacket.
  erewrite net_bind; [|exact R1]. cbv zeta. erewrite net_bind; [|exact R4]. unfold IP_COMPARE, ip_for_us in *.
  rewrite !bool_decide_eq_false_2 by tauto. done.
Qed.
Lemma ip_serves s e h src dst rest proto opts r s1 src' dst' e' m body :
  in_data s = e ++ (h ++ src ++ dst) ++ rest → length e = 14%nat → ip_start h proto opts → IP src → IP dst → ip_for_us dst →
  ip_protocol proto opts s = Some (r, s1) →
  (0 < r → in_data s1 = e ++ (h ++ src' ++ dst') ++ rest ∧ IP src' ∧ IP dst' ∧ out_data s1 = e' ++ m ++ body ∧
     length e' = 14%nat ∧ length m = 20%nat ∧ bytes m ∧ 20 + r < 32768) →
  IP_ProcessIPPacket 14 14 s = Some (if r >? 0 then (20 + r, set_out (e' ++ ip_header r proto dst' src' ++ body) s1) else (r, s1)).
Proof.
  intros Ei He Hh Hs Hd Hus Hsub Hr. destruct (ip_reads _ _ _ _ _ _ _ _ Ei He Hh Hs Hd) as ((v & R1 & Hihl) & R2 & R3 & R4). unfold IP_ProcessIPPacket.
  erewrite net_bind; [|exact R1]. cbv zeta. erewrite net_bind; [|exact R4]. unfold IP_COMPARE, ip_for_us in *.
  replace (negb _ && negb _) with false.
  2: { symmetry. destruct Hus as [->| ->]; [by rewrite (bool_decide_eq_true_2 (ServerIPAddress = ServerIPAddress))|
         by rewrite (bool_decide_eq_true_2 (BroadcastIPAddress = BroadcastIPAddress)), andb_false_r]. }
  erewrite net_bind; [|exact R2]. unfold sizeof_IP_Header. rewrite Hihl.
  replace (14 + (20 + Z.of_nat (length opts))) with (34 + Z.of_nat (length opts)) by lia. change (14 + 20) with 34.
  erewrite net_bind; [|exact Hsub]. rewrite Z.gtb_ltb. destruct (Z.ltb_spec 0 r) as [Hpos|_]; [|done].
  destruct (Hr Hpos) as (Ei1 & Hs' & Hd' & Eo & He' & Hm & Bm & Hmax).
  destruct (ip_reads _ _ _ _ _ _ _ _ Ei1 He Hh Hs' Hd') as (_ & Q2 & Q3 & Q4).
  erewrite net_bind; [|exact Q2]. erewrite net_bind; [|exact Q4]. erewrite net_bind; [|exact Q3].
  erewrite net_bind; [|eapply (ip_header_out_eq e' m body); try done; [|lia]].
  - by rewrite i16_small by lia.
  - destruct Hh as [_ Hb Hp _]. unfold bytes in Hb. by eapply Forall_lookup_1 in Hp.
Qed.

Lemma ip_faults s e h src dst rest proto opts :
  in_data s = e ++ (h ++ src ++ dst) ++ rest → length e = 14%nat → ip_start h proto opts → IP src → IP dst → ip_for_us dst →
  ip_protocol proto opts s = None → IP_ProcessIPPacket 14 14 s = None.
Proof.
  intros Ei He Hh Hs Hd Hus Hsub. destruct (ip_reads _ _ _ _ _ _ _ _ Ei He Hh Hs Hd) as ((v & R1 & Hihl) & R2 & R3 & R4). unfold IP_ProcessIPPacket.
  erewrite net_bind; [|exact R1]. cbv zeta. erewrite net_bind; [|exact R4]. unfold IP_COMPARE, ip_for_us in *.
  replace (negb _ && negb _) with false.
  2: { symmetry. destruct Hus as [->| ->]; [by rewrite (bool_decide_eq_true_2 (ServerIPAddress = ServerIPAddress))|
         by rewrite (bool_decide_eq_true_2 (BroadcastIPAddress = BroadcastIPAddress)), andb_false_r]. }
  erewrite net_bind; [|exact R2]. unfold sizeof_IP_Header. rewrite Hihl.
  replace (14 + (20 + Z.of_nat (length opts))) with (34 + Z.of_nat (length opts)) by lia. change (14 + 20) with 34.
  by apply net_bind_none.
Qed.

(** ** Whole frames *)

(** The frame that waits in [FrameOUT]. *)
Definition sent_frame (s : net) : option (list Z) := rd_bytes (out_data s) 0 (FrameLength (FrameOUT s)).
Lemma sent_front f tail n s : out_data s = f ++ tail → FrameLength (FrameOUT s) = n → n = Z.of_nat (length f) → sent_frame s = Some f.
Proof.
  intros Ed En ->. unfold sent_frame. rewrite Ed, En. apply rd_bytes_front. rewrite rd_bytes_in by lia.
  change (Z.to_nat 0) with 0%nat. by rewrite drop_0, Nat2Z.id, firstn_all.
Qed.
(** The frame [f] has arrived. *)
Record arrived (f : list Z) (s : net) : Prop := {
  re_data : ∃ tail, in_data s = f ++ tail;
  re_len : FrameLength (FrameIN s) = Z.of_nat (length f) }.
(** The buffers are arrays of bytes. *)
Record buffers_ok (s : net) : Prop := {
  bo_in : Z.of_nat (length (in_data s)) = ETHERNET_FRAME_SIZE_MAX;
  bo_in_bytes : bytes (in_data s);
  bo_out : Z.of_nat (length (out_data s)) = ETHERNET_FRAME_SIZE_MAX;
  bo_out_bytes : bytes (out_data s) }.

Lemma buffers_same s s' : buffers_ok s → in_data s' = in_data s → length (out_data s') = length (out_data s) → bytes (out_data s') → buffers_ok s'.
Proof. intros [Li Bi Lo Bo] Ei Lo' Bo'. split; [by rewrite Ei|by rewrite Ei|by rewrite Lo'|done]. Qed.
(** What is sent is bytes and fits the buffer. *)
Lemma sent_bytes s f : buffers_ok s → sent_frame s = Some f → bytes f ∧ Z.of_nat (length f) ≤ ETHERNET_FRAME_SIZE_MAX ∧ FrameLength (FrameOUT s) = Z.of_nat (length f).
Proof.
  intros [_ _ Lo Bo] (_ & H0 & Hl & ->)%rd_bytes_inv. change (Z.to_nat 0) with 0%nat. rewrite drop_0, length_take. split; [by apply Forall_take|]. lia.
Qed.
Lemma frame_bytes a b et p : MAC a → MAC b → bytes p → bytes (frame a b et p).
Proof. intros [_ Ha] [_ Hb] Hp. unfold frame. by repeat (apply Forall_app; split; [done || apply be_bytes|]). Qed.
Lemma ServerMAC : MAC ServerMACAddress.
Proof. apply for_us_MAC. by left. Qed.

Lemma arp_reply_bytes hw hlen plen op op' sha spa tha tpa sha' spa' : bytes (arp_packet hw hlen plen op sha spa tha tpa) → MAC sha' → IP spa' →
  bytes (arp_packet hw hlen plen op' sha' spa' sha spa).
Proof.
  intros B [_ B5] [_ B6]. unfold arp_packet in *. apply Forall_app in B as [B1 [_ [B2 [_ [B3 [B4 _]%Forall_app]%Forall_app]%Forall_app]%Forall_app]%Forall_app].
  by repeat (apply Forall_app; split; [done || apply be_bytes|]).
Qed.
Lemma echo_reply_bytes idseq payload : bytes idseq → bytes payload → bytes (echo_reply idseq payload).
Proof.
  intros B1 B2. unfold echo_reply. apply Forall_app. split; [solve_bytes|]. apply Forall_app. split; [apply be_bytes|]. by apply Forall_app.
Qed.
Lemma dhcp_reply_bytes q os t : bytes (dhcp_message q os) → bytes (dhcp_reply q t).
Proof.
  intros [B _]%Forall_app. unfold dhcp_fixed in B.
  apply Forall_app in B as [B0 [B1 [_ [B3 [_ B5]%Forall_app]%Forall_app]%Forall_app]%Forall_app]. rewrite !Forall_cons in B0. destruct B0 as (_ & B0 & B0' & _).
  assert (∀ n, bytes (replicate n 0)) as Bz by (intros n; by apply Forall_replicate).
  unfold dhcp_reply. apply Forall_app. split.
  - unfold dhcp_header_out. generalize (be_bytes 4 0x63825363). generalize (be 4 0x63825363). intros cookie Bc. pose proof (Bz 8%nat). pose proof (Bz 202%nat).
    rewrite !Forall_app. split_and!; try done; solve_bytes.
  - unfold dhcp_lease. generalize (be_bytes 4 86400). generalize (be 4 86400). intros lease Bl. rewrite !Forall_app. split_and!; try done; try solve_bytes.
    destruct (t =? _); solve_bytes; done.
Qed.
Lemma answered_sent f tail n s : n = Z.of_nat (length f) → sent_frame (answered (f ++ tail) n s) = Some f.
Proof. by apply (sent_front f tail). Qed.

Lemma arp_frame s dmac smac hw hlen plen op sha spa tha tpa :
  arrived (frame dmac smac ETHERTYPE_ARP (arp_packet hw hlen plen op sha spa tha tpa)) s → buffers_ok s →
  for_us dmac → MAC smac → length hw = 2%nat → word16 op → MAC sha → IP spa → MAC tha → IP tpa →
  ∃ s', Ethernet_ProcessPacket s = Some (tt, s') ∧ FrameLength (FrameIN s') = 0 ∧
    PortStateTable s' = PortStateTable s ∧ ConnectionStateTable s' = ConnectionStateTable s ∧ buffers_ok s' ∧
    if decide (op = ARP_OPERATION_REQUEST ∧ asks_server tha tpa)
    then sent_frame s' = Some (frame smac ServerMACAddress ETHERTYPE_ARP (arp_packet hw hlen plen ARP_OPERATION_REPLY ServerMACAddress ServerIPAddress sha spa))
    else FrameOUT s' = FrameOUT s.
Proof.
  intros [(tail & Ei) Hlen] Hok Hus Hsm Hhw Hop Hsha Hspa Htha Htpa. pose proof (for_us_MAC _ Hus) as Hdm. pose proof Hok as [Li Bi Lo Bo]. unfold ETHERNET_FRAME_SIZE_MAX in Li, Lo.
  destruct (split_at 14 (out_data s)) as (e & o1 & Eo & He); [lia|]. rewrite Eo, length_app in Lo. rewrite Ei in Bi.
  destruct (split_at 28 o1) as (m & post & -> & Hm); [lia|].
  unfold frame in Ei. rewrite <-!(assoc_L (++)) in Ei.
  pose proof (ARP_eq 14 14 (dmac ++ smac ++ be 2 ETHERTYPE_ARP) tail e m post hw hlen plen op sha spa tha tpa s) as HA.
  rewrite <-!(assoc_L (++)) in HA. specialize (HA Ei).
  rewrite !length_app, be_length, (proj1 Hdm), (proj1 Hsm) in HA. specialize (HA eq_refl ltac:(done) Eo He ltac:(done) Hm Hhw Hsha Hspa Htha Htpa Hop).
  assert (accepted (FrameLength (FrameIN s)) = true) as Hacc.
  { rewrite Hlen. unfold frame, arp_packet. rewrite !length_app, !be_length, (proj1 Hdm), (proj1 Hsm), Hhw, (proj1 Hsha), (proj1 Hspa), (proj1 Htha), (proj1 Htpa). done. }
  case_decide as D.
  - rewrite (ethernet_serves s dmac smac ETHERTYPE_ARP (arp_packet hw hlen plen op sha spa tha tpa ++ tail) 28
      (set_out (e ++ arp_packet hw hlen plen ARP_OPERATION_REPLY ServerMACAddress ServerIPAddress sha spa ++ post) s)); try done.
    2: { intros _. eexists _, e, _. split; [exact Ei|]. split; [done|done]. }
    change (28 =? NO_PROCESS) with false. change (28 >? 0) with true. cbn iota.
    eexists. do 4 (split; [done|]). rewrite out_data_set, drop_app_length' by done. split.
    { rewrite Eo in Bo. apply Forall_app in Bo as [_ [_ Bp]%Forall_app]. apply Forall_app in Bi as [[_ [_ [_ Ba]%Forall_app]%Forall_app]%Forall_app _].
      apply (buffers_same s); [done|done| |]; cbn [out_data answered set_FrameOUT FrameOUT FrameData].
      - rewrite Eo, !length_app, be_length, (proj1 Hsm), He, Hm. unfold arp_packet. rewrite !length_app, !be_length, Hhw, (proj1 Hsha), (proj1 Hspa). done.
      - apply (frame_bytes smac ServerMACAddress); [done|apply ServerMAC|]. apply Forall_app. split; [|done].
        eapply arp_reply_bytes; [exact Ba|apply ServerMAC|by apply ip_for_us_IP; left]. }
    rewrite (assoc_L (++) (be 2 _)), (assoc_L (++) ServerMACAddress), (assoc_L (++) smac). apply answered_sent.
    unfold frame, arp_packet. rewrite !length_app, !be_length, (proj1 Hsm), Hhw, (proj1 Hsha), (proj1 Hspa). done.
  - rewrite (ethernet_serves s dmac smac ETHERTYPE_ARP (arp_packet hw hlen plen op sha spa tha tpa ++ tail) NO_RESPONSE s); try done.
    eexists. do 4 (split; [done|]). split; [by apply (buffers_same s)|done].
Qed.

Lemma ip_frame s dmac smac h src dst opts rest proto r s1 src' dst' e' m payload post :
  in_data s = dmac ++ smac ++ be 2 ETHERTYPE_IPV4 ++ (h ++ src ++ dst) ++ rest → accepted (FrameLength (FrameIN s)) = true →
  for_us dmac → MAC smac → ip_start h proto opts → IP src → IP dst → ip_for_us dst → ip_protocol proto opts s = Some (r, s1) →
  in_data s1 = dmac ++ smac ++ be 2 ETHERTYPE_IPV4 ++ (h ++ src' ++ dst') ++ rest → IP src' → IP dst' → 0 < r → r = Z.of_nat (length payload) →
  out_data s1 = e' ++ m ++ payload ++ post → length e' = 14%nat → length m = 20%nat → buffers_ok s1 →
  ∃ s', Ethernet_ProcessPacket s = Some (tt, s') ∧ sent_frame s' = Some (frame smac ServerMACAddress ETHERTYPE_IPV4 (ip_packet proto dst' src' payload)) ∧
    FrameLength (FrameIN s') = 0 ∧ PortStateTable s' = PortStateTable s1 ∧ ConnectionStateTable s' = ConnectionStateTable s1 ∧ PageBlock s' = PageBlock s1 ∧ buffers_ok s'.
Proof.
  intros Ei Hacc Hus Hsm Hh Hs Hd Hdus Hsub Ei1 Hs' Hd' Hr Er Eo He' Hm Hb1. pose proof (for_us_MAC _ Hus) as Hdm. pose proof Hb1 as [_ _ Hmax Bo1].
  unfold ETHERNET_FRAME_SIZE_MAX in Hmax. rewrite Eo in Bo1. apply Forall_app in Bo1 as [_ [Bm Bp1]%Forall_app].
  assert (0 < r ∧ 34 + r ≤ 1500) as [Hr0 Hr1].
  { split; [done|]. rewrite Eo, !length_app, He', Hm in Hmax. lia. }
  assert (∀ x, dmac ++ smac ++ be 2 ETHERTYPE_IPV4 ++ x = (dmac ++ smac ++ be 2 ETHERTYPE_IPV4) ++ x) as Ea by (intros x; by rewrite <-!(assoc_L (++))).
  assert (length (dmac ++ smac ++ be 2 ETHERTYPE_IPV4) = 14%nat) as He by (by rewrite !length_app, be_length, (proj1 Hdm), (proj1 Hsm)).
  pose proof (ip_serves s (dmac ++ smac ++ be 2 ETHERTYPE_IPV4) h src dst rest proto opts r s1 src' dst' e' m (payload ++ post)) as HI.
  rewrite <-!Ea in HI. specialize (HI Ei He Hh Hs Hd Hdus Hsub). rewrite Z.gtb_ltb, (proj2 (Z.ltb_lt _ _)) in HI by done.
  rewrite (ethernet_serves s dmac smac ETHERTYPE_IPV4 ((h ++ src ++ dst) ++ rest) (20 + r)
    (set_out (e' ++ ip_header r proto dst' src' ++ payload ++ post) s1)); try done.
  - eexists. split; [done|]. rewrite (proj2 (Z.eqb_neq (20 + r) NO_PROCESS)) by (unfold NO_PROCESS; lia).
    rewrite Z.gtb_ltb, (proj2 (Z.ltb_lt _ _)) by lia. rewrite out_data_set, drop_app_length' by done. split; [|split_and!; try done].
    2: { apply (buffers_same s1); [done|done| |]; cbn [out_data answered set_FrameOUT FrameOUT FrameData].
      - rewrite Eo, !length_app, be_length, ip_header_length, (proj1 Hsm), He', Hm by done. cbn. lia.
      - apply (frame_bytes smac ServerMACAddress); [done|apply ServerMAC|]. apply Forall_app. split; [|done]. apply ip_header_bytes; [|done|done].
        destruct Hh as [_ Bh Hp _]. unfold bytes in Bh. by eapply Forall_lookup_1 in Hp. }
    unfold frame, ip_packet. rewrite <-Er. rewrite (assoc_L (++) (ip_header _ _ _ _)), (assoc_L (++) (be 2 _)), (assoc_L (++) ServerMACAddress), (assoc_L (++) smac).
    apply answered_sent. rewrite !length_app, be_length, ip_header_length, (proj1 Hsm) by done. change (length ServerMACAddress) with 6%nat.
    rewrite u16_small by (unfold word16; lia). lia.
  - unfold protocol. change (ETHERTYPE_IPV4 =? ETHERTYPE_ARP) with false. cbn iota. change (ETHERTYPE_IPV4 =? ETHERTYPE_IPV4) with true. cbn iota.
    apply HI. intros _. split_and!; try done. lia.
  - intros _. eexists _, e', _. split; [exact Ei1|]. split; [done|done].
Qed.

(** A received packet whose handler fills the [n] bytes behind the IP header. *)
Lemma out_split s n : buffers_ok s → 34 + Z.of_nat n ≤ 1500 →
  ∃ e m b post, out_data s = e ++ m ++ b ++ post ∧ length e = 14%nat ∧ length m = 20%nat ∧ length b = n ∧
    (34 + length b + length post = 1500)%nat ∧ bytes m ∧ bytes b ∧ bytes post.
Proof.
  intros [_ _ Lo Bo] Hn. unfold ETHERNET_FRAME_SIZE_MAX in Lo. destruct (split_at 14 (out_data s)) as (e & o1 & Eo & He); [lia|].
  rewrite Eo in Lo, Bo. rewrite length_app in Lo. apply Forall_app in Bo as [_ Bo]. destruct (split_at 20 o1) as (m & o2 & -> & Hm); [lia|].
  rewrite length_app in Lo. apply Forall_app in Bo as [Bm Bo]. destruct (split_at n o2) as (b & post & -> & Hb); [lia|]. rewrite length_app in Lo.
  apply Forall_app in Bo as [Bb Bp]. exists e, m, b, post. split_and!; try done. lia.
Qed.

Lemma ping_frame s dmac smac h src dst opts code c0 c1 idseq payload :
  arrived (frame dmac smac ETHERTYPE_IPV4 ((h ++ src ++ dst) ++ opts ++ echo_request code c0 c1 idseq payload)) s → buffers_ok s →
  accepted (FrameLength (FrameIN s)) = true → for_us dmac → MAC smac → ip_start h PROTOCOL_ICMP opts → IP src → IP dst → ip_for_us dst →
  length idseq = 4%nat →
  ∃ s', Ethernet_ProcessPacket s = Some (tt, s') ∧
    sent_frame s' = Some (frame smac ServerMACAddress ETHERTYPE_IPV4 (ip_packet PROTOCOL_ICMP dst src (echo_reply idseq payload))) ∧
    FrameLength (FrameIN s') = 0 ∧ PortStateTable s' = PortStateTable s ∧ ConnectionStateTable s' = ConnectionStateTable s ∧ PageBlock s' = PageBlock s ∧ buffers_ok s'.
Proof.
  intros [(tail & Ei) Hlen] Hok Hacc Hus Hsm Hh Hs Hd Hdus Hid. pose proof (for_us_MAC _ Hus) as Hdm. pose proof Hok as [Li Bi Lo Bo].
  unfold ETHERNET_FRAME_SIZE_MAX in *.
  assert (length (frame dmac smac ETHERTYPE_IPV4 ((h ++ src ++ dst) ++ opts ++ echo_request code c0 c1 idseq payload)) =
    (42 + length opts + length payload)%nat) as Lf.
  { unfold frame, echo_request. rewrite !length_app, be_length, (proj1 Hdm), (proj1 Hsm), (is_len _ _ _ Hh), (proj1 Hs), (proj1 Hd), Hid. cbn. lia. }
  rewrite Ei in Li, Bi. rewrite length_app, Lf in Li. rewrite Lf in Hlen.
  destruct (out_split s (8 + length payload)) as (e & m & b & post & Eo & He & Hm & Hb & Lp & Bm & Bb & Bp); [done|lia|].
  destruct (split_at 8 b) as (m1 & m2 & -> & Hm1); [lia|]. rewrite length_app in Hb.
  apply Forall_app in Bi as [Bf _]. unfold frame, echo_request in Bf. rewrite !Forall_app in Bf.
  destruct Bf as (_ & _ & _ & _ & _ & _ & Bid & Bpl).
  unfold frame in Ei. rewrite <-!(assoc_L (++)) in Ei.
  eapply (ip_frame s dmac smac h src dst opts _ PROTOCOL_ICMP (8 + Z.of_nat (length payload))
    (set_out (e ++ m ++ echo_reply idseq payload ++ post) s) src dst e m (echo_reply idseq payload) post); try done.
  - rewrite Ei. by rewrite <-!(assoc_L (++)).
  - unfold ip_protocol. cbv zeta. change (PROTOCOL_ICMP =? PROTOCOL_ICMP) with true. cbn iota.
    rewrite (ICMP_echo (34 + Z.of_nat (length opts)) 34 (dmac ++ smac ++ be 2 ETHERTYPE_IPV4 ++ (h ++ src ++ dst) ++ opts) tail (e ++ m) m1 m2 post
      code c0 c1 idseq payload s); try done; try lia.
    all: first [by rewrite <-!(assoc_L (++))|by rewrite Ei, <-!(assoc_L (++))|by rewrite Eo, <-!(assoc_L (++))|by rewrite length_app, He, Hm|idtac].
    rewrite !length_app, be_length, (proj1 Hdm), (proj1 Hsm), (is_len _ _ _ Hh), (proj1 Hs), (proj1 Hd). lia.
  - etransitivity; [exact Ei|]. by rewrite <-!(assoc_L (++)).
  - lia.
  - rewrite echo_reply_length by done. lia.
  - apply (buffers_same s); [done|done| |]; rewrite out_data_set.
    + rewrite Eo, !length_app, echo_reply_length by done. lia.
    + rewrite Eo in Bo. apply Forall_app in Bo as [Be _]. apply Forall_app; split; [done|]. apply Forall_app; split; [done|]. apply Forall_app; split; [|done].
      by apply echo_reply_bytes.
Qed.

Lemma dhcp_frame s dmac smac h src dst opts sport len csum r os t :
  arrived (frame dmac smac ETHERTYPE_IPV4 ((h ++ src ++ dst) ++ opts ++ udp_datagram sport UDP_PORT_DHCP_REQUEST len csum (dhcp_message r os))) s →
  buffers_ok s → accepted (FrameLength (FrameIN s)) = true → for_us dmac → MAC smac → ip_start h PROTOCOL_UDP opts → IP src → IP dst → ip_for_us dst →
  Forall well_formed os → message_type os = Some t →
  ∃ s', Ethernet_ProcessPacket s = Some (tt, s') ∧
    sent_frame s' = Some (frame smac ServerMACAddress ETHERTYPE_IPV4
      (ip_packet PROTOCOL_UDP ServerIPAddress ClientIPAddress (udp_datagram UDP_PORT_DHCP_REQUEST sport 270 0 (dhcp_reply r t)))) ∧
    FrameLength (FrameIN s') = 0 ∧ PortStateTable s' = PortStateTable s ∧ ConnectionStateTable s' = ConnectionStateTable s ∧ PageBlock s' = PageBlock s ∧ buffers_ok s'.
Proof.
  intros [(tail & Ei) Hlen] Hok Hacc Hus Hsm Hh Hs Hd Hdus Hw Ht. pose proof (for_us_MAC _ Hus) as Hdm. pose proof Hok as [Li Bi Lo Bo].
  unfold ETHERNET_FRAME_SIZE_MAX in *.
  destruct (out_split s 270) as (e & m & b & post & Eo & He & Hm & Hb & Lp & Bm & Bb & Bp); [done|lia|].
  destruct (split_at 8 b) as (mu & b1 & -> & Hmu); [lia|]. rewrite length_app in Hb. destruct (split_at 240 b1) as (mid & m2 & -> & Hmid); [lia|].
  rewrite length_app in Hb. unfold frame in Ei. rewrite <-!(assoc_L (++)) in Ei.
  set (reply := udp_datagram UDP_PORT_DHCP_REQUEST sport 270 0 (dhcp_reply r t)).
  assert (length reply = 270%nat) as Lr.
  { unfold reply, udp_datagram, dhcp_reply. rewrite !length_app, !be_length, dhcp_header_out_length. by destruct (decide (t = 1)) as [->|]. }
  set (rest := opts ++ udp_datagram sport UDP_PORT_DHCP_REQUEST len csum (dhcp_message r os) ++ tail).
  assert (bytes rest ∧ bytes (dhcp_message r os)) as [Br Bm'].
  { rewrite Ei in Bi. apply Forall_app in Bi as [_ [_ [_ [_ [_ [_ Br]%Forall_app]%Forall_app]%Forall_app]%Forall_app]%Forall_app]. split; [done|].
    apply Forall_app in Br as [_ [Bu _]%Forall_app]. by apply Forall_app in Bu as [_ [_ [_ [_ Bu]%Forall_app]%Forall_app]%Forall_app]. }
  eapply (ip_frame s dmac smac h src dst opts rest PROTOCOL_UDP 270
    (set_out (e ++ m ++ reply ++ post) (set_in (dmac ++ smac ++ be 2 ETHERTYPE_IPV4 ++ (h ++ ClientIPAddress ++ ServerIPAddress) ++ rest) s))
    ClientIPAddress ServerIPAddress e m reply post); try done; try (unfold ClientIPAddress; split; [done|solve_bytes]).
  - rewrite Ei. unfold rest. by rewrite <-!(assoc_L (++)).
  - unfold ip_protocol. cbv zeta. change (PROTOCOL_UDP =? PROTOCOL_ICMP) with false. change (PROTOCOL_UDP =? PROTOCOL_TCP) with false.
    change (PROTOCOL_UDP =? PROTOCOL_UDP) with true. cbn iota.
    rewrite (UDP_eq 14 (34 + Z.of_nat (length opts)) 34 (dmac ++ smac ++ be 2 ETHERTYPE_IPV4) h src dst opts tail (e ++ m) mu mid m2 post
      sport len csum r os t s); try done; try lia; try apply Hs; try apply Hd; try apply Hh.
    + unfold rest, reply. by rewrite <-!(assoc_L (++)).
    + rewrite Ei. by rewrite <-!(assoc_L (++)).
    + by rewrite !length_app, be_length, (proj1 Hdm), (proj1 Hsm).
    + rewrite !length_app, be_length, (proj1 Hdm), (proj1 Hsm), (is_len _ _ _ Hh), (proj1 Hs), (proj1 Hd). lia.
    + by rewrite Eo, <-!(assoc_L (++)).
    + by rewrite length_app, He, Hm.
  - rewrite Lr. done.
  - apply (buffers_same (set_in (dmac ++ smac ++ be 2 ETHERTYPE_IPV4 ++ (h ++ ClientIPAddress ++ ServerIPAddress) ++ rest) s)); [|done| |]; try rewrite out_data_set.
    + split; [| |done|done].
      * rewrite Ei in Li. unfold in_data, set_in. cbn [FrameIN set_FrameIN with_data FrameData]. unfold ETHERNET_FRAME_SIZE_MAX, rest.
        rewrite !length_app in *. rewrite (proj1 Hs), (proj1 Hd) in Li. change (length ClientIPAddress) with 4%nat. change (length ServerIPAddress) with 4%nat. lia.
      * unfold in_data, set_in. cbn [FrameIN set_FrameIN with_data FrameData]. apply (frame_bytes dmac smac); [done|done|]. apply Forall_app. split; [|done].
        apply Forall_app. split; [apply Hh|]. unfold ClientIPAddress, ServerIPAddress. solve_bytes.
    + change (out_data (set_in ?d s)) with (out_data s). rewrite Eo, !length_app, Lr. lia.
    + rewrite Eo in Bo. apply Forall_app in Bo as [Be _]. apply Forall_app; split; [done|]. apply Forall_app; split; [done|]. apply Forall_app; split; [|done].
      unfold reply, udp_datagram. repeat (apply Forall_app; split; [apply be_bytes|]). by eapply dhcp_reply_bytes.
Qed.

(** ** TCP frames *)

(** A segment as a peer sends it: ports, sequence and acknowledgement numbers,
    data offset, flags, the window, checksum and urgent pointer, options and
    data. *)
Definition peer_segment (sp dp : list Z) (seq : Z) (ack : list Z) (off flags : Z) (more topts data : list Z) : list Z :=
  (sp ++ dp ++ be 4 seq ++ ack ++ [off; flags] ++ more) ++ topts ++ data.
(** The total length in the IP header and the data offset fit the packet. *)
Definition lengths_ok (h opts : list Z) (off : Z) (topts data : list Z) : Prop :=
  get_field off 4 4 * 4 = 20 + Z.of_nat (length topts) ∧
  ∃ tl, take 2 (drop 2 h) = be 2 tl ∧ word16 tl ∧ tl = 40 + Z.of_nat (length opts) + Z.of_nat (length topts) + Z.of_nat (length data).

(** The packet in the terms of [TCP_ProcessTCPPacket]. *)
Definition segment_of (opts src sp dp : list Z) (flags : Z) : segment_in :=
  Segment_in 14 (34 + Z.of_nat (length opts)) 34 (le_value dp) src (le_value sp) flags.

Section TCP.
Context (s : net) (dmac smac h src dst opts sp dp : list Z) (seq : Z) (ack : list Z) (off flags : Z) (more topts data : list Z).
Context (Hre : arrived (frame dmac smac ETHERTYPE_IPV4 ((h ++ src ++ dst) ++ opts ++ peer_segment sp dp seq ack off flags more topts data)) s).
Context (Hok : buffers_ok s) (Hacc : accepted (FrameLength (FrameIN s)) = true) (Hus : for_us dmac) (Hsm : MAC smac).
Context (Hh : ip_start h PROTOCOL_TCP opts) (Hs : IP src) (Hd : IP dst) (Hdus : ip_for_us dst).
Context (Hsp : Port sp) (Hdp : Port dp) (Hack : length ack = 4%nat) (Hmore : length more = 6%nat) (Hlen : lengths_ok h opts off topts data).
Abbreviation g := (segment_of opts src sp dp flags).

Lemma tcp_reads : carries g seq data s ∧
  in16 (s_TCP g + tcp_DestinationPort) s = Some (s_Port g, s) ∧ in_bytes (s_IP g + ip_SourceAddress) sizeof_IP_Address s = Some (s_Address g, s) ∧
  in16 (s_TCP g + tcp_SourcePort) s = Some (s_RemotePort g, s) ∧ in8 (s_TCP g + tcp_Flags) s = Some (s_Flags g, s) ∧
  in_bytes (s_IP g + ip_DestinationAddress) 4 s = Some (dst, s).
Proof using Hre Hus Hsm Hh Hs Hd Hsp Hdp Hack Hmore Hlen.
  destruct Hre as [(tail & Ei) _]. pose proof (for_us_MAC _ Hus) as Hdm. destruct Hlen as (Hoff & tl & Htl & Wtl & Etl).
  unfold frame in Ei. rewrite <-!(assoc_L (++)) in Ei.
  assert (in_data s = (dmac ++ smac ++ be 2 ETHERTYPE_IPV4) ++ (h ++ src ++ dst) ++ opts ++ peer_segment sp dp seq ack off flags more topts data ++ tail) as E1
    by (rewrite Ei; by rewrite <-!(assoc_L (++))).
  assert (length (dmac ++ smac ++ be 2 ETHERTYPE_IPV4) = 14%nat) as He by (by rewrite !length_app, be_length, (proj1 Hdm), (proj1 Hsm)).
  destruct (ip_reads _ _ _ _ _ _ _ _ E1 He Hh Hs Hd) as ((v & R1 & Hihl) & _ & R3 & R4).
  set (th := sp ++ dp ++ be 4 seq ++ ack ++ [off; flags] ++ more).
  assert (in_data s = (dmac ++ smac ++ be 2 ETHERTYPE_IPV4 ++ h ++ src ++ dst ++ opts) ++ th ++ (topts ++ data) ++ tail) as E2
    by (rewrite Ei; unfold peer_segment, th; by rewrite <-!(assoc_L (++))).
  set (p := 34 + Z.of_nat (length opts)).
  assert (length (dmac ++ smac ++ be 2 ETHERTYPE_IPV4 ++ h ++ src ++ dst ++ opts) = Z.to_nat p) as Lp.
  { unfold p. rewrite !length_app, be_length, (proj1 Hdm), (proj1 Hsm), (is_len _ _ _ Hh), (proj1 Hs), (proj1 Hd). lia. }
  assert (0 ≤ p) as Hp0 by (unfold p; lia).
  assert (∀ o n b, rd_bytes th o n = Some b → in_le n (p + o) s = Some (le_value b, s)) as R by (intros; by eapply in_le_mid).
  assert (rd_bytes th 0 2 = Some sp ∧ rd_bytes th 2 2 = Some dp ∧ rd_bytes th 4 4 = Some (be 4 seq) ∧ rd_bytes th 12 1 = Some [off] ∧
    rd_bytes th 13 1 = Some [flags]) as (T1 & T2 & T3 & T4 & T5).
  { destruct Hsp as [L1 _], Hdp as [L2 _]. clear -L1 L2 Hack Hmore th. subst th. revert L1 L2 Hack Hmore. generalize sp dp ack more. clear. intros sp dp ack more L1 L2 L3 L4.
    elements L1. elements L2. elements L3. elements L4. done. }
  cbn [s_TCP s_IP s_Port s_Address s_RemotePort s_Flags segment_of]. fold p. unfold in8, in16, in32.
  split_and!; [|by apply R|done|by apply R|by rewrite <-(one_byte flags); apply R|done]. split; [by apply R|].
  exists v, off, tl. cbn [s_TCP s_IP segment_of]. fold p. split_and!; try done.
  - rewrite <-(one_byte off) at 1. by apply R.
  - eapply in_le_mid; [exact E1|done|done|]. rewrite rd_bytes_in; [|done|done|rewrite !length_app, (is_len _ _ _ Hh); unfold ip_TotalLength; lia].
    f_equal. rewrite drop_app_le by (rewrite (is_len _ _ _ Hh); unfold ip_TotalLength; lia). rewrite take_app_le; [exact Htl|].
    rewrite length_drop, (is_len _ _ _ Hh). unfold ip_TotalLength. lia.
  - lia.
  - rewrite Hoff.
    assert (length th = 20%nat) as Lth.
    { unfold th. rewrite !length_app, be_length, (proj1 Hsp), (proj1 Hdp), Hack, Hmore. done. }
    apply (in_bytes_mid (dmac ++ smac ++ be 2 ETHERTYPE_IPV4 ++ h ++ src ++ dst ++ opts) (th ++ topts ++ data) tail); [|done|done|].
    + rewrite E2. by rewrite <-!(assoc_L (++)).
    + rewrite (assoc_L (++)), rd_bytes_in; [|lia|lia|rewrite !length_app, Lth; lia]. f_equal.
      rewrite drop_app_length' by (rewrite length_app, Lth; lia). by rewrite Nat2Z.id, firstn_all.
Qed.

(** The frame that answers the packet with the flags [f] and the connection [c]. *)
Definition tcp_answer (c : TCP_ConnectionState_t) (f : Z) : list Z :=
  frame smac ServerMACAddress ETHERTYPE_IPV4 (ip_packet PROTOCOL_TCP dst src (reply_segment g dst c f)).
(** The effect of a reaction on the whole stack. *)
Definition stack_effect (k : nat) (r : TCP_ConnectionState_t * answer) (s' : net) : Prop :=
  ConnectionStateTable s' = <[k := r.1]> (ConnectionStateTable s) ∧ PortStateTable s' = PortStateTable s ∧ PageBlock s' = PageBlock s ∧ buffers_ok s' ∧
  match r.2 with
  | Quiet => FrameLength (FrameIN s') = 0 ∧ FrameLength (FrameOUT s') = FrameLength (FrameOUT s)
  | Answer f => FrameLength (FrameIN s') = 0 ∧ sent_frame s' = Some (tcp_answer r.1 f)
  | Defer => FrameIN s' = FrameIN s ∧ FrameLength (FrameOUT s') = FrameLength (FrameOUT s)
  end.

Lemma reply_segment_length gg c f : length (reply_segment gg dst c f) = 20%nat.
Proof.
  unfold reply_segment, tcp_segment. cbv zeta. rewrite app_nil_r. apply tcp_header_length; [| |apply be_length];
    split; (apply le_store_length || apply le_store_bytes).
Qed.

Lemma reply_segment_bytes gg c f : byte f → bytes (reply_segment gg dst c f).
Proof.
  intros Hf. unfold reply_segment, tcp_segment. cbv zeta. rewrite app_nil_r.
  apply tcp_header_bytes; try done; try apply be_bytes; split; (apply le_store_length || apply le_store_bytes).
Qed.

Lemma quiet_buffers k c pre hdr post : pre ++ hdr ++ post = out_data s → buffers_ok (during k s pre post c hdr) ∧ buffers_ok (emptied (during k s pre post c hdr)).
Proof using Hok. intros E. split; apply (buffers_same s); try done; cbn; rewrite E; try done; apply Hok. Qed.

Lemma tcp_frame k c0 : target g k c0 s → port_open (s_Port g) s →
  match react flags seq data c0 with
  | Some r => ∃ s', Ethernet_ProcessPacket s = Some (tt, s') ∧ stack_effect k r s'
  | None => Ethernet_ProcessPacket s = None
  end.
Proof using All.
  intros Ht Ho. destruct tcp_reads as (Hca & R1 & R2 & R3 & R4 & R5).
  destruct (out_split s 20) as (e & m & hdr & post & Eo & He & Hm & Hb & Lp & Bm & Bb & Bp); [done|lia|].
  assert (post ≠ []) as Hne by (intros ->; cbn in Lp; lia).
  pose proof (process_eq g k c0 s (e ++ m) hdr post seq data dst Ht Ho) as HP.
  rewrite <-!(assoc_L (++)) in HP. specialize (HP Eo). rewrite length_app, He, Hm in HP.
  specialize (HP eq_refl ltac:(done) Hb Bb Bp Hne Hca R5 Hd Hs R1 R2 R3 R4). cbn [s_IP s_TCP s_OUT segment_of s_Flags] in HP.
  destruct Hre as [(tail & Ei) _]. pose proof (for_us_MAC _ Hus) as Hdm. unfold frame in Ei. rewrite <-!(assoc_L (++)) in Ei.
  set (rest := opts ++ peer_segment sp dp seq ack off flags more topts data ++ tail).
  assert (in_data s = dmac ++ smac ++ be 2 ETHERTYPE_IPV4 ++ (h ++ src ++ dst) ++ rest) as E1 by (rewrite Ei; unfold rest; by rewrite <-!(assoc_L (++))).
  assert (in_data s = (dmac ++ smac ++ be 2 ETHERTYPE_IPV4) ++ (h ++ src ++ dst) ++ rest) as E2 by (rewrite E1; by rewrite <-!(assoc_L (++))).
  assert (length (dmac ++ smac ++ be 2 ETHERTYPE_IPV4) = 14%nat) as Le by (by rewrite !length_app, be_length, (proj1 Hdm), (proj1 Hsm)).
  assert (ip_protocol PROTOCOL_TCP opts = TCP_ProcessTCPPacket 14 (34 + Z.of_nat (length opts)) 34) as Epr by done.
  assert (∀ n s1, n ≤ 0 → TCP_ProcessTCPPacket 14 (34 + Z.of_nat (length opts)) 34 s = Some (n, s1) →
    Ethernet_ProcessPacket s = Some (tt, if n =? NO_PROCESS then s1 else emptied s1)) as Hquiet.
  { intros n s1 Hn Hs1. rewrite (ethernet_serves s dmac smac ETHERTYPE_IPV4 ((h ++ src ++ dst) ++ rest) n s1); try done; [| |lia].
    - do 2 f_equal. destruct (n =? NO_PROCESS); [done|]. rewrite Z.gtb_ltb. by rewrite (proj2 (Z.ltb_ge _ _)) by lia.
    - unfold protocol. change (ETHERTYPE_IPV4 =? ETHERTYPE_ARP) with false. change (ETHERTYPE_IPV4 =? ETHERTYPE_IPV4) with true. cbn iota.
      rewrite (ip_serves s _ h src dst rest PROTOCOL_TCP opts n s1 src dst [] [] [] E2 Le Hh Hs Hd Hdus); [|by rewrite Epr|lia].
      rewrite Z.gtb_ltb. by rewrite (proj2 (Z.ltb_ge _ _)) by lia. }
  destruct (react flags seq data c0) as [r|] eqn:Er; cbn [mbind option_bind] in HP.
  2: { eapply (ethernet_faults s dmac smac ETHERTYPE_IPV4 ((h ++ src ++ dst) ++ rest)); try done.
       eapply (ip_faults s _ h src dst rest PROTOCOL_TCP opts); [exact E2|exact Le|done..|by rewrite Epr]. }
  destruct r as [c [|f|]]; cbn [processed] in HP.
  - apply Hquiet in HP; [|done]. eexists. split; [exact HP|]. split_and!; try done. apply (quiet_buffers k c); by rewrite <-(assoc_L (++)), <-Eo.
  - destruct (ip_frame s dmac smac h src dst opts rest PROTOCOL_TCP 20 (during k s (e ++ m) post c (reply_segment g dst c f)) src dst e m
      (reply_segment g dst c f) post) as (s' & Es' & Hs' & Hl' & Hp' & Hc' & Hpb' & Hb'); try done.
    * cbn [out_data during put set_ConnectionStateTable set_out set_FrameOUT with_data FrameOUT FrameData]. by rewrite <-!(assoc_L (++)).
    * cbn [out_data during put set_ConnectionStateTable set_out set_FrameOUT with_data FrameOUT FrameData].
      apply (buffers_same s); try done; cbn [out_data during put set_ConnectionStateTable set_out set_FrameOUT with_data FrameOUT FrameData].
      + rewrite Eo, !length_app, reply_segment_length, Hb. lia.
      + pose proof (bo_out_bytes _ Hok) as Bo. rewrite Eo in Bo. apply Forall_app in Bo as [Be _].
        rewrite <-!(assoc_L (++)). do 2 (apply Forall_app; split; [done|]). apply Forall_app; split; [|done]. eapply reply_segment_bytes, react_flags, Er.
    * exists s'. split; [done|]. split; [done|]. split; [done|]. split; [done|]. split; [done|]. split; [done|]. exact Hs'.
  - apply Hquiet in HP; [|done]. eexists. split; [exact HP|]. split_and!; try done. apply (quiet_buffers k c); by rewrite <-(assoc_L (++)), <-Eo.
Qed.
End TCP.

(** ** The task: buffers become frames *)
Lemma put_as_info k c c' s f : ConnectionStateTable s !! k = Some c → c' = set_C_Info (f (C_Info c)) c → info_set (Some k) f s = Some (tt, put k c' s).
Proof. intros H ->. unfold info_set. cbn. by rewrite H. Qed.

Definition AdapterMACAddress : list Z := [0x02; 0x00; 0x02; 0x00; 0x02; 0x00].
(** The frame that carries [data] of the connection [c] from sequence number
    [seq] on. *)
Definition data_frame (c : TCP_ConnectionState_t) (seq : Z) (data : list Z) : list Z :=
  frame AdapterMACAddress ServerMACAddress ETHERTYPE_IPV4 (ip_packet PROTOCOL_TCP ServerIPAddress (C_RemoteAddress c)
    (tcp_segment ServerIPAddress (C_RemoteAddress c) (le_store 2 (C_Port c)) (le_store 2 (C_RemotePort c)) seq
       (SequenceNumberIn (C_Info c)) TCP_FLAG_ACK TCP_WINDOW_SIZE data)).

Lemma tcp_segment_length src dst sp dp seq ack f win data : Port sp → Port dp → length (tcp_segment src dst sp dp seq ack f win data) = (20 + length data)%nat.
Proof. intros Hs Hd. unfold tcp_segment. cbv zeta. rewrite length_app, tcp_header_length by (done || apply be_length). done. Qed.

Lemma data_frame_length c sq data : IP (C_RemoteAddress c) → length (data_frame c sq data) = (54 + length data)%nat.
Proof.
  intros Hra. unfold data_frame, frame, ip_packet. rewrite !length_app, be_length, ip_header_length, tcp_segment_length;
    first [done | apply (ip_for_us_IP ServerIPAddress); by left | split; (apply le_store_length || apply le_store_bytes)].
Qed.
Lemma data_frame_bytes c sq data : IP (C_RemoteAddress c) → bytes data → bytes (data_frame c sq data).
Proof.
  intros Hra Bd. apply frame_bytes; [split; [done|]; unfold AdapterMACAddress; solve_bytes|apply ServerMAC|]. apply Forall_app. split.
  - apply ip_header_bytes; [done|apply (ip_for_us_IP ServerIPAddress); by left|done].
  - unfold tcp_segment. apply Forall_app. split; [|done]. apply tcp_header_bytes; try done; try apply be_bytes; split; (apply le_store_length || apply le_store_bytes).
Qed.

(** The IP and Ethernet headers in front of a segment. *)
Lemma headers_out e m seg post dst s : out_data s = e ++ m ++ seg ++ post → length e = 14%nat → length m = 20%nat → bytes m → IP dst →
  Z.of_nat (length seg) < 32768 →
  ∃ s1, ip_header_out 14 (Z.of_nat (length seg)) PROTOCOL_TCP ServerIPAddress dst s = Some (tt, s1) ∧
    ethernet_header_out [0x02; 0x00; 0x02; 0x00; 0x02; 0x00] (le_store 2 (SwapEndian_16 ETHERTYPE_IPV4)) s1 =
      Some (tt, set_out (frame AdapterMACAddress ServerMACAddress ETHERTYPE_IPV4 (ip_packet PROTOCOL_TCP ServerIPAddress dst seg) ++ post) s).
Proof.
  intros Eo He Hm Bm Hd Hl. eexists. split.
  - eapply (ip_header_out_eq e m (seg ++ post)); try done; [by apply (ip_for_us_IP ServerIPAddress); left|lia].
  - unfold ethernet_header_out. erewrite (out_assigns_mid [] e _ (AdapterMACAddress ++ ServerMACAddress ++ be 2 ETHERTYPE_IPV4) 0);
      [|by rewrite out_data_set|done|done|clear -He; elements He; reflexivity].
    rewrite set_out_out. unfold frame, ip_packet. by rewrite <-!(assoc_L (++)).
Qed.

Lemma tcp_send_eq s k c data : ConnectionStateTable s !! k = Some c → buffers_ok s → IP (C_RemoteAddress c) →
  rd_bytes (B_Data (Buffer (C_Info c))) 0 (B_Length (Buffer (C_Info c))) = Some data → bytes data → (length data ≤ 512)%nat →
  ∃ post s', tcp_send k s = Some (tt, s') ∧
    FrameOUT s' = Ethernet_Frame_Info (data_frame c (SequenceNumberOut (C_Info c)) data ++ post) (Z.of_nat (length (data_frame c (SequenceNumberOut (C_Info c)) data))) ∧
    ConnectionStateTable s' = <[k := on_buffer (set_B_Ready false) (bump_out (Z.of_nat (length data)) c)]> (ConnectionStateTable s) ∧
    FrameIN s' = FrameIN s ∧ PortStateTable s' = PortStateTable s ∧ PageBlock s' = PageBlock s ∧ buffers_ok s'.
Proof.
  intros Hk Hok Hra Hrd Bd Hmax. pose proof (rd_bytes_inv _ _ _ _ Hrd) as (_ & Hn0 & _ & Edata).
  assert (B_Length (Buffer (C_Info c)) = Z.of_nat (length data)) as Hn.
  { apply rd_bytes_inv in Hrd as (_ & _ & Hl & E). rewrite E, length_take, length_drop. cbn. lia. }
  destruct (out_split s (20 + length data)) as (e & m & b & post & Eo & He & Hm & Hb & Lp & Bm & Bb & Bp); [done|lia|].
  destruct (split_at 20 b) as (hdr & m2 & -> & Hh); [lia|]. rewrite length_app in Hb. apply Forall_app in Bb as [Bh Bm2].
  assert (post ≠ []) as Hne by (intros ->; rewrite length_app in Lp; cbn in Lp; lia).
  unfold tcp_send. cbv zeta. unfold net_gets, net_lift. erewrite net_bind; [|done]. erewrite net_bind; [|by rewrite Hk]. rewrite Hn in *.
  unfold sizeof_Ethernet_Frame_Header, sizeof_IP_Header.
  set (sp := le_store 2 (C_Port c)). set (dp := le_store 2 (C_RemotePort c)).
  assert (Port sp ∧ Port dp) as [Hsp Hdp] by (split; split; try apply le_store_length; apply le_store_bytes).
  set (i := C_Info c) in *.
  set (hd := tcp_header sp dp (SequenceNumberOut i) (SequenceNumberIn i) TCP_FLAG_ACK TCP_WINDOW_SIZE [0; 0]).
  assert (length hd = 20%nat) as Lhd by by apply tcp_header_length.
  erewrite net_bind.
  2: { eapply (out_assigns_mid (e ++ m) hdr (m2 ++ post) hd); [by rewrite Eo, <-!(assoc_L (++))|by rewrite length_app, He, Hm|done|by apply tcp_fill_send]. }
  erewrite net_bind; [|by rewrite Hrd].
  erewrite net_bind.
  2: { eapply (out_assigns_mid (e ++ m ++ hd) m2 post data); [by rewrite out_data_set, <-!(assoc_L (++))|by rewrite !length_app, He, Hm, Lhd|done|].
    cbn [assigns assign]. change (0 + 0) with 0. rewrite wr_bytes_eq by lia. cbn. rewrite drop_ge, app_nil_r by lia. done. }
  rewrite set_out_out. set (s1 := set_out _ s).
  set (c1 := bump_out (Z.of_nat (length data)) c).
  erewrite net_bind; [|by apply (put_as_info k c c1 s1)].
  assert (u16 (sizeof_TCP_Header + Z.of_nat (length data)) = 20 + Z.of_nat (length data)) as E20 by (apply u16_small; unfold word16, sizeof_TCP_Header; lia).
  rewrite E20.
  destruct (tcp_checksum_out (e ++ m) post 34 ServerIPAddress (C_RemoteAddress c) sp dp (SequenceNumberOut i) (SequenceNumberIn i) TCP_FLAG_ACK TCP_WINDOW_SIZE data
    (put k c1 s1)) as (cs & Ec & Ea); try done; try lia.
  { unfold s1. cbn [out_data put set_ConnectionStateTable set_out set_FrameOUT with_data FrameOUT FrameData]. by rewrite <-!(assoc_L (++)). }
  { by rewrite length_app, He, Hm. }
  { by apply (ip_for_us_IP ServerIPAddress); left. }
  change (14 + 20) with 34. erewrite net_bind; [|exact Ec]. erewrite net_bind; [|exact Ea].
  set (seg := tcp_segment ServerIPAddress _ _ _ _ _ _ _ data) in *.
  assert (length seg = (20 + length data)%nat) as Lseg by by apply tcp_segment_length.
  assert (u16 (Z.of_nat (length data) + sizeof_TCP_Header) = Z.of_nat (length seg)) as ->.
  { rewrite u16_small by (unfold word16, sizeof_TCP_Header; lia). unfold sizeof_TCP_Header. lia. }
  set (sd := set_out _ _).
  destruct (headers_out e m seg post (C_RemoteAddress c) sd) as (s3 & Eh & Ee); try done; [unfold sd; by rewrite out_data_set, <-!(assoc_L (++))|lia|].
  erewrite net_bind; [|exact Eh]. erewrite net_bind; [|exact Ee]. unfold sd.
  rewrite !set_out_out. unfold net_modify. erewrite net_bind; [|done].
  set (s2 := set_FrameOUT _ _).
  erewrite (put_as_info k c1 (on_buffer (set_B_Ready false) c1)); [|unfold s2; cbn; rewrite list_lookup_insert_eq by (by eapply lookup_lt_Some); done|done].
  exists post. eexists. split; [done|].
  pose proof (data_frame_length c (SequenceNumberOut i) data Hra) as Lf. pose proof (data_frame_bytes c (SequenceNumberOut i) data Hra Bd) as Bf.
  assert (FrameOUT s2 = Ethernet_Frame_Info (data_frame c (SequenceNumberOut i) data ++ post) (Z.of_nat (length (data_frame c (SequenceNumberOut i) data)))) as Eout.
  { rewrite Lf. unfold s2. cbn [FrameOUT put set_ConnectionStateTable set_FrameOUT set_out]. replace (Z.of_nat (54 + length data)) with (u16 (u16 (Z.of_nat (length seg) + 20) + 14)); [done|].
    rewrite (u16_small (_ + 20)), u16_small by (unfold word16; lia). lia. }
  split_and!; try done.
  - unfold s2. cbn. by rewrite list_insert_insert_eq.
  - assert (length (data_frame c (SequenceNumberOut i) data ++ post) = length (out_data s)) as Ll by (rewrite Eo, !length_app, Lf; lia).
    apply (buffers_same s); [done|done| |]; cbn [put set_ConnectionStateTable FrameOUT]; rewrite Eout; [exact Ll|by apply Forall_app].
Qed.

(** ** The web server *)
Lemma strlen_app l r : Forall (λ b, b ≠ 0) l → strlen (l ++ 0 :: r) = Some (Z.of_nat (length l)).
Proof.
  induction 1 as [|b l Hb _ IH]; [done|]. cbn [app strlen]. rewrite (proj2 (Z.eqb_neq b 0)) by done. rewrite IH. cbn. f_equal. lia.
Qed.

(** The connection [c] with its buffer claimed for sending. *)
Definition serving (c : TCP_ConnectionState_t) (d : list Z) (n : Z) (ready inuse : bool) (st seq : Z) : TCP_ConnectionState_t :=
  TCP_ConnectionState (C_Port c) (C_RemotePort c) (C_RemoteAddress c)
    (TCP_ConnectionInfo (SequenceNumberIn (C_Info c)) seq (TCP_ConnectionBuffer n d TCP_PACKETDIR_OUT ready inuse)) st.
(** A buffer of the size of the window. *)
Definition window_buffer (d : list Z) : Prop := length d = 512%nat ∧ bytes d.
Lemma window_over d l : window_buffer d → bytes l → (length l ≤ 512)%nat → ∃ d', wr_bytes d 0 l = Some d' ∧ window_buffer d' ∧ take (length l) d' = l.
Proof.
  intros [Hd Bd] Bl Hl. rewrite wr_bytes_eq by lia. eexists. split; [done|].
  change (Z.to_nat 0) with 0%nat. rewrite take_0, app_nil_l, Nat.add_0_l. split; [split|].
  - rewrite length_app, length_drop. lia.
  - apply Forall_app. split; [done|by apply Forall_drop].
  - by rewrite take_app_length.
Qed.

(** A request waits in the buffer. *)
Record requested (req : list Z) (c : TCP_ConnectionState_t) : Prop := {
  rq_ready : B_Ready (Buffer (C_Info c)) = true;
  rq_dir : B_Direction (Buffer (C_Info c)) = TCP_PACKETDIR_IN;
  rq_data : ∃ rest, B_Data (Buffer (C_Info c)) = req ++ rest;
  rq_buffer : window_buffer (B_Data (Buffer (C_Info c))) }.

Lemma send_string_eq l c : window_buffer (B_Data (Buffer (C_Info c))) → bytes l → Forall (λ b, b ≠ 0) l → (length l < 512)%nat →
  ∃ d, send_string l c = Some (serving c d (Z.of_nat (length l)) true (B_InUse (Buffer (C_Info c))) (C_State c) (SequenceNumberOut (C_Info c))) ∧
    window_buffer d ∧ take (length l) d = l.
Proof.
  intros Hw Bl Hl Hlen. unfold send_string.
  destruct (window_over _ (c_string l) Hw) as (d & Ed & Hd & Et).
  { apply Forall_app. split; [done|]. solve_bytes. }
  { unfold c_string. rewrite length_app. cbn. lia. }
  exists d. rewrite Ed. cbn [mbind option_bind].
  assert (d = l ++ 0 :: drop (S (length l)) d) as E0.
  { rewrite <-(take_drop (length (c_string l)) d) at 1. rewrite Et. unfold c_string. rewrite length_app, <-(assoc_L (++)). cbn [length app].
    by rewrite Nat.add_1_r. }
  assert (strlen d = Some (Z.of_nat (length l))) as -> by (rewrite E0; by apply strlen_app).
  cbn [mbind option_bind]. split_and!; [|done|].
  - unfold serving, with_buffer, set_C_Info, update_buffer, TCP_APP_SEND_BUFFER, set_Buffer, set_B_Ready, set_B_Length, set_B_Direction, set_B_Data. cbn.
    by rewrite u16_small by (unfold word16; lia).
  - rewrite E0. by rewrite take_app_length.
Qed.

Lemma strings_plain : bytes HTTP200Header ∧ Forall (λ b, b ≠ 0) HTTP200Header ∧ bytes HTTP404Header ∧ Forall (λ b, b ≠ 0) HTTP404Header ∧
  bytes HTTPPage ∧ Forall (λ b, b ≠ 0) HTTPPage.
Proof. split_and!; apply (bool_decide_unpack _); vm_compute; exact I. Qed.

(** The request for the page. *)
Definition GET_root : list Z := [71; 69; 84; 32; 47; 32].
Lemma callback_GET c pb : requested GET_root c →
  ∃ d, Webserver_ApplicationCallback c pb =
      Some (serving c d (Z.of_nat (length HTTP200Header)) true true (C_State c) (SequenceNumberOut (C_Info c)), 0) ∧
    window_buffer d ∧ take (length HTTP200Header) d = HTTP200Header.
Proof.
  intros [Hr Hd (rest & Ereq) Hw]. unfold Webserver_ApplicationCallback, TCP_APP_HAS_RECEIVED_PACKET. rewrite Hr, Hd. cbn [andb Bool.eqb TCP_PACKETDIR_IN].
  destruct strings_plain as (B1 & N1 & _).
  destruct (send_string_eq HTTP200Header c Hw B1 N1) as (d & Es & Hd' & Et); [by apply Nat.ltb_lt; vm_compute|].
  exists d. split; [|done]. unfold web_GET. rewrite Ereq in *.
  assert (IsHTTPCommand (GET_root ++ rest) "GET" = Some true) as -> by reflexivity. cbn [mbind option_bind].
  assert (IsHTTPCommand (GET_root ++ rest) "GET / " = Some true) as -> by reflexivity. cbn [mbind option_bind]. by rewrite Es.
Qed.

(** The blocks of the page. *)
Definition page_block (j : nat) : list Z := take 128 (drop (128 * j) HTTPPage).
Lemma page_blocks : HTTP200Header ++ concat (map page_block (seq 0 4)) = HTTP200Header ++ HTTPPage.
Proof. by vm_compute. Qed.
Definition last_block : nat := 3.

Lemma callback_block c d n st sq j : window_buffer d → (j ≤ last_block)%nat →
  ∃ d', Webserver_ApplicationCallback (serving c d n false true st sq) (Z.of_nat j) =
      Some (serving c d' (Z.of_nat (length (page_block j))) true (negb (j =? last_block)%nat) (if (j =? last_block)%nat then TCP_Connection_Closing else st) sq,
            Z.of_nat (S j)) ∧
    window_buffer d' ∧ take (length (page_block j)) d' = page_block j.
Proof.
  intros Hw Hj. unfold Webserver_ApplicationCallback, TCP_APP_HAS_RECEIVED_PACKET, TCP_APP_HAVE_CAPTURED_BUFFER. cbn [serving C_Info Buffer B_Ready B_InUse B_Direction andb negb Bool.eqb TCP_PACKETDIR_OUT].
  unfold web_block. set (page := drop _ _).
  assert (strlen page = Some (Z.of_nat (length (drop (128 * j) HTTPPage)))) as ->.
  { unfold page, last_block in *. do 4 (destruct j as [|j]; [by vm_compute|]). lia. }
  cbn [mbind option_bind]. set (len := if _ >? _ then _ else _).
  assert (len = Z.of_nat (length (page_block j)) ∧ strncpy page (Z.to_nat len) = Some (page_block j)) as [El ->].
  { unfold page, len, last_block in *. do 4 (destruct j as [|j]; [by vm_compute|]). lia. }
  cbn [mbind option_bind].
  destruct (window_over d (page_block j) Hw) as (d' & Ed & Hd' & Et).
  { apply Forall_take, Forall_drop. apply strings_plain. }
  { unfold page_block. rewrite length_take. lia. }
  exists d'. cbn [serving C_Info Buffer B_Data]. rewrite Ed. cbn [mbind option_bind]. split; [|done]. rewrite El.
  assert (sizeof_HTTPPage / HTTP_REPLY_BLOCK_SIZE = Z.of_nat last_block) as -> by by vm_compute.
  assert (length (page_block j) ≤ 128)%nat as H128 by (unfold page_block; rewrite length_take; lia).
  unfold TCP_APP_SEND_BUFFER. rewrite u16_small by (unfold word16; lia). unfold last_block in *.
  replace (u8 (Z.of_nat j + 1)) with (Z.of_nat (S j)) by (unfold u8; rewrite Z.mod_small; lia).
  destruct (Nat.eqb_spec j 3) as [->|Hne]; [done|]. by rewrite (proj2 (Z.eqb_neq _ _)) by lia.
Qed.

(** Connections the server has nothing to do for. *)
Definition idle (c : TCP_ConnectionState_t) : Prop :=
  B_Ready (Buffer (C_Info c)) = false ∧ (B_InUse (Buffer (C_Info c)) = true → B_Direction (Buffer (C_Info c)) = TCP_PACKETDIR_IN).
Lemma callback_idle c pb : idle c → Webserver_ApplicationCallback c pb = Some (c, pb).
Proof.
  intros [Hr Hi]. unfold Webserver_ApplicationCallback, TCP_APP_HAS_RECEIVED_PACKET, TCP_APP_HAVE_CAPTURED_BUFFER. rewrite Hr. cbn [andb negb].
  destruct (B_InUse _); [|done]. by rewrite Hi.
Qed.

(** The server's port is open and the connection [k] is its only busy one. *)
Record web_state (k : nat) (c : TCP_ConnectionState_t) (s : net) : Prop := {
  ws_port : PortStateTable s = [TCP_PortState TCP_PORT_HTTP TCP_Port_Open (Some Webserver_ApplicationCallback)];
  ws_len : length (ConnectionStateTable s) = MAX_TCP_CONNECTIONS;
  ws_conn : ConnectionStateTable s !! k = Some c;
  ws_http : C_Port c = TCP_PORT_HTTP;
  ws_addr : IP (C_RemoteAddress c);
  ws_idle j d : ConnectionStateTable s !! j = Some d → j ≠ k → idle d;
  ws_bufs : buffers_ok s;
  ws_out : FrameLength (FrameOUT s) = 0 }.

Lemma run_handlers_eq k c c' pb s : web_state k c s → Webserver_ApplicationCallback c (PageBlock s) = Some (c', pb) →
  run_handlers s = Some (set_PageBlock pb (put k c' s)).
Proof.
  intros [Hp Hl Hk Hh _ Hi _ _] Hcb.
  assert (∀ j d s', PortStateTable s' = PortStateTable s → ConnectionStateTable s' !! j = Some d → idle d → run_handler j 0 s' = Some s') as Hidle.
  { intros j d s' Hp' Hd Hid. unfold run_handler. rewrite Hp', Hp. cbn [lookup list_lookup mbind option_bind]. rewrite Hd. cbn [mbind option_bind P_Port P_State ApplicationHandler].
    destruct (_ && _); [|done]. rewrite callback_idle by done. cbn [mbind option_bind fst snd]. rewrite list_insert_id by done. by destruct s'. }
  assert (∀ s', PortStateTable s' = PortStateTable s → ConnectionStateTable s' !! k = Some c → PageBlock s' = PageBlock s →
    run_handler k 0 s' = Some (set_PageBlock pb (put k c' s'))) as Hbusy.
  { intros s' Hp' Hd Hpb. unfold run_handler. rewrite Hp', Hp. cbn [lookup list_lookup mbind option_bind]. rewrite Hd. cbn [mbind option_bind P_Port P_State ApplicationHandler].
    rewrite Hh, Z.eqb_refl, Hpb, Hcb. done. }
  assert (∀ j s', for_up 0 (Z.of_nat MAX_OPEN_TCP_PORTS) (λ p, run_handler j (Z.to_nat p)) s' = run_handler j 0 s') as Hone.
  { intros j s'. unfold for_up. change (Z.to_nat (Z.of_nat MAX_OPEN_TCP_PORTS - 0)) with 1%nat. cbn [for_]. change (Z.to_nat 0) with 0%nat. by destruct (run_handler j 0 s'). }
  unfold run_handlers. unfold for_up at 1. change (Z.to_nat (Z.of_nat MAX_TCP_CONNECTIONS - 0)) with 3%nat. cbn [for_]. rewrite Hone.
  set (s' := set_PageBlock pb (put k c' s)).
  assert (∀ j, (j < 3)%nat → ∃ d, ConnectionStateTable s !! j = Some d) as Hin.
  { intros j Hj. apply lookup_lt_is_Some. rewrite Hl. unfold MAX_TCP_CONNECTIONS. lia. }
  assert (∀ j, (j < 3)%nat → j ≠ k → run_handler j 0 s = Some s) as Hbefore.
  { intros j Hj Hne. destruct (Hin j Hj) as [d Hd]. eapply Hidle; [done|exact Hd|by eapply Hi]. }
  assert (∀ j, (j < 3)%nat → j ≠ k → run_handler j 0 s' = Some s') as Hafter.
  { intros j Hj Hne. destruct (Hin j Hj) as [d Hd]. eapply Hidle; [done| |by eapply Hi]. cbn. by rewrite list_lookup_insert_ne. }
  assert (run_handler k 0 s = Some s') as Hnow by by apply Hbusy.
  pose proof (lookup_lt_Some _ _ _ Hk) as Hk3. rewrite Hl in Hk3. unfold MAX_TCP_CONNECTIONS in Hk3.
  change (Z.to_nat 0) with 0%nat. change (Z.to_nat (0 + 1)) with 1%nat. change (Z.to_nat (0 + 1 + 1)) with 2%nat.
  destruct k as [|[|[|k]]]; [| | |lia].
  - rewrite Hnow. cbn [mbind option_bind]. rewrite Hone, Hafter by lia. cbn [mbind option_bind]. by rewrite Hone, Hafter by lia.
  - rewrite Hbefore by lia. cbn [mbind option_bind]. rewrite Hone, Hnow. cbn [mbind option_bind]. by rewrite Hone, Hafter by lia.
  - rewrite Hbefore by lia. cbn [mbind option_bind]. rewrite Hone, Hbefore by lia. cbn [mbind option_bind]. by rewrite Hone, Hnow.
Qed.

(** One run of the task: the application fills the buffer, which becomes a
    frame. *)
Lemma task_step k c d n iu st sq pb s : web_state k c s →
  Webserver_ApplicationCallback c (PageBlock s) = Some (serving c d (Z.of_nat n) true iu st sq, pb) → window_buffer d → (n ≤ 512)%nat →
  ∃ s', TCP_TCPTask s = Some (tt, s') ∧ sent_frame s' = Some (data_frame c sq (take n d)) ∧
    web_state k (serving c d (Z.of_nat n) false iu st (u32 (sq + Z.of_nat n))) (set_FrameOUT (with_length 0 (FrameOUT s')) s') ∧
    PageBlock s' = pb ∧ FrameLength (FrameOUT s') ≠ 0.
Proof.
  intros Hw Hcb [Hd Bd] Hn. pose proof (run_handlers_eq _ _ _ _ _ Hw Hcb) as Hrun. destruct Hw as [Hp Hl Hk Hh Ha Hi Hb Ho].
  set (c1 := serving c d (Z.of_nat n) true iu st sq) in *. set (s1 := set_PageBlock pb (put k c1 s)) in *.
  assert (k < length (ConnectionStateTable s))%nat as Hlt by by eapply lookup_lt_Some.
  assert (ConnectionStateTable s1 !! k = Some c1) as Hk1 by (cbn; by rewrite list_lookup_insert_eq).
  assert (length (take n d) = n) as Ln by (rewrite length_take; lia).
  destruct (tcp_send_eq s1 k c1 (take n d)) as (post & s' & Es & Eout & Et & Ein & Ep & Epb & Hb'); try done.
  { destruct Hb. by split. }
  { unfold c1. cbn [serving C_Info Buffer B_Data B_Length]. rewrite rd_bytes_in by lia. by rewrite Nat2Z.id. }
  { by apply Forall_take. }
  { lia. }
  exists s'. unfold TCP_TCPTask.
  erewrite (net_bind _ _ s tt s1); [|unfold net_update; by rewrite Hrun]. unfold net_gets. erewrite net_bind; [|done]. cbv beta.
  change (FrameLength (FrameOUT s1)) with (FrameLength (FrameOUT s)). rewrite Ho. change (negb (0 =? 0)) with false. cbn iota. erewrite net_bind; [|done]. cbv beta.
  assert (first_entry to_send (ConnectionStateTable s1) = Some k) as ->.
  { apply first_entry_Some. split; [by exists c1|]. intros j x Hj Hx. cbn in Hx. rewrite list_lookup_insert_ne in Hx by lia.
    destruct (Hi j x Hx) as [Hr _]; [lia|]. unfold to_send. by rewrite Hr, andb_false_r. }
  split; [exact Es|]. rewrite Ln in Et.
  set (f := data_frame c1 (SequenceNumberOut (C_Info c1)) (take n d)) in *. assert (f = data_frame c sq (take n d)) as Ef by done.
  split; [|split; [|split]].
  - rewrite <-Ef. by eapply sent_front; [by rewrite Eout|by rewrite Eout|].
  - split; cbn [PortStateTable ConnectionStateTable set_FrameOUT FrameOUT with_length FrameLength FrameData FrameIN]; try done.
    + by rewrite Ep.
    + rewrite Et, length_insert. cbn. by rewrite length_insert.
    + rewrite Et. cbn. rewrite list_insert_insert_eq. by rewrite list_lookup_insert_eq.
    + intros j x Hj Hne. rewrite Et in Hj. cbn in Hj. rewrite list_insert_insert_eq, list_lookup_insert_ne in Hj by done. by eapply Hi.
    + destruct Hb'. by split.
  - done.
  - rewrite Eout. cbn [FrameLength]. unfold f, data_frame, frame. rewrite length_app. change (length AdapterMACAddress) with 6%nat. lia.
Qed.

(** [n] runs of the task, each frame taken away before the next: the frames. *)
Fixpoint task_frames (n : nat) (s : net) : option (list (list Z) * net) :=
  match n with
  | O => Some ([], s)
  | S n =>
      v ← TCP_TCPTask s;
      let s' := v.2 in
      f ← sent_frame s';
      r ← task_frames n (set_FrameOUT (with_length 0 (FrameOUT s')) s');
      Some ((if FrameLength (FrameOUT s') =? 0 then [] else [f]) ++ r.1, r.2)
  end.
(** The chunks of a stream in consecutive frames. *)
Fixpoint stream_frames (c : TCP_ConnectionState_t) (sq : Z) (chunks : list (list Z)) : list (list Z) :=
  match chunks with [] => [] | x :: chunks => data_frame c sq x :: stream_frames c (u32 (sq + Z.of_nat (length x))) chunks end.

Lemma idle_task s n : (∀ j d, ConnectionStateTable s !! j = Some d → idle d) → FrameLength (FrameOUT s) = 0 →
  PortStateTable s = [TCP_PortState TCP_PORT_HTTP TCP_Port_Open (Some Webserver_ApplicationCallback)] →
  length (ConnectionStateTable s) = MAX_TCP_CONNECTIONS → task_frames n s = Some ([], s).
Proof.
  intros Hi Ho Hp Hl. assert (TCP_TCPTask s = Some (tt, s)) as Ht.
  { assert (∀ j, (j < 3)%nat → run_handler j 0 s = Some s) as Hh.
    { intros j Hj. destruct (lookup_lt_is_Some_2 (ConnectionStateTable s) j) as [d Hd]; [rewrite Hl; unfold MAX_TCP_CONNECTIONS; lia|].
      unfold run_handler. rewrite Hp. cbn [lookup list_lookup mbind option_bind]. rewrite Hd. cbn [mbind option_bind P_Port P_State ApplicationHandler].
      destruct (_ && _); [|done]. rewrite callback_idle by by eapply Hi. cbn [mbind option_bind fst snd]. rewrite list_insert_id by done. by destruct s. }
    assert (run_handlers s = Some s) as Hr.
    { unfold run_handlers, for_up. change (Z.to_nat (Z.of_nat MAX_TCP_CONNECTIONS - 0)) with 3%nat. change (Z.to_nat (Z.of_nat MAX_OPEN_TCP_PORTS - 0)) with 1%nat.
      cbn [for_]. change (Z.to_nat 0) with 0%nat. change (Z.to_nat (0 + 1)) with 1%nat. change (Z.to_nat (0 + 1 + 1)) with 2%nat.
      do 3 (rewrite Hh by lia; cbn [mbind option_bind]). done. }
    unfold TCP_TCPTask. erewrite (net_bind _ _ s tt s); [|unfold net_update; by rewrite Hr]. unfold net_gets. erewrite net_bind; [|done]. cbv beta. rewrite Ho.
    change (negb (0 =? 0)) with false. cbn iota. erewrite net_bind; [|done]. cbv beta.
    assert (first_entry to_send (ConnectionStateTable s) = None) as ->; [|done]. apply first_entry_None, Forall_lookup_2. intros j d Hd.
    destruct (Hi j d Hd) as [Hr' _]. unfold to_send. by rewrite Hr', andb_false_r. }
  induction n as [|n IH]; [done|]. cbn [task_frames]. rewrite Ht. cbn [mbind option_bind snd].
  rewrite (sent_front [] (out_data s) 0 s) by done. cbn [mbind option_bind].
  replace (set_FrameOUT (with_length 0 (FrameOUT s)) s) with s by (destruct s as [? [] ? ? ?]; cbn in *; by subst).
  rewrite IH. cbn [mbind option_bind fst snd]. by rewrite Ho.
Qed.

Lemma page_rest c k r : ∀ j d n st sq s, (j + S r = 4)%nat → web_state k (serving c d n false true st sq) s → window_buffer d → PageBlock s = Z.of_nat j →
  ∃ s', (∀ m, task_frames (S r + m) s = Some (stream_frames c sq (map page_block (seq j (S r))), s')) ∧
    ∃ d' n' sq', ConnectionStateTable s' !! k = Some (serving c d' n' false false TCP_Connection_Closing sq').
Proof.
  induction r as [|r IH]; intros j d n st sq s Hj Hw Hd Hpb.
  - assert (j = 3)%nat as -> by lia. destruct (callback_block c d n st sq 3 Hd) as (d' & Ecb & Hd' & Et); [unfold last_block; lia|].
    destruct (task_step k _ d' (length (page_block 3)) false TCP_Connection_Closing sq 4 s Hw) as (s1 & Es & Ef & Hw1 & Hpb1 & Hne); [by rewrite Hpb|done| |].
    { unfold page_block. rewrite length_take. lia. }
    eexists. split.
    + intros m. cbn [Nat.add task_frames]. rewrite Es. cbn [mbind option_bind snd]. rewrite Ef. cbn [mbind option_bind]. rewrite idle_task; [| |apply Hw1|apply Hw1|apply Hw1].
      * cbn [mbind option_bind fst snd]. rewrite (proj2 (Z.eqb_neq _ _)) by done. rewrite Et. done.
      * intros i x Hx. destruct (decide (i = k)) as [->|Hne']; [|by eapply Hw1]. rewrite (ws_conn _ _ _ Hw1) in Hx. injection Hx as <-. done.
    + do 3 eexists. apply Hw1.
  - destruct (callback_block c d n st sq j Hd) as (d' & Ecb & Hd' & Et); [unfold last_block; lia|].
    assert ((j =? last_block)%nat = false) as Ej by (apply Nat.eqb_neq; unfold last_block; lia). rewrite Ej in Ecb. cbn [negb] in Ecb.
    destruct (task_step k _ d' (length (page_block j)) true st sq (Z.of_nat (S j)) s Hw) as (s1 & Es & Ef & Hw1 & Hpb1 & Hne); [by rewrite Hpb|done| |].
    { unfold page_block. rewrite length_take. lia. }
    destruct (IH (S j) d' (Z.of_nat (length (page_block j))) st (u32 (sq + Z.of_nat (length (page_block j)))) (set_FrameOUT (with_length 0 (FrameOUT s1)) s1))
      as (s' & Hs' & Hfin); [lia|done|done|done|].
    exists s'. split; [|done]. intros m. change (S (S r) + m)%nat with (S (S r + m)). cbn [task_frames]. rewrite Es. cbn [mbind option_bind snd]. rewrite Ef. cbn [mbind option_bind]. rewrite Hs'.
    cbn [mbind option_bind fst snd]. rewrite (proj2 (Z.eqb_neq _ _)) by done. rewrite Et. done.
Qed.

(** The header and the page go out, in five frames and no more. *)
Lemma page_served k c s : web_state k c s → requested GET_root c →
  ∃ s', (∀ m, task_frames (5 + m) s = Some (stream_frames c (SequenceNumberOut (C_Info c)) (HTTP200Header :: map page_block (seq 0 4)), s')) ∧
    ∃ d n sq, ConnectionStateTable s' !! k = Some (serving c d n false false TCP_Connection_Closing sq).
Proof.
  intros Hw Hrq. destruct (callback_GET c (PageBlock s) Hrq) as (d & Ecb & Hd & Et).
  destruct (task_step k c d (length HTTP200Header) true (C_State c) (SequenceNumberOut (C_Info c)) 0 s Hw Ecb Hd) as (s1 & Es & Ef & Hw1 & Hpb1 & Hne);
    [by apply Nat.leb_le; vm_compute|].
  destruct (page_rest c k 3 0 d (Z.of_nat (length HTTP200Header)) (C_State c) (u32 (SequenceNumberOut (C_Info c) + Z.of_nat (length HTTP200Header)))
    (set_FrameOUT (with_length 0 (FrameOUT s1)) s1)) as (s' & Hs' & Hfin); [done|done|done|done|].
  exists s'. split; [|done]. intros m. change (5 + m)%nat with (S (4 + m)). cbn [task_frames]. rewrite Es. cbn [mbind option_bind snd]. rewrite Ef. cbn [mbind option_bind]. rewrite (Hs' m).
  cbn [mbind option_bind fst snd]. rewrite (proj2 (Z.eqb_neq _ _)) by done. rewrite Et. done.
Qed.

(** The connection [c] is open and its buffer is free. *)
Record receptive (c : TCP_ConnectionState_t) : Prop := {
  rc_state : C_State c = TCP_Connection_Established;
  rc_free : B_InUse (Buffer (C_Info c)) = false;
  rc_empty : B_Ready (Buffer (C_Info c)) = false;
  rc_buffer : window_buffer (B_Data (Buffer (C_Info c))) }.
(** The connection once [data] have been taken from it. *)
Definition fed (d data : list Z) (c : TCP_ConnectionState_t) : TCP_ConnectionState_t :=
  TCP_ConnectionState (C_Port c) (C_RemotePort c) (C_RemoteAddress c)
    (TCP_ConnectionInfo (u32 (SequenceNumberIn (C_Info c) + Z.of_nat (length data))) (SequenceNumberOut (C_Info c))
       (TCP_ConnectionBuffer (Z.of_nat (length data)) d TCP_PACKETDIR_IN true false)) (C_State c).

Lemma react_push c seq data : receptive c → bytes data → (length data ≤ 512)%nat →
  ∃ d, react (TCP_FLAG_ACK .| TCP_FLAG_PSH) seq data c = Some (fed d data c, Answer TCP_FLAG_ACK) ∧ requested data (fed d data c).
Proof.
  intros [Hst Hf He Hw] Bd Hl. destruct (window_over _ data Hw Bd Hl) as (d & Ed & Hd & Et). exists d.
  assert (requested data (fed d data c)) as Hrq.
  { split; [done|done| |done]. exists (drop (length data) d). cbn [fed C_Info Buffer B_Data]. rewrite <-Et at 1. by rewrite take_drop. }
  split; [|done]. destruct c as [p rp ra [si so [len dt dir rd iu]] st]. cbn in Hst, Hf, He, Ed. subst st iu rd.
  change (react _ _ _ ?c) with (take_data (TCP_FLAG_ACK .| TCP_FLAG_PSH) data c). unfold take_data, append_data. cbv zeta.
  cbn -[wr_bytes u16 u32 Z.of_nat]. rewrite Ed. cbn -[u16 u32 Z.of_nat]. rewrite u16_small by (unfold word16; lia). by rewrite orb_true_r.
Qed.

Lemma fed_web k c d data s s' : web_state k c s → ConnectionStateTable s' = <[k := fed d data c]> (ConnectionStateTable s) →
  PortStateTable s' = PortStateTable s → buffers_ok s' → FrameLength (FrameOUT s') = 0 → web_state k (fed d data c) s'.
Proof.
  intros [Hp Hl Hk Hh Ha Hi _ _] Et Ep Hb Ho. split; try done.
  - by rewrite Ep.
  - by rewrite Et, length_insert.
  - rewrite Et. rewrite list_lookup_insert_eq; [done|by eapply lookup_lt_Some].
  - intros j x Hj Hne. rewrite Et, list_lookup_insert_ne in Hj by done. by eapply Hi.
Qed.
(** The response has been sent. *)
Definition flushed (n : net) : net := set_FrameOUT (with_length 0 (FrameOUT n)) n.

(** A segment that pushes a request for the page: it is acknowledged, and the
    page follows. *)
Lemma page_requested s dmac smac h src dst opts sp dp seq ack off more topts rest k c :
  let data := GET_root ++ rest in
  let flags := TCP_FLAG_ACK .| TCP_FLAG_PSH in
  arrived (frame dmac smac ETHERTYPE_IPV4 ((h ++ src ++ dst) ++ opts ++ peer_segment sp dp seq ack off flags more topts data)) s →
  accepted (FrameLength (FrameIN s)) = true → for_us dmac → MAC smac → ip_start h PROTOCOL_TCP opts → IP src → IP dst → ip_for_us dst →
  Port sp → Port dp → length ack = 4%nat → length more = 6%nat → lengths_ok h opts off topts data → (length data ≤ 512)%nat →
  at_conn (segment_of opts src sp dp flags) k c s → web_state k c s → receptive c →
  ∃ s1 s2 c1, Ethernet_ProcessPacket s = Some (tt, s1) ∧ sent_frame s1 = Some (tcp_answer smac src dst opts sp dp flags c1 TCP_FLAG_ACK) ∧
    SequenceNumberIn (C_Info c1) = u32 (SequenceNumberIn (C_Info c) + Z.of_nat (length data)) ∧
    SequenceNumberOut (C_Info c1) = SequenceNumberOut (C_Info c) ∧ key_of c1 = key_of c ∧
    (∀ m, task_frames (5 + m) (flushed s1) = Some (stream_frames c1 (SequenceNumberOut (C_Info c)) (HTTP200Header :: map page_block (List.seq 0 4)), s2)) ∧
    C_State <$> ConnectionStateTable s2 !! k = Some TCP_Connection_Closing.
Proof.
  intros data flags Hre Hacc Hus Hsm Hh Hs Hd Hdus Hsp Hdp Hack Hmore Hlen Hmax Hat Hw Hrc.
  pose proof (ws_bufs _ _ _ Hw) as Hok.
  assert (bytes data) as Bd.
  { destruct Hre as [(tail & Ei) _]. pose proof (bo_in_bytes _ Hok) as Bi. rewrite Ei in Bi. apply Forall_app in Bi as [Bf _].
    unfold frame in Bf. apply Forall_app in Bf as [_ [_ [_ [_ [_ Bs]%Forall_app]%Forall_app]%Forall_app]%Forall_app]. by apply Forall_app in Bs as [_ [_ Bs]%Forall_app]. }
  destruct (react_push c seq data Hrc Bd Hmax) as (d & Er & Hrq).
  pose proof (tcp_frame s dmac smac h src dst opts sp dp seq ack off flags more topts data Hre Hok Hacc Hus Hsm Hh Hs Hd Hdus Hsp Hdp Hack Hmore Hlen
    k c (or_introl Hat)) as Hfr. fold flags in Er. rewrite Er in Hfr. destruct Hfr as (s1 & Es & Et & Ep & _ & Hb1 & _ & Hf).
  { destruct Hat as [H1 H2]. apply first_entry_Some in H1 as [(c' & Hc' & Hk') _]. rewrite H2 in Hc'. injection Hc' as <-. apply is_connection_key in Hk'.
    unfold key_of in Hk'. injection Hk' as Hk' _ _. cbn [s_Port segment_of]. unfold port_open, TCP_GetPortState. rewrite <-Hk', (ws_port _ _ _ Hw), (ws_http _ _ _ Hw). done. }
  assert (requested GET_root (fed d data c)) as Hrq'.
  { destruct Hrq as [? ? (r & E) ?]. split; try done. exists (rest ++ r). rewrite E. unfold data. by rewrite <-(assoc_L (++)). }
  assert (web_state k (fed d data c) (flushed s1)) as Hw1.
  { eapply (fed_web k c d data s); [done|exact Et|exact Ep| |done]. by destruct Hb1. }
  destruct (page_served k _ _ Hw1 Hrq') as (s2 & Hp2 & d2 & n2 & sq2 & Hc2).
  exists s1, s2, (fed d data c). split_and!; try done. by rewrite Hc2.
Qed.

(** ** Frames over USB *)
(** The stack once the frame [f] has been read into its buffer. *)
Definition delivered (f : list Z) (n : net) : net :=
  set_FrameIN (Ethernet_Frame_Info (f ++ drop (length f) (in_data n)) (Z.of_nat (length f))) n.
Lemma delivered_received f n : arrived f (delivered f n).
Proof. split; [|done]. by eexists. Qed.
Lemma delivered_buffers f n : buffers_ok n → bytes f → Z.of_nat (length f) ≤ ETHERNET_FRAME_SIZE_MAX → buffers_ok (delivered f n).
Proof.
  unfold ETHERNET_FRAME_SIZE_MAX. intros [Li Bi Lo Bo] Bf Hf. split; [| |done|done].
  - unfold ETHERNET_FRAME_SIZE_MAX in *. cbn. rewrite length_app, length_drop. lia.
  - cbn. apply Forall_app. split; [done|by apply Forall_drop].
Qed.
Section Serve.
Context (i : USB_ClassInfo_RNDIS_Device_t) (bi bo : buffer).
Abbreviation ai := (T_Address (R_DataINEndpoint (R_Config i))).
Abbreviation ao := (T_Address (R_DataOUTEndpoint (R_Config i))).
Context (Hai : in_address ai) (Hao : out_address ao) (Hb : bi ≠ bo).

(** What the packets [ps] carry is the response [g] behind its header. *)
Definition carry (g : list Z) (ps : list (list Z)) : Prop :=
  ∃ init last, ps = init ++ [last] ∧ Forall full init ∧ (0 < length last ≤ 64)%nat ∧
    concat ps = packet_header (Z.of_nat (length g)) ++ g.

Lemma serve_wp hdr f tail junk n n' g s Q B : adapter_up i s → pipe ai ao bi bo 0 s → supplied ai ao bi bo 1 0 (hdr ++ f ++ tail) s →
  header_for (Z.of_nat (length f)) hdr → Z.of_nat (length f) ≤ ETHERNET_FRAME_SIZE_MAX → length junk = 44%nat → buffers_ok n →
  (length f + 2 * length g + 139 ≤ length (script s))%nat →
  Ethernet_ProcessPacket (delivered f n) = Some (tt, n') → sent_frame n' = Some g → buffers_ok n' →
  (∀ s', (g = [] → trace s' = trace s) → (g ≠ [] → ∃ ps, carry g ps ∧ trace s' = trace s ++ map (OPacket (ai .& 15)) ps) →
     pipe ai ao bi bo 0 s' → Q (flushed n') s') →
  wp (serve_packet i junk n) Q B s.
Proof using Hai Hao Hb.
  intros Hup Hp Hsup [Hh Hn] Hf Hj [Li _ _ _] Hev Hpr Hg Hb' HQ. destruct (sent_bytes _ _ Hb' Hg) as (Bg & Hgl & Hlg). unfold ETHERNET_FRAME_SIZE_MAX in *. unfold serve_packet.
  apply wp_bind, (ReadPacket_wp i bi bo Hai Hao Hb hdr f tail); try done; [lia|lia|].
  intros m s1 Hl1 Hm Hp1 _ _. cbn [fst snd]. eapply wp_bind, wp_lift; [exact Hpr|]. cbv zeta. cbn [snd].
  pose proof (la_script _ _ _ _ _ Hl1) as Hsc.
  apply rd_bytes_inv in Hg as (_ & Hg0 & Hgm & Eg). change (Z.to_nat 0) with 0%nat in Eg. rewrite drop_0 in Eg.
  rewrite Hlg in *. rewrite Nat2Z.id in Eg.
  destruct (decide (g = [])) as [->|Hne].
  - apply wp_ret. change (Z.of_nat (length (@nil Z))) with 0 in Hlg.
    assert (flushed n' = n') as Efl by (unfold flushed, with_length; destruct n' as [? [] ? ? ?]; cbn in *; by subst).
    rewrite <-Efl. apply HQ; [|done|done]. intros _. by rewrite (la_trace _ _ _ _ _ Hl1).
  - assert (length g ≠ 0)%nat by by destruct g. rewrite (proj2 (Z.eqb_neq _ _)) by lia. cbn [negb].
    apply wp_bind, (SendPacket_wp i bi bo Hai Hao); try done; [|lia|lia|].
    { destruct Hup as [H1 H2]. split; [|done]. by rewrite (la_state _ _ _ _ _ Hl1). }
    intros ps last m2 s2 Hfu Hla Hc Hse _ Hp2. apply wp_ret, HQ; [done| |done]. intros _. exists (ps ++ [last]). split.
    + exists ps, last. split_and!; try done; try lia. rewrite concat_app. cbn. by rewrite app_nil_r.
    + by rewrite (se_trace _ _ _ _ _ _ Hse), (la_trace _ _ _ _ _ Hl1).
Qed.
End Serve.
