(* ===== verification/NetProps.v ===== *)
(** * The network stack: properties

    What the RNDIS application's TCP/IP stack and web server do with the frames
    they receive, from the lemmas of [NetSpec], [TcpSpec] and [StackSpec]. *)
From stdpp Require Import strings.
From S2P Require Import Prelude RingBuffer Machine Endpoint Controller EndpointPoll EndpointStream Packed Logic EndpointSpec EndpointData Rndis BulkSpec RndisData Net Tcp Webserver NetSpec TcpSpec StackSpec.

(** C31: The two checksum routines compute the Internet checksum of RFC 1071.
    [Ethernet_Checksum16] of an even number of bytes, anywhere in memory, is the
    complement of their one's complement sum, in network order once it is
    stored: the 32-bit sum does not overflow and two rounds fold every carry.
    Stored in the zeroed field of a message it makes the message add up to
    0xFFFF, which is what a receiver checks. The last byte of an odd message is
    left out, where RFC 1071 pads it with a zero. [TCP_Checksum16] of a segment
    of any length is the checksum of the segment behind its pseudo header, the
    odd byte padded; the segment does not end with the memory, since the code
    reads the byte behind an odd one. *)
Theorem checksum_is_rfc1071 pre l post p : bytes l → Z.of_nat (length l) < 65536 → length pre = Z.to_nat p → 0 ≤ p →
  let sum := Ethernet_Checksum16 (pre ++ l ++ post) p (Z.of_nat (length l)) in
  (Nat.Even (length l) → ∃ c, sum = Some c ∧ le_store 2 c = be 2 (rfc1071 l) ∧
     ∀ a b, l = a ++ [0; 0] ++ b → Nat.Even (length a) → ones_sum (a ++ le_store 2 c ++ b) = 0xFFFF) ∧
  (∀ l' b, l = l' ++ [b] → Nat.Even (length l') → ∃ c, sum = Some c ∧ le_store 2 c = be 2 (rfc1071 l')) ∧
  (∀ src dst, IP src → IP dst → post ≠ [] → bytes post →
     ∃ c, TCP_Checksum16 (pre ++ l ++ post) p src dst (Z.of_nat (length l)) = Some c ∧
       le_store 2 c = be 2 (rfc1071 (pseudo src dst (Z.of_nat (length l)) ++ l))).
Proof.
  intros Hb Hl Hp Hp0. split_and!.
  - intros He. destruct (Ethernet_Checksum16_eq pre l post p) as (c & Ec & Es); try done. exists c. split_and!; try done.
    intros a b -> Ha. rewrite Es. unfold bytes in Hb. apply Forall_app in Hb as [Ba [_ Bb]%Forall_app]. by apply rfc1071_verifies.
  - intros l' b -> He. rewrite <-(assoc_L (++)), length_app in *. cbn [length] in *. rewrite Nat.add_1_r, Ethernet_Checksum16_odd by done.
    apply Forall_app in Hb as [Hb _]. apply Ethernet_Checksum16_eq; try done. lia.
  - intros src dst Hs Hd Hne Bp. by apply TCP_Checksum16_eq.
Qed.

(** C36: Hosts find the server. An ARP request for its address in a frame to it
    or to everyone is answered to the sender with the server's hardware
    address; other ARP packets change nothing that is to be sent. An ICMP echo
    request, behind IP options of any length, is answered by the echo reply
    with the same identifier, sequence number and data, and the headers of the
    answer carry valid checksums - the ICMP checksum of an odd number of data
    bytes leaves the last one out. A frame that is for someone else, or whose
    length does not pass the test on its swapped bytes, is dropped unanswered.
    Connections and ports are not touched, and the buffers keep their size. *)
Theorem arp_and_ping_answered s dmac smac : buffers_ok s → MAC dmac → MAC smac →
  (∀ hw hlen plen op sha spa tha tpa, for_us dmac →
   arrived (frame dmac smac ETHERTYPE_ARP (arp_packet hw hlen plen op sha spa tha tpa)) s →
   length hw = 2%nat → word16 op → MAC sha → IP spa → MAC tha → IP tpa →
   ∃ s', Ethernet_ProcessPacket s = Some (tt, s') ∧ FrameLength (FrameIN s') = 0 ∧
     PortStateTable s' = PortStateTable s ∧ ConnectionStateTable s' = ConnectionStateTable s ∧ buffers_ok s' ∧
     if decide (op = ARP_OPERATION_REQUEST ∧ asks_server tha tpa)
     then sent_frame s' = Some (frame smac ServerMACAddress ETHERTYPE_ARP
            (arp_packet hw hlen plen ARP_OPERATION_REPLY ServerMACAddress ServerIPAddress sha spa))
     else FrameOUT s' = FrameOUT s) ∧
  (∀ h src dst opts code c0 c1 idseq payload, for_us dmac → accepted (FrameLength (FrameIN s)) = true →
   arrived (frame dmac smac ETHERTYPE_IPV4 ((h ++ src ++ dst) ++ opts ++ echo_request code c0 c1 idseq payload)) s →
   ip_start h PROTOCOL_ICMP opts → IP src → IP dst → ip_for_us dst → length idseq = 4%nat →
   ∃ s' csum, Ethernet_ProcessPacket s = Some (tt, s') ∧
     sent_frame s' = Some (frame smac ServerMACAddress ETHERTYPE_IPV4
       (ip_packet PROTOCOL_ICMP dst src ([0; 0] ++ be 2 csum ++ idseq ++ payload))) ∧
     csum = rfc1071 ([0; 0] ++ [0; 0] ++ idseq ++ even_part payload) ∧
     FrameLength (FrameIN s') = 0 ∧ PortStateTable s' = PortStateTable s ∧ ConnectionStateTable s' = ConnectionStateTable s ∧ buffers_ok s') ∧
  (∀ et rest, in_data s = dmac ++ smac ++ be 2 et ++ rest →
   ¬ (for_us dmac ∧ accepted (FrameLength (FrameIN s)) = true) → Ethernet_ProcessPacket s = Some (tt, emptied s)) ∧
  (∀ n, word16 n → accepted n = true ↔ 6 < n mod 256 ∨ n mod 256 = 6 ∧ 256 ≤ n).
Proof.
  intros Hok Hd Hs. split_and!.
  - intros. by eapply arp_frame.
  - intros h src dst opts code c0 c1 idseq payload Hus Hacc Hre Hh Hsr Hds Hdus Hid.
    destruct (ping_frame s dmac smac h src dst opts code c0 c1 idseq payload) as (s' & E1 & E2 & E3 & E4 & E5 & _ & E6); try done.
    by exists s', (rfc1071 ([0; 0] ++ [0; 0] ++ idseq ++ even_part payload)).
  - intros et rest E Hno. by eapply ethernet_ignores.
  - apply accepted_iff.
Qed.

(** C37: A client is given its address. A DHCP message to port 67, behind IP
    options of any length, whose options - each with its length byte, ended by
    the end option - hold a DISCOVER or a REQUEST is answered by a datagram of
    270 bytes from the server's address to the client's: the header of a reply
    with the client's transaction, flags and hardware address and the address it
    is leased, then message type (OFFER for a DISCOVER, ACK for a REQUEST),
    subnet mask, a lease of a day and the server. The message comes in a frame
    to the server or to everyone whose length passes the test the code makes on
    its swapped bytes (C36 says which do). The search for the message type
    comes to an end on every contents of the buffer, within a pass for each
    byte: at the first end option, DISCOVER or REQUEST that it meets, or, where
    it meets none, by reading behind the buffer - which the code does not
    check. *)
Theorem dhcp_leases s dmac smac h src dst opts sport len csum r os t : buffers_ok s →
  arrived (frame dmac smac ETHERTYPE_IPV4 ((h ++ src ++ dst) ++ opts ++ udp_datagram sport UDP_PORT_DHCP_REQUEST len csum (dhcp_message r os))) s →
  accepted (FrameLength (FrameIN s)) = true → for_us dmac → MAC smac → ip_start h PROTOCOL_UDP opts → IP src → IP dst → ip_for_us dst →
  Forall well_formed os → message_type os = Some t →
  (∃ s', Ethernet_ProcessPacket s = Some (tt, s') ∧
    sent_frame s' = Some (frame smac ServerMACAddress ETHERTYPE_IPV4
      (ip_packet PROTOCOL_UDP ServerIPAddress ClientIPAddress (udp_datagram UDP_PORT_DHCP_REQUEST sport 270 0 (dhcp_header_out r ++ dhcp_lease t)))) ∧
    FrameLength (FrameIN s') = 0 ∧ ConnectionStateTable s' = ConnectionStateTable s ∧ buffers_ok s') ∧
  (∀ d p, bytes d → 0 ≤ p →
   match dhcp_options (S (length d)) d p with
   | Found r => ∃ p', passes d p p' ∧ dhcp_pass d p' = Some (inr r)
   | Overrun => ∃ p', passes d p p' ∧ dhcp_pass d p' = None
   | Unfinished => False
   end).
Proof.
  intros Hok Hre Hacc Hus Hsm Hh Hs Hd Hdus Hw Ht. split; [|intros d p Hb Hp; apply dhcp_search; [done|done|lia|lia]].
  destruct (dhcp_frame s dmac smac h src dst opts sport len csum r os t) as (s' & E1 & E2 & E3 & _ & E4 & _ & E5); try done.
  by exists s'.
Qed.

(** C28: The table of three connections is a map from (port, address, remote
    port) to states that holds at most three open connections. After
    initialisation it is empty. [TCP_GetConnectionState] looks the key up, an
    absent one is closed; [TCP_SetConnectionState] stores the state - deletes
    the key when the state is closed - if the key is present or a place is left,
    and otherwise fails and changes nothing. Every operation keeps the keys of
    the used entries distinct. The port of a key is not 0, which marks an
    unused entry. *)
Theorem connection_table_is_map :
  (∀ v s, stack_init zero_net = Some (v, s) → table_ok (ConnectionStateTable s) ∧ active (ConnectionStateTable s) = ∅) ∧
  (∀ s p a r, table_ok (ConnectionStateTable s) → p ≠ 0 →
   TCP_GetConnectionState p a r s = Some (default TCP_Connection_Closed (active (ConnectionStateTable s) !! (p, a, r)), s)) ∧
  (∀ s p a r st, table_ok (ConnectionStateTable s) → p ≠ 0 →
   if decide (room (active (ConnectionStateTable s)) (p, a, r)) then
     ∃ t', TCP_SetConnectionState p a r st s = Some (true, set_ConnectionStateTable t' s) ∧ table_ok t' ∧
       active t' = put_state (active (ConnectionStateTable s)) (p, a, r) st
   else TCP_SetConnectionState p a r st s = Some (false, s)) ∧
  (∀ t, table_ok t → (size (active t) ≤ MAX_TCP_CONNECTIONS)%nat).
Proof.
  split_and!.
  - intros v s [= <- <-]. split; [|done]. split; [done| |].
    + intros i j c d Hi _ _ Hp. exfalso. destruct i as [|[|[|i]]]; [injection Hi as <-; by apply Hp..|done].
    + intros i c Hi Ha. exfalso. apply Ha. destruct i as [|[|[|i]]]; [by injection Hi as <-..|done].
  - intros. by apply get_state_active.
  - intros. by apply set_state_active.
  - intros t Ht. rewrite active_size, <-(tk_len t Ht) by done. apply length_filter.
Qed.

(** C18: A TCP segment moves its connection as the state machine [react] does,
    and is answered as it says. The segment is any segment, with IP and TCP
    options and data, to an open port in a frame to the server whose length
    passes the test the code makes on its swapped bytes (C36 says which do);
    its connection is the entry with its key or, for a SYN, a closed entry that
    it takes over. Where the machine answers, the frame that is sent is the
    reply segment with the machine's flags, the connection's sequence and
    acknowledgement numbers, the window left in its buffer and valid checksums;
    where it is quiet nothing is sent; where it defers the frame is kept. The
    other connections, the ports and the state of the web server stay as they
    are. The machine is undefined exactly where an established connection takes
    data, with ACK or ACK and PSH, that do not fit in what is left of its
    buffer: there the code copies them behind the buffer without a check. No
    other segment of this kind faults. *)
Theorem tcp_follows_machine s dmac smac h src dst opts sp dp seq ack off flags more topts data k c :
  arrived (frame dmac smac ETHERTYPE_IPV4 ((h ++ src ++ dst) ++ opts ++ peer_segment sp dp seq ack off flags more topts data)) s →
  buffers_ok s → accepted (FrameLength (FrameIN s)) = true → for_us dmac → MAC smac → ip_start h PROTOCOL_TCP opts → IP src → IP dst → ip_for_us dst →
  Port sp → Port dp → length ack = 4%nat → length more = 6%nat → lengths_ok h opts off topts data →
  let g := segment_of opts src sp dp flags in
  target g k c s → port_open (s_Port g) s →
  match react flags seq data c with
  | Some r => ∃ s', Ethernet_ProcessPacket s = Some (tt, s') ∧ ConnectionStateTable s' = <[k := r.1]> (ConnectionStateTable s) ∧
      PortStateTable s' = PortStateTable s ∧ PageBlock s' = PageBlock s ∧ buffers_ok s' ∧ key_of r.1 = key_of c ∧
      match r.2 with
      | Quiet => FrameLength (FrameIN s') = 0 ∧ FrameLength (FrameOUT s') = FrameLength (FrameOUT s)
      | Answer f => FrameLength (FrameIN s') = 0 ∧
          sent_frame s' = Some (frame smac ServerMACAddress ETHERTYPE_IPV4 (ip_packet PROTOCOL_TCP dst src (reply_segment g dst r.1 f)))
      | Defer => FrameIN s' = FrameIN s ∧ FrameLength (FrameOUT s') = FrameLength (FrameOUT s)
      end
  | None => Ethernet_ProcessPacket s = None
  end ∧
  (0 ≤ B_Length (Buffer (C_Info c)) ≤ Z.of_nat (length (B_Data (Buffer (C_Info c)))) →
   react flags seq data c = None ↔ overflows flags data c).
Proof.
  intros Hre Hok Hacc Hus Hsm Hh Hs Hd Hdus Hsp Hdp Hack Hmore Hlen g Ht Ho. split; [|apply react_none].
  pose proof (tcp_frame s dmac smac h src dst opts sp dp seq ack off flags more topts data Hre Hok Hacc Hus Hsm Hh Hs Hd Hdus Hsp Hdp Hack Hmore Hlen
    k c Ht Ho) as H. destruct (react flags seq data c) as [r|] eqn:Er; [|done]. destruct H as (s' & Es & E1 & E2 & E3 & E4 & E5).
  exists s'. split_and!; try done. destruct r as [c' a]. by eapply react_key.
Qed.

(** C10: A request for the page is acknowledged and answered by the page, while
    no other connection is being served. When a segment with ACK and PSH brings
    [GET / ] and whatever follows, up to a window, on an open connection whose
    buffer is free, in a frame to the server whose length passes the test the
    code makes on its swapped bytes (C36 says which do), the frame is answered
    by an acknowledgement of all of it; the next five runs of [TCP_TCPTask], the
    frames taken away in between and no other frame arriving, send exactly five
    frames on that connection with consecutive sequence numbers, the HTTP header
    and the four blocks of the page, which together are the header and the page;
    later runs send nothing, and the connection is left closing. The other
    connections of the table are idle: nothing received waits in their buffers
    and no page is being sent on them. Two transfers at a time would share the
    static counter [PageBlock] and each lose blocks. *)
Theorem page_is_served s dmac smac h src dst opts sp dp seq ack off more topts rest k c :
  let data := GET_root ++ rest in
  let flags := TCP_FLAG_ACK .| TCP_FLAG_PSH in
  arrived (frame dmac smac ETHERTYPE_IPV4 ((h ++ src ++ dst) ++ opts ++ peer_segment sp dp seq ack off flags more topts data)) s →
  accepted (FrameLength (FrameIN s)) = true → for_us dmac → MAC smac → ip_start h PROTOCOL_TCP opts → IP src → IP dst → ip_for_us dst →
  Port sp → Port dp → length ack = 4%nat → length more = 6%nat → lengths_ok h opts off topts data → (length data ≤ 512)%nat →
  at_conn (segment_of opts src sp dp flags) k c s → web_state k c s → receptive c →
  ∃ s1 s2 c1 blocks, Ethernet_ProcessPacket s = Some (tt, s1) ∧
    sent_frame s1 = Some (tcp_answer smac src dst opts sp dp flags c1 TCP_FLAG_ACK) ∧
    SequenceNumberIn (C_Info c1) = u32 (SequenceNumberIn (C_Info c) + Z.of_nat (length data)) ∧
    SequenceNumberOut (C_Info c1) = SequenceNumberOut (C_Info c) ∧ key_of c1 = key_of c ∧
    concat blocks = HTTP200Header ++ HTTPPage ∧ length blocks = 5%nat ∧
    (∀ m, task_frames (5 + m) (flushed s1) = Some (stream_frames c1 (SequenceNumberOut (C_Info c)) blocks, s2)) ∧
    C_State <$> ConnectionStateTable s2 !! k = Some TCP_Connection_Closing.
Proof.
  intros data flags Hre Hacc Hus Hsm Hh Hs Hd Hdus Hsp Hdp Hack Hmore Hlen Hmax Hat Hw Hrc.
  destruct (page_requested s dmac smac h src dst opts sp dp seq ack off more topts rest k c) as (s1 & s2 & c1 & E1 & E2 & E3 & E4 & E5 & E6 & E7); try done.
  exists s1, s2, c1, (HTTP200Header :: map page_block (List.seq 0 4)). pose proof page_blocks. by split_and!.
Qed.


(** ** Instances *)

(** A host with hardware address 02:00:02:00:02:00 and its frames. *)
Definition host_mac : list Z := [2; 0; 2; 0; 2; 0].
Definition host_ip : list Z := [10; 0; 0; 1].
Definition host_header (total proto : Z) : list Z := [0x45; 0] ++ be 2 total ++ [0; 0; 0; 0; 64; proto; 0; 0].
Definition host_ping : list Z :=
  frame ServerMACAddress host_mac ETHERTYPE_IPV4
    ((host_header 32 PROTOCOL_ICMP ++ host_ip ++ ServerIPAddress) ++ [] ++ echo_request 0 0 0 [0; 1; 0; 2] [7; 8; 9; 10]).
Definition host_arp : list Z :=
  frame BroadcastMACAddress host_mac ETHERTYPE_ARP (arp_packet [0; 1] 6 4 1 host_mac host_ip [0; 0; 0; 0; 0; 0] ServerIPAddress).
(** The stack with the server's port open and a given connection. *)
Definition demo_connection (st : Z) : TCP_ConnectionState_t :=
  TCP_ConnectionState TCP_PORT_HTTP 0x1234 host_ip (TCP_ConnectionInfo 1000 1 zero_buffer) st.
Definition demo_net (st : Z) : net :=
  Net zero_frame zero_frame [TCP_PortState TCP_PORT_HTTP TCP_Port_Open (Some Webserver_ApplicationCallback)]
    [demo_connection st; set_C_State TCP_Connection_Closed zero_connection; set_C_State TCP_Connection_Closed zero_connection] 0.

Lemma demo_net_buffers st : buffers_ok (demo_net st).
Proof.
  split; cbn [in_data out_data demo_net FrameIN FrameOUT zero_frame FrameData];
    rewrite ?length_replicate; try done; by apply Forall_replicate.
Qed.
Lemma demo_buffers f st : bytes f → Z.of_nat (length f) ≤ ETHERNET_FRAME_SIZE_MAX → buffers_ok (delivered f (demo_net st)).
Proof. intros Hb Hl. by apply delivered_buffers; [apply demo_net_buffers|..]. Qed.
Lemma host_start total proto : byte proto → ip_start (host_header total proto) proto [].
Proof.
  intros Hp. split; [done| |done|by exists 0x45].
  apply Forall_app. split; [solve_bytes|]. apply Forall_app. split; [apply be_bytes|]. unfold bytes. rewrite !Forall_cons. split_and!; try done.
Qed.
Lemma host_mac_MAC : MAC host_mac.
Proof. split; [done|]. unfold host_mac. solve_bytes. Qed.
Lemma host_ip_IP : IP host_ip.
Proof. split; [done|]. unfold host_ip. solve_bytes. Qed.
Lemma server_IP : IP ServerIPAddress.
Proof. apply ip_for_us_IP. by left. Qed.
Ltac computed := apply (bool_decide_unpack _); vm_compute; exact I.

Lemma checksum_is_rfc1071_witness :
  (∃ c, Ethernet_Checksum16 [9; 1; 2; 0; 0; 3; 4; 9] 1 6 = Some c ∧ ones_sum ([1; 2] ++ le_store 2 c ++ [3; 4]) = 0xFFFF) ∧
  (∃ c, Ethernet_Checksum16 [1; 2; 3] 0 3 = Some c ∧ le_store 2 c = [0xFE; 0xFD]).
Proof.
  split.
  - destruct (checksum_is_rfc1071 [9] [1; 2; 0; 0; 3; 4] [9] 1) as (H & _ & _); [computed|reflexivity|reflexivity|discriminate|].
    destruct H as (c & E & _ & Hv); [exists 3%nat; reflexivity|]. exists c. split; [exact E|]. apply Hv; [reflexivity|exists 1%nat; reflexivity].
  - destruct (checksum_is_rfc1071 [] [1; 2; 3] [] 0) as (_ & H & _); [computed|reflexivity|reflexivity|discriminate|].
    destruct (H [1; 2] 3 eq_refl) as (c & E & Ec); [exists 1%nat; reflexivity|]. exists c. split; [exact E|]. rewrite Ec. reflexivity.
Defined.

Lemma arp_and_ping_answered_witness :
  (∃ s', Ethernet_ProcessPacket (delivered host_arp (demo_net TCP_Connection_Closed)) = Some (tt, s') ∧
     sent_frame s' = Some (frame host_mac ServerMACAddress ETHERTYPE_ARP
       (arp_packet [0; 1] 6 4 2 ServerMACAddress ServerIPAddress host_mac host_ip))) ∧
  (∃ s' csum, Ethernet_ProcessPacket (delivered host_ping (demo_net TCP_Connection_Closed)) = Some (tt, s') ∧
     sent_frame s' = Some (frame host_mac ServerMACAddress ETHERTYPE_IPV4
       (ip_packet PROTOCOL_ICMP ServerIPAddress host_ip ([0; 0] ++ be 2 csum ++ [0; 1; 0; 2] ++ [7; 8; 9; 10])))).
Proof.
  split.
  - destruct (arp_and_ping_answered (delivered host_arp (demo_net TCP_Connection_Closed)) BroadcastMACAddress host_mac) as (H & _).
    + apply demo_buffers; [computed|discriminate].
    + apply for_us_MAC. right. reflexivity.
    + apply host_mac_MAC.
    + destruct (H [0; 1] 6 4 1 host_mac host_ip [0; 0; 0; 0; 0; 0] ServerIPAddress) as (s' & E & _ & _ & _ & _ & Hs).
      * right. reflexivity.
      * apply delivered_received.
      * reflexivity.
      * split; [discriminate|reflexivity].
      * apply host_mac_MAC.
      * apply host_ip_IP.
      * split; [reflexivity|solve_bytes].
      * apply server_IP.
      * exists s'. split; [exact E|]. rewrite decide_True in Hs; [exact Hs|]. split; [reflexivity|left; reflexivity].
  - destruct (arp_and_ping_answered (delivered host_ping (demo_net TCP_Connection_Closed)) ServerMACAddress host_mac) as (_ & H & _).
    + apply demo_buffers; [computed|discriminate].
    + apply ServerMAC.
    + apply host_mac_MAC.
    + destruct (H (host_header 32 PROTOCOL_ICMP) host_ip ServerIPAddress [] 0 0 0 [0; 1; 0; 2] [7; 8; 9; 10]) as (s' & csum & E & Hs & _).
      * left. reflexivity.
      * reflexivity.
      * apply delivered_received.
      * apply host_start. split; [discriminate|reflexivity].
      * apply host_ip_IP.
      * apply server_IP.
      * left. reflexivity.
      * reflexivity.
      * exists s', csum. split; [exact E|exact Hs].
Defined.

(** A client that looks for a server. *)
Definition demo_discover : dhcp_request :=
  DHCP_request 1 1 6 0 [1; 2; 3; 4] [0; 0] [0x80; 0] (replicate 16 0) host_mac (replicate 206 0) eq_refl eq_refl eq_refl eq_refl eq_refl eq_refl.
Definition demo_options : list dhcp_option := [Pad; Opt 55 [1; 3]; Opt DHCP_OPTION_MESSAGETYPE [DHCP_MESSAGETYPE_DISCOVER]].
Definition no_address : list Z := [0; 0; 0; 0].
Definition host_discover : list Z :=
  frame BroadcastMACAddress host_mac ETHERTYPE_IPV4 ((host_header 276 PROTOCOL_UDP ++ no_address ++ BroadcastIPAddress) ++ [] ++
    udp_datagram 68 UDP_PORT_DHCP_REQUEST 256 0 (dhcp_message demo_discover demo_options)).

Lemma dhcp_leases_witness : ∃ s', Ethernet_ProcessPacket (delivered host_discover (demo_net TCP_Connection_Closed)) = Some (tt, s') ∧
  sent_frame s' = Some (frame host_mac ServerMACAddress ETHERTYPE_IPV4 (ip_packet PROTOCOL_UDP ServerIPAddress ClientIPAddress
    (udp_datagram UDP_PORT_DHCP_REQUEST 68 270 0 (dhcp_header_out demo_discover ++ dhcp_lease DHCP_MESSAGETYPE_DISCOVER)))).
Proof.
  destruct (dhcp_leases (delivered host_discover (demo_net TCP_Connection_Closed)) BroadcastMACAddress host_mac (host_header 276 PROTOCOL_UDP)
    no_address BroadcastIPAddress [] 68 256 0 demo_discover demo_options DHCP_MESSAGETYPE_DISCOVER) as ((s' & E & Hs & _) & _).
  - apply demo_buffers; [computed|discriminate].
  - apply delivered_received.
  - reflexivity.
  - right. reflexivity.
  - apply host_mac_MAC.
  - apply host_start. split; [discriminate|reflexivity].
  - split; [reflexivity|]. unfold no_address. solve_bytes.
  - apply ip_for_us_IP. right. reflexivity.
  - right. reflexivity.
  - repeat constructor; try discriminate.
  - reflexivity.
  - exists s'. split; [exact E|exact Hs].
Defined.

Lemma connection_table_is_map_witness : ∃ v s s', stack_init zero_net = Some (v, s) ∧
  TCP_SetConnectionState TCP_PORT_HTTP host_ip 0x1234 TCP_Connection_Listen s = Some (true, s') ∧
  active (ConnectionStateTable s') = {[ (TCP_PORT_HTTP, host_ip, 0x1234) := TCP_Connection_Listen ]}.
Proof.
  destruct connection_table_is_map as (H & _ & Hset & _). destruct (stack_init zero_net) as [[v s]|] eqn:E; [|discriminate E].
  destruct (H v s eq_refl) as [Ht Ea]. specialize (Hset s TCP_PORT_HTTP host_ip 0x1234 TCP_Connection_Listen Ht). rewrite Ea in Hset.
  rewrite decide_True in Hset by (right; apply Nat.ltb_lt; reflexivity).
  destruct Hset as (t' & Es & _ & Ht'); [discriminate|]. exists v, s, (set_ConnectionStateTable t' s). split; [reflexivity|]. split; [exact Es|].
  exact Ht'.
Defined.

(** A segment from the port the stack keeps as 0x1234 to port 80. *)
Definition host_segment (seq flags : Z) (data : list Z) : list Z :=
  frame ServerMACAddress host_mac ETHERTYPE_IPV4 ((host_header (40 + Z.of_nat (length data)) PROTOCOL_TCP ++ host_ip ++ ServerIPAddress) ++ [] ++
    peer_segment [0x34; 0x12] [0; 80] seq [0; 0; 0; 0] 0x50 flags [2; 0; 0; 0; 0; 0] [] data).
Lemma segment_lengths n data : n = Z.of_nat (length data) → n < 1000 → lengths_ok (host_header (40 + n) PROTOCOL_TCP) [] 0x50 [] data.
Proof.
  intros -> Hd. split; [done|]. exists (40 + Z.of_nat (length data)). split; [done|]. split; [unfold word16; lia|]. cbn. lia.
Qed.

(** The first segment of a connection, and data that do not fit. *)
Definition demo_filled : TCP_ConnectionState_t :=
  on_buffer (λ b, set_B_InUse true (set_B_Length 500 (set_B_Direction TCP_PACKETDIR_IN b))) (demo_connection TCP_Connection_Established).
Definition demo_long : net :=
  delivered (host_segment 0x1000 TCP_FLAG_ACK (replicate 300 65)) (put 0 demo_filled (demo_net TCP_Connection_Established)).

Lemma tcp_follows_machine_witness :
  (∃ s', Ethernet_ProcessPacket (delivered (host_segment 0x1000 TCP_FLAG_SYN []) (demo_net TCP_Connection_Closed)) = Some (tt, s') ∧
     C_State <$> ConnectionStateTable s' !! 0%nat = Some TCP_Connection_SYNReceived ∧ is_Some (sent_frame s')) ∧
  Ethernet_ProcessPacket demo_long = None.
Proof.
  split.
  - destruct (tcp_follows_machine (delivered (host_segment 0x1000 TCP_FLAG_SYN []) (demo_net TCP_Connection_Closed)) ServerMACAddress host_mac
      (host_header 40 PROTOCOL_TCP) host_ip ServerIPAddress [] [0x34; 0x12] [0; 80] 0x1000 [0; 0; 0; 0] 0x50 TCP_FLAG_SYN [2; 0; 0; 0; 0; 0] [] []
      0%nat (demo_connection TCP_Connection_Closed)) as ((s' & E & Et & _ & _ & _ & _ & _ & Hs) & _).
    + apply delivered_received.
    + apply demo_buffers; [computed|discriminate].
    + reflexivity.
    + left. reflexivity.
    + apply host_mac_MAC.
    + apply host_start. split; [discriminate|reflexivity].
    + apply host_ip_IP.
    + apply server_IP.
    + left. reflexivity.
    + split; [reflexivity|solve_bytes].
    + split; [reflexivity|solve_bytes].
    + reflexivity.
    + reflexivity.
    + apply (segment_lengths 0); reflexivity.
    + left. split; reflexivity.
    + reflexivity.
    + exists s'. split; [exact E|]. rewrite Et. split; [reflexivity|]. eexists. exact Hs.
  - apply (tcp_follows_machine demo_long ServerMACAddress host_mac
      (host_header 340 PROTOCOL_TCP) host_ip ServerIPAddress [] [0x34; 0x12] [0; 80] 0x1000 [0; 0; 0; 0] 0x50 TCP_FLAG_ACK [2; 0; 0; 0; 0; 0] [] (replicate 300 65)
      0%nat demo_filled).
    + apply delivered_received.
    + apply delivered_buffers; [destruct (demo_net_buffers TCP_Connection_Established); split; assumption|computed|discriminate].
    + reflexivity.
    + left. reflexivity.
    + apply host_mac_MAC.
    + apply host_start. split; [discriminate|reflexivity].
    + apply host_ip_IP.
    + apply server_IP.
    + left. reflexivity.
    + split; [reflexivity|solve_bytes].
    + split; [reflexivity|solve_bytes].
    + reflexivity.
    + reflexivity.
    + apply (segment_lengths 300); reflexivity.
    + left. split; reflexivity.
    + reflexivity.
Defined.

(** A request on an open connection. *)
Definition demo_request : list Z := chars "HTTP/1.1" ++ CRLF ++ CRLF.
Definition demo_get : net := delivered (host_segment 0x1001 (TCP_FLAG_ACK .| TCP_FLAG_PSH) (GET_root ++ demo_request)) (demo_net TCP_Connection_Established).
Lemma demo_get_web : web_state 0 (demo_connection TCP_Connection_Established) demo_get.
Proof.
  split; try done; [apply host_ip_IP| |apply demo_buffers; [computed|done]].
  intros j d Hj Hne. destruct j as [|[|[|j]]]; [done|injection Hj as <-; done|injection Hj as <-; done|done].
Qed.
Lemma demo_receptive : receptive (demo_connection TCP_Connection_Established).
Proof. split; [done|done|done|]. split; [done|by apply Forall_replicate]. Qed.

Lemma page_is_served_witness : ∃ s1 s2 c1 blocks, Ethernet_ProcessPacket demo_get = Some (tt, s1) ∧ is_Some (sent_frame s1) ∧
  concat blocks = HTTP200Header ++ HTTPPage ∧ task_frames 100 (flushed s1) = Some (stream_frames c1 1 blocks, s2) ∧
  C_State <$> ConnectionStateTable s2 !! 0%nat = Some TCP_Connection_Closing.
Proof.
  destruct (page_is_served demo_get ServerMACAddress host_mac (host_header 58 PROTOCOL_TCP) host_ip ServerIPAddress [] [0x34; 0x12] [0; 80] 0x1001
    [0; 0; 0; 0] 0x50 [2; 0; 0; 0; 0; 0] [] demo_request 0%nat (demo_connection TCP_Connection_Established))
    as (s1 & s2 & c1 & blocks & E1 & E2 & _ & _ & _ & E3 & _ & E4 & E5).
  - apply delivered_received.
  - reflexivity.
  - left. reflexivity.
  - apply host_mac_MAC.
  - apply host_start. split; [discriminate|reflexivity].
  - apply host_ip_IP.
  - apply server_IP.
  - left. reflexivity.
  - split; [reflexivity|solve_bytes].
  - split; [reflexivity|solve_bytes].
  - reflexivity.
  - reflexivity.
  - apply (segment_lengths 18); reflexivity.
  - apply Nat.leb_le. reflexivity.
  - split; reflexivity.
  - apply demo_get_web.
  - apply demo_receptive.
  - exists s1, s2, c1, blocks. split; [exact E1|]. split; [rewrite E2; eexists; reflexivity|]. split; [exact E3|]. split; [exact (E4 95%nat)|exact E5].
Defined.



(** ** What the code takes for granted *)

(** A SYN to a port that is not open: the RST of the response is built through
    a null pointer. *)
Definition host_segment_to (port : list Z) (flags : Z) (data : list Z) : list Z :=
  frame ServerMACAddress host_mac ETHERTYPE_IPV4 ((host_header (40 + Z.of_nat (length data)) PROTOCOL_TCP ++ host_ip ++ ServerIPAddress) ++ [] ++
    peer_segment [0x35; 0x12] port 0x1000 [0; 0; 0; 0] 0x50 flags [2; 0; 0; 0; 0; 0] [] data).
Example closed_port_faults :
  Ethernet_ProcessPacket (delivered (host_segment_to [0; 81] TCP_FLAG_SYN []) (demo_net TCP_Connection_Closed)) = None.
Proof. by vm_compute. Qed.

(** Frames one after the other. *)
Fixpoint deliver_all (fs : list (list Z)) (s : net) : option net :=
  match fs with [] => Some s | f :: fs => v ← Ethernet_ProcessPacket (delivered f s); deliver_all fs v.2 end.

(** Two segments of 300 bytes without PSH: the first one is taken, the second
    one is copied past the end of the buffer. *)
Example long_data_faults : let seg b := host_segment 0 TCP_FLAG_ACK (replicate 300 b) in
  FrameLength ∘ FrameIN <$> deliver_all [seg 65] (demo_net TCP_Connection_Established) = Some 0 ∧
  FrameLength ∘ FrameIN <$> deliver_all [seg 65; seg 66] (demo_net TCP_Connection_Established) = None.
Proof. split; by vm_compute. Qed.

(** A segment that is received twice is taken twice. *)
Example repeated_segment : let seg := host_segment 1000 TCP_FLAG_ACK [65; 66] in
  (s ← deliver_all [seg; seg] (demo_net TCP_Connection_Established); c ← ConnectionStateTable s !! 0%nat;
   Some (SequenceNumberIn (C_Info c), take 4 (B_Data (Buffer (C_Info c))))) = Some (1004, [65; 66; 65; 66]).
Proof. by vm_compute. Qed.

(** The frame that [TCP_TCPTask] has made is lost when the next packet is
    answered: a ping while the page is due replaces its first frame, whose data
    are already counted as sent. *)
Example page_frame_lost :
  (v ← Ethernet_ProcessPacket demo_get; w ← TCP_TCPTask (flushed v.2); s ← deliver_all [host_ping] w.2; c ← ConnectionStateTable s !! 0%nat;
   Some (FrameLength (FrameOUT w.2), FrameLength (FrameOUT s), SequenceNumberOut (C_Info c))) =
  Some (54 + Z.of_nat (length HTTP200Header), 46, 1 + Z.of_nat (length HTTP200Header)).
Proof. by vm_compute. Qed.

(** A transfer that goes on after another one has ended reads behind the page. *)
Example shared_block_faults d :
  Webserver_ApplicationCallback (serving (demo_connection TCP_Connection_Established) d 128 false true TCP_Connection_Established 1) 4 = None.
Proof. by vm_compute. Qed.
